(* ===== verification/_CoqProject ===== *)
-Q . S2P
Prelude.v
MapRange.v
GoString.v
GoFloat.v
Sha256.v
Md5.v
Errors.v
GoURL.v
Redirect.v
CloudTypes.v
SeedTypes.v
ClusterTypes.v
Objects.v
KubeAPI.v
Tables.v
MemAPI.v
Platform.v
ApiTypes.v
Providers.v
Presets.v
PresetCredentials.v
QuotaTypes.v
Quantities.v
NodeResources.v
Json.v
Members.v
Users.v
Projects.v
Access.v
ServiceAccounts.v
Tokens.v
Auth.v
OAuth.v
Middleware.v
Seeds.v
SeedProviders.v
GoRegexp.v
GoBase64.v
Datacenters.v
SeedAdmin.v
Routing.v
RoutesV1.v
RoutesV2.v
ApiRoutes.v
Admins.v
Handlers.v
DatacenterLists.v
DatacenterTable.v
SeedRequests.v
Metering.v
MeteringTable.v
PresetHandlers.v
PresetTable.v
PresetUsage.v
GroupBindings.v
ResourceQuotas.v
SSHKeys.v
SSHHandlers.v
ClusterProviders.v
ApiClusters.v
Clusters.v
ClusterTable.v
UserHandlers.v
Watcher.v
Websocket.v
Membership.v
ProjectHandlers.v
CloudSecrets.v
SAHandlers.v
SATokenHandlers.v
AuthFlow.v
QuotaSums.v
QuotaEndpoints.v
QuotaProperties.v
