(* ===== verification/Prelude.v ===== *)
(** * The Kubermatic dashboard API: who may do what, and what the requests do

    A verification library for the API server under src/modules/api: a Go
    program that answers HTTP requests of the dashboard, keeps its state as
    objects of a Kubernetes API server, and logs users in with an OpenID
    provider.  The library models the code that decides who a request comes
    from and what it may do, and the endpoints of the resources that belong to
    the installation itself (users, members, projects, keys, service accounts,
    presets, group bindings, quotas, seeds and their datacenters, metering) and of
    the user clusters, down to the strings, hashes and JSON they store.  It proves
    what a careful reader of the code would want to hold.
    All paths below are relative to src/modules/api/pkg, if not said otherwise.

    ** How a request is modelled

    A Go function [func f(ctx, ...) (T, error)] is a computation [M W error T]
    of the state-and-error monad of this file: a function from a world [W] to
    an outcome ([Ok], [Err] or [Panic]) and the world it leaves behind.  The
    world is never inspected: it is the argument of the classes [KubeAPI]
    (a Kubernetes client: get, list, create, update, patch, delete), [Clock],
    [Random] and so on, whose laws ([KubeAPILaws], ...) state the documented
    behaviour of the libraries behind them.  [runs m w Q] is the weakest
    precondition; the tactics [runs_step], [runs_call] and their kin walk through a
    computation call by call with the specification ([f_spec]) of each callee.
    The providers are interfaces in Go; they are classes here, with a class of
    laws each.  A handler is proved against the laws; the file of the provider
    proves that its implementation has them ([..._laws]).  MemAPI is an
    in-memory server of which all laws hold, and on which the witnesses and
    examples are computed.

    ** The files, from the bottom up

    - Go itself.  Prelude: outcomes, the monad, automation, lists.  GoString:
      strings, sets, strconv.  GoFloat: float64 and integers of a width.
      MapRange: the iteration over a map, in an order that is the class
      [MapRange]; what the theorems state holds for every order.  Sha256, Md5:
      the hashes.  Json: encoding/json at the types of the token blacklist, with
      RFC 3339 times.  GoURL: net/url.  GoBase64: encoding/base64.  GoRegexp:
      regular expressions, matched by derivatives.  Errors: error values,
      handler/v1/common/error.go.
    - The platform.  Objects: the stored resources, as records.  CloudTypes: the
      credentials of a preset and of a cloud specification.  SeedTypes: seeds and
      datacenters; values of the SDK that the code only hands on are their JSON
      text ([SDKValue]).  ClusterTypes: user clusters.  QuotaTypes: quotas and node
      templates.  KubeAPI: clients,
      impersonation (provider/kubernetes/util.go), laws.  Tables: cluster-wide
      objects of a kind as a table of names.  MemAPI: the concrete server.
      Platform: names and constants of the SDK.  ApiTypes: api/v1/types.go and
      the conversions.  Providers: the interfaces of provider/types.go.
    - Providers (provider/kubernetes, one file of the source each).  Members
      (member.go), Users (user.go), Projects (project.go, settings.go and
      handler/v1/label), ServiceAccounts (sa.go), Tokens (sa_token.go), SSHKeys
      (ssh.go), Presets and PresetCredentials (preset.go), Admins (admin.go),
      SeedProviders (seed.go, with ee/provider and provider/seed.go).
    - Admission.  Access: provider/userinfo.go and handler/v1/common/common.go.
      Auth: the token verifiers and extractors of handler/auth, and
      serviceaccount/jwt.go.  Middleware: the middlewares that verify the token
      and store the user.  Seeds: the getters that find the seed of a cluster.
    - Login.  Redirect: handler/auth/redirect.go.  OAuth: handler/auth/oidc.go
      and oauth_state.go.  AuthFlow: handler/v2/authflow/handler.go, with the
      cookie jar of a browser.
    - Routing.  Routing: the chain of middlewares of a server, the router.
      RoutesV1, RoutesV2: one definition per server, one table per Register
      function.  ApiRoutes: the router that cmd/kubermatic-api/main.go builds.
    - Endpoints.  Handlers: what they share.  UserHandlers and Membership
      (handler/v1/user), ProjectHandlers (handler/v1/project), SAHandlers and
      SATokenHandlers (handler/v1/serviceaccount), SSHHandlers (handler/v1/ssh
      and the keys of clusters in handler/common/cluster.go), PresetHandlers,
      PresetTable and PresetUsage (handler/v1/presets, handler/v2/preset,
      handler/common/preset.go), GroupBindings (ee/group-project-binding),
      Admins (handler/v1/admin/admin.go).
    - Resource quotas (ee/resource-quota, api/v2/convert.go).  Quantities: the
      conversions, over the arithmetic of quantities ([Quantities]).  NodeResources:
      the resources of the nodes of every cloud; the loop over the replicas takes a
      turn per replica.  ResourceQuotas: provider and handlers.  QuotaSums,
      QuotaEndpoints, QuotaProperties: their proofs.
    - Seeds.  Datacenters (handler/v1/dc), DatacenterLists and DatacenterTable
      (proofs).  SeedAdmin (handler/v1/admin/seed.go, backupdestination.go,
      handler/v2/seedsettings), SeedRequests (proofs).  Metering (ee/metering,
      handler/v1/admin/metering.go), MeteringTable (proofs).
    - User clusters.  ClusterProviders (provider/kubernetes/cluster.go): the
      provider and its contract.  ApiClusters: a cluster as the API shows it
      (api/v1/types.go).  Clusters: the endpoints (handler/common/cluster.go,
      handler/v2/cluster, provider/conversions.go).  ClusterTable: their proofs.
      CloudSecrets (provider/kubernetes/credentials.go): the credentials of a
      cluster move into a secret.
    - Websockets.  Watcher: watcher/kubernetes and handler/websocket/user.go.
      Websocket: handler/routes_v1_websocket.go.

    ** What the theorems show

    - Who may act.  Every path and method that reaches an endpoint needs a token
      that was verified and not invalidated ([endpoints_need_a_token],
      [TokenVerifier_admits], [invalidated_token_refused]); the roles of a user
      are exactly those granted ([MapUserToGroups_exact]); a project is shown
      only to those who may read it ([GetProject_isolates],
      [project_ListEndpoint_isolates]); rights are given and taken only by those
      who have them (the endpoints of members, administrators, terminals).
    - Refinement.  Over any sequence of requests the endpoints of members, SSH
      keys, presets and datacenters implement small tables
      ([member_endpoints_refine], [ssh_endpoints_refine],
      [preset_endpoints_refine], [datacenter_endpoints_refine]); the table is the
      abstract state, the relation is read off the store.
    - Invariants over sequences of requests: distinct names of accounts, valid
      presets, typed group bindings, counted terminals, unique emails, accounting
      that is not switched off, reports that all seeds have.
    - Exact effects: what each request about quotas, group bindings, seeds and
      metering does when it succeeds, and what a failed one may leave behind
      ([quota_requests_exact], [group_binding_requests_exact],
      [seed_requests_exact], [metering_requests_exact]); the message of a quota
      calculation is empty exactly when the nodes fit
      ([calculation_message_exact]).
    - User clusters: what a request for one cluster does and to whom it is
      granted ([cluster_requests_exact]); the list of a project shows its clusters
      and no other ([project_clusters_listed]); no credential of a cloud reaches a
      client ([clusters_show_no_credentials]); they move into a secret of the seed
      ([credentials_move_to_secret]).
    - Tokens and sessions: service-account tokens are accepted exactly when they
      are the stored ones; a login ends with the token in the cookies of that
      browser and no other, a logout without; cookies are split and joined
      without loss.
    - Routing: a request is served by the route it is meant for, and finds the
      provider of its seed in the context.
    - The rest: round trips of the encodings, equality of redirect origins,
      bounds and termination of the loops, agreement of two endpoints that count
      and list the same things.

    Where the code does something that its comments, documents or purpose
    exclude, an example computes the run: the lemmas named after what happens
    ([documented_requests_not_served], [patch_through_other_project],
    [more_terminals_than_allowed], [websocket_accepts_invalidated_token], ...).

    ** Bounds and fuel

    Recursion follows the data wherever it can.  Otherwise the fuel is a bound
    that is proved to suffice: the cookie loop of the extractor takes a turn
    per cookie and one more ([multiTokenLoop_total]); counting runes and
    chunking a token take a turn per byte; the JSON parser takes as much as the
    length of its input and one more ([parseJson_marshal]); the wait for a
    created object polls 61 times, as the intervals and the timeout of the code
    say.  Machine integers keep their width: the words of the hashes are
    reduced modulo 2^32, FNV modulo 2^64, the counts of quotas and metering are
    wrapped to theirs.  Floats are those of the Standard Library's SpecFloat; a
    conversion to an integer that overflows is the class [FloatPlatform].

    ** Not modelled

    - Case folding and trimming of strings are those of ASCII; bytes above 127
      are left alone.
    - Libraries the source calls are classes or parameters with their documented
      behaviour: the Kubernetes API server and the SDK of Kubermatic, JWT
      signatures, OpenID Connect, OAuth 2, secure cookies, IP addresses, mail
      addresses, JSON merge patches, the router of gorilla and its upgrade to a
      websocket.  Where the source gives them a function of its own, the function
      is modelled.
    - The decoding of HTTP requests into the request types is input: endpoints
      take the decoded request.
    - The text of an error of base64 has no offset; a regular expression is
      matched byte by byte.
    - The credentials and reports of metering (secrets of the seed clusters, an S3
      bucket), the client of a seed that is built from its kubeconfig.
    - [http.Redirect] cleans paths; the redirect is modelled as the URL given.
      The age of a cookie in seconds is exact, without the rounding of floats.
    - Creating and patching a user cluster, but for the provider: the code
      defaults and validates the cluster with functions of the SDK.
    - The clients of clouds and of user clusters, external clusters, machine
      deployments, monitoring, backups and constraints: they hand objects to the
      controllers of other repositories or to services of the clouds.
    - The stream of a web terminal, the start of the process, its configuration.
    - The web interface, written in TypeScript. *)
From stdpp Require Export prelude strings gmap sorting.
From stdpp Require Import pretty.
From Stdlib Require Import Ascii.

(** ** Outcomes and the state-and-error monad

    A Go function [func f(ctx, ...) (T, error)] that talks to the outside
    world is a computation over a world [W]: it returns a value, returns a
    non-nil error, or panics, and leaves a world behind in all three cases
    (what has been written stays written when a later call fails). *)

Inductive result (E A : Type) : Type :=
| Ok (a : A)
| Err (e : E)
| Panic.
Arguments Ok {E A} a.
Arguments Err {E A} e.
Arguments Panic {E A}.

#[export] Instance result_eq_dec `{EqDecision E, EqDecision A} : EqDecision (result E A).
Proof. solve_decision. Defined.

Definition result_map {E A B} (f : A -> B) (r : result E A) : result E B :=
  match r with Ok a => Ok (f a) | Err e => Err e | Panic => Panic end.

(** A pure function that fails early: [if err != nil { return err }]. *)
#[export] Instance result_bind {E} : MBind (result E) := fun A B k r =>
  match r with Ok a => k a | Err e => Err e | Panic => Panic end.

Definition is_ok {E A} (r : result E A) : bool := match r with Ok _ => true | _ => false end.
Lemma is_ok_true {E A} (r : result E A) : is_ok r = true -> exists a, r = Ok a.
Proof. destruct r; naive_solver. Qed.

Definition M (W E A : Type) : Type := W -> result E A * W.

#[export] Instance M_ret {W E} : MRet (M W E) := fun A a w => (Ok a, w).
#[export] Instance M_bind {W E} : MBind (M W E) := fun A B k m w =>
  match m w with
  | (Ok a, w1) => k a w1
  | (Err e, w1) => (Err e, w1)
  | (Panic, w1) => (Panic, w1)
  end.

Definition throw {W E A} (e : E) : M W E A := fun w => (Err e, w).
Definition panic {W E A} : M W E A := fun w => (Panic, w).
(** A pure Go function [func f(...) (T, error)] used inside a computation. *)
Definition lift {W E A} (r : result E A) : M W E A := fun w => (r, w).
(** [v, err := m()]: the caller looks at the error itself. *)
Definition attempt {W E A} (m : M W E A) : M W E (E + A) := fun w =>
  match m w with
  | (Ok a, w1) => (Ok (inr a), w1)
  | (Err e, w1) => (Ok (inl e), w1)
  | (Panic, w1) => (Panic, w1)
  end.
(** [if err != nil { return nil, f(err) }]. *)
Definition mapErr {W E A} (f : E -> E) (m : M W E A) : M W E A := fun w =>
  match m w with
  | (Err e, w1) => (Err (f e), w1)
  | other => other
  end.
(** [if c { return nil, e }]. *)
Definition throwIf {W E} (c : bool) (e : E) : M W E unit :=
  if c then throw e else mret tt.

(** [for _, x := range l { ... }] with an accumulator, an early [return err]
    being the [Err] outcome of the body. *)
Fixpoint foldM {W E A B} (f : B -> A -> M W E B) (b : B) (l : list A) : M W E B :=
  match l with
  | [] => mret b
  | x :: l' => b' ← f b x; foldM f b' l'
  end.

(** ** Weakest preconditions

    [runs m w Q]: running [m] in the world [w] gives an outcome and a world
    that satisfy [Q]. *)
Definition runs {W E A} (m : M W E A) (w : W) (Q : result E A -> W -> Prop) : Prop :=
  Q (m w).1 (m w).2.

(** The postcondition of the first half of a bind. *)
Definition andThen {W E A B} (k : A -> M W E B) (Q : result E B -> W -> Prop)
    : result E A -> W -> Prop := fun r w1 =>
  match r with
  | Ok a => runs (k a) w1 Q
  | Err e => Q (Err e) w1
  | Panic => Q Panic w1
  end.

Section runs_rules.
Context {W E : Type}.
Implicit Types w : W.

Lemma runs_elim {A} (m : M W E A) w Q r w' :
  runs m w Q -> m w = (r, w') -> Q r w'.
Proof. unfold runs. intros H Heq. by rewrite Heq in H. Qed.

Lemma runs_intro {A} (m : M W E A) w (Q : result E A -> W -> Prop) :
  (forall r w', m w = (r, w') -> Q r w') -> runs m w Q.
Proof. unfold runs. destruct (m w) eqn:H. eauto. Qed.

Lemma runs_mono {A} (m : M W E A) w (P Q : result E A -> W -> Prop) :
  runs m w P -> (forall r w', P r w' -> Q r w') -> runs m w Q.
Proof. unfold runs. eauto. Qed.

Lemma runs_conj {A} (m : M W E A) w (P Q : result E A -> W -> Prop) :
  runs m w P -> runs m w Q -> runs m w (fun r w' => P r w' /\ Q r w').
Proof. unfold runs. eauto. Qed.

Lemma runs_ret {A} (a : A) w (Q : result E A -> W -> Prop) :
  Q (Ok a) w -> runs (mret a) w Q.
Proof. done. Qed.

Lemma runs_throw {A} (e : E) w (Q : result E A -> W -> Prop) :
  Q (Err e) w -> runs (throw e) w Q.
Proof. done. Qed.

Lemma runs_panic {A} w (Q : result E A -> W -> Prop) : Q Panic w -> runs panic w Q.
Proof. done. Qed.

Lemma runs_lift {A} (r : result E A) w Q : Q r w -> runs (lift r) w Q.
Proof. done. Qed.

Lemma runs_bind {A B} (m : M W E A) (k : A -> M W E B) w Q :
  runs m w (andThen k Q) -> runs (x ← m; k x) w Q.
Proof.
  unfold runs, andThen, mbind, M_bind.
  by destruct (m w) as [[a|e|] w1].
Qed.

Lemma runs_attempt {A} (m : M W E A) w Q :
  runs m w (fun r w1 => match r with
                        | Ok a => Q (Ok (inr a)) w1
                        | Err e => Q (Ok (inl e)) w1
                        | Panic => Q Panic w1 end) ->
  runs (attempt m) w Q.
Proof. unfold runs, attempt. by destruct (m w) as [[a|e|] w1]. Qed.

Lemma runs_mapErr {A} f (m : M W E A) w Q :
  runs m w (fun r w1 => match r with
                        | Ok a => Q (Ok a) w1
                        | Err e => Q (Err (f e)) w1
                        | Panic => Q Panic w1 end) ->
  runs (mapErr f m) w Q.
Proof. unfold runs, mapErr. by destruct (m w) as [[a|e|] w1]. Qed.

Lemma runs_throwIf (c : bool) (e : E) w Q :
  (c = true -> Q (Err e) w) -> (c = false -> Q (Ok tt) w) ->
  runs (throwIf c e) w Q.
Proof. destruct c; intros Ht Hf; [by apply Ht|by apply Hf]. Qed.

(** A loop invariant [I] over the elements already visited. *)
Lemma runs_foldM {A B} (f : B -> A -> M W E B) (I : list A -> B -> W -> Prop)
    (Q : result E B -> W -> Prop) l b w :
  I [] b w ->
  (forall done x rest b w, l = done ++ x :: rest -> I done b w ->
     runs (f b x) w (fun r w1 => match r with
                                 | Ok b' => I (done ++ [x]) b' w1
                                 | Err e => Q (Err e) w1
                                 | Panic => Q Panic w1 end)) ->
  (forall b w, I l b w -> Q (Ok b) w) ->
  runs (foldM f b l) w Q.
Proof.
  intros HI Hstep HQ.
  enough (forall todo seen b w, l = seen ++ todo -> I seen b w ->
            runs (foldM f b todo) w Q) as H by (by eapply (H l [])).
  induction todo as [|x todo IH]; intros seen b' w' -> Hseen.
  - apply HQ. by rewrite app_nil_r.
  - apply runs_bind. eapply runs_mono; [by apply (Hstep seen x todo)|].
    intros [b1|e|] w1 H1; cbn; [|done|done].
    apply (IH (seen ++ [x])); [by rewrite <- (assoc_L (++))|done].
Qed.
End runs_rules.

(** Steps through the control structure of a computation; the calls it makes
    are left to the specifications of the [runs] hint database. *)
Create HintDb runs.
#[export] Hint Resolve runs_ret runs_throw runs_panic : runs.

Ltac runs_step :=
  match goal with
  | |- runs (mret _) _ _ => apply runs_ret
  | |- runs (throw _) _ _ => apply runs_throw
  | |- runs panic _ _ => apply runs_panic
  | |- runs (lift _) _ _ => apply runs_lift
  | |- runs (mbind _ _) _ _ => apply runs_bind
  | |- runs (attempt _) _ _ => apply runs_attempt
  | |- runs (mapErr _ _) _ _ => apply runs_mapErr
  | |- runs (throwIf _ _) _ _ => apply runs_throwIf; intros
  | |- andThen _ _ _ _ => cbn [andThen]
  | |- runs (if ?c then _ else _) _ _ => destruct c eqn:?
  | |- runs (match ?x with _ => _ end) _ _ => destruct x eqn:?
  | |- match ?r with Ok _ => _ | Err _ => _ | Panic => _ end => destruct r eqn:?
  end.

(** [if c { return nil, e }]: the error case first, then the rest. *)
Ltac runs_guard := apply runs_bind, runs_throwIf; intros; cbn [andThen].

(** For the witnesses: the concrete run [run] succeeds, [thm] speaks of it. *)
Ltac run_ok run a E := assert (exists a, run.1 = Ok a) as [a E]
  by (apply is_ok_true; vm_compute; reflexivity).
Ltac run_thm run E thm H :=
  pose proof thm as H; unfold runs in H; fold run in H; rewrite E in H.

(** [runs_call lem]: the next call is [m]; use its specification [lem]. *)
Ltac runs_call lem :=
  repeat runs_step;
  eapply runs_mono; [eapply lem|]; cbn beta;
  let r := fresh "r" in let w' := fresh "w" in let H := fresh "Hcall" in
  intros r w' H.


(** ** Lists: the loops that filter and the loops that search *)

Lemma elem_of_List_filter {A} (f : A -> bool) (l : list A) x :
  x ∈ List.filter f l <-> x ∈ l /\ f x = true.
Proof. by rewrite !list_elem_of_In, List.filter_In. Qed.

Lemma List_find_some {A} (f : A -> bool) (l : list A) x :
  List.find f l = Some x -> x ∈ l /\ f x = true.
Proof. intros [H ?]%List.find_some. by rewrite list_elem_of_In. Qed.

Lemma List_find_none {A} (f : A -> bool) (l : list A) x :
  List.find f l = None -> x ∈ l -> f x = false.
Proof. rewrite list_elem_of_In. intros H. by apply List.find_none. Qed.

Lemma List_filter_nil {A} (f : A -> bool) (l : list A) :
  List.filter f l = [] <-> forall x, x ∈ l -> f x = false.
Proof.
  split.
  - intros H x Hx. destruct (f x) eqn:E; [|done].
    assert (x ∈ List.filter f l) as Hin by (by apply elem_of_List_filter).
    rewrite H in Hin. apply elem_of_nil in Hin. done.
  - induction l as [|y l IH]; intros H; [done|]. cbn.
    rewrite H by set_solver. apply IH. set_solver.
Qed.

Lemma List_filter_filter {A} (f : A -> bool) (l : list A) :
  List.filter f l = filter (fun x => f x = true) l.
Proof.
  induction l as [|x l IH]; [done|]. cbn [List.filter]. rewrite filter_cons, IH.
  destruct (f x); [by rewrite decide_True|by rewrite decide_False].
Qed.

Lemma elem_of_flat_map {A B} (f : A -> list B) l y :
  y ∈ flat_map f l <-> exists x, x ∈ l /\ y ∈ f x.
Proof. rewrite list_elem_of_In. rewrite List.in_flat_map. by setoid_rewrite list_elem_of_In. Qed.

Lemma elem_of_snoc {A} (l : list A) x y : x ∈ l ++ [y] <-> x ∈ l \/ x = y.
Proof. by rewrite elem_of_app, list_elem_of_singleton. Qed.

Lemma sublist_elem_of {A} (l k : list A) x : sublist l k -> x ∈ l -> x ∈ k.
Proof. induction 1; set_solver. Qed.
