(* ===== verification/MapRange.v ===== *)
(** Iteration over a Go map: the runtime visits the entries in an order of its
    choice.  The order is the class [MapRange]; what the code does over all
    entries must not depend on it. *)
From S2P Require Export Prelude.

Class MapRange := map_range : forall {V : Type}, gmap string V -> list (string * V).
Class MapRangeLaws (R : MapRange) : Prop :=
  map_range_all : forall {V} (m : gmap string V), map_range m ≡ₚ map_to_list m.

Section map_range.
Context {R : MapRange} {RL : MapRangeLaws R}.

Lemma NoDup_map_range {V} (m : gmap string V) : NoDup (map_range m).*1.
Proof. rewrite (map_range_all m). apply NoDup_fst_map_to_list. Qed.
Lemma elem_of_map_range {V} (m : gmap string V) n x : (n, x) ∈ map_range m <-> m !! n = Some x.
Proof. rewrite (map_range_all m). apply elem_of_map_to_list. Qed.
End map_range.

(** A concrete order, for the witnesses. *)
Definition refRange : MapRange := fun _ m => map_to_list m.
Lemma refRange_laws : MapRangeLaws refRange.
Proof. intros V m. done. Qed.

(** A list of results, the first error wins. *)
Fixpoint collect {E A B} (f : A -> result E B) (l : list A) : result E (list B) :=
  match l with
  | [] => Ok []
  | x :: l => y ← f x; ys ← collect f l; Ok (y :: ys)
  end.

Lemma bind_no_panic {E A B} (r : result E A) (k : A -> result E B) :
  r <> Panic -> (forall a, k a <> Panic) -> r ≫= k <> Panic.
Proof. destruct r; cbn; auto. Qed.

Lemma collect_no_panic {E A B} (f : A -> result E B) l : (forall x, f x <> Panic) -> collect f l <> Panic.
Proof.
  intros Hf. induction l as [|x l IH]; [done|]. cbn. specialize (Hf x).
  destruct (f x); [|done|done]. cbn. by destruct (collect f l).
Qed.

Lemma collect_map {E A B} (f : A -> result E B) (g : A -> B) l :
  (forall x, x ∈ l -> f x = Ok (g x)) -> collect f l = Ok (g <$> l).
Proof.
  induction l as [|x l IH]; intros H; [done|]. cbn. rewrite H by set_solver. cbn.
  rewrite IH by set_solver. done.
Qed.
