(* ===== verification/GoString.v ===== *)
(** The functions of Go's [strings], [fmt], [strconv] and [sets] packages that
    the modelled code uses. A Go string is a byte sequence: [String.string].
    Case folding is that of ASCII letters; bytes above 127 are left alone. *)
From S2P Require Export Prelude.
From Stdlib Require Import Ascii.

(** ** Case folding: [strings.ToLower], [strings.EqualFold] *)

Definition lower_ascii (c : ascii) : ascii :=
  let n := nat_of_ascii c in
  if (65 <=? n) && (n <=? 90) then ascii_of_nat (n + 32) else c.

Fixpoint ToLower (s : string) : string :=
  match s with
  | EmptyString => EmptyString
  | String c s' => String (lower_ascii c) (ToLower s')
  end.

Definition EqualFold (s t : string) : bool := bool_decide (ToLower s = ToLower t).

(** ** Prefixes: [strings.HasPrefix], [strings.TrimPrefix], [strings.Split] *)

Fixpoint HasPrefix (s p : string) : bool :=
  match p, s with
  | EmptyString, _ => true
  | String _ _, EmptyString => false
  | String a p', String b s' => bool_decide (a = b) && HasPrefix s' p'
  end.

Fixpoint drop_string (n : nat) (s : string) : string :=
  match n, s with
  | S n', String _ s' => drop_string n' s'
  | _, _ => s
  end.

Definition TrimPrefix (s p : string) : string :=
  if HasPrefix s p then drop_string (String.length p) s else s.

(** [strings.Split(s, sep)] for a separator of one byte: never empty. *)
Fixpoint Split (s : string) (sep : ascii) : list string :=
  match s with
  | EmptyString => [EmptyString]
  | String c s' =>
      if bool_decide (c = sep) then EmptyString :: Split s' sep
      else match Split s' sep with
           | x :: l => String c x :: l
           | [] => [String c EmptyString]
           end
  end.

(** [strings.Contains(s, sub)]. *)
Fixpoint Contains (s sub : string) : bool :=
  HasPrefix s sub ||
  match s with EmptyString => false | String _ s' => Contains s' sub end.

(** [strings.TrimSpace]: ASCII white space on both ends. *)
Fixpoint trim_left (l : list ascii) : list ascii :=
  match l with
  | c :: l' => if Ascii.is_space c then trim_left l' else l
  | [] => []
  end.
Definition TrimSpace (s : string) : string :=
  String.string_of_list_ascii
    (reverse (trim_left (reverse (trim_left (String.list_ascii_of_string s))))).

(** [len(s) == 0], [s == ""]. *)
Definition is_empty (s : string) : bool := bool_decide (s = "").

(** ** Formatting: the verbs [%s] (concatenation), [%q] and [%d] *)

Definition hex_digit (n : nat) : ascii :=
  ascii_of_nat (if n <? 10 then 48 + n else 87 + n).

(** One byte of a double-quoted Go literal. *)
Definition quote_ascii (c : ascii) : string :=
  let n := nat_of_ascii c in
  let esc d := String "\" (String d EmptyString) in
  if n =? 34 then esc (ascii_of_nat 34) else
  if n =? 92 then esc "\"%char else
  if n =? 7 then esc "a"%char else if n =? 8 then esc "b"%char else
  if n =? 9 then esc "t"%char else if n =? 10 then esc "n"%char else
  if n =? 11 then esc "v"%char else if n =? 12 then esc "f"%char else
  if n =? 13 then esc "r"%char else
  if (n <? 32) || (n =? 127)
  then String "\" (String "x" (String (hex_digit (n / 16))
                                 (String (hex_digit (n mod 16)) EmptyString)))
  else String c EmptyString.

Fixpoint quote_body (s : string) : string :=
  match s with
  | EmptyString => EmptyString
  | String c s' => quote_ascii c +:+ quote_body s'
  end.

Definition dquote : string := String (ascii_of_nat 34) EmptyString.
Definition newline : string := String (ascii_of_nat 10) EmptyString.
(** [%q]. *)
Definition quote (s : string) : string := dquote +:+ quote_body s +:+ dquote.

(** ** [sets.Set[string]]: [sets.List] sorts the elements *)

Definition set_list (s : gset string) : list string := merge_sort String.le (elements s).

(** ** Lemmas *)

Lemma EqualFold_spec s t : EqualFold s t = true <-> ToLower s = ToLower t.
Proof. unfold EqualFold. apply bool_decide_eq_true. Qed.

Lemma EqualFold_refl s : EqualFold s s = true.
Proof. by apply EqualFold_spec. Qed.

Lemma EqualFold_sym s t : EqualFold s t = EqualFold t s.
Proof. unfold EqualFold. apply bool_decide_ext. naive_solver. Qed.

Lemma EqualFold_trans s t u :
  EqualFold s t = true -> EqualFold t u = true -> EqualFold s u = true.
Proof. rewrite !EqualFold_spec. congruence. Qed.

(** Equality up to case, as a setoid. *)
Definition eq_fold (s t : string) : Prop := EqualFold s t = true.
#[export] Instance eq_fold_equivalence : Equivalence eq_fold.
Proof.
  split.
  - intros s. apply EqualFold_refl.
  - intros s t H. unfold eq_fold. by rewrite EqualFold_sym.
  - intros s t u. apply EqualFold_trans.
Qed.

#[export] Instance EqualFold_proper : Proper (eq_fold ==> eq_fold ==> eq) EqualFold.
Proof.
  intros s s' Hs t t' Ht. unfold eq_fold in *. rewrite EqualFold_spec in Hs, Ht.
  unfold EqualFold. by rewrite Hs, Ht.
Qed.

Lemma lower_ascii_idem c : lower_ascii (lower_ascii c) = lower_ascii c.
Proof. by destruct c as [[] [] [] [] [] [] [] []]; vm_compute. Qed.

Lemma ToLower_idem s : ToLower (ToLower s) = ToLower s.
Proof. induction s as [|c s IH]; [done|]. cbn. by rewrite lower_ascii_idem, IH. Qed.

Lemma EqualFold_ToLower s : EqualFold (ToLower s) s = true.
Proof. apply EqualFold_spec, ToLower_idem. Qed.

Lemma ToLower_empty s : ToLower s = "" <-> s = "".
Proof. by destruct s. Qed.

Lemma string_app_assoc a b c : (a +:+ b) +:+ c = a +:+ b +:+ c.
Proof.
  induction a as [|x a IH]; [done|].
  change (String x ((a +:+ b) +:+ c) = String x (a +:+ b +:+ c)). by rewrite IH.
Qed.

Lemma string_app_nil a : a +:+ "" = a.
Proof. induction a as [|c a IH]; [done|]. change (String c (a +:+ "") = String c a). by rewrite IH. Qed.

Lemma string_length_app a b : String.length (a +:+ b) = String.length a + String.length b.
Proof.
  induction a as [|x a IH]; [done|].
  change (S (String.length (a +:+ b)) = S (String.length a) + String.length b). by rewrite IH.
Qed.

Lemma HasPrefix_app p s : HasPrefix (p +:+ s) p = true.
Proof.
  induction p as [|c p IH]; [by destruct s|].
  change (bool_decide (c = c) && HasPrefix (p +:+ s) p = true).
  by rewrite bool_decide_eq_true_2, IH.
Qed.

Lemma HasPrefix_inv s p : HasPrefix s p = true -> exists t, s = p +:+ t.
Proof.
  revert s. induction p as [|a p IH]; intros s; [by exists s|].
  destruct s as [|b s]; [done|]. cbn.
  rewrite andb_true_iff, bool_decide_eq_true. intros [-> [t ->]%IH]. by exists t.
Qed.

Lemma drop_string_app p s : drop_string (String.length p) (p +:+ s) = s.
Proof. induction p as [|c p IH]; [by destruct s|done]. Qed.

Lemma TrimPrefix_app p s : TrimPrefix (p +:+ s) p = s.
Proof. unfold TrimPrefix. by rewrite HasPrefix_app, drop_string_app. Qed.

Lemma TrimPrefix_id s p : HasPrefix s p = false -> TrimPrefix s p = s.
Proof. unfold TrimPrefix. by intros ->. Qed.

Lemma string_app_inj p s t : p +:+ s = p +:+ t -> s = t.
Proof.
  intros H. rewrite <- (drop_string_app p s), <- (drop_string_app p t). by rewrite H.
Qed.

Lemma Split_not_nil s sep : Split s sep <> [].
Proof. destruct s as [|c s]; cbn; [done|]. case_bool_decide; [done|]. by destruct (Split s sep). Qed.

Lemma is_empty_spec s : is_empty s = true <-> s = "".
Proof. unfold is_empty. apply bool_decide_eq_true. Qed.
Lemma is_empty_false s : is_empty s = false <-> s <> "".
Proof. unfold is_empty. apply bool_decide_eq_false. Qed.

Lemma elem_of_set_list (s : gset string) x : x ∈ set_list s <-> x ∈ s.
Proof. unfold set_list. by rewrite merge_sort_Permutation, elem_of_elements. Qed.

Lemma NoDup_set_list (s : gset string) : NoDup (set_list s).
Proof. unfold set_list. rewrite merge_sort_Permutation. apply NoDup_elements. Qed.

Lemma set_list_sorted (s : gset string) : Sorted String.le (set_list s).
Proof. apply Sorted_merge_sort, _. Qed.

Create Rewrite HintDb gostring.
#[export] Hint Rewrite EqualFold_refl ToLower_idem TrimPrefix_app HasPrefix_app : gostring.

(** ** UTF-8: [utf8.RuneCountInString] *)

(** The length of the rune at the head of the bytes, 1 for an invalid one. *)
Definition rune_width (l : list nat) : nat :=
  let cont b := (128 <=? b) && (b <=? 191) in
  let within lo hi b := (lo <=? b) && (b <=? hi) in
  match l with
  | b0 :: b1 :: l' =>
      if within 194 223 b0 then if cont b1 then 2 else 1 else
      let second := if b0 =? 224 then within 160 191 b1 else
                    if b0 =? 237 then within 128 159 b1 else
                    if b0 =? 240 then within 144 191 b1 else
                    if b0 =? 244 then within 128 143 b1 else cont b1 in
      match l' with
      | b2 :: l'' =>
          if within 224 239 b0 then if second && cont b2 then 3 else 1 else
          match l'' with
          | b3 :: _ => if within 240 244 b0 && second && cont b2 && cont b3 then 4 else 1
          | [] => 1
          end
      | [] => 1
      end
  | _ => 1
  end.

Fixpoint count_runes (fuel : nat) (l : list nat) : nat :=
  match fuel, l with
  | S fuel, _ :: _ => S (count_runes fuel (drop (rune_width l) l))
  | _, _ => 0
  end.

(** Every rune has a byte: a turn per byte is enough. *)
Definition RuneCountInString (s : string) : nat :=
  count_runes (String.length s) (nat_of_ascii <$> String.list_ascii_of_string s).

Lemma rune_width_pos l : 1 <= rune_width l.
Proof.
  unfold rune_width. destruct l as [|b0 [|b1 l]]; [done|done|]. cbv zeta.
  repeat match goal with
         | |- 1 <= match ?x with _ => _ end => destruct x
         | |- 1 <= if ?x then _ else _ => destruct x
         end; lia.
Qed.

(** More fuel counts no further. *)
Lemma count_runes_fuel fuel fuel' l :
  length l <= fuel -> length l <= fuel' -> count_runes fuel l = count_runes fuel' l.
Proof.
  revert fuel' l. induction fuel as [|fuel IH]; intros [|fuel'] [|x l]; cbn [length]; try lia; try done.
  intros H1 H2. cbn [count_runes]. f_equal.
  pose proof (rune_width_pos (x :: l)). apply IH; rewrite length_drop; cbn [length]; lia.
Qed.

Lemma RuneCountInString_le s : RuneCountInString s <= String.length s.
Proof.
  unfold RuneCountInString. generalize (nat_of_ascii <$> String.list_ascii_of_string s) as l.
  generalize (String.length s) as fuel. induction fuel as [|fuel IH]; intros [|x l]; cbn [count_runes]; try lia.
  apply le_n_S, IH.
Qed.

Example RuneCount_umlaut :
  RuneCountInString (String (ascii_of_nat 195) (String (ascii_of_nat 164) "b")) = 2.
Proof. reflexivity. Qed.
