(* ===== verification/GoFloat.v ===== *)
(** Numbers of Go: machine integers, floating-point numbers (float32, float64)
    with the functions of package math that the code uses, and their text forms
    in packages strconv and fmt. *)
From S2P Require Export GoString.
From stdpp Require Import pretty.
From Stdlib Require Import SpecFloat Ascii.

(** ** Machine integers *)

(** Arithmetic of width [bits] in two's complement. *)
Definition wrap (bits : Z) (z : Z) : Z := ((z + 2 ^ (bits - 1)) mod 2 ^ bits - 2 ^ (bits - 1))%Z.
Definition int32 : Z -> Z := wrap 32.
Definition int64 : Z -> Z := wrap 64.
Definition in_int64 (z : Z) : bool := (- 2 ^ 63 <=? z)%Z && (z <? 2 ^ 63)%Z.

Lemma wrap_id bits z : (0 < bits -> - 2 ^ (bits - 1) <= z < 2 ^ (bits - 1) -> wrap bits z = z)%Z.
Proof.
  intros Hb Hz. unfold wrap. assert (2 ^ bits = 2 * 2 ^ (bits - 1))%Z as ->.
  { rewrite <- Z.pow_succ_r by lia. f_equal. lia. }
  rewrite Z.mod_small by lia. lia.
Qed.

Lemma wrap_range bits z : (0 < bits -> - 2 ^ (bits - 1) <= wrap bits z < 2 ^ (bits - 1))%Z.
Proof.
  intros Hb. unfold wrap. assert (2 ^ bits = 2 * 2 ^ (bits - 1))%Z as ->.
  { rewrite <- Z.pow_succ_r by lia. f_equal. lia. }
  pose proof (Z.pow_pos_nonneg 2 (bits - 1)). pose proof (Z.mod_pos_bound (z + 2 ^ (bits - 1)) (2 * 2 ^ (bits - 1))).
  lia.
Qed.

(** ** Floating-point numbers: IEEE 754, rounding to the nearest, ties to even *)

Definition float : Type := spec_float.

Definition float64_of_int (z : Z) : float := binary_normalize 53 1024 z 0 false.
Definition float64_mul : float -> float -> float := SFmul 53 1024.
Definition float64_div : float -> float -> float := SFdiv 53 1024.
(** [float64(x)] of a float32: exact. *)
Definition float64_of_float32 (x : float) : float :=
  match x with
  | S754_finite s m e => binary_normalize 53 1024 (cond_Zopp s (Zpos m)) e s
  | _ => x
  end.

(** [float64(z)] with the sign of a zero. *)
Definition float64_signed (s : bool) (z : Z) : float := binary_normalize 53 1024 (cond_Zopp s z) 0 s.

(** [math.Round]: to the nearest integer, halves away from zero. *)
Definition math_Round (x : float) : float :=
  match x with
  | S754_finite s m e =>
      if (0 <=? e)%Z then x else float64_signed s ((Zpos m + 2 ^ (- e - 1)) / 2 ^ (- e))
  | _ => x
  end.

(** [math.Ceil]: to the next integer that is not smaller. *)
Definition math_Ceil (x : float) : float :=
  match x with
  | S754_finite s m e =>
      if (0 <=? e)%Z then x else
      float64_signed s (if s then Zpos m / 2 ^ (- e) else - ((- Zpos m) / 2 ^ (- e)))
  | _ => x
  end.

(** [int(x)]: the fraction is dropped.  What a value out of range becomes is left
    to the platform by the language. *)
Class FloatPlatform := int_out_of_range : float -> Z.
Definition int_of_float {FP : FloatPlatform} (x : float) : Z :=
  match x with
  | S754_zero _ => 0
  | S754_finite s m e =>
      let z := cond_Zopp s (if (0 <=? e)%Z then Zpos m * 2 ^ e else Zpos m / 2 ^ (- e)) in
      if in_int64 z then z else int_out_of_range x
  | _ => int_out_of_range x
  end%Z.

(** ** Text *)

(** Zeros in front, up to [width] characters. *)
Definition pad_left (width : nat) (s : string) : string :=
  Nat.iter (width - String.length s) (String "0") s.

(** [strconv.FormatFloat(x, 'f', 6, 64)], the verb [%f]: six digits after the point,
    rounded to the nearest, ties to even. *)
Definition format_f (x : float) : string :=
  match x with
  | S754_zero s => (if s then "-" else "") +:+ "0.000000"
  | S754_infinity s => (if s then "-" else "+") +:+ "Inf"
  | S754_nan => "NaN"
  | S754_finite s m e =>
      let n := (Zpos m * 1000000)%Z in
      let millionths :=
        if (0 <=? e)%Z then (n * 2 ^ e)%Z else
        let '(q, r) := Z.div_eucl n (2 ^ (- e)) in
        match (2 * r ?= 2 ^ (- e))%Z with
        | Lt => q
        | Eq => if Z.even q then q else (q + 1)%Z
        | Gt => (q + 1)%Z
        end in
      (if s then "-" else "") +:+ pretty (millionths / 1000000)%Z +:+ "." +:+
        pad_left 6 (pretty (millionths mod 1000000)%Z)
  end.

Definition digit_value (c : ascii) : option Z :=
  let n := Z.of_nat (nat_of_ascii c) in
  if ((48 <=? n)%Z && (n <=? 57)%Z) then Some (n - 48)%Z else None.

(** Digits to the end of the string. *)
Fixpoint read_digits (acc : Z) (s : string) : option Z :=
  match s with
  | EmptyString => Some acc
  | String c s => d ← digit_value c; read_digits (10 * acc + d)%Z s
  end.
Definition read_unsigned (s : string) : option Z := if is_empty s then None else read_digits 0 s.

Definition split_sign (s : string) : bool * string :=
  match s with
  | String c s' =>
      if bool_decide (c = "-"%char) then (true, s') else if bool_decide (c = "+"%char) then (false, s') else (false, s)
  | EmptyString => (false, s)
  end.

Inductive NumErr := ErrSyntax | ErrRange.

(** [strconv.ParseInt(s, 10, 64)]; [strconv.Atoi] is the same on 64 bits. *)
Definition ParseInt (s : string) : NumErr + Z :=
  let '(neg, digits) := split_sign s in
  match read_unsigned digits with
  | None => inl ErrSyntax
  | Some n => let z := if neg then (- n)%Z else n in if in_int64 z then inr z else inl ErrRange
  end.
(** The text of the *strconv.NumError of Atoi. *)
Definition atoi_error (s : string) (e : NumErr) : string :=
  "strconv.Atoi: parsing " +:+ quote s +:+ ": " +:+
  match e with ErrSyntax => "invalid syntax" | ErrRange => "value out of range" end.

(** [fmt.Sscanf(s, "%d%s", &value, &unit)]: an integer, then a word; [None] is an
    error. White space before either is skipped, but for newlines. *)
Fixpoint skip_space (s : string) : option string :=
  match s with
  | String c s' =>
      if bool_decide (c = ascii_of_nat 10) then None else
      if Ascii.is_space c then skip_space s' else Some s
  | EmptyString => Some EmptyString
  end.
Fixpoint take_digits (s : string) : string * string :=
  match s with
  | String c s' =>
      match digit_value c with
      | Some _ => let '(d, rest) := take_digits s' in (String c d, rest)
      | None => (EmptyString, s)
      end
  | EmptyString => (EmptyString, s)
  end.
Fixpoint take_word (s : string) : string :=
  match s with
  | String c s' => if Ascii.is_space c then EmptyString else String c (take_word s')
  | EmptyString => EmptyString
  end.
Definition sscanf_int_word (s : string) : option (Z * string) :=
  s ← skip_space s;
  let '(neg, s) := split_sign s in
  let '(digits, s) := take_digits s in
  n ← read_unsigned digits;
  let z := if neg then (- n)%Z else n in
  if in_int64 z then
    s ← skip_space s;
    if is_empty s then None else Some (z, take_word s)
  else None.

(** ** Examples *)

Example format_f_half : format_f (S754_finite false 1 (-1)) = "0.500000". Proof. reflexivity. Qed.
Example format_f_256_5 : format_f (S754_finite false 513 (-1)) = "256.500000". Proof. reflexivity. Qed.
Example format_f_tie : format_f (S754_finite false 1 (-7)) = "0.007812". Proof. reflexivity. Qed.
Example ceil_3_75_GiB : math_Ceil (float64_mul (S754_finite false 15 (-2)) (float64_of_int 1024)) = float64_of_int 3840.
Proof. reflexivity. Qed.
Example round_halves : math_Round (S754_finite true 5 (-1)) = float64_of_int (-3). Proof. reflexivity. Qed.
Example sscanf_512M : sscanf_int_word "512M" = Some (512%Z, "M"). Proof. reflexivity. Qed.
Example sscanf_no_unit : sscanf_int_word "512" = None. Proof. reflexivity. Qed.
Example atoi_unit : ParseInt "4Gi" = inl ErrSyntax. Proof. reflexivity. Qed.
