(* ===== verification/Sha256.v ===== *)
(** SHA-256, which the user provider derives object names from: Go's
    [crypto/sha256.Sum256] as FIPS 180-4 defines it, on 32-bit words kept as
    integers below 2^32, and the verb [%x] that prints the digest. *)
From S2P Require Export GoString.
From Stdlib Require Import ZArith Ascii.
Local Open Scope Z_scope.

Definition w32 (x : Z) : Z := Z.land x 0xffffffff.
Definition add32 (x y : Z) : Z := w32 (x + y).
Definition not32 (x : Z) : Z := Z.lxor x 0xffffffff.
Definition rotr (n x : Z) : Z := w32 (Z.lor (Z.shiftr x n) (Z.shiftl x (32 - n))).

Definition Ch (x y z : Z) : Z := Z.lxor (Z.land x y) (Z.land (not32 x) z).
Definition Maj (x y z : Z) : Z := Z.lxor (Z.lxor (Z.land x y) (Z.land x z)) (Z.land y z).
Definition Sigma0 (x : Z) : Z := Z.lxor (Z.lxor (rotr 2 x) (rotr 13 x)) (rotr 22 x).
Definition Sigma1 (x : Z) : Z := Z.lxor (Z.lxor (rotr 6 x) (rotr 11 x)) (rotr 25 x).
Definition sigma0 (x : Z) : Z := Z.lxor (Z.lxor (rotr 7 x) (rotr 18 x)) (Z.shiftr x 3).
Definition sigma1 (x : Z) : Z := Z.lxor (Z.lxor (rotr 17 x) (rotr 19 x)) (Z.shiftr x 10).

(** The constants: the first 32 bits of the fractional parts of the cube roots
    of the first 64 primes, and of the square roots of the first 8. *)
Definition is_prime (n : Z) : bool :=
  forallb (fun d => negb (n mod d =? 0)) (seqZ 2 (n - 2)).
Definition primes : list Z := List.filter is_prime (seqZ 2 310).

(** The greatest [r] below [lo + 2^bits] with r^3 <= n. *)
Fixpoint cube_root (bits : nat) (n lo : Z) : Z :=
  match bits with
  | O => lo
  | S b => let mid := lo + 2 ^ Z.of_nat b in
           cube_root b n (if mid ^ 3 <=? n then mid else lo)
  end.

Definition K256 : list Z :=
  Eval vm_compute in (fun p => w32 (cube_root 40 (p * 2 ^ 96) 0)) <$> take 64 primes.
Definition H256 : list Z :=
  Eval vm_compute in (fun p => w32 (Z.sqrt (p * 2 ^ 64))) <$> take 8 primes.

(** The bytes of [x] in big-endian order. *)
Fixpoint be_bytes (n : nat) (x : Z) : list Z :=
  match n with
  | O => []
  | S n' => Z.land (Z.shiftr x (8 * Z.of_nat n')) 255 :: be_bytes n' x
  end.

(** A one bit, zeros up to 56 bytes modulo 64, the length in bits. *)
Definition pad (msg : list Z) : list Z :=
  let len := Z.of_nat (length msg) in
  let zeros := Z.to_nat ((55 - len) mod 64) in
  msg ++ [0x80] ++ replicate zeros 0 ++ be_bytes 8 (len * 8).

Fixpoint words (l : list Z) : list Z :=
  match l with
  | a :: b :: c :: d :: l' =>
      (a * 0x1000000 + b * 0x10000 + c * 0x100 + d) :: words l'
  | _ => []
  end.

(** The message schedule: [rev] holds the words computed so far, last first. *)
Fixpoint schedule (n : nat) (rev : list Z) : list Z :=
  match n with
  | O => reverse rev
  | S n' =>
      let get i := nth i rev 0 in
      schedule n' (w32 (sigma1 (get 1%nat) + get 6%nat + sigma0 (get 14%nat) + get 15%nat) :: rev)
  end.

Definition round (s : list Z) (kw : Z * Z) : list Z :=
  match s with
  | [a; b; c; d; e; f; g; h] =>
      let t1 := h + Sigma1 e + Ch e f g + kw.1 + kw.2 in
      let t2 := Sigma0 a + Maj a b c in
      [w32 (t1 + t2); a; b; c; add32 d t1; e; f; g]
  | _ => s
  end.

Definition compress (h block : list Z) : list Z :=
  zip_with add32 h (foldl round h (zip K256 (schedule 48 (reverse block)))).

Fixpoint blocks (fuel : nat) (ws : list Z) : list (list Z) :=
  match fuel, ws with
  | S n, _ :: _ => take 16 ws :: blocks n (drop 16 ws)
  | _, _ => []
  end.

(** [sha256.Sum256(msg)]; every block consumes 16 words, so the number of words
    is fuel enough. *)
Definition Sum256 (msg : list Z) : list Z :=
  let ws := words (pad msg) in
  foldl compress H256 (blocks (length ws) ws) ≫= be_bytes 4.

(** [[]byte(s)], and [fmt.Sprintf("%x", digest)]. *)
Definition bytes_of (s : string) : list Z :=
  (fun c => Z.of_nat (nat_of_ascii c)) <$> String.list_ascii_of_string s.

Definition hex_byte (b : Z) : string :=
  let n := Z.to_nat b in
  String (hex_digit (n / 16)) (String (hex_digit (n mod 16)) EmptyString).

Fixpoint hex (bs : list Z) : string :=
  match bs with
  | [] => ""
  | b :: bs' => hex_byte b +:+ hex bs'
  end.

Definition sha256_hex (s : string) : string := hex (Sum256 (bytes_of s)).

(** The test vectors of FIPS 180-4. *)
Example sha256_empty :
  sha256_hex "" = "e3b0c44298fc1c149afbf4c8996fb92427ae41e4649b934ca495991b7852b855".
Proof. vm_compute. reflexivity. Qed.
Example sha256_abc :
  sha256_hex "abc" = "ba7816bf8f01cfea414140de5dae2223b00361a396177a9cb410ff61f20015ad".
Proof. vm_compute. reflexivity. Qed.
Example sha256_two_blocks :
  sha256_hex "abcdbcdecdefdefgefghfghighijhijkijkljklmklmnlmnomnopnopq"
  = "248d6a61d20638b8e5c026930c3e6039a33ce45964ff2167f6ecedd419db06c1".
Proof. vm_compute. reflexivity. Qed.

(** ** The digest has 32 bytes *)

Lemma length_be_bytes n x : length (be_bytes n x) = n.
Proof. induction n as [|n IH]; cbn; [done|by rewrite IH]. Qed.

Lemma be_bytes_range n x : Forall (fun b => 0 <= b < 256) (be_bytes n x).
Proof.
  induction n as [|n IH]; cbn; constructor; [|done].
  replace 255 with (Z.ones 8) by done. rewrite Z.land_ones by lia.
  apply Z.mod_pos_bound. lia.
Qed.

Lemma length_round s kw : length (round s kw) = length s.
Proof. do 8 (destruct s as [|? s]; [done|]). by destruct s. Qed.

Lemma length_compress h b : length (compress h b) = length h.
Proof.
  unfold compress. rewrite length_zip_with.
  assert (forall l s, length (foldl round s l) = length s) as ->.
  { induction l as [|kw l IH]; intros s; cbn; [done|]. by rewrite IH, length_round. }
  apply Nat.min_id.
Qed.

Lemma length_Sum256 msg : length (Sum256 msg) = 32%nat.
Proof.
  unfold Sum256. set (h := foldl _ _ _).
  assert (length h = 8%nat) as H.
  { unfold h. generalize (blocks (length (words (pad msg))) (words (pad msg))).
    intros bs. assert (length H256 = 8%nat) as H0 by done. revert H0. generalize H256.
    induction bs as [|b bs IH]; intros s H0; cbn; [done|]. apply IH.
    by rewrite length_compress. }
  do 8 (destruct h as [|? h]; [done|]). by destruct h.
Qed.
