(* ===== verification/Md5.v ===== *)
(** MD5, which names the objects of a user in a user cluster: Go's
    [crypto/md5.Sum] as RFC 1321 defines it, printed with [hex.EncodeToString]. *)
From S2P Require Export Sha256.
From Stdlib Require Import ZArith Ascii.
Local Open Scope Z_scope.

Definition rotl (n x : Z) : Z := w32 (Z.lor (Z.shiftl x n) (Z.shiftr x (32 - n))).

(** The table T of the RFC: the integer parts of 2^32 times the absolute sines of
    the first 64 integers. *)
Definition T5 : list Z :=
  [0xd76aa478; 0xe8c7b756; 0x242070db; 0xc1bdceee; 0xf57c0faf; 0x4787c62a; 0xa8304613; 0xfd469501;
   0x698098d8; 0x8b44f7af; 0xffff5bb1; 0x895cd7be; 0x6b901122; 0xfd987193; 0xa679438e; 0x49b40821;
   0xf61e2562; 0xc040b340; 0x265e5a51; 0xe9b6c7aa; 0xd62f105d; 0x02441453; 0xd8a1e681; 0xe7d3fbc8;
   0x21e1cde6; 0xc33707d6; 0xf4d50d87; 0x455a14ed; 0xa9e3e905; 0xfcefa3f8; 0x676f02d9; 0x8d2a4c8a;
   0xfffa3942; 0x8771f681; 0x6d9d6122; 0xfde5380c; 0xa4beea44; 0x4bdecfa9; 0xf6bb4b60; 0xbebfbc70;
   0x289b7ec6; 0xeaa127fa; 0xd4ef3085; 0x04881d05; 0xd9d4d039; 0xe6db99e5; 0x1fa27cf8; 0xc4ac5665;
   0xf4292244; 0x432aff97; 0xab9423a7; 0xfc93a039; 0x655b59c3; 0x8f0ccc92; 0xffeff47d; 0x85845dd1;
   0x6fa87e4f; 0xfe2ce6e0; 0xa3014314; 0x4e0811a1; 0xf7537e82; 0xbd3af235; 0x2ad7d2bb; 0xeb86d391].

Definition shift5 (i : Z) : Z :=
  let pick (l : list Z) := nth (Z.to_nat (i mod 4)) l 0 in
  if i <? 16 then pick [7; 12; 17; 22] else if i <? 32 then pick [5; 9; 14; 20]
  else if i <? 48 then pick [4; 11; 16; 23] else pick [6; 10; 15; 21].

(** The function of a step and the word it takes. *)
Definition mix5 (i b c d : Z) : Z * Z :=
  if i <? 16 then (Z.lor (Z.land b c) (Z.land (not32 b) d), i)
  else if i <? 32 then (Z.lor (Z.land b d) (Z.land c (not32 d)), (5 * i + 1) mod 16)
  else if i <? 48 then (Z.lxor (Z.lxor b c) d, (3 * i + 5) mod 16)
  else (Z.lxor c (Z.lor b (not32 d)), (7 * i) mod 16).

Definition step5 (block : list Z) (s : Z * Z * Z * Z) (it : Z * Z) : Z * Z * Z * Z :=
  let '(a, b, c, d) := s in
  let '(f, g) := mix5 it.1 b c d in
  (d, add32 b (rotl (shift5 it.1) (w32 (a + f + nth (Z.to_nat g) block 0 + it.2))), b, c).

Definition compress5 (h : Z * Z * Z * Z) (block : list Z) : Z * Z * Z * Z :=
  let '(a0, b0, c0, d0) := h in
  let '(a, b, c, d) := fold_left (step5 block) (zip (seqZ 0 64) T5) h in
  (add32 a0 a, add32 b0 b, add32 c0 c, add32 d0 d).

Definition le_bytes (n : nat) (x : Z) : list Z := reverse (be_bytes n x).
Fixpoint le_words (l : list Z) : list Z :=
  match l with
  | a :: b :: c :: d :: l' => (a + b * 0x100 + c * 0x10000 + d * 0x1000000) :: le_words l'
  | _ => []
  end.
Definition pad5 (msg : list Z) : list Z :=
  let len := Z.of_nat (length msg) in
  msg ++ [0x80] ++ replicate (Z.to_nat ((55 - len) mod 64)) 0 ++ le_bytes 8 (len * 8).

(** [md5.Sum(msg)] *)
Definition Sum5 (msg : list Z) : list Z :=
  let ws := le_words (pad5 msg) in
  let '(a, b, c, d) := fold_left compress5 (blocks (length ws) ws) (0x67452301, 0xefcdab89, 0x98badcfe, 0x10325476) in
  [a; b; c; d] ≫= le_bytes 4.
Definition md5_hex (s : string) : string := hex (Sum5 (bytes_of s)).

(** The test vectors of the RFC. *)
Example md5_empty : md5_hex "" = "d41d8cd98f00b204e9800998ecf8427e". Proof. vm_compute. reflexivity. Qed.
Example md5_abc : md5_hex "abc" = "900150983cd24fb0d6963f7d28e17f72". Proof. vm_compute. reflexivity. Qed.
Example md5_two_blocks :
  md5_hex "12345678901234567890123456789012345678901234567890123456789012345678901234567890"
  = "57edf4a22be3c955ac49da2e2107b67a".
Proof. vm_compute. reflexivity. Qed.
