(* ===== verification/Errors.v ===== *)
(** Error values and how the handlers look at them: [errors.As], [errors.Is],
    [KubernetesErrorToHTTPError] (handler/v1/common/error.go) and [isStatus]
    (handler/v1/project/project.go).  The constructors of the two error
    libraries the code calls (k8s.io/apimachinery and kubermatic's
    util/errors) are not under src/: they are the fields of [ErrorLib]. *)
From S2P Require Export GoString.
From Stdlib Require Export ZArith.

(** What [err.Status()] of a [*apierrors.StatusError] exposes. *)
Record StatusErr := MkStatusErr {
  status_Code : Z;
  status_Reason : string;
  status_Message : string }.

(** What a [utilerrors.HTTPError] carries. *)
Record HTTPErr := MkHTTPErr {
  http_Code : Z;
  http_Message : string;
  http_Details : list string }.

Inductive error : Type :=
| EStatus (s : StatusErr)              (* *apierrors.StatusError *)
| EHTTP (h : HTTPErr)                  (* utilerrors.HTTPError *)
| ErrNotFound                          (* the sentinel provider.ErrNotFound *)
| TokenExpiredError (msg : string)     (* *auth.TokenExpiredError *)
| EWrap (prefix : string) (e : error)  (* fmt.Errorf of prefix and a wrapped e *)
| ENew (msg : string).                 (* errors.New, fmt.Errorf, any other error *)

#[export] Instance StatusErr_eq_dec : EqDecision StatusErr.
Proof. solve_decision. Defined.
#[export] Instance HTTPErr_eq_dec : EqDecision HTTPErr.
Proof. solve_decision. Defined.
#[export] Instance error_eq_dec : EqDecision error.
Proof. solve_decision. Defined.

(** ** [errors.As] and [errors.Is]: they walk down the chain of wrapped errors *)

Fixpoint as_status (e : error) : option StatusErr :=
  match e with
  | EStatus s => Some s
  | EWrap _ e' => as_status e'
  | _ => None
  end.

Fixpoint as_token_expired (e : error) : option string :=
  match e with
  | TokenExpiredError msg => Some msg
  | EWrap _ e' => as_token_expired e'
  | _ => None
  end.

(** [errors.Is(err, provider.ErrNotFound)]. *)
Fixpoint is_ErrNotFound (e : error) : bool :=
  match e with
  | ErrNotFound => true
  | EWrap _ e' => is_ErrNotFound e'
  | _ => false
  end.

(** ** The error libraries *)

Class ErrorLib := {
  (* k8s.io/apimachinery/pkg/api/errors *)
  apierrors_NewBadRequest : string -> error;
  apierrors_NewForbidden : string -> error -> error;
  apierrors_NewNotFound : string -> string -> error;
  apierrors_NewServiceUnavailable : string -> error;
  apierrors_NewInternalError : error -> error;
  apierrors_IsNotFound : error -> bool;
  apierrors_IsAlreadyExists : error -> bool;
  apierrors_IsConflict : error -> bool;
  (* k8c.io/kubermatic/v2/pkg/util/errors *)
  utilerrors_New : Z -> string -> error;
  utilerrors_NewBadRequest : string -> error;
  utilerrors_NewNotFound : string -> string -> error;
  utilerrors_NewAlreadyExists : string -> string -> error;
  utilerrors_NewNotAuthorized : error;
  utilerrors_NewWithDetails : Z -> string -> list string -> error;
  utilerrors_NewAggregate : list error -> error;
  (* the method [Error] of an [HTTPError] *)
  HTTPError_Error : HTTPErr -> string }.

(** Documented behaviour of the two libraries: the status codes, and what the
    recognisers say of the errors their constructors build. *)
Class ErrorLibLaws (EL : ErrorLib) : Prop := {
  NewBadRequest_status m : exists s,
    apierrors_NewBadRequest m = EStatus s /\ status_Code s = 400%Z /\ status_Message s = m;
  NewForbidden_status n e : exists s,
    apierrors_NewForbidden n e = EStatus s /\ status_Code s = 403%Z;
  NewNotFound_status r n : exists s,
    apierrors_NewNotFound r n = EStatus s /\ status_Code s = 404%Z;
  NewServiceUnavailable_status m : exists s,
    apierrors_NewServiceUnavailable m = EStatus s /\ status_Code s = 503%Z;
  IsNotFound_NewNotFound r n : apierrors_IsNotFound (apierrors_NewNotFound r n) = true;
  IsNotFound_NewForbidden r n : apierrors_IsNotFound (apierrors_NewForbidden r n) = false;
  IsNotFound_NewBadRequest m : apierrors_IsNotFound (apierrors_NewBadRequest m) = false;
  IsNotFound_as_status e : as_status e = None -> apierrors_IsNotFound e = false;
  utilerrors_New_http c m : exists h,
    utilerrors_New c m = EHTTP h /\ http_Code h = c /\ http_Message h = m;
  utilerrors_NewBadRequest_http m : exists h,
    utilerrors_NewBadRequest m = EHTTP h /\ http_Code h = 400%Z;
  utilerrors_NewNotFound_http k n : exists h,
    utilerrors_NewNotFound k n = EHTTP h /\ http_Code h = 404%Z;
  utilerrors_NewAlreadyExists_http k n : exists h,
    utilerrors_NewAlreadyExists k n = EHTTP h /\ http_Code h = 409%Z;
  utilerrors_NewNotAuthorized_http : exists h,
    utilerrors_NewNotAuthorized = EHTTP h /\ http_Code h = 401%Z;
  utilerrors_NewWithDetails_http c m d : exists h,
    utilerrors_NewWithDetails c m d = EHTTP h /\ http_Code h = c /\
    http_Message h = m /\ http_Details h = d }.

Section with_errors.
Context {EL : ErrorLib}.

(** The method [Error] of an error value. *)
Fixpoint Error (e : error) : string :=
  match e with
  | EStatus s => status_Message s
  | EHTTP h => HTTPError_Error h
  | ErrNotFound => "the given resource was not found"
  | TokenExpiredError msg => "token expired: " +:+ msg
  | EWrap prefix e' => prefix +:+ Error e'
  | ENew msg => msg
  end.

(** handler/v1/common/error.go *)
Definition KubernetesErrorToHTTPError (err : error) : error :=
  match as_status err with
  | Some errStatus => utilerrors_New (status_Code errStatus) (status_Message errStatus)
  | None => err
  end.

(** handler/v1/project/project.go *)
Definition isStatus (err : error) (status : Z) : bool :=
  match as_status err with
  | Some statusErr => bool_decide (status = status_Code statusErr)
  | None => false
  end.

(** The code an error answers to the client with, as [WriteHTTPError]
    (handler/v1/common/common.go) computes it: that of an [HTTPError] in the
    chain, 500 for anything else. *)
Fixpoint http_status (e : error) : Z :=
  match e with
  | EHTTP h => http_Code h
  | EWrap _ e' => http_status e'
  | _ => 500
  end.

Definition httpErr {W A} (m : M W error A) : M W error A :=
  mapErr KubernetesErrorToHTTPError m.

Context `{!ErrorLibLaws EL}.

(** The status an API error answers with survives the translation, and an
    error that is not an API error goes through unchanged. *)
Lemma KubernetesErrorToHTTPError_status err s :
  as_status err = Some s -> http_status (KubernetesErrorToHTTPError err) = status_Code s.
Proof.
  intros H. unfold KubernetesErrorToHTTPError. rewrite H.
  destruct (utilerrors_New_http (status_Code s) (status_Message s)) as (h & -> & Hc & _).
  done.
Qed.

Lemma KubernetesErrorToHTTPError_other err :
  as_status err = None -> KubernetesErrorToHTTPError err = err.
Proof. intros H. unfold KubernetesErrorToHTTPError. by rewrite H. Qed.

Lemma KubernetesErrorToHTTPError_idem err :
  KubernetesErrorToHTTPError (KubernetesErrorToHTTPError err) = KubernetesErrorToHTTPError err.
Proof.
  destruct (as_status err) as [s|] eqn:H.
  - apply KubernetesErrorToHTTPError_other. unfold KubernetesErrorToHTTPError. rewrite H.
    by destruct (utilerrors_New_http (status_Code s) (status_Message s)) as (h & -> & _).
  - rewrite (KubernetesErrorToHTTPError_other err H). by apply KubernetesErrorToHTTPError_other.
Qed.

Lemma isStatus_NewNotFound r n : isStatus (apierrors_NewNotFound r n) 404 = true.
Proof.
  destruct (NewNotFound_status r n) as (s & -> & Hs). unfold isStatus. cbn.
  by rewrite Hs.
Qed.

Lemma IsNotFound_is_status e : apierrors_IsNotFound e = true -> exists s, as_status e = Some s.
Proof.
  intros H. destruct (as_status e) as [s|] eqn:Hs; [by eauto|].
  rewrite (IsNotFound_as_status e Hs) in H. discriminate H.
Qed.
End with_errors.

(** ** A concrete error library, for the witnesses *)

Definition reason_is (r : string) (e : error) : bool :=
  match as_status e with Some s => bool_decide (status_Reason s = r) | None => false end.

#[export] Instance refErrorLib : ErrorLib := {|
  apierrors_NewBadRequest m := EStatus (MkStatusErr 400 "BadRequest" m);
  apierrors_NewForbidden n e := EStatus (MkStatusErr 403 "Forbidden" (n +:+ " is forbidden"));
  apierrors_NewNotFound r n :=
    EStatus (MkStatusErr 404 "NotFound" (r +:+ " " +:+ n +:+ " not found"));
  apierrors_NewServiceUnavailable m := EStatus (MkStatusErr 503 "ServiceUnavailable" m);
  apierrors_NewInternalError e := EStatus (MkStatusErr 500 "InternalError" "internal error");
  apierrors_IsNotFound := reason_is "NotFound";
  apierrors_IsAlreadyExists := reason_is "AlreadyExists";
  apierrors_IsConflict := reason_is "Conflict";
  utilerrors_New c m := EHTTP (MkHTTPErr c m []);
  utilerrors_NewBadRequest m := EHTTP (MkHTTPErr 400 m []);
  utilerrors_NewNotFound k n := EHTTP (MkHTTPErr 404 (k +:+ " " +:+ n +:+ " not found") []);
  utilerrors_NewAlreadyExists k n :=
    EHTTP (MkHTTPErr 409 (k +:+ " " +:+ n +:+ " already exists") []);
  utilerrors_NewNotAuthorized := EHTTP (MkHTTPErr 401 "not authorized" []);
  utilerrors_NewWithDetails c m d := EHTTP (MkHTTPErr c m d);
  utilerrors_NewAggregate l := ENew "aggregate";
  HTTPError_Error h := http_Message h |}.

#[export] Instance refErrorLibLaws : ErrorLibLaws refErrorLib.
Proof.
  split; intros; try (by eexists); try (by eexists; eauto); try done.
  cbn. unfold reason_is. by rewrite H.
Qed.
