(* ===== verification/GoURL.v ===== *)
(** The package net/url of Go, as far as the redirects of the login use it:
    [url.Parse], [URL.String], [URL.Hostname], [URL.Port], [url.Values].  A host
    in brackets is accepted when netip.ParseAddr takes it for an IPv6 address:
    the class [IPAddr] (the parser of addresses is the package net/netip). *)
From S2P Require Export Errors.
From Stdlib Require Import Ascii.

(** netip.ParseAddr succeeds with an address that is not IPv4. *)
Class IPAddr := ip6_literal : string -> bool.

(** ** Cutting strings *)

(** [strings.Cut(s, sep)] for a separator of one byte: before, after, found. *)
Fixpoint Cut (s : string) (sep : ascii) : string * string * bool :=
  match s with
  | EmptyString => ("", "", false)
  | String c s' =>
      if bool_decide (c = sep) then ("", s', true)
      else let r := Cut s' sep in (String c r.1.1, r.1.2, r.2)
  end.

(** The parts of [s] on both sides of the last [sep]. *)
Fixpoint CutLast (s : string) (sep : ascii) : option (string * string) :=
  match s with
  | EmptyString => None
  | String c s' =>
      match CutLast s' sep with
      | Some (a, b) => Some (String c a, b)
      | None => if bool_decide (c = sep) then Some ("", s') else None
      end
  end.

Definition ContainsChar (s : string) (c : ascii) : bool := (Cut s c).2.

(** The parts of [s] before and from the first occurrence of [sub]. *)
Fixpoint CutAt (s sub : string) : option (string * string) :=
  if HasPrefix s sub then Some ("", s) else
  match s with
  | EmptyString => None
  | String c s' => match CutAt s' sub with
                   | Some (a, b) => Some (String c a, b)
                   | None => None
                   end
  end.

Definition string_forallb (f : ascii -> bool) (s : string) : bool :=
  forallb f (String.list_ascii_of_string s).
Definition count_char (c : ascii) (s : string) : nat :=
  length (List.filter (fun d => bool_decide (d = c)) (String.list_ascii_of_string s)).

(** ** Escapes *)

(** type encoding *)
Inductive encoding :=
| encodePath | encodeHost | encodeZone | encodeUserPassword | encodeQueryComponent | encodeFragment.
#[export] Instance encoding_eq_dec : EqDecision encoding.
Proof. solve_decision. Defined.

Definition in_range (a b : nat) (c : ascii) : bool :=
  let n := nat_of_ascii c in (a <=? n) && (n <=? b).
Definition is_alpha (c : ascii) : bool := in_range 97 122 c || in_range 65 90 c.
Definition is_digit (c : ascii) : bool := in_range 48 57 c.
Definition ishex (c : ascii) : bool := is_digit c || in_range 97 102 c || in_range 65 70 c.
Definition url_unhex (c : ascii) : nat :=
  let n := nat_of_ascii c in
  if is_digit c then n - 48 else if in_range 97 102 c then n - 87 else
  if in_range 65 70 c then n - 55 else 0.

Definition char_in (s : string) (c : ascii) : bool := ContainsChar s c.

Definition shouldEscape (c : ascii) (mode : encoding) : bool :=
  if is_alpha c || is_digit c then false else
  if (bool_decide (mode = encodeHost) || bool_decide (mode = encodeZone)) &&
     char_in ("!$&'()*+,;=:[]<>" +:+ dquote) c then false else
  if char_in "-_.~" c then false else
  if char_in "$&+,/:;=?@" c then
    match mode with
    | encodePath => bool_decide (c = "?"%char)
    | encodeUserPassword => char_in "@/?:" c
    | encodeQueryComponent => true
    | encodeFragment => false
    | _ => true
    end
  else if bool_decide (mode = encodeFragment) && char_in "!()*" c then false
  else true.

Definition upper_hex (n : nat) : ascii := ascii_of_nat (if n <? 10 then 48 + n else 55 + n).

Definition escape_char (mode : encoding) (c : ascii) : string :=
  if bool_decide (c = " "%char) && bool_decide (mode = encodeQueryComponent) then "+" else
  if shouldEscape c mode
  then String "%" (String (upper_hex (nat_of_ascii c / 16)) (String (upper_hex (nat_of_ascii c mod 16)) ""))
  else String c "".
Fixpoint escape (s : string) (mode : encoding) : string :=
  match s with
  | EmptyString => ""
  | String c s' => escape_char mode c +:+ escape s' mode
  end.

Definition hex_byte (a b : ascii) : ascii := ascii_of_nat (16 * url_unhex a + url_unhex b).

Fixpoint url_unescape (s : string) (mode : encoding) : result error string :=
  match s with
  | EmptyString => Ok ""
  | String c s' =>
      if bool_decide (c = "%"%char) then
        match s' with
        | String a (String b s'') =>
            let esc := String "%" (String a (String b "")) in
            if negb (ishex a && ishex b) ||
               (bool_decide (mode = encodeHost) && (url_unhex a <? 8) && negb (bool_decide (esc = "%25"))) ||
               (bool_decide (mode = encodeZone) && negb (bool_decide (esc = "%25")) &&
                negb (bool_decide (hex_byte a b = " "%char)) && shouldEscape (hex_byte a b) encodeHost)
            then Err (ENew ("invalid URL escape " +:+ quote esc))
            else match url_unescape s'' mode with
                 | Ok t => Ok (String (hex_byte a b) t)
                 | r => r
                 end
        | _ => Err (ENew ("invalid URL escape " +:+ quote s))
        end
      else if bool_decide (c = "+"%char) && bool_decide (mode = encodeQueryComponent) then
        match url_unescape s' mode with Ok t => Ok (String " " t) | r => r end
      else if (bool_decide (mode = encodeHost) || bool_decide (mode = encodeZone)) &&
              (nat_of_ascii c <? 128) && shouldEscape c mode
      then Err (ENew ("invalid character " +:+ quote (String c "") +:+ " in host name"))
      else match url_unescape s' mode with Ok t => Ok (String c t) | r => r end
  end.

(** ** URLs *)

(** type Userinfo *)
Record Userinfo := MkUserinfo {
  ui_username : string;
  ui_password : option string }.

(** type URL *)
Record URL := MkURL {
  url_Scheme : string;
  url_Opaque : string;
  url_User : option Userinfo;
  url_Host : string;
  url_Path : string;
  url_RawPath : string;
  url_OmitHost : bool;
  url_ForceQuery : bool;
  url_RawQuery : string;
  url_Fragment : string;
  url_RawFragment : string }.

Section parse.
Context {IP : IPAddr}.

Fixpoint getScheme_loop (s : string) (first : bool) : result error (option (string * string)) :=
  match s with
  | EmptyString => Ok None
  | String c s' =>
      let more := match getScheme_loop s' false with
                  | Ok (Some (a, b)) => Ok (Some (String c a, b))
                  | r => r
                  end in
      if is_alpha c then more else
      if is_digit c || char_in "+-." c then (if first then Ok None else more) else
      if bool_decide (c = ":"%char)
      then if first then Err (ENew "missing protocol scheme") else Ok (Some ("", s'))
      else Ok None
  end.

(** The scheme and the rest; without a scheme the rest is everything. *)
Definition getScheme (rawURL : string) : result error (string * string) :=
  match getScheme_loop rawURL true with
  | Ok (Some p) => Ok p
  | Ok None => Ok ("", rawURL)
  | Err e => Err e
  | Panic => Panic
  end.

Definition validOptionalPort (port : string) : bool :=
  match port with
  | EmptyString => true
  | String c s => bool_decide (c = ":"%char) && string_forallb is_digit s
  end.

Definition invalid_port (colonPort : string) : error :=
  ENew ("invalid port " +:+ quote colonPort +:+ " after host").

(** [a] and, when it succeeds, [b]. *)
Definition both {A B C} (a : result error A) (b : result error B) (f : A -> B -> C) : result error C :=
  match a with
  | Ok x => match b with Ok y => Ok (f x y) | Err e => Err e | Panic => Panic end
  | Err e => Err e
  | Panic => Panic
  end.

Definition bracketed_host (hostname : string) : result error string :=
  match CutAt hostname "%25" with
  | Some (host, zone) =>
      both (url_unescape host encodeHost) (url_unescape zone encodeZone) (fun a b => a +:+ b)
  | None => url_unescape hostname encodeHost
  end.

Definition parseHost (host : string) : result error string :=
  match CutLast host "["%char with
  | Some (before, after) =>
      if negb (is_empty before) then Err (ENew "invalid IP-literal") else
      match CutLast after "]"%char with
      | None => Err (ENew "missing ']' in host")
      | Some (hostname, colonPort) =>
          if negb (validOptionalPort colonPort) then Err (invalid_port colonPort) else
          match both (url_unescape colonPort encodeHost) (bracketed_host hostname) pair with
          | Ok (port, name) =>
              if ip6_literal name then Ok ("[" +:+ name +:+ "]" +:+ port)
              else Err (ENew "invalid IP-literal")
          | Err e => Err e
          | Panic => Panic
          end
      end
  | None =>
      match CutLast host ":"%char with
      | Some (_, port) =>
          if negb (validOptionalPort (":" +:+ port)) then Err (invalid_port (":" +:+ port))
          else url_unescape host encodeHost
      | None => url_unescape host encodeHost
      end
  end.

Definition validUserinfo (s : string) : bool :=
  string_forallb (fun c => is_alpha c || is_digit c || char_in "-._:~!$&'()*+,;=%@" c) s.

Definition parseUserinfo (userinfo : string) : result error Userinfo :=
  if negb (validUserinfo userinfo) then Err (ENew "net/url: invalid userinfo") else
  match Cut userinfo ":"%char with
  | (username, password, true) =>
      both (url_unescape username encodeUserPassword) (url_unescape password encodeUserPassword)
        (fun u p => MkUserinfo u (Some p))
  | _ => match url_unescape userinfo encodeUserPassword with
         | Ok u => Ok (MkUserinfo u None)
         | Err e => Err e
         | Panic => Panic
         end
  end.

Definition parseAuthority (authority : string) : result error (option Userinfo * string) :=
  match CutLast authority "@"%char with
  | None => match parseHost authority with
            | Ok host => Ok (None, host)
            | Err e => Err e
            | Panic => Panic
            end
  | Some (userinfo, rest) =>
      both (parseHost rest) (parseUserinfo userinfo) (fun host user => (Some user, host))
  end.

Definition url_with_authority (a : option Userinfo * string) (u : URL) : URL :=
  MkURL (url_Scheme u) (url_Opaque u) a.1 a.2 (url_Path u) (url_RawPath u) (url_OmitHost u)
    (url_ForceQuery u) (url_RawQuery u) (url_Fragment u) (url_RawFragment u).
Definition url_with_opaque (o : string) (u : URL) : URL :=
  MkURL (url_Scheme u) o (url_User u) (url_Host u) (url_Path u) (url_RawPath u) (url_OmitHost u)
    (url_ForceQuery u) (url_RawQuery u) (url_Fragment u) (url_RawFragment u).
Definition url_with_omitHost (o : bool) (u : URL) : URL :=
  MkURL (url_Scheme u) (url_Opaque u) (url_User u) (url_Host u) (url_Path u) (url_RawPath u) o
    (url_ForceQuery u) (url_RawQuery u) (url_Fragment u) (url_RawFragment u).
Definition url_with_path (p raw : string) (u : URL) : URL :=
  MkURL (url_Scheme u) (url_Opaque u) (url_User u) (url_Host u) p raw (url_OmitHost u)
    (url_ForceQuery u) (url_RawQuery u) (url_Fragment u) (url_RawFragment u).
Definition url_with_rawQuery (q : string) (u : URL) : URL :=
  MkURL (url_Scheme u) (url_Opaque u) (url_User u) (url_Host u) (url_Path u) (url_RawPath u)
    (url_OmitHost u) (url_ForceQuery u) q (url_Fragment u) (url_RawFragment u).
Definition url_with_fragment (f raw : string) (u : URL) : URL :=
  MkURL (url_Scheme u) (url_Opaque u) (url_User u) (url_Host u) (url_Path u) (url_RawPath u)
    (url_OmitHost u) (url_ForceQuery u) (url_RawQuery u) f raw.

(** The path as it was written is kept when the default encoding differs. *)
Definition setPath (p : string) (u : URL) : result error URL :=
  match url_unescape p encodePath with
  | Ok path => Ok (url_with_path path (if bool_decide (p = escape path encodePath) then "" else p) u)
  | Err e => Err e
  | Panic => Panic
  end.
Definition setFragment (f : string) (u : URL) : result error URL :=
  match url_unescape f encodeFragment with
  | Ok frag => Ok (url_with_fragment frag (if bool_decide (f = escape frag encodeFragment) then "" else f) u)
  | Err e => Err e
  | Panic => Panic
  end.

Definition is_ctl (c : ascii) : bool := (nat_of_ascii c <? 32) || (nat_of_ascii c =? 127).

(** What follows the scheme, the query cut off. *)
Definition parseRest (u : URL) (rest : string) : result error URL :=
  if negb (HasPrefix rest "/") && negb (is_empty (url_Scheme u)) then Ok (url_with_opaque rest u) else
  if negb (HasPrefix rest "/") && ContainsChar (Cut rest "/"%char).1.1 ":"%char
  then Err (ENew "first path segment in URL cannot contain colon") else
  if (negb (is_empty (url_Scheme u)) || negb (HasPrefix rest "///")) && HasPrefix rest "//" then
    let '(authority, path, found) := Cut (drop_string 2 rest) "/"%char in
    match parseAuthority authority with
    | Ok a => setPath (if found then "/" +:+ path else "") (url_with_authority a u)
    | Err e => Err e
    | Panic => Panic
    end
  else setPath rest (url_with_omitHost (negb (is_empty (url_Scheme u)) && HasPrefix rest "/") u).

(** The URL without its fragment. *)
Definition parseNoFragment (rawURL : string) : result error URL :=
  if negb (string_forallb (fun c => negb (is_ctl c)) rawURL)
  then Err (ENew "net/url: invalid control character in URL") else
  let u := MkURL "" "" None "" "" "" false false "" "" "" in
  if bool_decide (rawURL = "*") then Ok (url_with_path "*" "" u) else
  match getScheme rawURL with
  | Ok (scheme, rest) =>
      let scheme := ToLower scheme in
      match CutLast rest "?"%char with
      | Some (before, EmptyString) =>
          if bool_decide (count_char "?"%char rest = 1)
          then parseRest (MkURL scheme "" None "" "" "" false true "" "" "") before
          else parseRest (MkURL scheme "" None "" "" "" false false (Cut rest "?"%char).1.2 "" "")
                 (Cut rest "?"%char).1.1
      | _ => parseRest (MkURL scheme "" None "" "" "" false false (Cut rest "?"%char).1.2 "" "")
               (Cut rest "?"%char).1.1
      end
  | Err e => Err e
  | Panic => Panic
  end.

(** [url.Parse(rawURL)]. *)
Definition url_Parse (rawURL : string) : result error URL :=
  let '(u, frag, _) := Cut rawURL "#"%char in
  match parseNoFragment u with
  | Ok url => if is_empty frag then Ok url else
      match setFragment frag url with
      | Err err => Err (EWrap ("parse " +:+ quote rawURL +:+ ": ") err)
      | r => r
      end
  | Err err => Err (EWrap ("parse " +:+ quote u +:+ ": ") err)
  | Panic => Panic
  end.
End parse.

(** splitHostPort: a port is split off when it is valid; brackets are removed. *)
Definition split_port (hostPort : string) : string * string :=
  match CutLast hostPort ":"%char with
  | Some (host, port) => if validOptionalPort (":" +:+ port) then (host, port) else (hostPort, "")
  | None => (hostPort, "")
  end.
Definition unbracket (host : string) : string :=
  match CutLast host "]"%char with
  | Some (h, EmptyString) => if HasPrefix host "[" then drop_string 1 h else host
  | _ => host
  end.
Definition splitHostPort (hostPort : string) : string * string :=
  let '(host, port) := split_port hostPort in (unbracket host, port).
Definition url_Hostname (u : URL) : string := (splitHostPort (url_Host u)).1.
Definition url_Port (u : URL) : string := (splitHostPort (url_Host u)).2.

(** ** Printing *)

Definition validEncoded (s : string) (mode : encoding) : bool :=
  string_forallb (fun c => char_in "!$&'()*+,;=:@[]%" c || negb (shouldEscape c mode)) s.

Definition EscapedPath (u : URL) : string :=
  if negb (is_empty (url_RawPath u)) && validEncoded (url_RawPath u) encodePath &&
     bool_decide (url_unescape (url_RawPath u) encodePath = Ok (url_Path u)) then url_RawPath u else
  if bool_decide (url_Path u = "*") then "*" else escape (url_Path u) encodePath.
Definition EscapedFragment (u : URL) : string :=
  if negb (is_empty (url_RawFragment u)) && validEncoded (url_RawFragment u) encodeFragment &&
     bool_decide (url_unescape (url_RawFragment u) encodeFragment = Ok (url_Fragment u))
  then url_RawFragment u else escape (url_Fragment u) encodeFragment.

Definition Userinfo_String (u : Userinfo) : string :=
  escape (ui_username u) encodeUserPassword +:+
  match ui_password u with Some p => ":" +:+ escape p encodeUserPassword | None => "" end.

Definition url_authority (u : URL) : string :=
  if is_empty (url_Scheme u) && is_empty (url_Host u) && bool_decide (url_User u = None) then "" else
  if url_OmitHost u && is_empty (url_Host u) && bool_decide (url_User u = None) then "" else
  (if negb (is_empty (url_Host u)) || negb (is_empty (url_Path u)) || negb (bool_decide (url_User u = None))
   then "//" else "") +:+
  match url_User u with Some ui => Userinfo_String ui +:+ "@" | None => "" end +:+
  (if is_empty (url_Host u) then "" else escape (url_Host u) encodeHost).

(** [u.String()]. *)
Definition url_String (u : URL) : string :=
  let scheme := if is_empty (url_Scheme u) then "" else url_Scheme u +:+ ":" in
  let body :=
    if negb (is_empty (url_Opaque u)) then url_Opaque u else
    let path := EscapedPath u in
    let slash := if negb (is_empty path) && negb (HasPrefix path "/") && negb (is_empty (url_Host u))
                 then "/" else "" in
    let before := scheme +:+ url_authority u +:+ slash in
    url_authority u +:+ slash +:+
    (if is_empty before && ContainsChar (Cut path "/"%char).1.1 ":"%char then "./" else "") +:+ path in
  scheme +:+ body +:+
  (if url_ForceQuery u || negb (is_empty (url_RawQuery u)) then "?" +:+ url_RawQuery u else "") +:+
  (if is_empty (url_Fragment u) then "" else "#" +:+ EscapedFragment u).

(** ** Values *)

(** type Values *)
Abbreviation Values := (gmap string (list string)).

Definition values_get (k : string) (v : Values) : string :=
  match v !! k with Some (x :: _) => x | _ => "" end.
Definition values_set (k x : string) (v : Values) : Values := <[ k := [x] ]> v.
Definition values_has (k : string) (v : Values) : bool := bool_decide (is_Some (v !! k)).
Definition values_add (k x : string) (v : Values) : Values := <[ k := default [] (v !! k) ++ [x] ]> v.

(** One setting of a query; a malformed one is left out. *)
Definition parseSetting (m : Values) (setting : string) : Values :=
  if ContainsChar setting ";"%char || is_empty setting then m else
  let '(key, value, _) := Cut setting "="%char in
  match url_unescape key encodeQueryComponent, url_unescape value encodeQueryComponent with
  | Ok key, Ok value => values_add key value m
  | _, _ => m
  end.

(** [u.Query()]: the settings that url.ParseQuery accepts. *)
Definition ParseQuery (query : string) : Values := fold_left parseSetting (Split query "&"%char) ∅.
Definition url_Query (u : URL) : Values := ParseQuery (url_RawQuery u).

Definition encode_setting (k x : string) : string :=
  escape k encodeQueryComponent +:+ "=" +:+ escape x encodeQueryComponent.

(** [v.Encode()]: sorted by key. *)
Definition values_Encode (v : Values) : string :=
  String.concat "&" (set_list (dom v) ≫= (fun k => encode_setting k <$> default [] (v !! k))).

(** ** Lemmas *)

Lemma Cut_app a b c : ContainsChar a c = false -> Cut (a +:+ String c b) c = (a, b, true).
Proof.
  unfold ContainsChar. induction a as [|d a IH]; intros H.
  - change ("" +:+ String c b) with (String c b). cbn [Cut]. by rewrite bool_decide_true.
  - change (String d a +:+ String c b) with (String d (a +:+ String c b)). cbn [Cut] in *.
    case_bool_decide; [done|]. cbn [snd] in H. by rewrite IH.
Qed.

Lemma ContainsChar_app a b c : ContainsChar (a +:+ b) c = ContainsChar a c || ContainsChar b c.
Proof.
  unfold ContainsChar. induction a as [|d a IH]; [done|].
  change (String d a +:+ b) with (String d (a +:+ b)). cbn [Cut]. case_bool_decide; [done|]. exact IH.
Qed.

Lemma Split_one a c : ContainsChar a c = false -> Split a c = [a].
Proof.
  unfold ContainsChar. induction a as [|d a IH]; [done|]. cbn [Cut Split].
  case_bool_decide; [done|]. cbn [snd]. intros Ha. by rewrite IH.
Qed.
Lemma Split_app a b c : ContainsChar a c = false -> Split (a +:+ String c b) c = a :: Split b c.
Proof.
  unfold ContainsChar. induction a as [|d a IH]; intros H.
  - change ("" +:+ String c b) with (String c b). cbn [Split]. by rewrite bool_decide_true.
  - change (String d a +:+ String c b) with (String d (a +:+ String c b)). cbn [Cut Split] in *.
    case_bool_decide; [done|]. cbn [snd] in H. by rewrite IH.
Qed.

(** Joining with a separator that no part has, and splitting again. *)
Lemma Split_concat l c :
  Forall (fun s => ContainsChar s c = false) l -> l <> [] ->
  Split (String.concat (String c "") l) c = l.
Proof.
  induction 1 as [|a l Ha Hl IH]; [done|]. intros _. destruct l as [|b l]; [by apply Split_one|].
  change (String.concat (String c "") (a :: b :: l))
    with (a +:+ String c (String.concat (String c "") (b :: l))).
  rewrite Split_app by done. f_equal. by apply IH.
Qed.

Lemma query_unescape_char c t :
  url_unescape (escape_char encodeQueryComponent c +:+ t) encodeQueryComponent =
  match url_unescape t encodeQueryComponent with Ok t' => Ok (String c t') | r => r end.
Proof. destruct c as [[] [] [] [] [] [] [] []]; reflexivity. Qed.

Lemma query_unescape_escape s : url_unescape (escape s encodeQueryComponent) encodeQueryComponent = Ok s.
Proof. induction s as [|c s IH]; [done|]. cbn [escape]. by rewrite query_unescape_char, IH. Qed.

Lemma query_escape_char c d :
  d = "&"%char \/ d = "="%char \/ d = ";"%char -> ContainsChar (escape_char encodeQueryComponent c) d = false.
Proof. intros [->|[->| ->]]; destruct c as [[] [] [] [] [] [] [] []]; reflexivity. Qed.

Lemma query_escape_clean s d :
  d = "&"%char \/ d = "="%char \/ d = ";"%char -> ContainsChar (escape s encodeQueryComponent) d = false.
Proof.
  intros Hd. induction s as [|c s IH]; [done|]. cbn [escape].
  by rewrite ContainsChar_app, IH, query_escape_char.
Qed.

Lemma encode_setting_clean k x d :
  d = "&"%char \/ d = ";"%char -> ContainsChar (encode_setting k x) d = false.
Proof.
  intros Hd. unfold encode_setting. rewrite !ContainsChar_app, !query_escape_clean by naive_solver.
  by destruct Hd as [->| ->].
Qed.

Lemma parseSetting_encoded m k x : parseSetting m (encode_setting k x) = values_add k x m.
Proof.
  unfold parseSetting. rewrite encode_setting_clean by auto. cbn [orb].
  replace (is_empty (encode_setting k x)) with false.
  2: { symmetry. apply is_empty_false. unfold encode_setting.
       destruct (escape k encodeQueryComponent); done. }
  unfold encode_setting. change ("=" +:+ ?y) with (String "=" y).
  rewrite Cut_app by (apply query_escape_clean; auto). by rewrite !query_unescape_escape.
Qed.

Lemma fold_settings k xs m :
  fold_left parseSetting (encode_setting k <$> xs) m =
  if bool_decide (xs = []) then m else <[ k := default [] (m !! k) ++ xs ]> m.
Proof.
  revert m. induction xs as [|x xs IH]; intros m; [done|]. cbn [fmap list_fmap fold_left].
  rewrite parseSetting_encoded, IH. unfold values_add. case_bool_decide as Hxs.
  - subst xs. by rewrite bool_decide_false by done.
  - rewrite bool_decide_false by done. rewrite lookup_insert_eq, insert_insert_eq. cbn [default from_option id].
    by rewrite <- (assoc_L (++)).
Qed.

Lemma fold_keys (v m : Values) ks :
  NoDup ks -> (forall k, k ∈ ks -> m !! k = None) ->
  forall k, fold_left parseSetting (ks ≫= (fun k => encode_setting k <$> default [] (v !! k))) m !! k =
    if bool_decide (k ∈ ks) then (match v !! k with Some [] => None | r => r end) else m !! k.
Proof.
  intros Hnd. revert m. induction Hnd as [|k0 ks Hk0 Hnd IH]; intros m Hm k.
  { cbn. by rewrite bool_decide_false by apply not_elem_of_nil. }
  cbn [mbind list_bind]. rewrite fold_left_app, fold_settings.
  set (m' := if bool_decide _ then m else _).
  assert (m' !! k0 = match v !! k0 with Some [] => None | r => r end) as Hk0'.
  { subst m'. pose proof (Hm k0 ltac:(set_solver)) as E.
    destruct (v !! k0) as [[|x xs]|]; cbn; [done| |done]. by rewrite E, lookup_insert_eq. }
  assert (forall k, k <> k0 -> m' !! k = m !! k) as Hne.
  { intros k' Hk'. subst m'. case_bool_decide; [done|]. by rewrite lookup_insert_ne. }
  rewrite IH by (intros k' Hk'; rewrite Hne by (by intros ->); apply Hm; set_solver).
  destruct (decide (k = k0)) as [->|Hkk].
  - rewrite (bool_decide_false _ Hk0), bool_decide_true by set_solver. done.
  - rewrite Hne by done. by rewrite (bool_decide_ext (k ∈ ks) (k ∈ k0 :: ks)) by set_solver.
Qed.

(** Values without an empty list are read back from their encoding. *)
Lemma ParseQuery_Encode (v : Values) : (forall k, v !! k <> Some []) -> ParseQuery (values_Encode v) = v.
Proof.
  intros Hv. unfold ParseQuery, values_Encode.
  set (settings := set_list (dom v) ≫= (fun k => encode_setting k <$> default [] (v !! k))).
  assert (fold_left parseSetting settings ∅ = v) as Hfold.
  { apply map_eq. intros k. subst settings. rewrite fold_keys; [|apply NoDup_set_list|by intros; apply lookup_empty].
    rewrite lookup_empty. case_bool_decide as Hk.
    - specialize (Hv k). by destruct (v !! k) as [[|]|].
    - rewrite elem_of_set_list in Hk. symmetry. by apply not_elem_of_dom. }
  destruct settings as [|s l] eqn:E; [exact Hfold|].
  change "&" with (String "&" ""). rewrite Split_concat; [exact Hfold| |done].
  rewrite <- E. unfold settings. apply Forall_forall. intros x (k & Hx & _)%list_elem_of_bind.
  apply list_elem_of_fmap in Hx as (y & -> & _). apply encode_setting_clean. by auto.
Qed.

Lemma values_set_nonempty k x (v : Values) : (forall k, v !! k <> Some []) -> forall k', values_set k x v !! k' <> Some [].
Proof. intros Hv k'. unfold values_set. intros [[_ H]|[_ H]]%lookup_insert_Some; [done|by eapply Hv]. Qed.

Lemma ParseQuery_nonempty q k : ParseQuery q !! k <> Some [].
Proof.
  unfold ParseQuery. assert (forall k, (∅ : Values) !! k <> Some []) as H by (intros k'; by rewrite lookup_empty).
  revert H. generalize (∅ : Values). induction (Split q "&") as [|s l IH]; intros m Hm; [apply Hm|].
  cbn [fold_left]. apply IH. intros k'. unfold parseSetting.
  destruct (_ || _); [apply Hm|]. destruct (Cut s "=") as [[a b] f].
  destruct (url_unescape a _); [|apply Hm..]. destruct (url_unescape b _); [|apply Hm..].
  unfold values_add. intros [[_ H]|[_ H]]%lookup_insert_Some; [by destruct (default [] _)|by eapply Hm].
Qed.

(** ** Hosts *)

(** The text of an IPv6 address has a colon. *)
Class IPAddrLaws (IP : IPAddr) : Prop :=
  ip6_colon s : ip6_literal s = true -> ContainsChar s ":"%char = true.

Lemma CutLast_none s c : ContainsChar s c = false -> CutLast s c = None.
Proof.
  unfold ContainsChar. induction s as [|d s IH]; [done|]. cbn [Cut CutLast].
  case_bool_decide; [done|]. cbn [snd]. intros Hs. by rewrite IH.
Qed.
Lemma CutLast_app a b c : ContainsChar b c = false -> CutLast (a +:+ String c b) c = Some (a, b).
Proof.
  intros Hb. induction a as [|d a IH].
  - change ("" +:+ String c b) with (String c b). cbn [CutLast]. rewrite CutLast_none by done.
    by rewrite bool_decide_true.
  - change (String d a +:+ String c b) with (String d (a +:+ String c b)). cbn [CutLast]. by rewrite IH.
Qed.
(** Behind the last separator the string may go on. *)
Lemma CutLast_more a b c : ContainsChar b c = false ->
  CutLast (a +:+ b) c = match CutLast a c with Some (x, y) => Some (x, y +:+ b) | None => None end.
Proof.
  intros Hb. induction a as [|d a IH]; [by apply CutLast_none|].
  change (String d a +:+ b) with (String d (a +:+ b)). cbn [CutLast]. rewrite IH.
  destruct (CutLast a c) as [[x y]|]; [done|]. by case_bool_decide.
Qed.
Lemma CutLast_some s c a b : CutLast s c = Some (a, b) -> s = a +:+ String c b /\ ContainsChar b c = false.
Proof.
  revert a b. induction s as [|d s IH]; intros a b; [done|]. cbn [CutLast].
  destruct (CutLast s c) as [[x y]|] eqn:E.
  - intros [= <- <-]. destruct (IH _ _ eq_refl) as [-> Hy]. done.
  - case_bool_decide as Hd; [|done]. intros [= <- <-]. subst d. split; [done|].
    clear IH. unfold ContainsChar. revert E. induction s as [|d s IH]; [done|]. cbn [CutLast Cut].
    destruct (CutLast s c) as [[x y]|]; [done|]. case_bool_decide; [done|]. intros _. by apply IH.
Qed.

Lemma string_forallb_app f a b : string_forallb f (a +:+ b) = string_forallb f a && string_forallb f b.
Proof.
  unfold string_forallb. induction a as [|c a IH]; [done|].
  change (String c a +:+ b) with (String c (a +:+ b)). cbn. by rewrite IH, andb_assoc.
Qed.
Lemma digits_clean s c : string_forallb is_digit s = true -> is_digit c = false -> ContainsChar s c = false.
Proof.
  unfold string_forallb, ContainsChar. intros Hs Hc. induction s as [|d s IH]; [done|].
  cbn in *. apply andb_true_iff in Hs as [Hd Hs].
  rewrite bool_decide_false by (by intros ->; rewrite Hd in Hc). cbn. by apply IH.
Qed.

Lemma validOptionalPort_digits p : validOptionalPort (":" +:+ p) = string_forallb is_digit p.
Proof. change (":" +:+ p) with (String ":" p). cbn. by rewrite bool_decide_true. Qed.

(** A host and a port as [net.JoinHostPort] and the canonical form write them. *)
Definition host_port (h p : string) : string :=
  if is_empty p then (if ContainsChar h ":"%char then "[" +:+ h +:+ "]" else h)
  else if ContainsChar h ":"%char then "[" +:+ h +:+ "]:" +:+ p else h +:+ ":" +:+ p.
Definition plain_host (h : string) : Prop :=
  ContainsChar h ":"%char = true \/ ContainsChar h "["%char = false.

Lemma HasPrefix_char s c : ContainsChar s c = false -> HasPrefix s (String c "") = false.
Proof. destruct s as [|d s]; [done|]. unfold ContainsChar. cbn. by do 2 case_bool_decide. Qed.

Lemma unbracket_brackets h : unbracket ("[" +:+ h +:+ "]") = h.
Proof.
  unfold unbracket. rewrite HasPrefix_app, <- string_app_assoc. change "]" with (String "]" "").
  rewrite CutLast_app by done. apply (drop_string_app "[").
Qed.
Lemma unbracket_plain h : ContainsChar h "["%char = false -> unbracket h = h.
Proof. intros Hh. unfold unbracket. rewrite (HasPrefix_char h "[" Hh). by destruct (CutLast h "]") as [[? []]|]. Qed.

Lemma split_port_port h p : string_forallb is_digit p = true -> split_port (h +:+ ":" +:+ p) = (h, p).
Proof.
  intros Hp. pose proof (digits_clean p ":" Hp eq_refl) as Hpc. unfold split_port.
  change (":" +:+ p) with (String ":" p). rewrite CutLast_app by done.
  change (String ":" p) with (":" +:+ p). by rewrite validOptionalPort_digits, Hp.
Qed.
Lemma split_port_bracketed h : split_port (h +:+ "]") = (h +:+ "]", "").
Proof.
  unfold split_port. rewrite CutLast_more by done. destruct (CutLast _ _) as [[x y]|]; [|done].
  by rewrite validOptionalPort_digits, string_forallb_app, andb_false_r.
Qed.
Lemma split_port_plain h : ContainsChar h ":"%char = false -> split_port h = (h, "").
Proof. intros Hh. unfold split_port. by rewrite CutLast_none. Qed.

(** A host and a port are taken apart as they were put together. *)
Lemma splitHostPort_host_port h p :
  plain_host h -> string_forallb is_digit p = true -> splitHostPort (host_port h p) = (h, p).
Proof.
  intros Hh Hp. unfold host_port, splitHostPort.
  destruct (is_empty p) eqn:Ep, (ContainsChar h ":") eqn:Eh.
  - apply is_empty_spec in Ep as ->. rewrite <- string_app_assoc, split_port_bracketed, string_app_assoc.
    by rewrite unbracket_brackets.
  - apply is_empty_spec in Ep as ->. destruct Hh as [Hh|Hh]; [congruence|].
    by rewrite split_port_plain, unbracket_plain.
  - change ("]:" +:+ p) with ("]" +:+ ":" +:+ p). rewrite <- (string_app_assoc h), <- (string_app_assoc "[").
    by rewrite split_port_port, unbracket_brackets.
  - destruct Hh as [Hh|Hh]; [congruence|]. by rewrite split_port_port, unbracket_plain.
Qed.

Lemma splitHostPort_digits s : string_forallb is_digit (splitHostPort s).2 = true.
Proof.
  unfold splitHostPort, split_port. destruct (CutLast s ":") as [[h p]|]; [|done].
  rewrite validOptionalPort_digits. by destruct (string_forallb is_digit p) eqn:E.
Qed.

Lemma ContainsChar_cons d s c :
  ContainsChar (String d s) c = false -> d <> c /\ ContainsChar s c = false.
Proof. unfold ContainsChar. cbn [Cut]. by case_bool_decide. Qed.

Lemma hex_byte_high a b : ishex a = true -> ishex b = true -> 8 <= url_unhex a -> hex_byte a b <> "["%char.
Proof.
  intros Ha Hb Hlow E. assert (nat_of_ascii (hex_byte a b) = 91) as E' by by rewrite E.
  assert (url_unhex b < 16) as Hb16.
  { clear - Hb. destruct b as [[] [] [] [] [] [] [] []]; vm_compute in Hb |- *; try discriminate Hb; lia. }
  assert (url_unhex a < 16) as Ha16.
  { clear - Ha. destruct a as [[] [] [] [] [] [] [] []]; vm_compute in Ha |- *; try discriminate Ha; lia. }
  unfold hex_byte in E'. rewrite nat_ascii_embedding in E'; lia.
Qed.

Lemma ContainsChar_tail d c r t : d <> c ->
  match r : result error string with Ok t' => Ok (String d t') | r => r end = Ok t ->
  (forall t', r = Ok t' -> ContainsChar t' c = false) -> ContainsChar t c = false.
Proof.
  intros Hd. destruct r as [t'|e|]; [|done|done]. intros [= <-] Hr. unfold ContainsChar. cbn [Cut].
  rewrite bool_decide_false by done. by apply Hr.
Qed.

(** Unescaping a host makes no bracket. *)
Lemma host_unescape_clean n s t : String.length s <= n ->
  url_unescape s encodeHost = Ok t -> ContainsChar s "["%char = false -> ContainsChar t "["%char = false.
Proof.
  revert s t. induction n as [|n IH]; intros [|c s] t Hle; cbn [String.length] in Hle; try lia;
    cbn [url_unescape]; [by intros [= <-]|by intros [= <-]|].
  intros H [Hc Hs]%ContainsChar_cons. case_bool_decide as Hp.
  - destruct s as [|a [|b s]]; [done|done|]. destruct (_ || _) eqn:Eesc; [done|].
    apply ContainsChar_cons in Hs as [_ [_ Hs]%ContainsChar_cons].
    eapply ContainsChar_tail; [|exact H|].
    + apply orb_false_iff in Eesc as [[Hhex Hlow]%orb_false_iff _].
      apply negb_false_iff, andb_true_iff in Hhex as [Ha Hb].
      destruct (Nat.ltb_spec (url_unhex a) 8) as [Hlt|Hge]; [|by apply hex_byte_high].
      rewrite bool_decide_true in Hlow by done. cbn [andb] in Hlow.
      apply negb_false_iff, bool_decide_eq_true in Hlow. by injection Hlow as -> ->.
    + intros t' Ht'. apply (IH s); [cbn [String.length] in Hle; lia|done|done].
  - rewrite andb_false_r in H. destruct (_ && shouldEscape c encodeHost); [done|].
    eapply (ContainsChar_tail c); [done|exact H|]. intros t' Ht'. by apply (IH s); [lia|done|done].
Qed.

(** ** Parsing does not panic *)

Lemma url_unescape_total n s m : String.length s <= n -> url_unescape s m <> Panic.
Proof.
  revert s. induction n as [|n IH]; intros [|c s] Hle; cbn [String.length] in Hle; try lia;
    cbn [url_unescape]; try done.
  assert (url_unescape s m <> Panic) as Hs by (apply IH; lia). case_bool_decide.
  - destruct s as [|a [|b s]]; [done..|]. destruct (_ || _); [done|].
    assert (url_unescape s m <> Panic) by (apply IH; cbn [String.length] in Hle; lia).
    by destruct (url_unescape s m).
  - destruct (_ && _); [by destruct (url_unescape s m)|]. destruct (_ && _); [done|].
    by destruct (url_unescape s m).
Qed.
Lemma unescape_total s m : url_unescape s m <> Panic.
Proof. by eapply url_unescape_total. Qed.

Lemma both_total {A B C} (a : result error A) (b : result error B) (f : A -> B -> C) :
  a <> Panic -> b <> Panic -> both a b f <> Panic.
Proof. destruct a; [destruct b|..]; done. Qed.

(** The next [match] on a call that does not panic. *)
Create HintDb total.
Ltac total_step :=
  match goal with |- match ?r with Ok _ => _ | Err _ => _ | Panic => _ end <> Panic =>
    let H := fresh in assert (r <> Panic) as H by auto with total; let a := fresh "a" in destruct r as [a|?|]; [|done|done]; clear H end.

#[export] Hint Resolve unescape_total both_total : total.

Lemma getScheme_total s : getScheme s <> Panic.
Proof.
  assert (forall f, getScheme_loop s f <> Panic) as H.
  { induction s as [|c s IH]; intros f; [done|]. cbn [getScheme_loop]. specialize (IH false).
    destruct (getScheme_loop s false) as [[[a b]|]|e|]; [| | |done];
      destruct (is_alpha c), (is_digit c || char_in "+-." c), f; try done; by case_bool_decide. }
  unfold getScheme. specialize (H true). by destruct (getScheme_loop s true) as [[|]|e|].
Qed.

Section total.
Context {IP : IPAddr}.

Lemma bracketed_host_total h : bracketed_host h <> Panic.
Proof. unfold bracketed_host. destruct (CutAt h "%25") as [[]|]; auto with total. Qed.
#[local] Hint Resolve bracketed_host_total getScheme_total : total.

Lemma parseHost_total h : parseHost h <> Panic.
Proof.
  unfold parseHost. destruct (CutLast h "[") as [[before after]|].
  - destruct (negb _); [done|]. destruct (CutLast after "]") as [[n p]|]; [|done].
    destruct (negb _); [done|]. total_step. by repeat case_match.
  - destruct (CutLast h ":") as [[]|]; [destruct (negb _); [done|]|]; auto with total.
Qed.
#[local] Hint Resolve parseHost_total : total.

Lemma parseAuthority_total a : parseAuthority a <> Panic.
Proof.
  unfold parseAuthority. destruct (CutLast a "@") as [[u h]|]; [|by total_step].
  apply both_total; [auto with total|]. unfold parseUserinfo. destruct (negb _); [done|].
  destruct (Cut u ":") as [[x y] []]; [auto with total|]. by total_step.
Qed.

Lemma setPath_total p u : setPath p u <> Panic.
Proof. unfold setPath. by total_step. Qed.
Lemma setFragment_total f u : setFragment f u <> Panic.
Proof. unfold setFragment. by total_step. Qed.
#[local] Hint Resolve parseAuthority_total setPath_total setFragment_total : total.

Lemma parseRest_total u rest : parseRest u rest <> Panic.
Proof.
  unfold parseRest. destruct (_ && _); [done|]. destruct (_ && _); [done|].
  destruct (_ && _); [|auto with total]. destruct (Cut _ _) as [[y p] f]. total_step. auto with total.
Qed.
#[local] Hint Resolve parseRest_total : total.

Lemma url_Parse_total s : url_Parse s <> Panic.
Proof.
  assert (forall u, parseNoFragment u <> Panic) as H.
  { intros u. unfold parseNoFragment. destruct (negb _); [done|]. case_bool_decide; [done|].
    total_step. destruct a as [scheme rest].
    destruct (CutLast rest "?") as [[? []]|]; [case_bool_decide|..]; auto with total. }
  unfold url_Parse. destruct (Cut s "#") as [[u frag] f]. total_step. destruct (is_empty frag); [done|].
  pose proof (setFragment_total frag a). by destruct (setFragment _ _).
Qed.
End total.

(** ** The host of a parsed URL *)

Section parsed.
Context {IP : IPAddr} {IPL : IPAddrLaws IP}.

Lemma digits_unescape s m : string_forallb is_digit s = true -> url_unescape s m = Ok s.
Proof.
  unfold string_forallb. induction s as [|c s IH]; [done|]. cbn. intros [Hc Hs]%andb_true_iff.
  rewrite IH by done. assert (is_alpha c || is_digit c = true) as Hsafe by (by rewrite Hc, orb_true_r).
  unfold shouldEscape. rewrite Hsafe, andb_false_r.
  cbn [andb]. rewrite (bool_decide_false (c = "%"%char)), (bool_decide_false (c = "+"%char));
    [done|by intros ->|by intros ->].
Qed.
Lemma port_unescape p m : m = encodeHost -> validOptionalPort p = true -> url_unescape p m = Ok p.
Proof.
  intros ->. destruct p as [|c p]; [done|]. cbn [validOptionalPort].
  intros [->%bool_decide_eq_true Hp]%andb_true_iff. cbn. by rewrite digits_unescape.
Qed.

Lemma parseHost_plain a h : parseHost a = Ok h -> plain_host (splitHostPort h).1.
Proof.
  unfold parseHost. destruct (CutLast a "[") as [[before after]|] eqn:Ea.
  - destruct (negb (is_empty before)); [done|].
    destruct (CutLast after "]") as [[hostname colonPort]|]; [|done].
    destruct (validOptionalPort colonPort) eqn:Ep; [|done]. cbn [negb]. rewrite port_unescape by done.
    destruct (bracketed_host hostname) as [name|e|]; cbn [both]; [|done|done].
    destruct (ip6_literal name) eqn:Eip; [|done]. intros [= <-]. left. apply ip6_colon in Eip as Hcol.
    destruct colonPort as [|c p]; [|cbn in Ep; apply andb_true_iff in Ep as [->%bool_decide_eq_true Ep]].
    + pose proof (splitHostPort_host_port name "" (or_introl Hcol) eq_refl) as H.
      unfold host_port in H. rewrite Hcol in H. change (is_empty "") with true in H. cbv iota in H.
      change ("]" +:+ "") with "]". by rewrite H.
    + unfold splitHostPort. change ("]" +:+ String ":" p) with ("]" +:+ ":" +:+ p).
      rewrite <- (string_app_assoc name), <- (string_app_assoc "["), split_port_port by done.
      by rewrite unbracket_brackets.
  - intros H. assert (url_unescape a encodeHost = Ok h) as Hu.
    { destruct (CutLast a ":") as [[? port]|]; [|done]. by destruct (negb _). }
    right. assert (ContainsChar a "[" = false) as Hac.
    { clear -Ea. unfold ContainsChar. induction a as [|c a IH]; [done|]. cbn [CutLast Cut] in *.
      destruct (CutLast a "[") as [[]|]; [done|]. case_bool_decide; [done|]. by apply IH. }
    pose proof (host_unescape_clean _ _ _ (le_n _) Hu Hac) as Hh. unfold splitHostPort, split_port.
    assert (ContainsChar (unbracket h) "[" = false) as Hw by by rewrite unbracket_plain.
    destruct (CutLast h ":") as [[x y]|] eqn:Eh; [|exact Hw].
    destruct (validOptionalPort _); [|exact Hw]. apply CutLast_some in Eh as [-> _].
    rewrite ContainsChar_app in Hh. apply orb_false_iff in Hh as [Hx _]. by rewrite unbracket_plain.
Qed.

(** The host of a URL is empty or a parsed one. *)
Definition host_parsed (u : URL) : Prop := url_Host u = "" \/ exists a, parseHost a = Ok (url_Host u).

Lemma setPath_host p u u' : setPath p u = Ok u' -> url_Host u' = url_Host u.
Proof. unfold setPath. destruct (url_unescape p encodePath); [|done|done]. by intros [= <-]. Qed.
Lemma setFragment_host f u u' : setFragment f u = Ok u' -> url_Host u' = url_Host u.
Proof. unfold setFragment. destruct (url_unescape f encodeFragment); [|done|done]. by intros [= <-]. Qed.

Lemma parseAuthority_host a user h : parseAuthority a = Ok (user, h) -> exists a', parseHost a' = Ok h.
Proof.
  unfold parseAuthority. destruct (CutLast a "@") as [[userinfo rest]|].
  - destruct (parseHost rest) as [host|e|] eqn:E; cbn [both]; [|done|done].
    destruct (parseUserinfo userinfo); [|done|done]. intros [= <- <-]. by exists rest.
  - destruct (parseHost a) as [host|e|] eqn:E; [|done|done]. intros [= <- <-]. by exists a.
Qed.

Lemma parseRest_host u rest u' : url_Host u = "" -> parseRest u rest = Ok u' -> host_parsed u'.
Proof.
  intros Hu. unfold parseRest. destruct (_ && _); [intros [= <-]; by left|].
  destruct (_ && _); [done|]. destruct (_ && _).
  - destruct (Cut _ _) as [[authority path] found].
    destruct (parseAuthority authority) as [[user h]|e|] eqn:E; [|done|done].
    intros Hp%setPath_host. apply parseAuthority_host in E. right. by rewrite Hp.
  - intros Hp%setPath_host. left. by rewrite Hp.
Qed.

Lemma url_Parse_plain s u : url_Parse s = Ok u -> plain_host (url_Hostname u).
Proof.
  intros H. assert (host_parsed u) as Hp.
  { revert H. unfold url_Parse. destruct (Cut s "#") as [[u0 frag] f].
    destruct (parseNoFragment u0) as [u1|e|] eqn:E; [|done|done].
    assert (host_parsed u1) as H1.
    { revert E. unfold parseNoFragment. destruct (negb _); [done|]. case_bool_decide; [intros [= <-]; by left|].
      destruct (getScheme u0) as [[scheme rest]|e|]; [|done|done].
      destruct (CutLast rest "?") as [[before []]|]; [case_bool_decide|..]; by apply parseRest_host. }
    destruct (is_empty frag); [by intros [= <-]|].
    destruct (setFragment frag u1) as [u2|e|] eqn:Ef; [|done|done]. intros [= <-].
    unfold host_parsed. by rewrite (setFragment_host _ _ _ Ef). }
  unfold url_Hostname. destruct Hp as [->|[a Ha]]; [by right|by eapply parseHost_plain].
Qed.
End parsed.
