(* ===== verification/Redirect.v ===== *)
(** The origins a login may return to: handler/auth/redirect.go.  An origin of a
    request is matched against the configured redirect URLs; the answer is the
    configured spelling. *)
From S2P Require Export GoURL.
From Stdlib Require Import Ascii.

Definition ErrOriginNotAllowed : error := ENew "origin does not match any allowed redirect URL".

Definition isHTTPScheme (scheme : string) : bool :=
  let scheme := ToLower scheme in
  bool_decide (scheme = "http") || bool_decide (scheme = "https").

(** [net.JoinHostPort(host, port)]. *)
Definition JoinHostPort (host port : string) : string :=
  if ContainsChar host ":"%char then "[" +:+ host +:+ "]:" +:+ port else host +:+ ":" +:+ port.

Definition canonicalOrigin (u : URL) : string :=
  let scheme := ToLower (url_Scheme u) in
  let host := ToLower (url_Hostname u) in
  let port := url_Port u in
  let port := if (bool_decide (scheme = "https") && bool_decide (port = "443")) ||
                 (bool_decide (scheme = "http") && bool_decide (port = "80"))
              then "" else port in
  let host := if negb (is_empty port) then JoinHostPort host port
              else if ContainsChar host ":"%char then "[" +:+ host +:+ "]" else host in
  scheme +:+ "://" +:+ host.

Section redirect.
Context {IP : IPAddr}.

(** More than scheme, host and port. *)
Definition more_than_origin (u : URL) : bool :=
  negb (bool_decide (url_User u = None)) ||
  (negb (is_empty (url_Path u)) && negb (bool_decide (url_Path u = "/"))) ||
  negb (is_empty (url_RawQuery u)) || url_ForceQuery u || negb (is_empty (url_Fragment u)).

Definition parseOrigin (origin : string) : result error string :=
  match url_Parse origin with
  | Ok u =>
      if negb (isHTTPScheme (url_Scheme u)) then Err (ENew "scheme must be http or https") else
      if is_empty (url_Host u) then Err (ENew "host is missing") else
      if more_than_origin u then Err (ENew "must only contain scheme, host and port") else
      Ok (canonicalOrigin u)
  | Err e => Err e
  | Panic => Panic
  end.

(** The loop over the allowed URLs. *)
Fixpoint matchAllowed (want : string) (allowedURLs : list string) : result error string :=
  match allowedURLs with
  | [] => Err ErrOriginNotAllowed
  | allowed :: allowedURLs =>
      match url_Parse allowed with
      | Ok u =>
          if negb (isHTTPScheme (url_Scheme u)) || is_empty (url_Host u)
          then matchAllowed want allowedURLs
          else if bool_decide (canonicalOrigin u = want)
          then Ok (url_Scheme u +:+ "://" +:+ url_Host u)
          else matchAllowed want allowedURLs
      | Err _ => matchAllowed want allowedURLs
      | Panic => Panic
      end
  end.

Definition AllowedOrigin (origin : string) (allowedURLs : list string) : result error string :=
  match parseOrigin origin with
  | Ok want => matchAllowed want allowedURLs
  | Err err => Err (EWrap ("invalid origin " +:+ quote origin +:+ ": ") err)
  | Panic => Panic
  end.
End redirect.

(** ** The test table of redirect_test.go *)

(** Enough of netip.ParseAddr for the examples: hexadecimal digits and colons. *)
Definition refIP : IPAddr := fun s =>
  ContainsChar s ":"%char && string_forallb (fun c => ishex c || bool_decide (c = ":"%char)) s.

Definition testAllowed : list string :=
  ["https://kkp.example.com/api/v1/kubeconfig"; "https://kkp-proxy.example.com";
   "https://kkp-internal.example.com:8443"; "http://kkp-http.example.com"; "https://[2001:db8::1]";
   "https://KKP-Port.example.com:443/api/v2/auth/callback"; "not a url %%"; "ftp://kkp-ftp.example.com"].

Example AllowedOrigin_tests :
  let run origin := AllowedOrigin (IP := refIP) origin testAllowed in
  run "https://kkp.example.com" = Ok "https://kkp.example.com" /\
  run "HTTPS://KKP-Proxy.Example.com" = Ok "https://kkp-proxy.example.com" /\
  run "https://kkp-proxy.example.com/" = Ok "https://kkp-proxy.example.com" /\
  run "https://kkp-proxy.example.com:443" = Ok "https://kkp-proxy.example.com" /\
  run "https://kkp-port.example.com" = Ok "https://KKP-Port.example.com:443" /\
  run "https://kkp-internal.example.com:8443" = Ok "https://kkp-internal.example.com:8443" /\
  run "http://kkp-http.example.com" = Ok "http://kkp-http.example.com" /\
  run "https://[2001:db8::1]" = Ok "https://[2001:db8::1]" /\
  forallb (fun o => bool_decide (run o = Err ErrOriginNotAllowed))
    ["https://evil.example.com"; "https://evil.kkp.example.com"; "https://kkp-internal.example.com:9443";
     "https://kkp-internal.example.com"; "http://kkp.example.com"; "https://kkp-ftp.example.com"] = true /\
  forallb (fun o => match run o with Err e => negb (bool_decide (e = ErrOriginNotAllowed)) | _ => false end)
    [""; "kkp.example.com"; "javascript:alert(1)"; "https://kkp.example.com/evil"; "https://kkp.example.com?x=1";
     "https://kkp.example.com#x"; "https://evil.example.com@kkp.example.com"] = true.
Proof. split_and!; vm_compute; reflexivity. Qed.

(** ** Lemmas *)

(** What two URLs with an HTTP scheme have in common that name the same origin:
    the scheme and the host but for the case, and the port, where the port of
    the scheme may be left out. *)
Definition default_port (scheme : string) : string :=
  if bool_decide (scheme = "https") then "443" else "80".
Definition effective_port (u : URL) : string :=
  if is_empty (url_Port u) then default_port (ToLower (url_Scheme u)) else url_Port u.
Definition same_origin (u u' : URL) : Prop :=
  ToLower (url_Scheme u) = ToLower (url_Scheme u') /\
  ToLower (url_Hostname u) = ToLower (url_Hostname u') /\ effective_port u = effective_port u'.

(** A URL that names an origin. *)
Definition http_url (u : URL) : Prop := isHTTPScheme (url_Scheme u) = true /\ url_Host u <> "".

Definition canonical_port (u : URL) : string :=
  if bool_decide (url_Port u = default_port (ToLower (url_Scheme u))) then "" else url_Port u.

Lemma isHTTPScheme_cases s : isHTTPScheme s = true -> ToLower s = "http" \/ ToLower s = "https".
Proof. unfold isHTTPScheme. intros [H|H]%orb_true_iff; apply bool_decide_eq_true in H; auto. Qed.

Lemma canonicalOrigin_eq u :
  isHTTPScheme (url_Scheme u) = true ->
  canonicalOrigin u = ToLower (url_Scheme u) +:+ "://" +:+ host_port (ToLower (url_Hostname u)) (canonical_port u).
Proof.
  intros Hs. unfold canonicalOrigin, canonical_port, default_port, JoinHostPort.
  assert (forall c : bool, (if negb (is_empty (if c then "" else url_Port u)) then
      (if ContainsChar (ToLower (url_Hostname u)) ":"
       then "[" +:+ ToLower (url_Hostname u) +:+ "]:" +:+ (if c then "" else url_Port u)
       else ToLower (url_Hostname u) +:+ ":" +:+ (if c then "" else url_Port u))
      else if ContainsChar (ToLower (url_Hostname u)) ":" then "[" +:+ ToLower (url_Hostname u) +:+ "]"
      else ToLower (url_Hostname u)) =
      host_port (ToLower (url_Hostname u)) (if c then "" else url_Port u)) as H.
  { intros c. unfold host_port. by destruct (is_empty _). }
  destruct (isHTTPScheme_cases _ Hs) as [->| ->]; rewrite H; cbn [andb orb];
    change (bool_decide ("http" = "https")) with false; change (bool_decide ("https" = "http")) with false;
    change (bool_decide ("http" = "http")) with true; change (bool_decide ("https" = "https")) with true;
    cbn [andb orb]; rewrite ?orb_false_r; done.
Qed.

Lemma canonical_port_digits u : string_forallb is_digit (canonical_port u) = true.
Proof. unfold canonical_port. case_bool_decide; [done|]. apply splitHostPort_digits. Qed.

Lemma canonical_port_eq u u' :
  ToLower (url_Scheme u) = ToLower (url_Scheme u') ->
  canonical_port u = canonical_port u' <-> effective_port u = effective_port u'.
Proof.
  intros Hs. unfold canonical_port, effective_port. rewrite <- Hs.
  assert (default_port (ToLower (url_Scheme u)) <> "") as Hd by (unfold default_port; by case_bool_decide).
  unfold is_empty. revert Hd. generalize (default_port (ToLower (url_Scheme u))), (url_Port u), (url_Port u').
  intros d p p' Hd. repeat case_bool_decide; subst; naive_solver.
Qed.

Lemma ContainsChar_ToLower s c : c = ":"%char \/ c = "["%char -> ContainsChar (ToLower s) c = ContainsChar s c.
Proof.
  intros Hc. unfold ContainsChar. induction s as [|d s IH]; [done|]. cbn [ToLower Cut].
  assert (lower_ascii d = c <-> d = c) as Hd.
  { destruct Hc as [->| ->]; destruct d as [[] [] [] [] [] [] [] []]; vm_compute; naive_solver. }
  rewrite (bool_decide_ext _ _ Hd). case_bool_decide; [done|]. exact IH.
Qed.

Section redirect_proofs.
Context {IP : IPAddr} {IPL : IPAddrLaws IP}.

(** The canonical form is the same exactly for the same origin. *)
Lemma canonicalOrigin_spec s s' u u' :
  url_Parse s = Ok u -> url_Parse s' = Ok u' ->
  isHTTPScheme (url_Scheme u) = true -> isHTTPScheme (url_Scheme u') = true ->
  canonicalOrigin u = canonicalOrigin u' <-> same_origin u u'.
Proof.
  intros Hu Hu' Hh Hh'. rewrite !canonicalOrigin_eq by done.
  assert (forall s u, url_Parse s = Ok u -> plain_host (ToLower (url_Hostname u))) as Hplain.
  { intros s0 u0 H. apply url_Parse_plain in H. unfold plain_host. by rewrite !ContainsChar_ToLower by auto. }
  unfold same_origin. split.
  - intros Heq. assert (ToLower (url_Scheme u) = ToLower (url_Scheme u')) as Hs.
    { destruct (isHTTPScheme_cases _ Hh) as [E|E], (isHTTPScheme_cases _ Hh') as [E'|E'];
        rewrite E, E' in *; try done. }
    rewrite <- Hs in Heq. apply string_app_inj, (string_app_inj "://") in Heq.
    pose proof (splitHostPort_host_port _ _ (Hplain _ _ Hu) (canonical_port_digits u)) as H1.
    pose proof (splitHostPort_host_port _ _ (Hplain _ _ Hu') (canonical_port_digits u')) as H2.
    rewrite Heq, H2 in H1. injection H1 as Hhost Hport.
    split_and!; [done|done|]. by apply canonical_port_eq.
  - intros (Hs & Hhost & Hport). by rewrite Hhost, <- Hs, (proj2 (canonical_port_eq u u' Hs) Hport).
Qed.

(** An allowed URL of the same origin as [u]. *)
Definition allows (u : URL) (allowed : string) (v : URL) : Prop :=
  url_Parse allowed = Ok v /\ http_url v /\ same_origin u v.


Lemma matchAllowed_spec origin u allowed :
  url_Parse origin = Ok u -> isHTTPScheme (url_Scheme u) = true ->
  match matchAllowed (canonicalOrigin u) allowed with
  | Ok o => exists pre a post v, allowed = pre ++ a :: post /\ allows u a v /\
      o = url_Scheme v +:+ "://" +:+ url_Host v /\ Forall (fun b => forall v', ~ allows u b v') pre
  | Err e => e = ErrOriginNotAllowed /\ Forall (fun b => forall v, ~ allows u b v) allowed
  | Panic => False
  end.
Proof.
  intros Hu Hh. induction allowed as [|a l IH]; cbn [matchAllowed]; [done|].
  assert (forall (r : result error string), (forall v, ~ allows u a v) ->
    match r with
    | Ok o => exists pre a' post v, l = pre ++ a' :: post /\ allows u a' v /\
        o = url_Scheme v +:+ "://" +:+ url_Host v /\ Forall (fun b => forall v', ~ allows u b v') pre
    | Err e => e = ErrOriginNotAllowed /\ Forall (fun b => forall v, ~ allows u b v) l
    | Panic => False
    end ->
    match r with
    | Ok o => exists pre a' post v, a :: l = pre ++ a' :: post /\ allows u a' v /\
        o = url_Scheme v +:+ "://" +:+ url_Host v /\ Forall (fun b => forall v', ~ allows u b v') pre
    | Err e => e = ErrOriginNotAllowed /\ Forall (fun b => forall v, ~ allows u b v) (a :: l)
    | Panic => False
    end) as Hskip.
  { intros [o|e|] Ha; [|intros [? ?]; by split; [|constructor]|done].
    intros (pre & a' & post & v & -> & Hv & Ho & Hpre). exists (a :: pre), a', post, v.
    split_and!; [done|done|done|by constructor]. }
  pose proof (url_Parse_total a) as Htot. destruct (url_Parse a) as [v|e|] eqn:Ea; [| |done].
  2: { apply Hskip; [|exact IH]. intros v (H & _). by rewrite Ea in H. }
  assert (forall v', allows u a v' -> v' = v) as Huniq
    by (intros v' (H & _); rewrite Ea in H; by injection H as ->).
  destruct (_ || _) eqn:Eo.
  { apply Hskip; [|exact IH]. intros v' Hv'. pose proof (Huniq _ Hv') as ->.
    destruct Hv' as (_ & [Hs Hhost] & _). apply orb_true_iff in Eo as [Eo|Eo%is_empty_spec]; [|done].
    by rewrite Hs in Eo. }
  apply orb_false_iff in Eo as [Hs%negb_false_iff Hhost%is_empty_false].
  pose proof (canonicalOrigin_spec origin a u v Hu Ea Hh Hs) as Hcan.
  case_bool_decide as Hc.
  - exists [], a, l, v. split_and!; [done| |done|constructor]. split_and!; [done|done|]. by apply Hcan.
  - apply Hskip; [|exact IH]. intros v' Hv'. pose proof (Huniq _ Hv') as ->.
    destruct Hv' as (_ & _ & Hso). apply Hc. symmetry. by apply Hcan.
Qed.

(** A URL with nothing but an origin. *)
Definition only_origin (u : URL) : Prop := http_url u /\ more_than_origin u = false.

Lemma AllowedOrigin_spec origin allowed :
  match AllowedOrigin origin allowed with
  | Ok o => exists u pre a post v, url_Parse origin = Ok u /\ only_origin u /\
      allowed = pre ++ a :: post /\ allows u a v /\ o = url_Scheme v +:+ "://" +:+ url_Host v /\
      Forall (fun b => forall v', ~ allows u b v') pre
  | Err e => (e = ErrOriginNotAllowed /\ exists u, url_Parse origin = Ok u /\ only_origin u /\
        Forall (fun b => forall v, ~ allows u b v) allowed) \/
      (forall u, url_Parse origin = Ok u -> ~ only_origin u)
  | Panic => False
  end.
Proof.
  unfold AllowedOrigin, parseOrigin. pose proof (url_Parse_total origin) as Htot.
  destruct (url_Parse origin) as [u|e|] eqn:Eu; [| |done]; [|by right].
  destruct (negb (isHTTPScheme (url_Scheme u))) eqn:E1.
  { right. intros u' [= <-] [[H _] _]. by rewrite H in E1. }
  destruct (is_empty (url_Host u)) eqn:E2.
  { right. intros u' [= <-] [[_ H] _]. by apply is_empty_spec in E2. }
  destruct (more_than_origin u) eqn:E3.
  { right. intros u' [= <-] [_ H]. congruence. }
  apply negb_false_iff in E1. apply is_empty_false in E2.
  pose proof (matchAllowed_spec origin u allowed Eu E1) as H.
  destruct (matchAllowed _ allowed) as [o|e|]; [| |done].
  - destruct H as (pre & a & post & v & ? & ? & ? & ?). by exists u, pre, a, post, v.
  - destruct H as [-> H]. left. split; [done|]. by exists u.
Qed.

(** ** Properties *)

(** C12: An origin is accepted exactly when it parses to a bare HTTP origin and one
    of the allowed URLs has the same scheme, host and port; the answer is the
    origin of the first such URL, as it is configured, never text of the
    request. Otherwise the origin is refused as not allowed, or as invalid. *)
Theorem AllowedOrigin_exact origin allowed :
  match AllowedOrigin origin allowed with
  | Ok o => exists u pre a post v, url_Parse origin = Ok u /\ only_origin u /\
      allowed = pre ++ a :: post /\ allows u a v /\ o = url_Scheme v +:+ "://" +:+ url_Host v /\
      Forall (fun b => forall v', ~ allows u b v') pre
  | Err e => (e = ErrOriginNotAllowed /\ exists u, url_Parse origin = Ok u /\ only_origin u /\
        Forall (fun b => forall v, ~ allows u b v) allowed) \/
      (forall u, url_Parse origin = Ok u -> ~ only_origin u)
  | Panic => False
  end.
Proof. apply AllowedOrigin_spec. Qed.
End redirect_proofs.

#[export] Instance refIP_laws : IPAddrLaws refIP.
Proof. intros s [H _]%andb_true_iff. exact H. Qed.

Lemma AllowedOrigin_exact_witness :
  AllowedOrigin (IP := refIP) "HTTPS://kkp-port.Example.com" testAllowed = Ok "https://KKP-Port.example.com:443" /\
  exists u a v, url_Parse (IP := refIP) "HTTPS://kkp-port.Example.com" = Ok u /\ only_origin u /\
    a ∈ testAllowed /\ allows (IP := refIP) u a v.
Proof.
  pose proof (AllowedOrigin_exact (IPL := refIP_laws) "HTTPS://kkp-port.Example.com" testAllowed) as H.
  assert (AllowedOrigin (IP := refIP) "HTTPS://kkp-port.Example.com" testAllowed
    = Ok "https://KKP-Port.example.com:443") as E by (vm_compute; reflexivity).
  rewrite E in H. split; [exact E|]. destruct H as (u & pre & a & post & v & Hu & Ho & Hl & Ha & _).
  exists u, a, v. split_and!; [exact Hu|exact Ho| |exact Ha].
  rewrite Hl. apply elem_of_app. right. apply elem_of_cons. by left.
Defined.
