(* ===== verification/CloudTypes.v ===== *)
(** The credentials of the cloud providers: kubermaticv1.Preset, the presets of
    the providers in it, and kubermaticv1.CloudSpec.  The Go types belong to the
    SDK; the records hold the fields that the modelled code reads or writes.  [PresetField] and the functions on it are
    the reflection of handler/common/preset.go over the struct PresetSpec. *)
From S2P Require Export Errors.

(** kubermaticv1.ProviderPreset, embedded in the preset of every provider. *)
Record ProviderPreset := MkProviderPreset {
  pp_Enabled : option bool;
  pp_Datacenter : string }.
#[export] Instance ProviderPreset_eq_dec : EqDecision ProviderPreset.
Proof. solve_decision. Defined.

(** ** The presets of the providers *)

Record DigitaloceanPreset := MkDigitaloceanPreset {
  ps_do_base : ProviderPreset; ps_do_Token : string }.
#[export] Instance DigitaloceanPreset_eq_dec : EqDecision DigitaloceanPreset.
Proof. solve_decision. Defined.

Record HetznerPreset := MkHetznerPreset {
  ps_hz_base : ProviderPreset; ps_hz_Token : string; ps_hz_Network : string }.
#[export] Instance HetznerPreset_eq_dec : EqDecision HetznerPreset.
Proof. solve_decision. Defined.

Record AzurePreset := MkAzurePreset {
  ps_az_base : ProviderPreset; ps_az_TenantID : string; ps_az_SubscriptionID : string;
  ps_az_ClientID : string; ps_az_ClientSecret : string; ps_az_ResourceGroup : string;
  ps_az_VNetResourceGroup : string; ps_az_VNetName : string; ps_az_SubnetName : string;
  ps_az_RouteTableName : string; ps_az_SecurityGroup : string;
  ps_az_LoadBalancerSKU : string }.
#[export] Instance AzurePreset_eq_dec : EqDecision AzurePreset.
Proof. solve_decision. Defined.

Record VSpherePreset := MkVSpherePreset {
  ps_vs_base : ProviderPreset; ps_vs_Username : string; ps_vs_Password : string;
  ps_vs_VMNetName : string; ps_vs_Networks : list string; ps_vs_Datastore : string;
  ps_vs_DatastoreCluster : string; ps_vs_ResourcePool : string; ps_vs_BasePath : string }.
#[export] Instance VSpherePreset_eq_dec : EqDecision VSpherePreset.
Proof. solve_decision. Defined.

Record BaremetalPreset := MkBaremetalPreset {
  ps_bm_base : ProviderPreset; ps_bm_Tinkerbell : option string }.
#[export] Instance BaremetalPreset_eq_dec : EqDecision BaremetalPreset.
Proof. solve_decision. Defined.

Record AWSPreset := MkAWSPreset {
  ps_aws_base : ProviderPreset; ps_aws_AccessKeyID : string;
  ps_aws_SecretAccessKey : string; ps_aws_AssumeRoleARN : string;
  ps_aws_AssumeRoleExternalID : string; ps_aws_InstanceProfileName : string;
  ps_aws_RouteTableID : string; ps_aws_SecurityGroupID : string; ps_aws_VPCID : string;
  ps_aws_ControlPlaneRoleARN : string }.
#[export] Instance AWSPreset_eq_dec : EqDecision AWSPreset.
Proof. solve_decision. Defined.

Record OpenstackPreset := MkOpenstackPreset {
  ps_os_base : ProviderPreset; ps_os_UseToken : bool;
  ps_os_ApplicationCredentialID : string; ps_os_ApplicationCredentialSecret : string;
  ps_os_Username : string; ps_os_Password : string; ps_os_Project : string;
  ps_os_ProjectID : string; ps_os_Domain : string; ps_os_Network : string;
  ps_os_SecurityGroups : string; ps_os_FloatingIPPool : string; ps_os_RouterID : string;
  ps_os_SubnetID : string; ps_os_IsCustomizable : bool }.
#[export] Instance OpenstackPreset_eq_dec : EqDecision OpenstackPreset.
Proof. solve_decision. Defined.

Record GCPPreset := MkGCPPreset {
  ps_gcp_base : ProviderPreset; ps_gcp_ServiceAccount : string; ps_gcp_Network : string;
  ps_gcp_Subnetwork : string }.
#[export] Instance GCPPreset_eq_dec : EqDecision GCPPreset.
Proof. solve_decision. Defined.

Record KubevirtPreset := MkKubevirtPreset {
  ps_kv_base : ProviderPreset; ps_kv_Kubeconfig : string; ps_kv_VPCName : string;
  ps_kv_SubnetName : string }.
#[export] Instance KubevirtPreset_eq_dec : EqDecision KubevirtPreset.
Proof. solve_decision. Defined.

Record AlibabaPreset := MkAlibabaPreset {
  ps_al_base : ProviderPreset; ps_al_AccessKeyID : string; ps_al_AccessKeySecret : string }.
#[export] Instance AlibabaPreset_eq_dec : EqDecision AlibabaPreset.
Proof. solve_decision. Defined.

Record AnexiaPreset := MkAnexiaPreset {
  ps_an_base : ProviderPreset; ps_an_Token : string }.
#[export] Instance AnexiaPreset_eq_dec : EqDecision AnexiaPreset.
Proof. solve_decision. Defined.

Record NutanixPreset := MkNutanixPreset {
  ps_nx_base : ProviderPreset; ps_nx_ProxyURL : string; ps_nx_Username : string;
  ps_nx_Password : string; ps_nx_ClusterName : string; ps_nx_ProjectName : string;
  ps_nx_CSIUsername : string; ps_nx_CSIPassword : string; ps_nx_CSIEndpoint : string;
  ps_nx_CSIPort : option Z }.
#[export] Instance NutanixPreset_eq_dec : EqDecision NutanixPreset.
Proof. solve_decision. Defined.

Record VMwareCloudDirectorPreset := MkVMwareCloudDirectorPreset {
  ps_vcd_base : ProviderPreset; ps_vcd_Username : string; ps_vcd_Password : string;
  ps_vcd_Organization : string; ps_vcd_VDC : string;
  ps_vcd_OVDCNetworks : option (list string); ps_vcd_APIToken : string }.
#[export] Instance VMwareCloudDirectorPreset_eq_dec : EqDecision VMwareCloudDirectorPreset.
Proof. solve_decision. Defined.

Record GKEPreset := MkGKEPreset {
  ps_gke_base : ProviderPreset; ps_gke_ServiceAccount : string }.
#[export] Instance GKEPreset_eq_dec : EqDecision GKEPreset.
Proof. solve_decision. Defined.

Record EKSPreset := MkEKSPreset {
  ps_eks_base : ProviderPreset; ps_eks_AccessKeyID : string;
  ps_eks_SecretAccessKey : string; ps_eks_AssumeRoleARN : string;
  ps_eks_AssumeRoleExternalID : string }.
#[export] Instance EKSPreset_eq_dec : EqDecision EKSPreset.
Proof. solve_decision. Defined.

Record AKSPreset := MkAKSPreset {
  ps_aks_base : ProviderPreset; ps_aks_TenantID : string; ps_aks_SubscriptionID : string;
  ps_aks_ClientID : string; ps_aks_ClientSecret : string }.
#[export] Instance AKSPreset_eq_dec : EqDecision AKSPreset.
Proof. solve_decision. Defined.

Record FakePreset := MkFakePreset {
  ps_fake_base : ProviderPreset; ps_fake_Token : string }.
#[export] Instance FakePreset_eq_dec : EqDecision FakePreset.
Proof. solve_decision. Defined.

(** kubermaticv1.PresetSpec: a provider without configuration is a nil pointer. *)
Record PresetSpec := MkPresetSpec {
  ps_Digitalocean : option DigitaloceanPreset; ps_Hetzner : option HetznerPreset;
  ps_Azure : option AzurePreset; ps_VSphere : option VSpherePreset;
  ps_Baremetal : option BaremetalPreset; ps_AWS : option AWSPreset;
  ps_Openstack : option OpenstackPreset; ps_GCP : option GCPPreset;
  ps_Kubevirt : option KubevirtPreset; ps_Alibaba : option AlibabaPreset;
  ps_Anexia : option AnexiaPreset; ps_Nutanix : option NutanixPreset;
  ps_VMwareCloudDirector : option VMwareCloudDirectorPreset; ps_GKE : option GKEPreset;
  ps_EKS : option EKSPreset; ps_AKS : option AKSPreset; ps_Fake : option FakePreset;
  ps_Projects : list string; ps_RequiredEmails : list string; ps_Enabled : option bool }.
#[export] Instance PresetSpec_eq_dec : EqDecision PresetSpec.
Proof. solve_decision. Defined.

(** ** Reflection over PresetSpec *)

Inductive PresetField :=
| FDigitalocean | FHetzner | FAzure | FVSphere | FBaremetal | FAWS
| FOpenstack | FGCP | FKubevirt | FAlibaba | FAnexia | FNutanix
| FVMwareCloudDirector | FGKE | FEKS | FAKS | FFake.
#[export] Instance PresetField_eq_dec : EqDecision PresetField.
Proof. solve_decision. Defined.

Definition all_fields : list PresetField :=
  [FDigitalocean; FHetzner; FAzure; FVSphere; FBaremetal; FAWS; FOpenstack; FGCP;
   FKubevirt; FAlibaba; FAnexia; FNutanix; FVMwareCloudDirector; FGKE; FEKS; FAKS; FFake].

(** The name and the type of a field. *)
Definition field_name (f : PresetField) : string :=
  match f with
  | FDigitalocean => "Digitalocean"
  | FHetzner => "Hetzner"
  | FAzure => "Azure"
  | FVSphere => "VSphere"
  | FBaremetal => "Baremetal"
  | FAWS => "AWS"
  | FOpenstack => "Openstack"
  | FGCP => "GCP"
  | FKubevirt => "Kubevirt"
  | FAlibaba => "Alibaba"
  | FAnexia => "Anexia"
  | FNutanix => "Nutanix"
  | FVMwareCloudDirector => "VMwareCloudDirector"
  | FGKE => "GKE"
  | FEKS => "EKS"
  | FAKS => "AKS"
  | FFake => "Fake"
  end.
Definition field_type (f : PresetField) : Type :=
  match f with
  | FDigitalocean => DigitaloceanPreset
  | FHetzner => HetznerPreset
  | FAzure => AzurePreset
  | FVSphere => VSpherePreset
  | FBaremetal => BaremetalPreset
  | FAWS => AWSPreset
  | FOpenstack => OpenstackPreset
  | FGCP => GCPPreset
  | FKubevirt => KubevirtPreset
  | FAlibaba => AlibabaPreset
  | FAnexia => AnexiaPreset
  | FNutanix => NutanixPreset
  | FVMwareCloudDirector => VMwareCloudDirectorPreset
  | FGKE => GKEPreset
  | FEKS => EKSPreset
  | FAKS => AKSPreset
  | FFake => FakePreset
  end.

(** Reading the field, the preset embedded in its value, and writing both. *)
Definition field_get (f : PresetField) (s : PresetSpec) : option (field_type f) :=
  match f with
  | FDigitalocean => ps_Digitalocean s
  | FHetzner => ps_Hetzner s
  | FAzure => ps_Azure s
  | FVSphere => ps_VSphere s
  | FBaremetal => ps_Baremetal s
  | FAWS => ps_AWS s
  | FOpenstack => ps_Openstack s
  | FGCP => ps_GCP s
  | FKubevirt => ps_Kubevirt s
  | FAlibaba => ps_Alibaba s
  | FAnexia => ps_Anexia s
  | FNutanix => ps_Nutanix s
  | FVMwareCloudDirector => ps_VMwareCloudDirector s
  | FGKE => ps_GKE s
  | FEKS => ps_EKS s
  | FAKS => ps_AKS s
  | FFake => ps_Fake s
  end.
Definition field_base (f : PresetField) : field_type f -> ProviderPreset :=
  match f with
  | FDigitalocean => ps_do_base
  | FHetzner => ps_hz_base
  | FAzure => ps_az_base
  | FVSphere => ps_vs_base
  | FBaremetal => ps_bm_base
  | FAWS => ps_aws_base
  | FOpenstack => ps_os_base
  | FGCP => ps_gcp_base
  | FKubevirt => ps_kv_base
  | FAlibaba => ps_al_base
  | FAnexia => ps_an_base
  | FNutanix => ps_nx_base
  | FVMwareCloudDirector => ps_vcd_base
  | FGKE => ps_gke_base
  | FEKS => ps_eks_base
  | FAKS => ps_aks_base
  | FFake => ps_fake_base
  end.
Definition field_set (f : PresetField) : option (field_type f) -> PresetSpec -> PresetSpec :=
  match f with
  | FDigitalocean => fun v s =>
      MkPresetSpec v (ps_Hetzner s) (ps_Azure s) (ps_VSphere s) (ps_Baremetal s) (ps_AWS
        s) (ps_Openstack s) (ps_GCP s) (ps_Kubevirt s) (ps_Alibaba s) (ps_Anexia s)
        (ps_Nutanix s) (ps_VMwareCloudDirector s) (ps_GKE s) (ps_EKS s) (ps_AKS s)
        (ps_Fake s) (ps_Projects s) (ps_RequiredEmails s) (ps_Enabled s)
  | FHetzner => fun v s =>
      MkPresetSpec (ps_Digitalocean s) v (ps_Azure s) (ps_VSphere s) (ps_Baremetal s)
        (ps_AWS s) (ps_Openstack s) (ps_GCP s) (ps_Kubevirt s) (ps_Alibaba s) (ps_Anexia
        s) (ps_Nutanix s) (ps_VMwareCloudDirector s) (ps_GKE s) (ps_EKS s) (ps_AKS s)
        (ps_Fake s) (ps_Projects s) (ps_RequiredEmails s) (ps_Enabled s)
  | FAzure => fun v s =>
      MkPresetSpec (ps_Digitalocean s) (ps_Hetzner s) v (ps_VSphere s) (ps_Baremetal s)
        (ps_AWS s) (ps_Openstack s) (ps_GCP s) (ps_Kubevirt s) (ps_Alibaba s) (ps_Anexia
        s) (ps_Nutanix s) (ps_VMwareCloudDirector s) (ps_GKE s) (ps_EKS s) (ps_AKS s)
        (ps_Fake s) (ps_Projects s) (ps_RequiredEmails s) (ps_Enabled s)
  | FVSphere => fun v s =>
      MkPresetSpec (ps_Digitalocean s) (ps_Hetzner s) (ps_Azure s) v (ps_Baremetal s)
        (ps_AWS s) (ps_Openstack s) (ps_GCP s) (ps_Kubevirt s) (ps_Alibaba s) (ps_Anexia
        s) (ps_Nutanix s) (ps_VMwareCloudDirector s) (ps_GKE s) (ps_EKS s) (ps_AKS s)
        (ps_Fake s) (ps_Projects s) (ps_RequiredEmails s) (ps_Enabled s)
  | FBaremetal => fun v s =>
      MkPresetSpec (ps_Digitalocean s) (ps_Hetzner s) (ps_Azure s) (ps_VSphere s) v
        (ps_AWS s) (ps_Openstack s) (ps_GCP s) (ps_Kubevirt s) (ps_Alibaba s) (ps_Anexia
        s) (ps_Nutanix s) (ps_VMwareCloudDirector s) (ps_GKE s) (ps_EKS s) (ps_AKS s)
        (ps_Fake s) (ps_Projects s) (ps_RequiredEmails s) (ps_Enabled s)
  | FAWS => fun v s =>
      MkPresetSpec (ps_Digitalocean s) (ps_Hetzner s) (ps_Azure s) (ps_VSphere s)
        (ps_Baremetal s) v (ps_Openstack s) (ps_GCP s) (ps_Kubevirt s) (ps_Alibaba s)
        (ps_Anexia s) (ps_Nutanix s) (ps_VMwareCloudDirector s) (ps_GKE s) (ps_EKS s)
        (ps_AKS s) (ps_Fake s) (ps_Projects s) (ps_RequiredEmails s) (ps_Enabled s)
  | FOpenstack => fun v s =>
      MkPresetSpec (ps_Digitalocean s) (ps_Hetzner s) (ps_Azure s) (ps_VSphere s)
        (ps_Baremetal s) (ps_AWS s) v (ps_GCP s) (ps_Kubevirt s) (ps_Alibaba s) (ps_Anexia
        s) (ps_Nutanix s) (ps_VMwareCloudDirector s) (ps_GKE s) (ps_EKS s) (ps_AKS s)
        (ps_Fake s) (ps_Projects s) (ps_RequiredEmails s) (ps_Enabled s)
  | FGCP => fun v s =>
      MkPresetSpec (ps_Digitalocean s) (ps_Hetzner s) (ps_Azure s) (ps_VSphere s)
        (ps_Baremetal s) (ps_AWS s) (ps_Openstack s) v (ps_Kubevirt s) (ps_Alibaba s)
        (ps_Anexia s) (ps_Nutanix s) (ps_VMwareCloudDirector s) (ps_GKE s) (ps_EKS s)
        (ps_AKS s) (ps_Fake s) (ps_Projects s) (ps_RequiredEmails s) (ps_Enabled s)
  | FKubevirt => fun v s =>
      MkPresetSpec (ps_Digitalocean s) (ps_Hetzner s) (ps_Azure s) (ps_VSphere s)
        (ps_Baremetal s) (ps_AWS s) (ps_Openstack s) (ps_GCP s) v (ps_Alibaba s)
        (ps_Anexia s) (ps_Nutanix s) (ps_VMwareCloudDirector s) (ps_GKE s) (ps_EKS s)
        (ps_AKS s) (ps_Fake s) (ps_Projects s) (ps_RequiredEmails s) (ps_Enabled s)
  | FAlibaba => fun v s =>
      MkPresetSpec (ps_Digitalocean s) (ps_Hetzner s) (ps_Azure s) (ps_VSphere s)
        (ps_Baremetal s) (ps_AWS s) (ps_Openstack s) (ps_GCP s) (ps_Kubevirt s) v
        (ps_Anexia s) (ps_Nutanix s) (ps_VMwareCloudDirector s) (ps_GKE s) (ps_EKS s)
        (ps_AKS s) (ps_Fake s) (ps_Projects s) (ps_RequiredEmails s) (ps_Enabled s)
  | FAnexia => fun v s =>
      MkPresetSpec (ps_Digitalocean s) (ps_Hetzner s) (ps_Azure s) (ps_VSphere s)
        (ps_Baremetal s) (ps_AWS s) (ps_Openstack s) (ps_GCP s) (ps_Kubevirt s)
        (ps_Alibaba s) v (ps_Nutanix s) (ps_VMwareCloudDirector s) (ps_GKE s) (ps_EKS s)
        (ps_AKS s) (ps_Fake s) (ps_Projects s) (ps_RequiredEmails s) (ps_Enabled s)
  | FNutanix => fun v s =>
      MkPresetSpec (ps_Digitalocean s) (ps_Hetzner s) (ps_Azure s) (ps_VSphere s)
        (ps_Baremetal s) (ps_AWS s) (ps_Openstack s) (ps_GCP s) (ps_Kubevirt s)
        (ps_Alibaba s) (ps_Anexia s) v (ps_VMwareCloudDirector s) (ps_GKE s) (ps_EKS s)
        (ps_AKS s) (ps_Fake s) (ps_Projects s) (ps_RequiredEmails s) (ps_Enabled s)
  | FVMwareCloudDirector => fun v s =>
      MkPresetSpec (ps_Digitalocean s) (ps_Hetzner s) (ps_Azure s) (ps_VSphere s)
        (ps_Baremetal s) (ps_AWS s) (ps_Openstack s) (ps_GCP s) (ps_Kubevirt s)
        (ps_Alibaba s) (ps_Anexia s) (ps_Nutanix s) v (ps_GKE s) (ps_EKS s) (ps_AKS s)
        (ps_Fake s) (ps_Projects s) (ps_RequiredEmails s) (ps_Enabled s)
  | FGKE => fun v s =>
      MkPresetSpec (ps_Digitalocean s) (ps_Hetzner s) (ps_Azure s) (ps_VSphere s)
        (ps_Baremetal s) (ps_AWS s) (ps_Openstack s) (ps_GCP s) (ps_Kubevirt s)
        (ps_Alibaba s) (ps_Anexia s) (ps_Nutanix s) (ps_VMwareCloudDirector s) v (ps_EKS
        s) (ps_AKS s) (ps_Fake s) (ps_Projects s) (ps_RequiredEmails s) (ps_Enabled s)
  | FEKS => fun v s =>
      MkPresetSpec (ps_Digitalocean s) (ps_Hetzner s) (ps_Azure s) (ps_VSphere s)
        (ps_Baremetal s) (ps_AWS s) (ps_Openstack s) (ps_GCP s) (ps_Kubevirt s)
        (ps_Alibaba s) (ps_Anexia s) (ps_Nutanix s) (ps_VMwareCloudDirector s) (ps_GKE s)
        v (ps_AKS s) (ps_Fake s) (ps_Projects s) (ps_RequiredEmails s) (ps_Enabled s)
  | FAKS => fun v s =>
      MkPresetSpec (ps_Digitalocean s) (ps_Hetzner s) (ps_Azure s) (ps_VSphere s)
        (ps_Baremetal s) (ps_AWS s) (ps_Openstack s) (ps_GCP s) (ps_Kubevirt s)
        (ps_Alibaba s) (ps_Anexia s) (ps_Nutanix s) (ps_VMwareCloudDirector s) (ps_GKE s)
        (ps_EKS s) v (ps_Fake s) (ps_Projects s) (ps_RequiredEmails s) (ps_Enabled s)
  | FFake => fun v s =>
      MkPresetSpec (ps_Digitalocean s) (ps_Hetzner s) (ps_Azure s) (ps_VSphere s)
        (ps_Baremetal s) (ps_AWS s) (ps_Openstack s) (ps_GCP s) (ps_Kubevirt s)
        (ps_Alibaba s) (ps_Anexia s) (ps_Nutanix s) (ps_VMwareCloudDirector s) (ps_GKE s)
        (ps_EKS s) (ps_AKS s) v (ps_Projects s) (ps_RequiredEmails s) (ps_Enabled s)
  end.
Definition field_with_base (f : PresetField) : ProviderPreset -> field_type f -> field_type f :=
  match f with
  | FDigitalocean => fun b v =>
      MkDigitaloceanPreset b (ps_do_Token v)
  | FHetzner => fun b v =>
      MkHetznerPreset b (ps_hz_Token v) (ps_hz_Network v)
  | FAzure => fun b v =>
      MkAzurePreset b (ps_az_TenantID v) (ps_az_SubscriptionID v) (ps_az_ClientID v)
        (ps_az_ClientSecret v) (ps_az_ResourceGroup v) (ps_az_VNetResourceGroup v)
        (ps_az_VNetName v) (ps_az_SubnetName v) (ps_az_RouteTableName v)
        (ps_az_SecurityGroup v) (ps_az_LoadBalancerSKU v)
  | FVSphere => fun b v =>
      MkVSpherePreset b (ps_vs_Username v) (ps_vs_Password v) (ps_vs_VMNetName v)
        (ps_vs_Networks v) (ps_vs_Datastore v) (ps_vs_DatastoreCluster v)
        (ps_vs_ResourcePool v) (ps_vs_BasePath v)
  | FBaremetal => fun b v =>
      MkBaremetalPreset b (ps_bm_Tinkerbell v)
  | FAWS => fun b v =>
      MkAWSPreset b (ps_aws_AccessKeyID v) (ps_aws_SecretAccessKey v)
        (ps_aws_AssumeRoleARN v) (ps_aws_AssumeRoleExternalID v)
        (ps_aws_InstanceProfileName v) (ps_aws_RouteTableID v) (ps_aws_SecurityGroupID v)
        (ps_aws_VPCID v) (ps_aws_ControlPlaneRoleARN v)
  | FOpenstack => fun b v =>
      MkOpenstackPreset b (ps_os_UseToken v) (ps_os_ApplicationCredentialID v)
        (ps_os_ApplicationCredentialSecret v) (ps_os_Username v) (ps_os_Password v)
        (ps_os_Project v) (ps_os_ProjectID v) (ps_os_Domain v) (ps_os_Network v)
        (ps_os_SecurityGroups v) (ps_os_FloatingIPPool v) (ps_os_RouterID v)
        (ps_os_SubnetID v) (ps_os_IsCustomizable v)
  | FGCP => fun b v =>
      MkGCPPreset b (ps_gcp_ServiceAccount v) (ps_gcp_Network v) (ps_gcp_Subnetwork v)
  | FKubevirt => fun b v =>
      MkKubevirtPreset b (ps_kv_Kubeconfig v) (ps_kv_VPCName v) (ps_kv_SubnetName v)
  | FAlibaba => fun b v =>
      MkAlibabaPreset b (ps_al_AccessKeyID v) (ps_al_AccessKeySecret v)
  | FAnexia => fun b v =>
      MkAnexiaPreset b (ps_an_Token v)
  | FNutanix => fun b v =>
      MkNutanixPreset b (ps_nx_ProxyURL v) (ps_nx_Username v) (ps_nx_Password v)
        (ps_nx_ClusterName v) (ps_nx_ProjectName v) (ps_nx_CSIUsername v)
        (ps_nx_CSIPassword v) (ps_nx_CSIEndpoint v) (ps_nx_CSIPort v)
  | FVMwareCloudDirector => fun b v =>
      MkVMwareCloudDirectorPreset b (ps_vcd_Username v) (ps_vcd_Password v)
        (ps_vcd_Organization v) (ps_vcd_VDC v) (ps_vcd_OVDCNetworks v) (ps_vcd_APIToken v)
  | FGKE => fun b v =>
      MkGKEPreset b (ps_gke_ServiceAccount v)
  | FEKS => fun b v =>
      MkEKSPreset b (ps_eks_AccessKeyID v) (ps_eks_SecretAccessKey v)
        (ps_eks_AssumeRoleARN v) (ps_eks_AssumeRoleExternalID v)
  | FAKS => fun b v =>
      MkAKSPreset b (ps_aks_TenantID v) (ps_aks_SubscriptionID v) (ps_aks_ClientID v)
        (ps_aks_ClientSecret v)
  | FFake => fun b v =>
      MkFakePreset b (ps_fake_Token v)
  end.

Definition spec_with_emails (l : list string) (s : PresetSpec) : PresetSpec :=
  MkPresetSpec (ps_Digitalocean s) (ps_Hetzner s) (ps_Azure s) (ps_VSphere s)
    (ps_Baremetal s) (ps_AWS s) (ps_Openstack s) (ps_GCP s) (ps_Kubevirt s) (ps_Alibaba s)
    (ps_Anexia s) (ps_Nutanix s) (ps_VMwareCloudDirector s) (ps_GKE s) (ps_EKS s) (ps_AKS
    s) (ps_Fake s) (ps_Projects s) l (ps_Enabled s).
Definition spec_with_enabled (e : option bool) (s : PresetSpec) : PresetSpec :=
  MkPresetSpec (ps_Digitalocean s) (ps_Hetzner s) (ps_Azure s) (ps_VSphere s)
    (ps_Baremetal s) (ps_AWS s) (ps_Openstack s) (ps_GCP s) (ps_Kubevirt s) (ps_Alibaba s)
    (ps_Anexia s) (ps_Nutanix s) (ps_VMwareCloudDirector s) (ps_GKE s) (ps_EKS s) (ps_AKS
    s) (ps_Fake s) (ps_Projects s) (ps_RequiredEmails s) e.

Lemma field_get_set f v s : field_get f (field_set f v s) = v.
Proof. by destruct f. Qed.
Lemma field_get_set_ne f g v s : f <> g -> field_get g (field_set f v s) = field_get g s.
Proof. by destruct f, g. Qed.
Lemma field_base_with_base f b v : field_base f (field_with_base f b v) = b.
Proof. by destruct f. Qed.
Lemma field_get_emails f l s : field_get f (spec_with_emails l s) = field_get f s.
Proof. by destruct f. Qed.
Lemma field_get_enabled f e s : field_get f (spec_with_enabled e s) = field_get f s.
Proof. by destruct f. Qed.
Lemma elem_of_all_fields f : f ∈ all_fields.
Proof. destruct f; set_solver. Qed.

(** What a write to a field leaves. *)
Lemma field_set_rest f v s :
  ps_Projects (field_set f v s) = ps_Projects s /\
  ps_RequiredEmails (field_set f v s) = ps_RequiredEmails s /\
  ps_Enabled (field_set f v s) = ps_Enabled s.
Proof. by destruct f. Qed.

(** Two presets with the same values in every field. *)
Lemma spec_ext s s' :
  (forall f, field_get f s = field_get f s') -> ps_Projects s = ps_Projects s' ->
  ps_RequiredEmails s = ps_RequiredEmails s' -> ps_Enabled s = ps_Enabled s' -> s = s'.
Proof.
  intros H H1 H2 H3. destruct s, s'. f_equal; try done.
  - apply (H FDigitalocean).
  - apply (H FHetzner).
  - apply (H FAzure).
  - apply (H FVSphere).
  - apply (H FBaremetal).
  - apply (H FAWS).
  - apply (H FOpenstack).
  - apply (H FGCP).
  - apply (H FKubevirt).
  - apply (H FAlibaba).
  - apply (H FAnexia).
  - apply (H FNutanix).
  - apply (H FVMwareCloudDirector).
  - apply (H FGKE).
  - apply (H FEKS).
  - apply (H FAKS).
  - apply (H FFake).
Qed.

(** ** The cloud specifications of clusters

    The settings of node ports and volumes are values of the SDK that the code
    hands on: their JSON text. *)

(** providerconfig.GlobalSecretKeySelector *)
Record SecretRef := MkSecretRef { ref_Name : string; ref_Namespace : string }.
#[export] Instance SecretRef_eq_dec : EqDecision SecretRef.
Proof. solve_decision. Defined.

Record NutanixCSIConfig := MkNutanixCSIConfig {
  csi_Username : string; csi_Password : string; csi_Endpoint : string; csi_Port : option Z }.
#[export] Instance NutanixCSIConfig_eq_dec : EqDecision NutanixCSIConfig.
Proof. solve_decision. Defined.

Record VSphereCloudSpec := MkVSphereCloud {
  cs_vs_Username : string; cs_vs_Password : string; cs_vs_VMNetName : string;
  cs_vs_Networks : list string; cs_vs_Datastore : string; cs_vs_DatastoreCluster : string;
  cs_vs_ResourcePool : string; cs_vs_BasePath : string; cs_vs_StoragePolicy : string;
  cs_vs_InfraManagementUsername : string;
  cs_vs_InfraManagementPassword : string;
  cs_vs_CredentialsReference : option SecretRef }.
#[export] Instance VSphereCloudSpec_eq_dec : EqDecision VSphereCloudSpec.
Proof. solve_decision. Defined.

Record BaremetalCloudSpec := MkBaremetalCloud {
  cs_bm_Tinkerbell : option string;
  cs_bm_CredentialsReference : option SecretRef }.
#[export] Instance BaremetalCloudSpec_eq_dec : EqDecision BaremetalCloudSpec.
Proof. solve_decision. Defined.

Record OpenstackCloudSpec := MkOpenstackCloud {
  cs_os_Username : string; cs_os_Password : string; cs_os_Domain : string;
  cs_os_Project : string; cs_os_ProjectID : string; cs_os_UseToken : bool;
  cs_os_ApplicationCredentialID : string; cs_os_ApplicationCredentialSecret : string;
  cs_os_SubnetID : string; cs_os_Network : string; cs_os_RouterID : string;
  cs_os_FloatingIPPool : string; cs_os_SecurityGroups : string;
  cs_os_Token : string;
  cs_os_NodePortsAllowedIPRanges : option string;
  cs_os_CredentialsReference : option SecretRef }.
#[export] Instance OpenstackCloudSpec_eq_dec : EqDecision OpenstackCloudSpec.
Proof. solve_decision. Defined.

Record AzureCloudSpec := MkAzureCloud {
  cs_az_TenantID : string; cs_az_ClientSecret : string; cs_az_ClientID : string;
  cs_az_SubscriptionID : string; cs_az_ResourceGroup : string;
  cs_az_VNetResourceGroup : string; cs_az_RouteTableName : string;
  cs_az_SecurityGroup : string; cs_az_SubnetName : string; cs_az_VNetName : string;
  cs_az_LoadBalancerSKU : string;
  cs_az_AssignAvailabilitySet : option bool;
  cs_az_NodePortsAllowedIPRanges : option string;
  cs_az_CredentialsReference : option SecretRef }.
#[export] Instance AzureCloudSpec_eq_dec : EqDecision AzureCloudSpec.
Proof. solve_decision. Defined.

Record DigitaloceanCloudSpec := MkDigitaloceanCloud {
  cs_do_Token : string;
  cs_do_CredentialsReference : option SecretRef }.
#[export] Instance DigitaloceanCloudSpec_eq_dec : EqDecision DigitaloceanCloudSpec.
Proof. solve_decision. Defined.

Record HetznerCloudSpec := MkHetznerCloud {
  cs_hz_Token : string; cs_hz_Network : string;
  cs_hz_CredentialsReference : option SecretRef }.
#[export] Instance HetznerCloudSpec_eq_dec : EqDecision HetznerCloudSpec.
Proof. solve_decision. Defined.

Record AWSCloudSpec := MkAWSCloud {
  cs_aws_AccessKeyID : string; cs_aws_SecretAccessKey : string;
  cs_aws_AssumeRoleARN : string; cs_aws_AssumeRoleExternalID : string;
  cs_aws_InstanceProfileName : string; cs_aws_RouteTableID : string;
  cs_aws_SecurityGroupID : string; cs_aws_VPCID : string;
  cs_aws_ControlPlaneRoleARN : string;
  cs_aws_NodePortsAllowedIPRanges : option string;
  cs_aws_CredentialsReference : option SecretRef }.
#[export] Instance AWSCloudSpec_eq_dec : EqDecision AWSCloudSpec.
Proof. solve_decision. Defined.

Record GCPCloudSpec := MkGCPCloud {
  cs_gcp_ServiceAccount : string; cs_gcp_Network : string; cs_gcp_Subnetwork : string;
  cs_gcp_NodePortsAllowedIPRanges : option string;
  cs_gcp_CredentialsReference : option SecretRef }.
#[export] Instance GCPCloudSpec_eq_dec : EqDecision GCPCloudSpec.
Proof. solve_decision. Defined.

Record FakeCloudSpec := MkFakeCloud {
  cs_fake_Token : string }.
#[export] Instance FakeCloudSpec_eq_dec : EqDecision FakeCloudSpec.
Proof. solve_decision. Defined.

Record KubevirtCloudSpec := MkKubevirtCloud {
  cs_kv_Kubeconfig : string; cs_kv_VPCName : string; cs_kv_SubnetName : string;
  cs_kv_PreAllocatedDataVolumes : list string;
  cs_kv_CredentialsReference : option SecretRef }.
#[export] Instance KubevirtCloudSpec_eq_dec : EqDecision KubevirtCloudSpec.
Proof. solve_decision. Defined.

Record AlibabaCloudSpec := MkAlibabaCloud {
  cs_al_AccessKeyID : string; cs_al_AccessKeySecret : string;
  cs_al_CredentialsReference : option SecretRef }.
#[export] Instance AlibabaCloudSpec_eq_dec : EqDecision AlibabaCloudSpec.
Proof. solve_decision. Defined.

Record AnexiaCloudSpec := MkAnexiaCloud {
  cs_an_Token : string;
  cs_an_CredentialsReference : option SecretRef }.
#[export] Instance AnexiaCloudSpec_eq_dec : EqDecision AnexiaCloudSpec.
Proof. solve_decision. Defined.

Record NutanixCloudSpec := MkNutanixCloud {
  cs_nx_Username : string; cs_nx_Password : string; cs_nx_ProxyURL : string;
  cs_nx_ClusterName : string; cs_nx_ProjectName : string;
  cs_nx_CSI : option NutanixCSIConfig;
  cs_nx_CredentialsReference : option SecretRef }.
#[export] Instance NutanixCloudSpec_eq_dec : EqDecision NutanixCloudSpec.
Proof. solve_decision. Defined.

Record VMwareCloudDirectorCloudSpec := MkVMwareCloudDirectorCloud {
  cs_vcd_Username : string; cs_vcd_Password : string; cs_vcd_Organization : string;
  cs_vcd_VDC : string; cs_vcd_OVDCNetworks : option (list string); cs_vcd_APIToken : string;
  cs_vcd_CredentialsReference : option SecretRef }.
#[export] Instance VMwareCloudDirectorCloudSpec_eq_dec : EqDecision VMwareCloudDirectorCloudSpec.
Proof. solve_decision. Defined.

(** Two structs of which no field is read or written. *)
Record BringYourOwnCloudSpec := MkBringYourOwnCloud {}.
#[export] Instance BringYourOwnCloudSpec_eq_dec : EqDecision BringYourOwnCloudSpec.
Proof. solve_decision. Defined.
Record EdgeCloudSpec := MkEdgeCloud {}.
#[export] Instance EdgeCloudSpec_eq_dec : EqDecision EdgeCloudSpec.
Proof. solve_decision. Defined.

(** kubermaticv1.CloudSpec. *)
Record CloudSpec := MkCloudSpec {
  cs_DatacenterName : string; cs_ProviderName : string;
  cs_VSphere : option VSphereCloudSpec; cs_Baremetal : option BaremetalCloudSpec;
  cs_Openstack : option OpenstackCloudSpec; cs_Azure : option AzureCloudSpec;
  cs_Digitalocean : option DigitaloceanCloudSpec; cs_Hetzner : option HetznerCloudSpec;
  cs_AWS : option AWSCloudSpec; cs_GCP : option GCPCloudSpec;
  cs_Fake : option FakeCloudSpec; cs_Kubevirt : option KubevirtCloudSpec;
  cs_Alibaba : option AlibabaCloudSpec; cs_Anexia : option AnexiaCloudSpec;
  cs_Nutanix : option NutanixCloudSpec;
  cs_VMwareCloudDirector : option VMwareCloudDirectorCloudSpec;
  cs_BringYourOwn : option BringYourOwnCloudSpec; cs_Edge : option EdgeCloudSpec }.
#[export] Instance CloudSpec_eq_dec : EqDecision CloudSpec.
Proof. solve_decision. Defined.

Definition cloud_with_VSphere (v : VSphereCloudSpec) (c : CloudSpec) : CloudSpec :=
  MkCloudSpec (cs_DatacenterName c) (cs_ProviderName c) (Some v) (cs_Baremetal c)
    (cs_Openstack c) (cs_Azure c) (cs_Digitalocean c) (cs_Hetzner c) (cs_AWS c) (cs_GCP c)
    (cs_Fake c) (cs_Kubevirt c) (cs_Alibaba c) (cs_Anexia c) (cs_Nutanix c)
    (cs_VMwareCloudDirector c)
    (cs_BringYourOwn c) (cs_Edge c).
Definition cloud_with_Baremetal (v : BaremetalCloudSpec) (c : CloudSpec) : CloudSpec :=
  MkCloudSpec (cs_DatacenterName c) (cs_ProviderName c) (cs_VSphere c) (Some v)
    (cs_Openstack c) (cs_Azure c) (cs_Digitalocean c) (cs_Hetzner c) (cs_AWS c) (cs_GCP c)
    (cs_Fake c) (cs_Kubevirt c) (cs_Alibaba c) (cs_Anexia c) (cs_Nutanix c)
    (cs_VMwareCloudDirector c)
    (cs_BringYourOwn c) (cs_Edge c).
Definition cloud_with_Openstack (v : OpenstackCloudSpec) (c : CloudSpec) : CloudSpec :=
  MkCloudSpec (cs_DatacenterName c) (cs_ProviderName c) (cs_VSphere c) (cs_Baremetal c)
    (Some v) (cs_Azure c) (cs_Digitalocean c) (cs_Hetzner c) (cs_AWS c) (cs_GCP c)
    (cs_Fake c) (cs_Kubevirt c) (cs_Alibaba c) (cs_Anexia c) (cs_Nutanix c)
    (cs_VMwareCloudDirector c)
    (cs_BringYourOwn c) (cs_Edge c).
Definition cloud_with_Azure (v : AzureCloudSpec) (c : CloudSpec) : CloudSpec :=
  MkCloudSpec (cs_DatacenterName c) (cs_ProviderName c) (cs_VSphere c) (cs_Baremetal c)
    (cs_Openstack c) (Some v) (cs_Digitalocean c) (cs_Hetzner c) (cs_AWS c) (cs_GCP c)
    (cs_Fake c) (cs_Kubevirt c) (cs_Alibaba c) (cs_Anexia c) (cs_Nutanix c)
    (cs_VMwareCloudDirector c)
    (cs_BringYourOwn c) (cs_Edge c).
Definition cloud_with_Digitalocean (v : DigitaloceanCloudSpec) (c : CloudSpec) : CloudSpec :=
  MkCloudSpec (cs_DatacenterName c) (cs_ProviderName c) (cs_VSphere c) (cs_Baremetal c)
    (cs_Openstack c) (cs_Azure c) (Some v) (cs_Hetzner c) (cs_AWS c) (cs_GCP c) (cs_Fake
    c) (cs_Kubevirt c) (cs_Alibaba c) (cs_Anexia c) (cs_Nutanix c) (cs_VMwareCloudDirector
    c)
    (cs_BringYourOwn c) (cs_Edge c).
Definition cloud_with_Hetzner (v : HetznerCloudSpec) (c : CloudSpec) : CloudSpec :=
  MkCloudSpec (cs_DatacenterName c) (cs_ProviderName c) (cs_VSphere c) (cs_Baremetal c)
    (cs_Openstack c) (cs_Azure c) (cs_Digitalocean c) (Some v) (cs_AWS c) (cs_GCP c)
    (cs_Fake c) (cs_Kubevirt c) (cs_Alibaba c) (cs_Anexia c) (cs_Nutanix c)
    (cs_VMwareCloudDirector c)
    (cs_BringYourOwn c) (cs_Edge c).
Definition cloud_with_AWS (v : AWSCloudSpec) (c : CloudSpec) : CloudSpec :=
  MkCloudSpec (cs_DatacenterName c) (cs_ProviderName c) (cs_VSphere c) (cs_Baremetal c)
    (cs_Openstack c) (cs_Azure c) (cs_Digitalocean c) (cs_Hetzner c) (Some v) (cs_GCP c)
    (cs_Fake c) (cs_Kubevirt c) (cs_Alibaba c) (cs_Anexia c) (cs_Nutanix c)
    (cs_VMwareCloudDirector c)
    (cs_BringYourOwn c) (cs_Edge c).
Definition cloud_with_GCP (v : GCPCloudSpec) (c : CloudSpec) : CloudSpec :=
  MkCloudSpec (cs_DatacenterName c) (cs_ProviderName c) (cs_VSphere c) (cs_Baremetal c)
    (cs_Openstack c) (cs_Azure c) (cs_Digitalocean c) (cs_Hetzner c) (cs_AWS c) (Some v)
    (cs_Fake c) (cs_Kubevirt c) (cs_Alibaba c) (cs_Anexia c) (cs_Nutanix c)
    (cs_VMwareCloudDirector c)
    (cs_BringYourOwn c) (cs_Edge c).
Definition cloud_with_Fake (v : FakeCloudSpec) (c : CloudSpec) : CloudSpec :=
  MkCloudSpec (cs_DatacenterName c) (cs_ProviderName c) (cs_VSphere c) (cs_Baremetal c)
    (cs_Openstack c) (cs_Azure c) (cs_Digitalocean c) (cs_Hetzner c) (cs_AWS c) (cs_GCP c)
    (Some v) (cs_Kubevirt c) (cs_Alibaba c) (cs_Anexia c) (cs_Nutanix c)
    (cs_VMwareCloudDirector c)
    (cs_BringYourOwn c) (cs_Edge c).
Definition cloud_with_Kubevirt (v : KubevirtCloudSpec) (c : CloudSpec) : CloudSpec :=
  MkCloudSpec (cs_DatacenterName c) (cs_ProviderName c) (cs_VSphere c) (cs_Baremetal c)
    (cs_Openstack c) (cs_Azure c) (cs_Digitalocean c) (cs_Hetzner c) (cs_AWS c) (cs_GCP c)
    (cs_Fake c) (Some v) (cs_Alibaba c) (cs_Anexia c) (cs_Nutanix c)
    (cs_VMwareCloudDirector c)
    (cs_BringYourOwn c) (cs_Edge c).
Definition cloud_with_Alibaba (v : AlibabaCloudSpec) (c : CloudSpec) : CloudSpec :=
  MkCloudSpec (cs_DatacenterName c) (cs_ProviderName c) (cs_VSphere c) (cs_Baremetal c)
    (cs_Openstack c) (cs_Azure c) (cs_Digitalocean c) (cs_Hetzner c) (cs_AWS c) (cs_GCP c)
    (cs_Fake c) (cs_Kubevirt c) (Some v) (cs_Anexia c) (cs_Nutanix c)
    (cs_VMwareCloudDirector c)
    (cs_BringYourOwn c) (cs_Edge c).
Definition cloud_with_Anexia (v : AnexiaCloudSpec) (c : CloudSpec) : CloudSpec :=
  MkCloudSpec (cs_DatacenterName c) (cs_ProviderName c) (cs_VSphere c) (cs_Baremetal c)
    (cs_Openstack c) (cs_Azure c) (cs_Digitalocean c) (cs_Hetzner c) (cs_AWS c) (cs_GCP c)
    (cs_Fake c) (cs_Kubevirt c) (cs_Alibaba c) (Some v) (cs_Nutanix c)
    (cs_VMwareCloudDirector c)
    (cs_BringYourOwn c) (cs_Edge c).
Definition cloud_with_Nutanix (v : NutanixCloudSpec) (c : CloudSpec) : CloudSpec :=
  MkCloudSpec (cs_DatacenterName c) (cs_ProviderName c) (cs_VSphere c) (cs_Baremetal c)
    (cs_Openstack c) (cs_Azure c) (cs_Digitalocean c) (cs_Hetzner c) (cs_AWS c) (cs_GCP c)
    (cs_Fake c) (cs_Kubevirt c) (cs_Alibaba c) (cs_Anexia c) (Some v)
    (cs_VMwareCloudDirector c)
    (cs_BringYourOwn c) (cs_Edge c).
Definition cloud_with_VMwareCloudDirector (v : VMwareCloudDirectorCloudSpec) (c : CloudSpec) : CloudSpec :=
  MkCloudSpec (cs_DatacenterName c) (cs_ProviderName c) (cs_VSphere c) (cs_Baremetal c)
    (cs_Openstack c) (cs_Azure c) (cs_Digitalocean c) (cs_Hetzner c) (cs_AWS c) (cs_GCP c)
    (cs_Fake c) (cs_Kubevirt c) (cs_Alibaba c) (cs_Anexia c) (cs_Nutanix c) (Some v)
    (cs_BringYourOwn c) (cs_Edge c).

(** The parts of kubermaticv1.Datacenter that the presets look at. *)
Record DatacenterDefaults := MkDatacenterDefaults {
  dc_OpenstackEnforceFloatingIP : option bool;   (* Spec.Openstack.EnforceFloatingIP *)
  dc_VSphereDefaultStoragePolicy : option string (* Spec.VSphere.DefaultStoragePolicy *) }.
