(* ===== verification/SeedTypes.v ===== *)
(** The seeds of an installation and their datacenters, as the SDK stores them.
    Their Go types belong to the SDK; the records hold the fields that the
    modelled code reads or writes. *)
From S2P Require Export GoString.

(** A value of a type of the SDK that the code hands on and never looks into
    (the settings of a provider, of the nodes, of a backup destination): its
    JSON text. *)
Abbreviation SDKValue := string (only parsing).

(** A nil map and an empty map are the same value: the server drops empty maps
    from the objects it answers. *)

(** kubermaticv1.DatacenterSpec *)
Record DatacenterSpec := MkDatacenterSpec {
  dcspec_Digitalocean : option SDKValue;
  dcspec_BringYourOwn : option SDKValue;
  dcspec_Baremetal : option SDKValue;
  dcspec_AWS : option SDKValue;
  dcspec_Azure : option SDKValue;
  dcspec_Edge : option SDKValue;
  dcspec_Openstack : option SDKValue;
  dcspec_GCP : option SDKValue;
  dcspec_Hetzner : option SDKValue;
  dcspec_VSphere : option SDKValue;
  dcspec_Kubevirt : option SDKValue;
  dcspec_Alibaba : option SDKValue;
  dcspec_Anexia : option SDKValue;
  dcspec_Nutanix : option SDKValue;
  dcspec_VMwareCloudDirector : option SDKValue;
  dcspec_Fake : option SDKValue;
  dcspec_RequiredEmails : list string;
  dcspec_EnforceAuditLogging : bool;
  dcspec_EnforcedAuditWebhookSettings : option SDKValue;
  dcspec_EnforcePodSecurityPolicy : bool;
  dcspec_DefaultOperatingSystemProfiles : gmap string string;
  dcspec_MachineFlavorFilter : option SDKValue;
  dcspec_DisableCSIDriver : bool;
  dcspec_KubeLB : option SDKValue }.

(** kubermaticv1.Datacenter *)
Record Datacenter := MkDatacenter {
  dc_Country : string;
  dc_Location : string;
  dc_Node : option SDKValue;
  dc_Spec : DatacenterSpec }.

(** corev1.ObjectReference *)
Record ObjectReference := MkObjectReference {
  oref_Kind : string;
  oref_Namespace : string;
  oref_Name : string;
  oref_UID : string;
  oref_APIVersion : string;
  oref_ResourceVersion : string;
  oref_FieldPath : string }.
Definition noReference : ObjectReference := MkObjectReference "" "" "" "" "" "" "".

(** kubermaticv1.ProxySettings: two pointers to strings. *)
Record ProxySettings := MkProxySettings {
  proxy_HTTPProxy : option string;
  proxy_NoProxy : option string }.
Record SeedMLASettings := MkSeedMLASettings { mla_UserClusterMLAEnabled : bool }.
Record KubeLBSeedSettings := MkKubeLBSeedSettings { kubelb_EnableForAllDatacenters : bool }.
Record EtcdBackupRestore := MkEtcdBackupRestore {
  etcd_Destinations : gmap string SDKValue;
  etcd_DefaultDestination : string }.

(** kubermaticv1.MeteringReportConfiguration and MeteringConfiguration; the
    numbers are of type uint32. *)
Record MeteringReport := MkMeteringReport {
  report_Schedule : string;
  report_Interval : Z;
  report_Retention : option Z;
  report_Types : list string }.
Record MeteringConfiguration := MkMetering {
  metering_Enabled : bool;
  metering_StorageClassName : string;
  metering_StorageSize : string;
  metering_ReportConfigurations : gmap string MeteringReport }.

(** kubermaticv1.SeedSpec *)
Record SeedSpec := MkSeedSpec {
  seedspec_Country : string;
  seedspec_Location : string;
  seedspec_Kubeconfig : ObjectReference;
  seedspec_Datacenters : gmap string Datacenter;
  seedspec_SeedDNSOverwrite : string;
  seedspec_ProxySettings : option ProxySettings;
  seedspec_ExposeStrategy : string;
  seedspec_MLA : option SeedMLASettings;
  seedspec_DefaultClusterTemplate : string;
  seedspec_EtcdBackupRestore : option EtcdBackupRestore;
  seedspec_KubeLB : option KubeLBSeedSettings;
  seedspec_Metering : option MeteringConfiguration }.

Definition emptySeedSpec : SeedSpec :=
  MkSeedSpec "" "" noReference ∅ "" None "" None "" None None None.
Definition seedspec_with_kubeconfig (x : ObjectReference) (s : SeedSpec) : SeedSpec :=
  MkSeedSpec (seedspec_Country s) (seedspec_Location s) x (seedspec_Datacenters s)
    (seedspec_SeedDNSOverwrite s) (seedspec_ProxySettings s) (seedspec_ExposeStrategy s)
    (seedspec_MLA s) (seedspec_DefaultClusterTemplate s) (seedspec_EtcdBackupRestore s)
    (seedspec_KubeLB s) (seedspec_Metering s).
Definition seedspec_with_datacenters (x : gmap string Datacenter) (s : SeedSpec) : SeedSpec :=
  MkSeedSpec (seedspec_Country s) (seedspec_Location s) (seedspec_Kubeconfig s) x
    (seedspec_SeedDNSOverwrite s) (seedspec_ProxySettings s) (seedspec_ExposeStrategy s)
    (seedspec_MLA s) (seedspec_DefaultClusterTemplate s) (seedspec_EtcdBackupRestore s)
    (seedspec_KubeLB s) (seedspec_Metering s).
Definition seedspec_with_etcd (x : option EtcdBackupRestore) (s : SeedSpec) : SeedSpec :=
  MkSeedSpec (seedspec_Country s) (seedspec_Location s) (seedspec_Kubeconfig s)
    (seedspec_Datacenters s) (seedspec_SeedDNSOverwrite s) (seedspec_ProxySettings s)
    (seedspec_ExposeStrategy s) (seedspec_MLA s) (seedspec_DefaultClusterTemplate s) x
    (seedspec_KubeLB s) (seedspec_Metering s).
Definition seedspec_with_metering (x : option MeteringConfiguration) (s : SeedSpec) : SeedSpec :=
  MkSeedSpec (seedspec_Country s) (seedspec_Location s) (seedspec_Kubeconfig s)
    (seedspec_Datacenters s) (seedspec_SeedDNSOverwrite s) (seedspec_ProxySettings s)
    (seedspec_ExposeStrategy s) (seedspec_MLA s) (seedspec_DefaultClusterTemplate s)
    (seedspec_EtcdBackupRestore s) (seedspec_KubeLB s) x.

#[export] Instance DatacenterSpec_eq_dec : EqDecision DatacenterSpec.
Proof. solve_decision. Defined.
#[export] Instance Datacenter_eq_dec : EqDecision Datacenter.
Proof. solve_decision. Defined.
#[export] Instance ObjectReference_eq_dec : EqDecision ObjectReference.
Proof. solve_decision. Defined.
#[export] Instance ProxySettings_eq_dec : EqDecision ProxySettings.
Proof. solve_decision. Defined.
#[export] Instance SeedMLASettings_eq_dec : EqDecision SeedMLASettings.
Proof. solve_decision. Defined.
#[export] Instance KubeLBSeedSettings_eq_dec : EqDecision KubeLBSeedSettings.
Proof. solve_decision. Defined.
#[export] Instance EtcdBackupRestore_eq_dec : EqDecision EtcdBackupRestore.
Proof. solve_decision. Defined.
#[export] Instance MeteringReport_eq_dec : EqDecision MeteringReport.
Proof. solve_decision. Defined.
#[export] Instance MeteringConfiguration_eq_dec : EqDecision MeteringConfiguration.
Proof. solve_decision. Defined.
#[export] Instance SeedSpec_eq_dec : EqDecision SeedSpec.
Proof. solve_decision. Defined.
