(* ===== verification/ClusterTypes.v ===== *)
(** The user clusters of an installation, as the SDK stores them.  Their Go types
    belong to the SDK; the records hold the fields that the modelled code reads
    or writes, the other fields of a struct are one value that it hands on. *)
From S2P Require Export CloudTypes SeedTypes.

(** kubermaticv1.HealthStatus and kubermaticv1.ExtendedClusterHealth *)
Abbreviation HealthStatus := string (only parsing).
Record ClusterHealth := MkClusterHealth {
  health_Apiserver : HealthStatus;
  health_ApplicationController : HealthStatus;
  health_Scheduler : HealthStatus;
  health_Controller : HealthStatus;
  health_MachineController : HealthStatus;
  health_Etcd : HealthStatus;
  health_CloudProviderInfrastructure : HealthStatus;
  health_UserClusterControllerManager : HealthStatus;
  health_GatekeeperController : option HealthStatus;
  health_GatekeeperAudit : option HealthStatus;
  health_Monitoring : option HealthStatus;
  health_Logging : option HealthStatus;
  health_AlertmanagerConfig : option HealthStatus;
  health_MLAGateway : option HealthStatus;
  health_OperatingSystemManager : option HealthStatus;
  health_KubernetesDashboard : option HealthStatus;
  health_KubeLB : option HealthStatus;
  health_Kyverno : option HealthStatus }.

(** kubermaticv1.SecretboxKey, kubermaticv1.EncryptionConfiguration; [None] is a
    nil list or pointer. *)
Record SecretboxKey := MkSecretboxKey {
  boxkey_Name : string;
  boxkey_SecretRef : option (string * string) }.        (* name of the secret, key *)
Record EncryptionConfiguration := MkEncryption {
  encryption_Enabled : bool;
  encryption_Resources : option (list string);
  encryption_Secretbox : option (list SecretboxKey) }.

(** kubermaticv1.AuditLoggingSettings, ClusterNetworkingConfig, CNIPluginSettings *)
Record AuditLogging := MkAuditLogging {
  audit_WebhookBackend : option SDKValue;
  audit_rest : SDKValue }.
Record ClusterNetwork := MkClusterNetwork {
  network_KonnectivityEnabled : option bool;
  network_ProxyMode : string;
  network_rest : SDKValue }.
Record CNIPlugin := MkCNIPlugin {
  cni_Type : string;
  cni_rest : SDKValue }.

(** kubermaticv1.OSMControllerSettings *)
Record OSMSettings := MkOSMSettings {
  osm_Proxy : ProxySettings;
  osm_rest : SDKValue }.

(** kubermaticv1.ClusterSpec *)
Record ClusterSpec := MkClusterSpec {
  cspec_HumanReadableName : string;
  cspec_Cloud : CloudSpec;
  cspec_MachineNetworks : list SDKValue;
  cspec_Version : SDKValue;
  cspec_OIDC : SDKValue;
  cspec_UpdateWindow : option SDKValue;
  cspec_AuditLogging : option AuditLogging;
  cspec_UsePodSecurityPolicyAdmissionPlugin : bool;
  cspec_UsePodNodeSelectorAdmissionPlugin : bool;
  cspec_UseEventRateLimitAdmissionPlugin : bool;
  cspec_EnableUserSSHKeyAgent : option bool;
  cspec_BackupConfig : option SDKValue;
  cspec_KubeLB : option SDKValue;
  cspec_KubernetesDashboard : option SDKValue;
  cspec_AdmissionPlugins : list string;
  cspec_OPAIntegration : option SDKValue;
  cspec_PodNodeSelectorAdmissionPluginConfig : gmap string string;
  cspec_EventRateLimitConfig : option SDKValue;
  cspec_ServiceAccount : option SDKValue;
  cspec_MLA : option SDKValue;
  cspec_ContainerRuntime : string;
  cspec_ClusterNetwork : ClusterNetwork;
  cspec_CNIPlugin : option CNIPlugin;
  cspec_ExposeStrategy : string;
  cspec_APIServerAllowedIPRanges : option SDKValue;
  cspec_DisableCSIDriver : bool;
  cspec_Kyverno : option SDKValue;
  cspec_EncryptionConfiguration : option EncryptionConfiguration;
  cspec_Features : gmap string bool;
  cspec_OSM : option OSMSettings;          (* ComponentsOverride.OperatingSystemManager *)
  cspec_rest : SDKValue }.

(** kubermaticv1.ClusterStatus *)
Record ClusterStatus := MkClusterStatus {
  cstatus_UserEmail : string;
  cstatus_NamespaceName : string;
  cstatus_URL : string;                     (* Address.URL *)
  cstatus_AdminToken : string;              (* Address.AdminToken *)
  cstatus_APIServerExternalAddress : string;
  cstatus_ControlPlaneVersion : SDKValue;   (* Versions.ControlPlane *)
  cstatus_ExtendedHealth : ClusterHealth;
  cstatus_Encryption : option string;       (* Encryption.Phase *)
  cstatus_InheritedLabels : gmap string string;
  cstatus_rest : SDKValue }.

Definition noHealth : ClusterHealth :=
  MkClusterHealth "" "" "" "" "" "" "" "" None None None None None None None None None None.
Definition noClusterStatus : ClusterStatus := MkClusterStatus "" "" "" "" "" "" noHealth None ∅ "".

Definition cstatus_with_email (e : string) (s : ClusterStatus) : ClusterStatus :=
  MkClusterStatus e (cstatus_NamespaceName s) (cstatus_URL s) (cstatus_AdminToken s)
    (cstatus_APIServerExternalAddress s) (cstatus_ControlPlaneVersion s) (cstatus_ExtendedHealth s)
    (cstatus_Encryption s) (cstatus_InheritedLabels s) (cstatus_rest s).
Definition cstatus_with_token (t : string) (s : ClusterStatus) : ClusterStatus :=
  MkClusterStatus (cstatus_UserEmail s) (cstatus_NamespaceName s) (cstatus_URL s) t
    (cstatus_APIServerExternalAddress s) (cstatus_ControlPlaneVersion s) (cstatus_ExtendedHealth s)
    (cstatus_Encryption s) (cstatus_InheritedLabels s) (cstatus_rest s).

(** [kubermaticv1.ClusterSpec{}]. *)
Definition noCloud : CloudSpec :=
  MkCloudSpec "" "" None None None None None None None None None None None None None None None None.
Definition emptyClusterSpec : ClusterSpec :=
  MkClusterSpec "" noCloud [] "" "" None None false false false None None None None [] None ∅ None None None ""
    (MkClusterNetwork None "" "") None "" None false None None ∅ None "".

(** Writes to one field. *)
Definition cspec_with_HumanReadableName (x : string) (s : ClusterSpec) : ClusterSpec :=
  MkClusterSpec
    x (cspec_Cloud s) (cspec_MachineNetworks s) (cspec_Version s) (cspec_OIDC s) (cspec_UpdateWindow s)
    (cspec_AuditLogging s) (cspec_UsePodSecurityPolicyAdmissionPlugin s)
    (cspec_UsePodNodeSelectorAdmissionPlugin s) (cspec_UseEventRateLimitAdmissionPlugin s)
    (cspec_EnableUserSSHKeyAgent s) (cspec_BackupConfig s) (cspec_KubeLB s) (cspec_KubernetesDashboard s)
    (cspec_AdmissionPlugins s) (cspec_OPAIntegration s) (cspec_PodNodeSelectorAdmissionPluginConfig s)
    (cspec_EventRateLimitConfig s) (cspec_ServiceAccount s) (cspec_MLA s) (cspec_ContainerRuntime s)
    (cspec_ClusterNetwork s) (cspec_CNIPlugin s) (cspec_ExposeStrategy s) (cspec_APIServerAllowedIPRanges s)
    (cspec_DisableCSIDriver s) (cspec_Kyverno s) (cspec_EncryptionConfiguration s) (cspec_Features s)
    (cspec_OSM s) (cspec_rest s).
Definition cspec_with_Cloud (x : CloudSpec) (s : ClusterSpec) : ClusterSpec :=
  MkClusterSpec
    (cspec_HumanReadableName s) x (cspec_MachineNetworks s) (cspec_Version s) (cspec_OIDC s)
    (cspec_UpdateWindow s) (cspec_AuditLogging s) (cspec_UsePodSecurityPolicyAdmissionPlugin s)
    (cspec_UsePodNodeSelectorAdmissionPlugin s) (cspec_UseEventRateLimitAdmissionPlugin s)
    (cspec_EnableUserSSHKeyAgent s) (cspec_BackupConfig s) (cspec_KubeLB s) (cspec_KubernetesDashboard s)
    (cspec_AdmissionPlugins s) (cspec_OPAIntegration s) (cspec_PodNodeSelectorAdmissionPluginConfig s)
    (cspec_EventRateLimitConfig s) (cspec_ServiceAccount s) (cspec_MLA s) (cspec_ContainerRuntime s)
    (cspec_ClusterNetwork s) (cspec_CNIPlugin s) (cspec_ExposeStrategy s) (cspec_APIServerAllowedIPRanges s)
    (cspec_DisableCSIDriver s) (cspec_Kyverno s) (cspec_EncryptionConfiguration s) (cspec_Features s)
    (cspec_OSM s) (cspec_rest s).
Definition cspec_with_EncryptionConfiguration (x : option EncryptionConfiguration) (s : ClusterSpec) : ClusterSpec :=
  MkClusterSpec
    (cspec_HumanReadableName s) (cspec_Cloud s) (cspec_MachineNetworks s) (cspec_Version s) (cspec_OIDC s)
    (cspec_UpdateWindow s) (cspec_AuditLogging s) (cspec_UsePodSecurityPolicyAdmissionPlugin s)
    (cspec_UsePodNodeSelectorAdmissionPlugin s) (cspec_UseEventRateLimitAdmissionPlugin s)
    (cspec_EnableUserSSHKeyAgent s) (cspec_BackupConfig s) (cspec_KubeLB s) (cspec_KubernetesDashboard s)
    (cspec_AdmissionPlugins s) (cspec_OPAIntegration s) (cspec_PodNodeSelectorAdmissionPluginConfig s)
    (cspec_EventRateLimitConfig s) (cspec_ServiceAccount s) (cspec_MLA s) (cspec_ContainerRuntime s)
    (cspec_ClusterNetwork s) (cspec_CNIPlugin s) (cspec_ExposeStrategy s) (cspec_APIServerAllowedIPRanges s)
    (cspec_DisableCSIDriver s) (cspec_Kyverno s) x (cspec_Features s) (cspec_OSM s) (cspec_rest s).
Definition cspec_with_Features (x : gmap string bool) (s : ClusterSpec) : ClusterSpec :=
  MkClusterSpec
    (cspec_HumanReadableName s) (cspec_Cloud s) (cspec_MachineNetworks s) (cspec_Version s) (cspec_OIDC s)
    (cspec_UpdateWindow s) (cspec_AuditLogging s) (cspec_UsePodSecurityPolicyAdmissionPlugin s)
    (cspec_UsePodNodeSelectorAdmissionPlugin s) (cspec_UseEventRateLimitAdmissionPlugin s)
    (cspec_EnableUserSSHKeyAgent s) (cspec_BackupConfig s) (cspec_KubeLB s) (cspec_KubernetesDashboard s)
    (cspec_AdmissionPlugins s) (cspec_OPAIntegration s) (cspec_PodNodeSelectorAdmissionPluginConfig s)
    (cspec_EventRateLimitConfig s) (cspec_ServiceAccount s) (cspec_MLA s) (cspec_ContainerRuntime s)
    (cspec_ClusterNetwork s) (cspec_CNIPlugin s) (cspec_ExposeStrategy s) (cspec_APIServerAllowedIPRanges s)
    (cspec_DisableCSIDriver s) (cspec_Kyverno s) (cspec_EncryptionConfiguration s) x (cspec_OSM s)
    (cspec_rest s).
Definition cspec_with_OSM (x : option OSMSettings) (s : ClusterSpec) : ClusterSpec :=
  MkClusterSpec
    (cspec_HumanReadableName s) (cspec_Cloud s) (cspec_MachineNetworks s) (cspec_Version s) (cspec_OIDC s)
    (cspec_UpdateWindow s) (cspec_AuditLogging s) (cspec_UsePodSecurityPolicyAdmissionPlugin s)
    (cspec_UsePodNodeSelectorAdmissionPlugin s) (cspec_UseEventRateLimitAdmissionPlugin s)
    (cspec_EnableUserSSHKeyAgent s) (cspec_BackupConfig s) (cspec_KubeLB s) (cspec_KubernetesDashboard s)
    (cspec_AdmissionPlugins s) (cspec_OPAIntegration s) (cspec_PodNodeSelectorAdmissionPluginConfig s)
    (cspec_EventRateLimitConfig s) (cspec_ServiceAccount s) (cspec_MLA s) (cspec_ContainerRuntime s)
    (cspec_ClusterNetwork s) (cspec_CNIPlugin s) (cspec_ExposeStrategy s) (cspec_APIServerAllowedIPRanges s)
    (cspec_DisableCSIDriver s) (cspec_Kyverno s) (cspec_EncryptionConfiguration s) (cspec_Features s) x
    (cspec_rest s).
Definition cspec_with_EnableUserSSHKeyAgent (x : option bool) (s : ClusterSpec) : ClusterSpec :=
  MkClusterSpec
    (cspec_HumanReadableName s) (cspec_Cloud s) (cspec_MachineNetworks s) (cspec_Version s) (cspec_OIDC s)
    (cspec_UpdateWindow s) (cspec_AuditLogging s) (cspec_UsePodSecurityPolicyAdmissionPlugin s)
    (cspec_UsePodNodeSelectorAdmissionPlugin s) (cspec_UseEventRateLimitAdmissionPlugin s) x
    (cspec_BackupConfig s) (cspec_KubeLB s) (cspec_KubernetesDashboard s) (cspec_AdmissionPlugins s)
    (cspec_OPAIntegration s) (cspec_PodNodeSelectorAdmissionPluginConfig s) (cspec_EventRateLimitConfig s)
    (cspec_ServiceAccount s) (cspec_MLA s) (cspec_ContainerRuntime s) (cspec_ClusterNetwork s)
    (cspec_CNIPlugin s) (cspec_ExposeStrategy s) (cspec_APIServerAllowedIPRanges s) (cspec_DisableCSIDriver s)
    (cspec_Kyverno s) (cspec_EncryptionConfiguration s) (cspec_Features s) (cspec_OSM s) (cspec_rest s).
Definition cspec_with_BackupConfig (x : option SDKValue) (s : ClusterSpec) : ClusterSpec :=
  MkClusterSpec
    (cspec_HumanReadableName s) (cspec_Cloud s) (cspec_MachineNetworks s) (cspec_Version s) (cspec_OIDC s)
    (cspec_UpdateWindow s) (cspec_AuditLogging s) (cspec_UsePodSecurityPolicyAdmissionPlugin s)
    (cspec_UsePodNodeSelectorAdmissionPlugin s) (cspec_UseEventRateLimitAdmissionPlugin s)
    (cspec_EnableUserSSHKeyAgent s) x (cspec_KubeLB s) (cspec_KubernetesDashboard s) (cspec_AdmissionPlugins s)
    (cspec_OPAIntegration s) (cspec_PodNodeSelectorAdmissionPluginConfig s) (cspec_EventRateLimitConfig s)
    (cspec_ServiceAccount s) (cspec_MLA s) (cspec_ContainerRuntime s) (cspec_ClusterNetwork s)
    (cspec_CNIPlugin s) (cspec_ExposeStrategy s) (cspec_APIServerAllowedIPRanges s) (cspec_DisableCSIDriver s)
    (cspec_Kyverno s) (cspec_EncryptionConfiguration s) (cspec_Features s) (cspec_OSM s) (cspec_rest s).

#[export] Instance EncryptionConfiguration_eq_dec : EqDecision EncryptionConfiguration.
Proof. intros x y; unfold Decision; repeat decide equality. Defined.
