(* ===== verification/Objects.v ===== *)
(** The API objects the modelled code stores: the custom resources of
    Kubermatic (User, Project, UserProjectBinding, GroupProjectBinding,
    KubermaticSetting, UserSSHKey, Preset, ResourceQuota, Seed, Cluster) and the core
    Secret.  Their Go types belong to the SDKs, not to src/; the records hold the fields the modelled code reads or
    writes.  [kind] is the closed universe of kinds the clients are used at,
    [obj k] the Go type of kind [k]. *)
From S2P Require Export ClusterTypes.

(** A [time.Time] or [metav1.Time]: nanoseconds since Go's zero time. *)
Definition time : Type := Z.
Bind Scope Z_scope with time.
Definition zero_time : time := 0%Z.
Definition time_IsZero (t : time) : bool := bool_decide (t = zero_time).

(** Stored times have a precision of a second. *)
Definition trunc_second (t : time) : time := (t / 1000000000 * 1000000000)%Z.

(** The key of an object: namespace and name. Cluster-wide objects have the
    empty namespace. *)
Abbreviation key := (string * string)%type.

(** ** Metadata *)

Record OwnerReference := MkOwner {
  owner_APIVersion : string;
  owner_Kind : string;
  owner_UID : string;
  owner_Name : string }.

(** A nil map and an empty map are the same value here: the code reads label
    and annotation maps, and guards every write to one by a nil check or by a
    lookup that succeeded. *)
Record ObjectMeta := MkMeta {
  meta_Name : string;
  meta_Namespace : string;
  meta_UID : string;
  meta_ResourceVersion : string;
  meta_CreationTimestamp : time;
  meta_DeletionTimestamp : option time;
  meta_Labels : gmap string string;
  meta_Annotations : gmap string string;
  meta_OwnerReferences : list OwnerReference;
  meta_Finalizers : list string }.

(** [metav1.ObjectMeta{Name: name}]. *)
Definition metaNamed (name : string) : ObjectMeta :=
  MkMeta name "" "" "" zero_time None ∅ ∅ [] [].

Definition meta_with_name (n : string) (m : ObjectMeta) : ObjectMeta :=
  MkMeta n (meta_Namespace m) (meta_UID m) (meta_ResourceVersion m)
    (meta_CreationTimestamp m) (meta_DeletionTimestamp m) (meta_Labels m)
    (meta_Annotations m) (meta_OwnerReferences m) (meta_Finalizers m).
Definition meta_with_namespace (ns : string) (m : ObjectMeta) : ObjectMeta :=
  MkMeta (meta_Name m) ns (meta_UID m) (meta_ResourceVersion m)
    (meta_CreationTimestamp m) (meta_DeletionTimestamp m) (meta_Labels m)
    (meta_Annotations m) (meta_OwnerReferences m) (meta_Finalizers m).
Definition meta_with_labels (l : gmap string string) (m : ObjectMeta) : ObjectMeta :=
  MkMeta (meta_Name m) (meta_Namespace m) (meta_UID m) (meta_ResourceVersion m)
    (meta_CreationTimestamp m) (meta_DeletionTimestamp m) l
    (meta_Annotations m) (meta_OwnerReferences m) (meta_Finalizers m).
Definition meta_with_owners (o : list OwnerReference) (m : ObjectMeta) : ObjectMeta :=
  MkMeta (meta_Name m) (meta_Namespace m) (meta_UID m) (meta_ResourceVersion m)
    (meta_CreationTimestamp m) (meta_DeletionTimestamp m) (meta_Labels m)
    (meta_Annotations m) o (meta_Finalizers m).

(** The fields the API server owns: those a client cannot choose. *)
Definition meta_with_server (uid rv : string) (created : time) (deleted : option time)
    (m : ObjectMeta) : ObjectMeta :=
  MkMeta (meta_Name m) (meta_Namespace m) uid rv created deleted (meta_Labels m)
    (meta_Annotations m) (meta_OwnerReferences m) (meta_Finalizers m).
Definition meta_strip : ObjectMeta -> ObjectMeta := meta_with_server "" "" zero_time None.

(** ** The objects *)

(** kubermaticv1.User; service accounts are users too. [user_Settings] is
    carried around and never inspected. *)
Record User := MkUser {
  user_meta : ObjectMeta;
  user_Name : string;
  user_Email : string;
  user_Groups : list string;
  user_IsAdmin : bool;
  user_IsGlobalViewer : bool;
  user_Project : string;
  user_InvalidTokensReference : option SecretRef;
  user_ReadAnnouncements : list string;
  user_Settings : option string;
  user_LastSeen : time }.

(** kubermaticv1.Project *)
Record Project := MkProject {
  project_meta : ObjectMeta;
  project_Name : string;
  project_AllowedOperatingSystems : gmap string bool;
  project_Phase : string }.

(** kubermaticv1.UserProjectBinding *)
Record UserProjectBinding := MkBinding {
  binding_meta : ObjectMeta;
  binding_UserEmail : string;
  binding_ProjectID : string;
  binding_Group : string }.

(** kubermaticv1.GroupProjectBinding *)
Record GroupProjectBinding := MkGroupBinding {
  gbinding_meta : ObjectMeta;
  gbinding_Group : string;
  gbinding_ProjectID : string;
  gbinding_Role : string }.

(** corev1.Secret. [None] is the nil map: reading it is fine, writing panics. *)
Record Secret := MkSecret {
  secret_meta : ObjectMeta;
  secret_Type : string;
  secret_Data : option (gmap string string) }.

(** kubermaticv1.WebTerminalOptions; [Enabled] is a pointer. *)
Record WebTerminalOptions := MkWebTerminalOptions {
  wto_Enabled : option bool;
  wto_EnableInternetAccess : bool }.

(** kubermaticv1.KubermaticSetting *)
Record KubermaticSetting := MkSetting {
  setting_meta : ObjectMeta;
  setting_RestrictProjectCreation : bool;
  setting_RestrictProjectDeletion : bool;
  setting_RestrictProjectModification : bool;
  setting_UserProjectsLimit : Z;
  setting_EnableDashboard : bool;
  setting_WebTerminalOptions : option WebTerminalOptions }.

(** kubermaticv1.UserSSHKey. A nil list of clusters is the empty one: the code
    ranges over it. *)
Record UserSSHKey := MkSSHKey {
  sshkey_meta : ObjectMeta;
  sshkey_Name : string;
  sshkey_PublicKey : string;
  sshkey_Fingerprint : string;
  sshkey_Project : string;
  sshkey_Clusters : list string }.

(** kubermaticv1.Preset *)
Record Preset := MkPreset {
  preset_meta : ObjectMeta;
  preset_Spec : PresetSpec }.

(** resource.Quantity: a number in billionths, and the notation it is printed in. *)
(** The format of the zero value is the empty string. *)
Inductive QuantityFormat := FormatUnset | DecimalExponent | BinarySI | DecimalSI.
#[export] Instance QuantityFormat_eq_dec : EqDecision QuantityFormat.
Proof. solve_decision. Defined.
Record Quantity := MkQuantity {
  quantity_nanos : Z;
  quantity_Format : QuantityFormat }.
#[export] Instance Quantity_eq_dec : EqDecision Quantity.
Proof. solve_decision. Defined.

(** kubermaticv1.AcceleratorQuota; [Resources] is a corev1.ResourceList. *)
Record AcceleratorQuota := MkAcceleratorQuota {
  accelerator_Provider : string;
  accelerator_Resources : gmap string Quantity }.
#[export] Instance AcceleratorQuota_eq_dec : EqDecision AcceleratorQuota.
Proof. solve_decision. Defined.

(** kubermaticv1.ResourceDetails. A nil list of accelerators is the empty one: the
    field is omitted from the stored object when it is empty. *)
Record ResourceDetails := MkResourceDetails {
  rd_CPU : option Quantity;
  rd_Memory : option Quantity;
  rd_Storage : option Quantity;
  rd_Accelerators : list AcceleratorQuota }.
#[export] Instance ResourceDetails_eq_dec : EqDecision ResourceDetails.
Proof. solve_decision. Defined.

(** kubermaticv1.ResourceQuotaGlobalAcceleratorAccountingStatus, with its blockers *)
Record AccountingBlocker := MkAccountingBlocker {
  blocker_Type : string;
  blocker_Message : string;
  blocker_SeedName : string;
  blocker_ClusterName : string;
  blocker_Count : Z }.
Record AccountingStatus := MkAccountingStatus {
  accounting_ActivationPhase : string;
  accounting_ObservedAccountingRevision : string;
  accounting_ObservedQuotaDigest : string;
  accounting_ObservedAt : time;
  accounting_LegacyMachinesWithoutFootprint : Z;
  accounting_MachinesWithInvalidFootprint : Z;
  accounting_Ready : bool;
  accounting_Blockers : list AccountingBlocker }.

(** kubermaticv1.ResourceQuotaStatus, kubermaticv1.Subject, kubermaticv1.ResourceQuota *)
Record QuotaStatus := MkQuotaStatus {
  qstatus_GlobalUsage : ResourceDetails;
  qstatus_LocalUsage : ResourceDetails;
  qstatus_GlobalAcceleratorAccounting : option AccountingStatus }.
Record QuotaSubject := MkQuotaSubject {
  subject_Name : string;
  subject_Kind : string }.
Record ResourceQuota := MkResourceQuota {
  quota_meta : ObjectMeta;
  quota_Subject : QuotaSubject;
  quota_Quota : ResourceDetails;
  quota_Status : QuotaStatus }.

(** kubermaticv1.Seed *)
Record Seed := MkSeed {
  seed_meta : ObjectMeta;
  seed_Spec : SeedSpec;
  seed_Phase : string }.                       (* Status.Phase *)
Definition seed_Name (s : Seed) : string := meta_Name (seed_meta s).

(** kubermaticv1.Cluster *)
Record UserCluster := MkUserCluster {
  cluster_meta : ObjectMeta;
  cluster_Spec : ClusterSpec;
  cluster_Status : ClusterStatus }.
Definition cluster_Name (c : UserCluster) : string := meta_Name (cluster_meta c).
Definition cluster_HumanReadableName (c : UserCluster) : string := cspec_HumanReadableName (cluster_Spec c).
Definition cluster_Labels (c : UserCluster) : gmap string string := meta_Labels (cluster_meta c).

Definition noResources : ResourceDetails := MkResourceDetails None None None [].
Definition noQuotaStatus : QuotaStatus := MkQuotaStatus noResources noResources None.

Definition user_with_meta (m : ObjectMeta) (u : User) : User :=
  MkUser m (user_Name u) (user_Email u) (user_Groups u) (user_IsAdmin u)
    (user_IsGlobalViewer u) (user_Project u) (user_InvalidTokensReference u)
    (user_ReadAnnouncements u) (user_Settings u) (user_LastSeen u).
Definition user_with_specname (n : string) (u : User) : User :=
  MkUser (user_meta u) n (user_Email u) (user_Groups u) (user_IsAdmin u)
    (user_IsGlobalViewer u) (user_Project u) (user_InvalidTokensReference u)
    (user_ReadAnnouncements u) (user_Settings u) (user_LastSeen u).
Definition user_with_groups (g : list string) (u : User) : User :=
  MkUser (user_meta u) (user_Name u) (user_Email u) g (user_IsAdmin u)
    (user_IsGlobalViewer u) (user_Project u) (user_InvalidTokensReference u)
    (user_ReadAnnouncements u) (user_Settings u) (user_LastSeen u).
Definition user_with_roles (admin viewer : bool) (u : User) : User :=
  MkUser (user_meta u) (user_Name u) (user_Email u) (user_Groups u) admin
    viewer (user_Project u) (user_InvalidTokensReference u)
    (user_ReadAnnouncements u) (user_Settings u) (user_LastSeen u).
Definition user_with_invalid_tokens (r : option SecretRef) (u : User) : User :=
  MkUser (user_meta u) (user_Name u) (user_Email u) (user_Groups u) (user_IsAdmin u)
    (user_IsGlobalViewer u) (user_Project u) r
    (user_ReadAnnouncements u) (user_Settings u) (user_LastSeen u).
Definition user_with_last_seen (t : time) (u : User) : User :=
  MkUser (user_meta u) (user_Name u) (user_Email u) (user_Groups u) (user_IsAdmin u)
    (user_IsGlobalViewer u) (user_Project u) (user_InvalidTokensReference u)
    (user_ReadAnnouncements u) (user_Settings u) t.
Definition user_with_settings (s : option string) (u : User) : User :=
  MkUser (user_meta u) (user_Name u) (user_Email u) (user_Groups u) (user_IsAdmin u)
    (user_IsGlobalViewer u) (user_Project u) (user_InvalidTokensReference u)
    (user_ReadAnnouncements u) s (user_LastSeen u).
Definition user_with_announcements (a : list string) (u : User) : User :=
  MkUser (user_meta u) (user_Name u) (user_Email u) (user_Groups u) (user_IsAdmin u)
    (user_IsGlobalViewer u) (user_Project u) (user_InvalidTokensReference u)
    a (user_Settings u) (user_LastSeen u).
Definition project_with_meta (m : ObjectMeta) (p : Project) : Project :=
  MkProject m (project_Name p) (project_AllowedOperatingSystems p) (project_Phase p).
Definition binding_with_meta (m : ObjectMeta) (b : UserProjectBinding) : UserProjectBinding :=
  MkBinding m (binding_UserEmail b) (binding_ProjectID b) (binding_Group b).
Definition binding_with_group (g : string) (b : UserProjectBinding) : UserProjectBinding :=
  MkBinding (binding_meta b) (binding_UserEmail b) (binding_ProjectID b) g.
Definition gbinding_with_meta (m : ObjectMeta) (b : GroupProjectBinding) : GroupProjectBinding :=
  MkGroupBinding m (gbinding_Group b) (gbinding_ProjectID b) (gbinding_Role b).
Definition gbinding_with_spec (group role : string) (b : GroupProjectBinding) : GroupProjectBinding :=
  MkGroupBinding (gbinding_meta b) group (gbinding_ProjectID b) role.
Definition sshkey_with_meta (m : ObjectMeta) (k : UserSSHKey) : UserSSHKey :=
  MkSSHKey m (sshkey_Name k) (sshkey_PublicKey k) (sshkey_Fingerprint k) (sshkey_Project k)
    (sshkey_Clusters k).
Definition sshkey_with_clusters (l : list string) (k : UserSSHKey) : UserSSHKey :=
  MkSSHKey (sshkey_meta k) (sshkey_Name k) (sshkey_PublicKey k) (sshkey_Fingerprint k)
    (sshkey_Project k) l.
Definition preset_with_meta (m : ObjectMeta) (p : Preset) : Preset := MkPreset m (preset_Spec p).
Definition preset_with_spec (s : PresetSpec) (p : Preset) : Preset := MkPreset (preset_meta p) s.
Definition secret_with_meta (m : ObjectMeta) (s : Secret) : Secret :=
  MkSecret m (secret_Type s) (secret_Data s).
Definition secret_with_data (d : option (gmap string string)) (s : Secret) : Secret :=
  MkSecret (secret_meta s) (secret_Type s) d.
Definition setting_with_meta (m : ObjectMeta) (s : KubermaticSetting) : KubermaticSetting :=
  MkSetting m (setting_RestrictProjectCreation s) (setting_RestrictProjectDeletion s)
    (setting_RestrictProjectModification s) (setting_UserProjectsLimit s)
    (setting_EnableDashboard s) (setting_WebTerminalOptions s).

Definition quota_with_meta (m : ObjectMeta) (q : ResourceQuota) : ResourceQuota :=
  MkResourceQuota m (quota_Subject q) (quota_Quota q) (quota_Status q).
Definition quota_with_quota (d : ResourceDetails) (q : ResourceQuota) : ResourceQuota :=
  MkResourceQuota (quota_meta q) (quota_Subject q) d (quota_Status q).
Definition seed_with_meta (m : ObjectMeta) (s : Seed) : Seed := MkSeed m (seed_Spec s) (seed_Phase s).
Definition seed_with_spec (x : SeedSpec) (s : Seed) : Seed := MkSeed (seed_meta s) x (seed_Phase s).

Definition cluster_with_meta (m : ObjectMeta) (c : UserCluster) : UserCluster :=
  MkUserCluster m (cluster_Spec c) (cluster_Status c).
Definition cluster_with_spec (s : ClusterSpec) (c : UserCluster) : UserCluster :=
  MkUserCluster (cluster_meta c) s (cluster_Status c).
Definition cluster_with_status (s : ClusterStatus) (c : UserCluster) : UserCluster :=
  MkUserCluster (cluster_meta c) (cluster_Spec c) s.

(** ** The universe of kinds *)

Inductive kind : Set :=
| KUser | KProject | KBinding | KGroupBinding | KSecret | KSetting | KSSHKey | KPreset | KResourceQuota
| KSeed | KCluster.
#[export] Instance kind_eq_dec : EqDecision kind.
Proof. solve_decision. Defined.

Definition obj (k : kind) : Type :=
  match k with
  | KUser => User
  | KProject => Project
  | KBinding => UserProjectBinding
  | KGroupBinding => GroupProjectBinding
  | KSecret => Secret
  | KSetting => KubermaticSetting
  | KSSHKey => UserSSHKey
  | KPreset => Preset
  | KResourceQuota => ResourceQuota
  | KSeed => Seed
  | KCluster => UserCluster
  end.

Definition obj_meta (k : kind) : obj k -> ObjectMeta :=
  match k with
  | KUser => user_meta
  | KProject => project_meta
  | KBinding => binding_meta
  | KGroupBinding => gbinding_meta
  | KSecret => secret_meta
  | KSetting => setting_meta
  | KSSHKey => sshkey_meta
  | KPreset => preset_meta
  | KResourceQuota => quota_meta
  | KSeed => seed_meta
  | KCluster => cluster_meta
  end.

Definition obj_with_meta (k : kind) : ObjectMeta -> obj k -> obj k :=
  match k with
  | KUser => user_with_meta
  | KProject => project_with_meta
  | KBinding => binding_with_meta
  | KGroupBinding => gbinding_with_meta
  | KSecret => secret_with_meta
  | KSetting => setting_with_meta
  | KSSHKey => sshkey_with_meta
  | KPreset => preset_with_meta
  | KResourceQuota => quota_with_meta
  | KSeed => seed_with_meta
  | KCluster => cluster_with_meta
  end.

(** The status subresource, which only its own endpoint writes. *)
Definition status (k : kind) : Type :=
  match k with KUser => time | KProject | KSeed => string | KResourceQuota => QuotaStatus
  | KCluster => ClusterStatus | _ => unit end.
Definition obj_status (k : kind) : obj k -> status k :=
  match k with
  | KUser => user_LastSeen
  | KProject => project_Phase
  | KResourceQuota => quota_Status
  | KSeed => seed_Phase
  | KCluster => cluster_Status
  | _ => fun _ => tt
  end.
Definition obj_with_status (k : kind) : status k -> obj k -> obj k :=
  match k with
  | KUser => fun s u => user_with_last_seen s u
  | KProject => fun s p =>
      MkProject (project_meta p) (project_Name p) (project_AllowedOperatingSystems p) s
  | KResourceQuota => fun s q => MkResourceQuota (quota_meta q) (quota_Subject q) (quota_Quota q) s
  | KSeed => fun x s => MkSeed (seed_meta s) (seed_Spec s) x
  | KCluster => cluster_with_status
  | _ => fun _ o => o
  end.
(** What the server keeps of a status. *)
Definition stored_status (k : kind) : status k -> status k :=
  match k with KUser => trunc_second | _ => fun s => s end.
Definition empty_status (k : kind) : status k :=
  match k with KUser => zero_time | KProject | KSeed => "" | KResourceQuota => noQuotaStatus
  | KCluster => noClusterStatus | _ => tt end.

(** What a client chose of an object: everything but the fields the server
    owns. *)
Definition strip (k : kind) (o : obj k) : obj k :=
  obj_with_status k (empty_status k) (obj_with_meta k (meta_strip (obj_meta k o)) o).

Definition key_of (k : kind) (o : obj k) : key :=
  (meta_Namespace (obj_meta k o), meta_Name (obj_meta k o)).

Lemma obj_meta_with_meta k m o : obj_meta k (obj_with_meta k m o) = m.
Proof. by destruct k. Qed.
Lemma obj_with_meta_twice k m m' o :
  obj_with_meta k m (obj_with_meta k m' o) = obj_with_meta k m o.
Proof. by destruct k. Qed.
Lemma obj_meta_with_status k s o : obj_meta k (obj_with_status k s o) = obj_meta k o.
Proof. by destruct k. Qed.
Lemma obj_status_with_status k s o : obj_status k (obj_with_status k s o) = s.
Proof. by destruct k; cbn; try destruct s. Qed.
Lemma obj_status_with_meta k m o : obj_status k (obj_with_meta k m o) = obj_status k o.
Proof. by destruct k. Qed.

Lemma strip_with_server k uid rv t d o :
  strip k (obj_with_meta k (meta_with_server uid rv t d (obj_meta k o)) o) = strip k o.
Proof. by destruct k, o. Qed.
Lemma strip_with_status k s o : strip k (obj_with_status k s o) = strip k o.
Proof. by destruct k, o. Qed.

Lemma strip_key k o o' : strip k o = strip k o' -> key_of k o = key_of k o'.
Proof.
  intros H%(f_equal (obj_meta k)). unfold strip in H.
  rewrite !obj_meta_with_status, !obj_meta_with_meta in H.
  unfold key_of. by injection H as -> ->.
Qed.

Lemma strip_finalizers k o o' : strip k o = strip k o' ->
  meta_Finalizers (obj_meta k o) = meta_Finalizers (obj_meta k o').
Proof.
  intros H%(f_equal (obj_meta k)). unfold strip in H.
  rewrite !obj_meta_with_status, !obj_meta_with_meta in H. by injection H.
Qed.

(** The fields of each kind that survive the server. *)
Lemma strip_user u u' : strip KUser u = strip KUser u' ->
  user_Name u = user_Name u' /\ user_Email u = user_Email u' /\
  user_Groups u = user_Groups u' /\ user_IsAdmin u = user_IsAdmin u' /\
  user_IsGlobalViewer u = user_IsGlobalViewer u' /\ user_Project u = user_Project u' /\
  user_InvalidTokensReference u = user_InvalidTokensReference u' /\
  meta_Labels (user_meta u) = meta_Labels (user_meta u').
Proof. destruct u, u'; intros H; injection H; naive_solver. Qed.

Lemma strip_binding b b' : strip KBinding b = strip KBinding b' ->
  binding_UserEmail b = binding_UserEmail b' /\ binding_ProjectID b = binding_ProjectID b' /\
  binding_Group b = binding_Group b'.
Proof. destruct b, b'; intros H; injection H; naive_solver. Qed.

Lemma strip_project p p' : strip KProject p = strip KProject p' ->
  project_Name p = project_Name p' /\
  project_AllowedOperatingSystems p = project_AllowedOperatingSystems p' /\
  meta_Labels (project_meta p) = meta_Labels (project_meta p').
Proof. destruct p, p'; intros H; injection H; naive_solver. Qed.

Lemma strip_sshkey k k' : strip KSSHKey k = strip KSSHKey k' ->
  sshkey_Name k = sshkey_Name k' /\ sshkey_PublicKey k = sshkey_PublicKey k' /\
  sshkey_Fingerprint k = sshkey_Fingerprint k' /\ sshkey_Project k = sshkey_Project k' /\
  sshkey_Clusters k = sshkey_Clusters k'.
Proof. destruct k, k'; intros H; injection H; naive_solver. Qed.

Lemma strip_gbinding b b' : strip KGroupBinding b = strip KGroupBinding b' ->
  gbinding_Group b = gbinding_Group b' /\ gbinding_ProjectID b = gbinding_ProjectID b' /\
  gbinding_Role b = gbinding_Role b' /\
  meta_Labels (gbinding_meta b) = meta_Labels (gbinding_meta b').
Proof. destruct b, b'; intros H; injection H; naive_solver. Qed.

Lemma strip_preset p p' : strip KPreset p = strip KPreset p' -> preset_Spec p = preset_Spec p'.
Proof. destruct p, p'; intros H; injection H; naive_solver. Qed.

Lemma strip_quota q q' : strip KResourceQuota q = strip KResourceQuota q' ->
  quota_Subject q = quota_Subject q' /\ quota_Quota q = quota_Quota q' /\
  meta_Labels (quota_meta q) = meta_Labels (quota_meta q') /\
  meta_Annotations (quota_meta q) = meta_Annotations (quota_meta q').
Proof. destruct q, q'; intros H; injection H; naive_solver. Qed.

Lemma strip_seed s s' : strip KSeed s = strip KSeed s' -> seed_Spec s = seed_Spec s'.
Proof. destruct s, s'; intros H; injection H; naive_solver. Qed.

Lemma strip_cluster c c' : strip KCluster c = strip KCluster c' ->
  cluster_Spec c = cluster_Spec c' /\ meta_Labels (cluster_meta c) = meta_Labels (cluster_meta c') /\
  meta_Annotations (cluster_meta c) = meta_Annotations (cluster_meta c') /\
  meta_Finalizers (cluster_meta c) = meta_Finalizers (cluster_meta c').
Proof. destruct c, c'; intros H; injection H; naive_solver. Qed.

Lemma strip_secret s s' : strip KSecret s = strip KSecret s' ->
  secret_Data s = secret_Data s' /\
  meta_Labels (secret_meta s) = meta_Labels (secret_meta s') /\
  meta_OwnerReferences (secret_meta s) = meta_OwnerReferences (secret_meta s').
Proof. destruct s, s'; intros H; injection H; naive_solver. Qed.
