(* ===== verification/KubeAPI.v ===== *)
(** The Kubernetes API as the providers use it: the operations of a
    controller-runtime client ([KubeAPI]), the documented behaviour the
    theorems rely on ([KubeAPILaws]) and the impersonation clients of
    provider/kubernetes/util.go.  The file MemAPI has a server of which the laws
    hold. *)
From S2P Require Export Objects.
From Stdlib Require Import Ascii.

(** restclient.ImpersonationConfig *)
Record ImpersonationConfig := MkImpersonation {
  imp_UserName : string;
  imp_Groups : list string }.

(** A [ctrlruntimeclient.Client]: the privileged one, or one whose requests
    the API server authorizes as somebody else. *)
Inductive client :=
| Privileged
| Impersonated (cfg : ImpersonationConfig).

Inductive verb := VGet | VCreate | VUpdate | VPatch | VDelete.
#[export] Instance verb_eq_dec : EqDecision verb.
Proof. solve_decision. Defined.

(** labels.Selector, as far as the code builds them. *)
Inductive selector :=
| Everything
| LabelIs (label value : string)
| AllOf (requirements : list selector).

Fixpoint matches (s : selector) (m : ObjectMeta) : bool :=
  match s with
  | Everything => true
  | LabelIs l v => bool_decide (meta_Labels m !! l = Some v)
  | AllOf l => forallb (fun s => matches s m) l
  end.

(** The letters and digits. *)
Definition alphanumeric (c : ascii) : bool :=
  let n := nat_of_ascii c in
  ((48 <=? n) && (n <=? 57)) || ((65 <=? n) && (n <=? 90)) || ((97 <=? n) && (n <=? 122)).

(** ** The operations *)

Class KubeAPI (W : Type) := {
  now : M W error time;                       (* time.Now() *)
  rand_string : nat -> M W error string;      (* rand.String(n) *)
  new_client : ImpersonationConfig -> M W error unit;   (* ctrlruntimeclient.New *)
  kget : forall k, client -> key -> M W error (obj k);
  klist : forall k, client -> selector -> M W error (list (obj k));
  kcreate : forall k, client -> obj k -> M W error (obj k);
  kupdate : forall k, client -> obj k -> M W error (obj k);
  kpatch : forall k, client -> obj k -> obj k -> M W error (obj k);  (* Patch(new, MergeFrom(old)) *)
  kpatch_status : forall k, client -> obj k -> M W error (obj k);
  kdelete : forall k : kind, client -> key -> M W error unit }.

(** What the API server stores, and what its RBAC allows. *)
Class Store (W : Type) := {
  view : forall k : kind, W -> gmap key (obj k);
  rbac_allows : W -> ImpersonationConfig -> verb -> kind -> key -> Prop }.

Definition authorized `{Store W} (w : W) (c : client) (v : verb) (k : kind) (n : key) : Prop :=
  match c with
  | Privileged => True
  | Impersonated cfg => rbac_allows w cfg v k n
  end.

#[global] Arguments authorized : simpl never.
#[global] Arguments strip : simpl never.
#[global] Arguments key_of : simpl never.

(** Two worlds with the same objects and the same permissions, and two worlds
    with the same objects but for one kind. *)
Definition same_store `{Store W} (w w' : W) : Prop :=
  (forall k, view k w = view k w') /\
  (forall cfg v k n, rbac_allows w cfg v k n <-> rbac_allows w' cfg v k n).
Definition same_except `{Store W} (k : kind) (w w' : W) : Prop :=
  forall k', k' <> k -> view k' w = view k' w'.

#[export] Instance same_store_equivalence `{Store W} : Equivalence same_store.
Proof.
  split.
  - by intros w.
  - intros w w' [H1 H2]. split; intros; symmetry; auto.
  - intros w1 w2 w3 [H1 H2] [H3 H4]. split; intros; etrans; eauto.
Qed.
#[export] Instance view_proper `{Store W} k : Proper (same_store ==> eq) (view k).
Proof. intros w w' Hw. apply Hw. Qed.
#[export] Instance same_except_proper `{Store W} k :
  Proper (same_store ==> same_store ==> iff) (same_except k).
Proof.
  intros w1 w1' H1 w2 w2' H2. unfold same_except.
  split; intros Hs k' Hk; [rewrite <- H1, <- H2|rewrite H1, H2]; auto.
Qed.

#[export] Instance authorized_proper `{Store W} :
  Proper (same_store ==> eq ==> eq ==> eq ==> eq ==> iff) authorized.
Proof.
  intros w w' Hw c ? <- v ? <- k ? <- n ? <-. destruct c; [done|]. apply Hw.
Qed.

Lemma same_store_except `{Store W} k (w w' : W) : same_store w w' -> same_except k w w'.
Proof. intros Hs k' _. apply Hs. Qed.

(** The object [o] is new, replaces an old one, is gone: everything else stays. *)
Definition created `{Store W} (k : kind) (w w' : W) (o : obj k) : Prop :=
  view k w !! key_of k o = None /\
  view k w' = <[key_of k o := o]> (view k w) /\ same_except k w w'.
Definition updated `{Store W} (k : kind) (w w' : W) (o : obj k) : Prop :=
  (exists old, view k w !! key_of k o = Some old /\
     meta_UID (obj_meta k o) = meta_UID (obj_meta k old)) /\
  view k w' = <[key_of k o := o]> (view k w) /\ same_except k w w'.
Definition deleted `{Store W} (k : kind) (w w' : W) (n : key) : Prop :=
  (forall n', n' <> n -> view k w' !! n' = view k w !! n') /\ same_except k w w' /\
  exists old, view k w !! n = Some old /\
    (meta_Finalizers (obj_meta k old) = [] -> view k w' !! n = None) /\
    (forall o, view k w' !! n = Some o -> strip k o = strip k old).

#[export] Instance created_proper `{Store W} k :
  Proper (same_store ==> same_store ==> eq ==> iff) (created k).
Proof.
  intros w1 w1' [H1 _] w2 w2' [H2 _] o ? <-. unfold created, same_except.
  by setoid_rewrite H1; setoid_rewrite H2.
Qed.
#[export] Instance updated_proper `{Store W} k :
  Proper (same_store ==> same_store ==> eq ==> iff) (updated k).
Proof.
  intros w1 w1' [H1 _] w2 w2' [H2 _] o ? <-. unfold updated, same_except.
  by setoid_rewrite H1; setoid_rewrite H2.
Qed.
#[export] Instance deleted_proper `{Store W} k :
  Proper (same_store ==> same_store ==> eq ==> iff) (deleted k).
Proof.
  intros w1 w1' [H1 _] w2 w2' [H2 _] n ? <-. unfold deleted, same_except.
  by setoid_rewrite H1; setoid_rewrite H2.
Qed.

(** ** Documented behaviour of the API server

    Every request may fail, and a failed request changes nothing.  A request
    that succeeds was authorized. *)
Class KubeAPILaws (W : Type) {EL : ErrorLib} {API : KubeAPI W} {ST : Store W} : Prop := {
  view_key k (w : W) n o : view k w !! n = Some o -> key_of k o = n;
  now_spec (w : W) :
    runs now w (fun r w' => same_store w w' /\ exists t, r = Ok t);
  rand_string_spec n (w : W) :
    runs (rand_string n) w (fun r w' => same_store w w' /\
      exists s, r = Ok s /\ String.length s = n /\
        forallb alphanumeric (String.list_ascii_of_string s) = true);
  new_client_spec cfg (w : W) :
    runs (new_client cfg) w (fun r w' => same_store w w' /\ r <> Panic);
  kget_spec k c n (w : W) :
    runs (kget k c n) w (fun r w' => same_store w w' /\
      match r with
      | Ok o => view k w !! n = Some o /\ authorized w c VGet k n
      | Err e => apierrors_IsNotFound e = true -> view k w !! n = None
      | Panic => False
      end);
  klist_spec k c s (w : W) :
    runs (klist k c s) w (fun r w' => same_store w w' /\
      match r with
      | Ok l => l ≡ₚ filter (fun o => matches s (obj_meta k o) = true)
                            (map_to_list (view k w)).*2
      | Err e => True
      | Panic => False
      end);
  kcreate_spec k c o (w : W) :
    runs (kcreate k c o) w (fun r w' =>
      match r with
      | Ok o' => authorized w c VCreate k (key_of k o) /\ strip k o' = strip k o /\
          created k w w' o'
      | Err e => same_store w w' /\
          (apierrors_IsAlreadyExists e = true -> is_Some (view k w !! key_of k o))
      | Panic => False
      end);
  kupdate_spec k c o (w : W) :
    runs (kupdate k c o) w (fun r w' =>
      match r with
      | Ok o' => authorized w c VUpdate k (key_of k o) /\ strip k o' = strip k o /\
          updated k w w' o' /\
          (forall old, view k w !! key_of k o = Some old -> obj_status k o' = obj_status k old)
      | Err e => same_store w w'
      | Panic => False
      end);
  kpatch_spec k c old o (w : W) :
    runs (kpatch k c old o) w (fun r w' =>
      match r with
      | Ok o' => authorized w c VPatch k (key_of k o) /\ key_of k o' = key_of k o /\
          updated k w w' o' /\
          (forall cur, view k w !! key_of k o = Some cur -> strip k cur = strip k old ->
             strip k o' = strip k o)
      | Err e => same_store w w'
      | Panic => False
      end);
  kpatch_status_spec k c o (w : W) :
    runs (kpatch_status k c o) w (fun r w' =>
      match r with
      | Ok o' => obj_status k o' = stored_status k (obj_status k o) /\ key_of k o' = key_of k o /\
          updated k w w' o' /\
          (forall old, view k w !! key_of k o = Some old -> strip k o' = strip k old)
      | Err e => same_store w w'
      | Panic => False
      end);
  kdelete_spec k c n (w : W) :
    runs (kdelete k c n) w (fun r w' =>
      match r with
      | Ok _ => authorized w c VDelete k n /\ deleted k w w' n
      | Err e => same_store w w'
      | Panic => False
      end) }.

#[export] Hint Resolve now_spec rand_string_spec new_client_spec kget_spec klist_spec
  kcreate_spec kupdate_spec kpatch_spec kpatch_status_spec kdelete_spec : runs.

(** ** provider/kubernetes/util.go *)

Section impersonation.
Context {W : Type} {API : KubeAPI W}.

(** The method CreateImpersonatedClient of DefaultImpersonationClient: the
    configuration is copied and only its field Impersonate is set. *)
Definition CreateImpersonatedClient (impCfg : ImpersonationConfig) : M W error client :=
  _ ← new_client impCfg;
  mret (Impersonated impCfg).
End impersonation.

Section klist_lemmas.
Context {W : Type} {EL : ErrorLib} {API : KubeAPI W} {ST : Store W}
        {LAWS : KubeAPILaws W}.
Implicit Types w : W.

(** The members of a list answer are the stored objects the selector selects. *)
Lemma elem_of_listed k s w (l : list (obj k)) o :
  l ≡ₚ filter (fun o => matches s (obj_meta k o) = true) (map_to_list (view k w)).*2 ->
  o ∈ l <-> matches s (obj_meta k o) = true /\ exists n, view k w !! n = Some o.
Proof.
  intros ->. rewrite list_elem_of_filter, list_elem_of_fmap.
  split.
  - intros [Hm ([n o'] & -> & Ho)]. apply elem_of_map_to_list in Ho. eauto.
  - intros [Hm [n Hn]]. split; [done|]. exists (n, o). split; [done|].
    by apply elem_of_map_to_list.
Qed.

Lemma elem_of_listed_all k w (l : list (obj k)) o :
  l ≡ₚ filter (fun o => matches Everything (obj_meta k o) = true)
              (map_to_list (view k w)).*2 ->
  o ∈ l <-> exists n, view k w !! n = Some o.
Proof. intros H. rewrite (elem_of_listed k Everything w l o H). split; [by intros [_ ?]|by split]. Qed.

(** No two listed objects have the same key. *)
Lemma NoDup_listed k s w (l : list (obj k)) :
  l ≡ₚ filter (fun o => matches s (obj_meta k o) = true) (map_to_list (view k w)).*2 ->
  NoDup (key_of k <$> l).
Proof.
  intros ->. apply (sublist_NoDup _ (key_of k <$> (map_to_list (view k w)).*2)).
  - rewrite <- list_fmap_compose.
    assert (((key_of k ∘ snd) <$> map_to_list (view k w)) = (map_to_list (view k w)).*1) as ->.
    { apply list_fmap_ext. intros i [n o] Hi. cbn.
      apply (view_key k w), elem_of_map_to_list. eauto using list_elem_of_lookup_2. }
    apply NoDup_fst_map_to_list.
  - apply fmap_sublist, sublist_filter.
Qed.

Lemma empty_listed k w (l : list (obj k)) :
  l ≡ₚ filter (fun o => matches Everything (obj_meta k o) = true)
              (map_to_list (view k w)).*2 ->
  l = [] <-> view k w = ∅.
Proof.
  intros H. split.
  - intros ->. apply map_eq. intros n. rewrite lookup_empty.
    destruct (view k w !! n) as [o|] eqn:E; [|done].
    assert (o ∈ []) as Ho; [|by apply elem_of_nil in Ho].
    apply (elem_of_listed_all k w [] o H). eauto.
  - intros E. rewrite E, map_to_list_empty in H. by apply Permutation_nil_r.
Qed.
End klist_lemmas.

(** ** The objects of a kind after a write *)

Section stored.
Context {W : Type} {EL : ErrorLib} {API : KubeAPI W} {ST : Store W}
        {LAWS : KubeAPILaws W}.
Implicit Types w : W.

Definition stored (k : kind) w (o : obj k) : Prop := exists n, view k w !! n = Some o.

#[export] Instance stored_proper k : Proper (same_store ==> eq ==> iff) (stored k).
Proof. intros w w' [Hw _] o ? <-. unfold stored. by rewrite Hw. Qed.

Lemma stored_lookup k w o : stored k w o <-> view k w !! key_of k o = Some o.
Proof.
  split; [|by eexists]. intros [n H]. by rewrite (view_key k w n o H).
Qed.

Lemma stored_insert k w w' o x :
  view k w' = <[key_of k o := o]> (view k w) ->
  stored k w' x <-> x = o \/ stored k w x /\ key_of k x <> key_of k o.
Proof.
  intros Hv. rewrite !stored_lookup, Hv, lookup_insert_Some. naive_solver.
Qed.

Lemma created_stored k w w' o x : created k w w' o -> stored k w' x <-> x = o \/ stored k w x.
Proof.
  intros (Hnone & Hv & _). rewrite (stored_insert _ _ _ _ _ Hv). split; [naive_solver|].
  intros [->|Hx]; [by left|right]. split; [done|]. intros E.
  rewrite stored_lookup, E, Hnone in Hx. discriminate Hx.
Qed.

Lemma updated_stored k w w' o x :
  updated k w w' o -> stored k w' x <-> x = o \/ stored k w x /\ key_of k x <> key_of k o.
Proof. intros (_ & Hv & _). by apply stored_insert. Qed.

(** An object that no finalizer holds back is gone. *)
Lemma deleted_stored k w w' old x :
  stored k w old -> meta_Finalizers (obj_meta k old) = [] -> deleted k w w' (key_of k old) ->
  stored k w' x <-> stored k w x /\ x <> old.
Proof.
  rewrite !stored_lookup. intros Hold Hf (Hkeep & _ & old' & Hold' & Hgone & _).
  assert (old' = old) as -> by (rewrite Hold in Hold'; by injection Hold').
  specialize (Hgone Hf). destruct (decide (key_of k x = key_of k old)) as [E|E].
  - rewrite E, Hgone, Hold. naive_solver.
  - rewrite Hkeep by done. split; [|by intros []]. intros H. split; [done|]. by intros ->.
Qed.
End stored.
