(* ===== verification/Tables.v ===== *)
(** The cluster-wide objects of one kind as a table of names: what a write of
    the API server does to the table. The refinements of the endpoints that
    keep such objects speak of these tables. *)
From S2P Require Export KubeAPI.

Section tables.
Context {W : Type} {EL : ErrorLib} {API : KubeAPI W} {ST : Store W} {LAWS : KubeAPILaws W}.
Implicit Types w : W.

(** The objects have no namespace, and no finalizer keeps them. *)
Definition plain (k : kind) (o : obj k) : Prop :=
  meta_Namespace (obj_meta k o) = "" /\ meta_Finalizers (obj_meta k o) = [].
Definition cluster_wide (k : kind) w : Prop := forall o, stored k w o -> plain k o.

Definition table (k : kind) w : gmap string (obj k) :=
  list_to_map ((fun o => (meta_Name (obj_meta k o), o)) <$> (map_to_list (view k w)).*2).

Lemma plain_key k o : plain k o -> key_of k o = ("", meta_Name (obj_meta k o)).
Proof. intros [Hns _]. unfold key_of. by rewrite Hns. Qed.

Lemma plain_strip k o o' : strip k o = strip k o' -> plain k o' -> plain k o.
Proof.
  intros Hst [Hns Hf]. pose proof (strip_key _ _ _ Hst) as [= Hns' _].
  split; [by rewrite Hns'|]. by rewrite (strip_finalizers _ _ _ Hst).
Qed.

Lemma lookup_table k w n : cluster_wide k w -> table k w !! n = view k w !! ("", n).
Proof.
  intros Hok.
  assert (forall i o, (i, o) ∈ (fun o => (meta_Name (obj_meta k o), o)) <$> (map_to_list (view k w)).*2
            <-> view k w !! ("", i) = Some o) as Hin.
  { intros i o. rewrite list_elem_of_fmap. setoid_rewrite list_elem_of_fmap. split.
    - intros (o' & [= -> ->] & [n' x] & -> & Hx%elem_of_map_to_list). cbn [snd].
      pose proof (view_key k w _ _ Hx) as Hk. rewrite plain_key in Hk by (apply Hok; by exists n').
      by rewrite Hk.
    - intros Ho. exists o. pose proof (view_key k w _ _ Ho) as [= _ Hn]. rewrite Hn.
      split; [done|]. exists (("", i), o). by rewrite elem_of_map_to_list. }
  destruct (view k w !! ("", n)) as [o|] eqn:E.
  - apply elem_of_list_to_map_1'; [|by apply Hin]. intros o' H'%Hin. rewrite E in H'. by injection H'.
  - apply eq_None_not_Some. intros [o H%elem_of_list_to_map_2%Hin]. by rewrite E in H.
Qed.

Lemma lookup_table_stored k w n o :
  cluster_wide k w -> table k w !! n = Some o <-> stored k w o /\ meta_Name (obj_meta k o) = n.
Proof.
  intros Hok. rewrite lookup_table by done. split.
  - intros Ho. split; [by eexists|]. by pose proof (view_key k w _ _ Ho) as [= _ Hn].
  - intros [Ho <-]. rewrite <- plain_key by (by apply Hok). by apply stored_lookup.
Qed.

Lemma cluster_wide_write k w w' o :
  cluster_wide k w -> plain k o -> view k w' = <[key_of k o := o]> (view k w) -> cluster_wide k w'.
Proof.
  intros Hok Ho Hv x Hx. apply (stored_insert k w w' o x Hv) in Hx as [->|[Hx _]]; [done|by apply Hok].
Qed.

Lemma table_write k w w' o :
  cluster_wide k w -> plain k o -> view k w' = <[key_of k o := o]> (view k w) ->
  table k w' = <[meta_Name (obj_meta k o) := o]> (table k w).
Proof.
  intros Hok Ho Hv. pose proof (cluster_wide_write _ _ _ _ Hok Ho Hv) as Hok'.
  apply map_eq. intros n. rewrite lookup_table, Hv, plain_key by done.
  destruct (decide (n = meta_Name (obj_meta k o))) as [->|Hne].
  - by rewrite !lookup_insert_eq.
  - rewrite !lookup_insert_ne by congruence. by rewrite lookup_table.
Qed.

(** A created object is a new row, an updated one replaces its row. *)
Lemma table_created k w w' o :
  cluster_wide k w -> plain k o -> created k w w' o ->
  cluster_wide k w' /\ table k w !! meta_Name (obj_meta k o) = None /\
  table k w' = <[meta_Name (obj_meta k o) := o]> (table k w).
Proof.
  intros Hok Ho (Hnew & Hv & _). split_and!; [by eapply cluster_wide_write| |by apply table_write].
  by rewrite lookup_table, <- plain_key by done.
Qed.

Lemma table_updated k w w' o :
  cluster_wide k w -> plain k o -> updated k w w' o ->
  cluster_wide k w' /\ table k w' = <[meta_Name (obj_meta k o) := o]> (table k w).
Proof.
  intros Hok Ho (_ & Hv & _). split; [by eapply cluster_wide_write|by apply table_write].
Qed.

Lemma table_deleted k w w' n :
  cluster_wide k w -> deleted k w w' ("", n) ->
  cluster_wide k w' /\ is_Some (table k w !! n) /\ table k w' = delete n (table k w).
Proof.
  intros Hok (Hkeep & _ & old & Hold & Hgone & _).
  assert (plain k old) as [_ Hf] by (apply Hok; by eexists). specialize (Hgone Hf).
  assert (cluster_wide k w') as Hok'.
  { intros o [n' Ho]. destruct (decide (n' = ("", n))) as [->|Hne]; [by rewrite Hgone in Ho|].
    rewrite Hkeep in Ho by done. apply Hok. by eexists. }
  split_and!; [done|rewrite lookup_table by done; by eexists|].
  apply map_eq. intros i. rewrite lookup_table by done. destruct (decide (i = n)) as [->|Hne].
  - by rewrite Hgone, lookup_delete_eq.
  - rewrite Hkeep by congruence. by rewrite lookup_delete_ne, lookup_table.
Qed.

#[export] Instance table_proper k : Proper (same_store ==> eq) (table k).
Proof. intros w w' Hw. unfold table. by rewrite Hw. Qed.
#[export] Instance cluster_wide_proper k : Proper (same_store ==> iff) (cluster_wide k).
Proof. intros w w' Hw. unfold cluster_wide. by setoid_rewrite Hw. Qed.
End tables.
