(* ===== verification/MemAPI.v ===== *)
(** An in-memory API server: a concrete instance of [KubeAPI] that satisfies
    [KubeAPILaws], as the fake client does for the repository's own tests.
    Only the witnesses use it. *)
From S2P Require Export KubeAPI.
From Stdlib Require Import Ascii.

Record Mem := MkMem {
  mem_objs : forall k, gmap key (obj k);
  mem_now : time;
  mem_rand : list string;
  mem_allow : ImpersonationConfig -> verb -> kind -> key -> bool }.

Definition objs_set (f : forall k, gmap key (obj k)) (k : kind) (m : gmap key (obj k))
    : forall k, gmap key (obj k) := fun k' =>
  match decide (k = k') with
  | left e => match e in (_ = k') return gmap key (obj k') with eq_refl => m end
  | right _ => f k'
  end.

Lemma objs_set_eq f k m : objs_set f k m k = m.
Proof.
  unfold objs_set. destruct (decide (k = k)) as [e|]; [|done].
  by rewrite (Eqdep_dec.UIP_dec kind_eq_dec e eq_refl).
Qed.
Lemma objs_set_ne f k k' m : k <> k' -> objs_set f k m k' = f k'.
Proof. unfold objs_set. by destruct (decide (k = k')) as [->|]. Qed.

Definition mem_set (k : kind) (m : gmap key (obj k)) (w : Mem) : Mem :=
  MkMem (objs_set (mem_objs w) k m) (mem_now w) (mem_rand w) (mem_allow w).

(** The server keys its objects by their own names, whatever it holds. *)
Definition mem_view (k : kind) (w : Mem) : gmap key (obj k) :=
  filter (fun no => key_of k no.2 = no.1) (mem_objs w k).

Definition mem_allowed (w : Mem) (c : client) (v : verb) (k : kind) (n : key) : bool :=
  match c with Privileged => true | Impersonated cfg => mem_allow w cfg v k n end.

Definition mem_guard {A} (c : client) (v : verb) (k : kind) (n : key)
    (m : M Mem error A) : M Mem error A := fun w =>
  if mem_allowed w c v k n then m w
  else (Err (apierrors_NewForbidden n.2 (ENew "RBAC")), w).

Definition mem_get (k : kind) (c : client) (n : key) : M Mem error (obj k) :=
  mem_guard c VGet k n (fun w =>
    match mem_view k w !! n with
    | Some o => (Ok o, w)
    | None => (Err (apierrors_NewNotFound "object" n.2), w)
    end).

Definition mem_list (k : kind) (c : client) (s : selector) : M Mem error (list (obj k)) :=
  fun w => (Ok (filter (fun o => matches s (obj_meta k o) = true)
                       (map_to_list (mem_view k w)).*2), w).

Definition mem_create (k : kind) (c : client) (o : obj k) : M Mem error (obj k) :=
  mem_guard c VCreate k (key_of k o) (fun w =>
    match mem_view k w !! key_of k o with
    | Some _ => (Err (EStatus (MkStatusErr 409 "AlreadyExists" "already exists")), w)
    | None =>
        let o' := obj_with_meta k
          (meta_with_server ("uid-" +:+ meta_Name (obj_meta k o)) "1" (mem_now w) None
             (obj_meta k o)) o in
        (Ok o', mem_set k (<[key_of k o := o']> (mem_view k w)) w)
    end).

Definition mem_write (v : verb) (k : kind) (c : client) (o : obj k) : M Mem error (obj k) :=
  mem_guard c v k (key_of k o) (fun w =>
    match mem_view k w !! key_of k o with
    | None => (Err (apierrors_NewNotFound "object" (key_of k o).2), w)
    | Some old =>
        let m := obj_meta k old in
        let o1 := obj_with_meta k
          (meta_with_server (meta_UID m) (meta_ResourceVersion m) (meta_CreationTimestamp m)
             (meta_DeletionTimestamp m) (obj_meta k o)) o in
        let o' := obj_with_status k (obj_status k old) o1 in
        (Ok o', mem_set k (<[key_of k o := o']> (mem_view k w)) w)
    end).

Definition mem_update := mem_write VUpdate.
(** The patch of an object that nobody else changes. *)
Definition mem_patch (k : kind) (c : client) (old o : obj k) : M Mem error (obj k) :=
  mem_write VPatch k c o.

Definition mem_patch_status (k : kind) (c : client) (o : obj k) : M Mem error (obj k) :=
  fun w =>
    match mem_view k w !! key_of k o with
    | None => (Err (apierrors_NewNotFound "object" (key_of k o).2), w)
    | Some old =>
        let o' := obj_with_status k (stored_status k (obj_status k o)) old in
        (Ok o', mem_set k (<[key_of k o := o']> (mem_view k w)) w)
    end.

Definition mem_delete (k : kind) (c : client) (n : key) : M Mem error unit :=
  mem_guard c VDelete k n (fun w =>
    match mem_view k w !! n with
    | None => (Err (apierrors_NewNotFound "object" n.2), w)
    | Some old =>
        if bool_decide (meta_Finalizers (obj_meta k old) = [])
        then (Ok tt, mem_set k (delete n (mem_view k w)) w)
        else
          let m := obj_meta k old in
          let o' := obj_with_meta k (meta_with_server (meta_UID m) (meta_ResourceVersion m)
                      (meta_CreationTimestamp m) (Some (mem_now w)) m) old in
          (Ok tt, mem_set k (<[n := o']> (mem_view k w)) w)
    end).

(** A string of the given length, of letters and digits. *)
Fixpoint fit (n : nat) (s : string) : string :=
  match n, s with
  | O, _ => ""
  | S n', String c s' => String (if alphanumeric c then c else "x"%char) (fit n' s')
  | S n', EmptyString => String "x"%char (fit n' s)
  end.
Lemma length_fit n s : String.length (fit n s) = n.
Proof. revert s. induction n as [|n IH]; intros [|c s]; cbn; by rewrite ?IH. Qed.
Lemma alphanumeric_fit n s : forallb alphanumeric (String.list_ascii_of_string (fit n s)) = true.
Proof.
  revert s. induction n as [|n IH]; intros [|c s]; cbn [fit String.list_ascii_of_string forallb];
    try done; rewrite IH; [done|]. by destruct (alphanumeric c) eqn:E; [rewrite E|].
Qed.

#[export] Instance memAPI : KubeAPI Mem := {|
  now := fun w => (Ok (mem_now w), w);
  rand_string n := fun w =>
    (Ok (fit n (default "" (head (mem_rand w)))),
     MkMem (mem_objs w) (mem_now w) (tail (mem_rand w)) (mem_allow w));
  new_client cfg := fun w => (Ok tt, w);
  kget := mem_get;
  klist := mem_list;
  kcreate := mem_create;
  kupdate := mem_update;
  kpatch := mem_patch;
  kpatch_status := mem_patch_status;
  kdelete := mem_delete |}.

#[export] Instance memStore : Store Mem := {|
  view := mem_view;
  rbac_allows w cfg v k n := mem_allow w cfg v k n = true |}.

(** A server with the given objects, clock and random strings. *)
Definition mem_of (objs : forall k, list (obj k)) (t : time) (rnd : list string)
    (allow : ImpersonationConfig -> verb -> kind -> key -> bool) : Mem :=
  MkMem (fun k => list_to_map ((fun o => (key_of k o, o)) <$> objs k)) t rnd allow.

(** ** The laws *)

Lemma mem_view_set_ne k k' m w : k <> k' -> mem_view k' (mem_set k m w) = mem_view k' w.
Proof. intros Hk. unfold mem_view, mem_set. cbn. by rewrite objs_set_ne. Qed.

Lemma mem_view_set k m w :
  (forall n o, m !! n = Some o -> key_of k o = n) -> mem_view k (mem_set k m w) = m.
Proof.
  intros Hm. unfold mem_view, mem_set. cbn. rewrite objs_set_eq.
  apply map_eq. intros n. rewrite map_lookup_filter.
  destruct (m !! n) as [o|] eqn:E; cbn; [|done].
  by rewrite option_guard_True by eauto.
Qed.

Lemma mem_view_key k w n o : mem_view k w !! n = Some o -> key_of k o = n.
Proof. unfold mem_view. by intros [_ H]%map_lookup_filter_Some. Qed.

Lemma mem_view_insert k o o' w :
  key_of k o' = key_of k o ->
  mem_view k (mem_set k (<[key_of k o := o']> (mem_view k w)) w)
  = <[key_of k o := o']> (mem_view k w).
Proof.
  intros Hk. apply mem_view_set. intros n p [[<- <-]|[? Hp]]%lookup_insert_Some; [done|].
  by eapply mem_view_key.
Qed.

Lemma mem_set_same_except k m w : same_except k w (mem_set k m w).
Proof. intros k' Hk. cbn. by rewrite mem_view_set_ne. Qed.

Lemma mem_guard_runs {A} c v k n (m : M Mem error A) w (Q : result error A -> Mem -> Prop) :
  (forall e, apierrors_IsNotFound e = false -> apierrors_IsAlreadyExists e = false ->
     Q (Err e) w) ->
  (authorized w c v k n -> runs m w Q) -> runs (mem_guard c v k n m) w Q.
Proof.
  intros Herr Hok. unfold runs, mem_guard.
  destruct (mem_allowed w c v k n) eqn:E; cbn; [|by apply Herr].
  apply Hok. destruct c; [done|apply E].
Qed.

(** What an update and a patch do. *)
Lemma mem_write_spec v k c (o : obj k) w :
  runs (mem_write v k c o) w (fun r w' =>
    match r with
    | Ok o' => authorized w c v k (key_of k o) /\ strip k o' = strip k o /\
        updated k w w' o' /\
        (forall old, view k w !! key_of k o = Some old -> obj_status k o' = obj_status k old)
    | Err e => same_store w w'
    | Panic => False
    end).
Proof.
  apply mem_guard_runs; [done|].
  intros Ha. unfold runs. destruct (mem_view k w !! key_of k o) as [old|] eqn:E; cbn; [|done].
  set (o' := obj_with_status _ _ _).
  assert (strip k o' = strip k o) as Ho by (by unfold o'; rewrite strip_with_status, strip_with_server).
  pose proof (strip_key _ _ _ Ho) as Hk.
  split_and!; [done|done|split_and!|].
  - exists old. rewrite Hk. split; [done|].
    unfold o'. by rewrite obj_meta_with_status, obj_meta_with_meta.
  - cbn. rewrite Hk. by apply mem_view_insert.
  - apply mem_set_same_except.
  - intros old' Hold. change (mem_view k w !! key_of k o = Some old') in Hold.
    rewrite E in Hold. injection Hold as <-.
    apply obj_status_with_status.
Qed.

#[export] Instance memAPI_laws : KubeAPILaws Mem.
Proof.
  split.
  - apply mem_view_key.
  - intros w. split; [done|]. by eexists.
  - intros n w. split; [done|]. eexists.
    split_and!; [done|apply length_fit|apply alphanumeric_fit].
  - intros cfg w. by split.
  - intros k c n w. apply mem_guard_runs; [by intros e He _; split; [|rewrite He]|].
    intros Ha. unfold runs. destruct (mem_view k w !! n) eqn:E; cbn; (split; [done|]); [by split|by intros _].
  - intros k c s w. split; [done|]. cbn. reflexivity.
  - intros k c o w. apply mem_guard_runs; [by intros e _ ->|].
    intros Ha. unfold runs. destruct (mem_view k w !! key_of k o) eqn:E; cbn.
    + split; [done|]. rewrite E. by eexists.
    + set (o' := obj_with_meta _ _ _).
      assert (strip k o' = strip k o) as Ho by apply strip_with_server.
      pose proof (strip_key _ _ _ Ho) as Hk.
      split_and!; [done|done|]. split_and!; [by rewrite Hk| |apply mem_set_same_except].
      cbn. rewrite Hk. by apply mem_view_insert.
  - intros k c o w. apply mem_write_spec.
  - intros k c old o w. eapply runs_mono; [apply mem_write_spec|]. cbn beta.
    intros [o'|e|] w'; [|done|done]. intros (Ha & Hst & Hup & _).
    split_and!; [done|by apply strip_key|done|done].
  - intros k c o w. unfold runs, kpatch_status. cbn. unfold mem_patch_status.
    destruct (mem_view k w !! key_of k o) as [old|] eqn:E; cbn; [|done].
    pose proof (mem_view_key _ _ _ _ E) as Hold.
    set (o' := obj_with_status _ _ _).
    assert (strip k o' = strip k old) as Ho by apply strip_with_status.
    assert (key_of k o' = key_of k o) as Hk by (by rewrite (strip_key _ _ _ Ho)).
    split_and!; [apply obj_status_with_status|done|split_and!|].
    + exists old. rewrite Hk. split; [done|]. unfold o'. by rewrite obj_meta_with_status.
    + cbn. rewrite Hk. by apply mem_view_insert.
    + apply mem_set_same_except.
    + by intros old' [= <-].
  - intros k c n w. apply mem_guard_runs; [done|].
    intros Ha. unfold runs. destruct (mem_view k w !! n) as [old|] eqn:E; cbn; [|done].
    pose proof (mem_view_key _ _ _ _ E) as Hk.
    case_bool_decide as Hf; cbn.
    + assert (mem_view k (mem_set k (delete n (mem_view k w)) w) = delete n (mem_view k w)) as Hd.
      { apply mem_view_set. intros n' o [_ Ho]%lookup_delete_Some. by eapply mem_view_key. }
      split; [done|]. split_and!; [|apply mem_set_same_except|].
      * intros n' Hn. cbn. by rewrite Hd, lookup_delete_ne.
      * exists old. split; [done|]. cbn. rewrite Hd, lookup_delete_eq. by split.
    + split; [done|]. split_and!; [|apply mem_set_same_except|].
      * intros n' Hn. subst n. cbn. rewrite mem_view_insert by (apply strip_key, strip_with_server).
        by rewrite lookup_insert_ne.
      * exists old. split; [done|]. split; [done|]. intros o. subst n. cbn.
        rewrite mem_view_insert by (apply strip_key, strip_with_server).
        rewrite lookup_insert_eq. intros [= <-]. apply strip_with_server.
Qed.

(** ** A small installation, for the witnesses

    alice administrates, bob edits the project p1 and is in the group devs that
    may view it, ci is a service account of p1. *)

Definition sampleUser (name email : string) (groups : list string) (admin : bool) : User :=
  MkUser (metaNamed name) name email groups admin false "" None [] None zero_time.
Definition alice : User := sampleUser "u-alice" "alice@example.com" [] true.
Definition bob : User := sampleUser "u-bob" "bob@example.com" ["devs"] false.
Definition ciAccount : User :=
  MkUser (meta_with_owners [MkOwner "kubermatic.k8c.io/v1" "Project" "uid-p1" "p1"]
            (meta_with_labels {[ "initialGroup" := "editors-p1" ]}
              (metaNamed "serviceaccount-ci"))) "ci" "serviceaccount-ci@sa.kubermatic.io" []
    false false "p1" None [] None zero_time.

Definition project1 : Project := MkProject (metaNamed "p1") "first" ∅ "Active".
Definition bobBinding : UserProjectBinding :=
  MkBinding (metaNamed "b1") "bob@example.com" "p1" "editors-p1".
Definition ciBinding : UserProjectBinding :=
  MkBinding (metaNamed "b2") "serviceaccount-ci@sa.kubermatic.io" "p1" "editors-p1".
Definition devsBinding : GroupProjectBinding :=
  MkGroupBinding (meta_with_labels {[ "project-id" := "p1" ]} (metaNamed "g1"))
    "devs" "p1" "viewers".

Definition sample_objs (k : kind) : list (obj k) :=
  match k with
  | KUser => [alice; bob; ciAccount]
  | KProject => [project1]
  | KBinding => [bobBinding; ciBinding]
  | KGroupBinding => [devsBinding]
  | KSecret => []
  | KSetting => [MkSetting (metaNamed "globalsettings") false false false 0 true (Some (MkWebTerminalOptions (Some true) false))]
  | _ => []
  end.

(** The editors of p1 may do anything there. *)
Definition sample : Mem :=
  mem_of sample_objs 1000000000000%Z ["r1"; "r2"; "r3"]
    (fun cfg _ _ _ => bool_decide ("editors-p1" ∈ imp_Groups cfg)).

(** The objects of a concrete store are those the computation lists. *)
Lemma lookup_mem (w : Mem) k n o :
  view k w !! n = Some o -> o ∈ (map_to_list (view k w)).*2.
Proof. intros H%elem_of_map_to_list. apply list_elem_of_fmap. by exists (n, o). Qed.
Lemma lookup_sample k n o :
  view k sample !! n = Some o -> o ∈ (map_to_list (view k sample)).*2.
Proof. apply lookup_mem. Qed.
