(* ===== verification/Platform.v ===== *)
(** What the code takes from the Kubermatic SDK and from apimachinery besides
    errors: group-name helpers of the rbac package, the service-account name
    helpers, label keys and other constants.  None of it is under src/: it is
    the class [SDK]; [SDKLaws] is the documented behaviour relied on. *)
From S2P Require Export MemAPI.
From Stdlib Require Import Ascii.

Class SDK := {
  (* pkg/controller/master-controller-manager/rbac *)
  OwnerGroupNamePrefix : string;
  EditorGroupNamePrefix : string;
  ViewerGroupNamePrefix : string;
  ProjectManagerGroupNamePrefix : string;
  AllGroupsPrefixes : list string;
  GenerateActualGroupNameFor : string -> string -> string;   (* project, group *)
  rbac_ExtractGroupPrefix : string -> string;
  (* sdk/v2/apis/kubermatic/v1/helper *)
  IsProjectServiceAccount : string -> bool;
  EnsureProjectServiceAccountPrefix : string -> string;
  RemoveProjectServiceAccountPrefix : string -> string;
  (* sdk/v2/apis/kubermatic/v1, pkg/resources *)
  WorkerNameLabelKey : string;
  ProjectIDLabelKey : string;
  IsCredentialPresetLabelKey : string;
  AdminGrantedByGroupAnnotation : string;
  SchemeGroupVersion_String : string;
  UserKindName : string;
  ProjectActive : string;
  KubermaticNamespace : string;
  GlobalSettingsName : string;
  TokenBlacklist : string;
  GetInvalidTokensReferenceSecretName : User -> string;
  (* k8s.io/apimachinery/pkg/labels *)
  labels_NewRequirement_Equals : string -> string -> result error selector;
  labels_Parse : string -> result error selector }.

(** The characters of a label value: letters, digits, dash, underscore, dot. *)
Definition label_char (c : ascii) : bool :=
  let n := nat_of_ascii c in
  ((48 <=? n) && (n <=? 57)) || ((65 <=? n) && (n <=? 90)) ||
  ((97 <=? n) && (n <=? 122)) || (n =? 45) || (n =? 95) || (n =? 46).
Definition label_chars (v : string) : bool :=
  forallb label_char (String.list_ascii_of_string v).

(** The name prefix of service accounts, and what the tests of the repository
    document of generated group names. *)
Class SDKLaws (P : SDK) : Prop := {
  GenerateActualGroupNameFor_spec project group :
    GenerateActualGroupNameFor project group = group +:+ "-" +:+ project;
  rbac_ExtractGroupPrefix_Generate project group :
    group ∈ AllGroupsPrefixes ->
    rbac_ExtractGroupPrefix (GenerateActualGroupNameFor project group) = group;
  group_prefixes_known :
    OwnerGroupNamePrefix ∈ AllGroupsPrefixes /\ EditorGroupNamePrefix ∈ AllGroupsPrefixes /\
    ViewerGroupNamePrefix ∈ AllGroupsPrefixes /\
    ProjectManagerGroupNamePrefix ∈ AllGroupsPrefixes;
  group_prefixes_no_dash group :
    group ∈ AllGroupsPrefixes -> group <> "" /\ Split group "-"%char = [group];
  service_account_prefix n :
    IsProjectServiceAccount n = HasPrefix n "serviceaccount-";
  IsProjectServiceAccount_Ensure n :
    IsProjectServiceAccount (EnsureProjectServiceAccountPrefix n) = true;
  IsProjectServiceAccount_email n d :
    IsProjectServiceAccount n = true -> IsProjectServiceAccount (n +:+ "@" +:+ d) = true;
  Ensure_id n :
    IsProjectServiceAccount n = true -> EnsureProjectServiceAccountPrefix n = n;
  Remove_Ensure n :
    IsProjectServiceAccount n = false ->
    RemoveProjectServiceAccountPrefix (EnsureProjectServiceAccountPrefix n) = n;
  Ensure_Remove n :
    IsProjectServiceAccount n = true ->
    IsProjectServiceAccount (RemoveProjectServiceAccountPrefix n) = false ->
    EnsureProjectServiceAccountPrefix (RemoveProjectServiceAccountPrefix n) = n;
  labels_NewRequirement_Equals_ok k v s :
    labels_NewRequirement_Equals k v = Ok s -> s = LabelIs k v;
  labels_NewRequirement_Equals_panic k v : labels_NewRequirement_Equals k v <> Panic;
  labels_Parse_ok v s :
    label_chars v = true ->
    labels_Parse (ProjectIDLabelKey +:+ "=" +:+ v) = Ok s -> s = LabelIs ProjectIDLabelKey v;
  labels_Parse_panic s : labels_Parse s <> Panic }.

(** ** A concrete SDK, for the witnesses *)

Definition sa_prefix : string := "serviceaccount-".

Definition ref_ensure (n : string) : string :=
  if HasPrefix n sa_prefix then n else sa_prefix +:+ n.

(** [key=value]. *)
Definition ref_parse_selector (s : string) : result error selector :=
  match Split s "="%char with
  | [k; v] => Ok (LabelIs k v)
  | _ => Err (ENew "invalid selector")
  end.

#[export] Instance refSDK : SDK := {|
  OwnerGroupNamePrefix := "owners";
  EditorGroupNamePrefix := "editors";
  ViewerGroupNamePrefix := "viewers";
  ProjectManagerGroupNamePrefix := "projectmanagers";
  AllGroupsPrefixes := ["owners"; "editors"; "viewers"; "projectmanagers"];
  GenerateActualGroupNameFor project group := group +:+ "-" +:+ project;
  rbac_ExtractGroupPrefix g := default g (head (Split g "-"%char));
  IsProjectServiceAccount n := HasPrefix n sa_prefix;
  EnsureProjectServiceAccountPrefix := ref_ensure;
  RemoveProjectServiceAccountPrefix n := TrimPrefix n sa_prefix;
  WorkerNameLabelKey := "worker-name";
  ProjectIDLabelKey := "project-id";
  IsCredentialPresetLabelKey := "is-credential-preset";
  AdminGrantedByGroupAnnotation := "kubermatic.k8c.io/admin-granted-by-group";
  SchemeGroupVersion_String := "kubermatic.k8c.io/v1";
  UserKindName := "User";
  ProjectActive := "Active";
  KubermaticNamespace := "kubermatic";
  GlobalSettingsName := "globalsettings";
  TokenBlacklist := "token-blacklist";
  GetInvalidTokensReferenceSecretName u := "token-blacklist-" +:+ meta_Name (user_meta u);
  labels_NewRequirement_Equals k v := Ok (LabelIs k v);
  labels_Parse := ref_parse_selector |}.

Lemma Split_app_sep a b sep :
  Split (a +:+ String sep b) sep = Split a sep ++ Split b sep.
Proof.
  induction a as [|c a IH].
  - change (Split (String sep b) sep = [EmptyString] ++ Split b sep).
    cbn [Split]. by rewrite bool_decide_eq_true_2.
  - change (Split (String c (a +:+ String sep b)) sep = Split (String c a) sep ++ Split b sep).
    cbn [Split]. rewrite IH. case_bool_decide; [done|].
    destruct (Split a sep) as [|x l] eqn:E; [by apply Split_not_nil in E|done].
Qed.

Lemma Split_singleton s sep x : Split s sep = [x] -> x = s.
Proof.
  revert x. induction s as [|c s IH]; intros x; cbn [Split]; [by intros [= <-]|].
  case_bool_decide; [intros [= _ Hs]; by apply Split_not_nil in Hs|].
  destruct (Split s sep) as [|y l] eqn:E; [by apply Split_not_nil in E|].
  intros [= <- ->]. by rewrite (IH y).
Qed.

Lemma ref_ExtractGroupPrefix project group :
  Split group "-"%char = [group] ->
  rbac_ExtractGroupPrefix (GenerateActualGroupNameFor project group) = group.
Proof.
  intros H. cbn. change ("-" +:+ project) with (String "-"%char project).
  by rewrite Split_app_sep, H.
Qed.

Lemma HasPrefix_app_r s t p : HasPrefix s p = true -> HasPrefix (s +:+ t) p = true.
Proof. intros [u ->]%HasPrefix_inv. rewrite string_app_assoc. apply HasPrefix_app. Qed.

#[export] Instance refSDK_laws : SDKLaws refSDK.
Proof.
  assert (forall g : string, g ∈ ["owners"; "editors"; "viewers"; "projectmanagers"] ->
            g <> "" /\ Split g "-"%char = [g]) as Hg.
  { intros g Hg. repeat (apply elem_of_cons in Hg as [->|Hg]; [by vm_compute|]).
    by apply elem_of_nil in Hg. }
  split; try done.
  - intros project group H. apply ref_ExtractGroupPrefix, Hg, H.
  - cbn. set_solver.
  - intros n. cbn. unfold ref_ensure. destruct (HasPrefix n sa_prefix) eqn:E; [done|].
    apply HasPrefix_app.
  - intros n d H. by apply HasPrefix_app_r.
  - intros n H. cbn in *. unfold ref_ensure. by rewrite H.
  - intros n H. cbn in *. unfold ref_ensure. rewrite H. apply TrimPrefix_app.
  - intros n H H'. cbn in *. unfold ref_ensure. rewrite H'.
    apply HasPrefix_inv in H as [t ->]. by rewrite TrimPrefix_app.
  - intros k v s. cbn. by intros [= <-].
  - intros v s _. cbn -[Split]. unfold ref_parse_selector.
    change ("project-id" +:+ "=" +:+ v) with ("project-id" +:+ String "="%char v).
    rewrite Split_app_sep.
    change (Split "project-id" "="%char) with ["project-id"].
    destruct (Split v "="%char) as [|x [|y l]] eqn:E; cbn; [done| |done].
    intros [= <-]. by rewrite (Split_singleton v "="%char x E).
  - intros s. cbn -[Split]. unfold ref_parse_selector.
    by destruct (Split s "="%char) as [|? [|? [|? ?]]].
Qed.
