(* ===== verification/ApiTypes.v ===== *)
(** The API's own data types (api/v1/types.go, provider/types.go,
    provider/auth/types/types.go) and the conversions from stored objects. *)
From S2P Require Export Platform.
From Stdlib Require Import Ascii.

(** ** api/v1/types.go *)

Record ApiObjectMeta := MkApiMeta {
  api_ID : string;
  api_Name : string;
  api_Annotations : gmap string string;
  api_Labels : gmap string string;
  api_DeletionTimestamp : option time;
  api_CreationTimestamp : time }.

Definition apiMeta (id name : string) (created : time) (deleted : option time) : ApiObjectMeta :=
  MkApiMeta id name ∅ ∅ deleted created.

Record ProjectGroup := MkProjectGroup {
  pg_ID : string;
  pg_GroupPrefix : string }.
#[export] Instance ProjectGroup_eq_dec : EqDecision ProjectGroup.
Proof. solve_decision. Defined.

Record ApiUser := MkApiUser {
  apiuser_meta : ApiObjectMeta;
  apiuser_Email : string;
  apiuser_IsAdmin : bool;
  apiuser_IsGlobalViewer : bool;
  apiuser_Projects : list ProjectGroup;
  apiuser_Groups : list string;
  apiuser_Settings : option string;
  apiuser_LastSeen : option time;
  apiuser_ReadAnnouncements : list string }.

(** [apiv1.User{ObjectMeta: apiv1.ObjectMeta{Name: name}, Email: email, Groups: groups}]. *)
Definition apiUserNamed (name email : string) (groups : list string) : ApiUser :=
  MkApiUser (apiMeta "" name zero_time None) email false false [] groups None None [].

Definition apiuser_with_projects (ps : list ProjectGroup) (u : ApiUser) : ApiUser :=
  MkApiUser (apiuser_meta u) (apiuser_Email u) (apiuser_IsAdmin u) (apiuser_IsGlobalViewer u)
    ps (apiuser_Groups u) (apiuser_Settings u) (apiuser_LastSeen u)
    (apiuser_ReadAnnouncements u).

(** The lookup in a Go map of ints: 0 for an absent key. *)
Definition RolePriority (role : string) : Z :=
  default 0%Z ((list_to_map [("owners", 1000%Z); ("projectmanagers", 100%Z);
                             ("editors", 10%Z); ("viewers", 1%Z)] : gmap string Z) !! role).

(** Only the group prefix of a group name. *)
Definition ExtractGroupPrefix (groupName : string) : string :=
  let ret := Split groupName "-"%char in
  match ret with
  | r :: _ => r
  | [] => groupName
  end.

(** One step of the loop over the group bindings: the binding's role is
    appended unless an earlier entry of the project is at least as
    permissive. Only the first entry of the project is looked at. *)
Definition addGroupBinding (projects : list ProjectGroup) (binding : GroupProjectBinding)
    : list ProjectGroup :=
  let existing := List.find (fun pg => bool_decide (pg_ID pg = gbinding_ProjectID binding))
                            projects in
  let bindingAlreadyExists := match existing with Some _ => true | None => false end in
  let overwriteRole :=
    match existing with
    | Some pg => (RolePriority (pg_GroupPrefix pg) <? RolePriority (gbinding_Role binding))%Z
    | None => false
    end in
  if overwriteRole || negb bindingAlreadyExists
  then projects ++ [MkProjectGroup (gbinding_ProjectID binding) (gbinding_Role binding)]
  else projects.

Definition ConvertInternalUserToExternal (internalUser : User) (includeSettings : bool)
    (userBindings : list UserProjectBinding) (groupBindings : list GroupProjectBinding)
    : ApiUser :=
  let m := user_meta internalUser in
  let projects :=
    foldl addGroupBinding
      ((fun b => MkProjectGroup (binding_ProjectID b) (ExtractGroupPrefix (binding_Group b)))
         <$> userBindings)
      groupBindings in
  {| apiuser_meta := apiMeta (meta_Name m) (user_Name internalUser)
                       (meta_CreationTimestamp m) (meta_DeletionTimestamp m);
     apiuser_Email := user_Email internalUser;
     apiuser_IsAdmin := user_IsAdmin internalUser;
     apiuser_IsGlobalViewer := user_IsGlobalViewer internalUser;
     apiuser_Projects := projects;
     apiuser_Groups := user_Groups internalUser;
     apiuser_Settings := if includeSettings then user_Settings internalUser else None;
     apiuser_LastSeen := if time_IsZero (user_LastSeen internalUser) then None
                         else Some (user_LastSeen internalUser);
     apiuser_ReadAnnouncements := user_ReadAnnouncements internalUser |}.

Definition ServiceAccountActive : string := "Active".
Definition ServiceAccountInactive : string := "Inactive".

Record ApiServiceAccount := MkApiServiceAccount {
  apisa_meta : ApiObjectMeta;
  apisa_Status : string;
  apisa_Group : string }.
Definition apisa_with_group (g : string) (s : ApiServiceAccount) : ApiServiceAccount :=
  MkApiServiceAccount (apisa_meta s) (apisa_Status s) g.

Record PublicServiceAccountToken := MkPublicToken {
  ptoken_meta : ApiObjectMeta;
  ptoken_Expiry : time;
  ptoken_Invalidated : bool }.

Record ServiceAccountToken := MkToken {
  token_Public : PublicServiceAccountToken;
  token_Token : string }.

Record ApiProject := MkApiProject {
  apiproject_meta : ApiObjectMeta;
  apiproject_AllowedOperatingSystems : gmap string bool;
  apiproject_Status : string;
  apiproject_Labels : gmap string string;
  apiproject_Owners : list ApiUser;
  apiproject_ClustersNumber : Z }.

(** Optional fields are pointers in the Go struct. *)
Record Admin := MkAdmin {
  admin_Email : string;
  admin_Name : string;
  admin_IsAdmin : option bool;
  admin_IsGlobalViewer : option bool;
  admin_GrantedByGroup : string }.

(** ** provider/types.go *)

Record UserInfo := MkUserInfo {
  ui_Email : string;
  ui_Groups : list string;
  ui_Roles : gset string;
  ui_IsAdmin : bool;
  ui_IsGlobalViewer : bool }.

Record ProjectGetOptions := { IncludeUninitialized : bool }.
Record ProjectListOptions := { opt_ProjectName : string }.
Record ProjectMemberListOptions := {
  MemberEmail : string;
  SkipPrivilegeVerification : bool }.
Record ServiceAccountGetOptions := { RemovePrefix : bool }.
Record ServiceAccountListOptions := { ServiceAccountName : string }.
Record ServiceAccountTokenListOptions := {
  TokenID : string;
  TokenName : string;
  LabelSelector : option selector;
  ServiceAccountID : string }.

(** ** provider/auth/types/types.go *)

Record TokenClaims := MkClaims {
  claims_Name : string;
  claims_Email : string;
  claims_Subject : string;
  claims_Groups : list string;
  claims_Nonce : string;
  claims_Expiry : time }.

(** ** Requests carry their values in a context

    The keys of the context the code uses, each with the value stored under
    it, if any (handler/middleware/middleware.go). *)
Record Ctx := MkCtx {
  ctx_UserCR : option User;                  (* UserCRContextKey *)
  ctx_AuthenticatedUser : option ApiUser;    (* AuthenticatedUserContextKey *)
  ctx_RawToken : option string;              (* RawTokenContextKey *)
  ctx_TokenExpiry : option time;             (* TokenExpiryContextKey *)
  ctx_NoTokenFound : option error;           (* noTokenFoundKey *)
  ctx_UserInfo : option UserInfo }.          (* UserInfoContextKey *)

Definition emptyCtx : Ctx := MkCtx None None None None None None.
Definition ctx_with_UserCR (u : User) (c : Ctx) : Ctx :=
  MkCtx (Some u) (ctx_AuthenticatedUser c) (ctx_RawToken c) (ctx_TokenExpiry c)
    (ctx_NoTokenFound c) (ctx_UserInfo c).
Definition ctx_with_AuthenticatedUser (u : ApiUser) (c : Ctx) : Ctx :=
  MkCtx (ctx_UserCR c) (Some u) (ctx_RawToken c) (ctx_TokenExpiry c)
    (ctx_NoTokenFound c) (ctx_UserInfo c).
Definition ctx_with_RawToken (t : string) (c : Ctx) : Ctx :=
  MkCtx (ctx_UserCR c) (ctx_AuthenticatedUser c) (Some t) (ctx_TokenExpiry c)
    (ctx_NoTokenFound c) (ctx_UserInfo c).
Definition ctx_with_TokenExpiry (t : time) (c : Ctx) : Ctx :=
  MkCtx (ctx_UserCR c) (ctx_AuthenticatedUser c) (ctx_RawToken c) (Some t)
    (ctx_NoTokenFound c) (ctx_UserInfo c).
Definition ctx_with_NoTokenFound (e : error) (c : Ctx) : Ctx :=
  MkCtx (ctx_UserCR c) (ctx_AuthenticatedUser c) (ctx_RawToken c) (ctx_TokenExpiry c)
    (Some e) (ctx_UserInfo c).
Definition ctx_with_UserInfo (u : UserInfo) (c : Ctx) : Ctx :=
  MkCtx (ctx_UserCR c) (ctx_AuthenticatedUser c) (ctx_RawToken c) (ctx_TokenExpiry c)
    (ctx_NoTokenFound c) (Some u).

(** [provider.UserInfoGetter]. *)
Definition UserInfoGetter (W : Type) : Type := Ctx -> string -> M W error UserInfo.

(** ** Lemmas *)

Section group_names.
Context {P : SDK} `{!SDKLaws P}.

(** The prefix the API extracts is the one the group name was generated from. *)
Lemma ExtractGroupPrefix_Generate project group :
  group ∈ AllGroupsPrefixes ->
  ExtractGroupPrefix (GenerateActualGroupNameFor project group) = group.
Proof.
  intros Hg. rewrite GenerateActualGroupNameFor_spec. unfold ExtractGroupPrefix.
  change ("-" +:+ project) with (String "-"%char project).
  rewrite Split_app_sep. by rewrite (proj2 (group_prefixes_no_dash _ Hg)).
Qed.
End group_names.

(** The rank under which a project is reported: the highest of its entries. *)
Definition reported (pid role : string) (l : list ProjectGroup) : Prop :=
  MkProjectGroup pid role ∈ l.

Lemma addGroupBinding_keeps l b pg : pg ∈ l -> pg ∈ addGroupBinding l b.
Proof. intros H. unfold addGroupBinding. case_match; [|done]. set_solver. Qed.

Lemma foldl_addGroupBinding_keeps bs l pg : pg ∈ l -> pg ∈ foldl addGroupBinding l bs.
Proof. revert l. induction bs as [|b bs IH]; intros l H; cbn; auto using addGroupBinding_keeps. Qed.

Lemma addGroupBinding_covers l b :
  exists role, reported (gbinding_ProjectID b) role (addGroupBinding l b) /\
    (RolePriority (gbinding_Role b) <= RolePriority role)%Z.
Proof.
  unfold addGroupBinding, reported.
  destruct (List.find _ l) as [pg|] eqn:E; cbn [negb orb].
  - apply List.find_some in E as [Hin Hid%bool_decide_eq_true].
    rewrite orb_false_r.
    destruct (Z.ltb_spec (RolePriority (pg_GroupPrefix pg)) (RolePriority (gbinding_Role b))).
    + exists (gbinding_Role b). split; [set_solver|lia].
    + exists (pg_GroupPrefix pg). split; [|lia].
      rewrite <- Hid. destruct pg. by apply list_elem_of_In.
  - exists (gbinding_Role b). split; [set_solver|lia].
Qed.
