(* ===== verification/Providers.v ===== *)
(** The interfaces of provider/types.go between the handlers and the
    providers: a class of operations per interface, and a class of laws that
    states what its implementation promises.  The clients' theorems are proved
    against these classes; the components' files discharge them. *)
From S2P Require Export ApiTypes.

(** provider/userinfo.go *)
Definition ViewersRole : string := "viewers".
Definition EditorsRole : string := "editors".
Definition OwnersRole : string := "owners".

Section impersonate.
Context {W : Type} {API : KubeAPI W}.

(** provider/kubernetes/util.go *)
Definition createImpersonationClientWrapperFromUserInfo (userInfo : UserInfo) : M W error client :=
  let impersonationCfg := MkImpersonation (ui_Email userInfo) (ui_Groups userInfo) in
  CreateImpersonatedClient impersonationCfg.

(** The client that acts as the given user. *)
Definition as_user (userInfo : UserInfo) : client :=
  Impersonated (MkImpersonation (ui_Email userInfo) (ui_Groups userInfo)).

Context {EL : ErrorLib} {ST : Store W} {LAWS : KubeAPILaws W}.

Lemma createImpersonationClientWrapperFromUserInfo_spec userInfo w :
  runs (createImpersonationClientWrapperFromUserInfo userInfo) w (fun r w' =>
    same_store w w' /\ match r with Ok c => c = as_user userInfo | Err _ => True | Panic => False end).
Proof.
  unfold createImpersonationClientWrapperFromUserInfo, CreateImpersonatedClient.
  runs_call new_client_spec. destruct Hcall as [Hs Hp].
  by destruct r as [[]|e|]; [split|split|].
Qed.
End impersonate.

(** A world whose API server answers the privileged list requests. *)
Class ListsSucceed (W : Type) {API : KubeAPI W} : Prop :=
  klist_available k s w : exists l, (klist k Privileged s w).1 = Ok l.

#[export] Instance mem_lists_succeed : ListsSucceed Mem.
Proof. intros k s w. by eexists. Qed.

(** The privileged list request, with the reason of its failures. *)
Lemma klist_privileged_spec {W} {EL : ErrorLib} {API : KubeAPI W} {ST : Store W}
    {LAWS : KubeAPILaws W} k s (w : W) :
  runs (klist k Privileged s) w (fun r w' => same_store w w' /\
    match r with
    | Ok l => l ≡ₚ filter (fun o => matches s (obj_meta k o) = true)
                          (map_to_list (view k w)).*2
    | Err _ => ~ ListsSucceed W
    | Panic => False
    end).
Proof.
  apply runs_intro. intros r w' Hr.
  pose proof (runs_elim _ _ _ _ _ (klist_spec k Privileged s w) Hr) as [Hs H].
  split; [done|]. destruct r as [l|e|]; [done| |done].
  intros Hl. destruct (Hl k s w) as [l E]. rewrite Hr in E. discriminate E.
Qed.

(** ** What a user is granted in a project *)

Section grants.
Context {W : Type} {ST : Store W} {P : SDK}.
Implicit Types w : W.

(** The binding [b] is stored. *)
Definition bound w (b : UserProjectBinding) : Prop :=
  exists n, view KBinding w !! n = Some b.
Definition group_bound w (b : GroupProjectBinding) : Prop :=
  exists n, view KGroupBinding w !! n = Some b.

Definition binds (email pid : string) (b : UserProjectBinding) : bool :=
  EqualFold (binding_UserEmail b) email && bool_decide (binding_ProjectID b = pid).

(** [g] is the group of a binding of the user to the project; the empty group
    when there is none. *)
Definition binding_group w (email pid g : string) : Prop :=
  (exists b, bound w b /\ binds email pid b = true /\ binding_Group b = g) \/
  (g = "" /\ forall b, bound w b -> binds email pid b = false).

(** The groups a user belongs to in a project, [bg] being that of the user's
    own binding. *)
Definition granted_group w (user : User) (pid bg g : string) : Prop :=
  (g = bg /\ bg <> "") \/
  (exists b, group_bound w b /\ gbinding_Group b ∈ user_Groups user /\
     gbinding_ProjectID b = pid /\ g = gbinding_Group b +:+ "-" +:+ pid) \/
  (user_IsAdmin user = true /\ g = "owners-" +:+ pid) \/
  (user_IsGlobalViewer user = true /\ g = "viewers-" +:+ pid).

(** The roles of a user who is not an administrator. *)
Definition granted_role w (user : User) (pid bg role : string) : Prop :=
  (user_IsGlobalViewer user = true /\ role = ViewersRole) \/
  (exists b, group_bound w b /\ gbinding_Group b ∈ user_Groups user /\
     gbinding_ProjectID b = pid /\
     meta_Labels (gbinding_meta b) !! ProjectIDLabelKey = Some pid /\
     role = gbinding_Role b) \/
  (bg <> "" /\ role = ExtractGroupPrefix bg).

(** Every user has at most one binding per project. *)
Definition unique_bindings w : Prop :=
  forall b b' email pid, bound w b -> bound w b' ->
    binds email pid b = true -> binds email pid b' = true -> b = b'.

Lemma binding_group_unique w email pid g g' :
  unique_bindings w -> binding_group w email pid g -> binding_group w email pid g' -> g = g'.
Proof.
  intros Hu [(b & Hb & Hm & <-)|[-> Hn]] [(b' & Hb' & Hm' & <-)|[-> Hn']].
  - by rewrite (Hu b b' email pid).
  - by rewrite Hn' in Hm.
  - by rewrite Hn in Hm'.
  - done.
Qed.

Lemma binds_fold email email' pid b :
  EqualFold email email' = true -> binds email pid b = binds email' pid b.
Proof. intros H. unfold binds. f_equal. by apply EqualFold_proper. Qed.

#[export] Instance bound_proper : Proper (same_store ==> eq ==> iff) bound.
Proof. intros w w' [Hw _] b ? <-. unfold bound. by rewrite Hw. Qed.
#[export] Instance group_bound_proper : Proper (same_store ==> eq ==> iff) group_bound.
Proof. intros w w' [Hw _] b ? <-. unfold group_bound. by rewrite Hw. Qed.
#[export] Instance binding_group_proper :
  Proper (same_store ==> eq ==> eq ==> eq ==> iff) binding_group.
Proof.
  intros w w' Hw e ? <- p ? <- g ? <-. unfold binding_group. by setoid_rewrite Hw.
Qed.
#[export] Instance granted_group_proper :
  Proper (same_store ==> eq ==> eq ==> eq ==> eq ==> iff) granted_group.
Proof.
  intros w w' Hw u ? <- p ? <- b ? <- g ? <-. unfold granted_group. by setoid_rewrite Hw.
Qed.
#[export] Instance granted_role_proper :
  Proper (same_store ==> eq ==> eq ==> eq ==> eq ==> iff) granted_role.
Proof.
  intros w w' Hw u ? <- p ? <- b ? <- g ? <-. unfold granted_role. by setoid_rewrite Hw.
Qed.
End grants.

(** ** ProjectMemberMapper *)

Class ProjectMemberMapper (W : Type) := {
  mapper_MapUserToGroup : string -> string -> M W error string;
  mapper_MapUserToGroups : User -> string -> M W error (gset string);
  mapper_MapUserToRoles : User -> string -> M W error (gset string);
  mapper_MappingsFor : string -> M W error (list UserProjectBinding);
  mapper_GroupMappingsFor : list string -> M W error (list GroupProjectBinding) }.

Class ProjectMemberMapperLaws (W : Type) {P : SDK} {ST : Store W}
    {MAPPER : ProjectMemberMapper W} : Prop := {
  mapper_group email pid w :
    runs (mapper_MapUserToGroup email pid) w (fun r w' => same_store w w' /\
      match r with
      | Ok g => g <> "" /\ binding_group w email pid g
      | Err _ => True
      | Panic => False
      end);
  mapper_groups user pid w :
    runs (mapper_MapUserToGroups user pid) w (fun r w' => same_store w w' /\
      match r with
      | Ok gs => gs <> ∅ /\ exists bg, binding_group w (user_Email user) pid bg /\
                   forall g, g ∈ gs <-> granted_group w user pid bg g
      | Err _ => True
      | Panic => False
      end);
  mapper_roles user pid w :
    runs (mapper_MapUserToRoles user pid) w (fun r w' => same_store w w' /\
      match r with
      | Ok rs => if user_IsAdmin user then rs = {[ OwnersRole ]}
                 else exists bg, binding_group w (user_Email user) pid bg /\
                   forall role, role ∈ rs <-> granted_role w user pid bg role
      | Err _ => True
      | Panic => False
      end);
  mapper_mappings email w :
    runs (mapper_MappingsFor email) w (fun r w' => same_store w w' /\
      match r with
      | Ok l => forall b, b ∈ l <-> bound w b /\ EqualFold (binding_UserEmail b) email = true
      | Err _ => True
      | Panic => False
      end);
  mapper_group_mappings gs w :
    runs (mapper_GroupMappingsFor gs) w (fun r w' => same_store w w' /\
      match r with
      | Ok l => forall b, b ∈ l <-> group_bound w b /\ gbinding_Group b ∈ gs
      | Err _ => True
      | Panic => False
      end) }.

(** ** ProjectMemberProvider, PrivilegedProjectMemberProvider *)

Class ProjectMemberProvider (W : Type) := {
  members_Create : UserInfo -> Project -> string -> string -> M W error UserProjectBinding;
  members_List : UserInfo -> Project -> option ProjectMemberListOptions ->
    M W error (list UserProjectBinding);
  members_Delete : UserInfo -> string -> M W error unit;
  members_Update : UserInfo -> UserProjectBinding -> M W error UserProjectBinding;
  members_CreateUnsecured : Project -> string -> string -> M W error UserProjectBinding;
  members_CreateUnsecuredForServiceAccount : Project -> string -> string ->
    M W error UserProjectBinding;
  members_DeleteUnsecured : string -> M W error unit;
  members_UpdateUnsecured : UserProjectBinding -> M W error UserProjectBinding }.

Section member_contract.
Context {W : Type} {ST : Store W} {P : SDK}.
Implicit Types w : W.

(** The members of a project: its bindings, those of service accounts apart. *)
Definition member_of w (project : Project) (b : UserProjectBinding) : Prop :=
  bound w b /\ binding_ProjectID b = meta_Name (project_meta project) /\
  IsProjectServiceAccount (binding_UserEmail b) = false.

Definition skip_verification (options : option ProjectMemberListOptions) : bool :=
  match options with Some o => SkipPrivilegeVerification o | None => false end.
Definition email_filter (options : option ProjectMemberListOptions) : string :=
  match options with Some o => MemberEmail o | None => "" end.

(** What a list of members contains: all members, or at most one member with
    the given email. *)
Definition lists_members w project options (l : list UserProjectBinding) : Prop :=
  if is_empty (email_filter options)
  then NoDup (key_of KBinding <$> l) /\ forall b, b ∈ l <-> member_of w project b
  else (exists b, l = [b] /\ member_of w project b /\
          EqualFold (binding_UserEmail b) (email_filter options) = true) \/
       (l = [] /\ forall b, member_of w project b ->
          EqualFold (binding_UserEmail b) (email_filter options) = false).

(** Members are shown to a user who can read one of them. *)
Definition may_read_members w userInfo project : Prop :=
  (forall b, ~ member_of w project b) \/
  exists b, member_of w project b /\
    authorized w (as_user userInfo) VGet KBinding ("", meta_Name (binding_meta b)).

(** The new binding of [email] to [project]. *)
Definition binds_member (b : UserProjectBinding) (project : Project) (email group : string) : Prop :=
  binding_UserEmail b = email /\ binding_ProjectID b = meta_Name (project_meta project) /\
  binding_Group b = group /\
  meta_Namespace (binding_meta b) = "" /\ meta_Finalizers (binding_meta b) = [].

#[export] Instance member_of_proper : Proper (same_store ==> eq ==> eq ==> iff) member_of.
Proof. intros w w' Hw p ? <- b ? <-. unfold member_of. by rewrite Hw. Qed.
#[export] Instance lists_members_proper :
  Proper (same_store ==> eq ==> eq ==> eq ==> iff) lists_members.
Proof.
  intros w w' Hw p ? <- o ? <- l ? <-. unfold lists_members.
  destruct (is_empty _); by setoid_rewrite Hw.
Qed.
End member_contract.

Class ProjectMemberProviderLaws (W : Type) {P : SDK} {ST : Store W}
    {MEMBERS : ProjectMemberProvider W} : Prop := {
  members_List_spec userInfo project options w :
    runs (members_List userInfo project options) w (fun r w' => same_store w w' /\
      match r with
      | Ok l => lists_members w project options l /\
          (skip_verification options = true \/ may_read_members w userInfo project)
      | Err _ => True
      | Panic => False
      end);
  members_Create_spec userInfo project email group w :
    runs (members_Create userInfo project email group) w (fun r w' =>
      match r with
      | Ok b => IsProjectServiceAccount email = false /\
          authorized w (as_user userInfo) VCreate KBinding (key_of KBinding b) /\
          binds_member b project email group /\ created KBinding w w' b
      | Err _ => same_store w w'
      | Panic => False
      end);
  members_CreateUnsecured_spec project email group w :
    runs (members_CreateUnsecured project email group) w (fun r w' =>
      match r with
      | Ok b => IsProjectServiceAccount email = false /\
          binds_member b project email group /\ created KBinding w w' b
      | Err _ => same_store w w'
      | Panic => False
      end);
  members_CreateUnsecuredForServiceAccount_spec project email group w :
    runs (members_CreateUnsecuredForServiceAccount project email group) w (fun r w' =>
      match r with
      | Ok b => (IsProjectServiceAccount email = true ->
                   HasPrefix group ProjectManagerGroupNamePrefix = true) /\
          binds_member b project email group /\ created KBinding w w' b
      | Err _ => same_store w w'
      | Panic => False
      end);
  members_Delete_spec userInfo name w :
    runs (members_Delete userInfo name) w (fun r w' =>
      match r with
      | Ok _ => authorized w (as_user userInfo) VDelete KBinding ("", name) /\
          deleted KBinding w w' ("", name)
      | Err _ => same_store w w'
      | Panic => False
      end);
  members_DeleteUnsecured_spec name w :
    runs (members_DeleteUnsecured name) w (fun r w' =>
      match r with
      | Ok _ => deleted KBinding w w' ("", name)
      | Err _ => same_store w w'
      | Panic => False
      end);
  members_Update_spec userInfo b w :
    runs (members_Update userInfo b) w (fun r w' =>
      match r with
      | Ok b' => authorized w (as_user userInfo) VUpdate KBinding (key_of KBinding b) /\
          strip KBinding b' = strip KBinding b /\ updated KBinding w w' b'
      | Err _ => same_store w w'
      | Panic => False
      end);
  members_UpdateUnsecured_spec b w :
    runs (members_UpdateUnsecured b) w (fun r w' =>
      match r with
      | Ok b' => strip KBinding b' = strip KBinding b /\ updated KBinding w w' b'
      | Err _ => same_store w w'
      | Panic => False
      end) }.

(** ** UserProvider *)

Class UserProvider (W : Type) := {
  users_UserByEmail : string -> M W error User;
  users_CreateUser : string -> string -> list string -> M W error User;
  users_UpdateUser : User -> M W error User;
  users_UserByID : string -> M W error User;
  users_InvalidateToken : option User -> string -> time -> M W error unit;
  users_GetInvalidatedTokens : option User -> M W error (list string);
  users_List : M W error (list User) }.

(** The user [u] is stored. *)
Definition registered {W} {ST : Store W} (w : W) (u : User) : Prop :=
  exists n, view KUser w !! n = Some u.
#[export] Instance registered_proper {W} {ST : Store W} :
  Proper (same_store ==> eq ==> iff) registered.
Proof. intros w w' [Hw _] u ? <-. unfold registered. by rewrite Hw. Qed.

Class UserProviderLaws (W : Type) {EL : ErrorLib} {P : SDK} {API : KubeAPI W} {ST : Store W}
    {USERS : UserProvider W} : Prop := {
  users_UserByEmail_spec email w :
    runs (users_UserByEmail email) w (fun r w' => same_store w w' /\
      match r with
      | Ok u => registered w u /\ EqualFold (user_Email u) email = true
      | Err e => ListsSucceed W -> e = ErrNotFound /\
          forall u, registered w u -> EqualFold (user_Email u) email = false
      | Panic => False
      end);
  users_UserByID_spec id w :
    runs (users_UserByID id) w (fun r w' => same_store w w' /\
      match r with
      | Ok u => view KUser w !! ("", id) = Some u
      | Err e => apierrors_IsNotFound e = true -> view KUser w !! ("", id) = None
      | Panic => False
      end);
  users_List_spec w :
    runs users_List w (fun r w' => same_store w w' /\
      match r with
      | Ok l => forall u, u ∈ l <-> registered w u
      | Err _ => ~ ListsSucceed W
      | Panic => False
      end);
  users_CreateUser_spec name email groups w :
    runs (users_CreateUser name email groups) w (fun r w' =>
      match r with
      | Ok u => name <> "" /\ email <> "" /\
          user_Name u = name /\ user_Email u = ToLower email /\ user_Groups u = groups /\
          IsProjectServiceAccount (ToLower email) = false /\
          (user_IsAdmin u = true <-> view KUser w = ∅) /\ created KUser w w' u
      | Err _ => same_store w w'
      | Panic => False
      end);
  users_UpdateUser_spec u w :
    runs (users_UpdateUser u) w (fun r w' =>
      match r with
      | Ok u' => strip KUser u' = strip KUser u /\ user_LastSeen u' = trunc_second (user_LastSeen u) /\
          updated KUser w w' u'
      | Err _ => same_except KUser w w'
      | Panic => False
      end);
  users_GetInvalidatedTokens_spec user w :
    runs (users_GetInvalidatedTokens user) w (fun r w' => same_store w w' /\ r <> Panic) }.

(** ** ProjectProvider, PrivilegedProjectProvider, SettingsProvider *)

Class ProjectProvider (W : Type) := {
  projects_New : string -> gmap string bool -> gmap string string -> M W error Project;
  projects_Update : option UserInfo -> Project -> M W error Project;
  projects_Delete : option UserInfo -> string -> M W error unit;
  projects_Get : option UserInfo -> string -> option ProjectGetOptions -> M W error Project;
  projects_List : option ProjectListOptions -> M W error (list Project) }.

Class PrivilegedProjectProvider (W : Type) := {
  projects_GetUnsecured : string -> option ProjectGetOptions -> M W error Project;
  projects_DeleteUnsecured : string -> M W error unit;
  projects_UpdateUnsecured : Project -> M W error Project }.

Class SettingsProvider (W : Type) := {
  settings_GetGlobalSettings : M W error KubermaticSetting;
  settings_UpdateGlobalSettings : UserInfo -> KubermaticSetting -> M W error KubermaticSetting }.

Definition project_id (p : Project) : string := meta_Name (project_meta p).

(** The options accept the project in its current phase. *)
Definition phase_accepted {P : SDK} (options : option ProjectGetOptions) (p : Project) : bool :=
  match options with
  | None => true
  | Some o => IncludeUninitialized o || bool_decide (project_Phase p = ProjectActive)
  end.

Class ProjectProviderLaws (W : Type) {P : SDK} {ST : Store W} {PROJECTS : ProjectProvider W} : Prop := {
  projects_Get_spec userInfo id options w :
    runs (projects_Get userInfo id options) w (fun r w' => same_store w w' /\
      match r with
      | Ok p => exists ui, userInfo = Some ui /\ view KProject w !! ("", id) = Some p /\
          authorized w (as_user ui) VGet KProject ("", id) /\ phase_accepted options p = true
      | Err _ => True
      | Panic => False
      end);
  projects_New_spec name oses labels w :
    runs (projects_New name oses labels) w (fun r w' =>
      match r with
      | Ok p => project_Name p = name /\ project_AllowedOperatingSystems p = oses /\
          meta_Labels (project_meta p) = labels /\ created KProject w w' p
      | Err _ => same_store w w'
      | Panic => False
      end);
  projects_Update_spec userInfo p w :
    runs (projects_Update userInfo p) w (fun r w' =>
      match r with
      | Ok p' => exists ui, userInfo = Some ui /\
          authorized w (as_user ui) VUpdate KProject (key_of KProject p) /\
          strip KProject p' = strip KProject p /\ updated KProject w w' p'
      | Err _ => same_store w w'
      | Panic => False
      end);
  projects_Delete_spec userInfo id w :
    runs (projects_Delete userInfo id) w (fun r w' =>
      match r with
      | Ok _ => exists ui, userInfo = Some ui /\
          authorized w (as_user ui) VGet KProject ("", id) /\
          authorized w (as_user ui) VDelete KProject ("", id) /\ deleted KProject w w' ("", id)
      | Err _ => same_store w w'
      | Panic => False
      end);
  projects_List_spec options w :
    runs (projects_List options) w (fun r w' => same_store w w' /\
      match r with
      | Ok l => options = None -> forall id, id ∈ project_id <$> l <->
          exists n p, view KProject w !! n = Some p /\ project_id p = id
      | Err _ => True
      | Panic => False
      end) }.

Class PrivilegedProjectProviderLaws (W : Type) {P : SDK} {ST : Store W}
    {PPROJECTS : PrivilegedProjectProvider W} : Prop := {
  projects_GetUnsecured_spec id options w :
    runs (projects_GetUnsecured id options) w (fun r w' => same_store w w' /\
      match r with
      | Ok p => view KProject w !! ("", id) = Some p /\ phase_accepted options p = true
      | Err _ => True
      | Panic => False
      end);
  projects_DeleteUnsecured_spec id w :
    runs (projects_DeleteUnsecured id) w (fun r w' =>
      match r with
      | Ok _ => deleted KProject w w' ("", id)
      | Err _ => same_store w w'
      | Panic => False
      end);
  projects_UpdateUnsecured_spec p w :
    runs (projects_UpdateUnsecured p) w (fun r w' =>
      match r with
      | Ok p' => strip KProject p' = strip KProject p /\ updated KProject w w' p'
      | Err _ => same_store w w'
      | Panic => False
      end) }.

Class SettingsProviderLaws (W : Type) {ST : Store W} {SETTINGS : SettingsProvider W} : Prop :=
  settings_GetGlobalSettings_spec w :
    runs settings_GetGlobalSettings w (fun r w' => same_except KSetting w w' /\ r <> Panic).

(** ** ServiceAccountProvider, PrivilegedServiceAccountProvider

    Projects, users and objects that the implementation tests against nil are
    options. *)
Class ServiceAccountProvider (W : Type) := {
  sas_Create : UserInfo -> option Project -> string -> string -> M W error User;
  sas_List : option UserInfo -> option Project -> option ServiceAccountListOptions ->
    M W error (list User);
  sas_Get : option UserInfo -> string -> option ServiceAccountGetOptions -> M W error User;
  sas_Update : option UserInfo -> option User -> M W error User;
  sas_Delete : option UserInfo -> string -> M W error unit;
  sas_CreateUnsecured : option Project -> string -> string -> M W error User;
  sas_ListUnsecured : option Project -> option ServiceAccountListOptions -> M W error (list User);
  sas_GetUnsecured : string -> option ServiceAccountGetOptions -> M W error User;
  sas_UpdateUnsecured : option User -> M W error User;
  sas_DeleteUnsecured : string -> M W error unit }.

(** ** ServiceAccountTokenProvider, PrivilegedServiceAccountTokenProvider *)

Class ServiceAccountTokenProvider (W : Type) := {
  tokens_Create : option UserInfo -> option User -> string -> string -> string -> string ->
    M W error Secret;
  tokens_List : option UserInfo -> option Project -> option User ->
    option ServiceAccountTokenListOptions -> M W error (list Secret);
  tokens_Get : option UserInfo -> string -> M W error Secret;
  tokens_Update : option UserInfo -> option Secret -> M W error Secret;
  tokens_Delete : option UserInfo -> string -> M W error unit;
  tokens_ListUnsecured : option ServiceAccountTokenListOptions -> M W error (list Secret);
  tokens_CreateUnsecured : option User -> string -> string -> string -> string -> M W error Secret;
  tokens_GetUnsecured : string -> M W error Secret;
  tokens_UpdateUnsecured : option Secret -> M W error Secret;
  tokens_DeleteUnsecured : string -> M W error unit }.
