(* ===== verification/Presets.v ===== *)
(** Presets: the credentials an installation keeps for its clouds.  The
    reflection over a preset of handler/common/preset.go, the provider of
    provider/kubernetes/preset.go with its filter, and what it promises. *)
From S2P Require Export Providers Tables.

(** ** What belongs to the SDK and to kubermatic *)

Class PresetSDK := {
  SupportedProviders : list string;                     (* kubermaticv1.SupportedProviders *)
  IsProviderSupported : string -> bool;                 (* kubermaticv1.IsProviderSupported *)
  VMwareCloudDirectorCloudProvider : string;
  OpenstackCloudProvider : string;
  provider_IsValid : forall f, option (field_type f -> bool);  (* the method IsValid, if the preset has it *)
  base_IsEnabled : ProviderPreset -> bool;              (* ProviderPreset.IsEnabled *)
  spec_IsEnabled : PresetSpec -> bool;                  (* PresetSpec.IsEnabled *)
  spec_SetEnabled : bool -> PresetSpec -> PresetSpec;   (* PresetSpec.SetEnabled *)
  email_MatchesRequirements : string -> list string -> result error bool }.

(** What is disabled says so; the email of a user is looked up in the requirements. *)
Class PresetSDKLaws (S : PresetSDK) : Prop := {
  base_IsEnabled_spec b : base_IsEnabled b = true <-> pp_Enabled b <> Some false;
  spec_IsEnabled_spec s : spec_IsEnabled s = true <-> ps_Enabled s <> Some false;
  spec_SetEnabled_spec b s : spec_SetEnabled b s = spec_with_enabled (Some b) s;
  IsValid_base f b v IsValid : provider_IsValid f = Some IsValid -> IsValid (field_with_base f b v) = IsValid v;
  field_supported f : exists p, p ∈ SupportedProviders /\ EqualFold (field_name f) p = true;
  MatchesRequirements_total email l : email_MatchesRequirements email l <> Panic }.

(** ** handler/common/preset.go *)

Section reflection.
Context {EL : ErrorLib} {SDKP : PresetSDK}.

(** The field whose name is that of the provider; [None] is the invalid value.
    [FieldByNameFunc] would also see the fields Projects, RequiredEmails and
    Enabled, which are the names of no provider. *)
Definition getProviderValue (providerType : string) : option PresetField :=
  List.find (fun f => EqualFold (field_name f) providerType) all_fields.

Definition SetPresetProviderEnabled (p : Preset) (providerType : string) (enabled : bool)
    : result error Preset :=
  match getProviderValue providerType with
  | None => Panic
  | Some f =>
      match field_get f (preset_Spec p) with
      | None => Panic
      | Some v =>
          let base := {| pp_Enabled := Some enabled; pp_Datacenter := pp_Datacenter (field_base f v) |} in
          Ok (preset_with_spec (field_set f (Some (field_with_base f base v)) (preset_Spec p)) p)
      end
  end.

Definition PresetHasProvider (p : Preset) (providerType : string) : bool :=
  match getProviderValue providerType with
  | None => false
  | Some f => match field_get f (preset_Spec p) with None => false | Some _ => true end
  end.

Definition GetPresetProviderList (p : Preset) : list string :=
  List.filter (PresetHasProvider p) SupportedProviders.

Definition GetProviderPreset (p : Preset) (providerType : string) : option ProviderPreset :=
  match getProviderValue providerType with
  | None => None
  | Some f => field_base f <$> field_get f (preset_Spec p)
  end.

Definition ValidatePreset (p : Preset) (providerType : string) : result error unit :=
  let missing := Err (ENew ("missing provider configuration for: " +:+ providerType)) in
  match getProviderValue providerType with
  | None => missing
  | Some f =>
      match field_get f (preset_Spec p) with
      | None => missing
      | Some v =>
          match provider_IsValid f with
          | None => (* the name of a pointer type is empty *)
              Err (ENew "provider  does not implement validateable interface")
          | Some IsValid =>
              if negb (IsValid v)
              then Err (ENew ("required fields missing for provider spec: " +:+ providerType))
              else Ok tt
          end
      end
  end.

Definition IsPresetProviderEnabled (p : Preset) (provider : string) : bool :=
  match GetProviderPreset p provider with
  | None => false
  | Some presetProvider => base_IsEnabled presetProvider
  end.

Definition OverridePresetProvider (p : Preset) (providerType : string) (newPreset : Preset)
    : result error Preset :=
  match getProviderValue providerType with
  | None => Panic
  | Some f => Ok (preset_with_spec (field_set f (field_get f (preset_Spec newPreset)) (preset_Spec p)) p)
  end.

Definition RemovePresetProvider (p : Preset) (providerType : string) : result error Preset :=
  match getProviderValue providerType with
  | None => Panic
  | Some f => Ok (preset_with_spec (field_set f None (preset_Spec p)) p)
  end.
End reflection.

(** ** provider/kubernetes/preset.go *)

(** provider.PresetProvider *)
Class PresetProvider (W : Type) := {
  presets_CreatePreset : Preset -> M W error Preset;
  presets_UpdatePreset : Preset -> M W error Preset;
  presets_GetPresets : UserInfo -> option string -> M W error (list Preset);
  presets_GetPreset : UserInfo -> option string -> string -> M W error Preset;
  presets_DeletePreset : Preset -> M W error Preset }.

Section preset_provider.
Context {W : Type} {EL : ErrorLib} {SDKP : PresetSDK} {API : KubeAPI W}.

Definition matchesProject (projectID : option string) (preset : Preset) : bool :=
  match projectID with
  | None => true
  | Some projectID =>
      if bool_decide (0 < length (ps_Projects (preset_Spec preset)))
      then existsb (fun project => bool_decide (projectID = project)) (ps_Projects (preset_Spec preset))
      else true
  end.

Fixpoint filterOutPresets (userInfo : UserInfo) (projectID : option string) (items : list Preset)
    : result error (list Preset) :=
  match items with
  | [] => Ok []
  | preset :: items =>
      match email_MatchesRequirements (ui_Email userInfo) (ps_RequiredEmails (preset_Spec preset)) with
      | Err err => Err err
      | Panic => Panic
      | Ok matchesEmail =>
          result_map (fun result =>
            if matchesProject projectID preset && (matchesEmail || ui_IsAdmin userInfo)
            then preset :: result else result) (filterOutPresets userInfo projectID items)
      end
  end.

Definition PresetProvider_GetPresets (userInfo : UserInfo) (projectID : option string)
    : M W error (list Preset) :=
  presetList ← mapErr (EWrap "failed to get presets: ") (klist KPreset Privileged Everything);
  lift (filterOutPresets userInfo projectID presetList).

Definition PresetProvider_GetPreset (userInfo : UserInfo) (projectID : option string) (name : string)
    : M W error Preset :=
  presets ← PresetProvider_GetPresets userInfo projectID;
  match List.find (fun preset => bool_decide (meta_Name (preset_meta preset) = name)) presets with
  | Some preset => mret preset
  | None => throw (apierrors_NewNotFound "preset" name)
  end.

Definition PresetProvider_CreatePreset (preset : Preset) : M W error Preset :=
  kcreate KPreset Privileged preset.

Definition PresetProvider_UpdatePreset (preset : Preset) : M W error Preset :=
  kupdate KPreset Privileged preset.

(** The answer is an empty preset. *)
Definition emptySpec : PresetSpec :=
  MkPresetSpec None None None None None None None None None None None None None None None None None
    [] [] None.
Definition PresetProvider_DeletePreset (preset : Preset) : M W error Preset :=
  _ ← kdelete KPreset Privileged (key_of KPreset preset);
  mret (MkPreset (metaNamed "") emptySpec).
End preset_provider.

#[export] Instance kubernetesPresetProvider {W} `{ErrorLib} `{PresetSDK} `{KubeAPI W} : PresetProvider W := {|
  presets_CreatePreset := PresetProvider_CreatePreset;
  presets_UpdatePreset := PresetProvider_UpdatePreset;
  presets_GetPresets := PresetProvider_GetPresets;
  presets_GetPreset := PresetProvider_GetPreset;
  presets_DeletePreset := PresetProvider_DeletePreset |}.

(** ** What the provider promises *)

Section preset_contract.
Context {W : Type} {EL : ErrorLib} {SDKP : PresetSDK} {API : KubeAPI W} {ST : Store W}.
Implicit Types w : W.

(** The preset is open to the user in the project: [None] stands for all projects. *)
Definition preset_visible (ui : UserInfo) (projectID : option string) (p : Preset) : Prop :=
  (forall pid, projectID = Some pid -> ps_Projects (preset_Spec p) = [] \/ pid ∈ ps_Projects (preset_Spec p)) /\
  (email_MatchesRequirements (ui_Email ui) (ps_RequiredEmails (preset_Spec p)) = Ok true \/ ui_IsAdmin ui = true).

Definition lists_presets w ui projectID (l : list Preset) : Prop :=
  NoDup (key_of KPreset <$> l) /\ forall p, p ∈ l <-> stored KPreset w p /\ preset_visible ui projectID p.

#[export] Instance lists_presets_proper :
  Proper (same_store ==> eq ==> eq ==> eq ==> iff) lists_presets.
Proof.
  intros w w' Hw u ? <- p ? <- l ? <-. unfold lists_presets. by setoid_rewrite Hw.
Qed.
End preset_contract.

Class PresetProviderLaws (W : Type) {EL : ErrorLib} {SDKP : PresetSDK} {API : KubeAPI W} {ST : Store W}
    {PRESETS : PresetProvider W} : Prop := {
  presets_GetPresets_spec ui pid w :
    runs (presets_GetPresets ui pid) w (fun r w' => same_store w w' /\
      match r with Ok l => lists_presets w ui pid l | Err _ => True | Panic => False end);
  presets_GetPreset_spec ui pid name w :
    runs (presets_GetPreset ui pid name) w (fun r w' => same_store w w' /\
      match r with
      | Ok p => stored KPreset w p /\ meta_Name (preset_meta p) = name /\ preset_visible ui pid p
      | Err e => (exists w1, presets_GetPresets ui pid w = (Err e, w1)) \/
          (e = apierrors_NewNotFound "preset" name /\
           forall p, stored KPreset w p -> preset_visible ui pid p -> meta_Name (preset_meta p) <> name)
      | Panic => False
      end);
  presets_CreatePreset_spec p w :
    runs (presets_CreatePreset p) w (fun r w' =>
      match r with
      | Ok p' => strip KPreset p' = strip KPreset p /\ created KPreset w w' p'
      | Err _ => same_store w w'
      | Panic => False
      end);
  presets_UpdatePreset_spec p w :
    runs (presets_UpdatePreset p) w (fun r w' =>
      match r with
      | Ok p' => strip KPreset p' = strip KPreset p /\ updated KPreset w w' p'
      | Err _ => same_store w w'
      | Panic => False
      end);
  presets_DeletePreset_spec p w :
    runs (presets_DeletePreset p) w (fun r w' =>
      match r with
      | Ok _ => deleted KPreset w w' (key_of KPreset p)
      | Err _ => same_store w w'
      | Panic => False
      end) }.

Section preset_provider_proofs.
Context {W : Type} {EL : ErrorLib} {SDKP : PresetSDK} {API : KubeAPI W} {ST : Store W}
        {LAWS : KubeAPILaws W} {SL : PresetSDKLaws SDKP}.
Implicit Types w : W.

Lemma matchesProject_spec projectID p :
  matchesProject projectID p = true <->
  forall pid, projectID = Some pid -> ps_Projects (preset_Spec p) = [] \/ pid ∈ ps_Projects (preset_Spec p).
Proof.
  unfold matchesProject. destruct projectID as [pid|]; [|naive_solver].
  destruct (ps_Projects (preset_Spec p)) as [|x l] eqn:E; cbn [length].
  - rewrite bool_decide_eq_false_2 by lia. naive_solver.
  - rewrite bool_decide_eq_true_2 by lia. rewrite existsb_exists. setoid_rewrite bool_decide_eq_true.
    setoid_rewrite <- list_elem_of_In. naive_solver.
Qed.

Lemma filterOutPresets_spec ui pid items :
  match filterOutPresets ui pid items with
  | Ok l => sublist l items /\ forall p, p ∈ l <-> p ∈ items /\ preset_visible ui pid p
  | Err e => exists p, p ∈ items /\
      email_MatchesRequirements (ui_Email ui) (ps_RequiredEmails (preset_Spec p)) = Err e
  | Panic => False
  end.
Proof.
  induction items as [|p items IH]; cbn [filterOutPresets]; [split; [constructor|set_solver]|].
  pose proof (MatchesRequirements_total (ui_Email ui) (ps_RequiredEmails (preset_Spec p))) as Htot.
  destruct (email_MatchesRequirements _ _) as [m|e|] eqn:Em; [|set_solver|done].
  destruct (filterOutPresets ui pid items) as [l|e|]; cbn [result_map]; [|set_solver|done].
  destruct IH as [Hsub IH].
  destruct (matchesProject pid p && (m || ui_IsAdmin ui)) eqn:Ev; (split; [by constructor|]); intros x.
  - apply andb_true_iff in Ev as [Hp Hm%orb_true_iff]. rewrite matchesProject_spec in Hp.
    rewrite !elem_of_cons, IH.
    split; [|naive_solver]. intros [->|?]; [|naive_solver]. split; [by left|]. split; [done|].
    destruct Hm as [->|Ha]; [by left|by right].
  - rewrite IH, elem_of_cons. split; [naive_solver|]. intros [[->|?] Hv]; [|done]. exfalso.
    apply andb_false_iff in Ev as [H|[H1 H2]%orb_false_iff]; destruct Hv as [Hv1 Hv2].
    + rewrite <- matchesProject_spec in Hv1. congruence.
    + rewrite Em in Hv2. destruct Hv2; congruence.
Qed.

Lemma GetPresets_spec ui pid w :
  runs (PresetProvider_GetPresets ui pid) w (fun r w' => same_store w w' /\
    match r with Ok l => lists_presets w ui pid l | Err _ => True | Panic => False end).
Proof.
  unfold PresetProvider_GetPresets. runs_call (klist_spec KPreset). destruct Hcall as [Hs Hl].
  destruct r as [l|e|]; cbn [andThen]; [|done|done]. runs_step. split; [done|].
  pose proof (filterOutPresets_spec ui pid l) as H. destruct (filterOutPresets ui pid l) as [l'|e|]; [|done|done].
  destruct H as [Hsub H]. split.
  - eapply sublist_NoDup; [by eapply (NoDup_listed KPreset)|by apply fmap_sublist].
  - intros p. rewrite H. by rewrite (elem_of_listed_all KPreset w l p Hl).
Qed.

#[export] Instance kubernetesPresetProvider_laws : PresetProviderLaws W.
Proof.
  split.
  - apply GetPresets_spec.
  - intros ui pid name w. cbn [presets_GetPreset presets_GetPresets kubernetesPresetProvider].
    unfold PresetProvider_GetPreset. runs_step. apply runs_intro. intros r w1 Hr.
    destruct (runs_elim _ _ _ _ _ (GetPresets_spec ui pid w) Hr) as [Hs H].
    destruct r as [l|e|]; cbn [andThen]; [|split; [done|left; by exists w1]|done].
    destruct (List.find _ l) as [p|] eqn:E; runs_step; (split; [done|]).
    + apply List_find_some in E as [Hp Hn%bool_decide_eq_true]. apply H in Hp as [? ?]. done.
    + right. split; [done|]. intros p Hst Hv Hn.
      assert (p ∈ l) as Hin by (by apply H). pose proof (List_find_none _ _ p E Hin) as Hf. cbn beta in Hf.
      by apply bool_decide_eq_false in Hf.
  - intros p w. eapply runs_mono; [apply (kcreate_spec KPreset)|]. cbn beta.
    intros [p'|e|] w' H; [by destruct H as (_ & ? & ?)|by destruct H|done].
  - intros p w. eapply runs_mono; [apply (kupdate_spec KPreset)|]. cbn beta.
    intros [p'|e|] w' H; [by destruct H as (_ & ? & ? & _)|done|done].
  - intros p w. cbn [presets_DeletePreset kubernetesPresetProvider]. unfold PresetProvider_DeletePreset.
    runs_call (kdelete_spec KPreset). destruct r as [[]|e|]; cbn [andThen]; [|done|done]. runs_step. apply Hcall.
Qed.
End preset_provider_proofs.

(** ** A concrete SDK and an installation with presets, for the witnesses *)

#[export] Instance refPresetSDK : PresetSDK := {|
  SupportedProviders := (ToLower ∘ field_name <$> all_fields) ++ ["bringyourown"; "edge"];
  IsProviderSupported p := bool_decide (p ∈ (ToLower ∘ field_name <$> all_fields) ++ ["bringyourown"; "edge"]);
  VMwareCloudDirectorCloudProvider := "vmwareclouddirector";
  OpenstackCloudProvider := "openstack";
  provider_IsValid f := Some
    (match f return field_type f -> bool with
     | FDigitalocean => fun v => negb (is_empty (ps_do_Token v))
     | FOpenstack => fun v => negb (is_empty (ps_os_Username v)) && negb (is_empty (ps_os_Password v))
     | _ => fun _ => true
     end);
  base_IsEnabled b := bool_decide (pp_Enabled b <> Some false);
  spec_IsEnabled s := bool_decide (ps_Enabled s <> Some false);
  spec_SetEnabled b s := spec_with_enabled (Some b) s;
  email_MatchesRequirements email l := Ok (bool_decide (l = []) || bool_decide (email ∈ l)) |}.

#[export] Instance refPresetSDK_laws : PresetSDKLaws refPresetSDK.
Proof.
  split; try done.
  - intros b. apply bool_decide_eq_true.
  - intros s. apply bool_decide_eq_true.
  - intros f b v IsValid [= <-]. by destruct f.
  - intros f. exists (ToLower (field_name f)). split; [|by rewrite EqualFold_sym, EqualFold_ToLower].
    apply elem_of_app. left. apply list_elem_of_fmap. exists f. split; [done|apply elem_of_all_fields].
Qed.

Definition anyBase : ProviderPreset := MkProviderPreset None "".
Definition tokenConfig (token : string) : DigitaloceanPreset := MkDigitaloceanPreset anyBase token.
Definition openstackConfig : OpenstackPreset :=
  MkOpenstackPreset anyBase false "" "" "cloud" "s3cret" "tenant" "" "Default" "ext-net" "" "pool" "" "" false.

(** A preset for everybody, and one of the project p1 for alice. *)
Definition openPreset : Preset :=
  MkPreset (metaNamed "open") (field_set FDigitalocean (Some (tokenConfig "do-token")) emptySpec).
Definition teamPreset : Preset :=
  MkPreset (metaNamed "team")
    (MkPresetSpec None None None None None None (Some openstackConfig) None None None None None None None None
       None None ["p1"] ["alice@example.com"] None).

Definition presetStore : Mem :=
  mem_of (fun k => match k return list (obj k) with
    | KPreset => [openPreset; teamPreset]
    | k => sample_objs k
    end) 1000000000000%Z ["r1"; "r2"] (fun _ _ _ _ => true).

Lemma presetStore_wide : cluster_wide KPreset presetStore.
Proof.
  intros p [n Hn%(lookup_mem presetStore KPreset)].
  assert (Forall (fun p : obj KPreset => meta_Namespace (preset_meta p) = "" /\ meta_Finalizers (preset_meta p) = [])
            (map_to_list (view KPreset presetStore)).*2) as H
    by (apply (bool_decide_unpack _); vm_compute; reflexivity).
  rewrite Forall_forall in H. by apply H.
Qed.
