(* ===== verification/PresetCredentials.v ===== *)
(** The credentials of a cluster: SetCloudCredentials of
    provider/kubernetes/preset.go copies those of a preset into the cloud
    specification of a request. *)
From S2P Require Export Presets.

(** ** The functions [setXCredentials]

    They write through the pointer [cloud.X], which is nil unless
    SetCloudCredentials has chosen the provider; the specification they answer
    is the one of the caller, changed in place (also when OpenStack fails). *)

Section credentials.
Context {EL : ErrorLib} {SDKP : PresetSDK}.

Definition emptyCredentialError (preset provider : string) : error :=
  ENew ("the preset " +:+ preset +:+ " doesn't contain credential for " +:+ provider +:+ " provider").

Definition name_of_preset (preset : Preset) : string := meta_Name (preset_meta preset).

(** [if preset.Spec.X == nil { return nil, emptyCredentialError(...) }], and then
    the assignments to [cloud.X]. *)
Definition withCredentials {A B} (preset : Preset) (provider : string) (credentials : option A)
    (spec : option B) (set : A -> B -> result error CloudSpec) : result error CloudSpec :=
  match credentials with
  | None => Err (emptyCredentialError (name_of_preset preset) provider)
  | Some credentials => match spec with None => Panic | Some spec => set credentials spec end
  end.

Definition setFakeCredentials (preset : Preset) (cloud : CloudSpec) : result error CloudSpec :=
  withCredentials preset "Fake" (ps_Fake (preset_Spec preset)) (cs_Fake cloud) (fun credentials _ =>
    Ok (cloud_with_Fake {| cs_fake_Token := ps_fake_Token credentials |} cloud)).

Definition setKubevirtCredentials (preset : Preset) (cloud : CloudSpec) : result error CloudSpec :=
  withCredentials preset "Kubevirt" (ps_Kubevirt (preset_Spec preset)) (cs_Kubevirt cloud) (fun credentials c =>
    Ok (cloud_with_Kubevirt
      {| cs_kv_Kubeconfig := ps_kv_Kubeconfig credentials;
         cs_kv_VPCName := ps_kv_VPCName credentials;
         cs_kv_SubnetName := ps_kv_SubnetName credentials;
         cs_kv_PreAllocatedDataVolumes := cs_kv_PreAllocatedDataVolumes c;
         cs_kv_CredentialsReference := cs_kv_CredentialsReference c |} cloud)).

Definition setGCPCredentials (preset : Preset) (cloud : CloudSpec) : result error CloudSpec :=
  withCredentials preset "GCP" (ps_GCP (preset_Spec preset)) (cs_GCP cloud) (fun credentials c =>
    Ok (cloud_with_GCP
      {| cs_gcp_ServiceAccount := ps_gcp_ServiceAccount credentials;
         cs_gcp_Network := ps_gcp_Network credentials;
         cs_gcp_Subnetwork := ps_gcp_Subnetwork credentials;
         cs_gcp_NodePortsAllowedIPRanges := cs_gcp_NodePortsAllowedIPRanges c;
         cs_gcp_CredentialsReference := cs_gcp_CredentialsReference c |} cloud)).

Definition setAWSCredentials (preset : Preset) (cloud : CloudSpec) : result error CloudSpec :=
  withCredentials preset "AWS" (ps_AWS (preset_Spec preset)) (cs_AWS cloud) (fun credentials c =>
    Ok (cloud_with_AWS
      {| cs_aws_AccessKeyID := ps_aws_AccessKeyID credentials;
         cs_aws_SecretAccessKey := ps_aws_SecretAccessKey credentials;
         cs_aws_AssumeRoleARN := ps_aws_AssumeRoleARN credentials;
         cs_aws_AssumeRoleExternalID := ps_aws_AssumeRoleExternalID credentials;
         cs_aws_InstanceProfileName := ps_aws_InstanceProfileName credentials;
         cs_aws_RouteTableID := ps_aws_RouteTableID credentials;
         cs_aws_SecurityGroupID := ps_aws_SecurityGroupID credentials;
         cs_aws_VPCID := ps_aws_VPCID credentials;
         cs_aws_ControlPlaneRoleARN := ps_aws_ControlPlaneRoleARN credentials;
         cs_aws_NodePortsAllowedIPRanges := cs_aws_NodePortsAllowedIPRanges c;
         cs_aws_CredentialsReference := cs_aws_CredentialsReference c |} cloud)).

Definition setHetznerCredentials (preset : Preset) (cloud : CloudSpec) : result error CloudSpec :=
  withCredentials preset "Hetzner" (ps_Hetzner (preset_Spec preset)) (cs_Hetzner cloud) (fun credentials c =>
    Ok (cloud_with_Hetzner
      {| cs_hz_Token := ps_hz_Token credentials; cs_hz_Network := ps_hz_Network credentials;
         cs_hz_CredentialsReference := cs_hz_CredentialsReference c |} cloud)).

Definition setDigitalOceanCredentials (preset : Preset) (cloud : CloudSpec) : result error CloudSpec :=
  withCredentials preset "Digitalocean" (ps_Digitalocean (preset_Spec preset)) (cs_Digitalocean cloud)
    (fun credentials c =>
    Ok (cloud_with_Digitalocean {| cs_do_Token := ps_do_Token credentials;
         cs_do_CredentialsReference := cs_do_CredentialsReference c |} cloud)).

Definition setAzureCredentials (preset : Preset) (cloud : CloudSpec) : result error CloudSpec :=
  withCredentials preset "Azure" (ps_Azure (preset_Spec preset)) (cs_Azure cloud) (fun credentials c =>
    Ok (cloud_with_Azure
      {| cs_az_TenantID := ps_az_TenantID credentials;
         cs_az_ClientSecret := ps_az_ClientSecret credentials;
         cs_az_ClientID := ps_az_ClientID credentials;
         cs_az_SubscriptionID := ps_az_SubscriptionID credentials;
         cs_az_ResourceGroup := ps_az_ResourceGroup credentials;
         cs_az_VNetResourceGroup := ps_az_VNetResourceGroup credentials;
         cs_az_RouteTableName := ps_az_RouteTableName credentials;
         cs_az_SecurityGroup := ps_az_SecurityGroup credentials;
         cs_az_SubnetName := ps_az_SubnetName credentials;
         cs_az_VNetName := ps_az_VNetName credentials;
         cs_az_LoadBalancerSKU := ps_az_LoadBalancerSKU credentials;
         cs_az_AssignAvailabilitySet := cs_az_AssignAvailabilitySet c;
         cs_az_NodePortsAllowedIPRanges := cs_az_NodePortsAllowedIPRanges c;
         cs_az_CredentialsReference := cs_az_CredentialsReference c |} cloud)).

Definition setOpenStackCredentials (preset : Preset) (cloud : CloudSpec) (dc : DatacenterDefaults)
    : result error CloudSpec :=
  withCredentials preset "Openstack" (ps_Openstack (preset_Spec preset)) (cs_Openstack cloud)
    (fun credentials c =>
    (* a customizable preset leaves the values of the request *)
    let choose (ofPreset ofRequest : string) :=
      if negb (ps_os_IsCustomizable credentials) then ofPreset else ofRequest in
    let c' := {| cs_os_Username := ps_os_Username credentials;
                 cs_os_Password := ps_os_Password credentials;
                 cs_os_Domain := ps_os_Domain credentials;
                 cs_os_Project := ps_os_Project credentials;
                 cs_os_ProjectID := ps_os_ProjectID credentials;
                 cs_os_UseToken := ps_os_UseToken credentials;
                 cs_os_ApplicationCredentialID := ps_os_ApplicationCredentialID credentials;
                 cs_os_ApplicationCredentialSecret := ps_os_ApplicationCredentialSecret credentials;
                 cs_os_SubnetID := choose (ps_os_SubnetID credentials) (cs_os_SubnetID c);
                 cs_os_Network := choose (ps_os_Network credentials) (cs_os_Network c);
                 cs_os_RouterID := choose (ps_os_RouterID credentials) (cs_os_RouterID c);
                 cs_os_FloatingIPPool := choose (ps_os_FloatingIPPool credentials) (cs_os_FloatingIPPool c);
                 cs_os_SecurityGroups := choose (ps_os_SecurityGroups credentials) (cs_os_SecurityGroups c);
         cs_os_Token := cs_os_Token c;
         cs_os_NodePortsAllowedIPRanges := cs_os_NodePortsAllowedIPRanges c;
         cs_os_CredentialsReference := cs_os_CredentialsReference c |} in
    if is_empty (cs_os_FloatingIPPool c') && bool_decide (dc_OpenstackEnforceFloatingIP dc = Some true)
    then Err (ENew "preset error, no floating ip pool specified for OpenStack")
    else Ok (cloud_with_Openstack c' cloud)).

Definition setVsphereCredentials (preset : Preset) (cloud : CloudSpec) (dc : DatacenterDefaults)
    : result error CloudSpec :=
  withCredentials preset "Vsphere" (ps_VSphere (preset_Spec preset)) (cs_VSphere cloud) (fun credentials c =>
    let set policy := Ok (cloud_with_VSphere
      {| cs_vs_Username := ps_vs_Username credentials;
         cs_vs_Password := ps_vs_Password credentials;
         cs_vs_VMNetName := ps_vs_VMNetName credentials;
         cs_vs_Networks := ps_vs_Networks credentials;
         cs_vs_Datastore := ps_vs_Datastore credentials;
         cs_vs_DatastoreCluster := ps_vs_DatastoreCluster credentials;
         cs_vs_ResourcePool := ps_vs_ResourcePool credentials;
         cs_vs_BasePath := ps_vs_BasePath credentials;
         cs_vs_StoragePolicy := policy;
         cs_vs_InfraManagementUsername := cs_vs_InfraManagementUsername c;
         cs_vs_InfraManagementPassword := cs_vs_InfraManagementPassword c;
         cs_vs_CredentialsReference := cs_vs_CredentialsReference c |} cloud) in
    if is_empty (cs_vs_StoragePolicy c) then
      match dc_VSphereDefaultStoragePolicy dc with
      | None => Panic
      | Some DefaultStoragePolicy => set DefaultStoragePolicy
      end
    else set (cs_vs_StoragePolicy c)).

Definition setBaremetalCredentials (preset : Preset) (cloud : CloudSpec) : result error CloudSpec :=
  withCredentials preset "Baremetal" (ps_Baremetal (preset_Spec preset)) (cs_Baremetal cloud) (fun credentials c =>
    match cs_bm_Tinkerbell c with
    | None => Ok cloud
    | Some _ =>
        match ps_bm_Tinkerbell credentials with
        | None => Panic
        | Some Kubeconfig => Ok (cloud_with_Baremetal {| cs_bm_Tinkerbell := Some Kubeconfig; cs_bm_CredentialsReference := cs_bm_CredentialsReference c |} cloud)
        end
    end).

Definition setAlibabaCredentials (preset : Preset) (cloud : CloudSpec) : result error CloudSpec :=
  withCredentials preset "Alibaba" (ps_Alibaba (preset_Spec preset)) (cs_Alibaba cloud) (fun credentials c =>
    Ok (cloud_with_Alibaba
      {| cs_al_AccessKeyID := ps_al_AccessKeyID credentials;
         cs_al_AccessKeySecret := ps_al_AccessKeySecret credentials;
         cs_al_CredentialsReference := cs_al_CredentialsReference c |} cloud)).

Definition setAnexiaCredentials (preset : Preset) (cloud : CloudSpec) : result error CloudSpec :=
  withCredentials preset "Anexia" (ps_Anexia (preset_Spec preset)) (cs_Anexia cloud) (fun credentials c =>
    Ok (cloud_with_Anexia {| cs_an_Token := ps_an_Token credentials;
         cs_an_CredentialsReference := cs_an_CredentialsReference c |} cloud)).

Definition setNutanixCredentials (preset : Preset) (cloud : CloudSpec) : result error CloudSpec :=
  withCredentials preset "Nutanix" (ps_Nutanix (preset_Spec preset)) (cs_Nutanix cloud) (fun credentials c =>
    let choose (ofPreset ofRequest : string) := if negb (is_empty ofPreset) then ofPreset else ofRequest in
    Ok (cloud_with_Nutanix
      {| cs_nx_Username := ps_nx_Username credentials;
         cs_nx_Password := ps_nx_Password credentials;
         cs_nx_ProxyURL := choose (ps_nx_ProxyURL credentials) (cs_nx_ProxyURL c);
         cs_nx_ClusterName := choose (ps_nx_ClusterName credentials) (cs_nx_ClusterName c);
         cs_nx_ProjectName := choose (ps_nx_ProjectName credentials) (cs_nx_ProjectName c);
         cs_nx_CSI :=
           if negb (is_empty (ps_nx_CSIUsername credentials)) && negb (is_empty (ps_nx_CSIPassword credentials)) &&
              negb (is_empty (ps_nx_CSIEndpoint credentials))
           then Some {| csi_Username := ps_nx_CSIUsername credentials; csi_Password := ps_nx_CSIPassword credentials;
                        csi_Endpoint := ps_nx_CSIEndpoint credentials; csi_Port := ps_nx_CSIPort credentials |}
           else cs_nx_CSI c;
         cs_nx_CredentialsReference := cs_nx_CredentialsReference c |} cloud)).

Definition setVMwareCloudDirectorCredentials (preset : Preset) (cloud : CloudSpec) : result error CloudSpec :=
  withCredentials preset "VMware Cloud Director" (ps_VMwareCloudDirector (preset_Spec preset))
    (cs_VMwareCloudDirector cloud) (fun credentials c =>
    Ok (cloud_with_VMwareCloudDirector
      {| cs_vcd_Username := ps_vcd_Username credentials;
         cs_vcd_Password := ps_vcd_Password credentials;
         cs_vcd_Organization := ps_vcd_Organization credentials;
         cs_vcd_VDC := ps_vcd_VDC credentials;
         cs_vcd_OVDCNetworks := ps_vcd_OVDCNetworks credentials;
         cs_vcd_APIToken := ps_vcd_APIToken credentials;
         cs_vcd_CredentialsReference := cs_vcd_CredentialsReference c |} cloud)).

(** [if cloud.X != nil { return m.setXCredentials(preset, cloud) }], in the order
    of the code. *)
Definition setCredentials (preset : Preset) (cloud : CloudSpec) (dc : DatacenterDefaults)
    : result error CloudSpec :=
  if bool_decide (is_Some (cs_VSphere cloud)) then setVsphereCredentials preset cloud dc else
  if bool_decide (is_Some (cs_Baremetal cloud)) then setBaremetalCredentials preset cloud else
  if bool_decide (is_Some (cs_Openstack cloud)) then setOpenStackCredentials preset cloud dc else
  if bool_decide (is_Some (cs_Azure cloud)) then setAzureCredentials preset cloud else
  if bool_decide (is_Some (cs_Digitalocean cloud)) then setDigitalOceanCredentials preset cloud else
  if bool_decide (is_Some (cs_Hetzner cloud)) then setHetznerCredentials preset cloud else
  if bool_decide (is_Some (cs_AWS cloud)) then setAWSCredentials preset cloud else
  if bool_decide (is_Some (cs_GCP cloud)) then setGCPCredentials preset cloud else
  if bool_decide (is_Some (cs_Fake cloud)) then setFakeCredentials preset cloud else
  if bool_decide (is_Some (cs_Kubevirt cloud)) then setKubevirtCredentials preset cloud else
  if bool_decide (is_Some (cs_Alibaba cloud)) then setAlibabaCredentials preset cloud else
  if bool_decide (is_Some (cs_Anexia cloud)) then setAnexiaCredentials preset cloud else
  if bool_decide (is_Some (cs_Nutanix cloud)) then setNutanixCredentials preset cloud else
  if bool_decide (is_Some (cs_VMwareCloudDirector cloud)) then setVMwareCloudDirectorCredentials preset cloud else
  Err (ENew "can not find provider to set credentials").

Definition SetCloudCredentials {W} {PRESETS : PresetProvider W} (userInfo : UserInfo)
    (projectID presetName : string) (cloud : CloudSpec) (dc : DatacenterDefaults) : M W error CloudSpec :=
  preset ← presets_GetPreset userInfo (Some projectID) presetName;
  lift (setCredentials preset cloud dc).
End credentials.

(** ** The parts of a cloud specification, by provider *)

Definition cloud_type (f : PresetField) : Type :=
  match f with
  | FDigitalocean => DigitaloceanCloudSpec
  | FHetzner => HetznerCloudSpec
  | FAzure => AzureCloudSpec
  | FVSphere => VSphereCloudSpec
  | FBaremetal => BaremetalCloudSpec
  | FAWS => AWSCloudSpec
  | FOpenstack => OpenstackCloudSpec
  | FGCP => GCPCloudSpec
  | FKubevirt => KubevirtCloudSpec
  | FAlibaba => AlibabaCloudSpec
  | FAnexia => AnexiaCloudSpec
  | FNutanix => NutanixCloudSpec
  | FVMwareCloudDirector => VMwareCloudDirectorCloudSpec
  | FFake => FakeCloudSpec
  | FGKE | FEKS | FAKS => Empty_set
  end.
Definition cloud_get (f : PresetField) (c : CloudSpec) : option (cloud_type f) :=
  match f with
  | FDigitalocean => cs_Digitalocean c
  | FHetzner => cs_Hetzner c
  | FAzure => cs_Azure c
  | FVSphere => cs_VSphere c
  | FBaremetal => cs_Baremetal c
  | FAWS => cs_AWS c
  | FOpenstack => cs_Openstack c
  | FGCP => cs_GCP c
  | FKubevirt => cs_Kubevirt c
  | FAlibaba => cs_Alibaba c
  | FAnexia => cs_Anexia c
  | FNutanix => cs_Nutanix c
  | FVMwareCloudDirector => cs_VMwareCloudDirector c
  | FFake => cs_Fake c
  | FGKE | FEKS | FAKS => None
  end.

(** What logs in at a cloud: the users, passwords, tokens and keys. *)
Definition preset_secrets (f : PresetField) : field_type f -> list string :=
  match f with
  | FDigitalocean => fun v => [ps_do_Token v]
  | FHetzner => fun v => [ps_hz_Token v]
  | FAzure => fun v => [ps_az_TenantID v; ps_az_SubscriptionID v; ps_az_ClientID v; ps_az_ClientSecret v]
  | FVSphere => fun v => [ps_vs_Username v; ps_vs_Password v]
  | FBaremetal => fun v => option_list (ps_bm_Tinkerbell v)
  | FAWS => fun v => [ps_aws_AccessKeyID v; ps_aws_SecretAccessKey v; ps_aws_AssumeRoleARN v;
      ps_aws_AssumeRoleExternalID v]
  | FOpenstack => fun v => [ps_os_Username v; ps_os_Password v; ps_os_Domain v; ps_os_Project v;
      ps_os_ProjectID v; ps_os_ApplicationCredentialID v; ps_os_ApplicationCredentialSecret v]
  | FGCP => fun v => [ps_gcp_ServiceAccount v]
  | FKubevirt => fun v => [ps_kv_Kubeconfig v]
  | FAlibaba => fun v => [ps_al_AccessKeyID v; ps_al_AccessKeySecret v]
  | FAnexia => fun v => [ps_an_Token v]
  | FNutanix => fun v => [ps_nx_Username v; ps_nx_Password v]
  | FVMwareCloudDirector => fun v => [ps_vcd_Username v; ps_vcd_Password v; ps_vcd_APIToken v;
      ps_vcd_Organization v; ps_vcd_VDC v]
  | FFake => fun v => [ps_fake_Token v]
  | FGKE => fun v => [ps_gke_ServiceAccount v]
  | FEKS => fun v => [ps_eks_AccessKeyID v; ps_eks_SecretAccessKey v]
  | FAKS => fun v => [ps_aks_TenantID v; ps_aks_SubscriptionID v; ps_aks_ClientID v; ps_aks_ClientSecret v]
  end.
Definition cloud_secrets (f : PresetField) : cloud_type f -> list string :=
  match f with
  | FDigitalocean => fun c => [cs_do_Token c]
  | FHetzner => fun c => [cs_hz_Token c]
  | FAzure => fun c => [cs_az_TenantID c; cs_az_SubscriptionID c; cs_az_ClientID c; cs_az_ClientSecret c]
  | FVSphere => fun c => [cs_vs_Username c; cs_vs_Password c]
  | FBaremetal => fun c => option_list (cs_bm_Tinkerbell c)
  | FAWS => fun c => [cs_aws_AccessKeyID c; cs_aws_SecretAccessKey c; cs_aws_AssumeRoleARN c;
      cs_aws_AssumeRoleExternalID c]
  | FOpenstack => fun c => [cs_os_Username c; cs_os_Password c; cs_os_Domain c; cs_os_Project c;
      cs_os_ProjectID c; cs_os_ApplicationCredentialID c; cs_os_ApplicationCredentialSecret c]
  | FGCP => fun c => [cs_gcp_ServiceAccount c]
  | FKubevirt => fun c => [cs_kv_Kubeconfig c]
  | FAlibaba => fun c => [cs_al_AccessKeyID c; cs_al_AccessKeySecret c]
  | FAnexia => fun c => [cs_an_Token c]
  | FNutanix => fun c => [cs_nx_Username c; cs_nx_Password c]
  | FVMwareCloudDirector => fun c => [cs_vcd_Username c; cs_vcd_Password c; cs_vcd_APIToken c;
      cs_vcd_Organization c; cs_vcd_VDC c]
  | FFake => fun c => [cs_fake_Token c]
  | FGKE | FEKS | FAKS => fun c => match c with end
  end.

(** The providers in the order SetCloudCredentials asks for them. *)
Definition cloud_order : list PresetField :=
  [FVSphere; FBaremetal; FOpenstack; FAzure; FDigitalocean; FHetzner; FAWS; FGCP; FFake; FKubevirt;
   FAlibaba; FAnexia; FNutanix; FVMwareCloudDirector].
Definition in_cloud (c : CloudSpec) (f : PresetField) : bool :=
  match cloud_get f c with Some _ => true | None => false end.

Section credentials_proofs.
Context {EL : ErrorLib} {SDKP : PresetSDK}.

(** The function for the provider. *)
Definition set_by (f : PresetField) (preset : Preset) (cloud : CloudSpec) (dc : DatacenterDefaults)
    : result error CloudSpec :=
  match f with
  | FDigitalocean => setDigitalOceanCredentials preset cloud
  | FHetzner => setHetznerCredentials preset cloud
  | FAzure => setAzureCredentials preset cloud
  | FVSphere => setVsphereCredentials preset cloud dc
  | FBaremetal => setBaremetalCredentials preset cloud
  | FAWS => setAWSCredentials preset cloud
  | FOpenstack => setOpenStackCredentials preset cloud dc
  | FGCP => setGCPCredentials preset cloud
  | FKubevirt => setKubevirtCredentials preset cloud
  | FAlibaba => setAlibabaCredentials preset cloud
  | FAnexia => setAnexiaCredentials preset cloud
  | FNutanix => setNutanixCredentials preset cloud
  | FVMwareCloudDirector => setVMwareCloudDirectorCredentials preset cloud
  | FFake => setFakeCredentials preset cloud
  | FGKE | FEKS | FAKS => Panic
  end.

Lemma setCredentials_dispatch preset cloud dc :
  setCredentials preset cloud dc =
  match List.find (in_cloud cloud) cloud_order with
  | Some f => set_by f preset cloud dc
  | None => Err (ENew "can not find provider to set credentials")
  end.
Proof.
  unfold setCredentials, cloud_order, in_cloud, cloud_get. cbn [List.find].
  repeat match goal with
  | |- context [bool_decide (is_Some ?o)] =>
      destruct o eqn:?; [rewrite bool_decide_eq_true_2 by (by eexists); done
                        |rewrite bool_decide_eq_false_2 by (by intros [? ?])]
  end.
  done.
Qed.

(** The part of the provider [f] has the credentials of the preset, everything
    else is as it was, and setting them again changes nothing. *)
Record credentials_set (preset : Preset) (dc : DatacenterDefaults) (c c' : CloudSpec) (f : PresetField) : Prop := {
  cset_rest g : g <> f -> cloud_get g c' = cloud_get g c;
  cset_names : cs_DatacenterName c' = cs_DatacenterName c /\ cs_ProviderName c' = cs_ProviderName c;
  cset_secrets : exists v x, field_get f (preset_Spec preset) = Some v /\ cloud_get f c' = Some x /\
    (cloud_secrets f x = preset_secrets f v \/ (f = FBaremetal /\ cloud_secrets f x = []));
  cset_again : set_by f preset c' dc = Ok c' }.

(** The two nil pointers the functions may follow. *)
Definition nil_default_policy (c : CloudSpec) (dc : DatacenterDefaults) : Prop :=
  exists v, cs_VSphere c = Some v /\ cs_vs_StoragePolicy v = "" /\ dc_VSphereDefaultStoragePolicy dc = None.
Definition nil_tinkerbell (preset : Preset) (c : CloudSpec) : Prop :=
  exists v b, cs_Baremetal c = Some v /\ ps_Baremetal (preset_Spec preset) = Some b /\ ps_bm_Tinkerbell b = None.
(** The datacenter wants a floating IP pool, and there is none. *)
Definition no_floating_ip_pool (preset : Preset) (c : CloudSpec) (dc : DatacenterDefaults) : Prop :=
  exists v p, cs_Openstack c = Some v /\ ps_Openstack (preset_Spec preset) = Some p /\
    dc_OpenstackEnforceFloatingIP dc = Some true /\
    (if ps_os_IsCustomizable p then cs_os_FloatingIPPool v else ps_os_FloatingIPPool p) = "".

Lemma choose_again {A} (b : bool) (p r : A) :
  (if b then p else if b then p else r) = if b then p else r.
Proof. by destruct b. Qed.

Local Ltac unfold_set :=
  cbn [set_by]; unfold setDigitalOceanCredentials, setHetznerCredentials, setAzureCredentials,
    setVsphereCredentials, setBaremetalCredentials, setAWSCredentials, setOpenStackCredentials,
    setGCPCredentials, setKubevirtCredentials, setAlibabaCredentials, setAnexiaCredentials,
    setNutanixCredentials, setVMwareCloudDirectorCredentials, setFakeCredentials, withCredentials.

(** The specification was written with the values of the preset, which [Ev] reads. *)
Local Ltac solve_set Ev :=
  split; [intros g Hg; by destruct g|done|eexists _, _; split; [exact Ev|split; [done|by left]]
         |unfold_set; rewrite Ev; cbn; rewrite ?choose_again; try done].

Lemma set_by_spec f preset c dc :
  in_cloud c f = true ->
  match set_by f preset c dc with
  | Ok c' => credentials_set preset dc c c' f
  | Err _ => field_get f (preset_Spec preset) = None \/ (f = FOpenstack /\ no_floating_ip_pool preset c dc)
  | Panic => (f = FVSphere /\ nil_default_policy c dc) \/ (f = FBaremetal /\ nil_tinkerbell preset c)
  end.
Proof.
  unfold in_cloud. intros Hf.
  destruct f; cbn [cloud_get] in Hf; try discriminate Hf;
    match type of Hf with match ?o with Some _ => _ | None => _ end = true =>
      destruct o as [x|] eqn:Ex; [clear Hf|discriminate Hf] end;
    cbn [field_get]; unfold_set; rewrite Ex;
    match goal with |- context [match ?o with Some _ => _ | None => Err _ end] =>
      destruct o as [v|] eqn:Ev; [|by left] end;
    try solve [solve_set Ev].
  - destruct (is_empty (cs_vs_StoragePolicy x)) eqn:Ep; [|solve_set Ev; by rewrite Ep].
    apply is_empty_spec in Ep. destruct (dc_VSphereDefaultStoragePolicy dc) as [policy|] eqn:Ed.
    + solve_set Ev. rewrite Ed. by destruct (is_empty policy).
    + left. split; [done|]. by exists x.
  - destruct (cs_bm_Tinkerbell x) as [k|] eqn:Ek.
    + destruct (ps_bm_Tinkerbell v) as [k'|] eqn:Ek'; [|right; split; [done|by exists x, v]].
      split; [intros g Hg; by destruct g|done| |unfold_set; rewrite Ev; cbn; by rewrite Ek'].
      eexists _, _. split; [exact Ev|]. split; [done|]. left. cbn. by rewrite Ek'.
    + split; [done|done| |unfold_set; rewrite Ev, Ex; by rewrite Ek].
      exists v, x. split_and!; [done|done|]. right. cbn. by rewrite Ek.
  - destruct (is_empty _ && _) eqn:Ec; [|solve_set Ev; cbn in Ec; by rewrite Ec].
    right. split; [done|]. apply andb_true_iff in Ec as [Ef%is_empty_spec Ed%bool_decide_eq_true].
    exists x, v. split_and!; try done. cbn in Ef. by destruct (ps_os_IsCustomizable v).
Qed.

(** A specification in which the provider comes first still has it first. *)
Lemma credentials_set_first preset dc c c' f :
  List.find (in_cloud c) cloud_order = Some f -> credentials_set preset dc c c' f ->
  List.find (in_cloud c') cloud_order = Some f.
Proof.
  intros Hf [Hrest _ (v & x & _ & Hx & _) _].
  assert (forall g, in_cloud c' g = in_cloud c g) as H.
  { intros g. unfold in_cloud. destruct (decide (g = f)) as [->|Hne]; [|by rewrite Hrest].
    rewrite Hx. apply List_find_some in Hf as [_ Hf]. by unfold in_cloud in Hf. }
  rewrite <- Hf. clear -H. induction cloud_order as [|g l IH]; [done|]. cbn [List.find]. by rewrite H, IH.
Qed.

Context {W : Type} {API : KubeAPI W} {ST : Store W} {PRESETS : PresetProvider W} {PL : PresetProviderLaws W}.
Implicit Types w : W.

End credentials_proofs.

(** ** A concrete run *)

(** alice puts the credentials of the preset of p1 into a request that has its own. *)
Definition aliceInfo : UserInfo := MkUserInfo "alice@example.com" [] ∅ true false.
Definition bobInfo : UserInfo := MkUserInfo "bob@example.com" ["editors-p1"] ∅ false false.
Definition requestCloud : CloudSpec :=
  MkCloudSpec "dc1" "openstack" None None
    (Some (MkOpenstackCloud "mallory" "guess" "" "" "" false "" "" "sub" "net" "" "" "" "" None None)) None None None None None
    None None None None None None None None.
Definition floatingDatacenter : DatacenterDefaults := MkDatacenterDefaults (Some true) None.

