(* ===== verification/QuotaTypes.v ===== *)
(** The types of resource quotas: the quota of api/v2/types.go, the sizes of nodes
    of api/v1/types.go, and the requests of ee/resource-quota/handler.go. *)
From S2P Require Export GoFloat ApiTypes.

(** ** api/v2/types.go *)

Record ApiAcceleratorQuota := MkApiAcceleratorQuota {
  apiacc_Provider : string;
  apiacc_Resources : gmap string string }.

Record ApiQuota := MkApiQuota {
  apiquota_CPU : option Z;
  apiquota_Memory : option float;
  apiquota_Storage : option float;
  apiquota_Accelerators : option (list ApiAcceleratorQuota);
  apiquota_EnableAcceleratorAccounting : option bool }.

Record ApiAccountingBlocker := MkApiAccountingBlocker {
  apiblocker_Type : string;
  apiblocker_Message : string;
  apiblocker_SeedName : string;
  apiblocker_ClusterName : string;
  apiblocker_Count : Z }.

Record ApiAccountingStatus := MkApiAccountingStatus {
  apiaccounting_ActivationPhase : string;
  apiaccounting_ObservedAccountingRevision : string;
  apiaccounting_ObservedQuotaDigest : string;
  apiaccounting_ObservedAt : option time;
  apiaccounting_LegacyMachinesWithoutFootprint : Z;
  apiaccounting_MachinesWithInvalidFootprint : Z;
  apiaccounting_Ready : bool;
  apiaccounting_Blockers : list ApiAccountingBlocker }.

Record ApiQuotaStatus := MkApiQuotaStatus {
  apiqs_GlobalUsage : ApiQuota;
  apiqs_LocalUsage : ApiQuota;
  apiqs_GlobalAcceleratorAccounting : option ApiAccountingStatus }.

Record ApiResourceQuota := MkApiResourceQuota {
  apirq_Name : string;
  apirq_SubjectName : string;
  apirq_SubjectKind : string;
  apirq_SubjectHumanReadableName : string;
  apirq_IsDefault : bool;
  apirq_AcceleratorAccountingEnabled : bool;
  apirq_Quota : ApiQuota;
  apirq_Status : ApiQuotaStatus }.

Record ResourceQuotaUpdateCalculation := MkCalculation {
  calc_ResourceQuota : ApiResourceQuota;
  calc_CalculatedQuota : ApiQuota;
  calc_Message : string }.

Definition noApiQuota : ApiQuota := MkApiQuota None None None None None.

(** ** api/v1/types.go: what a node of each provider has *)

Record AlibabaInstanceType := MkAlibabaInstanceType {
  alibaba_ID : string;
  alibaba_CPUCoreCount : Z;
  alibaba_GPUCoreCount : Z;
  alibaba_MemorySize : float }.

Record AnexiaDiskConfig := MkAnexiaDiskConfig {
  anexiaDisk_Size : Z;
  anexiaDisk_PerformanceType : option string }.
Record AnexiaNodeSpec := MkAnexiaNodeSpec {
  anexia_VlanID : string;
  anexia_TemplateID : string;
  anexia_Template : string;
  anexia_TemplateBuild : string;
  anexia_CPUs : Z;
  anexia_Memory : Z;
  anexia_DiskSize : option Z;
  anexia_Disks : list AnexiaDiskConfig }.

Record AWSSize := MkAWSSize {
  aws_Name : string;
  aws_PrettyName : string;
  aws_Memory : float;      (* float32 *)
  aws_VCPUs : Z;
  aws_GPUs : Z;
  aws_Price : float;
  aws_Architecture : string }.

Record AzureSize := MkAzureSize {
  azure_Name : string;
  azure_NumberOfCores : Z;
  azure_NumberOfGPUs : Z;
  azure_OsDiskSizeInMB : Z;
  azure_ResourceDiskSizeInMB : Z;
  azure_MemoryInMB : Z;
  azure_MaxDataDiskCount : Z;
  azure_AcceleratedNetworkingEnabled : bool }.

Record DigitaloceanSize := MkDigitaloceanSize {
  do_Slug : string;
  do_Available : bool;
  do_Transfer : float;
  do_PriceMonthly : float;
  do_PriceHourly : float;
  do_Memory : Z;
  do_VCPUs : Z;
  do_Disk : Z;
  do_Regions : list string }.

Record GCPMachineAccelerator := MkGCPMachineAccelerator {
  gcp_GuestAcceleratorType : string;
  gcp_GuestAcceleratorCount : Z }.
Record GCPMachineSize := MkGCPMachineSize {
  gcp_Name : string;
  gcp_Description : string;
  gcp_Memory : Z;
  gcp_VCPUs : Z;
  gcp_Accelerators : list GCPMachineAccelerator }.

Record HetznerSize := MkHetznerSize {
  hetzner_ID : Z;
  hetzner_Name : string;
  hetzner_Description : string;
  hetzner_Cores : Z;
  hetzner_Memory : float;  (* float32 *)
  hetzner_Disk : Z }.

Record SecondaryDisks := MkSecondaryDisks {
  secondary_Size : string;
  secondary_StorageClassName : string }.
Record KubevirtNodeSize := MkKubevirtNodeSize {
  kubevirt_CPUs : string;
  kubevirt_Memory : string;
  kubevirt_PrimaryDiskSize : string;
  kubevirt_SecondaryDisks : list SecondaryDisks;
  kubevirt_Accelerators : gmap string string }.

Record NutanixNodeSpec := MkNutanixNodeSpec {
  nutanix_SubnetName : string;
  nutanix_ImageName : string;
  nutanix_Categories : gmap string string;
  nutanix_CPUs : Z;
  nutanix_CPUCores : option Z;
  nutanix_CPUPassthrough : option bool;
  nutanix_MemoryMB : Z;
  nutanix_DiskSize : option Z }.

Record OpenstackSize := MkOpenstackSize {
  openstack_Slug : string;
  openstack_Memory : Z;
  openstack_VCPUs : Z;
  openstack_Disk : Z;
  openstack_Swap : Z;
  openstack_Region : string;
  openstack_IsPublic : bool }.

Record VSphereTag := MkVSphereTag {
  vspheretag_Name : string;
  vspheretag_ID : string;
  vspheretag_Description : string;
  vspheretag_CategoryID : string }.
Record VSphereNodeSpec := MkVSphereNodeSpec {
  vsphere_CPUs : Z;
  vsphere_Memory : Z;
  vsphere_DiskSizeGB : option Z;
  vsphere_Template : string;
  vsphere_Tags : list VSphereTag;
  vsphere_VMAntiAffinity : option bool;
  vsphere_VMGroup : string }.

(** The type of [IPAllocationMode] is a string of the machine-controller SDK. *)
Record VMwareCloudDirectorNodeSpec := MkVMwareCloudDirectorNodeSpec {
  vcd_CPUs : Z;
  vcd_CPUCores : Z;
  vcd_MemoryMB : Z;
  vcd_DiskSizeGB : option Z;
  vcd_DiskIOPS : option Z;
  vcd_Template : string;
  vcd_Catalog : string;
  vcd_StorageProfile : string;
  vcd_IPAllocationMode : string;
  vcd_VApp : string;
  vcd_Network : string;
  vcd_AdditionalNetworks : list string;
  vcd_PlacementPolicy : option string;
  vcd_SizingPolicy : option string;
  vcd_Metadata : gmap string string }.

(** ** The requests *)

Record ProviderNodeTemplate := MkNodeTemplate {
  tmpl_DiskSizeGB : Z;
  tmpl_AlibabaInstanceType : option AlibabaInstanceType;
  tmpl_AnexiaNodeSpec : option AnexiaNodeSpec;
  tmpl_AWSSize : option AWSSize;
  tmpl_AzureSize : option AzureSize;
  tmpl_DOSize : option DigitaloceanSize;
  tmpl_GCPSize : option GCPMachineSize;
  tmpl_HetznerSize : option HetznerSize;
  tmpl_KubevirtNodeSize : option KubevirtNodeSize;
  tmpl_NutanixNodeSpec : option NutanixNodeSpec;
  tmpl_OpenstackSize : option OpenstackSize;
  tmpl_VMDirectorNodeSpec : option VMwareCloudDirectorNodeSpec;
  tmpl_VSphereNodeSpec : option VSphereNodeSpec }.

Record ReplacedResources := MkReplacedResources {
  replaced_Replicas : Z;
  replaced_Template : ProviderNodeTemplate }.

Record calculateQuotaReq := MkCalculateReq {
  calcreq_ProjectID : string;
  calcreq_Replicas : Z;
  calcreq_ReplacedResources : option ReplacedResources;
  calcreq_Template : ProviderNodeTemplate }.

Record listResourceQuotasReq := MkListQuotasReq {
  listquotas_SubjectName : string;
  listquotas_SubjectKind : string;
  listquotas_Accumulate : bool }.

Record createResourceQuotaReq := MkCreateQuotaReq {
  createquota_SubjectName : string;
  createquota_SubjectKind : string;
  createquota_Quota : ApiQuota }.

Record putResourceQuotaReq := MkPutQuotaReq {
  putquota_Name : string;
  putquota_Body : ApiQuota }.
