(* ===== verification/Quantities.v ===== *)
(** Quantities of resources: the arithmetic of resource.Quantity and of the node
    capacities is not under src/, it is the classes [Quantities] and
    [NodeCapacities]; the conversions between stored quotas and those of the API
    are those of api/v2/convert.go. *)
From S2P Require Export QuotaTypes MapRange.
From stdpp Require Import pretty.
From Stdlib Require Import SpecFloat Ascii.

(** ** k8s.io/apimachinery/pkg/api/resource *)

Class Quantities := {
  quantity_Add : Quantity -> Quantity -> Quantity;
  quantity_Sub : Quantity -> Quantity -> Quantity;
  quantity_Cmp : Quantity -> Quantity -> Z;
  quantity_Sign : Quantity -> Z;
  quantity_Set : Quantity -> Z -> Quantity;
  quantity_Value : Quantity -> Z;
  quantity_IsZero : Quantity -> bool;
  quantity_String : Quantity -> string;
  NewQuantity : Z -> QuantityFormat -> Quantity;
  ParseQuantity : string -> result error Quantity }.

Definition nano : Z := 1000000000.
(** [resource.Quantity{}]. *)
Definition zeroQuantity : Quantity := MkQuantity 0 FormatUnset.

(** Quantities add, subtract and compare as numbers. *)
Class QuantitiesLaws (Q : Quantities) : Prop := {
  quantity_Add_nanos a b : quantity_nanos (quantity_Add a b) = (quantity_nanos a + quantity_nanos b)%Z;
  quantity_Sub_nanos a b : quantity_nanos (quantity_Sub a b) = (quantity_nanos a - quantity_nanos b)%Z;
  quantity_Cmp_nanos a b : (0 <? quantity_Cmp a b)%Z = (quantity_nanos b <? quantity_nanos a)%Z;
  quantity_Sign_nanos a : (quantity_Sign a <? 0)%Z = (quantity_nanos a <? 0)%Z;
  quantity_Set_nanos a v : quantity_nanos (quantity_Set a v) = (v * nano)%Z;
  quantity_IsZero_nanos a : quantity_IsZero a = bool_decide (quantity_nanos a = 0%Z);
  NewQuantity_nanos v f : NewQuantity v f = MkQuantity (v * nano) f;
  ParseQuantity_no_panic s : ParseQuantity s <> Panic }.

(** [return fmt.Errorf(prefix + "%w", err)] when [err] is not nil. *)
Definition wrapErr {A} (prefix : string) (r : result error A) : result error A :=
  match r with Err err => Err (EWrap prefix err) | _ => r end.

(** ** api/v2/convert.go *)

Section convert.
Context {Q : Quantities} {R : MapRange}.

Fixpoint exponent_of (i : Z) (units : list string) (unit : string) : Z :=
  match units with
  | [] => 0
  | u :: units => if bool_decide (u = unit) then i else exponent_of (i + 1) units unit
  end.

Definition TreatDecimalAsBinary (q : Quantity) : Quantity :=
  match sscanf_int_word (quantity_String q) with
  | None => q
  | Some (value, unit) =>
      let exponent := exponent_of 1 ["K"; "M"; "G"; "T"] unit in
      if (exponent =? 0)%Z then q
      else NewQuantity (int64 (value * 1024 ^ exponent)) BinarySI
  end.

Definition bytesPerGiB : Z := 1024 * 1024 * 1024.

(** Bytes as GiB, rounded to two places. *)
Definition in_GiB (q : Quantity) : float :=
  let memory := float64_div (float64_of_int (quantity_Value (TreatDecimalAsBinary q))) (float64_of_int bytesPerGiB) in
  float64_div (math_Round (float64_mul memory (float64_of_int 100))) (float64_of_int 100).

Definition ConvertToAPIQuota (resourceDetails : ResourceDetails) : ApiQuota :=
  {| apiquota_CPU := quantity_Value <$> rd_CPU resourceDetails;
     apiquota_Memory :=
       match rd_Memory resourceDetails with
       | Some memory => if quantity_IsZero memory then None else Some (in_GiB memory)
       | None => None
       end;
     apiquota_Storage :=
       match rd_Storage resourceDetails with
       | Some storage => if quantity_IsZero storage then None else Some (in_GiB storage)
       | None => None
       end;
     apiquota_Accelerators :=
       match rd_Accelerators resourceDetails with
       | [] => None
       | accelerators =>
           Some ((fun accelerator => MkApiAcceleratorQuota (accelerator_Provider accelerator)
                    (quantity_String <$> accelerator_Resources accelerator)) <$> accelerators)
       end;
     apiquota_EnableAcceleratorAccounting := None |}.

Definition ConvertToAPIGlobalAcceleratorAccountingStatus (status : option AccountingStatus)
    : option ApiAccountingStatus :=
  match status with
  | None => None
  | Some status =>
      Some {| apiaccounting_ActivationPhase := accounting_ActivationPhase status;
              apiaccounting_ObservedAccountingRevision := accounting_ObservedAccountingRevision status;
              apiaccounting_ObservedQuotaDigest := accounting_ObservedQuotaDigest status;
              apiaccounting_ObservedAt :=
                if time_IsZero (accounting_ObservedAt status) then None else Some (accounting_ObservedAt status);
              apiaccounting_LegacyMachinesWithoutFootprint := accounting_LegacyMachinesWithoutFootprint status;
              apiaccounting_MachinesWithInvalidFootprint := accounting_MachinesWithInvalidFootprint status;
              apiaccounting_Ready := accounting_Ready status;
              apiaccounting_Blockers :=
                (fun blocker => {| apiblocker_Type := blocker_Type blocker;
                                   apiblocker_Message := blocker_Message blocker;
                                   apiblocker_SeedName := blocker_SeedName blocker;
                                   apiblocker_ClusterName := blocker_ClusterName blocker;
                                   apiblocker_Count := blocker_Count blocker |})
                <$> accounting_Blockers status |}
  end.

(** The quantity of a field that is set. *)
Definition parse_field (what : string) (text : option string) : result error (option Quantity) :=
  match text with
  | None => Ok None
  | Some text => q ← wrapErr ("error parsing quota " +:+ what +:+ " ") (ParseQuantity text); Ok (Some q)
  end.

Definition ConvertToCRDAccelerator (accelerator : ApiAcceleratorQuota) : result error AcceleratorQuota :=
  resources ← collect (fun '(resourceName, value) =>
      quantity ← wrapErr ("error parsing accelerator quota " +:+ quote (apiacc_Provider accelerator) +:+
                            " resource " +:+ quote resourceName +:+ ": ") (ParseQuantity value);
      Ok (resourceName, quantity)) (map_range (apiacc_Resources accelerator));
  Ok (MkAcceleratorQuota (apiacc_Provider accelerator) (list_to_map resources)).

Definition ConvertToCRDQuota (quota : ApiQuota) : result error ResourceDetails :=
  cpu ← parse_field "CPU" (pretty <$> apiquota_CPU quota);
  mem ← parse_field "Memory" ((fun memory => format_f memory +:+ "Gi") <$> apiquota_Memory quota);
  storage ← parse_field "Storage" ((fun storage => format_f storage +:+ "Gi") <$> apiquota_Storage quota);
  accelerators ← collect ConvertToCRDAccelerator (default [] (apiquota_Accelerators quota));
  Ok (MkResourceDetails cpu mem storage accelerators).
End convert.

(** ** Concrete quantities, for the witnesses *)

Definition decimal_units : list (Z * string) :=
  [(10 ^ 27, "E"); (10 ^ 24, "P"); (10 ^ 21, "T"); (10 ^ 18, "G"); (10 ^ 15, "M"); (10 ^ 12, "k"); (10 ^ 9, "");
   (10 ^ 6, "m"); (10 ^ 3, "u"); (1, "n")]%Z.
Definition binary_units : list (Z * string) :=
  [(2 ^ 60 * nano, "Ei"); (2 ^ 50 * nano, "Pi"); (2 ^ 40 * nano, "Ti"); (2 ^ 30 * nano, "Gi"); (2 ^ 20 * nano, "Mi");
   (2 ^ 10 * nano, "Ki"); (nano, "")]%Z.

(** The largest unit of which the quantity is a multiple. *)
Definition ref_String (q : Quantity) : string :=
  let n := quantity_nanos q in
  if (n =? 0)%Z then "0" else
  let units := if decide (quantity_Format q = BinarySI) then binary_units else decimal_units in
  match List.find (fun u => n mod u.1 =? 0)%Z units with
  | Some (u, suffix) => pretty (n / u)%Z +:+ suffix
  | None => ""
  end.

Definition ref_Parse (s : string) : result error Quantity :=
  let invalid := Err (ENew "quantities must match the regular expression") in
  let '(neg, s) := split_sign s in
  let '(whole, s) := take_digits s in
  let '(frac, suffix) :=
    match s with
    | String "."%char s' => take_digits s'
    | _ => (EmptyString, s)
    end in
  let scaled format (u : Z) :=
    match read_unsigned (whole +:+ frac) with
    | Some n =>
        let n := (n * u / 10 ^ Z.of_nat (String.length frac))%Z in
        Ok (MkQuantity (if neg then - n else n)%Z format)
    | None => invalid
    end in
  match List.find (fun u => bool_decide (u.2 = suffix)) decimal_units with
  | Some (u, _) => scaled DecimalSI u
  | None =>
      match List.find (fun u => bool_decide (u.2 = suffix)) binary_units with
      | Some (u, _) => scaled BinarySI u
      | None => invalid
      end
  end.

Definition refQuantities : Quantities := {|
  quantity_Add a b := MkQuantity (quantity_nanos a + quantity_nanos b)
    (if (quantity_nanos a =? 0)%Z then quantity_Format b else quantity_Format a);
  quantity_Sub a b := MkQuantity (quantity_nanos a - quantity_nanos b)
    (if (quantity_nanos a =? 0)%Z then quantity_Format b else quantity_Format a);
  quantity_Cmp a b := Z.sgn (quantity_nanos a - quantity_nanos b);
  quantity_Sign a := Z.sgn (quantity_nanos a);
  quantity_Set a v := MkQuantity (v * nano) (quantity_Format a);
  quantity_Value a := (- ((- quantity_nanos a) / nano))%Z;
  quantity_IsZero a := bool_decide (quantity_nanos a = 0%Z);
  quantity_String := ref_String;
  NewQuantity v f := MkQuantity (v * nano) f;
  ParseQuantity := ref_Parse |}.
Lemma wrapErr_no_panic {A} prefix (r : result error A) : r <> Panic -> wrapErr prefix r <> Panic.
Proof. by destruct r. Qed.

Lemma refQuantities_laws : QuantitiesLaws refQuantities.
Proof.
  split; cbn; try done; intros.
  - destruct (Z.sgn_spec (quantity_nanos a - quantity_nanos b)) as [[? ->]|[[? ->]|[? ->]]]; lia.
  - destruct (Z.sgn_spec (quantity_nanos a)) as [[? ->]|[[? ->]|[? ->]]]; lia.
  - unfold ref_Parse. repeat (case_match; try done).
Qed.
