(* ===== verification/NodeResources.v ===== *)
(** What the nodes of a request need, and sums of accelerators: the functions of
    ee/resource-quota/handler.go between the sizes of api/v1 and the resources of
    a quota. *)
From S2P Require Export Quantities.
From stdpp Require Import pretty.
From Stdlib Require Import SpecFloat.

(** ** kubermaticprovider.NodeCapacity, kubermaticv1.NewResourceDetails *)

(** The fields that the code reads; pointers. *)
Record NodeCapacity := MkNodeCapacity {
  nc_CPUCores : option Quantity;
  nc_Memory : option Quantity;
  nc_Storage : option Quantity }.

Class NodeCapacities := {
  NewNodeCapacity : NodeCapacity;
  WithCPUCount : Z -> NodeCapacity -> NodeCapacity;
  WithMemory : Z -> string -> NodeCapacity -> result error NodeCapacity;
  WithStorage : Z -> string -> NodeCapacity -> result error NodeCapacity;
  NewResourceDetails : Quantity -> Quantity -> Quantity -> ResourceDetails;
  KubevirtCloudProvider : string }.

Definition UnitMebi : string := "Mi".
Definition UnitGibi : string := "Gi".
Definition unit_bytes (unit : string) : option Z :=
  if bool_decide (unit = UnitMebi) then Some (2 ^ 20)%Z
  else if bool_decide (unit = UnitGibi) then Some (2 ^ 30)%Z else None.

(** A capacity is set to a number of cores, or of units. *)
Class NodeCapacitiesLaws (N : NodeCapacities) : Prop := {
  WithCPUCount_spec n nc : exists q, quantity_nanos q = (n * nano)%Z /\
    WithCPUCount n nc = MkNodeCapacity (Some q) (nc_Memory nc) (nc_Storage nc);
  WithMemory_spec n unit bytes nc : unit_bytes unit = Some bytes ->
    exists q, quantity_nanos q = (n * bytes * nano)%Z /\
      WithMemory n unit nc = Ok (MkNodeCapacity (nc_CPUCores nc) (Some q) (nc_Storage nc));
  WithStorage_spec n unit bytes nc : unit_bytes unit = Some bytes ->
    exists q, quantity_nanos q = (n * bytes * nano)%Z /\
      WithStorage n unit nc = Ok (MkNodeCapacity (nc_CPUCores nc) (nc_Memory nc) (Some q));
  NewResourceDetails_spec cpu memory storage :
    NewResourceDetails cpu memory storage = MkResourceDetails (Some cpu) (Some memory) (Some storage) [] }.

Section node_resources.
Context {Q : Quantities} {R : MapRange} {N : NodeCapacities} {FP : FloatPlatform}.

Definition getAlibabaResourceDetails (disk : Z) (size : AlibabaInstanceType) (nc : NodeCapacity) : result error NodeCapacity :=
  let nc := WithCPUCount (alibaba_CPUCoreCount size) nc in
  nc ← WithMemory (int_of_float (alibaba_MemorySize size)) UnitGibi nc;
  WithStorage disk UnitGibi nc.

Definition getAnexiaResourceDetails (spec : AnexiaNodeSpec) (nc : NodeCapacity) : result error NodeCapacity :=
  let nc := WithCPUCount (anexia_CPUs spec) nc in
  nc ← WithMemory (anexia_Memory spec) UnitMebi nc;
  let diskSize :=
    match anexia_DiskSize spec with
    | Some diskSize => diskSize
    | None => foldl (fun diskSize disk => int64 (diskSize + anexiaDisk_Size disk)) 0%Z (anexia_Disks spec)
    end in
  WithStorage diskSize UnitGibi nc.

Definition getAWSResourceDetails (disk : Z) (size : AWSSize) (nc : NodeCapacity) : result error NodeCapacity :=
  let nc := WithCPUCount (aws_VCPUs size) nc in
  let mi := int_of_float (math_Ceil (float64_mul (float64_of_float32 (aws_Memory size)) (float64_of_int 1024))) in
  nc ← WithMemory mi UnitMebi nc;
  WithStorage disk UnitGibi nc.

Definition getAzureResourceDetails (size : AzureSize) (nc : NodeCapacity) : result error NodeCapacity :=
  let nc := WithCPUCount (azure_NumberOfCores size) nc in
  nc ← WithMemory (azure_MemoryInMB size) UnitMebi nc;
  WithStorage (int32 (azure_ResourceDiskSizeInMB size + azure_OsDiskSizeInMB size)) UnitMebi nc.

Definition getDOResourceDetails (size : DigitaloceanSize) (nc : NodeCapacity) : result error NodeCapacity :=
  let nc := WithCPUCount (do_VCPUs size) nc in
  nc ← WithMemory (do_Memory size) UnitMebi nc;
  WithStorage (do_Disk size) UnitGibi nc.

Definition getGCPResourceDetails (disk : Z) (size : GCPMachineSize) (nc : NodeCapacity) : result error NodeCapacity :=
  let nc := WithCPUCount (gcp_VCPUs size) nc in
  nc ← WithMemory (gcp_Memory size) UnitMebi nc;
  WithStorage disk UnitGibi nc.

Definition getHetznerResourceDetails (size : HetznerSize) (nc : NodeCapacity) : result error NodeCapacity :=
  let nc := WithCPUCount (hetzner_Cores size) nc in
  nc ← WithMemory (int_of_float (hetzner_Memory size)) UnitGibi nc;
  WithStorage (hetzner_Disk size) UnitGibi nc.

(** [if _, err := strconv.Atoi(s); err == nil { s += unit }]. *)
Definition with_default_unit (s unit : string) : string :=
  match ParseInt s with inr _ => s +:+ unit | inl _ => s end.

Definition parse_node_quantity (what : string) (s : string) (shown : string) : result error Quantity :=
  wrapErr (what +:+ quote shown +:+ " to resource quantity: ") (ParseQuantity s).

(** The capacity, and the accelerators of the node. *)
Definition getKubevirtResourceDetails (size : KubevirtNodeSize) (nc : NodeCapacity)
    : result error (NodeCapacity * gmap string Quantity) :=
  match ParseInt (kubevirt_CPUs size) with
  | inl err => Err (ENew ("error converting kubevirt node size cpus " +:+ quote (kubevirt_CPUs size) +:+ " to int: " +:+
                     atoi_error (kubevirt_CPUs size) err))
  | inr cpus =>
      let nc := WithCPUCount cpus nc in
      (* Instance types carry their own unit, while custom resources are submitted as a bare number of mebibytes. *)
      let nodeMemory := with_default_unit (kubevirt_Memory size) UnitMebi in
      memory ← parse_node_quantity "error parsing kubevirt node memory " nodeMemory (kubevirt_Memory size);
      let primaryDiskSize := with_default_unit (kubevirt_PrimaryDiskSize size) UnitGibi in
      storage ← parse_node_quantity "failed to parse kubevirt node storage " primaryDiskSize (kubevirt_PrimaryDiskSize size);
      (* Add all secondary disks *)
      secondaryStorages ← collect (fun d =>
          parse_node_quantity "failed to parse kubevirt secondary node storage "
            (with_default_unit (secondary_Size d) UnitGibi) (secondary_Size d)) (kubevirt_SecondaryDisks size);
      let storage := foldl quantity_Add storage secondaryStorages in
      accelerators ← collect (fun '(deviceName, value) =>
          quantity ← wrapErr ("error parsing kubevirt node accelerator " +:+ quote deviceName +:+ " quantity " +:+
                                quote value +:+ ": ") (ParseQuantity value);
          Ok (deviceName, quantity)) (map_range (kubevirt_Accelerators size));
      Ok (MkNodeCapacity (nc_CPUCores nc) (Some memory) (Some storage), list_to_map accelerators)
  end.

(** The storage of a specification in which the size of the disk is a pointer. *)
Definition optionalStorage (size : option Z) (nc : NodeCapacity) : result error NodeCapacity :=
  match size with
  | Some size => WithStorage size UnitGibi nc
  | None => Ok (MkNodeCapacity (nc_CPUCores nc) (nc_Memory nc) (Some zeroQuantity))
  end.

Definition getNutanixResourceDetails (spec : NutanixNodeSpec) (nc : NodeCapacity) : result error NodeCapacity :=
  let nc := WithCPUCount (nutanix_CPUs spec) nc in
  nc ← WithMemory (nutanix_MemoryMB spec) UnitMebi nc;
  optionalStorage (nutanix_DiskSize spec) nc.

Definition getOpenstackResourceDetails (disk : Z) (size : OpenstackSize) (nc : NodeCapacity) : result error NodeCapacity :=
  let nc := WithCPUCount (openstack_VCPUs size) nc in
  nc ← WithMemory (openstack_Memory size) UnitMebi nc;
  if (disk =? 0)%Z then WithStorage (openstack_Disk size) UnitGibi nc
  (* Setting custom disk size *)
  else WithStorage disk UnitGibi nc.

Definition getVSphereResourceDetails (spec : VSphereNodeSpec) (nc : NodeCapacity) : result error NodeCapacity :=
  let nc := WithCPUCount (vsphere_CPUs spec) nc in
  nc ← WithMemory (vsphere_Memory spec) UnitMebi nc;
  optionalStorage (vsphere_DiskSizeGB spec) nc.

Definition getVMCloudDirectorResourceDetails (spec : VMwareCloudDirectorNodeSpec) (nc : NodeCapacity)
    : result error NodeCapacity :=
  let nc := WithCPUCount (int64 (vcd_CPUCores spec * vcd_CPUs spec)) nc in
  nc ← WithMemory (vcd_MemoryMB spec) UnitMebi nc;
  optionalStorage (vcd_DiskSizeGB spec) nc.

(** The switch over the providers; only KubeVirt has accelerators. *)
Definition nodeCapacity (provider : ProviderNodeTemplate) : result error (NodeCapacity * gmap string Quantity) :=
  let nc := MkNodeCapacity (Some zeroQuantity) (Some zeroQuantity) (Some zeroQuantity) in
  let disk := tmpl_DiskSizeGB provider in
  let plain r := nc ← r; Ok (nc, ∅) in
  match tmpl_AlibabaInstanceType provider with Some s => plain (getAlibabaResourceDetails disk s nc) | None =>
  match tmpl_AnexiaNodeSpec provider with Some s => plain (getAnexiaResourceDetails s nc) | None =>
  match tmpl_AWSSize provider with Some s => plain (getAWSResourceDetails disk s nc) | None =>
  match tmpl_AzureSize provider with Some s => plain (getAzureResourceDetails s nc) | None =>
  match tmpl_DOSize provider with Some s => plain (getDOResourceDetails s nc) | None =>
  match tmpl_GCPSize provider with Some s => plain (getGCPResourceDetails disk s nc) | None =>
  match tmpl_HetznerSize provider with Some s => plain (getHetznerResourceDetails s nc) | None =>
  match tmpl_KubevirtNodeSize provider with Some s => getKubevirtResourceDetails s nc | None =>
  match tmpl_NutanixNodeSpec provider with Some s => plain (getNutanixResourceDetails s nc) | None =>
  match tmpl_OpenstackSize provider with Some s => plain (getOpenstackResourceDetails disk s nc) | None =>
  match tmpl_VSphereNodeSpec provider with Some s => plain (getVSphereResourceDetails s nc) | None =>
  match tmpl_VMDirectorNodeSpec provider with Some s => plain (getVMCloudDirectorResourceDetails s nc) | None =>
  Err (ENew ("provider set in request not supported: {" +:+ pretty disk +:+
    " <nil> <nil> <nil> <nil> <nil> <nil> <nil> <nil> <nil> <nil> <nil> <nil>}"))
  end end end end end end end end end end end end.

(** ** Sums of accelerators *)

(** The resources of a provider with the quantities of [accelerator] added. *)
Definition addResource (resources : gmap string Quantity) (entry : string * Quantity) : gmap string Quantity :=
  let '(resourceName, quantity) := entry in
  <[resourceName := match resources !! resourceName with
                    | Some current => quantity_Add current quantity
                    | None => quantity
                    end]> resources.

(** [totals] is a map of maps that the function changes in place. *)
Definition addAcceleratorQuantities (totals : gmap string (gmap string Quantity)) (accelerators : list AcceleratorQuota)
    : gmap string (gmap string Quantity) :=
  foldl (fun totals accelerator =>
    let resources := default ∅ (totals !! accelerator_Provider accelerator) in
    <[accelerator_Provider accelerator := foldl addResource resources (map_range (accelerator_Resources accelerator))]> totals)
    totals accelerators.

Definition subtractResource (resources : gmap string Quantity) (entry : string * Quantity) : gmap string Quantity :=
  let '(resourceName, quantity) := entry in
  match resources !! resourceName with
  | None => resources
  | Some current =>
      let current := quantity_Sub current quantity in
      let current := if (quantity_Sign current <? 0)%Z then quantity_Set current 0 else current in
      <[resourceName := current]> resources
  end.

Definition subtractAcceleratorQuantities (totals : gmap string (gmap string Quantity)) (accelerators : list AcceleratorQuota)
    : gmap string (gmap string Quantity) :=
  foldl (fun totals accelerator =>
    match totals !! accelerator_Provider accelerator with
    | None => totals
    | Some resources =>
        <[accelerator_Provider accelerator :=
            foldl subtractResource resources (map_range (accelerator_Resources accelerator))]> totals
    end) totals accelerators.

Definition acceleratorQuotasFromTotals (totals : gmap string (gmap string Quantity)) : list AcceleratorQuota :=
  (fun provider => MkAcceleratorQuota provider (default ∅ (totals !! provider))) <$> set_list (dom totals).

Definition acceleratorExceedsQuotaMessage (limits calculated : list AcceleratorQuota) : string :=
  let calculatedByProvider : gmap string (gmap string Quantity) :=
    foldl (fun m accelerator => <[accelerator_Provider accelerator := accelerator_Resources accelerator]> m) ∅ calculated in
  foldl (fun msg limit =>
    let calculatedResources := default ∅ (calculatedByProvider !! accelerator_Provider limit) in
    foldl (fun msg name =>
      let limitQuantity := default zeroQuantity (accelerator_Resources limit !! name) in
      let calculatedQuantity := default zeroQuantity (calculatedResources !! name) in
      if (0 <? quantity_Cmp calculatedQuantity limitQuantity)%Z
      then msg +:+ "Calculated accelerator " +:+ quote name +:+ " (" +:+ quantity_String calculatedQuantity +:+
             ") exceeds resource quota (" +:+ quantity_String limitQuantity +:+ ")" +:+ newline
      else msg) msg (set_list (dom (accelerator_Resources limit)))) "" limits.

(** ** The resources of all replicas *)

(** The body of the loop over the replicas; the pointers of the capacity are
    followed. *)
Definition addReplica (nc : NodeCapacity) (accelerators : gmap string Quantity)
    (sums : Quantity * Quantity * Quantity * gmap string Quantity)
    : result error (Quantity * Quantity * Quantity * gmap string Quantity) :=
  let '(cpu, mem, sto, totals) := sums in
  match nc_CPUCores nc, nc_Memory nc, nc_Storage nc with
  | Some cores, Some memory, Some storage =>
      Ok (quantity_Add cpu cores, quantity_Add mem memory, quantity_Add sto storage,
          foldl addResource totals (map_range accelerators))
  | _, _, _ => Panic
  end.

(** [for i := 0; i < replicas; i++]: a number of turns. *)
Fixpoint addReplicas (n : nat) (nc : NodeCapacity) (accelerators : gmap string Quantity)
    (sums : Quantity * Quantity * Quantity * gmap string Quantity)
    : result error (Quantity * Quantity * Quantity * gmap string Quantity) :=
  match n with
  | O => Ok sums
  | S n => sums ← addReplica nc accelerators sums; addReplicas n nc accelerators sums
  end.

Definition MapProviderNodeTmplToResourceDetails (provider : ProviderNodeTemplate) (replicas : Z) : result error ResourceDetails :=
  capacity ← nodeCapacity provider;
  let '(nc, accelerators) := (capacity : NodeCapacity * gmap string Quantity) in
  (* Multiply by replicas count *)
  sums ← addReplicas (Z.to_nat replicas) nc accelerators (zeroQuantity, zeroQuantity, zeroQuantity, ∅);
  let '(cpu, mem, sto, acceleratorTotals) := sums in
  let rd := NewResourceDetails cpu mem sto in
  if (0 <? size acceleratorTotals)%nat
  then Ok (MkResourceDetails (rd_CPU rd) (rd_Memory rd) (rd_Storage rd)
             [MkAcceleratorQuota KubevirtCloudProvider acceleratorTotals])
  else Ok rd.
End node_resources.
