(* ===== verification/Json.v ===== *)
(** The JSON encoding of a user's token blacklist: [json.Marshal] and
    [json.Unmarshal] of Go's encoding/json at the type []blacklistToken
    (provider/kubernetes/user.go), with the times of api/v1/time.go in the format
    RFC 3339 of Go's time package.  Decoding undoes encoding up to the precision
    of a second. *)
From S2P Require Export Providers.
From Stdlib Require Import Ascii.
Local Open Scope Z_scope.

Abbreviation chars := (list ascii).

(** ** The calendar: days since 0001-01-01, as package time counts them *)

Definition daysPer400Years : Z := 146097.
Definition daysPer100Years : Z := 36524.
Definition daysPer4Years : Z := 1461.

(** The year and the day of the year; the fourth century and the fourth year of
    a cycle are a day longer. *)
Definition absDate (d : Z) : Z * Z :=
  let n400 := d / daysPer400Years in
  let d := d - daysPer400Years * n400 in
  let n100 := d / daysPer100Years in
  let n100 := n100 - n100 / 4 in
  let d := d - daysPer100Years * n100 in
  let n4 := d / daysPer4Years in
  let d := d - daysPer4Years * n4 in
  let n1 := d / 365 in
  let n1 := n1 - n1 / 4 in
  (400 * n400 + 100 * n100 + 4 * n4 + n1 + 1, d - 365 * n1).

Definition daysBeforeYear (year : Z) : Z :=
  let y := year - 1 in
  daysPer400Years * (y / 400) + daysPer100Years * (y mod 400 / 100) +
  daysPer4Years * (y mod 100 / 4) + 365 * (y mod 4).

Definition isLeap (year : Z) : bool :=
  (year mod 4 =? 0) && (negb (year mod 100 =? 0) || (year mod 400 =? 0)).
Definition monthLengths (year : Z) : list Z :=
  [31; if isLeap year then 29 else 28; 31; 30; 31; 30; 31; 31; 30; 31; 30; 31].

(** The month, from [m], and the day of the month. *)
Fixpoint monthDay (lens : list Z) (m yday : Z) : Z * Z :=
  match lens with
  | [] => (m, yday + 1)
  | len :: lens' => if yday <? len then (m, yday + 1) else monthDay lens' (m + 1) (yday - len)
  end.

Definition daysBeforeMonth (year m : Z) : Z :=
  foldr Z.add 0 (take (Z.to_nat (m - 1)) (monthLengths year)).

(** ** RFC 3339 *)

Definition dig (n : Z) : ascii := ascii_of_nat (48 + Z.to_nat n).
Definition undig (c : ascii) : option Z :=
  let n := nat_of_ascii c in
  if ((48 <=? n) && (n <=? 57))%nat then Some (Z.of_nat (n - 48)) else None.

Definition print2 (n : Z) : chars := [dig (n / 10); dig (n mod 10)].
Definition print4 (n : Z) : chars := print2 (n / 100) ++ print2 (n mod 100).
Definition read2 (a b : ascii) : option Z :=
  x ← undig a; y ← undig b; Some (10 * x + y).

Definition second : Z := 1000000000.

(** [t.UTC().Format(time.RFC3339)]. *)
Definition formatRFC3339 (t : time) : chars :=
  let s := t / second in
  let yd := absDate (s / 86400) in
  let md := monthDay (monthLengths yd.1) 1 yd.2 in
  let sod := s mod 86400 in
  print4 yd.1 ++ ["-"%char] ++ print2 md.1 ++ ["-"%char] ++ print2 md.2 ++ ["T"%char] ++
  print2 (sod / 3600) ++ [":"%char] ++ print2 (sod mod 3600 / 60) ++ [":"%char] ++
  print2 (sod mod 60) ++ ["Z"%char].

(** The digits of a fraction of a second, in nanoseconds, and what follows. *)
Fixpoint readFraction (weight : Z) (l : chars) : Z * chars :=
  match l with
  | c :: l' => match undig c with
               | Some n => let r := readFraction (weight / 10) l' in (n * weight + r.1, r.2)
               | None => (0, l)
               end
  | [] => (0, [])
  end.

(** The offset of the zone in seconds; nothing may follow it. *)
Definition readZone (l : chars) : option Z :=
  match l with
  | ["Z"%char] => Some 0
  | [sign; h1; h2; ":"%char; m1; m2] =>
      h ← read2 h1 h2; m ← read2 m1 m2;
      if (h <=? 24) && (m <=? 59) then
        if bool_decide (sign = "+"%char) then Some (3600 * h + 60 * m) else
        if bool_decide (sign = "-"%char) then Some (- (3600 * h + 60 * m)) else None
      else None
  | _ => None
  end.

(** [time.Parse(time.RFC3339, str)]. *)
Definition parseRFC3339 (l : chars) : option time :=
  match l with
  | y1 :: y2 :: y3 :: y4 :: "-"%char :: m1 :: m2 :: "-"%char :: d1 :: d2 :: "T"%char ::
    h1 :: h2 :: ":"%char :: i1 :: i2 :: ":"%char :: s1 :: s2 :: rest =>
      yh ← read2 y1 y2; yl ← read2 y3 y4; m ← read2 m1 m2; d ← read2 d1 d2;
      h ← read2 h1 h2; i ← read2 i1 i2; s ← read2 s1 s2;
      let year := 100 * yh + yl in
      let frac := match rest with
                  | "."%char :: rest' => readFraction (second / 10) rest'
                  | _ => (0, rest)
                  end in
      zone ← readZone frac.2;
      let len := nth (Z.to_nat (m - 1)) (monthLengths year) 0 in
      if (1 <=? m) && (m <=? 12) && (1 <=? d) && (d <=? len) && (h <=? 23) && (i <=? 59) && (s <=? 59)
      then Some ((86400 * (daysBeforeYear year + daysBeforeMonth year m + d - 1) +
                  3600 * h + 60 * i + s - zone) * second + frac.1)
      else None
  | _ => None
  end.

(** ** JSON text *)

Inductive json :=
| JNull
| JBool (b : bool)
| JNumber (s : chars)
| JString (s : chars)
| JArray (l : list json)
| JObject (fields : list (chars * json)).

Definition dquoteC : ascii := ascii_of_nat 34.
Definition backslash : ascii := ascii_of_nat 92.

(** One byte of an encoded string; HTML characters are escaped too. *)
Definition escapeChar (c : ascii) : chars :=
  let n := nat_of_ascii c in
  if (n =? 34)%nat || (n =? 92)%nat then [backslash; c] else
  if (n =? 8)%nat then [backslash; "b"%char] else if (n =? 12)%nat then [backslash; "f"%char] else
  if (n =? 10)%nat then [backslash; "n"%char] else if (n =? 13)%nat then [backslash; "r"%char] else
  if (n =? 9)%nat then [backslash; "t"%char] else
  if (n <? 32)%nat || (n =? 60)%nat || (n =? 62)%nat || (n =? 38)%nat
  then [backslash; "u"%char; "0"%char; "0"%char; hex_digit (n / 16); hex_digit (n mod 16)]
  else [c].
Definition encodeString (s : chars) : chars := dquoteC :: (s ≫= escapeChar) ++ [dquoteC].

Definition unhex (c : ascii) : option Z :=
  let n := nat_of_ascii c in
  if ((48 <=? n) && (n <=? 57))%nat then Some (Z.of_nat (n - 48)) else
  if ((97 <=? n) && (n <=? 102))%nat then Some (Z.of_nat (n - 87)) else
  if ((65 <=? n) && (n <=? 70))%nat then Some (Z.of_nat (n - 55)) else None.

Definition byte (n : Z) : ascii := ascii_of_nat (Z.to_nat n).
(** The UTF-8 encoding of a code point. *)
Definition utf8 (n : Z) : chars :=
  if n <? 128 then [byte n] else
  if n <? 2048 then [byte (192 + n / 64); byte (128 + n mod 64)] else
  if n <? 65536 then [byte (224 + n / 4096); byte (128 + n / 64 mod 64); byte (128 + n mod 64)]
  else [byte (240 + n / 262144); byte (128 + n / 4096 mod 64); byte (128 + n / 64 mod 64);
        byte (128 + n mod 64)].

(** A string is read as bytes and escaped UTF-16 units; surrogates that do not
    pair become the replacement character. *)
Inductive unit16 := UByte (c : ascii) | UCode (n : Z).
Fixpoint joinUnits (l : list unit16) : chars :=
  match l with
  | [] => []
  | UByte c :: l' => c :: joinUnits l'
  | UCode n :: l' =>
      if (0xd800 <=? n) && (n <? 0xe000) then
        match l' with
        | UCode m :: l'' =>
            if (n <? 0xdc00) && (0xdc00 <=? m) && (m <? 0xe000)
            then utf8 ((n - 0xd800) * 1024 + (m - 0xdc00) + 65536) ++ joinUnits l''
            else utf8 0xfffd ++ joinUnits l'
        | _ => utf8 0xfffd ++ joinUnits l'
        end
      else utf8 n ++ joinUnits l'
  end.

Definition unescape (c : ascii) : option ascii :=
  let n := nat_of_ascii c in
  if (n =? 34)%nat || (n =? 92)%nat || (n =? 47)%nat then Some c else
  if bool_decide (c = "b"%char) then Some (ascii_of_nat 8) else
  if bool_decide (c = "f"%char) then Some (ascii_of_nat 12) else
  if bool_decide (c = "n"%char) then Some (ascii_of_nat 10) else
  if bool_decide (c = "r"%char) then Some (ascii_of_nat 13) else
  if bool_decide (c = "t"%char) then Some (ascii_of_nat 9) else None.

(** The body of a string, after the opening quote. *)
Fixpoint readString (l : chars) : option (list unit16 * chars) :=
  match l with
  | [] => None
  | c :: l1 =>
      if bool_decide (c = dquoteC) then Some ([], l1) else
      if bool_decide (c = backslash) then
        match l1 with
        | e :: l2 =>
            if bool_decide (e = "u"%char) then
              match l2 with
              | a :: b :: c :: d :: l3 =>
                  a ← unhex a; b ← unhex b; c ← unhex c; d ← unhex d;
                  r ← readString l3;
                  Some (UCode (4096 * a + 256 * b + 16 * c + d) :: r.1, r.2)
              | _ => None
              end
            else u ← unescape e; r ← readString l2; Some (UByte u :: r.1, r.2)
        | [] => None
        end
      else if (nat_of_ascii c <? 32)%nat then None
      else r ← readString l1; Some (UByte c :: r.1, r.2)
  end.

Fixpoint skipSpace (l : chars) : chars :=
  match l with
  | c :: l' => let n := nat_of_ascii c in
      if (n =? 32)%nat || (n =? 9)%nat || (n =? 10)%nat || (n =? 13)%nat then skipSpace l' else l
  | [] => []
  end.

Definition numberChar (c : ascii) : bool :=
  let n := nat_of_ascii c in
  ((48 <=? n) && (n <=? 57) || (n =? 43) || (n =? 45) || (n =? 46) || (n =? 69) || (n =? 101))%nat.
Fixpoint readNumber (l : chars) : chars * chars :=
  match l with
  | c :: l' => if numberChar c then let r := readNumber l' in (c :: r.1, r.2) else ([], l)
  | [] => ([], [])
  end.

Definition expect (c : ascii) (l : chars) : option chars :=
  match skipSpace l with
  | c' :: l' => if bool_decide (c = c') then Some l' else None
  | [] => None
  end.

(** Values, the rest of an array, the rest of an object. *)
Fixpoint readValue (fuel : nat) (l : chars) : option (json * chars) :=
  match fuel with
  | O => None
  | S fuel =>
      match skipSpace l with
      | "["%char :: l1 =>
          match skipSpace l1 with
          | "]"%char :: l2 => Some (JArray [], l2)
          | _ => r ← readElements fuel l1; Some (JArray r.1, r.2)
          end
      | "{"%char :: l1 =>
          match skipSpace l1 with
          | "}"%char :: l2 => Some (JObject [], l2)
          | _ => r ← readMembers fuel l1; Some (JObject r.1, r.2)
          end
      | "n"%char :: "u"%char :: "l"%char :: "l"%char :: l1 => Some (JNull, l1)
      | "t"%char :: "r"%char :: "u"%char :: "e"%char :: l1 => Some (JBool true, l1)
      | "f"%char :: "a"%char :: "l"%char :: "s"%char :: "e"%char :: l1 => Some (JBool false, l1)
      | c :: l1 =>
          if bool_decide (c = dquoteC)
          then r ← readString l1; Some (JString (joinUnits r.1), r.2)
          else match readNumber (c :: l1) with
               | ([], _) => None
               | (n, l2) => Some (JNumber n, l2)
               end
      | [] => None
      end
  end
with readElements (fuel : nat) (l : chars) : option (list json * chars) :=
  match fuel with
  | O => None
  | S fuel =>
      v ← readValue fuel l;
      match skipSpace v.2 with
      | "]"%char :: l1 => Some ([v.1], l1)
      | ","%char :: l1 => r ← readElements fuel l1; Some (v.1 :: r.1, r.2)
      | _ => None
      end
  end
with readMembers (fuel : nat) (l : chars) : option (list (chars * json) * chars) :=
  match fuel with
  | O => None
  | S fuel =>
      l1 ← expect dquoteC l;
      k ← readString l1;
      l2 ← expect ":"%char k.2;
      v ← readValue fuel l2;
      let field := (joinUnits k.1, v.1) in
      match skipSpace v.2 with
      | "}"%char :: l3 => Some ([field], l3)
      | ","%char :: l3 => r ← readMembers fuel l3; Some (field :: r.1, r.2)
      | _ => None
      end
  end.

(** The whole input; every step consumes a character, so its length is fuel
    enough. *)
Definition parseJson (l : chars) : option json :=
  r ← readValue (S (length l)) l;
  match skipSpace r.2 with [] => Some r.1 | _ => None end.

(** ** []blacklistToken *)

Record blacklistToken := MkBlacklistToken {
  blt_Token : string;
  blt_Expiry : time }.

(** api/v1/time.go *)
Definition Time_MarshalJSON (t : time) : chars := encodeString (formatRFC3339 t).
Definition Time_UnmarshalJSON (v : json) : option time :=
  match v with
  | JString s =>
      if bool_decide (s = String.list_ascii_of_string "0001-01-01T00:00:00Z") then Some zero_time
      else parseRFC3339 s
  | JNull => parseRFC3339 []
  | _ => None
  end.

Definition lit (s : string) : chars := String.list_ascii_of_string s.
Definition encodeKey (s : string) : chars := encodeString (lit s) ++ [":"%char].

Definition encodeToken (t : blacklistToken) : chars :=
  "{"%char :: encodeKey "token" ++ encodeString (lit (blt_Token t)) ++
  ","%char :: encodeKey "expiry" ++ Time_MarshalJSON (blt_Expiry t) ++ ["}"%char].

Fixpoint encodeElements (l : list blacklistToken) : chars :=
  match l with
  | [] => []
  | [t] => encodeToken t
  | t :: l' => encodeToken t ++ ","%char :: encodeElements l'
  end.

(** [json.Marshal(&blockedTokens)]. *)
Definition marshalTokens (l : list blacklistToken) : string :=
  String.string_of_list_ascii ("["%char :: encodeElements l ++ ["]"%char]).

Definition lowerChars (s : chars) : chars := lower_ascii <$> s.

(** A field sets the part of the struct its key names, whatever its case. *)
Definition setField (t : blacklistToken) (f : chars * json) : option blacklistToken :=
  if bool_decide (lowerChars f.1 = lit "token") then
    match f.2 with
    | JString s => Some (MkBlacklistToken (String.string_of_list_ascii s) (blt_Expiry t))
    | JNull => Some t
    | _ => None
    end
  else if bool_decide (lowerChars f.1 = lit "expiry") then
    e ← Time_UnmarshalJSON f.2; Some (MkBlacklistToken (blt_Token t) e)
  else Some t.

Definition decodeToken (v : json) : option blacklistToken :=
  match v with
  | JObject fields =>
      foldl (fun t f => t ← t; setField t f) (Some (MkBlacklistToken "" zero_time)) fields
  | JNull => Some (MkBlacklistToken "" zero_time)
  | _ => None
  end.

(** [json.Unmarshal(data, &blockedTokens)]. *)
Definition unmarshalTokens (data : string) : result error (list blacklistToken) :=
  match v ← parseJson (lit data);
        match v with
        | JArray l => mapM decodeToken l
        | JNull => Some []
        | _ => None
        end with
  | Some l => Ok l
  | None => Err (ENew "invalid JSON")
  end.

Example marshal_one :
  marshalTokens [MkBlacklistToken "a<b" 63745056000999999999]
  = "[{" +:+ dquote +:+ "token" +:+ dquote +:+ ":" +:+ dquote +:+ "a\u003cb" +:+ dquote +:+ "," +:+
    dquote +:+ "expiry" +:+ dquote +:+ ":" +:+ dquote +:+ "2021-01-01T00:00:00Z" +:+ dquote +:+ "}]".
Proof. vm_compute. reflexivity. Qed.
Example unmarshal_one :
  unmarshalTokens (marshalTokens [MkBlacklistToken "a<b" 63745056000999999999])
  = Ok [MkBlacklistToken "a<b" 63745056000000000000].
Proof. vm_compute. reflexivity. Qed.

(** ** What the encoding can carry *)

(** ASCII tokens, times of the years 1 to 9999; a precision of a second. *)
Definition ascii_char (c : ascii) : bool := (nat_of_ascii c <? 128)%nat.
Definition ascii_string (s : string) : bool := forallb ascii_char (lit s).
Definition max_time : time := 3652059 * 86400 * second.
Definition encodable (t : blacklistToken) : Prop :=
  ascii_string (blt_Token t) = true /\ 0 <= blt_Expiry t < max_time.
Definition blt_trunc (t : blacklistToken) : blacklistToken :=
  MkBlacklistToken (blt_Token t) (trunc_second (blt_Expiry t)).

(** ** The calendar *)

Ltac Zify.zify_post_hook ::= Z.to_euclidean_division_equations.

Definition yearLength (year : Z) : Z := foldr Z.add 0 (monthLengths year).

Lemma yearLength_eq year : yearLength year = if isLeap year then 366 else 365.
Proof. unfold yearLength, monthLengths. by destruct (isLeap year). Qed.

Lemma daysBeforeYear_cycles n400 n100 n4 n1 :
  0 <= n100 <= 3 -> 0 <= n4 <= 24 -> 0 <= n1 <= 3 ->
  daysBeforeYear (400 * n400 + 100 * n100 + 4 * n4 + n1 + 1)
  = daysPer400Years * n400 + daysPer100Years * n100 + daysPer4Years * n4 + 365 * n1.
Proof.
  intros H1 H2 H3. unfold daysBeforeYear.
  replace (400 * n400 + 100 * n100 + 4 * n4 + n1 + 1 - 1)
    with (400 * n400 + 100 * n100 + 4 * n4 + n1) by lia.
  set (y := 400 * n400 + 100 * n100 + 4 * n4 + n1).
  assert (y / 400 = n400) as -> by (unfold y; lia).
  assert (y mod 400 = 100 * n100 + 4 * n4 + n1) as -> by (unfold y; lia).
  assert ((100 * n100 + 4 * n4 + n1) / 100 = n100) as -> by lia.
  assert (y mod 100 = 4 * n4 + n1) as -> by (unfold y; lia).
  assert ((4 * n4 + n1) / 4 = n4) as -> by lia.
  assert (y mod 4 = n1) as -> by (unfold y; lia). lia.
Qed.

Lemma isLeap_cycles n400 n100 n4 n1 :
  0 <= n100 <= 3 -> 0 <= n4 <= 24 -> n1 = 3 -> (n4 = 24 -> n100 = 3) ->
  isLeap (400 * n400 + 100 * n100 + 4 * n4 + n1 + 1) = true.
Proof.
  intros H1 H2 -> H3. unfold isLeap. set (y := 400 * n400 + 100 * n100 + 4 * n4 + 3 + 1).
  assert (y mod 4 = 0) as -> by (unfold y; lia). cbn [Z.eqb andb].
  destruct (Z.eqb_spec (y mod 100) 0) as [E|E]; [|done].
  assert (y mod 400 = 0) as -> by (unfold y in *; lia). done.
Qed.

(** One digit of the mixed radix: the quotient [q], corrected at the end of the
    longer last period. *)
Lemma cycle_digit d len k :
  0 < len -> 0 <= d < k * len + len -> 1 <= k ->
  exists q, d / len = q /\ 0 <= q <= k /\ len * q <= d < len * q + len.
Proof.
  intros Hl Hd Hk. exists (d / len). split; [done|].
  pose proof (Z.div_mod d len ltac:(lia)) as E. pose proof (Z.mod_pos_bound d len Hl) as B.
  revert E B. generalize (d / len) (d mod len). intros q r E B. nia.
Qed.

Lemma absDate_digits d :
  0 <= d -> exists n400 n100 n4 n1 yd,
  absDate d = (400 * n400 + 100 * n100 + 4 * n4 + n1 + 1, yd) /\
  0 <= n400 /\ 0 <= n100 <= 3 /\ 0 <= n4 <= 24 /\ 0 <= n1 <= 3 /\
  (0 <= yd < 365 \/ yd = 365 /\ n1 = 3 /\ (n4 = 24 -> n100 = 3)) /\
  d = daysPer400Years * n400 + daysPer100Years * n100 + daysPer4Years * n4 + 365 * n1 + yd.
Proof.
  intros Hd. unfold absDate, daysPer400Years, daysPer100Years, daysPer4Years. cbn zeta.
  pose proof (Z.div_mod d 146097 ltac:(lia)) as E. pose proof (Z.mod_pos_bound d 146097 ltac:(lia)) as B.
  pose proof (Z.div_pos d 146097 Hd ltac:(lia)) as P.
  revert E B P. generalize (d / 146097) as n400. generalize (d mod 146097) as d1. intros d1 n400 E B P.
  replace (d - 146097 * n400) with d1 by lia.
  destruct (cycle_digit d1 36524 4) as (q & -> & Hq & Hq'); [lia|lia|lia|].
  assert (exists n100, q - q / 4 = n100 /\ 0 <= n100 <= 3 /\ (q <= 3 /\ n100 = q \/ q = 4 /\ n100 = 3))
    as (n100 & -> & H100 & Hq2) by (eexists; split; [done|]; lia).
  destruct (cycle_digit (d1 - 36524 * n100) 1461 24) as (n4 & -> & H4 & H4');
    [lia|lia| |]. { lia. }
  destruct (cycle_digit (d1 - 36524 * n100 - 1461 * n4) 365 4) as (p & -> & Hp & Hp'); [lia|lia|lia|].
  assert (exists n1, p - p / 4 = n1 /\ 0 <= n1 <= 3 /\ (p <= 3 /\ n1 = p \/ p = 4 /\ n1 = 3))
    as (n1 & -> & H1 & Hp2) by (eexists; split; [done|]; lia).
  exists n400, n100, n4, n1, (d1 - 36524 * n100 - 1461 * n4 - 365 * n1).
  split_and!; try lia. done.
Qed.

Lemma absDate_spec d :
  0 <= d -> let yd := absDate d in
  daysBeforeYear yd.1 + yd.2 = d /\ 0 <= yd.2 < yearLength yd.1 /\ 1 <= yd.1 /\
  (d < 3652059 -> yd.1 <= 9999).
Proof.
  intros Hd. destruct (absDate_digits d Hd) as (n400 & n100 & n4 & n1 & yd & -> & H400 & H100 & H4 & H1 & Hyd & Hsum).
  cbn [fst snd]. rewrite daysBeforeYear_cycles by done. rewrite yearLength_eq.
  split_and!; [lia|lia| |lia|unfold daysPer400Years, daysPer100Years, daysPer4Years in Hsum; lia].
  destruct Hyd as [?|(-> & Hn1 & Hd4)]; [by destruct (isLeap _); lia|].
  by rewrite isLeap_cycles.
Qed.

Lemma monthDay_spec lens m yday :
  0 <= yday < foldr Z.add 0 lens ->
  exists k, (k < length lens)%nat /\ (monthDay lens m yday).1 = m + Z.of_nat k /\
    foldr Z.add 0 (take k lens) + (monthDay lens m yday).2 - 1 = yday /\
    1 <= (monthDay lens m yday).2 <= nth k lens 0.
Proof.
  revert m yday. induction lens as [|len lens IH]; intros m yday; cbn [foldr monthDay]; [lia|].
  intros H. destruct (Z.ltb_spec yday len).
  - exists 0%nat. cbn. lia.
  - destruct (IH (m + 1) (yday - len)) as (k & Hk & Hm & Hs & Hd); [lia|].
    exists (S k). cbn [length take foldr nth]. lia.
Qed.

(** ** Digits and RFC 3339 *)

(** A decidable property of digits holds once it holds of the ten of them. *)
Lemma digit_all (test : Z -> bool) n :
  forallb test (seqZ 0 10) = true -> 0 <= n < 10 -> test n = true.
Proof.
  rewrite List.forallb_forall. intros H Hn. apply H.
  by rewrite <- list_elem_of_In, elem_of_seqZ.
Qed.

Lemma undig_dig n : 0 <= n < 10 -> undig (dig n) = Some n.
Proof.
  intros H. apply (digit_all (fun n => bool_decide (undig (dig n) = Some n))) in H; [|reflexivity].
  by apply bool_decide_eq_true in H.
Qed.

Lemma read2_print2 n : 0 <= n < 100 -> read2 (dig (n / 10)) (dig (n mod 10)) = Some n.
Proof.
  intros H. unfold read2. rewrite !undig_dig by lia. cbn. f_equal. lia.
Qed.

Lemma monthDay_year year yday :
  0 <= yday < yearLength year ->
  let md := monthDay (monthLengths year) 1 yday in
  1 <= md.1 <= 12 /\ 1 <= md.2 <= nth (Z.to_nat (md.1 - 1)) (monthLengths year) 0 /\
  daysBeforeMonth year md.1 + md.2 - 1 = yday.
Proof.
  intros H. destruct (monthDay_spec _ 1 _ H) as (k & Hk & Hm & Hs & Hd).
  cbn zeta. rewrite Hm. unfold daysBeforeMonth.
  replace (Z.to_nat (1 + Z.of_nat k - 1)) with k by lia. cbn in Hk. split_and!; lia.
Qed.

Lemma monthLengths_le year k : nth k (monthLengths year) 0 <= 31.
Proof.
  unfold monthLengths. do 12 (destruct k as [|k]; [cbn; try destruct (isLeap year); lia|]).
  by destruct k.
Qed.

(** The date and the time of day that a formatted time shows. *)
Lemma format_fields t :
  0 <= t < max_time -> exists y m d sod,
  formatRFC3339 t = print4 y ++ ["-"%char] ++ print2 m ++ ["-"%char] ++ print2 d ++ ["T"%char] ++
    print2 (sod / 3600) ++ [":"%char] ++ print2 (sod mod 3600 / 60) ++ [":"%char] ++
    print2 (sod mod 60) ++ ["Z"%char] /\
  1 <= y <= 9999 /\ 1 <= m <= 12 /\ 0 <= sod < 86400 /\
  1 <= d <= nth (Z.to_nat (m - 1)) (monthLengths y) 0 /\
  t / second = 86400 * (daysBeforeYear y + daysBeforeMonth y m + d - 1) + sod.
Proof.
  unfold max_time. intros Ht. unfold formatRFC3339. cbn zeta.
  set (s := t / second). assert (0 <= s < 3652059 * 86400) as Hs by (unfold s, second in *; lia).
  assert (0 <= s / 86400 < 3652059) as Hdays by lia.
  pose proof (absDate_spec (s / 86400) (proj1 Hdays)) as (Hd & Hy & Hy1 & Hy2).
  specialize (Hy2 (proj2 Hdays)). revert Hd Hy Hy1 Hy2.
  generalize (absDate (s / 86400)) as yd. intros [y yday]. cbn [fst snd]. intros Hd Hy Hy1 Hy2.
  pose proof (monthDay_year y yday Hy) as Hmd. cbn zeta in Hmd. revert Hmd.
  generalize (monthDay (monthLengths y) 1 yday) as md. intros [m d]. cbn [fst snd].
  intros (Hm & Hdd & Hsum). exists y, m, d, (s mod 86400).
  split_and!; try done; lia.
Qed.

Lemma parse_format t :
  0 <= t < max_time -> parseRFC3339 (formatRFC3339 t) = Some (trunc_second t).
Proof.
  intros Ht. destruct (format_fields t Ht) as (y & m & d & sod & -> & Hy & Hm & Hsod & Hd & Hs).
  pose proof (monthLengths_le y (Z.to_nat (m - 1))) as Hlen. unfold trunc_second. change 1000000000 with second. rewrite Hs.
  clear t Ht Hs. unfold print4, print2. cbn [app].
  unfold parseRFC3339. rewrite !read2_print2 by lia.
  cbn -[Z.add Z.mul Z.leb Z.sub second nth monthLengths].
  replace (100 * (y / 100) + y mod 100) with y by lia.
  repeat (rewrite (proj2 (Z.leb_le _ _)) by lia; cbn [andb]).
  rewrite Z.add_0_r, Z.sub_0_r. do 2 f_equal. lia.
Qed.

(** ** Strings *)

Definition unitOf (c : ascii) : unit16 :=
  let n := nat_of_ascii c in
  if ((n <? 32) && negb ((n =? 8) || (n =? 12) || (n =? 10) || (n =? 13) || (n =? 9)) ||
      (n =? 60) || (n =? 62) || (n =? 38))%nat then UCode (Z.of_nat n) else UByte c.

Lemma readString_escape c l :
  ascii_char c = true ->
  readString (escapeChar c ++ l) = (r ← readString l; Some (unitOf c :: r.1, r.2)).
Proof.
  destruct c as [[] [] [] [] [] [] [] []]; first [discriminate 1|intros _; reflexivity].
Qed.

Lemma joinUnits_unitOf c l :
  ascii_char c = true -> joinUnits (unitOf c :: l) = c :: joinUnits l.
Proof.
  destruct c as [[] [] [] [] [] [] [] []]; first [discriminate 1|intros _; reflexivity].
Qed.

Lemma readString_encoded s l :
  forallb ascii_char s = true ->
  readString ((s ≫= escapeChar) ++ dquoteC :: l) = Some (unitOf <$> s, l) /\
  joinUnits (unitOf <$> s) = s.
Proof.
  induction s as [|c s IH]; [done|]. cbn [forallb]. rewrite andb_true_iff. intros [Hc Hs].
  destruct (IH Hs) as [IH1 IH2].
  change ((c :: s) ≫= escapeChar) with (escapeChar c ++ (s ≫= escapeChar)).
  rewrite <- (assoc_L (++)), readString_escape, IH1 by done. split; [done|].
  rewrite fmap_cons, joinUnits_unitOf by done. by rewrite IH2.
Qed.

Lemma lit_of (s : chars) : lit (String.string_of_list_ascii s) = s.
Proof. apply String.list_ascii_of_string_of_list_ascii. Qed.
Lemma of_lit (s : string) : String.string_of_list_ascii (lit s) = s.
Proof. apply String.string_of_list_ascii_of_string. Qed.

(** Digits are ASCII. *)
Lemma ascii_dig n : 0 <= n < 10 -> ascii_char (dig n) = true.
Proof. by apply (digit_all (fun n => ascii_char (dig n))). Qed.

Lemma ascii_print2 n : 0 <= n < 100 -> forallb ascii_char (print2 n) = true.
Proof. intros H. unfold print2. cbn [forallb]. by rewrite !ascii_dig by lia. Qed.

Lemma ascii_format t : 0 <= t < max_time -> forallb ascii_char (formatRFC3339 t) = true.
Proof.
  intros Ht. destruct (format_fields t Ht) as (y & m & d & sod & -> & Hy & Hm & Hsod & Hd & _).
  pose proof (monthLengths_le y (Z.to_nat (m - 1))) as Hlen. unfold print4.
  rewrite !forallb_app, !ascii_print2 by lia. done.
Qed.

(** ** Values *)

Lemma expect_first c l : skipSpace (c :: l) = c :: l -> expect c (c :: l) = Some l.
Proof. intros H. unfold expect. rewrite H. by rewrite bool_decide_eq_true_2. Qed.

Lemma readValue_string fuel s l :
  forallb ascii_char s = true ->
  readValue (S fuel) (encodeString s ++ l) = Some (JString s, l).
Proof.
  intros Hs. destruct (readString_encoded s l Hs) as [H1 H2]. unfold encodeString.
  cbn [app]. rewrite <- (assoc_L (++)). cbn [app].
  change (readValue (S fuel) (dquoteC :: (s ≫= escapeChar) ++ dquoteC :: l))
    with (r ← readString ((s ≫= escapeChar) ++ dquoteC :: l); Some (JString (joinUnits r.1), r.2)).
  rewrite H1. cbn. by rewrite H2.
Qed.

(** A member [key: string] of an object. *)
Lemma readMember fuel key s c l :
  forallb ascii_char (lit key) = true -> forallb ascii_char s = true ->
  skipSpace (c :: l) = c :: l ->
  readMembers (S (S fuel)) (encodeKey key ++ encodeString s ++ c :: l) =
  if bool_decide (c = "}"%char) then Some ([(lit key, JString s)], l) else
  if bool_decide (c = ","%char)
  then r ← readMembers (S fuel) l; Some ((lit key, JString s) :: r.1, r.2) else None.
Proof.
  intros Hk Hs Hc. unfold encodeKey, encodeString at 1.
  rewrite <- !(assoc_L (++)). cbn [app]. rewrite <- !(assoc_L (++)). cbn [app].
  destruct (readString_encoded (lit key) (":"%char :: encodeString s ++ c :: l) Hk) as [H1 H2].
  cbn [readMembers]. rewrite expect_first by done. cbn [mbind option_bind].
  rewrite H1. cbn [mbind option_bind fst snd]. rewrite expect_first by done.
  cbn [mbind option_bind]. rewrite readValue_string by done. cbn [mbind option_bind fst snd].
  rewrite Hc, H2.
  destruct (decide (c = "}"%char)) as [->|H3]; [done|]. rewrite (bool_decide_eq_false_2 _ H3).
  destruct (decide (c = ","%char)) as [->|H4]; [done|]. rewrite (bool_decide_eq_false_2 _ H4).
  clear -H3 H4. destruct c as [[] [] [] [] [] [] [] []]; done.
Qed.


Definition tokenJson (t : blacklistToken) : json :=
  JObject [(lit "token", JString (lit (blt_Token t)));
           (lit "expiry", JString (formatRFC3339 (blt_Expiry t)))].

Lemma readValue_token fuel t l :
  encodable t -> readValue (S (S (S (S fuel)))) (encodeToken t ++ l) = Some (tokenJson t, l).
Proof.
  intros [Ht He]. unfold encodeToken. cbn [app]. rewrite <- !(assoc_L (++)). cbn [app].
  rewrite <- !(assoc_L (++)). cbn [app].
  set (body := encodeKey "token" ++ _).
  assert (readMembers (S (S (S fuel))) body =
    Some ([(lit "token", JString (lit (blt_Token t)));
           (lit "expiry", JString (formatRFC3339 (blt_Expiry t)))], l)) as H.
  { unfold body, Time_MarshalJSON. rewrite readMember; [|done|exact Ht|done].
    rewrite bool_decide_eq_false_2, bool_decide_eq_true_2 by done.
    rewrite readMember; [|done|by apply ascii_format|done].
    by rewrite bool_decide_eq_true_2. }
  change (readValue (S (S (S (S fuel)))) ("{"%char :: body))
    with (r ← readMembers (S (S (S fuel))) body; Some (JObject r.1, r.2)).
  by rewrite H.
Qed.

Lemma decodeToken_tokenJson t : encodable t -> decodeToken (tokenJson t) = Some (blt_trunc t).
Proof.
  intros [_ He]. unfold decodeToken, tokenJson. cbn [foldl].
  assert (Time_UnmarshalJSON (JString (formatRFC3339 (blt_Expiry t)))
          = Some (trunc_second (blt_Expiry t))) as H.
  { cbn [Time_UnmarshalJSON]. case_bool_decide as Hz; [|by apply parse_format].
    pose proof (parse_format _ He) as Hp. rewrite Hz in Hp. rewrite <- Hp. vm_compute. reflexivity. }
  cbn [mbind option_bind]. unfold setField at 2. cbn [fst snd].
  rewrite bool_decide_eq_true_2 by (vm_compute; reflexivity).
  cbn [mbind option_bind]. unfold setField. cbn [fst snd].
  rewrite bool_decide_eq_false_2 by (vm_compute; congruence).
  rewrite bool_decide_eq_true_2 by (vm_compute; reflexivity).
  rewrite H. cbn. unfold blt_trunc. by rewrite of_lit.
Qed.

Lemma readElements_encoded l fuel r :
  l <> [] -> Forall encodable l -> (length l + 4 <= fuel)%nat ->
  readElements fuel (encodeElements l ++ "]"%char :: r) = Some (tokenJson <$> l, r).
Proof.
  revert fuel. induction l as [|t l IH]; intros fuel Hne Hl Hf; [done|].
  inversion Hl as [|? ? Ht Hl']; subst.
  do 5 (destruct fuel as [|fuel]; [cbn in Hf; lia|]).
  destruct l as [|t' l].
  - cbn [encodeElements]. cbn [readElements]. by rewrite readValue_token.
  - change (encodeElements (t :: t' :: l)) with (encodeToken t ++ ","%char :: encodeElements (t' :: l)).
    rewrite <- (assoc_L (++)). cbn [app].
    set (rest := encodeElements (t' :: l) ++ "]"%char :: r).
    change (readElements (S (S (S (S (S fuel))))) (encodeToken t ++ ","%char :: rest))
      with (v ← readValue (S (S (S (S fuel)))) (encodeToken t ++ ","%char :: rest);
            match skipSpace v.2 with
            | "]"%char :: l1 => Some ([v.1], l1)
            | ","%char :: l1 => r ← readElements (S (S (S (S fuel)))) l1; Some (v.1 :: r.1, r.2)
            | _ => None
            end).
    rewrite readValue_token by done. cbn [mbind option_bind fst snd].
    change (skipSpace (","%char :: rest)) with (","%char :: rest).
    unfold rest. rewrite IH; [reflexivity|discriminate|exact Hl'|cbn [length] in *; lia].
Qed.

Lemma encodeToken_length t : (5 <= length (encodeToken t))%nat.
Proof.
  unfold encodeToken. cbn [length]. rewrite length_app.
  assert (length (encodeKey "token") = 8%nat) as -> by reflexivity. lia.
Qed.

Lemma encodeElements_length l : (length l <= length (encodeElements l))%nat.
Proof.
  induction l as [|t l IH]; [done|]. pose proof (encodeToken_length t).
  destruct l as [|t' l]; [cbn [encodeElements length]; lia|].
  change (encodeElements (t :: t' :: l)) with (encodeToken t ++ ","%char :: encodeElements (t' :: l)).
  rewrite length_app. cbn [length] in *. lia.
Qed.

Lemma encodeElements_length_ne l : l <> [] -> (length l + 4 <= length (encodeElements l))%nat.
Proof.
  destruct l as [|t l]; [done|]. intros _. pose proof (encodeToken_length t).
  destruct l as [|t' l]; [cbn [encodeElements length]; lia|].
  change (encodeElements (t :: t' :: l)) with (encodeToken t ++ ","%char :: encodeElements (t' :: l)).
  pose proof (encodeElements_length (t' :: l)). rewrite length_app. cbn [length] in *. lia.
Qed.

Lemma mapM_decodeToken l :
  Forall encodable l -> mapM decodeToken (tokenJson <$> l) = Some (blt_trunc <$> l).
Proof.
  induction 1 as [|t l Ht Hl IH]; [done|]. cbn [fmap list_fmap mapM].
  rewrite decodeToken_tokenJson by done. cbn [mbind option_bind].
  change (list_fmap _ _ tokenJson l) with (tokenJson <$> l). by rewrite IH.
Qed.

Lemma parseJson_marshal l :
  Forall encodable l ->
  parseJson ("["%char :: encodeElements l ++ ["]"%char]) = Some (JArray (tokenJson <$> l)).
Proof.
  intros Hl. unfold parseJson. destruct (decide (l = [])) as [->|Hne]; [vm_compute; reflexivity|].
  set (text := "["%char :: _).
  assert (length l + 4 <= length text)%nat as Hlen.
  { unfold text. cbn [length]. rewrite length_app. cbn [length].
    pose proof (encodeElements_length_ne l Hne). lia. }
  assert (readValue (S (length text)) text = Some (JArray (tokenJson <$> l), [])) as ->; [|done].
  revert Hlen. generalize (length text) as n. unfold text. intros n Hn.
  pose proof (readElements_encoded l n [] Hne Hl Hn) as H.
  assert (exists rest, encodeElements l ++ ["]"%char] = "{"%char :: rest) as [rest E].
  { destruct l as [|t [|t' l]]; [done|by eexists|by eexists]. }
  rewrite E in *.
  change (readValue (S n) ("["%char :: "{"%char :: rest))
    with (r ← readElements n ("{"%char :: rest); Some (JArray r.1, r.2)).
  by rewrite H.
Qed.

Lemma unmarshal_marshalTokens l :
  Forall encodable l -> unmarshalTokens (marshalTokens l) = Ok (blt_trunc <$> l).
Proof.
  intros Hl. unfold unmarshalTokens, marshalTokens. rewrite lit_of, parseJson_marshal by done.
  cbn [mbind option_bind]. by rewrite mapM_decodeToken.
Qed.

Lemma marshal_nonempty l : marshalTokens l <> "".
Proof. done. Qed.

Lemma unmarshal_no_panic s : unmarshalTokens s <> Panic.
Proof. unfold unmarshalTokens. by case_match. Qed.

(** ** Properties *)

(** C18: decoding undoes encoding: every list of ASCII tokens with expiries of
    the years 1 to 9999 is read back as it was written, the times truncated to
    the second. *)
Theorem unmarshal_marshal l :
  Forall encodable l -> unmarshalTokens (marshalTokens l) = Ok (blt_trunc <$> l).
Proof. apply unmarshal_marshalTokens. Qed.

Lemma unmarshal_marshal_witness :
  unmarshalTokens (marshalTokens [MkBlacklistToken "eyJhbGciOi" 63745056000999999999])
  = Ok [MkBlacklistToken "eyJhbGciOi" 63745056000000000000].
Proof.
  apply (unmarshal_marshal [MkBlacklistToken "eyJhbGciOi" 63745056000999999999]).
  constructor; [|constructor]. split; [reflexivity|]. unfold max_time, second. cbn. lia.
Defined.
