(* ===== verification/Members.v ===== *)
(** The provider of project members: provider/kubernetes/member.go. Bindings
    between users and projects, the groups and the roles they grant. *)
From S2P Require Export Providers.

Section members.
Context {W : Type} {EL : ErrorLib} {P : SDK} {API : KubeAPI W}.

Definition genBinding (project : Project) (memberEmail group : string)
    : M W error UserProjectBinding :=
  name ← rand_string 10;
  mret (MkBinding (metaNamed name) memberEmail (meta_Name (project_meta project)) group).

Definition sa_member_error (memberEmail : string) (project : Project) : error :=
  apierrors_NewBadRequest ("cannot add the given member " +:+ memberEmail +:+
    " to the project " +:+ project_Name project +:+
    " because the email indicates a service account").

Definition ProjectMemberProvider_Create (userInfo : UserInfo) (project : Project)
    (memberEmail group : string) : M W error UserProjectBinding :=
  _ ← throwIf (IsProjectServiceAccount memberEmail) (sa_member_error memberEmail project);
  binding ← genBinding project memberEmail group;
  masterImpersonatedClient ← createImpersonationClientWrapperFromUserInfo userInfo;
  kcreate KBinding masterImpersonatedClient binding.

(** [if len(projectMembers) > 0 && !options.SkipPrivilegeVerification]: the
    first member is read as the user. *)
Definition verifyReadAccess (userInfo : UserInfo) (projectMembers : list UserProjectBinding)
    (options : ProjectMemberListOptions) : M W error unit :=
  match projectMembers with
  | memberToGet :: _ =>
      if SkipPrivilegeVerification options then mret tt else
      masterImpersonatedClient ← createImpersonationClientWrapperFromUserInfo userInfo;
      _ ← kget KBinding masterImpersonatedClient ("", meta_Name (binding_meta memberToGet));
      mret tt
  | [] => mret tt
  end.

Definition ProjectMemberProvider_List (userInfo : UserInfo) (project : Project)
    (options : option ProjectMemberListOptions) : M W error (list UserProjectBinding) :=
  allMembers ← klist KBinding Privileged Everything;
  let projectMembers := List.filter (fun member =>
    bool_decide (binding_ProjectID member = meta_Name (project_meta project)) &&
    negb (IsProjectServiceAccount (binding_UserEmail member))) allMembers in
  let options := default {| MemberEmail := ""; SkipPrivilegeVerification := false |} options in
  _ ← verifyReadAccess userInfo projectMembers options;
  if is_empty (MemberEmail options) then mret projectMembers else
  (* the loop breaks at the first match *)
  mret (match List.find (fun member =>
                EqualFold (binding_UserEmail member) (MemberEmail options)) projectMembers with
        | Some member => [member]
        | None => []
        end).

Definition ProjectMemberProvider_Delete (userInfo : UserInfo) (bindingName : string)
    : M W error unit :=
  masterImpersonatedClient ← createImpersonationClientWrapperFromUserInfo userInfo;
  kdelete KBinding masterImpersonatedClient ("", bindingName).

Definition ProjectMemberProvider_Update (userInfo : UserInfo) (binding : UserProjectBinding)
    : M W error UserProjectBinding :=
  masterImpersonatedClient ← createImpersonationClientWrapperFromUserInfo userInfo;
  kupdate KBinding masterImpersonatedClient binding.

Definition getUserBindingRole (userEmail projectID : string) (c : client) : M W error string :=
  allMembers ← klist KBinding c Everything;
  mret (match List.find (fun member =>
                EqualFold (binding_UserEmail member) userEmail &&
                bool_decide (binding_ProjectID member = projectID)) allMembers with
        | Some member => binding_Group member
        | None => ""
        end).

Definition ProjectMemberProvider_MapUserToGroup (userEmail projectID : string)
    : M W error string :=
  group ← getUserBindingRole userEmail projectID Privileged;
  if is_empty group
  then throw (apierrors_NewForbidden projectID
                (ENew ("there is no user binding between " +:+ quote userEmail +:+
                       " user and " +:+ projectID +:+ " project")))
  else mret group.

Definition ProjectMemberProvider_MappingsFor (userEmail : string)
    : M W error (list UserProjectBinding) :=
  allMemberMappings ← klist KBinding Privileged Everything;
  mret (List.filter (fun m => EqualFold (binding_UserEmail m) userEmail) allMemberMappings).

Definition ProjectMemberProvider_GroupMappingsFor (groups : list string)
    : M W error (list GroupProjectBinding) :=
  let groupSet : gset string := list_to_set groups in
  allBindings ← klist KGroupBinding Privileged Everything;
  mret (List.filter (fun b => bool_decide (gbinding_Group b ∈ groupSet)) allBindings).

(** [groups.Insert(x)] under a condition. *)
Definition insertIf (c : bool) (x : string) (s : gset string) : gset string :=
  if c then {[ x ]} ∪ s else s.

Definition ProjectMemberProvider_MapUserToGroups (user : User) (projectID : string)
    : M W error (gset string) :=
  userBindingGroup ← getUserBindingRole (user_Email user) projectID Privileged;
  let groups := insertIf (negb (is_empty userBindingGroup)) userBindingGroup ∅ in
  let idpGroups := user_Groups user in
  groupBindings ← ProjectMemberProvider_GroupMappingsFor idpGroups;
  let groups := foldl (fun groups binding =>
    insertIf (bool_decide (gbinding_ProjectID binding = projectID))
             (gbinding_Group binding +:+ "-" +:+ projectID) groups) groups groupBindings in
  let groups := insertIf (user_IsAdmin user) ("owners-" +:+ projectID) groups in
  let groups := insertIf (user_IsGlobalViewer user) ("viewers-" +:+ projectID) groups in
  if bool_decide (0 < size groups) then mret groups
  else throw (apierrors_NewForbidden projectID
                (ENew (quote (user_Email user) +:+ " doesn't belong to project " +:+ projectID))).

Definition ProjectMemberProvider_MapUserToRoles (user : User) (projectID : string)
    : M W error (gset string) :=
  projectReq ← mapErr (EWrap "failed to construct project label selector: ")
                 (lift (labels_NewRequirement_Equals ProjectIDLabelKey projectID));
  groupProjectBindings ← klist KGroupBinding Privileged projectReq;
  if user_IsAdmin user then mret {[ OwnersRole ]} else
  let roles := insertIf (user_IsGlobalViewer user) ViewersRole ∅ in
  let roles := foldl (fun roles gpb =>
    insertIf (bool_decide (gbinding_Group gpb ∈ user_Groups user) &&
              bool_decide (gbinding_ProjectID gpb = projectID))
             (gbinding_Role gpb) roles) roles groupProjectBindings in
  userBindingRole ← getUserBindingRole (user_Email user) projectID Privileged;
  if is_empty userBindingRole then mret roles else
  let userBindingRole := ExtractGroupPrefix userBindingRole in
  mret ({[ userBindingRole ]} ∪ roles).

Definition ProjectMemberProvider_CreateUnsecured (project : Project)
    (memberEmail group : string) : M W error UserProjectBinding :=
  _ ← throwIf (IsProjectServiceAccount memberEmail) (sa_member_error memberEmail project);
  binding ← genBinding project memberEmail group;
  kcreate KBinding Privileged binding.

Definition ProjectMemberProvider_CreateUnsecuredForServiceAccount (project : Project)
    (memberEmail group : string) : M W error UserProjectBinding :=
  _ ← throwIf (IsProjectServiceAccount memberEmail &&
               negb (HasPrefix group ProjectManagerGroupNamePrefix))
        (sa_member_error memberEmail project);
  binding ← genBinding project memberEmail group;
  kcreate KBinding Privileged binding.

Definition ProjectMemberProvider_DeleteUnsecured (bindingName : string) : M W error unit :=
  kdelete KBinding Privileged ("", bindingName).

Definition ProjectMemberProvider_UpdateUnsecured (binding : UserProjectBinding)
    : M W error UserProjectBinding :=
  kupdate KBinding Privileged binding.
End members.

#[export] Instance kubernetesMemberMapper {W} `{ErrorLib} `{SDK} `{KubeAPI W}
    : ProjectMemberMapper W := {|
  mapper_MapUserToGroup := ProjectMemberProvider_MapUserToGroup;
  mapper_MapUserToGroups := ProjectMemberProvider_MapUserToGroups;
  mapper_MapUserToRoles := ProjectMemberProvider_MapUserToRoles;
  mapper_MappingsFor := ProjectMemberProvider_MappingsFor;
  mapper_GroupMappingsFor := ProjectMemberProvider_GroupMappingsFor |}.

#[export] Instance kubernetesMemberProvider {W} `{ErrorLib} `{SDK} `{KubeAPI W}
    : ProjectMemberProvider W := {|
  members_Create := ProjectMemberProvider_Create;
  members_List := ProjectMemberProvider_List;
  members_Delete := ProjectMemberProvider_Delete;
  members_Update := ProjectMemberProvider_Update;
  members_CreateUnsecured := ProjectMemberProvider_CreateUnsecured;
  members_CreateUnsecuredForServiceAccount :=
    ProjectMemberProvider_CreateUnsecuredForServiceAccount;
  members_DeleteUnsecured := ProjectMemberProvider_DeleteUnsecured;
  members_UpdateUnsecured := ProjectMemberProvider_UpdateUnsecured |}.

(** ** Lemmas *)

Lemma elem_of_insertIf c x y s : y ∈ insertIf c x s <-> (c = true /\ y = x) \/ y ∈ s.
Proof. unfold insertIf. destruct c; set_solver. Qed.

Lemma elem_of_foldl_insertIf {A} (c : A -> bool) (f : A -> string) l s y :
  y ∈ foldl (fun s x => insertIf (c x) (f x) s) s l <->
  y ∈ s \/ exists x, x ∈ l /\ c x = true /\ y = f x.
Proof.
  revert s. induction l as [|x l IH]; intros s; cbn; [set_solver|].
  rewrite IH, elem_of_insertIf. set_solver.
Qed.

Lemma size_pos_iff (s : gset string) : 0 < size s <-> s <> ∅.
Proof.
  rewrite <- leibniz_equiv_iff, <- size_empty_iff. lia.
Qed.

Section members_proofs.
Context {W : Type} {EL : ErrorLib} {P : SDK} {API : KubeAPI W} {ST : Store W}
        {LAWS : KubeAPILaws W} {PL : SDKLaws P}.
Implicit Types w : W.

Lemma getUserBindingRole_spec email pid w :
  runs (getUserBindingRole email pid Privileged) w (fun r w' => same_store w w' /\
    match r with Ok g => binding_group w email pid g | Err _ => ~ ListsSucceed W | Panic => False end).
Proof.
  unfold getUserBindingRole. runs_call (klist_privileged_spec KBinding). destruct Hcall as [Hs Hl].
  destruct r as [l|e|]; cbn; [|done|done]. runs_step. split; [done|].
  destruct (List.find _ l) as [b|] eqn:E; [left|right].
  - apply List_find_some in E as [Hb Hm]. apply (elem_of_listed_all _ _ _ _ Hl) in Hb. by exists b.
  - split; [done|]. intros b Hb. apply (List_find_none _ _ _ E).
    by apply (elem_of_listed_all _ _ _ _ Hl).
Qed.

Lemma MappingsFor_spec email w :
  runs (ProjectMemberProvider_MappingsFor email) w (fun r w' => same_store w w' /\
    match r with
    | Ok l => forall b, b ∈ l <-> bound w b /\ EqualFold (binding_UserEmail b) email = true
    | Err _ => ~ ListsSucceed W
    | Panic => False
    end).
Proof.
  unfold ProjectMemberProvider_MappingsFor. runs_call (klist_privileged_spec KBinding). destruct Hcall as [Hs Hl].
  destruct r as [l|e|]; cbn; [|done|done]. runs_step. split; [done|]. intros b.
  by rewrite elem_of_List_filter, (elem_of_listed_all _ _ _ _ Hl).
Qed.

Lemma GroupMappingsFor_spec gs w :
  runs (ProjectMemberProvider_GroupMappingsFor gs) w (fun r w' => same_store w w' /\
    match r with
    | Ok l => forall b, b ∈ l <-> group_bound w b /\ gbinding_Group b ∈ gs
    | Err _ => ~ ListsSucceed W
    | Panic => False
    end).
Proof.
  unfold ProjectMemberProvider_GroupMappingsFor. runs_call (klist_privileged_spec KGroupBinding). destruct Hcall as [Hs Hl].
  destruct r as [l|e|]; cbn; [|done|done]. runs_step. split; [done|]. intros b.
  rewrite elem_of_List_filter, (elem_of_listed_all _ _ _ _ Hl), bool_decide_eq_true.
  by rewrite elem_of_list_to_set.
Qed.

(** The set of groups is the one granted; the answer is Forbidden exactly when
    it is empty. *)
Lemma MapUserToGroups_full user pid w :
  runs (ProjectMemberProvider_MapUserToGroups user pid) w (fun r w' => same_store w w' /\
    match r with
    | Ok gs => gs <> ∅ /\ exists bg, binding_group w (user_Email user) pid bg /\
                 forall g, g ∈ gs <-> granted_group w user pid bg g
    | Err e => ListsSucceed W ->
                 (exists msg, e = apierrors_NewForbidden pid (ENew msg)) /\
                 exists bg, binding_group w (user_Email user) pid bg /\
                   forall g, ~ granted_group w user pid bg g
    | Panic => False
    end).
Proof.
  unfold ProjectMemberProvider_MapUserToGroups.
  runs_call getUserBindingRole_spec. destruct Hcall as [Hs Hbg].
  destruct r as [bg|e|]; cbn; [|by split|done].
  runs_call GroupMappingsFor_spec. destruct Hcall as [Hs' Hgb].
  destruct r as [l|e|]; cbn; [|split; [by etrans|by intros ?]|done].
  assert (same_store w w1) as Hs1 by (by etrans).
  set (gs := insertIf (user_IsGlobalViewer user) _ _).
  assert (forall g, g ∈ gs <-> granted_group w user pid bg g) as Hgs.
  { intros g. unfold gs, granted_group. setoid_rewrite Hs.
    rewrite !elem_of_insertIf, elem_of_foldl_insertIf, elem_of_insertIf.
    setoid_rewrite Hgb. setoid_rewrite bool_decide_eq_true.
    rewrite negb_true_iff, is_empty_false. set_solver. }
  case_bool_decide as Hsz; runs_step; (split; [done|]).
  - split; [by apply size_pos_iff|]. eauto.
  - intros _. split; [by eexists|]. exists bg. split; [done|]. intros g Hg%Hgs.
    apply Hsz, size_pos_iff. set_solver.
Qed.

Lemma MapUserToRoles_full user pid w :
  runs (ProjectMemberProvider_MapUserToRoles user pid) w (fun r w' => same_store w w' /\
    match r with
    | Ok rs => if user_IsAdmin user then rs = {[ OwnersRole ]}
               else exists bg, binding_group w (user_Email user) pid bg /\
                 forall role, role ∈ rs <-> granted_role w user pid bg role
    | Err _ => ListsSucceed W ->
                 exists e, labels_NewRequirement_Equals ProjectIDLabelKey pid = Err e
    | Panic => False
    end).
Proof.
  unfold ProjectMemberProvider_MapUserToRoles. do 3 runs_step.
  destruct (labels_NewRequirement_Equals _ _) as [sel|e|] eqn:E;
    [|split; [done|eauto]|by apply labels_NewRequirement_Equals_panic in E].
  apply labels_NewRequirement_Equals_ok in E as ->. cbn [andThen].
  runs_call (klist_privileged_spec KGroupBinding). destruct Hcall as [Hs Hl].
  destruct r as [l|e|]; cbn; [|by split|done].
  destruct (user_IsAdmin user); [by runs_step|].
  runs_call getUserBindingRole_spec. destruct Hcall as [Hs' Hbg].
  destruct r as [bg|e|]; cbn; [|split; [by etrans|by intros ?]|done].
  rewrite <- Hs in Hbg. assert (same_store w w1) as Hs1 by (by etrans).
  set (roles := foldl _ _ l).
  assert (forall role, role ∈ roles <-> granted_role w user pid "" role) as Hr.
  { intros role. unfold roles, granted_role.
    rewrite elem_of_foldl_insertIf, elem_of_insertIf.
    setoid_rewrite (elem_of_listed _ _ _ _ _ Hl). setoid_rewrite andb_true_iff.
    cbn [matches]. setoid_rewrite bool_decide_eq_true. unfold group_bound. set_solver. }
  destruct (is_empty bg) eqn:E; runs_step; (split; [done|]); exists bg; (split; [done|]).
  - apply is_empty_spec in E as ->. done.
  - apply is_empty_false in E. intros role. rewrite elem_of_union, Hr.
    unfold granted_role. set_solver.
Qed.

#[export] Instance kubernetesMemberMapper_laws : ProjectMemberMapperLaws W.
Proof.
  split.
  - intros email pid w. cbn [mapper_MapUserToGroup kubernetesMemberMapper].
    unfold ProjectMemberProvider_MapUserToGroup. runs_call getUserBindingRole_spec.
    destruct Hcall as [Hs Hg]. destruct r as [g|e|]; cbn [andThen]; [|by split|done].
    destruct (is_empty g) eqn:E; runs_step; (split; [done|]); [done|].
    split; [by apply is_empty_false|done].
  - intros user pid w. eapply runs_mono; [apply MapUserToGroups_full|].
    intros [gs|e|] w'; naive_solver.
  - intros user pid w. eapply runs_mono; [apply MapUserToRoles_full|].
    intros [gs|e|] w'; naive_solver.
  - intros email w. eapply runs_mono; [apply MappingsFor_spec|].
    intros [gs|e|] w'; naive_solver.
  - intros gs w. eapply runs_mono; [apply GroupMappingsFor_spec|].
    intros [l|e|] w'; naive_solver.
Qed.

Lemma genBinding_spec project email group w :
  runs (genBinding project email group) w (fun r w' => same_store w w' /\
    exists b, r = Ok b /\ binds_member b project email group).
Proof.
  unfold genBinding. runs_call rand_string_spec. destruct Hcall as [Hs (s & -> & _)]. cbn.
  runs_step. split; [done|]. by eexists.
Qed.

(** The binding that is sent to the server, and what comes back. *)
Lemma kcreate_binding_spec c b project email group w :
  binds_member b project email group ->
  runs (kcreate KBinding c b) w (fun r w' =>
    match r with
    | Ok b' => authorized w c VCreate KBinding (key_of KBinding b') /\
        binds_member b' project email group /\ created KBinding w w' b'
    | Err _ => same_store w w'
    | Panic => False
    end).
Proof.
  intros (He & Hp & Hg & Hns & Hfin). runs_call (kcreate_spec KBinding).
  destruct r as [b'|e|]; [|by destruct Hcall|done].
  destruct Hcall as (Ha & Hst & Hc). rewrite (strip_key _ _ _ Hst).
  pose proof (strip_key _ _ _ Hst) as [= Hns' _]. pose proof (strip_finalizers _ _ _ Hst) as Hfin'.
  apply strip_binding in Hst as (H1 & H2 & H3).
  split_and!; [done| |done]. unfold binds_member. cbn in Hfin'. by rewrite H1, H2, H3, Hns', Hfin'.
Qed.

Lemma Create_spec userInfo project email group w :
  runs (ProjectMemberProvider_Create userInfo project email group) w (fun r w' =>
    match r with
    | Ok b => IsProjectServiceAccount email = false /\
        authorized w (as_user userInfo) VCreate KBinding (key_of KBinding b) /\
        binds_member b project email group /\ created KBinding w w' b
    | Err _ => same_store w w'
    | Panic => False
    end).
Proof.
  unfold ProjectMemberProvider_Create. do 2 runs_step; cbn; [done|].
  runs_call genBinding_spec. destruct Hcall as [Hs [b [-> Hb]]]. cbn.
  runs_call createImpersonationClientWrapperFromUserInfo_spec. destruct Hcall as [Hs' Hc].
  assert (same_store w w1) as Hs1 by (by etrans).
  destruct r as [c|e|]; cbn; [subst c|done|done].
  eapply runs_mono; [by eapply kcreate_binding_spec|]. cbn beta.
  intros [b'|e|] w2; cbn; rewrite ?Hs1; naive_solver.
Qed.

Lemma CreateUnsecured_spec project email group w :
  runs (ProjectMemberProvider_CreateUnsecured project email group) w (fun r w' =>
    match r with
    | Ok b => IsProjectServiceAccount email = false /\
        binds_member b project email group /\ created KBinding w w' b
    | Err _ => same_store w w'
    | Panic => False
    end).
Proof.
  unfold ProjectMemberProvider_CreateUnsecured. do 2 runs_step; cbn; [done|].
  runs_call genBinding_spec. destruct Hcall as [Hs [b [-> Hb]]]. cbn.
  eapply runs_mono; [by eapply kcreate_binding_spec|]. cbn beta.
  intros [b'|e|] w2; cbn; rewrite ?Hs; naive_solver.
Qed.

Lemma CreateUnsecuredForServiceAccount_spec project email group w :
  runs (ProjectMemberProvider_CreateUnsecuredForServiceAccount project email group) w
    (fun r w' =>
    match r with
    | Ok b => (IsProjectServiceAccount email = true ->
                 HasPrefix group ProjectManagerGroupNamePrefix = true) /\
        binds_member b project email group /\ created KBinding w w' b
    | Err _ => same_store w w'
    | Panic => False
    end).
Proof.
  unfold ProjectMemberProvider_CreateUnsecuredForServiceAccount.
  do 2 runs_step; cbn; [done|].
  match goal with H : _ && _ = false |- _ => rename H into Hg end.
  runs_call genBinding_spec. destruct Hcall as [Hs [b [-> Hb]]]. cbn.
  eapply runs_mono; [by eapply kcreate_binding_spec|]. cbn beta.
  intros [b'|e|] w2; cbn; rewrite ?Hs; [|done|done]. intros (_ & Hb' & Hc).
  split_and!; [|done|done]. intros Hsa. rewrite Hsa in Hg. by apply negb_false_iff in Hg.
Qed.

Lemma verifyReadAccess_spec userInfo l options w :
  runs (verifyReadAccess userInfo l options) w (fun r w' => same_store w w' /\
    match r with
    | Ok _ => SkipPrivilegeVerification options = true \/ l = [] \/
        exists b, b ∈ l /\
          authorized w (as_user userInfo) VGet KBinding ("", meta_Name (binding_meta b))
    | Err _ => True
    | Panic => False
    end).
Proof.
  unfold verifyReadAccess. destruct l as [|b l]; [apply runs_ret; naive_solver|].
  destruct (SkipPrivilegeVerification options) eqn:E; [apply runs_ret; naive_solver|].
  runs_call createImpersonationClientWrapperFromUserInfo_spec. destruct Hcall as [Hs Hc].
  destruct r as [c|e|]; cbn; [subst c|done|done].
  runs_call (kget_spec KBinding). destruct Hcall as [Hs' Hg].
  assert (same_store w w1) as Hs1 by (by etrans).
  destruct r as [b'|e|]; cbn; [|done|done]. runs_step. split; [done|]. right; right.
  exists b. split; [set_solver|]. destruct Hg as [_ Ha]. by rewrite Hs.
Qed.

Lemma List_spec userInfo project options w :
  runs (ProjectMemberProvider_List userInfo project options) w (fun r w' => same_store w w' /\
    match r with
    | Ok l => lists_members w project options l /\
        (skip_verification options = true \/ may_read_members w userInfo project)
    | Err _ => True
    | Panic => False
    end).
Proof.
  unfold ProjectMemberProvider_List. runs_call (klist_spec KBinding). destruct Hcall as [Hs Hl].
  destruct r as [all|e|]; cbn [andThen]; [|done|done].
  set (opts := default _ options). set (l := List.filter _ all).
  assert (forall b, b ∈ l <-> member_of w project b) as Hm.
  { intros b. unfold l, member_of, bound.
    rewrite elem_of_List_filter, (elem_of_listed_all _ _ _ _ Hl), andb_true_iff,
      bool_decide_eq_true, negb_true_iff. done. }
  assert (NoDup (key_of KBinding <$> l)) as Hnd.
  { unfold l. rewrite List_filter_filter. eapply sublist_NoDup; [by eapply NoDup_listed|].
    apply fmap_sublist, sublist_filter. }
  assert (email_filter options = MemberEmail opts /\
          skip_verification options = SkipPrivilegeVerification opts) as [Hopt1 Hopt2]
    by (by destruct options).
  runs_call verifyReadAccess_spec. destruct Hcall as [Hs' Hr].
  assert (same_store w w1) as Hs1 by (by etrans).
  destruct r as [u|e|]; cbn [andThen]; [|done|done].
  assert (skip_verification options = true \/ may_read_members w userInfo project) as Hacc.
  { rewrite Hopt2. destruct Hr as [Hr|[Hr|(b & Hb & Ha)]]; [by left|right; left|right; right].
    - intros b Hb%Hm. rewrite Hr in Hb. by apply elem_of_nil in Hb.
    - exists b. split; [by apply Hm|by rewrite Hs]. }
  unfold lists_members. rewrite Hopt1. destruct (is_empty _) eqn:E; runs_step; [done|].
  split; [done|]. split; [|done]. destruct (List.find _ l) as [b|] eqn:Ef.
  - apply List_find_some in Ef as [Hb Hf]. left. exists b. by rewrite <- Hm.
  - right. split; [done|]. intros b Hb%Hm. by apply (List_find_none _ _ _ Ef).
Qed.

#[export] Instance kubernetesMemberProvider_laws : ProjectMemberProviderLaws W.
Proof.
  split.
  - intros. apply List_spec.
  - intros. apply Create_spec.
  - intros. apply CreateUnsecured_spec.
  - intros. apply CreateUnsecuredForServiceAccount_spec.
  - intros userInfo name w. cbn. unfold ProjectMemberProvider_Delete.
    runs_call createImpersonationClientWrapperFromUserInfo_spec. destruct Hcall as [Hs Hc].
    destruct r as [c|e|]; cbn [andThen]; [subst c|done|done].
    runs_call (kdelete_spec KBinding). destruct r as [u|e|]; cbn; rewrite ?Hs; naive_solver.
  - intros name w. cbn. runs_call (kdelete_spec KBinding).
    destruct r as [u|e|]; naive_solver.
  - intros userInfo b w. cbn. unfold ProjectMemberProvider_Update.
    runs_call createImpersonationClientWrapperFromUserInfo_spec. destruct Hcall as [Hs Hc].
    destruct r as [c|e|]; cbn [andThen]; [subst c|done|done].
    runs_call (kupdate_spec KBinding). destruct r as [b'|e|]; cbn; rewrite ?Hs; tauto.
  - intros b w. cbn. runs_call (kupdate_spec KBinding).
    destruct r as [b'|e|]; cbn; tauto.
Qed.
End members_proofs.

(** ** Properties *)

(** What MapUserToGroups answers for a user whose own binding to the project is
    of the group [bg]. *)
Definition groups_answer {W} {ST : Store W} {EL : ErrorLib} (w : W) (user : User) (pid bg : string)
    (r : result error (gset string)) : Prop :=
  match r with
  | Ok gs => gs <> ∅ /\ forall g, g ∈ gs <-> granted_group w user pid bg g
  | Err e => (exists msg, e = apierrors_NewForbidden pid (ENew msg)) /\
             forall g, ~ granted_group w user pid bg g
  | Panic => False
  end.

(** And what MapUserToRoles answers. *)
Definition roles_answer {W} {ST : Store W} {P : SDK} (w : W) (user : User) (pid bg : string)
    (r : result error (gset string)) : Prop :=
  match r with
  | Ok rs => if user_IsAdmin user then rs = {[ OwnersRole ]}
             else forall role, role ∈ rs <-> granted_role w user pid bg role
  | Err e => exists e', labels_NewRequirement_Equals ProjectIDLabelKey pid = Err e'
  | Panic => False
  end.

Section binding_lemmas.
Context {W : Type} {ST : Store W}.
Implicit Types w : W.

Lemma bound_created w w' b b' :
  created KBinding w w' b -> bound w' b' <-> b' = b \/ (bound w b').
Proof.
  intros (Hnew & Hv & _). unfold bound. rewrite Hv. split.
  - intros [n [[_ <-]|[_ Hn]]%lookup_insert_Some]; [by left|right; by exists n].
  - intros [->|[n Hn]]; [by exists (key_of KBinding b); rewrite lookup_insert_eq|].
    exists n. rewrite lookup_insert_ne; [done|]. intros <-.
    assert (None = Some b') as E by (rewrite <- Hn; symmetry; exact Hnew). discriminate E.
Qed.

Lemma created_binding_group w w' b project email group :
  created KBinding w w' b -> binds_member b project email group ->
  (forall b', bound w b' -> binds email (meta_Name (project_meta project)) b' = false) ->
  forall g, binding_group w' email (meta_Name (project_meta project)) g <-> g = group.
Proof.
  intros Hc (He & Hp & Hg & _) Hnone g.
  assert (binds email (meta_Name (project_meta project)) b = true) as Hm.
  { unfold binds. by rewrite He, Hp, EqualFold_refl, bool_decide_eq_true_2. }
  split.
  - intros [(b' & [-> |Hb']%(bound_created _ _ _ _ Hc) & Hm' & <-)|[_ Hn]]; [done| |].
    + by rewrite Hnone in Hm'.
    + rewrite Hn in Hm; [done|]. apply (bound_created _ _ _ _ Hc). by left.
  - intros ->. left. exists b. split; [|done]. apply (bound_created _ _ _ _ Hc). by left.
Qed.

Lemma created_binding_unique w w' b project email group :
  created KBinding w w' b -> binds_member b project email group ->
  (forall b', bound w b' -> binds email (meta_Name (project_meta project)) b' = false) ->
  unique_bindings w -> unique_bindings w'.
Proof.
  intros Hc (He & Hp & _) Hnone Hu b1 b2 em pid H1 H2 Hm1 Hm2.
  assert (forall b', bound w b' -> binds em pid b' = true -> binds em pid b = true -> False) as Hno.
  { intros b' Hb' H Hb. specialize (Hnone b' Hb'). unfold binds in H, Hb, Hnone.
    rewrite He in Hb. apply andb_true_iff in H as [Hf Hpid], Hb as [Hf' Hpid'].
    apply bool_decide_eq_true in Hpid, Hpid'.
    rewrite (EqualFold_trans _ _ email Hf) in Hnone by (by rewrite EqualFold_sym).
    cbn in Hnone. apply bool_decide_eq_false in Hnone. congruence. }
  apply (bound_created _ _ _ _ Hc) in H1 as [->|H1], H2 as [->|H2]; [done| | |].
  - exfalso. eauto.
  - exfalso. eauto.
  - by apply (Hu b1 b2 em pid).
Qed.
End binding_lemmas.

Section members_properties.
Context {W : Type} {EL : ErrorLib} {P : SDK} {API : KubeAPI W} {ST : Store W}
        {LAWS : KubeAPILaws W} {PL : SDKLaws P}.
Implicit Types w : W.

(** C1: MapUserToGroups computes exactly the groups granted to the user in the
    project: the group of the user's binding, the suffixed identity-provider
    groups bound to the project, owners for an administrator, viewers for a
    global viewer. It answers Forbidden exactly when nothing is granted. *)
Theorem MapUserToGroups_exact user pid bg w :
  ListsSucceed W -> unique_bindings w -> binding_group w (user_Email user) pid bg ->
  runs (ProjectMemberProvider_MapUserToGroups user pid) w
    (fun r w' => same_store w w' /\ groups_answer w user pid bg r).
Proof.
  intros Hl Hu Hbg. eapply runs_mono; [apply MapUserToGroups_full|]. cbn beta.
  intros [gs|e|] w' [Hs H]; (split; [done|]); cbn.
  - destruct H as (Hne & bg' & Hbg' & Hg).
    rewrite (binding_group_unique _ _ _ _ _ Hu Hbg Hbg'). auto.
  - destruct (H Hl) as (Hmsg & bg' & Hbg' & Hg).
    rewrite (binding_group_unique _ _ _ _ _ Hu Hbg Hbg'). auto.
  - done.
Qed.

(** MapUserToRoles gives an administrator the role owners alone, and any
    other user the roles of the labelled group bindings, of the binding and of a
    global viewer, and nothing else. *)
Theorem MapUserToRoles_exact user pid bg w :
  ListsSucceed W -> unique_bindings w -> binding_group w (user_Email user) pid bg ->
  runs (ProjectMemberProvider_MapUserToRoles user pid) w
    (fun r w' => same_store w w' /\ roles_answer w user pid bg r).
Proof.
  intros Hl Hu Hbg. eapply runs_mono; [apply MapUserToRoles_full|]. cbn beta.
  intros [rs|e|] w' [Hs H]; (split; [done|]); cbn; [|by apply H|done].
  destruct (user_IsAdmin user); [done|]. destruct H as (bg' & Hbg' & Hg).
  by rewrite (binding_group_unique _ _ _ _ _ Hu Hbg Hbg').
Qed.

(** Create refuses a service account, acts with the permissions of the
    caller and adds exactly one binding. A member who had none before then
    belongs to the given group and no other, and no user gets two bindings to a
    project. *)
Theorem member_Create_binds userInfo project email group w :
  runs (ProjectMemberProvider_Create userInfo project email group) w (fun r w' =>
    match r with
    | Ok b => let pid := meta_Name (project_meta project) in
        IsProjectServiceAccount email = false /\
        authorized w (as_user userInfo) VCreate KBinding (key_of KBinding b) /\
        created KBinding w w' b /\
        ((forall b', bound w b' -> binds email pid b' = false) ->
         (forall g, binding_group w' email pid g <-> g = group) /\
         (unique_bindings w -> unique_bindings w'))
    | Err _ => same_store w w'
    | Panic => False
    end).
Proof.
  eapply runs_mono; [apply Create_spec|]. cbn beta.
  intros [b|e|] w'; [|done|done]. intros (Hsa & Ha & Hb & Hc).
  split_and!; [done|done|done|]. intros Hnone.
  eauto using created_binding_group, created_binding_unique.
Qed.

(** List answers the members of the project, service accounts apart; with an
    email at most one, of that email up to case; and only to a user who can read
    a member, unless the verification is skipped. *)
Theorem member_List_exact userInfo project options w :
  runs (ProjectMemberProvider_List userInfo project options) w (fun r w' => same_store w w' /\
    match r with
    | Ok l => lists_members w project options l /\
        (skip_verification options = true \/ may_read_members w userInfo project)
    | Err _ => True
    | Panic => False
    end).
Proof. apply List_spec. Qed.
End members_properties.

Lemma sample_bob_group : binding_group sample "bob@example.com" "p1" "editors-p1".
Proof.
  left. exists bobBinding. split; [|by vm_compute]. exists ("", "b1"). vm_compute. reflexivity.
Qed.

Lemma sample_bound b : bound sample b -> b = bobBinding \/ b = ciBinding.
Proof.
  intros [n Hn]. apply (lookup_sample KBinding) in Hn.
  assert ((map_to_list (view KBinding sample)).*2 ≡ₚ [bobBinding; ciBinding]) as E
    by (vm_compute; first [reflexivity|apply perm_swap]).
  rewrite E in Hn. set_solver.
Qed.

Lemma sample_unique : unique_bindings sample.
Proof.
  intros b b' email pid Hb Hb' H1 H2.
  unfold binds in H1, H2. apply andb_true_iff in H1 as [H1 _], H2 as [H2 _].
  rewrite EqualFold_spec in H1, H2. rewrite <- H2 in H1.
  destruct (sample_bound b Hb) as [->| ->], (sample_bound b' Hb') as [->| ->]; done.
Qed.

Lemma MapUserToGroups_exact_witness :
  runs (ProjectMemberProvider_MapUserToGroups bob "p1") sample
    (fun r w' => same_store sample w' /\ groups_answer sample bob "p1" "editors-p1" r).
Proof.
  apply (MapUserToGroups_exact bob "p1" "editors-p1" sample);
    [apply mem_lists_succeed|apply sample_unique|apply sample_bob_group].
Defined.

Lemma MapUserToRoles_exact_witness :
  runs (ProjectMemberProvider_MapUserToRoles bob "p1") sample
    (fun r w' => same_store sample w' /\ roles_answer sample bob "p1" "editors-p1" r).
Proof.
  apply (MapUserToRoles_exact bob "p1" "editors-p1" sample);
    [apply mem_lists_succeed|apply sample_unique|apply sample_bob_group].
Defined.

Definition bobInfo : UserInfo :=
  MkUserInfo "bob@example.com" ["editors-p1"] {[ "editors" ]} false false.

Lemma member_Create_binds_witness :
  let run := ProjectMemberProvider_Create bobInfo project1 "carol@example.com" "viewers-p1" sample in
  (exists b, run.1 = Ok b) /\ forall g, binding_group run.2 "carol@example.com" "p1" g <-> g = "viewers-p1".
Proof.
  intros run. run_ok run b E.
  split; [by exists b|].
  run_thm run E (member_Create_binds bobInfo project1 "carol@example.com" "viewers-p1" sample) H. destruct H as (_ & _ & _ & H).
  apply H. intros b' Hb'. destruct (sample_bound b' Hb') as [->| ->]; vm_compute; reflexivity.
Defined.

Lemma member_List_exact_witness :
  let options := Some {| MemberEmail := "BOB@example.com"; SkipPrivilegeVerification := false |} in
  let run := ProjectMemberProvider_List bobInfo project1 options sample in
  run.1 = Ok [bobBinding] /\ lists_members sample project1 options [bobBinding].
Proof.
  intros options run. assert (run.1 = Ok [bobBinding]) as E by (vm_compute; reflexivity).
  split; [exact E|].
  run_thm run E (member_List_exact bobInfo project1 options sample) H. apply H.
Defined.
