(* ===== verification/Users.v ===== *)
(** The provider of users: provider/kubernetes/user.go, and
    [SecretKeySelectorValueFuncFactory] of provider/types.go.  The blacklist of
    a user's invalidated tokens is a secret that holds their JSON encoding. *)
From S2P Require Export Members Sha256 Json.

(** [v, ok := secret.Data[key]]. *)
Definition secret_lookup (s : Secret) (key : string) : option string :=
  match secret_Data s with Some d => d !! key | None => None end.

Section users.
Context {W : Type} {EL : ErrorLib} {P : SDK} {API : KubeAPI W}.

(** provider/types.go *)
Definition SecretKeySelectorValueFuncFactory (c : client) (configVar : option SecretRef)
    (key : string) : M W error string :=
  match configVar with
  | None => throw (ENew "configVar is nil")
  | Some configVar =>
      _ ← throwIf (is_empty (ref_Name configVar)) (ENew "configVar.Name is empty");
      _ ← throwIf (is_empty (ref_Namespace configVar)) (ENew "configVar.Namespace is empty");
      _ ← throwIf (is_empty key) (ENew "key is empty");
      let full := ref_Namespace configVar +:+ "/" +:+ ref_Name configVar in
      secret ← mapErr (EWrap ("failed to get secret " +:+ quote full +:+ ": "))
                 (kget KSecret c (ref_Namespace configVar, ref_Name configVar));
      match secret_lookup secret key with
      | Some v => mret v
      | None => throw (ENew ("secret " +:+ quote full +:+ " has no key " +:+ quote key))
      end
  end.

Definition UserProvider_UserByID (id : string) : M W error User :=
  kget KUser Privileged ("", id).

Definition UserProvider_UserByEmail (email : string) : M W error User :=
  users ← klist KUser Privileged Everything;
  match List.find (fun user => EqualFold (user_Email user) email) users with
  | Some user => mret user
  | None => throw ErrNotFound
  end.

Definition newUser (name email : string) (groups : list string) : User :=
  MkUser (metaNamed (sha256_hex email)) name email groups false false "" None [] None zero_time.

Definition UserProvider_CreateUser (name email : string) (groups : list string) : M W error User :=
  _ ← throwIf (is_empty name || is_empty email)
        (apierrors_NewBadRequest
           "Email, ID and Name cannot be empty when creating a new user resource");
  let email := ToLower email in
  _ ← throwIf (IsProjectServiceAccount email)
        (apierrors_NewBadRequest ("cannot add a user with the given email " +:+ email +:+
           " as the name is reserved, please try a different email address"));
  let user := newUser name email groups in
  userList ← klist KUser Privileged Everything;
  (* elect the first user as admin *)
  let user := if bool_decide (length userList = 0)
              then user_with_roles true (user_IsGlobalViewer user) user else user in
  kcreate KUser Privileged user.

Definition UserProvider_UpdateUser (user : User) : M W error User :=
  let status := user_LastSeen user in
  user ← kupdate KUser Privileged user;
  kpatch_status KUser Privileged (user_with_last_seen status user).

(** The first half of ensureTokenBlacklistSecret: the secret, created when it
    does not exist. *)
Definition getOrCreateBlacklistSecret (c : client) (name : string) : M W error Secret :=
  found ← attempt (kget KSecret c (KubermaticNamespace, name));
  existingSecret ← match found with
    | inr s => mret s
    | inl e => if apierrors_IsNotFound e then mret (MkSecret (metaNamed "") "" None)
               else throw (EWrap ("failed to probe for secret " +:+ quote name +:+ ": ") e)
    end;
  if is_empty (meta_Name (secret_meta existingSecret)) then
    mapErr (EWrap "failed to create token blacklist secret: ")
      (kcreate KSecret c
         (MkSecret (meta_with_namespace KubermaticNamespace (metaNamed name)) "Opaque"
            (Some {[ TokenBlacklist := "" ]})))
  else mret existingSecret.

(** The user is a pointer: the caller's object gets the reference too. *)
Definition ensureTokenBlacklistSecret (c : client) (user : User) : M W error (Secret * User) :=
  let name := GetInvalidTokensReferenceSecretName user in
  existingSecret ← getOrCreateBlacklistSecret c name;
  match user_InvalidTokensReference user with
  | Some _ => mret (existingSecret, user)
  | None =>
      let user := user_with_invalid_tokens (Some (MkSecretRef name KubermaticNamespace)) user in
      user ← mapErr (EWrap "failed to update user: ") (kupdate KUser c user);
      mret (existingSecret, user)
  end.

Definition clearExpiredTokens (tokens : list blacklistToken) : M W error (list blacklistToken) :=
  foldM (fun blockedTokens blockedToken =>
    n ← now;
    mret (if (n <? blt_Expiry blockedToken)%Z then blockedTokens ++ [blockedToken]
          else blockedTokens)) [] tokens.

(** [if len(tokenList) > 0 { json.Unmarshal(...) }]. *)
Definition decodeTokens (tokenList : string) : result error (list blacklistToken) :=
  if negb (is_empty tokenList) then unmarshalTokens tokenList else Ok [].

Definition UserProvider_InvalidateToken (user : option User) (token : string) (expiry : time)
    : M W error unit :=
  match user with
  | None => throw (apierrors_NewBadRequest "user cannot be nil")
  | Some user =>
      _ ← throwIf (is_empty token) (apierrors_NewBadRequest "token cannot be empty");
      su ← ensureTokenBlacklistSecret Privileged user;
      let secret := su.1 in
      match secret_lookup secret TokenBlacklist with
      | None => throw (ENew ("secret " +:+ meta_Name (secret_meta secret) +:+ " has no key " +:+
                             TokenBlacklist))
      | Some tokenList =>
          blockedTokens ← lift (decodeTokens tokenList);
          blockedTokens ← clearExpiredTokens (blockedTokens ++ [MkBlacklistToken token expiry]);
          let tokenJSON := marshalTokens blockedTokens in
          let secret := secret_with_data (Some {[ TokenBlacklist := tokenJSON ]}) secret in
          _ ← kupdate KSecret Privileged secret;
          mret tt
      end
  end.

Definition UserProvider_GetInvalidatedTokens (user : option User) : M W error (list string) :=
  match user with
  | None => throw (apierrors_NewBadRequest "user cannot be nil")
  | Some user =>
      match user_InvalidTokensReference user with
      | None => mret []
      | Some ref =>
          tokenList ← SecretKeySelectorValueFuncFactory Privileged (Some ref) TokenBlacklist;
          blockedTokens ← lift (decodeTokens tokenList);
          mret (blt_Token <$> blockedTokens)
      end
  end.

Definition UserProvider_List : M W error (list User) := klist KUser Privileged Everything.

#[export] Instance kubernetesUserProvider : UserProvider W := {|
  users_UserByEmail := UserProvider_UserByEmail;
  users_CreateUser := UserProvider_CreateUser;
  users_UpdateUser := UserProvider_UpdateUser;
  users_UserByID := UserProvider_UserByID;
  users_InvalidateToken := UserProvider_InvalidateToken;
  users_GetInvalidatedTokens := UserProvider_GetInvalidatedTokens;
  users_List := UserProvider_List |}.
End users.

(** ** Lemmas *)

Section users_proofs.
Context {W : Type} {EL : ErrorLib} {P : SDK} {API : KubeAPI W} {ST : Store W}
        {LAWS : KubeAPILaws W} {PL : SDKLaws P}.
Implicit Types w : W.

Lemma UserByEmail_spec email w :
  runs (UserProvider_UserByEmail email) w (fun r w' => same_store w w' /\
    match r with
    | Ok u => registered w u /\ EqualFold (user_Email u) email = true
    | Err e => ListsSucceed W -> e = ErrNotFound /\
        forall u, registered w u -> EqualFold (user_Email u) email = false
    | Panic => False
    end).
Proof.
  unfold UserProvider_UserByEmail. runs_call (klist_privileged_spec KUser).
  destruct Hcall as [Hs Hl]. destruct r as [l|e|]; cbn [andThen]; [|by split|done].
  destruct (List.find _ l) as [u|] eqn:E; runs_step; (split; [done|]).
  - apply List_find_some in E as [Hu He]. by apply (elem_of_listed_all _ _ _ _ Hl) in Hu.
  - intros _. split; [done|]. intros u Hu%(elem_of_listed_all _ _ _ _ Hl).
    by apply (List_find_none _ _ _ E).
Qed.

Lemma UserByID_spec id w :
  runs (UserProvider_UserByID id) w (fun r w' => same_store w w' /\
    match r with
    | Ok u => view KUser w !! ("", id) = Some u
    | Err e => apierrors_IsNotFound e = true -> view KUser w !! ("", id) = None
    | Panic => False
    end).
Proof.
  unfold UserProvider_UserByID. runs_call (kget_spec KUser). destruct Hcall as [Hs Hg].
  split; [done|]. destruct r as [u|e|]; [by destruct Hg|done|done].
Qed.

Lemma users_List_sound w :
  runs UserProvider_List w (fun r w' => same_store w w' /\
    match r with
    | Ok l => forall u, u ∈ l <-> registered w u
    | Err _ => ~ ListsSucceed W
    | Panic => False
    end).
Proof.
  unfold UserProvider_List. runs_call (klist_privileged_spec KUser). destruct Hcall as [Hs Hl].
  split; [done|]. destruct r as [l|e|]; [|done|done].
  intros u. apply (elem_of_listed_all _ _ _ _ Hl).
Qed.

(** The object of a user is named after the hash of the lower-case email. *)
Lemma CreateUser_spec name email groups w :
  runs (UserProvider_CreateUser name email groups) w (fun r w' =>
    match r with
    | Ok u => key_of KUser u = ("", sha256_hex (ToLower email)) /\ name <> "" /\ email <> "" /\
        user_Name u = name /\ user_Email u = ToLower email /\ user_Groups u = groups /\
        IsProjectServiceAccount (ToLower email) = false /\
        (user_IsAdmin u = true <-> view KUser w = ∅) /\ created KUser w w' u
    | Err _ => same_store w w'
    | Panic => False
    end).
Proof.
  unfold UserProvider_CreateUser. do 2 runs_step; cbn [andThen]; [done|].
  do 2 runs_step; cbn [andThen]; [done|].
  match goal with H : _ || _ = false |- _ =>
    apply orb_false_iff in H as [Hn%is_empty_false He%is_empty_false] end.
  runs_call (klist_privileged_spec KUser).
  destruct Hcall as [Hs Hl]. destruct r as [l|e|]; cbn [andThen]; [|done|done].
  set (u0 := if bool_decide _ then _ else _).
  assert (key_of KUser u0 = ("", sha256_hex (ToLower email)) /\ user_Name u0 = name /\
          user_Email u0 = ToLower email /\ user_Groups u0 = groups /\
          (user_IsAdmin u0 = true <-> view KUser w = ∅)) as (K1 & K2 & K3 & K4 & K5).
  { rewrite <- (empty_listed KUser w l Hl). unfold u0. case_bool_decide as Hlen.
    - apply length_zero_iff_nil in Hlen as ->. by split_and!.
    - split_and!; try done. cbn. split; [done|]. by intros ->. }
  clearbody u0. runs_call (kcreate_spec KUser). destruct r as [u|e|]; [|destruct Hcall; by etrans|done].
  destruct Hcall as (_ & Hst & Hc). rewrite (strip_key _ _ _ Hst).
  apply strip_user in Hst as (S1 & S2 & S3 & S4 & _).
  rewrite S1, S2, S3, S4, Hs. rewrite Hs in K5. done.
Qed.

Lemma UpdateUser_spec u w :
  runs (UserProvider_UpdateUser u) w (fun r w' =>
    match r with
    | Ok u' => strip KUser u' = strip KUser u /\ user_LastSeen u' = trunc_second (user_LastSeen u) /\
        updated KUser w w' u'
    | Err _ => same_except KUser w w'
    | Panic => False
    end).
Proof.
  unfold UserProvider_UpdateUser. runs_call (kupdate_spec KUser).
  destruct r as [u1|e|]; cbn [andThen]; [|by apply same_store_except|done].
  destruct Hcall as (_ & Hst & Hup & _). destruct Hup as ((old & Hold & Huid) & Hv & Hex).
  runs_call (kpatch_status_spec KUser).
  destruct r as [u2|e|]; [| |done].
  - destruct Hcall as (Hls & Hk & Hup2 & Hst2). destruct Hup2 as ((old2 & Hold2 & Huid2) & Hv2 & Hex2).
    set (u1' := user_with_last_seen (user_LastSeen u) u1) in *.
    assert (key_of KUser u1' = key_of KUser u1) as Hk1 by done.
    assert (strip KUser u2 = strip KUser u1) as Hst3.
    { apply Hst2. by rewrite Hv, Hk1, lookup_insert_eq. }
    split_and!; [by rewrite Hst3|done|]. split_and!.
    + exists old. rewrite Hk, Hk1. split; [done|]. rewrite Huid2.
      rewrite Hk, Hk1, Hv, lookup_insert_eq in Hold2. injection Hold2 as <-. done.
    + rewrite Hv2, Hv, Hk, Hk1. by rewrite insert_insert_eq.
    + intros k Hk'. by rewrite Hex, Hex2.
  - intros k Hk'. rewrite Hex by done. by apply Hcall.
Qed.

Lemma decodeTokens_no_panic s : decodeTokens s <> Panic.
Proof. unfold decodeTokens. destruct (negb _); [apply unmarshal_no_panic|done]. Qed.

Lemma decodeTokens_marshal l :
  Forall encodable l -> decodeTokens (marshalTokens l) = Ok (blt_trunc <$> l).
Proof.
  intros Hl. unfold decodeTokens.
  rewrite (proj2 (is_empty_false _) (marshal_nonempty l)). by apply unmarshal_marshalTokens.
Qed.

(** The tokens a secret lists. *)
Definition secret_tokens w (n : key) (l : list blacklistToken) : Prop :=
  exists s data, view KSecret w !! n = Some s /\ secret_lookup s TokenBlacklist = Some data /\
    decodeTokens data = Ok l.

Lemma SecretKeySelectorValueFuncFactory_spec ref k w :
  runs (SecretKeySelectorValueFuncFactory Privileged (Some ref) k) w (fun r w' => same_store w w' /\
    match r with
    | Ok v => exists s, view KSecret w !! (ref_Namespace ref, ref_Name ref) = Some s /\
                secret_lookup s k = Some v
    | Err _ => True
    | Panic => False
    end).
Proof.
  unfold SecretKeySelectorValueFuncFactory. do 3 (runs_guard; [done|]).
  runs_call (kget_spec KSecret). destruct Hcall as [Hs Hg].
  destruct r as [s|e|]; cbn [andThen]; [|done|done]. destruct Hg as [Hg _].
  destruct (secret_lookup s k) as [v|] eqn:E; runs_step; eauto.
Qed.

Lemma GetInvalidatedTokens_spec user w :
  runs (UserProvider_GetInvalidatedTokens user) w (fun r w' => same_store w w' /\
    match r with
    | Ok l => exists u, user = Some u /\
        match user_InvalidTokensReference u with
        | None => l = []
        | Some ref => exists bts, secret_tokens w (ref_Namespace ref, ref_Name ref) bts /\
                        l = blt_Token <$> bts
        end
    | Err _ => True
    | Panic => False
    end).
Proof.
  unfold UserProvider_GetInvalidatedTokens. destruct user as [u|]; [|by runs_step].
  destruct (user_InvalidTokensReference u) as [ref|] eqn:Eu;
    [|runs_step; split; [done|]; exists u; by rewrite Eu].
  runs_call SecretKeySelectorValueFuncFactory_spec. destruct Hcall as [Hs Hr].
  destruct r as [data|e|]; cbn [andThen]; [|done|done]. destruct Hr as (s & Hv & Hd).
  do 2 runs_step. destruct (decodeTokens data) as [bts|e|] eqn:E; cbn [andThen];
    [|done|by apply decodeTokens_no_panic in E].
  runs_step. split; [done|]. exists u. rewrite Eu. split; [done|]. exists bts.
  split; [by exists s, data|done].
Qed.

(** A token is dropped only when a reading of the clock is past its expiry. *)
Definition expired_at_some_reading (t : blacklistToken) : Prop :=
  exists w n, (now (W:=W) w).1 = Ok n /\ (blt_Expiry t <= n)%Z.

Lemma clearExpiredTokens_spec l w :
  runs (clearExpiredTokens l) w (fun r w' => same_store w w' /\
    exists kept, r = Ok kept /\ sublist kept l /\
      forall t, t ∈ l -> t ∈ kept \/ expired_at_some_reading t).
Proof.
  unfold clearExpiredTokens.
  apply (runs_foldM _ (fun seen kept w' => same_store w w' /\ sublist kept seen /\
           forall t, t ∈ seen -> t ∈ kept \/ expired_at_some_reading t)).
  - split_and!; [done|done|]. intros t Ht. by apply elem_of_nil in Ht.
  - intros seen t rest kept w1 _ (Hs & Hsub & Hk).
    apply runs_bind, runs_intro. intros r w2 Hr.
    pose proof (runs_elim _ _ _ _ _ (now_spec w1) Hr) as [Hs' [n ->]]. cbn [andThen].
    runs_step. split_and!; [by etrans| |].
    + destruct (n <? _)%Z; [by apply sublist_app|by apply sublist_inserts_r].
    + intros t' [Ht'| ->]%elem_of_snoc.
      * destruct (Hk t' Ht') as [?|?]; [left|by right]. destruct (n <? _)%Z; set_solver.
      * destruct (Z.ltb_spec n (blt_Expiry t)); [left; set_solver|right].
        exists w1, n. by rewrite Hr.
  - intros kept w1 (Hs & Hsub & Hk). eauto.
Qed.

(** The secret of a user's blacklist, and the reference to it. *)
Definition own_key (user : User) : key :=
  (KubermaticNamespace, GetInvalidTokensReferenceSecretName user).
Definition own_ref (user : User) : SecretRef :=
  MkSecretRef (GetInvalidTokensReferenceSecretName user) KubermaticNamespace.

(** Afterwards the stored user refers to a blacklist: [user] did already, or
    the stored object does now. *)
Definition refers (w w' : W) (user : User) : Prop :=
  match user_InvalidTokensReference user with
  | Some _ => view KUser w' = view KUser w
  | None => exists u', view KUser w' = <[key_of KUser user := u']> (view KUser w) /\
              user_InvalidTokensReference u' = Some (own_ref user) /\ user_Email u' = user_Email user
  end.

Definition blacklist_secret (w w' : W) (user : User) (s : Secret) : Prop :=
  view KSecret w' !! own_key user = Some s /\ key_of KSecret s = own_key user /\
  (view KSecret w !! own_key user = Some s \/
   view KSecret w !! own_key user = None /\ secret_lookup s TokenBlacklist = Some "").

Lemma create_blacklist_secret_spec user w :
  runs (kcreate KSecret Privileged
         (MkSecret (meta_with_namespace KubermaticNamespace
                      (metaNamed (GetInvalidTokensReferenceSecretName user))) "Opaque"
            (Some {[ TokenBlacklist := "" ]}))) w
    (fun r w' => view KUser w = view KUser w' /\
       match r with
       | Ok s => blacklist_secret w w' user s
       | Err _ => True
       | Panic => False
       end).
Proof.
  set (fresh := MkSecret (meta_with_namespace _ _) _ _).
  runs_call (kcreate_spec KSecret). destruct r as [s|e|]; [|by destruct Hcall as [[? _] _]|done].
  destruct Hcall as (_ & Hst & Hnew & Hv & Hex). pose proof (strip_key _ _ _ Hst) as Hk.
  change (key_of KSecret fresh) with (own_key user) in Hk. rewrite Hk in Hnew, Hv.
  split; [by apply Hex|]. split_and!; [by rewrite Hv, lookup_insert_eq|done|right].
  apply strip_secret in Hst as [Hd _]. unfold secret_lookup. rewrite Hd. cbn.
  by rewrite lookup_singleton_eq.
Qed.

Lemma getOrCreateBlacklistSecret_spec user w :
  runs (getOrCreateBlacklistSecret Privileged (GetInvalidTokensReferenceSecretName user)) w
    (fun r w' => view KUser w = view KUser w' /\
       match r with
       | Ok s => blacklist_secret w w' user s
       | Err _ => True
       | Panic => False
       end).
Proof.
  unfold getOrCreateBlacklistSecret. do 2 runs_step. runs_call (kget_spec KSecret).
  destruct Hcall as [[Hs _] Hf]. rewrite Hs in Hf.
  assert (runs (mapErr (EWrap "failed to create token blacklist secret: ")
             (kcreate KSecret Privileged (MkSecret (meta_with_namespace KubermaticNamespace
                (metaNamed (GetInvalidTokensReferenceSecretName user))) "Opaque"
               (Some {[ TokenBlacklist := "" ]})))) w0
       (fun r w' => view KUser w = view KUser w' /\
          match r with Ok s => blacklist_secret w w' user s | Err _ => True | Panic => False end))
    as Hcreate.
  { runs_step. runs_call create_blacklist_secret_spec. rewrite Hs.
    destruct r0 as [s|e|]; [|by destruct Hcall|by destruct Hcall].
    unfold blacklist_secret. by rewrite Hs. }
  destruct r as [s|e|]; cbn [andThen]; [| |done]; apply runs_bind.
  - runs_step. cbn [andThen]. destruct (is_empty _); [exact Hcreate|]. runs_step. split; [done|].
    destruct Hf as [Hf _]. unfold blacklist_secret. rewrite Hs.
    split_and!; [done|by eapply view_key|by left].
  - destruct (apierrors_IsNotFound e) eqn:E; runs_step; cbn [andThen]; [exact Hcreate|].
    split; [done|done].
Qed.

Lemma ensureTokenBlacklistSecret_spec user w :
  runs (ensureTokenBlacklistSecret Privileged user) w (fun r w' =>
    match r with
    | Ok su => blacklist_secret w w' user su.1 /\ refers w w' user
    | Err _ => True
    | Panic => False
    end).
Proof.
  unfold ensureTokenBlacklistSecret. runs_call getOrCreateBlacklistSecret_spec.
  destruct Hcall as [Hu Hs]. destruct r as [s|e|]; cbn [andThen]; [|done|done].
  unfold refers. destruct (user_InvalidTokensReference user) as [ref|]; [by runs_step|].
  do 2 runs_step. runs_call (kupdate_spec KUser). destruct r as [u|e|]; cbn [andThen]; [|done|done].
  runs_step. destruct Hcall as (_ & Hst & (_ & Hv & Hex) & _). split.
  - unfold blacklist_secret in *. by rewrite <- (Hex KSecret).
  - exists u. rewrite Hv, (strip_key _ _ _ Hst), Hu. split; [done|].
    apply strip_user in Hst as (_ & He & _ & _ & _ & _ & Hr & _). by rewrite Hr, He.
Qed.

(** The tokens that were listed, none when there was no secret. *)
Definition tokens_before w (user : User) (old : list blacklistToken) : Prop :=
  secret_tokens w (own_key user) old \/ (view KSecret w !! own_key user = None /\ old = []).

Lemma InvalidateToken_spec user token expiry w :
  runs (UserProvider_InvalidateToken (Some user) token expiry) w (fun r w' =>
    match r with
    | Ok _ => token <> "" /\ refers w w' user /\
        exists old kept s, tokens_before w user old /\
          sublist kept (old ++ [MkBlacklistToken token expiry]) /\
          (forall t, t ∈ old ++ [MkBlacklistToken token expiry] ->
             t ∈ kept \/ expired_at_some_reading t) /\
          view KSecret w' !! own_key user = Some s /\
          secret_lookup s TokenBlacklist = Some (marshalTokens kept)
    | Err _ => True
    | Panic => False
    end).
Proof.
  unfold UserProvider_InvalidateToken. runs_guard; [done|].
  runs_call ensureTokenBlacklistSecret_spec. destruct r as [su|e|]; cbn [andThen]; [|done|done].
  destruct Hcall as [(Hv & Hk & Hbefore) Href]. destruct su as [s u]. cbn [fst] in *.
  destruct (secret_lookup s TokenBlacklist) as [data|] eqn:El; [|by runs_step].
  do 2 runs_step. destruct (decodeTokens data) as [old|e|] eqn:Ed; cbn [andThen];
    [|done|by apply decodeTokens_no_panic in Ed].
  runs_call clearExpiredTokens_spec. destruct Hcall as ([Hs _] & kept & -> & Hsub & Hkept).
  cbn [andThen]. runs_call (kupdate_spec KSecret). destruct r as [s'|e|]; cbn [andThen]; [|done|done].
  runs_step. destruct Hcall as (_ & Hst & (_ & Hv' & Hex) & _).
  set (s1 := secret_with_data _ s) in *.
  assert (key_of KSecret s1 = own_key user) as Hk1 by done.
  split; [by apply is_empty_false|]. split.
  { unfold refers in *. by rewrite <- (Hex KUser), <- Hs. }
  exists old, kept, s'. split_and!; [|done|done| |].
  - destruct Hbefore as [Hb|[Hb Hb']]; [left; by exists s, data|right]. split; [done|].
    injection Hb' as ->. by injection Ed as <-.
  - by rewrite Hv', (strip_key _ _ _ Hst), Hk1, lookup_insert_eq.
  - apply strip_secret in Hst as [Hd _]. unfold secret_lookup. rewrite Hd. cbn.
    by rewrite lookup_singleton_eq.
Qed.

(** The token is on the list of the stored user, in any world that stores the same. *)
Lemma InvalidateToken_effect user token expiry w :
  (forall w1 t, (now (W:=W) w1).1 = Ok t -> (t < expiry)%Z) ->
  (forall old, tokens_before w user old ->
     Forall encodable (old ++ [MkBlacklistToken token expiry])) ->
  view KUser w !! key_of KUser user = Some user ->
  (user_InvalidTokensReference user = None \/
   user_InvalidTokensReference user = Some (own_ref user)) ->
  runs (UserProvider_InvalidateToken (Some user) token expiry) w (fun r w' =>
    match r with
    | Ok _ => exists u', view KUser w' = <[key_of KUser user := u']> (view KUser w) /\
        user_Email u' = user_Email user /\
        forall w1, same_store w' w1 ->
        runs (UserProvider_GetInvalidatedTokens (Some u')) w1 (fun r' _ =>
          match r' with Ok l => token ∈ l | Err _ => True | Panic => False end)
    | Err _ => True
    | Panic => False
    end).
Proof.
  intros Hnow Henc Hst Href. eapply runs_mono; [apply InvalidateToken_spec|]. cbn beta.
  intros [u|e|] w'; [|done|done]. intros (_ & Hr & old & kept & s & Hb & Hsub & Hk & Hv & Hd).
  assert (exists u', view KUser w' = <[key_of KUser user := u']> (view KUser w) /\
            user_InvalidTokensReference u' = Some (own_ref user) /\
            user_Email u' = user_Email user) as (u' & Hu' & Hr' & He).
  { unfold refers in Hr. destruct Href as [E|E]; rewrite E in Hr; [done|].
    exists user. by rewrite Hr, insert_id. }
  exists u'. split; [done|]. split; [done|]. intros w3 Hw3.
  eapply runs_mono; [apply GetInvalidatedTokens_spec|]. cbn beta.
  intros [l|e|] w2 [_ H]; [|done|done]. destruct H as (u0 & [= <-] & H). rewrite Hr' in H.
  destruct H as (bts & (s' & data & Hs' & Hd' & Hdec) & ->). rewrite <- Hw3 in Hs'.
  change (ref_Namespace (own_ref user), ref_Name (own_ref user)) with (own_key user) in Hs'.
  assert (s' = s) as -> by (assert (Some s' = Some s) as [= ->] by (rewrite <- Hs'; exact Hv); done).
  rewrite Hd in Hd'. injection Hd' as <-. rewrite decodeTokens_marshal in Hdec.
  - injection Hdec as <-. apply list_elem_of_fmap.
    exists (blt_trunc (MkBlacklistToken token expiry)). split; [done|].
    apply list_elem_of_fmap_2.
    destruct (Hk (MkBlacklistToken token expiry)) as [?|(w1 & n & Hn & Hle)]; [|done|].
    { apply elem_of_snoc. by right. }
    cbn in Hle. apply Hnow in Hn. lia.
  - apply Forall_forall. intros t Ht. eapply Forall_forall; [by apply Henc|].
    by eapply sublist_elem_of.
Qed.

#[export] Instance kubernetesUserProvider_laws : UserProviderLaws W.
Proof.
  split.
  - intros. apply UserByEmail_spec.
  - intros. apply UserByID_spec.
  - intros. apply users_List_sound.
  - intros name email groups w. eapply runs_mono; [apply CreateUser_spec|].
    intros [u|e|] w'; [|done|done]. by intros [_ H].
  - intros. apply UpdateUser_spec.
  - intros user w. eapply runs_mono; [apply GetInvalidatedTokens_spec|].
    intros [u|e|] w'; naive_solver.
Qed.
End users_proofs.

(** ** Properties *)

(** Every regular user is stored under the hash of its lower-case email. *)
Definition users_keyed {W} {ST : Store W} {P : SDK} (w : W) : Prop :=
  forall n u, view KUser w !! n = Some u -> IsProjectServiceAccount (user_Email u) = false ->
    n = ("", sha256_hex (ToLower (user_Email u))).

Section users_properties.
Context {W : Type} {EL : ErrorLib} {P : SDK} {API : KubeAPI W} {ST : Store W}
        {LAWS : KubeAPILaws W} {PL : SDKLaws P}.
Implicit Types w : W.


(** A token that was invalidated and has not expired is blocked: once
    InvalidateToken succeeded, GetInvalidatedTokens of the stored user lists it,
    if it answers at all. *)
Theorem InvalidateToken_blocks user token expiry w :
  (forall w1 t, (now (W:=W) w1).1 = Ok t -> (t < expiry)%Z) ->
  (forall old, tokens_before w user old ->
     Forall encodable (old ++ [MkBlacklistToken token expiry])) ->
  view KUser w !! key_of KUser user = Some user ->
  (user_InvalidTokensReference user = None \/
   user_InvalidTokensReference user = Some (own_ref user)) ->
  runs (UserProvider_InvalidateToken (Some user) token expiry) w (fun r w' =>
    match r with
    | Ok _ => exists u', view KUser w' !! key_of KUser user = Some u' /\
        runs (UserProvider_GetInvalidatedTokens (Some u')) w' (fun r' _ =>
          match r' with Ok l => token ∈ l | Err _ => True | Panic => False end)
    | Err _ => True
    | Panic => False
    end).
Proof.
  intros Hnow Henc Hst Href. eapply runs_mono; [by apply InvalidateToken_effect|]. cbn beta.
  intros [u|e|] w'; [|done|done]. intros (u' & Hv & _ & Hu'). exists u'.
  split; [by rewrite Hv, lookup_insert_eq|by apply Hu'].
Qed.

(** UpdateUser writes the object and its status: a success stores exactly
    the given user, last-seen time included (to the second), and touches nothing else. *)
Theorem UpdateUser_stores user w :
  runs (UserProvider_UpdateUser user) w (fun r w' =>
    match r with
    | Ok u => strip KUser u = strip KUser user /\ user_LastSeen u = trunc_second (user_LastSeen user) /\
        updated KUser w w' u
    | Err _ => same_except KUser w w'
    | Panic => False
    end).
Proof. apply UpdateUser_spec. Qed.
End users_properties.

Definition emptyMem : Mem := mem_of (fun _ => []) 0%Z [] (fun _ _ _ _ => true).


Lemma UpdateUser_stores_witness :
  let run := UserProvider_UpdateUser (user_with_last_seen 7000000000%Z bob) sample in
  exists u, run.1 = Ok u /\ user_LastSeen u = 7000000000%Z /\ updated KUser sample run.2 u.
Proof.
  intros run. run_ok run u E.
  exists u. split; [exact E|].
  run_thm run E (UpdateUser_stores (user_with_last_seen 7000000000%Z bob) sample) H. tauto.
Defined.

(** The installation at a fixed time. *)
#[local] Instance frozenAPI : KubeAPI Mem := {|
  now := fun w => (Ok 1000000000000%Z, w);
  rand_string := rand_string;
  new_client := new_client;
  kget := kget;
  klist := klist;
  kcreate := kcreate;
  kupdate := kupdate;
  kpatch := kpatch;
  kpatch_status := kpatch_status;
  kdelete := kdelete |}.

#[local] Instance frozenAPI_laws : KubeAPILaws Mem (API := frozenAPI).
Proof.
  destruct memAPI_laws. split; try assumption. intros w. split; [done|]. by eexists.
Qed.

Lemma InvalidateToken_blocks_witness :
  let run := UserProvider_InvalidateToken (API := frozenAPI) (Some bob) "eyJhbGciOi" 2000000000000 sample in
  (exists u, run.1 = Ok u) /\
  exists u', view KUser run.2 !! ("", "u-bob") = Some u' /\
    runs (UserProvider_GetInvalidatedTokens (API := frozenAPI) (Some u')) run.2 (fun r _ =>
      match r with Ok l => "eyJhbGciOi" ∈ l | Err _ => True | Panic => False end).
Proof.
  intros run. run_ok run u E. split; [by exists u|].
  assert (forall old, tokens_before sample bob old -> old = []) as Hold.
  { intros old [(s & data & Hs & _)|[_ H]]; [|exact H]. vm_compute in Hs. discriminate Hs. }
  pose proof (InvalidateToken_blocks (API := frozenAPI) bob "eyJhbGciOi" 2000000000000 sample) as H.
  unfold runs at 1 in H. fold run in H. rewrite E in H. apply H.
  - intros w1 t [= <-]. reflexivity.
  - intros old ->%Hold. constructor; [|constructor]. split; [reflexivity|].
    split; [discriminate|reflexivity].
  - vm_compute. reflexivity.
  - left. reflexivity.
Defined.
