(* ===== verification/Projects.v ===== *)
(** The provider of projects (provider/kubernetes/project.go), the provider of
    the global settings (provider/kubernetes/settings.go), and the label filter
    of handler/v1/label/label.go. *)
From S2P Require Export Users.

(** ** Labels *)

Section labels.
Context {P : SDK}.

Definition ProjectResourceType : string := "project".
Definition ClusterResourceType : string := "cluster".
Definition NodeDeploymentResourceType : string := "nodedeployment".

Definition systemLabels : gmap string (list string) :=
  list_to_map [(ProjectResourceType, []);
    (ClusterResourceType, [WorkerNameLabelKey; ProjectIDLabelKey; IsCredentialPresetLabelKey]);
    (NodeDeploymentResourceType, [])].

Definition FilterLabels (resource : string) (labels : gmap string string) : gmap string string :=
  foldl (fun labels label => delete label labels) labels
    (default [] (systemLabels !! resource)).

Lemma lookup_foldl_delete (ls : list string) (m : gmap string string) k :
  foldl (fun m l => delete l m) m ls !! k = if decide (k ∈ ls) then None else m !! k.
Proof.
  revert m. induction ls as [|l ls IH]; intros m; cbn; [done|].
  rewrite IH. destruct (decide (k = l)) as [->|Hne].
  - rewrite lookup_delete_eq. rewrite (decide_True _ (P := l ∈ l :: ls)) by set_solver.
    by destruct (decide _).
  - rewrite lookup_delete_ne by done.
    destruct (decide (k ∈ ls)); [rewrite decide_True by set_solver|rewrite decide_False by set_solver]; done.
Qed.

Lemma FilterLabels_lookup resource labels k :
  FilterLabels resource labels !! k =
  if decide (k ∈ default [] (systemLabels !! resource)) then None else labels !! k.
Proof. apply lookup_foldl_delete. Qed.

Lemma cluster_labels :
  default [] (systemLabels !! ClusterResourceType)
  = [WorkerNameLabelKey; ProjectIDLabelKey; IsCredentialPresetLabelKey].
Proof. reflexivity. Qed.

Lemma filterProjectLabels_lookup labels k :
  FilterLabels ClusterResourceType labels !! k =
  if decide (k ∈ [WorkerNameLabelKey; ProjectIDLabelKey; IsCredentialPresetLabelKey])
  then None else labels !! k.
Proof. rewrite FilterLabels_lookup. by rewrite cluster_labels. Qed.
End labels.

(** ** Projects *)

Section projects.
Context {W : Type} {EL : ErrorLib} {P : SDK} {API : KubeAPI W}.

Definition ProjectProvider_New (projectSpec_Name : string)
    (projectSpec_AllowedOperatingSystems : gmap string bool) (labels : gmap string string)
    : M W error Project :=
  name ← rand_string 10;
  let project := MkProject (meta_with_labels labels (metaNamed name)) projectSpec_Name
                   projectSpec_AllowedOperatingSystems "" in
  kcreate KProject Privileged project.

(** [if userInfo == nil { return nil, ... }]. *)
Definition requireUser {A} (userInfo : option UserInfo) (k : UserInfo -> M W error A) : M W error A :=
  match userInfo with
  | None => throw (ENew "a user is missing but required")
  | Some userInfo => k userInfo
  end.

Definition ProjectProvider_Update (userInfo : option UserInfo) (newProject : Project)
    : M W error Project :=
  requireUser userInfo (fun userInfo =>
    masterImpersonatedClient ← createImpersonationClientWrapperFromUserInfo userInfo;
    kupdate KProject masterImpersonatedClient newProject).

Definition ProjectProvider_Delete (userInfo : option UserInfo) (projectInternalName : string)
    : M W error unit :=
  requireUser userInfo (fun userInfo =>
    masterImpersonatedClient ← createImpersonationClientWrapperFromUserInfo userInfo;
    existingProject ← kget KProject masterImpersonatedClient ("", projectInternalName);
    kdelete KProject masterImpersonatedClient (key_of KProject existingProject)).

Definition notInitialized (options : ProjectGetOptions) (project : Project) : bool :=
  negb (IncludeUninitialized options) && negb (bool_decide (project_Phase project = ProjectActive)).

Definition ProjectProvider_Get (userInfo : option UserInfo) (projectInternalName : string)
    (options : option ProjectGetOptions) : M W error Project :=
  requireUser userInfo (fun userInfo =>
    let options := default {| IncludeUninitialized := true |} options in
    masterImpersonatedClient ← createImpersonationClientWrapperFromUserInfo userInfo;
    existingProject ← kget KProject masterImpersonatedClient ("", projectInternalName);
    if notInitialized options existingProject
    then throw (apierrors_NewServiceUnavailable "Project is not initialized yet")
    else mret existingProject).

Definition PrivilegedProjectProvider_GetUnsecured (projectInternalName : string)
    (options : option ProjectGetOptions) : M W error Project :=
  let options := default {| IncludeUninitialized := true |} options in
  project ← kget KProject Privileged ("", projectInternalName);
  if notInitialized options project
  then throw (apierrors_NewServiceUnavailable "Project is not initialized yet")
  else mret project.

Definition PrivilegedProjectProvider_DeleteUnsecured (projectInternalName : string)
    : M W error unit :=
  existingProject ← kget KProject Privileged ("", projectInternalName);
  kdelete KProject Privileged (key_of KProject existingProject).

Definition PrivilegedProjectProvider_UpdateUnsecured (project : Project) : M W error Project :=
  kupdate KProject Privileged project.

Definition filterProjectLabels (project : Project) : Project :=
  let m := project_meta project in
  project_with_meta (meta_with_labels (FilterLabels ClusterResourceType (meta_Labels m)) m) project.

Definition ProjectProvider_List (options : option ProjectListOptions) : M W error (list Project) :=
  let options := default {| opt_ProjectName := "" |} options in
  projects ← klist KProject Privileged Everything;
  mret (filterProjectLabels <$>
    List.filter (fun project =>
      negb (negb (is_empty (opt_ProjectName options)) &&
            negb (bool_decide (project_Name project = opt_ProjectName options)))) projects).

(** ** Settings: the fields that concern projects *)

Definition createDefaultGlobalSettings : M W error KubermaticSetting :=
  kcreate KSetting Privileged (MkSetting (metaNamed GlobalSettingsName) false false false 0
    true (Some (MkWebTerminalOptions (Some false) false))).

Definition GetGlobalSettings : M W error KubermaticSetting :=
  found ← attempt (kget KSetting Privileged ("", GlobalSettingsName));
  match found with
  | inr settings => mret settings
  | inl err => if apierrors_IsNotFound err then createDefaultGlobalSettings else throw err
  end.

Definition UpdateGlobalSettings (userInfo : UserInfo) (settings : KubermaticSetting)
    : M W error KubermaticSetting :=
  _ ← throwIf (negb (ui_IsAdmin userInfo))
        (apierrors_NewForbidden (ui_Email userInfo)
           (ENew (quote (ui_Email userInfo) +:+ " doesn't have admin rights")));
  kupdate KSetting Privileged settings.

#[export] Instance kubernetesProjectProvider : ProjectProvider W := {|
  projects_New := ProjectProvider_New;
  projects_Update := ProjectProvider_Update;
  projects_Delete := ProjectProvider_Delete;
  projects_Get := ProjectProvider_Get;
  projects_List := ProjectProvider_List |}.

#[export] Instance kubernetesPrivilegedProjectProvider : PrivilegedProjectProvider W := {|
  projects_GetUnsecured := PrivilegedProjectProvider_GetUnsecured;
  projects_DeleteUnsecured := PrivilegedProjectProvider_DeleteUnsecured;
  projects_UpdateUnsecured := PrivilegedProjectProvider_UpdateUnsecured |}.

#[export] Instance kubernetesSettingsProvider : SettingsProvider W := {|
  settings_GetGlobalSettings := GetGlobalSettings;
  settings_UpdateGlobalSettings := UpdateGlobalSettings |}.

Context {ST : Store W} {LAWS : KubeAPILaws W}.
Implicit Types w : W.

Lemma phase_accepted_spec options p :
  notInitialized (default {| IncludeUninitialized := true |} options) p = false ->
  phase_accepted options p = true.
Proof.
  unfold notInitialized, phase_accepted. destruct options as [o|]; cbn; [|done].
  destruct (IncludeUninitialized o), (bool_decide _); done.
Qed.

#[export] Instance kubernetesProjectProvider_laws : ProjectProviderLaws W.
Proof.
  split; cbn; intros.
  - unfold ProjectProvider_Get. destruct userInfo as [ui|]; cbn [requireUser]; [|by runs_step].
    runs_call createImpersonationClientWrapperFromUserInfo_spec. destruct Hcall as [Hs Hc].
    destruct r as [c|e|]; cbn [andThen]; [subst c|done|done].
    runs_call (kget_spec KProject). destruct Hcall as [Hs' Hg].
    assert (same_store w w1) as Hs1 by (by etrans).
    destruct r as [p|e|]; cbn [andThen]; [|done|done].
    destruct (notInitialized _ p) eqn:E; runs_step; (split; [done|]); [done|].
    exists ui. rewrite Hs. destruct Hg. auto using phase_accepted_spec.
  - unfold ProjectProvider_New. runs_call rand_string_spec. destruct Hcall as [Hs (s & -> & _)].
    cbn [andThen]. runs_call (kcreate_spec KProject).
    destruct r as [p|e|]; [|destruct Hcall; by etrans|done].
    destruct Hcall as (_ & Hst & Hc). apply strip_project in Hst as (-> & -> & ->).
    by rewrite Hs.
  - unfold ProjectProvider_Update. destruct userInfo as [ui|]; cbn [requireUser]; [|by runs_step].
    runs_call createImpersonationClientWrapperFromUserInfo_spec. destruct Hcall as [Hs Hc].
    destruct r as [c|e|]; cbn [andThen]; [subst c|done|done].
    runs_call (kupdate_spec KProject). destruct r as [p'|e|]; cbn; [|by etrans|done].
    exists ui. rewrite Hs. tauto.
  - unfold ProjectProvider_Delete. destruct userInfo as [ui|]; cbn [requireUser]; [|by runs_step].
    runs_call createImpersonationClientWrapperFromUserInfo_spec. destruct Hcall as [Hs Hc].
    destruct r as [c|e|]; cbn [andThen]; [subst c|done|done].
    runs_call (kget_spec KProject). destruct Hcall as [Hs' Hg].
    assert (same_store w w1) as Hs1 by (by etrans).
    destruct r as [p|e|]; cbn [andThen]; [|done|done]. destruct Hg as [Hg Ha].
    rewrite (view_key _ _ _ _ Hg).
    runs_call (kdelete_spec KProject). destruct r as [u|e|]; cbn; [|by etrans|done].
    exists ui. rewrite <- Hs in Ha. rewrite !Hs1. rewrite Hs1 in Ha. tauto.
  - unfold ProjectProvider_List. runs_call (klist_spec KProject). destruct Hcall as [Hs Hl].
    destruct r as [l|e|]; cbn [andThen]; [|done|done]. runs_step. split; [done|]. intros -> id. cbn.
    rewrite list_elem_of_fmap. setoid_rewrite list_elem_of_fmap. setoid_rewrite elem_of_List_filter.
    setoid_rewrite (elem_of_listed_all KProject w l). 2:{ exact Hl. }
    split; [intros (p & -> & p0 & -> & [n Hn] & _); by exists n, p0|].
    intros (n & p & Hn & <-). exists (filterProjectLabels p). split; [done|]. exists p.
    split; [done|]. split; [by exists n|done].
Qed.

#[export] Instance kubernetesPrivilegedProjectProvider_laws : PrivilegedProjectProviderLaws W.
Proof.
  split; cbn; intros.
  - unfold PrivilegedProjectProvider_GetUnsecured.
    runs_call (kget_spec KProject). destruct Hcall as [Hs Hg].
    destruct r as [p|e|]; cbn [andThen]; [|done|done].
    destruct (notInitialized _ p) eqn:E; runs_step; (split; [done|]); [done|].
    destruct Hg. auto using phase_accepted_spec.
  - unfold PrivilegedProjectProvider_DeleteUnsecured.
    runs_call (kget_spec KProject). destruct Hcall as [Hs Hg].
    destruct r as [p|e|]; cbn [andThen]; [|done|done]. destruct Hg as [Hg Ha].
    rewrite (view_key _ _ _ _ Hg).
    runs_call (kdelete_spec KProject). destruct r as [u|e|]; cbn; [|by etrans|done].
    rewrite Hs. tauto.
  - runs_call (kupdate_spec KProject). destruct r as [p'|e|]; [tauto|done|done].
Qed.

#[export] Instance kubernetesSettingsProvider_laws : SettingsProviderLaws W.
Proof.
  intros w. cbn. unfold GetGlobalSettings. do 2 runs_step.
  runs_call (kget_spec KSetting). destruct Hcall as [Hs Hg].
  destruct r as [p|e|]; cbn [andThen]; [| |done].
  - runs_step. split; [by apply same_store_except|done].
  - destruct (apierrors_IsNotFound e); [|runs_step; split; [by apply same_store_except|done]].
    unfold createDefaultGlobalSettings. runs_call (kcreate_spec KSetting).
    destruct r as [s|e'|]; [| |done]; (split; [|done]).
    + destruct Hcall as (_ & _ & _ & _ & Hex). by rewrite Hs.
    + destruct Hcall as [Hs' _]. apply same_store_except. by etrans.
Qed.

(** List answers the stored projects of the given name, all of them without
    a name, each without the labels the system reserves for itself and otherwise
    unchanged. *)
Theorem ProjectProvider_List_exact options w :
  runs (ProjectProvider_List options) w (fun r w' => same_store w w' /\
    match r with
    | Ok l => forall p, p ∈ l <-> exists n p0, view KProject w !! n = Some p0 /\
        (match options with
         | Some o => opt_ProjectName o = "" \/ project_Name p0 = opt_ProjectName o
         | None => True end) /\
        (forall k, meta_Labels (project_meta p) !! k =
           if decide (k ∈ [WorkerNameLabelKey; ProjectIDLabelKey; IsCredentialPresetLabelKey])
           then None else meta_Labels (project_meta p0) !! k) /\
        p = project_with_meta (meta_with_labels (meta_Labels (project_meta p))
              (project_meta p0)) p0
    | Err _ => ~ ListsSucceed W
    | Panic => False
    end).
Proof.
  unfold ProjectProvider_List. runs_call (klist_privileged_spec KProject). destruct Hcall as [Hs Hl].
  destruct r as [l|e|]; cbn [andThen]; [|by split|done]. runs_step. split; [done|].
  assert (forall p0 : Project, negb (negb (is_empty (opt_ProjectName (default {| opt_ProjectName := "" |} options))) &&
      negb (bool_decide (project_Name p0 = opt_ProjectName (default {| opt_ProjectName := "" |} options)))) = true <->
    match options with
    | Some o => opt_ProjectName o = "" \/ project_Name p0 = opt_ProjectName o
    | None => True end) as Hopt.
  { intros p0. rewrite negb_true_iff, andb_false_iff, !negb_false_iff, is_empty_spec, bool_decide_eq_true.
    destruct options; cbn; [done|naive_solver]. }
  intros p. rewrite list_elem_of_fmap. setoid_rewrite elem_of_List_filter. setoid_rewrite Hopt.
  setoid_rewrite (elem_of_listed_all _ _ _ _ Hl). split.
  - intros (p0 & -> & [n Hn] & Ho). exists n, p0. split_and!; [done|done| |done].
    intros k. apply filterProjectLabels_lookup.
  - intros (n & p0 & Hn & Ho & Hlab & ->). exists p0. split; [|by eauto].
    unfold filterProjectLabels. do 2 f_equal. apply map_eq. intros k.
    rewrite filterProjectLabels_lookup. apply Hlab.
Qed.
End projects.

Lemma ProjectProvider_List_exact_witness :
  let run := ProjectProvider_List (Some {| opt_ProjectName := "first" |}) sample in
  run.1 = Ok [project1] /\ exists n, view KProject sample !! n = Some project1.
Proof.
  intros run. assert (run.1 = Ok [project1]) as E by (vm_compute; reflexivity). split; [exact E|].
  run_thm run E (ProjectProvider_List_exact (Some {| opt_ProjectName := "first" |}) sample) H.
  destruct H as [_ H]. destruct (proj1 (H project1) (list_elem_of_here _ _)) as (n & p0 & Hn & _ & _ & Hp).
  exists n. rewrite Hn. f_equal. clear -Hn Hp.
  apply (lookup_sample KProject) in Hn.
  assert ((map_to_list (view KProject sample)).*2 = [project1]) as E by (vm_compute; reflexivity).
  assert (p0 ∈ [project1]) as Hin by (rewrite <- E; exact Hn). by apply list_elem_of_singleton in Hin.
Defined.
