(* ===== verification/Access.v ===== *)
(** Who may do what: provider/userinfo.go and the project functions of
    handler/v1/common/common.go, written and proved against the interfaces of
    the providers. *)
From S2P Require Export Projects.

(** ** provider/userinfo.go *)

Section userinfo.
Context {W : Type} {MAPPER : ProjectMemberMapper W}.

(** The groups of the branch [projectID == ""]; the inner test of the source is
    kept. *)
Definition idpGroups (user : User) (projectID : string) : gset string :=
  foldl (fun groups group =>
    let groupName := if negb (is_empty projectID) then group +:+ "-" +:+ projectID else group in
    {[ groupName ]} ∪ groups) ∅ (user_Groups user).

Definition UserInfoGetterFactory : UserInfoGetter W := fun ctx projectID =>
  match ctx_UserCR ctx with
  | None => throw (ENew "unable to get authenticated user object")
  | Some user =>
      gr ← (if negb (is_empty projectID) then
              groups ← mapper_MapUserToGroups user projectID;
              roles ← mapper_MapUserToRoles user projectID;
              mret (groups, roles)
            else mret (idpGroups user projectID, ∅));
      mret (MkUserInfo (user_Email user) (set_list gr.1) gr.2 (user_IsAdmin user)
              (user_IsGlobalViewer user))
  end.
End userinfo.

(** ** handler/v1/common/common.go *)

Section common.
Context {W : Type} {EL : ErrorLib} {P : SDK}
        {MEMBERS : ProjectMemberProvider W} {USERS : UserProvider W}
        {PROJECTS : ProjectProvider W} {PPROJECTS : PrivilegedProjectProvider W}.

(** One turn of the loop of GetOwnersForProject. *)
Definition addOwner (projectOwners : list ApiUser) (projectMember : UserProjectBinding)
    : M W error (list ApiUser) :=
  if bool_decide (rbac_ExtractGroupPrefix (binding_Group projectMember) = OwnerGroupNamePrefix) then
    found ← attempt (users_UserByEmail (binding_UserEmail projectMember));
    match found with
    | inl _ => mret projectOwners
    | inr user => mret (projectOwners ++ [apiUserNamed (user_Name user) (user_Email user) []])
    end
  else mret projectOwners.

Definition GetOwnersForProject (userInfo : UserInfo) (project : Project)
    : M W error (list ApiUser) :=
  allProjectMembers ← members_List userInfo project
    (Some {| MemberEmail := ""; SkipPrivilegeVerification := true |});
  foldM addOwner [] allProjectMembers.

Definition GetProject (userInfoGetter : UserInfoGetter W) (ctx : Ctx) (projectID : string)
    (options : option ProjectGetOptions) : M W error Project :=
  adminUserInfo ← userInfoGetter ctx "";
  (* check first if project exist *)
  adminProject ← projects_GetUnsecured projectID options;
  if ui_IsAdmin adminUserInfo then mret adminProject else
  userInfo ← userInfoGetter ctx projectID;
  projects_Get (Some userInfo) projectID options.

Definition ValidateUserCanModifyProject (userInfoGetter : UserInfoGetter W) (ctx : Ctx)
    (projectID : string) : M W error unit :=
  userInfo ← userInfoGetter ctx projectID;
  if negb (ui_IsAdmin userInfo) &&
     negb (bool_decide ("editors" ∈ ui_Roles userInfo) || bool_decide ("owners" ∈ ui_Roles userInfo))
  then throw (utilerrors_New 403 ("forbidden: " +:+ dquote +:+ ui_Email userInfo +:+ dquote +:+
          " doesn't have privileges to perform this action. Please contact your administrator."))
  else mret tt.
End common.

(** ** Lemmas *)

Lemma elem_of_idpGroups user g : g ∈ idpGroups user "" <-> g ∈ user_Groups user.
Proof.
  unfold idpGroups. cbn.
  enough (forall l s, g ∈ foldl (fun (s : gset string) (x : string) => {[ x ]} ∪ s) s l <->
            g ∈ l \/ g ∈ s) as -> by set_solver.
  induction l as [|x l IH]; intros s; cbn; [set_solver|]. rewrite IH. set_solver.
Qed.

Section userinfo_proofs.
Context {W : Type} {P : SDK} {ST : Store W} {MAPPER : ProjectMemberMapper W}
        {ML : ProjectMemberMapperLaws W}.
Implicit Types w : W.

(** What the getter tells of the user of the request in a project. *)
Definition info_in w (user : User) (pid : string) (ui : UserInfo) : Prop :=
  ui_Email ui = user_Email user /\ ui_IsAdmin ui = user_IsAdmin user /\
  ui_IsGlobalViewer ui = user_IsGlobalViewer user /\
  ui_Groups ui <> [] /\
  (exists bg, binding_group w (user_Email user) pid bg /\
     forall g, g ∈ ui_Groups ui <-> granted_group w user pid bg g) /\
  (if user_IsAdmin user then ui_Roles ui = {[ OwnersRole ]}
   else exists bg, binding_group w (user_Email user) pid bg /\
          forall role, role ∈ ui_Roles ui <-> granted_role w user pid bg role).

(** And outside any project. *)
Definition info_of (user : User) (ui : UserInfo) : Prop :=
  ui_Email ui = user_Email user /\ ui_IsAdmin ui = user_IsAdmin user /\
  ui_IsGlobalViewer ui = user_IsGlobalViewer user /\ ui_Roles ui = ∅ /\
  forall g, g ∈ ui_Groups ui <-> g ∈ user_Groups user.

Definition getter_info w (user : User) (pid : string) (ui : UserInfo) : Prop :=
  if is_empty pid then info_of user ui else info_in w user pid ui.

#[export] Instance info_in_proper : Proper (same_store ==> eq ==> eq ==> eq ==> iff) info_in.
Proof.
  intros w w' Hw u ? <- p ? <- ui ? <-. unfold info_in.
  destruct (user_IsAdmin u); by setoid_rewrite Hw.
Qed.
#[export] Instance getter_info_proper :
  Proper (same_store ==> eq ==> eq ==> eq ==> iff) getter_info.
Proof.
  intros w w' Hw u ? <- p ? <- ui ? <-. unfold getter_info.
  destruct (is_empty p); [done|by apply info_in_proper].
Qed.

Lemma set_list_nonempty (s : gset string) : s <> ∅ -> set_list s <> [].
Proof.
  intros Hs Hl. apply Hs. apply set_eq. intros x.
  rewrite <- elem_of_set_list, Hl. set_solver.
Qed.

Lemma UserInfoGetterFactory_spec ctx pid w :
  runs (UserInfoGetterFactory ctx pid) w (fun r w' => same_store w w' /\
    match r with
    | Ok ui => exists user, ctx_UserCR ctx = Some user /\ Sorted String.le (ui_Groups ui) /\
        getter_info w user pid ui
    | Err _ => True
    | Panic => False
    end).
Proof.
  unfold UserInfoGetterFactory, getter_info. destruct (ctx_UserCR ctx) as [user|]; [|by runs_step].
  destruct (is_empty pid) eqn:E; cbn [negb]; runs_step.
  - apply is_empty_spec in E as ->. runs_step. cbn [andThen]. runs_step. split; [done|].
    exists user. split; [done|]. split; [apply set_list_sorted|]. split_and!; try done.
    intros g. cbn. by rewrite elem_of_set_list, elem_of_idpGroups.
  - runs_call mapper_groups. destruct Hcall as [Hs Hg].
    destruct r as [gs|e|]; cbn [andThen]; [|done|done]. destruct Hg as (Hne & bg & Hbg & Hg).
    runs_call mapper_roles. destruct Hcall as [Hs' Hr].
    assert (same_store w w1) as Hs1 by (by etrans).
    destruct r as [rs|e|]; cbn [andThen]; [|done|done]. do 2 runs_step. split; [done|].
    exists user. split; [done|]. split; [apply set_list_sorted|]. unfold info_in. cbn.
    split_and!; [done|done|done|by apply set_list_nonempty| |].
    + exists bg. split; [done|]. intros g. by rewrite elem_of_set_list.
    + destruct (user_IsAdmin user); [done|]. destruct Hr as (bg' & Hbg' & Hr). exists bg'.
      rewrite Hs. split; [done|]. intros role. by rewrite Hr, Hs.
Qed.
End userinfo_proofs.

Section modify_proofs.
Context {W : Type} {EL : ErrorLib} {P : SDK} {ST : Store W} {MAPPER : ProjectMemberMapper W}
        {ELL : ErrorLibLaws EL} {MAPL : ProjectMemberMapperLaws W}.
Implicit Types w : W.

(** The right to modify the project: that of administrators, of its owners and
    of its editors. *)
Definition may_modify w (user : User) (pid : string) : Prop :=
  user_IsAdmin user = true \/
  pid <> "" /\ exists bg, binding_group w (user_Email user) pid bg /\
    (granted_role w user pid bg "editors" \/ granted_role w user pid bg "owners").

Lemma ValidateUserCanModifyProject_spec ctx pid w :
  runs (ValidateUserCanModifyProject UserInfoGetterFactory ctx pid) w (fun r w' =>
    same_store w w' /\
    match r with
    | Ok _ => exists user, ctx_UserCR ctx = Some user /\ may_modify w user pid
    | Err e => ((UserInfoGetterFactory ctx pid w).1 = Err e) \/
        (http_status e = 403%Z /\
         exists user ui, ctx_UserCR ctx = Some user /\ getter_info w user pid ui /\
           user_IsAdmin user = false /\ ~ "editors" ∈ ui_Roles ui /\ ~ "owners" ∈ ui_Roles ui)
    | Panic => False
    end).
Proof.
  unfold ValidateUserCanModifyProject. runs_step. apply runs_intro. intros r w1 Hr.
  pose proof (runs_elim _ _ _ _ _ (UserInfoGetterFactory_spec ctx pid w) Hr) as [Hs Hi].
  rewrite Hr. cbn [fst]. destruct r as [ui|e|]; cbn [andThen]; [|auto|done].
  destruct Hi as (user & Hu & _ & Hi). pose proof Hi as Hi'. unfold getter_info in Hi.
  assert (ui_IsAdmin ui = user_IsAdmin user) as -> by (destruct (is_empty pid); apply Hi).
  destruct (user_IsAdmin user) eqn:Ea; cbn [negb andb].
  { runs_step. split; [done|]. exists user. split; [done|by left]. }
  destruct (bool_decide _ || bool_decide _) eqn:Er; cbn [negb]; runs_step; (split; [done|]).
  - exists user. split; [done|]. right. apply orb_true_iff in Er. rewrite !bool_decide_eq_true in Er.
    destruct (is_empty pid) eqn:E; [destruct Hi as (_ & _ & _ & Hro & _); set_solver|].
    apply is_empty_false in E. split; [done|].
    destruct Hi as (_ & _ & _ & _ & _ & Hro). rewrite Ea in Hro.
    destruct Hro as (bg & Hbg & Hro). exists bg. by rewrite <- !Hro.
  - right. apply orb_false_iff in Er as [Er1%bool_decide_eq_false Er2%bool_decide_eq_false].
    split; [|by exists user, ui].
    edestruct utilerrors_New_http as (h & -> & Hc & _). done.
Qed.

End modify_proofs.

Section common_proofs.
Context {W : Type} {EL : ErrorLib} {P : SDK} {API : KubeAPI W} {ST : Store W}
        {MEMBERS : ProjectMemberProvider W} {USERS : UserProvider W}
        {PROJECTS : ProjectProvider W} {PPROJECTS : PrivilegedProjectProvider W}
        {MAPPER : ProjectMemberMapper W} {ELL : ErrorLibLaws EL}
        {MAPL : ProjectMemberMapperLaws W} {MEML : ProjectMemberProviderLaws W}
        {UL : UserProviderLaws W} {PRL : ProjectProviderLaws W}
        {PPL : PrivilegedProjectProviderLaws W}.
Implicit Types w : W.

(** The project is shown to administrators, and to the users whom the API server
    lets read it with the groups granted to them. *)
Lemma GetProject_spec ctx pid options w :
  runs (GetProject UserInfoGetterFactory ctx pid options) w (fun r w' => same_store w w' /\
    match r with
    | Ok p => exists user, ctx_UserCR ctx = Some user /\
        view KProject w !! ("", pid) = Some p /\ phase_accepted options p = true /\
        (user_IsAdmin user = true \/
         exists ui, getter_info w user pid ui /\
           authorized w (as_user ui) VGet KProject ("", pid))
    | Err _ => True
    | Panic => False
    end).
Proof.
  unfold GetProject. runs_call UserInfoGetterFactory_spec. destruct Hcall as [Hs Hi].
  destruct r as [ui|e|]; cbn [andThen]; [|done|done].
  destruct Hi as (user & Hu & _ & _ & Hadm & _).
  runs_call projects_GetUnsecured_spec. destruct Hcall as [Hs' Hp].
  assert (same_store w w1) as Hs1 by (by etrans).
  destruct r as [p|e|]; cbn [andThen]; [|done|done]. rewrite Hadm.
  destruct (user_IsAdmin user) eqn:Ea.
  { runs_step. split; [done|]. exists user. rewrite Hs. naive_solver. }
  runs_call UserInfoGetterFactory_spec. destruct Hcall as [Hs2 Hi].
  destruct r as [ui'|e|]; cbn [andThen]; [|by split; [etrans|]|done].
  destruct Hi as (user' & Hu' & _ & Hi). rewrite Hu in Hu'. injection Hu' as <-.
  assert (same_store w w2) as Hs2' by (by etrans).
  runs_call projects_Get_spec. destruct Hcall as [Hs3 Hp'].
  destruct r as [p'|e|]; cbn [andThen]; [|by split; [etrans|]|done].
  split; [by etrans|]. destruct Hp' as (ui0 & [= <-] & Hv & Ha & Hph).
  exists user. split_and!; [done|by rewrite Hs2'|done|]. right. exists ui'.
  split; [by rewrite Hs1|by rewrite Hs2'].
Qed.

(** The owners of a project are the users its owner bindings name. *)
Definition owner_binding w (project : Project) (b : UserProjectBinding) : Prop :=
  member_of w project b /\ rbac_ExtractGroupPrefix (binding_Group b) = OwnerGroupNamePrefix.

Definition owners_sound w (bs : list UserProjectBinding) (owners : list ApiUser) : Prop :=
  forall o, o ∈ owners -> exists b u, b ∈ bs /\
    rbac_ExtractGroupPrefix (binding_Group b) = OwnerGroupNamePrefix /\ registered w u /\
    EqualFold (user_Email u) (binding_UserEmail b) = true /\ apiuser_Email o = user_Email u /\
    api_Name (apiuser_meta o) = user_Name u.
Definition owners_complete w (bs : list UserProjectBinding) (owners : list ApiUser) : Prop :=
  ListsSucceed W -> forall b u, b ∈ bs ->
    rbac_ExtractGroupPrefix (binding_Group b) = OwnerGroupNamePrefix -> registered w u ->
    EqualFold (user_Email u) (binding_UserEmail b) = true ->
    exists o, o ∈ owners /\ EqualFold (apiuser_Email o) (binding_UserEmail b) = true.

Lemma addOwner_spec w0 seen owners b w :
  same_store w0 w -> owners_sound w0 seen owners -> owners_complete w0 seen owners ->
  runs (addOwner owners b) w (fun r w' => same_store w0 w' /\
    exists owners', r = Ok owners' /\ owners_sound w0 (seen ++ [b]) owners' /\
      owners_complete w0 (seen ++ [b]) owners').
Proof.
  intros Hs0 Hso Hco. unfold addOwner. case_bool_decide as Hb.
  2:{ runs_step. split; [done|]. exists owners. split_and!; [done| |].
    - intros o Ho. destruct (Hso o Ho) as (b' & u & ? & ?). exists b', u. set_solver.
    - intros Hl b' u [Hb'| ->]%elem_of_snoc; [by apply Hco|done]. }
  do 2 runs_step. runs_call users_UserByEmail_spec. destruct Hcall as [Hs Hu].
  assert (same_store w0 w1) as Hs1 by (by etrans).
  destruct r as [u|e|]; cbn [andThen]; [| |done]; runs_step; (split; [done|]).
  - destruct Hu as [Hu He]. rewrite <- Hs0 in Hu. eexists. split_and!; [done| |].
    + intros o [Ho| ->]%elem_of_snoc.
      * destruct (Hso o Ho) as (b' & u' & ? & ?). exists b', u'. set_solver.
      * exists b, u. cbn. split_and!; try done. set_solver.
    + intros Hl b' u' [Hb'| ->]%elem_of_snoc H1 H2 H3.
      * destruct (Hco Hl b' u' Hb' H1 H2 H3) as (o & Ho & ?). exists o. set_solver.
      * eexists. split; [apply elem_of_snoc; by right|done].
  - exists owners. split_and!; [done| |].
    + intros o Ho. destruct (Hso o Ho) as (b' & u & ? & ?). exists b', u. set_solver.
    + intros Hl b' u [Hb'| ->]%elem_of_snoc H1 H2 H3; [by eapply Hco|].
      destruct (Hu Hl) as [_ Hn]. rewrite Hs0 in H2. by rewrite (Hn u H2) in H3.
Qed.

Lemma GetOwnersForProject_spec userInfo project w :
  runs (GetOwnersForProject userInfo project) w (fun r w' => same_store w w' /\
    match r with
    | Ok owners =>
        (forall o, o ∈ owners -> exists b u, owner_binding w project b /\ registered w u /\
           EqualFold (user_Email u) (binding_UserEmail b) = true /\
           apiuser_Email o = user_Email u /\ api_Name (apiuser_meta o) = user_Name u) /\
        (ListsSucceed W -> forall b u, owner_binding w project b -> registered w u ->
           EqualFold (user_Email u) (binding_UserEmail b) = true ->
           exists o, o ∈ owners /\ EqualFold (apiuser_Email o) (binding_UserEmail b) = true)
    | Err _ => True
    | Panic => False
    end).
Proof.
  unfold GetOwnersForProject. runs_call members_List_spec. destruct Hcall as [Hs Hl].
  destruct r as [l|e|]; cbn [andThen]; [|done|done].
  destruct Hl as [[_ Hl] _].
  apply (runs_foldM _ (fun seen owners w' => same_store w w' /\
    owners_sound w seen owners /\ owners_complete w seen owners)).
  - split_and!; [done| |].
    + intros o Ho. by apply elem_of_nil in Ho.
    + intros _ b u Hb. by apply elem_of_nil in Hb.
  - intros seen b rest owners w1 _ (Hs1 & Hso & Hco).
    eapply runs_mono; [by apply addOwner_spec|]. cbn beta. intros r w2 (Hs2 & o' & -> & ?). done.
  - intros owners w1 (Hs1 & Hso & Hco). split; [done|]. split.
    + intros o Ho. destruct (Hso o Ho) as (b & u & Hb & ?). exists b, u.
      unfold owner_binding. apply Hl in Hb. tauto.
    + intros Hls b u [Hm Ho] Hu He. apply Hl in Hm. by eapply Hco.
Qed.
End common_proofs.

(** ** Properties *)

Section access_properties.
Context {W : Type} {EL : ErrorLib} {P : SDK} {API : KubeAPI W} {ST : Store W}
        {MEMBERS : ProjectMemberProvider W} {USERS : UserProvider W}
        {PROJECTS : ProjectProvider W} {PPROJECTS : PrivilegedProjectProvider W}
        {MAPPER : ProjectMemberMapper W} {ELL : ErrorLibLaws EL}
        {MAPL : ProjectMemberMapperLaws W} {MEML : ProjectMemberProviderLaws W}
        {UL : UserProviderLaws W} {PRL : ProjectProviderLaws W}
        {PPL : PrivilegedProjectProviderLaws W}.
Implicit Types w : W.

(** C2: the access check of the project endpoints: GetProject answers a project
    to an administrator, or to a user who has at least one group in the project
    and whom the API server, asked with exactly the granted groups, lets read it;
    and it changes nothing. *)
Theorem GetProject_isolates ctx pid options w :
  pid <> "" ->
  runs (GetProject UserInfoGetterFactory ctx pid options) w (fun r w' => same_store w w' /\
    match r with
    | Ok p => exists user, ctx_UserCR ctx = Some user /\
        view KProject w !! ("", pid) = Some p /\ phase_accepted options p = true /\
        (user_IsAdmin user = true \/
         exists bg groups, binding_group w (user_Email user) pid bg /\ groups <> [] /\
           (forall g, g ∈ groups <-> granted_group w user pid bg g) /\
           authorized w (Impersonated (MkImpersonation (user_Email user) groups))
             VGet KProject ("", pid))
    | Err _ => True
    | Panic => False
    end).
Proof.
  intros Hpid. eapply runs_mono; [apply GetProject_spec|]. cbn beta.
  intros [p|e|] w' [Hs H]; (split; [done|]); [|done|done].
  destruct H as (user & Hu & Hp & Hph & [Ha|(ui & Hi & Ha)]); exists user;
    (split_and!; [done|done|done|]); [by left|right].
  unfold getter_info in Hi. rewrite (proj2 (is_empty_false pid) Hpid) in Hi.
  destruct Hi as (He & _ & _ & Hne & (bg & Hbg & Hg) & _).
  exists bg, (ui_Groups ui). split_and!; [done|done|done|]. unfold as_user in Ha. by rewrite <- He.
Qed.

(** The reported owners of a project are the registered users that its
    owner bindings name: no one else, and no owner is missing when the user
    lookups succeed. *)
Theorem GetOwnersForProject_exact userInfo project w :
  runs (GetOwnersForProject userInfo project) w (fun r w' => same_store w w' /\
    match r with
    | Ok owners =>
        (forall o, o ∈ owners -> exists b u, owner_binding w project b /\ registered w u /\
           EqualFold (user_Email u) (binding_UserEmail b) = true /\
           apiuser_Email o = user_Email u /\ api_Name (apiuser_meta o) = user_Name u) /\
        (ListsSucceed W -> forall b u, owner_binding w project b -> registered w u ->
           EqualFold (user_Email u) (binding_UserEmail b) = true ->
           exists o, o ∈ owners /\ EqualFold (apiuser_Email o) (binding_UserEmail b) = true)
    | Err _ => True
    | Panic => False
    end).
Proof. apply GetOwnersForProject_spec. Qed.
End access_properties.

Section modify_property.
Context {W : Type} {EL : ErrorLib} {P : SDK} {ST : Store W} {MAPPER : ProjectMemberMapper W}
        {ELL : ErrorLibLaws EL} {MAPL : ProjectMemberMapperLaws W}.
Implicit Types w : W.

(** A project may be modified by administrators and by those with the role
    editors or owners in it, and by nobody else: anyone else is answered 403, or
    the error of the lookup of the roles. *)
Theorem ValidateUserCanModifyProject_exact ctx pid w :
  runs (ValidateUserCanModifyProject UserInfoGetterFactory ctx pid) w (fun r w' =>
    same_store w w' /\
    match r with
    | Ok _ => exists user, ctx_UserCR ctx = Some user /\ may_modify w user pid
    | Err e => ((UserInfoGetterFactory ctx pid w).1 = Err e) \/
        (http_status e = 403%Z /\
         exists user ui, ctx_UserCR ctx = Some user /\ getter_info w user pid ui /\
           user_IsAdmin user = false /\ ~ "editors" ∈ ui_Roles ui /\ ~ "owners" ∈ ui_Roles ui)
    | Panic => False
    end).
Proof. apply ValidateUserCanModifyProject_spec. Qed.

End modify_property.

Section getter_property.
Context {W : Type} {P : SDK} {ST : Store W} {MAPPER : ProjectMemberMapper W}
        {ML : ProjectMemberMapperLaws W}.

(** The user information of a request: without a project the groups of the
    identity provider and no role; in a project exactly the granted groups and
    roles; the groups always sorted. *)
Theorem UserInfoGetterFactory_exact ctx pid (w : W) :
  runs (UserInfoGetterFactory ctx pid) w (fun r w' => same_store w w' /\
    match r with
    | Ok ui => exists user, ctx_UserCR ctx = Some user /\ Sorted String.le (ui_Groups ui) /\
        getter_info w user pid ui
    | Err _ => True
    | Panic => False
    end).
Proof. apply UserInfoGetterFactory_spec. Qed.
End getter_property.

Definition bobCtx : Ctx := ctx_with_UserCR bob emptyCtx.
Definition aliceCtx : Ctx := ctx_with_UserCR alice emptyCtx.

Lemma GetProject_isolates_witness :
  let run := GetProject UserInfoGetterFactory bobCtx "p1" None sample in
  run.1 = Ok project1 /\ exists bg groups, binding_group sample "bob@example.com" "p1" bg /\
    groups <> [] /\ (forall g, g ∈ groups <-> granted_group sample bob "p1" bg g) /\
    authorized sample (Impersonated (MkImpersonation "bob@example.com" groups))
      VGet KProject ("", "p1").
Proof.
  intros run. assert (run.1 = Ok project1) as E by (vm_compute; reflexivity).
  split; [exact E|].
  run_thm run E (GetProject_isolates bobCtx "p1" None sample ltac:(done)) H.
  destruct H as (_ & user & [= <-] & _ & _ & [H|H]); [discriminate H|exact H].
Defined.

Lemma ValidateUserCanModifyProject_exact_witness :
  let run := ValidateUserCanModifyProject UserInfoGetterFactory bobCtx "p1" sample in
  run.1 = Ok tt /\ may_modify sample bob "p1".
Proof.
  intros run. assert (run.1 = Ok tt) as E by (vm_compute; reflexivity).
  split; [exact E|].
  run_thm run E (ValidateUserCanModifyProject_exact bobCtx "p1" sample) H.
  destruct H as (_ & user & [= <-] & H). exact H.
Defined.

(** bob owns p1 here. *)
Definition owned : Mem :=
  mem_of (fun k => match k with
    | KBinding => [MkBinding (metaNamed "b1") "bob@example.com" "p1" "owners-p1"]
    | k => sample_objs k end) 0%Z [] (fun _ _ _ _ => true).

Lemma GetOwnersForProject_exact_witness :
  let run := GetOwnersForProject bobInfo project1 owned in
  exists o, run.1 = Ok [o] /\ apiuser_Email o = "bob@example.com" /\
    exists b u, owner_binding owned project1 b /\ registered owned u /\ user_Email u = "bob@example.com".
Proof.
  intros run. eexists. assert (run.1 = Ok [apiUserNamed "u-bob" "bob@example.com" []]) as E
    by (vm_compute; reflexivity).
  split; [exact E|]. split; [reflexivity|].
  run_thm run E (GetOwnersForProject_exact bobInfo project1 owned) H. destruct H as (_ & H & _).
  destruct (H _ (list_elem_of_here _ _)) as (b & u & Hb & Hu & _ & He & _).
  exists b, u. split; [exact Hb|]. split; [exact Hu|symmetry; exact He].
Defined.

Lemma UserInfoGetterFactory_exact_witness :
  let run := UserInfoGetterFactory bobCtx "p1" sample in
  exists ui, run.1 = Ok ui /\ getter_info sample bob "p1" ui.
Proof.
  intros run. run_ok run ui E.
  exists ui. split; [exact E|].
  run_thm run E (UserInfoGetterFactory_exact bobCtx "p1" sample) H. by destruct H as (_ & user & [= <-] & _ & H).
Defined.
