(* ===== verification/ServiceAccounts.v ===== *)
(** The provider of service accounts: provider/kubernetes/sa.go. A service
    account is a user whose object name has the prefix of service accounts; the
    API shows the name without it. *)
From S2P Require Export Access.

Definition ServiceAccountLabelGroup : string := "initialGroup".

Definition user_with_name (n : string) (u : User) : User :=
  user_with_meta (meta_with_name n (user_meta u)) u.
Definition user_name (u : User) : string := meta_Name (user_meta u).

(** The default of an optional argument. *)
Definition sa_list_options := default {| ServiceAccountName := "" |}.
Definition sa_get_options := default {| RemovePrefix := true |}.

Section sa.
Context {W : Type} {EL : ErrorLib} {P : SDK} {API : KubeAPI W} (domain : string).

(** [if x == nil { return nil, apierrors.NewBadRequest(msg) }]. *)
Definition notNil {A B} (x : option A) (msg : string) (k : A -> M W error B) : M W error B :=
  match x with
  | None => throw (apierrors_NewBadRequest msg)
  | Some a => k a
  end.
Definition notEmpty (s msg : string) : M W error unit :=
  throwIf (is_empty s) (apierrors_NewBadRequest msg).

Definition genProjectServiceAccount (project : Project) (name group : string) : M W error User :=
  uniqueID ← rand_string 10;
  let uniqueName := EnsureProjectServiceAccountPrefix uniqueID in
  mret (MkUser (meta_with_labels {[ ServiceAccountLabelGroup := group ]} (metaNamed uniqueName))
          name (uniqueName +:+ "@" +:+ domain) [] false false (meta_Name (project_meta project))
          None [] None zero_time).

Definition sa_unprefixed (sa : User) : User :=
  user_with_name (RemoveProjectServiceAccountPrefix (user_name sa)) sa.

Definition CreateProjectServiceAccount (userInfo : UserInfo) (project : option Project)
    (name group : string) : M W error User :=
  notNil project "Project cannot be nil" (fun project =>
    _ ← throwIf (is_empty name || is_empty group)
          (apierrors_NewBadRequest
             "Service account name and group cannot be empty when creating a new SA resource");
    sa ← genProjectServiceAccount project name group;
    masterImpersonatedClient ← createImpersonationClientWrapperFromUserInfo userInfo;
    sa ← kcreate KUser masterImpersonatedClient sa;
    mret (sa_unprefixed sa)).

Definition CreateUnsecuredProjectServiceAccount (project : option Project) (name group : string)
    : M W error User :=
  notNil project "Project cannot be nil" (fun project =>
    _ ← throwIf (is_empty name || is_empty group)
          (apierrors_NewBadRequest
             "Service account name and group cannot be empty when creating a new SA resource");
    sa ← genProjectServiceAccount project name group;
    sa ← kcreate KUser Privileged sa;
    mret (sa_unprefixed sa)).

Definition listProjectSA (project : Project) : M W error (list User) :=
  serviceAccounts ← klist KUser Privileged Everything;
  mret (List.filter (fun sa =>
    IsProjectServiceAccount (user_name sa) &&
    bool_decide (user_Project sa = meta_Name (project_meta project))) serviceAccounts).

(** The names without prefix, and with a name in the options the first account
    of that name only: the loop breaks. *)
Definition filterProjectSA (options : ServiceAccountListOptions) (resultList : list User)
    : list User :=
  let resultList := sa_unprefixed <$> resultList in
  if is_empty (ServiceAccountName options) then resultList else
  match List.find (fun sa => bool_decide (user_Name sa = ServiceAccountName options)) resultList with
  | Some sa => [sa]
  | None => []
  end.

Definition ListProjectServiceAccount (userInfo : option UserInfo) (project : option Project)
    (options : option ServiceAccountListOptions) : M W error (list User) :=
  notNil userInfo "userInfo cannot be nil" (fun userInfo =>
  notNil project "project cannot be nil" (fun project =>
    let options := sa_list_options options in
    resultList ← listProjectSA project;
    _ ← match resultList with
        | [] => mret tt
        | saToGet :: _ =>
            masterImpersonatedClient ← createImpersonationClientWrapperFromUserInfo userInfo;
            _ ← kget KUser masterImpersonatedClient ("", user_name saToGet);
            mret tt
        end;
    mret (filterProjectSA options resultList))).

Definition ListUnsecuredProjectServiceAccount (project : option Project)
    (options : option ServiceAccountListOptions) : M W error (list User) :=
  notNil project "project cannot be nil" (fun project =>
    let options := sa_list_options options in
    resultList ← listProjectSA project;
    mret (filterProjectSA options resultList)).

(** [if options.RemovePrefix { ... }]. *)
Definition removePrefixIf (options : ServiceAccountGetOptions) (sa : User) : User :=
  if RemovePrefix options then sa_unprefixed sa else sa.

Definition GetProjectServiceAccount (userInfo : option UserInfo) (name : string)
    (options : option ServiceAccountGetOptions) : M W error User :=
  notNil userInfo "userInfo cannot be nil" (fun userInfo =>
    _ ← notEmpty name "service account name cannot be empty";
    let options := sa_get_options options in
    masterImpersonatedClient ← createImpersonationClientWrapperFromUserInfo userInfo;
    let name := EnsureProjectServiceAccountPrefix name in
    serviceAccount ← kget KUser masterImpersonatedClient ("", name);
    mret (removePrefixIf options serviceAccount)).

Definition GetUnsecuredProjectServiceAccount (name : string)
    (options : option ServiceAccountGetOptions) : M W error User :=
  _ ← notEmpty name "service account name cannot be empty";
  let options := sa_get_options options in
  let name := EnsureProjectServiceAccountPrefix name in
  serviceAccount ← kget KUser Privileged ("", name);
  mret (removePrefixIf options serviceAccount).

Definition sa_prefixed (sa : User) : User :=
  user_with_name (EnsureProjectServiceAccountPrefix (user_name sa)) sa.

Definition UpdateProjectServiceAccount (userInfo : option UserInfo) (serviceAccount : option User)
    : M W error User :=
  notNil userInfo "userInfo cannot be nil" (fun userInfo =>
  notNil serviceAccount "service account name cannot be nil" (fun serviceAccount =>
    masterImpersonatedClient ← createImpersonationClientWrapperFromUserInfo userInfo;
    serviceAccount ← kupdate KUser masterImpersonatedClient (sa_prefixed serviceAccount);
    mret (sa_unprefixed serviceAccount))).

Definition UpdateUnsecuredProjectServiceAccount (serviceAccount : option User) : M W error User :=
  notNil serviceAccount "service account name cannot be nil" (fun serviceAccount =>
    serviceAccount ← kupdate KUser Privileged (sa_prefixed serviceAccount);
    mret (sa_unprefixed serviceAccount)).

Definition DeleteProjectServiceAccount (userInfo : option UserInfo) (name : string)
    : M W error unit :=
  notNil userInfo "userInfo cannot be nil" (fun userInfo =>
    _ ← notEmpty name "service account name cannot be empty";
    masterImpersonatedClient ← createImpersonationClientWrapperFromUserInfo userInfo;
    let name := EnsureProjectServiceAccountPrefix name in
    kdelete KUser masterImpersonatedClient ("", name)).

Definition DeleteUnsecuredProjectServiceAccount (name : string) : M W error unit :=
  _ ← notEmpty name "service account name cannot be empty";
  let name := EnsureProjectServiceAccountPrefix name in
  kdelete KUser Privileged ("", name).

Definition kubernetesServiceAccountProvider : ServiceAccountProvider W := {|
  sas_Create := CreateProjectServiceAccount;
  sas_List := ListProjectServiceAccount;
  sas_Get := GetProjectServiceAccount;
  sas_Update := UpdateProjectServiceAccount;
  sas_Delete := DeleteProjectServiceAccount;
  sas_CreateUnsecured := CreateUnsecuredProjectServiceAccount;
  sas_ListUnsecured := ListUnsecuredProjectServiceAccount;
  sas_GetUnsecured := GetUnsecuredProjectServiceAccount;
  sas_UpdateUnsecured := UpdateUnsecuredProjectServiceAccount;
  sas_DeleteUnsecured := DeleteUnsecuredProjectServiceAccount |}.
End sa.

(** ** Lemmas *)

Section sa_proofs.
Context {W : Type} {EL : ErrorLib} {P : SDK} {API : KubeAPI W} {ST : Store W}
        {LAWS : KubeAPILaws W} {PL : SDKLaws P} (domain : string).
Implicit Types w : W.

(** A name that is too short for the prefix does not have it. *)
Lemma short_not_prefixed n : String.length n <= 10 -> IsProjectServiceAccount n = false.
Proof.
  rewrite service_account_prefix. intros H. apply not_true_iff_false. intros [t ->]%HasPrefix_inv.
  rewrite string_length_app in H. cbn in H. lia.
Qed.

(** The new account: its ID, and what is stored. *)
Definition new_account (project : Project) (name group uniqueID : string) (sa : User) : Prop :=
  String.length uniqueID = 10 /\
  user_name sa = EnsureProjectServiceAccountPrefix uniqueID /\
  user_Email sa = EnsureProjectServiceAccountPrefix uniqueID +:+ "@" +:+ domain /\
  user_Name sa = name /\ user_Project sa = meta_Name (project_meta project) /\
  meta_Labels (user_meta sa) = {[ ServiceAccountLabelGroup := group ]} /\
  user_IsAdmin sa = false /\ user_IsGlobalViewer sa = false.

Lemma genProjectServiceAccount_spec project name group w :
  runs (genProjectServiceAccount domain project name group) w (fun r w' => same_store w w' /\
    exists sa id, r = Ok sa /\ new_account project name group id sa /\
      key_of KUser sa = ("", EnsureProjectServiceAccountPrefix id)).
Proof.
  unfold genProjectServiceAccount. runs_call rand_string_spec. destruct Hcall as [Hs (id & -> & Hid & _)].
  cbn [andThen]. runs_step. split; [done|]. eexists _, id. by split_and!.
Qed.

(** The API's name of an account leads back to its object. *)
Lemma unprefixed_id id :
  String.length id = 10 ->
  RemoveProjectServiceAccountPrefix (EnsureProjectServiceAccountPrefix id) = id.
Proof. intros H. apply Remove_Ensure, short_not_prefixed. lia. Qed.

(** What both Create operations store and answer, with the client [c]. *)
Definition account_created (c : client) (w w' : W) (project : Project) (name group : string)
    (sa : User) : Prop :=
  exists stored id, sa = user_with_name id stored /\ new_account project name group id stored /\
    key_of KUser stored = ("", EnsureProjectServiceAccountPrefix id) /\
    authorized w c VCreate KUser (key_of KUser stored) /\ created KUser w w' stored.

Lemma create_account_spec c w0 w project name group id sa :
  same_store w0 w -> new_account project name group id sa ->
  key_of KUser sa = ("", EnsureProjectServiceAccountPrefix id) ->
  runs (sa' ← kcreate KUser c sa; mret (sa_unprefixed sa')) w (fun r w' =>
    match r with
    | Ok sa' => account_created c w0 w' project name group sa'
    | Err _ => same_store w0 w'
    | Panic => False
    end).
Proof.
  intros Hs (Hid & Hn & He & Hname & Hp & Hl & Ha & Hg) Hk. runs_call (kcreate_spec KUser).
  destruct r as [s|e|]; cbn [andThen]; [|destruct Hcall; by etrans|done]. runs_step.
  destruct Hcall as (Hauth & Hst & Hc). pose proof (strip_key _ _ _ Hst) as Hk'.
  apply strip_user in Hst as (S1 & S2 & _ & S4 & S5 & S6 & _ & S8).
  rewrite Hk in Hk'. exists s, id.
  assert (user_name s = EnsureProjectServiceAccountPrefix id) as Hsn by (injection Hk'; done).
  split_and!; [|unfold new_account; rewrite S1, S2, S4, S5, S6, S8; by split_and!|done| |by rewrite Hs].
  - unfold sa_unprefixed. by rewrite Hsn, unprefixed_id.
  - by rewrite Hs, Hk', <- Hk.
Qed.

Lemma CreateProjectServiceAccount_spec userInfo project name group w :
  runs (CreateProjectServiceAccount domain userInfo (Some project) name group) w (fun r w' =>
    match r with
    | Ok sa => name <> "" /\ group <> "" /\ account_created (as_user userInfo) w w' project name group sa
    | Err _ => same_store w w'
    | Panic => False
    end).
Proof.
  unfold CreateProjectServiceAccount. cbn [notNil]. runs_guard; [done|].
  match goal with H : _ || _ = false |- _ =>
    apply orb_false_iff in H as [Hn%is_empty_false Hg%is_empty_false] end.
  runs_call genProjectServiceAccount_spec. destruct Hcall as (Hs & sa & id & -> & Hnew & Hk).
  cbn [andThen]. runs_call createImpersonationClientWrapperFromUserInfo_spec. destruct Hcall as [Hs' Hc].
  assert (same_store w w1) as Hs1 by (by etrans).
  destruct r as [c|e|]; cbn [andThen]; [subst c|done|done].
  eapply runs_mono; [by eapply create_account_spec|]. by intros [s|e|] w2 H.
Qed.

Lemma CreateUnsecuredProjectServiceAccount_spec project name group w :
  runs (CreateUnsecuredProjectServiceAccount domain (Some project) name group) w (fun r w' =>
    match r with
    | Ok sa => name <> "" /\ group <> "" /\ account_created Privileged w w' project name group sa
    | Err _ => same_store w w'
    | Panic => False
    end).
Proof.
  unfold CreateUnsecuredProjectServiceAccount. cbn [notNil]. runs_guard; [done|].
  match goal with H : _ || _ = false |- _ =>
    apply orb_false_iff in H as [Hn%is_empty_false Hg%is_empty_false] end.
  runs_call genProjectServiceAccount_spec. destruct Hcall as (Hs & sa & id & -> & Hnew & Hk).
  cbn [andThen]. eapply runs_mono; [by eapply create_account_spec|]. by intros [s|e|] w2 H.
Qed.

(** An account of a project. *)
Definition account_of w (project : Project) (sa : User) : Prop :=
  registered w sa /\ IsProjectServiceAccount (user_name sa) = true /\
  user_Project sa = meta_Name (project_meta project).

Lemma listProjectSA_spec project w :
  runs (listProjectSA project) w (fun r w' => same_store w w' /\
    match r with
    | Ok l => (forall sa, sa ∈ l <-> account_of w project sa) /\ NoDup (key_of KUser <$> l)
    | Err _ => ~ ListsSucceed W
    | Panic => False
    end).
Proof.
  unfold listProjectSA. runs_call (klist_privileged_spec KUser). destruct Hcall as [Hs Hl].
  destruct r as [l|e|]; cbn [andThen]; [|by split|done]. runs_step. split; [done|]. split.
  - intros sa. unfold account_of, registered.
    rewrite elem_of_List_filter, (elem_of_listed_all _ _ _ _ Hl), andb_true_iff, bool_decide_eq_true.
    done.
  - rewrite List_filter_filter. eapply sublist_NoDup; [by eapply NoDup_listed|].
    apply fmap_sublist, sublist_filter.
Qed.

(** The answer to a list request: all accounts without prefix, or the first of
    the given name. *)
Definition lists_accounts w project (options : ServiceAccountListOptions) (l : list User) : Prop :=
  if is_empty (ServiceAccountName options)
  then forall sa, sa ∈ l <-> exists s, account_of w project s /\ sa = sa_unprefixed s
  else (exists s, account_of w project s /\ l = [sa_unprefixed s] /\
          user_Name s = ServiceAccountName options) \/
       (l = [] /\ forall s, account_of w project s -> user_Name s <> ServiceAccountName options).

#[export] Instance account_of_proper : Proper (same_store ==> eq ==> eq ==> iff) account_of.
Proof. intros w w' Hw p ? <- s ? <-. unfold account_of. by rewrite Hw. Qed.
#[export] Instance lists_accounts_proper :
  Proper (same_store ==> eq ==> eq ==> eq ==> iff) lists_accounts.
Proof.
  intros w w' Hw p ? <- o ? <- l ? <-. unfold lists_accounts. destruct (is_empty _); by setoid_rewrite Hw.
Qed.

Lemma filterProjectSA_spec w project options l :
  (forall sa, sa ∈ l <-> account_of w project sa) ->
  lists_accounts w project options (filterProjectSA options l).
Proof.
  intros Hl. unfold lists_accounts, filterProjectSA. destruct (is_empty _).
  - intros sa. rewrite list_elem_of_fmap. setoid_rewrite Hl. naive_solver.
  - destruct (List.find _ _) as [sa|] eqn:E.
    + apply List_find_some in E as [Hin Hn%bool_decide_eq_true].
      apply list_elem_of_fmap in Hin as (s & -> & Hs%Hl). left. by exists s.
    + right. split; [done|]. intros s Hs%Hl.
      apply (List_find_none _ _ (sa_unprefixed s)) in E.
      * by apply bool_decide_eq_false in E.
      * by apply list_elem_of_fmap_2.
Qed.

Lemma ListProjectServiceAccount_spec userInfo project options w :
  runs (ListProjectServiceAccount (Some userInfo) (Some project) options) w (fun r w' =>
    same_store w w' /\
    match r with
    | Ok l => lists_accounts w project (sa_list_options options) l /\
        ((forall s, ~ account_of w project s) \/
         exists s, account_of w project s /\
           authorized w (as_user userInfo) VGet KUser ("", user_name s))
    | Err _ => True
    | Panic => False
    end).
Proof.
  unfold ListProjectServiceAccount. cbn [notNil]. runs_call listProjectSA_spec.
  destruct Hcall as [Hs Hl]. destruct r as [l|e|]; cbn [andThen]; [|done|done].
  destruct Hl as [Hl _]. pose proof (filterProjectSA_spec w project (sa_list_options options) l Hl) as Hf.
  destruct l as [|s0 l].
  - runs_step. runs_step. cbn [andThen]. runs_step. split; [done|]. split; [done|left].
    intros s Hs'%Hl. by apply elem_of_nil in Hs'.
  - runs_step. runs_call createImpersonationClientWrapperFromUserInfo_spec. destruct Hcall as [Hs' Hc].
    assert (same_store w w1) as Hs1 by (by etrans).
    destruct r as [c|e|]; cbn [andThen]; [subst c|done|done].
    runs_call (kget_spec KUser). destruct Hcall as [Hs2 Hg].
    assert (same_store w w2) as Hs2' by (by etrans).
    destruct r as [u|e|]; cbn [andThen]; [|done|done]. do 2 (runs_step; cbn [andThen]).
    split; [done|]. split; [done|right]. exists s0. split; [apply Hl; set_solver|].
    rewrite Hs1. by destruct Hg.
Qed.

Lemma GetUnsecuredProjectServiceAccount_spec name options w :
  runs (GetUnsecuredProjectServiceAccount name options) w (fun r w' => same_store w w' /\
    match r with
    | Ok sa => exists stored,
        view KUser w !! ("", EnsureProjectServiceAccountPrefix name) = Some stored /\
        sa = removePrefixIf (sa_get_options options) stored
    | Err _ => True
    | Panic => False
    end).
Proof.
  unfold GetUnsecuredProjectServiceAccount, notEmpty. runs_guard; [done|].
  runs_call (kget_spec KUser). destruct Hcall as [Hs Hg].
  destruct r as [u|e|]; cbn [andThen]; [|done|done]. runs_step. split; [done|].
  exists u. by destruct Hg.
Qed.

Lemma GetProjectServiceAccount_spec userInfo name options w :
  runs (GetProjectServiceAccount (Some userInfo) name options) w (fun r w' => same_store w w' /\
    match r with
    | Ok sa => exists stored,
        view KUser w !! ("", EnsureProjectServiceAccountPrefix name) = Some stored /\
        authorized w (as_user userInfo) VGet KUser ("", EnsureProjectServiceAccountPrefix name) /\
        sa = removePrefixIf (sa_get_options options) stored
    | Err _ => True
    | Panic => False
    end).
Proof.
  unfold GetProjectServiceAccount, notEmpty. cbn [notNil]. runs_guard; [done|].
  runs_call createImpersonationClientWrapperFromUserInfo_spec. destruct Hcall as [Hs Hc].
  destruct r as [c|e|]; cbn [andThen]; [subst c|done|done].
  runs_call (kget_spec KUser). destruct Hcall as [Hs' Hg].
  destruct r as [u|e|]; cbn [andThen]; [|split; [by etrans|done]|done]. runs_step.
  split; [by etrans|]. exists u. rewrite Hs. by destruct Hg.
Qed.
Lemma ListUnsecuredProjectServiceAccount_spec project options w :
  runs (ListUnsecuredProjectServiceAccount (Some project) options) w (fun r w' =>
    same_store w w' /\
    match r with
    | Ok l => lists_accounts w project (sa_list_options options) l
    | Err _ => True
    | Panic => False
    end).
Proof.
  unfold ListUnsecuredProjectServiceAccount. cbn [notNil]. runs_call listProjectSA_spec.
  destruct Hcall as [Hs Hl]. destruct r as [l|e|]; cbn [andThen]; [|done|done]. runs_step.
  split; [done|]. by apply filterProjectSA_spec, Hl.
Qed.

(** What both Update operations store and answer. *)
Definition account_updated w w' (sa answer : User) : Prop :=
  exists stored, answer = sa_unprefixed stored /\
    strip KUser stored = strip KUser (sa_prefixed sa) /\ updated KUser w w' stored.

#[export] Instance account_updated_proper :
  Proper (same_store ==> same_store ==> eq ==> eq ==> iff) account_updated.
Proof.
  intros w1 w1' H1 w2 w2' H2 s ? <- a ? <-. unfold account_updated. by setoid_rewrite H1; setoid_rewrite H2.
Qed.

Lemma update_account_spec c sa w :
  runs (sa' ← kupdate KUser c (sa_prefixed sa); mret (sa_unprefixed sa')) w (fun r w' =>
    match r with
    | Ok a => authorized w c VUpdate KUser (key_of KUser (sa_prefixed sa)) /\ account_updated w w' sa a
    | Err _ => same_store w w'
    | Panic => False
    end).
Proof.
  runs_call (kupdate_spec KUser). destruct r as [s|e|]; cbn [andThen]; [|done|done]. runs_step.
  destruct Hcall as (Ha & Hst & Hu & _). split; [done|]. by exists s.
Qed.

Lemma UpdateProjectServiceAccount_spec userInfo sa w :
  runs (UpdateProjectServiceAccount (Some userInfo) (Some sa)) w (fun r w' =>
    match r with
    | Ok a => authorized w (as_user userInfo) VUpdate KUser (key_of KUser (sa_prefixed sa)) /\
        account_updated w w' sa a
    | Err _ => same_store w w'
    | Panic => False
    end).
Proof.
  unfold UpdateProjectServiceAccount. cbn [notNil].
  runs_call createImpersonationClientWrapperFromUserInfo_spec. destruct Hcall as [Hs Hc].
  destruct r as [c|e|]; cbn [andThen]; [subst c|done|done].
  eapply runs_mono; [apply update_account_spec|]. cbn beta.
  intros [a|e|] w'; [|intros; by etrans|done]. unfold account_updated. by setoid_rewrite Hs.
Qed.

Lemma DeleteProjectServiceAccount_spec userInfo name w :
  runs (DeleteProjectServiceAccount (Some userInfo) name) w (fun r w' =>
    match r with
    | Ok _ => authorized w (as_user userInfo) VDelete KUser ("", EnsureProjectServiceAccountPrefix name) /\
        deleted KUser w w' ("", EnsureProjectServiceAccountPrefix name)
    | Err _ => same_store w w'
    | Panic => False
    end).
Proof.
  unfold DeleteProjectServiceAccount, notEmpty. cbn [notNil]. runs_guard; [done|].
  runs_call createImpersonationClientWrapperFromUserInfo_spec. destruct Hcall as [Hs Hc].
  destruct r as [c|e|]; cbn [andThen]; [subst c|done|done].
  eapply runs_mono; [apply (kdelete_spec KUser)|]. cbn beta.
  intros [[]|e|] w'; [|intros; by etrans|done]. by rewrite !Hs.
Qed.

Lemma DeleteUnsecuredProjectServiceAccount_spec name w :
  runs (DeleteUnsecuredProjectServiceAccount name) w (fun r w' =>
    match r with
    | Ok _ => deleted KUser w w' ("", EnsureProjectServiceAccountPrefix name)
    | Err _ => same_store w w'
    | Panic => False
    end).
Proof.
  unfold DeleteUnsecuredProjectServiceAccount, notEmpty. runs_guard; [done|].
  eapply runs_mono; [apply (kdelete_spec KUser)|]. cbn beta. by intros [[]|e|] w'; [intros [_ ?]| |].
Qed.

(** ** What the provider promises to the handlers *)
Class ServiceAccountProviderLaws {SAS : ServiceAccountProvider W} : Prop := {
  sas_Create_spec userInfo project name group w :
    runs (sas_Create userInfo (Some project) name group) w (fun r w' =>
      match r with
      | Ok sa => name <> "" /\ group <> "" /\ account_created (as_user userInfo) w w' project name group sa
      | Err _ => same_store w w'
      | Panic => False
      end);
  sas_CreateUnsecured_spec project name group w :
    runs (sas_CreateUnsecured (Some project) name group) w (fun r w' =>
      match r with
      | Ok sa => name <> "" /\ group <> "" /\ account_created Privileged w w' project name group sa
      | Err _ => same_store w w'
      | Panic => False
      end);
  sas_List_spec userInfo project options w :
    runs (sas_List (Some userInfo) (Some project) options) w (fun r w' => same_store w w' /\
      match r with
      | Ok l => lists_accounts w project (sa_list_options options) l /\
          ((forall s, ~ account_of w project s) \/
           exists s, account_of w project s /\
             authorized w (as_user userInfo) VGet KUser ("", user_name s))
      | Err _ => True
      | Panic => False
      end);
  sas_ListUnsecured_spec project options w :
    runs (sas_ListUnsecured (Some project) options) w (fun r w' => same_store w w' /\
      match r with
      | Ok l => lists_accounts w project (sa_list_options options) l
      | Err _ => True
      | Panic => False
      end);
  sas_Get_spec userInfo name options w :
    runs (sas_Get (Some userInfo) name options) w (fun r w' => same_store w w' /\
      match r with
      | Ok sa => exists stored,
          view KUser w !! ("", EnsureProjectServiceAccountPrefix name) = Some stored /\
          authorized w (as_user userInfo) VGet KUser ("", EnsureProjectServiceAccountPrefix name) /\
          sa = removePrefixIf (sa_get_options options) stored
      | Err _ => True
      | Panic => False
      end);
  sas_GetUnsecured_spec name options w :
    runs (sas_GetUnsecured name options) w (fun r w' => same_store w w' /\
      match r with
      | Ok sa => exists stored,
          view KUser w !! ("", EnsureProjectServiceAccountPrefix name) = Some stored /\
          sa = removePrefixIf (sa_get_options options) stored
      | Err _ => True
      | Panic => False
      end);
  sas_Update_spec userInfo sa w :
    runs (sas_Update (Some userInfo) (Some sa)) w (fun r w' =>
      match r with
      | Ok a => authorized w (as_user userInfo) VUpdate KUser (key_of KUser (sa_prefixed sa)) /\
          account_updated w w' sa a
      | Err _ => same_store w w'
      | Panic => False
      end);
  sas_UpdateUnsecured_spec sa w :
    runs (sas_UpdateUnsecured (Some sa)) w (fun r w' =>
      match r with
      | Ok a => account_updated w w' sa a
      | Err _ => same_store w w'
      | Panic => False
      end);
  sas_Delete_spec userInfo name w :
    runs (sas_Delete (Some userInfo) name) w (fun r w' =>
      match r with
      | Ok _ => authorized w (as_user userInfo) VDelete KUser ("", EnsureProjectServiceAccountPrefix name) /\
          deleted KUser w w' ("", EnsureProjectServiceAccountPrefix name)
      | Err _ => same_store w w'
      | Panic => False
      end);
  sas_DeleteUnsecured_spec name w :
    runs (sas_DeleteUnsecured name) w (fun r w' =>
      match r with
      | Ok _ => deleted KUser w w' ("", EnsureProjectServiceAccountPrefix name)
      | Err _ => same_store w w'
      | Panic => False
      end) }.

Lemma kubernetesServiceAccountProvider_laws :
  ServiceAccountProviderLaws (SAS := kubernetesServiceAccountProvider domain).
Proof.
  split.
  - apply CreateProjectServiceAccount_spec.
  - apply CreateUnsecuredProjectServiceAccount_spec.
  - apply ListProjectServiceAccount_spec.
  - apply ListUnsecuredProjectServiceAccount_spec.
  - apply GetProjectServiceAccount_spec.
  - apply GetUnsecuredProjectServiceAccount_spec.
  - apply UpdateProjectServiceAccount_spec.
  - intros sa w. cbn [sas_UpdateUnsecured kubernetesServiceAccountProvider].
    unfold UpdateUnsecuredProjectServiceAccount. cbn [notNil].
    eapply runs_mono; [apply update_account_spec|]. by intros [a|e|] w'; [intros [_ ?]| |].
  - apply DeleteProjectServiceAccount_spec.
  - apply DeleteUnsecuredProjectServiceAccount_spec.
Qed.
End sa_proofs.

Arguments ServiceAccountProviderLaws W {P ST} domain {SAS}.

(** ** Properties *)

Section sa_properties.
Context {W : Type} {EL : ErrorLib} {P : SDK} {API : KubeAPI W} {ST : Store W}
        {LAWS : KubeAPILaws W} {PL : SDKLaws P} (domain : string).
Implicit Types w : W.

(** A service account that was created, with the permissions of the caller,
    is found again under the ID of the answer: GetUnsecuredProjectServiceAccount
    answers the same account, if it answers at all. Its email names a service
    account, so no one can add it to a project as a member. *)
Theorem ServiceAccount_create_get userInfo project name group w :
  runs (CreateProjectServiceAccount domain userInfo (Some project) name group) w (fun r w' =>
    match r with
    | Ok sa =>
        authorized w (as_user userInfo) VCreate KUser
          ("", EnsureProjectServiceAccountPrefix (user_name sa)) /\
        user_Name sa = name /\ user_Project sa = meta_Name (project_meta project) /\
        meta_Labels (user_meta sa) !! ServiceAccountLabelGroup = Some group /\
        user_IsAdmin sa = false /\ IsProjectServiceAccount (user_Email sa) = true /\
        runs (GetUnsecuredProjectServiceAccount (user_name sa) None) w' (fun r' _ =>
          match r' with Ok sa' => sa' = sa | Err _ => True | Panic => False end)
    | Err _ => same_store w w'
    | Panic => False
    end).
Proof.
  eapply runs_mono; [apply CreateProjectServiceAccount_spec|]. cbn beta.
  intros [sa|e|] w'; [|done|done]. intros (_ & _ & st & id & -> & Hnew & Hk & Ha & (_ & Hv & _)).
  destruct Hnew as (Hid & Hn & He & Hna & Hp & Hl & Had & _).
  change (user_name (user_with_name id st)) with id. rewrite Hk in Ha, Hv.
  split_and!; try done.
  - cbn. by rewrite Hl, lookup_singleton_eq.
  - cbn. rewrite He. apply IsProjectServiceAccount_email, IsProjectServiceAccount_Ensure.
  - eapply runs_mono; [apply GetUnsecuredProjectServiceAccount_spec|]. cbn beta.
    intros [sa'|e|] w2 [_ H]; [|done|done]. destruct H as (st' & Hst' & ->).
    rewrite Hv, lookup_insert_eq in Hst'. injection Hst' as <-.
    unfold removePrefixIf, sa_get_options, sa_unprefixed. cbn [default RemovePrefix].
    by rewrite Hn, (unprefixed_id id Hid).
Qed.

(** The service accounts of a project are listed completely and exactly,
    with their IDs free of the prefix, or one account of the given name; and
    only to a user who can read one of them. *)
Theorem ListProjectServiceAccount_exact userInfo project options w :
  runs (ListProjectServiceAccount (Some userInfo) (Some project) options) w (fun r w' =>
    same_store w w' /\
    match r with
    | Ok l => lists_accounts w project (sa_list_options options) l /\
        ((forall s, ~ account_of w project s) \/
         exists s, account_of w project s /\
           authorized w (as_user userInfo) VGet KUser ("", user_name s))
    | Err _ => True
    | Panic => False
    end).
Proof. apply ListProjectServiceAccount_spec. Qed.
End sa_properties.

Lemma ServiceAccount_create_get_witness :
  let run := CreateProjectServiceAccount "sa.kubermatic.io" bobInfo (Some project1) "bot" "editors-p1" sample in
  exists sa, run.1 = Ok sa /\ user_Name sa = "bot" /\
    runs (GetUnsecuredProjectServiceAccount (user_name sa) None) run.2 (fun r' _ =>
      match r' with Ok sa' => sa' = sa | Err _ => True | Panic => False end).
Proof.
  intros run. run_ok run sa E. exists sa. split; [exact E|].
  pose proof (ServiceAccount_create_get "sa.kubermatic.io" bobInfo project1 "bot" "editors-p1" sample) as H.
  unfold runs at 1 in H. fold run in H. rewrite E in H. split; apply H.
Defined.

Lemma ListProjectServiceAccount_exact_witness :
  let options := Some {| ServiceAccountName := "ci" |} in
  let run := ListProjectServiceAccount (Some bobInfo) (Some project1) options sample in
  exists l, run.1 = Ok l /\ lists_accounts sample project1 (sa_list_options options) l.
Proof.
  intros options run. run_ok run l E. exists l. split; [exact E|].
  run_thm run E (ListProjectServiceAccount_exact bobInfo project1 options sample) H. apply H.
Defined.
