(* ===== verification/Tokens.v ===== *)
(** The provider of service-account tokens: provider/kubernetes/sa_token.go. A
    token is a secret of the namespace kubermatic whose name has the prefix
    sa-token-, owned by its service account. *)
From S2P Require Export ServiceAccounts.

Definition labelTokenName : string := "token".
Definition tokenPrefix : string := "sa-token-".

Definition hasTokenPrefix (token : string) : bool := HasPrefix token tokenPrefix.
Definition addTokenPrefix (id : string) : string :=
  if negb (hasTokenPrefix id) then tokenPrefix +:+ id else id.
Definition removeTokenPrefix (id : string) : string := TrimPrefix id tokenPrefix.

Definition secret_name (s : Secret) : string := meta_Name (secret_meta s).
Definition secret_labels (s : Secret) : gmap string string := meta_Labels (secret_meta s).
Definition secret_owners (s : Secret) : list OwnerReference := meta_OwnerReferences (secret_meta s).
Definition secret_with_name (n : string) (s : Secret) : Secret :=
  secret_with_meta (meta_with_name n (secret_meta s)) s.
(** [token.Name = removeTokenPrefix(token.Name)]. *)
Definition token_unprefixed (s : Secret) : Secret :=
  secret_with_name (removeTokenPrefix (secret_name s)) s.

Definition isToken (secret : option Secret) : bool :=
  match secret with
  | None => false
  | Some secret => HasPrefix (secret_name secret) "sa-token"
  end.

(** The loop that stops at the first token whose label name is the given one. *)
Definition firstNamed (allTokens : list Secret) (tokenName : string) : list Secret :=
  match List.find (fun token => bool_decide (secret_labels token !! "name" = Some tokenName)) allTokens with
  | Some token => [token]
  | None => []
  end.

Definition filterByTokenName (allTokens : list Secret) (tokenName : string) : list Secret :=
  if negb (is_empty tokenName) then firstNamed allTokens tokenName else allTokens.

Section tokens.
Context {W : Type} {EL : ErrorLib} {P : SDK} {API : KubeAPI W}.

Definition genToken (sa : User) (projectID tokenName tokenID token : string) : Secret :=
  MkSecret
    (meta_with_owners [MkOwner SchemeGroupVersion_String UserKindName (meta_UID (user_meta sa)) (user_name sa)]
       (meta_with_labels (<[ "name" := tokenName ]> {[ ProjectIDLabelKey := projectID ]})
          (metaNamed (addTokenPrefix tokenID))))
    "Opaque" (Some {[ labelTokenName := token ]}).

(** [secret.Namespace = resources.KubermaticNamespace]. *)
Definition in_namespace (s : Secret) : Secret :=
  secret_with_meta (meta_with_namespace KubermaticNamespace (secret_meta s)) s.

Definition ServiceAccountTokenProvider_Create (userInfo : option UserInfo) (sa : option User)
    (projectID tokenName tokenID token : string) : M W error Secret :=
  notNil userInfo "userInfo cannot be nil" (fun userInfo =>
  notNil sa "service account cannot be nil" (fun sa =>
    let secret := in_namespace (genToken sa projectID tokenName tokenID token) in
    kubernetesImpersonatedClient ← mapErr apierrors_NewInternalError
      (createImpersonationClientWrapperFromUserInfo userInfo);
    secret ← kcreate KSecret kubernetesImpersonatedClient secret;
    mret (token_unprefixed secret))).

Definition ServiceAccountTokenProvider_CreateUnsecured (sa : option User)
    (projectID tokenName tokenID token : string) : M W error Secret :=
  notNil sa "service account cannot be nil" (fun sa =>
    let secret := in_namespace (genToken sa projectID tokenName tokenID token) in
    secret ← kcreate KSecret Privileged secret;
    mret (token_unprefixed secret)).

Definition owned_by (owner : OwnerReference) (name : string) : bool :=
  bool_decide (owner_APIVersion owner = SchemeGroupVersion_String) &&
  bool_decide (owner_Kind owner = UserKindName) && bool_decide (owner_Name owner = name).

(** A secret is appended once for each of its owners that matches. *)
Definition ownedTokens (matching : OwnerReference -> bool) (secrets : list Secret) : list Secret :=
  secrets ≫= fun secret => (fun _ => secret) <$> List.filter matching (secret_owners secret).

Definition token_list_options :=
  default {| TokenID := ""; TokenName := ""; LabelSelector := None; ServiceAccountID := "" |}.

Definition ServiceAccountTokenProvider_List (userInfo : option UserInfo) (project : option Project)
    (sa : option User) (options : option ServiceAccountTokenListOptions) : M W error (list Secret) :=
  notNil userInfo "userInfo cannot be nil" (fun userInfo =>
  notNil project "project cannot be nil" (fun project =>
  notNil sa "sa cannot be nil" (fun sa =>
    let options := token_list_options options in
    allSecrets ← klist KSecret Privileged (LabelIs ProjectIDLabelKey (meta_Name (project_meta project)));
    let resultList := ownedTokens (fun owner =>
        owned_by owner (user_name sa) && bool_decide (owner_UID owner = meta_UID (user_meta sa)))
      (List.filter (fun secret => isToken (Some secret)) allSecrets) in
    _ ← match resultList with
        | [] => mret tt
        | tokenToGet :: _ =>
            kubernetesImpersonatedClient ← createImpersonationClientWrapperFromUserInfo userInfo;
            _ ← kget KSecret kubernetesImpersonatedClient (KubermaticNamespace, secret_name tokenToGet);
            mret tt
        end;
    let resultList := token_unprefixed <$> resultList in
    if is_empty (TokenID options) then mret resultList else
    mret (firstNamed resultList (TokenID options))))).

Definition ServiceAccountTokenProvider_ListUnsecured (options : option ServiceAccountTokenListOptions)
    : M W error (list Secret) :=
  let labelSelector := match options with
                       | Some options => default Everything (LabelSelector options)
                       | None => Everything
                       end in
  allSecrets ← klist KSecret Privileged labelSelector;
  let allTokens := token_unprefixed <$> List.filter (fun secret => isToken (Some secret)) allSecrets in
  match options with
  | None => mret allTokens
  | Some options =>
      if negb (is_empty (TokenID options)) then
        match List.find (fun token => bool_decide (secret_name token = TokenID options)) allTokens with
        | Some token => mret [token]
        | None => throw (apierrors_NewNotFound "secret" (TokenID options))
        end
      else if negb (is_empty (ServiceAccountID options)) then
        let resultList := ownedTokens (fun owner => owned_by owner (ServiceAccountID options)) allTokens in
        mret (filterByTokenName resultList (TokenName options))
      else mret (filterByTokenName allTokens (TokenName options))
  end.

Definition ServiceAccountTokenProvider_Get (userInfo : option UserInfo) (name : string)
    : M W error Secret :=
  notNil userInfo "userInfo cannot be nil" (fun userInfo =>
    _ ← notEmpty name "token name cannot be empty";
    let name := addTokenPrefix name in
    kubernetesImpersonatedClient ← mapErr apierrors_NewInternalError
      (createImpersonationClientWrapperFromUserInfo userInfo);
    token ← kget KSecret kubernetesImpersonatedClient (KubermaticNamespace, name);
    mret (token_unprefixed token)).

Definition ServiceAccountTokenProvider_GetUnsecured (name : string) : M W error Secret :=
  _ ← notEmpty name "token name cannot be empty";
  let name := addTokenPrefix name in
  token ← kget KSecret Privileged (KubermaticNamespace, name);
  mret (token_unprefixed token).

(** The copy that is sent to the server. *)
Definition token_prefixed (secret : Secret) : Secret :=
  in_namespace (secret_with_name (addTokenPrefix (secret_name secret)) secret).

Definition ServiceAccountTokenProvider_Update (userInfo : option UserInfo) (secret : option Secret)
    : M W error Secret :=
  notNil userInfo "userInfo cannot be nil" (fun userInfo =>
  notNil secret "secret cannot be empty" (fun secret =>
    let secretCpy := token_prefixed secret in
    kubernetesImpersonatedClient ← mapErr apierrors_NewInternalError
      (createImpersonationClientWrapperFromUserInfo userInfo);
    secretCpy ← kupdate KSecret kubernetesImpersonatedClient secretCpy;
    mret (token_unprefixed secretCpy))).

Definition ServiceAccountTokenProvider_UpdateUnsecured (secret : option Secret) : M W error Secret :=
  notNil secret "secret cannot be empty" (fun secret =>
    let secretCpy := token_prefixed secret in
    secretCpy ← kupdate KSecret Privileged secretCpy;
    mret (token_unprefixed secretCpy)).

Definition ServiceAccountTokenProvider_Delete (userInfo : option UserInfo) (name : string)
    : M W error unit :=
  notNil userInfo "userInfo cannot be nil" (fun userInfo =>
    _ ← notEmpty name "token name cannot be empty";
    let name := addTokenPrefix name in
    kubernetesImpersonatedClient ← mapErr apierrors_NewInternalError
      (createImpersonationClientWrapperFromUserInfo userInfo);
    kdelete KSecret kubernetesImpersonatedClient (KubermaticNamespace, name)).

Definition ServiceAccountTokenProvider_DeleteUnsecured (name : string) : M W error unit :=
  _ ← notEmpty name "token name cannot be empty";
  let name := addTokenPrefix name in
  kdelete KSecret Privileged (KubermaticNamespace, name).

#[export] Instance kubernetesTokenProvider : ServiceAccountTokenProvider W := {|
  tokens_Create := ServiceAccountTokenProvider_Create;
  tokens_List := ServiceAccountTokenProvider_List;
  tokens_Get := ServiceAccountTokenProvider_Get;
  tokens_Update := ServiceAccountTokenProvider_Update;
  tokens_Delete := ServiceAccountTokenProvider_Delete;
  tokens_ListUnsecured := ServiceAccountTokenProvider_ListUnsecured;
  tokens_CreateUnsecured := ServiceAccountTokenProvider_CreateUnsecured;
  tokens_GetUnsecured := ServiceAccountTokenProvider_GetUnsecured;
  tokens_UpdateUnsecured := ServiceAccountTokenProvider_UpdateUnsecured;
  tokens_DeleteUnsecured := ServiceAccountTokenProvider_DeleteUnsecured |}.
End tokens.

(** ** Lemmas *)

Lemma removeTokenPrefix_add id : hasTokenPrefix id = false -> removeTokenPrefix (addTokenPrefix id) = id.
Proof.
  intros H. unfold addTokenPrefix, removeTokenPrefix. rewrite H. cbn [negb]. apply TrimPrefix_app.
Qed.

Lemma addTokenPrefix_remove n :
  hasTokenPrefix n = true -> hasTokenPrefix (removeTokenPrefix n) = false ->
  addTokenPrefix (removeTokenPrefix n) = n.
Proof.
  intros H H'. unfold addTokenPrefix. rewrite H'. cbn [negb]. unfold removeTokenPrefix.
  apply HasPrefix_inv in H as [t ->]. by rewrite TrimPrefix_app.
Qed.

Lemma hasTokenPrefix_add id : hasTokenPrefix (addTokenPrefix id) = true.
Proof.
  unfold addTokenPrefix. destruct (hasTokenPrefix id) eqn:E; [done|]. apply HasPrefix_app.
Qed.

Lemma elem_of_ownedTokens matching l s :
  s ∈ ownedTokens matching l <-> s ∈ l /\ exists o, o ∈ secret_owners s /\ matching o = true.
Proof.
  unfold ownedTokens. rewrite list_elem_of_bind. setoid_rewrite list_elem_of_fmap.
  setoid_rewrite elem_of_List_filter. naive_solver.
Qed.

Section tokens_proofs.
Context {W : Type} {EL : ErrorLib} {P : SDK} {API : KubeAPI W} {ST : Store W}
        {LAWS : KubeAPILaws W} {PL : SDKLaws P}.
Implicit Types w : W.

Definition token_key (id : string) : key := (KubermaticNamespace, addTokenPrefix id).

Lemma GetUnsecured_spec id w :
  runs (ServiceAccountTokenProvider_GetUnsecured id) w (fun r w' => same_store w w' /\
    match r with
    | Ok s => exists stored, view KSecret w !! token_key id = Some stored /\ s = token_unprefixed stored
    | Err _ => True
    | Panic => False
    end).
Proof.
  unfold ServiceAccountTokenProvider_GetUnsecured, notEmpty. runs_guard; [done|].
  runs_call (kget_spec KSecret). destruct Hcall as [Hs Hg].
  destruct r as [s|e|]; cbn [andThen]; [|done|done]. runs_step. split; [done|].
  exists s. by destruct Hg.
Qed.

(** The secret of a new token. *)
Definition token_of (sa : User) (projectID tokenName tokenID token : string) (s : Secret) : Prop :=
  key_of KSecret s = token_key tokenID /\ secret_Data s = Some {[ labelTokenName := token ]} /\
  secret_labels s = <[ "name" := tokenName ]> {[ ProjectIDLabelKey := projectID ]} /\
  secret_owners s =
    [MkOwner SchemeGroupVersion_String UserKindName (meta_UID (user_meta sa)) (user_name sa)].

Definition token_created (c : client) w w' (sa : User) (projectID tokenName tokenID token : string)
    (s : Secret) : Prop :=
  exists stored, s = token_unprefixed stored /\
    token_of sa projectID tokenName tokenID token stored /\
    authorized w c VCreate KSecret (key_of KSecret stored) /\ created KSecret w w' stored.

Lemma create_token_spec c sa projectID tokenName tokenID token w :
  runs (s ← kcreate KSecret c (in_namespace (genToken sa projectID tokenName tokenID token));
        mret (token_unprefixed s)) w (fun r w' =>
    match r with
    | Ok s => token_created c w w' sa projectID tokenName tokenID token s
    | Err _ => same_store w w'
    | Panic => False
    end).
Proof.
  runs_call (kcreate_spec KSecret). destruct r as [s|e|]; cbn [andThen]; [|by destruct Hcall|done].
  runs_step. destruct Hcall as (Ha & Hst & Hc). pose proof (strip_key _ _ _ Hst) as Hk.
  apply strip_secret in Hst as (Hd & Hl & Ho). exists s.
  split_and!; [done| |by rewrite Hk|done]. split_and!; [by rewrite Hk|done|done|done].
Qed.

Lemma token_Create_spec userInfo sa projectID tokenName tokenID token w :
  runs (ServiceAccountTokenProvider_Create (Some userInfo) (Some sa) projectID tokenName tokenID token) w
    (fun r w' =>
    match r with
    | Ok s => token_created (as_user userInfo) w w' sa projectID tokenName tokenID token s
    | Err _ => same_store w w'
    | Panic => False
    end).
Proof.
  unfold ServiceAccountTokenProvider_Create. cbn [notNil]. do 2 runs_step.
  runs_call createImpersonationClientWrapperFromUserInfo_spec. destruct Hcall as [Hs Hc].
  destruct r as [c|e|]; cbn [andThen]; [subst c|done|done].
  eapply runs_mono; [apply create_token_spec|]. cbn beta.
  intros [s|e|] w1; [|intros; by etrans|done]. intros (st & ? & ? & ? & ?).
  exists st. by rewrite !Hs.
Qed.

Lemma update_token_spec c s w :
  runs (s' ← kupdate KSecret c (token_prefixed s); mret (token_unprefixed s')) w (fun r w' =>
    match r with
    | Ok s' => exists stored, s' = token_unprefixed stored /\ updated KSecret w w' stored /\
        authorized w c VUpdate KSecret (token_key (secret_name s)) /\
        key_of KSecret stored = token_key (secret_name s) /\ secret_Data stored = secret_Data s /\
        secret_labels stored = secret_labels s /\ secret_owners stored = secret_owners s
    | Err _ => same_store w w'
    | Panic => False
    end).
Proof.
  runs_call (kupdate_spec KSecret). destruct r as [s'|e|]; cbn [andThen]; [|done|done].
  runs_step. destruct Hcall as (Ha & Hst & Hu & _). pose proof (strip_key _ _ _ Hst) as Hk.
  apply strip_secret in Hst as (Hd & Hl & Ho). exists s'. by split_and!.
Qed.

Lemma token_Update_spec userInfo s w :
  runs (ServiceAccountTokenProvider_Update (Some userInfo) (Some s)) w (fun r w' =>
    match r with
    | Ok s' => exists stored, s' = token_unprefixed stored /\ updated KSecret w w' stored /\
        authorized w (as_user userInfo) VUpdate KSecret (token_key (secret_name s)) /\
        key_of KSecret stored = token_key (secret_name s) /\ secret_Data stored = secret_Data s /\
        secret_labels stored = secret_labels s /\ secret_owners stored = secret_owners s
    | Err _ => same_store w w'
    | Panic => False
    end).
Proof.
  unfold ServiceAccountTokenProvider_Update. cbn [notNil]. do 2 runs_step.
  runs_call createImpersonationClientWrapperFromUserInfo_spec. destruct Hcall as [Hs Hc].
  destruct r as [c|e|]; cbn [andThen]; [subst c|done|done].
  eapply runs_mono; [apply update_token_spec|]. cbn beta.
  intros [s'|e|] w1; [|intros; by etrans|done]. intros (st & ? & ? & ? & ?).
  exists st. by rewrite !Hs.
Qed.

(** A token of an account in a project: the label of the project, the prefix,
    and the account among its owners. *)
Definition token_in w (project : Project) (sa : User) (s : Secret) : Prop :=
  (exists n, view KSecret w !! n = Some s) /\ isToken (Some s) = true /\
  secret_labels s !! ProjectIDLabelKey = Some (meta_Name (project_meta project)) /\
  MkOwner SchemeGroupVersion_String UserKindName (meta_UID (user_meta sa)) (user_name sa)
    ∈ secret_owners s.

Definition lists_tokens w project sa (options : ServiceAccountTokenListOptions) (l : list Secret) : Prop :=
  if is_empty (TokenID options)
  then forall t, t ∈ l <-> exists s, token_in w project sa s /\ t = token_unprefixed s
  else (exists s, token_in w project sa s /\ l = [token_unprefixed s] /\
          secret_labels s !! "name" = Some (TokenID options)) \/
       (l = [] /\ forall s, token_in w project sa s ->
          secret_labels s !! "name" <> Some (TokenID options)).

Lemma project_tokens_spec project sa w l :
  l ≡ₚ filter (fun o => matches (LabelIs ProjectIDLabelKey (meta_Name (project_meta project)))
                         (obj_meta KSecret o) = true) (map_to_list (view KSecret w)).*2 ->
  forall s, s ∈ ownedTokens (fun owner =>
        owned_by owner (user_name sa) && bool_decide (owner_UID owner = meta_UID (user_meta sa)))
      (List.filter (fun secret => isToken (Some secret)) l) <-> token_in w project sa s.
Proof.
  intros Hl s. rewrite elem_of_ownedTokens, elem_of_List_filter, (elem_of_listed KSecret _ w l s Hl).
  unfold token_in, owned_by. cbn [matches]. setoid_rewrite andb_true_iff.
  setoid_rewrite andb_true_iff. setoid_rewrite andb_true_iff.
  setoid_rewrite bool_decide_eq_true. split.
  - intros ([[Hlab Hn] Ht] & [v k u n] & Hin & ((Hv & Hk) & Hna) & Hu). cbn in *. subst. done.
  - intros (Hn & Ht & Hlab & Ho). split; [done|]. eexists. split; [exact Ho|done].
Qed.

Lemma lists_tokens_filter w project sa options l :
  (forall s, s ∈ l <-> token_in w project sa s) ->
  lists_tokens w project sa options
    (if is_empty (TokenID options) then token_unprefixed <$> l
     else firstNamed (token_unprefixed <$> l) (TokenID options)).
Proof.
  intros Hl. unfold lists_tokens, firstNamed. destruct (is_empty _).
  - intros t. rewrite list_elem_of_fmap. setoid_rewrite Hl. naive_solver.
  - destruct (List.find _ _) as [t|] eqn:E.
    + apply List_find_some in E as [Hin Hn%bool_decide_eq_true].
      apply list_elem_of_fmap in Hin as (s & -> & Hs%Hl). left. by exists s.
    + right. split; [done|]. intros s Hs%Hl.
      apply (List_find_none _ _ (token_unprefixed s)) in E.
      * by apply bool_decide_eq_false in E.
      * by apply list_elem_of_fmap_2.
Qed.

Lemma token_List_spec userInfo project sa options w :
  runs (ServiceAccountTokenProvider_List (Some userInfo) (Some project) (Some sa) options) w
    (fun r w' => same_store w w' /\
    match r with
    | Ok l => lists_tokens w project sa (token_list_options options) l /\
        ((forall s, ~ token_in w project sa s) \/
         exists s, token_in w project sa s /\
           authorized w (as_user userInfo) VGet KSecret (KubermaticNamespace, secret_name s))
    | Err _ => True
    | Panic => False
    end).
Proof.
  unfold ServiceAccountTokenProvider_List. cbn [notNil]. runs_call (klist_spec KSecret).
  destruct Hcall as [Hs Hl]. destruct r as [all|e|]; cbn [andThen]; [|done|done].
  pose proof (project_tokens_spec project sa w all Hl) as Hin.
  pose proof (lists_tokens_filter w project sa (token_list_options options) _ Hin) as Hf.
  set (l := ownedTokens _ _) in *. destruct l as [|s0 l'] eqn:El.
  - runs_step. runs_step. cbn [andThen].
    destruct (is_empty (TokenID (token_list_options options))); runs_step; (split; [done|]);
      (split; [done|left]); intros s Hs'%Hin; by apply elem_of_nil in Hs'.
  - runs_step. runs_call createImpersonationClientWrapperFromUserInfo_spec. destruct Hcall as [Hs' Hc].
    assert (same_store w w1) as Hs1 by (by etrans).
    destruct r as [c|e|]; cbn [andThen]; [subst c|done|done].
    runs_call (kget_spec KSecret). destruct Hcall as [Hs2 Hg].
    assert (same_store w w2) as Hs2' by (by etrans).
    destruct r as [u|e|]; cbn [andThen]; [|done|done]. runs_step. cbn [andThen].
    assert (exists s, token_in w project sa s /\
      authorized w (as_user userInfo) VGet KSecret (KubermaticNamespace, secret_name s)) as Hauth.
    { exists s0. split; [apply Hin; set_solver|]. rewrite Hs1. by destruct Hg. }
    destruct (is_empty (TokenID (token_list_options options))); runs_step; (split; [done|]);
      (split; [done|by right]).
Qed.
(** What both Update operations store and answer. *)
Definition token_updated w w' (s answer : Secret) : Prop :=
  exists stored, answer = token_unprefixed stored /\ updated KSecret w w' stored /\
    key_of KSecret stored = token_key (secret_name s) /\ secret_Data stored = secret_Data s /\
    secret_labels stored = secret_labels s /\ secret_owners stored = secret_owners s.

(** A token whose owners name the account, whatever the UID, with the label. *)
Definition token_naming w (sel : selector) (name : string) (s : Secret) : Prop :=
  (exists n, view KSecret w !! n = Some s) /\ isToken (Some s) = true /\
  matches sel (secret_meta s) = true /\ exists o, o ∈ secret_owners s /\ owned_by o name = true.

(** A token found by its ID among those the selector selects. *)
Definition token_with_id w (sel : selector) (id : string) (s : Secret) : Prop :=
  (exists n, view KSecret w !! n = Some s) /\ isToken (Some s) = true /\
  matches sel (secret_meta s) = true /\ secret_name (token_unprefixed s) = id.

(** The options of listSAToken for an administrator. *)
Definition by_account (sel : selector) (account id : string) : option ServiceAccountTokenListOptions :=
  Some {| TokenID := id; TokenName := ""; LabelSelector := Some sel; ServiceAccountID := account |}.

Definition lists_for_admin w (sel : selector) (account id : string) (l : list Secret) : Prop :=
  if is_empty id
  then forall t, t ∈ l <-> exists s, token_naming w sel account s /\ t = token_unprefixed s
  else exists s, token_with_id w sel id s /\ l = [token_unprefixed s].

Lemma ListUnsecured_by_account_spec sel account id w :
  account <> "" ->
  runs (ServiceAccountTokenProvider_ListUnsecured (by_account sel account id)) w (fun r w' =>
    same_store w w' /\
    match r with
    | Ok l => lists_for_admin w sel account id l
    | Err e => apierrors_IsNotFound e = true -> id <> "" -> ListsSucceed W ->
        forall s, ~ token_with_id w sel id s
    | Panic => False
    end).
Proof.
  intros Hacc%is_empty_false. unfold ServiceAccountTokenProvider_ListUnsecured, by_account, lists_for_admin.
  cbn [LabelSelector default]. runs_call (klist_privileged_spec KSecret). destruct Hcall as [Hs Hl].
  destruct r as [all|e|]; cbn [andThen]; [|split; [done|intros _ _ HL; by destruct (Hl HL)]|done].
  pose proof (fun s => elem_of_listed KSecret sel w all s Hl) as Hin. cbn [TokenID].
  destruct (is_empty id) eqn:Eid; cbn [negb].
  - cbn [ServiceAccountID]. rewrite Hacc. cbn [negb TokenName]. runs_step. split; [done|].
    change (filterByTokenName _ "") with (ownedTokens (fun owner => owned_by owner account)
      (token_unprefixed <$> List.filter (fun secret => isToken (Some secret)) all)).
    intros t. rewrite elem_of_ownedTokens, list_elem_of_fmap. setoid_rewrite elem_of_List_filter.
    unfold token_naming. setoid_rewrite Hin. split.
    + intros [(s & -> & [[Hm Hn] Ht]) Ho]. exists s. by split_and!.
    + intros (s & (Hn & Ht & Hm & Ho) & ->). split; [|done]. exists s. by split_and!.
  - destruct (List.find _ _) as [t|] eqn:E; runs_step; (split; [done|]).
    + apply List_find_some in E as [Ht Hn%bool_decide_eq_true].
      apply list_elem_of_fmap in Ht as (s & -> & [[Hm Hst]%Hin Htok]%elem_of_List_filter). by exists s.
    + intros _ _ _ s (Hst & Htok & Hm & Hn).
      apply (List_find_none _ _ (token_unprefixed s)) in E.
      * by apply bool_decide_eq_false in E.
      * apply list_elem_of_fmap_2, elem_of_List_filter. split; [by apply Hin|done].
Qed.

Lemma token_Get_spec userInfo id w :
  runs (ServiceAccountTokenProvider_Get (Some userInfo) id) w (fun r w' => same_store w w' /\
    match r with
    | Ok s => authorized w (as_user userInfo) VGet KSecret (token_key id) /\
        exists stored, view KSecret w !! token_key id = Some stored /\ s = token_unprefixed stored
    | Err _ => True
    | Panic => False
    end).
Proof.
  unfold ServiceAccountTokenProvider_Get, notEmpty. cbn [notNil]. runs_guard; [done|]. do 2 runs_step.
  runs_call createImpersonationClientWrapperFromUserInfo_spec. destruct Hcall as [Hs Hc].
  destruct r as [c|e|]; cbn [andThen]; [subst c|done|done].
  runs_call (kget_spec KSecret). destruct Hcall as [Hs' Hg].
  destruct r as [s|e|]; cbn [andThen]; [|split; [by etrans|done]|done]. runs_step.
  destruct Hg as [Hv Ha]. split; [by etrans|]. rewrite <- Hs in Hv, Ha. split; [done|]. by exists s.
Qed.

Lemma token_Delete_spec userInfo id w :
  runs (ServiceAccountTokenProvider_Delete (Some userInfo) id) w (fun r w' =>
    match r with
    | Ok _ => authorized w (as_user userInfo) VDelete KSecret (token_key id) /\
        deleted KSecret w w' (token_key id)
    | Err _ => same_store w w'
    | Panic => False
    end).
Proof.
  unfold ServiceAccountTokenProvider_Delete, notEmpty. cbn [notNil]. runs_guard; [done|]. do 2 runs_step.
  runs_call createImpersonationClientWrapperFromUserInfo_spec. destruct Hcall as [Hs Hc].
  destruct r as [c|e|]; cbn [andThen]; [subst c|done|done].
  eapply runs_mono; [apply (kdelete_spec KSecret)|]. cbn beta.
  intros [[]|e|] w'; [|intros; by etrans|done]. by rewrite !Hs.
Qed.

(** ** What the provider promises to the handlers *)
Class ServiceAccountTokenProviderLaws {TOKENS : ServiceAccountTokenProvider W} : Prop := {
  tokens_Create_spec userInfo sa projectID tokenName tokenID token w :
    runs (tokens_Create (Some userInfo) (Some sa) projectID tokenName tokenID token) w (fun r w' =>
      match r with
      | Ok s => token_created (as_user userInfo) w w' sa projectID tokenName tokenID token s
      | Err _ => same_store w w'
      | Panic => False
      end);
  tokens_CreateUnsecured_spec sa projectID tokenName tokenID token w :
    runs (tokens_CreateUnsecured (Some sa) projectID tokenName tokenID token) w (fun r w' =>
      match r with
      | Ok s => token_created Privileged w w' sa projectID tokenName tokenID token s
      | Err _ => same_store w w'
      | Panic => False
      end);
  tokens_List_spec userInfo project sa options w :
    runs (tokens_List (Some userInfo) (Some project) (Some sa) options) w (fun r w' =>
      same_store w w' /\
      match r with
      | Ok l => lists_tokens w project sa (token_list_options options) l /\
          ((forall s, ~ token_in w project sa s) \/
           exists s, token_in w project sa s /\
             authorized w (as_user userInfo) VGet KSecret (KubermaticNamespace, secret_name s))
      | Err _ => True
      | Panic => False
      end);
  tokens_ListUnsecured_spec sel account id w :
    account <> "" ->
    runs (tokens_ListUnsecured (by_account sel account id)) w (fun r w' => same_store w w' /\
      match r with
      | Ok l => lists_for_admin w sel account id l
      | Err e => apierrors_IsNotFound e = true -> id <> "" -> ListsSucceed W ->
          forall s, ~ token_with_id w sel id s
      | Panic => False
      end);
  tokens_Get_spec userInfo id w :
    runs (tokens_Get (Some userInfo) id) w (fun r w' => same_store w w' /\
      match r with
      | Ok s => authorized w (as_user userInfo) VGet KSecret (token_key id) /\
          exists stored, view KSecret w !! token_key id = Some stored /\ s = token_unprefixed stored
      | Err _ => True
      | Panic => False
      end);
  tokens_GetUnsecured_spec id w :
    runs (tokens_GetUnsecured id) w (fun r w' => same_store w w' /\
      match r with
      | Ok s => exists stored, view KSecret w !! token_key id = Some stored /\ s = token_unprefixed stored
      | Err _ => True
      | Panic => False
      end);
  tokens_Update_spec userInfo s w :
    runs (tokens_Update (Some userInfo) (Some s)) w (fun r w' =>
      match r with
      | Ok s' => authorized w (as_user userInfo) VUpdate KSecret (token_key (secret_name s)) /\
          token_updated w w' s s'
      | Err _ => same_store w w'
      | Panic => False
      end);
  tokens_UpdateUnsecured_spec s w :
    runs (tokens_UpdateUnsecured (Some s)) w (fun r w' =>
      match r with
      | Ok s' => token_updated w w' s s'
      | Err _ => same_store w w'
      | Panic => False
      end);
  tokens_Delete_spec userInfo id w :
    runs (tokens_Delete (Some userInfo) id) w (fun r w' =>
      match r with
      | Ok _ => authorized w (as_user userInfo) VDelete KSecret (token_key id) /\
          deleted KSecret w w' (token_key id)
      | Err _ => same_store w w'
      | Panic => False
      end);
  tokens_DeleteUnsecured_spec id w :
    runs (tokens_DeleteUnsecured id) w (fun r w' =>
      match r with
      | Ok _ => deleted KSecret w w' (token_key id)
      | Err _ => same_store w w'
      | Panic => False
      end) }.
End tokens_proofs.

Arguments ServiceAccountTokenProviderLaws W {EL P API ST TOKENS}.

#[export] Instance kubernetesTokenProvider_laws {W} {EL : ErrorLib} {P : SDK} {API : KubeAPI W}
    {ST : Store W} {LAWS : KubeAPILaws W} {PL : SDKLaws P} : ServiceAccountTokenProviderLaws W.
Proof.
  split.
  - apply token_Create_spec.
  - intros. apply create_token_spec.
  - apply token_List_spec.
  - apply ListUnsecured_by_account_spec.
  - apply token_Get_spec.
  - apply GetUnsecured_spec.
  - intros. eapply runs_mono; [apply token_Update_spec|]. cbn beta.
    intros [s'|e|] w'; [|done|done]. intros (st & ? & ? & ? & ?). split; [done|]. by exists st.
  - intros. eapply runs_mono; [apply update_token_spec|]. cbn beta.
    intros [s'|e|] w'; [|done|done]. intros (st & ? & ? & ? & ?). by exists st.
  - apply token_Delete_spec.
  - intros id w. cbn [tokens_DeleteUnsecured kubernetesTokenProvider].
    unfold ServiceAccountTokenProvider_DeleteUnsecured, notEmpty. runs_guard; [done|].
    eapply runs_mono; [apply (kdelete_spec KSecret)|]. cbn beta. by intros [[]|e|] w'; [intros [_ ?]| |].
Qed.

(** ** Properties *)

Section tokens_properties.
Context {W : Type} {EL : ErrorLib} {P : SDK} {API : KubeAPI W} {ST : Store W}
        {LAWS : KubeAPILaws W} {PL : SDKLaws P}.
Implicit Types w : W.

(** A token that was created for a service account, with the permissions of
    the caller, is found again under its ID: it carries the given data, the
    project, and the service account as its only owner. *)
Theorem token_create_get userInfo sa projectID tokenName tokenID token w :
  hasTokenPrefix tokenID = false ->
  runs (ServiceAccountTokenProvider_Create (Some userInfo) (Some sa) projectID tokenName tokenID token) w
    (fun r w' =>
    match r with
    | Ok s => secret_name s = tokenID /\
        authorized w (as_user userInfo) VCreate KSecret (token_key tokenID) /\
        secret_lookup s labelTokenName = Some token /\
        secret_labels s !! "name" = Some tokenName /\
        secret_owners s =
          [MkOwner SchemeGroupVersion_String UserKindName (meta_UID (user_meta sa)) (user_name sa)] /\
        runs (ServiceAccountTokenProvider_GetUnsecured (secret_name s)) w' (fun r' _ =>
          match r' with Ok s' => s' = s | Err _ => True | Panic => False end)
    | Err _ => same_store w w'
    | Panic => False
    end).
Proof.
  intros Hid. eapply runs_mono; [apply token_Create_spec|]. cbn beta.
  intros [s|e|] w'; [|done|done]. intros (st & -> & (Hk & Hd & Hl & Ho) & Ha & (_ & Hv & _)).
  rewrite Hk in Ha, Hv. assert (secret_name st = addTokenPrefix tokenID) as Hn by (injection Hk; done).
  assert (secret_name (token_unprefixed st) = tokenID) as Hn'.
  { change (removeTokenPrefix (secret_name st) = tokenID). by rewrite Hn, removeTokenPrefix_add. }
  split_and!; [done|done| | |done|].
  - unfold secret_lookup. cbn [token_unprefixed secret_with_name secret_with_meta secret_Data].
    by rewrite Hd, lookup_singleton_eq.
  - change (secret_labels st !! "name" = Some tokenName). by rewrite Hl, lookup_insert_eq.
  - rewrite Hn'. eapply runs_mono; [apply GetUnsecured_spec|]. cbn beta.
    intros [s'|e|] w2 [_ H]; [|done|done]. destruct H as (st' & Hst' & ->).
    rewrite Hv, lookup_insert_eq in Hst'. by injection Hst' as <-.
Qed.

(** Update replaces the stored token, with the permissions of the caller:
    the next read answers the new data, and the old data is gone. *)
Theorem token_update_get userInfo s w :
  hasTokenPrefix (secret_name s) = false ->
  runs (ServiceAccountTokenProvider_Update (Some userInfo) (Some s)) w (fun r w' =>
    match r with
    | Ok s' => secret_name s' = secret_name s /\ secret_Data s' = secret_Data s /\
        authorized w (as_user userInfo) VUpdate KSecret (token_key (secret_name s)) /\
        is_Some (view KSecret w !! token_key (secret_name s)) /\
        runs (ServiceAccountTokenProvider_GetUnsecured (secret_name s)) w' (fun r' _ =>
          match r' with Ok s'' => s'' = s' | Err _ => True | Panic => False end)
    | Err _ => same_store w w'
    | Panic => False
    end).
Proof.
  intros Hid. eapply runs_mono; [apply token_Update_spec|]. cbn beta.
  intros [s'|e|] w'; [|done|done].
  intros (st & -> & ((old & Hold & _) & Hv & _) & Ha & Hk & Hd & _ & _).
  rewrite Hk in Hv, Hold. assert (secret_name st = addTokenPrefix (secret_name s)) as Hn by (injection Hk; done).
  assert (secret_name (token_unprefixed st) = secret_name s) as Hn'.
  { change (removeTokenPrefix (secret_name st) = secret_name s). by rewrite Hn, removeTokenPrefix_add. }
  split_and!; [done|done|done|by exists old|].
  eapply runs_mono; [apply GetUnsecured_spec|]. cbn beta.
  intros [s'|e|] w2 [_ H]; [|done|done]. destruct H as (st' & Hst' & ->).
  rewrite Hv, lookup_insert_eq in Hst'. by injection Hst' as <-.
Qed.

(** The tokens of a service account in a project are listed completely and
    exactly: those with the label of the project and an owner of the account's
    name and UID; or the one whose label name is the option TokenID; and only to
    a user who can read one of them. *)
Theorem token_List_exact userInfo project sa options w :
  runs (ServiceAccountTokenProvider_List (Some userInfo) (Some project) (Some sa) options) w
    (fun r w' => same_store w w' /\
    match r with
    | Ok l => lists_tokens w project sa (token_list_options options) l /\
        ((forall s, ~ token_in w project sa s) \/
         exists s, token_in w project sa s /\
           authorized w (as_user userInfo) VGet KSecret (KubermaticNamespace, secret_name s))
    | Err _ => True
    | Panic => False
    end).
Proof. apply token_List_spec. Qed.
End tokens_properties.

(** The installation with a token of ci, readable by bob. *)
Definition ciToken : Secret :=
  secret_with_meta (meta_with_namespace "kubermatic" (secret_meta (genToken ciAccount "p1" "deploy" "abc" "eyJ0")))
    (genToken ciAccount "p1" "deploy" "abc" "eyJ0").
Definition withToken : Mem :=
  mem_of (fun k => match k with KSecret => [ciToken] | k => sample_objs k end) 0 []
    (fun _ _ _ _ => true).

Lemma token_create_get_witness :
  let run := ServiceAccountTokenProvider_Create (Some bobInfo) (Some ciAccount) "p1" "deploy" "abc" "eyJ0" sample in
  exists s, run.1 = Ok s /\ secret_lookup s labelTokenName = Some "eyJ0" /\
    runs (ServiceAccountTokenProvider_GetUnsecured (secret_name s)) run.2 (fun r' _ =>
      match r' with Ok s' => s' = s | Err _ => True | Panic => False end).
Proof.
  intros run. run_ok run s E. exists s. split; [exact E|].
  pose proof (token_create_get bobInfo ciAccount "p1" "deploy" "abc" "eyJ0" sample eq_refl) as H.
  unfold runs at 1 in H. fold run in H. rewrite E in H.
  destruct H as (_ & _ & H1 & _ & _ & H2). split; [exact H1|exact H2].
Defined.

Lemma token_update_get_witness :
  let token := secret_with_data (Some {[ labelTokenName := "eyJ1" ]}) (token_unprefixed ciToken) in
  let run := ServiceAccountTokenProvider_Update (Some bobInfo) (Some token) withToken in
  exists s, run.1 = Ok s /\ secret_Data s = Some {[ labelTokenName := "eyJ1" ]} /\
    runs (ServiceAccountTokenProvider_GetUnsecured "abc") run.2 (fun r' _ =>
      match r' with Ok s' => s' = s | Err _ => True | Panic => False end).
Proof.
  intros token run. run_ok run s E. exists s. split; [exact E|].
  pose proof (token_update_get bobInfo token withToken eq_refl) as H.
  unfold runs at 1 in H. fold run in H. rewrite E in H.
  destruct H as (_ & H1 & _ & _ & H2). split; [exact H1|exact H2].
Defined.

Lemma token_List_exact_witness :
  let run := ServiceAccountTokenProvider_List (Some bobInfo) (Some project1) (Some ciAccount) None withToken in
  run.1 = Ok [token_unprefixed ciToken] /\
  lists_tokens withToken project1 ciAccount (token_list_options None) [token_unprefixed ciToken].
Proof.
  intros run. assert (run.1 = Ok [token_unprefixed ciToken]) as E by (vm_compute; reflexivity).
  split; [exact E|]. run_thm run E (token_List_exact bobInfo project1 ciAccount None withToken) H.
  destruct H as (_ & H & _). exact H.
Defined.
