(* ===== verification/Auth.v ===== *)
(** Authentication: the plugins and extractors of handler/auth, the tokens of
    service accounts (serviceaccount/jwt.go, handler/auth/sa.go), the claims of
    the OpenID provider (handler/auth/oidc.go).  The JWT library and the OpenID
    verifier are not under src/: they are the classes [Jose] and [OIDC]. *)
From S2P Require Export Tokens.
From stdpp Require Import pretty.
From Stdlib Require Import Ascii.

(** ** Plugins: handler/auth/plugin.go *)

(** authtypes.TokenVerifier *)
Definition TokenVerifierFn (W : Type) : Type := string -> M W error TokenClaims.

Section plugins.
Context {W : Type} {EL : ErrorLib}.

Fixpoint verifyLoop (plugins : list (TokenVerifierFn W)) (token : string) (errList : list error)
    : M W error TokenClaims :=
  match plugins with
  | [] => throw (utilerrors_NewAggregate errList)
  | plugin :: plugins' =>
      r ← attempt (plugin token);
      match r with
      | inr claims => mret claims
      | inl err =>
          match as_token_expired err with
          | Some _ => throw err
          | None => verifyLoop plugins' token (errList ++ [err])
          end
      end
  end.

Definition TokenVerifierPlugins_Verify (plugins : list (TokenVerifierFn W)) (token : string)
    : M W error TokenClaims :=
  if bool_decide (length plugins = 0)
  then throw (ENew "cannot validate the token - no plugins registered")
  else verifyLoop plugins token [].
End plugins.

(** ** Extractors: handler/auth/plugin.go, handler/auth/oidc.go *)

(** What the code reads of a request: its headers, its query, its cookies in
    order, its host, and whether it came over TLS. *)
Record Request := MkRequest {
  req_Header : string -> string;
  req_Query : string -> string;
  req_Cookies : list (string * string);
  req_Host : string;
  req_TLS : bool }.

(** [r.Cookie(name)]: the first cookie of the name. *)
Definition req_Cookie (r : Request) (name : string) : result error string :=
  match List.find (fun c => bool_decide (c.1 = name)) (req_Cookies r) with
  | Some c => Ok c.2
  | None => Err (ENew "http: named cookie not present")
  end.

(** authtypes.TokenExtractor *)
Definition TokenExtractorFn : Type := Request -> result error string.

Fixpoint extractLoop `{ErrorLib} (plugins : list TokenExtractorFn) (r : Request) (errList : list error)
    : result error string :=
  match plugins with
  | [] => Err (utilerrors_NewAggregate errList)
  | plugin :: plugins' =>
      match plugin r with
      | Ok token => Ok token
      | Err err => extractLoop plugins' r (errList ++ [err])
      | Panic => Panic
      end
  end.

Definition TokenExtractorPlugins_Extract `{ErrorLib} (plugins : list TokenExtractorFn)
    : TokenExtractorFn := fun r =>
  if bool_decide (length plugins = 0)
  then Err (ENew "cannot validate the token - no plugins registered")
  else extractLoop plugins r [].

Definition headerBearerTokenExtractor_Extract (name : string) : TokenExtractorFn := fun r =>
  let header := req_Header r name in
  if bool_decide (String.length header < 7)
  then Err (ENew ("haven't found a Bearer token in the " +:+ name +:+ " header"))
  else (* strip BEARER/bearer/Bearer prefix *)
    Ok (drop_string 7 header).

Definition queryParamBearerTokenExtractor_Extract (name : string) : TokenExtractorFn := fun r =>
  let val := req_Query r name in
  if is_empty val
  then Err (ENew ("haven't found an OIDC token in the query " +:+ quote name +:+ " param "))
  else Ok val.

Definition cookieHeaderBearerTokenExtractor_Extract (name : string) : TokenExtractorFn := fun r =>
  match req_Cookie r "token" with
  | Ok value => Ok value
  | Err err =>
      Err (EWrap ("haven't found a Bearer token in the Cookie header " +:+ name +:+ ": ") err)
  | Panic => Panic
  end.

(** The loop over name-1, name-2, ...: it ends at the first missing cookie. *)
Fixpoint multiTokenLoop (fuel : nat) (name : string) (r : Request) (i : N) (finalToken : string)
    : option string :=
  match fuel with
  | O => None
  | S fuel =>
      let tokenName := name +:+ "-" +:+ pretty i in
      match req_Cookie r tokenName with
      | Ok value => multiTokenLoop fuel name r (i + 1)%N (finalToken +:+ value)
      | _ => Some finalToken
      end
  end.

(** One turn per cookie and a last one are enough. *)
Definition cookieHeaderBearerMultiTokenExtractor_Extract (name : string) : TokenExtractorFn := fun r =>
  match multiTokenLoop (S (length (req_Cookies r))) name r 1 "" with
  | Some finalToken =>
      if bool_decide (String.length finalToken = 0)
      then Err (ENew ("haven't found a Bearer token in the Cookie header " +:+ name))
      else Ok finalToken
  | None => Panic
  end.

Definition combinedExtractor_Extract (extractors : list TokenExtractorFn) : TokenExtractorFn := fun r =>
  let notFound := ENew ("haven't found an OIDC token, tried " +:+ pretty (length extractors) +:+ " extractors") in
  (fix loop (l : list TokenExtractorFn) := match l with
   | [] => Err notFound
   | extractor :: l' =>
       match extractor r with
       | Ok token => Ok token
       | Err _ => loop l'
       | Panic => Panic
       end
   end) extractors.

(** ** Service-account tokens: serviceaccount/jwt.go *)

(** jwt.Claims: times in seconds since the Unix epoch. *)
Record JwtClaims := MkJwtClaims {
  jwt_IssuedAt : Z;
  jwt_NotBefore : Z;
  jwt_Expiry : Z }.

Record CustomTokenClaim := MkCustomClaim {
  custom_Email : string;
  custom_ProjectID : string;
  custom_TokenID : string }.

(** github.com/go-jose/go-jose/v4 *)
Class Jose := {
  JSONWebToken : Type;
  jwt_Serialize : string -> JwtClaims -> CustomTokenClaim -> result error string;
  jwt_ParseSigned : string -> result error JSONWebToken;
  token_Claims : JSONWebToken -> string -> result error (CustomTokenClaim * JwtClaims);
  claims_Validate : JwtClaims -> time -> option error;
  jwt_is_ErrExpired : error -> bool }.

(** Seconds from Go's zero time to the Unix epoch. *)
Definition unixToInternal : Z := 62135596800.
Definition NewNumericDate (t : time) : Z := (t / second - unixToInternal)%Z.
(** [n.Time()]. *)
Definition NumericDate_Time (n : Z) : time := ((n + unixToInternal) * second)%Z.

(** The leeway of [Validate]: a minute. *)
Definition DefaultLeeway : Z := (60 * second)%Z.
Definition in_force (pub : JwtClaims) (t : time) : Prop :=
  (NumericDate_Time (jwt_NotBefore pub) <= t + DefaultLeeway /\
   NumericDate_Time (jwt_IssuedAt pub) <= t + DefaultLeeway /\
   t - DefaultLeeway <= NumericDate_Time (jwt_Expiry pub))%Z.

(** What is signed with a key is read back with the key; claims are in force
    from a minute before they were issued to a minute after they expire. *)
Class JoseLaws (J : Jose) : Prop := {
  jose_roundtrip key pub cust token :
    jwt_Serialize key pub cust = Ok token ->
    exists jws, jwt_ParseSigned token = Ok jws /\ token_Claims jws key = Ok (cust, pub);
  jose_validate pub t :
    t <> zero_time -> claims_Validate pub t = None <-> in_force pub t;
  jose_total :
    (forall key pub cust, jwt_Serialize key pub cust <> Panic) /\
    (forall token, jwt_ParseSigned token <> Panic) /\
    forall jws key, token_Claims jws key <> Panic }.

(** [t.AddDate(years, 0, 0)]: the same day of the year [years] later, the 29th
    of February becoming the 1st of March. *)
Definition AddYears (years : Z) (t : time) : time :=
  (let day := 86400 * second in
   let yd := absDate (t / day) in
   let md := monthDay (monthLengths yd.1) 1 yd.2 in
   let year := yd.1 + years in
   (daysBeforeYear year + daysBeforeMonth year md.1 + md.2 - 1) * day + t mod day)%Z.

Section jwt.
Context {W : Type} {EL : ErrorLib} {API : KubeAPI W} {J : Jose}.

Definition Claims (email projectID tokenID : string)
    : M W error (JwtClaims * CustomTokenClaim) :=
  issuedAt ← now;
  notBefore ← now;
  expiry ← now;
  let sc := MkJwtClaims (NewNumericDate issuedAt) (NewNumericDate notBefore)
              (NewNumericDate (AddYears 3 expiry)) in
  let pc := MkCustomClaim email projectID tokenID in
  mret (sc, pc).

Definition ValidateKey (privateKey : string) : result error unit :=
  if bool_decide (String.length privateKey = 0) then Err (ENew "the signing key can not be empty") else
  if bool_decide (String.length privateKey < 32)
  then Err (ENew "the signing key is to short, use 32 bytes or longer")
  else Ok tt.

(** The signer of a generator holds the key. *)
Definition JWTTokenGenerator (privateKey : string) : result error string :=
  match ValidateKey privateKey with
  | Ok _ => Ok privateKey
  | Err e => Err e
  | Panic => Panic
  end.

Definition jwtTokenGenerator_Generate (signer : string) (claims : JwtClaims)
    (customClaims : CustomTokenClaim) : result error string :=
  jwt_Serialize signer claims customClaims.

Definition jwtTokenAuthenticator_Authenticate (key tokenData : string)
    : M W error (JwtClaims * CustomTokenClaim) :=
  tok ← lift (jwt_ParseSigned tokenData);
  pc ← lift (token_Claims tok key);
  let customClaims := pc.1 in
  let public := pc.2 in
  t ← now;
  match claims_Validate public t with
  | Some err =>
      if jwt_is_ErrExpired err then throw (ENew "token has expired")
      else throw (EWrap "token could not be validated: " err)
  | None => mret (public, customClaims)
  end.
End jwt.

(** ** handler/auth/sa.go *)

(** serviceaccount.TokenAuthenticator *)
Definition TokenAuthenticatorFn (W : Type) : Type := string -> M W error (JwtClaims * CustomTokenClaim).

Section sa_auth.
Context {W : Type} {EL : ErrorLib} {TOKENS : ServiceAccountTokenProvider W}.

Definition list_by_id (id : string) : option ServiceAccountTokenListOptions :=
  Some {| TokenID := id; TokenName := ""; LabelSelector := None; ServiceAccountID := "" |}.

(** After an error that is not NotFound the list is nil. *)
Definition ServiceAccountAuthClient_Verify (authenticate : TokenAuthenticatorFn W)
    : TokenVerifierFn W := fun token =>
  c ← authenticate token;
  let customClaims := c.2 in
  let id := custom_TokenID customClaims in
  let tokenExpiredMsg := "sa: the token " +:+ id +:+ " has been revoked for " +:+ custom_Email customClaims in
  listed ← attempt (tokens_ListUnsecured (list_by_id id));
  tokenList ← match listed with
              | inl err => if apierrors_IsNotFound err then throw (TokenExpiredError tokenExpiredMsg)
                           else mret []
              | inr tokenList => mret tokenList
              end;
  match tokenList with
  | [rawToken] =>
      match secret_lookup rawToken "token" with
      | None => throw (ENew ("sa: cannot verify the token (" +:+ id +:+
                  ") because the corresponding token in the database is invalid"))
      | Some tokenFromDB =>
          if negb (bool_decide (tokenFromDB = token)) then throw (TokenExpiredError tokenExpiredMsg)
          else mret (MkClaims id (custom_Email customClaims) (custom_Email customClaims) [] "" zero_time)
      end
  | _ => throw (ENew ("sa: found zero or more than one token with the given id " +:+ id))
  end.
End sa_auth.

(** ** handler/auth/oidc.go: the claims of an ID token *)

(** A decoded JSON value; of a number the code uses the integer part and the
    fraction in nanoseconds. *)
Inductive claim :=
| CString (s : string)
| CList (l : list claim)
| CNumber (secs nsecs : Z)
| COther.

Class OIDC (W : Type) := {
  IDToken : Type;
  verifier_Verify : string -> M W error IDToken;
  idToken_Claims : IDToken -> result error (gmap string claim) }.

Section oidc.
Context {W : Type} {EL : ErrorLib} {O : OIDC W}.

(** [c.(string)], unguarded. *)
Definition must_string (c : option claim) : result error string :=
  match c with
  | None => Ok ""
  | Some (CString s) => Ok s
  | Some _ => Panic
  end.

Definition claim_strings (l : list claim) : list string :=
  omap (fun c => match c with CString s => Some s | _ => None end) l.

Definition must_groups (c : option claim) : result error (list string) :=
  match c with
  | None => Ok []
  | Some (CList l) => Ok (claim_strings l)
  | Some _ => Panic
  end.

Definition must_expiry (c : option claim) : result error time :=
  match c with
  | None => Ok zero_time
  | Some (CNumber secs nsecs) => Ok ((secs + unixToInternal) * second + nsecs)%Z
  | Some _ => Panic
  end.

Definition OpenIDClient_Verify : TokenVerifierFn W := fun token =>
  _ ← throwIf (is_empty token) (ENew "token cannot be empty");
  verified ← attempt (verifier_Verify token);
  idToken ← match verified with
            | inl err => if Contains (Error err) "oidc: token is expired"
                         then throw (TokenExpiredError (Error err)) else throw err
            | inr idToken => mret idToken
            end;
  claims ← lift (idToken_Claims idToken);
  name ← lift (must_string (claims !! "name"));
  email ← lift (must_string (claims !! "email"));
  sub ← lift (must_string (claims !! "sub"));
  groups ← lift (must_groups (claims !! "groups"));
  let nonce := match claims !! "nonce" with Some (CString n) => n | _ => "" end in
  expiry ← lift (must_expiry (claims !! "exp"));
  mret (MkClaims name email sub groups nonce expiry).
End oidc.

(** ** Lemmas *)

Section plugins_proofs.
Context {W : Type} {EL : ErrorLib}.
Implicit Types w : W.

(** The plugins reject the token one after the other, none because it expired. *)
Inductive rejects (token : string) : list (TokenVerifierFn W) -> W -> list error -> W -> Prop :=
| rejects_nil w : rejects token [] w [] w
| rejects_cons p ps w e w1 es w2 :
    p token w = (Err e, w1) -> as_token_expired e = None ->
    rejects token ps w1 es w2 -> rejects token (p :: ps) w (e :: es) w2.

(** The outcome of the loop: the first plugin that accepts or finds the token
    expired decides, the later ones are not asked. *)
Definition decided_by (plugins : list (TokenVerifierFn W)) (token : string) w
    (r : result error TokenClaims) w' : Prop :=
  exists pre p post es w1, plugins = pre ++ p :: post /\ rejects token pre w es w1 /\
    p token w1 = (r, w').

Lemma verifyLoop_spec plugins token errs w :
  runs (verifyLoop plugins token errs) w (fun r w' =>
    match r with
    | Err e => (is_Some (as_token_expired e) /\ decided_by plugins token w r w') \/
               (exists es, rejects token plugins w es w' /\ e = utilerrors_NewAggregate (errs ++ es))
    | _ => decided_by plugins token w r w'
    end).
Proof.
  revert errs w. induction plugins as [|p ps IH]; intros errs w; cbn [verifyLoop].
  { runs_step. right. exists []. split; [constructor|by rewrite app_nil_r]. }
  do 2 runs_step. apply runs_intro. intros r w1 Hp.
  assert (forall r0 w0, (match r0 with Err e => is_Some (as_token_expired e) | _ => True end) ->
    p token w = (r0, w0) -> decided_by (p :: ps) token w r0 w0) as Hhere.
  { intros r0 w0 _ Hr. exists [], p, ps, [], w. by repeat constructor. }
  destruct r as [claims|e|]; cbn [andThen]; [runs_step; by apply Hhere| |by apply Hhere].
  destruct (as_token_expired e) as [msg|] eqn:Ee.
  { runs_step. left. split; [by exists msg|]. apply Hhere; [by exists msg|done]. }
  eapply runs_mono; [apply IH|]. cbn beta.
  assert (forall r0 w0, decided_by ps token w1 r0 w0 -> decided_by (p :: ps) token w r0 w0) as Hlater.
  { intros r0 w0 (pre & q & post & es & w2 & -> & Hrej & Hq).
    exists (p :: pre), q, post, (e :: es), w2. by repeat (econstructor; eauto). }
  intros [claims|e'|] w2; [apply Hlater| |apply Hlater].
  intros [[Hex Hd]|(es & Hrej & ->)]; [left; by auto|right].
  exists (e :: es). split; [by econstructor|]. by rewrite <- (assoc_L (++)).
Qed.
End plugins_proofs.

Section multi_proofs.
Variable (name : string) (r : Request).

Definition cookie_name (i : N) : string := name +:+ "-" +:+ pretty i.

Lemma cookie_name_inj i j : cookie_name i = cookie_name j -> i = j.
Proof.
  unfold cookie_name. intros H%string_app_inj. apply (string_app_inj "-") in H.
  by apply (inj pretty) in H.
Qed.

(** The values of [k] cookies from [i] on are present and concatenate to [v]. *)
Inductive cookies_from : N -> nat -> string -> Prop :=
| cookies_none i : cookies_from i 0 ""
| cookies_more i k value v :
    req_Cookie r (cookie_name i) = Ok value -> cookies_from (i + 1) k v ->
    cookies_from i (S k) (value +:+ v).

Lemma req_Cookie_no_panic n : req_Cookie r n <> Panic.
Proof. unfold req_Cookie. by case_match. Qed.

Lemma multiTokenLoop_spec fuel i acc t :
  multiTokenLoop fuel name r i acc = Some t ->
  exists k v e, cookies_from i k v /\ t = acc +:+ v /\ req_Cookie r (cookie_name (i + N.of_nat k)) = Err e.
Proof.
  revert i acc. induction fuel as [|fuel IH]; intros i acc; cbn [multiTokenLoop]; [done|].
  fold (cookie_name i). destruct (req_Cookie r (cookie_name i)) as [value|e|] eqn:E.
  - intros (k & v & e & Hc & -> & He)%IH. exists (S k), (value +:+ v), e.
    split_and!; [by econstructor|by rewrite string_app_assoc|].
    by replace (i + N.of_nat (S k))%N with (i + 1 + N.of_nat k)%N by lia.
  - intros [= <-]. exists 0%nat, "", e. split_and!; [constructor| |by rewrite N.add_0_r].
    clear. induction acc as [|c acc IH]; [done|].
    change (String c acc = String c (acc +:+ "")). by rewrite <- IH.
  - by apply req_Cookie_no_panic in E.
Qed.

(** Running out of fuel means as many different cookies as turns. *)
Lemma multiTokenLoop_none fuel i acc :
  multiTokenLoop fuel name r i acc = None ->
  forall k, (k < fuel)%nat -> cookie_name (i + N.of_nat k) ∈ (req_Cookies r).*1.
Proof.
  revert i acc. induction fuel as [|fuel IH]; intros i acc; cbn [multiTokenLoop]; [lia|].
  fold (cookie_name i). destruct (req_Cookie r (cookie_name i)) as [value|e|] eqn:E;
    [|done|by apply req_Cookie_no_panic in E].
  intros H [|k] Hk.
  - rewrite N.add_0_r. unfold req_Cookie in E.
    destruct (List.find _ _) as [[n v]|] eqn:Ef; [|done].
    apply List_find_some in Ef as [Hin Hn%bool_decide_eq_true].
    apply list_elem_of_fmap. exists (n, v). cbn in *. by subst.
  - replace (i + N.of_nat (S k))%N with (i + 1 + N.of_nat k)%N by lia. apply (IH _ _ H). lia.
Qed.

Lemma multiTokenLoop_total acc : multiTokenLoop (S (length (req_Cookies r))) name r 1 acc <> None.
Proof.
  intros H. pose proof (multiTokenLoop_none _ _ _ H) as Hin.
  set (names := (fun k => cookie_name (1 + N.of_nat k)) <$> seq 0 (S (length (req_Cookies r)))).
  assert (NoDup names) as Hnd.
  { apply NoDup_fmap_2_strong; [|apply NoDup_seq]. intros a b _ _ Hab%cookie_name_inj. lia. }
  assert (names ⊆+ (req_Cookies r).*1) as Hsub.
  { apply NoDup_submseteq; [done|]. intros x. unfold names. rewrite list_elem_of_fmap.
    intros (k & -> & Hk%elem_of_seq). apply Hin. lia. }
  apply submseteq_length in Hsub. unfold names in Hsub.
  rewrite !length_fmap, length_seq in Hsub. lia.
Qed.
End multi_proofs.

(** ** Service-account tokens *)

Section sa_auth_proofs.
Context {W : Type} {EL : ErrorLib} {ELL : ErrorLibLaws EL} {P : SDK} {API : KubeAPI W} {ST : Store W}
        {LAWS : KubeAPILaws W} {PL : SDKLaws P}.
Implicit Types w : W.

(** A stored token whose ID is [id]. *)
Definition token_named w (id : string) (s : Secret) : Prop :=
  (exists n, view KSecret w !! n = Some s) /\ isToken (Some s) = true /\
  removeTokenPrefix (secret_name s) = id.

#[export] Instance token_named_proper : Proper (same_store ==> eq ==> eq ==> iff) token_named.
Proof. intros w w' [Hw _] i ? <- s ? <-. unfold token_named. by rewrite Hw. Qed.

(** Looking a token up by its ID. *)
Lemma ListUnsecured_by_id_spec id w :
  id <> "" ->
  runs (ServiceAccountTokenProvider_ListUnsecured (list_by_id id)) w (fun r w' => same_store w w' /\
    match r with
    | Ok l => exists s, token_named w id s /\ l = [token_unprefixed s]
    | Err e => ~ ListsSucceed W \/
        (e = apierrors_NewNotFound "secret" id /\ forall s, ~ token_named w id s)
    | Panic => False
    end).
Proof.
  intros Hid. unfold ServiceAccountTokenProvider_ListUnsecured, list_by_id. cbn [LabelSelector default].
  runs_call (klist_privileged_spec KSecret). destruct Hcall as [Hs Hl].
  destruct r as [all|e|]; cbn [andThen]; [|by split; [|left]|done].
  assert (is_empty id = false) as Hne by (by apply bool_decide_eq_false).
  cbn [TokenID]. rewrite Hne. cbn [negb].
  pose proof (fun s => elem_of_listed_all KSecret w all s Hl) as Hin.
  destruct (List.find _ _) as [t|] eqn:E; runs_step; (split; [done|]).
  - apply List_find_some in E as [Ht Hn%bool_decide_eq_true].
    apply list_elem_of_fmap in Ht as (s & -> & [Hs'%Hin Htok]%elem_of_List_filter). by exists s.
  - right. split; [done|]. intros s (Hst%Hin & Htok & Hn).
    apply (List_find_none _ _ (token_unprefixed s)) in E.
    + by apply bool_decide_eq_false in E.
    + apply list_elem_of_fmap_2, elem_of_List_filter. by split.
Qed.

(** What Verify decides for a token whose signature is good. *)
Definition sa_verdict w (c : CustomTokenClaim) (token : string) (r : result error TokenClaims) : Prop :=
  match r with
  | Ok claims =>
      claims = MkClaims (custom_TokenID c) (custom_Email c) (custom_Email c) [] "" zero_time /\
      exists s, token_named w (custom_TokenID c) s /\ secret_lookup s labelTokenName = Some token
  | Err e => ~ ListsSucceed W \/
      (is_Some (as_token_expired e) /\
         ((forall s, ~ token_named w (custom_TokenID c) s) \/
          exists s t, token_named w (custom_TokenID c) s /\ secret_lookup s labelTokenName = Some t /\
            t <> token)) \/
      (as_token_expired e = None /\
         exists s, token_named w (custom_TokenID c) s /\ secret_lookup s labelTokenName = None)
  | Panic => False
  end.

Lemma sa_Verify_spec (authenticate : TokenAuthenticatorFn W) token pub c w w1 :
  authenticate token w = (Ok (pub, c), w1) -> custom_TokenID c <> "" ->
  runs (ServiceAccountAuthClient_Verify authenticate token) w (fun r w' =>
    same_store w1 w' /\ sa_verdict w1 c token r).
Proof.
  intros Ha Hid. unfold ServiceAccountAuthClient_Verify. runs_step. apply runs_intro.
  intros r w' Hr. rewrite Ha in Hr. injection Hr as <- <-. cbn [andThen snd].
  do 2 runs_step. eapply runs_mono; [apply ListUnsecured_by_id_spec, Hid|]. cbn beta.
  intros r w2 [Hs Hl]. destruct r as [l|e|]; [|cbn [andThen]|done].
  - destruct Hl as (s & Hn & ->). cbn [andThen].
    apply runs_bind, runs_ret. cbn [andThen].
    change (secret_lookup (token_unprefixed s) "token") with (secret_lookup s labelTokenName).
    destruct (secret_lookup s labelTokenName) as [t|] eqn:Et.
    + case_bool_decide as Hb; cbn [negb]; runs_step; (split; [done|]).
      * split; [done|]. exists s. by subst t.
      * right; left. split; [by eexists|]. right. by exists s, t.
    + runs_step. split; [done|]. right; right. split; [done|]. by exists s.
  - destruct Hl as [Hf|[-> Hn]].
    + destruct (apierrors_IsNotFound e); do 2 runs_step; cbn [andThen]; [by split; [|left]|].
      runs_step. by split; [|left].
    + rewrite IsNotFound_NewNotFound. do 2 runs_step. cbn [andThen]. split; [done|].
      right; left. split; [by eexists|by left].
Qed.
End sa_auth_proofs.

Section jwt_proofs.
Context {W : Type} {EL : ErrorLib} {API : KubeAPI W} {ST : Store W} {LAWS : KubeAPILaws W}
        {J : Jose} {JL : JoseLaws J}.
Implicit Types w : W.

Lemma NumericDate_Time_bounds t :
  (NumericDate_Time (NewNumericDate t) <= t < NumericDate_Time (NewNumericDate t) + second)%Z.
Proof.
  unfold NumericDate_Time, NewNumericDate, second.
  pose proof (Z.div_mod t 1000000000). pose proof (Z.mod_pos_bound t 1000000000). lia.
Qed.

Lemma Claims_spec email pid id w :
  runs (Claims email pid id) w (fun r w' => same_store w w' /\
    exists issued notBefore expiry : time, r = Ok
      (MkJwtClaims (NewNumericDate issued) (NewNumericDate notBefore) (NewNumericDate (AddYears 3 expiry)),
       MkCustomClaim email pid id)).
Proof.
  unfold Claims. runs_call now_spec. destruct Hcall as [H1 [t1 ->]]. cbn [andThen].
  runs_call now_spec. destruct Hcall as [H2 [t2 ->]]. cbn [andThen].
  runs_call now_spec. destruct Hcall as [H3 [t3 ->]]. cbn [andThen]. runs_step.
  split; [by rewrite H1, H2|by eauto].
Qed.

Lemma Authenticate_spec key pub cust token w :
  jwtTokenGenerator_Generate key pub cust = Ok token ->
  runs (jwtTokenAuthenticator_Authenticate key token) w (fun r w' => same_store w w' /\
    exists t : time, now w = (Ok t, w') /\ (t <> zero_time ->
      (in_force pub t -> r = Ok (pub, cust)) /\ (~ in_force pub t -> exists e, r = Err e))).
Proof.
  intros (jws & Hp & Hc)%jose_roundtrip. unfold jwtTokenAuthenticator_Authenticate.
  runs_step. rewrite Hp. runs_step. cbn [andThen]. runs_step. rewrite Hc. runs_step.
  cbn [andThen fst snd]. runs_step. apply runs_intro. intros r w' Hr.
  destruct (runs_elim _ _ _ _ _ (now_spec w) Hr) as [Hs [t ->]]. cbn [andThen].
  destruct (claims_Validate pub t) as [err|] eqn:E.
  - destruct (jwt_is_ErrExpired err); runs_step; (split; [done|]); exists t; (split; [done|]);
      intros Ht; (split; [intros H%jose_validate; [by rewrite E in H|done]|by eauto]).
  - runs_step. split; [done|]. exists t. split; [done|]. intros Ht. split; [done|].
    intros []. by apply jose_validate.
Qed.

(** Any string may be presented. *)
Lemma Authenticate_total key token w :
  runs (jwtTokenAuthenticator_Authenticate key token) w (fun r w' => same_store w w' /\ r <> Panic).
Proof.
  destruct jose_total as (_ & Hp & Hc). unfold jwtTokenAuthenticator_Authenticate. do 2 runs_step.
  specialize (Hp token). destruct (jwt_ParseSigned token) as [jws|e|]; cbn [andThen]; [|done|done].
  do 2 runs_step. specialize (Hc jws key). destruct (token_Claims jws key) as [pc|e|]; cbn [andThen]; [|done|done].
  runs_call now_spec. destruct Hcall as [Hs [t ->]]. cbn [andThen].
  destruct (claims_Validate _ _) as [err|]; [destruct (jwt_is_ErrExpired err)|]; by runs_step.
Qed.
End jwt_proofs.

(** ** Properties *)

Section auth_properties.
Context {W : Type} {EL : ErrorLib} {ELL : ErrorLibLaws EL} {P : SDK} {API : KubeAPI W} {ST : Store W}
        {LAWS : KubeAPILaws W} {PL : SDKLaws P} {J : Jose} {JL : JoseLaws J}.
Implicit Types w : W.

(** C5: a correctly signed service-account token is accepted exactly when the
    token stored under its ID is this very token: a token that was revoked or
    regenerated is reported as expired, so no other verifier is asked. *)
Theorem sa_Verify_exact (authenticate : TokenAuthenticatorFn W) token pub c w w1 :
  authenticate token w = (Ok (pub, c), w1) -> custom_TokenID c <> "" ->
  runs (ServiceAccountAuthClient_Verify authenticate token) w (fun r w' =>
    same_store w1 w' /\ sa_verdict w1 c token r).
Proof. apply sa_Verify_spec. Qed.

(** A token generated from the claims of an account authenticates, as these
    claims, at any time from a minute after it was issued until three years
    after the clock reading of its expiry, and is refused from a minute after
    that on. *)
Theorem jwt_generate_authenticate key email pid id pub cust token w0 w1 w :
  Claims email pid id w0 = (Ok (pub, cust), w1) ->
  jwtTokenGenerator_Generate key pub cust = Ok token ->
  exists issued notBefore expiry : time,
  runs (jwtTokenAuthenticator_Authenticate key token) w (fun r w' => same_store w w' /\
    exists t : time, now w = (Ok t, w') /\ (t <> zero_time ->
      (issued - DefaultLeeway <= t /\ notBefore - DefaultLeeway <= t /\ t <= AddYears 3 expiry ->
         r = Ok (pub, MkCustomClaim email pid id)) /\
      (AddYears 3 expiry + DefaultLeeway < t -> exists e, r = Err e))%Z).
Proof.
  intros Hc Hg. pose proof (runs_elim _ _ _ _ _ (Claims_spec email pid id w0) Hc) as [_ H].
  destruct H as (issued & notBefore & expiry & [= -> ->]). exists issued, notBefore, expiry.
  eapply runs_mono; [apply (Authenticate_spec _ _ _ _ _ Hg)|]. cbn beta.
  intros r w' [Hs (t & Ht & Hr)]. split; [done|]. exists t. split; [done|]. intros Hz.
  destruct (Hr Hz) as [Hin Hout]. unfold in_force in Hin, Hout. cbn [jwt_NotBefore jwt_IssuedAt jwt_Expiry] in *.
  pose proof (NumericDate_Time_bounds issued). pose proof (NumericDate_Time_bounds notBefore).
  pose proof (NumericDate_Time_bounds (AddYears 3 expiry)). unfold DefaultLeeway, second in *.
  split; [intros (? & ? & ?); apply Hin; lia|intros ?; apply Hout; lia].
Qed.

(** Of several verifiers the first that accepts the token or finds it
    expired decides, and the later ones are not asked; when all reject it the
    answer is the aggregate of their errors, in order; without a verifier no
    token is accepted. *)
Theorem TokenVerifierPlugins_Verify_decides (plugins : list (TokenVerifierFn W)) token w :
  runs (TokenVerifierPlugins_Verify plugins token) w (fun r w' =>
    match r with
    | Ok _ => decided_by plugins token w r w'
    | Err e => (plugins = [] /\ w' = w) \/
        (is_Some (as_token_expired e) /\ decided_by plugins token w r w') \/
        (exists es, rejects token plugins w es w' /\ e = utilerrors_NewAggregate es)
    | Panic => decided_by plugins token w r w'
    end).
Proof.
  unfold TokenVerifierPlugins_Verify. case_bool_decide as Hl.
  { runs_step. left. split; [|done]. by apply length_zero_iff_nil. }
  eapply runs_mono; [apply verifyLoop_spec|]. cbn beta. intros [x|e|] w'; tauto.
Qed.
End auth_properties.

(** C19: a token that was split over the cookies name-1, name-2, ... is put
    together from as many of them as follow each other without a gap; the
    extractor terminates, and fails exactly when they hold nothing. *)
Theorem cookieHeaderBearerMultiTokenExtractor_joins name r :
  (exists k v, cookies_from name r 1 k v /\
     (exists e, req_Cookie r (cookie_name name (1 + N.of_nat k)) = Err e) /\
     match cookieHeaderBearerMultiTokenExtractor_Extract name r with
     | Ok t => t = v /\ v <> ""
     | Err _ => v = ""
     | Panic => False
     end).
Proof.
  unfold cookieHeaderBearerMultiTokenExtractor_Extract.
  destruct (multiTokenLoop _ _ _ _ _) as [t|] eqn:E; [|by apply multiTokenLoop_total in E].
  apply multiTokenLoop_spec in E as (k & v & e & Hc & -> & He). exists k, v.
  split; [done|]. split; [by exists e|]. change ("" +:+ v) with v.
  case_bool_decide as Hl; destruct v; done.
Qed.

(** ** A concrete JWT library, for the witness: a token spells out in binary the
    key it was signed with and what it says. *)
Module BinaryJose.
Fixpoint bits (p : positive) : string :=
  match p with
  | xH => ""
  | xO p => String "0"%char (bits p)
  | xI p => String "1"%char (bits p)
  end.

Fixpoint unbits (s : string) : positive :=
  match s with
  | EmptyString => xH
  | String c s => if bool_decide (c = "0"%char) then xO (unbits s) else xI (unbits s)
  end.

Lemma unbits_bits p : unbits (bits p) = p.
Proof. induction p as [p IH|p IH|]; cbn; rewrite ?IH; done. Qed.

Definition signed : Type := string * (string * string * string) * (Z * Z * Z).

#[export] Instance binaryJose : Jose := {|
  JSONWebToken := signed;
  jwt_Serialize key pub c := Ok (bits (encode
    (key, (custom_Email c, custom_ProjectID c, custom_TokenID c),
     (jwt_IssuedAt pub, jwt_NotBefore pub, jwt_Expiry pub)) ));
  jwt_ParseSigned token :=
    match decode (A := signed) (unbits token) with
    | Some jws => Ok jws
    | None => Err (ENew "parse error")
    end;
  token_Claims jws key :=
    let '(key', (e, p, i), (a, b, x)) := jws in
    if bool_decide (key' = key) then Ok (MkCustomClaim e p i, MkJwtClaims a b x)
    else Err (ENew "error in cryptographic primitive");
  claims_Validate pub t :=
    if bool_decide (t + DefaultLeeway < NumericDate_Time (jwt_NotBefore pub))%Z
    then Some (ENew "token not valid yet") else
    if bool_decide (NumericDate_Time (jwt_Expiry pub) < t - DefaultLeeway)%Z
    then Some (ENew "token is expired") else
    if bool_decide (t + DefaultLeeway < NumericDate_Time (jwt_IssuedAt pub))%Z
    then Some (ENew "token issued in the future") else None;
  jwt_is_ErrExpired e := bool_decide (e = ENew "token is expired") |}.

#[export] Instance binaryJoseLaws : JoseLaws binaryJose.
Proof.
  split.
  - intros key [a b x] [e p i] token [= <-].
    exists (key, (e, p, i), (a, b, x)). unfold jwt_ParseSigned, token_Claims, binaryJose.
    rewrite unbits_bits, decode_encode. by rewrite bool_decide_true.
  - intros pub t _. unfold claims_Validate, binaryJose, in_force.
    repeat case_bool_decide; split; intros Hf; try done; try lia.
  - split_and!; [done| |].
    + intros token. cbn. by destruct (decode _).
    + intros [[key' [[e p] i]] [[a b] x]] key. cbn. by case_bool_decide.
Qed.
End BinaryJose.

(** A January of the year 2024, and a clock that always shows it. *)
Definition january2024 : time := (63840000000 * second)%Z.
Definition withClock (t : time) : Mem := mem_of sample_objs t [] (fun _ _ _ _ => true).

Lemma jwt_generate_authenticate_witness :
  exists pub cust token,
  (Claims "serviceaccount-ci@sa.kubermatic.io" "p1" "abc" (withClock january2024)).1 = Ok (pub, cust) /\
  jwtTokenGenerator_Generate (J := BinaryJose.binaryJose) "0123456789abcdef0123456789abcdef" pub cust
    = Ok token /\
  (jwtTokenAuthenticator_Authenticate (J := BinaryJose.binaryJose) "0123456789abcdef0123456789abcdef" token
     (withClock (AddYears 4 january2024))).1 = Err (ENew "token has expired") /\
  exists issued notBefore expiry : time,
  runs (jwtTokenAuthenticator_Authenticate (J := BinaryJose.binaryJose)
          "0123456789abcdef0123456789abcdef" token (W := Mem))
    (withClock january2024) (fun r w' => same_store (withClock january2024) w' /\
    exists t : time, now (withClock january2024) = (Ok t, w') /\ (t <> zero_time ->
      (issued - DefaultLeeway <= t /\ notBefore - DefaultLeeway <= t /\ t <= AddYears 3 expiry ->
         r = Ok (pub, MkCustomClaim "serviceaccount-ci@sa.kubermatic.io" "p1" "abc")) /\
      (AddYears 3 expiry + DefaultLeeway < t -> exists e, r = Err e))%Z).
Proof.
  eexists _, _, _. split; [reflexivity|]. split; [reflexivity|]. split; [vm_compute; reflexivity|].
  apply (jwt_generate_authenticate (J := BinaryJose.binaryJose) (JL := BinaryJose.binaryJoseLaws) "0123456789abcdef0123456789abcdef"
    "serviceaccount-ci@sa.kubermatic.io" "p1" "abc" _
    (MkCustomClaim "serviceaccount-ci@sa.kubermatic.io" "p1" "abc") _
    (withClock january2024) (withClock january2024) (withClock january2024)); reflexivity.
Defined.

Lemma sa_Verify_exact_witness :
  let c := MkCustomClaim "serviceaccount-ci@sa.kubermatic.io" "p1" "abc" in
  let authenticate : TokenAuthenticatorFn Mem := fun _ => mret (MkJwtClaims 0 0 0, c) in
  let run token := ServiceAccountAuthClient_Verify authenticate token withToken in
  (exists claims, (run "eyJ0").1 = Ok claims /\ sa_verdict withToken c "eyJ0" (Ok claims)) /\
  (exists e, (run "eyJ1").1 = Err e /\ sa_verdict withToken c "eyJ1" (Err e)).
Proof.
  intros c authenticate run.
  assert (forall token, sa_verdict withToken c token (run token).1) as H.
  { intros token.
    pose proof (sa_Verify_exact authenticate token (MkJwtClaims 0 0 0) c withToken withToken
      eq_refl ltac:(discriminate)) as [_ H]. exact H. }
  split.
  - assert (exists a, (run "eyJ0").1 = Ok a) as [a E] by (apply is_ok_true; vm_compute; reflexivity).
    exists a. split; [exact E|]. specialize (H "eyJ0"). rewrite E in H. exact H.
  - assert (exists e, (run "eyJ1").1 = Err e) as [e E] by (eexists; vm_compute; reflexivity).
    exists e. split; [exact E|]. specialize (H "eyJ1"). rewrite E in H. exact H.
Defined.
