(* ===== verification/OAuth.v ===== *)
(** The OAuth exchange of the login: the client of the OpenID provider
    (handler/auth/oidc.go) and the signed cookie that carries the state of a login
    (handler/auth/oauth_state.go).  The libraries oauth2 and securecookie are the
    classes [OAuth2] and [SecureCookie]; random strings are [OAuthRandom]. *)
From S2P Require Export Redirect Auth.
From Stdlib Require Import Ascii.

(** ** The response of a handler: net/http *)

Inductive SameSite := SameSiteDefaultMode | SameSiteLaxMode | SameSiteStrictMode | SameSiteNoneMode.

(** http.Cookie *)
Record Cookie := MkCookie {
  ck_Name : string;
  ck_Value : string;
  ck_Path : string;
  ck_MaxAge : Z;
  ck_HttpOnly : bool;
  ck_Secure : bool;
  ck_SameSite : SameSite }.

(** What a handler has put into its http.ResponseWriter: the cookies in order,
    the type of the body, the argument of http.Redirect, the status (200 unless
    one is written) and the body. *)
Record ResponseWriter := MkResponseWriter {
  rw_Cookies : list Cookie;
  rw_ContentType : string;
  rw_Redirect : option string;
  rw_Status : Z;
  rw_Body : string }.
Definition newResponse : ResponseWriter := MkResponseWriter [] "" None 200 "".

Definition http_SetCookie (c : Cookie) (w : ResponseWriter) : ResponseWriter :=
  MkResponseWriter (rw_Cookies w ++ [c]) (rw_ContentType w) (rw_Redirect w) (rw_Status w) (rw_Body w).
Definition http_Error (msg : string) (code : Z) (w : ResponseWriter) : ResponseWriter :=
  MkResponseWriter (rw_Cookies w) "text/plain; charset=utf-8" (rw_Redirect w) code (msg +:+ newline).
Definition http_Redirect (url : string) (code : Z) (w : ResponseWriter) : ResponseWriter :=
  MkResponseWriter (rw_Cookies w) (rw_ContentType w) (Some url) code (rw_Body w).
Definition http_JSON (body : string) (w : ResponseWriter) : ResponseWriter :=
  MkResponseWriter (rw_Cookies w) "application/json" (rw_Redirect w) (rw_Status w) (body +:+ newline).

(** ** handler/auth/oauth_state.go *)

Record OAuthState := MkOAuthState {
  os_State : string;
  os_Nonce : string;
  os_CodeVerifier : string;
  os_RedirectURI : string }.
Definition os_with_redirect (uri : string) (s : OAuthState) : OAuthState :=
  MkOAuthState (os_State s) (os_Nonce s) (os_CodeVerifier s) uri.

(** crypto/rand.Text, oauth2.GenerateVerifier: they do not fail. *)
Class OAuthRandom (W : Type) := {
  rand_Text : W -> string * W;
  GenerateVerifier : W -> string * W }.
Definition drawn {W E} (f : W -> string * W) : M W E string := fun w => (Ok (f w).1, (f w).2).

(** securecookie.SecureCookie: values are signed, and carry the time. *)
Class SecureCookie (W : Type) := {
  secCookie_Encode : string -> OAuthState -> M W error string;
  secCookie_Decode : string -> string -> M W error OAuthState }.

(** A value that was signed decodes, if at all, to what was signed; signed values
    consist of letters, digits, dash, underscore and the padding. *)
Definition signed_char (c : ascii) : bool := is_alpha c || is_digit c || char_in "-_=" c.
Class SecureCookieLaws {W} (SEC : SecureCookie W) : Prop := {
  secCookie_roundtrip name st v st' w1 w2 w3 w4 :
    secCookie_Encode name st w1 = (Ok v, w2) -> secCookie_Decode name v w3 = (Ok st', w4) -> st' = st;
  secCookie_chars name st v w1 w2 :
    secCookie_Encode name st w1 = (Ok v, w2) -> string_forallb signed_char v = true }.

Section oauth_state.
Context {W : Type} {EL : ErrorLib} {RND : OAuthRandom W} {SEC : SecureCookie W}.

Definition NewOAuthState {E} : M W E OAuthState :=
  state ← drawn rand_Text;
  nonce ← drawn rand_Text;
  codeVerifier ← drawn GenerateVerifier;
  mret (MkOAuthState state nonce codeVerifier "").

Definition oauthStateCookie (name value path : string) (maxAge : Z) (secureMode : bool) : Cookie :=
  MkCookie name value path maxAge true secureMode SameSiteLaxMode.

Definition SetOAuthStateCookie (w : ResponseWriter) (name path : string) (value : OAuthState) (maxAge : Z)
    (secureMode : bool) : M W error ResponseWriter :=
  encoded ← mapErr (EWrap "the encode cookie failed: ") (secCookie_Encode name value);
  mret (http_SetCookie (oauthStateCookie name encoded path maxAge secureMode) w).

Definition ClearOAuthStateCookie (w : ResponseWriter) (name path : string) (secureMode : bool)
    : ResponseWriter :=
  http_SetCookie (oauthStateCookie name "" path (-1) secureMode) w.

Definition GetOAuthStateCookie (r : Request) (name : string) : M W error OAuthState :=
  cookie ← mapErr (fun err => utilerrors_NewBadRequest ("cookie " +:+ quote name +:+ " not set: " +:+ Error err))
             (lift (req_Cookie r name));
  mapErr (fun err => utilerrors_NewBadRequest
            ("incorrect value of " +:+ quote name +:+ " cookie: " +:+ Error err))
    (secCookie_Decode name cookie).
End oauth_state.

(** ** handler/auth/oidc.go: the client of the provider *)

(** authtypes.OIDCToken *)
Record OIDCToken := MkOIDCToken {
  tok_AccessToken : string;
  tok_RefreshToken : string;
  tok_Expiry : time;
  tok_IDToken : string }.

(** authtypes.OIDCConfiguration; its SecureCookie is the class above. *)
Record OIDCConfiguration := MkOIDCConfiguration {
  oc_URL : string;
  oc_ClientID : string;
  oc_ClientSecret : string;
  oc_CookieSecureMode : bool;
  oc_OfflineAccessAsScope : bool;
  oc_SkipTLSVerify : bool;
  oc_AdditionalRedirectURIs : list string }.

(** oauth2.Config; the endpoint is that of the provider. *)
Record OAuth2Config := MkOAuth2Config {
  cfg_ClientID : string;
  cfg_ClientSecret : string;
  cfg_Scopes : list string;
  cfg_RedirectURL : string }.

(** oauth2.AuthCodeOption *)
Inductive AuthCodeOption :=
| AccessTypeOnline
| AccessTypeOffline
| S256ChallengeOption (verifier : string)
| NonceOption (nonce : string)
| VerifierOption (verifier : string).

(** oauth2.Token, with [tokens.Extra("id_token").(string)] *)
Record OAuth2Token := MkOAuth2Token {
  ot_AccessToken : string;
  ot_RefreshToken : string;
  ot_Expiry : time;
  ot_id_token : option string }.

(** golang.org/x/oauth2 *)
Class OAuth2 (W : Type) := {
  oauth2_AuthCodeURL : OAuth2Config -> string -> list AuthCodeOption -> string;
  oauth2_Exchange : OAuth2Config -> string -> list AuthCodeOption -> M W error OAuth2Token;
  oauth2_Refresh : OAuth2Config -> string -> M W error OAuth2Token }.

(** authtypes.OIDCIssuerVerifier, as far as the login uses it *)
Class OIDCIssuerVerifier (W : Type) := {
  oiv_AuthCodeURL : string -> bool -> string -> string -> string -> list string -> string;
  oiv_Exchange : string -> string -> string -> M W error OIDCToken;
  oiv_RefreshAccessToken : string -> M W error OIDCToken;
  oiv_OIDCConfig : OIDCConfiguration;
  oiv_Verify : TokenVerifierFn W;
  oiv_GetRedirectURI : string -> result error string }.

(** Its verifier, its provider and its HTTP client are the classes [OIDC] and
    [OAuth2]; its extractor is that of Auth.v. *)
Record OpenIDClient := MkOpenIDClient {
  oidc_redirectURI : string;
  oidc_oidcConfig : OIDCConfiguration }.

Section client.
Context {W : Type} {EL : ErrorLib} {O : OIDC W} {OA : OAuth2 W} {IP : IPAddr}.
Implicit Types o : OpenIDClient.

Definition oauth2Config o (overwriteRedirectURI : string) (scopes : list string) : OAuth2Config :=
  let redirectURI := if negb (is_empty overwriteRedirectURI) then overwriteRedirectURI
                     else oidc_redirectURI o in
  MkOAuth2Config (oc_ClientID (oidc_oidcConfig o)) (oc_ClientSecret (oidc_oidcConfig o)) scopes redirectURI.

Definition OpenIDClient_AuthCodeURL o (state : string) (offlineAsScope : bool)
    (overwriteRedirectURI codeVerifier nonce : string) (scopes : list string) : string :=
  let config := oauth2Config o overwriteRedirectURI scopes in
  let opts := [if negb offlineAsScope then AccessTypeOffline else AccessTypeOnline] in
  let opts := if negb (is_empty codeVerifier) then opts ++ [S256ChallengeOption codeVerifier] else opts in
  let opts := if negb (is_empty nonce) then opts ++ [NonceOption nonce] else opts in
  oauth2_AuthCodeURL config state opts.

Definition OpenIDClient_Exchange o (code overwriteRedirectURI codeVerifier : string) : M W error OIDCToken :=
  let config := oauth2Config o overwriteRedirectURI [] in
  let opts := if negb (is_empty codeVerifier) then [VerifierOption codeVerifier] else [] in
  tokens ← oauth2_Exchange config code opts;
  mret (MkOIDCToken (ot_AccessToken tokens) (ot_RefreshToken tokens) (ot_Expiry tokens)
          (default "" (ot_id_token tokens))).

Definition OpenIDClient_RefreshAccessToken o (refreshToken : string) : M W error OIDCToken :=
  tokens ← mapErr (EWrap "token refresh failed: ") (oauth2_Refresh (oauth2Config o "" []) refreshToken);
  let rt := if is_empty (ot_RefreshToken tokens) then refreshToken else ot_RefreshToken tokens in
  let oidcToken := MkOIDCToken (ot_AccessToken tokens) rt (ot_Expiry tokens) (default "" (ot_id_token tokens)) in
  _ ← throwIf (is_empty (tok_IDToken oidcToken))
        (ENew "token refresh failed: id_token not found in the response");
  mret oidcToken.

Definition OpenIDClient_GetRedirectURI o (path : string) : result error string :=
  match url_Parse (oidc_redirectURI o) with
  | Ok u => Ok (url_Scheme u +:+ "://" +:+ url_Host u +:+ path)
  | Err err => Err err
  | Panic => Panic
  end.

Definition openIDIssuerVerifier o : OIDCIssuerVerifier W := {|
  oiv_AuthCodeURL := OpenIDClient_AuthCodeURL o;
  oiv_Exchange := OpenIDClient_Exchange o;
  oiv_RefreshAccessToken := OpenIDClient_RefreshAccessToken o;
  oiv_OIDCConfig := oidc_oidcConfig o;
  oiv_Verify := OpenIDClient_Verify;
  oiv_GetRedirectURI := OpenIDClient_GetRedirectURI o |}.
End client.
