(* ===== verification/Middleware.v ===== *)
(** The middlewares that admit a request: handler/middleware/middleware.go.
    They take the token out of the request, have it verified, refuse the
    invalidated ones, and put the stored user into the context. *)
From S2P Require Export Access Auth.

(** ** endpoint.Endpoint, endpoint.Middleware *)
Definition Endpoint (W Req Resp : Type) : Type := Ctx -> Req -> M W error Resp.
Definition Middleware (W Req Resp : Type) : Type := Endpoint W Req Resp -> Endpoint W Req Resp.

(** transporthttp.RequestFunc of the token. *)
Definition TokenExtractor (o : TokenExtractorFn) (ctx : Ctx) (r : Request) : result error Ctx :=
  match o r with
  | Err err => Ok (ctx_with_NoTokenFound err ctx)
  | Ok token => Ok (ctx_with_RawToken token ctx)
  | Panic => Panic
  end.

Section middleware.
Context {W Req Resp : Type} {EL : ErrorLib} {API : KubeAPI W}
        {USERS : UserProvider W} {MAPPER : ProjectMemberMapper W}.

Definition checkBlockedTokens (email token : string) : M W error unit :=
  found ← attempt (users_UserByEmail email);
  match found with
  | inl err => if is_ErrNotFound err then mret tt else throw (KubernetesErrorToHTTPError err)
  | inr user =>
      blockedTokens ← httpErr (users_GetInvalidatedTokens (Some user));
      if bool_decide (token ∈ blockedTokens) then throw utilerrors_NewNotAuthorized else mret tt
  end.

(** Under noTokenFoundKey only errors are stored. *)
Definition TokenVerifier (tokenVerifier : TokenVerifierFn W) : Middleware W Req Resp :=
  fun next ctx request =>
  match ctx_NoTokenFound ctx with
  | Some tokenNotFoundErr =>
      throw (utilerrors_NewWithDetails 401 "not authorized" [Error tokenNotFoundErr])
  | None =>
      let token := default "" (ctx_RawToken ctx) in
      if is_empty token then throw utilerrors_NewNotAuthorized else
      verified ← attempt (tokenVerifier token);
      match verified with
      | inl err => throw (utilerrors_New 401 ("access denied, invalid token: " +:+ Error err))
      | inr claims =>
          if is_empty (claims_Subject claims) then throw utilerrors_NewNotAuthorized else
          let user := apiUserNamed (claims_Name claims) (claims_Email claims) (claims_Groups claims) in
          _ ← checkBlockedTokens (claims_Email claims) token;
          let ctx := ctx_with_TokenExpiry (claims_Expiry claims) ctx in
          next (ctx_with_AuthenticatedUser user ctx) request
      end
  end.

Definition Minute : Z := (60 * second)%Z.

(** [userProvider.UserByEmail], then CreateUser for a user that is not found. *)
Definition findOrCreateUser (authenticatedUser : ApiUser) : M W error User :=
  let email := apiuser_Email authenticatedUser in
  found ← attempt (users_UserByEmail email);
  match found with
  | inr user => mret user
  | inl err =>
      if negb (is_ErrNotFound err) then throw (KubernetesErrorToHTTPError err) else
      createdUser ← attempt (users_CreateUser (api_Name (apiuser_meta authenticatedUser)) email
                               (apiuser_Groups authenticatedUser));
      match createdUser with
      | inr user => mret user
      | inl err =>
          if negb (apierrors_IsAlreadyExists err) then throw (KubernetesErrorToHTTPError err) else
          httpErr (users_UserByEmail email)
      end
  end.

Definition UserSaver : Middleware W Req Resp := fun next ctx request =>
  match ctx_AuthenticatedUser ctx with
  | None => throw (utilerrors_New 500 "no user in context found")
  | Some authenticatedUser =>
      user ← findOrCreateUser authenticatedUser;
      t ← now;
      (* Throttle the last seen update to once a minute not to pressure the K8S API too much. *)
      if negb (time_IsZero (user_LastSeen user)) &&
         bool_decide (t - user_LastSeen user < Minute)%Z
      then next (ctx_with_UserCR user ctx) request else
      let updatedUser := user_with_groups (apiuser_Groups authenticatedUser)
                           (user_with_last_seen t user) in
      updated ← attempt (users_UpdateUser updatedUser);
      match updated with
      | inl err =>
          if apierrors_IsConflict err then next (ctx_with_UserCR user ctx) request
          else throw (KubernetesErrorToHTTPError err)
      | inr updatedUser => next (ctx_with_UserCR updatedUser ctx) request
      end
  end.

Definition createUserInfo (user : User) (projectID : string) : M W error UserInfo :=
  gr ← (if negb (is_empty projectID) then
          groups ← mapper_MapUserToGroups user projectID;
          roles ← mapper_MapUserToRoles user projectID;
          mret (groups, roles)
        else mret (list_to_set (user_Groups user) : gset string, ∅));
  mret (MkUserInfo (user_Email user) (set_list gr.1) gr.2 false (user_IsGlobalViewer user)).

(** What the request tells through common.UserIDGetter and
    common.ProjectIDGetter, if it implements them. *)
Definition UserInfoUnauthorized (getUserID getProjectID : Req -> option string)
    : Middleware W Req Resp := fun next ctx request =>
  match getUserID request with
  | None => throw (utilerrors_NewBadRequest
      "you can only use userInfoMiddlewareUnauthorized for endpoints that accepts user ID")
  | Some userID =>
      match getProjectID request with
      | None => throw (utilerrors_NewBadRequest
          "you can only use userInfoMiddlewareUnauthorized for endpoints that accepts project ID")
      | Some projectID =>
          user ← httpErr (users_UserByID userID);
          if user_IsAdmin user then
            next (ctx_with_UserInfo (MkUserInfo (user_Email user) [] ∅ true false) ctx) request
          else
            uInfo ← httpErr (createUserInfo user projectID);
            next (ctx_with_UserInfo uInfo ctx) request
      end
  end.
End middleware.

(** ** Lemmas *)

Section middleware_proofs.
Context {W Req Resp : Type} {EL : ErrorLib} {ELL : ErrorLibLaws EL} {P : SDK} {API : KubeAPI W}
        {ST : Store W} {LAWS : KubeAPILaws W} {USERS : UserProvider W} {UL : UserProviderLaws W}.
Implicit Types w : W.

(** No user of the email has the token on the list of invalidated tokens. *)
Definition not_blocked w (email token : string) : Prop :=
  (forall u, registered w u -> EqualFold (user_Email u) email = false) \/
  (exists u w1 l, registered w u /\ EqualFold (user_Email u) email = true /\ same_store w w1 /\
     (users_GetInvalidatedTokens (Some u) w1).1 = Ok l /\ token ∉ l).

Lemma checkBlockedTokens_spec email token w :
  ListsSucceed W ->
  runs (checkBlockedTokens email token) w (fun r w' => same_store w w' /\
    match r with
    | Ok _ => not_blocked w email token
    | Err _ => exists u, registered w u /\ EqualFold (user_Email u) email = true
    | Panic => False
    end).
Proof.
  intros HL. unfold checkBlockedTokens, httpErr. do 2 runs_step.
  eapply runs_mono; [apply users_UserByEmail_spec|]. cbn beta. intros r w1 [Hs Hu].
  destruct r as [u|e|]; cbn [andThen]; [| |done].
  - destruct Hu as [Hu He]. do 2 runs_step. apply runs_intro. intros r w2 Hr.
    destruct (runs_elim _ _ _ _ _ (users_GetInvalidatedTokens_spec (Some u) w1) Hr) as [Hs2 Hp].
    destruct r as [l|e|]; cbn [andThen]; [| |done].
    + case_bool_decide as Hin; runs_step; (split; [by etrans|]); [by exists u|].
      right. exists u, w1, l. rewrite Hr. done.
    + split; [by etrans|]. by exists u.
  - destruct (Hu HL) as [-> Hn]. cbn [is_ErrNotFound]. runs_step. split; [done|by left].
Qed.

(** The context in which the endpoint runs, and the world. *)
Definition admits (verify : TokenVerifierFn W) (ctx : Ctx) w (ctx' : Ctx) w' : Prop :=
  ctx_NoTokenFound ctx = None /\ exists token claims w1,
    ctx_RawToken ctx = Some token /\ token <> "" /\ verify token w = (Ok claims, w1) /\
    claims_Subject claims <> "" /\ same_store w1 w' /\ not_blocked w1 (claims_Email claims) token /\
    ctx' = ctx_with_AuthenticatedUser
             (apiUserNamed (claims_Name claims) (claims_Email claims) (claims_Groups claims))
             (ctx_with_TokenExpiry (claims_Expiry claims) ctx).

(** Why a request is turned away: 401 unless the token was good and its owner's
    list could not be consulted or holds it. *)
Definition turned_away (verify : TokenVerifierFn W) (ctx : Ctx) w (e : error) : Prop :=
  http_status e = 401%Z \/
  exists token claims w1 u, ctx_RawToken ctx = Some token /\ verify token w = (Ok claims, w1) /\
    registered w1 u /\ EqualFold (user_Email u) (claims_Email claims) = true.

Lemma TokenVerifier_spec verify (next : Endpoint W Req Resp) ctx request w :
  ListsSucceed W ->
  (forall token, ctx_RawToken ctx = Some token -> forall w, (verify token w).1 <> Panic) ->
  runs (TokenVerifier verify next ctx request) w (fun r w' =>
    (exists ctx' w1, admits verify ctx w ctx' w1 /\ next ctx' request w1 = (r, w')) \/
    (exists e, r = Err e /\ turned_away verify ctx w e)).
Proof.
  intros HL Hnp. unfold TokenVerifier, turned_away.
  destruct utilerrors_NewNotAuthorized_http as (ha & Ha & Hca).
  destruct (ctx_NoTokenFound ctx) as [err|] eqn:En.
  { runs_step. right. eexists. split; [done|]. left.
    edestruct utilerrors_NewWithDetails_http as (h & -> & Hc & _). done. }
  destruct (is_empty _) eqn:Et.
  { runs_step. right. eexists. split; [done|]. left. by rewrite Ha. }
  apply is_empty_false in Et. destruct (ctx_RawToken ctx) as [token|] eqn:Er; [|done].
  cbn [default from_option id] in *. do 2 runs_step. apply runs_intro. intros r w1 Hv.
  destruct r as [claims|e|]; cbn [andThen]; [| |by specialize (Hnp token eq_refl w); rewrite Hv in Hnp].
  2:{ runs_step. right. eexists. split; [done|]. left.
      edestruct utilerrors_New_http as (h & -> & Hc & _). done. }
  destruct (is_empty (claims_Subject claims)) eqn:Es.
  { runs_step. right. eexists. split; [done|]. left. by rewrite Ha. }
  apply is_empty_false in Es. runs_step. eapply runs_mono; [by apply checkBlockedTokens_spec|].
  cbn beta. intros r w2 [Hs Hb]. destruct r as [[]|e|]; cbn [andThen]; [| |done].
  - apply runs_intro. intros r w' Hr. left. eexists _, w2. split; [|exact Hr].
    split; [done|]. by exists token, claims, w1.
  - right. eexists. split; [done|]. right. destruct Hb as (u & ? & ?). by exists token, claims, w1, u.
Qed.

Lemma findOrCreateUser_spec au w :
  ListsSucceed W ->
  runs (findOrCreateUser au) w (fun r w' =>
    match r with
    | Ok u => registered w' u /\ EqualFold (user_Email u) (apiuser_Email au) = true /\
        (same_store w w' \/
         (created KUser w w' u /\ user_Groups u = apiuser_Groups au /\
          forall u', registered w u' -> EqualFold (user_Email u') (apiuser_Email au) = false))
    | Err _ => same_store w w'
    | Panic => False
    end).
Proof.
  intros HL. unfold findOrCreateUser, httpErr. do 2 runs_step.
  eapply runs_mono; [apply users_UserByEmail_spec|]. cbn beta. intros r w1 [Hs Hu].
  destruct r as [u|e|]; cbn [andThen]; [| |done].
  { runs_step. destruct Hu. split_and!; [by rewrite <- Hs|done|by left]. }
  destruct (Hu HL) as [-> Hn]. cbn [is_ErrNotFound negb]. do 2 runs_step.
  eapply runs_mono; [apply users_CreateUser_spec|]. cbn beta. intros r w2 Hc.
  destruct r as [u|e'|]; cbn [andThen]; [| |done].
  - runs_step. destruct Hc as (_ & _ & _ & He & Hg & _ & _ & Hc). split_and!.
    + exists (key_of KUser u). destruct Hc as (_ & -> & _). apply lookup_insert_eq.
    + rewrite He. apply EqualFold_ToLower.
    + right. rewrite Hs. split_and!; [done|done|]. intros u' Hr. apply Hn, Hr.
  - destruct (negb _); [runs_step; by etrans|]. runs_step.
    eapply runs_mono; [apply users_UserByEmail_spec|]. cbn beta. intros r w3 [Hs3 Hu'].
    destruct r as [u|e2|]; [|by rewrite Hs, Hc|done].
    assert (same_store w w3) as Hs' by (by rewrite Hs, Hc). destruct Hu'.
    split_and!; [by rewrite <- Hs3|done|by left].
Qed.

(** What UserSaver puts into the context, the clock showing [t]: a user with the
    email of the token, who is stored and was seen within the last minute; or is
    stored with the groups of the token, seen now; or is the one that was read
    before another request changed it. *)
Definition saved (au : ApiUser) (t : time) (u : User) w' : Prop :=
  EqualFold (user_Email u) (apiuser_Email au) = true /\
  ((registered w' u /\ user_LastSeen u <> zero_time /\ (t - user_LastSeen u < Minute)%Z) \/
   (registered w' u /\ user_Groups u = apiuser_Groups au /\ user_LastSeen u = trunc_second t) \/
   (exists w1 e, registered w1 u /\ apierrors_IsConflict e = true /\ same_except KUser w1 w')).

Lemma UserSaver_spec (next : Endpoint W Req Resp) ctx request w :
  ListsSucceed W ->
  runs (UserSaver next ctx request) w (fun r w' =>
    (exists au u t w0 w1, ctx_AuthenticatedUser ctx = Some au /\ (now (W:=W) w0).1 = Ok t /\
       saved au t u w1 /\ next (ctx_with_UserCR u ctx) request w1 = (r, w')) \/
    (exists e, r = Err e)).
Proof.
  intros HL. unfold UserSaver. destruct (ctx_AuthenticatedUser ctx) as [au|]; [|runs_step; eauto].
  runs_step. eapply runs_mono; [by apply findOrCreateUser_spec|]. cbn beta. intros r w1 Hu.
  destruct r as [u|e|]; cbn [andThen]; [|by eauto|done]. destruct Hu as (Hu & He & _).
  runs_step. apply runs_intro. intros r w2 Hr.
  pose proof (runs_elim _ _ _ _ _ (now_spec w1) Hr) as [Hs [t ->]]. cbn [andThen].
  assert ((now w1).1 = Ok t) as Ht by (by rewrite Hr). rewrite Hs in Hu.
  destruct (_ && _) eqn:Eth.
  { apply andb_true_iff in Eth as [Hz%negb_true_iff%bool_decide_eq_false Hm%bool_decide_eq_true].
    apply runs_intro. intros r w' Hn. left. exists au, u, t, w1, w2.
    split_and!; [done|done| |done]. split; [done|]. by left. }
  do 2 runs_step. eapply runs_mono; [apply users_UpdateUser_spec|]. cbn beta. intros r w3 Hup.
  destruct r as [u'|e|]; cbn [andThen]; [| |done].
  - destruct Hup as (Hst & Hls & (_ & Hv & _)). pose proof (strip_user _ _ Hst) as (_ & Hem & Hg & _).
    apply runs_intro. intros r w' Hn. left. exists au, u', t, w1, w3.
    split_and!; [done|done| |done]. split; [by rewrite Hem|]. right; left.
    split; [|by rewrite Hg, Hls]. exists (key_of KUser u'). rewrite Hv. apply lookup_insert_eq.
  - destruct (apierrors_IsConflict e) eqn:Ec; [|runs_step; by eauto].
    apply runs_intro. intros r w' Hn. left. exists au, u, t, w1, w3.
    split_and!; [done|done| |done]. split; [done|]. right; right. by exists w2, e.
Qed.
End middleware_proofs.

Section unauthorized_proofs.
Context {W Req Resp : Type} {EL : ErrorLib} {P : SDK} {API : KubeAPI W}
        {ST : Store W} {USERS : UserProvider W} {UL : UserProviderLaws W}
        {MAPPER : ProjectMemberMapper W} {ML : ProjectMemberMapperLaws W}.
Implicit Types w : W.

(** The information of a user that the request names without a token. *)
Definition unauthorized_info w (user : User) (pid : string) (ui : UserInfo) : Prop :=
  ui_Email ui = user_Email user /\ ui_IsAdmin ui = user_IsAdmin user /\
  if user_IsAdmin user then ui_Groups ui = [] /\ ui_Roles ui = ∅ else
  if is_empty pid then ui_Roles ui = ∅ /\ forall g, g ∈ ui_Groups ui <-> g ∈ user_Groups user else
  ui_Groups ui <> [] /\ exists bg bg',
    binding_group w (user_Email user) pid bg /\ binding_group w (user_Email user) pid bg' /\
    (forall g, g ∈ ui_Groups ui <-> granted_group w user pid bg g) /\
    (forall role, role ∈ ui_Roles ui <-> granted_role w user pid bg' role).

Lemma createUserInfo_spec user pid w :
  user_IsAdmin user = false ->
  runs (createUserInfo user pid) w (fun r w' => same_store w w' /\
    match r with
    | Ok ui => unauthorized_info w user pid ui
    | Err _ => True
    | Panic => False
    end).
Proof.
  intros Ha. unfold createUserInfo, unauthorized_info. rewrite Ha.
  destruct (is_empty pid) eqn:E; cbn [negb]; runs_step.
  - runs_step. cbn [andThen]. runs_step. split; [done|]. split_and!; [done|done|done|].
    intros g. cbn. by rewrite elem_of_set_list, elem_of_list_to_set.
  - runs_call mapper_groups. destruct Hcall as [Hs Hg].
    destruct r as [gs|e|]; cbn [andThen]; [|done|done]. destruct Hg as (Hne & bg & Hbg & Hg).
    runs_call mapper_roles. destruct Hcall as [Hs' Hr].
    assert (same_store w w1) as Hs1 by (by etrans).
    destruct r as [rs|e|]; cbn [andThen]; [|done|done]. do 2 runs_step. rewrite Ha in Hr.
    destruct Hr as (bg' & Hbg' & Hr). split; [done|]. cbn.
    split_and!; [done|done|by apply set_list_nonempty|]. exists bg, bg'.
    split_and!; [done|by rewrite Hs| |].
    + intros g. by rewrite elem_of_set_list.
    + intros role. by rewrite Hr, Hs.
Qed.

Lemma UserInfoUnauthorized_spec getUserID getProjectID (next : Endpoint W Req Resp) ctx request w :
  runs (UserInfoUnauthorized getUserID getProjectID next ctx request) w (fun r w' =>
    (exists id pid user ui w1, getUserID request = Some id /\ getProjectID request = Some pid /\
       view KUser w !! ("", id) = Some user /\ unauthorized_info w user pid ui /\
       same_store w w1 /\ next (ctx_with_UserInfo ui ctx) request w1 = (r, w')) \/
    (exists e, r = Err e /\ same_store w w')).
Proof.
  unfold UserInfoUnauthorized, httpErr.
  destruct (getUserID request) as [id|]; [|runs_step; right; by eexists].
  destruct (getProjectID request) as [pid|]; [|runs_step; right; by eexists].
  do 2 runs_step. eapply runs_mono; [apply users_UserByID_spec|]. cbn beta. intros r w1 [Hs Hu].
  destruct r as [user|e|]; cbn [andThen]; [|right; by eexists|done].
  destruct (user_IsAdmin user) eqn:Ea.
  { apply runs_intro. intros r w' Hr. left. eexists id, pid, user, _, w1.
    split_and!; [done|done|done| |done|exact Hr]. unfold unauthorized_info. by rewrite Ea. }
  do 2 runs_step. eapply runs_mono; [by apply createUserInfo_spec|]. cbn beta. intros r w2 [Hs2 Hi].
  assert (same_store w w2) as Hs' by (by etrans).
  destruct r as [ui|e|]; cbn [andThen]; [|right; by eexists|done].
  apply runs_intro. intros r w' Hr. left. exists id, pid, user, ui, w2.
  split_and!; [done|done|done| |done|done]. revert Hi. unfold unauthorized_info. rewrite Ea.
  destruct (is_empty pid); [done|]. intros (? & ? & ? & bg & bg' & Hi).
  split_and!; try done. destruct Hi as (Hb & Hb' & Hg & Hro). exists bg, bg'.
  split_and!; [by rewrite Hs|by rewrite Hs| |].
  - intros g. by rewrite Hg, Hs.
  - intros role. by rewrite Hro, Hs.
Qed.
End unauthorized_proofs.

(** ** Properties *)

Section logout_property.
Context {W Req Resp : Type} {EL : ErrorLib} {ELL : ErrorLibLaws EL} {P : SDK} {PL : SDKLaws P}
        {API : KubeAPI W} {ST : Store W} {LAWS : KubeAPILaws W}.
Implicit Types w : W.

(** C4: after a logout the token is useless: once InvalidateToken succeeded for
    the only user with the email that the token is verified as, a request with
    this token is refused and no endpoint behind TokenVerifier runs. *)
Theorem invalidated_token_refused user token expiry verify (next : Endpoint W Req Resp) ctx request w :
  ListsSucceed W ->
  (forall w1 t, (now (W:=W) w1).1 = Ok t -> (t < expiry)%Z) ->
  (forall old, tokens_before w user old ->
     Forall encodable (old ++ [MkBlacklistToken token expiry])) ->
  view KUser w !! key_of KUser user = Some user ->
  (user_InvalidTokensReference user = None \/
   user_InvalidTokensReference user = Some (own_ref user)) ->
  (forall u, registered w u -> EqualFold (user_Email u) (user_Email user) = true -> u = user) ->
  (forall w1, runs (verify token) w1 (fun r w2 => same_store w1 w2 /\
     match r with
     | Ok c => EqualFold (claims_Email c) (user_Email user) = true
     | Err _ => True
     | Panic => False
     end)) ->
  ctx_RawToken ctx = Some token ->
  runs (UserProvider_InvalidateToken (Some user) token expiry) w (fun r w' =>
    match r with
    | Ok _ => runs (TokenVerifier verify next ctx request) w' (fun r' _ => exists e, r' = Err e)
    | Err _ => True
    | Panic => False
    end).
Proof.
  intros HL Hnow Henc Hst Href Huniq Hver Hctx.
  eapply runs_mono; [by apply InvalidateToken_effect|]. cbn beta.
  intros [u0|e|] w'; [|done|done]. intros (u' & Hv & Hem & Hblocked).
  eapply runs_mono; [apply TokenVerifier_spec; [done|]|].
  { intros t Ht w1 Hp. rewrite Hctx in Ht. injection Ht as <-. specialize (Hver w1).
    unfold runs in Hver. rewrite Hp in Hver. tauto. }
  cbn beta. intros r w2 [(ctx' & w1 & (_ & t & c & w0 & Ht & _ & Hc & _ & _ & Hnb & _) & _)|[e [-> _]]];
    [|by exists e]. exfalso.
  rewrite Hctx in Ht. injection Ht as <-.
  destruct (runs_elim _ _ _ _ _ (Hver w') Hc) as [Hs He].
  assert (registered w0 u') as Hreg.
  { exists (key_of KUser user). by rewrite <- Hs, Hv, lookup_insert_eq. }
  destruct Hnb as [Hn|(u & w3 & l & Hu & Heu & Hs3 & Hl & Hnin)].
  { specialize (Hn u' Hreg). rewrite Hem, EqualFold_sym, He in Hn. done. }
  assert (u = u') as ->.
  { destruct Hu as [n Hn]. rewrite <- Hs, Hv in Hn.
    apply lookup_insert_Some in Hn as [[_ Hn]|[Hne Hn]]; [done|]. destruct Hne.
    assert (u = user) as ->; [apply Huniq; [by exists n|]|by eapply view_key].
    by rewrite (EqualFold_trans _ _ _ Heu He). }
  specialize (Hblocked w3). unfold runs in Hblocked.
  change ((UserProvider_GetInvalidatedTokens (Some u') w3).1 = Ok l) in Hl. rewrite Hl in Hblocked.
  apply Hnin, Hblocked. by etrans.
Qed.
End logout_property.

Section middleware_properties.
Context {W Req Resp : Type} {EL : ErrorLib} {ELL : ErrorLibLaws EL} {P : SDK} {API : KubeAPI W}
        {ST : Store W} {LAWS : KubeAPILaws W} {USERS : UserProvider W} {UL : UserProviderLaws W}
        {MAPPER : ProjectMemberMapper W} {ML : ProjectMemberMapperLaws W}.
Implicit Types w : W.

(** The endpoint behind TokenVerifier runs only for a request with a
    non-empty token that the verifier accepted, whose claims name a subject and
    which its owner did not invalidate; it sees exactly the claims of the token.
    Any other request is turned away, with 401 unless the owner's list of
    invalidated tokens decides. *)
Theorem TokenVerifier_admits verify (next : Endpoint W Req Resp) ctx request w :
  ListsSucceed W ->
  (forall token, ctx_RawToken ctx = Some token -> forall w, (verify token w).1 <> Panic) ->
  runs (TokenVerifier verify next ctx request) w (fun r w' =>
    (exists ctx' w1, admits verify ctx w ctx' w1 /\ next ctx' request w1 = (r, w')) \/
    (exists e, r = Err e /\ turned_away verify ctx w e)).
Proof. apply TokenVerifier_spec. Qed.

(** The endpoint behind UserSaver runs with the stored user of the token's
    email, created when there was none; the groups and the last-seen time are
    those of the request unless the user was seen within the last minute or
    another request changes the user at the same time. *)
Theorem UserSaver_saves (next : Endpoint W Req Resp) ctx request w :
  ListsSucceed W ->
  runs (UserSaver next ctx request) w (fun r w' =>
    (exists au u t w0 w1, ctx_AuthenticatedUser ctx = Some au /\ (now (W:=W) w0).1 = Ok t /\
       saved au t u w1 /\ next (ctx_with_UserCR u ctx) request w1 = (r, w')) \/
    (exists e, r = Err e)).
Proof. apply UserSaver_spec. Qed.

(** A request without a token acts as the user whose ID it names, with
    exactly the groups and roles of that user in the project it names; nothing
    is written before the endpoint runs. *)
Theorem UserInfoUnauthorized_exact getUserID getProjectID (next : Endpoint W Req Resp) ctx request w :
  runs (UserInfoUnauthorized getUserID getProjectID next ctx request) w (fun r w' =>
    (exists id pid user ui w1, getUserID request = Some id /\ getProjectID request = Some pid /\
       view KUser w !! ("", id) = Some user /\ unauthorized_info w user pid ui /\
       same_store w w1 /\ next (ctx_with_UserInfo ui ctx) request w1 = (r, w')) \/
    (exists e, r = Err e /\ same_store w w')).
Proof. apply UserInfoUnauthorized_spec. Qed.
End middleware_properties.

(** A verifier that knows the tokens of bob, an endpoint that tells whom it
    serves. *)
Definition bobVerifier : TokenVerifierFn Mem := fun _ =>
  mret (MkClaims "Bob" "bob@example.com" "sub-bob" ["devs"; "ops"] "" 2000000000000%Z).
Definition whoami : Endpoint Mem unit (option string) := fun ctx _ =>
  mret (user_Email <$> ctx_UserCR ctx).
Definition bobRequest : Ctx := ctx_with_RawToken "eyJhbGciOi" emptyCtx.

Lemma bob_unique u :
  registered sample u -> EqualFold (user_Email u) (user_Email bob) = true -> u = bob.
Proof.
  intros [n Hn] He. apply (lookup_sample KUser) in Hn. vm_compute in Hn.
  repeat (apply elem_of_cons in Hn as [->|Hn]; [try reflexivity; vm_compute in He; discriminate He|]).
  by apply elem_of_nil in Hn.
Qed.

Lemma invalidated_token_refused_witness :
  let run := UserProvider_InvalidateToken (API := frozenAPI) (Some bob) "eyJhbGciOi" 2000000000000 sample in
  (TokenVerifier (USERS := kubernetesUserProvider (API := frozenAPI)) bobVerifier whoami bobRequest tt sample).1 = Ok None /\
  (exists u, run.1 = Ok u) /\
  runs (TokenVerifier (USERS := kubernetesUserProvider (API := frozenAPI)) bobVerifier whoami bobRequest tt) run.2 (fun r _ => exists e, r = Err e).
Proof.
  intros run. split; [vm_compute; reflexivity|]. run_ok run u E. split; [by exists u|].
  assert (forall old, tokens_before sample bob old -> old = []) as Hold.
  { intros old [(s & data & Hs & _)|[_ H]]; [|exact H]. vm_compute in Hs. discriminate Hs. }
  pose proof (invalidated_token_refused (API := frozenAPI) (LAWS := frozenAPI_laws) bob "eyJhbGciOi"
    2000000000000 bobVerifier whoami bobRequest tt sample) as H.
  unfold runs in H at 2. fold run in H. rewrite E in H. apply H.
  - intros k s w. by eexists.
  - intros w1 t [= <-]. reflexivity.
  - intros old ->%Hold. constructor; [|constructor]. split; [reflexivity|].
    split; [discriminate|reflexivity].
  - vm_compute. reflexivity.
  - left. reflexivity.
  - exact bob_unique.
  - intros w1. split; [reflexivity|]. vm_compute. reflexivity.
  - reflexivity.
Defined.

Lemma TokenVerifier_admits_witness :
  let run := TokenVerifier bobVerifier whoami bobRequest tt sample in
  run.1 = Ok None /\
  exists ctx' w1, admits bobVerifier bobRequest sample ctx' w1 /\ whoami ctx' tt w1 = (Ok None, run.2).
Proof.
  intros run. assert (run.1 = Ok None) as E by (vm_compute; reflexivity). split; [exact E|].
  run_thm run E (TokenVerifier_admits bobVerifier whoami bobRequest tt sample mem_lists_succeed
    ltac:(intros t _ w H; discriminate H)) H.
  destruct H as [H|(e & H & _)]; [exact H|discriminate H].
Defined.

Lemma UserSaver_saves_witness :
  let au := apiUserNamed "Bob" "Bob@example.com" ["ops"] in
  let ctx := ctx_with_AuthenticatedUser au emptyCtx in
  let run := UserSaver whoami ctx tt sample in
  run.1 = Ok (Some "bob@example.com") /\
  exists u t w1, saved au t u w1 /\ whoami (ctx_with_UserCR u ctx) tt w1 = (Ok (Some "bob@example.com"), run.2).
Proof.
  intros au ctx run. assert (run.1 = Ok (Some "bob@example.com")) as E by (vm_compute; reflexivity).
  split; [exact E|]. run_thm run E (UserSaver_saves whoami ctx tt sample mem_lists_succeed) H.
  destruct H as [(au' & u & t & w0 & w1 & [= <-] & _ & Hs & Hn)|(e & H)]; [|discriminate H].
  exists u, t, w1. split; [exact Hs|exact Hn].
Defined.

Lemma UserInfoUnauthorized_exact_witness :
  let serve : Endpoint Mem unit (option (list string)) := fun ctx _ => mret (ui_Groups <$> ctx_UserInfo ctx) in
  let run := UserInfoUnauthorized (fun _ => Some "u-bob") (fun _ => Some "p1") serve emptyCtx tt sample in
  exists gs, run.1 = Ok (Some gs) /\ exists ui, unauthorized_info sample bob "p1" ui /\ ui_Groups ui = gs.
Proof.
  intros serve run. eexists. assert (run.1 = Ok (Some ["devs-p1"; "editors-p1"])) as E by (vm_compute; reflexivity).
  split; [exact E|].
  run_thm run E (UserInfoUnauthorized_exact (fun _ => Some "u-bob") (fun _ => Some "p1") serve emptyCtx tt sample) H.
  destruct H as [(id & pid & user & ui & w1 & [= <-] & [= <-] & Hu & Hi & _ & Hn)|(e & H & _)]; [|discriminate H].
  assert (view KUser sample !! ("", "u-bob") = Some bob) as Hb by (vm_compute; reflexivity).
  rewrite Hb in Hu. injection Hu as <-.
  exists ui. split; [exact Hi|]. 
  pose proof (f_equal fst Hn
    : Ok (Some (ui_Groups ui)) = Ok (Some ["devs-p1"; "editors-p1"]) :> result error _) as Hg.
  injection Hg as Hg. exact Hg.
Defined.
