(* ===== verification/Seeds.v ===== *)
(** Finding the seed of a cluster: the getters of handler/middleware/middleware.go
    that look through the seeds for the one that runs a cluster.  A range over
    the map of the seeds visits them in no fixed order: the order is a parameter. *)
From S2P Require Export Middleware.

(** A seed with a name and a phase, for the witnesses. *)
Definition seedNamed (name phase : string) : Seed := MkSeed (metaNamed name) emptySeedSpec phase.

(** apiv1.SeedCluster *)
Record SeedCluster := MkSeedCluster {
  sc_SeedName : string;
  sc_ClusterID : string }.

(** The getters of provider/provider.go: those of a seed and those of all seeds. *)
Definition SeedsGetter (W : Type) : Type := M W error (gmap string Seed).
Definition GetterOf (W X : Type) : Type := Seed -> M W error X.

Section seeds.
Context {W CP X : Type} {EL : ErrorLib}.
Variable SeedInvalidPhase : string.
Variable order : gmap string Seed -> list Seed.
Variable clusterProviderGetter : GetterOf W CP.
Variable IsCluster : CP -> string -> M W error bool.

(** The loop that gives up at the first seed without a cluster provider. *)
Fixpoint findSeed (onErr : error -> error) (clusterID seedName : string) (seeds : list Seed)
    : M W error string :=
  match seeds with
  | [] => mret seedName
  | seed :: seeds' =>
      if bool_decide (seed_Phase seed = SeedInvalidPhase)
      then findSeed onErr clusterID seedName seeds' else
      clusterProvider ← mapErr onErr (clusterProviderGetter seed);
      here ← IsCluster clusterProvider clusterID;
      if (here : bool) then mret (seed_Name seed) else findSeed onErr clusterID seedName seeds'
  end.

(** The loop that skips such a seed. *)
Fixpoint findSeedSkipping (clusterID seedName : string) (seeds : list Seed) : M W error string :=
  match seeds with
  | [] => mret seedName
  | seed :: seeds' =>
      if bool_decide (seed_Phase seed = SeedInvalidPhase)
      then findSeedSkipping clusterID seedName seeds' else
      got ← attempt (clusterProviderGetter seed);
      match got with
      | inl _ => findSeedSkipping clusterID seedName seeds'
      | inr clusterProvider =>
          here ← IsCluster clusterProvider clusterID;
          if (here : bool) then mret (seed_Name seed) else findSeedSkipping clusterID seedName seeds'
      end
  end.

(** [seeds[seedName]], and the provider of that seed. *)
Definition providerOfSeed (providerGetter : GetterOf W X) (seeds : gmap string Seed) (seedName : string)
    : M W error X :=
  match seeds !! seedName with
  | None => throw (ENew ("couldn't find seed " +:+ quote seedName))
  | Some seed => providerGetter seed
  end.

(** The body the getters share; they differ in what they make of a seed without
    a cluster provider. *)
Definition getProvider (find : string -> list Seed -> M W error string)
    (providerGetter : GetterOf W X) (seedsGetter : SeedsGetter W) (seedName clusterID : string)
    : M W error X :=
  seeds ← seedsGetter;
  seedName ← (if negb (is_empty clusterID) then find seedName (order seeds) else mret seedName);
  providerOfSeed providerGetter seeds seedName.

Definition notFoundCluster (clusterID : string) : error -> error := fun _ =>
  utilerrors_NewNotFound "cluster-provider" clusterID.

Definition getAddonProvider (addonProviderGetter : GetterOf W X) (seedsGetter : SeedsGetter W)
    (seedName clusterID : string) : M W error X :=
  getProvider (findSeed (notFoundCluster clusterID) clusterID) addonProviderGetter seedsGetter
    seedName clusterID.

Definition getConstraintProvider (constraintProviderGetter : GetterOf W X) (seedsGetter : SeedsGetter W)
    (seedName clusterID : string) : M W error X :=
  getProvider (findSeed (notFoundCluster clusterID) clusterID) constraintProviderGetter seedsGetter
    seedName clusterID.

Definition getAlertmanagerProvider (alertmanagerProviderGetter : GetterOf W X)
    (seedsGetter : SeedsGetter W) (seedName clusterID : string) : M W error X :=
  getProvider (findSeed KubernetesErrorToHTTPError clusterID) alertmanagerProviderGetter seedsGetter
    seedName clusterID.

Definition getRuleGroupProvider (ruleGroupProviderGetter : GetterOf W X) (seedsGetter : SeedsGetter W)
    (seedName clusterID : string) : M W error X :=
  getProvider (findSeedSkipping clusterID) ruleGroupProviderGetter seedsGetter seedName clusterID.

Definition getEtcdBackupConfigProvider (etcdBackupConfigProviderGetter : GetterOf W X)
    (seedsGetter : SeedsGetter W) (seedName clusterID : string) : M W error X :=
  getProvider (findSeed KubernetesErrorToHTTPError clusterID) etcdBackupConfigProviderGetter seedsGetter
    seedName clusterID.

Definition getEtcdRestoreProvider (etcdRestoreProviderGetter : GetterOf W X)
    (seedsGetter : SeedsGetter W) (seedName clusterID : string) : M W error X :=
  getProvider (findSeed KubernetesErrorToHTTPError clusterID) etcdRestoreProviderGetter seedsGetter
    seedName clusterID.

Definition getPrivilegedMLAAdminSettingProvider (mlaAdminSettingProviderGetter : GetterOf W X)
    (seedsGetter : SeedsGetter W) (seedName clusterID : string) : M W error X :=
  getProvider (findSeed KubernetesErrorToHTTPError clusterID) mlaAdminSettingProviderGetter seedsGetter
    seedName clusterID.

Definition getPrivilegedOperatingSystemProfileProvider (providerGetter : GetterOf W X)
    (seedsGetter : SeedsGetter W) (seedName clusterID : string) : M W error X :=
  getProvider (findSeed KubernetesErrorToHTTPError clusterID) providerGetter seedsGetter
    seedName clusterID.

Definition GetOIDCIssuerVerifier (oidcIssuerVerifierGetter : GetterOf W X) (seedsGetter : SeedsGetter W)
    (clusterID : string) : M W error X :=
  if is_empty clusterID then throw (ENew "clusterID cannot be empty") else
  seeds ← seedsGetter;
  seedName ← findSeed (notFoundCluster clusterID) clusterID "" (order seeds);
  if is_empty seedName then throw (ENew ("couldn't find seed for cluster " +:+ quote clusterID)) else
  providerOfSeed oidcIssuerVerifierGetter seeds seedName.

Fixpoint getClusterProviderByClusterID (seeds : list Seed) (clusterID : string) : M W error CP :=
  match seeds with
  | [] => throw (utilerrors_NewNotFound "cluster-provider" clusterID)
  | seed :: seeds' =>
      if bool_decide (seed_Phase seed = SeedInvalidPhase)
      then getClusterProviderByClusterID seeds' clusterID else
      got ← attempt (clusterProviderGetter seed);
      match got with
      | inl _ => (* if one or more Seeds are bad, continue with the request *)
          getClusterProviderByClusterID seeds' clusterID
      | inr clusterProvider =>
          here ← IsCluster clusterProvider clusterID;
          if (here : bool) then mret clusterProvider else getClusterProviderByClusterID seeds' clusterID
      end
  end.

(** The seed that the branch without a cluster puts into the context is answered
    along with the provider. *)
Definition GetClusterProvider (getSeedCluster : option SeedCluster) (seedsGetter : SeedsGetter W)
    : M W error (CP * option Seed) :=
  match getSeedCluster with
  | None => throw (ENew "request is no dcGetter")
  | Some getter =>
      got ← attempt seedsGetter;
      match got with
      | inl err => throw (utilerrors_New 500 ("failed to list seeds: " +:+ Error err))
      | inr seeds =>
          if negb (is_empty (sc_ClusterID getter)) then
            clusterProvider ← getClusterProviderByClusterID (order seeds) (sc_ClusterID getter);
            mret (clusterProvider, None)
          else
            match seeds !! sc_SeedName getter with
            | None => throw (utilerrors_NewNotFound "seed" (sc_SeedName getter))
            | Some seed =>
                got ← attempt (clusterProviderGetter seed);
                match got with
                | inl _ => throw (utilerrors_NewNotFound "cluster-provider" (sc_SeedName getter))
                | inr clusterProvider => mret (clusterProvider, Some seed)
                end
            end
      end
  end.

(** The lookup of the middlewares BackupCredentials and PrivilegedIPAMPool. *)
Definition providerBySeedName (providerGetter : GetterOf W X) (seedsGetter : SeedsGetter W)
    (seedCluster : SeedCluster) : M W error X :=
  seeds ← seedsGetter;
  match seeds !! sc_SeedName seedCluster with
  | None => throw (utilerrors_NewBadRequest ("couldn't find seed " +:+ quote (sc_SeedName seedCluster)))
  | Some seed => providerGetter seed
  end.
End seeds.

(** ** Lemmas *)

Section seeds_proofs.
Context {W CP X : Type} {EL : ErrorLib} {ST : Store W}.
Variable SeedInvalidPhase : string.
Variable order : gmap string Seed -> list Seed.
Variable clusterProviderGetter : GetterOf W CP.
Variable IsCluster : CP -> string -> M W error bool.
Variable seedsGetter : SeedsGetter W.
Variable clusterID : string.
Implicit Types w : W.

(** A snapshot of the installation: what the getters answer while one request
    is served. *)
Record Snapshot := MkSnapshot {
  snap_seeds : gmap string Seed;
  snap_provider : Seed -> result error CP;
  snap_here : CP -> bool }.

Definition shows (snap : Snapshot) : Prop :=
  (forall m, order m ≡ₚ (map_to_list m).*2) /\
  (forall n s, snap_seeds snap !! n = Some s -> seed_Name s = n) /\
  (forall w, runs seedsGetter w (fun r w' => same_store w w' /\ r = Ok (snap_seeds snap))) /\
  (forall s w, runs (clusterProviderGetter s) w (fun r w' => same_store w w' /\
     r = snap_provider snap s /\ r <> Panic)) /\
  (forall cp w, runs (IsCluster cp clusterID) w (fun r w' => same_store w w' /\ r = Ok (snap_here snap cp))).

Variable snap : Snapshot.

Definition usable (s : Seed) : Prop := seed_Phase s <> SeedInvalidPhase.
(** The seed answers and runs the cluster. *)
Definition runs_cluster (s : Seed) : Prop :=
  usable s /\ exists cp, snap_provider snap s = Ok cp /\ snap_here snap cp = true.
(** The name the search gives for the seeds [l], [dflt] when none runs the cluster. *)
Definition located (l : list Seed) (dflt n : string) : Prop :=
  (exists s, s ∈ l /\ runs_cluster s /\ n = seed_Name s) \/
  (n = dflt /\ forall s, s ∈ l -> ~ runs_cluster s).
(** Every seed that is usable has a cluster provider. *)
Definition healthy (l : list Seed) : Prop :=
  forall s, s ∈ l -> usable s -> exists cp, snap_provider snap s = Ok cp.

Lemma located_here s l dflt : runs_cluster s -> located (s :: l) dflt (seed_Name s).
Proof. intros H. left. exists s. set_solver. Qed.

Lemma located_later s l dflt n : ~ runs_cluster s -> located l dflt n -> located (s :: l) dflt n.
Proof.
  intros Hs [(s' & Hin & Hr & ->)|[-> Hn]]; [left; exists s'; set_solver|].
  right. split; [done|]. intros s' [->|Hin]%elem_of_cons; [done|by apply Hn].
Qed.

Hypothesis Hshows : shows snap.


(** The search fails only where a usable seed has no cluster provider. *)
Lemma findSeed_spec onErr dflt l w :
  runs (findSeed SeedInvalidPhase clusterProviderGetter IsCluster onErr clusterID dflt l) w
    (fun r w' => same_store w w' /\
    match r with
    | Ok n => located l dflt n
    | Err e => exists s e', s ∈ l /\ usable s /\ snap_provider snap s = Err e' /\ e = onErr e'
    | Panic => False
    end).
Proof.
  destruct Hshows as (_ & _ & _ & Hcp & His).
  revert w. induction l as [|s l IH]; intros w; cbn [findSeed].
  { runs_step. split; [done|]. right. split; [done|]. intros s Hs. by apply elem_of_nil in Hs. }
  assert (forall w0 w, same_store w0 w -> ~ runs_cluster s ->
    runs (findSeed SeedInvalidPhase clusterProviderGetter IsCluster onErr clusterID dflt l) w
    (fun r w' => same_store w0 w' /\
    match r with
    | Ok n => located (s :: l) dflt n
    | Err e => exists s0 e', s0 ∈ s :: l /\ usable s0 /\ snap_provider snap s0 = Err e' /\ e = onErr e'
    | Panic => False
    end)) as Hnext.
  { intros w0 w1 Hs0 Hn. eapply runs_mono; [apply IH|]. cbn beta. intros r w2 [Hs2 Hr].
    split; [by etrans|]. destruct r as [n|e|]; [by apply located_later| |done].
    destruct Hr as (s' & e' & ? & ?). exists s', e'. set_solver. }
  case_bool_decide as Hph; [apply Hnext; [done|by intros []]|].
  do 2 runs_step. eapply runs_mono; [apply Hcp|]. cbn beta. intros r w1 (Hs & Hr & Hp).
  destruct r as [cp|e|]; cbn [andThen]; [| |done].
  2:{ split; [done|]. exists s, e. split_and!; [set_solver|done|done|done]. }
  runs_step. eapply runs_mono; [apply His|]. cbn beta. intros r w2 [Hs2 ->]. cbn [andThen].
  assert (same_store w w2) as Hs' by (by etrans). destruct (snap_here snap cp) eqn:Eh.
  - runs_step. split; [done|]. apply located_here. split; [done|]. by exists cp.
  - apply Hnext; [done|]. intros [_ (cp' & Hcp' & Hh)]. congruence.
Qed.

(** Skipping the broken seeds, the search always ends with a name. *)
Lemma findSeedSkipping_spec dflt l w :
  runs (findSeedSkipping SeedInvalidPhase clusterProviderGetter IsCluster clusterID dflt l) w
    (fun r w' => same_store w w' /\ exists n, r = Ok n /\ located l dflt n).
Proof.
  destruct Hshows as (_ & _ & _ & Hcp & His).
  revert w. induction l as [|s l IH]; intros w; cbn [findSeedSkipping].
  { runs_step. split; [done|]. exists dflt. split; [done|]. right. split; [done|].
    intros s Hs. by apply elem_of_nil in Hs. }
  assert (forall w0 w, same_store w0 w -> ~ runs_cluster s ->
    runs (findSeedSkipping SeedInvalidPhase clusterProviderGetter IsCluster clusterID dflt l) w
    (fun r w' => same_store w0 w' /\ exists n, r = Ok n /\ located (s :: l) dflt n)) as Hnext.
  { intros w0 w1 Hs0 Hn. eapply runs_mono; [apply IH|]. cbn beta. intros r w2 [Hs2 (n & -> & Hl)].
    split; [by etrans|]. exists n. split; [done|]. by apply located_later. }
  case_bool_decide as Hph; [apply Hnext; [done|by intros []]|].
  do 2 runs_step. eapply runs_mono; [apply Hcp|]. cbn beta. intros r w1 (Hs & Hr & Hp).
  destruct r as [cp|e|]; cbn [andThen]; [| |done].
  2:{ apply Hnext; [done|]. intros [_ (cp' & Hcp' & Hh)]. congruence. }
  runs_step. eapply runs_mono; [apply His|]. cbn beta. intros r w2 [Hs2 ->]. cbn [andThen].
  assert (same_store w w2) as Hs' by (by etrans). destruct (snap_here snap cp) eqn:Eh.
  - runs_step. split; [done|]. exists (seed_Name s). split; [done|].
    apply located_here. split; [done|]. by exists cp.
  - apply Hnext; [done|]. intros [_ (cp' & Hcp' & Hh)]. congruence.
Qed.

Definition all_seeds : list Seed := (map_to_list (snap_seeds snap)).*2.

(** The seed a request is served by: the one that runs the cluster it names, or
    else the one it names itself. *)
Definition chosen (seedName n : string) : Prop :=
  if is_empty clusterID then n = seedName else located all_seeds seedName n.

(** Only one seed can be chosen when one cluster has one seed. *)
Lemma located_unique l dflt n n' :
  (forall s s', s ∈ l -> s' ∈ l -> runs_cluster s -> runs_cluster s' -> s = s') ->
  located l dflt n -> located l dflt n' -> n = n'.
Proof.
  intros Hu [(s & Hin & Hr & ->)|[-> Hn]] [(s' & Hin' & Hr' & ->)|[-> Hn']].
  - by rewrite (Hu s s').
  - by destruct (Hn' s).
  - by destruct (Hn s').
  - done.
Qed.

Lemma located_Permutation l l' dflt n : l ≡ₚ l' -> located l dflt n -> located l' dflt n.
Proof. intros Hl. unfold located. by setoid_rewrite Hl. Qed.

(** The outcome of a getter that found the seed's name. *)
Definition serves (providerGetter : GetterOf W X) (seedName : string) w
    (r : result error X) w' : Prop :=
  exists n w1, chosen seedName n /\ same_store w w1 /\
    match snap_seeds snap !! n with
    | Some s => providerGetter s w1 = (r, w')
    | None => (exists e, r = Err e) /\ w' = w1
    end.
(** It gives up at a usable seed without a cluster provider. *)
Definition gives_up (onErr : error -> error) (r : result error X) : Prop :=
  clusterID <> "" /\ exists s e, s ∈ all_seeds /\ usable s /\ snap_provider snap s = Err e /\ r = Err (onErr e).

Lemma providerOfSeed_serves providerGetter seedName n w w1 :
  chosen seedName n -> same_store w w1 ->
  runs (providerOfSeed providerGetter (snap_seeds snap) n) w1 (serves providerGetter seedName w).
Proof.
  intros Hc Hs. unfold providerOfSeed, serves. apply runs_intro. intros r w' Hr. exists n, w1.
  split_and!; [done|done|]. destruct (_ !! n) as [s|]; [done|]. injection Hr as <- <-. eauto.
Qed.

Lemma getProvider_finds onErr providerGetter seedName w :
  runs (getProvider order (findSeed SeedInvalidPhase clusterProviderGetter IsCluster onErr clusterID)
          providerGetter seedsGetter seedName clusterID) w
    (fun r w' => serves providerGetter seedName w r w' \/ gives_up onErr r).
Proof.
  pose proof Hshows as (Hord & _ & Hget & _). unfold getProvider. runs_step.
  eapply runs_mono; [apply Hget|]. cbn beta. intros r w1 [Hs ->]. cbn [andThen].
  runs_step. destruct (is_empty clusterID) eqn:E; cbn [negb].
  { runs_step. cbn [andThen]. eapply runs_mono; [apply (providerOfSeed_serves _ seedName _ w); [|exact Hs]|intros ? ? H; left; exact H].
    unfold chosen. by rewrite E. }
  eapply runs_mono; [apply findSeed_spec|]. cbn beta. intros r w2 [Hs2 Hr].
  destruct r as [n|e|]; cbn [andThen]; [| |done].
  - eapply runs_mono; [apply (providerOfSeed_serves _ seedName _ w); [|by etrans]|intros ? ? H; left; exact H].
    unfold chosen. rewrite E. eapply located_Permutation; [apply Hord|done].
  - right. split; [by apply is_empty_false|]. destruct Hr as (s & e' & Hin & Hu & He & ->).
    exists s, e'. unfold all_seeds. by rewrite <- (Hord (snap_seeds snap)).
Qed.

Lemma getProvider_skipping_finds providerGetter seedName w :
  runs (getProvider order (findSeedSkipping SeedInvalidPhase clusterProviderGetter IsCluster clusterID)
          providerGetter seedsGetter seedName clusterID) w (serves providerGetter seedName w).
Proof.
  pose proof Hshows as (Hord & _ & Hget & _). unfold getProvider. runs_step.
  eapply runs_mono; [apply Hget|]. cbn beta. intros r w1 [Hs ->]. cbn [andThen].
  runs_step. destruct (is_empty clusterID) eqn:E; cbn [negb].
  { runs_step. cbn [andThen]. apply (providerOfSeed_serves _ seedName _ w); [|exact Hs]. unfold chosen. by rewrite E. }
  eapply runs_mono; [apply findSeedSkipping_spec|]. cbn beta. intros r w2 [Hs2 (n & -> & Hn)].
  cbn [andThen]. apply (providerOfSeed_serves _ seedName _ w); [|by etrans].
  unfold chosen. rewrite E. eapply located_Permutation; [apply Hord|done].
Qed.

Lemma getClusterProviderByClusterID_spec l w :
  runs (getClusterProviderByClusterID SeedInvalidPhase clusterProviderGetter IsCluster l clusterID) w
    (fun r w' => same_store w w' /\
    match r with
    | Ok cp => exists s, s ∈ l /\ runs_cluster s /\ snap_provider snap s = Ok cp
    | Err e => e = utilerrors_NewNotFound "cluster-provider" clusterID /\
        forall s, s ∈ l -> ~ runs_cluster s
    | Panic => False
    end).
Proof.
  pose proof Hshows as (_ & _ & _ & Hcp & His).
  revert w. induction l as [|s l IH]; intros w; cbn [getClusterProviderByClusterID].
  { runs_step. split; [done|]. split; [done|]. intros s Hs. by apply elem_of_nil in Hs. }
  assert (forall w0 w, same_store w0 w -> ~ runs_cluster s ->
    runs (getClusterProviderByClusterID SeedInvalidPhase clusterProviderGetter IsCluster l clusterID) w
    (fun r w' => same_store w0 w' /\
    match r with
    | Ok cp => exists s0, s0 ∈ s :: l /\ runs_cluster s0 /\ snap_provider snap s0 = Ok cp
    | Err e => e = utilerrors_NewNotFound "cluster-provider" clusterID /\
        forall s0, s0 ∈ s :: l -> ~ runs_cluster s0
    | Panic => False
    end)) as Hnext.
  { intros w0 w1 Hs0 Hn. eapply runs_mono; [apply IH|]. cbn beta. intros r w2 [Hs2 Hr].
    split; [by etrans|]. destruct r as [cp|e|]; [| |done].
    - destruct Hr as (s' & ? & ?). exists s'. set_solver.
    - destruct Hr as [-> Hr]. split; [done|]. intros s' [->|?]%elem_of_cons; auto. }
  case_bool_decide as Hph; [apply Hnext; [done|by intros []]|].
  do 2 runs_step. eapply runs_mono; [apply Hcp|]. cbn beta. intros r w1 (Hs & Hr & Hp).
  destruct r as [cp|e|]; cbn [andThen]; [| |done].
  2:{ apply Hnext; [done|]. intros [_ (cp' & Hcp' & Hh)]. congruence. }
  runs_step. eapply runs_mono; [apply His|]. cbn beta. intros r w2 [Hs2 ->]. cbn [andThen].
  assert (same_store w w2) as Hs' by (by etrans). destruct (snap_here snap cp) eqn:Eh.
  - runs_step. split; [done|]. exists s. split_and!; [set_solver| |done]. split; [done|]. by exists cp.
  - apply Hnext; [done|]. intros [_ (cp' & Hcp' & Hh)]. congruence.
Qed.
End seeds_proofs.

(** ** Properties *)

Section seeds_properties.
Context {W CP X : Type} {EL : ErrorLib} {ST : Store W}.
Variable SeedInvalidPhase : string.
Variable order : gmap string Seed -> list Seed.
Variable clusterProviderGetter : GetterOf W CP.
Variable IsCluster : CP -> string -> M W error bool.
Variable seedsGetter : SeedsGetter W.
Variable clusterID : string.
Implicit Types w : W.

(** Whatever the order in which the seeds are visited, the getters of the
    seed-bound providers ask the seed that runs the cluster, or the seed of the
    given name when no cluster is named or no seed runs it.  All but the getter
    of the rule groups give up at a usable seed without a cluster provider. *)
Theorem seed_getters_find (snap : Snapshot) (get : GetterOf W X) seedName w :
  shows order clusterProviderGetter IsCluster seedsGetter clusterID snap ->
  let found onErr m := runs m w (fun r w' =>
    serves SeedInvalidPhase clusterID snap get seedName w r w' \/
    gives_up SeedInvalidPhase clusterID snap onErr r) in
  found (notFoundCluster clusterID) (getAddonProvider SeedInvalidPhase order clusterProviderGetter
    IsCluster get seedsGetter seedName clusterID) /\
  found (notFoundCluster clusterID) (getConstraintProvider SeedInvalidPhase order clusterProviderGetter
    IsCluster get seedsGetter seedName clusterID) /\
  found KubernetesErrorToHTTPError (getAlertmanagerProvider SeedInvalidPhase order clusterProviderGetter
    IsCluster get seedsGetter seedName clusterID) /\
  found KubernetesErrorToHTTPError (getEtcdBackupConfigProvider SeedInvalidPhase order
    clusterProviderGetter IsCluster get seedsGetter seedName clusterID) /\
  found KubernetesErrorToHTTPError (getEtcdRestoreProvider SeedInvalidPhase order clusterProviderGetter
    IsCluster get seedsGetter seedName clusterID) /\
  found KubernetesErrorToHTTPError (getPrivilegedMLAAdminSettingProvider SeedInvalidPhase order
    clusterProviderGetter IsCluster get seedsGetter seedName clusterID) /\
  found KubernetesErrorToHTTPError (getPrivilegedOperatingSystemProfileProvider SeedInvalidPhase order
    clusterProviderGetter IsCluster get seedsGetter seedName clusterID) /\
  runs (getRuleGroupProvider SeedInvalidPhase order clusterProviderGetter IsCluster get seedsGetter
    seedName clusterID) w (serves SeedInvalidPhase clusterID snap get seedName w).
Proof.
  intros Hs found. split_and!; try exact (getProvider_finds _ _ _ _ _ _ _ Hs _ _ _ _).
  exact (getProvider_skipping_finds _ _ _ _ _ _ _ Hs _ _ _).
Qed.

(** A request that names a cluster is answered the cluster provider of a
    seed that runs it, and NotFound exactly when no usable seed does; one that
    names a seed is answered the provider of this seed. *)
Theorem GetClusterProvider_exact (snap : Snapshot) sc w :
  shows order clusterProviderGetter IsCluster seedsGetter clusterID snap ->
  sc_ClusterID sc = clusterID ->
  runs (GetClusterProvider SeedInvalidPhase order clusterProviderGetter IsCluster (Some sc) seedsGetter) w
    (fun r w' => same_store w w' /\
    match r with
    | Ok (cp, seed) =>
        if is_empty clusterID
        then exists s, seed = Some s /\ snap_seeds snap !! sc_SeedName sc = Some s /\
               snap_provider snap s = Ok cp
        else seed = None /\ exists s, s ∈ all_seeds snap /\ runs_cluster SeedInvalidPhase snap s /\
               snap_provider snap s = Ok cp
    | Err e =>
        if is_empty clusterID
        then forall s cp, snap_seeds snap !! sc_SeedName sc = Some s -> snap_provider snap s <> Ok cp
        else e = utilerrors_NewNotFound "cluster-provider" clusterID /\
             forall s, s ∈ all_seeds snap -> ~ runs_cluster SeedInvalidPhase snap s
    | Panic => False
    end).
Proof.
  intros Hshows Hid. pose proof Hshows as (Hord & _ & Hget & Hcp & _).
  unfold GetClusterProvider. do 2 runs_step. eapply runs_mono; [apply Hget|]. cbn beta.
  intros r w1 [Hs ->]. cbn [andThen]. rewrite Hid. destruct (is_empty clusterID) eqn:E; cbn [negb].
  - destruct (snap_seeds snap !! sc_SeedName sc) as [s|] eqn:Es; [|runs_step; by split].
    do 2 runs_step. eapply runs_mono; [apply Hcp|]. cbn beta. intros r w2 (Hs2 & Hr & Hp).
    destruct r as [cp|e|]; cbn [andThen]; [| |done]; runs_step; (split; [by etrans|]).
    + by exists s.
    + intros s' cp [= <-]. by rewrite <- Hr.
  - runs_step. eapply runs_mono; [by eapply getClusterProviderByClusterID_spec|]. cbn beta.
    intros r w2 [Hs2 Hr]. assert (same_store w w2) as Hs' by (by etrans). unfold all_seeds.
    destruct r as [cp|e|]; cbn [andThen]; [| |done].
    + runs_step. split; [done|]. split; [done|]. destruct Hr as (s & Hin & Hr). exists s.
      by rewrite <- (Hord (snap_seeds snap)).
    + split; [done|]. destruct Hr as [-> Hr]. split; [done|]. intros s. rewrite <- (Hord (snap_seeds snap)).
      apply Hr.
Qed.
End seeds_properties.

(** Two seeds: the first has no cluster provider, the second runs the cluster. *)
Definition twoSeeds : gmap string Seed :=
  {[ "broken" := seedNamed "broken" "Healthy"; "eu" := seedNamed "eu" "Healthy" ]}.
Definition twoProvider (s : Seed) : result error string :=
  if bool_decide (seed_Name s = "broken") then Err (ENew "no kubeconfig") else Ok (seed_Name s).
Definition twoSnapshot : Snapshot := MkSnapshot (CP := string) twoSeeds twoProvider (fun _ => true).
Definition twoGetter : GetterOf Mem string := fun s => lift (twoProvider s).
Definition twoIsCluster : string -> string -> M Mem error bool := fun _ _ => mret true.
Definition mapOrder (m : gmap string Seed) : list Seed := (map_to_list m).*2.

Lemma twoSnapshot_shows clusterID :
  shows mapOrder twoGetter twoIsCluster (mret twoSeeds) clusterID twoSnapshot.
Proof.
  split_and!.
  - done.
  - intros n s Hs. unfold twoSnapshot, twoSeeds in Hs. cbn in Hs.
    apply lookup_insert_Some in Hs as [[<- <-]|[_ Hs]]; [done|].
    by apply lookup_singleton_Some in Hs as [<- <-].
  - intros w. by split.
  - intros s w. split; [done|]. split; [done|].
    change (twoProvider s <> Panic). unfold twoProvider. by case_bool_decide.
  - intros cp w. by split.
Qed.

Lemma seed_getters_find_witness :
  let run := getRuleGroupProvider "Invalid" mapOrder twoGetter twoIsCluster twoGetter (mret twoSeeds) ""
               "c1" sample in
  run.1 = Ok "eu" /\ serves "Invalid" "c1" twoSnapshot twoGetter "" sample (Ok "eu") run.2.
Proof.
  intros run. assert (run.1 = Ok "eu") as E by (vm_compute; reflexivity). split; [exact E|].
  pose proof (seed_getters_find "Invalid" mapOrder twoGetter twoIsCluster (mret twoSeeds) "c1" twoSnapshot
    twoGetter "" sample (twoSnapshot_shows "c1")) as (_ & _ & _ & _ & _ & _ & _ & H).
  unfold runs in H. fold run in H. rewrite E in H. exact H.
Defined.

Lemma GetClusterProvider_exact_witness :
  let run := GetClusterProvider "Invalid" mapOrder twoGetter twoIsCluster (Some (MkSeedCluster "" "c1"))
               (mret twoSeeds) sample in
  run.1 = Ok ("eu", None) /\
  exists s, s ∈ all_seeds twoSnapshot /\ runs_cluster "Invalid" twoSnapshot s /\
    snap_provider twoSnapshot s = Ok "eu".
Proof.
  intros run. assert (run.1 = Ok ("eu", None)) as E by (vm_compute; reflexivity). split; [exact E|].
  run_thm run E (GetClusterProvider_exact "Invalid" mapOrder twoGetter twoIsCluster (mret twoSeeds) "c1"
    twoSnapshot (MkSeedCluster "" "c1") sample (twoSnapshot_shows "c1") eq_refl) H.
  destruct H as (_ & _ & H). exact H.
Defined.

(** With a broken seed the getter of the addons depends on the order of the
    visits: it answers the provider of the cluster in one, NotFound in another. *)
Example addon_getter_depends_on_order :
  let get order := (getAddonProvider "Invalid" order twoGetter twoIsCluster twoGetter
                      (mret twoSeeds) "" "c1" sample).1 in
  get (fun m => rev (mapOrder m)) <> get mapOrder /\
  exists order, get order = Ok "eu".
Proof.
  split; [vm_compute; discriminate|].
  first [exists mapOrder; vm_compute; reflexivity
        |exists (fun m => rev (mapOrder m)); vm_compute; reflexivity].
Qed.
