(* ===== verification/SeedProviders.v ===== *)
(** Where the seeds come from: provider/kubernetes/seed.go, ee/provider/seed.go. *)
From S2P Require Export Seeds.

(** What the code takes from the SDK and from the reconciling framework. *)
Class SeedSDK := {
  seed_SetDefaults : Seed -> Seed;
  KubeconfigSecretKey : string }.

(** reconciling.ReconcileSecrets for one secret: it is created if need be, and
    brought to the state that the function answers for the existing one. *)
Class SecretReconciler (W : Type) := {
  ReconcileSecret : string -> string -> (Secret -> Secret) -> M W error unit }.

(** provider.SeedProvider *)
Class SeedProvider (W : Type) := {
  seeds_UpdateUnsecured : Seed -> M W error Seed;
  seeds_CreateUnsecured : Seed -> M W error Seed;
  (* it answers the seed that it has changed in place *)
  seeds_CreateOrUpdateKubeconfigSecretForSeed : Seed -> string -> M W error Seed }.

Section seed_provider.
Context {W : Type} {EL : ErrorLib} {P : SDK} {API : KubeAPI W} {SS : SeedSDK} {RS : SecretReconciler W}.

Definition SeedProvider_UpdateUnsecured (seed : Seed) : M W error Seed := kupdate KSeed Privileged seed.
Definition SeedProvider_CreateUnsecured (seed : Seed) : M W error Seed := kcreate KSeed Privileged seed.

(** [existing.Data = secretData]. *)
Definition seedKubeconfigSecretReconciler (secretData : gmap string string) (existing : Secret) : Secret :=
  secret_with_data (Some secretData) existing.

Definition ensureKubeconfigSecret (seed : Seed) (secretData : gmap string string) : M W error ObjectReference :=
  let name := "kubeconfig-" +:+ seed_Name seed in
  let namespace := meta_Namespace (seed_meta seed) in
  _ ← ReconcileSecret namespace name (seedKubeconfigSecretReconciler secretData);
  mret (MkObjectReference "Secret" namespace name "" "" "" "").

Definition CreateOrUpdateKubeconfigSecretForSeed (seed : Seed) (kubeconfig : string) : M W error Seed :=
  kubeconfigRef ← ensureKubeconfigSecret seed {[ KubeconfigSecretKey := kubeconfig ]};
  mret (seed_with_spec (seedspec_with_kubeconfig kubeconfigRef (seed_Spec seed)) seed).

#[export] Instance kubernetesSeedProvider : SeedProvider W := {|
  seeds_UpdateUnsecured := SeedProvider_UpdateUnsecured;
  seeds_CreateUnsecured := SeedProvider_CreateUnsecured;
  seeds_CreateOrUpdateKubeconfigSecretForSeed := CreateOrUpdateKubeconfigSecretForSeed |}.

(** provider/seed.go *)
Definition DefaultSeedName : string := "kubermatic".

Definition SeedGetterFactory (seedName namespace : string) : M W error Seed :=
  seed ← mapErr (fun err => if apierrors_IsNotFound err then err
                            else EWrap ("failed to get seed " +:+ quote seedName +:+ ": ") err)
           (kget KSeed Privileged (namespace, seedName));
  mret (seed_SetDefaults seed).

(** The getter of the community edition: the one seed it knows. *)
Definition SeedsGetterFactory (namespace : string) : SeedsGetter W :=
  got ← attempt (kget KSeed Privileged (namespace, DefaultSeedName));
  match got with
  | inl err =>
      if apierrors_IsNotFound err then mret ∅
      else throw (EWrap ("failed to get seed " +:+ quote DefaultSeedName +:+ ": ") err)
  | inr seed => mret {[ DefaultSeedName := seed_SetDefaults seed ]}
  end.

(** [client.List(ctx, seeds, listOpts)] with the namespace in the options. *)
Definition listSeedsIn (namespace : string) : M W error (list Seed) :=
  seeds ← klist KSeed Privileged Everything;
  mret (List.filter (fun seed => bool_decide (meta_Namespace (seed_meta seed) = namespace)) seeds).

(** The getter of the enterprise edition: the seeds of the namespace, by name. *)
Definition ee_SeedsGetterFactory (namespace : string) : SeedsGetter W :=
  seeds ← mapErr (EWrap "failed to list the seeds: ") (listSeedsIn namespace);
  mret (foldl (fun seedMap seed => <[seed_Name seed := seed]> seedMap) ∅ seeds).
End seed_provider.

(** ** The seeds of a namespace, by name *)

Section seeds_of.
Context {W : Type} {EL : ErrorLib} {P : SDK} {API : KubeAPI W} {ST : Store W} {LAWS : KubeAPILaws W}.
Implicit Types w : W.
Variable namespace : string.

Definition seeds_of w : gmap string Seed :=
  default ∅ (map_curry (M1 := gmap string) (M2 := gmap string) (view KSeed w) !! namespace).

Lemma lookup_seeds_of w n : seeds_of w !! n = view KSeed w !! (namespace, n).
Proof.
  unfold seeds_of. rewrite <- (lookup_map_curry (M1 := gmap string) (M2 := gmap string) (view KSeed w)).
  by destruct (map_curry (view KSeed w) !! namespace); cbn; [|rewrite lookup_empty].
Qed.

#[export] Instance seeds_of_proper : Proper (same_store ==> eq) seeds_of.
Proof. intros w w' Hw. unfold seeds_of. by rewrite Hw. Qed.

(** A seed of the namespace is stored under its own name. *)
Lemma seeds_of_key w n s :
  seeds_of w !! n = Some s -> seed_Name s = n /\ key_of KSeed s = (namespace, seed_Name s).
Proof.
  rewrite lookup_seeds_of. intros H. pose proof (view_key KSeed w _ _ H) as Hk.
  unfold key_of in *. cbn in *. injection Hk as Hns Hn. unfold seed_Name. by rewrite Hns, Hn.
Qed.

(** A write replaces one seed; a deletion removes one. *)
Lemma seeds_of_written w w' s :
  meta_Namespace (seed_meta s) = namespace ->
  view KSeed w' = <[key_of KSeed s := s]> (view KSeed w) ->
  seeds_of w' = <[seed_Name s := s]> (seeds_of w).
Proof.
  intros Hns Hv. apply map_eq. intros n. rewrite lookup_seeds_of, Hv. unfold key_of. cbn.
  rewrite Hns. destruct (decide (n = seed_Name s)) as [->|Hne].
  - by rewrite !lookup_insert_eq.
  - rewrite !lookup_insert_ne by (unfold seed_Name in *; congruence). by rewrite lookup_seeds_of.
Qed.

Lemma seeds_of_deleted w w' n s :
  seeds_of w !! n = Some s -> meta_Finalizers (seed_meta s) = [] ->
  deleted KSeed w w' (namespace, n) -> seeds_of w' = delete n (seeds_of w).
Proof.
  intros Hs Hf (Hkeep & _ & old & Hold & Hgone & _). rewrite lookup_seeds_of in Hs.
  pose proof (eq_trans (eq_sym Hold) Hs) as [= ->]. apply map_eq. intros i. rewrite lookup_seeds_of.
  destruct (decide (i = n)) as [->|Hne]; [rewrite lookup_delete_eq; by apply Hgone|].
  rewrite lookup_delete_ne, lookup_seeds_of by done. apply Hkeep. congruence.
Qed.

Lemma seeds_of_except k w w' : k <> KSeed -> same_except k w w' -> seeds_of w' = seeds_of w.
Proof. intros Hk H. unfold seeds_of. by rewrite <- H. Qed.
End seeds_of.

(** ** What the endpoints rely on: the getter answers the stored seeds *)

Class SeedsGetterLaws (W : Type) {ST : Store W} (namespace : string) (seedsGetter : SeedsGetter W) : Prop :=
  seedsGetter_spec w : runs seedsGetter w (fun r w' => same_store w w' /\
    match r with Ok m => m = seeds_of namespace w | Err _ => True | Panic => False end).

Section getter_laws.
Context {W : Type} {EL : ErrorLib} {P : SDK} {API : KubeAPI W} {ST : Store W} {LAWS : KubeAPILaws W} {SS : SeedSDK}.
Implicit Types w : W.

Lemma lookup_by_name (l : list Seed) (m : gmap string Seed) n :
  NoDup (seed_Name <$> l) ->
  foldl (fun seedMap seed => <[seed_Name seed := seed]> seedMap) m l !! n =
  match List.find (fun seed => bool_decide (seed_Name seed = n)) l with Some s => Some s | None => m !! n end.
Proof.
  revert m. induction l as [|s l IH]; intros m; cbn; [done|]. intros [Hs Hl]%NoDup_cons.
  rewrite IH by done. case_bool_decide as E.
  - destruct (List.find _ l) as [s'|] eqn:F; [|by rewrite E, lookup_insert_eq].
    apply List_find_some in F as [Hin Hn%bool_decide_eq_true]. destruct Hs.
    rewrite E, <- Hn. by apply list_elem_of_fmap_2.
  - destruct (List.find _ l); [done|by rewrite lookup_insert_ne].
Qed.

#[export] Instance ee_SeedsGetter_laws namespace :
  SeedsGetterLaws W namespace (ee_SeedsGetterFactory namespace).
Proof.
  intros w. unfold ee_SeedsGetterFactory, listSeedsIn. runs_call (klist_spec KSeed).
  destruct Hcall as [Hs Hl]. destruct r as [l|e|]; cbn [andThen]; [|done|done]. runs_step.
  cbn [andThen]. runs_step. split; [done|].
  pose proof (fun s => elem_of_listed_all KSeed w l s Hl) as Hin. pose proof (NoDup_listed _ _ _ _ Hl) as Hnd.
  set (l' := List.filter _ l).
  assert (forall s, s ∈ l' <-> seeds_of namespace w !! seed_Name s = Some s) as Hin'.
  { intros s. unfold l'. rewrite elem_of_List_filter, bool_decide_eq_true, Hin, lookup_seeds_of.
    change (exists n, view KSeed w !! n = Some s) with (stored KSeed w s).
    rewrite stored_lookup. unfold key_of. cbn. unfold seed_Name. split; [by intros [H <-]|].
    intros H. pose proof (view_key KSeed w _ _ H) as Hk. unfold key_of in Hk. cbn in Hk.
    injection Hk as Hk. by rewrite Hk. }
  assert (NoDup (seed_Name <$> l')) as Hnd'.
  { apply NoDup_fmap_2_strong.
    - intros s1 s2 H1%Hin' H2%Hin' E. rewrite E in H1. congruence.
    - unfold l'. rewrite List_filter_filter. apply NoDup_filter. by eapply NoDup_fmap_1. }
  apply map_eq. intros n. rewrite lookup_by_name by done. rewrite lookup_empty.
  destruct (List.find _ l') as [s|] eqn:F.
  - apply List_find_some in F as [Hs' Hn%bool_decide_eq_true]. apply Hin' in Hs'. by rewrite <- Hn.
  - destruct (seeds_of namespace w !! n) as [s|] eqn:E; [|done].
    pose proof (seeds_of_key namespace w _ _ E) as [Hn _]. assert (s ∈ l') as Hs' by (apply Hin'; by rewrite Hn).
    pose proof (List_find_none _ _ _ F Hs') as Hf. by apply bool_decide_eq_false in Hf.
Qed.

(** The community edition shows at most the default seed, with its defaults. *)
Lemma ce_SeedsGetter_spec namespace w :
  runs (SeedsGetterFactory namespace) w (fun r w' => same_store w w' /\
    match r with
    | Ok m => m = seed_SetDefaults <$> filter (fun ns => ns.1 = DefaultSeedName) (seeds_of namespace w)
    | Err _ => True
    | Panic => False
    end).
Proof.
  unfold SeedsGetterFactory. runs_call (kget_spec KSeed). destruct Hcall as [Hs Hr].
  assert (forall n, n <> DefaultSeedName ->
    filter (fun ns : string * Seed => ns.1 = DefaultSeedName) (seeds_of namespace w) !! n = None) as Hne.
  { intros n Hn. apply map_lookup_filter_None. right. by intros s _. }
  destruct r as [s|e|]; cbn [andThen]; [| |done].
  - destruct Hr as [Hr _]. runs_step. split; [done|]. apply map_eq. intros n. rewrite lookup_fmap.
    destruct (decide (n = DefaultSeedName)) as [->|Hn].
    + rewrite lookup_singleton_eq. rewrite (proj2 (map_lookup_filter_Some _ _ _ s)); [done|].
      by rewrite lookup_seeds_of.
    + by rewrite lookup_singleton_ne, Hne by done.
  - destruct (apierrors_IsNotFound e) eqn:E; [|by runs_step]. specialize (Hr eq_refl).
    runs_step. split; [done|]. apply map_eq. intros n. rewrite lookup_fmap, lookup_empty.
    destruct (decide (n = DefaultSeedName)) as [->|Hn]; [|by rewrite Hne].
    rewrite (proj2 (map_lookup_filter_None _ _ _)); [done|]. left. by rewrite lookup_seeds_of.
Qed.
End getter_laws.
