(* ===== verification/GoRegexp.v ===== *)
(** package regexp, as far as the code matches whole strings: expressions and a
    matcher by derivatives, with the proof that it decides the language. *)
From S2P Require Export Prelude.
From Stdlib Require Import Ascii.

Inductive regexp :=
| RVoid                               (* no string *)
| REmpty
| RChar (f : ascii -> bool)           (* a character class *)
| RAlt (r1 r2 : regexp)
| RSeq (r1 r2 : regexp)
| RStar (r : regexp).

(** [r?]. *)
Definition ROpt (r : regexp) : regexp := RAlt REmpty r.

(** The language of an expression. *)
Inductive in_lang : regexp -> list ascii -> Prop :=
| in_empty : in_lang REmpty []
| in_char f c : f c = true -> in_lang (RChar f) [c]
| in_alt_l r1 r2 s : in_lang r1 s -> in_lang (RAlt r1 r2) s
| in_alt_r r1 r2 s : in_lang r2 s -> in_lang (RAlt r1 r2) s
| in_seq r1 r2 s1 s2 : in_lang r1 s1 -> in_lang r2 s2 -> in_lang (RSeq r1 r2) (s1 ++ s2)
| in_star_nil r : in_lang (RStar r) []
| in_star_cons r s1 s2 : in_lang r s1 -> in_lang (RStar r) s2 -> in_lang (RStar r) (s1 ++ s2).

Fixpoint nullable (r : regexp) : bool :=
  match r with
  | RVoid | RChar _ => false
  | REmpty | RStar _ => true
  | RAlt r1 r2 => nullable r1 || nullable r2
  | RSeq r1 r2 => nullable r1 && nullable r2
  end.

(** What is left to match after the character [c]. *)
Fixpoint derive (c : ascii) (r : regexp) : regexp :=
  match r with
  | RVoid | REmpty => RVoid
  | RChar f => if f c then REmpty else RVoid
  | RAlt r1 r2 => RAlt (derive c r1) (derive c r2)
  | RSeq r1 r2 =>
      let d := RSeq (derive c r1) r2 in
      if nullable r1 then RAlt d (derive c r2) else d
  | RStar r' => RSeq (derive c r') r
  end.

(** [MatchString] of an expression between ^ and $. *)
Definition MatchString (r : regexp) (s : string) : bool :=
  nullable (foldl (fun r c => derive c r) r (String.list_ascii_of_string s)).

Ltac inv_lang :=
  repeat match goal with
  | H : in_lang (RAlt _ _) _ |- _ => inversion H; clear H; subst
  | H : in_lang (RSeq _ _) _ |- _ => inversion H; clear H; subst
  | H : in_lang RVoid _ |- _ => inversion H
  | H : in_lang REmpty _ |- _ => inversion H; clear H; subst
  | H : in_lang (RChar _) _ |- _ => inversion H; clear H; subst
  end.

Lemma nullable_spec r : nullable r = true <-> in_lang r [].
Proof.
  induction r as [| |f|r1 IH1 r2 IH2|r1 IH1 r2 IH2|r IH]; cbn.
  - split; [done|]. intros H. inversion H.
  - split; [constructor|done].
  - split; [done|]. intros H. inversion H.
  - rewrite orb_true_iff, IH1, IH2. split; [intros [H|H]; by constructor|]. intros H. inv_lang; auto.
  - rewrite andb_true_iff, IH1, IH2. split; [intros [H1 H2]; by apply (in_seq _ _ [] [])|].
    intros H. inversion H as [| | | |? ? s1 s2 H1 H2 E1 E2| |]; subst.
    apply app_eq_nil in E2 as [-> ->]. done.
  - split; [constructor|done].
Qed.

(** A non-empty string of a starred expression starts with a non-empty part. *)
Lemma star_split r c s : in_lang (RStar r) (c :: s) ->
  exists s1 s2, s = s1 ++ s2 /\ in_lang r (c :: s1) /\ in_lang (RStar r) s2.
Proof.
  intros H. remember (RStar r) as q eqn:Eq. remember (c :: s) as t eqn:Et. revert r c s Eq Et.
  induction H as [| | | | |r|r s1 s2 H1 _ H2 IH2]; intros r' x t [=] Et; subst; [done|].
  destruct s1 as [|y s1]; cbn in Et; [by apply IH2|]. injection Et as -> <-. by exists s1, s2.
Qed.

Lemma derive_spec c r s : in_lang (derive c r) s <-> in_lang r (c :: s).
Proof.
  revert s. induction r as [| |f|r1 IH1 r2 IH2|r1 IH1 r2 IH2|r IH]; intros s; cbn [derive].
  - split; intros H; inversion H.
  - split; intros H; inversion H.
  - destruct (f c) eqn:E; split; intros H; inv_lang; [by constructor|constructor|congruence].
  - split; intros H; inv_lang; [apply in_alt_l, IH1|apply in_alt_r, IH2|apply in_alt_l, IH1|apply in_alt_r, IH2]; done.
  - assert (in_lang (RSeq (derive c r1) r2) s -> in_lang (RSeq r1 r2) (c :: s)) as Hl.
    { intros H. inv_lang. apply (in_seq _ _ (c :: s1) s2); [by apply IH1|done]. }
    split.
    + destruct (nullable r1) eqn:E; [|done]. intros H.
      inversion H as [| |? ? ? H'|? ? ? H'| | |]; subst; [by apply Hl|].
      apply (in_seq _ _ [] (c :: s)); [by apply nullable_spec|by apply IH2].
    + intros H. inversion H as [| | | |? ? s1 s2 H1 H2 E1 E2| |]; subst.
      destruct s1 as [|c' s1]; cbn in E2.
      * subst s2. assert (nullable r1 = true) as -> by (by apply nullable_spec). by apply in_alt_r, IH2.
      * injection E2 as -> <-. assert (in_lang (RSeq (derive c r1) r2) (s1 ++ s2)) as Hs
          by (constructor; [by apply IH1|done]).
        destruct (nullable r1); [by apply in_alt_l|done].
  - split.
    + intros H. inv_lang. apply (in_star_cons _ (c :: s1) s2); [by apply IH|done].
    + intros (s1 & s2 & -> & H1 & H2)%star_split. constructor; [by apply IH|done].
Qed.

(** The matcher decides the language. *)
Lemma MatchString_spec r s : MatchString r s = true <-> in_lang r (String.list_ascii_of_string s).
Proof.
  unfold MatchString. generalize (String.list_ascii_of_string s). intros l. revert r.
  induction l as [|c l IH]; intros r; cbn; [apply nullable_spec|]. by rewrite IH, derive_spec.
Qed.
