(* ===== verification/GoBase64.v ===== *)
(** encoding/base64: the standard encoding, with padding. *)
From S2P Require Export Prelude.
From Stdlib Require Import Ascii Lia ZifyNat.
#[local] Ltac Zify.zify_post_hook ::= Z.to_euclidean_division_equations.

Definition b64_char (n : nat) : ascii :=
  ascii_of_nat (if n <? 26 then 65 + n else if n <? 52 then 71 + n else if n <? 62 then n - 4 else if n =? 62 then 43 else 47).
Definition b64_value (c : ascii) : option nat :=
  let n := nat_of_ascii c in
  if (65 <=? n) && (n <=? 90) then Some (n - 65)
  else if (97 <=? n) && (n <=? 122) then Some (n - 71)
  else if (48 <=? n) && (n <=? 57) then Some (n + 4)
  else if n =? 43 then Some 62 else if n =? 47 then Some 63 else None.
Definition padChar : ascii := "="%char.

Definition byte1 (a b : nat) : ascii := ascii_of_nat (a * 4 + b / 16).
Definition byte2 (b c : nat) : ascii := ascii_of_nat ((b mod 16) * 16 + c / 4).
Definition byte3 (c d : nat) : ascii := ascii_of_nat ((c mod 4) * 64 + d).

(** Quanta of four characters; only the last one may be padded. *)
Fixpoint decodeQuanta (l : list ascii) : option (list ascii) :=
  match l with
  | [] => Some []
  | a :: b :: c :: d :: rest =>
      a ← b64_value a; b ← b64_value b;
      if bool_decide (d = padChar) then
        match rest with
        | _ :: _ => None
        | [] =>
            if bool_decide (c = padChar) then Some [byte1 a b]
            else c ← b64_value c; Some [byte1 a b; byte2 b c]
        end
      else
        c ← b64_value c; d ← b64_value d;
        rest ← decodeQuanta rest;
        Some (byte1 a b :: byte2 b c :: byte3 c d :: rest)
  | _ => None
  end.

Definition is_newline (c : ascii) : bool := (nat_of_ascii c =? 10) || (nat_of_ascii c =? 13).

(** [base64.StdEncoding.DecodeString]: line breaks are skipped. *)
Definition b64_DecodeString (s : string) : option string :=
  bytes ← decodeQuanta (List.filter (fun c => negb (is_newline c)) (String.list_ascii_of_string s));
  Some (String.string_of_list_ascii bytes).

Fixpoint encodeQuanta (l : list ascii) : list ascii :=
  let v := nat_of_ascii in
  match l with
  | [] => []
  | [x] => [b64_char (v x / 4); b64_char (v x mod 4 * 16); padChar; padChar]
  | [x; y] => [b64_char (v x / 4); b64_char (v x mod 4 * 16 + v y / 16); b64_char (v y mod 16 * 4); padChar]
  | x :: y :: z :: rest =>
      b64_char (v x / 4) :: b64_char (v x mod 4 * 16 + v y / 16) ::
      b64_char (v y mod 16 * 4 + v z / 64) :: b64_char (v z mod 64) :: encodeQuanta rest
  end.
Definition b64_EncodeToString (s : string) : string :=
  String.string_of_list_ascii (encodeQuanta (String.list_ascii_of_string s)).

(** ** Decoding undoes encoding *)

Lemma b64_chars n : n < 64 ->
  b64_value (b64_char n) = Some n /\ is_newline (b64_char n) = false /\ bool_decide (b64_char n = padChar) = false.
Proof.
  intros H. do 64 (destruct n as [|n]; [by vm_compute|]). lia.
Qed.
Lemma byte_eq x n : n = nat_of_ascii x -> ascii_of_nat n = x.
Proof. intros ->. apply ascii_nat_embedding. Qed.

(** The characters of the encoding are not line breaks. *)
Lemma encodeQuanta_chars l : List.filter (fun c => negb (is_newline c)) (encodeQuanta l) = encodeQuanta l.
Proof.
  assert (forall n, n < 64 -> forall l, List.filter (fun c => negb (is_newline c)) (b64_char n :: l) =
            b64_char n :: List.filter (fun c => negb (is_newline c)) l) as Hf.
  { intros n Hn l'. cbn [List.filter]. by rewrite (proj1 (proj2 (b64_chars n Hn))). }
  assert (forall l, List.filter (fun c => negb (is_newline c)) (padChar :: l) =
            padChar :: List.filter (fun c => negb (is_newline c)) l) as Hp by done.
  pose proof nat_ascii_bounded as Hb.
  revert l. fix IH 1. intros [|x [|y [|z rest]]]; [done| | |]; cbn [encodeQuanta]; pose proof (Hb x);
    try pose proof (Hb y); try pose proof (Hb z); rewrite ?Hf, ?Hp by lia; [done|done|]. by rewrite IH.
Qed.

Lemma decodeQuanta_encode l : decodeQuanta (encodeQuanta l) = Some l.
Proof.
  pose proof nat_ascii_bounded as Hb. revert l. fix IH 1. intros [|x [|y [|z rest]]]; [done| | |];
    cbn [encodeQuanta]; pose proof (Hb x) as Hx; try pose proof (Hb y) as Hy; try pose proof (Hb z) as Hz; cbn [decodeQuanta].
  - destruct (b64_chars (nat_of_ascii x / 4)) as (-> & _); [lia|].
    destruct (b64_chars (nat_of_ascii x mod 4 * 16)) as (-> & _); [lia|]. cbn [mbind option_bind].
    rewrite !bool_decide_eq_true_2 by done. unfold byte1. do 2 f_equal. apply byte_eq. lia.
  - destruct (b64_chars (nat_of_ascii x / 4)) as (-> & _); [lia|].
    destruct (b64_chars (nat_of_ascii x mod 4 * 16 + nat_of_ascii y / 16)) as (-> & _); [lia|].
    destruct (b64_chars (nat_of_ascii y mod 16 * 4)) as (-> & _ & ->); [lia|]. cbn [mbind option_bind].
    rewrite bool_decide_eq_true_2 by done. unfold byte1, byte2. do 2 f_equal; [|f_equal]; apply byte_eq; lia.
  - destruct (b64_chars (nat_of_ascii x / 4)) as (-> & _); [lia|].
    destruct (b64_chars (nat_of_ascii x mod 4 * 16 + nat_of_ascii y / 16)) as (-> & _); [lia|].
    destruct (b64_chars (nat_of_ascii y mod 16 * 4 + nat_of_ascii z / 64)) as (-> & _); [lia|].
    destruct (b64_chars (nat_of_ascii z mod 64)) as (-> & _ & ->); [lia|]. cbn [mbind option_bind].
    rewrite IH. cbn [mbind option_bind]. unfold byte1, byte2, byte3. do 2 f_equal; [|f_equal; [|f_equal]];
      apply byte_eq; lia.
Qed.

Lemma b64_roundtrip s : b64_DecodeString (b64_EncodeToString s) = Some s.
Proof.
  unfold b64_DecodeString, b64_EncodeToString. rewrite String.list_ascii_of_string_of_list_ascii.
  rewrite encodeQuanta_chars, decodeQuanta_encode. cbn. by rewrite String.string_of_list_ascii_of_string.
Qed.
