(* ===== verification/Datacenters.v ===== *)
(** Datacenters: handler/v1/dc/datacenter.go. They are entries of the specs of
    the seeds; the endpoints show them to users and change them for administrators. *)
From S2P Require Export SeedProviders MapRange Json.
From stdpp Require Import pretty.

(** ** api/v1/types.go *)

Record ApiDatacenterSpec := MkApiDatacenterSpec {
  apidc_Seed : string;
  apidc_Country : string;
  apidc_Location : string;
  apidc_Provider : string;
  apidc_Digitalocean : option SDKValue;
  apidc_BringYourOwn : option SDKValue;
  apidc_Baremetal : option SDKValue;
  apidc_AWS : option SDKValue;
  apidc_Azure : option SDKValue;
  apidc_Edge : option SDKValue;
  apidc_Openstack : option SDKValue;
  apidc_GCP : option SDKValue;
  apidc_Hetzner : option SDKValue;
  apidc_VSphere : option SDKValue;
  apidc_Kubevirt : option SDKValue;
  apidc_Alibaba : option SDKValue;
  apidc_Anexia : option SDKValue;
  apidc_Nutanix : option SDKValue;
  apidc_VMwareCloudDirector : option SDKValue;
  apidc_Fake : option SDKValue;
  apidc_Node : SDKValue;
  apidc_RequiredEmails : list string;
  apidc_EnforceAuditLogging : bool;
  apidc_EnforcedAuditWebhookSettings : option SDKValue;
  apidc_EnforcePodSecurityPolicy : bool;
  apidc_IPv6Enabled : bool;
  apidc_DefaultOperatingSystemProfiles : gmap string string;
  apidc_MachineFlavorFilter : option SDKValue;
  apidc_DisableCSIDriver : bool;
  apidc_KubeLB : option SDKValue }.

(** [Metadata.Name] and [Spec]. *)
Record ApiDatacenter := MkApiDatacenter {
  apidc_Name : string;
  apidc_Spec : ApiDatacenterSpec }.
#[export] Instance ApiDatacenterSpec_eq_dec : EqDecision ApiDatacenterSpec.
Proof. solve_decision. Defined.
#[export] Instance ApiDatacenter_eq_dec : EqDecision ApiDatacenter.
Proof. solve_decision. Defined.

Definition apidc_with_provider (x : string) (s : ApiDatacenterSpec) : ApiDatacenterSpec :=
  MkApiDatacenterSpec (apidc_Seed s) (apidc_Country s) (apidc_Location s) x
    (apidc_Digitalocean s) (apidc_BringYourOwn s) (apidc_Baremetal s) (apidc_AWS s)
    (apidc_Azure s) (apidc_Edge s) (apidc_Openstack s) (apidc_GCP s) (apidc_Hetzner s)
    (apidc_VSphere s) (apidc_Kubevirt s) (apidc_Alibaba s) (apidc_Anexia s) (apidc_Nutanix s)
    (apidc_VMwareCloudDirector s) (apidc_Fake s) (apidc_Node s) (apidc_RequiredEmails s)
    (apidc_EnforceAuditLogging s) (apidc_EnforcedAuditWebhookSettings s)
    (apidc_EnforcePodSecurityPolicy s) (apidc_IPv6Enabled s)
    (apidc_DefaultOperatingSystemProfiles s) (apidc_MachineFlavorFilter s)
    (apidc_DisableCSIDriver s) (apidc_KubeLB s).

(** ** What the code takes from other repositories *)

(** The names of the providers ([kubermaticv1.AlibabaCloudProvider], ...), the
    helpers of the SDK, the matching of mail addresses. *)
Class DatacenterSDK := {
  Alibaba_provider : string;
  BringYourOwn_provider : string;
  Digitalocean_provider : string;
  AWS_provider : string;
  Openstack_provider : string;
  Hetzner_provider : string;
  VSphere_provider : string;
  Baremetal_provider : string;
  Azure_provider : string;
  Edge_provider : string;
  GCP_provider : string;
  Kubevirt_provider : string;
  Anexia_provider : string;
  Nutanix_provider : string;
  VMwareCloudDirector_provider : string;
  Fake_provider : string;
  noNodeSettings : SDKValue;                                    (* kubermaticv1.NodeSettings{} *)
  DatacenterCloudProviderName : DatacenterSpec -> result error string;
  IsIPv6Enabled : Datacenter -> string -> bool;
  MatchesRequirements : string -> list string -> result error bool;
  (* JSON of a datacenter of the API, and merge patches *)
  marshalDatacenter : ApiDatacenter -> result error string;
  unmarshalDatacenter : string -> result error ApiDatacenter;
  MergePatch : string -> string -> result error string }.

Class DatacenterSDKLaws (D : DatacenterSDK) : Prop := {
  DatacenterCloudProviderName_panic s : DatacenterCloudProviderName s <> Panic;
  MatchesRequirements_panic mail l : MatchesRequirements mail l <> Panic;
  marshalDatacenter_panic d : marshalDatacenter d <> Panic;
  unmarshalDatacenter_panic s : unmarshalDatacenter s <> Panic;
  MergePatch_panic s p : MergePatch s p <> Panic }.

Section datacenters.
Context {W : Type} {EL : ErrorLib} {D : DatacenterSDK} {R : MapRange}.

(** ** Conversions *)

Definition ConvertInternalDCToExternalSpec (dc : Datacenter) (seedName : string) : result error ApiDatacenterSpec :=
  p ← DatacenterCloudProviderName (dc_Spec dc);
  let nodeSettings := default noNodeSettings (dc_Node dc) in
  Ok {|
    apidc_Seed := seedName;
    apidc_Location := dc_Location dc;
    apidc_Country := dc_Country dc;
    apidc_Provider := p;
    apidc_Node := nodeSettings;
    apidc_Digitalocean := dcspec_Digitalocean (dc_Spec dc);
    apidc_AWS := dcspec_AWS (dc_Spec dc);
    apidc_BringYourOwn := dcspec_BringYourOwn (dc_Spec dc);
    apidc_Openstack := dcspec_Openstack (dc_Spec dc);
    apidc_Hetzner := dcspec_Hetzner (dc_Spec dc);
    apidc_VSphere := dcspec_VSphere (dc_Spec dc);
    apidc_Baremetal := dcspec_Baremetal (dc_Spec dc);
    apidc_Azure := dcspec_Azure (dc_Spec dc);
    apidc_Edge := dcspec_Edge (dc_Spec dc);
    apidc_GCP := dcspec_GCP (dc_Spec dc);
    apidc_Kubevirt := dcspec_Kubevirt (dc_Spec dc);
    apidc_Alibaba := dcspec_Alibaba (dc_Spec dc);
    apidc_Anexia := dcspec_Anexia (dc_Spec dc);
    apidc_Nutanix := dcspec_Nutanix (dc_Spec dc);
    apidc_VMwareCloudDirector := dcspec_VMwareCloudDirector (dc_Spec dc);
    apidc_Fake := dcspec_Fake (dc_Spec dc);
    apidc_RequiredEmails := dcspec_RequiredEmails (dc_Spec dc);
    apidc_EnforceAuditLogging := dcspec_EnforceAuditLogging (dc_Spec dc);
    apidc_EnforcedAuditWebhookSettings := dcspec_EnforcedAuditWebhookSettings (dc_Spec dc);
    apidc_EnforcePodSecurityPolicy := dcspec_EnforcePodSecurityPolicy (dc_Spec dc);
    apidc_DefaultOperatingSystemProfiles := dcspec_DefaultOperatingSystemProfiles (dc_Spec dc);
    apidc_KubeLB := dcspec_KubeLB (dc_Spec dc);
    apidc_IPv6Enabled := IsIPv6Enabled dc p;
    apidc_MachineFlavorFilter := dcspec_MachineFlavorFilter (dc_Spec dc);
    apidc_DisableCSIDriver := dcspec_DisableCSIDriver (dc_Spec dc) |}.

Definition convertInternalDCToExternal (dc : Datacenter) (dcName seedName : string) : result error ApiDatacenter :=
  dcSpec ← ConvertInternalDCToExternalSpec dc seedName;
  Ok (MkApiDatacenter dcName dcSpec).

(** The fields that the composite literal leaves out have their zero values. *)
Definition convertExternalDCToInternal (datacenter : ApiDatacenterSpec) : Datacenter :=
  {| dc_Country := apidc_Country datacenter;
     dc_Location := apidc_Location datacenter;
     dc_Node := Some (apidc_Node datacenter);
     dc_Spec := {|
       dcspec_Digitalocean := apidc_Digitalocean datacenter;
       dcspec_BringYourOwn := apidc_BringYourOwn datacenter;
       dcspec_AWS := apidc_AWS datacenter;
       dcspec_Azure := apidc_Azure datacenter;
       dcspec_Edge := apidc_Edge datacenter;
       dcspec_Openstack := apidc_Openstack datacenter;
       dcspec_Hetzner := apidc_Hetzner datacenter;
       dcspec_VSphere := apidc_VSphere datacenter;
       dcspec_GCP := apidc_GCP datacenter;
       dcspec_Kubevirt := apidc_Kubevirt datacenter;
       dcspec_Alibaba := apidc_Alibaba datacenter;
       dcspec_Anexia := apidc_Anexia datacenter;
       dcspec_Nutanix := apidc_Nutanix datacenter;
       dcspec_VMwareCloudDirector := apidc_VMwareCloudDirector datacenter;
       dcspec_Fake := apidc_Fake datacenter;
       dcspec_RequiredEmails := apidc_RequiredEmails datacenter;
       dcspec_EnforceAuditLogging := apidc_EnforceAuditLogging datacenter;
       dcspec_EnforcedAuditWebhookSettings := apidc_EnforcedAuditWebhookSettings datacenter;
       dcspec_EnforcePodSecurityPolicy := apidc_EnforcePodSecurityPolicy datacenter;
       dcspec_MachineFlavorFilter := apidc_MachineFlavorFilter datacenter;
       dcspec_Baremetal := None;
       dcspec_DefaultOperatingSystemProfiles := ∅;
       dcspec_DisableCSIDriver := false;
       dcspec_KubeLB := None |} |}.

(** [if dcSpec.X != nil { providerNames = append(providerNames, name) }]. *)
Definition given (field : option SDKValue) (name : string) : list string :=
  match field with Some _ => [name] | None => [] end.

Definition dcProviderNames (dcSpec : ApiDatacenterSpec) : list string :=
  given (apidc_Alibaba dcSpec) Alibaba_provider ++
  given (apidc_BringYourOwn dcSpec) BringYourOwn_provider ++
  given (apidc_Digitalocean dcSpec) Digitalocean_provider ++
  given (apidc_AWS dcSpec) AWS_provider ++
  given (apidc_Openstack dcSpec) Openstack_provider ++
  given (apidc_Hetzner dcSpec) Hetzner_provider ++
  given (apidc_VSphere dcSpec) VSphere_provider ++
  given (apidc_Baremetal dcSpec) Baremetal_provider ++
  given (apidc_Azure dcSpec) Azure_provider ++
  given (apidc_Edge dcSpec) Edge_provider ++
  given (apidc_GCP dcSpec) GCP_provider ++
  given (apidc_Kubevirt dcSpec) Kubevirt_provider ++
  given (apidc_Anexia dcSpec) Anexia_provider ++
  given (apidc_Nutanix dcSpec) Nutanix_provider ++
  given (apidc_VMwareCloudDirector dcSpec) VMwareCloudDirector_provider ++
  given (apidc_Fake dcSpec) Fake_provider.

Definition GetProviderName (dcSpec : ApiDatacenterSpec) : result error string :=
  match dcProviderNames dcSpec with
  | [name] => Ok name
  | names =>
      Err (ENew ("only one DC provider should be specified, got: [" +:+ String.concat " " names +:+ "]"))
  end.

Definition validateProvider (dcSpec : ApiDatacenterSpec) : result error unit :=
  _ ← GetProviderName dcSpec; Ok tt.


(** ** The endpoints that show datacenters *)

(** The entries whose provider has no name are left out. *)
Fixpoint externalDCs (seedName : string) (l : list (string * Datacenter)) : result error (list ApiDatacenter) :=
  match l with
  | [] => Ok []
  | (datacenterName, datacenter) :: l' =>
      match ConvertInternalDCToExternalSpec datacenter seedName with
      | Ok spec => foundDCs ← externalDCs seedName l'; Ok (MkApiDatacenter datacenterName spec :: foundDCs)
      | Err _ => externalDCs seedName l'
      | Panic => Panic
      end
  end.

Definition getAPIDCsFromSeed (seed : Seed) : result error (list ApiDatacenter) :=
  externalDCs (seed_Name seed) (map_range (seedspec_Datacenters (seed_Spec seed))).

Definition getAPIDCsFromSeedMap (seeds : gmap string Seed) : result error (list ApiDatacenter) :=
  foundDCs ← collect (fun ns => getAPIDCsFromSeed ns.2) (map_range seeds);
  Ok (concat foundDCs).

Definition filterDCsByProvider (providerName : string) (l : list ApiDatacenter) : list ApiDatacenter :=
  List.filter (fun dc => bool_decide (apidc_Provider (apidc_Spec dc) = providerName)) l.

Definition filterDCsByName (dcs : list ApiDatacenter) (dcName : string) : result error ApiDatacenter :=
  match List.filter (fun dc => bool_decide (apidc_Name dc = dcName)) dcs with
  | [] => Err (utilerrors_NewNotFound "datacenter" dcName)
  | [dc] => Ok dc
  | found => Err (ENew ("did not find one but " +:+ pretty (length found) +:+
                           " datacenters for name " +:+ quote dcName))
  end.

Fixpoint filterDCsByEmail (userInfo : UserInfo) (l : list ApiDatacenter) : result error (list ApiDatacenter) :=
  match l with
  | [] => Ok []
  | dc :: l' =>
      fits ← MatchesRequirements (ui_Email userInfo) (apidc_RequiredEmails (apidc_Spec dc));
      result ← filterDCsByEmail userInfo l';
      Ok (if (fits : bool) then dc :: result else result)
  end.

(** [sort.SliceStable] by name. *)
Definition name_le (d d' : ApiDatacenter) : Prop := String.le (apidc_Name d) (apidc_Name d').
#[export] Instance name_le_dec : RelDecision name_le := fun d d' => decide (String.le (apidc_Name d) (apidc_Name d')).
#[export] Instance name_le_total : Total name_le.
Proof. intros d d'. apply (total String.le). Qed.
Definition sortByName (dcs : list ApiDatacenter) : list ApiDatacenter := merge_sort name_le dcs.

Section dc_handlers.
Context {P : SDK} {API : KubeAPI W}.
Variable seedsGetter : SeedsGetter W.
Variable userInfoGetter : UserInfoGetter W.

Definition listSeedsOr500 : M W error (gmap string Seed) :=
  mapErr (fun err => utilerrors_New 500 ("failed to list seeds: " +:+ Error err)) seedsGetter.

(** [if !userInfo.IsAdmin { dcs, err = filterDCsByEmail(userInfo, dcs) }]. *)
Definition restrictedByEmail (userInfo : UserInfo) (dcs : list ApiDatacenter) : M W error (list ApiDatacenter) :=
  if ui_IsAdmin userInfo then mret dcs else
  mapErr (fun err => utilerrors_New 500 ("failed to filter datacenters by email: " +:+ Error err))
    (lift (filterDCsByEmail userInfo dcs)).

Definition dc_ListEndpoint (ctx : Ctx) : M W error (list ApiDatacenter) :=
  seeds ← listSeedsOr500;
  userInfo ← httpErr (userInfoGetter ctx "");
  dcs ← lift (getAPIDCsFromSeedMap seeds);
  dcs ← restrictedByEmail userInfo dcs;
  mret (sortByName dcs).

Definition ListEndpointForProvider (ctx : Ctx) (provider : string) : M W error (list ApiDatacenter) :=
  seeds ← listSeedsOr500;
  userInfo ← httpErr (userInfoGetter ctx "");
  dcs ← lift (getAPIDCsFromSeedMap seeds);
  dcs ← restrictedByEmail userInfo (filterDCsByProvider provider dcs);
  mret (sortByName dcs).

Definition GetDatacenter (userInfo : UserInfo) (datacenterToGet : string) : M W error ApiDatacenter :=
  seeds ← listSeedsOr500;
  dcs ← lift (getAPIDCsFromSeedMap seeds);
  dcs ← restrictedByEmail userInfo dcs;
  lift (filterDCsByName dcs datacenterToGet).

Definition dc_GetEndpoint (ctx : Ctx) (dc : string) : M W error ApiDatacenter :=
  userInfo ← httpErr (userInfoGetter ctx "");
  GetDatacenter userInfo dc.

Definition GetEndpointForProvider (ctx : Ctx) (provider datacenter : string) : M W error ApiDatacenter :=
  seeds ← listSeedsOr500;
  userInfo ← httpErr (userInfoGetter ctx "");
  dcs ← lift (getAPIDCsFromSeedMap seeds);
  dcs ← restrictedByEmail userInfo (filterDCsByProvider provider dcs);
  lift (filterDCsByName dcs datacenter).

(** The datacenters of one seed that the user may see. *)
Definition datacentersOfSeed (ctx : Ctx) (seedName : string) : M W error (list ApiDatacenter) :=
  seeds ← listSeedsOr500;
  userInfo ← httpErr (userInfoGetter ctx "");
  match seeds !! seedName with
  | None => throw (utilerrors_NewNotFound "seed" seedName)
  | Some seed =>
      dcs ← lift (getAPIDCsFromSeed seed);
      restrictedByEmail userInfo dcs
  end.

Definition ListEndpointForSeed (ctx : Ctx) (seed : string) : M W error (list ApiDatacenter) :=
  dcs ← datacentersOfSeed ctx seed;
  mret (sortByName dcs).

Definition GetEndpointForSeed (ctx : Ctx) (seed dc : string) : M W error ApiDatacenter :=
  dcs ← datacentersOfSeed ctx seed;
  lift (filterDCsByName dcs dc).

(** ** The endpoints that change datacenters *)

Definition validateUser (ctx : Ctx) : M W error unit :=
  userInfo ← httpErr (userInfoGetter ctx "");
  throwIf (negb (ui_IsAdmin userInfo))
    (utilerrors_New 403 ("forbidden: " +:+ dquote +:+ ui_Email userInfo +:+ dquote +:+ " doesn't have admin rights")).

Record createDCReq := MkCreateDCReq {
  createdc_Seed : string;              (* path *)
  createdc_Name : string;              (* body *)
  createdc_Spec : ApiDatacenterSpec }.
Record updateDCReq := MkUpdateDCReq {
  updatedc_create : createDCReq;
  updatedc_DCToUpdate : string }.
Record patchDCReq := MkPatchDCReq {
  patchdc_Patch : string;
  patchdc_DCToPatch : string;
  patchdc_Seed : string }.
Record deleteDCReq := MkDeleteDCReq {
  deletedc_Seed : string;
  deletedc_DC : string }.

Definition createDCReq_validate (req : createDCReq) : result error unit :=
  _ ← validateProvider (createdc_Spec req);
  if negb (EqualFold (createdc_Seed req) (apidc_Seed (createdc_Spec req)))
  then Err (ENew ("path seed " +:+ quote (createdc_Seed req) +:+ " and request seed " +:+
                  quote (apidc_Seed (createdc_Spec req)) +:+ " not equal"))
  else Ok tt.

Definition validatedBody (req : createDCReq) : M W error unit :=
  mapErr (fun err => utilerrors_New 400 ("Validation error: " +:+ Error err)) (lift (createDCReq_validate req)).

(** [utilerrors.New(http.StatusBadRequest, "Bad request: ...")]. *)
Definition badRequest (m : string) : error := utilerrors_New 400 ("Bad request: " +:+ m).

(** [seed, ok := seeds[name]; if !ok { ... }]. *)
Definition seedOr400 (seeds : gmap string Seed) (name : string) : M W error Seed :=
  match seeds !! name with
  | None => throw (badRequest ("seed " +:+ quote name +:+ " does not exist"))
  | Some seed => mret seed
  end.

(** [masterClient.Update(ctx, seed)] with the datacenters that the handler left
    in the spec. *)
Definition updateDatacenters (what : string) (seed : Seed) (dcs : gmap string Datacenter) : M W error Seed :=
  mapErr (fun err => utilerrors_New 500 (what +:+ ": " +:+ Error err))
    (kupdate KSeed Privileged (seed_with_spec (seedspec_with_datacenters dcs (seed_Spec seed)) seed)).

Definition failedTo (verb : string) (seed : Seed) (dc : string) : string :=
  "failed to " +:+ verb +:+ " seed " +:+ quote (seed_Name seed) +:+ " datacenter " +:+ quote dc.

Definition dc_CreateEndpoint (ctx : Ctx) (req : createDCReq) : M W error ApiDatacenter :=
  let name := createdc_Name req in
  _ ← validatedBody req;
  _ ← validateUser ctx;
  seeds ← listSeedsOr500;
  seed ← seedOr400 seeds (apidc_Seed (createdc_Spec req));
  let dcs := seedspec_Datacenters (seed_Spec seed) in
  _ ← throwIf (bool_decide (is_Some (dcs !! name)))
        (badRequest ("datacenter " +:+ quote name +:+ " already exists"));
  _ ← updateDatacenters (failedTo "update" seed name) seed
        (<[name := convertExternalDCToInternal (createdc_Spec req)]> dcs);
  mret (MkApiDatacenter name (createdc_Spec req)).

(** The extra check if the name changed, and the removal of the old entry. *)
Definition renameDatacenter (old new : string) (dcs : gmap string Datacenter) : M W error (gmap string Datacenter) :=
  if EqualFold old new then mret dcs else
  _ ← throwIf (bool_decide (is_Some (dcs !! new)))
        (badRequest ("cannot change " +:+ quote old +:+ " datacenter name to " +:+ quote new +:+
                     " as it already exists"));
  mret (delete old dcs).

Definition dc_UpdateEndpoint (ctx : Ctx) (req : updateDCReq) : M W error ApiDatacenter :=
  let body := updatedc_create req in
  let old := updatedc_DCToUpdate req in
  _ ← validatedBody body;
  _ ← validateUser ctx;
  seeds ← listSeedsOr500;
  seed ← seedOr400 seeds (apidc_Seed (createdc_Spec body));
  let dcs := seedspec_Datacenters (seed_Spec seed) in
  _ ← throwIf (bool_decide (dcs !! old = None))
        (badRequest ("datacenter " +:+ quote old +:+ " does not exists"));
  dcs ← renameDatacenter old (createdc_Name body) dcs;
  _ ← updateDatacenters (failedTo "update" seed old) seed
        (<[createdc_Name body := convertExternalDCToInternal (createdc_Spec body)]> dcs);
  mret (MkApiDatacenter (createdc_Name body) (createdc_Spec body)).

(** The decoding of a patch into the struct [seedValidator]: the string at
    [spec.seed], empty if there is none. *)
Definition setSeed (seed : string) (f : chars * json) : option string :=
  if bool_decide (lowerChars f.1 = lit "seed") then
    match f.2 with JString s => Some (String.string_of_list_ascii s) | JNull => Some seed | _ => None end
  else Some seed.
Definition setSpec (seed : string) (f : chars * json) : option string :=
  if bool_decide (lowerChars f.1 = lit "spec") then
    match f.2 with
    | JObject fields => foldl (fun t f => t ← t; setSeed t f) (Some seed) fields
    | JNull => Some seed
    | _ => None
    end
  else Some seed.
Definition unmarshalSeedValidator (data : string) : result error string :=
  match v ← parseJson (lit data);
        match v with
        | JObject fields => foldl (fun t f => t ← t; setSpec t f) (Some "") fields
        | JNull => Some ""
        | _ => None
        end with
  | Some seed => Ok seed
  | None => Err (ENew "invalid JSON")
  end.

Definition patchDCReq_validate (req : patchDCReq) : result error unit :=
  match unmarshalSeedValidator (patchdc_Patch req) with
  | Err err => Err (utilerrors_New 400 ("failed to validate patch body seed: " +:+ Error err))
  | Panic => Panic
  | Ok seed =>
      if negb (is_empty seed) && negb (EqualFold seed (patchdc_Seed req))
      then Err (utilerrors_New 400 ("patched dc validation failed: path seed name " +:+ quote (patchdc_Seed req) +:+
             " has to be equal to patch seed name " +:+ quote seed))
      else Ok tt
  end.

(** [v, err := f(); if err != nil { return nil, utilerrors.New(code, "what: " + err) }]. *)
Definition orStatus {A} (code : Z) (what : string) (r : result error A) : M W error A :=
  mapErr (fun err => utilerrors_New code (what +:+ ": " +:+ Error err)) (lift r).

(** The datacenter as the patch leaves it. *)
Definition patchedDatacenter (currentDC : Datacenter) (req : patchDCReq) : M W error ApiDatacenter :=
  currentAPIDC ← orStatus 500 "failed to convert current dc"
    (convertInternalDCToExternal currentDC (patchdc_DCToPatch req) (patchdc_Seed req));
  currentDCJSON ← orStatus 500 "failed to marshal current dc" (marshalDatacenter currentAPIDC);
  patchedJSON ← orStatus 500 "failed to merge patch dc" (MergePatch currentDCJSON (patchdc_Patch req));
  orStatus 500 "failed to unmarshal patched dc" (unmarshalDatacenter patchedJSON).

Definition dc_PatchEndpoint (ctx : Ctx) (req : patchDCReq) : M W error ApiDatacenter :=
  let old := patchdc_DCToPatch req in
  _ ← lift (patchDCReq_validate req);
  _ ← validateUser ctx;
  seeds ← listSeedsOr500;
  seed ← seedOr400 seeds (patchdc_Seed req);
  let dcs := seedspec_Datacenters (seed_Spec seed) in
  match dcs !! old with
  | None => throw (badRequest ("datacenter " +:+ quote old +:+ " does not exists"))
  | Some currentDC =>
      patched ← patchedDatacenter currentDC req;
      _ ← orStatus 400 "patched dc validation failed" (validateProvider (apidc_Spec patched));
      let kubermaticPatched := convertExternalDCToInternal (apidc_Spec patched) in
      providerName ← orStatus 500 "failed extracting provider name from dc"
        (DatacenterCloudProviderName (dc_Spec kubermaticPatched));
      let patched := MkApiDatacenter (apidc_Name patched) (apidc_with_provider providerName (apidc_Spec patched)) in
      dcs ← renameDatacenter old (apidc_Name patched) dcs;
      let dcName := if EqualFold old (apidc_Name patched) then old else apidc_Name patched in
      _ ← updateDatacenters (failedTo "update" seed old) seed (<[dcName := kubermaticPatched]> dcs);
      mret patched
  end.

Definition dc_DeleteEndpoint (ctx : Ctx) (req : deleteDCReq) : M W error unit :=
  _ ← validateUser ctx;
  seeds ← listSeedsOr500;
  seed ← seedOr400 seeds (deletedc_Seed req);
  let dcs := seedspec_Datacenters (seed_Spec seed) in
  _ ← throwIf (bool_decide (dcs !! deletedc_DC req = None))
        (badRequest ("datacenter " +:+ quote (deletedc_DC req) +:+ " does not exists"));
  _ ← updateDatacenters (failedTo "delete" seed (deletedc_DC req)) seed (delete (deletedc_DC req) dcs);
  mret tt.
End dc_handlers.
End datacenters.
