(* ===== verification/SeedAdmin.v ===== *)
(** Seeds for administrators: handler/v1/admin/seed.go and backupdestination.go,
    and what handler/v2/seedsettings shows of a seed. *)
From S2P Require Export Datacenters GoRegexp GoBase64.
From Stdlib Require Import Ascii.

(** ** api/v1/types.go, api/v2/types.go *)

Record ApiSeedSpec := MkApiSeedSpec {
  apiseed_Country : string;
  apiseed_Location : string;
  apiseed_Kubeconfig : ObjectReference;
  apiseed_SeedDatacenters : gmap string ApiDatacenter;
  apiseed_SeedDNSOverwrite : string;
  apiseed_ProxySettings : option ProxySettings;
  apiseed_ExposeStrategy : string;
  apiseed_MLA : option SeedMLASettings;
  apiseed_EtcdBackupRestore : option EtcdBackupRestore;
  apiseed_KubeLB : option KubeLBSeedSettings }.
Record ApiSeed := MkApiSeed {
  apiseed_Name : string;
  apiseed_Spec : ApiSeedSpec }.
Record CreateSeedProxySettings := MkCreateSeedProxySettings {
  createproxy_HTTPProxy : string;
  createproxy_NoProxy : string }.
Record CreateSeedMLASettings := MkCreateSeedMLASettings { createmla_UserClusterMLAEnabled : bool }.
Record CreateSeedSpec := MkCreateSeedSpec {
  createseed_Country : string;
  createseed_Location : string;
  createseed_Kubeconfig : string;
  createseed_SeedDNSOverwrite : string;
  createseed_ProxySettings : option CreateSeedProxySettings;
  createseed_ExposeStrategy : string;
  createseed_MLA : option CreateSeedMLASettings;
  createseed_DefaultClusterTemplate : string }.

(** apiv2.SeedSettings *)
Record SeedSettings := MkSeedSettings {
  settings_UserClusterMLAEnabled : bool;
  settings_MeteringEnabled : bool;
  settings_StorageClassName : string;
  settings_StorageSize : string;
  settings_SeedDNSOverwrite : string;
  settings_KubeLB : option bool }.          (* EnableForAllDatacenters *)

(** Requests: the path and the body. *)
Record createSeedReq := MkCreateSeedReq {
  createseed_Name : string;
  createseed_Spec : CreateSeedSpec }.
Record updateSeedReq := MkUpdateSeedReq {
  updateseed_Name : string;                 (* path *)
  updateseed_BodyName : string;
  updateseed_Spec : SeedSpec;
  updateseed_RawKubeconfig : string }.

(** JSON of a seed spec; a patch may leave no object at all. *)
Class SeedCodec := {
  marshalSeedSpec : SeedSpec -> result error string;
  unmarshalSeedSpec : string -> result error (option SeedSpec) }.
Class SeedCodecLaws (C : SeedCodec) : Prop := {
  marshalSeedSpec_panic s : marshalSeedSpec s <> Panic;
  unmarshalSeedSpec_panic s : unmarshalSeedSpec s <> Panic }.

(** ** Names of resources *)

Definition is_char (x : ascii) : ascii -> bool := fun c => bool_decide (c = x).
Definition in_class (lo hi : ascii) (c : ascii) : bool :=
  (nat_of_ascii lo <=? nat_of_ascii c) && (nat_of_ascii c <=? nat_of_ascii hi).
(** [[a-z0-9]], [[-a-z0-9]] and the dot, which matches any character but a
    line break. *)
Definition lowerAlnum (c : ascii) : bool := in_class "a" "z" c || in_class "0" "9" c.
Definition lowerAlnumDash (c : ascii) : bool := is_char "-" c || lowerAlnum c.
Definition anyChar (c : ascii) : bool := negb (nat_of_ascii c =? 10).

(** [[a-z0-9]([-a-z0-9]*[a-z0-9])?] *)
Definition nameLabel : regexp :=
  RSeq (RChar lowerAlnum) (ROpt (RSeq (RStar (RChar lowerAlnumDash)) (RChar lowerAlnum))).
(** The source is a raw string: its two backslashes match a backslash. *)
Definition resourceNameValidator : regexp :=
  RSeq nameLabel (RStar (RSeq (RChar (is_char "\")) (RSeq (RChar anyChar) nameLabel))).

Section seed_admin.
Context {W : Type} {EL : ErrorLib} {P : SDK} {D : DatacenterSDK} {R : MapRange} {C : SeedCodec}
        {API : KubeAPI W} {SEEDS : SeedProvider W}.
Variable seedsGetter : SeedsGetter W.
Variable userInfoGetter : UserInfoGetter W.

(** ** Conversions *)

(** The loop over the datacenters is that of [getAPIDCsFromSeed]. *)
Definition convertSeedSpec (seedSpec : SeedSpec) (seedName : string) : result error ApiSeedSpec :=
  dcs ← externalDCs seedName (map_range (seedspec_Datacenters seedSpec));
  Ok {|
    apiseed_Country := seedspec_Country seedSpec;
    apiseed_Location := seedspec_Location seedSpec;
    apiseed_Kubeconfig := seedspec_Kubeconfig seedSpec;
    apiseed_SeedDNSOverwrite := seedspec_SeedDNSOverwrite seedSpec;
    apiseed_ProxySettings := seedspec_ProxySettings seedSpec;
    apiseed_ExposeStrategy := seedspec_ExposeStrategy seedSpec;
    apiseed_MLA := seedspec_MLA seedSpec;
    apiseed_EtcdBackupRestore := seedspec_EtcdBackupRestore seedSpec;
    apiseed_KubeLB := seedspec_KubeLB seedSpec;
    apiseed_SeedDatacenters := foldl (fun m dc => <[apidc_Name dc := dc]> m) ∅ dcs |}.

Definition apiSeed (name : string) (seedSpec : SeedSpec) : M W error ApiSeed :=
  spec ← lift (convertSeedSpec seedSpec name);
  mret (MkApiSeed name spec).

(** [if v != "" { NewProxyValue(v) }] *)
Definition proxyValue (v : string) : option string := if is_empty v then None else Some v.

Definition genSeedFromRequest (req : createSeedReq) : Seed :=
  let spec := createseed_Spec req in
  {| seed_meta := meta_with_namespace KubermaticNamespace (metaNamed (createseed_Name req));
     seed_Spec := {|
       seedspec_Country := createseed_Country spec;
       seedspec_Location := createseed_Location spec;
       seedspec_Kubeconfig := noReference;
       seedspec_Datacenters := ∅;
       seedspec_SeedDNSOverwrite := createseed_SeedDNSOverwrite spec;
       seedspec_ProxySettings :=
         (fun p => MkProxySettings (proxyValue (createproxy_HTTPProxy p)) (proxyValue (createproxy_NoProxy p)))
           <$> createseed_ProxySettings spec;
       seedspec_ExposeStrategy := createseed_ExposeStrategy spec;
       seedspec_MLA := (fun m => MkSeedMLASettings (createmla_UserClusterMLAEnabled m)) <$> createseed_MLA spec;
       seedspec_DefaultClusterTemplate := createseed_DefaultClusterTemplate spec;
       seedspec_EtcdBackupRestore := None;
       seedspec_KubeLB := None;
       seedspec_Metering := None |};
     seed_Phase := "" |}.

(** ** The endpoints *)

(** [userInfo, err := ...; if !userInfo.IsAdmin { forbidden }]. *)
Definition adminUser (ctx : Ctx) : M W error unit :=
  userInfo ← httpErr (userInfoGetter ctx "");
  throwIf (negb (ui_IsAdmin userInfo))
    (utilerrors_New 403 ("forbidden: " +:+ dquote +:+ ui_Email userInfo +:+ dquote +:+ " doesn't have admin rights")).

Definition getSeed (ctx : Ctx) (name : string) : M W error Seed :=
  _ ← adminUser ctx;
  seedMap ← httpErr seedsGetter;
  match seedMap !! name with
  | None => throw (utilerrors_NewNotFound "Seed" name)
  | Some seed => mret seed
  end.

(** [config, err := base64.StdEncoding.DecodeString(s)]. *)
Definition decodeKubeconfig (s : string) : M W error string :=
  match b64_DecodeString s with
  | Some config => mret config
  | None => throw (utilerrors_NewBadRequest "illegal base64 data")
  end.

Definition createSeedReq_Validate (r : createSeedReq) : M W error unit :=
  _ ← throwIf (is_empty (createseed_Name r)) (ENew "the seed name cannot be empty");
  _ ← throwIf (is_empty (createseed_Kubeconfig (createseed_Spec r))) (ENew "the kubeconfig cannot be empty");
  seedMap ← httpErr seedsGetter;
  throwIf (bool_decide (is_Some (seedMap !! createseed_Name r)))
    (ENew ("seed with the name " +:+ createseed_Name r +:+ " already exists")).

Definition badRequestError (err : error) : error := utilerrors_NewBadRequest (Error err).

Definition CreateSeedEndpoint (ctx : Ctx) (req : createSeedReq) : M W error ApiSeed :=
  _ ← adminUser ctx;
  _ ← mapErr badRequestError (createSeedReq_Validate req);
  let newSeed := genSeedFromRequest req in
  config ← decodeKubeconfig (createseed_Kubeconfig (createseed_Spec req));
  newSeed ← httpErr (seeds_CreateOrUpdateKubeconfigSecretForSeed newSeed config);
  seed ← httpErr (seeds_CreateUnsecured newSeed);
  apiSeed (createseed_Name req) (seed_Spec seed).

Definition ListSeedEndpoint (ctx : Ctx) : M W error (list ApiSeed) :=
  _ ← adminUser ctx;
  seedMap ← httpErr seedsGetter;
  lift (collect (fun kv => spec ← convertSeedSpec (seed_Spec kv.2) kv.1; Ok (MkApiSeed kv.1 spec)) (map_range seedMap)).

Definition GetSeedEndpoint (ctx : Ctx) (name : string) : M W error ApiSeed :=
  seed ← getSeed ctx name;
  apiSeed name (seed_Spec seed).

Definition invalidName (what : string) : error :=
  ENew (what +:+ " name is invalid, must match ^[a-z0-9]([-a-z0-9]*[a-z0-9])?(\\.[a-z0-9]([-a-z0-9]*[a-z0-9])?)*$").

(** A name that is given must match. *)
Definition badName (name : string) : bool := negb (is_empty name) && negb (MatchString resourceNameValidator name).

Definition updateSeedReq_Validate (r : updateSeedReq) : result error unit :=
  if negb (bool_decide (updateseed_Name r = updateseed_BodyName r)) then
    Err (ENew ("seed name mismatch, you requested to update Seed " +:+ quote (updateseed_Name r) +:+
               " but body contains Seed " +:+ quote (updateseed_BodyName r)))
  else
  match seedspec_EtcdBackupRestore (updateseed_Spec r) with
  | None => Ok tt
  | Some etcd =>
      if badName (etcd_DefaultDestination etcd) then Err (invalidName "default destination")
      else if existsb (fun kv => badName kv.1) (map_range (etcd_Destinations etcd)) then Err (invalidName "destination")
      else Ok tt
  end.

(** The fields of the body cannot say that the default destination is to be
    cleared: that is done in the stored spec, before the patch. *)
Definition clearDestination (body stored : SeedSpec) : result error SeedSpec :=
  match seedspec_EtcdBackupRestore body with
  | Some etcd =>
      if is_empty (etcd_DefaultDestination etcd) then
        match seedspec_EtcdBackupRestore stored with
        | None => Panic                      (* a nil pointer *)
        | Some etcd => Ok (seedspec_with_etcd (Some (MkEtcdBackupRestore (etcd_Destinations etcd) "")) stored)
        end
      else Ok stored
  | None => Ok stored
  end.

(** The stored spec, as JSON, merged with the one of the body. *)
Definition patchedSeedSpec (stored body : SeedSpec) : M W error SeedSpec :=
  originalJSON ← orStatus 500 "failed to convert current seed to JSON" (marshalSeedSpec stored);
  newJSON ← orStatus 400 "failed to convert patch seed to JSON" (marshalSeedSpec body);
  patchedJSON ← orStatus 400 "failed to merge patch" (MergePatch originalJSON newJSON);
  seedSpec ← orStatus 500 "failed unmarshall patched seed" (unmarshalSeedSpec patchedJSON);
  match seedSpec with Some seedSpec => mret seedSpec | None => panic end.

Definition UpdateSeedEndpoint (ctx : Ctx) (req : updateSeedReq) : M W error ApiSeed :=
  _ ← mapErr badRequestError (lift (updateSeedReq_Validate req));
  seed ← getSeed ctx (updateseed_Name req);
  seed ← (if is_empty (updateseed_RawKubeconfig req) then mret seed else
            config ← decodeKubeconfig (updateseed_RawKubeconfig req);
            httpErr (seeds_CreateOrUpdateKubeconfigSecretForSeed seed config));
  stored ← lift (clearDestination (updateseed_Spec req) (seed_Spec seed));
  seedSpec ← patchedSeedSpec stored (updateseed_Spec req);
  updatedSeed ← httpErr (seeds_UpdateUnsecured (seed_with_spec seedSpec seed));
  apiSeed (updateseed_Name req) (seed_Spec updatedSeed).

Definition DeleteSeedEndpoint (ctx : Ctx) (name : string) : M W error unit :=
  seed ← getSeed ctx name;
  mapErr (EWrap "failed to delete seed: ") (kdelete KSeed Privileged (key_of KSeed seed)).

Definition noDestination (destination name : string) : error :=
  utilerrors_New 404 ("backup destination " +:+ quote destination +:+ " does not exist for seed " +:+ quote name).

Definition DeleteBackupDestinationEndpoint (ctx : Ctx) (name destination : string) : M W error unit :=
  seed ← getSeed ctx name;
  match seedspec_EtcdBackupRestore (seed_Spec seed) with
  | None => throw (noDestination destination name)
  | Some etcd =>
      _ ← throwIf (bool_decide (etcd_Destinations etcd !! destination = None)) (noDestination destination name);
      let etcd' := MkEtcdBackupRestore (delete destination (etcd_Destinations etcd)) (etcd_DefaultDestination etcd) in
      _ ← mapErr (EWrap "failed to update seed: ")
            (kupdate KSeed Privileged (seed_with_spec (seedspec_with_etcd (Some etcd') (seed_Spec seed)) seed));
      mret tt
  end.

(** ** handler/v2/seedsettings *)

Definition convertSeedToSeedSettings (seed : Seed) : SeedSettings :=
  let spec := seed_Spec seed in
  {| settings_UserClusterMLAEnabled := from_option mla_UserClusterMLAEnabled false (seedspec_MLA spec);
     settings_MeteringEnabled := from_option metering_Enabled false (seedspec_Metering spec);
     settings_StorageClassName := from_option metering_StorageClassName "" (seedspec_Metering spec);
     settings_StorageSize := from_option metering_StorageSize "" (seedspec_Metering spec);
     settings_SeedDNSOverwrite := seedspec_SeedDNSOverwrite spec;
     settings_KubeLB := kubelb_EnableForAllDatacenters <$> seedspec_KubeLB spec |}.

Definition GetSeedSettingsEndpoint (name : string) : M W error SeedSettings :=
  seedMap ← httpErr seedsGetter;
  match seedMap !! name with
  | None => throw (utilerrors_NewNotFound "Seed" name)
  | Some seed => mret (convertSeedToSeedSettings seed)
  end.
End seed_admin.

(** The expression was meant for names with dots: it refuses them, and takes
    names with a backslash. *)
Example names_of_destinations :
  MatchString resourceNameValidator <$> ["minio"; "s3-eu-1"; "s3.eu"; "s3\.eu"; "s3\xeu"; "-s3"]
  = [true; true; false; true; true; false].
Proof. vm_compute. reflexivity. Qed.
