(* ===== verification/Routing.v ===== *)
(** The routing of the API: handler/routing.go, handler/handler.go, the
    middlewares of handler/middleware/middleware.go that put the providers of a
    seed into the context, and the chains of middlewares that the routes declare.
    The router (gorilla/mux) is a class with its documented behaviour. *)
From S2P Require Export Seeds.
From Stdlib Require Import Ascii.

(** ** Routes *)

Inductive Method := MGet | MPost | MPut | MPatch | MDelete | MOther (name : string).
#[export] Instance Method_eq_dec : EqDecision Method.
Proof. solve_decision. Defined.

(** The middlewares of package middleware that the routes use. *)
Inductive mw :=
| mTokenVerifier | mUserSaver | mUserInfoUnauthorized
| mSetClusterProvider | mSetPrivilegedClusterProvider
| mAddons | mPrivilegedAddons | mConstraints | mPrivilegedConstraints
| mAlertmanagers | mPrivilegedAlertmanagers | mRuleGroups | mPrivilegedRuleGroups
| mEtcdBackupConfig | mPrivilegedEtcdBackupConfig | mEtcdRestore | mPrivilegedEtcdRestore
| mEtcdBackupConfigProject | mPrivilegedEtcdBackupConfigProject
| mEtcdRestoreProject | mPrivilegedEtcdRestoreProject
| mBackupCredentials | mPrivilegedMLAAdminSetting | mPrivilegedIPAMPool
| mPrivilegedOperatingSystemProfile | mOIDCProviders.
#[export] Instance mw_eq_dec : EqDecision mw.
Proof. solve_decision. Defined.

(** The encoders of the responses; those of a package are named. *)
Inductive Encoder := EncodeJSON | SetStatusCreatedHeader (e : Encoder) | EncoderNamed (name : string).
Inductive ServerErrorEncoder := DefaultErrorEncoder | OIDCCallbackErrorEncoder.

(** [httptransport.NewServer(endpoint.Chain(ms...)(e), dec, enc, options...)]:
    the endpoint and its decoder by the names of their functions; the arguments
    of the endpoint are the providers of the Routing. *)
Record Server := MkServer {
  srv_chain : list mw;
  srv_endpoint : string;
  srv_dec : string;
  srv_enc : Encoder;
  srv_errors : ServerErrorEncoder }.

(** A route is served by a server, by a function of package http, or by a
    handler that installs itself. *)
Inductive RouteHandler :=
| Handler (s : Server)
| HandlerFunc (name : string).

(** [mux.Methods(m).Path(p).Queries(q...).Handler(h)], or [PathPrefix(p)]; no
    method is every method. *)
Record Route := MkRoute {
  route_method : option Method;
  route_path : string;
  route_prefix : bool;
  route_queries : list string;
  route_handler : RouteHandler }.

Definition handle (m : Method) (path : string) (s : Server) : Route :=
  MkRoute (Some m) path false [] (Handler s).

(** ** The path templates of the router *)

Inductive Segment := Lit (s : string) | Var (name : string).
#[export] Instance Segment_eq_dec : EqDecision Segment.
Proof. solve_decision. Defined.

(** The name in a segment between braces. *)
Fixpoint before_brace (s : string) : option string :=
  match s with
  | EmptyString => None
  | String "}"%char EmptyString => Some ""
  | String c s' => String c <$> before_brace s'
  end.
Definition braced (s : string) : option string :=
  match s with String "{"%char s' => before_brace s' | _ => None end.
Definition segment (s : string) : Segment :=
  match braced s with Some name => Var name | None => Lit s end.
Definition template (path : string) : list Segment := segment <$> Split path "/".

(** A variable takes a whole segment that is not empty. *)
Definition segment_matches (t : Segment) (s : string) : bool :=
  match t with Lit l => bool_decide (l = s) | Var _ => negb (is_empty s) end.
(** A path matches with all its segments, or, for a prefix, with its beginning,
    which may end inside of a segment. *)
Fixpoint matches_segments (prefix : bool) (ts : list Segment) (ss : list string) : bool :=
  match ts, ss with
  | [], [] => true
  | [t], s :: ss =>
      if prefix then match t with Lit l => HasPrefix s l | Var _ => negb (is_empty s) end
      else segment_matches t s && bool_decide (ss = [])
  | t :: ts, s :: ss => segment_matches t s && matches_segments prefix ts ss
  | _, _ => false
  end.

(** A request for the router: method, path and the names of its query. *)
Record RouterRequest := MkRouterRequest {
  rr_method : Method;
  rr_path : string;
  rr_query : list string }.

Definition route_matches (r : Route) (req : RouterRequest) : bool :=
  match route_method r with None => true | Some m => bool_decide (m = rr_method req) end &&
  matches_segments (route_prefix r) (template (route_path r)) (Split (rr_path req) "/") &&
  forallb (fun q => bool_decide (q ∈ rr_query req)) (route_queries r).

(** github.com/gorilla/mux: "Routes are tested in the order they were added to
    the router. If two routes match, the first one wins". *)
Class Mux := { mux_Match : list Route -> RouterRequest -> option Route }.
Class MuxLaws (L : Mux) : Prop := {
  mux_Match_some routes req r : mux_Match routes req = Some r ->
    exists before after, routes = before ++ r :: after /\ route_matches r req = true /\
      forall r', r' ∈ before -> route_matches r' req = false;
  mux_Match_none routes req : mux_Match routes req = None ->
    forall r, r ∈ routes -> route_matches r req = false }.

(** ** handler/handler.go *)

(** ErrorResponse *)
Record ErrorDetails := MkErrorDetails {
  ed_Code : Z;
  ed_Message : string;
  ed_Additional : list string }.

Section routing.
Context {W Req Resp Prov : Type} {EL : ErrorLib} {API : KubeAPI W}
        {USERS : UserProvider W} {MAPPER : ProjectMemberMapper W}.

(** ** The middlewares that put a provider into the context

    The values under the keys of the providers travel next to the request, the
    other values of the context in [Ctx]; of one provider type [Prov]. *)
Record Routed := MkRouted {
  rq_request : Req;
  rq_values : gmap string Prov;
  rq_seed : option Seed }.

Definition WithValue (key : string) (p : Prov) (r : Routed) : Routed :=
  MkRouted (rq_request r) (<[ key := p ]> (rq_values r)) (rq_seed r).

(** The fields of Routing that the middlewares use. *)
Record Routing := MkRouting {
  tokenVerifiers : TokenVerifierFn W;
  tokenExtractors : TokenExtractorFn;
  seedsGetter : SeedsGetter W;
  clusterProviderGetter : GetterOf W Prov;
  addonProviderGetter : GetterOf W Prov;
  constraintProviderGetter : GetterOf W Prov;
  alertmanagerProviderGetter : GetterOf W Prov;
  ruleGroupProviderGetter : GetterOf W Prov;
  etcdBackupConfigProviderGetter : GetterOf W Prov;
  etcdRestoreProviderGetter : GetterOf W Prov;
  etcdBackupConfigProjectProviderGetter : gmap string Seed -> M W error Prov;
  etcdRestoreProjectProviderGetter : gmap string Seed -> M W error Prov;
  backupCredentialsProviderGetter : GetterOf W Prov;
  privilegedMLAAdminSettingProviderGetter : GetterOf W Prov;
  privilegedIPAMPoolProviderGetter : GetterOf W Prov;
  privilegedOperatingSystemProfileProviderGetter : GetterOf W Prov;
  oidcIssuerVerifierGetter : GetterOf W Prov }.

Variable r : Routing.
Variable SeedInvalidPhase : string.
Variable order : gmap string Seed -> list Seed.
Variable IsCluster : Prov -> string -> M W error bool.
(** [p.(provider.I)] holds: the provider has the methods of the interface. *)
Variable implements : string -> Prov -> bool.
(** What the request tells, if it implements the interfaces of the middlewares. *)
Variable GetSeedCluster : Req -> option SeedCluster.
Variables GetUserID GetProjectID : Req -> option string.

(** [p.(provider.I)] without a check panics. *)
Definition asserted (interface : string) (p : Prov) : M W error Prov :=
  if implements interface p then mret p else panic.

(** [request.(seedClusterGetter).GetSeedCluster()] *)
Definition seedClusterOf (req : Routed) : M W error SeedCluster :=
  match GetSeedCluster (rq_request req) with None => panic | Some sc => mret sc end.

Definition getClusterProvider (req : Routed) : M W error (Prov * option Seed) :=
  GetClusterProvider SeedInvalidPhase order (clusterProviderGetter r) IsCluster
    (GetSeedCluster (rq_request req)) (seedsGetter r).

Definition ClusterProviderContextKey : string := "cluster-provider".
Definition PrivilegedClusterProviderContextKey : string := "privileged-cluster-provider".
Definition AddonProviderContextKey : string := "addon-provider".
Definition PrivilegedAddonProviderContextKey : string := "privileged-addon-provider".
Definition ConstraintProviderContextKey : string := "constraint-provider".
Definition PrivilegedConstraintProviderContextKey : string := "privileged-constraint-provider".
Definition AlertmanagerProviderContextKey : string := "alertmanager-provider".
Definition PrivilegedAlertmanagerProviderContextKey : string := "privileged-alertmanager-provider".
Definition RuleGroupProviderContextKey : string := "rulegroup-provider".
Definition PrivilegedRuleGroupProviderContextKey : string := "privileged-rulegroup-provider".
Definition EtcdBackupConfigProviderContextKey : string := "etcdbackupconfig-provider".
Definition PrivilegedEtcdBackupConfigProviderContextKey : string := "privileged-etcdbackupconfig-provider".
Definition EtcdRestoreProviderContextKey : string := "etcdbrestore-provider".
Definition PrivilegedEtcdRestoreProviderContextKey : string := "privileged-etcdrestore-provider".
Definition EtcdBackupConfigProjectProviderContextKey : string := "etcdbackupconfig-project-provider".
Definition PrivilegedEtcdBackupConfigProjectProviderContextKey : string := "privileged-etcdbackupconfig-project-provider".
Definition EtcdRestoreProjectProviderContextKey : string := "etcdbrestore-project-provider".
Definition PrivilegedEtcdRestoreProjectProviderContextKey : string := "privileged-etcdrestore-project-provider".
Definition BackupCredentialsProviderContextKey : string := "backupcredentials-provider".
Definition PrivilegedMLAAdminSettingProviderContextKey : string := "privileged-mla-admin-setting-provider".
Definition PrivilegedIPAMPoolProviderContextKey : string := "privileged-ipampool-provider".
Definition PrivilegedOperatingSystemProfileProviderContextKey : string := "privileged-operatingsystemprofile-provider".
Definition OIDCIssuerVerifierContextKey : string := "oidc-issuer-verifier".

Abbreviation Endpoint := (Endpoint W Routed Resp).
Abbreviation Middleware := (Middleware W Routed Resp).

Definition SetClusterProvider : Middleware := fun next ctx request =>
  got ← getClusterProvider request;
  let request := MkRouted (rq_request request) (rq_values request)
                   (match got.2 with None => rq_seed request | seed => seed end) in
  next ctx (WithValue ClusterProviderContextKey got.1 request).

Definition SetPrivilegedClusterProvider : Middleware := fun next ctx request =>
  got ← getClusterProvider request;
  privilegedClusterProvider ← asserted "PrivilegedClusterProvider" got.1;
  let request := MkRouted (rq_request request) (rq_values request)
                   (match got.2 with None => rq_seed request | seed => seed end) in
  next ctx (WithValue PrivilegedClusterProviderContextKey privilegedClusterProvider
              (WithValue ClusterProviderContextKey got.1 request)).

(** The body of the others: the seed cluster of the request, the provider that
    [get] finds for it, and the provider's place in the context. *)
Definition injects (get : string -> string -> M W error Prov) (key : string) : Middleware :=
  fun next ctx request =>
  seedCluster ← seedClusterOf request;
  p ← get (sc_SeedName seedCluster) (sc_ClusterID seedCluster);
  next ctx (WithValue key p request).

(** The same with the provider asserted to be one of the privileged interface. *)
Definition privileged (interface : string) (get : string -> string -> M W error Prov)
    (seedName clusterID : string) : M W error Prov :=
  p ← get seedName clusterID;
  asserted interface p.

(** A getter for the seed of a name or a cluster. *)
Definition getOf (getter : (Prov -> string -> M W error bool) -> GetterOf W Prov -> SeedsGetter W ->
      string -> string -> M W error Prov) (get : GetterOf W Prov) : string -> string -> M W error Prov :=
  getter IsCluster get (seedsGetter r).

Definition getAddons : string -> string -> M W error Prov :=
  getOf (getAddonProvider SeedInvalidPhase order (clusterProviderGetter r)) (addonProviderGetter r).
Definition Addons : Middleware := injects getAddons AddonProviderContextKey.
Definition PrivilegedAddons : Middleware :=
  injects (privileged "PrivilegedAddonProvider" getAddons) PrivilegedAddonProviderContextKey.

Definition getConstraints : string -> string -> M W error Prov :=
  getOf (getConstraintProvider SeedInvalidPhase order (clusterProviderGetter r)) (constraintProviderGetter r).
Definition Constraints : Middleware := injects getConstraints ConstraintProviderContextKey.
Definition PrivilegedConstraints : Middleware :=
  injects (privileged "PrivilegedConstraintProvider" getConstraints) PrivilegedConstraintProviderContextKey.

Definition getAlertmanagers : string -> string -> M W error Prov :=
  getOf (getAlertmanagerProvider SeedInvalidPhase order (clusterProviderGetter r)) (alertmanagerProviderGetter r).
Definition Alertmanagers : Middleware := injects getAlertmanagers AlertmanagerProviderContextKey.
Definition PrivilegedAlertmanagers : Middleware :=
  injects (privileged "PrivilegedAlertmanagerProvider" getAlertmanagers) PrivilegedAlertmanagerProviderContextKey.

Definition getRuleGroups : string -> string -> M W error Prov :=
  getOf (getRuleGroupProvider SeedInvalidPhase order (clusterProviderGetter r)) (ruleGroupProviderGetter r).
Definition RuleGroups : Middleware := injects getRuleGroups RuleGroupProviderContextKey.
Definition PrivilegedRuleGroups : Middleware :=
  injects (privileged "PrivilegedRuleGroupProvider" getRuleGroups) PrivilegedRuleGroupProviderContextKey.

Definition getEtcdBackupConfigs : string -> string -> M W error Prov :=
  getOf (getEtcdBackupConfigProvider SeedInvalidPhase order (clusterProviderGetter r))
    (etcdBackupConfigProviderGetter r).
Definition EtcdBackupConfig : Middleware := injects getEtcdBackupConfigs EtcdBackupConfigProviderContextKey.
Definition PrivilegedEtcdBackupConfig : Middleware :=
  injects (privileged "PrivilegedEtcdBackupConfigProvider" getEtcdBackupConfigs)
    PrivilegedEtcdBackupConfigProviderContextKey.

Definition getEtcdRestores : string -> string -> M W error Prov :=
  getOf (getEtcdRestoreProvider SeedInvalidPhase order (clusterProviderGetter r)) (etcdRestoreProviderGetter r).
Definition EtcdRestore : Middleware := injects getEtcdRestores EtcdRestoreProviderContextKey.
Definition PrivilegedEtcdRestore : Middleware :=
  injects (privileged "PrivilegedEtcdRestoreProvider" getEtcdRestores) PrivilegedEtcdRestoreProviderContextKey.

(** The providers of all seeds. *)
Definition injectsProject (get : M W error Prov) (key : string) : Middleware := fun next ctx request =>
  p ← get;
  next ctx (WithValue key p request).
Definition getEtcdBackupConfigProjectProvider : M W error Prov :=
  seeds ← seedsGetter r; etcdBackupConfigProjectProviderGetter r seeds.
Definition EtcdBackupConfigProject : Middleware :=
  injectsProject getEtcdBackupConfigProjectProvider EtcdBackupConfigProjectProviderContextKey.
Definition PrivilegedEtcdBackupConfigProject : Middleware :=
  injectsProject (p ← getEtcdBackupConfigProjectProvider;
                  asserted "PrivilegedEtcdBackupConfigProjectProvider" p)
    PrivilegedEtcdBackupConfigProjectProviderContextKey.
Definition getEtcdRestoreProjectProvider : M W error Prov :=
  seeds ← seedsGetter r; etcdRestoreProjectProviderGetter r seeds.
Definition EtcdRestoreProject : Middleware :=
  injectsProject getEtcdRestoreProjectProvider EtcdRestoreProjectProviderContextKey.
Definition PrivilegedEtcdRestoreProject : Middleware :=
  injectsProject (p ← getEtcdRestoreProjectProvider;
                  asserted "PrivilegedEtcdRestoreProjectProvider" p)
    PrivilegedEtcdRestoreProjectProviderContextKey.

(** The providers of the seed that the request names. *)
Definition getBySeedName (get : GetterOf W Prov) (seedName clusterID : string) : M W error Prov :=
  providerBySeedName get (seedsGetter r) (MkSeedCluster seedName clusterID).
Definition BackupCredentials : Middleware :=
  injects (getBySeedName (backupCredentialsProviderGetter r)) BackupCredentialsProviderContextKey.
Definition PrivilegedIPAMPool : Middleware :=
  injects (getBySeedName (privilegedIPAMPoolProviderGetter r)) PrivilegedIPAMPoolProviderContextKey.

Definition PrivilegedMLAAdminSetting : Middleware :=
  injects (getOf (getPrivilegedMLAAdminSettingProvider SeedInvalidPhase order (clusterProviderGetter r))
             (privilegedMLAAdminSettingProviderGetter r)) PrivilegedMLAAdminSettingProviderContextKey.
Definition PrivilegedOperatingSystemProfile : Middleware :=
  injects (getOf (getPrivilegedOperatingSystemProfileProvider SeedInvalidPhase order (clusterProviderGetter r))
             (privilegedOperatingSystemProfileProviderGetter r)) PrivilegedOperatingSystemProfileProviderContextKey.

Definition OIDCProviders : Middleware :=
  injects (fun _ clusterID => GetOIDCIssuerVerifier SeedInvalidPhase order (clusterProviderGetter r) IsCluster
             (oidcIssuerVerifierGetter r) (seedsGetter r) clusterID) OIDCIssuerVerifierContextKey.

Definition middleware_of (m : mw) : Middleware :=
  match m with
  | mTokenVerifier => TokenVerifier (tokenVerifiers r)
  | mUserSaver => UserSaver
  | mUserInfoUnauthorized => UserInfoUnauthorized (GetUserID ∘ rq_request) (GetProjectID ∘ rq_request)
  | mSetClusterProvider => SetClusterProvider
  | mSetPrivilegedClusterProvider => SetPrivilegedClusterProvider
  | mAddons => Addons
  | mPrivilegedAddons => PrivilegedAddons
  | mConstraints => Constraints
  | mPrivilegedConstraints => PrivilegedConstraints
  | mAlertmanagers => Alertmanagers
  | mPrivilegedAlertmanagers => PrivilegedAlertmanagers
  | mRuleGroups => RuleGroups
  | mPrivilegedRuleGroups => PrivilegedRuleGroups
  | mEtcdBackupConfig => EtcdBackupConfig
  | mPrivilegedEtcdBackupConfig => PrivilegedEtcdBackupConfig
  | mEtcdRestore => EtcdRestore
  | mPrivilegedEtcdRestore => PrivilegedEtcdRestore
  | mEtcdBackupConfigProject => EtcdBackupConfigProject
  | mPrivilegedEtcdBackupConfigProject => PrivilegedEtcdBackupConfigProject
  | mEtcdRestoreProject => EtcdRestoreProject
  | mPrivilegedEtcdRestoreProject => PrivilegedEtcdRestoreProject
  | mBackupCredentials => BackupCredentials
  | mPrivilegedMLAAdminSetting => PrivilegedMLAAdminSetting
  | mPrivilegedIPAMPool => PrivilegedIPAMPool
  | mPrivilegedOperatingSystemProfile => PrivilegedOperatingSystemProfile
  | mOIDCProviders => OIDCProviders
  end.

(** endpoint.Chain: "Requests will traverse them in the order they're declared". *)
Fixpoint Chain (ms : list mw) (e : Endpoint) : Endpoint :=
  match ms with
  | [] => e
  | m :: ms => middleware_of m (Chain ms e)
  end.

(** What the decoders make of a request; the functions of the endpoints and of
    the handlers that install themselves. *)
Variable decode : string -> RouterRequest -> Request -> result error Req.
Variable functions : string -> RouterRequest -> Request -> M W error Resp.

(** A request to a server: the functions before it (defaultServerOptions), the
    decoder, the endpoint. *)
Definition serve (endpoints : string -> Endpoint) (s : Server) (req : RouterRequest) (http : Request)
    : M W error Resp :=
  ctx ← lift (TokenExtractor (tokenExtractors r) emptyCtx http);
  request ← lift (decode (srv_dec s) req http);
  Chain (srv_chain s) (endpoints (srv_endpoint s)) ctx (MkRouted request ∅ None).

(** A request to the router; no route is a page of its own. *)
Definition ServeHTTP {MUX : Mux} (routes : list Route) (endpoints : string -> Endpoint)
    (req : RouterRequest) (http : Request) : M W error (option Resp) :=
  match mux_Match routes req with
  | None => mret None
  | Some route =>
      response ← (match route_handler route with
                  | Handler s => serve endpoints s req http
                  | HandlerFunc name => functions name req http
                  end);
      mret (Some response)
  end.
End routing.

(** ** Errors *)

Section error_encoder.
Context {EL : ErrorLib}.

Fixpoint AsHTTPError (err : error) : option HTTPErr :=
  match err with
  | EHTTP h => Some h
  | EWrap _ e => AsHTTPError e
  | _ => None
  end.

(** The body of the response; its code is also the status. *)
Definition ErrorEncoder (err : error) : ErrorDetails :=
  match AsHTTPError err with
  | Some httpErr => MkErrorDetails (http_Code httpErr) (Error (EHTTP httpErr)) (http_Details httpErr)
  | None => MkErrorDetails 500 (Error err) []
  end.

(** The status is the one that the other encoder, WriteHTTPError, computes. *)
Lemma ErrorEncoder_status err : ed_Code (ErrorEncoder err) = http_status err.
Proof. unfold ErrorEncoder. induction err; cbn; try done. by destruct (AsHTTPError err). Qed.
End error_encoder.

(** ** The router *)

Section router.
Context {MUX : Mux} {ML : MuxLaws MUX}.

Lemma mux_Match_elem routes req route :
  mux_Match routes req = Some route -> route ∈ routes /\ route_matches route req = true.
Proof. intros (l & k & -> & H & _)%mux_Match_some. split; [set_solver|done]. Qed.

Lemma mux_Match_first routes req route :
  route ∈ routes -> route_matches route req = true ->
  exists route', mux_Match routes req = Some route' /\ route_matches route' req = true.
Proof.
  intros Hin Hm. destruct (mux_Match routes req) as [route'|] eqn:E.
  - exists route'. by apply mux_Match_elem in E as [_ ?].
  - by rewrite (mux_Match_none _ _ E _ Hin) in Hm.
Qed.

(** The router finds the first route that matches. *)
Lemma mux_Match_find routes req : mux_Match routes req = List.find (fun route => route_matches route req) routes.
Proof.
  destruct (mux_Match routes req) as [route|] eqn:E.
  - apply mux_Match_some in E as (l & k & -> & Hm & Hl). induction l as [|x l IH]; cbn; [by rewrite Hm|].
    rewrite Hl by set_solver. apply IH. set_solver.
  - symmetry. pose proof (mux_Match_none _ _ E) as H. clear E. induction routes as [|x l IH]; [done|].
    cbn. rewrite H by set_solver. apply IH. set_solver.
Qed.
End router.

(** ** Routes that serve the same requests *)

Definition segments_overlap (a b : Segment) : bool :=
  match a, b with Lit x, Lit y => bool_decide (x = y) | _, _ => true end.
(** Two templates that a path can match both. *)
Fixpoint templates_overlap (p q : bool) (ts us : list Segment) : bool :=
  match ts, us with
  | [], [] => true
  | [], _ :: _ | _ :: _, [] => false
  | t :: ts', u :: us' =>
      if (p && bool_decide (ts' = [])) || (q && bool_decide (us' = [])) then true
      else if segments_overlap t u then templates_overlap p q ts' us' else false
  end.
Definition methods_overlap (m n : option Method) : bool :=
  match m, n with Some m, Some n => bool_decide (m = n) | _, _ => true end.
Definition routes_overlap (a b : Route) : bool :=
  if methods_overlap (route_method a) (route_method b)
  then templates_overlap (route_prefix a) (route_prefix b) (template (route_path a)) (template (route_path b))
  else false.

Lemma segments_overlap_matches a b s : segment_matches a s = true -> segment_matches b s = true -> segments_overlap a b = true.
Proof.
  destruct a, b; cbn; try done. intros Ha%bool_decide_eq_true Hb%bool_decide_eq_true.
  apply bool_decide_eq_true. congruence.
Qed.

Lemma matches_segments_cons p t ts s ss :
  matches_segments p (t :: ts) (s :: ss) = true ->
  (p = true /\ ts = []) \/ (segment_matches t s = true /\ matches_segments p ts ss = true).
Proof.
  cbn. destruct ts as [|t' ts]; [|intros [? ?]%andb_true_iff; by right].
  destruct p; [by left|]. intros [? ->%bool_decide_eq_true]%andb_true_iff. by right.
Qed.

Lemma matches_segments_nil p t ts : matches_segments p (t :: ts) [] = false.
Proof. by destruct ts. Qed.

Lemma templates_overlap_matches p q ts us ss :
  matches_segments p ts ss = true -> matches_segments q us ss = true -> templates_overlap p q ts us = true.
Proof.
  revert us ss. induction ts as [|t ts IH]; intros us ss Ht Hu.
  - destruct ss; [|done]. destruct us as [|u us]; [done|]. by rewrite matches_segments_nil in Hu.
  - destruct ss as [|s ss]; [by rewrite matches_segments_nil in Ht|].
    destruct us as [|u us]; [done|]. cbn [templates_overlap].
    destruct ((p && _) || _) eqn:Ep; [done|]. apply orb_false_iff in Ep as [Hp Hq].
    apply matches_segments_cons in Ht as [[-> ->]|[Ht Hts]]; [done|].
    apply matches_segments_cons in Hu as [[-> ->]|[Hu Hus]]; [done|].
    by rewrite (segments_overlap_matches _ _ _ Ht Hu), (IH _ _ Hts Hus).
Qed.

Lemma routes_overlap_matches a b req :
  route_matches a req = true -> route_matches b req = true -> routes_overlap a b = true.
Proof.
  unfold route_matches, routes_overlap.
  intros [[Hma Hta]%andb_true_iff _]%andb_true_iff [[Hmb Htb]%andb_true_iff _]%andb_true_iff.
  rewrite (templates_overlap_matches _ _ _ _ _ Hta Htb). destruct (methods_overlap _ _) eqn:E; [done|].
  unfold methods_overlap in E. destruct (route_method a), (route_method b); try done.
  apply bool_decide_eq_true in Hma, Hmb. apply bool_decide_eq_false in E. congruence.
Qed.

(** Every two routes of a list, the earlier one first, satisfy [ok]. *)
Fixpoint all_pairs {A} (ok : A -> A -> bool) (l : list A) : bool :=
  match l with
  | [] => true
  | a :: l => forallb (ok a) l && all_pairs ok l
  end.
Lemma all_pairs_split {A} (ok : A -> A -> bool) l1 a l2 b l3 :
  all_pairs ok (l1 ++ a :: l2 ++ b :: l3) = true -> ok a b = true.
Proof.
  induction l1 as [|x l1 IH]; cbn; intros [H1 H2]%andb_true_iff; [|by apply IH].
  rewrite forallb_forall in H1. apply H1. apply list_elem_of_In. set_solver.
Qed.

(** ** What a chain of middlewares lets through *)

Section chains.
Context {W Req Resp Prov : Type} {EL : ErrorLib} {ELL : ErrorLibLaws EL} {P : SDK} {API : KubeAPI W}
        {ST : Store W} {LAWS : KubeAPILaws W} {USERS : UserProvider W} {UL : UserProviderLaws W}
        {MAPPER : ProjectMemberMapper W} {ML : ProjectMemberMapperLaws W}.
Implicit Types w : W.
Variable r : Routing (W := W) (Prov := Prov).
Variable SeedInvalidPhase : string.
Variable order : gmap string Seed -> list Seed.
Variable IsCluster : Prov -> string -> M W error bool.
Variable implements : string -> Prov -> bool.
Variable GetSeedCluster : Req -> option SeedCluster.
Variables GetUserID GetProjectID : Req -> option string.

Abbreviation Routed := (Routed (Req := Req) (Prov := Prov)).
Abbreviation E := (Endpoint W Routed Resp).

(** The run of a computation with a continuation: it comes to the continuation
    with [P], or its outcome is the same for every continuation. *)
Definition passes (run : E -> M W error Resp) w (Q : Ctx -> Routed -> W -> Prop) : Prop :=
  (exists ctx rq w', Q ctx rq w' /\ forall e, run e w = e ctx rq w') \/
  (exists res w', forall e, run e w = (res, w')).

Lemma passes_bind {A} (m : M W error A) (k : A -> E -> M W error Resp) w Q :
  (forall a w1, m w = (Ok a, w1) -> passes (k a) w1 Q) -> passes (fun e => x ← m; k x e) w Q.
Proof.
  intros H. unfold passes, mbind, M_bind. destruct (m w) as [[a|err|] w1] eqn:Em.
  - destruct (H a w1 eq_refl) as [(ctx & rq & w' & HQ & He)|(res & w' & He)].
    + left. exists ctx, rq, w'. done.
    + right. by exists res, w'.
  - right. by exists (Err err), w1.
  - right. by exists Panic, w1.
Qed.

Lemma passes_next ctx rq w (Q : Ctx -> Routed -> W -> Prop) : Q ctx rq w -> passes (fun e => e ctx rq) w Q.
Proof. left. by exists ctx, rq, w. Qed.
Lemma passes_stop (m : M W error Resp) w Q : passes (fun _ => m) w Q.
Proof. right. exists (m w).1, (m w).2. intros _. by destruct (m w). Qed.
(** ** What the middlewares put into the context *)

(** The keys of a middleware, with the getter that answers the provider of a seed. *)
Definition provided (m : mw) : list (string * GetterOf W Prov) :=
  match m with
  | mSetClusterProvider => [(ClusterProviderContextKey, clusterProviderGetter r)]
  | mSetPrivilegedClusterProvider =>
      [(ClusterProviderContextKey, clusterProviderGetter r);
       (PrivilegedClusterProviderContextKey, clusterProviderGetter r)]
  | mAddons => [(AddonProviderContextKey, addonProviderGetter r)]
  | mPrivilegedAddons => [(PrivilegedAddonProviderContextKey, addonProviderGetter r)]
  | mConstraints => [(ConstraintProviderContextKey, constraintProviderGetter r)]
  | mPrivilegedConstraints => [(PrivilegedConstraintProviderContextKey, constraintProviderGetter r)]
  | mAlertmanagers => [(AlertmanagerProviderContextKey, alertmanagerProviderGetter r)]
  | mPrivilegedAlertmanagers => [(PrivilegedAlertmanagerProviderContextKey, alertmanagerProviderGetter r)]
  | mRuleGroups => [(RuleGroupProviderContextKey, ruleGroupProviderGetter r)]
  | mPrivilegedRuleGroups => [(PrivilegedRuleGroupProviderContextKey, ruleGroupProviderGetter r)]
  | mEtcdBackupConfig => [(EtcdBackupConfigProviderContextKey, etcdBackupConfigProviderGetter r)]
  | mPrivilegedEtcdBackupConfig => [(PrivilegedEtcdBackupConfigProviderContextKey, etcdBackupConfigProviderGetter r)]
  | mEtcdRestore => [(EtcdRestoreProviderContextKey, etcdRestoreProviderGetter r)]
  | mPrivilegedEtcdRestore => [(PrivilegedEtcdRestoreProviderContextKey, etcdRestoreProviderGetter r)]
  | mBackupCredentials => [(BackupCredentialsProviderContextKey, backupCredentialsProviderGetter r)]
  | mPrivilegedMLAAdminSetting =>
      [(PrivilegedMLAAdminSettingProviderContextKey, privilegedMLAAdminSettingProviderGetter r)]
  | mPrivilegedIPAMPool => [(PrivilegedIPAMPoolProviderContextKey, privilegedIPAMPoolProviderGetter r)]
  | mPrivilegedOperatingSystemProfile =>
      [(PrivilegedOperatingSystemProfileProviderContextKey, privilegedOperatingSystemProfileProviderGetter r)]
  | mOIDCProviders => [(OIDCIssuerVerifierContextKey, oidcIssuerVerifierGetter r)]
  | _ => []
  end.

(** The keys of the providers of all seeds. *)
Definition project_keys (m : mw) : list string :=
  match m with
  | mEtcdBackupConfigProject => [EtcdBackupConfigProjectProviderContextKey]
  | mPrivilegedEtcdBackupConfigProject => [PrivilegedEtcdBackupConfigProjectProviderContextKey]
  | mEtcdRestoreProject => [EtcdRestoreProjectProviderContextKey]
  | mPrivilegedEtcdRestoreProject => [PrivilegedEtcdRestoreProjectProviderContextKey]
  | _ => []
  end.
Definition keys_of (m : mw) : list string := (provided m).*1 ++ project_keys m.

(** The seeds and their cluster providers while the request is served. *)
Variable snap : string -> Snapshot (CP := Prov).
Hypothesis Hshows : forall id, shows order (clusterProviderGetter r) IsCluster (seedsGetter r) id (snap id).
Hypothesis HL : ListsSucceed W.

(** The seed for a request: the one it names where the middleware goes by the
    name, else the one that runs its cluster, or the named one if none does. *)
Definition seed_for (m : mw) (sc : SeedCluster) (s : Seed) : Prop :=
  match m with
  | mBackupCredentials | mPrivilegedIPAMPool => snap_seeds (snap (sc_ClusterID sc)) !! sc_SeedName sc = Some s
  | _ => exists n, chosen SeedInvalidPhase (sc_ClusterID sc) (snap (sc_ClusterID sc)) (sc_SeedName sc) n /\
           snap_seeds (snap (sc_ClusterID sc)) !! n = Some s
  end.

(** What a middleware makes of the request: its keys hold providers of the seed
    for the request. *)
Definition supplied (m : mw) (rq rq' : Routed) : Prop :=
  rq_request rq' = rq_request rq /\
  (forall k, k ∉ keys_of m -> rq_values rq' !! k = rq_values rq !! k) /\
  (forall k, k ∈ keys_of m -> is_Some (rq_values rq' !! k)) /\
  (forall k get, (k, get) ∈ provided m -> exists p sc s w1 w2, rq_values rq' !! k = Some p /\
     GetSeedCluster (rq_request rq) = Some sc /\ seed_for m sc s /\ get s w1 = (Ok p, w2)).

(** A middleware that runs [get] and puts what it answers under its only key. *)
Lemma supplied_one m key (get : GetterOf W Prov) rq sc s p w1 w2 :
  provided m = [(key, get)] -> project_keys m = [] -> GetSeedCluster (rq_request rq) = Some sc ->
  seed_for m sc s -> get s w1 = (Ok p, w2) -> supplied m rq (WithValue key p rq).
Proof.
  intros Hp Hk Hsc Hs Hg. unfold supplied, keys_of. rewrite Hp, Hk. cbn. split_and!; [done| | |].
  - intros k Hne. rewrite lookup_insert_ne; [done|]. set_solver.
  - intros k ->%list_elem_of_singleton. rewrite lookup_insert_eq. by eexists.
  - intros k g [= -> ->]%list_elem_of_singleton. exists p, sc, s, w1, w2. by rewrite lookup_insert_eq.
Qed.

Lemma supplied_project m key rq p :
  provided m = [] -> project_keys m = [key] -> supplied m rq (WithValue key p rq).
Proof.
  intros Hp Hk. unfold supplied, keys_of. rewrite Hp, Hk. cbn. split_and!; [done| | |].
  - intros k Hne. rewrite lookup_insert_ne; [done|]. set_solver.
  - intros k ->%list_elem_of_singleton. rewrite lookup_insert_eq. by eexists.
  - intros k g []%elem_of_nil.
Qed.

(** The getters answer providers of the seed for the request. *)
Definition finds (m : mw) (get : string -> string -> M W error Prov) (getter : GetterOf W Prov) : Prop :=
  forall sc w p w', get (sc_SeedName sc) (sc_ClusterID sc) w = (Ok p, w') ->
  exists s w1 w2, seed_for m sc s /\ getter s w1 = (Ok p, w2).

Lemma injects_passes m get getter key ctx rq w :
  finds m get getter -> provided m = [(key, getter)] -> project_keys m = [] ->
  passes (fun e => injects GetSeedCluster get key e ctx rq) w (fun ctx' rq' _ => ctx' = ctx /\ supplied m rq rq').
Proof.
  intros Hf Hp Hk. apply passes_bind. intros sc w1 Hsc. apply passes_bind. intros p w2 Hp'.
  apply passes_next. split; [done|]. unfold seedClusterOf in Hsc.
  destruct (GetSeedCluster (rq_request rq)) as [sc'|] eqn:Er; [|done]. injection Hsc as -> ->.
  destruct (Hf sc w1 p w2 Hp') as (s & wa & wb & Hs & Hg). by eapply supplied_one.
Qed.

(** The middleware goes by the cluster of the request. *)
Definition by_cluster (m : mw) : Prop := m <> mBackupCredentials /\ m <> mPrivilegedIPAMPool.

Lemma serves_seed m sc getter w p w' : by_cluster m ->
  serves (X := Prov) SeedInvalidPhase (sc_ClusterID sc) (snap (sc_ClusterID sc)) getter (sc_SeedName sc) w (Ok p : result error Prov) w' ->
  exists s w1 w2, seed_for m sc s /\ getter s w1 = (Ok p, w2).
Proof.
  intros [Hb1 Hb2] (n & w1 & Hc & _ & Hs). destruct (snap_seeds _ !! n) as [s|] eqn:En; [|by destruct Hs as [[? ?] _]].
  exists s, w1, w'. split; [|done]. destruct m; try done; by exists n.
Qed.

Lemma finds_getProvider m onErr getter : by_cluster m ->
  finds m (fun seedName clusterID => getProvider order
    (findSeed SeedInvalidPhase (clusterProviderGetter r) IsCluster (onErr clusterID) clusterID)
    getter (seedsGetter r) seedName clusterID) getter.
Proof.
  intros Hb sc w p w' Hg.
  destruct (runs_elim _ _ _ _ _ (getProvider_finds SeedInvalidPhase order (clusterProviderGetter r) IsCluster
    (seedsGetter r) (sc_ClusterID sc) (snap (sc_ClusterID sc)) (Hshows _) (onErr (sc_ClusterID sc)) getter
    (sc_SeedName sc) w) Hg) as [H|(_ & s & e & _ & _ & _ & He)]; [|done].
  by eapply serves_seed.
Qed.

Lemma finds_ruleGroups m : by_cluster m ->
  finds m (getRuleGroups r SeedInvalidPhase order IsCluster) (ruleGroupProviderGetter r).
Proof.
  intros Hb sc w p w' Hg. eapply serves_seed; [done|].
  exact (runs_elim _ _ _ _ _ (getProvider_skipping_finds SeedInvalidPhase order (clusterProviderGetter r) IsCluster
    (seedsGetter r) (sc_ClusterID sc) (snap (sc_ClusterID sc)) (Hshows _) (ruleGroupProviderGetter r)
    (sc_SeedName sc) w) Hg).
Qed.

Lemma runs_mret_inv {A} (m : M W error A) (i : A -> M W error A) w a w' :
  (forall b w1, i b w1 = (mret b : M W error A) w1 \/ i b w1 = (Panic, w1)) ->
  (x ← m; i x) w = (Ok a, w') -> m w = (Ok a, w').
Proof.
  intros Hi. unfold mbind, M_bind. destruct (m w) as [[b|e|] w1]; [|done|done].
  by destruct (Hi b w1) as [-> | ->].
Qed.

Lemma asserted_id i p w : asserted implements i p w = (mret p : M W error Prov) w \/
  asserted (W := W) implements i p w = (Panic, w).
Proof. unfold asserted. destruct (implements i p); [by left|by right]. Qed.

Lemma finds_privileged m i get getter : finds m get getter -> finds m (privileged implements i get) getter.
Proof.
  intros Hf sc w p w' Hp. apply (Hf sc w p w').
  eapply runs_mret_inv; [|exact Hp]. intros b w1. apply asserted_id.
Qed.

Lemma finds_bySeedName m get : m = mBackupCredentials \/ m = mPrivilegedIPAMPool ->
  finds m (getBySeedName r get) get.
Proof.
  intros Hm sc w p w' Hg. pose proof (Hshows (sc_ClusterID sc)) as (_ & _ & Hget & _).
  unfold getBySeedName, providerBySeedName, mbind, M_bind in Hg.
  destruct (seedsGetter r w) as [rs w1] eqn:Er. destruct (runs_elim _ _ _ _ _ (Hget w) Er) as [_ ->].
  cbn [sc_SeedName] in Hg. destruct (snap_seeds _ !! _) as [s|] eqn:Es; [|done].
  exists s, w1, w'. split; [|done]. by destruct Hm as [-> | ->].
Qed.

Lemma finds_OIDC : finds mOIDCProviders (fun _ clusterID =>
    GetOIDCIssuerVerifier SeedInvalidPhase order (clusterProviderGetter r) IsCluster
      (oidcIssuerVerifierGetter r) (seedsGetter r) clusterID) (oidcIssuerVerifierGetter r).
Proof.
  intros sc w p w' Hg. pose proof (Hshows (sc_ClusterID sc)) as (Hord & Hnames & Hget & _).
  unfold GetOIDCIssuerVerifier in Hg. destruct (is_empty (sc_ClusterID sc)) eqn:Ec; [done|].
  unfold mbind, M_bind in Hg. destruct (seedsGetter r w) as [rs w1] eqn:Er.
  destruct (runs_elim _ _ _ _ _ (Hget w) Er) as [_ ->].
  destruct (findSeed _ _ _ _ _ _ _ w1) as [rn w2] eqn:Ef.
  pose proof (runs_elim _ _ _ _ _ (findSeed_spec SeedInvalidPhase order (clusterProviderGetter r) IsCluster
    (seedsGetter r) _ _ (Hshows (sc_ClusterID sc)) _ _ _ w1) Ef) as [_ Hn].
  destruct rn as [n|e|]; [|done|done]. destruct (is_empty n) eqn:En; [done|].
  unfold providerOfSeed in Hg. destruct (snap_seeds _ !! n) as [s|] eqn:Es; [|done].
  exists s, w2, w'. split; [|done]. exists n. split; [|done]. unfold chosen. rewrite Ec.
  destruct Hn as [(s' & Hin & Hr & ->)|[-> _]]; [|done]. left. exists s'. split; [|done].
  unfold all_seeds. by rewrite <- (Hord _).
Qed.

Lemma finds_clusterProvider m rq w cp seed w' : by_cluster m ->
  getClusterProvider r SeedInvalidPhase order IsCluster GetSeedCluster rq w = (Ok (cp, seed), w') ->
  exists sc s w1 w2, GetSeedCluster (rq_request rq) = Some sc /\ seed_for m sc s /\
    clusterProviderGetter r s w1 = (Ok cp, w2).
Proof.
  intros [Hb1 Hb2] Hg. unfold getClusterProvider in Hg.
  destruct (GetSeedCluster (rq_request rq)) as [sc|]; [|done].
  pose proof (Hshows (sc_ClusterID sc)) as (_ & Hnames & _ & Hcp & _).
  destruct (runs_elim _ _ _ _ _ (GetClusterProvider_exact SeedInvalidPhase order (clusterProviderGetter r) IsCluster
    (seedsGetter r) (sc_ClusterID sc) (snap (sc_ClusterID sc)) sc w (Hshows _) eq_refl) Hg) as [_ H].
  assert (exists s n, chosen SeedInvalidPhase (sc_ClusterID sc) (snap (sc_ClusterID sc)) (sc_SeedName sc) n /\
    snap_seeds (snap (sc_ClusterID sc)) !! n = Some s /\ snap_provider (snap (sc_ClusterID sc)) s = Ok cp)
    as (s & n & Hc & Hn & Hp).
  { unfold chosen. destruct (is_empty (sc_ClusterID sc)).
    - destruct H as (s & _ & Hs & Hp). by exists s, (sc_SeedName sc).
    - destruct H as (_ & s & Hin & Hr & Hp). exists s, (seed_Name s). split_and!; [left; by exists s| |done].
      unfold all_seeds in Hin. apply list_elem_of_fmap in Hin as ([k s'] & -> & Hk%elem_of_map_to_list).
      cbn [snd] in *. by rewrite (Hnames _ _ Hk). }
  exists sc, s, w, (clusterProviderGetter r s w).2. split; [done|]. split; [destruct m; try done; by exists n|].
  destruct (clusterProviderGetter r s w) as [rc wc] eqn:Er.
  destruct (runs_elim _ _ _ _ _ (Hcp s w) Er) as (_ & -> & _). by rewrite Hp.
Qed.

Lemma SetClusterProvider_passes ctx rq w :
  passes (fun e => SetClusterProvider r SeedInvalidPhase order IsCluster GetSeedCluster e ctx rq) w
    (fun ctx' rq' _ => ctx' = ctx /\ supplied mSetClusterProvider rq rq').
Proof.
  apply passes_bind. intros [cp seed] w1 Hg. apply passes_next. split; [done|].
  destruct (finds_clusterProvider mSetClusterProvider rq w cp seed w1) as (sc & s & wa & wb & Hsc & Hs & Hp); [done..|].
  destruct (supplied_one mSetClusterProvider ClusterProviderContextKey (clusterProviderGetter r)
    (MkRouted (rq_request rq) (rq_values rq) (match seed with None => rq_seed rq | seed => seed end))
    sc s cp wa wb) as (H1 & H2 & H3 & H4); try done.
Qed.

Lemma SetPrivilegedClusterProvider_passes ctx rq w :
  passes (fun e => SetPrivilegedClusterProvider r SeedInvalidPhase order IsCluster implements GetSeedCluster e ctx rq) w
    (fun ctx' rq' _ => ctx' = ctx /\ supplied mSetPrivilegedClusterProvider rq rq').
Proof.
  apply passes_bind. intros [cp seed] w1 Hg. apply passes_bind. intros p w2 Ha. apply passes_next. split; [done|].
  assert (p = cp) as -> by (unfold asserted in Ha; cbn in Ha; destruct (implements _ _); [by injection Ha|done]).
  destruct (finds_clusterProvider mSetPrivilegedClusterProvider rq w cp seed w1)
    as (sc & s & wa & wb & Hsc & Hs & Hp); [done..|].
  assert (ClusterProviderContextKey <> PrivilegedClusterProviderContextKey) as Hne by done.
  split_and!; [done| | |].
  - intros k Hk. cbn in Hk. cbn. rewrite !lookup_insert_ne by set_solver. done.
  - intros k Hk. cbn in Hk. cbn.
    apply elem_of_cons in Hk as [->|Hk%list_elem_of_singleton]; [|subst k].
    + rewrite lookup_insert_ne, lookup_insert_eq by done. by eexists.
    + rewrite lookup_insert_eq. by eexists.
  - intros k g Hk. exists cp, sc, s, wa, wb. cbn in Hk. cbn.
    apply elem_of_cons in Hk as [Hk|Hk%list_elem_of_singleton]; injection Hk as -> ->.
    + by rewrite lookup_insert_ne, lookup_insert_eq by done.
    + by rewrite lookup_insert_eq.
Qed.

Abbreviation run_mw m := (middleware_of r SeedInvalidPhase order IsCluster implements GetSeedCluster GetUserID GetProjectID m).

Lemma provider_passes m ctx rq w :
  m <> mTokenVerifier -> m <> mUserSaver -> m <> mUserInfoUnauthorized ->
  passes (fun e => run_mw m e ctx rq) w (fun ctx' rq' _ => ctx' = ctx /\ supplied m rq rq').
Proof.
  intros H1 H2 H3. destruct m; try done; cbn [middleware_of].
  - apply SetClusterProvider_passes.
  - apply SetPrivilegedClusterProvider_passes.
  - eapply injects_passes; [by apply (finds_getProvider mAddons notFoundCluster)|done..].
  - eapply injects_passes; [by apply finds_privileged, (finds_getProvider _ notFoundCluster)|done..].
  - eapply injects_passes; [by apply (finds_getProvider _ notFoundCluster)|done..].
  - eapply injects_passes; [by apply finds_privileged, (finds_getProvider _ notFoundCluster)|done..].
  - eapply injects_passes; [by apply (finds_getProvider _ (fun _ => KubernetesErrorToHTTPError))|done..].
  - eapply injects_passes; [by apply finds_privileged, (finds_getProvider _ (fun _ => KubernetesErrorToHTTPError))|done..].
  - eapply injects_passes; [by apply finds_ruleGroups|done..].
  - eapply injects_passes; [by apply finds_privileged, finds_ruleGroups|done..].
  - eapply injects_passes; [by apply (finds_getProvider _ (fun _ => KubernetesErrorToHTTPError))|done..].
  - eapply injects_passes; [by apply finds_privileged, (finds_getProvider _ (fun _ => KubernetesErrorToHTTPError))|done..].
  - eapply injects_passes; [by apply (finds_getProvider _ (fun _ => KubernetesErrorToHTTPError))|done..].
  - eapply injects_passes; [by apply finds_privileged, (finds_getProvider _ (fun _ => KubernetesErrorToHTTPError))|done..].
  - apply passes_bind. intros p w1 _. apply passes_next. split; [done|by apply supplied_project].
  - apply passes_bind. intros p w1 _. apply passes_next. split; [done|by apply supplied_project].
  - apply passes_bind. intros p w1 _. apply passes_next. split; [done|by apply supplied_project].
  - apply passes_bind. intros p w1 _. apply passes_next. split; [done|by apply supplied_project].
  - eapply injects_passes; [by apply finds_bySeedName; left|done..].
  - eapply injects_passes; [by apply (finds_getProvider _ (fun _ => KubernetesErrorToHTTPError))|done..].
  - eapply injects_passes; [by apply finds_bySeedName; right|done..].
  - eapply injects_passes; [by apply (finds_getProvider _ (fun _ => KubernetesErrorToHTTPError))|done..].
  - eapply injects_passes; [by apply finds_OIDC|done..].
Qed.

(** A computation that succeeds satisfies its specification. *)
Lemma runs_ok {A} (m : M W error A) w (Q : result error A -> W -> Prop) a w' :
  runs m w Q -> m w = (Ok a, w') -> Q (Ok a) w'.
Proof. intros H E. by apply (runs_elim _ _ _ _ _ H E). Qed.

Lemma attempt_ok {A} (m : M W error A) w (res : error + A) w' :
  attempt m w = (Ok res, w') -> m w = (match res with inl e => Err e | inr a => Ok a end, w').
Proof. unfold attempt. destruct (m w) as [[?|?|] ?]; intros [= <- <-]; done. Qed.

Lemma TokenVerifier_passes ctx rq w :
  passes (fun e => TokenVerifier (tokenVerifiers r) e ctx rq) w
    (fun ctx' rq' w' => admits (tokenVerifiers r) ctx w ctx' w' /\ rq' = rq).
Proof.
  unfold TokenVerifier. destruct (ctx_NoTokenFound ctx) eqn:En; [apply passes_stop|].
  destruct (is_empty _) eqn:Et; [apply passes_stop|]. apply passes_bind. intros res w1 Hv%attempt_ok.
  destruct res as [err|claims]; [apply passes_stop|]. destruct (is_empty (claims_Subject claims)) eqn:Es; [apply passes_stop|].
  apply passes_bind. intros [] w2 Hb. apply passes_next. split; [|done]. split; [done|].
  apply is_empty_false in Et, Es. destruct (ctx_RawToken ctx) as [token|]; [|done].
  destruct (runs_ok _ _ _ _ _ (checkBlockedTokens_spec _ _ w1 HL) Hb) as [Hs Hnb].
  by exists token, claims, w1.
Qed.

Lemma UserSaver_passes ctx rq w :
  passes (fun e => UserSaver e ctx rq) w (fun ctx' rq' w' => rq' = rq /\ exists au u t w0,
    ctx_AuthenticatedUser ctx = Some au /\ (now (W:=W) w0).1 = Ok t /\ saved au t u w' /\
    ctx' = ctx_with_UserCR u ctx).
Proof.
  unfold UserSaver. destruct (ctx_AuthenticatedUser ctx) as [au|]; [|apply passes_stop].
  apply passes_bind. intros u w1 Hu. destruct (runs_ok _ _ _ _ _ (findOrCreateUser_spec au w HL) Hu) as (Hr & He & _).
  apply passes_bind. intros t w2 Ht. destruct (runs_ok _ _ _ _ _ (now_spec w1) Ht) as [Hs _].
  assert ((now w1).1 = Ok t) as Hn by (by rewrite Ht). rewrite Hs in Hr.
  destruct (_ && _) eqn:Eth.
  { apply andb_true_iff in Eth as [Hz%negb_true_iff%bool_decide_eq_false Hm%bool_decide_eq_true].
    apply passes_next. split; [done|]. exists au, u, t, w1. split_and!; [done|done| |done]. split; [done|]. by left. }
  apply passes_bind. intros res w3 Hup%attempt_ok. destruct res as [err|u'].
  - destruct (apierrors_IsConflict err) eqn:Ec; [|apply passes_stop].
    pose proof (runs_elim _ _ _ _ _ (users_UpdateUser_spec _ _) Hup) as H. cbn beta iota in H.
    apply passes_next. split; [done|]. exists au, u, t, w1. split_and!; [done|done| |done]. split; [done|].
    right; right. by exists w2, err.
  - destruct (runs_ok _ _ _ _ _ (users_UpdateUser_spec _ _) Hup) as (Hst & Hls & (_ & Hv & _)).
    pose proof (strip_user _ _ Hst) as (_ & Hem & Hg & _).
    apply passes_next. split; [done|]. exists au, u', t, w1. split_and!; [done|done| |done]. split; [by rewrite Hem|].
    right; left. split; [|by rewrite Hg, Hls]. exists (key_of KUser u'). rewrite Hv. apply lookup_insert_eq.
Qed.

Lemma UserInfoUnauthorized_passes ctx rq w :
  passes (fun e => UserInfoUnauthorized (GetUserID ∘ rq_request) (GetProjectID ∘ rq_request) e ctx rq) w
    (fun ctx' rq' w' => rq' = rq /\ exists ui, ctx' = ctx_with_UserInfo ui ctx).
Proof.
  unfold UserInfoUnauthorized. destruct ((GetUserID ∘ rq_request) rq) as [id|]; [|apply passes_stop].
  destruct ((GetProjectID ∘ rq_request) rq) as [pid|]; [|apply passes_stop].
  apply passes_bind. intros user w1 _. destruct (user_IsAdmin user).
  - apply passes_next. split; [done|]. by eexists.
  - apply passes_bind. intros ui w2 _. apply passes_next. split; [done|]. by eexists.
Qed.

(** ** Chains *)

(** How a request gets through a chain to its endpoint: the context, the
    request and the world that the endpoint sees. *)
Inductive reaches : list mw -> Ctx -> Routed -> W -> Ctx -> Routed -> W -> Prop :=
| reach_endpoint ctx rq w : reaches [] ctx rq w ctx rq w
| reach_verified ms ctx rq w ctx1 w1 ctx' rq' w' :
    admits (tokenVerifiers r) ctx w ctx1 w1 -> reaches ms ctx1 rq w1 ctx' rq' w' ->
    reaches (mTokenVerifier :: ms) ctx rq w ctx' rq' w'
| reach_saved ms ctx rq w au u t w0 w1 ctx' rq' w' :
    ctx_AuthenticatedUser ctx = Some au -> (now (W:=W) w0).1 = Ok t -> saved au t u w1 ->
    reaches ms (ctx_with_UserCR u ctx) rq w1 ctx' rq' w' ->
    reaches (mUserSaver :: ms) ctx rq w ctx' rq' w'
| reach_unauthorized ms ctx rq w ui w1 ctx' rq' w' :
    reaches ms (ctx_with_UserInfo ui ctx) rq w1 ctx' rq' w' ->
    reaches (mUserInfoUnauthorized :: ms) ctx rq w ctx' rq' w'
| reach_supplied m ms ctx rq w rq1 w1 ctx' rq' w' :
    m <> mTokenVerifier -> m <> mUserSaver -> m <> mUserInfoUnauthorized -> supplied m rq rq1 ->
    reaches ms ctx rq1 w1 ctx' rq' w' -> reaches (m :: ms) ctx rq w ctx' rq' w'.

Abbreviation run_chain ms := (Chain r SeedInvalidPhase order IsCluster implements GetSeedCluster GetUserID GetProjectID ms).

(** A request gets through the chain, or its outcome has nothing to do with the endpoint. *)
Lemma Chain_passes ms ctx rq w :
  passes (fun e => run_chain ms e ctx rq) w (fun ctx' rq' w' => reaches ms ctx rq w ctx' rq' w').
Proof.
  revert ctx rq w. induction ms as [|m ms IH]; intros ctx rq w; cbn [Chain].
  { apply passes_next. constructor. }
  assert (forall Q : Ctx -> Routed -> W -> Prop, passes (fun e => run_mw m e ctx rq) w Q ->
    (forall ctx1 rq1 w1 ctx' rq' w', Q ctx1 rq1 w1 -> reaches ms ctx1 rq1 w1 ctx' rq' w' ->
       reaches (m :: ms) ctx rq w ctx' rq' w') ->
    passes (fun e => run_mw m (run_chain ms e) ctx rq) w
      (fun ctx' rq' w' => reaches (m :: ms) ctx rq w ctx' rq' w')) as Hstep.
  { intros Q [(ctx1 & rq1 & w1 & HQ & He)|(res & w1 & He)] Hr.
    - destruct (IH ctx1 rq1 w1) as [(ctx' & rq' & w' & Hreach & He')|(res & w' & He')].
      + left. exists ctx', rq', w'. split; [by eapply Hr|]. intros e. by rewrite He.
      + right. exists res, w'. intros e. by rewrite He.
    - right. exists res, w1. intros e. apply He. }
  destruct (decide (m = mTokenVerifier)) as [->|H1].
  { eapply Hstep; [apply TokenVerifier_passes|]. cbn beta. intros ctx1 rq1 w1 ctx' rq' w' [Ha ->]. by econstructor. }
  destruct (decide (m = mUserSaver)) as [->|H2].
  { eapply Hstep; [apply UserSaver_passes|]. cbn beta.
    intros ctx1 rq1 w1 ctx' rq' w' (-> & au & u & t & w0 & ? & ? & ? & ->). by econstructor. }
  destruct (decide (m = mUserInfoUnauthorized)) as [->|H3].
  { eapply Hstep; [apply UserInfoUnauthorized_passes|]. cbn beta. intros ctx1 rq1 w1 ctx' rq' w' (-> & ui & ->).
    by econstructor. }
  eapply Hstep; [by apply provider_passes|]. cbn beta. intros ctx1 rq1 w1 ctx' rq' w' [-> Hs]. by econstructor.
Qed.

(** ** What the endpoint of a chain sees *)

Definition is_provider (m : mw) : bool :=
  negb (bool_decide (m ∈ [mTokenVerifier; mUserSaver; mUserInfoUnauthorized])).

Lemma reaches_request ms ctx rq w ctx' rq' w' :
  reaches ms ctx rq w ctx' rq' w' -> rq_request rq' = rq_request rq.
Proof. induction 1 as [| | | |m ms ctx rq w rq1 w1 ctx' rq' w' _ _ _ (Hr & _) _ IH]; congruence. Qed.

Lemma keys_none m : m = mTokenVerifier \/ m = mUserSaver \/ m = mUserInfoUnauthorized -> keys_of m = [] /\ provided m = [].
Proof. by intros [-> |[-> | ->]]. Qed.

(** The keys of the providers of all seeds are no keys of a seed. *)
Lemma project_key_no_seed m m' k get : (k, get) ∈ provided m -> k ∉ project_keys m'.
Proof.
  intros Hk Hk'. destruct m'; cbn in Hk'; try (by apply elem_of_nil in Hk');
    apply list_elem_of_singleton in Hk'; subst k; destruct m; cbn in Hk;
    repeat (apply elem_of_cons in Hk as [[=]|Hk]); by apply elem_of_nil in Hk.
Qed.

(** A key that no later middleware writes keeps its value. *)
Lemma reaches_keeps ms ctx rq w ctx' rq' w' k :
  reaches ms ctx rq w ctx' rq' w' -> (forall m, m ∈ ms -> k ∉ keys_of m) -> rq_values rq' !! k = rq_values rq !! k.
Proof.
  induction 1 as [| | | |m ms ctx rq w rq1 w1 ctx' rq' w' _ _ _ (_ & Hk & _) _ IH]; intros Hms; [done|..];
    try (apply IHreaches; set_solver).
  rewrite IH by set_solver. apply Hk, Hms. set_solver.
Qed.

(** A provider of the seed for the request is what the getter answered. *)
Definition provider_for (rq : Routed) (m : mw) (k : string) (get : GetterOf W Prov) (vs : gmap string Prov) : Prop :=
  exists p sc s w1 w2, vs !! k = Some p /\ GetSeedCluster (rq_request rq) = Some sc /\ seed_for m sc s /\
    get s w1 = (Ok p, w2).

Lemma reaches_values ms ctx rq w ctx' rq' w' k :
  reaches ms ctx rq w ctx' rq' w' ->
  (forall m, m ∈ ms -> k ∈ keys_of m -> is_Some (rq_values rq' !! k)) /\
  (forall m get, m ∈ ms -> (k, get) ∈ provided m ->
     exists m' get', m' ∈ ms /\ (k, get') ∈ provided m' /\ provider_for rq m' k get' (rq_values rq')).
Proof.
  intros Hr. induction Hr as [|ms ctx rq w ctx1 w1 ctx' rq' w' _ Hr IH|ms ctx rq w au u t w0 w1 ctx' rq' w' _ _ _ Hr IH
    |ms ctx rq w ui w1 ctx' rq' w' Hr IH|m ms ctx rq w rq1 w1 ctx' rq' w' Hm1 Hm2 Hm3 Hs Hr IH].
  - split; intros; set_solver.
  - destruct IH as [IH1 IH2]. split.
    + intros m [->|Hm]%elem_of_cons Hk; [by apply elem_of_nil in Hk|eauto].
    + intros m get [->|Hm]%elem_of_cons Hk; [by apply elem_of_nil in Hk|].
      destruct (IH2 m get Hm Hk) as (m' & get' & ? & ? & ?). exists m', get'. split_and!; [by right|done|done].
  - destruct IH as [IH1 IH2]. split.
    + intros m [->|Hm]%elem_of_cons Hk; [by apply elem_of_nil in Hk|eauto].
    + intros m get [->|Hm]%elem_of_cons Hk; [by apply elem_of_nil in Hk|].
      destruct (IH2 m get Hm Hk) as (m' & get' & ? & ? & ?). exists m', get'. split_and!; [by right|done|done].
  - destruct IH as [IH1 IH2]. split.
    + intros m [->|Hm]%elem_of_cons Hk; [by apply elem_of_nil in Hk|eauto].
    + intros m get [->|Hm]%elem_of_cons Hk; [by apply elem_of_nil in Hk|].
      destruct (IH2 m get Hm Hk) as (m' & get' & ? & ? & ?). exists m', get'. split_and!; [by right|done|done].
  - destruct IH as [IH1 IH2], Hs as (Hreq & _ & Hin & Hpr).
    assert (forall m' get, m' ∈ ms -> (k, get) ∈ provided m' -> exists m'' get', m'' ∈ m :: ms /\
      (k, get') ∈ provided m'' /\ provider_for rq m'' k get' (rq_values rq')) as Hlater.
    { intros m' get Hm' Hk. destruct (IH2 m' get Hm' Hk) as (m'' & get' & ? & ? & (p & sc & s & wa & wb & H)).
      exists m'', get'. split_and!; [by right|done|]. exists p, sc, s, wa, wb. by rewrite <- Hreq. }
    split.
    + intros m' [->|Hm']%elem_of_cons Hk; [|by eapply IH1].
      destruct (decide (Exists (fun m' => k ∈ keys_of m') ms)) as [(m' & Hm' & Hk')%Exists_exists|Hno].
      * by eapply IH1.
      * erewrite reaches_keeps; [by apply Hin|exact Hr|]. intros m' Hm' Hk'. apply Hno, Exists_exists. by exists m'.
    + intros m' get [->|Hm']%elem_of_cons Hk; [|by eapply Hlater].
      destruct (decide (Exists (fun m' => k ∈ (provided m').*1) ms)) as [(m' & Hm' & Hk')%Exists_exists|Hno].
      * apply list_elem_of_fmap in Hk' as ([k' get'] & -> & Hk'). by eapply Hlater.
      * exists m, get. split_and!; [by left|done|]. destruct (Hpr k get Hk) as (p & sc & s & wa & wb & Hp & H).
        exists p, sc, s, wa, wb. split; [|done].
        erewrite reaches_keeps; [exact Hp|exact Hr|]. intros m' Hm' Hk'. apply Hno, Exists_exists. exists m'.
        split; [done|]. unfold keys_of in Hk'. apply elem_of_app in Hk' as [Hk'|Hk']; [done|].
        by destruct (project_key_no_seed m m' k get).
Qed.

Lemma reaches_ctx ms ctx rq w ctx' rq' w' :
  reaches ms ctx rq w ctx' rq' w' -> forallb is_provider ms = true -> ctx' = ctx.
Proof.
  induction 1 as [| | | |m ms ctx rq w rq1 w1 ctx' rq' w' _ _ _ _ _ IH]; [done|done..|].
  cbn [forallb]. intros [_ H]%andb_true_iff. auto.
Qed.

Lemma reaches_verified ms ctx rq w ctx' rq' w' :
  reaches (mTokenVerifier :: ms) ctx rq w ctx' rq' w' ->
  exists ctx1 w1, admits (tokenVerifiers r) ctx w ctx1 w1 /\ reaches ms ctx1 rq w1 ctx' rq' w'.
Proof. inversion 1; subst; [by eauto|done]. Qed.

Lemma reaches_saved ms ctx rq w ctx' rq' w' :
  reaches (mUserSaver :: ms) ctx rq w ctx' rq' w' ->
  exists au u t w0 w1, ctx_AuthenticatedUser ctx = Some au /\ (now (W:=W) w0).1 = Ok t /\ saved au t u w1 /\
    reaches ms (ctx_with_UserCR u ctx) rq w1 ctx' rq' w'.
Proof. inversion 1; subst; [|done]. by eexists _, _, _, _, _. Qed.

(** A request to a server with such a chain: its endpoint runs in the context of
    the chain, or the answer has nothing to do with the endpoint. *)
Lemma serve_passes decode s req http w :
  (exists token request ctx' rq' w', tokenExtractors r http = Ok token /\ decode (srv_dec s) req http = Ok request /\
     reaches (srv_chain s) (ctx_with_RawToken token emptyCtx) (MkRouted request ∅ None) w ctx' rq' w' /\
     forall endpoints : string -> E, serve r SeedInvalidPhase order IsCluster implements GetSeedCluster GetUserID GetProjectID
       decode endpoints s req http w = endpoints (srv_endpoint s) ctx' rq' w') \/
  (exists err request ctx' rq' w', tokenExtractors r http = Err err /\ decode (srv_dec s) req http = Ok request /\
     reaches (srv_chain s) (ctx_with_NoTokenFound err emptyCtx) (MkRouted request ∅ None) w ctx' rq' w' /\
     forall endpoints : string -> E, serve r SeedInvalidPhase order IsCluster implements GetSeedCluster GetUserID GetProjectID
       decode endpoints s req http w = endpoints (srv_endpoint s) ctx' rq' w') \/
  (exists res w', forall endpoints : string -> E, serve r SeedInvalidPhase order IsCluster implements GetSeedCluster GetUserID
     GetProjectID decode endpoints s req http w = (res, w')).
Proof.
  unfold serve, TokenExtractor, lift, mbind, M_bind.
  destruct (tokenExtractors r http) as [token|err|]; [| |right; right; by exists Panic, w];
    (destruct (decode (srv_dec s) req http) as [request|e|];
       [|right; right; by exists (Err e), w|right; right; by exists Panic, w]).
  - destruct (Chain_passes (srv_chain s) (ctx_with_RawToken token emptyCtx) (MkRouted request ∅ None) w)
      as [(ctx' & rq' & w' & Hr & He)|(res & w' & He)].
    + left. exists token, request, ctx', rq', w'. split_and!; [done|done|done|]. intros endpoints. apply He.
    + right; right. exists res, w'. intros endpoints. apply He.
  - destruct (Chain_passes (srv_chain s) (ctx_with_NoTokenFound err emptyCtx) (MkRouted request ∅ None) w)
      as [(ctx' & rq' & w' & Hr & He)|(res & w' & He)].
    + right; left. exists err, request, ctx', rq', w'. split_and!; [done|done|done|]. intros endpoints. apply He.
    + right; right. exists res, w'. intros endpoints. apply He.
Qed.
End chains.
