(* ===== verification/RoutesV1.v ===== *)
(** The routes of version 1 of the API: the servers of handler/routes_v1.go,
    routes_v1_admin.go and routes_v1_optional.go, and the tables of their
    Register functions with that of routes_v1_websocket.go. *)
From S2P Require Export Routing.

(** ** Servers *)

Definition listSSHKeys : Server :=
  MkServer [mTokenVerifier; mUserSaver]
    "handler/v1/ssh.ListEndpoint"
    "handler/v1/ssh.DecodeListReq" EncodeJSON DefaultErrorEncoder.
Definition createSSHKey : Server :=
  MkServer [mTokenVerifier; mUserSaver]
    "handler/v1/ssh.CreateEndpoint"
    "handler/v1/ssh.DecodeCreateReq" (SetStatusCreatedHeader EncodeJSON) DefaultErrorEncoder.
Definition deleteSSHKey : Server :=
  MkServer [mTokenVerifier; mUserSaver]
    "handler/v1/ssh.DeleteEndpoint"
    "handler/v1/ssh.DecodeDeleteReq" EncodeJSON DefaultErrorEncoder.
Definition datacentersHandler : Server :=
  MkServer [mTokenVerifier; mUserSaver]
    "handler/v1/dc.ListEndpoint"
    "handler/v1/common.DecodeEmptyReq" EncodeJSON DefaultErrorEncoder.
Definition datacenterHandler : Server :=
  MkServer [mTokenVerifier; mUserSaver]
    "handler/v1/dc.GetEndpoint"
    "handler/v1/dc.DecodeLegacyDcReq" EncodeJSON DefaultErrorEncoder.
Definition listDCForProvider : Server :=
  MkServer [mTokenVerifier; mUserSaver]
    "handler/v1/dc.ListEndpointForProvider"
    "handler/v1/dc.DecodeForProviderDCListReq" EncodeJSON DefaultErrorEncoder.
Definition getDCForProvider : Server :=
  MkServer [mTokenVerifier; mUserSaver]
    "handler/v1/dc.GetEndpointForProvider"
    "handler/v1/dc.DecodeForProviderDCGetReq" EncodeJSON DefaultErrorEncoder.
Definition listDCForSeed : Server :=
  MkServer [mTokenVerifier; mUserSaver]
    "handler/v1/dc.ListEndpointForSeed"
    "handler/v1/dc.DecodeListDCForSeedReq" EncodeJSON DefaultErrorEncoder.
Definition getDCForSeed : Server :=
  MkServer [mTokenVerifier; mUserSaver]
    "handler/v1/dc.GetEndpointForSeed"
    "handler/v1/dc.DecodeGetDCForSeedReq" EncodeJSON DefaultErrorEncoder.
Definition createDC : Server :=
  MkServer [mTokenVerifier; mUserSaver]
    "handler/v1/dc.CreateEndpoint"
    "handler/v1/dc.DecodeCreateDCReq" (SetStatusCreatedHeader EncodeJSON) DefaultErrorEncoder.
Definition updateDC : Server :=
  MkServer [mTokenVerifier; mUserSaver]
    "handler/v1/dc.UpdateEndpoint"
    "handler/v1/dc.DecodeUpdateDCReq" EncodeJSON DefaultErrorEncoder.
Definition patchDC : Server :=
  MkServer [mTokenVerifier; mUserSaver]
    "handler/v1/dc.PatchEndpoint"
    "handler/v1/dc.DecodePatchDCReq" EncodeJSON DefaultErrorEncoder.
Definition deleteDC : Server :=
  MkServer [mTokenVerifier; mUserSaver]
    "handler/v1/dc.DeleteEndpoint"
    "handler/v1/dc.DecodeDeleteDCReq" EncodeJSON DefaultErrorEncoder.
Definition listSeedNames : Server :=
  MkServer [mTokenVerifier; mUserSaver]
    "handler/v1/seed.ListSeedNamesEndpoint"
    "handler/v1/common.DecodeEmptyReq" EncodeJSON DefaultErrorEncoder.
Definition getMasterVersions : Server :=
  MkServer [mTokenVerifier; mUserSaver]
    "handler/v1/cluster.GetMasterVersionsEndpoint"
    "handler/v1/cluster.DecodeClusterTypeReq" EncodeJSON DefaultErrorEncoder.
Definition getKubermaticVersion : Server :=
  MkServer [mTokenVerifier; mUserSaver]
    "handler/v1.GetKubermaticVersion"
    "handler/v1/common.DecodeEmptyReq" EncodeJSON DefaultErrorEncoder.
Definition listProjects : Server :=
  MkServer [mTokenVerifier; mUserSaver]
    "handler/v1/project.ListEndpoint"
    "handler/v1/project.DecodeList" EncodeJSON DefaultErrorEncoder.
Definition getProject : Server :=
  MkServer [mTokenVerifier; mUserSaver]
    "handler/v1/project.GetEndpoint"
    "handler/v1/common.DecodeGetProject" EncodeJSON DefaultErrorEncoder.
Definition createProject : Server :=
  MkServer [mTokenVerifier; mUserSaver]
    "handler/v1/project.CreateEndpoint"
    "handler/v1/project.DecodeCreate" (SetStatusCreatedHeader EncodeJSON) DefaultErrorEncoder.
Definition updateProject : Server :=
  MkServer [mTokenVerifier; mUserSaver]
    "handler/v1/project.UpdateEndpoint"
    "handler/v1/project.DecodeUpdateRq" EncodeJSON DefaultErrorEncoder.
Definition deleteProject : Server :=
  MkServer [mTokenVerifier; mUserSaver]
    "handler/v1/project.DeleteEndpoint"
    "handler/v1/project.DecodeDelete" EncodeJSON DefaultErrorEncoder.
Definition createCluster : Server :=
  MkServer [mTokenVerifier; mUserSaver; mSetClusterProvider; mSetPrivilegedClusterProvider]
    "handler/v1/cluster.CreateEndpoint"
    "handler/v1/cluster.DecodeCreateReq" (SetStatusCreatedHeader EncodeJSON) DefaultErrorEncoder.
Definition listClusters : Server :=
  MkServer [mTokenVerifier; mUserSaver; mSetClusterProvider]
    "handler/v1/cluster.ListEndpoint"
    "handler/v1/cluster.DecodeListReq" EncodeJSON DefaultErrorEncoder.
Definition listClustersForProject : Server :=
  MkServer [mTokenVerifier; mUserSaver]
    "handler/v1/cluster.ListAllEndpoint"
    "handler/v1/common.DecodeGetProject" EncodeJSON DefaultErrorEncoder.
Definition getCluster : Server :=
  MkServer [mTokenVerifier; mUserSaver; mSetClusterProvider; mSetPrivilegedClusterProvider]
    "handler/v1/cluster.GetEndpoint"
    "handler/v1/common.DecodeGetClusterReq" EncodeJSON DefaultErrorEncoder.
Definition patchCluster : Server :=
  MkServer [mTokenVerifier; mUserSaver; mSetClusterProvider; mSetPrivilegedClusterProvider]
    "handler/v1/cluster.PatchEndpoint"
    "handler/v1/cluster.DecodePatchReq" EncodeJSON DefaultErrorEncoder.
Definition getClusterEvents : Server :=
  MkServer [mTokenVerifier; mUserSaver; mSetClusterProvider; mSetPrivilegedClusterProvider]
    "handler/v1/cluster.GetClusterEventsEndpoint"
    "handler/v1/cluster.DecodeGetClusterEvents" EncodeJSON DefaultErrorEncoder.
Definition getClusterKubeconfig : Server :=
  MkServer [mTokenVerifier; mUserSaver; mSetClusterProvider; mSetPrivilegedClusterProvider]
    "handler/v1/cluster.GetAdminKubeconfigEndpoint"
    "handler/v1/cluster.DecodeGetAdminKubeconfig" (EncoderNamed "handler/v1/cluster.EncodeKubeconfig") DefaultErrorEncoder.
Definition getOidcClusterKubeconfig : Server :=
  MkServer [mTokenVerifier; mUserSaver; mSetClusterProvider; mSetPrivilegedClusterProvider]
    "handler/v1/cluster.GetOidcKubeconfigEndpoint"
    "handler/v1/cluster.DecodeGetAdminKubeconfig" (EncoderNamed "handler/v1/cluster.EncodeKubeconfig") DefaultErrorEncoder.
Definition deleteCluster : Server :=
  MkServer [mTokenVerifier; mUserSaver; mSetClusterProvider; mSetPrivilegedClusterProvider]
    "handler/v1/cluster.DeleteEndpoint"
    "handler/v1/cluster.DecodeDeleteReq" EncodeJSON DefaultErrorEncoder.
Definition getClusterHealth : Server :=
  MkServer [mTokenVerifier; mUserSaver; mSetClusterProvider; mSetPrivilegedClusterProvider]
    "handler/v1/cluster.HealthEndpoint"
    "handler/v1/common.DecodeGetClusterReq" EncodeJSON DefaultErrorEncoder.
Definition assignSSHKeyToCluster : Server :=
  MkServer [mTokenVerifier; mUserSaver; mSetClusterProvider; mSetPrivilegedClusterProvider]
    "handler/v1/cluster.AssignSSHKeyEndpoint"
    "handler/v1/cluster.DecodeAssignSSHKeyReq" (SetStatusCreatedHeader EncodeJSON) DefaultErrorEncoder.
Definition listSSHKeysAssignedToCluster : Server :=
  MkServer [mTokenVerifier; mUserSaver; mSetClusterProvider; mSetPrivilegedClusterProvider]
    "handler/v1/cluster.ListSSHKeysEndpoint"
    "handler/v1/cluster.DecodeListSSHKeysReq" EncodeJSON DefaultErrorEncoder.
Definition detachSSHKeyFromCluster : Server :=
  MkServer [mTokenVerifier; mUserSaver; mSetClusterProvider; mSetPrivilegedClusterProvider]
    "handler/v1/cluster.DetachSSHKeyEndpoint"
    "handler/v1/cluster.DecodeDetachSSHKeysReq" EncodeJSON DefaultErrorEncoder.
Definition revokeClusterAdminToken : Server :=
  MkServer [mTokenVerifier; mUserSaver; mSetClusterProvider; mSetPrivilegedClusterProvider]
    "handler/v1/cluster.RevokeAdminTokenEndpoint"
    "handler/v1/cluster.DecodeAdminTokenReq" EncodeJSON DefaultErrorEncoder.
Definition revokeClusterViewerToken : Server :=
  MkServer [mTokenVerifier; mUserSaver; mSetClusterProvider; mSetPrivilegedClusterProvider]
    "handler/v1/cluster.RevokeViewerTokenEndpoint"
    "handler/v1/cluster.DecodeAdminTokenReq" EncodeJSON DefaultErrorEncoder.
Definition getClusterUpgrades : Server :=
  MkServer [mTokenVerifier; mUserSaver; mSetClusterProvider; mSetPrivilegedClusterProvider]
    "handler/v1/cluster.GetUpgradesEndpoint"
    "handler/v1/common.DecodeGetClusterReq" EncodeJSON DefaultErrorEncoder.
Definition getNodeUpgrades : Server :=
  MkServer [mTokenVerifier; mUserSaver]
    "handler/v1/cluster.GetNodeUpgrades"
    "handler/v1/cluster.DecodeNodeUpgradesReq" EncodeJSON DefaultErrorEncoder.
Definition upgradeClusterNodeDeployments : Server :=
  MkServer [mTokenVerifier; mUserSaver; mSetClusterProvider; mSetPrivilegedClusterProvider]
    "handler/v1/cluster.UpgradeNodeDeploymentsEndpoint"
    "handler/v1/cluster.DecodeUpgradeNodeDeploymentsReq" EncodeJSON DefaultErrorEncoder.
Definition addUserToProject : Server :=
  MkServer [mTokenVerifier; mUserSaver]
    "handler/v1/user.AddEndpoint"
    "handler/v1/user.DecodeAddReq" (SetStatusCreatedHeader EncodeJSON) DefaultErrorEncoder.
Definition getUsersForProject : Server :=
  MkServer [mTokenVerifier; mUserSaver]
    "handler/v1/user.ListEndpoint"
    "handler/v1/common.DecodeGetProject" EncodeJSON DefaultErrorEncoder.
Definition editUserInProject : Server :=
  MkServer [mTokenVerifier; mUserSaver]
    "handler/v1/user.EditEndpoint"
    "handler/v1/user.DecodeEditReq" EncodeJSON DefaultErrorEncoder.
Definition deleteUserFromProject : Server :=
  MkServer [mTokenVerifier; mUserSaver]
    "handler/v1/user.DeleteEndpoint"
    "handler/v1/user.DecodeDeleteReq" EncodeJSON DefaultErrorEncoder.
Definition getCurrentUser : Server :=
  MkServer [mTokenVerifier; mUserSaver]
    "handler/v1/user.GetEndpoint"
    "handler/v1/common.DecodeEmptyReq" EncodeJSON DefaultErrorEncoder.
Definition logoutCurrentUser : Server :=
  MkServer [mTokenVerifier; mUserSaver]
    "handler/v1/user.LogoutEndpoint"
    "handler/v1/common.DecodeEmptyReq" EncodeJSON DefaultErrorEncoder.
Definition getCurrentUserSettings : Server :=
  MkServer [mTokenVerifier; mUserSaver]
    "handler/v1/user.GetSettingsEndpoint"
    "handler/v1/common.DecodeEmptyReq" EncodeJSON DefaultErrorEncoder.
Definition patchCurrentUserSettings : Server :=
  MkServer [mTokenVerifier; mUserSaver]
    "handler/v1/user.PatchSettingsEndpoint"
    "handler/v1/user.DecodePatchSettingsReq" EncodeJSON DefaultErrorEncoder.
Definition patchCurrentUserReadAnnouncements : Server :=
  MkServer [mTokenVerifier; mUserSaver]
    "handler/v1/user.PatchReadAnnouncementsEndpoint"
    "handler/v1/user.DecodePatchReadAnnouncementsReq" EncodeJSON DefaultErrorEncoder.
Definition addServiceAccountToProject : Server :=
  MkServer [mTokenVerifier; mUserSaver]
    "handler/v1/serviceaccount.CreateEndpoint"
    "handler/v1/serviceaccount.DecodeAddReq" (SetStatusCreatedHeader EncodeJSON) DefaultErrorEncoder.
Definition listServiceAccounts : Server :=
  MkServer [mTokenVerifier; mUserSaver]
    "handler/v1/serviceaccount.ListEndpoint"
    "handler/v1/common.DecodeGetProject" EncodeJSON DefaultErrorEncoder.
Definition updateServiceAccount : Server :=
  MkServer [mTokenVerifier; mUserSaver]
    "handler/v1/serviceaccount.UpdateEndpoint"
    "handler/v1/serviceaccount.DecodeUpdateReq" EncodeJSON DefaultErrorEncoder.
Definition deleteServiceAccount : Server :=
  MkServer [mTokenVerifier; mUserSaver]
    "handler/v1/serviceaccount.DeleteEndpoint"
    "handler/v1/serviceaccount.DecodeDeleteReq" EncodeJSON DefaultErrorEncoder.
Definition addTokenToServiceAccount : Server :=
  MkServer [mTokenVerifier; mUserSaver]
    "handler/v1/serviceaccount.CreateTokenEndpoint"
    "handler/v1/serviceaccount.DecodeAddTokenReq" (SetStatusCreatedHeader EncodeJSON) DefaultErrorEncoder.
Definition listServiceAccountTokens : Server :=
  MkServer [mTokenVerifier; mUserSaver]
    "handler/v1/serviceaccount.ListTokenEndpoint"
    "handler/v1/serviceaccount.DecodeTokenReq" EncodeJSON DefaultErrorEncoder.
Definition updateServiceAccountToken : Server :=
  MkServer [mTokenVerifier; mUserSaver]
    "handler/v1/serviceaccount.UpdateTokenEndpoint"
    "handler/v1/serviceaccount.DecodeUpdateTokenReq" EncodeJSON DefaultErrorEncoder.
Definition patchServiceAccountToken : Server :=
  MkServer [mTokenVerifier; mUserSaver]
    "handler/v1/serviceaccount.PatchTokenEndpoint"
    "handler/v1/serviceaccount.DecodePatchTokenReq" EncodeJSON DefaultErrorEncoder.
Definition deleteServiceAccountToken : Server :=
  MkServer [mTokenVerifier; mUserSaver]
    "handler/v1/serviceaccount.DeleteTokenEndpoint"
    "handler/v1/serviceaccount.DecodeDeleteTokenReq" EncodeJSON DefaultErrorEncoder.
Definition createNodeDeployment : Server :=
  MkServer [mTokenVerifier; mUserSaver; mSetClusterProvider; mSetPrivilegedClusterProvider]
    "handler/v1/node.CreateNodeDeployment"
    "handler/v1/node.DecodeCreateNodeDeployment" (SetStatusCreatedHeader EncodeJSON) DefaultErrorEncoder.
Definition listNodeDeployments : Server :=
  MkServer [mTokenVerifier; mUserSaver; mSetClusterProvider; mSetPrivilegedClusterProvider]
    "handler/v1/node.ListNodeDeployments"
    "handler/v1/node.DecodeListNodeDeployments" EncodeJSON DefaultErrorEncoder.
Definition getNodeDeployment : Server :=
  MkServer [mTokenVerifier; mUserSaver; mSetClusterProvider; mSetPrivilegedClusterProvider]
    "handler/v1/node.GetNodeDeployment"
    "handler/v1/node.DecodeGetNodeDeployment" EncodeJSON DefaultErrorEncoder.
Definition listNodeDeploymentNodes : Server :=
  MkServer [mTokenVerifier; mUserSaver; mSetClusterProvider; mSetPrivilegedClusterProvider]
    "handler/v1/node.ListNodeDeploymentNodes"
    "handler/v1/node.DecodeListNodeDeploymentNodes" EncodeJSON DefaultErrorEncoder.
Definition listNodeDeploymentMetrics : Server :=
  MkServer [mTokenVerifier; mUserSaver; mSetClusterProvider; mSetPrivilegedClusterProvider]
    "handler/v1/node.ListNodeDeploymentMetrics"
    "handler/v1/node.DecodeListNodeDeploymentMetrics" EncodeJSON DefaultErrorEncoder.
Definition listNodeDeploymentNodesEvents : Server :=
  MkServer [mTokenVerifier; mUserSaver; mSetClusterProvider; mSetPrivilegedClusterProvider]
    "handler/v1/node.ListNodeDeploymentNodesEvents"
    "handler/v1/node.DecodeListNodeDeploymentNodesEvents" EncodeJSON DefaultErrorEncoder.
Definition patchNodeDeployment : Server :=
  MkServer [mTokenVerifier; mUserSaver; mSetClusterProvider; mSetPrivilegedClusterProvider]
    "handler/v1/node.PatchNodeDeployment"
    "handler/v1/node.DecodePatchNodeDeployment" EncodeJSON DefaultErrorEncoder.
Definition deleteNodeDeployment : Server :=
  MkServer [mTokenVerifier; mUserSaver; mSetClusterProvider; mSetPrivilegedClusterProvider]
    "handler/v1/node.DeleteNodeDeployment"
    "handler/v1/node.DecodeDeleteNodeDeployment" EncodeJSON DefaultErrorEncoder.
Definition listAccessibleAddons : Server :=
  MkServer [mTokenVerifier; mUserSaver]
    "handler/v1/addon.ListAccessibleAddons"
    "handler/v1/common.DecodeEmptyReq" EncodeJSON DefaultErrorEncoder.
Definition listInstallableAddons : Server :=
  MkServer [mTokenVerifier; mUserSaver; mSetClusterProvider; mSetPrivilegedClusterProvider; mAddons; mPrivilegedAddons]
    "handler/v1/addon.ListInstallableAddonEndpoint"
    "handler/v1/addon.DecodeListAddons" EncodeJSON DefaultErrorEncoder.
Definition createAddon : Server :=
  MkServer [mTokenVerifier; mUserSaver; mSetClusterProvider; mSetPrivilegedClusterProvider; mAddons; mPrivilegedAddons]
    "handler/v1/addon.CreateAddonEndpoint"
    "handler/v1/addon.DecodeCreateAddon" (SetStatusCreatedHeader EncodeJSON) DefaultErrorEncoder.
Definition listAddons : Server :=
  MkServer [mTokenVerifier; mUserSaver; mSetClusterProvider; mSetPrivilegedClusterProvider; mAddons; mPrivilegedAddons]
    "handler/v1/addon.ListAddonEndpoint"
    "handler/v1/addon.DecodeListAddons" EncodeJSON DefaultErrorEncoder.
Definition getAddon : Server :=
  MkServer [mTokenVerifier; mUserSaver; mSetClusterProvider; mSetPrivilegedClusterProvider; mAddons; mPrivilegedAddons]
    "handler/v1/addon.GetAddonEndpoint"
    "handler/v1/addon.DecodeGetAddon" EncodeJSON DefaultErrorEncoder.
Definition patchAddon : Server :=
  MkServer [mTokenVerifier; mUserSaver; mSetClusterProvider; mSetPrivilegedClusterProvider; mAddons; mPrivilegedAddons]
    "handler/v1/addon.PatchAddonEndpoint"
    "handler/v1/addon.DecodePatchAddon" EncodeJSON DefaultErrorEncoder.
Definition deleteAddon : Server :=
  MkServer [mTokenVerifier; mUserSaver; mSetClusterProvider; mSetPrivilegedClusterProvider; mAddons; mPrivilegedAddons]
    "handler/v1/addon.DeleteAddonEndpoint"
    "handler/v1/addon.DecodeGetAddon" EncodeJSON DefaultErrorEncoder.
Definition getClusterMetrics : Server :=
  MkServer [mTokenVerifier; mUserSaver; mSetClusterProvider; mSetPrivilegedClusterProvider]
    "handler/v1/cluster.GetMetricsEndpoint"
    "handler/v1/common.DecodeGetClusterReq" EncodeJSON DefaultErrorEncoder.
Definition createClusterRole : Server :=
  MkServer [mTokenVerifier; mUserSaver; mSetClusterProvider]
    "handler/v1/cluster.CreateClusterRoleEndpoint"
    "handler/v1/cluster.DecodeCreateClusterRoleReq" EncodeJSON DefaultErrorEncoder.
Definition createRole : Server :=
  MkServer [mTokenVerifier; mUserSaver; mSetClusterProvider]
    "handler/v1/cluster.CreateRoleEndpoint"
    "handler/v1/cluster.DecodeCreateRoleReq" EncodeJSON DefaultErrorEncoder.
Definition listClusterRole : Server :=
  MkServer [mTokenVerifier; mUserSaver; mSetClusterProvider]
    "handler/v1/cluster.ListClusterRoleEndpoint"
    "handler/v1/cluster.DecodeListClusterRoleReq" EncodeJSON DefaultErrorEncoder.
Definition listClusterRoleNames : Server :=
  MkServer [mTokenVerifier; mUserSaver; mSetClusterProvider]
    "handler/v1/cluster.ListClusterRoleNamesEndpoint"
    "handler/v1/cluster.DecodeListClusterRoleReq" EncodeJSON DefaultErrorEncoder.
Definition listRole : Server :=
  MkServer [mTokenVerifier; mUserSaver; mSetClusterProvider]
    "handler/v1/cluster.ListRoleEndpoint"
    "handler/v1/cluster.DecodeListClusterRoleReq" EncodeJSON DefaultErrorEncoder.
Definition listRoleNames : Server :=
  MkServer [mTokenVerifier; mUserSaver; mSetClusterProvider]
    "handler/v1/cluster.ListRoleNamesEndpoint"
    "handler/v1/cluster.DecodeListClusterRoleReq" EncodeJSON DefaultErrorEncoder.
Definition getClusterRole : Server :=
  MkServer [mTokenVerifier; mUserSaver; mSetClusterProvider]
    "handler/v1/cluster.GetClusterRoleEndpoint"
    "handler/v1/cluster.DecodeGetClusterRoleReq" EncodeJSON DefaultErrorEncoder.
Definition getRole : Server :=
  MkServer [mTokenVerifier; mUserSaver; mSetClusterProvider]
    "handler/v1/cluster.GetRoleEndpoint"
    "handler/v1/cluster.DecodeGetRoleReq" EncodeJSON DefaultErrorEncoder.
Definition deleteClusterRole : Server :=
  MkServer [mTokenVerifier; mUserSaver; mSetClusterProvider]
    "handler/v1/cluster.DeleteClusterRoleEndpoint"
    "handler/v1/cluster.DecodeGetClusterRoleReq" EncodeJSON DefaultErrorEncoder.
Definition deleteRole : Server :=
  MkServer [mTokenVerifier; mUserSaver; mSetClusterProvider]
    "handler/v1/cluster.DeleteRoleEndpoint"
    "handler/v1/cluster.DecodeGetRoleReq" EncodeJSON DefaultErrorEncoder.
Definition listNamespace : Server :=
  MkServer [mTokenVerifier; mUserSaver; mSetClusterProvider; mSetPrivilegedClusterProvider]
    "handler/v1/cluster.ListNamespaceEndpoint"
    "handler/v1/common.DecodeGetClusterReq" EncodeJSON DefaultErrorEncoder.
Definition patchRole : Server :=
  MkServer [mTokenVerifier; mUserSaver; mSetClusterProvider]
    "handler/v1/cluster.PatchRoleEndpoint"
    "handler/v1/cluster.DecodePatchRoleReq" EncodeJSON DefaultErrorEncoder.
Definition patchClusterRole : Server :=
  MkServer [mTokenVerifier; mUserSaver; mSetClusterProvider]
    "handler/v1/cluster.PatchClusterRoleEndpoint"
    "handler/v1/cluster.DecodePatchClusterRoleReq" EncodeJSON DefaultErrorEncoder.
Definition bindUserToRole : Server :=
  MkServer [mTokenVerifier; mUserSaver; mSetClusterProvider; mSetPrivilegedClusterProvider]
    "handler/v1/cluster.BindUserToRoleEndpoint"
    "handler/v1/cluster.DecodeRoleUserReq" EncodeJSON DefaultErrorEncoder.
Definition unbindUserFromRoleBinding : Server :=
  MkServer [mTokenVerifier; mUserSaver; mSetClusterProvider; mSetPrivilegedClusterProvider]
    "handler/v1/cluster.UnbindUserFromRoleBindingEndpoint"
    "handler/v1/cluster.DecodeRoleUserReq" EncodeJSON DefaultErrorEncoder.
Definition listRoleBinding : Server :=
  MkServer [mTokenVerifier; mUserSaver; mSetClusterProvider; mSetPrivilegedClusterProvider]
    "handler/v1/cluster.ListRoleBindingEndpoint"
    "handler/v1/cluster.DecodeListBindingReq" EncodeJSON DefaultErrorEncoder.
Definition bindUserToClusterRole : Server :=
  MkServer [mTokenVerifier; mUserSaver; mSetClusterProvider; mSetPrivilegedClusterProvider]
    "handler/v1/cluster.BindUserToClusterRoleEndpoint"
    "handler/v1/cluster.DecodeClusterRoleUserReq" EncodeJSON DefaultErrorEncoder.
Definition listSystemLabels : Server :=
  MkServer [mTokenVerifier]
    "handler/v1/label.ListSystemLabels"
    "handler/v1/common.DecodeEmptyReq" EncodeJSON DefaultErrorEncoder.
Definition getAddonConfig : Server :=
  MkServer [mTokenVerifier; mUserSaver]
    "handler/v1/addon.GetAddonConfigEndpoint"
    "handler/v1/addon.DecodeGetConfig" EncodeJSON DefaultErrorEncoder.
Definition listAddonConfigs : Server :=
  MkServer [mTokenVerifier; mUserSaver]
    "handler/v1/addon.ListAddonConfigsEndpoint"
    "handler/v1/common.DecodeEmptyReq" EncodeJSON DefaultErrorEncoder.
Definition getAdmissionPlugins : Server :=
  MkServer [mTokenVerifier; mUserSaver]
    "handler/v1/admission-plugin.GetAdmissionPluginEndpoint"
    "handler/v1/admission-plugin.DecodeGetAdmissionPlugin" EncodeJSON DefaultErrorEncoder.
Definition listCredentials : Server :=
  MkServer [mTokenVerifier; mUserSaver]
    "handler/v1/presets.CredentialEndpoint"
    "handler/v1/presets.DecodeProviderReq" EncodeJSON DefaultErrorEncoder.

(** routes_v1_admin.go *)

Definition getKubermaticSettings : Server :=
  MkServer [mTokenVerifier; mUserSaver]
    "handler/v1/admin.KubermaticSettingsEndpoint"
    "handler/v1/common.DecodeEmptyReq" EncodeJSON DefaultErrorEncoder.
Definition getKubermaticCustomLinks : Server :=
  MkServer []
    "handler/v1/admin.KubermaticCustomLinksEndpoint"
    "handler/v1/common.DecodeEmptyReq" EncodeJSON DefaultErrorEncoder.
Definition patchKubermaticSettings : Server :=
  MkServer [mTokenVerifier; mUserSaver]
    "handler/v1/admin.UpdateKubermaticSettingsEndpoint"
    "handler/v1/admin.DecodePatchKubermaticSettingsReq" EncodeJSON DefaultErrorEncoder.
Definition getAdmins : Server :=
  MkServer [mTokenVerifier; mUserSaver]
    "handler/v1/admin.GetAdminEndpoint"
    "handler/v1/common.DecodeEmptyReq" EncodeJSON DefaultErrorEncoder.
Definition setAdmin : Server :=
  MkServer [mTokenVerifier; mUserSaver]
    "handler/v1/admin.SetAdminEndpoint"
    "handler/v1/admin.DecodeSetAdminReq" EncodeJSON DefaultErrorEncoder.
Definition listAdmissionPlugins : Server :=
  MkServer [mTokenVerifier; mUserSaver]
    "handler/v1/admin.ListAdmissionPluginEndpoint"
    "handler/v1/common.DecodeEmptyReq" EncodeJSON DefaultErrorEncoder.
Definition getAdmissionPlugin : Server :=
  MkServer [mTokenVerifier; mUserSaver]
    "handler/v1/admin.GetAdmissionPluginEndpoint"
    "handler/v1/admin.DecodeAdmissionPluginReq" EncodeJSON DefaultErrorEncoder.
Definition deleteAdmissionPlugin : Server :=
  MkServer [mTokenVerifier; mUserSaver]
    "handler/v1/admin.DeleteAdmissionPluginEndpoint"
    "handler/v1/admin.DecodeAdmissionPluginReq" EncodeJSON DefaultErrorEncoder.
Definition updateAdmissionPlugin : Server :=
  MkServer [mTokenVerifier; mUserSaver]
    "handler/v1/admin.UpdateAdmissionPluginEndpoint"
    "handler/v1/admin.DecodeUpdateAdmissionPluginReq" EncodeJSON DefaultErrorEncoder.
Definition createSeed : Server :=
  MkServer [mTokenVerifier; mUserSaver]
    "handler/v1/admin.CreateSeedEndpoint"
    "handler/v1/admin.DecodeCreateSeedReq" EncodeJSON DefaultErrorEncoder.
Definition listSeeds : Server :=
  MkServer [mTokenVerifier; mUserSaver]
    "handler/v1/admin.ListSeedEndpoint"
    "handler/v1/common.DecodeEmptyReq" EncodeJSON DefaultErrorEncoder.
Definition getSeed : Server :=
  MkServer [mTokenVerifier; mUserSaver]
    "handler/v1/admin.GetSeedEndpoint"
    "handler/v1/admin.DecodeSeedReq" EncodeJSON DefaultErrorEncoder.
Definition updateSeed : Server :=
  MkServer [mTokenVerifier; mUserSaver]
    "handler/v1/admin.UpdateSeedEndpoint"
    "handler/v1/admin.DecodeUpdateSeedReq" EncodeJSON DefaultErrorEncoder.
Definition deleteSeed : Server :=
  MkServer [mTokenVerifier; mUserSaver]
    "handler/v1/admin.DeleteSeedEndpoint"
    "handler/v1/admin.DecodeSeedReq" EncodeJSON DefaultErrorEncoder.
Definition deleteBackupDestination : Server :=
  MkServer [mTokenVerifier; mUserSaver]
    "handler/v1/admin.DeleteBackupDestinationEndpoint"
    "handler/v1/admin.DecodeBackupDestinationReq" EncodeJSON DefaultErrorEncoder.
Definition createOrUpdateMeteringCredentials : Server :=
  MkServer [mTokenVerifier; mUserSaver]
    "handler/v1/admin.CreateOrUpdateMeteringCredentials"
    "handler/v1/admin.DecodeMeteringSecretReq" EncodeJSON DefaultErrorEncoder.
Definition createOrUpdateMeteringConfigurations : Server :=
  MkServer [mTokenVerifier; mUserSaver]
    "handler/v1/admin.CreateOrUpdateMeteringConfigurations"
    "handler/v1/admin.DecodeMeteringConfigurationsReq" EncodeJSON DefaultErrorEncoder.
Definition GetMeteringReportConfiguration : Server :=
  MkServer [mTokenVerifier; mUserSaver]
    "handler/v1/admin.GetMeteringReportConfigurationEndpoint"
    "handler/v1/admin.DecodeGetMeteringReportConfigurationReq" EncodeJSON DefaultErrorEncoder.
Definition ListMeteringReportConfigurations : Server :=
  MkServer [mTokenVerifier; mUserSaver]
    "handler/v1/admin.ListMeteringReportConfigurationsEndpoint"
    "handler/v1/common.DecodeEmptyReq" EncodeJSON DefaultErrorEncoder.
Definition CreateMeteringReportConfiguration : Server :=
  MkServer [mTokenVerifier; mUserSaver]
    "handler/v1/admin.CreateMeteringReportConfigurationEndpoint"
    "handler/v1/admin.DecodeCreateMeteringReportConfigurationReq" (SetStatusCreatedHeader EncodeJSON) DefaultErrorEncoder.
Definition UpdateMeteringReportConfiguration : Server :=
  MkServer [mTokenVerifier; mUserSaver]
    "handler/v1/admin.UpdateMeteringReportConfigurationEndpoint"
    "handler/v1/admin.DecodeUpdateMeteringReportConfigurationReq" EncodeJSON DefaultErrorEncoder.
Definition DeleteMeteringReportConfiguration : Server :=
  MkServer [mTokenVerifier; mUserSaver]
    "handler/v1/admin.DeleteMeteringReportConfigurationEndpoint"
    "handler/v1/admin.DecodeDeleteMeteringReportConfigurationReq" EncodeJSON DefaultErrorEncoder.
Definition listMeteringReports : Server :=
  MkServer [mTokenVerifier; mUserSaver]
    "handler/v1/admin.ListMeteringReportsEndpoint"
    "handler/v1/admin.DecodeListMeteringReportReq" EncodeJSON DefaultErrorEncoder.
Definition getMeteringReport : Server :=
  MkServer [mTokenVerifier; mUserSaver]
    "handler/v1/admin.GetMeteringReportEndpoint"
    "handler/v1/admin.DecodeGetMeteringReportReq" EncodeJSON DefaultErrorEncoder.
Definition deleteMeteringReport : Server :=
  MkServer [mTokenVerifier; mUserSaver]
    "handler/v1/admin.DeleteMeteringReportEndpoint"
    "handler/v1/admin.DecodeDeleteMeteringReportReq" EncodeJSON DefaultErrorEncoder.

(** routes_v1_optional.go *)

Definition createOIDCKubeconfig : Server :=
  MkServer [mSetClusterProvider; mSetPrivilegedClusterProvider; mUserInfoUnauthorized; mOIDCProviders]
    "handler/v1/cluster.CreateOIDCKubeconfigEndpoint"
    "handler/v1/cluster.DecodeCreateOIDCKubeconfig" (EncoderNamed "handler/v1/cluster.EncodeOIDCKubeconfig") OIDCCallbackErrorEncoder.

(** ** Tables, in the order of the registration *)

Definition RegisterV1_part_1 : list Route :=
  [MkRoute (Some MGet) "/healthz" false [] (HandlerFunc "statusOK");
   handle MGet "/dc" datacentersHandler;
   handle MGet "/dc/{dc}" datacenterHandler;
   handle MGet "/seed/{seed_name}/dc" listDCForSeed;
   handle MGet "/seed/{seed_name}/dc/{dc}" getDCForSeed;
   handle MPost "/seed/{seed_name}/dc" createDC;
   handle MPut "/seed/{seed_name}/dc/{dc}" updateDC;
   handle MPatch "/seed/{seed_name}/dc/{dc}" patchDC;
   handle MDelete "/seed/{seed_name}/dc/{dc}" deleteDC;
   handle MGet "/providers/{provider_name}/dc" listDCForProvider;
   handle MGet "/providers/{provider_name}/dc/{dc}" getDCForProvider;
   handle MGet "/seed" listSeedNames;
   handle MGet "/version" getKubermaticVersion;
   handle MGet "/projects" listProjects;
   handle MGet "/projects/{project_id}" getProject;
   handle MPost "/projects" createProject;
   handle MPut "/projects/{project_id}" updateProject;
   handle MDelete "/projects/{project_id}" deleteProject;
   handle MPost "/projects/{project_id}/sshkeys" createSSHKey;
   handle MDelete "/projects/{project_id}/sshkeys/{key_id}" deleteSSHKey;
   handle MGet "/projects/{project_id}/sshkeys" listSSHKeys].

Definition RegisterV1_part_2 : list Route :=
  [handle MGet "/projects/{project_id}/clusters" listClustersForProject;
   handle MPost "/projects/{project_id}/dc/{dc}/clusters" createCluster;
   handle MGet "/projects/{project_id}/dc/{dc}/clusters" listClusters;
   handle MGet "/projects/{project_id}/dc/{dc}/clusters/{cluster_id}" getCluster;
   handle MPatch "/projects/{project_id}/dc/{dc}/clusters/{cluster_id}" patchCluster;
   handle MGet "/projects/{project_id}/dc/{dc}/clusters/{cluster_id}/events" getClusterEvents;
   handle MGet "/projects/{project_id}/dc/{dc}/clusters/{cluster_id}/kubeconfig" getClusterKubeconfig;
   handle MGet "/projects/{project_id}/dc/{dc}/clusters/{cluster_id}/oidckubeconfig" getOidcClusterKubeconfig;
   handle MDelete "/projects/{project_id}/dc/{dc}/clusters/{cluster_id}" deleteCluster;
   handle MGet "/projects/{project_id}/dc/{dc}/clusters/{cluster_id}/health" getClusterHealth;
   handle MGet "/projects/{project_id}/dc/{dc}/clusters/{cluster_id}/upgrades" getClusterUpgrades;
   handle MPut "/projects/{project_id}/dc/{dc}/clusters/{cluster_id}/nodes/upgrades" upgradeClusterNodeDeployments;
   handle MGet "/projects/{project_id}/dc/{dc}/clusters/{cluster_id}/metrics" getClusterMetrics;
   handle MGet "/projects/{project_id}/dc/{dc}/clusters/{cluster_id}/namespaces" listNamespace;
   handle MPost "/projects/{project_id}/dc/{dc}/clusters/{cluster_id}/clusterroles" createClusterRole;
   handle MGet "/projects/{project_id}/dc/{dc}/clusters/{cluster_id}/clusterroles" listClusterRole;
   handle MGet "/projects/{project_id}/dc/{dc}/clusters/{cluster_id}/clusterrolenames" listClusterRoleNames;
   handle MGet "/projects/{project_id}/dc/{dc}/clusters/{cluster_id}/clusterroles/{role_id}" getClusterRole;
   handle MDelete "/projects/{project_id}/dc/{dc}/clusters/{cluster_id}/clusterroles/{role_id}" deleteClusterRole;
   handle MPatch "/projects/{project_id}/dc/{dc}/clusters/{cluster_id}/clusterroles/{role_id}" patchClusterRole;
   handle MPost "/projects/{project_id}/dc/{dc}/clusters/{cluster_id}/clusterroles/{role_id}/clusterbindings" bindUserToClusterRole;
   handle MPost "/projects/{project_id}/dc/{dc}/clusters/{cluster_id}/roles" createRole;
   handle MGet "/projects/{project_id}/dc/{dc}/clusters/{cluster_id}/roles" listRole;
   handle MGet "/projects/{project_id}/dc/{dc}/clusters/{cluster_id}/rolenames" listRoleNames;
   handle MGet "/projects/{project_id}/dc/{dc}/clusters/{cluster_id}/roles/{namespace}/{role_id}" getRole;
   handle MDelete "/projects/{project_id}/dc/{dc}/clusters/{cluster_id}/roles/{namespace}/{role_id}" deleteRole;
   handle MPatch "/projects/{project_id}/dc/{dc}/clusters/{cluster_id}/roles/{namespace}/{role_id}" patchRole;
   handle MPost "/projects/{project_id}/dc/{dc}/clusters/{cluster_id}/roles/{namespace}/{role_id}/bindings" bindUserToRole;
   handle MDelete "/projects/{project_id}/dc/{dc}/clusters/{cluster_id}/roles/{namespace}/{role_id}/bindings" unbindUserFromRoleBinding;
   handle MGet "/projects/{project_id}/dc/{dc}/clusters/{cluster_id}/bindings" listRoleBinding].

Definition RegisterV1_part_3 : list Route :=
  [handle MPut "/projects/{project_id}/dc/{dc}/clusters/{cluster_id}/sshkeys/{key_id}" assignSSHKeyToCluster;
   handle MGet "/projects/{project_id}/dc/{dc}/clusters/{cluster_id}/sshkeys" listSSHKeysAssignedToCluster;
   handle MDelete "/projects/{project_id}/dc/{dc}/clusters/{cluster_id}/sshkeys/{key_id}" detachSSHKeyFromCluster;
   handle MPut "/projects/{project_id}/dc/{dc}/clusters/{cluster_id}/token" revokeClusterAdminToken;
   handle MPut "/projects/{project_id}/dc/{dc}/clusters/{cluster_id}/viewertoken" revokeClusterViewerToken;
   handle MPost "/projects/{project_id}/dc/{dc}/clusters/{cluster_id}/nodedeployments" createNodeDeployment;
   handle MGet "/projects/{project_id}/dc/{dc}/clusters/{cluster_id}/nodedeployments" listNodeDeployments;
   handle MGet "/projects/{project_id}/dc/{dc}/clusters/{cluster_id}/nodedeployments/{nodedeployment_id}" getNodeDeployment;
   handle MGet "/projects/{project_id}/dc/{dc}/clusters/{cluster_id}/nodedeployments/{nodedeployment_id}/nodes" listNodeDeploymentNodes;
   handle MGet "/projects/{project_id}/dc/{dc}/clusters/{cluster_id}/nodedeployments/{nodedeployment_id}/nodes/metrics" listNodeDeploymentMetrics;
   handle MGet "/projects/{project_id}/dc/{dc}/clusters/{cluster_id}/nodedeployments/{nodedeployment_id}/nodes/events" listNodeDeploymentNodesEvents;
   handle MPatch "/projects/{project_id}/dc/{dc}/clusters/{cluster_id}/nodedeployments/{nodedeployment_id}" patchNodeDeployment;
   handle MDelete "/projects/{project_id}/dc/{dc}/clusters/{cluster_id}/nodedeployments/{nodedeployment_id}" deleteNodeDeployment;
   handle MGet "/addons" listAccessibleAddons;
   handle MGet "/addonconfigs/{addon_id}" getAddonConfig;
   handle MGet "/addonconfigs" listAddonConfigs;
   handle MGet "/projects/{project_id}/dc/{dc}/clusters/{cluster_id}/installableaddons" listInstallableAddons;
   handle MPost "/projects/{project_id}/dc/{dc}/clusters/{cluster_id}/addons" createAddon;
   handle MGet "/projects/{project_id}/dc/{dc}/clusters/{cluster_id}/addons" listAddons;
   handle MGet "/projects/{project_id}/dc/{dc}/clusters/{cluster_id}/addons/{addon_id}" getAddon;
   handle MPatch "/projects/{project_id}/dc/{dc}/clusters/{cluster_id}/addons/{addon_id}" patchAddon;
   handle MDelete "/projects/{project_id}/dc/{dc}/clusters/{cluster_id}/addons/{addon_id}" deleteAddon;
   handle MPost "/projects/{project_id}/users" addUserToProject;
   handle MGet "/projects/{project_id}/users" getUsersForProject;
   handle MPut "/projects/{project_id}/users/{user_id}" editUserInProject;
   handle MDelete "/projects/{project_id}/users/{user_id}" deleteUserFromProject;
   handle MPost "/projects/{project_id}/serviceaccounts" addServiceAccountToProject;
   handle MGet "/projects/{project_id}/serviceaccounts" listServiceAccounts;
   handle MPut "/projects/{project_id}/serviceaccounts/{serviceaccount_id}" updateServiceAccount;
   handle MDelete "/projects/{project_id}/serviceaccounts/{serviceaccount_id}" deleteServiceAccount].

Definition RegisterV1_part_4 : list Route :=
  [handle MPost "/projects/{project_id}/serviceaccounts/{serviceaccount_id}/tokens" addTokenToServiceAccount;
   handle MGet "/projects/{project_id}/serviceaccounts/{serviceaccount_id}/tokens" listServiceAccountTokens;
   handle MPut "/projects/{project_id}/serviceaccounts/{serviceaccount_id}/tokens/{token_id}" updateServiceAccountToken;
   handle MPatch "/projects/{project_id}/serviceaccounts/{serviceaccount_id}/tokens/{token_id}" patchServiceAccountToken;
   handle MDelete "/projects/{project_id}/serviceaccounts/{serviceaccount_id}/tokens/{token_id}" deleteServiceAccountToken;
   handle MGet "/upgrades/cluster" getMasterVersions;
   handle MGet "/upgrades/node" getNodeUpgrades;
   handle MGet "/me" getCurrentUser;
   handle MPost "/me/logout" logoutCurrentUser;
   handle MGet "/me/settings" getCurrentUserSettings;
   handle MPatch "/me/settings" patchCurrentUserSettings;
   handle MPatch "/me/readannouncements" patchCurrentUserReadAnnouncements;
   handle MGet "/labels/system" listSystemLabels;
   handle MGet "/admission/plugins/{version}" getAdmissionPlugins;
   handle MGet "/providers/{provider_name}/presets/credentials" listCredentials].

Definition RegisterV1 : list Route :=
  RegisterV1_part_1 ++ RegisterV1_part_2 ++ RegisterV1_part_3 ++ RegisterV1_part_4.

Definition RegisterV1Admin : list Route :=
  [handle MGet "/admin" getAdmins;
   handle MPut "/admin" setAdmin;
   handle MGet "/admin/settings" getKubermaticSettings;
   handle MGet "/admin/settings/customlinks" getKubermaticCustomLinks;
   handle MPatch "/admin/settings" patchKubermaticSettings;
   handle MGet "/admin/admission/plugins" listAdmissionPlugins;
   handle MGet "/admin/admission/plugins/{name}" getAdmissionPlugin;
   handle MDelete "/admin/admission/plugins/{name}" deleteAdmissionPlugin;
   handle MPatch "/admin/admission/plugins/{name}" updateAdmissionPlugin;
   handle MPost "/admin/seeds" createSeed;
   handle MGet "/admin/seeds" listSeeds;
   handle MGet "/admin/seeds/{seed_name}" getSeed;
   handle MPatch "/admin/seeds/{seed_name}" updateSeed;
   handle MDelete "/admin/seeds/{seed_name}" deleteSeed;
   handle MDelete "/admin/seeds/{seed_name}/backupdestinations/{backup_destination}" deleteBackupDestination;
   handle MPut "/admin/metering/credentials" createOrUpdateMeteringCredentials;
   handle MPut "/admin/metering/configurations" createOrUpdateMeteringConfigurations;
   handle MGet "/admin/metering/configurations/reports/{name}" GetMeteringReportConfiguration;
   handle MGet "/admin/metering/configurations/reports" ListMeteringReportConfigurations;
   handle MPost "/admin/metering/configurations/reports/{name}" CreateMeteringReportConfiguration;
   handle MPut "/admin/metering/configurations/reports/{name}" UpdateMeteringReportConfiguration;
   handle MDelete "/admin/metering/configurations/reports/{name}" DeleteMeteringReportConfiguration;
   handle MGet "/admin/metering/reports" listMeteringReports;
   handle MGet "/admin/metering/reports/{report_name}" getMeteringReport;
   handle MDelete "/admin/metering/reports/{report_name}" deleteMeteringReport].

Definition RegisterV1Optional (oidcKubeConfEndpoint : bool) : list Route :=
  if oidcKubeConfEndpoint then [handle MGet "/kubeconfig" createOIDCKubeconfig] else [].

(** [mux.HandleFunc]: every method. *)
Definition RegisterV1Websocket : list Route :=
  [MkRoute None "/ws/admin/settings" false [] (HandlerFunc "handler.getSettingsWatchHandler");
   MkRoute None "/ws/me" false [] (HandlerFunc "handler.getUserWatchHandler");
   MkRoute None "/ws/projects/{project_id}/clusters/{cluster_id}/terminal" false []
     (HandlerFunc "handler.getTerminalWatchHandler")].
