(* ===== verification/RoutesV2.v ===== *)
(** The routes of version 2 of the API: the servers of handler/v2/routes_v2.go
    and the table of RegisterV2, with the handlers that install themselves
    (handler/v2/authflow/routing.go, handler/v2/kubernetes-dashboard). *)
From S2P Require Export Routing.

(** ** Servers *)

Definition listProjectAWSSizes : Server :=
  MkServer [mTokenVerifier; mUserSaver]
    "handler/v2/provider.ListProjectAWSSizes"
    "handler/v2/provider.DecodeProjectAWSSizesReq" EncodeJSON DefaultErrorEncoder.
Definition listProjectAWSSubnets : Server :=
  MkServer [mTokenVerifier; mUserSaver]
    "handler/v2/provider.ListProjectAWSSubnets"
    "handler/v2/provider.DecodeProjectAWSDCReq" EncodeJSON DefaultErrorEncoder.
Definition listProjectAWSVPCs : Server :=
  MkServer [mTokenVerifier; mUserSaver]
    "handler/v2/provider.ListProjectAWSVPCs"
    "handler/v2/provider.DecodeProjectAWSDCReq" EncodeJSON DefaultErrorEncoder.
Definition listProjectAWSSecurityGroups : Server :=
  MkServer [mTokenVerifier; mUserSaver]
    "handler/v2/provider.ListProjectAWSSecurityGroups"
    "handler/v2/provider.DecodeProjectAWSDCReq" EncodeJSON DefaultErrorEncoder.
Definition listProjectGCPDiskTypes : Server :=
  MkServer [mTokenVerifier; mUserSaver]
    "handler/v2/provider.ListProjectGCPDiskTypes"
    "handler/v2/provider.DecodeProjectGCPDisktypes" EncodeJSON DefaultErrorEncoder.
Definition listProjectGCPSubnetworks : Server :=
  MkServer [mTokenVerifier; mUserSaver]
    "handler/v2/provider.ListProjectGCPSubnetworks"
    "handler/v2/provider.DecodeProjectGCPSubnetworks" EncodeJSON DefaultErrorEncoder.
Definition listProjectGCPNetworks : Server :=
  MkServer [mTokenVerifier; mUserSaver]
    "handler/v2/provider.ListProjectGCPNetworks"
    "handler/v2/provider.DecodeProjectGCPCommonReq" EncodeJSON DefaultErrorEncoder.
Definition listProjectGCPZones : Server :=
  MkServer [mTokenVerifier; mUserSaver]
    "handler/v2/provider.ListProjectGCPZones"
    "handler/v2/provider.DecodeProjectGCPZones" EncodeJSON DefaultErrorEncoder.
Definition listProjectGCPVMSizes : Server :=
  MkServer [mTokenVerifier; mUserSaver]
    "handler/v2/provider.ListProjectGCPVMSizes"
    "handler/v2/provider.DecodeProjectGCPVMSizes" EncodeJSON DefaultErrorEncoder.
Definition createCluster : Server :=
  MkServer [mTokenVerifier; mUserSaver; mSetClusterProvider; mSetPrivilegedClusterProvider]
    "handler/v2/cluster.CreateEndpoint"
    "handler/v2/cluster.DecodeCreateReq" (SetStatusCreatedHeader EncodeJSON) DefaultErrorEncoder.
Definition listClusters : Server :=
  MkServer [mTokenVerifier; mUserSaver]
    "handler/v2/cluster.ListEndpoint"
    "handler/v2/cluster.DecodeListClustersReq" EncodeJSON DefaultErrorEncoder.
Definition getCluster : Server :=
  MkServer [mTokenVerifier; mUserSaver; mSetClusterProvider; mSetPrivilegedClusterProvider]
    "handler/v2/cluster.GetEndpoint"
    "handler/v2/cluster.DecodeGetClusterReq" EncodeJSON DefaultErrorEncoder.
Definition deleteCluster : Server :=
  MkServer [mTokenVerifier; mUserSaver; mSetClusterProvider; mSetPrivilegedClusterProvider]
    "handler/v2/cluster.DeleteEndpoint"
    "handler/v2/cluster.DecodeDeleteReq" EncodeJSON DefaultErrorEncoder.
Definition patchCluster : Server :=
  MkServer [mTokenVerifier; mUserSaver; mSetClusterProvider; mSetPrivilegedClusterProvider]
    "handler/v2/cluster.PatchEndpoint"
    "handler/v2/cluster.DecodePatchReq" EncodeJSON DefaultErrorEncoder.
Definition getClusterEvents : Server :=
  MkServer [mTokenVerifier; mUserSaver; mSetClusterProvider; mSetPrivilegedClusterProvider]
    "handler/v2/cluster.GetClusterEventsEndpoint"
    "handler/v2/cluster.DecodeGetClusterEvents" EncodeJSON DefaultErrorEncoder.
Definition getClusterHealth : Server :=
  MkServer [mTokenVerifier; mUserSaver; mSetClusterProvider; mSetPrivilegedClusterProvider]
    "handler/v2/cluster.HealthEndpoint"
    "handler/v2/cluster.DecodeGetClusterReq" EncodeJSON DefaultErrorEncoder.
Definition getClusterKubeconfig : Server :=
  MkServer [mTokenVerifier; mUserSaver; mSetClusterProvider; mSetPrivilegedClusterProvider]
    "handler/v2/cluster.GetAdminKubeconfigEndpoint"
    "handler/v2/cluster.DecodeGetClusterReq" (EncoderNamed "handler/v2/cluster.EncodeKubeconfig") OIDCCallbackErrorEncoder.
Definition getOidcClusterKubeconfig : Server :=
  MkServer [mTokenVerifier; mUserSaver; mSetClusterProvider; mSetPrivilegedClusterProvider]
    "handler/v2/cluster.GetOidcKubeconfigEndpoint"
    "handler/v2/cluster.DecodeGetClusterReq" (EncoderNamed "handler/v2/cluster.EncodeKubeconfig") DefaultErrorEncoder.
Definition getClusterOidc : Server :=
  MkServer [mTokenVerifier; mUserSaver; mSetClusterProvider; mSetPrivilegedClusterProvider]
    "handler/v2/cluster.GetClusterOidcEndpoint"
    "handler/v2/cluster.DecodeGetClusterReq" EncodeJSON DefaultErrorEncoder.
Definition getClusterMetrics : Server :=
  MkServer [mTokenVerifier; mUserSaver; mSetClusterProvider; mSetPrivilegedClusterProvider]
    "handler/v2/cluster.GetMetricsEndpoint"
    "handler/v2/cluster.DecodeGetClusterReq" EncodeJSON DefaultErrorEncoder.
Definition listNamespace : Server :=
  MkServer [mTokenVerifier; mUserSaver; mSetClusterProvider; mSetPrivilegedClusterProvider]
    "handler/v2/cluster.ListNamespaceEndpoint"
    "handler/v2/cluster.DecodeGetClusterReq" EncodeJSON DefaultErrorEncoder.
Definition getClusterUpgrades : Server :=
  MkServer [mTokenVerifier; mUserSaver; mSetClusterProvider; mSetPrivilegedClusterProvider]
    "handler/v2/cluster.GetUpgradesEndpoint"
    "handler/v2/cluster.DecodeGetClusterReq" EncodeJSON DefaultErrorEncoder.
Definition upgradeClusterNodeDeployments : Server :=
  MkServer [mTokenVerifier; mUserSaver; mSetClusterProvider; mSetPrivilegedClusterProvider]
    "handler/v2/cluster.UpgradeNodeDeploymentsEndpoint"
    "handler/v2/cluster.DecodeUpgradeNodeDeploymentsReq" EncodeJSON DefaultErrorEncoder.
Definition assignSSHKeyToCluster : Server :=
  MkServer [mTokenVerifier; mUserSaver; mSetClusterProvider; mSetPrivilegedClusterProvider]
    "handler/v2/cluster.AssignSSHKeyEndpoint"
    "handler/v2/cluster.DecodeAssignSSHKeyReq" (SetStatusCreatedHeader EncodeJSON) DefaultErrorEncoder.
Definition detachSSHKeyFromCluster : Server :=
  MkServer [mTokenVerifier; mUserSaver; mSetClusterProvider; mSetPrivilegedClusterProvider]
    "handler/v2/cluster.DetachSSHKeyEndpoint"
    "handler/v2/cluster.DecodeAssignSSHKeyReq" EncodeJSON DefaultErrorEncoder.
Definition listSSHKeysAssignedToCluster : Server :=
  MkServer [mTokenVerifier; mUserSaver; mSetClusterProvider; mSetPrivilegedClusterProvider]
    "handler/v2/cluster.ListSSHKeysEndpoint"
    "handler/v2/cluster.DecodeListSSHKeysReq" EncodeJSON DefaultErrorEncoder.
Definition createExternalCluster : Server :=
  MkServer [mTokenVerifier; mUserSaver]
    "handler/v2/external_cluster.CreateEndpoint"
    "handler/v2/external_cluster.DecodeCreateReq" (SetStatusCreatedHeader EncodeJSON) DefaultErrorEncoder.
Definition deleteExternalCluster : Server :=
  MkServer [mTokenVerifier; mUserSaver]
    "handler/v2/external_cluster.DeleteEndpoint"
    "handler/v2/external_cluster.DecodeDeleteReq" EncodeJSON DefaultErrorEncoder.
Definition listExternalClusters : Server :=
  MkServer [mTokenVerifier; mUserSaver]
    "handler/v2/external_cluster.ListEndpoint"
    "handler/v2/external_cluster.DecodeListReq" EncodeJSON DefaultErrorEncoder.
Definition getExternalCluster : Server :=
  MkServer [mTokenVerifier; mUserSaver]
    "handler/v2/external_cluster.GetEndpoint"
    "handler/v2/external_cluster.DecodeGetReq" EncodeJSON DefaultErrorEncoder.
Definition patchExternalCluster : Server :=
  MkServer [mTokenVerifier; mUserSaver]
    "handler/v2/external_cluster.PatchEndpoint"
    "handler/v2/external_cluster.DecodePatchReq" EncodeJSON DefaultErrorEncoder.
Definition updateExternalCluster : Server :=
  MkServer [mTokenVerifier; mUserSaver]
    "handler/v2/external_cluster.UpdateEndpoint"
    "handler/v2/external_cluster.DecodeUpdateReq" EncodeJSON DefaultErrorEncoder.
Definition getExternalClusterUpgrades : Server :=
  MkServer [mTokenVerifier; mUserSaver]
    "handler/v2/external_cluster.GetUpgradesEndpoint"
    "handler/v2/external_cluster.DecodeGetReq" EncodeJSON DefaultErrorEncoder.
Definition listExternalClusterMachineDeployments : Server :=
  MkServer [mTokenVerifier; mUserSaver]
    "handler/v2/external_cluster.ListMachineDeploymentEndpoint"
    "handler/v2/external_cluster.DecodeListMachineDeploymentReq" EncodeJSON DefaultErrorEncoder.
Definition createExternalClusterMachineDeployment : Server :=
  MkServer [mTokenVerifier; mUserSaver]
    "handler/v2/external_cluster.CreateMachineDeploymentEndpoint"
    "handler/v2/external_cluster.DecodeCreateMachineDeploymentReq" EncodeJSON DefaultErrorEncoder.
Definition deleteExternalClusterMachineDeployment : Server :=
  MkServer [mTokenVerifier; mUserSaver]
    "handler/v2/external_cluster.DeleteMachineDeploymentEndpoint"
    "handler/v2/external_cluster.DecodeGetMachineDeploymentReq" EncodeJSON DefaultErrorEncoder.
Definition listExternalClusterNodes : Server :=
  MkServer [mTokenVerifier; mUserSaver]
    "handler/v2/external_cluster.ListNodesEndpoint"
    "handler/v2/external_cluster.DecodeListNodesReq" EncodeJSON DefaultErrorEncoder.
Definition getExternalClusterNode : Server :=
  MkServer [mTokenVerifier; mUserSaver]
    "handler/v2/external_cluster.GetNodeEndpoint"
    "handler/v2/external_cluster.DecodeGetNodeReq" EncodeJSON DefaultErrorEncoder.
Definition getExternalClusterMetrics : Server :=
  MkServer [mTokenVerifier; mUserSaver]
    "handler/v2/external_cluster.GetMetricsEndpoint"
    "handler/v2/external_cluster.DecodeGetReq" EncodeJSON DefaultErrorEncoder.
Definition listExternalClusterNodesMetrics : Server :=
  MkServer [mTokenVerifier; mUserSaver]
    "handler/v2/external_cluster.ListNodesMetricsEndpoint"
    "handler/v2/external_cluster.DecodeListNodesReq" EncodeJSON DefaultErrorEncoder.
Definition listExternalClusterEvents : Server :=
  MkServer [mTokenVerifier; mUserSaver]
    "handler/v2/external_cluster.ListEventsEndpoint"
    "handler/v2/external_cluster.DecodeListEventsReq" EncodeJSON DefaultErrorEncoder.
Definition listConstraintTemplates : Server :=
  MkServer [mTokenVerifier; mUserSaver]
    "handler/v2/constraint_template.ListEndpoint"
    "handler/v1/common.DecodeEmptyReq" EncodeJSON DefaultErrorEncoder.
Definition getConstraintTemplate : Server :=
  MkServer [mTokenVerifier; mUserSaver]
    "handler/v2/constraint_template.GetEndpoint"
    "handler/v2/constraint_template.DecodeConstraintTemplateRequest" EncodeJSON DefaultErrorEncoder.
Definition createConstraintTemplate : Server :=
  MkServer [mTokenVerifier; mUserSaver]
    "handler/v2/constraint_template.CreateEndpoint"
    "handler/v2/constraint_template.DecodeCreateConstraintTemplateRequest" EncodeJSON DefaultErrorEncoder.
Definition patchConstraintTemplate : Server :=
  MkServer [mTokenVerifier; mUserSaver]
    "handler/v2/constraint_template.PatchEndpoint"
    "handler/v2/constraint_template.DecodePatchConstraintTemplateReq" EncodeJSON DefaultErrorEncoder.
Definition deleteConstraintTemplate : Server :=
  MkServer [mTokenVerifier; mUserSaver]
    "handler/v2/constraint_template.DeleteEndpoint"
    "handler/v2/constraint_template.DecodeConstraintTemplateRequest" EncodeJSON DefaultErrorEncoder.
Definition listConstraints : Server :=
  MkServer [mTokenVerifier; mUserSaver; mSetClusterProvider; mSetPrivilegedClusterProvider; mConstraints]
    "handler/v2/constraint.ListEndpoint"
    "handler/v2/constraint.DecodeListConstraintsReq" EncodeJSON DefaultErrorEncoder.
Definition getConstraint : Server :=
  MkServer [mTokenVerifier; mUserSaver; mSetClusterProvider; mSetPrivilegedClusterProvider; mConstraints]
    "handler/v2/constraint.GetEndpoint"
    "handler/v2/constraint.DecodeConstraintReq" EncodeJSON DefaultErrorEncoder.
Definition deleteConstraint : Server :=
  MkServer [mTokenVerifier; mUserSaver; mSetClusterProvider; mSetPrivilegedClusterProvider; mConstraints; mPrivilegedConstraints]
    "handler/v2/constraint.DeleteEndpoint"
    "handler/v2/constraint.DecodeConstraintReq" EncodeJSON DefaultErrorEncoder.
Definition createConstraint : Server :=
  MkServer [mTokenVerifier; mUserSaver; mSetClusterProvider; mSetPrivilegedClusterProvider; mConstraints; mPrivilegedConstraints]
    "handler/v2/constraint.CreateEndpoint"
    "handler/v2/constraint.DecodeCreateConstraintReq" EncodeJSON DefaultErrorEncoder.
Definition createDefaultConstraint : Server :=
  MkServer [mTokenVerifier; mUserSaver]
    "handler/v2/constraint.CreateDefaultEndpoint"
    "handler/v2/constraint.DecodeCreateDefaultConstraintReq" EncodeJSON DefaultErrorEncoder.
Definition listDefaultConstraint : Server :=
  MkServer [mTokenVerifier; mUserSaver]
    "handler/v2/constraint.ListDefaultEndpoint"
    "handler/v1/common.DecodeEmptyReq" EncodeJSON DefaultErrorEncoder.
Definition getDefaultConstraint : Server :=
  MkServer [mTokenVerifier; mUserSaver]
    "handler/v2/constraint.GetDefaultEndpoint"
    "handler/v2/constraint.DecodeDefaultConstraintReq" EncodeJSON DefaultErrorEncoder.
Definition deleteDefaultConstraint : Server :=
  MkServer [mTokenVerifier; mUserSaver]
    "handler/v2/constraint.DeleteDefaultEndpoint"
    "handler/v2/constraint.DecodeDefaultConstraintReq" EncodeJSON DefaultErrorEncoder.
Definition patchDefaultConstraint : Server :=
  MkServer [mTokenVerifier; mUserSaver]
    "handler/v2/constraint.PatchDefaultEndpoint"
    "handler/v2/constraint.DecodePatchDefaultConstraintReq" EncodeJSON DefaultErrorEncoder.
Definition patchConstraint : Server :=
  MkServer [mTokenVerifier; mUserSaver; mSetClusterProvider; mSetPrivilegedClusterProvider; mConstraints; mPrivilegedConstraints]
    "handler/v2/constraint.PatchEndpoint"
    "handler/v2/constraint.DecodePatchConstraintReq" EncodeJSON DefaultErrorEncoder.
Definition getGatekeeperConfig : Server :=
  MkServer [mTokenVerifier; mUserSaver; mSetClusterProvider; mSetPrivilegedClusterProvider]
    "handler/v2/gatekeeperconfig.GetEndpoint"
    "handler/v2/gatekeeperconfig.DecodeGatkeeperConfigReq" EncodeJSON DefaultErrorEncoder.
Definition deleteGatekeeperConfig : Server :=
  MkServer [mTokenVerifier; mUserSaver; mSetClusterProvider; mSetPrivilegedClusterProvider]
    "handler/v2/gatekeeperconfig.DeleteEndpoint"
    "handler/v2/gatekeeperconfig.DecodeGatkeeperConfigReq" EncodeJSON DefaultErrorEncoder.
Definition createGatekeeperConfig : Server :=
  MkServer [mTokenVerifier; mUserSaver; mSetClusterProvider; mSetPrivilegedClusterProvider]
    "handler/v2/gatekeeperconfig.CreateEndpoint"
    "handler/v2/gatekeeperconfig.DecodeCreateGatkeeperConfigReq" EncodeJSON DefaultErrorEncoder.
Definition patchGatekeeperConfig : Server :=
  MkServer [mTokenVerifier; mUserSaver; mSetClusterProvider; mSetPrivilegedClusterProvider]
    "handler/v2/gatekeeperconfig.PatchEndpoint"
    "handler/v2/gatekeeperconfig.DecodePatchGatekeeperConfigReq" EncodeJSON DefaultErrorEncoder.
Definition createMachineDeployment : Server :=
  MkServer [mTokenVerifier; mUserSaver; mSetClusterProvider; mSetPrivilegedClusterProvider]
    "handler/v2/machine.CreateMachineDeployment"
    "handler/v2/machine.DecodeCreateMachineDeployment" (SetStatusCreatedHeader EncodeJSON) DefaultErrorEncoder.
Definition deleteMachineDeploymentNode : Server :=
  MkServer [mTokenVerifier; mUserSaver; mSetClusterProvider; mSetPrivilegedClusterProvider]
    "handler/v2/machine.DeleteMachineDeploymentNode"
    "handler/v2/machine.DecodeDeleteMachineDeploymentNode" EncodeJSON DefaultErrorEncoder.
Definition listMachineDeployments : Server :=
  MkServer [mTokenVerifier; mUserSaver; mSetClusterProvider; mSetPrivilegedClusterProvider]
    "handler/v2/machine.ListMachineDeployments"
    "handler/v2/machine.DecodeListMachineDeployments" EncodeJSON DefaultErrorEncoder.
Definition getMachineDeployment : Server :=
  MkServer [mTokenVerifier; mUserSaver; mSetClusterProvider; mSetPrivilegedClusterProvider]
    "handler/v2/machine.GetMachineDeployment"
    "handler/v2/machine.DecodeGetMachineDeployment" EncodeJSON DefaultErrorEncoder.
Definition getMachineDeploymentJoinScript : Server :=
  MkServer [mTokenVerifier; mUserSaver; mSetClusterProvider; mSetPrivilegedClusterProvider]
    "handler/v2/machine.GetMachineDeploymentJoiningScript"
    "handler/v2/machine.DecodeGetMachineDeployment" EncodeJSON DefaultErrorEncoder.
Definition listMachineDeploymentNodes : Server :=
  MkServer [mTokenVerifier; mUserSaver; mSetClusterProvider; mSetPrivilegedClusterProvider]
    "handler/v2/machine.ListMachineDeploymentNodes"
    "handler/v2/machine.DecodeListMachineDeploymentNodes" EncodeJSON DefaultErrorEncoder.
Definition listNodesForCluster : Server :=
  MkServer [mTokenVerifier; mUserSaver; mSetClusterProvider; mSetPrivilegedClusterProvider]
    "handler/v2/machine.ListNodesForCluster"
    "handler/v2/machine.DecodeListNodesForCluster" EncodeJSON DefaultErrorEncoder.
Definition listMachineDeploymentMetrics : Server :=
  MkServer [mTokenVerifier; mUserSaver; mSetClusterProvider; mSetPrivilegedClusterProvider]
    "handler/v2/machine.ListMachineDeploymentMetrics"
    "handler/v2/machine.DecodeListMachineDeploymentMetrics" EncodeJSON DefaultErrorEncoder.
Definition patchMachineDeployment : Server :=
  MkServer [mTokenVerifier; mUserSaver; mSetClusterProvider; mSetPrivilegedClusterProvider]
    "handler/v2/machine.PatchMachineDeployment"
    "handler/v2/machine.DecodePatchMachineDeployment" EncodeJSON DefaultErrorEncoder.
Definition restartMachineDeployment : Server :=
  MkServer [mTokenVerifier; mUserSaver; mSetClusterProvider; mSetPrivilegedClusterProvider]
    "handler/v2/machine.RestartMachineDeployment"
    "handler/v2/machine.DecodeGetMachineDeployment" EncodeJSON DefaultErrorEncoder.
Definition listMachineDeploymentNodesEvents : Server :=
  MkServer [mTokenVerifier; mUserSaver; mSetClusterProvider; mSetPrivilegedClusterProvider]
    "handler/v2/machine.ListMachineDeploymentNodesEvents"
    "handler/v2/machine.DecodeListNodeDeploymentNodesEvents" EncodeJSON DefaultErrorEncoder.
Definition deleteMachineDeployment : Server :=
  MkServer [mTokenVerifier; mUserSaver; mSetClusterProvider; mSetPrivilegedClusterProvider]
    "handler/v2/machine.DeleteMachineDeployment"
    "handler/v2/machine.DecodeDeleteMachineDeployment" EncodeJSON DefaultErrorEncoder.
Definition listClusterRole : Server :=
  MkServer [mTokenVerifier; mUserSaver; mSetClusterProvider]
    "handler/v2/cluster.ListClusterRoleEndpoint"
    "handler/v2/cluster.DecodeListClusterRoleReq" EncodeJSON DefaultErrorEncoder.
Definition listClusterRoleNames : Server :=
  MkServer [mTokenVerifier; mUserSaver; mSetClusterProvider]
    "handler/v2/cluster.ListClusterRoleNamesEndpoint"
    "handler/v2/cluster.DecodeListClusterRoleReq" EncodeJSON DefaultErrorEncoder.
Definition listRole : Server :=
  MkServer [mTokenVerifier; mUserSaver; mSetClusterProvider]
    "handler/v2/cluster.ListRoleEndpoint"
    "handler/v2/cluster.DecodeListClusterRoleReq" EncodeJSON DefaultErrorEncoder.
Definition listRoleNames : Server :=
  MkServer [mTokenVerifier; mUserSaver; mSetClusterProvider]
    "handler/v2/cluster.ListRoleNamesEndpoint"
    "handler/v2/cluster.DecodeListClusterRoleReq" EncodeJSON DefaultErrorEncoder.
Definition bindUserToRole : Server :=
  MkServer [mTokenVerifier; mUserSaver; mSetClusterProvider; mSetPrivilegedClusterProvider]
    "handler/v2/cluster.BindUserToRoleEndpoint"
    "handler/v2/cluster.DecodeRoleUserReq" EncodeJSON DefaultErrorEncoder.
Definition bindUserToClusterRole : Server :=
  MkServer [mTokenVerifier; mUserSaver; mSetClusterProvider; mSetPrivilegedClusterProvider]
    "handler/v2/cluster.BindUserToClusterRoleEndpoint"
    "handler/v2/cluster.DecodeClusterRoleUserReq" EncodeJSON DefaultErrorEncoder.
Definition unbindUserFromRoleBinding : Server :=
  MkServer [mTokenVerifier; mUserSaver; mSetClusterProvider; mSetPrivilegedClusterProvider]
    "handler/v2/cluster.UnbindUserFromRoleBindingEndpoint"
    "handler/v2/cluster.DecodeRoleUserReq" EncodeJSON DefaultErrorEncoder.
Definition unbindUserFromClusterRoleBinding : Server :=
  MkServer [mTokenVerifier; mUserSaver; mSetClusterProvider; mSetPrivilegedClusterProvider]
    "handler/v2/cluster.UnbindUserFromClusterRoleBindingEndpoint"
    "handler/v2/cluster.DecodeClusterRoleUserReq" EncodeJSON DefaultErrorEncoder.
Definition listClusterRoleBinding : Server :=
  MkServer [mTokenVerifier; mUserSaver; mSetClusterProvider; mSetPrivilegedClusterProvider]
    "handler/v2/cluster.ListClusterRoleBindingEndpoint"
    "handler/v2/cluster.DecodeListBindingReq" EncodeJSON DefaultErrorEncoder.
Definition listRoleBinding : Server :=
  MkServer [mTokenVerifier; mUserSaver; mSetClusterProvider; mSetPrivilegedClusterProvider]
    "handler/v2/cluster.ListRoleBindingEndpoint"
    "handler/v2/cluster.DecodeListBindingReq" EncodeJSON DefaultErrorEncoder.
Definition listInstallableAddons : Server :=
  MkServer [mTokenVerifier; mUserSaver; mSetClusterProvider; mSetPrivilegedClusterProvider; mAddons; mPrivilegedAddons]
    "handler/v2/addon.ListInstallableAddonEndpoint"
    "handler/v2/addon.DecodeListAddons" EncodeJSON DefaultErrorEncoder.
Definition createAddon : Server :=
  MkServer [mTokenVerifier; mUserSaver; mSetClusterProvider; mSetPrivilegedClusterProvider; mAddons; mPrivilegedAddons]
    "handler/v2/addon.CreateAddonEndpoint"
    "handler/v2/addon.DecodeCreateAddon" (SetStatusCreatedHeader EncodeJSON) DefaultErrorEncoder.
Definition listAddons : Server :=
  MkServer [mTokenVerifier; mUserSaver; mSetClusterProvider; mSetPrivilegedClusterProvider; mAddons; mPrivilegedAddons]
    "handler/v2/addon.ListAddonEndpoint"
    "handler/v2/addon.DecodeListAddons" EncodeJSON DefaultErrorEncoder.
Definition getAddon : Server :=
  MkServer [mTokenVerifier; mUserSaver; mSetClusterProvider; mSetPrivilegedClusterProvider; mAddons; mPrivilegedAddons]
    "handler/v2/addon.GetAddonEndpoint"
    "handler/v2/addon.DecodeGetAddon" EncodeJSON DefaultErrorEncoder.
Definition patchAddon : Server :=
  MkServer [mTokenVerifier; mUserSaver; mSetClusterProvider; mSetPrivilegedClusterProvider; mAddons; mPrivilegedAddons]
    "handler/v2/addon.PatchAddonEndpoint"
    "handler/v2/addon.DecodePatchAddon" EncodeJSON DefaultErrorEncoder.
Definition deleteAddon : Server :=
  MkServer [mTokenVerifier; mUserSaver; mSetClusterProvider; mSetPrivilegedClusterProvider; mAddons; mPrivilegedAddons]
    "handler/v2/addon.DeleteAddonEndpoint"
    "handler/v2/addon.DecodeGetAddon" EncodeJSON DefaultErrorEncoder.
Definition listAWSSizesNoCredentials : Server :=
  MkServer [mTokenVerifier; mUserSaver; mSetClusterProvider; mSetPrivilegedClusterProvider]
    "handler/v2/provider.AWSSizeNoCredentialsEndpoint"
    "handler/v2/provider.DecodeAWSSizeNoCredentialsReq" EncodeJSON DefaultErrorEncoder.
Definition listAWSSubnetsNoCredentials : Server :=
  MkServer [mTokenVerifier; mUserSaver; mSetClusterProvider; mSetPrivilegedClusterProvider]
    "handler/v2/provider.AWSSubnetNoCredentialsEndpoint"
    "handler/v2/cluster.DecodeGetClusterReq" EncodeJSON DefaultErrorEncoder.
Definition listGCPSizesNoCredentials : Server :=
  MkServer [mTokenVerifier; mUserSaver; mSetClusterProvider; mSetPrivilegedClusterProvider]
    "handler/v2/provider.GCPSizeWithClusterCredentialsEndpoint"
    "handler/v2/provider.DecodeGCPTypesNoCredentialReq" EncodeJSON DefaultErrorEncoder.
Definition listGCPDiskTypesNoCredentials : Server :=
  MkServer [mTokenVerifier; mUserSaver; mSetClusterProvider; mSetPrivilegedClusterProvider]
    "handler/v2/provider.GCPDiskTypesWithClusterCredentialsEndpoint"
    "handler/v2/provider.DecodeGCPTypesNoCredentialReq" EncodeJSON DefaultErrorEncoder.
Definition listGCPZonesNoCredentials : Server :=
  MkServer [mTokenVerifier; mUserSaver; mSetClusterProvider; mSetPrivilegedClusterProvider]
    "handler/v2/provider.GCPZoneWithClusterCredentialsEndpoint"
    "handler/v2/cluster.DecodeGetClusterReq" EncodeJSON DefaultErrorEncoder.
Definition listGCPNetworksNoCredentials : Server :=
  MkServer [mTokenVerifier; mUserSaver; mSetClusterProvider; mSetPrivilegedClusterProvider]
    "handler/v2/provider.GCPNetworkWithClusterCredentialsEndpoint"
    "handler/v2/cluster.DecodeGetClusterReq" EncodeJSON DefaultErrorEncoder.
Definition listGCPSubnetworksNoCredentials : Server :=
  MkServer [mTokenVerifier; mUserSaver; mSetClusterProvider; mSetPrivilegedClusterProvider]
    "handler/v2/provider.GCPSubnetworkWithClusterCredentialsEndpoint"
    "handler/v2/provider.DecodeGCPSubnetworksNoCredentialReq" EncodeJSON DefaultErrorEncoder.
Definition revokeClusterAdminToken : Server :=
  MkServer [mTokenVerifier; mUserSaver; mSetClusterProvider; mSetPrivilegedClusterProvider]
    "handler/v2/cluster.RevokeAdminTokenEndpoint"
    "handler/v2/cluster.DecodeAdminTokenReq" EncodeJSON DefaultErrorEncoder.
Definition revokeClusterViewerToken : Server :=
  MkServer [mTokenVerifier; mUserSaver; mSetClusterProvider; mSetPrivilegedClusterProvider]
    "handler/v2/cluster.RevokeViewerTokenEndpoint"
    "handler/v2/cluster.DecodeAdminTokenReq" EncodeJSON DefaultErrorEncoder.
Definition listHetznerSizesNoCredentials : Server :=
  MkServer [mTokenVerifier; mUserSaver; mSetClusterProvider; mSetPrivilegedClusterProvider]
    "handler/v2/provider.HetznerSizeWithClusterCredentialsEndpoint"
    "handler/v2/cluster.DecodeGetClusterReq" EncodeJSON DefaultErrorEncoder.
Definition listDigitaloceanSizesNoCredentials : Server :=
  MkServer [mTokenVerifier; mUserSaver; mSetClusterProvider; mSetPrivilegedClusterProvider]
    "handler/v2/provider.DigitaloceanSizeWithClusterCredentialsEndpoint"
    "handler/v2/cluster.DecodeGetClusterReq" EncodeJSON DefaultErrorEncoder.
Definition listOpenstackSizesNoCredentials : Server :=
  MkServer [mTokenVerifier; mUserSaver; mSetClusterProvider; mSetPrivilegedClusterProvider]
    "handler/v2/provider.OpenstackSizeWithClusterCredentialsEndpoint"
    "handler/v2/provider.DecodeOpenstackNoCredentialsReq" EncodeJSON DefaultErrorEncoder.
Definition listOpenstackTenantsNoCredentials : Server :=
  MkServer [mTokenVerifier; mUserSaver; mSetClusterProvider; mSetPrivilegedClusterProvider]
    "handler/v2/provider.OpenstackTenantWithClusterCredentialsEndpoint"
    "handler/v2/provider.DecodeOpenstackNoCredentialsReq" EncodeJSON DefaultErrorEncoder.
Definition listOpenstackNetworksNoCredentials : Server :=
  MkServer [mTokenVerifier; mUserSaver; mSetClusterProvider; mSetPrivilegedClusterProvider]
    "handler/v2/provider.OpenstackNetworkWithClusterCredentialsEndpoint"
    "handler/v2/provider.DecodeOpenstackNoCredentialsReq" EncodeJSON DefaultErrorEncoder.
Definition listOpenstackSecurityGroupsNoCredentials : Server :=
  MkServer [mTokenVerifier; mUserSaver; mSetClusterProvider; mSetPrivilegedClusterProvider]
    "handler/v2/provider.OpenstackSecurityGroupWithClusterCredentialsEndpoint"
    "handler/v2/provider.DecodeOpenstackNoCredentialsReq" EncodeJSON DefaultErrorEncoder.
Definition listOpenstackServerGroupsNoCredentials : Server :=
  MkServer [mTokenVerifier; mUserSaver; mSetClusterProvider; mSetPrivilegedClusterProvider]
    "handler/v2/provider.OpenstackServerGroupWithClusterCredentialsEndpoint"
    "handler/v2/provider.DecodeOpenstackNoCredentialsReq" EncodeJSON DefaultErrorEncoder.
Definition listOpenstackServerGroups : Server :=
  MkServer [mTokenVerifier; mUserSaver]
    "handler/v2/provider.OpenstackServerGroupEndpoint"
    "handler/v2/provider.DecodeOpenstackReq" EncodeJSON DefaultErrorEncoder.
Definition listOpenstackSubnetsNoCredentials : Server :=
  MkServer [mTokenVerifier; mUserSaver; mSetClusterProvider; mSetPrivilegedClusterProvider]
    "handler/v2/provider.OpenstackSubnetsWithClusterCredentialsEndpoint"
    "handler/v2/provider.DecodeOpenstackSubnetNoCredentialsReq" EncodeJSON DefaultErrorEncoder.
Definition listOpenstackAvailabilityZonesNoCredentials : Server :=
  MkServer [mTokenVerifier; mUserSaver; mSetClusterProvider; mSetPrivilegedClusterProvider]
    "handler/v2/provider.OpenstackAvailabilityZoneWithClusterCredentialsEndpoint"
    "handler/v2/provider.DecodeOpenstackNoCredentialsReq" EncodeJSON DefaultErrorEncoder.
Definition listOpenstackImagesNoCredentials : Server :=
  MkServer [mTokenVerifier; mUserSaver; mSetClusterProvider; mSetPrivilegedClusterProvider]
    "handler/v2/provider.OpenstackImagesNoCredentialsEndpoint"
    "handler/v2/provider.DecodeOpenstackNoCredentialsReq" EncodeJSON DefaultErrorEncoder.
Definition listOpenstackSubnetPools : Server :=
  MkServer [mTokenVerifier; mUserSaver]
    "handler/v2/provider.OpenstackSubnetPoolEndpoint"
    "handler/v2/provider.DecodeOpenstackSubnetPoolReq" EncodeJSON DefaultErrorEncoder.
Definition listAzureSizesNoCredentials : Server :=
  MkServer [mTokenVerifier; mUserSaver; mSetClusterProvider; mSetPrivilegedClusterProvider]
    "handler/v2/provider.AzureSizeWithClusterCredentialsEndpoint"
    "handler/v2/provider.DecodeAzureSizesNoCredentialsReq" EncodeJSON DefaultErrorEncoder.
Definition listAzureAvailabilityZonesNoCredentials : Server :=
  MkServer [mTokenVerifier; mUserSaver; mSetClusterProvider; mSetPrivilegedClusterProvider]
    "handler/v2/provider.AzureAvailabilityZonesWithClusterCredentialsEndpoint"
    "handler/v2/provider.DecodeAzureAvailabilityZonesNoCredentialsReq" EncodeJSON DefaultErrorEncoder.
Definition listVSphereNetworksNoCredentials : Server :=
  MkServer [mTokenVerifier; mUserSaver; mSetClusterProvider; mSetPrivilegedClusterProvider]
    "handler/v2/provider.VsphereNetworksWithClusterCredentialsEndpoint"
    "handler/v2/provider.DecodeVSphereNoCredentialsReq" EncodeJSON DefaultErrorEncoder.
Definition listVSphereFoldersNoCredentials : Server :=
  MkServer [mTokenVerifier; mUserSaver; mSetClusterProvider; mSetPrivilegedClusterProvider]
    "handler/v2/provider.VsphereFoldersWithClusterCredentialsEndpoint"
    "handler/v2/provider.DecodeVSphereNoCredentialsReq" EncodeJSON DefaultErrorEncoder.
Definition listVSphereVMGroupsNoCredentials : Server :=
  MkServer [mTokenVerifier; mUserSaver; mSetClusterProvider; mSetPrivilegedClusterProvider]
    "handler/v2/provider.VsphereVMGroupsWithClusterCredentialsEndpoint"
    "handler/v2/provider.DecodeVSphereNoCredentialsReq" EncodeJSON DefaultErrorEncoder.
Definition listVSphereTagCategoriesNoCredentials : Server :=
  MkServer [mTokenVerifier; mUserSaver; mSetClusterProvider; mSetPrivilegedClusterProvider]
    "handler/v2/provider.VsphereTagCategoriesWithClusterCredentialsEndpoint"
    "handler/v2/provider.DecodeVSphereNoCredentialsReq" EncodeJSON DefaultErrorEncoder.
Definition listVSphereTagsForTagCategoryNoCredentials : Server :=
  MkServer [mTokenVerifier; mUserSaver; mSetClusterProvider; mSetPrivilegedClusterProvider]
    "handler/v2/provider.VsphereTagsForTagCategoryWithClusterCredentialsEndpoint"
    "handler/v2/provider.DecodeVSphereTagsNoCredentialsReq" EncodeJSON DefaultErrorEncoder.
Definition listAlibabaInstanceTypesNoCredentials : Server :=
  MkServer [mTokenVerifier; mUserSaver; mSetClusterProvider; mSetPrivilegedClusterProvider]
    "handler/v2/provider.AlibabaInstanceTypesWithClusterCredentialsEndpoint"
    "handler/v2/provider.DecodeAlibabaNoCredentialReq" EncodeJSON DefaultErrorEncoder.
Definition listAlibabaZonesNoCredentials : Server :=
  MkServer [mTokenVerifier; mUserSaver; mSetClusterProvider; mSetPrivilegedClusterProvider]
    "handler/v2/provider.AlibabaZonesWithClusterCredentialsEndpoint"
    "handler/v2/provider.DecodeAlibabaNoCredentialReq" EncodeJSON DefaultErrorEncoder.
Definition listAlibabaVSwitchesNoCredentials : Server :=
  MkServer [mTokenVerifier; mUserSaver; mSetClusterProvider; mSetPrivilegedClusterProvider]
    "handler/v2/provider.AlibabaVswitchesWithClusterCredentialsEndpoint"
    "handler/v2/provider.DecodeAlibabaNoCredentialReq" EncodeJSON DefaultErrorEncoder.
Definition listAnexiaVlansNoCredentials : Server :=
  MkServer [mTokenVerifier; mUserSaver; mSetClusterProvider; mSetPrivilegedClusterProvider]
    "handler/v2/provider.AnexiaVlansWithClusterCredentialsEndpoint"
    "handler/v2/provider.DecodeAnexiaNoCredentialReq" EncodeJSON DefaultErrorEncoder.
Definition listAnexiaTemplatesNoCredentials : Server :=
  MkServer [mTokenVerifier; mUserSaver; mSetClusterProvider; mSetPrivilegedClusterProvider]
    "handler/v2/provider.AnexiaTemplatesWithClusterCredentialsEndpoint"
    "handler/v2/provider.DecodeAnexiaNoCredentialReq" EncodeJSON DefaultErrorEncoder.
Definition listAnexiaDiskTypesNoCredentials : Server :=
  MkServer [mTokenVerifier; mUserSaver; mSetClusterProvider; mSetPrivilegedClusterProvider]
    "handler/v2/provider.AnexiaDiskTypesWithClusterCredentialsEndpoint"
    "handler/v2/provider.DecodeAnexiaNoCredentialReq" EncodeJSON DefaultErrorEncoder.
Definition listKubeVirtInstancetypesNoCredentials : Server :=
  MkServer [mTokenVerifier; mUserSaver; mSetClusterProvider; mSetPrivilegedClusterProvider]
    "handler/v2/provider.KubeVirtInstancetypesWithClusterCredentialsEndpoint"
    "handler/v2/provider.DecodeKubeVirtGenericNoCredentialReq" EncodeJSON DefaultErrorEncoder.
Definition listKubeVirtPreferencesNoCredentials : Server :=
  MkServer [mTokenVerifier; mUserSaver; mSetClusterProvider; mSetPrivilegedClusterProvider]
    "handler/v2/provider.KubeVirtPreferencesWithClusterCredentialsEndpoint"
    "handler/v2/provider.DecodeKubeVirtGenericNoCredentialReq" EncodeJSON DefaultErrorEncoder.
Definition listKubevirtStorageClassesNoCredentials : Server :=
  MkServer [mTokenVerifier; mUserSaver; mSetClusterProvider; mSetPrivilegedClusterProvider]
    "handler/v2/provider.KubeVirtStorageClassesWithClusterCredentialsEndpoint"
    "handler/v2/provider.DecodeKubeVirtGenericNoCredentialReq" EncodeJSON DefaultErrorEncoder.
Definition listKubeVirtVPCsNoCredentials : Server :=
  MkServer [mTokenVerifier; mUserSaver; mSetClusterProvider; mSetPrivilegedClusterProvider]
    "handler/v2/provider.KubeVirtVPCsWithClusterCredentialsEndpoint"
    "handler/v2/provider.DecodeKubeVirtGenericNoCredentialReq" EncodeJSON DefaultErrorEncoder.
Definition listKubeVirtSubnetsNoCredentials : Server :=
  MkServer [mTokenVerifier; mUserSaver; mSetClusterProvider; mSetPrivilegedClusterProvider]
    "handler/v2/provider.KubeVirtSubnetsWithClusterCredentialsEndpoint"
    "handler/v2/provider.DecodeKubeVirtSubnetsNoCredentialReq" EncodeJSON DefaultErrorEncoder.
Definition listNutanixSubnetsNoCredentials : Server :=
  MkServer [mTokenVerifier; mUserSaver; mSetClusterProvider; mSetPrivilegedClusterProvider]
    "handler/v2/provider.NutanixSubnetsWithClusterCredentialsEndpoint"
    "handler/v2/provider.DecodeNutanixNoCredentialReq" EncodeJSON DefaultErrorEncoder.
Definition listNutanixCategoriesNoCredentials : Server :=
  MkServer [mTokenVerifier; mUserSaver; mSetClusterProvider; mSetPrivilegedClusterProvider]
    "handler/v2/provider.NutanixCategoriesWithClusterCredentialsEndpoint"
    "handler/v2/provider.DecodeNutanixNoCredentialReq" EncodeJSON DefaultErrorEncoder.
Definition listNutanixCategoryValuesNoCredentials : Server :=
  MkServer [mTokenVerifier; mUserSaver; mSetClusterProvider; mSetPrivilegedClusterProvider]
    "handler/v2/provider.NutanixCategoryValuesWithClusterCredentialsEndpoint"
    "handler/v2/provider.DecodeNutanixCategoryValuesNoCredentialReq" EncodeJSON DefaultErrorEncoder.
Definition listVMwareCloudDirectorNetworksNoCredentials : Server :=
  MkServer [mTokenVerifier; mUserSaver; mSetClusterProvider; mSetPrivilegedClusterProvider]
    "handler/v2/provider.VMwareCloudDirectorNetworksWithClusterCredentialsEndpoint"
    "handler/v2/provider.DecodeVMwareCloudDirectorNoCredentialsReq" EncodeJSON DefaultErrorEncoder.
Definition listVMwareCloudDirectorStorageProfilesNoCredentials : Server :=
  MkServer [mTokenVerifier; mUserSaver; mSetClusterProvider; mSetPrivilegedClusterProvider]
    "handler/v2/provider.VMwareCloudDirectorStorageProfilesWithClusterCredentialsEndpoint"
    "handler/v2/provider.DecodeVMwareCloudDirectorNoCredentialsReq" EncodeJSON DefaultErrorEncoder.
Definition listVMwareCloudDirectorCatalogsNoCredentials : Server :=
  MkServer [mTokenVerifier; mUserSaver; mSetClusterProvider; mSetPrivilegedClusterProvider]
    "handler/v2/provider.VMwareCloudDirectorCatalogsWithClusterCredentialsEndpoint"
    "handler/v2/provider.DecodeVMwareCloudDirectorNoCredentialsReq" EncodeJSON DefaultErrorEncoder.
Definition listVMwareCloudDirectorComputePoliciesNoCredentials : Server :=
  MkServer [mTokenVerifier; mUserSaver; mSetClusterProvider; mSetPrivilegedClusterProvider]
    "handler/v2/provider.VMwareCloudDirectorComputePoliciesWithClusterCredentialsEndpoint"
    "handler/v2/provider.DecodeVMwareCloudDirectorNoCredentialsReq" EncodeJSON DefaultErrorEncoder.
Definition listVMwareCloudDirectorTemplatesNoCredentials : Server :=
  MkServer [mTokenVerifier; mUserSaver; mSetClusterProvider; mSetPrivilegedClusterProvider]
    "handler/v2/provider.VMwareCloudDirectorTemplatesWithClusterCredentialsEndpoint"
    "handler/v2/provider.DecodeVMwareCloudDirectorTemplateNoCredentialsReq" EncodeJSON DefaultErrorEncoder.
Definition listAzureSecurityGroups : Server :=
  MkServer [mTokenVerifier; mUserSaver]
    "handler/v2/provider.AzureSecurityGroupsEndpoint"
    "handler/v2/provider.DecodeAzureSecurityGroupsReq" EncodeJSON DefaultErrorEncoder.
Definition listAzureResourceGroups : Server :=
  MkServer [mTokenVerifier; mUserSaver]
    "handler/v2/provider.AzureResourceGroupsEndpoint"
    "handler/v2/provider.DecodeAzureResourceGroupsReq" EncodeJSON DefaultErrorEncoder.
Definition listAzureRouteTables : Server :=
  MkServer [mTokenVerifier; mUserSaver]
    "handler/v2/provider.AzureRouteTablesEndpoint"
    "handler/v2/provider.DecodeAzureRouteTablesReq" EncodeJSON DefaultErrorEncoder.
Definition listAzureVnets : Server :=
  MkServer [mTokenVerifier; mUserSaver]
    "handler/v2/provider.AzureVirtualNetworksEndpoint"
    "handler/v2/provider.DecodeAzureVirtualNetworksReq" EncodeJSON DefaultErrorEncoder.
Definition listVSphereDatastores : Server :=
  MkServer [mTokenVerifier; mUserSaver]
    "handler/v2/provider.VsphereDatastoreEndpoint"
    "handler/v2/provider.DecodeVSphereCommonReq" EncodeJSON DefaultErrorEncoder.
Definition listVSphereVMGroups : Server :=
  MkServer [mTokenVerifier; mUserSaver]
    "handler/v2/provider.VsphereVMGroupEndpoint"
    "handler/v2/provider.DecodeVSphereCommonReq" EncodeJSON DefaultErrorEncoder.
Definition listAzureSubnets : Server :=
  MkServer [mTokenVerifier; mUserSaver]
    "handler/v2/provider.AzureSubnetsEndpoint"
    "handler/v2/provider.DecodeAzureSubnetsReq" EncodeJSON DefaultErrorEncoder.
Definition listNutanixClusters : Server :=
  MkServer [mTokenVerifier; mUserSaver]
    "handler/v2/provider.NutanixClusterEndpoint"
    "handler/v2/provider.DecodeNutanixCommonReq" EncodeJSON DefaultErrorEncoder.
Definition listNutanixProjects : Server :=
  MkServer [mTokenVerifier; mUserSaver]
    "handler/v2/provider.NutanixProjectEndpoint"
    "handler/v2/provider.DecodeNutanixCommonReq" EncodeJSON DefaultErrorEncoder.
Definition listNutanixSubnets : Server :=
  MkServer [mTokenVerifier; mUserSaver]
    "handler/v2/provider.NutanixSubnetEndpoint"
    "handler/v2/provider.DecodeNutanixSubnetReq" EncodeJSON DefaultErrorEncoder.
Definition listNutanixCategories : Server :=
  MkServer [mTokenVerifier; mUserSaver]
    "handler/v2/provider.NutanixCategoryEndpoint"
    "handler/v2/provider.DecodeNutanixCommonReq" EncodeJSON DefaultErrorEncoder.
Definition listNutanixCategoryValues : Server :=
  MkServer [mTokenVerifier; mUserSaver]
    "handler/v2/provider.NutanixCategoryValuesEndpoint"
    "handler/v2/provider.DecodeNutanixCategoryValueReq" EncodeJSON DefaultErrorEncoder.
Definition listVMwareCloudDirectorNetworks : Server :=
  MkServer [mTokenVerifier; mUserSaver]
    "handler/v2/provider.VMwareCloudDirectorNetworksEndpoint"
    "handler/v2/provider.DecodeVMwareCloudDirectorCommonReq" EncodeJSON DefaultErrorEncoder.
Definition listVMwareCloudDirectorStorageProfiles : Server :=
  MkServer [mTokenVerifier; mUserSaver]
    "handler/v2/provider.VMwareCloudDirectorStorageProfilesEndpoint"
    "handler/v2/provider.DecodeVMwareCloudDirectorCommonReq" EncodeJSON DefaultErrorEncoder.
Definition listVMwareCloudDirectorCatalogs : Server :=
  MkServer [mTokenVerifier; mUserSaver]
    "handler/v2/provider.VMwareCloudDirectorCatalogsEndpoint"
    "handler/v2/provider.DecodeVMwareCloudDirectorCommonReq" EncodeJSON DefaultErrorEncoder.
Definition listVMwareCloudDirectorTemplates : Server :=
  MkServer [mTokenVerifier; mUserSaver]
    "handler/v2/provider.VMwareCloudDirectorTemplatesEndpoint"
    "handler/v2/provider.DecodeVMwareCloudDirectorListTemplatesReq" EncodeJSON DefaultErrorEncoder.
Definition listPresets : Server :=
  MkServer [mTokenVerifier; mUserSaver]
    "handler/v2/preset.ListPresets"
    "handler/v2/preset.DecodeListPresets" EncodeJSON DefaultErrorEncoder.
Definition updatePresetStatus : Server :=
  MkServer [mTokenVerifier; mUserSaver]
    "handler/v2/preset.UpdatePresetStatus"
    "handler/v2/preset.DecodeUpdatePresetStatus" EncodeJSON DefaultErrorEncoder.
Definition deletePreset : Server :=
  MkServer [mTokenVerifier; mUserSaver]
    "handler/v2/preset.DeletePreset"
    "handler/v2/preset.DecodeDeletePreset" EncodeJSON DefaultErrorEncoder.
Definition deletePresetProvider : Server :=
  MkServer [mTokenVerifier; mUserSaver]
    "handler/v2/preset.DeletePresetProvider"
    "handler/v2/preset.DecodeDeletePresetProvider" EncodeJSON DefaultErrorEncoder.
Definition listProviderPresets : Server :=
  MkServer [mTokenVerifier; mUserSaver]
    "handler/v2/preset.ListProviderPresets"
    "handler/v2/preset.DecodeListProviderPresets" EncodeJSON DefaultErrorEncoder.
Definition listProjectPresets : Server :=
  MkServer [mTokenVerifier; mUserSaver]
    "handler/v2/preset.ListProjectPresets"
    "handler/v2/preset.DecodeListProjectPresets" EncodeJSON DefaultErrorEncoder.
Definition listProjectProviderPresets : Server :=
  MkServer [mTokenVerifier; mUserSaver]
    "handler/v2/preset.ListProjectProviderPresets"
    "handler/v2/preset.DecodeListProjectProviderPresets" EncodeJSON DefaultErrorEncoder.
Definition createPreset : Server :=
  MkServer [mTokenVerifier; mUserSaver]
    "handler/v2/preset.CreatePreset"
    "handler/v2/preset.DecodeCreatePreset" (SetStatusCreatedHeader EncodeJSON) DefaultErrorEncoder.
Definition updatePreset : Server :=
  MkServer [mTokenVerifier; mUserSaver]
    "handler/v2/preset.UpdatePreset"
    "handler/v2/preset.DecodeUpdatePreset" EncodeJSON DefaultErrorEncoder.
Definition deleteProviderPreset : Server :=
  MkServer [mTokenVerifier; mUserSaver]
    "handler/v2/preset.DeleteProviderPreset"
    "handler/v2/preset.DecodeDeleteProviderPreset" EncodeJSON DefaultErrorEncoder.
Definition getPresetStats : Server :=
  MkServer [mTokenVerifier; mUserSaver]
    "handler/v2/preset.GetPresetStats"
    "handler/v2/preset.DecodeGetPresetStats" EncodeJSON DefaultErrorEncoder.
Definition getPresetLinkages : Server :=
  MkServer [mTokenVerifier; mUserSaver]
    "handler/v2/preset.GetPresetLinkages"
    "handler/v2/preset.DecodeGetPresetLinkages" EncodeJSON DefaultErrorEncoder.
Definition listVersionsByProvider : Server :=
  MkServer [mTokenVerifier; mUserSaver]
    "handler/v2/version.ListVersions"
    "handler/v2/version.DecodeListProviderVersions" EncodeJSON DefaultErrorEncoder.
Definition getAlertmanager : Server :=
  MkServer [mTokenVerifier; mUserSaver; mSetClusterProvider; mSetPrivilegedClusterProvider; mAlertmanagers; mPrivilegedAlertmanagers]
    "handler/v2/alertmanager.GetEndpoint"
    "handler/v2/alertmanager.DecodeGetAlertmanagerReq" EncodeJSON DefaultErrorEncoder.
Definition updateAlertmanager : Server :=
  MkServer [mTokenVerifier; mUserSaver; mSetClusterProvider; mSetPrivilegedClusterProvider; mAlertmanagers; mPrivilegedAlertmanagers]
    "handler/v2/alertmanager.UpdateEndpoint"
    "handler/v2/alertmanager.DecodeUpdateAlertmanagerReq" EncodeJSON DefaultErrorEncoder.
Definition resetAlertmanager : Server :=
  MkServer [mTokenVerifier; mUserSaver; mSetClusterProvider; mSetPrivilegedClusterProvider; mAlertmanagers; mPrivilegedAlertmanagers]
    "handler/v2/alertmanager.ResetEndpoint"
    "handler/v2/alertmanager.DecodeResetAlertmanagerReq" EncodeJSON DefaultErrorEncoder.
Definition listProjectGKEImages : Server :=
  MkServer [mTokenVerifier; mUserSaver]
    "handler/v2/external_cluster.GKEImagesEndpoint"
    "handler/v2/external_cluster.DecodeGKEProjectVMReq" EncodeJSON DefaultErrorEncoder.
Definition listProjectGKEZones : Server :=
  MkServer [mTokenVerifier; mUserSaver]
    "handler/v2/external_cluster.GKEZonesEndpoint"
    "handler/v2/external_cluster.DecodeGKEProjectCommonReq" EncodeJSON DefaultErrorEncoder.
Definition listProjectGKEVMSizes : Server :=
  MkServer [mTokenVerifier; mUserSaver]
    "handler/v2/external_cluster.GKEVMSizesEndpoint"
    "handler/v2/external_cluster.DecodeGKEProjectVMReq" EncodeJSON DefaultErrorEncoder.
Definition listProjectGKEDiskTypes : Server :=
  MkServer [mTokenVerifier; mUserSaver]
    "handler/v2/external_cluster.GKEDiskTypesEndpoint"
    "handler/v2/external_cluster.DecodeGKEProjectVMReq" EncodeJSON DefaultErrorEncoder.
Definition listProjectGKEVersions : Server :=
  MkServer [mTokenVerifier; mUserSaver]
    "handler/v2/external_cluster.GKEVersionsEndpoint"
    "handler/v2/external_cluster.DecodeGKEProjectVersionsReq" EncodeJSON DefaultErrorEncoder.
Definition validateProjectGKECredentials : Server :=
  MkServer [mTokenVerifier; mUserSaver]
    "handler/v2/external_cluster.GKEValidateCredentialsEndpoint"
    "handler/v2/external_cluster.DecodeGKEProjectCommonReq" EncodeJSON DefaultErrorEncoder.
Definition listTinkerbellImages : Server :=
  MkServer [mTokenVerifier; mUserSaver]
    "handler/v2/provider.TinkerbellImagesEndpoint"
    "handler/v2/provider.DecodeTinkerbellListImageReq" EncodeJSON DefaultErrorEncoder.
Definition validateProjectEKSCredentials : Server :=
  MkServer [mTokenVerifier; mUserSaver]
    "handler/v2/external_cluster.EKSValidateCredentialsEndpoint"
    "handler/v2/external_cluster.DecodeEKSProjectRegionReq" EncodeJSON DefaultErrorEncoder.
Definition listProjectEKSVPCs : Server :=
  MkServer [mTokenVerifier; mUserSaver]
    "handler/v2/external_cluster.ListEKSVPCEndpoint"
    "handler/v2/external_cluster.DecodeEKSProjectRegionReq" EncodeJSON DefaultErrorEncoder.
Definition listProjectEKSSubnets : Server :=
  MkServer [mTokenVerifier; mUserSaver]
    "handler/v2/external_cluster.ListEKSSubnetsEndpoint"
    "handler/v2/external_cluster.DecodeEKSProjectVPCReq" EncodeJSON DefaultErrorEncoder.
Definition listProjectEKSSecurityGroups : Server :=
  MkServer [mTokenVerifier; mUserSaver]
    "handler/v2/external_cluster.ListEKSSecurityGroupsEndpoint"
    "handler/v2/external_cluster.DecodeEKSProjectVPCReq" EncodeJSON DefaultErrorEncoder.
Definition listProjectEKSRegions : Server :=
  MkServer [mTokenVerifier; mUserSaver]
    "handler/v2/external_cluster.ListEKSRegionsEndpoint"
    "handler/v2/external_cluster.DecodeEKSProjectCommonReq" EncodeJSON DefaultErrorEncoder.
Definition listProjectEKSClusterRoles : Server :=
  MkServer [mTokenVerifier; mUserSaver]
    "handler/v2/external_cluster.ListEKSClusterRolesEndpoint"
    "handler/v2/external_cluster.DecodeEKSProjectCommonReq" EncodeJSON DefaultErrorEncoder.
Definition listProjectEKSVersions : Server :=
  MkServer [mTokenVerifier; mUserSaver]
    "handler/v2/external_cluster.EKSVersionsEndpoint"
    "handler/v2/external_cluster.DecodeEKSProjectReq" EncodeJSON DefaultErrorEncoder.
Definition listProjectEKSAMITypes : Server :=
  MkServer [mTokenVerifier; mUserSaver]
    "handler/v2/external_cluster.EKSAMITypesEndpoint"
    "handler/v2/external_cluster.DecodeEKSProjectReq" EncodeJSON DefaultErrorEncoder.
Definition listProjectEKSCapacityTypes : Server :=
  MkServer [mTokenVerifier; mUserSaver]
    "handler/v2/external_cluster.EKSCapacityTypesEndpoint"
    "handler/v2/external_cluster.DecodeEKSProjectReq" EncodeJSON DefaultErrorEncoder.
Definition listProjectKubeVirtInstancetypes : Server :=
  MkServer [mTokenVerifier; mUserSaver]
    "handler/v2/provider.KubeVirtInstancetypesEndpoint"
    "handler/v2/provider.DecodeKubeVirtProjectGenericReq" EncodeJSON DefaultErrorEncoder.
Definition listProjectKubeVirtPreferences : Server :=
  MkServer [mTokenVerifier; mUserSaver]
    "handler/v2/provider.KubeVirtPreferencesEndpoint"
    "handler/v2/provider.DecodeKubeVirtProjectGenericReq" EncodeJSON DefaultErrorEncoder.
Definition listProjectKubevirtStorageClasses : Server :=
  MkServer [mTokenVerifier; mUserSaver]
    "handler/v2/provider.KubeVirtStorageClassesEndpoint"
    "handler/v2/provider.DecodeKubeVirtProjectGenericReq" EncodeJSON DefaultErrorEncoder.
Definition listProjectKubevirtVPCs : Server :=
  MkServer [mTokenVerifier; mUserSaver]
    "handler/v2/provider.KubeVirtVPCsEndpoint"
    "handler/v2/provider.DecodeKubeVirtProjectGenericReq" EncodeJSON DefaultErrorEncoder.
Definition listProjectKubevirtSubnets : Server :=
  MkServer [mTokenVerifier; mUserSaver]
    "handler/v2/provider.KubeVirtSubnetsEndpoint"
    "handler/v2/provider.DecodeKubeVirtVPCSubnetsReq" EncodeJSON DefaultErrorEncoder.
Definition listKubevirtImages : Server :=
  MkServer [mTokenVerifier; mUserSaver]
    "handler/v2/provider.KubeVirtImagesEndpoint"
    "handler/v2/provider.DecodeKubeVirtListImageReq" EncodeJSON DefaultErrorEncoder.
Definition listProjectAzureSizes : Server :=
  MkServer [mTokenVerifier; mUserSaver]
    "handler/v2/provider.AzureSizesEndpoint"
    "handler/v2/provider.DecodeAzureProjectSizesReq" EncodeJSON DefaultErrorEncoder.
Definition listProjectAzureSKUAvailabilityZones : Server :=
  MkServer [mTokenVerifier; mUserSaver]
    "handler/v2/provider.AzureAvailabilityZonesEndpoint"
    "handler/v2/provider.DecodeAzureProjectAvailabilityZonesReq" EncodeJSON DefaultErrorEncoder.
Definition listProjectAzureSecurityGroups : Server :=
  MkServer [mTokenVerifier; mUserSaver]
    "handler/v2/provider.AzureSecurityGroupsEndpoint"
    "handler/v2/provider.DecodeAzureProjectSecurityGroupsReq" EncodeJSON DefaultErrorEncoder.
Definition listProjectAzureResourceGroups : Server :=
  MkServer [mTokenVerifier; mUserSaver]
    "handler/v2/provider.AzureResourceGroupsEndpoint"
    "handler/v2/provider.DecodeAzureProjectResourceGroupsReq" EncodeJSON DefaultErrorEncoder.
Definition listProjectAzureRouteTables : Server :=
  MkServer [mTokenVerifier; mUserSaver]
    "handler/v2/provider.AzureRouteTablesEndpoint"
    "handler/v2/provider.DecodeAzureProjectRouteTablesReq" EncodeJSON DefaultErrorEncoder.
Definition listProjectAzureVnets : Server :=
  MkServer [mTokenVerifier; mUserSaver]
    "handler/v2/provider.AzureVirtualNetworksEndpoint"
    "handler/v2/provider.DecodeAzureProjectVirtualNetworksReq" EncodeJSON DefaultErrorEncoder.
Definition listProjectAzureSubnets : Server :=
  MkServer [mTokenVerifier; mUserSaver]
    "handler/v2/provider.AzureSubnetsEndpoint"
    "handler/v2/provider.DecodeAzureProjectSubnetsReq" EncodeJSON DefaultErrorEncoder.
Definition validateProjectAKSCredentials : Server :=
  MkServer [mTokenVerifier; mUserSaver]
    "handler/v2/external_cluster.AKSValidateCredentialsEndpoint"
    "handler/v2/external_cluster.DecodeAKSProjectCommonReq" EncodeJSON DefaultErrorEncoder.
Definition listProjectAKSVMSizes : Server :=
  MkServer [mTokenVerifier; mUserSaver]
    "handler/v2/external_cluster.ListAKSVMSizesEndpoint"
    "handler/v2/external_cluster.DecodeAKSProjectVMSizesReq" EncodeJSON DefaultErrorEncoder.
Definition listProjectAKSResourceGroups : Server :=
  MkServer [mTokenVerifier; mUserSaver]
    "handler/v2/external_cluster.ListAKSResourceGroupsEndpoint"
    "handler/v2/external_cluster.DecodeAKSProjectCommonReq" EncodeJSON DefaultErrorEncoder.
Definition listProjectAKSLocations : Server :=
  MkServer [mTokenVerifier; mUserSaver]
    "handler/v2/external_cluster.ListAKSLocationsEndpoint"
    "handler/v2/external_cluster.DecodeAKSProjectCommonReq" EncodeJSON DefaultErrorEncoder.
Definition listProjectAKSVersions : Server :=
  MkServer [mTokenVerifier; mUserSaver]
    "handler/v2/external_cluster.AKSVersionsEndpoint"
    "handler/v2/external_cluster.DecodeAKSProjectReq" EncodeJSON DefaultErrorEncoder.
Definition listProjectVSphereNetworks : Server :=
  MkServer [mTokenVerifier; mUserSaver]
    "handler/v2/provider.VsphereNetworksEndpoint"
    "handler/v2/provider.DecodeVSphereProjectReq" EncodeJSON DefaultErrorEncoder.
Definition listProjectVSphereFolders : Server :=
  MkServer [mTokenVerifier; mUserSaver]
    "handler/v2/provider.VsphereFoldersEndpoint"
    "handler/v2/provider.DecodeVSphereProjectReq" EncodeJSON DefaultErrorEncoder.
Definition listProjectVSphereDatastores : Server :=
  MkServer [mTokenVerifier; mUserSaver]
    "handler/v2/provider.VsphereDatastoreEndpoint"
    "handler/v2/provider.DecodeVSphereProjectReq" EncodeJSON DefaultErrorEncoder.
Definition listProjectVSphereVMGroups : Server :=
  MkServer [mTokenVerifier; mUserSaver]
    "handler/v2/provider.VsphereVMGroupEndpoint"
    "handler/v2/provider.DecodeVSphereProjectReq" EncodeJSON DefaultErrorEncoder.
Definition listProjectVSphereTagCategories : Server :=
  MkServer [mTokenVerifier; mUserSaver]
    "handler/v2/provider.VsphereTagCategoriesEndpoint"
    "handler/v2/provider.DecodeVSphereProjectReq" EncodeJSON DefaultErrorEncoder.
Definition listProjectVSphereTagsForTagCategories : Server :=
  MkServer [mTokenVerifier; mUserSaver]
    "handler/v2/provider.VsphereTagForTagCategoryEndpoint"
    "handler/v2/provider.DecodeVSphereTagsReq" EncodeJSON DefaultErrorEncoder.
Definition listProjectNutanixClusters : Server :=
  MkServer [mTokenVerifier; mUserSaver]
    "handler/v2/provider.NutanixClusterEndpoint"
    "handler/v2/provider.DecodeNutanixProjectClusterReq" EncodeJSON DefaultErrorEncoder.
Definition listProjectNutanixProjects : Server :=
  MkServer [mTokenVerifier; mUserSaver]
    "handler/v2/provider.NutanixProjectEndpoint"
    "handler/v2/provider.DecodeNutanixProjectProjectReq" EncodeJSON DefaultErrorEncoder.
Definition listProjectNutanixSubnets : Server :=
  MkServer [mTokenVerifier; mUserSaver]
    "handler/v2/provider.NutanixSubnetEndpoint"
    "handler/v2/provider.DecodeNutanixProjectSubnetReq" EncodeJSON DefaultErrorEncoder.
Definition listProjectNutanixCategories : Server :=
  MkServer [mTokenVerifier; mUserSaver]
    "handler/v2/provider.NutanixCategoryEndpoint"
    "handler/v2/provider.DecodeNutanixProjectCategoryReq" EncodeJSON DefaultErrorEncoder.
Definition listProjectNutanixCategoryValues : Server :=
  MkServer [mTokenVerifier; mUserSaver]
    "handler/v2/provider.NutanixCategoryValuesEndpoint"
    "handler/v2/provider.DecodeNutanixProjectCategoryValueReq" EncodeJSON DefaultErrorEncoder.
Definition listProjectVMwareCloudDirectorNetworks : Server :=
  MkServer [mTokenVerifier; mUserSaver]
    "handler/v2/provider.VMwareCloudDirectorNetworksEndpoint"
    "handler/v2/provider.DecodeVMwareCloudDirectorProjectCommonReq" EncodeJSON DefaultErrorEncoder.
Definition listProjectVMwareCloudDirectorStorageProfiles : Server :=
  MkServer [mTokenVerifier; mUserSaver]
    "handler/v2/provider.VMwareCloudDirectorStorageProfilesEndpoint"
    "handler/v2/provider.DecodeVMwareCloudDirectorProjectCommonReq" EncodeJSON DefaultErrorEncoder.
Definition listProjectVMwareCloudDirectorComputePolicies : Server :=
  MkServer [mTokenVerifier; mUserSaver]
    "handler/v2/provider.VMwareCloudDirectorComputePoliciesEndpoint"
    "handler/v2/provider.DecodeVMwareCloudDirectorProjectCommonReq" EncodeJSON DefaultErrorEncoder.
Definition listProjectVMwareCloudDirectorCatalogs : Server :=
  MkServer [mTokenVerifier; mUserSaver]
    "handler/v2/provider.VMwareCloudDirectorCatalogsEndpoint"
    "handler/v2/provider.DecodeVMwareCloudDirectorProjectCommonReq" EncodeJSON DefaultErrorEncoder.
Definition listProjectVMwareCloudDirectorTemplates : Server :=
  MkServer [mTokenVerifier; mUserSaver]
    "handler/v2/provider.VMwareCloudDirectorTemplatesEndpoint"
    "handler/v2/provider.DecodeVMwareCloudDirectorProjectListTemplatesReq" EncodeJSON DefaultErrorEncoder.
Definition listProjectHetznerSizes : Server :=
  MkServer [mTokenVerifier; mUserSaver]
    "handler/v2/provider.HetznerProjectSizeEndpoint"
    "handler/v2/provider.DecodeHetznerProjectSizesReq" EncodeJSON DefaultErrorEncoder.
Definition listProjectAlibabaInstanceTypes : Server :=
  MkServer [mTokenVerifier; mUserSaver]
    "handler/v2/provider.AlibabaInstanceTypesEndpoint"
    "handler/v2/provider.DecodeAlibabaProjectInstanceTypesReq" EncodeJSON DefaultErrorEncoder.
Definition listProjectAlibabaZones : Server :=
  MkServer [mTokenVerifier; mUserSaver]
    "handler/v2/provider.AlibabaZonesEndpoint"
    "handler/v2/provider.DecodeAlibabaProjectReq" EncodeJSON DefaultErrorEncoder.
Definition listProjectAlibabaVSwitches : Server :=
  MkServer [mTokenVerifier; mUserSaver]
    "handler/v2/provider.AlibabaVSwitchesEndpoint"
    "handler/v2/provider.DecodeAlibabaProjectReq" EncodeJSON DefaultErrorEncoder.
Definition listProjectAnexiaVlans : Server :=
  MkServer [mTokenVerifier; mUserSaver]
    "handler/v2/provider.AnexiaProjectVlansEndpoint"
    "handler/v2/provider.DecodeAnexiaProjectReq" EncodeJSON DefaultErrorEncoder.
Definition listProjectAnexiaTemplates : Server :=
  MkServer [mTokenVerifier; mUserSaver]
    "handler/v2/provider.AnexiaProjectTemplatesEndpoint"
    "handler/v2/provider.DecodeAnexiaProjectTemplateReq" EncodeJSON DefaultErrorEncoder.
Definition listProjectAnexiaDiskTypes : Server :=
  MkServer [mTokenVerifier; mUserSaver]
    "handler/v2/provider.AnexiaProjectDiskTypesEndpoint"
    "handler/v2/provider.DecodeAnexiaProjectDiskTypeReq" EncodeJSON DefaultErrorEncoder.
Definition listProjectDigitaloceanSizes : Server :=
  MkServer [mTokenVerifier; mUserSaver]
    "handler/v2/provider.DigitaloceanSizeEndpoint"
    "handler/v2/provider.DecodeDoProjectSizesReq" EncodeJSON DefaultErrorEncoder.
Definition listProjectOpenstackSizes : Server :=
  MkServer [mTokenVerifier; mUserSaver]
    "handler/v2/provider.OpenstackSizeEndpoint"
    "handler/v2/provider.DecodeOpenstackProjectReq" EncodeJSON DefaultErrorEncoder.
Definition listProjectOpenstackAvailabilityZones : Server :=
  MkServer [mTokenVerifier; mUserSaver]
    "handler/v2/provider.OpenstackAvailabilityZoneEndpoint"
    "handler/v2/provider.DecodeOpenstackProjectReq" EncodeJSON DefaultErrorEncoder.
Definition listProjectOpenstackNetworks : Server :=
  MkServer [mTokenVerifier; mUserSaver]
    "handler/v2/provider.OpenstackNetworkEndpoint"
    "handler/v2/provider.DecodeOpenstackProjectReq" EncodeJSON DefaultErrorEncoder.
Definition listProjectOpenstackSubnets : Server :=
  MkServer [mTokenVerifier; mUserSaver]
    "handler/v2/provider.OpenstackSubnetsEndpoint"
    "handler/v2/provider.DecodeOpenstackProjectSubnetReq" EncodeJSON DefaultErrorEncoder.
Definition listProjectOpenstackSecurityGroups : Server :=
  MkServer [mTokenVerifier; mUserSaver]
    "handler/v2/provider.OpenstackSecurityGroupEndpoint"
    "handler/v2/provider.DecodeOpenstackProjectReq" EncodeJSON DefaultErrorEncoder.
Definition listProjectOpenstackTenants : Server :=
  MkServer [mTokenVerifier; mUserSaver]
    "handler/v2/provider.OpenstackTenantEndpoint"
    "handler/v2/provider.DecodeOpenstackProjectTenantReq" EncodeJSON DefaultErrorEncoder.
Definition listProjectOpenstackSubnetPools : Server :=
  MkServer [mTokenVerifier; mUserSaver]
    "handler/v2/provider.OpenstackSubnetPoolEndpoint"
    "handler/v2/provider.DecodeOpenstackProjectSubnetPoolReq" EncodeJSON DefaultErrorEncoder.
Definition listProjectOpenstackServerGroups : Server :=
  MkServer [mTokenVerifier; mUserSaver]
    "handler/v2/provider.OpenstackServerGroupEndpoint"
    "handler/v2/provider.DecodeOpenstackProjectReq" EncodeJSON DefaultErrorEncoder.
Definition listProjectOpenstackImages : Server :=
  MkServer [mTokenVerifier; mUserSaver]
    "handler/v2/provider.OpenstackImageEndpoint"
    "handler/v2/provider.DecodeOpenstackProjectReq" EncodeJSON DefaultErrorEncoder.
Definition listProjectOpenstackMemberSubnets : Server :=
  MkServer [mTokenVerifier; mUserSaver]
    "handler/v2/provider.OpenstackMemberSubnetsEndpoint"
    "handler/v2/provider.DecodeOpenstackProjectMemberSubnetReq" EncodeJSON DefaultErrorEncoder.
Definition getSeedSettings : Server :=
  MkServer [mTokenVerifier; mUserSaver]
    "handler/v2/seedsettings.GetSeedSettingsEndpoint"
    "handler/v2/seedsettings.DecodeGetSeedSettingsReq" EncodeJSON DefaultErrorEncoder.
Definition createClusterTemplate : Server :=
  MkServer [mTokenVerifier; mUserSaver; mSetPrivilegedClusterProvider]
    "handler/v2/cluster_template.CreateEndpoint"
    "handler/v2/cluster_template.DecodeCreateReq" (SetStatusCreatedHeader EncodeJSON) DefaultErrorEncoder.
Definition importClusterTemplate : Server :=
  MkServer [mTokenVerifier; mUserSaver; mSetPrivilegedClusterProvider]
    "handler/v2/cluster_template.ImportEndpoint"
    "handler/v2/cluster_template.DecodeImportReq" (SetStatusCreatedHeader EncodeJSON) DefaultErrorEncoder.
Definition listClusterTemplates : Server :=
  MkServer [mTokenVerifier; mUserSaver]
    "handler/v2/cluster_template.ListEndpoint"
    "handler/v2/cluster_template.DecodeListReq" EncodeJSON DefaultErrorEncoder.
Definition getClusterTemplate : Server :=
  MkServer [mTokenVerifier; mUserSaver]
    "handler/v2/cluster_template.GetEndpoint"
    "handler/v2/cluster_template.DecodeGetReq" EncodeJSON DefaultErrorEncoder.
Definition exportClusterTemplate : Server :=
  MkServer [mTokenVerifier; mUserSaver]
    "handler/v2/cluster_template.ExportEndpoint"
    "handler/v2/cluster_template.DecodeExportReq" (EncoderNamed "handler/v2/cluster_template.EncodeClusterTemplate") DefaultErrorEncoder.
Definition deleteClusterTemplate : Server :=
  MkServer [mTokenVerifier; mUserSaver]
    "handler/v2/cluster_template.DeleteEndpoint"
    "handler/v2/cluster_template.DecodeGetReq" EncodeJSON DefaultErrorEncoder.
Definition updateClusterTemplate : Server :=
  MkServer [mTokenVerifier; mUserSaver; mSetPrivilegedClusterProvider]
    "handler/v2/cluster_template.UpdateEndpoint"
    "handler/v2/cluster_template.DecodeUpdateReq" (SetStatusCreatedHeader EncodeJSON) DefaultErrorEncoder.
Definition createClusterTemplateInstance : Server :=
  MkServer [mTokenVerifier; mUserSaver]
    "handler/v2/cluster_template.CreateInstanceEndpoint"
    "handler/v2/cluster_template.DecodeCreateInstanceReq" (SetStatusCreatedHeader EncodeJSON) DefaultErrorEncoder.
Definition getRuleGroup : Server :=
  MkServer [mTokenVerifier; mUserSaver; mSetClusterProvider; mSetPrivilegedClusterProvider; mRuleGroups; mPrivilegedRuleGroups]
    "handler/v2/rulegroup.GetEndpoint"
    "handler/v2/rulegroup.DecodeGetReq" EncodeJSON DefaultErrorEncoder.
Definition listRuleGroups : Server :=
  MkServer [mTokenVerifier; mUserSaver; mSetClusterProvider; mSetPrivilegedClusterProvider; mRuleGroups; mPrivilegedRuleGroups]
    "handler/v2/rulegroup.ListEndpoint"
    "handler/v2/rulegroup.DecodeListReq" EncodeJSON DefaultErrorEncoder.
Definition createRuleGroup : Server :=
  MkServer [mTokenVerifier; mUserSaver; mSetClusterProvider; mSetPrivilegedClusterProvider; mRuleGroups; mPrivilegedRuleGroups]
    "handler/v2/rulegroup.CreateEndpoint"
    "handler/v2/rulegroup.DecodeCreateReq" (SetStatusCreatedHeader EncodeJSON) DefaultErrorEncoder.
Definition updateRuleGroup : Server :=
  MkServer [mTokenVerifier; mUserSaver; mSetClusterProvider; mSetPrivilegedClusterProvider; mRuleGroups; mPrivilegedRuleGroups]
    "handler/v2/rulegroup.UpdateEndpoint"
    "handler/v2/rulegroup.DecodeUpdateReq" EncodeJSON DefaultErrorEncoder.
Definition deleteRuleGroup : Server :=
  MkServer [mTokenVerifier; mUserSaver; mSetClusterProvider; mSetPrivilegedClusterProvider; mRuleGroups; mPrivilegedRuleGroups]
    "handler/v2/rulegroup.DeleteEndpoint"
    "handler/v2/rulegroup.DecodeDeleteReq" EncodeJSON DefaultErrorEncoder.
Definition migrateClusterToExternalCCM : Server :=
  MkServer [mTokenVerifier; mUserSaver; mSetClusterProvider; mSetPrivilegedClusterProvider]
    "handler/v2/cluster.MigrateEndpointToExternalCCM"
    "handler/v2/cluster.DecodeGetClusterReq" EncodeJSON DefaultErrorEncoder.
Definition createAllowedRegistry : Server :=
  MkServer [mTokenVerifier; mUserSaver]
    "handler/v2/allowed_registry.CreateEndpoint"
    "handler/v2/allowed_registry.DecodeCreateAllowedRegistryRequest" (SetStatusCreatedHeader EncodeJSON) DefaultErrorEncoder.
Definition listAllowedRegistries : Server :=
  MkServer [mTokenVerifier; mUserSaver]
    "handler/v2/allowed_registry.ListEndpoint"
    "handler/v1/common.DecodeEmptyReq" EncodeJSON DefaultErrorEncoder.
Definition getAllowedRegistry : Server :=
  MkServer [mTokenVerifier; mUserSaver]
    "handler/v2/allowed_registry.GetEndpoint"
    "handler/v2/allowed_registry.DecodeGetAllowedRegistryRequest" EncodeJSON DefaultErrorEncoder.
Definition deleteAllowedRegistry : Server :=
  MkServer [mTokenVerifier; mUserSaver]
    "handler/v2/allowed_registry.DeleteEndpoint"
    "handler/v2/allowed_registry.DecodeGetAllowedRegistryRequest" EncodeJSON DefaultErrorEncoder.
Definition patchAllowedRegistry : Server :=
  MkServer [mTokenVerifier; mUserSaver]
    "handler/v2/allowed_registry.PatchEndpoint"
    "handler/v2/allowed_registry.DecodePatchAllowedRegistryReq" EncodeJSON DefaultErrorEncoder.
Definition createClusterBackup : Server :=
  MkServer [mTokenVerifier; mUserSaver; mSetClusterProvider; mSetPrivilegedClusterProvider]
    "handler/v2/clusterbackup/backup.CreateEndpoint"
    "handler/v2/clusterbackup/backup.DecodeCreateClusterBackupReq" (SetStatusCreatedHeader EncodeJSON) DefaultErrorEncoder.
Definition listClusterBackup : Server :=
  MkServer [mTokenVerifier; mUserSaver; mSetClusterProvider; mSetPrivilegedClusterProvider]
    "handler/v2/clusterbackup/backup.ListEndpoint"
    "handler/v2/clusterbackup/backup.DecodeListClusterBackupReq" EncodeJSON DefaultErrorEncoder.
Definition getClusterBackup : Server :=
  MkServer [mTokenVerifier; mUserSaver; mSetClusterProvider; mSetPrivilegedClusterProvider]
    "handler/v2/clusterbackup/backup.GetEndpoint"
    "handler/v2/clusterbackup/backup.DecodeGetClusterBackupReq" EncodeJSON DefaultErrorEncoder.
Definition deleteClusterBackup : Server :=
  MkServer [mTokenVerifier; mUserSaver; mSetClusterProvider; mSetPrivilegedClusterProvider]
    "handler/v2/clusterbackup/backup.DeleteEndpoint"
    "handler/v2/clusterbackup/backup.DecodeDeleteClusterBackupReq" EncodeJSON DefaultErrorEncoder.
Definition clusterBackupDownloadURL : Server :=
  MkServer [mTokenVerifier; mUserSaver; mSetClusterProvider; mSetPrivilegedClusterProvider]
    "handler/v2/clusterbackup/backup.DownloadURLEndpoint"
    "handler/v2/clusterbackup/backup.DecodeDownloadURLReq" EncodeJSON DefaultErrorEncoder.
Definition createBackupStorageLocation : Server :=
  MkServer [mTokenVerifier; mUserSaver; mSetClusterProvider; mSetPrivilegedClusterProvider]
    "handler/v2/clusterbackup/backupstoragelocation.CreateEndpoint"
    "handler/v2/clusterbackup/backupstoragelocation.DecodeCreateBSLReq" (SetStatusCreatedHeader EncodeJSON) DefaultErrorEncoder.
Definition listBackupStorageLocation : Server :=
  MkServer [mTokenVerifier; mUserSaver; mSetClusterProvider; mSetPrivilegedClusterProvider]
    "handler/v2/clusterbackup/backupstoragelocation.ListEndpoint"
    "handler/v2/clusterbackup/backupstoragelocation.DecodeListBSLReq" (SetStatusCreatedHeader EncodeJSON) DefaultErrorEncoder.
Definition getBackupStorageLocation : Server :=
  MkServer [mTokenVerifier; mUserSaver; mSetClusterProvider; mSetPrivilegedClusterProvider]
    "handler/v2/clusterbackup/backupstoragelocation.GetEndpoint"
    "handler/v2/clusterbackup/backupstoragelocation.DecodeGetBSLReq" EncodeJSON DefaultErrorEncoder.
Definition deleteBackupStorageLocation : Server :=
  MkServer [mTokenVerifier; mUserSaver; mSetClusterProvider; mSetPrivilegedClusterProvider]
    "handler/v2/clusterbackup/backupstoragelocation.DeleteEndpoint"
    "handler/v2/clusterbackup/backupstoragelocation.DecodeDeleteBSLReq" EncodeJSON DefaultErrorEncoder.
Definition createClusterRestore : Server :=
  MkServer [mTokenVerifier; mUserSaver; mSetClusterProvider; mSetPrivilegedClusterProvider]
    "handler/v2/clusterbackup/restore.CreateEndpoint"
    "handler/v2/clusterbackup/restore.DecodeCreateClusterRestoreReq" (SetStatusCreatedHeader EncodeJSON) DefaultErrorEncoder.
Definition listClusterRestore : Server :=
  MkServer [mTokenVerifier; mUserSaver; mSetClusterProvider; mSetPrivilegedClusterProvider]
    "handler/v2/clusterbackup/restore.ListEndpoint"
    "handler/v2/clusterbackup/restore.DecodeListClusterRestoreReq" (SetStatusCreatedHeader EncodeJSON) DefaultErrorEncoder.
Definition getClusterRestore : Server :=
  MkServer [mTokenVerifier; mUserSaver; mSetClusterProvider; mSetPrivilegedClusterProvider]
    "handler/v2/clusterbackup/restore.GetEndpoint"
    "handler/v2/clusterbackup/restore.DecodeGetRestoreBackupReq" EncodeJSON DefaultErrorEncoder.
Definition deleteClusterRestore : Server :=
  MkServer [mTokenVerifier; mUserSaver; mSetClusterProvider; mSetPrivilegedClusterProvider]
    "handler/v2/clusterbackup/restore.DeleteEndpoint"
    "handler/v2/clusterbackup/restore.DecodeDeleteClusterRestoreReq" EncodeJSON DefaultErrorEncoder.
Definition createClusterBackupSchedule : Server :=
  MkServer [mTokenVerifier; mUserSaver; mSetClusterProvider; mSetPrivilegedClusterProvider]
    "handler/v2/clusterbackup/schedule.CreateEndpoint"
    "handler/v2/clusterbackup/schedule.DecodeCreateClusterBackupScheduleReq" (SetStatusCreatedHeader EncodeJSON) DefaultErrorEncoder.
Definition listClusterBackupSchedule : Server :=
  MkServer [mTokenVerifier; mUserSaver; mSetClusterProvider; mSetPrivilegedClusterProvider]
    "handler/v2/clusterbackup/schedule.ListEndpoint"
    "handler/v2/clusterbackup/schedule.DecodeListClusterBackupScheduleReq" (SetStatusCreatedHeader EncodeJSON) DefaultErrorEncoder.
Definition getClusterBackupSchedule : Server :=
  MkServer [mTokenVerifier; mUserSaver; mSetClusterProvider; mSetPrivilegedClusterProvider]
    "handler/v2/clusterbackup/schedule.GetEndpoint"
    "handler/v2/clusterbackup/schedule.DecodeGetRestoreBackupConfigReq" EncodeJSON DefaultErrorEncoder.
Definition deleteClusterBackupSchedule : Server :=
  MkServer [mTokenVerifier; mUserSaver; mSetClusterProvider; mSetPrivilegedClusterProvider]
    "handler/v2/clusterbackup/schedule.DeleteEndpoint"
    "handler/v2/clusterbackup/schedule.DecodeDeleteClusterBackupScheduleReq" EncodeJSON DefaultErrorEncoder.
Definition listProjectCBSL : Server :=
  MkServer [mTokenVerifier; mUserSaver]
    "handler/v2/clusterbackup/storage-location.ListCBSLEndpoint"
    "handler/v2/clusterbackup/storage-location.DecodeListProjectCBSLReq" EncodeJSON DefaultErrorEncoder.
Definition getCBSL : Server :=
  MkServer [mTokenVerifier; mUserSaver]
    "handler/v2/clusterbackup/storage-location.GetCBSLEndpoint"
    "handler/v2/clusterbackup/storage-location.DecodeGetCBSLReq" EncodeJSON DefaultErrorEncoder.
Definition listCBSLBucketObjects : Server :=
  MkServer [mTokenVerifier; mUserSaver]
    "handler/v2/clusterbackup/storage-location.ListCBSLBucketObjectsEndpoint"
    "handler/v2/clusterbackup/storage-location.DecodeListCBSLBucketObjectsReq" EncodeJSON DefaultErrorEncoder.
Definition getCBSLCredentials : Server :=
  MkServer [mTokenVerifier; mUserSaver]
    "handler/v2/clusterbackup/storage-location.GetCBSLCredentialsEndpoint"
    "handler/v2/clusterbackup/storage-location.DecodeGetCBSLCredentialsReq" EncodeJSON DefaultErrorEncoder.
Definition createCBSL : Server :=
  MkServer [mTokenVerifier; mUserSaver]
    "handler/v2/clusterbackup/storage-location.CreateCBSLEndpoint"
    "handler/v2/clusterbackup/storage-location.DecodeCreateCBSLReq" EncodeJSON DefaultErrorEncoder.
Definition deleteCBSL : Server :=
  MkServer [mTokenVerifier; mUserSaver]
    "handler/v2/clusterbackup/storage-location.DeleteCBSLEndpoint"
    "handler/v2/clusterbackup/storage-location.DecodeDeleteCBSLReq" EncodeJSON DefaultErrorEncoder.
Definition patchCBSL : Server :=
  MkServer [mTokenVerifier; mUserSaver]
    "handler/v2/clusterbackup/storage-location.PatchCBSLEndpoint"
    "handler/v2/clusterbackup/storage-location.DecodePatchCBSLReq" EncodeJSON DefaultErrorEncoder.
Definition createEtcdBackupConfig : Server :=
  MkServer [mTokenVerifier; mUserSaver; mSetClusterProvider; mSetPrivilegedClusterProvider; mEtcdBackupConfig; mPrivilegedEtcdBackupConfig]
    "handler/v2/etcdbackupconfig.CreateEndpoint"
    "handler/v2/etcdbackupconfig.DecodeCreateEtcdBackupConfigReq" (SetStatusCreatedHeader EncodeJSON) DefaultErrorEncoder.
Definition getEtcdBackupConfig : Server :=
  MkServer [mTokenVerifier; mUserSaver; mSetClusterProvider; mSetPrivilegedClusterProvider; mEtcdBackupConfig; mPrivilegedEtcdBackupConfig]
    "handler/v2/etcdbackupconfig.GetEndpoint"
    "handler/v2/etcdbackupconfig.DecodeGetEtcdBackupConfigReq" EncodeJSON DefaultErrorEncoder.
Definition listEtcdBackupConfig : Server :=
  MkServer [mTokenVerifier; mUserSaver; mSetClusterProvider; mSetPrivilegedClusterProvider; mEtcdBackupConfig; mPrivilegedEtcdBackupConfig]
    "handler/v2/etcdbackupconfig.ListEndpoint"
    "handler/v2/etcdbackupconfig.DecodeListEtcdBackupConfigReq" EncodeJSON DefaultErrorEncoder.
Definition deleteEtcdBackupConfig : Server :=
  MkServer [mTokenVerifier; mUserSaver; mSetClusterProvider; mSetPrivilegedClusterProvider; mEtcdBackupConfig; mPrivilegedEtcdBackupConfig]
    "handler/v2/etcdbackupconfig.DeleteEndpoint"
    "handler/v2/etcdbackupconfig.DecodeGetEtcdBackupConfigReq" EncodeJSON DefaultErrorEncoder.
Definition patchEtcdBackupConfig : Server :=
  MkServer [mTokenVerifier; mUserSaver; mSetClusterProvider; mSetPrivilegedClusterProvider; mEtcdBackupConfig; mPrivilegedEtcdBackupConfig]
    "handler/v2/etcdbackupconfig.PatchEndpoint"
    "handler/v2/etcdbackupconfig.DecodePatchEtcdBackupConfigReq" EncodeJSON DefaultErrorEncoder.
Definition listProjectEtcdBackupConfig : Server :=
  MkServer [mTokenVerifier; mUserSaver; mEtcdBackupConfigProject; mPrivilegedEtcdBackupConfigProject]
    "handler/v2/etcdbackupconfig.ProjectListEndpoint"
    "handler/v2/etcdbackupconfig.DecodeListProjectEtcdBackupConfigReq" EncodeJSON DefaultErrorEncoder.
Definition createEtcdRestore : Server :=
  MkServer [mTokenVerifier; mUserSaver; mSetClusterProvider; mSetPrivilegedClusterProvider; mEtcdRestore; mPrivilegedEtcdRestore]
    "handler/v2/etcdrestore.CreateEndpoint"
    "handler/v2/etcdrestore.DecodeCreateEtcdRestoreReq" (SetStatusCreatedHeader EncodeJSON) DefaultErrorEncoder.
Definition getEtcdRestore : Server :=
  MkServer [mTokenVerifier; mUserSaver; mSetClusterProvider; mSetPrivilegedClusterProvider; mEtcdRestore; mPrivilegedEtcdRestore]
    "handler/v2/etcdrestore.GetEndpoint"
    "handler/v2/etcdrestore.DecodeGetEtcdRestoreReq" EncodeJSON DefaultErrorEncoder.
Definition listEtcdRestore : Server :=
  MkServer [mTokenVerifier; mUserSaver; mSetClusterProvider; mSetPrivilegedClusterProvider; mEtcdRestore; mPrivilegedEtcdRestore]
    "handler/v2/etcdrestore.ListEndpoint"
    "handler/v2/etcdrestore.DecodeListEtcdRestoreReq" EncodeJSON DefaultErrorEncoder.
Definition deleteEtcdRestore : Server :=
  MkServer [mTokenVerifier; mUserSaver; mSetClusterProvider; mSetPrivilegedClusterProvider; mEtcdRestore; mPrivilegedEtcdRestore]
    "handler/v2/etcdrestore.DeleteEndpoint"
    "handler/v2/etcdrestore.DecodeGetEtcdRestoreReq" EncodeJSON DefaultErrorEncoder.
Definition listProjectEtcdRestore : Server :=
  MkServer [mTokenVerifier; mUserSaver; mEtcdRestoreProject; mPrivilegedEtcdRestoreProject]
    "handler/v2/etcdrestore.ProjectListEndpoint"
    "handler/v2/etcdrestore.DecodeListProjectEtcdRestoreReq" EncodeJSON DefaultErrorEncoder.
Definition createOrUpdateBackupCredentials : Server :=
  MkServer [mTokenVerifier; mUserSaver; mBackupCredentials]
    "handler/v2/backupcredentials.CreateOrUpdateEndpoint"
    "handler/v2/backupcredentials.DecodeBackupCredentialsReq" EncodeJSON DefaultErrorEncoder.
Definition getMLAAdminSetting : Server :=
  MkServer [mTokenVerifier; mUserSaver; mSetClusterProvider; mSetPrivilegedClusterProvider; mPrivilegedMLAAdminSetting]
    "handler/v2/mla_admin_setting.GetEndpoint"
    "handler/v2/mla_admin_setting.DecodeGetReq" EncodeJSON DefaultErrorEncoder.
Definition createMLAAdminSetting : Server :=
  MkServer [mTokenVerifier; mUserSaver; mSetClusterProvider; mSetPrivilegedClusterProvider; mPrivilegedMLAAdminSetting]
    "handler/v2/mla_admin_setting.CreateEndpoint"
    "handler/v2/mla_admin_setting.DecodeCreateReq" (SetStatusCreatedHeader EncodeJSON) DefaultErrorEncoder.
Definition updateMLAAdminSetting : Server :=
  MkServer [mTokenVerifier; mUserSaver; mSetClusterProvider; mSetPrivilegedClusterProvider; mPrivilegedMLAAdminSetting]
    "handler/v2/mla_admin_setting.UpdateEndpoint"
    "handler/v2/mla_admin_setting.DecodeUpdateReq" EncodeJSON DefaultErrorEncoder.
Definition deleteMLAAdminSetting : Server :=
  MkServer [mTokenVerifier; mUserSaver; mSetClusterProvider; mSetPrivilegedClusterProvider; mPrivilegedMLAAdminSetting]
    "handler/v2/mla_admin_setting.DeleteEndpoint"
    "handler/v2/mla_admin_setting.DecodeDeleteReq" EncodeJSON DefaultErrorEncoder.
Definition listUser : Server :=
  MkServer [mTokenVerifier; mUserSaver]
    "handler/v2/user.ListEndpoint"
    "handler/v1/common.DecodeEmptyReq" EncodeJSON DefaultErrorEncoder.
Definition getFeatureGates : Server :=
  MkServer [mTokenVerifier; mUserSaver]
    "handler/v2/feature_gates.GetEndpoint"
    "handler/v1/common.DecodeEmptyReq" EncodeJSON DefaultErrorEncoder.
Definition getAdmissionPluginsConfiguration : Server :=
  MkServer [mTokenVerifier; mUserSaver]
    "handler/v2/user_cluster_config.GetAdmissionPluginsConfiguration"
    "handler/v1/common.DecodeEmptyReq" EncodeJSON DefaultErrorEncoder.
Definition updateAdmissionPluginsConfiguration : Server :=
  MkServer [mTokenVerifier; mUserSaver]
    "handler/v2/user_cluster_config.UpdateAdmissionPluginsConfiguration"
    "handler/v2/user_cluster_config.DecodeUpdateAdmissionPlugins" EncodeJSON DefaultErrorEncoder.
Definition listGKEClusters : Server :=
  MkServer [mTokenVerifier; mUserSaver]
    "handler/v2/external_cluster.GKEClustersEndpoint"
    "handler/v2/external_cluster.DecodeGKEProjectCommonReq" EncodeJSON DefaultErrorEncoder.
Definition listGKEImages : Server :=
  MkServer [mTokenVerifier; mUserSaver]
    "handler/v2/external_cluster.GKEImagesEndpoint"
    "handler/v2/external_cluster.DecodeGKEVMReq" EncodeJSON DefaultErrorEncoder.
Definition listGKEZones : Server :=
  MkServer [mTokenVerifier; mUserSaver]
    "handler/v2/external_cluster.GKEZonesEndpoint"
    "handler/v2/external_cluster.DecodeGKECommonReq" EncodeJSON DefaultErrorEncoder.
Definition listGKEVMSizes : Server :=
  MkServer [mTokenVerifier; mUserSaver]
    "handler/v2/external_cluster.GKEVMSizesEndpoint"
    "handler/v2/external_cluster.DecodeGKEVMReq" EncodeJSON DefaultErrorEncoder.
Definition listGKEDiskTypes : Server :=
  MkServer [mTokenVerifier; mUserSaver]
    "handler/v2/external_cluster.GKEDiskTypesEndpoint"
    "handler/v2/external_cluster.DecodeGKEVMReq" EncodeJSON DefaultErrorEncoder.
Definition listGKEVersions : Server :=
  MkServer [mTokenVerifier; mUserSaver]
    "handler/v2/external_cluster.GKEVersionsEndpoint"
    "handler/v2/external_cluster.DecodeGKEVersionsReq" EncodeJSON DefaultErrorEncoder.
Definition validateGKECredentials : Server :=
  MkServer [mTokenVerifier; mUserSaver]
    "handler/v2/external_cluster.GKEValidateCredentialsEndpoint"
    "handler/v2/external_cluster.DecodeGKECommonReq" EncodeJSON DefaultErrorEncoder.
Definition validateEKSCredentials : Server :=
  MkServer [mTokenVerifier; mUserSaver]
    "handler/v2/external_cluster.EKSValidateCredentialsEndpoint"
    "handler/v2/external_cluster.DecodeEKSRegionReq" EncodeJSON DefaultErrorEncoder.
Definition listEKSInstanceTypesNoCredentials : Server :=
  MkServer [mTokenVerifier; mUserSaver]
    "handler/v2/external_cluster.EKSInstanceTypesWithClusterCredentialsEndpoint"
    "handler/v2/external_cluster.DecodeEKSNoCredentialSizeReq" EncodeJSON DefaultErrorEncoder.
Definition listEKSSubnetsNoCredentials : Server :=
  MkServer [mTokenVerifier; mUserSaver]
    "handler/v2/external_cluster.EKSSubnetsWithClusterCredentialsEndpoint"
    "handler/v2/external_cluster.DecodeEKSSubnetsNoCredentialReq" EncodeJSON DefaultErrorEncoder.
Definition listEKSVPCsNoCredentials : Server :=
  MkServer [mTokenVerifier; mUserSaver]
    "handler/v2/external_cluster.EKSVPCsWithClusterCredentialsEndpoint"
    "handler/v2/external_cluster.DecodeEKSNoCredentialReq" EncodeJSON DefaultErrorEncoder.
Definition listEKSNodeRolesNoCredentials : Server :=
  MkServer [mTokenVerifier; mUserSaver]
    "handler/v2/external_cluster.EKSNodeRolesWithClusterCredentialsEndpoint"
    "handler/v2/external_cluster.DecodeEKSNoCredentialReq" EncodeJSON DefaultErrorEncoder.
Definition validateAKSCredentials : Server :=
  MkServer [mTokenVerifier; mUserSaver]
    "handler/v2/external_cluster.AKSValidateCredentialsEndpoint"
    "handler/v2/external_cluster.DecodeAKSCommonReq" EncodeJSON DefaultErrorEncoder.
Definition listAKSVMSizes : Server :=
  MkServer [mTokenVerifier; mUserSaver]
    "handler/v2/external_cluster.ListAKSVMSizesEndpoint"
    "handler/v2/external_cluster.DecodeAKSVMSizesReq" EncodeJSON DefaultErrorEncoder.
Definition listAKSResourceGroups : Server :=
  MkServer [mTokenVerifier; mUserSaver]
    "handler/v2/external_cluster.ListAKSResourceGroupsEndpoint"
    "handler/v2/external_cluster.DecodeAKSCommonReq" EncodeJSON DefaultErrorEncoder.
Definition listAKSLocations : Server :=
  MkServer [mTokenVerifier; mUserSaver]
    "handler/v2/external_cluster.ListAKSLocationsEndpoint"
    "handler/v2/external_cluster.DecodeAKSCommonReq" EncodeJSON DefaultErrorEncoder.
Definition listAKSNodePoolModes : Server :=
  MkServer [mTokenVerifier; mUserSaver]
    "handler/v2/external_cluster.AKSNodePoolModesEndpoint"
    "handler/v1/common.DecodeEmptyReq" EncodeJSON DefaultErrorEncoder.
Definition listAKSVersions : Server :=
  MkServer [mTokenVerifier; mUserSaver]
    "handler/v2/external_cluster.AKSVersionsEndpoint"
    "handler/v1/common.DecodeEmptyReq" EncodeJSON DefaultErrorEncoder.
Definition listEKSClusters : Server :=
  MkServer [mTokenVerifier; mUserSaver]
    "handler/v2/external_cluster.ListEKSClustersEndpoint"
    "handler/v2/external_cluster.DecodeEKSProjectRegionReq" EncodeJSON DefaultErrorEncoder.
Definition listEKSVPCS : Server :=
  MkServer [mTokenVerifier; mUserSaver]
    "handler/v2/external_cluster.ListEKSVPCEndpoint"
    "handler/v2/external_cluster.DecodeEKSRegionReq" EncodeJSON DefaultErrorEncoder.
Definition listEKSSubnets : Server :=
  MkServer [mTokenVerifier; mUserSaver]
    "handler/v2/external_cluster.ListEKSSubnetsEndpoint"
    "handler/v2/external_cluster.DecodeEKSVPCReq" EncodeJSON DefaultErrorEncoder.
Definition listEKSSecurityGroups : Server :=
  MkServer [mTokenVerifier; mUserSaver]
    "handler/v2/external_cluster.ListEKSSecurityGroupsEndpoint"
    "handler/v2/external_cluster.DecodeEKSVPCReq" EncodeJSON DefaultErrorEncoder.
Definition listEKSRegions : Server :=
  MkServer [mTokenVerifier; mUserSaver]
    "handler/v2/external_cluster.ListEKSRegionsEndpoint"
    "handler/v2/external_cluster.DecodeEKSCommonReq" EncodeJSON DefaultErrorEncoder.
Definition listEKSClusterRoles : Server :=
  MkServer [mTokenVerifier; mUserSaver]
    "handler/v2/external_cluster.ListEKSClusterRolesEndpoint"
    "handler/v2/external_cluster.DecodeEKSCommonReq" EncodeJSON DefaultErrorEncoder.
Definition listEKSVersions : Server :=
  MkServer [mTokenVerifier; mUserSaver]
    "handler/v2/external_cluster.EKSVersionsEndpoint"
    "handler/v1/common.DecodeEmptyReq" EncodeJSON DefaultErrorEncoder.
Definition listEKSAMITypes : Server :=
  MkServer [mTokenVerifier; mUserSaver]
    "handler/v2/external_cluster.EKSAMITypesEndpoint"
    "handler/v1/common.DecodeEmptyReq" EncodeJSON DefaultErrorEncoder.
Definition listEKSCapacityTypes : Server :=
  MkServer [mTokenVerifier; mUserSaver]
    "handler/v2/external_cluster.EKSCapacityTypesEndpoint"
    "handler/v1/common.DecodeEmptyReq" EncodeJSON DefaultErrorEncoder.
Definition listAKSClusters : Server :=
  MkServer [mTokenVerifier; mUserSaver]
    "handler/v2/external_cluster.ListAKSClustersEndpoint"
    "handler/v2/external_cluster.DecodeAKSClusterListReq" EncodeJSON DefaultErrorEncoder.
Definition listKubeVirtInstancetypes : Server :=
  MkServer [mTokenVerifier; mUserSaver]
    "handler/v2/provider.KubeVirtInstancetypesEndpoint"
    "handler/v2/provider.DecodeKubeVirtGenericReq" EncodeJSON DefaultErrorEncoder.
Definition listKubeVirtPreferences : Server :=
  MkServer [mTokenVerifier; mUserSaver]
    "handler/v2/provider.KubeVirtPreferencesEndpoint"
    "handler/v2/provider.DecodeKubeVirtGenericReq" EncodeJSON DefaultErrorEncoder.
Definition listKubevirtStorageClasses : Server :=
  MkServer [mTokenVerifier; mUserSaver]
    "handler/v2/provider.KubeVirtStorageClassesEndpoint"
    "handler/v2/provider.DecodeKubeVirtGenericReq" EncodeJSON DefaultErrorEncoder.
Definition getExternalClusterKubeconfig : Server :=
  MkServer [mTokenVerifier; mUserSaver]
    "handler/v2/external_cluster.GetKubeconfigEndpoint"
    "handler/v2/external_cluster.DecodeGetReq" (EncoderNamed "handler/v2/cluster.EncodeKubeconfig") DefaultErrorEncoder.
Definition getAdminRuleGroup : Server :=
  MkServer [mTokenVerifier; mUserSaver; mPrivilegedRuleGroups]
    "handler/v2/rulegroup_admin.GetEndpoint"
    "handler/v2/rulegroup_admin.DecodeGetReq" EncodeJSON DefaultErrorEncoder.
Definition listAdminRuleGroups : Server :=
  MkServer [mTokenVerifier; mUserSaver; mPrivilegedRuleGroups]
    "handler/v2/rulegroup_admin.ListEndpoint"
    "handler/v2/rulegroup_admin.DecodeListReq" EncodeJSON DefaultErrorEncoder.
Definition createAdminRuleGroup : Server :=
  MkServer [mTokenVerifier; mUserSaver; mPrivilegedRuleGroups]
    "handler/v2/rulegroup_admin.CreateEndpoint"
    "handler/v2/rulegroup_admin.DecodeCreateReq" (SetStatusCreatedHeader EncodeJSON) DefaultErrorEncoder.
Definition updateAdminRuleGroup : Server :=
  MkServer [mTokenVerifier; mUserSaver; mPrivilegedRuleGroups]
    "handler/v2/rulegroup_admin.UpdateEndpoint"
    "handler/v2/rulegroup_admin.DecodeUpdateReq" EncodeJSON DefaultErrorEncoder.
Definition deleteAdminRuleGroup : Server :=
  MkServer [mTokenVerifier; mUserSaver; mPrivilegedRuleGroups]
    "handler/v2/rulegroup_admin.DeleteEndpoint"
    "handler/v2/rulegroup_admin.DecodeDeleteReq" EncodeJSON DefaultErrorEncoder.
Definition patchExternalClusterMachineDeployments : Server :=
  MkServer [mTokenVerifier; mUserSaver]
    "handler/v2/external_cluster.PatchMachineDeploymentEndpoint"
    "handler/v2/external_cluster.DecodePatchMachineDeploymentReq" EncodeJSON DefaultErrorEncoder.
Definition getExternalClusterMachineDeployment : Server :=
  MkServer [mTokenVerifier; mUserSaver]
    "handler/v2/external_cluster.GetMachineDeploymentEndpoint"
    "handler/v2/external_cluster.DecodeGetMachineDeploymentReq" EncodeJSON DefaultErrorEncoder.
Definition getExternalClusterMachineDeploymentUpgrades : Server :=
  MkServer [mTokenVerifier; mUserSaver]
    "handler/v2/external_cluster.GetMachineDeploymentUpgradesEndpoint"
    "handler/v2/external_cluster.DecodeGetMachineDeploymentReq" EncodeJSON DefaultErrorEncoder.
Definition listExternalClusterMachineDeploymentNodes : Server :=
  MkServer [mTokenVerifier; mUserSaver]
    "handler/v2/external_cluster.ListMachineDeploymentNodesEndpoint"
    "handler/v2/external_cluster.DecodeListMachineDeploymentNodesReq" EncodeJSON DefaultErrorEncoder.
Definition listExternalClusterMachineDeploymentMetrics : Server :=
  MkServer [mTokenVerifier; mUserSaver]
    "handler/v2/external_cluster.ListMachineDeploymentMetricsEndpoint"
    "handler/v2/external_cluster.DecodeGetMachineDeploymentReq" EncodeJSON DefaultErrorEncoder.
Definition listExternalClusterMachineDeploymentEvents : Server :=
  MkServer [mTokenVerifier; mUserSaver]
    "handler/v2/external_cluster.ListMachineDeploymentEventsEndpoint"
    "handler/v2/external_cluster.DecodeListMachineDeploymentNodesEvents" EncodeJSON DefaultErrorEncoder.
Definition listAKSNodeVersionsNoCredentials : Server :=
  MkServer [mTokenVerifier; mUserSaver]
    "handler/v2/external_cluster.AKSNodeVersionsWithClusterCredentialsEndpoint"
    "handler/v2/external_cluster.DecodeGetReq" EncodeJSON DefaultErrorEncoder.
Definition listAKSVMSizesNoCredentials : Server :=
  MkServer [mTokenVerifier; mUserSaver]
    "handler/v2/external_cluster.AKSSizesWithClusterCredentialsEndpoint"
    "handler/v2/external_cluster.DecodeAKSNoCredentialReq" EncodeJSON DefaultErrorEncoder.
Definition listGKEClusterImages : Server :=
  MkServer [mTokenVerifier; mUserSaver]
    "handler/v2/external_cluster.GKEImagesWithClusterCredentialsEndpoint"
    "handler/v2/external_cluster.DecodeGetReq" EncodeJSON DefaultErrorEncoder.
Definition listGKEClusterZones : Server :=
  MkServer [mTokenVerifier; mUserSaver]
    "handler/v2/external_cluster.GKEZonesWithClusterCredentialsEndpoint"
    "handler/v2/external_cluster.DecodeGetReq" EncodeJSON DefaultErrorEncoder.
Definition listGKEClusterSizes : Server :=
  MkServer [mTokenVerifier; mUserSaver]
    "handler/v2/external_cluster.GKESizesWithClusterCredentialsEndpoint"
    "handler/v2/external_cluster.DecodeGetReq" EncodeJSON DefaultErrorEncoder.
Definition listGKEClusterDiskTypes : Server :=
  MkServer [mTokenVerifier; mUserSaver]
    "handler/v2/external_cluster.GKEDiskTypesWithClusterCredentialsEndpoint"
    "handler/v2/external_cluster.DecodeGetReq" EncodeJSON DefaultErrorEncoder.
Definition getBackupDestinationNames : Server :=
  MkServer [mTokenVerifier; mUserSaver; mSetClusterProvider; mSetPrivilegedClusterProvider]
    "handler/v2/backupdestinations.GetEndpoint"
    "handler/v2/backupdestinations.DecodeGetBackupDestinationNamesReq" EncodeJSON DefaultErrorEncoder.
Definition listVersionsByCNIPlugin : Server :=
  MkServer [mTokenVerifier; mUserSaver]
    "handler/v2/cniversion.ListVersions"
    "handler/v2/cniversion.DecodeListCNIPluginVersions" EncodeJSON DefaultErrorEncoder.
Definition listCNIPluginVersionsForCluster : Server :=
  MkServer [mTokenVerifier; mUserSaver; mSetClusterProvider; mSetPrivilegedClusterProvider]
    "handler/v2/cniversion.ListVersionsForCluster"
    "handler/v2/cniversion.DecodeListCNIPluginVersionsForClusterReq" EncodeJSON DefaultErrorEncoder.
Definition getNetworkDefaults : Server :=
  MkServer [mTokenVerifier; mUserSaver; mSetPrivilegedClusterProvider]
    "handler/v2/networkdefaults.GetNetworkDefaultsEndpoint"
    "handler/v2/networkdefaults.DecodeGetNetworkDefaultsReq" EncodeJSON DefaultErrorEncoder.
Definition getDefaultCluster : Server :=
  MkServer [mTokenVerifier; mUserSaver; mSetPrivilegedClusterProvider]
    "handler/v2/cluster_default.GetDefaultClusterEndpoint"
    "handler/v2/cluster_default.DecodeGetDefaultClusterReq" EncodeJSON DefaultErrorEncoder.
Definition createOIDCKubeconfigSecret : Server :=
  MkServer [mSetClusterProvider; mSetPrivilegedClusterProvider; mUserInfoUnauthorized; mOIDCProviders]
    "handler/v2/webterminal.CreateOIDCKubeconfigSecretEndpoint"
    "handler/v2/webterminal.DecodeCreateOIDCKubeconfig" (EncoderNamed "handler/v2/webterminal.EncodeOIDCKubeconfig") OIDCCallbackErrorEncoder.
Definition getProjectQuota : Server :=
  MkServer [mTokenVerifier; mUserSaver]
    "handler/v2/resource_quota.GetForProjectEndpoint"
    "handler/v1/common.DecodeGetProject" EncodeJSON DefaultErrorEncoder.
Definition calculateProjectResourceQuotaUpdate : Server :=
  MkServer [mTokenVerifier; mUserSaver]
    "handler/v2/resource_quota.CalculateProjectQuotaUpdateEndpoint"
    "handler/v2/resource_quota.DecodeCalculateProjectResourceQuotaUpdateReq" EncodeJSON DefaultErrorEncoder.
Definition getResourceQuota : Server :=
  MkServer [mTokenVerifier; mUserSaver]
    "handler/v2/resource_quota.GetResourceQuotaEndpoint"
    "handler/v2/resource_quota.DecodeResourceQuotasReq" EncodeJSON DefaultErrorEncoder.
Definition listResourceQuotas : Server :=
  MkServer [mTokenVerifier; mUserSaver]
    "handler/v2/resource_quota.ListResourceQuotasEndpoint"
    "handler/v2/resource_quota.DecodeListResourceQuotasReq" EncodeJSON DefaultErrorEncoder.
Definition createResourceQuota : Server :=
  MkServer [mTokenVerifier; mUserSaver]
    "handler/v2/resource_quota.CreateResourceQuotaEndpoint"
    "handler/v2/resource_quota.DecodeCreateResourceQuotasReq" (SetStatusCreatedHeader EncodeJSON) DefaultErrorEncoder.
Definition putResourceQuota : Server :=
  MkServer [mTokenVerifier; mUserSaver]
    "handler/v2/resource_quota.PutResourceQuotaEndpoint"
    "handler/v2/resource_quota.DecodePutResourceQuotasReq" EncodeJSON DefaultErrorEncoder.
Definition deleteResourceQuota : Server :=
  MkServer [mTokenVerifier; mUserSaver]
    "handler/v2/resource_quota.DeleteResourceQuotaEndpoint"
    "handler/v2/resource_quota.DecodeResourceQuotasReq" EncodeJSON DefaultErrorEncoder.
Definition listGroupProjectBindings : Server :=
  MkServer [mTokenVerifier; mUserSaver]
    "handler/v2/group-project-binding.ListGroupProjectBindingsEndpoint"
    "handler/v1/common.DecodeGetProject" EncodeJSON DefaultErrorEncoder.
Definition getGroupProjectBinding : Server :=
  MkServer [mTokenVerifier; mUserSaver]
    "handler/v2/group-project-binding.GetGroupProjectBindingEndpoint"
    "handler/v2/group-project-binding.DecodeGetGroupProjectBindingReq" EncodeJSON DefaultErrorEncoder.
Definition createGroupProjectBinding : Server :=
  MkServer [mTokenVerifier; mUserSaver]
    "handler/v2/group-project-binding.CreateGroupProjectBindingEndpoint"
    "handler/v2/group-project-binding.DecodeCreateGroupProjectBindingReq" (SetStatusCreatedHeader EncodeJSON) DefaultErrorEncoder.
Definition deleteGroupProjectBinding : Server :=
  MkServer [mTokenVerifier; mUserSaver]
    "handler/v2/group-project-binding.DeleteGroupProjectBindingEndpoint"
    "handler/v2/group-project-binding.DecodeDeleteGroupProjectBindingReq" EncodeJSON DefaultErrorEncoder.
Definition patchGroupProjectBinding : Server :=
  MkServer [mTokenVerifier; mUserSaver]
    "handler/v2/group-project-binding.PatchGroupProjectBindingEndpoint"
    "handler/v2/group-project-binding.DecodePatchGroupProjectBindingReq" EncodeJSON DefaultErrorEncoder.
Definition listApplicationInstallations : Server :=
  MkServer [mTokenVerifier; mUserSaver; mSetClusterProvider; mSetPrivilegedClusterProvider]
    "handler/v2/application_installation.ListApplicationInstallations"
    "handler/v2/application_installation.DecodeListApplicationInstallations" EncodeJSON DefaultErrorEncoder.
Definition createApplicationInstallation : Server :=
  MkServer [mTokenVerifier; mUserSaver; mSetClusterProvider; mSetPrivilegedClusterProvider]
    "handler/v2/application_installation.CreateApplicationInstallation"
    "handler/v2/application_installation.DecodeCreateApplicationInstallation" (SetStatusCreatedHeader EncodeJSON) DefaultErrorEncoder.
Definition deleteApplicationInstallation : Server :=
  MkServer [mTokenVerifier; mUserSaver; mSetClusterProvider; mSetPrivilegedClusterProvider]
    "handler/v2/application_installation.DeleteApplicationInstallation"
    "handler/v2/application_installation.DecodeDeleteApplicationInstallation" EncodeJSON DefaultErrorEncoder.
Definition getApplicationInstallation : Server :=
  MkServer [mTokenVerifier; mUserSaver; mSetClusterProvider; mSetPrivilegedClusterProvider]
    "handler/v2/application_installation.GetApplicationInstallation"
    "handler/v2/application_installation.DecodeGetApplicationInstallation" EncodeJSON DefaultErrorEncoder.
Definition updateApplicationInstallation : Server :=
  MkServer [mTokenVerifier; mUserSaver; mSetClusterProvider; mSetPrivilegedClusterProvider]
    "handler/v2/application_installation.UpdateApplicationInstallation"
    "handler/v2/application_installation.DecodeUpdateApplicationInstallation" EncodeJSON DefaultErrorEncoder.
Definition listApplicationDefinitions : Server :=
  MkServer [mTokenVerifier; mUserSaver]
    "handler/v2/application_definition.ListApplicationDefinitions"
    "handler/v1/common.DecodeEmptyReq" EncodeJSON DefaultErrorEncoder.
Definition getApplicationDefinition : Server :=
  MkServer [mTokenVerifier; mUserSaver]
    "handler/v2/application_definition.GetApplicationDefinition"
    "handler/v2/application_definition.DecodeGetApplicationDefinition" EncodeJSON DefaultErrorEncoder.
Definition createApplicationDefinition : Server :=
  MkServer [mTokenVerifier; mUserSaver]
    "handler/v2/application_definition.CreateApplicationDefinition"
    "handler/v2/application_definition.DecodeCreateApplicationDefinition" (SetStatusCreatedHeader EncodeJSON) DefaultErrorEncoder.
Definition updateApplicationDefinition : Server :=
  MkServer [mTokenVerifier; mUserSaver]
    "handler/v2/application_definition.UpdateApplicationDefinition"
    "handler/v2/application_definition.DecodeUpdateApplicationDefinition" EncodeJSON DefaultErrorEncoder.
Definition patchApplicationDefinition : Server :=
  MkServer [mTokenVerifier; mUserSaver]
    "handler/v2/application_definition.PatchApplicationDefinition"
    "handler/v2/application_definition.DecodePatchApplicationDefinitionReq" EncodeJSON DefaultErrorEncoder.
Definition deleteApplicationDefinition : Server :=
  MkServer [mTokenVerifier; mUserSaver]
    "handler/v2/application_definition.DeleteApplicationDefinition"
    "handler/v2/application_definition.DecodeDeleteApplicationDefinition" EncodeJSON DefaultErrorEncoder.
Definition getApplicationSettings : Server :=
  MkServer [mTokenVerifier; mUserSaver]
    "handler/v2/application_settings.GetApplicationSettingsEndpoint"
    "handler/v1/common.DecodeEmptyReq" EncodeJSON DefaultErrorEncoder.
Definition listIPAMPools : Server :=
  MkServer [mTokenVerifier; mUserSaver; mPrivilegedIPAMPool]
    "handler/v2/ipampool.ListIPAMPoolsEndpoint"
    "handler/v2/ipampool.DecodeSeedReq" EncodeJSON DefaultErrorEncoder.
Definition getIPAMPool : Server :=
  MkServer [mTokenVerifier; mUserSaver; mPrivilegedIPAMPool]
    "handler/v2/ipampool.GetIPAMPoolEndpoint"
    "handler/v2/ipampool.DecodeIPAMPoolReq" EncodeJSON DefaultErrorEncoder.
Definition createIPAMPool : Server :=
  MkServer [mTokenVerifier; mUserSaver; mPrivilegedIPAMPool]
    "handler/v2/ipampool.CreateIPAMPoolEndpoint"
    "handler/v2/ipampool.DecodeCreateIPAMPoolReq" EncodeJSON DefaultErrorEncoder.
Definition patchIPAMPool : Server :=
  MkServer [mTokenVerifier; mUserSaver; mPrivilegedIPAMPool]
    "handler/v2/ipampool.PatchIPAMPoolEndpoint"
    "handler/v2/ipampool.DecodePatchIPAMPoolReq" EncodeJSON DefaultErrorEncoder.
Definition deleteIPAMPool : Server :=
  MkServer [mTokenVerifier; mUserSaver; mPrivilegedIPAMPool]
    "handler/v2/ipampool.DeleteIPAMPoolEndpoint"
    "handler/v2/ipampool.DecodeIPAMPoolReq" EncodeJSON DefaultErrorEncoder.
Definition listOperatingSystemProfiles : Server :=
  MkServer [mTokenVerifier; mUserSaver; mPrivilegedOperatingSystemProfile]
    "handler/v2/operatingsystemprofile.ListOperatingSystemProfilesEndpoint"
    "handler/v2/operatingsystemprofile.DecodeSeedReq" EncodeJSON DefaultErrorEncoder.
Definition listOperatingSystemProfilesForCluster : Server :=
  MkServer [mTokenVerifier; mUserSaver; mSetClusterProvider; mPrivilegedOperatingSystemProfile]
    "handler/v2/operatingsystemprofile.ListOperatingSystemProfilesEndpointForCluster"
    "handler/v2/operatingsystemprofile.DecodeListOperatingSystemProfiles" EncodeJSON DefaultErrorEncoder.
Definition listClusterServiceAccount : Server :=
  MkServer [mTokenVerifier; mUserSaver; mSetClusterProvider; mSetPrivilegedClusterProvider]
    "handler/v2/cluster.ListClusterSAEndpoint"
    "handler/v2/cluster.DecodeListClusterServiceAccount" EncodeJSON DefaultErrorEncoder.
Definition createClusterServiceAccount : Server :=
  MkServer [mTokenVerifier; mUserSaver; mSetClusterProvider; mSetPrivilegedClusterProvider]
    "handler/v2/cluster.CreateClusterSAEndpoint"
    "handler/v2/cluster.DecodeCreateClusterServiceAccount" (SetStatusCreatedHeader EncodeJSON) DefaultErrorEncoder.
Definition getClusterServiceAccountKubeconfig : Server :=
  MkServer [mTokenVerifier; mUserSaver; mSetClusterProvider; mSetPrivilegedClusterProvider]
    "handler/v2/cluster.GetClusterSAKubeconfigEndpoint"
    "handler/v2/cluster.DecodeClusterSAReq" (EncoderNamed "handler/v2/cluster.EncodeKubeconfig") DefaultErrorEncoder.
Definition getClusterServiceAccountPermissions : Server :=
  MkServer [mTokenVerifier; mUserSaver; mSetClusterProvider; mSetPrivilegedClusterProvider]
    "handler/v2/cluster.GetClusterSAPermissionsEndpoint"
    "handler/v2/cluster.DecodeClusterSAReq" EncodeJSON DefaultErrorEncoder.
Definition deleteClusterServiceAccount : Server :=
  MkServer [mTokenVerifier; mUserSaver; mSetClusterProvider; mSetPrivilegedClusterProvider]
    "handler/v2/cluster.DeleteClusterSAKubeconigEndpoint"
    "handler/v2/cluster.DecodeClusterSAReq" EncodeJSON DefaultErrorEncoder.
Definition getSeedOverview : Server :=
  MkServer [mTokenVerifier; mUserSaver; mSetClusterProvider]
    "handler/v2/seedoverview.GetSeedOverview"
    "handler/v2/seedoverview.DecodeGetSeedOverviewReq" EncodeJSON DefaultErrorEncoder.
Definition listSeedStatus : Server :=
  MkServer [mTokenVerifier; mUserSaver]
    "handler/v2/seedoverview.ListSeedStatus"
    "handler/v1/common.DecodeEmptyReq" EncodeJSON DefaultErrorEncoder.
Definition listKyvernoPolicyTemplates : Server :=
  MkServer [mTokenVerifier; mUserSaver]
    "handler/v2/kyverno/policy-template.ListEndpoint"
    "handler/v2/kyverno/policy-template.DecodeListPolicyTemplateReq" EncodeJSON DefaultErrorEncoder.
Definition getKyvernoPolicyTemplate : Server :=
  MkServer [mTokenVerifier; mUserSaver]
    "handler/v2/kyverno/policy-template.GetEndpoint"
    "handler/v2/kyverno/policy-template.DecodeGetPolicyTemplateReq" EncodeJSON DefaultErrorEncoder.
Definition createKyvernoPolicyTemplate : Server :=
  MkServer [mTokenVerifier; mUserSaver]
    "handler/v2/kyverno/policy-template.CreateEndpoint"
    "handler/v2/kyverno/policy-template.DecodeCreatePolicyTemplateReq" EncodeJSON DefaultErrorEncoder.
Definition patchKyvernoPolicyTemplate : Server :=
  MkServer [mTokenVerifier; mUserSaver]
    "handler/v2/kyverno/policy-template.PatchEndpoint"
    "handler/v2/kyverno/policy-template.DecodePatchPolicyTemplateReq" EncodeJSON DefaultErrorEncoder.
Definition deleteKyvernoPolicyTemplate : Server :=
  MkServer [mTokenVerifier; mUserSaver]
    "handler/v2/kyverno/policy-template.DeleteEndpoint"
    "handler/v2/kyverno/policy-template.DecodeDeletePolicyTemplateReq" EncodeJSON DefaultErrorEncoder.
Definition listKyvernoPolicyBindings : Server :=
  MkServer [mTokenVerifier; mUserSaver; mSetPrivilegedClusterProvider]
    "handler/v2/kyverno/policy-binding.ListEndpoint"
    "handler/v2/kyverno/policy-binding.DecodeListPolicyBindingReq" EncodeJSON DefaultErrorEncoder.
Definition getKyvernoPolicyBinding : Server :=
  MkServer [mTokenVerifier; mUserSaver; mSetPrivilegedClusterProvider]
    "handler/v2/kyverno/policy-binding.GetEndpoint"
    "handler/v2/kyverno/policy-binding.DecodeGetPolicyBindingReq" EncodeJSON DefaultErrorEncoder.
Definition createKyvernoPolicyBinding : Server :=
  MkServer [mTokenVerifier; mUserSaver; mSetPrivilegedClusterProvider]
    "handler/v2/kyverno/policy-binding.CreateEndpoint"
    "handler/v2/kyverno/policy-binding.DecodeCreatePolicyBindingReq" EncodeJSON DefaultErrorEncoder.
Definition patchKyvernoPolicyBinding : Server :=
  MkServer [mTokenVerifier; mUserSaver; mSetPrivilegedClusterProvider]
    "handler/v2/kyverno/policy-binding.PatchEndpoint"
    "handler/v2/kyverno/policy-binding.DecodePatchPolicyBindingReq" EncodeJSON DefaultErrorEncoder.
Definition deleteKyvernoPolicyBinding : Server :=
  MkServer [mTokenVerifier; mUserSaver; mSetPrivilegedClusterProvider]
    "handler/v2/kyverno/policy-binding.DeleteEndpoint"
    "handler/v2/kyverno/policy-binding.DecodeDeletePolicyBindingReq" EncodeJSON DefaultErrorEncoder.

(** ** Handlers that install themselves *)

(** handler/v2/authflow/routing.go *)
Definition authHandler_Install : list Route :=
  [MkRoute (Some MGet) "/auth/login" false [] (HandlerFunc "handler/v2/authflow.loginHandler");
   MkRoute (Some MGet) "/auth/callback" false [] (HandlerFunc "handler/v2/authflow.callbackHandler");
   MkRoute (Some MPost) "/auth/refresh" false [] (HandlerFunc "handler/v2/authflow.refreshHandler");
   MkRoute (Some MPost) "/auth/logout" false [] (HandlerFunc "handler/v2/authflow.logoutHandler");
   MkRoute (Some MGet) "/auth/status" false [] (HandlerFunc "handler/v2/authflow.statusHandler")].

(** The login of the Kubernetes dashboard, with the middlewares and options
    that RegisterV2 gives to it; its chain applies the middlewares in order. *)
Definition redirectHandler (middlewares : list mw) (options : ServerErrorEncoder) : Server :=
  MkServer middlewares "handler/v2/kubernetes-dashboard.redirect"
    "handler/v2/kubernetes-dashboard.decodeInitialRequest"
    (EncoderNamed "handler/v2/kubernetes-dashboard.encodeInitialResponse") options.
Definition oidcCallbackHandler (middlewares : list mw) (options : ServerErrorEncoder) : Server :=
  MkServer middlewares "handler/v2/kubernetes-dashboard.oidcCallback"
    "handler/v2/kubernetes-dashboard.decodeOIDCCallbackRequest"
    (EncoderNamed "handler/v2/kubernetes-dashboard.encodeOIDCCallbackResponse") options.
Definition loginHandler_Install (middlewares : list mw) (options : ServerErrorEncoder) : list Route :=
  [MkRoute (Some MGet) "/dashboard/login" false ["projectID"; "clusterID"]
     (Handler (redirectHandler middlewares options));
   MkRoute (Some MGet) "/dashboard/login" false ["state"; "code"]
     (Handler (oidcCallbackHandler middlewares options))].

(** The proxy to the Kubernetes dashboard. *)
Definition storeTokenHandler (middlewares : list mw) (options : ServerErrorEncoder) : Server :=
  MkServer middlewares "handler/v2/kubernetes-dashboard.storeToken"
    "handler/v2/kubernetes-dashboard.decodeProxyRequest"
    (EncoderNamed "handler/v2/kubernetes-dashboard.encodeProxyResponse") options.
(** The proxy serves requests itself: the token of the request, the request as
    it is decoded, the chain; the endpoint writes the response. *)
Definition proxyHandler_ServeHTTP (middlewares : list mw) (options : ServerErrorEncoder) : Server :=
  MkServer middlewares "handler/v2/kubernetes-dashboard.proxy"
    "handler/v2/kubernetes-dashboard.NewProxyRequest"
    (EncoderNamed "handler/v2/kubernetes-dashboard.proxy") options.
Definition proxyHandler_Install (middlewares : list mw) (options : ServerErrorEncoder) : list Route :=
  [MkRoute (Some MGet) "/projects/{project_id}/clusters/{cluster_id}/dashboard/proxy" true ["token"]
     (Handler (storeTokenHandler middlewares options));
   MkRoute None "/projects/{project_id}/clusters/{cluster_id}/dashboard/proxy" true []
     (Handler (proxyHandler_ServeHTTP middlewares options))].

(** ** The table, in the order of the registration *)

Definition RegisterV2_part_1 : list Route :=
  [handle MGet "/providers/gke/images" listGKEImages;
   handle MGet "/providers/gke/zones" listGKEZones;
   handle MGet "/providers/gke/vmsizes" listGKEVMSizes;
   handle MGet "/providers/gke/disktypes" listGKEDiskTypes;
   handle MGet "/providers/gke/versions" listGKEVersions;
   handle MGet "/providers/gke/validatecredentials" validateGKECredentials;
   handle MGet "/providers/eks/validatecredentials" validateEKSCredentials;
   handle MGet "/providers/eks/vpcs" listEKSVPCS;
   handle MGet "/providers/eks/subnets" listEKSSubnets;
   handle MGet "/providers/eks/securitygroups" listEKSSecurityGroups;
   handle MGet "/providers/eks/regions" listEKSRegions;
   handle MGet "/providers/eks/clusterroles" listEKSClusterRoles;
   handle MGet "/providers/eks/versions" listEKSVersions;
   handle MGet "/providers/eks/amitypes" listEKSAMITypes;
   handle MGet "/providers/eks/capacitytypes" listEKSCapacityTypes;
   handle MGet "/providers/aks/validatecredentials" validateAKSCredentials;
   handle MGet "/providers/aks/vmsizes" listAKSVMSizes;
   handle MGet "/providers/aks/resourcegroups" listAKSResourceGroups;
   handle MGet "/providers/aks/locations" listAKSLocations;
   handle MGet "/providers/aks/modes" listAKSNodePoolModes;
   handle MGet "/providers/aks/versions" listAKSVersions;
   handle MGet "/featuregates" getFeatureGates;
   handle MGet "/userclusterconfig/admissionplugins" getAdmissionPluginsConfiguration;
   handle MPatch "/userclusterconfig/admissionplugins" updateAdmissionPluginsConfiguration;
   handle MGet "/providers/baremetal/tinkerbell/dc/{dc}/images" listTinkerbellImages;
   handle MGet "/providers/kubevirt/instancetypes" listKubeVirtInstancetypes;
   handle MGet "/providers/kubevirt/preferences" listKubeVirtPreferences;
   handle MGet "/providers/kubevirt/storageclasses" listKubevirtStorageClasses;
   handle MGet "/providers/kubevirt/dc/{dc}/images" listKubevirtImages].

Definition RegisterV2_part_2 : list Route :=
  [handle MGet "/projects/{project_id}/providers/gke/clusters" listGKEClusters;
   handle MGet "/projects/{project_id}/providers/eks/clusters" listEKSClusters;
   handle MGet "/projects/{project_id}/providers/aks/clusters" listAKSClusters;
   handle MPost "/projects/{project_id}/clusters" createCluster;
   handle MGet "/projects/{project_id}/clusters" listClusters;
   handle MGet "/projects/{project_id}/clusters/{cluster_id}" getCluster;
   handle MDelete "/projects/{project_id}/clusters/{cluster_id}" deleteCluster;
   handle MPatch "/projects/{project_id}/clusters/{cluster_id}" patchCluster;
   handle MGet "/projects/{project_id}/clusters/{cluster_id}/events" getClusterEvents;
   handle MGet "/projects/{project_id}/clusters/{cluster_id}/health" getClusterHealth;
   handle MPost "/projects/{project_id}/clusters/{cluster_id}/externalccmmigration" migrateClusterToExternalCCM;
   handle MGet "/projects/{project_id}/clusters/{cluster_id}/kubeconfig" getClusterKubeconfig;
   handle MPut "/projects/{project_id}/clusters/{cluster_id}/token" revokeClusterAdminToken;
   handle MPut "/projects/{project_id}/clusters/{cluster_id}/viewertoken" revokeClusterViewerToken;
   handle MGet "/projects/{project_id}/clusters/{cluster_id}/oidckubeconfig" getOidcClusterKubeconfig;
   handle MGet "/projects/{project_id}/clusters/{cluster_id}/oidc" getClusterOidc;
   handle MGet "/projects/{project_id}/clusters/{cluster_id}/metrics" getClusterMetrics;
   handle MGet "/projects/{project_id}/clusters/{cluster_id}/namespaces" listNamespace;
   handle MGet "/projects/{project_id}/clusters/{cluster_id}/upgrades" getClusterUpgrades;
   handle MPut "/projects/{project_id}/clusters/{cluster_id}/nodes/upgrades" upgradeClusterNodeDeployments;
   handle MGet "/projects/{project_id}/clusters/{cluster_id}/clusterroles" listClusterRole;
   handle MGet "/projects/{project_id}/clusters/{cluster_id}/clusterrolenames" listClusterRoleNames;
   handle MGet "/projects/{project_id}/clusters/{cluster_id}/roles" listRole;
   handle MGet "/projects/{project_id}/clusters/{cluster_id}/rolenames" listRoleNames;
   handle MPost "/projects/{project_id}/clusters/{cluster_id}/roles/{namespace}/{role_id}/bindings" bindUserToRole;
   handle MPost "/projects/{project_id}/clusters/{cluster_id}/clusterroles/{role_id}/clusterbindings" bindUserToClusterRole;
   handle MDelete "/projects/{project_id}/clusters/{cluster_id}/roles/{namespace}/{role_id}/bindings" unbindUserFromRoleBinding;
   handle MDelete "/projects/{project_id}/clusters/{cluster_id}/clusterroles/{role_id}/clusterbindings" unbindUserFromClusterRoleBinding;
   handle MGet "/projects/{project_id}/clusters/{cluster_id}/bindings" listRoleBinding;
   handle MGet "/projects/{project_id}/clusters/{cluster_id}/clusterbindings" listClusterRoleBinding].

Definition RegisterV2_part_3 : list Route :=
  [handle MPost "/projects/{project_id}/clusters/{cluster_id}/machinedeployments" createMachineDeployment;
   handle MDelete "/projects/{project_id}/clusters/{cluster_id}/machinedeployments/nodes/{node_id}" deleteMachineDeploymentNode;
   handle MGet "/projects/{project_id}/clusters/{cluster_id}/machinedeployments" listMachineDeployments;
   handle MGet "/projects/{project_id}/clusters/{cluster_id}/machinedeployments/{machinedeployment_id}" getMachineDeployment;
   handle MGet "/projects/{project_id}/clusters/{cluster_id}/machinedeployments/{machinedeployment_id}/joiningscript" getMachineDeploymentJoinScript;
   handle MGet "/projects/{project_id}/clusters/{cluster_id}/machinedeployments/{machinedeployment_id}/nodes" listMachineDeploymentNodes;
   handle MGet "/projects/{project_id}/clusters/{cluster_id}/nodes" listNodesForCluster;
   handle MGet "/projects/{project_id}/clusters/{cluster_id}/machinedeployments/{machinedeployment_id}/nodes/metrics" listMachineDeploymentMetrics;
   handle MPatch "/projects/{project_id}/clusters/{cluster_id}/machinedeployments/{machinedeployment_id}" patchMachineDeployment;
   handle MPost "/projects/{project_id}/clusters/{cluster_id}/machinedeployments/{machinedeployment_id}/restart" restartMachineDeployment;
   handle MGet "/projects/{project_id}/clusters/{cluster_id}/machinedeployments/{machinedeployment_id}/nodes/events" listMachineDeploymentNodesEvents;
   handle MDelete "/projects/{project_id}/clusters/{cluster_id}/machinedeployments/{machinedeployment_id}" deleteMachineDeployment;
   handle MPut "/projects/{project_id}/clusters/{cluster_id}/sshkeys/{key_id}" assignSSHKeyToCluster;
   handle MDelete "/projects/{project_id}/clusters/{cluster_id}/sshkeys/{key_id}" detachSSHKeyFromCluster;
   handle MGet "/projects/{project_id}/clusters/{cluster_id}/sshkeys" listSSHKeysAssignedToCluster;
   handle MPost "/projects/{project_id}/kubernetes/clusters" createExternalCluster;
   handle MDelete "/projects/{project_id}/kubernetes/clusters/{cluster_id}" deleteExternalCluster;
   handle MGet "/projects/{project_id}/kubernetes/clusters" listExternalClusters;
   handle MGet "/projects/{project_id}/kubernetes/clusters/{cluster_id}" getExternalCluster;
   handle MPatch "/projects/{project_id}/kubernetes/clusters/{cluster_id}" patchExternalCluster;
   handle MGet "/projects/{project_id}/kubernetes/clusters/{cluster_id}/metrics" getExternalClusterMetrics;
   handle MPut "/projects/{project_id}/kubernetes/clusters/{cluster_id}" updateExternalCluster;
   handle MGet "/projects/{project_id}/kubernetes/clusters/{cluster_id}/upgrades" getExternalClusterUpgrades;
   handle MGet "/projects/{project_id}/kubernetes/clusters/{cluster_id}/machinedeployments/{machinedeployment_id}" getExternalClusterMachineDeployment;
   handle MGet "/projects/{project_id}/kubernetes/clusters/{cluster_id}/machinedeployments" listExternalClusterMachineDeployments;
   handle MPost "/projects/{project_id}/kubernetes/clusters/{cluster_id}/machinedeployments" createExternalClusterMachineDeployment;
   handle MDelete "/projects/{project_id}/kubernetes/clusters/{cluster_id}/machinedeployments/{machinedeployment_id}" deleteExternalClusterMachineDeployment;
   handle MGet "/projects/{project_id}/kubernetes/clusters/{cluster_id}/machinedeployments/{machinedeployment_id}/nodes" listExternalClusterMachineDeploymentNodes;
   handle MGet "/projects/{project_id}/kubernetes/clusters/{cluster_id}/nodes" listExternalClusterNodes;
   handle MPatch "/projects/{project_id}/kubernetes/clusters/{cluster_id}/machinedeployments/{machinedeployment_id}" patchExternalClusterMachineDeployments;
   handle MGet "/projects/{project_id}/kubernetes/clusters/{cluster_id}/machinedeployments/{machinedeployment_id}/upgrades" getExternalClusterMachineDeploymentUpgrades;
   handle MGet "/projects/{project_id}/kubernetes/clusters/{cluster_id}/machinedeployments/{machinedeployment_id}/nodes/metrics" listExternalClusterMachineDeploymentMetrics;
   handle MGet "/projects/{project_id}/kubernetes/clusters/{cluster_id}/machinedeployments/{machinedeployment_id}/nodes/events" listExternalClusterMachineDeploymentEvents;
   handle MGet "/projects/{project_id}/kubernetes/clusters/{cluster_id}/nodes/{node_id}" getExternalClusterNode].

Definition RegisterV2_part_4 : list Route :=
  [handle MGet "/projects/{project_id}/kubernetes/clusters/{cluster_id}/nodesmetrics" listExternalClusterNodesMetrics;
   handle MGet "/projects/{project_id}/kubernetes/clusters/{cluster_id}/events" listExternalClusterEvents;
   handle MGet "/projects/{project_id}/kubernetes/clusters/{cluster_id}/kubeconfig" getExternalClusterKubeconfig;
   handle MGet "/projects/{project_id}/clusters/{cluster_id}/applicationinstallations" listApplicationInstallations;
   handle MPost "/projects/{project_id}/clusters/{cluster_id}/applicationinstallations" createApplicationInstallation;
   handle MDelete "/projects/{project_id}/clusters/{cluster_id}/applicationinstallations/{namespace}/{appinstall_name}" deleteApplicationInstallation;
   handle MGet "/projects/{project_id}/clusters/{cluster_id}/applicationinstallations/{namespace}/{appinstall_name}" getApplicationInstallation;
   handle MPut "/projects/{project_id}/clusters/{cluster_id}/applicationinstallations/{namespace}/{appinstall_name}" updateApplicationInstallation;
   handle MGet "/applicationdefinitions" listApplicationDefinitions;
   handle MGet "/applicationdefinitions/{appdef_name}" getApplicationDefinition;
   handle MPost "/applicationdefinitions" createApplicationDefinition;
   handle MPut "/applicationdefinitions/{appdef_name}" updateApplicationDefinition;
   handle MPatch "/applicationdefinitions/{appdef_name}" patchApplicationDefinition;
   handle MDelete "/applicationdefinitions/{appdef_name}" deleteApplicationDefinition;
   handle MGet "/applicationsettings" getApplicationSettings;
   handle MGet "/constrainttemplates" listConstraintTemplates;
   handle MGet "/constrainttemplates/{ct_name}" getConstraintTemplate;
   handle MPost "/constrainttemplates" createConstraintTemplate;
   handle MPatch "/constrainttemplates/{ct_name}" patchConstraintTemplate;
   handle MDelete "/constrainttemplates/{ct_name}" deleteConstraintTemplate;
   handle MPost "/constraints" createDefaultConstraint;
   handle MGet "/constraints" listDefaultConstraint;
   handle MGet "/constraints/{constraint_name}" getDefaultConstraint;
   handle MDelete "/constraints/{constraint_name}" deleteDefaultConstraint;
   handle MPatch "/constraints/{constraint_name}" patchDefaultConstraint;
   handle MGet "/projects/{project_id}/clusters/{cluster_id}/constraints" listConstraints;
   handle MGet "/projects/{project_id}/clusters/{cluster_id}/constraints/{constraint_name}" getConstraint;
   handle MDelete "/projects/{project_id}/clusters/{cluster_id}/constraints/{constraint_name}" deleteConstraint;
   handle MPost "/projects/{project_id}/clusters/{cluster_id}/constraints" createConstraint;
   handle MPatch "/projects/{project_id}/clusters/{cluster_id}/constraints/{constraint_name}" patchConstraint].

Definition RegisterV2_part_5 : list Route :=
  [handle MGet "/projects/{project_id}/clusters/{cluster_id}/gatekeeper/config" getGatekeeperConfig;
   handle MDelete "/projects/{project_id}/clusters/{cluster_id}/gatekeeper/config" deleteGatekeeperConfig;
   handle MPost "/projects/{project_id}/clusters/{cluster_id}/gatekeeper/config" createGatekeeperConfig;
   handle MPatch "/projects/{project_id}/clusters/{cluster_id}/gatekeeper/config" patchGatekeeperConfig;
   handle MGet "/projects/{project_id}/clusters/{cluster_id}/installableaddons" listInstallableAddons;
   handle MPost "/projects/{project_id}/clusters/{cluster_id}/addons" createAddon;
   handle MGet "/projects/{project_id}/clusters/{cluster_id}/addons" listAddons;
   handle MGet "/projects/{project_id}/clusters/{cluster_id}/addons/{addon_id}" getAddon;
   handle MPatch "/projects/{project_id}/clusters/{cluster_id}/addons/{addon_id}" patchAddon;
   handle MDelete "/projects/{project_id}/clusters/{cluster_id}/addons/{addon_id}" deleteAddon;
   handle MGet "/projects/{project_id}/clusters/{cluster_id}/alertmanager/config" getAlertmanager;
   handle MPut "/projects/{project_id}/clusters/{cluster_id}/alertmanager/config" updateAlertmanager;
   handle MDelete "/projects/{project_id}/clusters/{cluster_id}/alertmanager/config" resetAlertmanager;
   handle MGet "/projects/{project_id}/providers/gke/images" listProjectGKEImages;
   handle MGet "/projects/{project_id}/providers/gke/zones" listProjectGKEZones;
   handle MGet "/projects/{project_id}/providers/gke/vmsizes" listProjectGKEVMSizes;
   handle MGet "/projects/{project_id}/providers/gke/disktypes" listProjectGKEDiskTypes;
   handle MGet "/projects/{project_id}/providers/gke/versions" listProjectGKEVersions;
   handle MGet "/projects/{project_id}/providers/gke/validatecredentials" validateProjectGKECredentials;
   handle MGet "/projects/{project_id}/providers/gcp/disktypes" listProjectGCPDiskTypes;
   handle MGet "/projects/{project_id}/providers/gcp/sizes" listProjectGCPVMSizes;
   handle MGet "/projects/{project_id}/providers/gcp/{dc}/zones" listProjectGCPZones;
   handle MGet "/projects/{project_id}/providers/gcp/networks" listProjectGCPNetworks;
   handle MGet "/projects/{project_id}/providers/gcp/{dc}/subnetworks" listProjectGCPSubnetworks].

Definition RegisterV2_part_6 : list Route :=
  [handle MGet "/projects/{project_id}/providers/eks/validatecredentials" validateProjectEKSCredentials;
   handle MGet "/projects/{project_id}/providers/eks/vpcs" listProjectEKSVPCs;
   handle MGet "/projects/{project_id}/providers/eks/subnets" listProjectEKSSubnets;
   handle MGet "/projects/{project_id}/providers/eks/securitygroups" listProjectEKSSecurityGroups;
   handle MGet "/projects/{project_id}/providers/eks/regions" listProjectEKSRegions;
   handle MGet "/projects/{project_id}/providers/eks/clusterroles" listProjectEKSClusterRoles;
   handle MGet "/projects/{project_id}/providers/eks/versions" listProjectEKSVersions;
   handle MGet "/projects/{project_id}/providers/eks/amitypes" listProjectEKSAMITypes;
   handle MGet "/projects/{project_id}/providers/eks/capacitytypes" listProjectEKSCapacityTypes;
   handle MGet "/projects/{project_id}/providers/kubevirt/instancetypes" listProjectKubeVirtInstancetypes;
   handle MGet "/projects/{project_id}/providers/kubevirt/preferences" listProjectKubeVirtPreferences;
   handle MGet "/projects/{project_id}/providers/kubevirt/storageclasses" listProjectKubevirtStorageClasses;
   handle MGet "/projects/{project_id}/providers/kubevirt/vpcs" listProjectKubevirtVPCs;
   handle MGet "/projects/{project_id}/providers/kubevirt/subnets" listProjectKubevirtSubnets;
   handle MGet "/projects/{project_id}/providers/azure/sizes" listProjectAzureSizes;
   handle MGet "/projects/{project_id}/providers/azure/availabilityzones" listProjectAzureSKUAvailabilityZones;
   handle MGet "/projects/{project_id}/providers/azure/securitygroups" listProjectAzureSecurityGroups;
   handle MGet "/projects/{project_id}/providers/azure/resourcegroups" listProjectAzureResourceGroups;
   handle MGet "/projects/{project_id}/providers/azure/routetables" listProjectAzureRouteTables;
   handle MGet "/projects/{project_id}/providers/azure/subnets" listProjectAzureSubnets;
   handle MGet "/projects/{project_id}/providers/azure/vnets" listProjectAzureVnets;
   handle MGet "/projects/{project_id}/providers/aks/validatecredentials" validateProjectAKSCredentials;
   handle MGet "/projects/{project_id}/providers/aks/vmsizes" listProjectAKSVMSizes;
   handle MGet "/projects/{project_id}/providers/aks/resourcegroups" listProjectAKSResourceGroups;
   handle MGet "/projects/{project_id}/providers/aks/locations" listProjectAKSLocations;
   handle MGet "/projects/{project_id}/providers/aks/versions" listProjectAKSVersions;
   handle MGet "/projects/{project_id}/providers/vsphere/networks" listProjectVSphereNetworks;
   handle MGet "/projects/{project_id}/providers/vsphere/folders" listProjectVSphereFolders;
   handle MGet "/projects/{project_id}/providers/vsphere/datastores" listProjectVSphereDatastores;
   handle MGet "/projects/{project_id}/providers/vsphere/vmgroups" listProjectVSphereVMGroups;
   handle MGet "/projects/{project_id}/providers/vsphere/tagcategories" listProjectVSphereTagCategories;
   handle MGet "/projects/{project_id}/providers/vsphere/tagcategories/{tag_category}/tags" listProjectVSphereTagsForTagCategories].

Definition RegisterV2_part_7 : list Route :=
  [handle MGet "/projects/{project_id}/providers/nutanix/{dc}/clusters" listProjectNutanixClusters;
   handle MGet "/projects/{project_id}/providers/nutanix/{dc}/projects" listProjectNutanixProjects;
   handle MGet "/projects/{project_id}/providers/nutanix/{dc}/subnets" listProjectNutanixSubnets;
   handle MGet "/projects/{project_id}/providers/nutanix/{dc}/categories" listProjectNutanixCategories;
   handle MGet "/projects/{project_id}/providers/nutanix/{dc}/categories/{category}/values" listProjectNutanixCategoryValues;
   handle MGet "/projects/{project_id}/providers/vmwareclouddirector/{dc}/networks" listProjectVMwareCloudDirectorNetworks;
   handle MGet "/projects/{project_id}/providers/vmwareclouddirector/{dc}/storageprofiles" listProjectVMwareCloudDirectorStorageProfiles;
   handle MGet "/projects/{project_id}/providers/vmwareclouddirector/{dc}/catalogs" listProjectVMwareCloudDirectorCatalogs;
   handle MGet "/projects/{project_id}/providers/vmwareclouddirector/{dc}/templates/{catalog_name}" listProjectVMwareCloudDirectorTemplates;
   handle MGet "/projects/{project_id}/providers/vmwareclouddirector/{dc}/computepolicies" listProjectVMwareCloudDirectorComputePolicies;
   handle MGet "/projects/{project_id}/providers/aws/sizes" listProjectAWSSizes;
   handle MGet "/projects/{project_id}/providers/aws/{dc}/subnets" listProjectAWSSubnets;
   handle MGet "/projects/{project_id}/providers/aws/{dc}/vpcs" listProjectAWSVPCs;
   handle MGet "/projects/{project_id}/providers/aws/{dc}/securitygroups" listProjectAWSSecurityGroups;
   handle MGet "/projects/{project_id}/providers/digitalocean/sizes" listProjectDigitaloceanSizes;
   handle MGet "/projects/{project_id}/providers/openstack/sizes" listProjectOpenstackSizes;
   handle MGet "/projects/{project_id}/providers/openstack/tenants" listProjectOpenstackTenants;
   handle MGet "/projects/{project_id}/providers/openstack/networks" listProjectOpenstackNetworks;
   handle MGet "/projects/{project_id}/providers/openstack/securitygroups" listProjectOpenstackSecurityGroups;
   handle MGet "/projects/{project_id}/providers/openstack/subnets" listProjectOpenstackSubnets;
   handle MGet "/projects/{project_id}/providers/openstack/availabilityzones" listProjectOpenstackAvailabilityZones;
   handle MGet "/projects/{project_id}/providers/openstack/subnetpools" listProjectOpenstackSubnetPools;
   handle MGet "/projects/{project_id}/providers/openstack/servergroups" listProjectOpenstackServerGroups;
   handle MGet "/projects/{project_id}/providers/openstack/images" listProjectOpenstackImages;
   handle MGet "/projects/{project_id}/providers/openstack/membersubnets" listProjectOpenstackMemberSubnets;
   handle MGet "/projects/{project_id}/providers/hetzner/sizes" listProjectHetznerSizes;
   handle MGet "/projects/{project_id}/providers/alibaba/instancetypes" listProjectAlibabaInstanceTypes;
   handle MGet "/projects/{project_id}/providers/alibaba/zones" listProjectAlibabaZones;
   handle MGet "/projects/{project_id}/providers/alibaba/vswitches" listProjectAlibabaVSwitches].

Definition RegisterV2_part_8 : list Route :=
  [handle MGet "/projects/{project_id}/providers/anexia/vlans" listProjectAnexiaVlans;
   handle MGet "/projects/{project_id}/providers/anexia/templates" listProjectAnexiaTemplates;
   handle MGet "/projects/{project_id}/providers/anexia/disk-types" listProjectAnexiaDiskTypes;
   handle MGet "/projects/{project_id}/clusters/{cluster_id}/providers/aws/sizes" listAWSSizesNoCredentials;
   handle MGet "/projects/{project_id}/clusters/{cluster_id}/providers/aws/subnets" listAWSSubnetsNoCredentials;
   handle MGet "/projects/{project_id}/clusters/{cluster_id}/providers/gcp/disktypes" listGCPDiskTypesNoCredentials;
   handle MGet "/projects/{project_id}/clusters/{cluster_id}/providers/gcp/sizes" listGCPSizesNoCredentials;
   handle MGet "/projects/{project_id}/clusters/{cluster_id}/providers/gcp/zones" listGCPZonesNoCredentials;
   handle MGet "/projects/{project_id}/clusters/{cluster_id}/providers/gcp/networks" listGCPNetworksNoCredentials;
   handle MGet "/projects/{project_id}/clusters/{cluster_id}/providers/gcp/subnetworks" listGCPSubnetworksNoCredentials;
   handle MGet "/projects/{project_id}/clusters/{cluster_id}/providers/hetzner/sizes" listHetznerSizesNoCredentials;
   handle MGet "/projects/{project_id}/clusters/{cluster_id}/providers/digitalocean/sizes" listDigitaloceanSizesNoCredentials;
   handle MGet "/projects/{project_id}/clusters/{cluster_id}/providers/openstack/sizes" listOpenstackSizesNoCredentials;
   handle MGet "/projects/{project_id}/clusters/{cluster_id}/providers/openstack/tenants" listOpenstackTenantsNoCredentials;
   handle MGet "/projects/{project_id}/clusters/{cluster_id}/providers/openstack/networks" listOpenstackNetworksNoCredentials;
   handle MGet "/projects/{project_id}/clusters/{cluster_id}/providers/openstack/securitygroups" listOpenstackSecurityGroupsNoCredentials;
   handle MGet "/projects/{project_id}/clusters/{cluster_id}/providers/openstack/servergroups" listOpenstackServerGroupsNoCredentials;
   handle MGet "/projects/{project_id}/clusters/{cluster_id}/providers/openstack/subnets" listOpenstackSubnetsNoCredentials;
   handle MGet "/projects/{project_id}/clusters/{cluster_id}/providers/openstack/availabilityzones" listOpenstackAvailabilityZonesNoCredentials;
   handle MGet "/projects/{project_id}/clusters/{cluster_id}/providers/openstack/images" listOpenstackImagesNoCredentials;
   handle MGet "/providers/openstack/subnetpools" listOpenstackSubnetPools;
   handle MGet "/projects/{project_id}/clusters/{cluster_id}/providers/azure/sizes" listAzureSizesNoCredentials;
   handle MGet "/projects/{project_id}/clusters/{cluster_id}/providers/azure/availabilityzones" listAzureAvailabilityZonesNoCredentials;
   handle MGet "/projects/{project_id}/clusters/{cluster_id}/providers/vsphere/networks" listVSphereNetworksNoCredentials;
   handle MGet "/projects/{project_id}/clusters/{cluster_id}/providers/vsphere/folders" listVSphereFoldersNoCredentials;
   handle MGet "/projects/{project_id}/clusters/{cluster_id}/providers/vsphere/tagcategories" listVSphereTagCategoriesNoCredentials;
   handle MGet "/projects/{project_id}/clusters/{cluster_id}/providers/vsphere/tagcategories/{tag_category}/tags" listVSphereTagsForTagCategoryNoCredentials;
   handle MGet "/projects/{project_id}/clusters/{cluster_id}/providers/vsphere/vmgroups" listVSphereVMGroupsNoCredentials;
   handle MGet "/projects/{project_id}/clusters/{cluster_id}/providers/alibaba/instancetypes" listAlibabaInstanceTypesNoCredentials;
   handle MGet "/projects/{project_id}/clusters/{cluster_id}/providers/alibaba/zones" listAlibabaZonesNoCredentials;
   handle MGet "/projects/{project_id}/clusters/{cluster_id}/providers/alibaba/vswitches" listAlibabaVSwitchesNoCredentials;
   handle MGet "/projects/{project_id}/clusters/{cluster_id}/providers/anexia/vlans" listAnexiaVlansNoCredentials;
   handle MGet "/projects/{project_id}/clusters/{cluster_id}/providers/anexia/templates" listAnexiaTemplatesNoCredentials;
   handle MGet "/projects/{project_id}/clusters/{cluster_id}/providers/anexia/disk-types" listAnexiaDiskTypesNoCredentials].

Definition RegisterV2_part_9 : list Route :=
  [handle MGet "/projects/{project_id}/clusters/{cluster_id}/providers/kubevirt/instancetypes" listKubeVirtInstancetypesNoCredentials;
   handle MGet "/projects/{project_id}/clusters/{cluster_id}/providers/kubevirt/preferences" listKubeVirtPreferencesNoCredentials;
   handle MGet "/projects/{project_id}/clusters/{cluster_id}/providers/kubevirt/storageclasses" listKubevirtStorageClassesNoCredentials;
   handle MGet "/projects/{project_id}/clusters/{cluster_id}/providers/kubevirt/vpcs" listKubeVirtVPCsNoCredentials;
   handle MGet "/projects/{project_id}/clusters/{cluster_id}/providers/kubevirt/subnets" listKubeVirtSubnetsNoCredentials;
   handle MGet "/projects/{project_id}/clusters/{cluster_id}/providers/nutanix/subnets" listNutanixSubnetsNoCredentials;
   handle MGet "/projects/{project_id}/clusters/{cluster_id}/providers/nutanix/categories" listNutanixCategoriesNoCredentials;
   handle MGet "/projects/{project_id}/clusters/{cluster_id}/providers/nutanix/categories/{category}/values" listNutanixCategoryValuesNoCredentials;
   handle MGet "/projects/{project_id}/clusters/{cluster_id}/providers/vmwareclouddirector/networks" listVMwareCloudDirectorNetworksNoCredentials;
   handle MGet "/projects/{project_id}/clusters/{cluster_id}/providers/vmwareclouddirector/storageprofiles" listVMwareCloudDirectorStorageProfilesNoCredentials;
   handle MGet "/projects/{project_id}/clusters/{cluster_id}/providers/vmwareclouddirector/catalogs" listVMwareCloudDirectorCatalogsNoCredentials;
   handle MGet "/projects/{project_id}/clusters/{cluster_id}/providers/vmwareclouddirector/templates/{catalog_name}" listVMwareCloudDirectorTemplatesNoCredentials;
   handle MGet "/projects/{project_id}/clusters/{cluster_id}/providers/vmwareclouddirector/computepolicies" listVMwareCloudDirectorComputePoliciesNoCredentials].

(** The handlers that install themselves, in the middle of the table. *)
Definition RegisterV2_installed : list Route :=
  authHandler_Install ++
  loginHandler_Install [mTokenVerifier; mOIDCProviders] OIDCCallbackErrorEncoder ++
  proxyHandler_Install [mTokenVerifier; mUserSaver; mSetPrivilegedClusterProvider] DefaultErrorEncoder.

Definition RegisterV2_rest_1 : list Route :=
  [handle MGet "/providers/azure/securitygroups" listAzureSecurityGroups;
   handle MGet "/providers/azure/resourcegroups" listAzureResourceGroups;
   handle MGet "/providers/azure/routetables" listAzureRouteTables;
   handle MGet "/providers/azure/subnets" listAzureSubnets;
   handle MGet "/providers/azure/vnets" listAzureVnets;
   handle MGet "/providers/vsphere/datastores" listVSphereDatastores;
   handle MGet "/providers/vsphere/vmgroups" listVSphereVMGroups;
   handle MGet "/providers/nutanix/{dc}/clusters" listNutanixClusters;
   handle MGet "/providers/nutanix/{dc}/projects" listNutanixProjects;
   handle MGet "/providers/nutanix/{dc}/subnets" listNutanixSubnets;
   handle MGet "/providers/nutanix/{dc}/categories" listNutanixCategories;
   handle MGet "/providers/nutanix/{dc}/categories/{category}/values" listNutanixCategoryValues;
   handle MGet "/providers/openstack/servergroups" listOpenstackServerGroups;
   handle MGet "/providers/vmwareclouddirector/{dc}/networks" listVMwareCloudDirectorNetworks;
   handle MGet "/providers/vmwareclouddirector/{dc}/storageprofiles" listVMwareCloudDirectorStorageProfiles;
   handle MGet "/providers/vmwareclouddirector/{dc}/catalogs" listVMwareCloudDirectorCatalogs;
   handle MGet "/providers/vmwareclouddirector/{dc}/templates/{catalog_name}" listVMwareCloudDirectorTemplates;
   handle MGet "/presets" listPresets;
   handle MDelete "/presets/{preset_name}" deletePreset;
   handle MGet "/presets/{preset_name}/stats" getPresetStats;
   handle MGet "/presets/{preset_name}/linkages" getPresetLinkages;
   handle MPut "/presets/{preset_name}/status" updatePresetStatus;
   handle MDelete "/presets/{preset_name}/provider/{provider_name}" deletePresetProvider;
   handle MGet "/providers/{provider_name}/presets" listProviderPresets;
   handle MPost "/providers/{provider_name}/presets" createPreset;
   handle MPut "/providers/{provider_name}/presets" updatePreset;
   handle MDelete "/providers/{provider_name}/presets/{preset_name}" deleteProviderPreset;
   handle MGet "/projects/{project_id}/presets" listProjectPresets;
   handle MGet "/projects/{project_id}/providers/{provider_name}/presets" listProjectProviderPresets;
   handle MGet "/seeds/{seed_name}/settings" getSeedSettings;
   handle MGet "/providers/{provider_name}/versions" listVersionsByProvider].

Definition RegisterV2_rest_2 : list Route :=
  [handle MPost "/projects/{project_id}/clustertemplates" createClusterTemplate;
   handle MPost "/projects/{project_id}/clustertemplates/import" importClusterTemplate;
   handle MGet "/projects/{project_id}/clustertemplates" listClusterTemplates;
   handle MGet "/projects/{project_id}/clustertemplates/{template_id}" getClusterTemplate;
   handle MGet "/projects/{project_id}/clustertemplates/{template_id}/export" exportClusterTemplate;
   handle MDelete "/projects/{project_id}/clustertemplates/{template_id}" deleteClusterTemplate;
   handle MPost "/projects/{project_id}/clustertemplates/{template_id}/instances" createClusterTemplateInstance;
   handle MPut "/projects/{project_id}/clustertemplates/{template_id}" updateClusterTemplate;
   handle MGet "/projects/{project_id}/clusters/{cluster_id}/rulegroups/{rulegroup_id}" getRuleGroup;
   handle MGet "/projects/{project_id}/clusters/{cluster_id}/rulegroups" listRuleGroups;
   handle MPost "/projects/{project_id}/clusters/{cluster_id}/rulegroups" createRuleGroup;
   handle MPut "/projects/{project_id}/clusters/{cluster_id}/rulegroups/{rulegroup_id}" updateRuleGroup;
   handle MDelete "/projects/{project_id}/clusters/{cluster_id}/rulegroups/{rulegroup_id}" deleteRuleGroup;
   handle MPost "/allowedregistries" createAllowedRegistry;
   handle MGet "/allowedregistries" listAllowedRegistries;
   handle MGet "/allowedregistries/{allowed_registry}" getAllowedRegistry;
   handle MDelete "/allowedregistries/{allowed_registry}" deleteAllowedRegistry;
   handle MPatch "/allowedregistries/{allowed_registry}" patchAllowedRegistry;
   handle MPost "/projects/{project_id}/clusters/{cluster_id}/backupstoragelocation" createBackupStorageLocation;
   handle MGet "/projects/{project_id}/clusters/{cluster_id}/backupstoragelocation/{bsl_name}" getBackupStorageLocation;
   handle MGet "/projects/{project_id}/clusters/{cluster_id}/backupstoragelocation" listBackupStorageLocation;
   handle MDelete "/projects/{project_id}/clusters/{cluster_id}/backupstoragelocation/{bsl_name}" deleteBackupStorageLocation;
   handle MPost "/projects/{project_id}/clusters/{cluster_id}/clusterbackup" createClusterBackup;
   handle MGet "/projects/{project_id}/clusters/{cluster_id}/clusterbackup" listClusterBackup;
   handle MGet "/projects/{project_id}/clusters/{cluster_id}/clusterbackup/{clusterBackup}" getClusterBackup;
   handle MDelete "/projects/{project_id}/clusters/{cluster_id}/clusterbackup/{clusterBackup}" deleteClusterBackup;
   handle MPost "/projects/{project_id}/clusters/{cluster_id}/clusterbackup/{cluster_backup}/downloadurl" clusterBackupDownloadURL;
   handle MPost "/projects/{project_id}/clusters/{cluster_id}/clusterrestore" createClusterRestore;
   handle MGet "/projects/{project_id}/clusters/{cluster_id}/clusterrestore" listClusterRestore;
   handle MGet "/projects/{project_id}/clusters/{cluster_id}/clusterrestore/{clusterrestore}" getClusterRestore;
   handle MDelete "/projects/{project_id}/clusters/{cluster_id}/clusterrestore/{clusterrestore}" deleteClusterRestore].

Definition RegisterV2_rest_3 : list Route :=
  [handle MPost "/projects/{project_id}/clusters/{cluster_id}/clusterbackupschedule" createClusterBackupSchedule;
   handle MGet "/projects/{project_id}/clusters/{cluster_id}/clusterbackupschedule" listClusterBackupSchedule;
   handle MGet "/projects/{project_id}/clusters/{cluster_id}/clusterbackupschedule/{clusterBackupSchedule}" getClusterBackupSchedule;
   handle MDelete "/projects/{project_id}/clusters/{cluster_id}/clusterbackupschedule/{clusterBackupSchedule}" deleteClusterBackupSchedule;
   handle MGet "/projects/{project_id}/clusterbackupstoragelocation" listProjectCBSL;
   handle MGet "/projects/{project_id}/clusterbackupstoragelocation/{cbsl_name}" getCBSL;
   handle MGet "/projects/{project_id}/clusterbackupstoragelocation/{cbsl_name}/bucketobjects" listCBSLBucketObjects;
   handle MGet "/projects/{project_id}/clusterbackupstoragelocation/{cbsl_name}/credentials" getCBSLCredentials;
   handle MPost "/projects/{project_id}/clusterbackupstoragelocation" createCBSL;
   handle MDelete "/projects/{project_id}/clusterbackupstoragelocation/{cbsl_name}" deleteCBSL;
   handle MPatch "/projects/{project_id}/clusterbackupstoragelocation/{cbsl_name}" patchCBSL;
   handle MPost "/projects/{project_id}/clusters/{cluster_id}/etcdbackupconfigs" createEtcdBackupConfig;
   handle MGet "/projects/{project_id}/clusters/{cluster_id}/etcdbackupconfigs/{ebc_id}" getEtcdBackupConfig;
   handle MGet "/projects/{project_id}/clusters/{cluster_id}/etcdbackupconfigs" listEtcdBackupConfig;
   handle MDelete "/projects/{project_id}/clusters/{cluster_id}/etcdbackupconfigs/{ebc_id}" deleteEtcdBackupConfig;
   handle MPatch "/projects/{project_id}/clusters/{cluster_id}/etcdbackupconfigs/{ebc_id}" patchEtcdBackupConfig;
   handle MGet "/projects/{project_id}/etcdbackupconfigs" listProjectEtcdBackupConfig;
   handle MPost "/projects/{project_id}/clusters/{cluster_id}/etcdrestores" createEtcdRestore;
   handle MGet "/projects/{project_id}/clusters/{cluster_id}/etcdrestores/{er_name}" getEtcdRestore;
   handle MGet "/projects/{project_id}/clusters/{cluster_id}/etcdrestores" listEtcdRestore;
   handle MDelete "/projects/{project_id}/clusters/{cluster_id}/etcdrestores/{er_name}" deleteEtcdRestore;
   handle MGet "/projects/{project_id}/etcdrestores" listProjectEtcdRestore;
   handle MPut "/seeds/{seed_name}/backupcredentials" createOrUpdateBackupCredentials;
   handle MGet "/projects/{project_id}/clusters/{cluster_id}/mlaadminsetting" getMLAAdminSetting;
   handle MPost "/projects/{project_id}/clusters/{cluster_id}/mlaadminsetting" createMLAAdminSetting;
   handle MPut "/projects/{project_id}/clusters/{cluster_id}/mlaadminsetting" updateMLAAdminSetting;
   handle MDelete "/projects/{project_id}/clusters/{cluster_id}/mlaadminsetting" deleteMLAAdminSetting;
   handle MGet "/users" listUser].

Definition RegisterV2_rest_4 : list Route :=
  [handle MGet "/seeds/{seed_name}/rulegroups/{rulegroup_id}" getAdminRuleGroup;
   handle MGet "/seeds/{seed_name}/rulegroups" listAdminRuleGroups;
   handle MPost "/seeds/{seed_name}/rulegroups" createAdminRuleGroup;
   handle MPut "/seeds/{seed_name}/rulegroups/{rulegroup_id}" updateAdminRuleGroup;
   handle MDelete "/seeds/{seed_name}/rulegroups/{rulegroup_id}" deleteAdminRuleGroup;
   handle MGet "/projects/{project_id}/kubernetes/clusters/{cluster_id}/providers/aks/versions" listAKSNodeVersionsNoCredentials;
   handle MGet "/projects/{project_id}/kubernetes/clusters/{cluster_id}/providers/aks/vmsizes" listAKSVMSizesNoCredentials;
   handle MGet "/projects/{project_id}/kubernetes/clusters/{cluster_id}/providers/gke/images" listGKEClusterImages;
   handle MGet "/projects/{project_id}/kubernetes/clusters/{cluster_id}/providers/gke/zones" listGKEClusterZones;
   handle MGet "/projects/{project_id}/kubernetes/clusters/{cluster_id}/providers/gke/sizes" listGKEClusterSizes;
   handle MGet "/projects/{project_id}/kubernetes/clusters/{cluster_id}/providers/gke/disktypes" listGKEClusterDiskTypes;
   handle MGet "/projects/{project_id}/clusters/{cluster_id}/backupdestinations" getBackupDestinationNames;
   handle MGet "/cni/{cni_plugin_type}/versions" listVersionsByCNIPlugin;
   handle MGet "/projects/{project_id}/clusters/{cluster_id}/cniversions" listCNIPluginVersionsForCluster;
   handle MGet "/projects/{project_id}/kubernetes/clusters/{cluster_id}/providers/eks/instancetypes" listEKSInstanceTypesNoCredentials;
   handle MGet "/projects/{project_id}/kubernetes/clusters/{cluster_id}/providers/eks/subnets" listEKSSubnetsNoCredentials;
   handle MGet "/projects/{project_id}/kubernetes/clusters/{cluster_id}/providers/eks/vpcs" listEKSVPCsNoCredentials;
   handle MGet "/projects/{project_id}/kubernetes/clusters/{cluster_id}/providers/eks/noderoles" listEKSNodeRolesNoCredentials;
   handle MGet "/providers/{provider_name}/dc/{dc}/networkdefaults" getNetworkDefaults;
   handle MGet "/providers/{provider_name}/dc/{dc}/defaultcluster" getDefaultCluster;
   handle MGet "/projects/{project_id}/quota" getProjectQuota;
   handle MPost "/projects/{project_id}/quotacalculation" calculateProjectResourceQuotaUpdate;
   handle MGet "/quotas/{quota_name}" getResourceQuota;
   handle MGet "/quotas" listResourceQuotas;
   handle MPost "/quotas" createResourceQuota;
   handle MPut "/quotas/{quota_name}" putResourceQuota;
   handle MDelete "/quotas/{quota_name}" deleteResourceQuota].

Definition RegisterV2_rest_5 : list Route :=
  [handle MGet "/projects/{project_id}/groupbindings" listGroupProjectBindings;
   handle MGet "/projects/{project_id}/groupbindings/{binding_name}" getGroupProjectBinding;
   handle MPost "/projects/{project_id}/groupbindings" createGroupProjectBinding;
   handle MDelete "/projects/{project_id}/groupbindings/{binding_name}" deleteGroupProjectBinding;
   handle MPatch "/projects/{project_id}/groupbindings/{binding_name}" patchGroupProjectBinding;
   handle MGet "/seeds/{seed_name}/ipampools" listIPAMPools;
   handle MGet "/seeds/{seed_name}/ipampools/{ipampool_name}" getIPAMPool;
   handle MPost "/seeds/{seed_name}/ipampools" createIPAMPool;
   handle MPatch "/seeds/{seed_name}/ipampools/{ipampool_name}" patchIPAMPool;
   handle MDelete "/seeds/{seed_name}/ipampools/{ipampool_name}" deleteIPAMPool;
   handle MGet "/seeds/{seed_name}/operatingsystemprofiles" listOperatingSystemProfiles;
   handle MGet "/projects/{project_id}/clusters/{cluster_id}/operatingsystemprofiles" listOperatingSystemProfilesForCluster;
   handle MGet "/projects/{project_id}/clusters/{cluster_id}/serviceaccount" listClusterServiceAccount;
   handle MPost "/projects/{project_id}/clusters/{cluster_id}/serviceaccount" createClusterServiceAccount;
   handle MGet "/projects/{project_id}/clusters/{cluster_id}/serviceaccount/{namespace}/{service_account_id}/permissions" getClusterServiceAccountPermissions;
   handle MGet "/projects/{project_id}/clusters/{cluster_id}/serviceaccount/{namespace}/{service_account_id}/kubeconfig" getClusterServiceAccountKubeconfig;
   handle MDelete "/projects/{project_id}/clusters/{cluster_id}/serviceaccount/{namespace}/{service_account_id}" deleteClusterServiceAccount;
   handle MGet "/seeds/{seed_name}/overview" getSeedOverview;
   handle MGet "/seeds/status" listSeedStatus;
   handle MGet "/policytemplates" listKyvernoPolicyTemplates;
   handle MPost "/policytemplates" createKyvernoPolicyTemplate;
   handle MGet "/policytemplates/{template_name}" getKyvernoPolicyTemplate;
   handle MPatch "/policytemplates/{template_name}" patchKyvernoPolicyTemplate;
   handle MDelete "/policytemplates/{template_name}" deleteKyvernoPolicyTemplate;
   handle MGet "/projects/{project_id}/clusters/{cluster_id}/policybindings" listKyvernoPolicyBindings;
   handle MGet "/projects/{project_id}/clusters/{cluster_id}/policybindings/{binding_name}" getKyvernoPolicyBinding;
   handle MPost "/projects/{project_id}/clusters/{cluster_id}/policybindings" createKyvernoPolicyBinding;
   handle MPatch "/projects/{project_id}/clusters/{cluster_id}/policybindings/{binding_name}" patchKyvernoPolicyBinding;
   handle MDelete "/projects/{project_id}/clusters/{cluster_id}/policybindings/{binding_name}" deleteKyvernoPolicyBinding].

Definition RegisterV2 (oidcKubeConfEndpoint : bool) : list Route :=
  (if oidcKubeConfEndpoint then [handle MGet "/kubeconfig/secret" createOIDCKubeconfigSecret] else []) ++
  RegisterV2_part_1 ++ RegisterV2_part_2 ++ RegisterV2_part_3 ++ RegisterV2_part_4 ++ RegisterV2_part_5 ++ RegisterV2_part_6 ++ RegisterV2_part_7 ++ RegisterV2_part_8 ++ RegisterV2_part_9 ++
  RegisterV2_installed ++
  RegisterV2_rest_1 ++ RegisterV2_rest_2 ++ RegisterV2_rest_3 ++ RegisterV2_rest_4 ++ RegisterV2_rest_5.
