(* ===== verification/ApiRoutes.v ===== *)
(** The router of the API as main.go builds it, and what holds of all of its
    routes: which requests reach an endpoint, what the endpoints find in their
    context, and which route serves a request. *)
From S2P Require Export RoutesV1 RoutesV2.

(** cmd/kubermatic-api/main.go: [mainRouter.PathPrefix(p).Subrouter()] *)
Definition subrouter (p : string) (routes : list Route) : list Route :=
  (fun r => MkRoute (route_method r) (p +:+ route_path r) (route_prefix r) (route_queries r) (route_handler r))
    <$> routes.

Definition mainRouter (oidcKubeConfEndpoint : bool) : list Route :=
  subrouter "/api/v1" (RegisterV1 ++ RegisterV1Optional oidcKubeConfEndpoint ++ RegisterV1Admin ++ RegisterV1Websocket) ++
  subrouter "/api/v2" (RegisterV2 oidcKubeConfEndpoint) ++
  [MkRoute (Some MGet) "/api/swagger.json" false [] (HandlerFunc "http.ServeFile")].

#[export] Instance Encoder_eq_dec : EqDecision Encoder.
Proof. solve_decision. Defined.
#[export] Instance ServerErrorEncoder_eq_dec : EqDecision ServerErrorEncoder.
Proof. solve_decision. Defined.
#[export] Instance Server_eq_dec : EqDecision Server.
Proof. solve_decision. Defined.
#[export] Instance RouteHandler_eq_dec : EqDecision RouteHandler.
Proof. solve_decision. Defined.
#[export] Instance Route_eq_dec : EqDecision Route.
Proof. solve_decision. Defined.

(** ** The classes of routes *)

(** The servers without a token: the links of the login page, and the endpoints
    that a browser comes to in the OIDC flow of a kubeconfig. *)
Definition publicServers : list Server :=
  [getKubermaticCustomLinks; createOIDCKubeconfig; createOIDCKubeconfigSecret].
(** The servers that verify the token and do not look up the user. *)
Definition userlessServers : list Server :=
  [listSystemLabels;
   redirectHandler [mTokenVerifier; mOIDCProviders] OIDCCallbackErrorEncoder;
   oidcCallbackHandler [mTokenVerifier; mOIDCProviders] OIDCCallbackErrorEncoder].
(** The functions that serve a route themselves: they have no token (the health
    check, the description of the API, the login), or verify it in their body. *)
Definition routeFunctions : list string :=
  ["statusOK"; "http.ServeFile"; "handler.getSettingsWatchHandler"; "handler.getUserWatchHandler";
   "handler.getTerminalWatchHandler"; "handler/v2/authflow.loginHandler"; "handler/v2/authflow.callbackHandler";
   "handler/v2/authflow.refreshHandler"; "handler/v2/authflow.logoutHandler"; "handler/v2/authflow.statusHandler"].

Definition user_chain (ms : list mw) : bool :=
  match ms with
  | mTokenVerifier :: mUserSaver :: ps => forallb is_provider ps
  | _ => false
  end.
Definition verified_chain (ms : list mw) : bool :=
  match ms with mTokenVerifier :: ps => forallb is_provider ps | _ => false end.

Definition route_class (r : Route) : bool :=
  match route_handler r with
  | HandlerFunc name => bool_decide (name ∈ routeFunctions)
  | Handler s =>
      bool_decide (s ∈ publicServers) || user_chain (srv_chain s) ||
      bool_decide (s ∈ userlessServers) && verified_chain (srv_chain s)
  end.

Lemma routes_classified flag : forallb route_class (mainRouter flag) = true.
Proof. destruct flag; vm_compute; reflexivity. Qed.

(** ** Routes that serve the same requests

    The table of the paths, each split once: what two routes have in common is
    decided on it. *)
Definition shape : Type := string * (option Method * bool * list Segment).
Definition shape_of (r : Route) : shape := (route_path r, (route_method r, route_prefix r, template (route_path r))).
Definition shapes_overlap (a b : shape) : bool :=
  match a.2, b.2 with
  | (m, p, ts), (n, q, us) => if methods_overlap m n then templates_overlap p q ts us else false
  end.

(** The pairs of paths whose routes have requests in common, the path of the
    route that serves them first. *)
Definition contested : list (string * string) :=
  let proxy := "/api/v2/projects/{project_id}/clusters/{cluster_id}/dashboard/proxy" in
  let vcd := "/api/v2/providers/vmwareclouddirector/{dc}/templates/{catalog_name}" in
  [("/api/v2/providers/gke/versions", "/api/v2/providers/{provider_name}/versions");
   ("/api/v2/providers/eks/versions", "/api/v2/providers/{provider_name}/versions");
   ("/api/v2/providers/aks/versions", "/api/v2/providers/{provider_name}/versions");
   ("/api/v2/dashboard/login", "/api/v2/dashboard/login");
   (proxy, proxy);
   (vcd, "/api/v2/providers/{provider_name}/dc/{dc}/networkdefaults");
   (vcd, "/api/v2/providers/{provider_name}/dc/{dc}/defaultcluster")].

Definition uncontested (a b : shape) : bool :=
  if shapes_overlap a b then bool_decide ((a.1, b.1) ∈ contested) else true.

(** A request that a route serves: its own path, the names of its query. *)
Definition sample_request (r : Route) : RouterRequest :=
  MkRouterRequest (match route_method r with Some m => m | None => MGet end) (route_path r) (route_queries r).

(** The sample request of a route finds it; the first condition spares the
    search. *)
Definition found_by_sample (routes : list Route) (r : Route) : bool :=
  if bool_decide (route_path r ∈ contested.*2)
  then bool_decide (List.find (fun x => route_matches x (sample_request r)) routes = Some r)
  else route_matches r (sample_request r).

Lemma all_pairs_fmap {A B} (f : A -> B) (ok : B -> B -> bool) l :
  all_pairs ok (f <$> l) = all_pairs (fun a b => ok (f a) (f b)) l.
Proof.
  induction l as [|a l IH]; cbn; [done|]. fold (fmap (M := list) f). rewrite IH. f_equal.
  clear IH. induction l as [|b l IH]; cbn; [done|]. by rewrite IH.
Qed.

Lemma routes_uncontested flag : all_pairs uncontested (shape_of <$> mainRouter flag) = true.
Proof. destruct flag; vm_compute; reflexivity. Qed.

Lemma routes_sampled flag : forallb (found_by_sample (mainRouter flag)) (mainRouter flag) = true.
Proof. destruct flag; vm_compute; reflexivity. Qed.

Section resolution.
Context {MUX : Mux} {ML : MuxLaws MUX}.

(** The router answers the route itself, or one that contests its path. *)
Lemma mainRouter_resolves flag route req :
  route ∈ mainRouter flag -> route_matches route req = true ->
  exists route', mux_Match (mainRouter flag) req = Some route' /\
    (route' = route \/ (route_path route', route_path route) ∈ contested).
Proof.
  intros Hin Hm. destruct (mux_Match_first _ _ _ Hin Hm) as (route' & Hr & Hm'). exists route'. split; [done|].
  apply mux_Match_some in Hr as (l & k & E & _ & Hl). pose proof (routes_uncontested flag) as H.
  rewrite all_pairs_fmap, E in H. rewrite E in Hin.
  apply elem_of_app in Hin as [Hin|[->|Hin]%elem_of_cons]; [by rewrite Hl in Hm|by left|right].
  apply list_elem_of_split in Hin as (k1 & k2 & ->).
  apply all_pairs_split in H. unfold uncontested in H.
  replace (shapes_overlap _ _) with (routes_overlap route' route) in H by done.
  rewrite (routes_overlap_matches _ _ req) in H by done. by apply bool_decide_eq_true in H.
Qed.

(** C26: a request that fits a route of the API is served by this route, but for
    seven pairs of paths where the route registered earlier takes the requests
    that fit both; and no route is shadowed: each serves some request. *)
Theorem routes_resolve flag route :
  route ∈ mainRouter flag ->
  (forall req, route_matches route req = true ->
     exists route', mux_Match (mainRouter flag) req = Some route' /\
       (route' = route \/ (route_path route', route_path route) ∈ contested)) /\
  mux_Match (mainRouter flag) (sample_request route) = Some route.
Proof.
  intros Hin. split; [intros req; by apply mainRouter_resolves|].
  pose proof (routes_sampled flag) as H. rewrite forallb_forall in H.
  specialize (H route (proj1 (list_elem_of_In _ _) Hin)). unfold found_by_sample in H. case_bool_decide as Hc.
  - apply bool_decide_eq_true in H. by rewrite mux_Match_find.
  - destruct (mainRouter_resolves flag route _ Hin H) as (route' & -> & [->|Hp]); [done|].
    destruct Hc. apply list_elem_of_fmap. by exists (route_path route', route_path route).
Qed.

(** Requests that the comments of the handlers document and no route serves. *)
Definition documented_requests : list RouterRequest :=
  let cluster := "/projects/p/clusters/c" in
  [MkRouterRequest MPost "/api/v1/addons" [];
   MkRouterRequest MGet "/api/v1/projects/p/dc/d/clusters/c/roles/r" [];
   MkRouterRequest MGet "/api/v2/projects/p/providers/gcp/vmsizes" [];
   MkRouterRequest MDelete ("/api" +:+ cluster +:+ "/sshkeys/k") [];
   MkRouterRequest MPost ("/api/v2" +:+ cluster +:+ "/machinedeployments/m") [];
   MkRouterRequest MGet "/api/v2/eks/amitypes" [];
   MkRouterRequest MGet "/api/v2/eks/capacitytypes" []].

Example documented_requests_not_served flag :
  Forall (fun req => mux_Match (mainRouter flag) req = None) documented_requests.
Proof.
  apply Forall_forall. intros req H. rewrite mux_Match_find. revert req H. apply Forall_forall.
  destruct flag; repeat constructor.
Qed.
End resolution.

Section api_properties.
Context {W Req Resp Prov : Type} {EL : ErrorLib} {ELL : ErrorLibLaws EL} {P : SDK} {API : KubeAPI W}
        {ST : Store W} {LAWS : KubeAPILaws W} {USERS : UserProvider W} {UL : UserProviderLaws W}
        {MAPPER : ProjectMemberMapper W} {PML : ProjectMemberMapperLaws W} {MUX : Mux} {ML : MuxLaws MUX}.
Implicit Types w : W.
Variable r : Routing (W := W) (Prov := Prov).
Variable SeedInvalidPhase : string.
Variable order : gmap string Seed -> list Seed.
Variable IsCluster : Prov -> string -> M W error bool.
Variable implements : string -> Prov -> bool.
Variable GetSeedCluster : Req -> option SeedCluster.
Variables GetUserID GetProjectID : Req -> option string.
Variable decode : string -> RouterRequest -> Request -> result error Req.
Variable snap : string -> Snapshot (CP := Prov).
Hypothesis Hshows : forall id, shows order (clusterProviderGetter r) IsCluster (seedsGetter r) id (snap id).
Hypothesis HL : ListsSucceed W.

Abbreviation E := (Endpoint W (Routed (Req := Req) (Prov := Prov)) Resp).
Abbreviation served s req http endpoints := (serve (Resp := Resp) r SeedInvalidPhase order IsCluster implements GetSeedCluster
  GetUserID GetProjectID decode endpoints s req http).
Abbreviation through := (reaches r SeedInvalidPhase GetSeedCluster snap).

Lemma served_route_class flag req route :
  mux_Match (mainRouter flag) req = Some route -> route_class route = true.
Proof.
  intros [Hin _]%mux_Match_elem. pose proof (routes_classified flag) as H.
  rewrite forallb_forall in H. by apply H, list_elem_of_In.
Qed.

(** A context with the error of the extractor gets through no TokenVerifier. *)
Lemma no_token_not_admitted err ctx' w w' :
  ~ admits (tokenVerifiers r) (ctx_with_NoTokenFound err emptyCtx) w ctx' w'.
Proof. intros [H _]. done. Qed.

(** C3: whatever the path and the method, a request reaches the endpoint of a
    route only with a token: the extractor found one, the verifier accepted it,
    its claims name a subject and its owner did not invalidate it; the endpoint
    runs with the claims of the token and, but for three servers, with the stored
    user of the token.  The answer to every other request has nothing to do with
    the endpoint.  The servers without a token are three, the functions that
    serve a route themselves are those of [routeFunctions]. *)
Theorem endpoints_need_a_token flag req http route w :
  mux_Match (mainRouter flag) req = Some route ->
  match route_handler route with
  | HandlerFunc name => name ∈ routeFunctions
  | Handler s => s ∈ publicServers \/
      (exists token request ctx1 w1 ctx' rq' w', tokenExtractors r http = Ok token /\
         decode (srv_dec s) req http = Ok request /\
         admits (tokenVerifiers r) (ctx_with_RawToken token emptyCtx) w ctx1 w1 /\
         rq_request rq' = request /\
         ((s ∈ userlessServers /\ ctx' = ctx1) \/
          (exists au u t w0 w2, ctx_AuthenticatedUser ctx1 = Some au /\ (now (W:=W) w0).1 = Ok t /\
             saved au t u w2 /\ ctx' = ctx_with_UserCR u ctx1)) /\
         forall endpoints : string -> E, served s req http endpoints w = endpoints (srv_endpoint s) ctx' rq' w') \/
      (exists res w', forall endpoints : string -> E, served s req http endpoints w = (res, w'))
  end.
Proof.
  intros Hm. pose proof (served_route_class flag req route Hm) as Hc. unfold route_class in Hc.
  destruct (route_handler route) as [s|name]; [|by apply bool_decide_eq_true in Hc].
  destruct (decide (s ∈ publicServers)) as [Hpub|Hpub]; [by left|]. right.
  rewrite bool_decide_eq_false_2 in Hc by done. cbn [orb] in Hc.
  destruct (serve_passes (Resp := Resp) r SeedInvalidPhase order IsCluster implements GetSeedCluster GetUserID GetProjectID
    snap Hshows HL decode s req http w)
    as [(token & request & ctx' & rq' & w' & Ht & Hd & Hr & He)|[(err & request & ctx' & rq' & w' & Ht & Hd & Hr & He)|Hstop]];
    [| |by right].
  - left. apply orb_true_iff in Hc as [Hc|[Hu%bool_decide_eq_true Hc]%andb_true_iff];
      destruct (srv_chain s) as [|m ms]; try done; destruct m; try done.
    + destruct ms as [|m ms]; try done; destruct m; try done.
      pose proof (reaches_request _ _ _ _ _ _ _ _ _ _ _ Hr) as Hreq.
      apply reaches_verified in Hr as (ctx1 & w1 & Ha & Hr).
      apply reaches_saved in Hr as (au & u & t & w0 & w2 & Hau & Hnow & Hs & Hr).
      apply reaches_ctx in Hr; [|done]. exists token, request, ctx1, w1, ctx', rq', w'.
      split_and!; [done|done|done|done| |done]. right. by exists au, u, t, w0, w2.
    + pose proof (reaches_request _ _ _ _ _ _ _ _ _ _ _ Hr) as Hreq.
      apply reaches_verified in Hr as (ctx1 & w1 & Ha & Hr). apply reaches_ctx in Hr; [|done].
      exists token, request, ctx1, w1, ctx', rq', w'. split_and!; [done|done|done|done| |done]. by left.
  - exfalso. apply orb_true_iff in Hc as [Hc|[_ Hc]%andb_true_iff];
      destruct (srv_chain s) as [|m ms]; try done; destruct m; try done.
    + apply reaches_verified in Hr as (ctx1 & w1 & Ha & _). by apply no_token_not_admitted in Ha.
    + apply reaches_verified in Hr as (ctx1 & w1 & Ha & _). by apply no_token_not_admitted in Ha.
Qed.

(** The getter of a provider goes by its key, and so does the way in which the
    seed is found. *)
Lemma provided_by_key m m' k get get' rq vs :
  (k, get) ∈ provided r m -> (k, get') ∈ provided r m' ->
  provider_for SeedInvalidPhase GetSeedCluster snap rq m' k get' vs ->
  provider_for SeedInvalidPhase GetSeedCluster snap rq m k get vs.
Proof.
  intros Hk Hk'. destruct m; cbn in Hk; repeat (apply elem_of_cons in Hk as [[= -> ->]|Hk]);
    try (by apply elem_of_nil in Hk);
    destruct m'; cbn in Hk'; repeat (apply elem_of_cons in Hk' as [Hk'|Hk']; [first [discriminate Hk'|injection Hk' as ->]|]);
    first [by apply elem_of_nil in Hk'|exact id].
Qed.

(** C27: the endpoint of a server finds every provider of its chain in the context,
    under the key of the provider, and a provider that belongs to a seed is one
    that the getter answered for the seed that runs the cluster of the request
    (for the seed that it names, if no seed runs it or the middleware goes by the
    name); or the answer has nothing to do with the endpoint. *)
Theorem endpoints_get_their_providers s req http w :
  (exists request ctx' rq' w', decode (srv_dec s) req http = Ok request /\ rq_request rq' = request /\
     (forall endpoints : string -> E, served s req http endpoints w = endpoints (srv_endpoint s) ctx' rq' w') /\
     forall m, m ∈ srv_chain s ->
       (forall k, k ∈ keys_of r m -> is_Some (rq_values rq' !! k)) /\
       (forall k get, (k, get) ∈ provided r m ->
          provider_for SeedInvalidPhase GetSeedCluster snap rq' m k get (rq_values rq'))) \/
  (exists res w', forall endpoints : string -> E, served s req http endpoints w = (res, w')).
Proof.
  assert (forall ctx request ctx' rq' w', through (srv_chain s) ctx (MkRouted request ∅ None) w ctx' rq' w' ->
    rq_request rq' = request /\ forall m, m ∈ srv_chain s ->
       (forall k, k ∈ keys_of r m -> is_Some (rq_values rq' !! k)) /\
       (forall k get, (k, get) ∈ provided r m ->
          provider_for SeedInvalidPhase GetSeedCluster snap rq' m k get (rq_values rq'))) as Hvalues.
  { intros ctx request ctx' rq' w' Hr. pose proof Hr as Hreq. apply reaches_request in Hreq.
    split; [done|]. intros m Hm. split; intros k; 
      destruct (reaches_values r SeedInvalidPhase order IsCluster implements GetSeedCluster snap Hshows HL
        _ _ _ _ _ _ _ k Hr) as [H1 H2].
    - by apply H1.
    - intros get Hk. destruct (H2 m get Hm Hk) as (m' & get' & _ & Hk' & Hp).
      eapply provided_by_key; [exact Hk|exact Hk'|]. unfold provider_for in *. by rewrite Hreq. }
  destruct (serve_passes (Resp := Resp) r SeedInvalidPhase order IsCluster implements GetSeedCluster GetUserID GetProjectID
    snap Hshows HL decode s req http w)
    as [(token & request & ctx' & rq' & w' & _ & Hd & Hr & He)|[(err & request & ctx' & rq' & w' & _ & Hd & Hr & He)|Hstop]];
    [| |by right]; left; exists request, ctx', rq', w'; destruct (Hvalues _ _ _ _ _ Hr) as [Hreq Hv]; by split_and!.
Qed.
End api_properties.


(** ** Witnesses *)

(** A router with the documented behaviour. *)
#[local] Instance firstMux : Mux :=
  {| mux_Match routes req := List.find (fun r => route_matches r req) routes |}.
#[local] Instance firstMux_laws : MuxLaws firstMux.
Proof.
  split; cbn [mux_Match firstMux].
  - intros routes req r. induction routes as [|x l IH]; [done|]. cbn. destruct (route_matches x req) eqn:E.
    + intros [= ->]. exists [], l. split_and!; [done|done|]. intros r' H. by apply elem_of_nil in H.
    + intros (before & after & -> & Hr & Hb)%IH. exists (x :: before), after. split_and!; [done|done|].
      intros r' [->|H]%elem_of_cons; [done|by apply Hb].
  - intros routes req H r Hr. by apply (find_none _ _ H), list_elem_of_In.
Qed.

(** An API with the two seeds; its providers are the names of their seeds. *)
Definition sampleRouting : Routing (W := Mem) (Prov := string) :=
  MkRouting bobVerifier (fun _ => Ok "eyJhbGciOi") (mret twoSeeds) twoGetter
    twoGetter twoGetter twoGetter twoGetter twoGetter twoGetter
    (fun _ => mret "") (fun _ => mret "") twoGetter twoGetter twoGetter twoGetter twoGetter.

Definition sample_serve (endpoints : string -> Endpoint Mem Routed (option string)) (s : Server) (req : RouterRequest)
    : Request -> M Mem error (option string) :=
  serve sampleRouting "Invalid" mapOrder twoIsCluster (fun _ _ => true) (fun _ : unit => Some (MkSeedCluster "" "c1"))
    (fun _ => None) (fun _ => None) (fun _ _ _ => Ok tt) endpoints s req.

Definition getMe : RouterRequest := MkRouterRequest MGet "/api/v1/me" [].
Definition getC1 : RouterRequest := MkRouterRequest MGet "/api/v2/projects/p1/clusters/c1" [].
Definition browser : Request := MkRequest (fun _ => "") (fun _ => "") [] "localhost" true.

(** An endpoint that tells whom it serves, and one that tells the provider under a key. *)
Definition tell_user : Endpoint Mem (Routed (Req := unit) (Prov := string)) (option string) := fun ctx _ =>
  mret (user_Email <$> ctx_UserCR ctx).
Definition tell_provider (key : string) : Endpoint Mem (Routed (Req := unit) (Prov := string)) (option string) :=
  fun _ rq => mret (rq_values rq !! key).

Lemma routes_resolve_witness :
  let route := MkRoute (Some MGet) "/api/v1/me" false [] (Handler getCurrentUser) in
  route ∈ mainRouter true /\ mux_Match (mainRouter true) (sample_request route) = Some route.
Proof.
  intros route. assert (route ∈ mainRouter true) as Hin by (apply (bool_decide_eq_true_1 (route ∈ mainRouter true)); vm_compute; reflexivity).
  split; [exact Hin|]. exact (proj2 (routes_resolve true route Hin)).
Defined.

Lemma endpoints_need_a_token_witness :
  let run := sample_serve (fun _ => tell_user) getCurrentUser getMe browser sample in
  run.1 = Ok (Some "bob@example.com") /\
  exists ctx1 w1 au u t w2, admits bobVerifier (ctx_with_RawToken "eyJhbGciOi" emptyCtx) sample ctx1 w1 /\
    ctx_AuthenticatedUser ctx1 = Some au /\ saved au t u w2.
Proof.
  intros run. assert (run.1 = Ok (Some "bob@example.com")) as E by (vm_compute; reflexivity). split; [exact E|].
  assert ((sample_serve (fun _ _ _ => mret None) getCurrentUser getMe browser sample).1 = Ok None) as E0
    by (vm_compute; reflexivity).
  assert (mux_Match (mainRouter true) getMe = Some (MkRoute (Some MGet) "/api/v1/me" false [] (Handler getCurrentUser)))
    as Hm by (vm_compute; reflexivity).
  pose proof (endpoints_need_a_token (Resp := option string) sampleRouting "Invalid" mapOrder twoIsCluster (fun _ _ => true)
    (fun _ : unit => Some (MkSeedCluster "" "c1")) (fun _ => None) (fun _ => None) (fun _ _ _ => Ok tt)
    (fun _ => twoSnapshot) twoSnapshot_shows mem_lists_succeed true getMe browser _ sample Hm) as H.
  cbn [route_handler] in H.
  destruct H as [H|[(token & request & ctx1 & w1 & ctx' & rq' & w' & Ht & _ & Ha & _ & Hu & _)|(res & w' & H)]].
  - exfalso. apply (bool_decide_eq_true_2 (getCurrentUser ∈ publicServers)) in H. vm_compute in H. discriminate H.
  - injection Ht as <-. destruct Hu as [[H _]|(au & u & t & w0 & w2 & Hau & _ & Hs & _)].
    + exfalso. apply (bool_decide_eq_true_2 (getCurrentUser ∈ userlessServers)) in H. vm_compute in H. discriminate H.
    + exists ctx1, w1, au, u, t, w2. split; [exact Ha|]. split; [exact Hau|exact Hs].
  - exfalso. pose proof (H (fun _ => tell_user)) as H1. pose proof (H (fun _ _ _ => mret None)) as H2.
    apply (f_equal fst) in H1, H2. change (run.1 = res) in H1.
    change ((sample_serve (fun _ _ _ => mret None) getCurrentUser getMe browser sample).1 = res) in H2. congruence.
Defined.

Lemma endpoints_get_their_providers_witness :
  let run key := (sample_serve (fun _ => tell_provider key) RoutesV2.getCluster getC1 browser sample).1 in
  run ClusterProviderContextKey = Ok (Some "eu") /\
  exists rq', provider_for "Invalid" (fun _ : unit => Some (MkSeedCluster "" "c1")) (fun _ => twoSnapshot) rq'
    mSetClusterProvider ClusterProviderContextKey twoGetter (rq_values rq').
Proof.
  intros run. assert (run ClusterProviderContextKey = Ok (Some "eu")) as E by (vm_compute; reflexivity).
  assert (run "no key" = Ok None) as E0 by (vm_compute; reflexivity). split; [exact E|].
  destruct (endpoints_get_their_providers (Resp := option string) sampleRouting "Invalid" mapOrder twoIsCluster (fun _ _ => true)
    (fun _ : unit => Some (MkSeedCluster "" "c1")) (fun _ => None) (fun _ => None) (fun _ _ _ => Ok tt)
    (fun _ => twoSnapshot) twoSnapshot_shows mem_lists_succeed RoutesV2.getCluster getC1 browser sample)
    as [(request & ctx' & rq' & w' & _ & _ & _ & H)|(res & w' & H)].
  - exists rq'. destruct (H mSetClusterProvider ltac:(right; right; left)) as [_ Hp]. apply Hp. left.
  - exfalso. pose proof (f_equal fst (H (fun _ => tell_provider ClusterProviderContextKey))) as H1.
    pose proof (f_equal fst (H (fun _ => tell_provider "no key"))) as H2.
    change (run ClusterProviderContextKey = res) in H1. change (run "no key" = res) in H2. congruence.
Defined.
