(* ===== verification/Admins.v ===== *)
(** Administrators: provider/kubernetes/admin.go and handler/v1/admin/admin.go. *)
From S2P Require Export Access.

(** provider.AdminProvider *)
Class AdminProvider (W : Type) := {
  admins_GetAdmins : UserInfo -> M W error (list User);
  admins_SetAdmin : UserInfo -> Admin -> M W error User }.

Section admins.
Context {W : Type} {EL : ErrorLib} {P : SDK} {API : KubeAPI W}.

Definition no_admin_rights (userInfo : UserInfo) : error :=
  apierrors_NewForbidden (ui_Email userInfo) (ENew (quote (ui_Email userInfo) +:+ " doesn't have admin rights")).

Definition AdminProvider_GetAdmins (userInfo : UserInfo) : M W error (list User) :=
  _ ← throwIf (negb (ui_IsAdmin userInfo)) (no_admin_rights userInfo);
  users ← klist KUser Privileged Everything;
  mret (List.filter user_IsAdmin users).

Definition grantedByGroup (user : User) : string :=
  default "" (meta_Annotations (user_meta user) !! AdminGrantedByGroupAnnotation).

Definition AdminProvider_SetAdmin (userInfo : UserInfo) (adminBody : Admin) : M W error User :=
  _ ← throwIf (negb (ui_IsAdmin userInfo)) (no_admin_rights userInfo);
  _ ← throwIf (EqualFold (ui_Email userInfo) (admin_Email adminBody))
        (apierrors_NewBadRequest "can not change own privileges");
  userList ← klist KUser Privileged Everything;
  match List.find (fun user => EqualFold (user_Email user) (admin_Email adminBody)) userList with
  | Some user =>
      _ ← throwIf (bool_decide (admin_IsAdmin adminBody = Some false) && negb (is_empty (grantedByGroup user)))
            (apierrors_NewBadRequest ("admin rights for " +:+ admin_Email adminBody +:+
               " are granted by group " +:+ quote (grantedByGroup user) +:+
               ", remove the group from the admin groups setting to revoke them"));
      let userCopy := user_with_roles (default (user_IsAdmin user) (admin_IsAdmin adminBody))
                        (default (user_IsGlobalViewer user) (admin_IsGlobalViewer adminBody)) user in
      kupdate KUser Privileged userCopy
  | None => throw (ENew ("the given user " +:+ admin_Email adminBody +:+ " was not found"))
  end.

#[export] Instance kubernetesAdminProvider : AdminProvider W := {|
  admins_GetAdmins := AdminProvider_GetAdmins;
  admins_SetAdmin := AdminProvider_SetAdmin |}.
End admins.

(** ** handler/v1/admin/admin.go *)

Section admin_handlers.
Context {W : Type} {EL : ErrorLib} {P : SDK} {ADMINS : AdminProvider W}.
Variable userInfoGetter : UserInfoGetter W.

Definition GetAdminEndpoint (ctx : Ctx) : M W error (list Admin) :=
  userInfo ← httpErr (userInfoGetter ctx "");
  admins ← httpErr (admins_GetAdmins userInfo);
  mret ((fun admin => MkAdmin (user_Email admin) (user_Name admin) (Some (user_IsAdmin admin)) None
                        (grantedByGroup admin)) <$> admins).

Definition setAdminReq_Validate (body : Admin) : M W error unit :=
  throwIf (is_empty (admin_Email body)) (utilerrors_NewBadRequest "the email address cannot be empty").

Definition SetAdminEndpoint (ctx : Ctx) (body : Admin) : M W error Admin :=
  _ ← setAdminReq_Validate body;
  userInfo ← httpErr (userInfoGetter ctx "");
  admin ← httpErr (admins_SetAdmin userInfo body);
  let grantedByGroup := grantedByGroup admin in
  match admin_IsGlobalViewer body with
  | Some _ => mret (MkAdmin (user_Email admin) (user_Name admin) None (Some (user_IsGlobalViewer admin))
                      grantedByGroup)
  | None => mret (MkAdmin (user_Email admin) (user_Name admin) (Some (user_IsAdmin admin)) None
                    grantedByGroup)
  end.
End admin_handlers.

(** ** Lemmas *)

Section admins_proofs.
Context {W : Type} {EL : ErrorLib} {P : SDK} {API : KubeAPI W} {ST : Store W} {LAWS : KubeAPILaws W}.
Implicit Types w : W.

(** The stored user [u'] is [u] with the requested rights. *)
Definition rights_set (body : Admin) (u u' : User) : Prop :=
  user_IsAdmin u' = default (user_IsAdmin u) (admin_IsAdmin body) /\
  user_IsGlobalViewer u' = default (user_IsGlobalViewer u) (admin_IsGlobalViewer body) /\
  user_Email u' = user_Email u /\ user_Groups u' = user_Groups u /\
  (admin_IsAdmin body = Some false -> grantedByGroup u = "").

(** What a success of SetAdmin did. *)
Definition admin_set (userInfo : UserInfo) (body : Admin) w w' (u' : User) : Prop :=
  ui_IsAdmin userInfo = true /\ EqualFold (ui_Email userInfo) (admin_Email body) = false /\
  exists u, registered w u /\ EqualFold (user_Email u) (admin_Email body) = true /\
    rights_set body u u' /\ key_of KUser u' = key_of KUser u /\ updated KUser w w' u'.

Lemma SetAdmin_spec userInfo body w :
  runs (AdminProvider_SetAdmin userInfo body) w (fun r w' =>
    match r with
    | Ok u' => admin_set userInfo body w w' u'
    | Err _ => same_store w w'
    | Panic => False
    end).
Proof.
  unfold AdminProvider_SetAdmin. runs_guard; [done|]. runs_guard; [done|].
  apply negb_false_iff in H. runs_call (klist_spec KUser). destruct Hcall as [Hs Hl].
  destruct r as [l|e|]; cbn [andThen]; [|done|done].
  destruct (List.find _ l) as [u|] eqn:E; [|by runs_step].
  apply List_find_some in E as [Hin He]. apply (elem_of_listed_all KUser w l u Hl) in Hin.
  runs_guard; [done|]. eapply runs_mono; [apply (kupdate_spec KUser)|]. cbn beta.
  intros [u'|e|] w1 Hu; [|by rewrite Hs|done]. rewrite <- Hs in Hu.
  destruct Hu as (_ & Hst & Hup & _). split; [done|]. split; [done|]. exists u.
  pose proof (strip_key _ _ _ Hst) as Hk. apply strip_user in Hst as (_ & Hem & Hg & Ha & Hv & _).
  split_and!; [done|done| |done|done]. split_and!; [done|done|done|done|].
  intros Hf. rewrite Hf in H1. rewrite bool_decide_true in H1 by done. cbn in H1.
  by apply negb_false_iff, is_empty_spec in H1.
Qed.

Lemma GetAdmins_spec userInfo w :
  runs (AdminProvider_GetAdmins userInfo) w (fun r w' => same_store w w' /\
    match r with
    | Ok l => ui_IsAdmin userInfo = true /\ forall u, u ∈ l <-> registered w u /\ user_IsAdmin u = true
    | Err _ => True
    | Panic => False
    end).
Proof.
  unfold AdminProvider_GetAdmins. runs_guard; [done|]. apply negb_false_iff in H.
  runs_call (klist_spec KUser). destruct Hcall as [Hs Hl].
  destruct r as [l|e|]; cbn [andThen]; [|done|done]. runs_step. split; [done|]. split; [done|].
  intros u. by rewrite elem_of_List_filter, (elem_of_listed_all KUser w l u Hl).
Qed.

Context {MAPPER : ProjectMemberMapper W} {MAPL : ProjectMemberMapperLaws W}.

Lemma SetAdminEndpoint_spec ctx body w :
  runs (SetAdminEndpoint UserInfoGetterFactory ctx body) w (fun r w' =>
    match r with
    | Ok a => exists user u', ctx_UserCR ctx = Some user /\ user_IsAdmin user = true /\
        EqualFold (user_Email user) (admin_Email body) = false /\ admin_Email a = user_Email u' /\
        exists u, registered w u /\ EqualFold (user_Email u) (admin_Email body) = true /\
          rights_set body u u' /\ key_of KUser u' = key_of KUser u /\ updated KUser w w' u'
    | Err _ => same_store w w'
    | Panic => False
    end).
Proof.
  unfold SetAdminEndpoint, setAdminReq_Validate, httpErr. runs_guard; [done|]. do 2 runs_step.
  eapply runs_mono; [apply UserInfoGetterFactory_spec|]. cbn beta. intros r w1 [Hs Hi].
  destruct r as [ui|e|]; cbn [andThen]; [|done|done].
  destruct Hi as (user & Hu & _ & (He & Ha & _)). do 2 runs_step.
  eapply runs_mono; [apply SetAdmin_spec|]. cbn beta. intros r w2 Hset.
  destruct r as [u'|e|]; cbn [andThen]; [|by etrans|done].
  destruct Hset as (Hadm & Hne & Hex). setoid_rewrite <- Hs in Hex.
  assert (exists user0 u'0, ctx_UserCR ctx = Some user0 /\ user_IsAdmin user0 = true /\
        EqualFold (user_Email user0) (admin_Email body) = false /\ user_Email u' = user_Email u'0 /\
        exists u, registered w u /\ EqualFold (user_Email u) (admin_Email body) = true /\
          rights_set body u u'0 /\ key_of KUser u'0 = key_of KUser u /\ updated KUser w w2 u'0) as H'.
  { exists user, u'. rewrite <- Ha, <- He. done. }
  by destruct (admin_IsGlobalViewer body); runs_step.
Qed.
End admins_proofs.

(** ** Properties *)

Section admins_properties.
Context {W : Type} {EL : ErrorLib} {P : SDK} {API : KubeAPI W} {ST : Store W} {LAWS : KubeAPILaws W}
        {MAPPER : ProjectMemberMapper W} {MAPL : ProjectMemberMapperLaws W}.
Implicit Types w : W.

(** C15: administrator rights are given and taken only by an administrator, never
    to or from oneself, and not taken while a group grants them; exactly the
    requested rights of one stored user with the given email change. Whoever
    made the request stays an administrator, so the installation keeps one. *)
Theorem SetAdminEndpoint_keeps_admin ctx body w :
  runs (SetAdminEndpoint UserInfoGetterFactory ctx body) w (fun r w' =>
    match r with
    | Ok a => exists user, ctx_UserCR ctx = Some user /\ user_IsAdmin user = true /\
        (exists u u', registered w u /\ EqualFold (user_Email u) (admin_Email body) = true /\
           rights_set body u u' /\ updated KUser w w' u' /\ admin_Email a = user_Email u') /\
        (registered w user -> registered w' user)
    | Err _ => same_store w w'
    | Panic => False
    end).
Proof.
  eapply runs_mono; [apply SetAdminEndpoint_spec|]. cbn beta. intros [a|e|] w'; [|done|done].
  intros (user & u' & Hc & Ha & Hne & Hea & u & Hu & He & Hset & Hk & Hup).
  exists user. split_and!; [done|done|by exists u, u'|].
  intros [n Hn]. exists n. destruct Hup as (_ & -> & _). rewrite lookup_insert_ne; [done|].
  intros Heq. destruct Hu as [n' Hn'].
  assert (n' = n) as -> by (rewrite <- (view_key KUser _ _ _ Hn'), <- Heq; done).
  rewrite Hn in Hn'. injection Hn' as <-. congruence.
Qed.
End admins_properties.

Lemma SetAdminEndpoint_keeps_admin_witness :
  let ctx := ctx_with_UserCR alice emptyCtx in
  let body := MkAdmin "BOB@example.com" "" (Some true) None "" in
  let run := SetAdminEndpoint UserInfoGetterFactory ctx body sample in
  exists a, run.1 = Ok a /\ admin_Email a = "bob@example.com" /\ registered run.2 alice.
Proof.
  intros ctx body run. eexists. assert (run.1 = Ok (MkAdmin "bob@example.com" "u-bob" (Some true) None "")) as E
    by (vm_compute; reflexivity). split; [exact E|]. split; [reflexivity|].
  run_thm run E (SetAdminEndpoint_keeps_admin ctx body sample) H.
  destruct H as (user & [= <-] & _ & _ & H). apply H. exists ("", "u-alice"). vm_compute. reflexivity.
Defined.
