(* ===== verification/Handlers.v ===== *)
(** What the handlers share: the choice between the privileged provider, for an
    administrator, and the permissions of the user in the project; the lookup of
    the project; the conversion of errors. *)
From S2P Require Export Access.

Section handler_errors.
Context {W : Type} {EL : ErrorLib}.

(** [err := req.Validate(); if err != nil { return nil, utilerrors.NewBadRequest("%v", err) }]. *)
Definition validRequest (r : result error unit) : M W error unit :=
  mapErr (fun err => utilerrors_NewBadRequest (Error err)) (lift r).

(** [return utilerrors.New(http.StatusInternalServerError, err.Error())]. *)
Definition internalError (err : error) : error := utilerrors_New 500 (Error err).

Lemma validRequest_spec r w :
  r <> Panic ->
  runs (validRequest r) w (fun r' w' => w' = w /\
    match r' with Ok _ => r = Ok tt | Err _ => True | Panic => False end).
Proof. intros Hp. unfold validRequest. do 2 runs_step. by destruct r as [[]|e|]. Qed.
End handler_errors.

(** The user of the request administrates. *)
Definition by_admin (ctx : Ctx) : Prop := exists user, ctx_UserCR ctx = Some user /\ user_IsAdmin user = true.

Section handlers.
Context {W : Type} {EL : ErrorLib} {P : SDK} {API : KubeAPI W} {ST : Store W}
        {PROJECTS : ProjectProvider W} {PPROJECTS : PrivilegedProjectProvider W}
        {MAPPER : ProjectMemberMapper W} {ELL : ErrorLibLaws EL}
        {LAWS : KubeAPILaws W} {MAPL : ProjectMemberMapperLaws W}
        {PRL : ProjectProviderLaws W} {PPL : PrivilegedProjectProviderLaws W}.
Implicit Types w : W.

(** The user may do this in the project: as an administrator, or as far as the
    API server lets the user with the granted groups. *)
Definition permitted w (user : User) (pid : string) (v : verb) (k : kind) (n : key) : Prop :=
  user_IsAdmin user = true \/
  exists ui, getter_info w user pid ui /\ authorized w (as_user ui) v k n.

#[export] Instance permitted_proper :
  Proper (same_store ==> eq ==> eq ==> eq ==> eq ==> eq ==> iff) permitted.
Proof.
  intros w w' Hw u ? <- p ? <- v ? <- k ? <- n ? <-. unfold permitted. by setoid_rewrite Hw.
Qed.

(** A computation that answers the user info of the request in a project. *)
Definition gets_info ctx pid (m : M W error UserInfo) : Prop := forall w,
  runs m w (fun r w' => same_store w w' /\
    match r with
    | Ok ui => exists user, ctx_UserCR ctx = Some user /\ getter_info w user pid ui
    | Err _ => True
    | Panic => False
    end).

Lemma UserInfoGetterFactory_gets ctx pid : gets_info ctx pid (UserInfoGetterFactory ctx pid).
Proof.
  intros w. eapply runs_mono; [apply UserInfoGetterFactory_spec|]. cbn beta.
  intros [ui|e|] w'; naive_solver.
Qed.

Lemma mapErr_gets ctx pid f m : gets_info ctx pid m -> gets_info ctx pid (mapErr f m).
Proof.
  intros Hm w. apply runs_mapErr. eapply runs_mono; [apply Hm|]. cbn beta. by intros [ui|e|] w'.
Qed.

(** The two user infos a write asks for: the first tells administrators apart,
    the second is the one the API server sees. *)
Lemma admin_or_user {A} ctx pid m1 m2 (unsecured : M W error A) (secured : UserInfo -> M W error A) w
    (Q : result error A -> W -> Prop) :
  gets_info ctx "" m1 -> gets_info ctx pid m2 ->
  (forall e w1, same_store w w1 -> Q (Err e) w1) ->
  (forall user w1, ctx_UserCR ctx = Some user -> user_IsAdmin user = true -> same_store w w1 ->
     runs unsecured w1 Q) ->
  (forall user ui w1, ctx_UserCR ctx = Some user -> getter_info w user pid ui -> same_store w w1 ->
     runs (secured ui) w1 Q) ->
  runs (adminUserInfo ← m1;
        if ui_IsAdmin adminUserInfo then unsecured else
        userInfo ← m2;
        secured userInfo) w Q.
Proof.
  intros Hm1 Hm2 He Ha Hu. runs_call Hm1. destruct Hcall as [Hs Hi].
  destruct r as [ui|e|]; cbn [andThen]; [|by apply He|done].
  destruct Hi as (user & Hc & (_ & Hadm & _)). rewrite Hadm.
  destruct (user_IsAdmin user) eqn:Ea; [by eapply Ha|].
  runs_call Hm2. destruct Hcall as [Hs2 Hi].
  assert (same_store w w1) as Hs' by (by etrans).
  destruct r as [ui'|e|]; cbn [andThen]; [|by apply He|done].
  destruct Hi as (user' & Hc' & Hi). rewrite <- Hs in Hi. by eapply Hu.
Qed.

Lemma as_admin_or_user {A} ctx pid (unsecured : M W error A) (secured : UserInfo -> M W error A) w
    (Q : result error A -> W -> Prop) :
  (forall e w1, same_store w w1 -> Q (Err e) w1) ->
  (forall user w1, ctx_UserCR ctx = Some user -> user_IsAdmin user = true -> same_store w w1 ->
     runs unsecured w1 Q) ->
  (forall user ui w1, ctx_UserCR ctx = Some user -> getter_info w user pid ui -> same_store w w1 ->
     runs (secured ui) w1 Q) ->
  runs (adminUserInfo ← UserInfoGetterFactory ctx "";
        if ui_IsAdmin adminUserInfo then unsecured else
        userInfo ← UserInfoGetterFactory ctx pid;
        secured userInfo) w Q.
Proof. apply admin_or_user; apply UserInfoGetterFactory_gets. Qed.

(** A privileged call [unsecured] of which the user's own call [secured] has the
    effect [R], but needs the permission for [n]. *)
Lemma admin_or_user_call {A} ctx pid (unsecured : M W error A) (secured : UserInfo -> M W error A) w
    v k (n : A -> key) (R : W -> A -> W -> Prop) :
  (forall w0 w1 a w', same_store w0 w1 -> R w1 a w' -> R w0 a w') ->
  (forall w, runs unsecured w (fun r w' =>
     match r with Ok a => R w a w' | Err _ => same_store w w' | Panic => False end)) ->
  (forall ui w, runs (secured ui) w (fun r w' =>
     match r with
     | Ok a => authorized w (as_user ui) v k (n a) /\ R w a w'
     | Err _ => same_store w w'
     | Panic => False
     end)) ->
  runs (adminUserInfo ← UserInfoGetterFactory ctx "";
        if ui_IsAdmin adminUserInfo then unsecured else
        userInfo ← UserInfoGetterFactory ctx pid;
        secured userInfo) w (fun r w' =>
    match r with
    | Ok a => (exists user, ctx_UserCR ctx = Some user /\ permitted w user pid v k (n a)) /\ R w a w'
    | Err _ => same_store w w'
    | Panic => False
    end).
Proof.
  intros HR Hun Hse. apply as_admin_or_user; [done| |].
  - intros user w1 Hc Ha Hs. eapply runs_mono; [apply Hun|]. cbn beta.
    intros [a|e|] w2 H; [|by etrans|done]. split; [|by eapply HR]. exists user. by split; [|left].
  - intros user ui w1 Hc Hi Hs. eapply runs_mono; [apply Hse|]. cbn beta.
    intros [a|e|] w2 H; [|by etrans|done]. destruct H as [Ha H]. split; [|by eapply HR].
    exists user. split; [done|]. right. exists ui. split; [done|]. by rewrite Hs.
Qed.

(** [if err != nil { return nil, common.KubernetesErrorToHTTPError(err) }]. *)
Lemma httpErr_spec {A} (m : M W error A) w (R : result error A -> W -> Prop) Q :
  runs m w R ->
  (forall r w', R r w' -> match r with
     | Ok a => Q (Ok a) w'
     | Err e => Q (Err (KubernetesErrorToHTTPError e)) w'
     | Panic => Q Panic w' end) ->
  runs (httpErr m) w Q.
Proof. intros Hm HQ. unfold httpErr. apply runs_mapErr. eapply runs_mono; [exact Hm|exact HQ]. Qed.

(** The project a handler works on. *)
Definition project_at w (pid : string) (project : Project) : Prop :=
  view KProject w !! ("", pid) = Some project /\ meta_Name (project_meta project) = pid.
#[export] Instance project_at_proper : Proper (same_store ==> eq ==> eq ==> iff) project_at.
Proof. intros w w' [Hw _] i ? <- p ? <-. unfold project_at. by rewrite Hw. Qed.

Lemma handler_GetProject ctx pid options w :
  runs (GetProject UserInfoGetterFactory ctx pid options) w (fun r w' => same_store w w' /\
    match r with
    | Ok p => (exists user, ctx_UserCR ctx = Some user) /\ project_at w pid p
    | Err _ => True
    | Panic => False
    end).
Proof.
  eapply runs_mono; [apply GetProject_spec|]. cbn beta. intros [p|e|] w' [Hs H]; [|done|done].
  destruct H as (user & Hc & Hv & _). split; [done|]. split; [by exists user|]. split; [done|].
  pose proof (view_key KProject _ _ _ Hv) as Hk. by injection Hk.
Qed.

Definition same_user (ui : UserInfo) (user : User) : Prop :=
  ui_Email ui = user_Email user /\ ui_IsAdmin ui = user_IsAdmin user.

Lemma requester_spec ctx w :
  runs (httpErr (UserInfoGetterFactory ctx "")) w (fun r w' => same_store w w' /\
    match r with
    | Ok ui => exists user, ctx_UserCR ctx = Some user /\ same_user ui user
    | Err _ => True
    | Panic => False
    end).
Proof.
  eapply httpErr_spec; [apply UserInfoGetterFactory_spec|]. intros [ui|e|] w' [Hs H]; [|done|done].
  split; [done|]. destruct H as (user & Hc & _ & (He & Ha & _)). by exists user.
Qed.
End handlers.

(** The next call of a handler, with its errors converted for HTTP, or as it is. *)
Ltac http_call lem :=
  runs_step; eapply httpErr_spec; [eapply lem|]; cbn beta.
Ltac plain_call lem :=
  runs_step; eapply runs_mono; [eapply lem|]; cbn beta.
