(* ===== verification/DatacenterLists.v ===== *)
(** The lists of datacenters, proved: users see the datacenters that their mail
    address may use, each of them once and sorted. *)
From S2P Require Export Handlers Datacenters.

Section external_datacenters.
Context {D : DatacenterSDK} {DL : DatacenterSDKLaws D} {R : MapRange} {RL : MapRangeLaws R}.

(** The datacenter of the API is that of the seed. *)
Definition converts (s : Seed) (d : ApiDatacenter) : Prop :=
  exists dc, seedspec_Datacenters (seed_Spec s) !! apidc_Name d = Some dc /\
    ConvertInternalDCToExternalSpec dc (seed_Name s) = Ok (apidc_Spec d).

Lemma Convert_no_panic dc n : ConvertInternalDCToExternalSpec dc n <> Panic.
Proof.
  unfold ConvertInternalDCToExternalSpec. pose proof (DatacenterCloudProviderName_panic (dc_Spec dc)).
  by destruct (DatacenterCloudProviderName _).
Qed.

Lemma Convert_seed dc n spec : ConvertInternalDCToExternalSpec dc n = Ok spec -> apidc_Seed spec = n.
Proof.
  unfold ConvertInternalDCToExternalSpec. destruct (DatacenterCloudProviderName _); [|done|done]. by intros [= <-].
Qed.

Lemma externalDCs_spec n l : NoDup l.*1 -> exists ds, externalDCs n l = Ok ds /\
  (forall d, d ∈ ds <-> exists dc, (apidc_Name d, dc) ∈ l /\ ConvertInternalDCToExternalSpec dc n = Ok (apidc_Spec d)) /\
  NoDup (apidc_Name <$> ds).
Proof.
  induction l as [|[name dc] l IH]; cbn.
  { intros _. exists []. split; [done|]. split; [set_solver|constructor]. }
  intros [Hname Hl]%NoDup_cons. destruct (IH Hl) as (ds & Heq & Hin & Hnd).
  pose proof (Convert_no_panic dc n) as Hp. destruct (ConvertInternalDCToExternalSpec dc n) as [spec|e|] eqn:E; [| |done].
  - rewrite Heq. cbn. eexists. split; [done|]. split.
    + intros [x sp]. rewrite elem_of_cons, Hin. setoid_rewrite elem_of_cons. split; [naive_solver|].
      intros (dc' & [[= -> ->]|H] & Hc); [left; cbn in Hc; congruence|right; by exists dc'].
    + apply NoDup_cons. split; [|done]. cbn. intros (d & -> & Hd)%list_elem_of_fmap.
      apply Hin in Hd as (dc' & Hd & _). apply Hname, list_elem_of_fmap. by exists (apidc_Name d, dc').
  - exists ds. split; [done|]. split; [|done]. intros [x sp]. rewrite Hin. setoid_rewrite elem_of_cons.
    split; [naive_solver|]. intros (dc' & [[= -> ->]|H] & Hc); [congruence|by exists dc'].
Qed.

Lemma getAPIDCsFromSeed_spec s : exists ds, getAPIDCsFromSeed s = Ok ds /\
  (forall d, d ∈ ds <-> converts s d) /\ NoDup (apidc_Name <$> ds).
Proof.
  destruct (externalDCs_spec (seed_Name s) _ (NoDup_map_range (seedspec_Datacenters (seed_Spec s))))
    as (ds & Heq & Hin & Hnd).
  exists ds. split; [done|]. split; [|done]. intros d. rewrite Hin. unfold converts. by setoid_rewrite elem_of_map_range.
Qed.

Lemma NoDup_concat_key {A B} (key : A -> B) (keyed : list (B * list A)) :
  NoDup keyed.*1 -> (forall b l, (b, l) ∈ keyed -> NoDup l /\ forall a, a ∈ l -> key a = b) ->
  NoDup (concat keyed.*2).
Proof.
  induction keyed as [|[b l] keyed IH]; cbn; [constructor|]. intros [Hb Hk]%NoDup_cons H.
  apply NoDup_app. split_and!.
  - apply (H b). left.
  - intros a Ha Ha'. apply Hb. apply list_elem_of_In, List.in_concat in Ha' as (l' & Hl' & Ha').
    rewrite <- !list_elem_of_In in *. apply list_elem_of_fmap in Hl' as ([b' l''] & -> & Hin).
    assert (key a = b) as <- by (apply (H b l); [left|done]).
    assert (key a = b') as Hb' by (apply (H b' l''); [by right|done]).
    rewrite Hb'. apply list_elem_of_fmap. by exists (b', l'').
  - apply IH; [done|]. intros b' l' Hin. apply H. by right.
Qed.

End external_datacenters.

Section datacenters_shown.
Context {W : Type} {EL : ErrorLib} {ELL : ErrorLibLaws EL} {P : SDK} {D : DatacenterSDK} {DL : DatacenterSDKLaws D}
        {R : MapRange} {RL : MapRangeLaws R} {API : KubeAPI W} {ST : Store W} {LAWS : KubeAPILaws W}
        {MAPPER : ProjectMemberMapper W} {MAPL : ProjectMemberMapperLaws W}.
Variable namespace : string.
Variable seedsGetter : SeedsGetter W.
Context {SGL : SeedsGetterLaws W namespace seedsGetter}.
Implicit Types w : W.

(** Some seed has the datacenter; the user may see it. *)
Definition offered w (d : ApiDatacenter) : Prop :=
  exists n s, seeds_of namespace w !! n = Some s /\ converts s d.
Definition may_see (user : User) (d : ApiDatacenter) : Prop :=
  user_IsAdmin user = true \/
  MatchesRequirements (user_Email user) (apidc_RequiredEmails (apidc_Spec d)) = Ok true.

#[export] Instance offered_proper : Proper (same_store ==> eq ==> iff) offered.
Proof. intros w w' Hw d ? <-. unfold offered. by setoid_rewrite Hw. Qed.

Lemma getAPIDCsFromSeedMap_spec w : exists ds, getAPIDCsFromSeedMap (seeds_of namespace w) = Ok ds /\
  (forall d, d ∈ ds <-> offered w d) /\ NoDup ds.
Proof.
  set (dcs := fun ns : string * Seed => match getAPIDCsFromSeed ns.2 with Ok ds => ds | _ => [] end).
  unfold getAPIDCsFromSeedMap.
  rewrite (collect_map _ dcs).
  2:{ intros [n s] _. unfold dcs. cbn. by destruct (getAPIDCsFromSeed_spec s) as (ds & -> & _). }
  cbn. eexists. split; [done|].
  assert (forall s, (forall d, d ∈ dcs s <-> converts s.2 d) /\ NoDup (apidc_Name <$> dcs s)) as Hdcs.
  { intros s. unfold dcs. by destruct (getAPIDCsFromSeed_spec s.2) as (ds & -> & ?). }
  split.
  - intros d. unfold offered. rewrite list_elem_of_In, List.in_concat. setoid_rewrite <- list_elem_of_In.
    split.
    + intros (l & ([n s] & -> & Hs%elem_of_map_range)%list_elem_of_fmap & Hd). exists n, s. by rewrite <- (proj1 (Hdcs (n, s))).
    + intros (n & s & Hs & Hd). exists (dcs (n, s)). rewrite (proj1 (Hdcs (n, s))). split; [|done].
      apply list_elem_of_fmap. exists (n, s). by rewrite elem_of_map_range.
  - set (l := map_range (seeds_of namespace w)).
    pose proof (NoDup_concat_key (fun d => apidc_Seed (apidc_Spec d)) ((fun ns => (ns.1, dcs ns)) <$> l)) as H.
    rewrite <- !list_fmap_compose in H. apply H.
    + apply NoDup_map_range.
    + intros b ds ([n s] & [= -> ->] & Hs%elem_of_map_range)%list_elem_of_fmap. destruct (Hdcs (n, s)) as [Hin Hnd].
      split; [by eapply NoDup_fmap_1|]. intros d (dc & _ & Hc)%Hin. cbn in Hc. rewrite (Convert_seed _ _ _ Hc).
      by apply (seeds_of_key namespace w).
Qed.

(** ** The lists and the lookups *)

(** [l] has the datacenters that satisfy [Q] and that the user may see, once
    each; [d] is the only one among them with the name. *)
Definition shows_list w (user : User) (Q : ApiDatacenter -> Prop) (l : list ApiDatacenter) : Prop :=
  (forall d, d ∈ l <-> offered w d /\ Q d /\ may_see user d) /\ NoDup l.
Definition shows_one w (user : User) (Q : ApiDatacenter -> Prop) (name : string) (d : ApiDatacenter) : Prop :=
  forall d', d' = d <-> offered w d' /\ Q d' /\ may_see user d' /\ apidc_Name d' = name.

Lemma filterDCsByEmail_ok ui ds l :
  filterDCsByEmail ui ds = Ok l ->
  l = List.filter (fun d => bool_decide (MatchesRequirements (ui_Email ui) (apidc_RequiredEmails (apidc_Spec d)) = Ok true)) ds.
Proof.
  revert l. induction ds as [|d ds IH]; intros l; cbn; [by intros [= <-]|].
  destruct (MatchesRequirements _ _) as [b|e|]; cbn; [|done|done].
  destruct (filterDCsByEmail ui ds) as [l'|e|]; cbn; [|done|done]. rewrite (IH l') by done.
  destruct b; intros [= <-]; [by rewrite bool_decide_eq_true_2|by rewrite bool_decide_eq_false_2].
Qed.

Lemma filterDCsByEmail_no_panic ui ds : filterDCsByEmail ui ds <> Panic.
Proof.
  induction ds as [|d ds IH]; [done|]. cbn.
  pose proof (MatchesRequirements_panic (ui_Email ui) (apidc_RequiredEmails (apidc_Spec d))).
  destruct (MatchesRequirements _ _); [|done|done]. cbn. by destruct (filterDCsByEmail ui ds).
Qed.

Lemma restrictedByEmail_spec ui user Q ds w0 w :
  same_user ui user -> (forall d, d ∈ ds <-> offered w0 d /\ Q d) -> NoDup ds ->
  runs (W := W) (restrictedByEmail ui ds) w (fun r w' => w' = w /\
    match r with Ok l => shows_list w0 user Q l | Err _ => True | Panic => False end).
Proof.
  intros [He Ha] Hin Hnd. unfold restrictedByEmail, shows_list, may_see. rewrite <- He, <- Ha.
  destruct (ui_IsAdmin ui).
  - runs_step. split; [done|]. split; [|done]. intros d. rewrite Hin. naive_solver.
  - do 2 runs_step. pose proof (filterDCsByEmail_no_panic ui ds).
    destruct (filterDCsByEmail ui ds) as [l|e|] eqn:E; [|done|done]. split; [done|].
    apply filterDCsByEmail_ok in E as ->. split.
    + intros d. rewrite elem_of_List_filter, bool_decide_eq_true, Hin. naive_solver.
    + rewrite List_filter_filter. by apply NoDup_filter.
Qed.

Lemma filterDCsByName_ok w user Q name l d :
  shows_list w user Q l -> filterDCsByName l name = Ok d -> shows_one w user Q name d.
Proof.
  intros [Hin Hnd]. unfold filterDCsByName.
  assert (forall d', d' ∈ List.filter (fun dc => bool_decide (apidc_Name dc = name)) l <->
    offered w d' /\ Q d' /\ may_see user d' /\ apidc_Name d' = name) as Hf.
  { intros d'. rewrite elem_of_List_filter, bool_decide_eq_true, Hin. tauto. }
  destruct (List.filter _ l) as [|d1 [|d2 l']]; [done| |done]. intros [= ->] d'. rewrite <- Hf. set_solver.
Qed.

Lemma filterDCsByName_no_panic (l : list ApiDatacenter) name : filterDCsByName l name <> Panic.
Proof. unfold filterDCsByName. by destruct (List.filter _ l) as [|? [|? ?]]. Qed.

Lemma sortByName_shows w user Q l :
  shows_list w user Q l -> shows_list w user Q (sortByName l) /\ Sorted name_le (sortByName l).
Proof.
  intros [Hin Hnd]. unfold sortByName. split; [|apply Sorted_merge_sort, _].
  split; [intros d|]; by rewrite merge_sort_Permutation.
Qed.

Lemma listSeedsOr500_spec w :
  runs (listSeedsOr500 seedsGetter) w (fun r w' => same_store w w' /\
    match r with Ok m => m = seeds_of namespace w | Err _ => True | Panic => False end).
Proof.
  apply runs_mapErr. eapply runs_mono; [apply seedsGetter_spec|]. cbn beta. by intros [m|e|] w'.
Qed.

(** What the endpoints do first, in their order: the seeds and the user. *)
Lemma seeds_then_user {A} ctx (k : gmap string Seed -> UserInfo -> M W error A) w (Q : result error A -> W -> Prop) :
  (forall e w', same_store w w' -> Q (Err e) w') ->
  (forall ui user w', same_store w w' -> ctx_UserCR ctx = Some user -> same_user ui user ->
     runs (k (seeds_of namespace w) ui) w' Q) ->
  runs (seeds ← listSeedsOr500 seedsGetter; userInfo ← httpErr (UserInfoGetterFactory ctx ""); k seeds userInfo) w Q.
Proof.
  intros He Hk. plain_call listSeedsOr500_spec. intros r w1 [Hs Hm].
  destruct r as [m|e|]; cbn [andThen]; [subst m|by apply He|done].
  plain_call requester_spec. intros r w2 [Hs2 Hu]. assert (same_store w w2) as Hs' by (by etrans).
  destruct r as [ui|e|]; cbn [andThen]; [|by apply He|done]. destruct Hu as (user & Hc & Hu). by eapply Hk.
Qed.

(** A computation that shows a list of [Q] to the user of the request. *)
Definition lists_dcs (m : M W error (list ApiDatacenter)) ctx Q w : Prop :=
  runs m w (fun r w' => same_store w w' /\
    match r with
    | Ok l => exists user, ctx_UserCR ctx = Some user /\ shows_list w user Q l
    | Err _ => True
    | Panic => False
    end).
Definition lists_sorted (m : M W error (list ApiDatacenter)) ctx Q w : Prop :=
  runs m w (fun r w' => same_store w w' /\
    match r with
    | Ok l => exists user, ctx_UserCR ctx = Some user /\ shows_list w user Q l /\ Sorted name_le l
    | Err _ => True
    | Panic => False
    end).
Definition finds_dc (m : M W error ApiDatacenter) ctx Q name w : Prop :=
  runs m w (fun r w' => same_store w w' /\
    match r with
    | Ok d => exists user, ctx_UserCR ctx = Some user /\ shows_one w user Q name d
    | Err _ => True
    | Panic => False
    end).

Lemma sorted_of_lists m ctx Q w : lists_dcs m ctx Q w -> lists_sorted (dcs ← m; mret (sortByName dcs)) ctx Q w.
Proof.
  unfold lists_dcs. intros H. apply runs_bind. eapply runs_mono; [exact H|]. cbn beta. intros [l|e|] w' [Hs Hl]; cbn [andThen]; [|done|done].
  runs_step. split; [done|]. destruct Hl as (user & Hc & Hl). exists user. split; [done|]. by apply sortByName_shows.
Qed.

Lemma found_of_lists m ctx Q name w : lists_dcs m ctx Q w -> finds_dc (dcs ← m; lift (filterDCsByName dcs name)) ctx Q name w.
Proof.
  unfold lists_dcs. intros H. apply runs_bind. eapply runs_mono; [exact H|]. cbn beta. intros [l|e|] w' [Hs Hl]; cbn [andThen]; [|done|done].
  runs_step. pose proof (filterDCsByName_no_panic l name). destruct (filterDCsByName l name) eqn:E; [|done|done].
  split; [done|]. destruct Hl as (user & Hc & Hl). exists user. split; [done|]. by eapply filterDCsByName_ok.
Qed.

(** The end of an endpoint: the restriction, then the answer [f] makes of the list. *)
Lemma restricted_then {B} (f : list ApiDatacenter -> result error B) (R' : User -> B -> Prop) ctx ui user Q ds w0 w :
  same_store w0 w -> ctx_UserCR ctx = Some user -> same_user ui user ->
  (forall d, d ∈ ds <-> offered w0 d /\ Q d) -> NoDup ds ->
  (forall l, shows_list w0 user Q l -> match f l with Ok b => R' user b | Err _ => True | Panic => False end) ->
  runs (dcs ← restrictedByEmail ui ds; lift (f dcs)) w (fun r w' => same_store w0 w' /\
    match r with Ok b => exists user, ctx_UserCR ctx = Some user /\ R' user b | Err _ => True | Panic => False end).
Proof.
  intros Hs Hc Hu Hin Hnd Hf. plain_call (restrictedByEmail_spec ui user Q ds w0 w Hu Hin Hnd).
  intros [l|e|] w' [-> Hl]; cbn [andThen]; [|done|done]. runs_step. specialize (Hf l Hl).
  destruct (f l); [|done|done]. split; [done|]. by exists user.
Qed.

Lemma sorted_answer w user Q l :
  shows_list w user Q l -> shows_list w user Q (sortByName l) /\ Sorted name_le (sortByName l).
Proof. apply sortByName_shows. Qed.
Lemma found_answer w user Q name l :
  shows_list w user Q l ->
  match filterDCsByName l name with Ok d => shows_one w user Q name d | Err _ => True | Panic => False end.
Proof.
  intros Hl. pose proof (filterDCsByName_no_panic l name).
  destruct (filterDCsByName l name) eqn:E; [|done|done]. by eapply filterDCsByName_ok.
Qed.

(** The datacenters of all seeds, and those of a provider. *)
Lemma all_offered w ds : getAPIDCsFromSeedMap (seeds_of namespace w) = Ok ds ->
  (forall d, d ∈ ds <-> offered w d /\ True) /\ NoDup ds.
Proof.
  destruct (getAPIDCsFromSeedMap_spec w) as (ds' & -> & Hin & Hnd). intros [= <-]. split; [|done].
  intros d. rewrite Hin. tauto.
Qed.
Lemma offered_by w provider ds : getAPIDCsFromSeedMap (seeds_of namespace w) = Ok ds ->
  (forall d, d ∈ filterDCsByProvider provider ds <-> offered w d /\ apidc_Provider (apidc_Spec d) = provider) /\
  NoDup (filterDCsByProvider provider ds).
Proof.
  intros [Hin Hnd]%all_offered. unfold filterDCsByProvider. split.
  - intros d. rewrite elem_of_List_filter, bool_decide_eq_true, Hin. tauto.
  - rewrite List_filter_filter. by apply NoDup_filter.
Qed.
Lemma offered_in w n s ds : seeds_of namespace w !! n = Some s -> getAPIDCsFromSeed s = Ok ds ->
  (forall d, d ∈ ds <-> offered w d /\ apidc_Seed (apidc_Spec d) = n) /\ NoDup ds.
Proof.
  intros Hs. pose proof (seeds_of_key namespace w _ _ Hs) as [Hn _].
  destruct (getAPIDCsFromSeed_spec s) as (ds' & -> & Hin & Hnd). intros [= <-].
  split; [|by eapply NoDup_fmap_1]. intros d. rewrite Hin. split.
  - intros Hd. split; [by exists n, s|]. destruct Hd as (dc & _ & Hd). by rewrite (Convert_seed _ _ _ Hd).
  - intros [(n' & s' & Hs' & Hd) Hn']. pose proof (seeds_of_key namespace w _ _ Hs') as [Hn2 _].
    assert (n' = n) as ->; [|congruence]. destruct Hd as (dc & _ & Hd). rewrite (Convert_seed _ _ _ Hd) in Hn'. congruence.
Qed.

Lemma seedMap_then {B} (k : list ApiDatacenter -> M W error B) w0 w (Q : result error B -> W -> Prop) :
  (forall ds, getAPIDCsFromSeedMap (seeds_of namespace w0) = Ok ds -> runs (k ds) w Q) ->
  runs (dcs ← lift (getAPIDCsFromSeedMap (seeds_of namespace w0)); k dcs) w Q.
Proof.
  intros Hk. do 2 runs_step. destruct (getAPIDCsFromSeedMap_spec w0) as (ds & E & _). rewrite E. by apply Hk.
Qed.

(** The endpoints of all datacenters and of those of a provider, by what they
    make of the list. *)
Lemma shown_anywhere {B} (f : list ApiDatacenter -> result error B) (R' : User -> B -> Prop) ctx w :
  (forall user l, shows_list w user (fun _ => True) l -> match f l with Ok b => R' user b | Err _ => True | Panic => False end) ->
  runs (seeds ← listSeedsOr500 seedsGetter; userInfo ← httpErr (UserInfoGetterFactory ctx "");
        dcs ← lift (getAPIDCsFromSeedMap seeds); dcs ← restrictedByEmail userInfo dcs; lift (f dcs)) w
    (fun r w' => same_store w w' /\
    match r with Ok b => exists user, ctx_UserCR ctx = Some user /\ R' user b | Err _ => True | Panic => False end).
Proof.
  intros Hf. apply seeds_then_user; [done|]. intros ui user w1 Hs Hc Hu. apply seedMap_then. intros ds [Hin Hnd]%all_offered.
  apply (restricted_then f R' ctx ui user (fun _ => True) ds w w1); try done; apply Hf.
Qed.
Lemma shown_by_provider {B} (f : list ApiDatacenter -> result error B) (R' : User -> B -> Prop) ctx provider w :
  (forall user l, shows_list w user (fun d => apidc_Provider (apidc_Spec d) = provider) l ->
     match f l with Ok b => R' user b | Err _ => True | Panic => False end) ->
  runs (seeds ← listSeedsOr500 seedsGetter; userInfo ← httpErr (UserInfoGetterFactory ctx "");
        dcs ← lift (getAPIDCsFromSeedMap seeds);
        dcs ← restrictedByEmail userInfo (filterDCsByProvider provider dcs); lift (f dcs)) w
    (fun r w' => same_store w w' /\
    match r with Ok b => exists user, ctx_UserCR ctx = Some user /\ R' user b | Err _ => True | Panic => False end).
Proof.
  intros Hf. apply seeds_then_user; [done|]. intros ui user w1 Hs Hc Hu. apply seedMap_then.
  intros ds [Hin Hnd]%(offered_by w provider).
  apply (restricted_then f R' ctx ui user (fun d => apidc_Provider (apidc_Spec d) = provider) _ w w1); try done; apply Hf.
Qed.

Lemma datacentersOfSeed_spec ctx seed w :
  lists_dcs (datacentersOfSeed seedsGetter UserInfoGetterFactory ctx seed) ctx (fun d => apidc_Seed (apidc_Spec d) = seed) w.
Proof.
  apply seeds_then_user; [done|]. intros ui user w1 Hs Hc Hu.
  destruct (seeds_of namespace w !! seed) as [s|] eqn:E; [|by runs_step].
  do 2 runs_step. destruct (getAPIDCsFromSeed_spec s) as (ds & Eds & _). rewrite Eds. cbn [andThen].
  destruct (offered_in w seed s ds E Eds) as [Hin Hnd].
  eapply runs_mono; [exact (restrictedByEmail_spec ui user _ ds w w1 Hu Hin Hnd)|]. cbn beta. intros [l|e|] w2 [-> Hl]; [|done|done].
  split; [done|]. by exists user.
Qed.

End datacenters_shown.
