(* ===== verification/DatacenterTable.v ===== *)
(** The changes of datacenters, proved: administrators make them, and over any
    sequence of requests the seeds are a table of datacenters. *)
From S2P Require Export DatacenterLists.
From Stdlib Require Import Ascii.

(** ** The table: for each seed, its datacenters by name *)

Abbreviation DcTable := (gmap string (gmap string Datacenter)).

Inductive DcRequest :=
| CreateDC (req : createDCReq)
| UpdateDC (req : updateDCReq)
| PatchDC (req : patchDCReq)
| DeleteDC (req : deleteDCReq).

Section dc_steps.
Context {EL : ErrorLib} {D : DatacenterSDK}.

(** The entry [old] becomes [d] under the name [new]; two spellings of a name
    are not told apart. *)
Definition dcs_renamed (old new : string) (dcs : gmap string Datacenter) : option (gmap string Datacenter) :=
  if EqualFold old new then Some dcs else
  match dcs !! new with Some _ => None | None => Some (delete old dcs) end.

(** The body is valid: it has one provider and names the seed of the path. *)
Definition valid_dc (req : createDCReq) : Prop := createDCReq_validate req = Ok tt.
#[export] Instance valid_dc_dec req : Decision (valid_dc req).
Proof. unfold valid_dc. apply _. Defined.

(** The datacenter that a patch makes of [currentDC]. *)
Definition dc_patched (currentDC : Datacenter) (req : patchDCReq) : result error ApiDatacenter :=
  current ← convertInternalDCToExternal currentDC (patchdc_DCToPatch req) (patchdc_Seed req);
  json ← marshalDatacenter current;
  json ← MergePatch json (patchdc_Patch req);
  patched ← unmarshalDatacenter json;
  _ ← validateProvider (apidc_Spec patched);
  provider ← DatacenterCloudProviderName (dc_Spec (convertExternalDCToInternal (apidc_Spec patched)));
  Ok (MkApiDatacenter (apidc_Name patched) (apidc_with_provider provider (apidc_Spec patched))).

(** What a request that succeeds makes of the table, and its answer. *)
Definition dc_step (t : DcTable) (req : DcRequest) : option (DcTable * option ApiDatacenter) :=
  match req with
  | CreateDC req =>
      let spec := createdc_Spec req in
      _ ← guard (valid_dc req);
      dcs ← t !! apidc_Seed spec;
      _ ← guard (dcs !! createdc_Name req = None);
      Some (<[apidc_Seed spec := <[createdc_Name req := convertExternalDCToInternal spec]> dcs]> t,
            Some (MkApiDatacenter (createdc_Name req) spec))
  | UpdateDC {| updatedc_create := req; updatedc_DCToUpdate := old |} =>
      let spec := createdc_Spec req in
      _ ← guard (valid_dc req);
      dcs ← t !! apidc_Seed spec;
      _ ← dcs !! old;
      dcs ← dcs_renamed old (createdc_Name req) dcs;
      Some (<[apidc_Seed spec := <[createdc_Name req := convertExternalDCToInternal spec]> dcs]> t,
            Some (MkApiDatacenter (createdc_Name req) spec))
  | PatchDC req =>
      let old := patchdc_DCToPatch req in
      _ ← guard (patchDCReq_validate req = Ok tt);
      dcs ← t !! patchdc_Seed req;
      currentDC ← dcs !! old;
      match dc_patched currentDC req with
      | Ok patched =>
          let new := if EqualFold old (apidc_Name patched) then old else apidc_Name patched in
          dcs ← dcs_renamed old (apidc_Name patched) dcs;
          Some (<[patchdc_Seed req := <[new := convertExternalDCToInternal (apidc_Spec patched)]> dcs]> t,
                Some patched)
      | _ => None
      end
  | DeleteDC req =>
      dcs ← t !! deletedc_Seed req;
      _ ← dcs !! deletedc_DC req;
      Some (<[deletedc_Seed req := delete (deletedc_DC req) dcs]> t, None)
  end.

(** Requests in a row: one of an administrator is a step of the table or fails,
    any other fails. *)
Inductive dc_steps : DcTable -> list (Ctx * DcRequest) -> list (result error (option ApiDatacenter)) -> DcTable -> Prop :=
| dc_steps_nil t : dc_steps t [] [] t
| dc_steps_ok t ctx req a t1 calls rs t2 :
    by_admin ctx -> dc_step t req = Some (t1, a) -> dc_steps t1 calls rs t2 ->
    dc_steps t ((ctx, req) :: calls) (Ok a :: rs) t2
| dc_steps_err t call e calls rs t2 :
    dc_steps t calls rs t2 -> dc_steps t (call :: calls) (Err e :: rs) t2.
End dc_steps.

(** ** The endpoints *)

Section serve_dcs.
Context {W : Type} {EL : ErrorLib} {P : SDK} {D : DatacenterSDK} {API : KubeAPI W}.
Variable seedsGetter : SeedsGetter W.
Variable userInfoGetter : UserInfoGetter W.

Definition serve_dc (call : Ctx * DcRequest) : M W error (option ApiDatacenter) :=
  match call.2 with
  | CreateDC req => d ← dc_CreateEndpoint seedsGetter userInfoGetter call.1 req; mret (Some d)
  | UpdateDC req => d ← dc_UpdateEndpoint seedsGetter userInfoGetter call.1 req; mret (Some d)
  | PatchDC req => d ← dc_PatchEndpoint seedsGetter userInfoGetter call.1 req; mret (Some d)
  | DeleteDC req => _ ← dc_DeleteEndpoint seedsGetter userInfoGetter call.1 req; mret None
  end.

Fixpoint serve_dcs (calls : list (Ctx * DcRequest)) (w : W) : list (result error (option ApiDatacenter)) * W :=
  match calls with
  | [] => ([], w)
  | call :: calls =>
      let '(r, w1) := serve_dc call w in
      let '(rs, w2) := serve_dcs calls w1 in
      (r :: rs, w2)
  end.
End serve_dcs.

Section dc_refinement.
Context {W : Type} {EL : ErrorLib} {ELL : ErrorLibLaws EL} {P : SDK} {D : DatacenterSDK} {DL : DatacenterSDKLaws D}
        {API : KubeAPI W} {ST : Store W} {LAWS : KubeAPILaws W}
        {MAPPER : ProjectMemberMapper W} {MAPL : ProjectMemberMapperLaws W}.
Variable namespace : string.
Variable seedsGetter : SeedsGetter W.
Context {SGL : SeedsGetterLaws W namespace seedsGetter}.
Implicit Types w : W.

Definition dcs_of w : DcTable := (fun s => seedspec_Datacenters (seed_Spec s)) <$> seeds_of namespace w.

(** Nothing but the datacenters of the seeds of the namespace has changed. *)
Definition only_dcs w w' : Prop :=
  same_except KSeed w w' /\
  forall n, option_Forall2 (fun s s' =>
      seed_Spec s' = seedspec_with_datacenters (seedspec_Datacenters (seed_Spec s')) (seed_Spec s))
    (seeds_of namespace w !! n) (seeds_of namespace w' !! n).

#[export] Instance dcs_of_proper : Proper (same_store ==> eq) dcs_of.
Proof. intros w w' Hw. unfold dcs_of. by rewrite Hw. Qed.

Lemma seedspec_with_own s : s = seedspec_with_datacenters (seedspec_Datacenters s) s.
Proof. by destruct s. Qed.

#[export] Instance only_dcs_preorder : PreOrder only_dcs.
Proof.
  split.
  - intros w. split; [done|]. intros n. destruct (seeds_of namespace w !! n); constructor. apply seedspec_with_own.
  - intros w1 w2 w3 [E1 H1] [E2 H2]. split; [by intros k Hk; rewrite E1, E2|]. intros n.
    specialize (H1 n). specialize (H2 n). destruct H1 as [s1 s2 H1|]; inversion H2 as [? s3 H3|]; subst; constructor.
    by rewrite H3, H1.
Qed.

Lemma same_only_dcs w w' : same_store w w' -> only_dcs w w'.
Proof.
  intros Hs. split; [by apply same_store_except|]. intros n. rewrite <- Hs.
  destruct (seeds_of namespace w !! n); constructor. apply seedspec_with_own.
Qed.

(** The update of a seed that the getter has answered. *)
Lemma updateDatacenters_spec what s n dcs w :
  seeds_of namespace w !! n = Some s ->
  runs (updateDatacenters what s dcs) w (fun r w' =>
    match r with
    | Ok _ => dcs_of w' = <[n := dcs]> (dcs_of w) /\ only_dcs w w'
    | Err _ => same_store w w'
    | Panic => False
    end).
Proof.
  intros Hs. apply runs_mapErr. eapply runs_mono; [apply (kupdate_spec KSeed)|]. cbn beta.
  intros [s'|e|] w'; [|done|done]. intros (_ & Hst & (_ & Hv & He) & _).
  pose proof (strip_key _ _ _ Hst) as Hk. apply strip_seed in Hst.
  destruct (seeds_of_key namespace w _ _ Hs) as [Hn Hkey].
  assert (seed_Name s' = n /\ meta_Namespace (seed_meta s') = namespace) as [Hn' Hns'].
  { change (key_of KSeed (seed_with_spec (seedspec_with_datacenters dcs (seed_Spec s)) s)) with (key_of KSeed s) in Hk.
    rewrite Hkey in Hk. unfold key_of in Hk. cbn in Hk. injection Hk as -> Hk. unfold seed_Name at 1. by rewrite Hk. }
  pose proof (seeds_of_written namespace w w' s' Hns' Hv) as Hw. rewrite Hn' in Hw. split.
  - unfold dcs_of. rewrite Hw, fmap_insert. by rewrite Hst.
  - split; [done|]. intros i. rewrite Hw. destruct (decide (i = n)) as [->|Hne].
    + rewrite lookup_insert_eq, Hs. constructor. by rewrite Hst.
    + rewrite lookup_insert_ne by done. destruct (seeds_of namespace w !! i); constructor. apply seedspec_with_own.
Qed.

Lemma validateUser_spec ctx w :
  runs (validateUser UserInfoGetterFactory ctx) w (fun r w' => same_store w w' /\
    match r with Ok _ => by_admin ctx | Err _ => True | Panic => False end).
Proof.
  unfold validateUser. plain_call requester_spec. intros r w1 [Hs Hu].
  destruct r as [ui|e|]; cbn [andThen]; [|done|done]. destruct Hu as (user & Hc & _ & Ha).
  runs_step; [done|]. split; [done|]. exists user. split; [done|]. rewrite <- Ha. by apply negb_false_iff.
Qed.

Lemma lookup_dcs_of w n s : seeds_of namespace w !! n = Some s -> dcs_of w !! n = Some (seedspec_Datacenters (seed_Spec s)).
Proof. intros H. unfold dcs_of. by rewrite lookup_fmap, H. Qed.

(** What the four endpoints do after their validation: the administrator, the
    seed, then [k] with the seed. *)
Lemma seed_of_admin {A} ctx n (k : Seed -> M W error A) w (Q : result error A -> W -> Prop) :
  (forall e w', same_store w w' -> Q (Err e) w') ->
  (forall s w', same_store w w' -> by_admin ctx -> seeds_of namespace w' !! n = Some s ->
     dcs_of w !! n = Some (seedspec_Datacenters (seed_Spec s)) -> runs (k s) w' Q) ->
  runs (_ ← validateUser UserInfoGetterFactory ctx; seeds ← listSeedsOr500 seedsGetter;
        seed ← seedOr400 seeds n; k seed) w Q.
Proof.
  intros He Hk. plain_call validateUser_spec. intros r w1 [Hs Ha]. destruct r as [[]|e|]; cbn [andThen]; [|by apply He|done].
  plain_call (listSeedsOr500_spec namespace seedsGetter). intros r w2 [Hs2 Hm]. assert (same_store w w2) as Hs' by (by etrans).
  destruct r as [m|e|]; cbn [andThen]; [subst m|by apply He|done]. runs_step. unfold seedOr400.
  destruct (seeds_of namespace w1 !! n) as [s|] eqn:E; runs_step; cbn [andThen]; [|by apply He].
  apply Hk; [done|done|by rewrite <- Hs2|]. rewrite Hs. by apply lookup_dcs_of.
Qed.

Definition dc_effect ctx (req : DcRequest) w (r : result error (option ApiDatacenter)) w' : Prop :=
  match r with
  | Ok a => by_admin ctx /\ dc_step (dcs_of w) req = Some (dcs_of w', a) /\ only_dcs w w'
  | Err _ => same_store w w'
  | Panic => False
  end.

(** The end of an endpoint: the update, then the answer. *)
Lemma update_then ctx req what s n dcs (a : option ApiDatacenter) w w1 :
  same_store w w1 -> by_admin ctx -> seeds_of namespace w1 !! n = Some s ->
  dc_step (dcs_of w) req = Some (<[n := dcs]> (dcs_of w), a) ->
  runs (updateDatacenters what s dcs) w1 (fun r w' =>
    match r with Ok _ => dc_effect ctx req w (Ok a) w' | Err e => dc_effect ctx req w (Err e) w' | Panic => False end).
Proof.
  intros Hs Ha Hseed Hstep. eapply runs_mono; [by apply updateDatacenters_spec|]. cbn beta.
  unfold dc_effect. intros [s'|e|] w'; [|by intros; etrans|done]. intros [Hd Ho]. rewrite Hd, <- Hs.
  split_and!; [done|done|]. etrans; [by apply same_only_dcs|done].
Qed.

Lemma createDCReq_validate_no_panic req : createDCReq_validate req <> Panic.
Proof.
  unfold createDCReq_validate, validateProvider, GetProviderName.
  destruct (dcProviderNames _) as [|? [|? ?]]; cbn; try done. by destruct (negb _).
Qed.

Lemma validatedBody_spec req w (Q : result error unit -> W -> Prop) :
  (forall e, Q (Err e) w) -> (valid_dc req -> Q (Ok tt) w) -> runs (validatedBody req) w Q.
Proof.
  intros He Hok. unfold validatedBody. do 2 runs_step. pose proof (createDCReq_validate_no_panic req).
  unfold valid_dc in Hok. by destruct (createDCReq_validate req) as [[]|e|]; auto.
Qed.

Lemma answer_then {A} ctx req (f : A -> option ApiDatacenter) (m : M W error A) w w1 :
  runs m w1 (fun r w' => dc_effect ctx req w (result_map f r) w') ->
  runs (d ← m; mret (f d)) w1 (dc_effect ctx req w).
Proof. intros H. apply runs_bind. eapply runs_mono; [exact H|]. cbn beta. by intros [a|e|] w'. Qed.

Lemma create_effect ctx req w :
  runs (serve_dc seedsGetter UserInfoGetterFactory (ctx, CreateDC req)) w (dc_effect ctx (CreateDC req) w).
Proof.
  apply answer_then. unfold dc_CreateEndpoint. cbn [fst snd]. runs_step. apply validatedBody_spec; [done|].
  intros Hv. cbn [andThen]. apply seed_of_admin; [done|]. intros s w1 Hs Ha Hseed Hd. runs_guard; [done|].
  apply bool_decide_eq_false in H. runs_step. eapply runs_mono; [eapply (update_then ctx (CreateDC req)); try done|].
  - cbn [dc_step]. rewrite option_guard_True by done. cbn -[insert dcs_of]. rewrite Hd. cbn -[insert dcs_of].
    rewrite option_guard_True by (by apply eq_None_not_Some). reflexivity.
  - cbn beta. intros [s'|e|] w' H'; cbn [andThen]; [by runs_step|done|done].
Qed.

Lemma renameDatacenter_spec old new dcs w (Q : result error (gmap string Datacenter) -> W -> Prop) :
  (forall e, Q (Err e) w) -> (forall dcs', dcs_renamed old new dcs = Some dcs' -> Q (Ok dcs') w) ->
  runs (renameDatacenter old new dcs) w Q.
Proof.
  intros He Hok. unfold renameDatacenter. unfold dcs_renamed in Hok. destruct (EqualFold old new).
  { runs_step. by apply Hok. }
  runs_guard; [done|]. runs_step. apply bool_decide_eq_false in H. apply Hok.
  by destruct (dcs !! new) eqn:E; [destruct H|].
Qed.

Lemma update_effect ctx req w :
  runs (serve_dc seedsGetter UserInfoGetterFactory (ctx, UpdateDC req)) w (dc_effect ctx (UpdateDC req) w).
Proof.
  destruct req as [req old]. apply answer_then. unfold dc_UpdateEndpoint. cbn [fst snd updatedc_create updatedc_DCToUpdate].
  runs_step. apply validatedBody_spec; [done|].
  intros Hv. cbn [andThen]. apply seed_of_admin; [done|]. intros s w1 Hs Ha Hseed Hd. runs_guard; [done|].
  apply bool_decide_eq_false in H. destruct (_ !! old) as [cur|] eqn:Eold; [|done].
  runs_step. apply renameDatacenter_spec; [done|]. intros dcs Hren. cbn [andThen].
  runs_step. eapply runs_mono; [eapply (update_then ctx (UpdateDC (MkUpdateDCReq req old))); try done|].
  - cbn [dc_step]. rewrite option_guard_True by done. cbn -[insert dcs_of dcs_renamed]. rewrite Hd.
    cbn -[insert dcs_of dcs_renamed]. rewrite Eold. cbn -[insert dcs_of dcs_renamed]. rewrite Hren. reflexivity.
  - cbn beta. intros [s'|e|] w' H'; cbn [andThen]; [by runs_step|done|done].
Qed.

Lemma delete_effect ctx req w :
  runs (serve_dc seedsGetter UserInfoGetterFactory (ctx, DeleteDC req)) w (dc_effect ctx (DeleteDC req) w).
Proof.
  apply answer_then. unfold dc_DeleteEndpoint. cbn [fst snd]. apply seed_of_admin; [done|].
  intros s w1 Hs Ha Hseed Hd. runs_guard; [done|].
  apply bool_decide_eq_false in H. destruct (_ !! deletedc_DC req) as [cur|] eqn:Eold; [|done].
  runs_step. eapply runs_mono; [eapply (update_then ctx (DeleteDC req)); try done|].
  - cbn [dc_step]. rewrite Hd. cbn -[insert dcs_of delete]. rewrite Eold. reflexivity.
  - cbn beta. intros [s'|e|] w' H'; cbn [andThen]; [by runs_step|done|done].
Qed.

Lemma orStatus_spec {A} code what (r : result error A) w (Q : result error A -> W -> Prop) :
  r <> Panic -> (forall e, Q (Err e) w) -> (forall a, r = Ok a -> Q (Ok a) w) -> runs (orStatus code what r) w Q.
Proof. intros Hp He Hok. unfold orStatus. do 2 runs_step. destruct r as [a|e|]; [by apply Hok|apply He|done]. Qed.

Lemma patchDCReq_validate_no_panic req : patchDCReq_validate req <> Panic.
Proof.
  unfold patchDCReq_validate, unmarshalSeedValidator.
  destruct (_ ≫= _); [|done]. by destruct (_ && _).
Qed.

Lemma validateProvider_no_panic spec : validateProvider spec <> Panic.
Proof. unfold validateProvider, GetProviderName. by destruct (dcProviderNames spec) as [|? [|? ?]]. Qed.

Lemma patchedDatacenter_spec cur req w (Q : result error ApiDatacenter -> W -> Prop) :
  (forall e, Q (Err e) w) ->
  (forall current json json' patched,
     convertInternalDCToExternal cur (patchdc_DCToPatch req) (patchdc_Seed req) = Ok current ->
     marshalDatacenter current = Ok json -> MergePatch json (patchdc_Patch req) = Ok json' ->
     unmarshalDatacenter json' = Ok patched -> Q (Ok patched) w) ->
  runs (patchedDatacenter cur req) w Q.
Proof.
  intros He Hok. unfold patchedDatacenter. pose proof Convert_no_panic as Hc.
  runs_step. apply orStatus_spec; [|done|].
  { unfold convertInternalDCToExternal. specialize (Hc cur (patchdc_Seed req)). by destruct (ConvertInternalDCToExternalSpec _ _). }
  intros current H1. cbn [andThen]. runs_step. apply orStatus_spec; [apply marshalDatacenter_panic|done|].
  intros json H2. cbn [andThen]. runs_step. apply orStatus_spec; [apply MergePatch_panic|done|].
  intros json' H3. cbn [andThen]. apply orStatus_spec; [apply unmarshalDatacenter_panic|done|].
  intros patched H4. by eapply Hok.
Qed.

Lemma dc_patched_ok cur req current json json' patched provider :
  convertInternalDCToExternal cur (patchdc_DCToPatch req) (patchdc_Seed req) = Ok current ->
  marshalDatacenter current = Ok json -> MergePatch json (patchdc_Patch req) = Ok json' ->
  unmarshalDatacenter json' = Ok patched -> validateProvider (apidc_Spec patched) = Ok tt ->
  DatacenterCloudProviderName (dc_Spec (convertExternalDCToInternal (apidc_Spec patched))) = Ok provider ->
  dc_patched cur req = Ok (MkApiDatacenter (apidc_Name patched) (apidc_with_provider provider (apidc_Spec patched))).
Proof.
  intros H1 H2 H3 H4 H5 H6. unfold dc_patched, mbind, result_bind. rewrite H1. cbv beta iota. rewrite H2. cbv beta iota.
  rewrite H3. cbv beta iota. rewrite H4. cbv beta iota. rewrite H5. cbv beta iota. by rewrite H6.
Qed.

Lemma patch_effect ctx req w :
  runs (serve_dc seedsGetter UserInfoGetterFactory (ctx, PatchDC req)) w (dc_effect ctx (PatchDC req) w).
Proof.
  apply answer_then. unfold dc_PatchEndpoint. cbn [fst snd]. do 2 runs_step.
  pose proof (patchDCReq_validate_no_panic req) as Hp.
  destruct (patchDCReq_validate req) as [[]|e|] eqn:Ev; cbn [andThen]; [|done|done].
  apply seed_of_admin; [done|]. intros s w1 Hs Ha Hseed Hd.
  destruct (_ !! patchdc_DCToPatch req) as [cur|] eqn:Eold; [|by runs_step].
  runs_step. apply patchedDatacenter_spec; [done|]. intros current json json' patched H1 H2 H3 H4. cbn [andThen].
  runs_step. apply orStatus_spec; [apply validateProvider_no_panic|done|]. intros [] H5. cbn [andThen].
  runs_step. apply orStatus_spec; [apply DatacenterCloudProviderName_panic|done|]. intros provider H6. cbn [andThen apidc_Name].
  runs_step. apply renameDatacenter_spec; [done|]. intros dcs Hren. cbn [andThen].
  runs_step. eapply runs_mono; [eapply (update_then ctx (PatchDC req)); try done|].
  - cbn [dc_step]. rewrite option_guard_True by done. cbn -[insert dcs_of dcs_renamed dc_patched]. rewrite Hd.
    cbn -[insert dcs_of dcs_renamed dc_patched]. rewrite Eold. cbn -[insert dcs_of dcs_renamed dc_patched].
    rewrite (dc_patched_ok _ _ _ _ _ _ _ H1 H2 H3 H4 H5 H6).
    cbn -[insert dcs_of dcs_renamed convertExternalDCToInternal]. rewrite Hren. reflexivity.
  - cbn beta. intros [s'|e|] w' H'; cbn [andThen]; [by runs_step|done|done].
Qed.

End dc_refinement.

(** ** The conversions *)

Section dc_conversions.
Context {EL : ErrorLib} {D : DatacenterSDK}.

(** The stored datacenter without what the API does not write. *)
Definition dc_rewritten (dc : Datacenter) : Datacenter :=
  let s := dc_Spec dc in
  MkDatacenter (dc_Country dc) (dc_Location dc) (Some (default noNodeSettings (dc_Node dc)))
    (MkDatacenterSpec (dcspec_Digitalocean s) (dcspec_BringYourOwn s) None (dcspec_AWS s) (dcspec_Azure s) (dcspec_Edge s)
       (dcspec_Openstack s) (dcspec_GCP s) (dcspec_Hetzner s) (dcspec_VSphere s) (dcspec_Kubevirt s) (dcspec_Alibaba s)
       (dcspec_Anexia s) (dcspec_Nutanix s) (dcspec_VMwareCloudDirector s) (dcspec_Fake s) (dcspec_RequiredEmails s)
       (dcspec_EnforceAuditLogging s) (dcspec_EnforcedAuditWebhookSettings s) (dcspec_EnforcePodSecurityPolicy s) ∅
       (dcspec_MachineFlavorFilter s) false None).

(** Writing back what was read keeps a stored datacenter, but for its bare-metal
    settings, its operating system profiles, the switch of the CSI driver and the
    KubeLB settings, which are lost: the round trip through the API is the
    identity exactly on the datacenters that have none of the four (and node
    settings). *)
Theorem datacenter_roundtrip dc seedName spec :
  ConvertInternalDCToExternalSpec dc seedName = Ok spec ->
  convertExternalDCToInternal spec = dc_rewritten dc /\
  (convertExternalDCToInternal spec = dc <->
   is_Some (dc_Node dc) /\ dcspec_Baremetal (dc_Spec dc) = None /\
   dcspec_DefaultOperatingSystemProfiles (dc_Spec dc) = ∅ /\ dcspec_DisableCSIDriver (dc_Spec dc) = false /\
   dcspec_KubeLB (dc_Spec dc) = None).
Proof.
  unfold ConvertInternalDCToExternalSpec. destruct (DatacenterCloudProviderName _) as [p|e|]; [|done|done].
  intros [= <-]. destruct dc as [country location node []]. split; [done|].
  cbn. split.
  - intros [= <- -> -> -> ->]. by split_and!.
  - intros ([n ->] & -> & -> & -> & ->). done.
Qed.

End dc_conversions.

(** ** Witnesses: two seeds, two datacenters *)

#[local] Existing Instances refRange refRange_laws.

Definition noProviders : DatacenterSpec :=
  MkDatacenterSpec None None None None None None None None None None None None None None None None
    [] false None false ∅ None false None.
Definition refCloudProviderName (s : DatacenterSpec) : result error string :=
  match given (dcspec_Hetzner s) "hetzner" ++ given (dcspec_AWS s) "aws" ++ given (dcspec_Fake s) "fake" ++
        given (dcspec_Baremetal s) "baremetal" with
  | [] => Ok ""
  | [name] => Ok name
  | _ => Err (ENew "only one cloud provider can be set")
  end.
(** A mail address fits a requirement that is its domain. *)
Definition refMatches (mail : string) (l : list string) : result error bool :=
  Ok (match l with [] => true | _ => existsb (fun d => bool_decide (Split mail "@"%char !! 1%nat = Some d)) l end).

(** The JSON of a datacenter, as far as the witness patches one: the patch is the
    JSON that it makes. *)
Definition hetznerSpec (seed : string) : ApiDatacenterSpec :=
  MkApiDatacenterSpec seed "DE" "" "" None None None None None None None None (Some "{}") None None None None None None None
    "{}" [] false None false false ∅ None false None.
#[export] Instance refDatacenterSDK : DatacenterSDK := {|
  Alibaba_provider := "alibaba"; BringYourOwn_provider := "bringyourown"; Digitalocean_provider := "digitalocean";
  AWS_provider := "aws"; Openstack_provider := "openstack"; Hetzner_provider := "hetzner"; VSphere_provider := "vsphere";
  Baremetal_provider := "baremetal"; Azure_provider := "azure"; Edge_provider := "edge"; GCP_provider := "gcp";
  Kubevirt_provider := "kubevirt"; Anexia_provider := "anexia"; Nutanix_provider := "nutanix";
  VMwareCloudDirector_provider := "vmwareclouddirector"; Fake_provider := "fake";
  noNodeSettings := "{}";
  DatacenterCloudProviderName := refCloudProviderName;
  IsIPv6Enabled _ _ := false;
  MatchesRequirements := refMatches;
  marshalDatacenter _ := Ok "{}";
  MergePatch _ patch := Ok patch;
  unmarshalDatacenter _ := Ok (MkApiDatacenter "FRA" (hetznerSpec "eu")) |}.
#[export] Instance refDatacenterSDK_laws : DatacenterSDKLaws refDatacenterSDK.
Proof.
  split; try done. intros s. cbn. unfold refCloudProviderName. by destruct (_ ++ _) as [|? [|? ?]].
Qed.

(** fra is open to everybody, ams to the users of example.org. *)
Definition fra : Datacenter := convertExternalDCToInternal (hetznerSpec "eu").
Definition ams : Datacenter :=
  MkDatacenter "NL" "Amsterdam" None
    (MkDatacenterSpec None None None (Some "{}") None None None None None None None None None None None None
       ["example.org"] false None false ∅ None true (Some "{}")).
Definition seedWith (name : string) (dcs : gmap string Datacenter) : Seed :=
  MkSeed (meta_with_namespace "kubermatic" (metaNamed name)) (seedspec_with_datacenters dcs emptySeedSpec) "Healthy".
Definition seedWorld : Mem :=
  mem_of (fun k => match k return list (obj k) with
    | KUser => [alice; bob]
    | KSeed => [seedWith "eu" {[ "fra" := fra; "ams" := ams ]}; seedWith "us" {[ "nyc" := fra ]}]
    | _ => []
    end) 1000000000000%Z [] (fun _ _ _ _ => true).
Definition seedGetter : SeedsGetter Mem := ee_SeedsGetterFactory "kubermatic".

Definition dcCalls : list (Ctx * DcRequest) :=
  [(bobCtx, DeleteDC (MkDeleteDCReq "eu" "fra"));
   (aliceCtx, CreateDC (MkCreateDCReq "eu" "hel" (hetznerSpec "eu")));
   (aliceCtx, CreateDC (MkCreateDCReq "eu" "fra" (hetznerSpec "eu")));
   (aliceCtx, UpdateDC (MkUpdateDCReq (MkCreateDCReq "us" "bos" (hetznerSpec "us")) "nyc"));
   (aliceCtx, DeleteDC (MkDeleteDCReq "eu" "ams"))].



(** ams loses the KubeLB settings and its switch of the CSI driver. *)
Lemma datacenter_roundtrip_witness :
  exists spec, ConvertInternalDCToExternalSpec ams "eu" = Ok spec /\
    apidc_KubeLB spec = Some "{}" /\ convertExternalDCToInternal spec <> ams /\
    dcspec_KubeLB (dc_Spec (convertExternalDCToInternal spec)) = None.
Proof.
  destruct (ConvertInternalDCToExternalSpec ams "eu") as [spec|e|] eqn:E; [|vm_compute in E; discriminate E..].
  exists spec. split; [done|]. destruct (datacenter_roundtrip ams "eu" spec E) as [H1 H2].
  vm_compute in E. injection E as <-. split; [done|]. split; [|by rewrite H1].
  intros H. apply H2 in H as (_ & _ & _ & Hcsi & _). discriminate Hcsi.
Defined.

(** *** What the endpoints do besides *)

(** A bare-metal datacenter passes the validation and is stored without its
    provider. *)
Definition bareSpec : ApiDatacenterSpec :=
  MkApiDatacenterSpec "eu" "DE" "" "" None None (Some "{}") None None None None None None None None None None None None None
    "{}" [] false None false false ∅ None false None.
Example baremetal_stored_without_provider :
  let run := dc_CreateEndpoint seedGetter UserInfoGetterFactory aliceCtx (MkCreateDCReq "eu" "metal" bareSpec) seedWorld in
  is_ok run.1 = true /\ GetProviderName bareSpec = Ok "baremetal" /\
  option_map (fun d => DatacenterCloudProviderName (dc_Spec d)) (dcs_of "kubermatic" run.2 !! "eu" ≫= (.!! "metal")) = Some (Ok "").
Proof. vm_compute. done. Qed.

(** A name that another seed uses is taken again, and from then on the datacenter
    is found by no lookup of its name. *)
Example name_of_other_seed_taken :
  let run := dc_CreateEndpoint seedGetter UserInfoGetterFactory aliceCtx (MkCreateDCReq "eu" "nyc" (hetznerSpec "eu")) seedWorld in
  is_ok run.1 = true /\
  is_ok (dc_GetEndpoint seedGetter UserInfoGetterFactory aliceCtx "nyc" seedWorld).1 = true /\
  is_ok (dc_GetEndpoint seedGetter UserInfoGetterFactory aliceCtx "nyc" run.2).1 = false.
Proof. vm_compute. done. Qed.

(** A new spelling of the name adds an entry next to the old one (update), or is
    answered and not stored (patch). *)
Example respelled_twice :
  let run := dc_UpdateEndpoint seedGetter UserInfoGetterFactory aliceCtx
    (MkUpdateDCReq (MkCreateDCReq "eu" "FRA" (hetznerSpec "eu")) "fra") seedWorld in
  is_ok run.1 = true /\
  option_map (fun t => (map_to_list t).*1) (dcs_of "kubermatic" run.2 !! "eu") = Some ["ams"; "fra"; "FRA"].
Proof. vm_compute. done. Qed.
Example respelled_not_stored :
  let run := dc_PatchEndpoint seedGetter UserInfoGetterFactory aliceCtx (MkPatchDCReq "{}" "fra" "eu") seedWorld in
  result_map apidc_Name run.1 = Ok "FRA" /\
  option_map (fun t => (map_to_list t).*1) (dcs_of "kubermatic" run.2 !! "eu") = Some ["ams"; "fra"].
Proof. vm_compute. done. Qed.
