(* ===== verification/SeedRequests.v ===== *)
(** The requests about seeds, proved: administrators alone see and change them,
    and a request does what it says or leaves the seeds alone. *)
From S2P Require Export DatacenterTable SeedAdmin.

(** ** What the provider of seeds promises *)

Section seed_contract.
Context {W : Type} {EL : ErrorLib} {P : SDK} {API : KubeAPI W} {ST : Store W}.
Implicit Types w : W.

(** Nothing but the secret [n] has changed. *)
Definition only_secret (n : key) w w' : Prop :=
  same_except KSecret w w' /\ forall n', n' <> n -> view KSecret w' !! n' = view KSecret w !! n'.
Definition kubeconfig_key (s : Seed) : key := (meta_Namespace (seed_meta s), "kubeconfig-" +:+ seed_Name s).
(** The seed that refers to its kubeconfig secret. *)
Definition with_kubeconfig_ref (s : Seed) : Seed :=
  seed_with_spec (seedspec_with_kubeconfig
    (MkObjectReference "Secret" (kubeconfig_key s).1 (kubeconfig_key s).2 "" "" "" "") (seed_Spec s)) s.
Definition kubeconfig_stored `{SeedSDK} w (s : Seed) (config : string) : Prop :=
  exists secret, view KSecret w !! kubeconfig_key s = Some secret /\
    secret_Data secret = Some {[ KubeconfigSecretKey := config ]}.

Lemma same_only_secret n w w' : same_store w w' -> only_secret n w w'.
Proof. intros Hs. split; [by apply same_store_except|]. intros n' _. by rewrite <- Hs. Qed.
Lemma only_secret_trans n w1 w2 w3 : only_secret n w1 w2 -> only_secret n w2 w3 -> only_secret n w1 w3.
Proof. intros [E1 H1] [E2 H2]. split; [intros k Hk; by rewrite E1, E2|]. intros n' Hn. by rewrite H2, H1. Qed.
End seed_contract.

(** reconciling.ReconcileSecrets: it leaves the secret as the function wants it. *)
Class SecretReconcilerLaws (W : Type) {ST : Store W} {RS : SecretReconciler W} : Prop :=
  ReconcileSecret_spec ns name f w : (forall s, key_of KSecret (f s) = key_of KSecret s) ->
    runs (ReconcileSecret ns name f) w (fun r w' => only_secret (ns, name) w w' /\
      match r with
      | Ok _ => exists s0 s, view KSecret w' !! (ns, name) = Some s /\ strip KSecret s = strip KSecret (f s0)
      | Err _ => True
      | Panic => False
      end).

Class SeedProviderLaws (W : Type) {ST : Store W} {SS : SeedSDK} {SEEDS : SeedProvider W} : Prop := {
  seeds_UpdateUnsecured_spec s w : runs (seeds_UpdateUnsecured s) w (fun r w' =>
    match r with
    | Ok s' => strip KSeed s' = strip KSeed s /\ updated KSeed w w' s'
    | Err _ => same_store w w'
    | Panic => False
    end);
  seeds_CreateUnsecured_spec s w : runs (seeds_CreateUnsecured s) w (fun r w' =>
    match r with
    | Ok s' => strip KSeed s' = strip KSeed s /\ created KSeed w w' s'
    | Err _ => same_store w w'
    | Panic => False
    end);
  seeds_kubeconfig_spec s config w : runs (seeds_CreateOrUpdateKubeconfigSecretForSeed s config) w (fun r w' =>
    only_secret (kubeconfig_key s) w w' /\
    match r with
    | Ok s' => s' = with_kubeconfig_ref s /\ kubeconfig_stored w' s config
    | Err _ => True
    | Panic => False
    end) }.

Section seed_provider_proofs.
Context {W : Type} {EL : ErrorLib} {P : SDK} {API : KubeAPI W} {ST : Store W} {LAWS : KubeAPILaws W}
        {SS : SeedSDK} {RS : SecretReconciler W} {RSL : SecretReconcilerLaws W}.
Implicit Types w : W.

#[export] Instance kubernetesSeedProvider_laws : SeedProviderLaws W.
Proof.
  split; cbn [seeds_UpdateUnsecured seeds_CreateUnsecured seeds_CreateOrUpdateKubeconfigSecretForSeed kubernetesSeedProvider].
  - intros s w. eapply runs_mono; [apply (kupdate_spec KSeed)|]. cbn beta.
    intros [s'|e|] w'; [|done|done]. by intros (_ & Hst & Hup & _).
  - intros s w. eapply runs_mono; [apply (kcreate_spec KSeed)|]. cbn beta.
    intros [s'|e|] w'; [|by intros [H _]|done]. by intros (_ & Hst & Hcr).
  - intros s config w. unfold CreateOrUpdateKubeconfigSecretForSeed, ensureKubeconfigSecret. do 2 runs_step.
    eapply runs_mono; [by apply ReconcileSecret_spec|]. cbn beta. intros [[]|e|] w' [Ho Hr]; cbn [andThen]; [|done|done].
    runs_step. cbn [andThen]. runs_step. split; [done|]. split; [done|]. destruct Hr as (s0 & x & Hx & Hst).
    exists x. split; [done|]. by apply strip_secret in Hst as [-> _].
Qed.
End seed_provider_proofs.

(** ** All requests *)

Inductive SeedRequest :=
| ListSeeds
| GetSeed (name : string)
| GetSeedSettings (name : string)
| CreateSeed (req : createSeedReq)
| UpdateSeed (req : updateSeedReq)
| DeleteSeed (name : string)
| DeleteDestination (name destination : string).

Inductive SeedAnswer :=
| SeedsAnswer (l : list ApiSeed)
| SeedAnswer1 (s : ApiSeed)
| SettingsAnswer (s : SeedSettings)
| SeedDone.

Section seed_requests.
Context {W : Type} {EL : ErrorLib} {P : SDK} {D : DatacenterSDK} {R : MapRange} {C : SeedCodec}
        {API : KubeAPI W} {SEEDS : SeedProvider W}.
Variable seedsGetter : SeedsGetter W.
Variable userInfoGetter : UserInfoGetter W.

Definition serve_seed (call : Ctx * SeedRequest) : M W error SeedAnswer :=
  let ctx := call.1 in
  match call.2 with
  | ListSeeds => l ← ListSeedEndpoint seedsGetter userInfoGetter ctx; mret (SeedsAnswer l)
  | GetSeed name => s ← GetSeedEndpoint seedsGetter userInfoGetter ctx name; mret (SeedAnswer1 s)
  | GetSeedSettings name => s ← GetSeedSettingsEndpoint seedsGetter name; mret (SettingsAnswer s)
  | CreateSeed req => s ← CreateSeedEndpoint seedsGetter userInfoGetter ctx req; mret (SeedAnswer1 s)
  | UpdateSeed req => s ← UpdateSeedEndpoint seedsGetter userInfoGetter ctx req; mret (SeedAnswer1 s)
  | DeleteSeed name => _ ← DeleteSeedEndpoint seedsGetter userInfoGetter ctx name; mret SeedDone
  | DeleteDestination name destination =>
      _ ← DeleteBackupDestinationEndpoint seedsGetter userInfoGetter ctx name destination; mret SeedDone
  end.
End seed_requests.

Section seed_effects.
Context {W : Type} {EL : ErrorLib} {ELL : ErrorLibLaws EL} {P : SDK} {D : DatacenterSDK} {DL : DatacenterSDKLaws D}
        {R : MapRange} {RL : MapRangeLaws R} {C : SeedCodec} {CL : SeedCodecLaws C} {SS : SeedSDK}
        {API : KubeAPI W} {ST : Store W} {LAWS : KubeAPILaws W} {SEEDS : SeedProvider W} {SL : SeedProviderLaws W}
        {MAPPER : ProjectMemberMapper W} {MAPL : ProjectMemberMapperLaws W}.
Variable seedsGetter : SeedsGetter W.
Context {SGL : SeedsGetterLaws W KubermaticNamespace seedsGetter}.
Implicit Types w : W.
Abbreviation seeds := (seeds_of KubermaticNamespace).

(** The seed as the API shows it: every datacenter whose provider has a name. *)
Definition shows_seed (name : string) (spec : SeedSpec) (a : ApiSeed) : Prop :=
  apiseed_Name a = name /\ convertSeedSpec spec name = Ok (apiseed_Spec a).

(** The seed [name] has the spec [spec] afterwards, no other seed has changed. *)
Definition seed_written w w' (name : string) (spec : SeedSpec) : Prop :=
  exists s, seeds w' = <[name := s]> (seeds w) /\ seed_Spec s = spec.

(** What an update makes of the stored seed. *)
Definition seed_patched (s : Seed) (req : updateSeedReq) (spec : SeedSpec) : Prop :=
  let s' := if is_empty (updateseed_RawKubeconfig req) then s else with_kubeconfig_ref s in
  exists stored j1 j2 j3, clearDestination (updateseed_Spec req) (seed_Spec s') = Ok stored /\
    marshalSeedSpec stored = Ok j1 /\ marshalSeedSpec (updateseed_Spec req) = Ok j2 /\
    MergePatch j1 j2 = Ok j3 /\ unmarshalSeedSpec j3 = Ok (Some spec).

(** The new kubeconfig, if the request brings one. *)
Definition new_kubeconfig w (s : Seed) (raw : string) : Prop :=
  raw <> "" -> exists config, b64_DecodeString raw = Some config /\ kubeconfig_stored w s config.

Definition seed_effect ctx (req : SeedRequest) w (a : SeedAnswer) w' : Prop :=
  match req with
  | ListSeeds => by_admin ctx /\ same_store w w' /\
      exists l, a = SeedsAnswer l /\ apiseed_Name <$> l ≡ₚ (map_to_list (seeds w)).*1 /\
        forall x, x ∈ l -> exists s, seeds w !! apiseed_Name x = Some s /\ shows_seed (apiseed_Name x) (seed_Spec s) x
  | GetSeed name => by_admin ctx /\ same_store w w' /\
      exists x s, a = SeedAnswer1 x /\ seeds w !! name = Some s /\ shows_seed name (seed_Spec s) x
  | GetSeedSettings name => same_store w w' /\
      exists s, seeds w !! name = Some s /\ a = SettingsAnswer (convertSeedToSeedSettings s)
  | CreateSeed req => by_admin ctx /\
      let name := createseed_Name req in
      let new := genSeedFromRequest req in
      name <> "" /\ seeds w !! name = None /\ createseed_Kubeconfig (createseed_Spec req) <> "" /\
      new_kubeconfig w' new (createseed_Kubeconfig (createseed_Spec req)) /\
      seed_written w w' name (seed_Spec (with_kubeconfig_ref new)) /\
      exists x, a = SeedAnswer1 x /\ shows_seed name (seed_Spec (with_kubeconfig_ref new)) x
  | UpdateSeed req => by_admin ctx /\
      exists s spec x, updateSeedReq_Validate req = Ok tt /\ seeds w !! updateseed_Name req = Some s /\
        seed_patched s req spec /\ seed_written w w' (updateseed_Name req) spec /\
        new_kubeconfig w' s (updateseed_RawKubeconfig req) /\
        a = SeedAnswer1 x /\ shows_seed (updateseed_Name req) spec x
  | DeleteSeed name => by_admin ctx /\ deleted KSeed w w' (KubermaticNamespace, name)
  | DeleteDestination name destination => by_admin ctx /\
      exists s etcd, seeds w !! name = Some s /\ seedspec_EtcdBackupRestore (seed_Spec s) = Some etcd /\
        is_Some (etcd_Destinations etcd !! destination) /\
        seed_written w w' name (seedspec_with_etcd
          (Some (MkEtcdBackupRestore (delete destination (etcd_Destinations etcd)) (etcd_DefaultDestination etcd)))
          (seed_Spec s))
  end.

(** What a request may have done that fails, or panics. *)
Definition seed_failed (req : SeedRequest) w w' : Prop :=
  match req with
  | CreateSeed req => only_secret (kubeconfig_key (genSeedFromRequest req)) w w'
  | UpdateSeed req => only_secret (KubermaticNamespace, "kubeconfig-" +:+ updateseed_Name req) w w'
  | _ => same_store w w'
  end.

(** The request clears the default destination of a seed that has no settings
    for backups; or the merge of the specs leaves no object. *)
Definition seed_panics (req : SeedRequest) w : Prop :=
  match req with
  | UpdateSeed req =>
      (exists s etcd, seeds w !! updateseed_Name req = Some s /\ seedspec_EtcdBackupRestore (seed_Spec s) = None /\
        seedspec_EtcdBackupRestore (updateseed_Spec req) = Some etcd /\ etcd_DefaultDestination etcd = "") \/
      exists j, unmarshalSeedSpec j = Ok None
  | _ => False
  end.

Lemma adminUser_spec ctx w :
  runs (adminUser UserInfoGetterFactory ctx) w (fun r w' => same_store w w' /\
    match r with Ok _ => by_admin ctx | Err _ => True | Panic => False end).
Proof. exact (validateUser_spec ctx w). Qed.

Lemma httpSeeds_spec w :
  runs (httpErr seedsGetter) w (fun r w' => same_store w w' /\
    match r with Ok m => m = seeds w | Err _ => True | Panic => False end).
Proof. eapply httpErr_spec; [apply seedsGetter_spec|]. cbn beta. by intros [m|e|] w'. Qed.

Lemma getSeed_spec ctx name w :
  runs (getSeed seedsGetter UserInfoGetterFactory ctx name) w (fun r w' => same_store w w' /\
    match r with Ok s => by_admin ctx /\ seeds w !! name = Some s | Err _ => True | Panic => False end).
Proof.
  unfold getSeed. plain_call adminUser_spec. intros r w1 [Hs Ha]. destruct r as [[]|e|]; cbn [andThen]; [|done|done].
  plain_call httpSeeds_spec. intros r w2 [Hs2 Hm]. assert (same_store w w2) as Hs' by (by etrans).
  destruct r as [m|e|]; cbn [andThen]; [subst m|done|done]. rewrite <- Hs.
  by destruct (seeds w !! name); runs_step.
Qed.

Lemma convertSeedSpec_ok spec name : exists x, convertSeedSpec spec name = Ok x.
Proof.
  unfold convertSeedSpec. destruct (externalDCs_spec name _ (NoDup_map_range (seedspec_Datacenters spec))) as (ds & -> & _).
  by eexists.
Qed.

Lemma apiSeed_spec name spec w :
  runs (W := W) (apiSeed name spec) w (fun r w' => w' = w /\ exists x, r = Ok x /\ shows_seed name spec x).
Proof.
  unfold apiSeed. do 2 runs_step. destruct (convertSeedSpec_ok spec name) as [x E]. rewrite E. cbn [andThen].
  runs_step. split; [done|]. by eexists.
Qed.

Lemma updated_written w w' name s s' spec :
  seeds w !! name = Some s -> strip KSeed s' = strip KSeed (seed_with_spec spec s) -> updated KSeed w w' s' ->
  seed_written w w' name spec /\ seed_Spec s' = spec.
Proof.
  intros Hs Hst (_ & Hv & _). pose proof (strip_key _ _ _ Hst) as Hk. apply strip_seed in Hst.
  destruct (seeds_of_key _ _ _ _ Hs) as [Hn Hkey].
  change (key_of KSeed (seed_with_spec spec s)) with (key_of KSeed s) in Hk. rewrite Hkey in Hk.
  unfold key_of in Hk. cbn in Hk. injection Hk as Hns Hn'. split; [|done]. exists s'.
  rewrite (seeds_of_written _ _ _ _ Hns Hv). unfold seed_Name at 1. by rewrite Hn', Hn.
Qed.

Lemma kubeconfig_kept k w w' s config :
  k <> KSecret -> same_except k w w' -> kubeconfig_stored w s config -> kubeconfig_stored w' s config.
Proof. intros Hk H. unfold kubeconfig_stored. by rewrite (H KSecret). Qed.

Lemma seeds_only_secret n w w' : only_secret n w w' -> seeds w' = seeds w.
Proof. intros [H _]. by apply (seeds_of_except _ KSecret). Qed.

(** ** The endpoints one by one *)

Definition seed_outcome ctx req w (r : result error SeedAnswer) w' : Prop :=
  match r with
  | Ok a => seed_effect ctx req w a w'
  | Err _ => seed_failed req w w'
  | Panic => seed_failed req w w' /\ seed_panics req w
  end.
Abbreviation serve := (serve_seed seedsGetter UserInfoGetterFactory).

Lemma ListSeeds_outcome ctx w : runs (serve (ctx, ListSeeds)) w (seed_outcome ctx ListSeeds w).
Proof.
  unfold serve_seed, ListSeedEndpoint. cbn [fst snd]. runs_step. plain_call adminUser_spec. intros r w1 [Hs Ha].
  destruct r as [[]|e|]; cbn [andThen]; [|done|done].
  plain_call httpSeeds_spec. intros r w2 [Hs2 Hm]. assert (same_store w w2) as Hs' by (by etrans).
  destruct r as [m|e|]; cbn [andThen]; [subst m|done|done]. rewrite <- Hs. runs_step.
  set (conv := fun kv : string * Seed => match convertSeedSpec (seed_Spec kv.2) kv.1 with
                 | Ok x => MkApiSeed kv.1 x | _ => MkApiSeed "" (MkApiSeedSpec "" "" noReference ∅ "" None "" None None None) end).
  rewrite (collect_map _ conv).
  2:{ intros [n s] _. unfold conv. cbn. by destruct (convertSeedSpec_ok (seed_Spec s) n) as [x ->]. }
  cbn [andThen]. runs_step. split; [done|]. split; [done|]. eexists. split; [done|].
  assert (forall kv, apiseed_Name (conv kv) = kv.1 /\ convertSeedSpec (seed_Spec kv.2) kv.1 = Ok (apiseed_Spec (conv kv))) as Hconv.
  { intros [n s]. unfold conv. cbn. by destruct (convertSeedSpec_ok (seed_Spec s) n) as [x ->]. }
  split.
  - rewrite <- list_fmap_compose. rewrite (list_fmap_ext _ fst); [by rewrite (map_range_all (seeds w))|].
    intros i kv _. apply Hconv.
  - intros x ([n s] & -> & Hs0%elem_of_map_range)%list_elem_of_fmap. destruct (Hconv (n, s)) as [Hn Hc].
    rewrite Hn. by exists s.
Qed.

Lemma GetSeed_outcome ctx name w : runs (serve (ctx, GetSeed name)) w (seed_outcome ctx (GetSeed name) w).
Proof.
  unfold serve_seed, GetSeedEndpoint. cbn [fst snd]. runs_step. plain_call getSeed_spec. intros r w1 [Hs Hr].
  destruct r as [s|e|]; cbn [andThen]; [|done|done]. destruct Hr as [Ha Hseed].
  eapply runs_mono; [apply apiSeed_spec|]. cbn beta. intros r w2 (-> & x & -> & Hx). cbn [andThen]. runs_step.
  split; [done|]. split; [done|]. by exists x, s.
Qed.

Lemma GetSeedSettings_outcome ctx name w :
  runs (serve (ctx, GetSeedSettings name)) w (seed_outcome ctx (GetSeedSettings name) w).
Proof.
  unfold serve_seed, GetSeedSettingsEndpoint. cbn [fst snd]. runs_step. plain_call httpSeeds_spec. intros r w1 [Hs Hm].
  destruct r as [m|e|]; cbn [andThen]; [subst m|done|done].
  destruct (seeds w !! name) as [s|] eqn:E; runs_step; [|done]. cbn [andThen]. runs_step. split; [done|]. by exists s.
Qed.

Lemma DeleteSeed_outcome ctx name w : runs (serve (ctx, DeleteSeed name)) w (seed_outcome ctx (DeleteSeed name) w).
Proof.
  unfold serve_seed, DeleteSeedEndpoint. cbn [fst snd]. runs_step. plain_call getSeed_spec. intros r w1 [Hs Hr].
  destruct r as [s|e|]; cbn [andThen]; [|done|done]. destruct Hr as [Ha Hseed].
  destruct (seeds_of_key _ _ _ _ Hseed) as [<- ->]. runs_step.
  eapply runs_mono; [apply (kdelete_spec KSeed)|]. cbn beta.
  intros [[]|e|] w2 Hd; cbn [andThen]; [|by change (same_store w w2); etrans|done].
  runs_step. split; [done|]. rewrite Hs. by destruct Hd.
Qed.

Lemma DeleteDestination_outcome ctx name destination w :
  runs (serve (ctx, DeleteDestination name destination)) w (seed_outcome ctx (DeleteDestination name destination) w).
Proof.
  unfold serve_seed, DeleteBackupDestinationEndpoint. cbn [fst snd]. runs_step. plain_call getSeed_spec. intros r w1 [Hs Hr].
  destruct r as [s|e|]; cbn [andThen]; [|done|done]. destruct Hr as [Ha Hseed].
  destruct (seedspec_EtcdBackupRestore (seed_Spec s)) as [etcd|] eqn:Eetcd; [|by runs_step].
  runs_guard; [done|]. apply bool_decide_eq_false in H. do 2 runs_step. eapply runs_mono; [apply (kupdate_spec KSeed)|].
  cbn beta. intros [s'|e|] w2 Hr; cbn [andThen]; [|by change (same_store w w2); etrans|done]. do 2 (runs_step; cbn [andThen]).
  destruct Hr as (_ & Hst & Hup & _). split; [done|]. exists s, etcd. split; [done|]. split; [done|].
  rewrite <- Hs in Hup. split; [|by eapply updated_written].
  destruct (_ !! destination); [by eexists|done].
Qed.

Lemma decodeKubeconfig_spec raw w (Q : result error string -> W -> Prop) :
  (forall e, Q (Err e) w) -> (forall config, b64_DecodeString raw = Some config -> Q (Ok config) w) ->
  runs (decodeKubeconfig raw) w Q.
Proof. intros He Hok. unfold decodeKubeconfig. destruct (b64_DecodeString raw) eqn:E; runs_step; auto. Qed.

Lemma createSeedReq_Validate_spec req w (Q : result error unit -> W -> Prop) :
  (forall e w', same_store w w' -> Q (Err e) w') ->
  (forall w', same_store w w' -> createseed_Name req <> "" -> createseed_Kubeconfig (createseed_Spec req) <> "" ->
     seeds w !! createseed_Name req = None -> Q (Ok tt) w') ->
  runs (mapErr badRequestError (createSeedReq_Validate seedsGetter req)) w Q.
Proof.
  intros He Hok. unfold createSeedReq_Validate. runs_step. runs_guard; [by apply He|]. apply is_empty_false in H.
  runs_guard; [by apply He|]. apply is_empty_false in H0. plain_call httpSeeds_spec. intros r w1 [Hs Hm].
  destruct r as [m|e|]; cbn [andThen]; [subst m|by apply He|done]. runs_step; [by apply He|].
  apply bool_decide_eq_false, eq_None_not_Some in H1. by apply Hok.
Qed.

Lemma CreateSeed_outcome ctx req w : runs (serve (ctx, CreateSeed req)) w (seed_outcome ctx (CreateSeed req) w).
Proof.
  unfold serve_seed, CreateSeedEndpoint. cbn [fst snd]. runs_step. plain_call adminUser_spec. intros r w1 [Hs Ha].
  destruct r as [[]|e|]; cbn [andThen]; [|by apply same_only_secret|done].
  runs_step. apply createSeedReq_Validate_spec; [intros e w2 Hs2; apply same_only_secret; by etrans|].
  intros w2 Hs2 Hname Hkc Hfree. cbn [andThen]. rewrite <- Hs in Hfree.
  assert (same_store w w2) as Hs' by (by etrans). set (new := genSeedFromRequest req).
  runs_step. apply decodeKubeconfig_spec; [intros e; by apply same_only_secret|]. intros config Hconfig. cbn [andThen].
  http_call (seeds_kubeconfig_spec new config w2). intros r w3 [Ho Hr].
  assert (only_secret (kubeconfig_key new) w w3) as Ho'
    by (eapply only_secret_trans; [by apply same_only_secret|done]).
  destruct r as [s1|e|]; cbn [andThen]; [|done|done]. destruct Hr as [-> Hstored].
  http_call (seeds_CreateUnsecured_spec (with_kubeconfig_ref new) w3). intros r w4 Hr.
  destruct r as [s2|e|]; cbn [andThen]; [|eapply only_secret_trans; [done|by apply same_only_secret]|done].
  destruct Hr as [Hst (_ & Hv & He)]. pose proof (strip_key _ _ _ Hst) as Hk. apply strip_seed in Hst.
  eapply runs_mono; [apply apiSeed_spec|]. cbn beta. intros r w5 (-> & x & -> & Hx). cbn [andThen]. runs_step.
  split; [done|]. split_and!; [done|done|done| | |].
  - intros _. exists config. split; [done|]. by eapply (kubeconfig_kept KSeed).
  - exists s2. split; [|done]. unfold key_of in Hk. injection Hk as Hns Hn.
    rewrite (seeds_of_written _ _ _ _ Hns Hv), (seeds_only_secret _ _ _ Ho'). unfold seed_Name. by rewrite Hn.
  - exists x. split; [done|]. by rewrite Hst in Hx.
Qed.

Lemma updateSeedReq_Validate_no_panic req : updateSeedReq_Validate req <> Panic.
Proof. unfold updateSeedReq_Validate. repeat case_match; done. Qed.

Lemma patchedSeedSpec_spec stored body w (Q : result error SeedSpec -> W -> Prop) :
  (forall e, Q (Err e) w) ->
  (forall j1 j2 j3 o, marshalSeedSpec stored = Ok j1 -> marshalSeedSpec body = Ok j2 -> MergePatch j1 j2 = Ok j3 ->
     unmarshalSeedSpec j3 = Ok o -> match o with Some spec => Q (Ok spec) w | None => Q Panic w end) ->
  runs (patchedSeedSpec stored body) w Q.
Proof.
  intros He Hok. unfold patchedSeedSpec. runs_step. apply orStatus_spec; [apply marshalSeedSpec_panic|done|].
  intros j1 H1. cbn [andThen]. runs_step. apply orStatus_spec; [apply marshalSeedSpec_panic|done|].
  intros j2 H2. cbn [andThen]. runs_step. apply orStatus_spec; [apply MergePatch_panic|done|].
  intros j3 H3. cbn [andThen]. runs_step. apply orStatus_spec; [apply unmarshalSeedSpec_panic|done|].
  intros o H4. cbn [andThen]. specialize (Hok j1 j2 j3 o H1 H2 H3 H4). by destruct o; runs_step.
Qed.

(** The seed with its new kubeconfig, if the request brings one. *)
Lemma updated_kubeconfig s raw w (Q : result error Seed -> W -> Prop) :
  (forall e w', only_secret (kubeconfig_key s) w w' -> Q (Err e) w') ->
  (forall w', only_secret (kubeconfig_key s) w w' -> new_kubeconfig w' s raw ->
     Q (Ok (if is_empty raw then s else with_kubeconfig_ref s)) w') ->
  runs (if is_empty raw then mret s else
        config ← decodeKubeconfig raw; httpErr (seeds_CreateOrUpdateKubeconfigSecretForSeed s config)) w Q.
Proof.
  intros He Hok. destruct (is_empty raw) eqn:E.
  - runs_step. apply Hok; [by apply same_only_secret|]. intros Hne. by apply is_empty_spec in E.
  - runs_step. apply decodeKubeconfig_spec; [intros e; by apply He, same_only_secret|]. intros config Hc. cbn [andThen].
    eapply httpErr_spec; [apply seeds_kubeconfig_spec|]. cbn beta. intros [s'|e|] w' [Ho Hr]; [|by apply He|done].
    destruct Hr as [-> Hst]. apply Hok; [done|]. intros _. by exists config.
Qed.

Lemma clearDestination_panic body stored :
  match clearDestination body stored with
  | Ok _ => True
  | Err _ => False
  | Panic => seedspec_EtcdBackupRestore stored = None /\
      exists etcd, seedspec_EtcdBackupRestore body = Some etcd /\ etcd_DefaultDestination etcd = ""
  end.
Proof.
  unfold clearDestination. destruct (seedspec_EtcdBackupRestore body) as [etcd|]; [|done].
  destruct (is_empty (etcd_DefaultDestination etcd)) eqn:E; [|done]. apply is_empty_spec in E.
  destruct (seedspec_EtcdBackupRestore stored); [done|]. split; [done|]. by exists etcd.
Qed.

Lemma UpdateSeed_outcome ctx req w : runs (serve (ctx, UpdateSeed req)) w (seed_outcome ctx (UpdateSeed req) w).
Proof.
  unfold serve_seed, UpdateSeedEndpoint. cbn [fst snd]. do 4 runs_step.
  pose proof (updateSeedReq_Validate_no_panic req).
  destruct (updateSeedReq_Validate req) as [[]|e|] eqn:Ev; cbn [andThen]; [|by apply same_only_secret|done].
  plain_call getSeed_spec. intros r w1 [Hs Hr]. destruct r as [s|e|]; cbn [andThen]; [|by apply same_only_secret|done].
  destruct Hr as [Ha Hseed]. destruct (seeds_of_key _ _ _ _ Hseed) as [Hn Hkey].
  assert (kubeconfig_key s = (KubermaticNamespace, "kubeconfig-" +:+ updateseed_Name req)) as Hkk.
  { unfold key_of in Hkey. injection Hkey as Hns. unfold kubeconfig_key. cbn in Hns. by rewrite Hns, Hn. }
  assert (forall w', only_secret (kubeconfig_key s) w1 w' -> seed_failed (UpdateSeed req) w w') as Hfail.
  { intros w' Ho. rewrite Hkk in Ho. eapply only_secret_trans; [by apply same_only_secret|done]. }
  runs_step. apply updated_kubeconfig; [by intros e w'; apply Hfail|]. intros w2 Ho Hkc. cbn [andThen].
  set (s' := if is_empty _ then s else _) in *.
  assert (seedspec_EtcdBackupRestore (seed_Spec s') = seedspec_EtcdBackupRestore (seed_Spec s)) as Hetcd
    by (subst s'; by destruct (is_empty _)).
  assert (key_of KSeed s' = key_of KSeed s) as Hk' by (subst s'; by destruct (is_empty _)).
  do 2 runs_step. pose proof (clearDestination_panic (updateseed_Spec req) (seed_Spec s')) as Hclear.
  destruct (clearDestination _ _) as [stored|e|] eqn:Ec; cbn [andThen]; [|done|].
  2:{ split; [by apply Hfail|]. left. destruct Hclear as (H1 & etcd & H2 & H3). exists s, etcd. by rewrite <- Hetcd. }
  runs_step. apply patchedSeedSpec_spec; [by intros e; apply Hfail|]. intros j1 j2 j3 o H1 H2 H3 H4.
  destruct o as [spec|]; cbn [andThen]; [|split; [by apply Hfail|right; by exists j3]].
  http_call (seeds_UpdateUnsecured_spec (seed_with_spec spec s') w2). intros r w3 Hr.
  destruct r as [s2|e|]; cbn [andThen]; [|apply Hfail; eapply only_secret_trans; [done|by apply same_only_secret]|done].
  destruct Hr as [Hst Hup].
  assert (seeds w2 !! updateseed_Name req = Some s) as Hseed2.
  { rewrite (seeds_only_secret _ _ _ Ho). by rewrite <- Hs. }
  assert (strip KSeed (seed_with_spec spec s') = strip KSeed (seed_with_spec spec s)) as Hst'
    by (subst s'; by destruct (is_empty _)).
  rewrite Hst' in Hst. destruct (updated_written _ _ _ _ _ _ Hseed2 Hst Hup) as [Hw Hspec].
  eapply runs_mono; [apply apiSeed_spec|]. cbn beta. intros r w4 (-> & x & -> & Hx). cbn [andThen]. runs_step.
  split; [done|]. exists s, spec, x. split_and!; [done|done| | | |done|by rewrite <- Hspec].
  - by exists stored, j1, j2, j3.
  - destruct Hw as (s3 & Hw & Hs3). exists s3. split; [|done]. rewrite Hw, (seeds_only_secret _ _ _ Ho). by rewrite Hs.
  - intros Hne. destruct (Hkc Hne) as (config & Hc & Hst3). exists config. split; [done|].
    destruct Hup as (_ & _ & He). by eapply (kubeconfig_kept KSeed).
Qed.

End seed_effects.

(** ** Witnesses *)

(** A reconciler on top of the client. *)
Section reconcile.
Context {W : Type} {EL : ErrorLib} {API : KubeAPI W}.

Definition newSecret (ns name : string) : Secret := MkSecret (meta_with_namespace ns (metaNamed name)) "" None.
Definition clientReconcile (ns name : string) (f : Secret -> Secret) : M W error unit :=
  got ← attempt (kget KSecret Privileged (ns, name));
  match got with
  | inr existing => _ ← kupdate KSecret Privileged (f existing); mret tt
  | inl err =>
      if apierrors_IsNotFound err then _ ← kcreate KSecret Privileged (f (newSecret ns name)); mret tt else throw err
  end.
#[local] Instance clientReconciler : SecretReconciler W := {| ReconcileSecret := clientReconcile |}.

Lemma secret_written `{Store W} (w w' : W) n s :
  key_of KSecret s = n -> view KSecret w' = <[key_of KSecret s := s]> (view KSecret w) -> same_except KSecret w w' ->
  only_secret n w w' /\ view KSecret w' !! n = Some s.
Proof.
  intros <- Hv He. split; [|by rewrite Hv, lookup_insert_eq]. split; [done|]. intros n' Hn.
  by rewrite Hv, lookup_insert_ne.
Qed.

#[local] Instance clientReconciler_laws {ST : Store W} {LAWS : KubeAPILaws W} : SecretReconcilerLaws W.
Proof.
  intros ns name f w Hf. cbn [ReconcileSecret clientReconciler]. unfold clientReconcile.
  runs_call (kget_spec KSecret). destruct Hcall as [Hs Hr]. destruct r as [s|e|]; cbn [andThen]; [| |done].
  - destruct Hr as [Hsec _]. pose proof (view_key KSecret _ _ _ Hsec) as Hk. runs_step.
    eapply runs_mono; [apply (kupdate_spec KSecret)|]. cbn beta. intros [s'|e|] w2 H; cbn [andThen];
      [|split; [apply same_only_secret; by etrans|done]|done]. runs_step.
    destruct H as (_ & Hst & (_ & Hv & He) & _). rewrite <- Hs in Hv, He.
    assert (key_of KSecret s' = (ns, name)) as Hk' by (rewrite (strip_key _ _ _ Hst), Hf; exact Hk).
    destruct (secret_written w w2 _ s' Hk' Hv He) as [Ho Hlook]. split; [done|]. by exists s, s'.
  - destruct (apierrors_IsNotFound e); [|runs_step; split; [by apply same_only_secret|done]]. runs_step.
    eapply runs_mono; [apply (kcreate_spec KSecret)|]. cbn beta. intros [s'|e'|] w2 H; cbn [andThen];
      [|split; [apply same_only_secret; etrans; [exact Hs|apply H]|done]|done]. runs_step.
    destruct H as (_ & Hst & (_ & Hv & He)). rewrite <- Hs in Hv, He.
    assert (key_of KSecret s' = (ns, name)) as Hk' by (rewrite (strip_key _ _ _ Hst), Hf; done).
    destruct (secret_written w w2 _ s' Hk' Hv He) as [Ho Hlook]. split; [done|]. by exists (newSecret ns name), s'.
Qed.
End reconcile.

#[local] Existing Instances refRange refRange_laws clientReconciler clientReconciler_laws.
#[local] Instance refSeedSDK : SeedSDK := {| seed_SetDefaults s := s; KubeconfigSecretKey := "kubeconfig" |}.
(** JSON texts of specs that have a country and nothing else. *)
#[local] Instance refSeedCodec : SeedCodec := {|
  marshalSeedSpec s := Ok (seedspec_Country s);
  unmarshalSeedSpec j := Ok (Some (MkSeedSpec j "" noReference ∅ "" None "" None "" None None None)) |}.
#[local] Instance refSeedCodec_laws : SeedCodecLaws refSeedCodec.
Proof. by split. Qed.

Definition asiaReq : createSeedReq :=
  MkCreateSeedReq "asia" (MkCreateSeedSpec "SG" "Singapore" (b64_EncodeToString "apiVersion: v1") "" None "" None "").
Definition bodyOf (country : string) (etcd : option EtcdBackupRestore) : SeedSpec :=
  MkSeedSpec country "" noReference ∅ "" None "" None "" etcd None None.


(** A request that clears the default backup destination of a seed without
    settings for backups panics. *)
Example clearing_no_destination_panics :
  (serve_seed seedGetter UserInfoGetterFactory
    (aliceCtx, UpdateSeed (MkUpdateSeedReq "eu" "eu" (bodyOf "DE" (Some (MkEtcdBackupRestore ∅ ""))) "")) seedWorld).1 = Panic.
Proof. vm_compute. reflexivity. Qed.
