(* ===== verification/Metering.v ===== *)
(** Metering: handler/v1/admin/metering.go, ee/metering/handler.go and
    ee/metering/report_config_handler.go. The settings live in the seeds; each
    change is made to one seed after the other. *)
From S2P Require Export SeedAdmin Quantities Admins.

(** apiv1.MeteringReportConfiguration *)
Record ApiReport := MkApiReport {
  apireport_Name : string;
  apireport_Config : MeteringReport }.

Record configurationReq := MkConfigurationReq {
  meteringcfg_Enabled : bool;
  meteringcfg_StorageClassName : string;
  meteringcfg_StorageSize : string }.

(** The numbers are of type int32. *)
Record createReportConfigurationReq := MkCreateReportReq {
  createreport_Name : string;
  createreport_Schedule : string;
  createreport_Interval : Z;
  createreport_Retention : option Z;
  createreport_Types : option (list string) }.
Record updateReportConfigurationReq := MkUpdateReportReq {
  updatereport_Name : string;
  updatereport_Schedule : string;
  updatereport_Interval : option Z;
  updatereport_Retention : option Z;
  updatereport_Types : option (list string) }.

(** k8s.io/apimachinery/pkg/util/validation and the parser of cron expressions. *)
Class MeteringSDK := {
  IsDNS1035Label : string -> list string;        (* the complaints *)
  cron_Parse : string -> bool }.

(** [uint32(x)]. *)
Definition to_uint32 (x : Z) : Z := (x mod 2 ^ 32)%Z.

Definition ReportTypes : gset string := {[ "cluster"; "namespace" ]}.

Definition metering_with_reports (x : gmap string MeteringReport) (m : MeteringConfiguration) : MeteringConfiguration :=
  MkMetering (metering_Enabled m) (metering_StorageClassName m) (metering_StorageSize m) x.
Definition seed_with_reports (m : MeteringConfiguration) (x : gmap string MeteringReport) (s : Seed) : Seed :=
  seed_with_spec (seedspec_with_metering (Some (metering_with_reports x m)) (seed_Spec s)) s.
(** The reports of a seed, [Spec.Metering.ReportConfigurations]. *)
Definition reports_of (s : Seed) : gmap string MeteringReport :=
  from_option metering_ReportConfigurations ∅ (seedspec_Metering (seed_Spec s)).

Section metering.
Context {W : Type} {EL : ErrorLib} {P : SDK} {Q : Quantities} {R : MapRange} {MS : MeteringSDK} {API : KubeAPI W}.
Variable seedsGetter : SeedsGetter W.
Variable userInfoGetter : UserInfoGetter W.

(** ** Validation *)

Definition configurationReq_Validate (m : configurationReq) : result error unit :=
  if meteringcfg_Enabled m then
    if is_empty (meteringcfg_StorageClassName m) || is_empty (meteringcfg_StorageSize m)
    then Err (ENew "storageClassName or storageSize cannot be empty when the metering tool is enabled")
    else _ ← wrapErr "inapproperiate storageClass size: " (ParseQuantity (meteringcfg_StorageSize m)); Ok tt
  else Ok tt.

Definition badIf (c : bool) (m : string) : result error unit := if c then Err (utilerrors_NewBadRequest m) else Ok tt.
Definition validName (name : string) : result error unit :=
  badIf (negb (bool_decide (IsDNS1035Label name = [])))
    ("metering report configuration name must be valid rfc1035 label: " +:+ String.concat "," (IsDNS1035Label name)).
Definition validSchedule (schedule : string) : result error unit :=
  badIf (negb (cron_Parse schedule)) ("invalid cron expression format: " +:+ schedule).
Definition positive (what : string) (x : Z) : result error unit :=
  badIf (x <? 1)%Z (what +:+ " value cannot be smaller than 1.").
(** [if p != nil { ... }]. *)
Definition ifGiven {A} (p : option A) (f : A -> result error unit) : result error unit :=
  match p with Some x => f x | None => Ok tt end.
Fixpoint validTypes (l : list string) : result error unit :=
  match l with
  | [] => Ok tt
  | t :: l => _ ← badIf (bool_decide (t ∉ ReportTypes)) ("invalid metering type: " +:+ t); validTypes l
  end.
Definition validTypeList (l : list string) : result error unit :=
  _ ← badIf (bool_decide (l = [])) "at least one report type is required"; validTypes l.

Definition createReport_Validate (m : createReportConfigurationReq) : result error unit :=
  _ ← validName (createreport_Name m);
  _ ← validSchedule (createreport_Schedule m);
  _ ← positive "interval" (createreport_Interval m);
  _ ← ifGiven (createreport_Retention m) (positive "retention");
  ifGiven (createreport_Types m) validTypeList.

Definition updateReport_Validate (m : updateReportConfigurationReq) : result error unit :=
  _ ← validName (updatereport_Name m);
  _ ← (if is_empty (updatereport_Schedule m) then Ok tt else validSchedule (updatereport_Schedule m));
  _ ← ifGiven (updatereport_Interval m) (positive "interval");
  _ ← ifGiven (updatereport_Retention m) (positive "retention");
  ifGiven (updatereport_Types m) validTypeList.

(** ** One seed *)

Definition updateSeedMeteringConfiguration (meteringCfg : configurationReq) (seed : Seed) : M W error unit :=
  let metering := MkMetering (meteringcfg_Enabled meteringCfg) (meteringcfg_StorageClassName meteringCfg)
                    (meteringcfg_StorageSize meteringCfg) (reports_of seed) in
  _ ← mapErr (EWrap ("failed to update seed " +:+ quote (seed_Name seed) +:+ ": "))
        (kupdate KSeed Privileged (seed_with_spec (seedspec_with_metering (Some metering) (seed_Spec seed)) seed));
  mret tt.

(** [masterClient.Update(ctx, seed)], then the entry that the server answers. *)
Definition writeReports (name : string) (metering : MeteringConfiguration) (reports : gmap string MeteringReport)
    (seed : Seed) : M W error ApiReport :=
  seed ← httpErr (kupdate KSeed Privileged (seed_with_reports metering reports seed));
  mret (MkApiReport name (default (MkMeteringReport "" 0 None []) (reports_of seed !! name))).

Definition createdReport (req : createReportConfigurationReq) : MeteringReport :=
  let types := match createreport_Types req with
               | None | Some [] => set_list ReportTypes
               | Some types => types
               end in
  MkMeteringReport (createreport_Schedule req) (to_uint32 (createreport_Interval req))
    (to_uint32 <$> createreport_Retention req) types.

Definition createSeedReport (req : createReportConfigurationReq) (seed : Seed) : M W error ApiReport :=
  let name := createreport_Name req in
  match seedspec_Metering (seed_Spec seed) with
  | None => throw (ENew ("metering configuration for " +:+ quote (seed_Name seed) +:+ " does not exist"))
  | Some metering =>
      _ ← throwIf (bool_decide (is_Some (metering_ReportConfigurations metering !! name)))
            (utilerrors_New 409 ("report configuration " +:+ quote name +:+ " already exists"));
      writeReports name metering (<[name := createdReport req]> (metering_ReportConfigurations metering)) seed
  end.

Definition updatedReport (req : updateReportConfigurationReq) (report : MeteringReport) : MeteringReport :=
  MkMeteringReport
    (if is_empty (updatereport_Schedule req) then report_Schedule report else updatereport_Schedule req)
    (match updatereport_Interval req with
     | Some i => if (1 <=? i)%Z then to_uint32 i else report_Interval report
     | None => report_Interval report
     end)
    (match updatereport_Retention req with
     | None => None
     | Some r => if (1 <=? r)%Z then Some (to_uint32 r) else report_Retention report
     end)
    (match updatereport_Types req with
     | None | Some [] => report_Types report
     | Some types => types
     end).

Definition noReportMap (seed : Seed) : error :=
  ENew ("metering report configuration map for " +:+ quote (seed_Name seed) +:+ " does not exist").

(** The settings, if the map of the reports is not nil (a map that was read is nil if it is empty). *)
Definition meteringWithReports (seed : Seed) : option MeteringConfiguration :=
  match seedspec_Metering (seed_Spec seed) with
  | Some metering => if bool_decide (metering_ReportConfigurations metering = ∅) then None else Some metering
  | None => None
  end.

Definition updateSeedReport (req : updateReportConfigurationReq) (seed : Seed) : M W error ApiReport :=
  let name := updatereport_Name req in
  match meteringWithReports seed with
  | None => throw (noReportMap seed)
  | Some metering =>
      match metering_ReportConfigurations metering !! name with
      | None => throw (utilerrors_New 404 ("report configuration " +:+ quote name +:+ " does not exists"))
      | Some report =>
          writeReports name metering (<[name := updatedReport req report]> (metering_ReportConfigurations metering)) seed
      end
  end.

Definition deleteSeedReport (name : string) (seed : Seed) : M W error unit :=
  match meteringWithReports seed with
  | None => throw (noReportMap seed)
  | Some metering =>
      if bool_decide (metering_ReportConfigurations metering !! name = None) then mret tt else
      _ ← httpErr (kupdate KSeed Privileged
            (seed_with_reports metering (delete name (metering_ReportConfigurations metering)) seed));
      mret tt
  end.

(** ** All seeds, in the order of the map *)

(** [for _, seed := range seeds { if conf, err = f(seed); err != nil { return } }]. *)
Definition forSeeds {A} (f : string * Seed -> M W error A) (seeds : gmap string Seed) : M W error (option A) :=
  foldM (fun _ kv => a ← f kv; mret (Some a)) None (map_range seeds).

Definition CreateOrUpdateConfigurations (req : configurationReq) : M W error unit :=
  _ ← mapErr badRequestError (lift (configurationReq_Validate req));
  seeds ← mapErr (EWrap "failed to get seed clients: ") seedsGetter;
  _ ← forSeeds (fun kv => mapErr (EWrap ("failed to reconcile metering tool credentials on Seed " +:+ kv.1 +:+ ": "))
                            (updateSeedMeteringConfiguration req kv.2)) seeds;
  mret tt.

(** The first seed of the loop that has the report. *)
Fixpoint findReport (name : string) (l : list (string * Seed)) : option ApiReport :=
  match l with
  | [] => None
  | (_, seed) :: l =>
      match reports_of seed !! name with
      | Some report => Some (MkApiReport name report)
      | None => findReport name l
      end
  end.

Definition GetMeteringReportConfiguration (name : string) : M W error ApiReport :=
  seeds ← httpErr seedsGetter;
  match findReport name (map_range seeds) with
  | Some report => mret report
  | None => throw (utilerrors_NewNotFound "MeteringReportConfiguration" name)
  end.

(** The loop breaks after the first seed that has metering settings. *)
Fixpoint listReports (l : list (string * Seed)) : list ApiReport :=
  match l with
  | [] => []
  | (_, seed) :: l =>
      match seedspec_Metering (seed_Spec seed) with
      | None => listReports l
      | Some metering => (fun kv => MkApiReport kv.1 kv.2) <$> map_range (metering_ReportConfigurations metering)
      end
  end.

Definition ListMeteringReportConfigurations : M W error (list ApiReport) :=
  seeds ← httpErr seedsGetter;
  mret (listReports (map_range seeds)).

Definition listedSeeds : M W error (gmap string Seed) := mapErr (EWrap "failed listing seeds: ") seedsGetter.

Definition CreateMeteringReportConfiguration (req : createReportConfigurationReq) : M W error (option ApiReport) :=
  _ ← mapErr badRequestError (lift (createReport_Validate req));
  seeds ← listedSeeds;
  forSeeds (fun kv => createSeedReport req kv.2) seeds.

Definition UpdateMeteringReportConfiguration (req : updateReportConfigurationReq) : M W error (option ApiReport) :=
  _ ← mapErr badRequestError (lift (updateReport_Validate req));
  seeds ← listedSeeds;
  forSeeds (fun kv => updateSeedReport req kv.2) seeds.

Definition DeleteMeteringReportConfiguration (name : string) : M W error unit :=
  seeds ← listedSeeds;
  _ ← forSeeds (fun kv => deleteSeedReport name kv.2) seeds;
  mret tt.

(** ** The endpoints *)

Definition meteringAdmin {A} (ctx : Ctx) (m : M W error A) : M W error A :=
  userInfo ← userInfoGetter ctx "";
  _ ← throwIf (negb (ui_IsAdmin userInfo)) (no_admin_rights userInfo);
  m.

Definition CreateOrUpdateMeteringConfigurations (ctx : Ctx) (req : configurationReq) : M W error unit :=
  meteringAdmin ctx (mapErr (EWrap "failed to create/update metering SecretReq: ") (CreateOrUpdateConfigurations req)).
Definition GetMeteringReportConfigurationEndpoint (ctx : Ctx) (name : string) : M W error ApiReport :=
  meteringAdmin ctx (mapErr (EWrap "failed to get metering report configuration: ") (GetMeteringReportConfiguration name)).
Definition ListMeteringReportConfigurationsEndpoint (ctx : Ctx) : M W error (list ApiReport) :=
  meteringAdmin ctx (mapErr (EWrap "failed to list metering report configurations: ") ListMeteringReportConfigurations).
Definition CreateMeteringReportConfigurationEndpoint (ctx : Ctx) (req : createReportConfigurationReq)
    : M W error (option ApiReport) :=
  meteringAdmin ctx (CreateMeteringReportConfiguration req).
Definition UpdateMeteringReportConfigurationEndpoint (ctx : Ctx) (req : updateReportConfigurationReq)
    : M W error (option ApiReport) :=
  meteringAdmin ctx (UpdateMeteringReportConfiguration req).
Definition DeleteMeteringReportConfigurationEndpoint (ctx : Ctx) (name : string) : M W error unit :=
  meteringAdmin ctx (mapErr (EWrap "failed to delete metering report configuration: ") (DeleteMeteringReportConfiguration name)).
End metering.
