(* ===== verification/MeteringTable.v ===== *)
(** Metering, proved: a change is made in every seed, or fails with each seed
    either changed or as it was; seeds that have the same reports keep having the
    same reports when the changes succeed, and are shown as one table. *)
From S2P Require Export SeedRequests Metering.

(** ** The loop over the seeds *)

Section for_seeds.
Context {W : Type} {EL : ErrorLib} {P : SDK} {R : MapRange} {RL : MapRangeLaws R}
        {API : KubeAPI W} {ST : Store W} {LAWS : KubeAPILaws W}.
Implicit Types w : W.
Abbreviation seeds := (seeds_of KubermaticNamespace).

Definition specs_of w : gmap string SeedSpec := seed_Spec <$> seeds w.

#[export] Instance specs_of_proper : Proper (same_store ==> eq) specs_of.
Proof. intros w w' Hw. unfold specs_of. by rewrite Hw. Qed.

(** What the work on the seed [n] does: the step of its spec, or nothing. *)
Definition one_seed {A} (step : SeedSpec -> option (SeedSpec * A)) (n : string) (s : Seed) w (r : result error A) w' : Prop :=
  match r with
  | Ok a => exists s', step (seed_Spec s) = Some (seed_Spec s', a) /\ seeds w' = <[n := s']> (seeds w) /\ same_except KSeed w w'
  | Err _ => same_store w w'
  | Panic => False
  end.

(** Every spec has taken the step; every spec has taken it or is as it was. *)
Definition all_stepped {A} (step : SeedSpec -> option (SeedSpec * A)) (m m' : gmap string SeedSpec) : Prop :=
  forall n, option_Forall2 (fun x x' => exists a, step x = Some (x', a)) (m !! n) (m' !! n).
Definition some_stepped {A} (step : SeedSpec -> option (SeedSpec * A)) (m m' : gmap string SeedSpec) : Prop :=
  forall n, option_Forall2 (fun x x' => x' = x \/ exists a, step x = Some (x', a)) (m !! n) (m' !! n).

Lemma same_some_stepped {A} (step : SeedSpec -> option (SeedSpec * A)) w w' :
  same_store w w' -> some_stepped step (specs_of w) (specs_of w').
Proof. intros Hs n. rewrite <- Hs. destruct (specs_of w !! n); constructor. by left. Qed.

(** The seeds [done] have taken the step, the others are as they were. *)
Definition stepped_so_far {A} (step : SeedSpec -> option (SeedSpec * A)) w0 (visited : list (string * Seed)) (b : option A) w : Prop :=
  same_except KSeed w0 w /\
  (forall n, n ∉ visited.*1 -> seeds w !! n = seeds w0 !! n) /\
  (forall n s, (n, s) ∈ visited -> exists s' a, seeds w !! n = Some s' /\ step (seed_Spec s) = Some (seed_Spec s', a)) /\
  match b with
  | Some a => exists n s x, (n, s) ∈ visited /\ step (seed_Spec s) = Some (x, a)
  | None => visited = []
  end.

Lemma stepped_some {A} (step : SeedSpec -> option (SeedSpec * A)) w0 visited b w :
  (forall n s, (n, s) ∈ visited -> seeds w0 !! n = Some s) ->
  stepped_so_far step w0 visited b w -> some_stepped step (specs_of w0) (specs_of w).
Proof.
  intros Hin (_ & Hout & Hdone & _) n. unfold specs_of. rewrite !lookup_fmap.
  destruct (decide (n ∈ visited.*1)) as [([n' s] & -> & Hs)%list_elem_of_fmap|Hn].
  - cbn. destruct (Hdone _ _ Hs) as (s' & a & -> & Hstep). rewrite (Hin _ _ Hs). cbn. constructor. right. by exists a.
  - rewrite (Hout n Hn). destruct (seeds w0 !! n); cbn; constructor. by left.
Qed.

Lemma forSeeds_spec {A} (f : string * Seed -> M W error A) (step : SeedSpec -> option (SeedSpec * A)) w0 w :
  same_store w0 w ->
  (forall n s w, seeds w !! n = Some s -> runs (f (n, s)) w (one_seed step n s w)) ->
  runs (forSeeds f (seeds w0)) w (fun r w' => same_except KSeed w0 w' /\
    match r with
    | Ok o => all_stepped step (specs_of w0) (specs_of w') /\
        match o with
        | Some a => exists n x x', specs_of w0 !! n = Some x /\ step x = Some (x', a)
        | None => specs_of w0 = ∅
        end
    | Err _ => some_stepped step (specs_of w0) (specs_of w')
    | Panic => False
    end).
Proof.
  intros Hs Hf. unfold forSeeds.
  pose proof (NoDup_map_range (seeds w0)) as Hnd.
  pose proof (fun n s => proj1 (elem_of_map_range (seeds w0) n s)) as Hin.
  apply (runs_foldM _ (fun visited b w => stepped_so_far step w0 visited b w)).
  - split; [by apply same_store_except|]. split_and!; [intros n _; by rewrite <- Hs| |done].
    intros n s Hx. by apply elem_of_nil in Hx.
  - intros visited [n s] rest b w1 Hl (He & Hout & Hdone & Hb).
    assert (forall n' s', (n', s') ∈ visited -> seeds w0 !! n' = Some s') as Hvis
      by (intros n' s' Hx; apply Hin; rewrite Hl; apply elem_of_app; by left).
    assert (n ∉ visited.*1) as Hn.
    { rewrite Hl, fmap_app in Hnd. apply NoDup_app in Hnd as (_ & Hd & _). intros Hx. apply (Hd n Hx). by left. }
    assert (seeds w0 !! n = Some s) as Hs0 by (apply Hin; rewrite Hl; apply elem_of_app; right; left).
    runs_step. eapply runs_mono; [apply Hf; by rewrite (Hout n Hn)|]. cbn beta. unfold one_seed.
    intros [a|e|] w2 Hr; cbn [andThen]; [| |done].
    + runs_step. destruct Hr as (s' & Hstep & Hw2 & He2). split; [intros k Hk; by rewrite (He k Hk), (He2 k Hk)|].
      split_and!.
      * intros n'. rewrite fmap_app, elem_of_app. intros Hn'. rewrite Hw2, lookup_insert_ne; [apply Hout; tauto|].
        intros ->. apply Hn'. right. by left.
      * intros n' s'' [Hx|Hx%list_elem_of_singleton]%elem_of_app.
        -- rewrite Hw2, lookup_insert_ne; [by apply Hdone|]. intros ->. apply Hn, list_elem_of_fmap. by exists (n', s'').
        -- injection Hx as -> ->. exists s', a. by rewrite Hw2, lookup_insert_eq.
      * exists n, s, (seed_Spec s'). split; [|done]. apply elem_of_app. right. by left.
    + split; [intros k Hk; rewrite (He k Hk); by apply Hr|].
      rewrite <- (specs_of_proper _ _ Hr). by apply (stepped_some step w0 visited b).
  - intros b w1 (He & Hout & Hdone & Hb). split; [done|]. split.
    + intros n. unfold specs_of. rewrite !lookup_fmap. destruct (seeds w0 !! n) as [s|] eqn:E.
      * destruct (Hdone n s) as (s' & a & -> & Hstep); [by apply elem_of_map_range|]. cbn. constructor. by exists a.
      * rewrite Hout, E; [constructor|]. intros ([n' s] & -> & Hx%Hin)%list_elem_of_fmap. cbn in E. congruence.
    + destruct b as [a|].
      * destruct Hb as (n & s & x & Hx%Hin & Hstep). exists n, (seed_Spec s), x. split; [|done].
        unfold specs_of. by rewrite lookup_fmap, Hx.
      * unfold specs_of. assert (seeds w0 = ∅) as ->; [|done]. apply map_eq. intros n. rewrite lookup_empty.
        destruct (seeds w0 !! n) as [s|] eqn:E; [|done]. apply elem_of_map_range in E. rewrite Hb in E. by apply elem_of_nil in E.
Qed.
End for_seeds.

(** ** All requests *)

Inductive MeteringRequest :=
| Configure (req : configurationReq)
| CreateReport (req : createReportConfigurationReq)
| UpdateReport (req : updateReportConfigurationReq)
| DeleteReport (name : string)
| GetReport (name : string)
| ListReports.

Inductive MeteringAnswer :=
| MeteringDone
| ReportAnswer (r : option ApiReport)
| ReportsAnswer (l : list ApiReport).

Section serve_metering.
Context {W : Type} {EL : ErrorLib} {P : SDK} {Q : Quantities} {R : MapRange} {MS : MeteringSDK} {API : KubeAPI W}.
Variable seedsGetter : SeedsGetter W.
Variable userInfoGetter : UserInfoGetter W.

Definition serve_metering (call : Ctx * MeteringRequest) : M W error MeteringAnswer :=
  let ctx := call.1 in
  match call.2 with
  | Configure req => _ ← CreateOrUpdateMeteringConfigurations seedsGetter userInfoGetter ctx req; mret MeteringDone
  | CreateReport req => r ← CreateMeteringReportConfigurationEndpoint seedsGetter userInfoGetter ctx req; mret (ReportAnswer r)
  | UpdateReport req => r ← UpdateMeteringReportConfigurationEndpoint seedsGetter userInfoGetter ctx req; mret (ReportAnswer r)
  | DeleteReport name => _ ← DeleteMeteringReportConfigurationEndpoint seedsGetter userInfoGetter ctx name; mret MeteringDone
  | GetReport name => r ← GetMeteringReportConfigurationEndpoint seedsGetter userInfoGetter ctx name; mret (ReportAnswer (Some r))
  | ListReports => l ← ListMeteringReportConfigurationsEndpoint seedsGetter userInfoGetter ctx; mret (ReportsAnswer l)
  end.

(** The requests are valid. *)
Definition valid_metering (req : MeteringRequest) : Prop :=
  match req with
  | Configure req => configurationReq_Validate req = Ok tt
  | CreateReport req => createReport_Validate req = Ok tt
  | UpdateReport req => updateReport_Validate req = Ok tt
  | _ => True
  end.

(** What a request that changes the reports makes of the table of reports, and
    the entry it answers. *)
Definition report_step (req : MeteringRequest) (t : gmap string MeteringReport)
    : option (gmap string MeteringReport * option ApiReport) :=
  match req with
  | CreateReport req =>
      _ ← guard (t !! createreport_Name req = None);
      Some (<[createreport_Name req := createdReport req]> t, Some (MkApiReport (createreport_Name req) (createdReport req)))
  | UpdateReport req =>
      report ← t !! updatereport_Name req;
      Some (<[updatereport_Name req := updatedReport req report]> t,
            Some (MkApiReport (updatereport_Name req) (updatedReport req report)))
  | DeleteReport name => _ ← guard (t <> ∅); Some (delete name t, None)
  | _ => None
  end.

(** What a request makes of the spec of a seed. *)
Definition metering_step (req : MeteringRequest) (spec : SeedSpec) : option (SeedSpec * option ApiReport) :=
  match req with
  | Configure req =>
      Some (seedspec_with_metering (Some (MkMetering (meteringcfg_Enabled req) (meteringcfg_StorageClassName req)
              (meteringcfg_StorageSize req) (from_option metering_ReportConfigurations ∅ (seedspec_Metering spec)))) spec, None)
  | _ =>
      m ← seedspec_Metering spec;
      '(t, a) ← report_step req (metering_ReportConfigurations m);
      Some (seedspec_with_metering (Some (metering_with_reports t m)) spec, a)
  end.
End serve_metering.

Section metering_effects.
Context {W : Type} {EL : ErrorLib} {ELL : ErrorLibLaws EL} {P : SDK} {Q : Quantities} {QL : QuantitiesLaws Q}
        {R : MapRange} {RL : MapRangeLaws R} {MS : MeteringSDK}
        {API : KubeAPI W} {ST : Store W} {LAWS : KubeAPILaws W}
        {MAPPER : ProjectMemberMapper W} {MAPL : ProjectMemberMapperLaws W}.
Variable seedsGetter : SeedsGetter W.
Context {SGL : SeedsGetterLaws W KubermaticNamespace seedsGetter}.
Implicit Types w : W.
Abbreviation seeds := (seeds_of KubermaticNamespace).

(** *** One seed *)

(** The update of a seed by the server. *)
Lemma seed_update_spec f n s spec w (Q' : result error Seed -> W -> Prop) :
  seeds w !! n = Some s ->
  (forall e w', same_store w w' -> Q' (Err (f e)) w') ->
  (forall s' w', seed_Spec s' = spec -> seeds w' = <[n := s']> (seeds w) -> same_except KSeed w w' -> Q' (Ok s') w') ->
  runs (mapErr f (kupdate KSeed Privileged (seed_with_spec spec s))) w Q'.
Proof.
  intros Hs He Hok. runs_step. eapply runs_mono; [apply (kupdate_spec KSeed)|]. cbn beta.
  intros [s'|e|] w' Hr; [|by apply He|done]. destruct Hr as (_ & Hst & (_ & Hv & Hex) & _).
  pose proof (strip_key _ _ _ Hst) as Hk. apply strip_seed in Hst.
  destruct (seeds_of_key _ _ _ _ Hs) as [Hn Hkey].
  change (key_of KSeed (seed_with_spec spec s)) with (key_of KSeed s) in Hk. rewrite Hkey in Hk.
  unfold key_of in Hk. cbn in Hk. injection Hk as Hns Hn'. apply Hok; [done| |done].
  rewrite (seeds_of_written _ _ _ _ Hns Hv). unfold seed_Name at 1. by rewrite Hn', Hn.
Qed.

Lemma writeReports_spec name m t s n w report step :
  seeds w !! n = Some s -> t !! name = Some report ->
  step (seed_Spec s) = Some (seedspec_with_metering (Some (metering_with_reports t m)) (seed_Spec s), MkApiReport name report) ->
  runs (writeReports name m t s) w (one_seed step n s w).
Proof.
  intros Hs Ht Hstep. unfold writeReports, httpErr, seed_with_reports. runs_step.
  eapply seed_update_spec; [done|by intros e w'|]. intros s' w' Hspec Hw Hex. cbn [andThen]. runs_step.
  exists s'. split; [|done]. rewrite Hspec. unfold reports_of. rewrite Hspec.
  cbn [seedspec_Metering seedspec_with_metering from_option metering_ReportConfigurations metering_with_reports].
  by rewrite Ht.
Qed.

(** The steps that answer an entry, and those that do not. *)
Definition entry_step (req : MeteringRequest) (spec : SeedSpec) : option (SeedSpec * ApiReport) :=
  '(spec, a) ← metering_step req spec; a ← a; Some (spec, a).
Definition plain_step (req : MeteringRequest) (spec : SeedSpec) : option (SeedSpec * unit) :=
  '(spec, a) ← metering_step req spec; Some (spec, tt).

Lemma createSeedReport_spec req n s w : seeds w !! n = Some s ->
  runs (createSeedReport req s) w (one_seed (entry_step (CreateReport req)) n s w).
Proof.
  intros Hs. unfold createSeedReport. destruct (seedspec_Metering (seed_Spec s)) as [m|] eqn:Em; [|by runs_step].
  runs_guard; [done|]. apply bool_decide_eq_false, eq_None_not_Some in H. eapply writeReports_spec; [done|apply lookup_insert_eq|].
  unfold entry_step, metering_step. rewrite Em. cbn -[insert]. rewrite option_guard_True by done. done.
Qed.

Lemma meteringWithReports_some s m : meteringWithReports s = Some m ->
  seedspec_Metering (seed_Spec s) = Some m /\ metering_ReportConfigurations m <> ∅.
Proof.
  unfold meteringWithReports. destruct (seedspec_Metering _) as [m'|]; [|done]. case_bool_decide; [done|]. by intros [= ->].
Qed.

Lemma updateSeedReport_spec req n s w : seeds w !! n = Some s ->
  runs (updateSeedReport req s) w (one_seed (entry_step (UpdateReport req)) n s w).
Proof.
  intros Hs. unfold updateSeedReport. destruct (meteringWithReports s) as [m|] eqn:Em; [|by runs_step].
  apply meteringWithReports_some in Em as [Em _].
  destruct (_ !! updatereport_Name req) as [report|] eqn:Er; [|by runs_step].
  eapply writeReports_spec; [done|apply lookup_insert_eq|].
  unfold entry_step, metering_step. rewrite Em. cbn -[insert]. by rewrite Er.
Qed.

Lemma seedspec_same_metering spec m : seedspec_Metering spec = Some m ->
  seedspec_with_metering (Some (metering_with_reports (metering_ReportConfigurations m) m)) spec = spec.
Proof. destruct spec, m. cbn. by intros ->. Qed.

Lemma deleteSeedReport_spec name n s w : seeds w !! n = Some s ->
  runs (deleteSeedReport name s) w (one_seed (plain_step (DeleteReport name)) n s w).
Proof.
  intros Hs. unfold deleteSeedReport. destruct (meteringWithReports s) as [m|] eqn:Em; [|by runs_step].
  apply meteringWithReports_some in Em as [Em Hne].
  assert (plain_step (DeleteReport name) (seed_Spec s) = Some (seedspec_with_metering (Some (metering_with_reports
            (delete name (metering_ReportConfigurations m)) m)) (seed_Spec s), tt)) as Hstep.
  { unfold plain_step, metering_step. rewrite Em. cbn -[delete]. by rewrite option_guard_True by done. }
  case_bool_decide as Hn.
  - runs_step. exists s. rewrite Hstep, delete_id by done. rewrite seedspec_same_metering by done.
    split; [done|]. split; [|done]. by rewrite insert_id.
  - unfold httpErr, seed_with_reports. runs_step. eapply seed_update_spec; [done|by intros e w'|].
    intros s' w' Hspec Hw Hex. cbn [andThen]. runs_step. exists s'. by rewrite Hspec.
Qed.

Lemma configure_spec req n s w : seeds w !! n = Some s ->
  runs (mapErr (EWrap ("failed to reconcile metering tool credentials on Seed " +:+ n +:+ ": "))
          (updateSeedMeteringConfiguration req s)) w (one_seed (plain_step (Configure req)) n s w).
Proof.
  intros Hs. unfold updateSeedMeteringConfiguration. do 2 runs_step. eapply seed_update_spec; [done|by intros e w'|].
  intros s' w' Hspec Hw Hex. cbn [andThen]. runs_step. exists s'. by rewrite Hspec.
Qed.
(** *** The endpoints *)

Definition metering_changes (req : MeteringRequest) : bool :=
  match req with GetReport _ | ListReports => false | _ => true end.

(** The entries of a table of reports. *)
Definition api_reports (t : gmap string MeteringReport) : list ApiReport :=
  (fun kv => MkApiReport kv.1 kv.2) <$> map_to_list t.
Definition has_reports (spec : SeedSpec) (t : gmap string MeteringReport) : Prop :=
  exists m, seedspec_Metering spec = Some m /\ metering_ReportConfigurations m = t.

(** What a change answers: nothing, or an entry that a seed has got. *)
Definition change_answer (req : MeteringRequest) w (a : MeteringAnswer) : Prop :=
  match req with
  | CreateReport _ | UpdateReport _ =>
      match a with
      | ReportAnswer (Some x) => exists n spec spec',
          specs_of w !! n = Some spec /\ metering_step req spec = Some (spec', Some x)
      | ReportAnswer None => specs_of w = ∅
      | _ => False
      end
  | _ => a = MeteringDone
  end.

Definition metering_effect (req : MeteringRequest) w (a : MeteringAnswer) w' : Prop :=
  match req with
  | GetReport name => same_store w w' /\ exists report n spec t,
      a = ReportAnswer (Some (MkApiReport name report)) /\
      specs_of w !! n = Some spec /\ has_reports spec t /\ t !! name = Some report
  | ListReports => same_store w w' /\ exists l, a = ReportsAnswer l /\
      ((exists n spec t, specs_of w !! n = Some spec /\ has_reports spec t /\ l ≡ₚ api_reports t) \/
       (l = [] /\ forall n spec, specs_of w !! n = Some spec -> seedspec_Metering spec = None))
  | _ => same_except KSeed w w' /\ all_stepped (metering_step req) (specs_of w) (specs_of w') /\ change_answer req w a
  end.

(** A change that fails may have reached some of the seeds. *)
Definition metering_failed (req : MeteringRequest) w w' : Prop :=
  if metering_changes req
  then same_except KSeed w w' /\ some_stepped (metering_step req) (specs_of w) (specs_of w')
  else same_store w w'.

Definition metering_outcome ctx (req : MeteringRequest) w (r : result error MeteringAnswer) w' : Prop :=
  match r with
  | Ok a => by_admin ctx /\ valid_metering req /\ metering_effect req w a w'
  | Err _ => metering_failed req w w'
  | Panic => False
  end.
Abbreviation serve := (serve_metering seedsGetter UserInfoGetterFactory).

Lemma same_metering_failed req w w' : same_store w w' -> metering_failed req w w'.
Proof.
  intros Hs. unfold metering_failed. destruct (metering_changes req); [|done].
  split; [by apply same_store_except|by apply same_some_stepped].
Qed.

Lemma meteringAdmin_spec {A} ctx (m : M W error A) w (Q' : result error A -> W -> Prop) :
  (forall e w', same_store w w' -> Q' (Err e) w') ->
  (forall w1, same_store w w1 -> by_admin ctx -> runs m w1 Q') ->
  runs (meteringAdmin UserInfoGetterFactory ctx m) w Q'.
Proof.
  intros He Hok. unfold meteringAdmin. plain_call UserInfoGetterFactory_spec. intros r w1 [Hs Hu].
  destruct r as [ui|e|]; cbn [andThen]; [|by apply He|done]. destruct Hu as (user & Hc & _ & (_ & Ha & _)).
  runs_guard; [by apply He|]. apply Hok; [done|]. exists user. split; [done|]. rewrite <- Ha. by apply negb_false_iff.
Qed.

(** The seeds at the start of the request. *)
Lemma listed_spec f w0 w (Q' : result error (gmap string Seed) -> W -> Prop) :
  same_store w0 w ->
  (forall e w', same_store w0 w' -> Q' (Err e) w') ->
  (forall w', same_store w0 w' -> Q' (Ok (seeds w0)) w') ->
  runs (mapErr f seedsGetter) w Q'.
Proof.
  intros Hs He Hok. runs_step. eapply runs_mono; [apply seedsGetter_spec|]. cbn beta.
  intros [m|e|] w' [Hs' Hm]; [subst m; rewrite <- Hs|apply He|done]; [apply Hok|]; by etrans.
Qed.

Lemma validated_runs (v : result error unit) w (Q' : result error unit -> W -> Prop) :
  v <> Panic -> (forall e, Q' (Err e) w) -> (v = Ok tt -> Q' (Ok tt) w) ->
  runs (mapErr badRequestError (lift v)) w Q'.
Proof. intros Hp He Hok. do 2 runs_step. destruct v as [[]|e|]; [by apply Hok|apply He|done]. Qed.

Lemma badIf_no_panic c m : badIf c m <> Panic.
Proof. unfold badIf. by destruct c. Qed.
Lemma ifGiven_no_panic {A} (p : option A) f : (forall x, f x <> Panic) -> ifGiven p f <> Panic.
Proof. intros H. destruct p; [apply H|done]. Qed.
Lemma validTypeList_no_panic l : validTypeList l <> Panic.
Proof.
  unfold validTypeList. apply bind_no_panic; [apply badIf_no_panic|intros _].
  induction l as [|x l IH]; [done|]. cbn. apply bind_no_panic; [apply badIf_no_panic|done].
Qed.
Lemma configurationReq_no_panic req : configurationReq_Validate req <> Panic.
Proof.
  unfold configurationReq_Validate. repeat case_match; try done.
  apply bind_no_panic; [apply wrapErr_no_panic, ParseQuantity_no_panic|done].
Qed.
Lemma createReport_no_panic req : createReport_Validate req <> Panic.
Proof.
  unfold createReport_Validate.
  repeat (apply bind_no_panic; [try apply badIf_no_panic; apply ifGiven_no_panic; intros; apply badIf_no_panic|intros _]).
  apply ifGiven_no_panic, validTypeList_no_panic.
Qed.
Lemma updateReport_no_panic req : updateReport_Validate req <> Panic.
Proof.
  unfold updateReport_Validate. apply bind_no_panic; [apply badIf_no_panic|intros _].
  apply bind_no_panic; [case_match; [done|apply badIf_no_panic]|intros _].
  repeat (apply bind_no_panic; [apply ifGiven_no_panic; intros; apply badIf_no_panic|intros _]).
  apply ifGiven_no_panic, validTypeList_no_panic.
Qed.
Lemma all_stepped_mono {A B} (step : SeedSpec -> option (SeedSpec * A)) (step' : SeedSpec -> option (SeedSpec * B)) m m' :
  (forall x x' a, step x = Some (x', a) -> exists b, step' x = Some (x', b)) ->
  all_stepped step m m' -> all_stepped step' m m'.
Proof. intros H Hm n. destruct (Hm n) as [x x' [a Ha]|]; constructor. by eapply H. Qed.
Lemma some_stepped_mono {A B} (step : SeedSpec -> option (SeedSpec * A)) (step' : SeedSpec -> option (SeedSpec * B)) m m' :
  (forall x x' a, step x = Some (x', a) -> exists b, step' x = Some (x', b)) ->
  some_stepped step m m' -> some_stepped step' m m'.
Proof. intros H Hm n. destruct (Hm n) as [x x' [->|[a Ha]]|]; constructor; [by left|right; by eapply H]. Qed.

Lemma entry_step_inv req x x' a : entry_step req x = Some (x', a) -> metering_step req x = Some (x', Some a).
Proof. unfold entry_step. destruct (metering_step req x) as [[y [b|]]|]; [|done|done]. by intros [= -> ->]. Qed.
Lemma plain_step_inv req x x' u : plain_step req x = Some (x', u) -> exists b, metering_step req x = Some (x', b).
Proof. unfold plain_step. destruct (metering_step req x) as [[y b]|]; [|done]. intros [= ->]. by exists b. Qed.

(** A loop whose work on a seed is one step of the request, after the seeds were read. *)
Lemma changes_spec {A} (step : SeedSpec -> option (SeedSpec * A)) req f w0 w (Q' : result error (option A) -> W -> Prop) :
  metering_changes req = true ->
  (forall x x' a, step x = Some (x', a) -> exists b, metering_step req x = Some (x', b)) ->
  same_store w0 w ->
  (forall n s w, seeds w !! n = Some s -> runs (f (n, s)) w (one_seed step n s w)) ->
  (forall e w', metering_failed req w0 w' -> Q' (Err e) w') ->
  (forall o w', same_except KSeed w0 w' -> all_stepped (metering_step req) (specs_of w0) (specs_of w') ->
     match o with
     | Some a => exists n x x', specs_of w0 !! n = Some x /\ step x = Some (x', a)
     | None => specs_of w0 = ∅
     end -> Q' (Ok o) w') ->
  runs (forSeeds f (seeds w0)) w Q'.
Proof.
  intros Hc Hstep Hs Hf He Hok. eapply runs_mono; [by apply forSeeds_spec|]. cbn beta.
  intros [o|e|] w' [Hex Hr]; [| |done].
  - destruct Hr as [Hall Ho]. apply Hok; [done| |done]. by eapply all_stepped_mono.
  - apply He. unfold metering_failed. rewrite Hc. split; [done|]. by eapply some_stepped_mono.
Qed.

Lemma Configure_outcome ctx req w : runs (serve (ctx, Configure req)) w (metering_outcome ctx (Configure req) w).
Proof.
  unfold serve_metering, CreateOrUpdateMeteringConfigurations, CreateOrUpdateConfigurations. cbn [fst snd]. runs_step.
  apply meteringAdmin_spec; [by intros; apply same_metering_failed|]. intros w1 Hs Ha. do 2 runs_step.
  apply validated_runs; [apply configurationReq_no_panic|by intros; apply same_metering_failed|]. intros Hv.
  cbn [andThen]. runs_step. apply (listed_spec _ w); [done|by intros; apply same_metering_failed|]. intros w2 Hs2.
  cbn [andThen]. runs_step.
  eapply (changes_spec _ (Configure req)); [done|apply plain_step_inv|done|intros n s w'; apply configure_spec|done|].
  intros o w3 Hex Hall Ho. cbn [andThen]. runs_step. cbn [andThen]. by runs_step.
Qed.

(** The changes that answer the entry of the last seed. *)
Lemma entries_outcome ctx req v g f w w1 :
  (exists r, req = CreateReport r) \/ (exists r, req = UpdateReport r) ->
  v <> Panic -> (v = Ok tt -> valid_metering req) -> same_store w w1 -> by_admin ctx ->
  (forall n s w, seeds w !! n = Some s -> runs (f (n, s)) w (one_seed (entry_step req) n s w)) ->
  runs (_ ← mapErr badRequestError (lift v); seeds ← mapErr g seedsGetter; forSeeds f seeds) w1
    (fun r w' => andThen (fun o => mret (ReportAnswer o)) (metering_outcome ctx req w) r w').
Proof.
  intros Hreq Hp Hv Hs Ha Hf. assert (metering_changes req = true) as Hc by (destruct Hreq as [[r ->]|[r ->]]; done).
  runs_step. apply validated_runs; [done|by intros; apply same_metering_failed|]. intros Hok.
  cbn [andThen]. runs_step. apply (listed_spec _ w); [done|by intros; apply same_metering_failed|]. intros w2 Hs2.
  cbn [andThen]. eapply (changes_spec _ req); [done| |done|exact Hf|done|].
  { intros x x' a H. exists (Some a). by apply entry_step_inv. }
  intros o w3 Hex Hall Ho. cbn [andThen]. runs_step. split; [done|]. split; [by apply Hv|].
  assert (change_answer req w (ReportAnswer o)) as Hans; [|by destruct Hreq as [[r ->]|[r ->]]].
  assert (match o with Some a => exists n x x', specs_of w !! n = Some x /\ metering_step req x = Some (x', Some a)
          | None => specs_of w = ∅ end) as H; [|by destruct Hreq as [[r ->]|[r ->]]].
  destruct o as [a|]; [|done]. destruct Ho as (n & x & x' & Hx & Hstep). exists n, x, x'. split; [done|].
  by apply entry_step_inv.
Qed.

Lemma CreateReport_outcome ctx req w : runs (serve (ctx, CreateReport req)) w (metering_outcome ctx (CreateReport req) w).
Proof.
  unfold serve_metering, CreateMeteringReportConfigurationEndpoint, CreateMeteringReportConfiguration. cbn [fst snd]. runs_step.
  apply meteringAdmin_spec; [by intros; apply same_metering_failed|]. intros w1 Hs Ha.
  apply entries_outcome; eauto using createReport_no_panic, createSeedReport_spec.
Qed.

Lemma UpdateReport_outcome ctx req w : runs (serve (ctx, UpdateReport req)) w (metering_outcome ctx (UpdateReport req) w).
Proof.
  unfold serve_metering, UpdateMeteringReportConfigurationEndpoint, UpdateMeteringReportConfiguration. cbn [fst snd]. runs_step.
  apply meteringAdmin_spec; [by intros; apply same_metering_failed|]. intros w1 Hs Ha.
  apply entries_outcome; eauto using updateReport_no_panic, updateSeedReport_spec.
Qed.

Lemma DeleteReport_outcome ctx name w : runs (serve (ctx, DeleteReport name)) w (metering_outcome ctx (DeleteReport name) w).
Proof.
  unfold serve_metering, DeleteMeteringReportConfigurationEndpoint, DeleteMeteringReportConfiguration. cbn [fst snd]. runs_step.
  apply meteringAdmin_spec; [by intros; apply same_metering_failed|]. intros w1 Hs Ha. do 2 runs_step.
  apply (listed_spec _ w); [done|by intros; apply same_metering_failed|]. intros w2 Hs2. cbn [andThen]. runs_step.
  eapply (changes_spec _ (DeleteReport name)); [done|apply plain_step_inv|done|intros n s w'; apply deleteSeedReport_spec|done|].
  intros o w3 Hex Hall Ho. cbn [andThen]. runs_step. cbn [andThen]. by runs_step.
Qed.
Lemma lookup_specs w n s : seeds w !! n = Some s -> specs_of w !! n = Some (seed_Spec s).
Proof. intros H. unfold specs_of. by rewrite lookup_fmap, H. Qed.

Lemma findReport_some name l x : findReport name l = Some x ->
  exists n s t report, (n, s) ∈ l /\ has_reports (seed_Spec s) t /\ t !! name = Some report /\ x = MkApiReport name report.
Proof.
  induction l as [|[n s] l IH]; [done|]. cbn [findReport]. destruct (reports_of s !! name) as [report|] eqn:E.
  - intros [= <-]. unfold reports_of in E. destruct (seedspec_Metering (seed_Spec s)) as [m|] eqn:Em; [|done].
    exists n, s, (metering_ReportConfigurations m), report. split; [by left|]. split; [by exists m|done].
  - intros H. destruct (IH H) as (n' & s' & t & report & Hin & Hr). exists n', s', t, report. split; [by right|done].
Qed.

Lemma listReports_spec l :
  (exists n s t, (n, s) ∈ l /\ has_reports (seed_Spec s) t /\ listReports l ≡ₚ api_reports t) \/
  (listReports l = [] /\ forall n s, (n, s) ∈ l -> seedspec_Metering (seed_Spec s) = None).
Proof.
  induction l as [|[n s] l IH]; [right; split; [done|by intros n s ?%elem_of_nil]|]. cbn [listReports].
  destruct (seedspec_Metering (seed_Spec s)) as [m|] eqn:Em.
  - left. exists n, s, (metering_ReportConfigurations m). split; [by left|]. split; [by exists m|].
    unfold api_reports. by rewrite (map_range_all _).
  - destruct IH as [(n' & s' & t & Hin & Hr)|[Hl Hno]]; [left; exists n', s', t; split; [by right|done]|].
    right. split; [done|]. intros n' s' [[= -> ->]|Hin]%elem_of_cons; [done|]. by eapply Hno.
Qed.

Lemma GetReport_outcome ctx name w : runs (serve (ctx, GetReport name)) w (metering_outcome ctx (GetReport name) w).
Proof.
  unfold serve_metering, GetMeteringReportConfigurationEndpoint, GetMeteringReportConfiguration. cbn [fst snd]. runs_step.
  apply meteringAdmin_spec; [done|]. intros w1 Hs Ha. do 2 runs_step. unfold httpErr.
  apply (listed_spec _ w); [done|done|]. intros w2 Hs2. cbn [andThen].
  destruct (findReport name (map_range (seeds w))) as [x|] eqn:E; runs_step; [|done]. cbn [andThen]. runs_step.
  apply findReport_some in E as (n & s & t & report & Hin%elem_of_map_range & Hr & Ht & ->).
  do 3 (split; [done|]). exists report, n, (seed_Spec s), t. by split_and!; [|apply lookup_specs| |].
Qed.

Lemma ListReports_outcome ctx w : runs (serve (ctx, ListReports)) w (metering_outcome ctx ListReports w).
Proof.
  unfold serve_metering, ListMeteringReportConfigurationsEndpoint, ListMeteringReportConfigurations. cbn [fst snd]. runs_step.
  apply meteringAdmin_spec; [done|]. intros w1 Hs Ha. do 2 runs_step. unfold httpErr.
  apply (listed_spec _ w); [done|done|]. intros w2 Hs2. cbn [andThen]. runs_step. cbn [andThen]. runs_step.
  do 3 (split; [done|]). eexists. split; [done|].
  destruct (listReports_spec (map_range (seeds w))) as [(n & s & t & Hin%elem_of_map_range & Hr)|[Hl Hno]].
  - left. exists n, (seed_Spec s), t. split; [by apply lookup_specs|done].
  - right. split; [done|]. intros n spec. unfold specs_of. rewrite lookup_fmap.
    destruct (seeds w !! n) as [s|] eqn:E; [|done]. intros [= <-]. apply (Hno n). by apply elem_of_map_range.
Qed.

Lemma metering_outcome_holds ctx req w : runs (serve (ctx, req)) w (metering_outcome ctx req w).
Proof.
  destruct req; auto using Configure_outcome, CreateReport_outcome, UpdateReport_outcome, DeleteReport_outcome,
    GetReport_outcome, ListReports_outcome.
Qed.

(** C40: what the requests about metering do, all for administrators and after the
    request was validated. A change that succeeds is made in every seed: the
    settings are replaced and the reports kept, a report is added that no seed
    had, changed where every seed has it, or deleted; the answer is the entry of
    a seed. A change that fails leaves every seed either changed or as it was.
    A report is shown if some seed has it; a list is the table of one seed, and
    is empty only if no seed has settings. No request panics. *)
Theorem metering_requests_exact ctx req w :
  runs (serve_metering seedsGetter UserInfoGetterFactory (ctx, req)) w (metering_outcome ctx req w).
Proof. apply metering_outcome_holds. Qed.

(** *** Seeds with the same reports *)

(** The reports are replicated: every seed has the table [t]. *)
Definition replicated w (t : gmap string MeteringReport) : Prop :=
  specs_of w <> ∅ /\ forall n spec, specs_of w !! n = Some spec -> has_reports spec t.

(** What a request makes of the table that the seeds share, and what it answers. *)
Definition table_next (req : MeteringRequest) (t : gmap string MeteringReport)
    : option (gmap string MeteringReport * option ApiReport) :=
  match req with
  | Configure _ | GetReport _ | ListReports => Some (t, None)
  | _ => report_step req t
  end.
Definition table_answer (req : MeteringRequest) (t : gmap string MeteringReport) (x : option ApiReport) (a : MeteringAnswer) : Prop :=
  match req with
  | Configure _ | DeleteReport _ => a = MeteringDone
  | CreateReport _ | UpdateReport _ => is_Some x /\ a = ReportAnswer x
  | GetReport name => exists report, t !! name = Some report /\ a = ReportAnswer (Some (MkApiReport name report))
  | ListReports => exists l, a = ReportsAnswer l /\ l ≡ₚ api_reports t
  end.

(** Requests on one table; only requests that read may fail. *)
Inductive table_steps : gmap string MeteringReport -> list (Ctx * MeteringRequest) -> list (result error MeteringAnswer) ->
    gmap string MeteringReport -> Prop :=
| table_steps_nil t : table_steps t [] [] t
| table_steps_ok t ctx req x a t1 calls rs t2 :
    by_admin ctx -> valid_metering req -> table_next req t = Some (t1, x) -> table_answer req t x a ->
    table_steps t1 calls rs t2 -> table_steps t ((ctx, req) :: calls) (Ok a :: rs) t2
| table_steps_err t ctx req e calls rs t2 :
    metering_changes req = false -> table_steps t calls rs t2 -> table_steps t ((ctx, req) :: calls) (Err e :: rs) t2.

Fixpoint serve_meterings (calls : list (Ctx * MeteringRequest)) w : list (result error MeteringAnswer) * W :=
  match calls with
  | [] => ([], w)
  | call :: calls => let '(r, w1) := serve call w in let '(rs, w2) := serve_meterings calls w1 in (r :: rs, w2)
  end.
Definition no_change_failed (call : Ctx * MeteringRequest) (r : result error MeteringAnswer) : Prop :=
  metering_changes call.2 = true -> is_ok r = true.

Lemma metering_step_next req spec spec' t x :
  metering_changes req = true -> has_reports spec t -> metering_step req spec = Some (spec', x) ->
  exists t', table_next req t = Some (t', x) /\ has_reports spec' t'.
Proof.
  intros Hc (m & Hm & <-). unfold metering_step, table_next.
  destruct req; try done; rewrite Hm; [intros [= <- <-]; eexists; split; [done|]; by eexists| | |].
  all: cbn [mbind option_bind]; destruct (report_step _ _) as [[t' x']|]; [|done]; intros [= <- <-];
       exists t'; split; [done|]; by eexists.
Qed.

Lemma all_stepped_old {A} (step : SeedSpec -> option (SeedSpec * A)) m m' n x :
  all_stepped step m m' -> m !! n = Some x -> exists x' a, m' !! n = Some x' /\ step x = Some (x', a).
Proof.
  intros H Hn. specialize (H n). rewrite Hn in H. inversion H as [? x' (a & Ha)|]; subst. exists x', a. by split.
Qed.
Lemma all_stepped_new {A} (step : SeedSpec -> option (SeedSpec * A)) m m' n x' :
  all_stepped step m m' -> m' !! n = Some x' -> exists x a, m !! n = Some x /\ step x = Some (x', a).
Proof.
  intros H Hn. specialize (H n). rewrite Hn in H. inversion H as [x ? (a & Ha)|]; subst. exists x, a. by split.
Qed.

Lemma all_stepped_replicated req w w' t :
  metering_changes req = true -> replicated w t -> all_stepped (metering_step req) (specs_of w) (specs_of w') ->
  exists t' x, table_next req t = Some (t', x) /\ replicated w' t'.
Proof.
  intros Hc [Hne Hrep] Hall. apply map_choose in Hne as (n & spec & Hn).
  destruct (all_stepped_old _ _ _ _ _ Hall Hn) as (spec' & x & Hn' & Hx).
  destruct (metering_step_next _ _ _ _ _ Hc (Hrep _ _ Hn) Hx) as (t' & Ht & _). exists t', x. split; [done|]. split.
  { intros H. by rewrite H, lookup_empty in Hn'. }
  intros k speck' Hk'. destruct (all_stepped_new _ _ _ _ _ Hall Hk') as (speck & y & Hk & Hy).
  destruct (metering_step_next _ _ _ _ _ Hc (Hrep _ _ Hk) Hy) as (t'' & Ht' & H).
  rewrite Ht in Ht'. by injection Ht' as -> _.
Qed.

Lemma replicated_same w w' t : same_store w w' -> replicated w t -> replicated w' t.
Proof. intros Hs. unfold replicated. by rewrite (specs_of_proper _ _ Hs). Qed.

Lemma replicated_report w t n spec t' : replicated w t -> specs_of w !! n = Some spec -> has_reports spec t' -> t' = t.
Proof. intros [_ H] Hn (m & Hm & <-). destruct (H _ _ Hn) as (m' & Hm' & <-). congruence. Qed.

Lemma metering_effect_table req w a w' t : replicated w t -> metering_effect req w a w' ->
  exists t' x, table_next req t = Some (t', x) /\ table_answer req t x a /\ replicated w' t'.
Proof.
  intros Hrep. destruct (metering_changes req) eqn:Hc.
  - intros H. assert (all_stepped (metering_step req) (specs_of w) (specs_of w') /\ change_answer req w a) as [Hall Ha]
      by (by destruct req; destruct H).
    destruct (all_stepped_replicated _ _ _ _ Hc Hrep Hall) as (t' & x & Ht & Hr). exists t', x. split; [done|]. split; [|done].
    assert (forall y, (exists n spec spec', specs_of w !! n = Some spec /\ metering_step req spec = Some (spec', Some y)) -> x = Some y) as Hy.
    { intros y (n & spec & spec' & Hn & Hstep). destruct Hrep as [_ Hrep].
      destruct (metering_step_next _ _ _ _ _ Hc (Hrep _ _ Hn) Hstep) as (? & ? & _). congruence. }
    destruct Hrep as [Hne _]. destruct req; try done; destruct a as [|[y|]|]; try done; by rewrite (Hy y Ha).
  - destruct req; try done; cbn [metering_effect table_next table_answer].
    + intros (Hs & report & n & spec & t' & -> & Hn & Ht & Hr). rewrite (replicated_report _ _ _ _ _ Hrep Hn Ht) in Hr.
      exists t, None. split; [done|]. split; [by exists report|by eapply replicated_same].
    + intros (Hs & l & -> & Hl). exists t, None. split; [done|]. split; [|by eapply replicated_same]. exists l. split; [done|].
      destruct Hl as [(n & spec & t' & Hn & Ht & Hr)|[_ Hno]]; [by rewrite <- (replicated_report _ _ _ _ _ Hrep Hn Ht)|].
      destruct Hrep as [(n & spec & Hn)%map_choose Hrep]. destruct (Hrep _ _ Hn) as (m & Hm & _).
      by rewrite (Hno _ _ Hn) in Hm.
Qed.

(** As long as no change fails, seeds that have the same reports keep having
    the same reports, and the requests work on them as on one table: what is
    created, changed or deleted is so in every seed, a report is read from any of
    them, and a list shows the whole table. *)
Theorem reports_stay_replicated calls w t :
  replicated w t ->
  let '(rs, w') := serve_meterings calls w in
  Forall2 no_change_failed calls rs ->
  exists t', table_steps t calls rs t' /\ replicated w' t'.
Proof.
  revert w t. induction calls as [|[ctx req] calls IH]; intros w t Hrep; cbn [serve_meterings].
  { intros _. exists t. split; [constructor|done]. }
  pose proof (metering_outcome_holds ctx req w) as H. destruct (serve (ctx, req) w) as [r w1] eqn:E.
  apply (runs_elim _ _ _ _ _ H) in E. destruct (serve_meterings calls w1) as [rs w2] eqn:Er.
  intros [Hr Hrs]%Forall2_cons. destruct r as [a|e|]; [| |done].
  - destruct E as (Ha & Hv & He). destruct (metering_effect_table _ _ _ _ _ Hrep He) as (t1 & x & Hn & Hans & Hrep1).
    specialize (IH w1 t1 Hrep1). rewrite Er in IH. destruct (IH Hrs) as (t' & Hsteps & Hrep').
    exists t'. split; [|done]. by eapply table_steps_ok.
  - unfold no_change_failed in Hr. cbn [snd is_ok] in Hr. unfold metering_outcome, metering_failed in E.
    destruct (metering_changes req) eqn:Hc; [by specialize (Hr eq_refl)|].
    specialize (IH w1 t (replicated_same _ _ _ E Hrep)). rewrite Er in IH. destruct (IH Hrs) as (t' & Hsteps & Hrep').
    exists t'. split; [|done]. by apply table_steps_err.
Qed.
End metering_effects.

(** ** Witnesses *)

#[local] Existing Instances refQuantities refQuantities_laws refRange refRange_laws.
#[local] Instance refMetering : MeteringSDK := {|
  IsDNS1035Label name := if is_empty name then ["must not be empty"] else [];
  cron_Parse s := negb (is_empty s) |}.

Definition weekly : MeteringReport := MkMeteringReport "0 1 * * 6" 7 None ["cluster"].
Definition seedMetered (name : string) (t : gmap string MeteringReport) : Seed :=
  MkSeed (meta_with_namespace "kubermatic" (metaNamed name))
    (seedspec_with_metering (Some (MkMetering true "fast" "100Gi" t)) emptySeedSpec) "Healthy".
Definition meteringWorld (seeds : list Seed) : Mem :=
  mem_of (fun k => match k return list (obj k) with
    | KUser => [alice; bob]
    | KSeed => seeds
    | _ => []
    end) 1000000000000%Z [] (fun _ _ _ _ => true).
Definition meteredSeeds : Mem :=
  meteringWorld [seedMetered "eu" {[ "weekly" := weekly ]}; seedMetered "us" {[ "weekly" := weekly ]}].

Definition dailyReq : createReportConfigurationReq := MkCreateReportReq "daily" "0 1 * * *" 1 (Some 30%Z) None.
Definition meteringCalls : list (Ctx * MeteringRequest) :=
  [(aliceCtx, CreateReport dailyReq);
   (bobCtx, ListReports);
   (aliceCtx, UpdateReport (MkUpdateReportReq "daily" "" (Some 2%Z) None None));
   (aliceCtx, Configure (MkConfigurationReq true "fast" "200Gi"));
   (aliceCtx, DeleteReport "weekly");
   (aliceCtx, GetReport "daily");
   (aliceCtx, GetReport "weekly")].

Lemma metering_requests_exact_witness :
  let run := serve_metering seedGetter UserInfoGetterFactory (aliceCtx, CreateReport dailyReq) meteredSeeds in
  (exists a, run.1 = Ok a /\ metering_effect (CreateReport dailyReq) meteredSeeds a run.2) /\
  is_ok (serve_metering seedGetter UserInfoGetterFactory (bobCtx, CreateReport dailyReq) meteredSeeds).1 = false /\
  is_ok (serve_metering seedGetter UserInfoGetterFactory (aliceCtx, CreateReport dailyReq) run.2).1 = false.
Proof.
  intros run. run_ok run a E. split; [|split; vm_compute; reflexivity].
  exists a. split; [exact E|].
  run_thm run E (metering_requests_exact seedGetter aliceCtx (CreateReport dailyReq) meteredSeeds) H.
  exact (proj2 (proj2 H)).
Defined.

Definition report_names (spec : SeedSpec) : list string :=
  (map_to_list (from_option metering_ReportConfigurations ∅ (seedspec_Metering spec))).*1.
Definition meteredSpec : SeedSpec := seed_Spec (seedMetered "" {[ "weekly" := weekly ]}).

(** Bob may not list the reports; the deleted report is not found. *)
Lemma reports_stay_replicated_witness :
  let run := serve_meterings seedGetter meteringCalls meteredSeeds in
  (is_ok <$> run.1) = [true; false; true; true; true; true; false] /\
  exists t', table_steps {[ "weekly" := weekly ]} meteringCalls run.1 t' /\ replicated run.2 t' /\
    (map_to_list t').*1 = ["daily"].
Proof.
  intros run. split; [vm_compute; reflexivity|].
  pose proof (reports_stay_replicated seedGetter meteringCalls meteredSeeds {[ "weekly" := weekly ]}) as H. fold run in H.
  assert (replicated meteredSeeds {[ "weekly" := weekly ]}) as Hrep.
  { split; [by vm_compute|]. intros n spec Hn.
    assert (specs_of meteredSeeds = {[ "eu" := meteredSpec; "us" := meteredSpec ]}) as Hw by (vm_compute; reflexivity).
    rewrite Hw in Hn. exists (MkMetering true "fast" "100Gi" {[ "weekly" := weekly ]}).
    apply lookup_insert_Some in Hn as [[_ Hn]|[_ Hn]]; [|apply lookup_singleton_Some in Hn as [_ Hn]];
      rewrite <- Hn; split; reflexivity. }
  specialize (H Hrep). destruct run as [rs w'] eqn:Er.
  assert (Forall2 no_change_failed meteringCalls rs) as Hok.
  { change rs with (rs, w').1. rewrite <- Er. unfold run, no_change_failed. vm_compute. by repeat constructor. }
  destruct (H Hok) as (t' & Hsteps & Hrep'). exists t'. split; [exact Hsteps|]. split; [exact Hrep'|].
  assert (report_names <$> specs_of w' !! "eu" = Some ["daily"]) as Heu.
  { change w' with (rs, w').2. rewrite <- Er. vm_compute. reflexivity. }
  destruct (specs_of w' !! "eu") as [spec|] eqn:Es; [|done].
  destruct (proj2 Hrep' _ _ Es) as (m & Hm & <-). cbn in Heu. unfold report_names in Heu. rewrite Hm in Heu.
  by injection Heu.
Defined.

(** A creation that fails half-way: the seed that has no settings for metering
    refuses, the seed before it has the report. *)
Example creation_stops_half_way :
  let w := meteringWorld [seedMetered "us" ∅; seedWith "eu" ∅] in
  let run := serve_metering seedGetter UserInfoGetterFactory (aliceCtx, CreateReport dailyReq) w in
  is_ok run.1 = false /\
  report_names <$> specs_of run.2 = {[ "eu" := []; "us" := ["daily"] ]}.
Proof. vm_compute. done. Qed.
