(* ===== verification/PresetHandlers.v ===== *)
(** The endpoints of presets: handler/v2/preset/preset.go, and the list of the
    names of handler/v1/presets/credentials.go.  They implement a table of
    presets, whose credentials no list shows. *)
From S2P Require Export Handlers Presets.

(** ** The types of api/v2/types.go *)

Record VMwareCloudDirectorAPIPreset := MkVCDAPIPreset {
  vcdapi_OVDCNetwork : string;
  vcdapi_OVDCNetworks : list string }.

Record OpenStackAPIPreset := MkOpenStackAPIPreset {
  osapi_Network : string;
  osapi_SecurityGroups : string;
  osapi_FloatingIPPool : string;
  osapi_RouterID : string;
  osapi_SubnetID : string }.

(** apiv2.PresetProvider *)
Record ApiPresetProvider := MkApiPresetProvider {
  apipp_Name : string;
  apipp_Enabled : bool;
  apipp_IsCustomizable : bool;
  apipp_VMwareCloudDirector : option VMwareCloudDirectorAPIPreset;
  apipp_OpenStack : option OpenStackAPIPreset }.

(** apiv2.Preset *)
Record ApiPreset := MkApiPreset {
  apipreset_Name : string;
  apipreset_Enabled : bool;
  apipreset_Providers : list ApiPresetProvider }.

#[export] Instance VMwareCloudDirectorAPIPreset_eq_dec : EqDecision VMwareCloudDirectorAPIPreset.
Proof. solve_decision. Defined.
#[export] Instance OpenStackAPIPreset_eq_dec : EqDecision OpenStackAPIPreset.
Proof. solve_decision. Defined.
#[export] Instance ApiPresetProvider_eq_dec : EqDecision ApiPresetProvider.
Proof. solve_decision. Defined.
#[export] Instance ApiPreset_eq_dec : EqDecision ApiPreset.
Proof. solve_decision. Defined.

(** apiv2.PresetBody *)
Record PresetBody := MkPresetBody {
  pbody_Name : string;
  pbody_Spec : PresetSpec }.

(** ** The requests *)

Record listPresetsReq := MkListPresetsReq {
  lpr_Disabled : bool;
  lpr_Name : string }.

Record updatePresetStatusReq := MkUpdatePresetStatusReq {
  ups_PresetName : string;
  ups_Provider : string;
  ups_Enabled : bool }.

Record listProviderPresetsReq := MkListProviderPresetsReq {
  lppr_listPresetsReq : listPresetsReq;
  lppr_ProviderName : string;
  lppr_Datacenter : string }.

(** createPresetReq, which updatePresetReq embeds. *)
Record createPresetReq := MkCreatePresetReq {
  cpr_ProviderName : string;
  cpr_Body : PresetBody }.

(** deletePresetProviderReq and deleteProviderPresetReq. *)
Record deletePresetProviderReq := MkDeletePresetProviderReq {
  dppr_PresetName : string;
  dppr_ProviderName : string }.

Section validation.
Context {EL : ErrorLib} {SDKP : PresetSDK}.

Definition updatePresetStatusReq_Validate (r : updatePresetStatusReq) : result error unit :=
  if is_empty (ups_PresetName r) then Err (ENew "the preset name cannot be empty") else
  if negb (is_empty (ups_Provider r)) && negb (IsProviderSupported (ups_Provider r))
  then Err (ENew ("invalid provider name " +:+ ups_Provider r)) else Ok tt.

Definition matchesDatacenter (l : listProviderPresetsReq) (datacenter : string) : bool :=
  is_empty datacenter || is_empty (lppr_Datacenter l) || EqualFold (lppr_Datacenter l) datacenter.

(** The check of the provider that several requests share. *)
Definition validProvider (ProviderName : string) : result error unit :=
  if is_empty ProviderName then Err (ENew "the provider name cannot be empty") else
  if negb (IsProviderSupported ProviderName)
  then Err (ENew ("invalid provider name " +:+ ProviderName)) else Ok tt.

Definition listProviderPresetsReq_Validate (l : listProviderPresetsReq) : result error unit :=
  validProvider (lppr_ProviderName l).

Definition convertAPIToInternalPreset (preset : PresetBody) : Preset :=
  {| preset_meta := metaNamed (pbody_Name preset); preset_Spec := pbody_Spec preset |}.

(** [for _, providerType := range kubermaticv1.SupportedProviders { ... }]. *)
Fixpoint noOtherProvider (preset : Preset) (ProviderName : string) (providers : list string) : result error unit :=
  match providers with
  | [] => Ok tt
  | providerType :: providers =>
      if bool_decide (providerType = ProviderName) then noOtherProvider preset ProviderName providers else
      if PresetHasProvider preset providerType
      then Err (ENew ("found unexpected provider configuration for: " +:+ providerType))
      else noOtherProvider preset ProviderName providers
  end.

Definition createPresetReq_Validate (r : createPresetReq) : result error unit :=
  let preset := convertAPIToInternalPreset (cpr_Body r) in
  match validProvider (cpr_ProviderName r) with
  | Ok _ =>
      if is_empty (pbody_Name (cpr_Body r)) then Err (ENew "preset name cannot be empty") else
      if negb (PresetHasProvider preset (cpr_ProviderName r))
      then Err (ENew ("missing provider configuration for: " +:+ cpr_ProviderName r)) else
      match ValidatePreset preset (cpr_ProviderName r) with
      | Ok _ => noOtherProvider preset (cpr_ProviderName r) SupportedProviders
      | err => err
      end
  | err => err
  end.

Definition deletePresetReq_Validate (PresetName : string) : result error unit :=
  if is_empty PresetName then Err (ENew "preset name cannot be empty") else Ok tt.

Definition deletePresetProviderReq_Validate (r : deletePresetProviderReq) : result error unit :=
  if is_empty (dppr_PresetName r) then Err (ENew "the preset name cannot be empty") else
  validProvider (dppr_ProviderName r).

Definition deleteProviderPresetReq_Validate (r : deletePresetProviderReq) : result error unit :=
  match validProvider (dppr_ProviderName r) with
  | Ok _ => if is_empty (dppr_PresetName r) then Err (ENew "preset name cannot be empty") else Ok tt
  | err => err
  end.

(** ** What the endpoints answer *)

(** The part of VMware Cloud Director, and of OpenStack, in the provider. *)
Definition vcdAPI (s : PresetSpec) (providerType : string) : option VMwareCloudDirectorAPIPreset :=
  if bool_decide (providerType = VMwareCloudDirectorCloudProvider) then
    match ps_VMwareCloudDirector s with
    | None => None
    | Some p =>
        match ps_vcd_OVDCNetworks p with
        | Some OVDCNetworks => Some {| vcdapi_OVDCNetwork := ""; vcdapi_OVDCNetworks := OVDCNetworks |}
        | None => None (* the length of a nil slice is 0 *)
        end
    end
  else None.

Definition openstackAPI (s : PresetSpec) (providerType : string) : bool * option OpenStackAPIPreset :=
  if bool_decide (providerType = OpenstackCloudProvider) then
    match ps_Openstack s with
    | None => (false, None)
    | Some p =>
        (ps_os_IsCustomizable p,
         if ps_os_IsCustomizable p then
           Some {| osapi_Network := ps_os_Network p; osapi_SecurityGroups := ps_os_SecurityGroups p;
                   osapi_FloatingIPPool := ps_os_FloatingIPPool p; osapi_RouterID := ps_os_RouterID p;
                   osapi_SubnetID := ps_os_SubnetID p |}
         else None)
    end
  else (false, None).

Definition newAPIPreset (preset : Preset) (enabled : bool) : ApiPreset :=
  {| apipreset_Name := meta_Name (preset_meta preset);
     apipreset_Enabled := enabled;
     apipreset_Providers :=
       (fun providerType =>
          let openstack := openstackAPI (preset_Spec preset) providerType in
          {| apipp_Name := providerType;
             apipp_Enabled := IsPresetProviderEnabled preset providerType;
             apipp_IsCustomizable := openstack.1;
             apipp_VMwareCloudDirector := vcdAPI (preset_Spec preset) providerType;
             apipp_OpenStack := openstack.2 |}) <$> GetPresetProviderList preset |}.

Definition mergePresets (oldPreset newPreset : Preset) (providerType : string) : result error Preset :=
  result_map (fun oldPreset =>
    preset_with_spec (spec_with_emails (ps_RequiredEmails (preset_Spec newPreset)) (preset_Spec oldPreset)) oldPreset)
    (OverridePresetProvider oldPreset providerType newPreset).
End validation.

(** ** The endpoints *)

Section preset_handlers.
Context {W : Type} {EL : ErrorLib} {SDKP : PresetSDK} {PRESETS : PresetProvider W}.
Variable userInfoGetter : UserInfoGetter W.

(** The loops of the lists: the presets that are shown, disabled ones on request. *)
Definition enabledPresets (disabled : bool) (presets : list Preset) : list ApiPreset :=
  flat_map (fun preset =>
    let enabled := spec_IsEnabled (preset_Spec preset) in
    if negb enabled && negb disabled then [] else [newAPIPreset preset enabled]) presets.

(** [len(preset.Spec.Projects) > 0 && !userInfo.IsAdmin]. *)
Definition limitedToProjects (userInfo : UserInfo) (preset : Preset) : bool :=
  bool_decide (0 < length (ps_Projects (preset_Spec preset))) && negb (ui_IsAdmin userInfo).

Definition providerPresets (req : listProviderPresetsReq) (presets : list Preset) : list ApiPreset :=
  flat_map (fun preset =>
    match GetProviderPreset preset (lppr_ProviderName req) with
    | None => [] (* preset does not contain requested provider configuration *)
    | Some providerPreset =>
        if negb (matchesDatacenter req (pp_Datacenter providerPreset)) then [] else
        let enabled := spec_IsEnabled (preset_Spec preset) && base_IsEnabled providerPreset in
        if negb (lpr_Disabled (lppr_listPresetsReq req)) && negb enabled then [] else
        [newAPIPreset preset enabled]
    end) presets.

Definition ListPresets (ctx : Ctx) (req : listPresetsReq) : M W error (list ApiPreset) :=
  userInfo ← httpErr (userInfoGetter ctx "");
  presets ← mapErr internalError (presets_GetPresets userInfo None);
  mret (enabledPresets (lpr_Disabled req)
    (List.filter (fun preset => negb (limitedToProjects userInfo preset)) presets)).

(** The answer is a list, a preset, or nothing: [inl], or [inr] of an option. *)
Definition ListProjectPresets (ctx : Ctx) (ProjectID : string) (req : listPresetsReq)
    : M W error (list ApiPreset + option ApiPreset) :=
  userInfo ← httpErr (userInfoGetter ctx ProjectID);
  if negb (is_empty (lpr_Name req)) then
    preset ← httpErr (presets_GetPreset userInfo (Some ProjectID) (lpr_Name req));
    let enabled := spec_IsEnabled (preset_Spec preset) in
    if negb enabled && negb (lpr_Disabled req) then mret (inr None)
    else mret (inr (Some (newAPIPreset preset enabled)))
  else
    presets ← httpErr (presets_GetPresets userInfo (Some ProjectID));
    mret (inl (enabledPresets (lpr_Disabled req) presets)).

(** [if !userInfo.IsAdmin { return utilerrors.New(http.StatusForbidden, msg) }],
    after the user info of the request. *)
Definition onlyAdmins (ctx : Ctx) (msg : string) : M W error UserInfo :=
  userInfo ← httpErr (userInfoGetter ctx "");
  _ ← throwIf (negb (ui_IsAdmin userInfo)) (utilerrors_New 403 msg);
  mret userInfo.

Definition UpdatePresetStatus (ctx : Ctx) (req : updatePresetStatusReq) : M W error unit :=
  _ ← validRequest (updatePresetStatusReq_Validate req);
  userInfo ← onlyAdmins ctx "only admins can update presets";
  preset ← httpErr (presets_GetPreset userInfo None (ups_PresetName req));
  if is_empty (ups_Provider req) then
    _ ← presets_UpdatePreset
          (preset_with_spec (spec_SetEnabled (ups_Enabled req) (preset_Spec preset)) preset);
    mret tt
  else
    _ ← throwIf (negb (PresetHasProvider preset (ups_Provider req)))
          (utilerrors_New 409 ("trying to update preset with missing provider configuration for: " +:+ ups_Provider req));
    preset ← lift (SetPresetProviderEnabled preset (ups_Provider req) (ups_Enabled req));
    _ ← presets_UpdatePreset preset;
    mret tt.

Definition ListProviderPresets (ctx : Ctx) (req : listProviderPresetsReq) : M W error (list ApiPreset) :=
  _ ← validRequest (listProviderPresetsReq_Validate req);
  userInfo ← httpErr (userInfoGetter ctx "");
  presets ← mapErr internalError (presets_GetPresets userInfo None);
  mret (providerPresets req
    (List.filter (fun preset => negb (limitedToProjects userInfo preset)) presets)).

Definition ListProjectProviderPresets (ctx : Ctx) (ProjectID : string) (req : listProviderPresetsReq)
    : M W error (list ApiPreset) :=
  _ ← validRequest (listProviderPresetsReq_Validate req);
  userInfo ← httpErr (userInfoGetter ctx ProjectID);
  presets ← mapErr internalError (presets_GetPresets userInfo (Some ProjectID));
  mret (providerPresets req presets).

(** The end CreatePreset and UpdatePreset share: the configuration of the
    provider and the required emails are taken over. *)
Definition updateProvider (preset : Preset) (req : createPresetReq) : M W error ApiPreset :=
  preset ← lift (mergePresets preset (convertAPIToInternalPreset (cpr_Body req)) (cpr_ProviderName req));
  preset ← presets_UpdatePreset preset;
  mret (newAPIPreset preset
    (spec_IsEnabled (preset_Spec preset) && IsPresetProviderEnabled preset (cpr_ProviderName req))).

(** A new preset is answered as it is stored, an extended one as [apiv2.Preset]. *)
Definition CreatePreset (ctx : Ctx) (req : createPresetReq) : M W error (Preset + ApiPreset) :=
  _ ← validRequest (createPresetReq_Validate req);
  userInfo ← onlyAdmins ctx "only admins can update presets";
  got ← attempt (presets_GetPreset userInfo None (pbody_Name (cpr_Body req)));
  match got with
  | inl err =>
      if apierrors_IsNotFound err
      then preset ← presets_CreatePreset (convertAPIToInternalPreset (cpr_Body req)); mret (inl preset)
      else throw err
  | inr preset =>
      _ ← throwIf (PresetHasProvider preset (cpr_ProviderName req))
            (utilerrors_New 409 (cpr_ProviderName req +:+ " provider configuration already exists for preset " +:+
               meta_Name (preset_meta preset)));
      answer ← updateProvider preset req;
      mret (inr answer)
  end.

Definition UpdatePreset (ctx : Ctx) (req : createPresetReq) : M W error ApiPreset :=
  _ ← validRequest (createPresetReq_Validate req);
  userInfo ← onlyAdmins ctx "only admins can update presets";
  preset ← httpErr (presets_GetPreset userInfo None (pbody_Name (cpr_Body req)));
  updateProvider preset req.

(** [if apierrors.IsNotFound(err) { return notFound }; if err != nil { return other(err) }]. *)
Definition orNotFound (notFound : error) (other : error -> error) : error -> error := fun err =>
  if apierrors_IsNotFound err then notFound else other err.

Definition DeletePreset (ctx : Ctx) (PresetName : string) : M W error unit :=
  _ ← validRequest (deletePresetReq_Validate PresetName);
  userInfo ← onlyAdmins ctx "only admins can delete presets";
  preset ← mapErr (orNotFound (utilerrors_NewNotFound "Preset" "preset was not found.") id)
             (presets_GetPreset userInfo None PresetName);
  _ ← presets_DeletePreset preset;
  mret tt.

(** The answer is the preset as it is stored now. *)
Definition DeletePresetProvider (ctx : Ctx) (req : deletePresetProviderReq) : M W error Preset :=
  _ ← validRequest (deletePresetProviderReq_Validate req);
  userInfo ← onlyAdmins ctx "only admins can delete preset providers";
  preset ← mapErr (orNotFound (utilerrors_NewNotFound "Preset" "preset was not found.") internalError)
             (presets_GetPreset userInfo None (dppr_PresetName req));
  _ ← throwIf (negb (PresetHasProvider preset (dppr_ProviderName req)))
        (utilerrors_NewNotFound "Preset" ("preset " +:+ dppr_PresetName req +:+ " does not contain " +:+
           dppr_ProviderName req +:+ " provider"));
  preset ← lift (RemovePresetProvider preset (dppr_ProviderName req));
  presets_UpdatePreset preset.

Definition DeleteProviderPreset (ctx : Ctx) (req : deletePresetProviderReq) : M W error ApiPreset :=
  _ ← validRequest (deleteProviderPresetReq_Validate req);
  userInfo ← onlyAdmins ctx "only admins can delete presets";
  preset ← mapErr (orNotFound (utilerrors_NewBadRequest "preset was not found.") id)
             (presets_GetPreset userInfo None (dppr_PresetName req));
  preset ← lift (RemovePresetProvider preset (dppr_ProviderName req));
  preset ← (if bool_decide (0 < length (GetPresetProviderList preset))
            then presets_UpdatePreset preset (* remove provider from the preset *)
            else presets_DeletePreset preset);
  mret (newAPIPreset preset (spec_IsEnabled (preset_Spec preset))).
End preset_handlers.

(** ** handler/v1/presets/credentials.go *)

Section credential_names.
Context {W : Type} {EL : ErrorLib} {SDKP : PresetSDK} {PRESETS : PresetProvider W}.
Variable userInfoGetter : UserInfoGetter W.

Definition providerNames : list string :=
  ["digitalocean"; "hetzner"; "azure"; "vsphere"; "baremetal"; "aws"; "openstack"; "gcp"; "kubevirt";
   "alibaba"; "anexia"; "nutanix"; "vmwareclouddirector"].

Record providerReq := MkProviderReq {
  pr_ProviderName : string;
  pr_Datacenter : string }.

Definition providerReq_Validate (r : providerReq) : result error unit :=
  if is_empty (pr_ProviderName r) then Err (ENew "the provider name cannot be empty") else
  if existsb (fun existingProviders => bool_decide (existingProviders = pr_ProviderName r)) providerNames
  then Ok tt else Err (ENew ("invalid provider name " +:+ pr_ProviderName r)).

(** The cases of the switch: the field of the provider. *)
Definition switchField (ProviderName : string) : option PresetField :=
  match List.find (fun c => bool_decide (c.1 = ProviderName))
    [("digitalocean", FDigitalocean); ("hetzner", FHetzner); ("azure", FAzure); ("vsphere", FVSphere);
     ("baremetal", FBaremetal); ("aws", FAWS); ("openstack", FOpenstack); ("gcp", FGCP);
     ("kubevirt", FKubevirt); ("alibaba", FAlibaba); ("anexia", FAnexia); ("nutanix", FNutanix);
     ("vmwareclouddirector", FVMwareCloudDirector)] with
  | Some c => Some c.2
  | None => None
  end.

(** The body of the loop: the name of a preset of the provider. *)
Definition credentialName (req : providerReq) (preset : Preset) : list string :=
  match switchField (pr_ProviderName req) with
  | None => []
  | Some f =>
      match field_get f (preset_Spec preset) with
      | None => []
      | Some v =>
          let datacenterValue := pp_Datacenter (field_base f v) in
          if bool_decide (datacenterValue = pr_Datacenter req) || is_empty datacenterValue
          then [meta_Name (preset_meta preset)] else []
      end
  end.

Definition CredentialEndpoint (ctx : Ctx) (req : providerReq) : M W error (list string) :=
  _ ← validRequest (providerReq_Validate req);
  userInfo ← httpErr (userInfoGetter ctx "");
  presets ← mapErr internalError (presets_GetPresets userInfo (Some ""));
  mret (flat_map (credentialName req) presets).
End credential_names.
