(* ===== verification/PresetTable.v ===== *)
(** The presets of an installation as a table, and the refinement of the
    endpoints of PresetHandlers to operations on that table. *)
From S2P Require Export PresetHandlers.

(** ** All requests *)

Inductive PresetRequest :=
| RListPresets (req : listPresetsReq)
| RListProjectPresets (projectID : string) (req : listPresetsReq)
| RListProviderPresets (req : listProviderPresetsReq)
| RListProjectProviderPresets (projectID : string) (req : listProviderPresetsReq)
| RListCredentials (req : providerReq)
| RUpdatePresetStatus (req : updatePresetStatusReq)
| RCreatePreset (req : createPresetReq)
| RUpdatePreset (req : createPresetReq)
| RDeletePreset (name : string)
| RDeletePresetProvider (req : deletePresetProviderReq)
| RDeleteProviderPreset (req : deletePresetProviderReq).

Inductive PresetAnswer :=
| PresetsShown (l : list ApiPreset)
| PresetShown (a : ApiPreset)
| PresetStored (p : Preset)
| PresetNames (l : list string)
| PresetNothing.

Section serve_presets.
Context {W : Type} {EL : ErrorLib} {SDKP : PresetSDK} {PRESETS : PresetProvider W}.
Variable userInfoGetter : UserInfoGetter W.

Definition projectAnswer (r : list ApiPreset + option ApiPreset) : PresetAnswer :=
  match r with
  | inl l => PresetsShown l
  | inr (Some a) => PresetShown a
  | inr None => PresetNothing
  end.
Definition createAnswer (r : Preset + ApiPreset) : PresetAnswer :=
  match r with inl p => PresetStored p | inr a => PresetShown a end.

Definition serve_preset (call : Ctx * PresetRequest) : M W error PresetAnswer :=
  let '(ctx, req) := call in
  match req with
  | RListPresets req => l ← ListPresets userInfoGetter ctx req; mret (PresetsShown l)
  | RListProjectPresets pid req => r ← ListProjectPresets userInfoGetter ctx pid req; mret (projectAnswer r)
  | RListProviderPresets req => l ← ListProviderPresets userInfoGetter ctx req; mret (PresetsShown l)
  | RListProjectProviderPresets pid req =>
      l ← ListProjectProviderPresets userInfoGetter ctx pid req; mret (PresetsShown l)
  | RListCredentials req => l ← CredentialEndpoint userInfoGetter ctx req; mret (PresetNames l)
  | RUpdatePresetStatus req => _ ← UpdatePresetStatus userInfoGetter ctx req; mret PresetNothing
  | RCreatePreset req => r ← CreatePreset userInfoGetter ctx req; mret (createAnswer r)
  | RUpdatePreset req => a ← UpdatePreset userInfoGetter ctx req; mret (PresetShown a)
  | RDeletePreset name => _ ← DeletePreset userInfoGetter ctx name; mret PresetNothing
  | RDeletePresetProvider req => p ← DeletePresetProvider userInfoGetter ctx req; mret (PresetStored p)
  | RDeleteProviderPreset req => a ← DeleteProviderPreset userInfoGetter ctx req; mret (PresetShown a)
  end.

Fixpoint serve_presets (calls : list (Ctx * PresetRequest)) (w : W) : list (result error PresetAnswer) * W :=
  match calls with
  | [] => ([], w)
  | call :: calls =>
      let '(r, w1) := serve_preset call w in
      let '(rs, w2) := serve_presets calls w1 in
      (r :: rs, w2)
  end.
End serve_presets.

(** ** What a preset shows

    The credentials of a provider are blanked; what is left are the datacenter,
    whether it is enabled, and the networks that a user chooses from. *)

Definition redact_value (f : PresetField) : field_type f -> field_type f :=
  match f with
  | FDigitalocean => fun v => MkDigitaloceanPreset (ps_do_base v) ""
  | FHetzner => fun v => MkHetznerPreset (ps_hz_base v) "" ""
  | FAzure => fun v => MkAzurePreset (ps_az_base v) "" "" "" "" "" "" "" "" "" "" ""
  | FVSphere => fun v => MkVSpherePreset (ps_vs_base v) "" "" "" [] "" "" "" ""
  | FBaremetal => fun v => MkBaremetalPreset (ps_bm_base v) None
  | FAWS => fun v => MkAWSPreset (ps_aws_base v) "" "" "" "" "" "" "" "" ""
  | FOpenstack => fun v =>
      let public s := if ps_os_IsCustomizable v then s else "" in
      MkOpenstackPreset (ps_os_base v) false "" "" "" "" "" "" "" (public (ps_os_Network v))
        (public (ps_os_SecurityGroups v)) (public (ps_os_FloatingIPPool v)) (public (ps_os_RouterID v))
        (public (ps_os_SubnetID v)) (ps_os_IsCustomizable v)
  | FGCP => fun v => MkGCPPreset (ps_gcp_base v) "" "" ""
  | FKubevirt => fun v => MkKubevirtPreset (ps_kv_base v) "" "" ""
  | FAlibaba => fun v => MkAlibabaPreset (ps_al_base v) "" ""
  | FAnexia => fun v => MkAnexiaPreset (ps_an_base v) ""
  | FNutanix => fun v => MkNutanixPreset (ps_nx_base v) "" "" "" "" "" "" "" "" None
  | FVMwareCloudDirector => fun v => MkVMwareCloudDirectorPreset (ps_vcd_base v) "" "" "" "" (ps_vcd_OVDCNetworks v) ""
  | FGKE => fun v => MkGKEPreset (ps_gke_base v) ""
  | FEKS => fun v => MkEKSPreset (ps_eks_base v) "" "" "" ""
  | FAKS => fun v => MkAKSPreset (ps_aks_base v) "" "" "" ""
  | FFake => fun v => MkFakePreset (ps_fake_base v) ""
  end.

Definition redact (s : PresetSpec) : PresetSpec :=
  let r f := redact_value f <$> field_get f s in
  MkPresetSpec (r FDigitalocean) (r FHetzner) (r FAzure) (r FVSphere) (r FBaremetal) (r FAWS) (r FOpenstack)
    (r FGCP) (r FKubevirt) (r FAlibaba) (r FAnexia) (r FNutanix) (r FVMwareCloudDirector) (r FGKE) (r FEKS)
    (r FAKS) (r FFake) (ps_Projects s) (ps_RequiredEmails s) (ps_Enabled s).

Lemma field_get_redact f s : field_get f (redact s) = redact_value f <$> field_get f s.
Proof. by destruct f. Qed.
Lemma field_base_redact f v : field_base f (redact_value f v) = field_base f v.
Proof. by destruct f. Qed.

Section shown.
Context {EL : ErrorLib} {SDKP : PresetSDK}.

(** The answer for the preset of this name, without the credentials. *)
Definition shown (name : string) (s : PresetSpec) (enabled : bool) : ApiPreset :=
  newAPIPreset (MkPreset (metaNamed name) (redact s)) enabled.

Lemma PresetHasProvider_redact m s p :
  PresetHasProvider (MkPreset m (redact s)) p = PresetHasProvider (MkPreset m s) p.
Proof.
  unfold PresetHasProvider. destruct (getProviderValue p) as [f|]; [|done]. cbn [preset_Spec].
  rewrite field_get_redact. by destruct (field_get f s).
Qed.

Lemma GetProviderPreset_redact m s p :
  GetProviderPreset (MkPreset m (redact s)) p = GetProviderPreset (MkPreset m s) p.
Proof.
  unfold GetProviderPreset. destruct (getProviderValue p) as [f|]; [|done]. cbn [preset_Spec].
  rewrite field_get_redact. destruct (field_get f s); [|done]. cbn. by rewrite field_base_redact.
Qed.

(** No list shows a credential. *)
Lemma newAPIPreset_shown p enabled :
  newAPIPreset p enabled = shown (meta_Name (preset_meta p)) (preset_Spec p) enabled.
Proof.
  destruct p as [m s]. unfold shown, newAPIPreset. cbn [preset_meta preset_Spec meta_Name metaNamed]. f_equal.
  assert (GetPresetProviderList (MkPreset (metaNamed (meta_Name m)) (redact s)) =
          GetPresetProviderList (MkPreset m s)) as ->.
  { unfold GetPresetProviderList. apply List.filter_ext. intros x. by rewrite PresetHasProvider_redact. }
  apply list_fmap_ext. intros i x _. f_equal.
  - unfold IsPresetProviderEnabled. by rewrite GetProviderPreset_redact.
  - unfold openstackAPI. case_bool_decide; [|done]. change (ps_Openstack (redact s)) with
      (redact_value FOpenstack <$> ps_Openstack s). by destruct (ps_Openstack s).
  - unfold vcdAPI. case_bool_decide; [|done]. change (ps_VMwareCloudDirector (redact s)) with
      (redact_value FVMwareCloudDirector <$> ps_VMwareCloudDirector s). by destruct (ps_VMwareCloudDirector s).
  - unfold openstackAPI. case_bool_decide; [|done]. change (ps_Openstack (redact s)) with
      (redact_value FOpenstack <$> ps_Openstack s). destruct (ps_Openstack s) as [v|]; [|done]. cbn.
    by destruct (ps_os_IsCustomizable v).
Qed.
End shown.

(** ** The specification *)

Abbreviation Table := (gmap string PresetSpec).

Section specification.
Context {EL : ErrorLib} {SDKP : PresetSDK}.
(** The users with a group in a project. *)
Variable member : User -> string -> Prop.

(** The field of the provider, and a configuration of it that has what it needs. *)
Definition names_field (f : PresetField) (provider : string) : Prop := EqualFold (field_name f) provider = true.
Definition config_valid (f : PresetField) (v : field_type f) : Prop :=
  exists IsValid, provider_IsValid f = Some IsValid /\ IsValid v = true.

(** Every configuration of every preset has what it needs. *)
Definition spec_valid (s : PresetSpec) : Prop := forall f v, field_get f s = Some v -> config_valid f v.
Definition table_valid (t : Table) : Prop := forall name s, t !! name = Some s -> spec_valid s.

Definition request_user (ctx : Ctx) (P : User -> Prop) : Prop := exists user, ctx_UserCR ctx = Some user /\ P user.
Definition admin (ctx : Ctx) : Prop := request_user ctx (fun user => user_IsAdmin user = true).

(** A preset is open to a user in a project ([None]: outside of projects), and it
    is not meant for projects only. *)
Definition open_to (user : User) (projectID : option string) (s : PresetSpec) : Prop :=
  (forall pid, projectID = Some pid -> ps_Projects s = [] \/ pid ∈ ps_Projects s) /\
  (email_MatchesRequirements (user_Email user) (ps_RequiredEmails s) = Ok true \/ user_IsAdmin user = true).
(** The user of the request may look at the project of the path. *)
Definition in_project (user : User) (projectID : string) : Prop := projectID = "" \/ member user projectID.
Definition for_everybody (user : User) (s : PresetSpec) : Prop :=
  ps_Projects s = [] \/ user_IsAdmin user = true.

(** What passes the filters of the lists, with the flag the answer has. *)
Definition passes_enabled (req : listPresetsReq) (s : PresetSpec) (e : bool) : Prop :=
  e = spec_IsEnabled s /\ (e = true \/ lpr_Disabled req = true).
Definition passes_provider (req : listProviderPresetsReq) (s : PresetSpec) (e : bool) : Prop :=
  exists f v, names_field f (lppr_ProviderName req) /\ field_get f s = Some v /\
    matchesDatacenter req (pp_Datacenter (field_base f v)) = true /\
    e = spec_IsEnabled s && base_IsEnabled (field_base f v) /\
    (e = true \/ lpr_Disabled (lppr_listPresetsReq req) = true).

(** The list shows the presets that pass, and nothing else. *)
Definition shows_presets (t : Table) (pass : PresetSpec -> bool -> Prop) (l : list ApiPreset) : Prop :=
  forall a, a ∈ l <-> exists name s e, t !! name = Some s /\ pass s e /\ a = shown name s e.

(** A body with one valid configuration, that of the requested provider. *)
Definition valid_body (req : createPresetReq) (f : PresetField) (v : field_type f) : Prop :=
  names_field f (cpr_ProviderName req) /\ field_get f (pbody_Spec (cpr_Body req)) = Some v /\
  config_valid f v /\ (forall g, g <> f -> field_get g (pbody_Spec (cpr_Body req)) = None) /\
  pbody_Name (cpr_Body req) <> "".

(** The configuration [v] and the required emails of the body replace those of [s]. *)
Definition merged (req : createPresetReq) (f : PresetField) (v : field_type f) (s : PresetSpec) : PresetSpec :=
  spec_with_emails (ps_RequiredEmails (pbody_Spec (cpr_Body req))) (field_set f (Some v) s).
Definition merged_answer (req : createPresetReq) (f : PresetField) (v : field_type f) (s : PresetSpec) : ApiPreset :=
  shown (pbody_Name (cpr_Body req)) s (spec_IsEnabled s && base_IsEnabled (field_base f v)).

(** One request changes the table [t] to [t'] and gets an answer. *)
Inductive preset_step (t : Table) : Ctx * PresetRequest -> result error PresetAnswer -> Table -> Prop :=
| step_refused call e :
    preset_step t call (Err e) t
| step_list ctx req l :
    request_user ctx (fun user =>
      shows_presets t (fun s e => open_to user None s /\ for_everybody user s /\ passes_enabled req s e) l) ->
    preset_step t (ctx, RListPresets req) (Ok (PresetsShown l)) t
| step_list_project ctx pid req l :
    request_user ctx (fun user => in_project user pid /\
      shows_presets t (fun s e => open_to user (Some pid) s /\ passes_enabled req s e) l) ->
    preset_step t (ctx, RListProjectPresets pid req) (Ok (PresetsShown l)) t
| step_get_project ctx pid req s :
    request_user ctx (fun user => in_project user pid /\ open_to user (Some pid) s) ->
    t !! lpr_Name req = Some s -> spec_IsEnabled s = true \/ lpr_Disabled req = true ->
    preset_step t (ctx, RListProjectPresets pid req)
      (Ok (PresetShown (shown (lpr_Name req) s (spec_IsEnabled s)))) t
| step_get_disabled ctx pid req s :
    request_user ctx (fun user => in_project user pid /\ open_to user (Some pid) s) ->
    t !! lpr_Name req = Some s -> spec_IsEnabled s = false -> lpr_Disabled req = false ->
    preset_step t (ctx, RListProjectPresets pid req) (Ok PresetNothing) t
| step_list_provider ctx req l :
    request_user ctx (fun user =>
      shows_presets t (fun s e => open_to user None s /\ for_everybody user s /\ passes_provider req s e) l) ->
    preset_step t (ctx, RListProviderPresets req) (Ok (PresetsShown l)) t
| step_list_project_provider ctx pid req l :
    request_user ctx (fun user => in_project user pid /\
      shows_presets t (fun s e => open_to user (Some pid) s /\ passes_provider req s e) l) ->
    preset_step t (ctx, RListProjectProviderPresets pid req) (Ok (PresetsShown l)) t
| step_list_credentials ctx req l :
    request_user ctx (fun user => forall name, name ∈ l <-> exists s f v,
      t !! name = Some s /\ open_to user (Some "") s /\ switchField (pr_ProviderName req) = Some f /\
      field_get f s = Some v /\
      (pp_Datacenter (field_base f v) = pr_Datacenter req \/ pp_Datacenter (field_base f v) = "")) ->
    preset_step t (ctx, RListCredentials req) (Ok (PresetNames l)) t
| step_status ctx req s :
    admin ctx -> ups_Provider req = "" -> t !! ups_PresetName req = Some s ->
    preset_step t (ctx, RUpdatePresetStatus req) (Ok PresetNothing)
      (<[ups_PresetName req := spec_with_enabled (Some (ups_Enabled req)) s]> t)
| step_provider_status ctx req s f v :
    let base := MkProviderPreset (Some (ups_Enabled req)) (pp_Datacenter (field_base f v)) in
    admin ctx -> names_field f (ups_Provider req) ->
    t !! ups_PresetName req = Some s -> field_get f s = Some v ->
    preset_step t (ctx, RUpdatePresetStatus req) (Ok PresetNothing)
      (<[ups_PresetName req := field_set f (Some (field_with_base f base v)) s]> t)
| step_create ctx req f v p :
    admin ctx -> valid_body req f v -> t !! pbody_Name (cpr_Body req) = None ->
    meta_Name (preset_meta p) = pbody_Name (cpr_Body req) -> preset_Spec p = pbody_Spec (cpr_Body req) ->
    preset_step t (ctx, RCreatePreset req) (Ok (PresetStored p))
      (<[pbody_Name (cpr_Body req) := pbody_Spec (cpr_Body req)]> t)
| step_extend ctx req f v s :
    admin ctx -> valid_body req f v -> t !! pbody_Name (cpr_Body req) = Some s -> field_get f s = None ->
    preset_step t (ctx, RCreatePreset req) (Ok (PresetShown (merged_answer req f v (merged req f v s))))
      (<[pbody_Name (cpr_Body req) := merged req f v s]> t)
| step_update ctx req f v s :
    admin ctx -> valid_body req f v -> t !! pbody_Name (cpr_Body req) = Some s ->
    preset_step t (ctx, RUpdatePreset req) (Ok (PresetShown (merged_answer req f v (merged req f v s))))
      (<[pbody_Name (cpr_Body req) := merged req f v s]> t)
| step_delete ctx name :
    admin ctx -> is_Some (t !! name) ->
    preset_step t (ctx, RDeletePreset name) (Ok PresetNothing) (delete name t)
| step_delete_provider ctx req f v s p :
    admin ctx -> names_field f (dppr_ProviderName req) ->
    t !! dppr_PresetName req = Some s -> field_get f s = Some v ->
    meta_Name (preset_meta p) = dppr_PresetName req -> preset_Spec p = field_set f None s ->
    preset_step t (ctx, RDeletePresetProvider req) (Ok (PresetStored p))
      (<[dppr_PresetName req := field_set f None s]> t)
| step_delete_one_of_many ctx req f s :
    admin ctx -> names_field f (dppr_ProviderName req) -> t !! dppr_PresetName req = Some s ->
    (exists g v, g <> f /\ field_get g s = Some v) ->
    preset_step t (ctx, RDeleteProviderPreset req)
      (Ok (PresetShown (shown (dppr_PresetName req) (field_set f None s) (spec_IsEnabled s))))
      (<[dppr_PresetName req := field_set f None s]> t)
| step_delete_last ctx req f s a :
    admin ctx -> names_field f (dppr_ProviderName req) -> t !! dppr_PresetName req = Some s ->
    (forall g, g <> f -> field_get g s = None) ->
    preset_step t (ctx, RDeleteProviderPreset req) (Ok (PresetShown a)) (delete (dppr_PresetName req) t)
| step_crash ctx req :
    admin ctx -> IsProviderSupported (dppr_ProviderName req) = true ->
    (forall f, ~ names_field f (dppr_ProviderName req)) ->
    preset_step t (ctx, RDeleteProviderPreset req) Panic t.

Inductive preset_steps : Table -> list (Ctx * PresetRequest) -> list (result error PresetAnswer) -> Table -> Prop :=
| preset_steps_nil t : preset_steps t [] [] t
| preset_steps_cons t t1 t2 call calls r rs :
    preset_step t call r t1 -> preset_steps t1 calls rs t2 -> preset_steps t (call :: calls) (r :: rs) t2.
End specification.

(** ** Names, fields and validation *)

Section validation_proofs.
Context {EL : ErrorLib} {SDKP : PresetSDK} {SL : PresetSDKLaws SDKP}.

Lemma names_field_unique f g p : names_field f p -> names_field g p -> f = g.
Proof.
  unfold names_field. rewrite !EqualFold_spec. intros <- H.
  destruct f, g; vm_compute in H; first [reflexivity|discriminate H].
Qed.

Lemma getProviderValue_spec p f : getProviderValue p = Some f <-> names_field f p.
Proof.
  unfold getProviderValue. split; [by intros [_ H]%List_find_some|]. intros Hf.
  destruct (List.find _ all_fields) as [g|] eqn:E.
  - apply List_find_some in E as [_ Hg]. f_equal. by eapply names_field_unique.
  - pose proof (List_find_none _ _ f E (elem_of_all_fields f)) as H. unfold names_field in Hf. congruence.
Qed.

Lemma getProviderValue_None p : getProviderValue p = None <-> forall f, ~ names_field f p.
Proof.
  split.
  - intros H f Hf%getProviderValue_spec. congruence.
  - intros H. destruct (getProviderValue p) as [f|] eqn:E; [|done]. apply getProviderValue_spec in E. by destruct (H f).
Qed.

Lemma PresetHasProvider_spec p provider :
  PresetHasProvider p provider = true <->
  exists f v, names_field f provider /\ field_get f (preset_Spec p) = Some v.
Proof.
  unfold PresetHasProvider. destruct (getProviderValue provider) as [f|] eqn:E.
  - pose proof E as Hf%getProviderValue_spec. destruct (field_get f (preset_Spec p)) as [v|] eqn:Ev.
    + split; [|done]. intros _. by exists f, v.
    + split; [done|]. intros (g & v & Hg & Hv). pose proof (names_field_unique _ _ _ Hf Hg) as <-. congruence.
  - split; [done|]. intros (g & v & Hg & _). rewrite getProviderValue_None in E. by destruct (E g).
Qed.

Lemma GetProviderPreset_spec p provider b :
  GetProviderPreset p provider = Some b <->
  exists f v, names_field f provider /\ field_get f (preset_Spec p) = Some v /\ b = field_base f v.
Proof.
  unfold GetProviderPreset. destruct (getProviderValue provider) as [f|] eqn:E.
  - pose proof E as Hf%getProviderValue_spec. rewrite fmap_Some. split; [naive_solver|].
    intros (g & v & Hg & Hv & ->). pose proof (names_field_unique _ _ _ Hf Hg) as <-. by exists v.
  - split; [done|]. intros (g & v & Hg & _). rewrite getProviderValue_None in E. by destruct (E g).
Qed.

(** The list of the providers of a preset is empty when all its fields are. *)
Lemma GetPresetProviderList_nil p :
  GetPresetProviderList p = [] <-> forall f, field_get f (preset_Spec p) = None.
Proof.
  unfold GetPresetProviderList. rewrite List_filter_nil. split.
  - intros H f. destruct (field_get f (preset_Spec p)) as [v|] eqn:E; [|done].
    destruct (field_supported f) as (x & Hx & Hf). specialize (H x Hx). apply not_true_iff_false in H.
    destruct H. apply PresetHasProvider_spec. by exists f, v.
  - intros H x _. apply not_true_iff_false. intros (f & v & _ & Hv)%PresetHasProvider_spec. by rewrite H in Hv.
Qed.

Lemma validProvider_spec p : validProvider p = Ok tt -> p <> "" /\ IsProviderSupported p = true.
Proof.
  unfold validProvider. destruct (is_empty p) eqn:E; [done|]. destruct (IsProviderSupported p); [|done].
  by apply is_empty_false in E.
Qed.
Lemma validProvider_total p : validProvider p <> Panic.
Proof. unfold validProvider. by destruct (is_empty p), (IsProviderSupported p). Qed.

Lemma noOtherProvider_spec p name l :
  match noOtherProvider p name l with
  | Ok _ => forall x, x ∈ l -> x <> name -> PresetHasProvider p x = false
  | Err _ => True
  | Panic => False
  end.
Proof.
  induction l as [|x l IH]; cbn [noOtherProvider]; [set_solver|].
  case_bool_decide as Hx; [|destruct (PresetHasProvider p x) eqn:E; [done|]];
    destruct (noOtherProvider p name l); set_solver.
Qed.

Lemma ValidatePreset_spec p provider :
  match ValidatePreset p provider with
  | Ok _ => exists f v, names_field f provider /\ field_get f (preset_Spec p) = Some v /\ config_valid f v
  | Err _ => True
  | Panic => False
  end.
Proof.
  unfold ValidatePreset. destruct (getProviderValue provider) as [f|] eqn:E; [|done].
  apply getProviderValue_spec in E. destruct (field_get f (preset_Spec p)) as [v|] eqn:Ev; [|done].
  destruct (provider_IsValid f) as [IsValid|] eqn:Ei; [|done].
  destruct (IsValid v) eqn:Eb; cbn [negb]; [|done]. exists f, v. split_and!; try done. by exists IsValid.
Qed.

Lemma createPresetReq_Validate_spec req :
  match createPresetReq_Validate req with
  | Ok _ => exists f v, valid_body req f v
  | Err _ => True
  | Panic => False
  end.
Proof.
  unfold createPresetReq_Validate. pose proof (validProvider_total (cpr_ProviderName req)) as Hp.
  destruct (validProvider (cpr_ProviderName req)) as [[]|e|]; [|done|done].
  destruct (is_empty _) eqn:En; [done|]. apply is_empty_false in En.
  destruct (negb _); [done|]. set (p := convertAPIToInternalPreset _).
  pose proof (ValidatePreset_spec p (cpr_ProviderName req)) as Hv.
  destruct (ValidatePreset p (cpr_ProviderName req)) as [[]|e|]; [|done|done].
  pose proof (noOtherProvider_spec p (cpr_ProviderName req) SupportedProviders) as Ho.
  destruct (noOtherProvider _ _ _) as [[]|e|]; [|done|done].
  destruct Hv as (f & v & Hf & Hv & Hval). exists f, v. split_and!; try done. intros g Hg.
  destruct (field_get g (pbody_Spec (cpr_Body req))) as [x|] eqn:Ex; [|done]. exfalso.
  destruct (field_supported g) as (y & Hy & Hgy).
  assert (y <> cpr_ProviderName req) as Hne.
  { intros ->. apply Hg. by eapply names_field_unique. }
  specialize (Ho y Hy Hne). apply not_true_iff_false in Ho. apply Ho, PresetHasProvider_spec. by exists g, x.
Qed.
End validation_proofs.

(** ** The steps of the implementation *)

Section preset_proofs.
Context {W : Type} {EL : ErrorLib} {P : SDK} {SDKP : PresetSDK} {API : KubeAPI W} {ST : Store W}
        {PRESETS : PresetProvider W} {MAPPER : ProjectMemberMapper W} {ELL : ErrorLibLaws EL}
        {LAWS : KubeAPILaws W} {MAPL : ProjectMemberMapperLaws W} {SL : PresetSDKLaws SDKP}
        {PL : PresetProviderLaws W}.
Implicit Types w : W.

Definition presets_of w : Table := preset_Spec <$> table KPreset w.

(** The user has a group in the project. *)
Definition has_group w (user : User) (pid : string) : Prop :=
  exists bg g, binding_group w (user_Email user) pid bg /\ granted_group w user pid bg g.

#[export] Instance presets_of_proper : Proper (same_store ==> eq) presets_of.
Proof. intros w w' Hw. unfold presets_of. by rewrite Hw. Qed.

Lemma lookup_presets w n s :
  cluster_wide KPreset w ->
  presets_of w !! n = Some s <->
  exists p, stored KPreset w p /\ meta_Name (preset_meta p) = n /\ preset_Spec p = s.
Proof.
  intros Hok. unfold presets_of. rewrite lookup_fmap, fmap_Some. split.
  - intros (p & Ht & ->). destruct (proj1 (lookup_table_stored KPreset w n p Hok) Ht) as [Hp Hn]. by exists p.
  - intros (p & Hp & Hn & <-). exists p. split; [|done]. by apply (lookup_table_stored KPreset w n p Hok).
Qed.

Lemma stored_preset w p : cluster_wide KPreset w -> stored KPreset w p ->
  presets_of w !! meta_Name (preset_meta p) = Some (preset_Spec p).
Proof. intros Hok Hp. apply lookup_presets; [done|]. by exists p. Qed.

(** A preset was written back with the specification [s]. *)
Lemma preset_updated w w' p p' s :
  cluster_wide KPreset w -> stored KPreset w p ->
  strip KPreset p' = strip KPreset (preset_with_spec s p) -> updated KPreset w w' p' ->
  cluster_wide KPreset w' /\ presets_of w' = <[meta_Name (preset_meta p) := s]> (presets_of w) /\
  meta_Name (preset_meta p') = meta_Name (preset_meta p) /\ preset_Spec p' = s.
Proof.
  intros Hok Hp Hst Hup. assert (plain KPreset p') as Hpl by (eapply plain_strip; [done|]; exact (Hok p Hp)).
  pose proof (strip_key _ _ _ Hst) as [= _ Hn]. apply strip_preset in Hst as Hs.
  destruct (table_updated KPreset w w' p' Hok Hpl Hup) as [Hok' Ht]. split_and!; try done.
  unfold presets_of. rewrite Ht. cbn. rewrite fmap_insert. f_equal; [done|]. by rewrite Hs.
Qed.

Lemma preset_created w w' n s p' :
  cluster_wide KPreset w -> strip KPreset p' = strip KPreset (MkPreset (metaNamed n) s) ->
  created KPreset w w' p' ->
  cluster_wide KPreset w' /\ presets_of w !! n = None /\ presets_of w' = <[n := s]> (presets_of w) /\
  meta_Name (preset_meta p') = n /\ preset_Spec p' = s.
Proof.
  intros Hok Hst Hcr. assert (plain KPreset p') as Hpl by (by eapply plain_strip).
  pose proof (strip_key _ _ _ Hst) as [= _ Hn]. apply strip_preset in Hst as Hs.
  destruct (table_created KPreset w w' p' Hok Hpl Hcr) as (Hok' & Hnew & Ht). cbn in Hnew, Ht.
  rewrite Hn in Hnew, Ht. split_and!; try done; unfold presets_of.
  - by rewrite lookup_fmap, Hnew.
  - rewrite Ht, fmap_insert. by rewrite Hs.
Qed.

Lemma preset_deleted w w' n :
  cluster_wide KPreset w -> deleted KPreset w w' ("", n) ->
  cluster_wide KPreset w' /\ presets_of w' = delete n (presets_of w).
Proof.
  intros Hok Hdel. destruct (table_deleted KPreset w w' n Hok Hdel) as (Hok' & _ & Ht).
  split; [done|]. unfold presets_of. by rewrite Ht, fmap_delete.
Qed.

(** ** The user of the request *)

Lemma requester_in ctx pid w :
  runs (httpErr (UserInfoGetterFactory ctx pid)) w (fun r w' => same_store w w' /\
    match r with
    | Ok ui => exists user, ctx_UserCR ctx = Some user /\ same_user ui user /\
        in_project (has_group w) user pid
    | Err _ => True
    | Panic => False
    end).
Proof.
  eapply httpErr_spec; [apply UserInfoGetterFactory_spec|]. intros [ui|e|] w' [Hs H]; [|done|done].
  split; [done|]. destruct H as (user & Hc & _ & H). exists user. split; [done|]. unfold getter_info in H.
  destruct (is_empty pid) eqn:E.
  - destruct H as (He & Ha & _). split; [done|]. left. by apply is_empty_spec.
  - destruct H as (He & Ha & _ & Hg & (bg & Hb & Hgr) & _). split; [done|]. right. exists bg.
    destruct (ui_Groups ui) as [|g l] eqn:El; [done|]. exists g. split; [done|]. apply Hgr. left.
Qed.

Lemma onlyAdmins_spec ctx msg w :
  runs (onlyAdmins UserInfoGetterFactory ctx msg) w (fun r w' => same_store w w' /\
    match r with
    | Ok ui => admin ctx
    | Err _ => True
    | Panic => False
    end).
Proof.
  unfold onlyAdmins. runs_call requester_spec. destruct Hcall as [Hs H].
  destruct r as [ui|e|]; cbn [andThen]; [|done|done]. destruct H as (user & Hc & _ & Ha).
  do 2 runs_step; [done|]. cbn [andThen]. runs_step. split; [done|]. exists user. split; [done|].
  by apply negb_false_iff in H; rewrite <- Ha.
Qed.

Lemma open_visible ui user pid p : same_user ui user ->
  preset_visible ui pid p <-> open_to user pid (preset_Spec p).
Proof. intros [He Ha]. unfold preset_visible, open_to. by rewrite He, Ha. Qed.

(** ** The lists *)

Lemma elem_of_enabledPresets req (l : list Preset) a :
  a ∈ enabledPresets (lpr_Disabled req) l <->
  exists p e, p ∈ l /\ passes_enabled req (preset_Spec p) e /\ a = shown (meta_Name (preset_meta p)) (preset_Spec p) e.
Proof.
  unfold enabledPresets, passes_enabled. rewrite elem_of_flat_map. setoid_rewrite <- newAPIPreset_shown. split.
  - intros (p & Hp & Ha). destruct (spec_IsEnabled (preset_Spec p)) eqn:E, (lpr_Disabled req); cbn in Ha;
      try (by apply elem_of_nil in Ha); apply list_elem_of_singleton in Ha as ->; exists p; eexists; eauto.
  - intros (p & e & Hp & [-> He] & ->). exists p. split; [done|].
    destruct (spec_IsEnabled (preset_Spec p)), (lpr_Disabled req); cbn; try (by left). by destruct He.
Qed.

Lemma elem_of_providerPresets req (l : list Preset) a :
  a ∈ providerPresets req l <->
  exists p e, p ∈ l /\ passes_provider req (preset_Spec p) e /\ a = shown (meta_Name (preset_meta p)) (preset_Spec p) e.
Proof.
  unfold providerPresets, passes_provider. rewrite elem_of_flat_map. setoid_rewrite <- newAPIPreset_shown. split.
  - intros (p & Hp & Ha). destruct (GetProviderPreset p _) as [b|] eqn:Eb; [|by apply elem_of_nil in Ha].
    apply GetProviderPreset_spec in Eb as (f & v & Hf & Hv & ->).
    destruct (matchesDatacenter _ _) eqn:Em; cbn [negb] in Ha; [|by apply elem_of_nil in Ha].
    destruct (negb (lpr_Disabled _) && negb _) eqn:Ec in Ha; [by apply elem_of_nil in Ha|].
    apply list_elem_of_singleton in Ha as ->. exists p. eexists. split; [done|]. split; [|done].
    exists f, v. split_and!; try done. apply andb_false_iff in Ec as [Ec%negb_false_iff|Ec%negb_false_iff];
      [by right|by left].
  - intros (p & e & Hp & (f & v & Hf & Hv & Hm & -> & He) & ->). exists p. split; [done|].
    assert (GetProviderPreset p (lppr_ProviderName req) = Some (field_base f v)) as ->
      by (apply GetProviderPreset_spec; by exists f, v).
    rewrite Hm. cbn [negb]. destruct (spec_IsEnabled _ && _); [destruct (lpr_Disabled _); by left|].
    destruct He as [He|He]; [done|]. rewrite He. by left.
Qed.

Definition preset_step_ok (call : Ctx * PresetRequest) w (r : result error PresetAnswer) w' : Prop :=
  cluster_wide KPreset w' /\ preset_step (has_group w) (presets_of w) call r (presets_of w') /\
  same_except KPreset w w'.

Lemma step_read call w w' r :
  cluster_wide KPreset w -> same_store w w' -> preset_step (has_group w) (presets_of w) call r (presets_of w) ->
  preset_step_ok call w r w'.
Proof.
  intros Hok Hs H. split_and!; [by rewrite <- Hs|by rewrite <- Hs|by apply same_store_except].
Qed.
Lemma step_refuses call w w' e : cluster_wide KPreset w -> same_store w w' -> preset_step_ok call w (Err e) w'.
Proof. intros Hok Hs. apply step_read; [done|done|constructor]. Qed.
Hint Resolve step_refuses : core.

(** The presets a list shows, from those the provider lists. *)
Lemma lists_shown w ui user pid l (keep : Preset -> bool) (pass : PresetSpec -> bool -> Prop)
    (pass' : PresetSpec -> bool -> Prop) (la : list ApiPreset) :
  cluster_wide KPreset w -> same_user ui user -> lists_presets w ui pid l ->
  (forall a, a ∈ la <-> exists p e, p ∈ List.filter keep l /\ pass (preset_Spec p) e /\
     a = shown (meta_Name (preset_meta p)) (preset_Spec p) e) ->
  (forall p e, (open_to user pid (preset_Spec p) /\ keep p = true /\ pass (preset_Spec p) e) <->
     pass' (preset_Spec p) e) ->
  shows_presets (presets_of w) pass' la.
Proof.
  intros Hok Hu [_ Hl] Hla Hpass a. rewrite Hla. setoid_rewrite elem_of_List_filter. setoid_rewrite Hl.
  setoid_rewrite (open_visible ui user pid _ Hu). split.
  - intros (p & e & ((Hst & Ho) & Hk) & Hp & ->). exists (meta_Name (preset_meta p)), (preset_Spec p), e.
    split_and!; [by apply stored_preset|by apply Hpass|done].
  - intros (name & s & e & (p & Hp & <- & <-)%lookup_presets & Hs & ->); [|done].
    exists p, e. apply Hpass in Hs as (Ho & Hk & Hs). done.
Qed.

Lemma filter_all {A} (l : list A) : List.filter (fun _ => true) l = l.
Proof. induction l as [|x l IH]; cbn; [done|by rewrite IH]. Qed.

Lemma limited_spec ui user p : same_user ui user ->
  negb (limitedToProjects ui p) = true <-> for_everybody user (preset_Spec p).
Proof.
  intros [_ Ha]. unfold limitedToProjects, for_everybody. rewrite negb_true_iff, andb_false_iff, Ha, negb_false_iff.
  rewrite bool_decide_eq_false. assert (~ 0 < length (ps_Projects (preset_Spec p)) <-> ps_Projects (preset_Spec p) = [])
    as ->; [|done]. destruct (ps_Projects (preset_Spec p)); cbn; [split; [done|lia]|split; [lia|done]].
Qed.

(** The body the lists share: the user info, the presets, the loop. *)
Lemma list_presets_step {A} ctx pid (all : option string) w (f : UserInfo -> list Preset -> list ApiPreset)
    (g : list ApiPreset -> A) (k : A -> PresetAnswer) (err : error -> error) call
    (pass : User -> PresetSpec -> bool -> Prop) :
  cluster_wide KPreset w ->
  (forall ui user l, same_user ui user -> lists_presets w ui all l ->
     shows_presets (presets_of w) (pass user) (f ui l)) ->
  (forall l, request_user ctx (fun user => in_project (has_group w) user pid /\
       shows_presets (presets_of w) (pass user) l) ->
     preset_step (has_group w) (presets_of w) call (Ok (k (g l))) (presets_of w)) ->
  runs (userInfo ← httpErr (UserInfoGetterFactory ctx pid);
        presets ← mapErr err (presets_GetPresets userInfo all);
        mret (g (f userInfo presets))) w (andThen (fun a => mret (k a)) (preset_step_ok call w)).
Proof.
  intros Hok Hf Hstep. runs_call requester_in. destruct Hcall as [Hs H].
  destruct r as [ui|e|]; cbn [andThen]; [|by apply step_refuses|done]. destruct H as (user & Hc & Hu & Hin).
  runs_call presets_GetPresets_spec. destruct Hcall as [Hs' Hl]. assert (same_store w w1) as Hs1 by (by etrans).
  destruct r as [l|e|]; cbn [andThen]; [|by apply step_refuses|done]. do 2 runs_step.
  apply step_read; [done|done|]. apply Hstep. exists user. split; [done|]. split; [done|].
  apply Hf; [done|]. by rewrite Hs.
Qed.

Lemma RListPresets_step ctx req w : cluster_wide KPreset w ->
  runs (serve_preset UserInfoGetterFactory (ctx, RListPresets req)) w (preset_step_ok (ctx, RListPresets req) w).
Proof.
  intros Hok. unfold serve_preset. runs_step. unfold ListPresets.
  apply (list_presets_step ctx "" None w (fun ui l => enabledPresets (lpr_Disabled req)
           (List.filter (fun p => negb (limitedToProjects ui p)) l)) id PresetsShown internalError _
           (fun user s e => open_to user None s /\ for_everybody user s /\ passes_enabled req s e)); [done| |].
  - intros ui user l Hu Hl. eapply lists_shown; [done|done|done|intros a; apply elem_of_enabledPresets|].
    intros p e. cbn beta. by rewrite (limited_spec ui user p Hu).
  - intros l (user & Hc & _ & Hshow). apply step_list. by exists user.
Qed.

Lemma RListProviderPresets_step ctx req w : cluster_wide KPreset w ->
  runs (serve_preset UserInfoGetterFactory (ctx, RListProviderPresets req)) w
    (preset_step_ok (ctx, RListProviderPresets req) w).
Proof.
  intros Hok. unfold serve_preset. runs_step. unfold ListProviderPresets.
  plain_call (validRequest_spec (W := W)); [apply validProvider_total|].
  intros [[]|e|] w0 [-> H]; cbn [andThen]; [|by apply step_refuses|done].
  apply (list_presets_step ctx "" None w (fun ui l => providerPresets req
           (List.filter (fun p => negb (limitedToProjects ui p)) l)) id PresetsShown internalError _
           (fun user s e => open_to user None s /\ for_everybody user s /\ passes_provider req s e)); [done| |].
  - intros ui user l Hu Hl. eapply lists_shown; [done|done|done|intros a; apply elem_of_providerPresets|].
    intros p e. cbn beta. by rewrite (limited_spec ui user p Hu).
  - intros l (user & Hc & _ & Hshow). apply step_list_provider. by exists user.
Qed.

Lemma RListProjectProviderPresets_step ctx pid req w : cluster_wide KPreset w ->
  runs (serve_preset UserInfoGetterFactory (ctx, RListProjectProviderPresets pid req)) w
    (preset_step_ok (ctx, RListProjectProviderPresets pid req) w).
Proof.
  intros Hok. unfold serve_preset. runs_step. unfold ListProjectProviderPresets.
  plain_call (validRequest_spec (W := W)); [apply validProvider_total|].
  intros [[]|e|] w0 [-> H]; cbn [andThen]; [|by apply step_refuses|done].
  apply (list_presets_step ctx pid (Some pid) w (fun _ => providerPresets req) id PresetsShown internalError _
           (fun user s e => open_to user (Some pid) s /\ passes_provider req s e)); [done| |].
  - intros ui user l Hu Hl. eapply (lists_shown _ _ _ _ _ (fun _ => true)); [done|done|done| |].
    + intros a. rewrite filter_all. apply elem_of_providerPresets.
    + intros p e. cbn beta. naive_solver.
  - intros l Hreq. by apply step_list_project_provider.
Qed.

Lemma RListProjectPresets_step ctx pid req w : cluster_wide KPreset w ->
  runs (serve_preset UserInfoGetterFactory (ctx, RListProjectPresets pid req)) w
    (preset_step_ok (ctx, RListProjectPresets pid req) w).
Proof.
  intros Hok. unfold serve_preset. runs_step. unfold ListProjectPresets.
  destruct (is_empty (lpr_Name req)) eqn:En; cbn [negb].
  { apply (list_presets_step ctx pid (Some pid) w (fun _ => enabledPresets (lpr_Disabled req)) inl projectAnswer
             KubernetesErrorToHTTPError _
             (fun user s e => open_to user (Some pid) s /\ passes_enabled req s e)); [done| |].
    - intros ui user l Hu Hl. eapply (lists_shown _ _ _ _ _ (fun _ => true)); [done|done|done| |].
      + intros a. rewrite filter_all. apply elem_of_enabledPresets.
      + intros p e. cbn beta. naive_solver.
    - intros l Hreq. by apply step_list_project. }
  runs_call requester_in. destruct Hcall as [Hs H].
  destruct r as [ui|e|]; cbn [andThen]; [|by apply step_refuses|done]. destruct H as (user & Hc & Hu & Hin).
  http_call (presets_GetPreset_spec (W := W)). intros [p|e|] w1 [Hs' Hp]; cbn [andThen];
    [|apply step_refuses; [done|by etrans]|done].
  assert (same_store w w1) as Hs1 by (by etrans). destruct Hp as (Hst & Hn & Hv). rewrite <- Hs in Hst.
  rewrite (open_visible ui user _ _ Hu) in Hv. pose proof (stored_preset w p Hok Hst) as Hlook. rewrite Hn in Hlook.
  assert (request_user ctx (fun user => in_project (has_group w) user pid /\ open_to user (Some pid) (preset_Spec p)))
    as Hreq by (by exists user).
  destruct (negb _ && negb _) eqn:Ec; do 2 runs_step; (apply step_read; [done|done|]).
  - apply andb_true_iff in Ec as [E1%negb_true_iff E2%negb_true_iff]. by eapply step_get_disabled.
  - rewrite newAPIPreset_shown, Hn. apply step_get_project; [done|done|].
    apply andb_false_iff in Ec as [E%negb_false_iff|E%negb_false_iff]; [by left|by right].
Qed.

Lemma RListCredentials_step ctx req w : cluster_wide KPreset w ->
  runs (serve_preset UserInfoGetterFactory (ctx, RListCredentials req)) w
    (preset_step_ok (ctx, RListCredentials req) w).
Proof.
  intros Hok. unfold serve_preset. runs_step. unfold CredentialEndpoint.
  plain_call (validRequest_spec (W := W)).
  { unfold providerReq_Validate. destruct (is_empty _); [done|]. by destruct (existsb _ _). }
  intros [[]|e|] w0 [-> H]; cbn [andThen]; [|by apply step_refuses|done].
  runs_call requester_in. destruct Hcall as [Hs Hi].
  destruct r as [ui|e|]; cbn [andThen]; [|by apply step_refuses|done]. destruct Hi as (user & Hc & Hu & _).
  runs_call presets_GetPresets_spec. destruct Hcall as [Hs' Hl]. assert (same_store w w1) as Hs1 by (by etrans).
  destruct r as [l|e|]; cbn [andThen]; [|by apply step_refuses|done]. do 2 runs_step.
  apply step_read; [done|done|]. apply step_list_credentials. exists user. split; [done|].
  destruct Hl as [_ Hl]. setoid_rewrite <- Hs in Hl. intros name. rewrite elem_of_flat_map. setoid_rewrite Hl.
  setoid_rewrite (open_visible ui user (Some "") _ Hu). unfold credentialName. split.
  - intros (p & [Hst Ho] & Hn). destruct (switchField _) as [f|] eqn:Ef; [|by apply elem_of_nil in Hn].
    destruct (field_get f (preset_Spec p)) as [v|] eqn:Ev in Hn; [|by apply elem_of_nil in Hn]. cbn zeta in Hn.
    destruct (_ || _) eqn:Ed in Hn; [|by apply elem_of_nil in Hn]. apply list_elem_of_singleton in Hn as ->.
    exists (preset_Spec p), f, v. split_and!; try done; [by apply stored_preset|].
    apply orb_true_iff in Ed as [Ed%bool_decide_eq_true|Ed%is_empty_spec]; [by left|by right].
  - intros (s & f & v & (p & Hst & <- & <-)%lookup_presets & Ho & Hf & Hv & Hd); [|done].
    exists p. split; [done|]. rewrite Hf, Hv. cbn zeta.
    assert (bool_decide (pp_Datacenter (field_base f v) = pr_Datacenter req) || is_empty (pp_Datacenter (field_base f v)) = true)
      as ->; [|by left]. apply orb_true_iff. rewrite bool_decide_eq_true, is_empty_spec. done.
Qed.

(** ** The writes *)

(** An administrator works on the preset of this name. *)
Lemma with_preset {A} ctx msg name f (k : Preset -> M W error A) (j : A -> PresetAnswer) call w :
  cluster_wide KPreset w ->
  (forall p w1, admin ctx -> same_store w w1 -> stored KPreset w p -> meta_Name (preset_meta p) = name ->
     runs (k p) w1 (andThen (fun a => mret (j a)) (preset_step_ok call w))) ->
  runs (userInfo ← onlyAdmins UserInfoGetterFactory ctx msg;
        preset ← mapErr f (presets_GetPreset userInfo None name);
        k preset) w (andThen (fun a => mret (j a)) (preset_step_ok call w)).
Proof.
  intros Hok Hk. runs_call onlyAdmins_spec. destruct Hcall as [Hs H].
  destruct r as [ui|e|]; cbn [andThen]; [|by apply step_refuses|done].
  runs_call presets_GetPreset_spec. destruct Hcall as [Hs' Hp]. assert (same_store w w1) as Hs1 by (by etrans).
  destruct r as [p|e|]; cbn [andThen]; [|by apply step_refuses|done]. destruct Hp as (Hst & Hn & _).
  apply Hk; try done. by rewrite Hs.
Qed.

Lemma UpdatePreset_writes w w1 p s :
  cluster_wide KPreset w -> same_store w w1 -> stored KPreset w p ->
  runs (presets_UpdatePreset (preset_with_spec s p)) w1 (fun r w' =>
    match r with
    | Ok p' => cluster_wide KPreset w' /\ presets_of w' = <[meta_Name (preset_meta p) := s]> (presets_of w) /\
        meta_Name (preset_meta p') = meta_Name (preset_meta p) /\ preset_Spec p' = s /\ same_except KPreset w w'
    | Err _ => same_store w w'
    | Panic => False
    end).
Proof.
  intros Hok Hs Hp. eapply runs_mono; [apply presets_UpdatePreset_spec|]. cbn beta.
  intros [p'|e|] w' H; [|by etrans|done]. destruct H as [Hst Hup]. rewrite <- Hs in Hup.
  destruct (preset_updated w w' p p' s Hok Hp Hst Hup) as (? & ? & ? & ?). split_and!; try done. apply Hup.
Qed.

Lemma DeletePreset_writes w w1 p :
  cluster_wide KPreset w -> same_store w w1 -> plain KPreset p ->
  runs (presets_DeletePreset p) w1 (fun r w' =>
    match r with
    | Ok _ => cluster_wide KPreset w' /\ presets_of w' = delete (meta_Name (preset_meta p)) (presets_of w) /\
        same_except KPreset w w'
    | Err _ => same_store w w'
    | Panic => False
    end).
Proof.
  intros Hok Hs Hp. eapply runs_mono; [apply presets_DeletePreset_spec|]. cbn beta.
  intros [p'|e|] w' H; [|by etrans|done]. rewrite <- Hs, (plain_key KPreset p Hp) in H.
  destruct (preset_deleted w w' _ Hok H) as [? ?]. split_and!; try done. apply H.
Qed.

Lemma RUpdatePresetStatus_step ctx req w : cluster_wide KPreset w ->
  runs (serve_preset UserInfoGetterFactory (ctx, RUpdatePresetStatus req)) w
    (preset_step_ok (ctx, RUpdatePresetStatus req) w).
Proof.
  intros Hok. unfold serve_preset. runs_step. unfold UpdatePresetStatus.
  plain_call (validRequest_spec (W := W)).
  { unfold updatePresetStatusReq_Validate. destruct (is_empty _); [done|]. by destruct (_ && _). }
  intros [[]|e|] w0 [-> Hvalid]; cbn [andThen]; [|by apply step_refuses|done].
  apply (with_preset _ _ _ _ _ (fun _ => PresetNothing)); [done|]. intros p w1 Hadm Hs Hp Hn.
  pose proof (stored_preset w p Hok Hp) as Hlook. rewrite Hn in Hlook.
  destruct (is_empty (ups_Provider req)) eqn:En.
  - apply is_empty_spec in En. plain_call UpdatePreset_writes; [exact Hok|exact Hs|exact Hp|].
    intros [p'|e|] w2 H; cbn [andThen]; [|by apply step_refuses|done]. do 3 runs_step.
    destruct H as (Hok' & Ht & _ & _ & Hex). split_and!; [done| |done]. rewrite Ht, Hn, spec_SetEnabled_spec.
    by apply step_status.
  - runs_guard; [by apply step_refuses|]. apply negb_false_iff, PresetHasProvider_spec in H as (f & v & Hf & Hv).
    unfold SetPresetProviderEnabled. rewrite (proj2 (getProviderValue_spec _ _) Hf), Hv.
    do 2 runs_step. cbn [andThen]. plain_call UpdatePreset_writes; [exact Hok|exact Hs|exact Hp|].
    intros [p'|e|] w2 H; cbn [andThen]; [|by apply step_refuses|done]. do 3 runs_step.
    destruct H as (Hok' & Ht & _ & _ & Hex). split_and!; [done| |done]. rewrite Ht, Hn. by apply step_provider_status.
Qed.

Lemma RDeletePreset_step ctx name w : cluster_wide KPreset w ->
  runs (serve_preset UserInfoGetterFactory (ctx, RDeletePreset name)) w
    (preset_step_ok (ctx, RDeletePreset name) w).
Proof.
  intros Hok. unfold serve_preset. runs_step. unfold DeletePreset.
  plain_call (validRequest_spec (W := W)); [by unfold deletePresetReq_Validate; destruct (is_empty _)|].
  intros [[]|e|] w0 [-> Hvalid]; cbn [andThen]; [|by apply step_refuses|done].
  apply (with_preset _ _ _ _ _ (fun _ => PresetNothing)); [done|]. intros p w1 Hadm Hs Hp Hn.
  plain_call DeletePreset_writes; [exact Hok|exact Hs|by apply Hok|].
  intros [p'|e|] w2 H; cbn [andThen]; [|by apply step_refuses|done]. do 3 runs_step.
  destruct H as (Hok' & Ht & Hex). split_and!; [done| |done]. rewrite Ht, Hn. apply step_delete; [done|].
  rewrite <- Hn, stored_preset by done. by eexists.
Qed.

Lemma RDeletePresetProvider_step ctx req w : cluster_wide KPreset w ->
  runs (serve_preset UserInfoGetterFactory (ctx, RDeletePresetProvider req)) w
    (preset_step_ok (ctx, RDeletePresetProvider req) w).
Proof.
  intros Hok. unfold serve_preset. runs_step. unfold DeletePresetProvider.
  plain_call (validRequest_spec (W := W)).
  { unfold deletePresetProviderReq_Validate. destruct (is_empty _); [done|apply validProvider_total]. }
  intros [[]|e|] w0 [-> Hvalid]; cbn [andThen]; [|by apply step_refuses|done].
  apply (with_preset _ _ _ _ _ PresetStored); [done|]. intros p w1 Hadm Hs Hp Hn.
  pose proof (stored_preset w p Hok Hp) as Hlook. rewrite Hn in Hlook.
  runs_guard; [by apply step_refuses|]. apply negb_false_iff, PresetHasProvider_spec in H as (f & v & Hf & Hv).
  unfold RemovePresetProvider. rewrite (proj2 (getProviderValue_spec _ _) Hf). do 2 runs_step. cbn [andThen].
  eapply runs_mono; [by apply UpdatePreset_writes|]. cbn beta.
  intros [p'|e|] w2 H; cbn [andThen]; [|by apply step_refuses|done]. runs_step.
  destruct H as (Hok' & Ht & Hn' & Hs' & Hex). split_and!; [done| |done]. rewrite Ht, Hn.
  eapply step_delete_provider; try done. by rewrite Hn', Hn.
Qed.

Lemma RDeleteProviderPreset_step ctx req w : cluster_wide KPreset w ->
  runs (serve_preset UserInfoGetterFactory (ctx, RDeleteProviderPreset req)) w
    (preset_step_ok (ctx, RDeleteProviderPreset req) w).
Proof.
  intros Hok. unfold serve_preset. runs_step. unfold DeleteProviderPreset.
  plain_call (validRequest_spec (W := W)).
  { unfold deleteProviderPresetReq_Validate. pose proof (validProvider_total (dppr_ProviderName req)).
    destruct (validProvider _); [by destruct (is_empty _)|done|done]. }
  intros [[]|e|] w0 [-> Hval]; cbn [andThen]; [|by apply step_refuses|done].
  assert (IsProviderSupported (dppr_ProviderName req) = true) as Hsup.
  { unfold deleteProviderPresetReq_Validate in Hval. destruct (validProvider _) as [[]|e|] eqn:E; [|done|done].
    by apply validProvider_spec in E as [_ ?]. }
  apply (with_preset _ _ _ _ _ PresetShown); [done|]. intros p w1 Hadm Hs Hp Hn.
  pose proof (stored_preset w p Hok Hp) as Hlook. rewrite Hn in Hlook. unfold RemovePresetProvider.
  destruct (getProviderValue (dppr_ProviderName req)) as [f|] eqn:Ef; do 2 runs_step; cbn [andThen].
  2: { apply step_read; [done|done|]. apply step_crash; [done|done|]. by apply getProviderValue_None. }
  apply getProviderValue_spec in Ef. runs_step. set (p0 := preset_with_spec _ p).
  assert (forall g, g <> f -> field_get g (preset_Spec p0) = field_get g (preset_Spec p)) as Hother.
  { intros g Hg. cbn. by rewrite field_get_set_ne. }
  case_bool_decide as Hlen.
  - eapply runs_mono; [by apply UpdatePreset_writes|]. cbn beta.
    intros [p'|e|] w2 H; cbn [andThen]; [|by apply step_refuses|done]. do 3 runs_step.
    destruct H as (Hok' & Ht & Hn' & Hs' & Hex). split_and!; [done| |done].
    rewrite newAPIPreset_shown, Hn', Hs', Ht, Hn.
    assert (spec_IsEnabled (field_set f None (preset_Spec p)) = spec_IsEnabled (preset_Spec p)) as ->.
    { apply eq_bool_prop_intro. rewrite !Is_true_true, !spec_IsEnabled_spec.
      by rewrite (proj2 (proj2 (field_set_rest f None (preset_Spec p)))). }
    apply step_delete_one_of_many; [done..|].
    destruct (GetPresetProviderList p0) as [|x l] eqn:El; [cbn in Hlen; lia|].
    assert (x ∈ GetPresetProviderList p0) as Hx by (rewrite El; left). apply elem_of_List_filter in Hx as [_ Hx].
    apply PresetHasProvider_spec in Hx as (g & v & _ & Hv). destruct (decide (g = f)) as [->|Hg].
    { cbn in Hv. by rewrite field_get_set in Hv. }
    exists g, v. split; [done|]. by rewrite <- Hother.
  - eapply runs_mono; [apply DeletePreset_writes; [done|done|exact (Hok p Hp)]|]. cbn beta.
    intros [p'|e|] w2 H; cbn [andThen]; [|by apply step_refuses|done]. do 3 runs_step.
    destruct H as (Hok' & Ht & Hex). split_and!; [done| |done]. rewrite Ht. cbn [preset_meta preset_with_spec p0]. rewrite Hn.
    eapply step_delete_last; [done|done|done|]. intros g Hg. rewrite <- Hother by done.
    apply GetPresetProviderList_nil. apply nil_length_inv. lia.
Qed.

Lemma updateProvider_spec req f v p w w1 :
  cluster_wide KPreset w -> same_store w w1 -> stored KPreset w p -> valid_body req f v ->
  meta_Name (preset_meta p) = pbody_Name (cpr_Body req) ->
  runs (updateProvider p req) w1 (fun r w' =>
    match r with
    | Ok a => cluster_wide KPreset w' /\ same_except KPreset w w' /\
        presets_of w' = <[pbody_Name (cpr_Body req) := merged req f v (preset_Spec p)]> (presets_of w) /\
        a = merged_answer req f v (merged req f v (preset_Spec p))
    | Err _ => same_store w w'
    | Panic => False
    end).
Proof.
  intros Hok Hs Hp (Hf & Hv & _) Hn. unfold updateProvider, mergePresets, OverridePresetProvider.
  rewrite (proj2 (getProviderValue_spec _ _) Hf). cbn [result_map]. do 2 runs_step. cbn [andThen].
  cbn [preset_Spec convertAPIToInternalPreset]. rewrite Hv.
  change (preset_with_spec _ (preset_with_spec _ p)) with (preset_with_spec (merged req f v (preset_Spec p)) p).
  plain_call UpdatePreset_writes; [exact Hok|exact Hs|exact Hp|].
  intros [p'|e|] w2 H; cbn [andThen]; [|done|done]. runs_step.
  destruct H as (Hok' & Ht & Hn' & Hs' & Hex). rewrite Hn in Ht. split_and!; [done..|].
  rewrite newAPIPreset_shown, Hn', Hs', Hn. unfold merged_answer. f_equal. f_equal.
  unfold IsPresetProviderEnabled.
  assert (GetProviderPreset p' (cpr_ProviderName req) = Some (field_base f v)) as ->; [|done].
  apply GetProviderPreset_spec. exists f, v. rewrite Hs'. split_and!; [done| |done].
  unfold merged. by rewrite field_get_emails, field_get_set.
Qed.

(** The validation of a body. *)
Lemma validated_body req w :
  runs (validRequest (W := W) (createPresetReq_Validate req)) w (fun r w' => w' = w /\
    match r with Ok _ => exists f v, valid_body req f v | Err _ => True | Panic => False end).
Proof.
  pose proof (createPresetReq_Validate_spec req) as Hspec.
  eapply runs_mono; [apply validRequest_spec; by intros E; rewrite E in Hspec|]. cbn beta.
  intros [[]|e|] w' [Hw H]; [|done|done]. split; [done|]. by rewrite H in Hspec.
Qed.

Lemma RUpdatePreset_step ctx req w : cluster_wide KPreset w ->
  runs (serve_preset UserInfoGetterFactory (ctx, RUpdatePreset req)) w
    (preset_step_ok (ctx, RUpdatePreset req) w).
Proof.
  intros Hok. unfold serve_preset. runs_step. unfold UpdatePreset. plain_call validated_body.
  intros [[]|e|] w0 [-> Hv]; cbn [andThen]; [|by apply step_refuses|done]. destruct Hv as (f & v & Hv).
  apply (with_preset _ _ _ _ _ PresetShown); [done|]. intros p w1 Hadm Hs Hp Hn.
  pose proof (stored_preset w p Hok Hp) as Hlook. rewrite Hn in Hlook.
  eapply runs_mono; [by eapply updateProvider_spec|]. cbn beta.
  intros [a|e|] w2 H; cbn [andThen]; [|by apply step_refuses|done]. runs_step.
  destruct H as (Hok' & Hex & Ht & ->). split_and!; [done| |done]. rewrite Ht. by eapply step_update.
Qed.

Lemma RCreatePreset_step ctx req w : cluster_wide KPreset w ->
  runs (serve_preset UserInfoGetterFactory (ctx, RCreatePreset req)) w
    (preset_step_ok (ctx, RCreatePreset req) w).
Proof.
  intros Hok. unfold serve_preset. runs_step. unfold CreatePreset. plain_call validated_body.
  intros [[]|e|] w0 [-> Hv]; cbn [andThen]; [|by apply step_refuses|done]. destruct Hv as (f & v & Hv).
  runs_call onlyAdmins_spec. destruct Hcall as [Hs Hadm].
  destruct r as [ui|e|]; cbn [andThen]; [|by apply step_refuses|done].
  runs_step. runs_step. eapply runs_mono; [apply presets_GetPreset_spec|]. cbn beta.
  intros [p|e|] w1 [Hs' Hp]; cbn [andThen]; [| |done]; assert (same_store w w1) as Hs1 by (by etrans).
  - destruct Hp as (Hst & Hn & _). rewrite <- Hs in Hst.
    pose proof (stored_preset w p Hok Hst) as Hlook. rewrite Hn in Hlook.
    runs_guard; [by apply step_refuses|]. runs_step. eapply runs_mono; [by eapply updateProvider_spec|]. cbn beta.
    intros [a|e|] w2 Hup; cbn [andThen]; [|by apply step_refuses|done]. do 3 runs_step.
    destruct Hup as (Hok' & Hex & Ht & ->). split_and!; [done| |done]. rewrite Ht. eapply step_extend; try done.
    destruct Hv as (Hf & _). destruct (field_get f (preset_Spec p)) as [x|] eqn:Ex; [|done]. exfalso.
    apply not_true_iff_false in H. apply H, PresetHasProvider_spec. by exists f, x.
  - destruct (apierrors_IsNotFound e); [|runs_step; by apply step_refuses]. runs_step.
    eapply runs_mono; [apply presets_CreatePreset_spec|]. cbn beta.
    intros [p|e'|] w2 Hc; cbn [andThen]; [|apply step_refuses; [done|by etrans]|done]. do 3 runs_step.
    destruct Hc as [Hst Hcr]. rewrite <- Hs1 in Hcr.
    destruct (preset_created w w2 _ _ p Hok Hst Hcr) as (Hok' & Hnew & Ht & Hn & Hspec).
    split_and!; [done| |apply Hcr]. rewrite Ht. by eapply step_create.
Qed.

Lemma serve_preset_step call w : cluster_wide KPreset w ->
  runs (serve_preset UserInfoGetterFactory call) w (preset_step_ok call w).
Proof.
  intros Hok. destruct call as [ctx []]; auto using RListPresets_step, RListProjectPresets_step,
    RListProviderPresets_step, RListProjectProviderPresets_step, RListCredentials_step, RUpdatePresetStatus_step,
    RCreatePreset_step, RUpdatePreset_step, RDeletePreset_step, RDeletePresetProvider_step, RDeleteProviderPreset_step.
Qed.

(** Who has a group in a project does not depend on the presets. *)
Lemma has_group_except w w' user pid : same_except KPreset w w' -> has_group w user pid <-> has_group w' user pid.
Proof.
  intros Hs. unfold has_group, binding_group, granted_group, bound, group_bound.
  by setoid_rewrite (Hs KBinding ltac:(done)); setoid_rewrite (Hs KGroupBinding ltac:(done)).
Qed.
Lemma preset_step_member (m m' : User -> string -> Prop) t call r t' :
  (forall user pid, m user pid <-> m' user pid) -> preset_step m t call r t' -> preset_step m' t call r t'.
Proof.
  intros Hm Hstep. assert (forall user pid, in_project m user pid -> in_project m' user pid) as Hin
    by (unfold in_project; naive_solver).
  destruct Hstep; try by econstructor.
  - apply step_list_project. destruct H as (u & ? & ? & ?). exists u. auto.
  - apply step_get_project; try done. destruct H as (u & ? & ? & ?). exists u. auto.
  - eapply step_get_disabled; try done. destruct H as (u & ? & ? & ?). exists u. auto.
  - apply step_list_project_provider. destruct H as (u & ? & ? & ?). exists u. auto.
Qed.
Lemma preset_steps_member (m m' : User -> string -> Prop) t calls rs t' :
  (forall user pid, m user pid <-> m' user pid) -> preset_steps m t calls rs t' -> preset_steps m' t calls rs t'.
Proof. intros Hm. induction 1; econstructor; eauto using preset_step_member. Qed.


(** ** The stored configurations stay valid *)

Lemma table_valid_insert t n s : table_valid t -> spec_valid s -> table_valid (<[n := s]> t).
Proof. intros Ht Hs n' s' [[_ <-]|[_ H]]%lookup_insert_Some; [done|by eapply Ht]. Qed.
Lemma table_valid_delete t n : table_valid t -> table_valid (delete n t).
Proof. intros Ht n' s' [_ H]%lookup_delete_Some. by eapply Ht. Qed.

Lemma spec_valid_set f o s : spec_valid s -> (forall v, o = Some v -> config_valid f v) -> spec_valid (field_set f o s).
Proof.
  intros Hs Ho g x Hx. destruct (decide (g = f)) as [->|Hg].
  - rewrite field_get_set in Hx. by apply Ho.
  - rewrite field_get_set_ne in Hx by done. by apply Hs.
Qed.

Lemma spec_valid_base f b v s : spec_valid s -> field_get f s = Some v ->
  spec_valid (field_set f (Some (field_with_base f b v)) s).
Proof.
  intros Hs Hv. apply spec_valid_set; [done|]. intros x [= <-]. destruct (Hs f v Hv) as (IsValid & Hi & Hval).
  exists IsValid. split; [done|]. by rewrite (IsValid_base _ _ _ _ Hi).
Qed.

Lemma valid_body_spec req f v : valid_body req f v -> spec_valid (pbody_Spec (cpr_Body req)).
Proof.
  intros (_ & Hv & Hval & Hno & _) g x Hx. destruct (decide (g = f)) as [->|Hg].
  - rewrite Hv in Hx. by injection Hx as <-.
  - by rewrite Hno in Hx.
Qed.

Lemma spec_valid_merged req f v s : valid_body req f v -> spec_valid s -> spec_valid (merged req f v s).
Proof.
  intros (_ & _ & Hval & _) Hs g x Hx. unfold merged in Hx. rewrite field_get_emails in Hx. revert g x Hx.
  change (spec_valid (field_set f (Some v) s)). apply spec_valid_set; [done|]. by intros x [= <-].
Qed.

Lemma preset_step_valid m t call r t' : preset_step m t call r t' -> table_valid t -> table_valid t'.
Proof.
  intros Hstep Ht. destruct Hstep; try done; first [apply table_valid_delete; done|apply table_valid_insert; [done|]].
  - intros g x Hx. rewrite field_get_enabled in Hx. by eapply Ht.
  - apply spec_valid_base; [by eapply Ht|done].
  - by eapply valid_body_spec.
  - apply spec_valid_merged; [done|by eapply Ht].
  - apply spec_valid_merged; [done|by eapply Ht].
  - apply spec_valid_set; [by eapply Ht|done].
  - apply spec_valid_set; [by eapply Ht|done].
Qed.

(** Whatever requests are made, every configuration of a provider that is
    stored in a preset has the fields its provider requires, if it was so at
    the start: no request stores an incomplete configuration, not in a new
    preset, not next to another provider, not by an update. *)
Theorem presets_stay_valid calls w :
  cluster_wide KPreset w -> table_valid (presets_of w) ->
  table_valid (presets_of (serve_presets UserInfoGetterFactory calls w).2).
Proof.
  revert w. induction calls as [|call calls IH]; intros w Hok Hval; cbn [serve_presets]; [done|].
  destruct (serve_preset UserInfoGetterFactory call w) as [r w1] eqn:E1.
  destruct (runs_elim _ _ _ _ _ (serve_preset_step call w Hok) E1) as (Hok1 & Hstep & _).
  specialize (IH w1 Hok1). destruct (serve_presets _ calls w1) as [rs w2]. apply IH. by eapply preset_step_valid.
Qed.
End preset_proofs.

(** ** A concrete run *)

(** A specification is valid when its configurations pass their checks. *)
Definition spec_valid_b {SDKP : PresetSDK} (s : PresetSpec) : bool :=
  forallb (fun f => match field_get f s with
    | None => true
    | Some v => match provider_IsValid f with Some IsValid => IsValid v | None => false end
    end) all_fields.

Lemma spec_valid_b_correct {SDKP : PresetSDK} s : spec_valid_b s = true -> spec_valid s.
Proof.
  unfold spec_valid_b. rewrite forallb_forall. intros H f v Hv.
  specialize (H f (proj1 (list_elem_of_In _ _) (elem_of_all_fields f))). cbn beta in H. rewrite Hv in H.
  destruct (provider_IsValid f) as [IsValid|] eqn:Ei; [|done]. by exists IsValid.
Qed.

Lemma presetStore_valid : table_valid (presets_of presetStore).
Proof.
  intros n s Hs%elem_of_map_to_list.
  assert (Forall (fun x => spec_valid_b x.2 = true) (map_to_list (presets_of presetStore))) as H
    by (apply (bool_decide_unpack _); vm_compute; reflexivity).
  rewrite Forall_forall in H. exact (spec_valid_b_correct s (H (n, s) Hs)).
Qed.

Definition hetznerBody (name token : string) : PresetBody :=
  MkPresetBody name (field_set FHetzner (Some (MkHetznerPreset anyBase token "")) emptySpec).
Definition emptyTokenBody (name : string) : PresetBody :=
  MkPresetBody name (field_set FDigitalocean (Some (tokenConfig "")) emptySpec).
Definition presetCalls : list (Ctx * PresetRequest) :=
  [(bobCtx, RListPresets (MkListPresetsReq false ""));
   (aliceCtx, RListProjectPresets "p1" (MkListPresetsReq false ""));
   (bobCtx, RCreatePreset (MkCreatePresetReq "hetzner" (hetznerBody "open" "hz-token")));
   (aliceCtx, RCreatePreset (MkCreatePresetReq "hetzner" (hetznerBody "open" "hz-token")));
   (aliceCtx, RCreatePreset (MkCreatePresetReq "digitalocean" (emptyTokenBody "new")));
   (aliceCtx, RUpdatePresetStatus (MkUpdatePresetStatusReq "team" "openstack" false));
   (aliceCtx, RDeleteProviderPreset (MkDeletePresetProviderReq "open" "bringyourown"));
   (aliceCtx, RDeleteProviderPreset (MkDeletePresetProviderReq "open" "digitalocean"));
   (aliceCtx, RDeleteProviderPreset (MkDeletePresetProviderReq "open" "hetzner"))].

Definition shown_names (r : result error PresetAnswer) : result unit (list string) :=
  match r with
  | Ok (PresetsShown l) => Ok (apipreset_Name <$> l)
  | Ok (PresetShown a) => Ok [apipreset_Name a]
  | Ok _ => Ok []
  | Err _ => Err tt
  | Panic => Panic
  end.


Lemma presets_stay_valid_witness :
  let w' := (serve_presets UserInfoGetterFactory presetCalls presetStore).2 in
  dom (presets_of w') = {[ "team" ]} /\ table_valid (presets_of w').
Proof.
  intros w'. split; [vm_compute; reflexivity|].
  apply (presets_stay_valid presetCalls presetStore presetStore_wide presetStore_valid).
Defined.
