(* ===== verification/PresetUsage.v ===== *)
(** Where a preset is used: GetPresetStats and GetPresetLinkages of
    handler/v2/preset/preset.go go through the seeds and count, or list, the
    clusters and the templates that were made with the preset. *)
From S2P Require Export PresetTable PresetCredentials Seeds.

(** kubermaticv1.ClusterTemplate, as far as the endpoints look at it. *)
Record ClusterTemplate := MkClusterTemplate {
  template_meta : ObjectMeta;
  template_Cloud : CloudSpec }.

(** apiv2.PresetStats *)
Record PresetStats := MkPresetStats {
  AssociatedClusters : nat;
  AssociatedClusterTemplates : nat }.

(** apiv2.ClusterAssociation, apiv2.ClusterTemplateAssociation *)
Record Association := MkAssociation {
  assoc_ID : string;
  assoc_Name : string;
  assoc_ProjectID : string;
  assoc_ProjectName : string;
  assoc_Provider : string }.

(** apiv2.PresetLinkages *)
Record PresetLinkages := MkPresetLinkages {
  linkages_PresetName : string;
  linkages_Clusters : list Association;
  linkages_ClusterTemplates : list Association }.

Section usage.
Context {W CP : Type} {EL : ErrorLib} {P : SDK} {SDKP : PresetSDK} {PRESETS : PresetProvider W}
        {PPROJECTS : PrivilegedProjectProvider W}.
Variable userInfoGetter : UserInfoGetter W.
(** Constants of the SDK, and its name of the cloud provider of a specification. *)
Variables SeedInvalidPhase PresetNameAnnotation ClusterTemplateHumanReadableNameLabelKey : string.
Variable ClusterCloudProviderName : CloudSpec -> result error string.
(** The order in which a range over the map of the seeds visits them. *)
Variable order : gmap string Seed -> list Seed.
Variable seedsGetter : SeedsGetter W.
Variable clusterProviderGetter : GetterOf W CP.
Variable clusters_ListAll : CP -> selector -> M W error (list UserCluster).
Variable templates_ListALL : selector -> M W error (list ClusterTemplate).

(** [m[key]] of a map that may be nil. *)
Definition value (m : gmap string string) (key : string) : string := default "" (m !! key).

(** The annotations are there and name the preset; a nil map of annotations
    is an empty one here. *)
Definition usesPreset (presetName : string) (m : ObjectMeta) : bool :=
  negb (bool_decide (meta_Annotations m = ∅)) &&
  bool_decide (value (meta_Annotations m) PresetNameAnnotation = presetName).

Definition presetReq_Validate (msg PresetName : string) : result error unit :=
  if is_empty PresetName then Err (ENew msg) else Ok tt.

(** [if apierrors.IsNotFound(err) { return utilerrors.NewBadRequest(...) }; return KubernetesErrorToHTTPError(err)]. *)
Definition getUsedPreset (userInfo : UserInfo) (PresetName : string) : M W error Preset :=
  mapErr (orNotFound (utilerrors_NewBadRequest "preset was not found.") KubernetesErrorToHTTPError)
    (presets_GetPreset userInfo None PresetName).

Definition listSeeds : M W error (gmap string Seed) :=
  mapErr (fun err => utilerrors_New 500 ("failed to list seeds: " +:+ Error err)) seedsGetter.

(** One turn of the loop over the seeds. *)
Definition countSeed (presetName : string) (sel : selector) (n : nat) (seed : Seed) : M W error nat :=
  if bool_decide (seed_Phase seed = SeedInvalidPhase) then mret n else
  got ← attempt (clusterProviderGetter seed);
  match got with
  | inl _ => mret n (* if one or more Seeds are bad, continue with the request *)
  | inr clusterProvider =>
      clusters ← httpErr (clusters_ListAll clusterProvider sel);
      mret (n + length (List.filter (fun cluster => usesPreset presetName (cluster_meta cluster)) clusters))
  end.

Definition GetPresetStats (ctx : Ctx) (PresetName : string) : M W error PresetStats :=
  _ ← validRequest (presetReq_Validate "preset name cannot be empty" PresetName);
  userInfo ← httpErr (userInfoGetter ctx "");
  preset ← getUsedPreset userInfo PresetName;
  seeds ← listSeeds;
  sel ← httpErr (lift (labels_NewRequirement_Equals IsCredentialPresetLabelKey "true"));
  n ← foldM (countSeed (meta_Name (preset_meta preset)) sel) 0 (order seeds);
  templates ← httpErr (templates_ListALL sel);
  mret {| AssociatedClusters := n;
          AssociatedClusterTemplates := length (List.filter (fun template =>
            usesPreset (meta_Name (preset_meta preset)) (template_meta template)) templates) |}.

(** The name of the project of the labels, empty when it cannot be read. *)
Definition getProjectName (labels : gmap string string) : M W error string :=
  let projectID := value labels ProjectIDLabelKey in
  if is_empty projectID then mret "" else
  got ← attempt (projects_GetUnsecured projectID None);
  match got with
  | inl _ => mret ""
  | inr project => mret (project_Name project)
  end.

Definition providerName (cloud : CloudSpec) : M W error string :=
  got ← attempt (lift (ClusterCloudProviderName cloud));
  match got with
  | inl _ => mret "unknown"
  | inr provider => mret provider
  end.

(** The body of the loops over clusters and over templates. *)
Definition addAssociation (presetName : string) (m : ObjectMeta) (name : string) (cloud : CloudSpec)
    (l : list Association) : M W error (list Association) :=
  if usesPreset presetName m then
    projectName ← getProjectName (meta_Labels m);
    provider ← providerName cloud;
    mret (l ++ [{| assoc_ID := meta_Name m; assoc_Name := name;
                   assoc_ProjectID := value (meta_Labels m) ProjectIDLabelKey;
                   assoc_ProjectName := projectName; assoc_Provider := provider |}])
  else mret l.

Definition linkCluster (presetName : string) (l : list Association) (cluster : UserCluster) : M W error (list Association) :=
  addAssociation presetName (cluster_meta cluster) (cluster_HumanReadableName cluster) (cspec_Cloud (cluster_Spec cluster)) l.

Definition linkTemplate (presetName : string) (l : list Association) (template : ClusterTemplate)
    : M W error (list Association) :=
  addAssociation presetName (template_meta template)
    (value (meta_Labels (template_meta template)) ClusterTemplateHumanReadableNameLabelKey) (template_Cloud template) l.

Definition linkSeed (presetName : string) (sel : selector) (l : list Association) (seed : Seed)
    : M W error (list Association) :=
  if bool_decide (seed_Phase seed = SeedInvalidPhase) then mret l else
  got ← attempt (clusterProviderGetter seed);
  match got with
  | inl _ => mret l (* skip seed on cluster provider error, continue with other seeds *)
  | inr clusterProvider =>
      listed ← attempt (clusters_ListAll clusterProvider sel);
      match listed with
      | inl _ => mret l
      | inr clusters => foldM (linkCluster presetName) l clusters
      end
  end.

Definition GetPresetLinkages (ctx : Ctx) (PresetName : string) : M W error PresetLinkages :=
  _ ← validRequest (presetReq_Validate "the preset name cannot be empty" PresetName);
  userInfo ← httpErr (userInfoGetter ctx "");
  _ ← throwIf (negb (ui_IsAdmin userInfo))
        (utilerrors_New 403 ("forbidden: " +:+ quote (ui_Email userInfo) +:+ " doesn't have admin rights"));
  preset ← getUsedPreset userInfo PresetName;
  seeds ← listSeeds;
  sel ← httpErr (lift (labels_NewRequirement_Equals IsCredentialPresetLabelKey "true"));
  clusters ← foldM (linkSeed (meta_Name (preset_meta preset)) sel) [] (order seeds);
  templates ← httpErr (templates_ListALL sel);
  linked ← foldM (linkTemplate (meta_Name (preset_meta preset))) [] templates;
  mret {| linkages_PresetName := meta_Name (preset_meta preset);
          linkages_Clusters := clusters;
          linkages_ClusterTemplates := linked |}.
End usage.

(** ** Both endpoints see the same clusters and templates *)

Section usage_proofs.
Context {W CP : Type} {EL : ErrorLib} {P : SDK} {SDKP : PresetSDK} {API : KubeAPI W} {ST : Store W}
        {PRESETS : PresetProvider W} {PPROJECTS : PrivilegedProjectProvider W} {MAPPER : ProjectMemberMapper W}
        {ELL : ErrorLibLaws EL} {LAWS : KubeAPILaws W} {MAPL : ProjectMemberMapperLaws W} {PSDK : SDKLaws P}
        {SL : PresetSDKLaws SDKP} {PL : PresetProviderLaws W} {PPL : PrivilegedProjectProviderLaws W}.
Variables SeedInvalidPhase PresetNameAnnotation ClusterTemplateHumanReadableNameLabelKey : string.
Variable ClusterCloudProviderName : CloudSpec -> result error string.
Variable order : gmap string Seed -> list Seed.
Variable seedsGetter : SeedsGetter W.
Variable clusterProviderGetter : GetterOf W CP.
Variable clusters_ListAll : CP -> selector -> M W error (list UserCluster).
Variable templates_ListALL : selector -> M W error (list ClusterTemplate).
Implicit Types w : W.

(** What the seeds hold while the requests are served; [None] fails. *)
Record Usage := MkUsage {
  us_seeds : gmap string Seed;
  us_provider : Seed -> option CP;
  us_clusters : CP -> option (list UserCluster);
  us_templates : list ClusterTemplate }.

Definition selected {A} (meta : A -> ObjectMeta) (sel : selector) (l : list A) : list A :=
  filter (fun x => matches sel (meta x) = true) l.

(** The getters answer what the installation [u] holds, in any order. *)
Record answers_usage (u : Usage) : Prop := {
  au_order m : order m ≡ₚ (map_to_list m).*2;
  au_seeds w : runs seedsGetter w (fun r w' => same_store w w' /\
    match r with Ok seeds => seeds = us_seeds u | Err _ => True | Panic => False end);
  au_provider s w : runs (clusterProviderGetter s) w (fun r w' => same_store w w' /\
    match r with Ok cp => us_provider u s = Some cp | Err _ => us_provider u s = None | Panic => False end);
  au_clusters cp sel w : runs (clusters_ListAll cp sel) w (fun r w' => same_store w w' /\
    match r with
    | Ok l => exists all, us_clusters u cp = Some all /\ l ≡ₚ selected cluster_meta sel all
    | Err _ => us_clusters u cp = None
    | Panic => False
    end);
  au_templates sel w : runs (templates_ListALL sel) w (fun r w' => same_store w w' /\
    match r with Ok l => l ≡ₚ selected template_meta sel (us_templates u) | Err _ => True | Panic => False end);
  au_names c : ClusterCloudProviderName c <> Panic }.

Variable u : Usage.
Hypothesis Hu : answers_usage u.

(** Labelled as made from a preset, and from this one. *)
Definition made_with (name : string) (m : ObjectMeta) : Prop :=
  meta_Labels m !! IsCredentialPresetLabelKey = Some "true" /\ meta_Annotations m !! PresetNameAnnotation = Some name.
#[local] Instance made_with_dec name m : Decision (made_with name m).
Proof. unfold made_with. apply _. Defined.

Definition made {A} (meta : A -> ObjectMeta) (name : string) (l : list A) : list A :=
  filter (fun x => made_with name (meta x)) l.

Definition seed_clusters (name : string) (s : Seed) : list UserCluster :=
  if bool_decide (seed_Phase s = SeedInvalidPhase) then []
  else match us_provider u s with
       | None => []
       | Some cp => made cluster_meta name (default [] (us_clusters u cp))
       end.
Definition used_clusters (name : string) : list UserCluster :=
  flat_map (seed_clusters name) (map_to_list (us_seeds u)).*2.
Definition used_templates (name : string) : list ClusterTemplate := made template_meta name (us_templates u).

(** The part of an association that the object itself tells. *)
Definition cluster_triple (c : UserCluster) : string * string * string :=
  (meta_Name (cluster_meta c), cluster_HumanReadableName c, value (meta_Labels (cluster_meta c)) ProjectIDLabelKey).
Definition template_triple (t : ClusterTemplate) : string * string * string :=
  (meta_Name (template_meta t), value (meta_Labels (template_meta t)) ClusterTemplateHumanReadableNameLabelKey,
   value (meta_Labels (template_meta t)) ProjectIDLabelKey).
Definition triple (a : Association) : string * string * string := (assoc_ID a, assoc_Name a, assoc_ProjectID a).

(** The project of an association is one that is stored, or its name is left out. *)
Definition project_shown w (a : Association) : Prop :=
  assoc_ProjectName a = "" \/
  exists p, view KProject w !! ("", assoc_ProjectID a) = Some p /\ project_Name p = assoc_ProjectName a.

Definition presetSelector : selector := LabelIs IsCredentialPresetLabelKey "true".

Lemma usesPreset_spec name m : name <> "" ->
  usesPreset PresetNameAnnotation name m = true <-> meta_Annotations m !! PresetNameAnnotation = Some name.
Proof.
  intros Hn. unfold usesPreset, value. rewrite andb_true_iff, negb_true_iff, bool_decide_eq_false, bool_decide_eq_true.
  destruct (meta_Annotations m !! PresetNameAnnotation) as [v|] eqn:E; cbn [default from_option]; unfold id.
  - split; [by intros [_ ->]|intros [= ->]]. split; [|done]. intros H. by rewrite H, lookup_empty in E.
  - split; [intros [_ H]; by subst name|done].
Qed.

Lemma uses_selected {A} (meta : A -> ObjectMeta) name (l all : list A) :
  name <> "" -> l ≡ₚ selected meta presetSelector all ->
  List.filter (fun x => usesPreset PresetNameAnnotation name (meta x)) l ≡ₚ made meta name all.
Proof.
  intros Hn Hl. rewrite List_filter_filter, Hl. unfold selected, made. rewrite list_filter_filter.
  erewrite list_filter_iff; [done|]. intros x. cbn beta. rewrite usesPreset_spec by done.
  unfold made_with, matches, presetSelector. rewrite bool_decide_eq_true. tauto.
Qed.

Lemma used_clusters_order name : flat_map (seed_clusters name) (order (us_seeds u)) ≡ₚ used_clusters name.
Proof.
  unfold used_clusters. induction (au_order u Hu (us_seeds u)) as [|x l l' _ IH|x y l|l1 l2 l3 _ IH1 _ IH2]; cbn.
  - done.
  - by rewrite IH.
  - rewrite !(assoc_L (++)). by rewrite (Permutation_app_comm (seed_clusters name y)).
  - by etrans.
Qed.

#[export] Instance project_shown_proper : Proper (same_store ==> eq ==> iff) project_shown.
Proof. intros w w' Hw a ? <-. unfold project_shown. by setoid_rewrite Hw. Qed.

Lemma getProjectName_spec labels w :
  runs (getProjectName labels) w (fun r w' => same_store w w' /\
    match r with
    | Ok n => n = "" \/ exists p, view KProject w !! ("", value labels ProjectIDLabelKey) = Some p /\ project_Name p = n
    | _ => False
    end).
Proof.
  unfold getProjectName. destruct (is_empty _); [runs_step; split; [done|by left]|].
  runs_call projects_GetUnsecured_spec. destruct Hcall as [Hs Hp].
  destruct r as [p|e|]; cbn [andThen]; [| |done]; runs_step; (split; [done|]); [right|by left].
  exists p. by split; [apply Hp|].
Qed.

(** What one turn of the loops over clusters and templates appends. *)
Definition appended {A} w name (meta : A -> ObjectMeta) (told : A -> string * string * string)
    (xs : list A) (l l' : list Association) : Prop :=
  exists more, l' = l ++ more /\ Forall (project_shown w) more /\
    triple <$> more = told <$> List.filter (fun x => usesPreset PresetNameAnnotation name (meta x)) xs.

Lemma addAssociation_spec {A} (meta : A -> ObjectMeta) told name (x : A) shownName cloud l w :
  told x = (meta_Name (meta x), shownName, value (meta_Labels (meta x)) ProjectIDLabelKey) ->
  runs (addAssociation PresetNameAnnotation ClusterCloudProviderName name (meta x) shownName cloud l) w
    (fun r w' => same_store w w' /\
      match r with Ok l' => appended w name meta told [x] l l' | _ => False end).
Proof.
  intros Ht. unfold addAssociation, appended. cbn [List.filter].
  destruct (usesPreset _ _ _); [|runs_step; split; [done|exists []; by rewrite app_nil_r]].
  plain_call getProjectName_spec. intros [n|e|] w1 [Hs Hn]; [|done|done]. cbn [andThen].
  assert (forall provider, runs (mret (l ++ [{| assoc_ID := meta_Name (meta x); assoc_Name := shownName;
      assoc_ProjectID := value (meta_Labels (meta x)) ProjectIDLabelKey; assoc_ProjectName := n;
      assoc_Provider := provider |}]) : M W error _) w1 (fun r w' => same_store w w' /\
      match r with Ok l' => exists more, l' = l ++ more /\ Forall (project_shown w) more /\
        triple <$> more = told <$> [x] | _ => False end)) as Hend.
  { intros provider. runs_step. split; [done|]. eexists; split_and!; [done| |cbn; by rewrite Ht].
    constructor; [|done]. exact Hn. }
  unfold providerName. do 4 runs_step.
  pose proof (au_names u Hu cloud) as Hc. destruct (ClusterCloudProviderName cloud) as [p|e|]; [| |done].
  all: cbn [andThen]; runs_step; cbn [andThen]; apply Hend.
Qed.

Lemma appended_nil {A} w name (meta : A -> ObjectMeta) told l : appended w name meta told [] l l.
Proof. exists []. by rewrite app_nil_r. Qed.
Lemma appended_app {A} w name (meta : A -> ObjectMeta) told xs ys l1 l2 l3 :
  appended w name meta told xs l1 l2 -> appended w name meta told ys l2 l3 ->
  appended w name meta told (xs ++ ys) l1 l3.
Proof.
  intros (m1 & -> & Hf1 & E1) (m2 & -> & Hf2 & E2). exists (m1 ++ m2). rewrite (assoc_L (++)).
  split_and!; [done|by apply Forall_app|]. rewrite List.filter_app, !fmap_app. by f_equal.
Qed.
Lemma appended_same {A} w w' name (meta : A -> ObjectMeta) told xs l l' :
  same_store w w' -> appended w' name meta told xs l l' -> appended w name meta told xs l l'.
Proof.
  intros Hw (more & -> & Hf & E). exists more. split_and!; [done| |done].
  eapply Forall_impl; [exact Hf|]. intros a. by rewrite Hw.
Qed.

Lemma link_all {A} (meta : A -> ObjectMeta) told name (f : list Association -> A -> M W error (list Association)) :
  (forall l x w, runs (f l x) w (fun r w' => same_store w w' /\
     match r with Ok l' => appended w name meta told [x] l l' | _ => False end)) ->
  forall xs l w, runs (foldM f l xs) w (fun r w' => same_store w w' /\
    match r with Ok l' => appended w name meta told xs l l' | _ => False end).
Proof.
  intros Hf xs l w. apply (runs_foldM _ (fun seen l' w' => same_store w w' /\ appended w name meta told seen l l')).
  - split; [done|apply appended_nil].
  - intros seen x rest l' w1 _ [Hs Ha]. eapply runs_mono; [apply Hf|]. cbn beta.
    intros [l2|e|] w2 [Hs2 H2]; [|done|done]. split; [by etrans|]. eapply appended_app; [done|by eapply appended_same].
  - done.
Qed.

Definition linkC := linkCluster PresetNameAnnotation ClusterCloudProviderName.
Definition linkT := linkTemplate PresetNameAnnotation ClusterTemplateHumanReadableNameLabelKey ClusterCloudProviderName.

Lemma linkCluster_spec name l c w :
  runs (linkC name l c) w (fun r w' => same_store w w' /\
    match r with Ok l' => appended w name cluster_meta cluster_triple [c] l l' | _ => False end).
Proof. by apply addAssociation_spec. Qed.
Lemma linkTemplate_spec name l t w :
  runs (linkT name l t) w (fun r w' => same_store w w' /\
    match r with Ok l' => appended w name template_meta template_triple [t] l l' | _ => False end).
Proof. by apply addAssociation_spec. Qed.

(** The associations [l] are those of the objects [xs], in some order. *)
Definition tells {A} w (told : A -> string * string * string) (xs : list A) (l : list Association) : Prop :=
  triple <$> l ≡ₚ told <$> xs /\ Forall (project_shown w) l.

Lemma tells_appended {A} w name (meta : A -> ObjectMeta) told xs all ys l l' :
  name <> "" -> xs ≡ₚ selected meta presetSelector all ->
  tells w told ys l -> appended w name meta told xs l l' -> tells w told (ys ++ made meta name all) l'.
Proof.
  intros Hn Hx [Hp Hf] (more & -> & Hf2 & E). split; [|by apply Forall_app].
  rewrite !fmap_app, Hp, E. by rewrite (uses_selected meta name _ _ Hn Hx).
Qed.
Lemma tells_same {A} w w' (told : A -> string * string * string) xs l :
  same_store w w' -> tells w' told xs l -> tells w told xs l.
Proof.
  intros Hw [Hp Hf]. split; [done|]. eapply Forall_impl; [exact Hf|]. intros a. by rewrite Hw.
Qed.

Lemma seed_clusters_listed name s cp all :
  seed_Phase s <> SeedInvalidPhase -> us_provider u s = Some cp -> us_clusters u cp = Some all ->
  seed_clusters name s = made cluster_meta name all.
Proof. intros Hs Hp Hc. unfold seed_clusters. by rewrite bool_decide_eq_false_2, Hp, Hc. Qed.

Definition countS := countSeed SeedInvalidPhase PresetNameAnnotation clusterProviderGetter clusters_ListAll.
Definition linkS := linkSeed SeedInvalidPhase PresetNameAnnotation ClusterCloudProviderName clusterProviderGetter
  clusters_ListAll.

Lemma countSeed_spec name n s w : name <> "" ->
  runs (countS name presetSelector n s) w (fun r w' => same_store w w' /\
    match r with Ok n' => n' = n + length (seed_clusters name s) | Err _ => True | Panic => False end).
Proof.
  intros Hn. unfold countS, countSeed. destruct (bool_decide _) eqn:Ei.
  { runs_step. split; [done|]. unfold seed_clusters. rewrite Ei. cbn. lia. }
  apply bool_decide_eq_false in Ei.
  runs_step. runs_step. eapply runs_mono; [apply (au_provider u Hu)|]. cbn beta.
  intros [cp|e|] w1 [Hs Hp]; [| |done]; cbn [andThen].
  2:{ runs_step. split; [done|]. unfold seed_clusters. rewrite Hp. destruct (bool_decide _); cbn; lia. }
  http_call (au_clusters u Hu). intros [l|e|] w2 [Hs2 Hl]; [|by split; [etrans|]|done].
  destruct Hl as (all & Hall & Hl). cbn [andThen]. runs_step. split; [by etrans|].
  by rewrite (uses_selected cluster_meta name l all), (seed_clusters_listed _ _ _ _ Ei Hp Hall) by done.
Qed.

Lemma linkSeed_spec name ys l s w : name <> "" -> tells w cluster_triple ys l ->
  runs (linkS name presetSelector l s) w (fun r w' => same_store w w' /\
    match r with Ok l' => tells w cluster_triple (ys ++ seed_clusters name s) l' | _ => False end).
Proof.
  intros Hn Ht. unfold linkS, linkSeed.
  assert (seed_clusters name s = [] -> tells w cluster_triple (ys ++ seed_clusters name s) l) as Hskip
    by (intros ->; by rewrite app_nil_r).
  destruct (bool_decide _) eqn:Ei.
  { runs_step. split; [done|]. apply Hskip. unfold seed_clusters. by rewrite Ei. }
  apply bool_decide_eq_false in Ei.
  runs_step. runs_step. eapply runs_mono; [apply (au_provider u Hu)|]. cbn beta.
  intros [cp|e|] w1 [Hs Hp]; [| |done]; cbn [andThen].
  2:{ runs_step. split; [done|]. apply Hskip. unfold seed_clusters. rewrite Hp. by destruct (bool_decide _). }
  runs_step. runs_step. eapply runs_mono; [apply (au_clusters u Hu)|]. cbn beta.
  intros [lc|e|] w2 [Hs2 Hl]; [| |done]; cbn [andThen].
  2:{ runs_step. split; [by etrans|]. apply Hskip. unfold seed_clusters. rewrite Hp, Hl. by destruct (bool_decide _). }
  destruct Hl as (all & Hall & Hl). eapply runs_mono; [apply (link_all cluster_meta cluster_triple name);
    intros; apply linkCluster_spec|]. cbn beta.
  intros [l'|e|] w3 [Hs3 H3]; [|done|done]. assert (same_store w w2) as Hw by (by etrans). split; [by etrans|].
  rewrite (seed_clusters_listed _ _ _ _ Ei Hp Hall). eapply tells_appended; [done|exact Hl|done|].
  by eapply appended_same.
Qed.

Lemma countSeeds_spec name w : name <> "" ->
  runs (foldM (countS name presetSelector) 0 (order (us_seeds u))) w (fun r w' => same_store w w' /\
    match r with Ok n => n = length (used_clusters name) | Err _ => True | Panic => False end).
Proof.
  intros Hn. apply (runs_foldM _ (fun seen n w' => same_store w w' /\ n = length (flat_map (seed_clusters name) seen))).
  - done.
  - intros seen s rest n w1 _ [Hs ->]. eapply runs_mono; [by apply countSeed_spec|]. cbn beta.
    intros [n'|e|] w2 [Hs2 H2]; (split; [by etrans|]); [|done|done].
    by rewrite flat_map_app, length_app, H2, (app_nil_r (seed_clusters name s) : flat_map _ [s] = _).
  - intros n w' [Hs ->]. split; [done|]. by rewrite used_clusters_order.
Qed.

Lemma linkSeeds_spec name w : name <> "" ->
  runs (foldM (linkS name presetSelector) [] (order (us_seeds u))) w (fun r w' => same_store w w' /\
    match r with Ok l => tells w cluster_triple (used_clusters name) l | _ => False end).
Proof.
  intros Hn.
  apply (runs_foldM _ (fun seen l w' => same_store w w' /\ tells w cluster_triple (flat_map (seed_clusters name) seen) l)).
  - split; [done|]. by split.
  - intros seen s rest l w1 _ [Hs Ht]. eapply runs_mono; [apply linkSeed_spec; [done|]|].
    { eapply tells_same; [symmetry; exact Hs|exact Ht]. }
    cbn beta. intros [l'|e|] w2 [Hs2 H2]; [|done|done]. split; [by etrans|].
    rewrite flat_map_app, (app_nil_r (seed_clusters name s) : flat_map _ [s] = _).
    by eapply tells_same.
  - intros l w' [Hs [Hp Hf]]. split; [done|]. split; [|done]. by rewrite Hp, used_clusters_order.
Qed.
Definition stats := GetPresetStats UserInfoGetterFactory SeedInvalidPhase PresetNameAnnotation order seedsGetter
  clusterProviderGetter clusters_ListAll templates_ListALL.
Definition linkages := GetPresetLinkages UserInfoGetterFactory SeedInvalidPhase PresetNameAnnotation
  ClusterTemplateHumanReadableNameLabelKey ClusterCloudProviderName order seedsGetter
  clusterProviderGetter clusters_ListAll templates_ListALL.

(** The user of the request may see the preset, outside of any project. *)
Definition user_sees ctx w name : Prop := exists ui user p,
  ctx_UserCR ctx = Some user /\ same_user ui user /\
  stored KPreset w p /\ meta_Name (preset_meta p) = name /\ preset_visible ui None p.

Lemma getUsedPreset_spec ui name w :
  runs (getUsedPreset ui name) w (fun r w' => same_store w w' /\
    match r with
    | Ok p => stored KPreset w p /\ meta_Name (preset_meta p) = name /\ preset_visible ui None p
    | Err _ => True
    | Panic => False
    end).
Proof. unfold getUsedPreset. runs_call presets_GetPreset_spec. by destruct r, Hcall. Qed.

Lemma listSeeds_answers w :
  runs (listSeeds seedsGetter) w (fun r w' => same_store w w' /\
    match r with Ok seeds => seeds = us_seeds u | Err _ => True | Panic => False end).
Proof. unfold listSeeds. runs_step. eapply runs_mono; [apply (au_seeds u Hu)|]. by intros [?|?|] w' H. Qed.

Lemma presetSelector_spec w Q :
  (forall r, match r with Ok sel => sel = presetSelector | Err _ => True | Panic => False end -> Q r w) ->
  runs (httpErr (lift (labels_NewRequirement_Equals IsCredentialPresetLabelKey "true")) : M W error _) w Q.
Proof.
  intros HQ. unfold httpErr. do 2 runs_step. destruct (labels_NewRequirement_Equals _ _) as [sel|e|] eqn:E.
  - apply HQ. by eapply labels_NewRequirement_Equals_ok.
  - by apply HQ.
  - by apply labels_NewRequirement_Equals_panic in E.
Qed.

Lemma templates_answer w :
  runs (httpErr (templates_ListALL presetSelector)) w (fun r w' => same_store w w' /\
    match r with
    | Ok l => l ≡ₚ selected template_meta presetSelector (us_templates u)
    | Err _ => True
    | Panic => False
    end).
Proof. eapply httpErr_spec; [apply (au_templates u Hu)|]. by intros [?|?|] w' H. Qed.
Lemma GetPresetStats_spec ctx name w :
  runs (stats ctx name) w (fun r w' => same_store w w' /\
    match r with
    | Ok s => user_sees ctx w name /\ AssociatedClusters s = length (used_clusters name) /\
        AssociatedClusterTemplates s = length (used_templates name)
    | Err _ => True
    | Panic => False
    end).
Proof.
  unfold stats, GetPresetStats, validRequest, presetReq_Validate. do 2 runs_step. apply runs_lift.
  destruct (is_empty name) eqn:En; [done|]. apply is_empty_false in En. cbn [andThen].
  plain_call requester_spec. intros [ui|e|] w1 [Hs1 Hui]; [|done|done]. cbn [andThen].
  destruct Hui as (user & Hctx & Hsame).
  plain_call getUsedPreset_spec. intros [p|e|] w2 [Hs2 Hp]; [|by split; [etrans|]|done]. cbn [andThen].
  destruct Hp as (Hst & Hname & Hvis). rewrite Hname.
  assert (same_store w w2) as Hw2 by (by transitivity w1).
  assert (user_sees ctx w name) as Hsees by (exists ui, user, p; rewrite Hs1; auto).
  plain_call listSeeds_answers. intros [seeds|e|] w3 [Hs3 Hseeds]; [subst seeds|by split; [etrans|]|done]. cbn [andThen].
  assert (same_store w w3) as Hw3 by (by etrans).
  apply runs_bind, presetSelector_spec. intros [sel|e|] Hsel; [|done|done]. subst sel. cbn [andThen].
  plain_call countSeeds_spec; [done|]. intros [n|e|] w4 [Hs4 Hn]; [subst n|by split; [etrans|]|done]. cbn [andThen].
  assert (same_store w w4) as Hw4 by (by etrans).
  plain_call templates_answer. intros [l|e|] w5 [Hs5 Hl]; [|by split; [etrans|]|done]. cbn [andThen].
  runs_step. split; [by etrans|]. split_and!; [done|done|]. cbn [AssociatedClusterTemplates].
  by rewrite (uses_selected template_meta name l _ En Hl).
Qed.

Lemma GetPresetLinkages_spec ctx name w :
  runs (linkages ctx name) w (fun r w' => same_store w w' /\
    match r with
    | Ok ls => user_sees ctx w name /\ admin ctx /\ linkages_PresetName ls = name /\
        tells w cluster_triple (used_clusters name) (linkages_Clusters ls) /\
        tells w template_triple (used_templates name) (linkages_ClusterTemplates ls)
    | Err _ => True
    | Panic => False
    end).
Proof.
  unfold linkages, GetPresetLinkages, validRequest, presetReq_Validate. do 2 runs_step. apply runs_lift.
  destruct (is_empty name) eqn:En; [done|]. apply is_empty_false in En. cbn [andThen].
  plain_call requester_spec. intros [ui|e|] w1 [Hs1 Hui]; [|done|done]. cbn [andThen].
  destruct Hui as (user & Hctx & Hsame).
  apply runs_bind, runs_throwIf; [done|]. intros Hadm%negb_false_iff. cbn [andThen].
  plain_call getUsedPreset_spec. intros [p|e|] w2 [Hs2 Hp]; [|by split; [etrans|]|done]. cbn [andThen].
  destruct Hp as (Hst & Hname & Hvis). rewrite Hname.
  assert (same_store w w2) as Hw2 by (by transitivity w1).
  assert (user_sees ctx w name) as Hsees by (exists ui, user, p; rewrite Hs1; auto).
  assert (admin ctx) as Hadmin by (exists user; split; [done|]; destruct Hsame as [_ <-]; done).
  plain_call listSeeds_answers. intros [seeds|e|] w3 [Hs3 Hseeds]; [subst seeds|by split; [etrans|]|done]. cbn [andThen].
  assert (same_store w w3) as Hw3 by (by etrans).
  apply runs_bind, presetSelector_spec. intros [sel|e|] Hsel; [|done|done]. subst sel. cbn [andThen].
  plain_call linkSeeds_spec; [done|]. intros [lc|e|] w4 [Hs4 Hlc]; [|done|done]. cbn [andThen].
  assert (same_store w w4) as Hw4 by (by etrans).
  plain_call templates_answer. intros [lt|e|] w5 [Hs5 Hlt]; [|by split; [etrans|]|done]. cbn [andThen].
  assert (same_store w w5) as Hw5 by (by etrans).
  plain_call (link_all template_meta template_triple name); [intros; apply linkTemplate_spec|].
  intros [l|e|] w6 [Hs6 Ha]; [|done|done]. cbn [andThen]. runs_step. split; [by etrans|].
  do 3 (split; [done|]). split; [exact (tells_same _ _ _ _ _ Hw3 Hlc)|].
  apply (tells_appended w name template_meta template_triple lt (us_templates u) [] [] l En Hlt);
    [by split|exact (appended_same _ _ _ _ _ _ _ _ Hw5 Ha)].
Qed.

(** The number of clusters and of templates that the endpoint of the
    statistics answers for a preset is the number of those that the endpoint of
    the linkages lists: both go by the label and the annotation, over the seeds
    that are not invalid and have a cluster provider.  The linkages name every
    such cluster once, with its project; they are for administrators, and both
    endpoints change nothing and never crash. *)
Theorem preset_usage_agrees ctx ctx' name w :
  let s := stats ctx name w in
  let l := linkages ctx' name w in
  s.1 <> Panic /\ l.1 <> Panic /\ same_store w s.2 /\ same_store w l.2 /\
  (is_ok s.1 = true -> user_sees ctx w name) /\ (is_ok l.1 = true -> user_sees ctx' w name /\ admin ctx') /\
  forall st ls, s.1 = Ok st -> l.1 = Ok ls ->
    AssociatedClusters st = length (linkages_Clusters ls) /\
    AssociatedClusterTemplates st = length (linkages_ClusterTemplates ls) /\
    tells w cluster_triple (used_clusters name) (linkages_Clusters ls) /\
    tells w template_triple (used_templates name) (linkages_ClusterTemplates ls).
Proof.
  intros s l. pose proof (GetPresetStats_spec ctx name w) as Hst. pose proof (GetPresetLinkages_spec ctx' name w) as Hl.
  unfold runs in Hst, Hl. fold s in Hst. fold l in Hl. destruct s as [rs ws], l as [rl wl]. cbn [fst snd] in *.
  destruct Hst as [Hs1 Hst], Hl as [Hs2 Hl].
  split_and!; [by destruct rs|by destruct rl|done|done|by (destruct rs; [intros _; apply Hst|intros|intros])|
               by (destruct rl; [intros _; split; apply Hl|intros|intros])|].
  intros st ls -> ->. destruct Hst as (_ & -> & ->), Hl as (_ & _ & _ & Hc & Ht).
  pose proof (Permutation_length (proj1 Hc)) as Ec. pose proof (Permutation_length (proj1 Ht)) as Et.
  rewrite !length_fmap in Ec, Et. rewrite Ec, Et, (length_fmap cluster_triple), (length_fmap template_triple). auto.
Qed.
End usage_proofs.

(** ** A concrete installation *)

Definition usageLabels (project preset : string) : ObjectMeta -> ObjectMeta := fun m =>
  MkMeta (meta_Name m) "" "" "" zero_time None
    {[ "is-credential-preset" := "true"; "project-id" := project; "name" := "tpl" ]} {[ "preset-name" := preset ]} [] [].
Definition usedCluster (name project preset : string) : UserCluster :=
  MkUserCluster (usageLabels project preset (metaNamed name))
    (cspec_with_HumanReadableName ("shown " +:+ name) (cspec_with_Cloud requestCloud emptyClusterSpec)) noClusterStatus.
Definition usageSeeds : gmap string Seed :=
  {[ "bad" := seedNamed "bad" "Invalid"; "broken" := seedNamed "broken" "Healthy"; "eu" := seedNamed "eu" "Healthy" ]}.
Definition usage : Usage (CP := unit) :=
  MkUsage usageSeeds (fun s => if bool_decide (seed_Name s = "broken") then None else Some tt)
    (fun _ => Some [usedCluster "c1" "p1" "team"; usedCluster "c2" "gone" "team"; usedCluster "c3" "p1" "open"])
    [MkClusterTemplate (usageLabels "p1" "team" (metaNamed "t1")) requestCloud].
Definition usageProvider : GetterOf Mem unit := fun s w =>
  (match us_provider usage s with Some cp => Ok cp | None => Err (ENew "no kubeconfig") end, w).
Definition usageListAll (cp : unit) (sel : selector) : M Mem error (list UserCluster) := fun w =>
  (match us_clusters usage cp with
   | Some l => Ok (selected cluster_meta sel l) | None => Err (ENew "no access") end, w).
Definition usageTemplates (sel : selector) : M Mem error (list ClusterTemplate) := fun w =>
  (Ok (selected template_meta sel (us_templates usage)), w).
Definition usageSeedsGetter : SeedsGetter Mem := fun w => (Ok usageSeeds, w).
Definition usageStats : Ctx -> string -> M Mem error PresetStats :=
  stats "Invalid" "preset-name" mapOrder usageSeedsGetter usageProvider usageListAll usageTemplates.
Definition usageLinkages : Ctx -> string -> M Mem error PresetLinkages :=
  linkages "Invalid" "preset-name" "name" (fun _ => Ok "openstack") mapOrder usageSeedsGetter usageProvider
    usageListAll usageTemplates.

Lemma answers_usage_sample : answers_usage (fun _ => Ok "openstack") mapOrder usageSeedsGetter usageProvider
  usageListAll usageTemplates usage.
Proof.
  split; try done.
  - intros s w. unfold runs, usageProvider. cbn [fst snd]. split; [done|].
    by destruct (us_provider usage s) eqn:E; cbn.
  - intros cp sel w. split; [done|]. by eexists.
  - intros sel w. split; [done|]. apply Permutation_refl.
Qed.

Lemma preset_usage_agrees_witness :
  (usageStats aliceCtx "team" presetStore).1 = Ok (MkPresetStats 2 1) /\
  exists ls, (usageLinkages aliceCtx "team" presetStore).1 = Ok ls /\
    assoc_ProjectName <$> linkages_Clusters ls = ["first"; ""] /\ length (linkages_Clusters ls) = 2.
Proof.
  assert ((usageStats aliceCtx "team" presetStore).1 = Ok (MkPresetStats 2 1)) as Es by (vm_compute; reflexivity).
  destruct ((usageLinkages aliceCtx "team" presetStore).1) as [ls| |] eqn:El;
    [|exfalso; revert El; vm_compute; discriminate|exfalso; revert El; vm_compute; discriminate].
  destruct (preset_usage_agrees "Invalid" "preset-name" "name" (fun _ => Ok "openstack") mapOrder usageSeedsGetter
    usageProvider usageListAll usageTemplates usage answers_usage_sample aliceCtx aliceCtx "team" presetStore)
    as (_ & _ & _ & _ & _ & _ & H).
  destruct (H _ ls Es El) as [Hn _]. split; [done|]. exists ls. split; [done|]. split; [|by rewrite <- Hn].
  apply (f_equal (fun r => match r with Ok ls => assoc_ProjectName <$> linkages_Clusters ls | _ => [] end)) in El.
  cbn beta iota in El. rewrite <- El. vm_compute. reflexivity.
Defined.
