(* ===== verification/GroupBindings.v ===== *)
(** The bindings between groups of the identity provider and projects:
    ee/group-project-binding/provider/provider.go, the handlers of
    ee/group-project-binding/handler/handler.go and their endpoints in
    handler/v2/group-project-binding. *)
From S2P Require Export Handlers.

(** ** The provider *)

(** provider.GroupProjectBindingProvider *)
Class GroupProjectBindingProvider (W : Type) := {
  gbindings_List : option UserInfo -> string -> M W error (list GroupProjectBinding);
  gbindings_Get : option UserInfo -> string -> M W error GroupProjectBinding;
  gbindings_Create : option UserInfo -> GroupProjectBinding -> M W error unit;
  gbindings_Patch : option UserInfo -> GroupProjectBinding -> GroupProjectBinding -> M W error unit;
  gbindings_Delete : option UserInfo -> string -> M W error unit }.

Section group_binding_provider.
Context {W : Type} {EL : ErrorLib} {P : SDK} {API : KubeAPI W}.

Definition missingUser : error := ENew "a user is missing but required".

Definition getImpersonatedClient (userInfo : option UserInfo) : M W error client :=
  match userInfo with
  | None => throw missingUser
  | Some userInfo => CreateImpersonatedClient (MkImpersonation (ui_Email userInfo) (ui_Groups userInfo))
  end.

(** [client := p.clientPrivileged; if !userInfo.IsAdmin { client, err = ... }]. *)
Definition clientFor (userInfo : UserInfo) : M W error client :=
  if negb (ui_IsAdmin userInfo) then getImpersonatedClient (Some userInfo) else mret Privileged.

Definition GroupProjectBindingProvider_Get (userInfo : option UserInfo) (name : string)
    : M W error GroupProjectBinding :=
  match userInfo with
  | None => throw missingUser
  | Some userInfo =>
      client ← clientFor userInfo;
      kget KGroupBinding client ("", name)
  end.

Definition GroupProjectBindingProvider_List (userInfo : option UserInfo) (projectID : string)
    : M W error (list GroupProjectBinding) :=
  match userInfo with
  | None => throw missingUser
  | Some ui =>
      projectReq ← mapErr (EWrap "failed to construct project label selector: ")
                     (lift (labels_NewRequirement_Equals ProjectIDLabelKey projectID));
      projectBindings ← klist KGroupBinding Privileged projectReq;
      match projectBindings with
      | [] => mret []
      | first :: _ =>
          if ui_IsAdmin ui then mret projectBindings else
          (* fetch the first binding with the user's permissions *)
          _ ← GroupProjectBindingProvider_Get (Some ui) (meta_Name (gbinding_meta first));
          mret projectBindings
      end
  end.

Definition GroupProjectBindingProvider_Create (userInfo : option UserInfo) (binding : GroupProjectBinding)
    : M W error unit :=
  match userInfo with
  | None => throw missingUser
  | Some userInfo =>
      client ← clientFor userInfo;
      _ ← kcreate KGroupBinding client binding; mret tt
  end.

Definition GroupProjectBindingProvider_Patch (userInfo : option UserInfo)
    (oldBinding newBinding : GroupProjectBinding) : M W error unit :=
  match userInfo with
  | None => throw missingUser
  | Some userInfo =>
      client ← clientFor userInfo;
      _ ← kpatch KGroupBinding client oldBinding newBinding; mret tt
  end.

Definition GroupProjectBindingProvider_Delete (userInfo : option UserInfo) (name : string) : M W error unit :=
  match userInfo with
  | None => throw missingUser
  | Some ui =>
      binding ← GroupProjectBindingProvider_Get userInfo name;
      client ← clientFor ui;
      kdelete KGroupBinding client (key_of KGroupBinding binding)
  end.
End group_binding_provider.

#[export] Instance eeGroupProjectBindingProvider {W} `{ErrorLib} `{SDK} `{KubeAPI W}
    : GroupProjectBindingProvider W := {|
  gbindings_List := GroupProjectBindingProvider_List;
  gbindings_Get := GroupProjectBindingProvider_Get;
  gbindings_Create := GroupProjectBindingProvider_Create;
  gbindings_Patch := GroupProjectBindingProvider_Patch;
  gbindings_Delete := GroupProjectBindingProvider_Delete |}.

(** ** The handlers *)

(** apiv2.GroupProjectBinding *)
Record ApiGroupBinding := MkApiGroupBinding {
  apigb_Name : string;
  apigb_Group : string;
  apigb_ProjectID : string;
  apigb_Role : string }.
#[export] Instance ApiGroupBinding_eq_dec : EqDecision ApiGroupBinding.
Proof. solve_decision. Defined.

Definition gb_external (binding : GroupProjectBinding) : ApiGroupBinding :=
  {| apigb_Name := meta_Name (gbinding_meta binding); apigb_Group := gbinding_Group binding;
     apigb_ProjectID := gbinding_ProjectID binding; apigb_Role := gbinding_Role binding |}.

Record groupProjectBindingBody := MkGroupBindingBody {
  body_Role : string;
  body_Group : string }.

Section group_binding_handlers.
Context {W : Type} {EL : ErrorLib} {P : SDK} {API : KubeAPI W} {GB : GroupProjectBindingProvider W}
        {PROJECTS : ProjectProvider W} {PPROJECTS : PrivilegedProjectProvider W}.
Variable userInfoGetter : UserInfoGetter W.

(** [sets.List] answers the sorted elements. *)
Definition validateRole (role : string) : result error unit :=
  let allowedRoles : gset string := {[ ViewersRole; EditorsRole; OwnersRole ]} in
  if negb (bool_decide (role ∈ allowedRoles))
  then Err (utilerrors_NewBadRequest ("allowed roles are: " +:+ EditorsRole +:+ ", " +:+ OwnersRole +:+ ", " +:+ ViewersRole))
  else Ok tt.

(** The method Validate of createGroupProjectBindingReq and of
    patchGroupProjectBindingReq. *)
Definition groupBinding_Validate (body : groupProjectBindingBody) : result error unit :=
  if is_empty (body_Group body) then Err (utilerrors_NewBadRequest "`group` cannot be empty")
  else validateRole (body_Role body).

Definition getUserInfo (ctx : Ctx) (projectID : string) : M W error UserInfo :=
  userInfo ← userInfoGetter ctx "";
  if negb (ui_IsAdmin userInfo) then userInfoGetter ctx projectID else mret userInfo.

Definition ListGroupProjectBindings (ctx : Ctx) (projectID : string) : M W error (list ApiGroupBinding) :=
  _ ← throwIf (is_empty projectID) (utilerrors_NewBadRequest "the id of the project cannot be empty");
  kubermaticProject ← httpErr (GetProject userInfoGetter ctx projectID None);
  userInfo ← httpErr (getUserInfo ctx (project_id kubermaticProject));
  bindingList ← httpErr (gbindings_List (Some userInfo) (project_id kubermaticProject));
  mret (gb_external <$> bindingList).

Definition GetGroupProjectBinding (ctx : Ctx) (projectID bindingName : string) : M W error ApiGroupBinding :=
  kubermaticProject ← httpErr (GetProject userInfoGetter ctx projectID None);
  userInfo ← httpErr (getUserInfo ctx (project_id kubermaticProject));
  binding ← httpErr (gbindings_Get (Some userInfo) bindingName);
  mret (gb_external binding).

Definition CreateGroupProjectBinding (ctx : Ctx) (projectID : string) (body : groupProjectBindingBody)
    : M W error ApiGroupBinding :=
  _ ← validRequest (groupBinding_Validate body);
  kubermaticProject ← httpErr (GetProject userInfoGetter ctx projectID None);
  userInfo ← getUserInfo ctx (project_id kubermaticProject);
  suffix ← rand_string 10;
  let bindingName := project_id kubermaticProject +:+ "-" +:+ suffix in
  _ ← httpErr (gbindings_Create (Some userInfo)
        {| gbinding_meta := metaNamed bindingName; gbinding_ProjectID := projectID;
           gbinding_Group := body_Group body; gbinding_Role := body_Role body |});
  mret {| apigb_Name := bindingName; apigb_ProjectID := projectID;
          apigb_Group := body_Group body; apigb_Role := body_Role body |}.

Definition DeleteGroupProjectBinding (ctx : Ctx) (projectID bindingName : string) : M W error unit :=
  kubermaticProject ← httpErr (GetProject userInfoGetter ctx projectID None);
  userInfo ← httpErr (getUserInfo ctx (project_id kubermaticProject));
  httpErr (gbindings_Delete (Some userInfo) bindingName).

Definition PatchGroupProjectBinding (ctx : Ctx) (projectID bindingName : string)
    (body : groupProjectBindingBody) : M W error ApiGroupBinding :=
  _ ← validRequest (groupBinding_Validate body);
  kubermaticProject ← httpErr (GetProject userInfoGetter ctx projectID None);
  userInfo ← httpErr (getUserInfo ctx (project_id kubermaticProject));
  originalBinding ← httpErr (gbindings_Get (Some userInfo) bindingName);
  let newBinding := gbinding_with_spec (body_Group body) (body_Role body) originalBinding in
  _ ← httpErr (gbindings_Patch (Some userInfo) originalBinding newBinding);
  mret {| apigb_Name := meta_Name (gbinding_meta originalBinding); apigb_ProjectID := project_id kubermaticProject;
          apigb_Group := gbinding_Group newBinding; apigb_Role := gbinding_Role newBinding |}.
End group_binding_handlers.

(** ** All requests *)

Inductive GroupBindingRequest :=
| ListGroupBindings (projectID : string)
| GetGroupBinding (projectID bindingName : string)
| CreateGroupBinding (projectID : string) (body : groupProjectBindingBody)
| DeleteGroupBinding (projectID bindingName : string)
| PatchGroupBinding (projectID bindingName : string) (body : groupProjectBindingBody).

Inductive GroupBindingAnswer :=
| GroupBindingsAnswer (l : list ApiGroupBinding)
| GroupBindingAnswer1 (a : ApiGroupBinding)
| GroupBindingDone.

Section serve_group_bindings.
Context {W : Type} {EL : ErrorLib} {P : SDK} {API : KubeAPI W} {GB : GroupProjectBindingProvider W}
        {PROJECTS : ProjectProvider W} {PPROJECTS : PrivilegedProjectProvider W}.
Variable userInfoGetter : UserInfoGetter W.

Definition serve_group_binding (call : Ctx * GroupBindingRequest) : M W error GroupBindingAnswer :=
  let '(ctx, req) := call in
  match req with
  | ListGroupBindings pid =>
      l ← ListGroupProjectBindings userInfoGetter ctx pid; mret (GroupBindingsAnswer l)
  | GetGroupBinding pid name =>
      a ← GetGroupProjectBinding userInfoGetter ctx pid name; mret (GroupBindingAnswer1 a)
  | CreateGroupBinding pid body =>
      a ← CreateGroupProjectBinding userInfoGetter ctx pid body; mret (GroupBindingAnswer1 a)
  | DeleteGroupBinding pid name =>
      _ ← DeleteGroupProjectBinding userInfoGetter ctx pid name; mret GroupBindingDone
  | PatchGroupBinding pid name body =>
      a ← PatchGroupProjectBinding userInfoGetter ctx pid name body; mret (GroupBindingAnswer1 a)
  end.

(** The world after the requests, whatever their answers are. *)
Fixpoint serve_group_bindings (calls : list (Ctx * GroupBindingRequest)) (w : W) : W :=
  match calls with
  | [] => w
  | call :: calls => serve_group_bindings calls (serve_group_binding call w).2
  end.
End serve_group_bindings.

(** ** What the provider promises *)

Section group_binding_contract.
Context {W : Type} {EL : ErrorLib} {P : SDK} {API : KubeAPI W} {ST : Store W}.
Implicit Types w : W.

(** The user info may do this: that of an administrator, or with its groups. *)
Definition info_may w (ui : UserInfo) v n : Prop :=
  ui_IsAdmin ui = true \/ authorized w (as_user ui) v KGroupBinding n.

(** The bindings labelled with the project. *)
Definition labelled w pid (b : GroupProjectBinding) : Prop :=
  stored KGroupBinding w b /\ meta_Labels (gbinding_meta b) !! ProjectIDLabelKey = Some pid.

#[export] Instance info_may_proper : Proper (same_store ==> eq ==> eq ==> eq ==> iff) info_may.
Proof. intros w w' Hw u ? <- v ? <- n ? <-. unfold info_may. by rewrite Hw. Qed.
#[export] Instance labelled_proper : Proper (same_store ==> eq ==> eq ==> iff) labelled.
Proof. intros w w' Hw p ? <- b ? <-. unfold labelled. by rewrite Hw. Qed.
End group_binding_contract.

Class GroupProjectBindingProviderLaws (W : Type) {P : SDK} {ST : Store W}
    {GB : GroupProjectBindingProvider W} : Prop := {
  gbindings_List_spec ui pid w :
    runs (gbindings_List (Some ui) pid) w (fun r w' => same_store w w' /\
      match r with
      | Ok l => (forall b, b ∈ l <-> labelled w pid b) /\
          (l = [] \/ ui_IsAdmin ui = true \/ exists b, b ∈ l /\ info_may w ui VGet ("", meta_Name (gbinding_meta b)))
      | Err _ => True
      | Panic => False
      end);
  gbindings_Get_spec ui name w :
    runs (gbindings_Get (Some ui) name) w (fun r w' => same_store w w' /\
      match r with
      | Ok b => view KGroupBinding w !! ("", name) = Some b /\ info_may w ui VGet ("", name)
      | Err _ => True
      | Panic => False
      end);
  gbindings_Create_spec ui b w :
    runs (gbindings_Create (Some ui) b) w (fun r w' =>
      match r with
      | Ok _ => info_may w ui VCreate (key_of KGroupBinding b) /\
          exists b', strip KGroupBinding b' = strip KGroupBinding b /\ created KGroupBinding w w' b'
      | Err _ => same_store w w'
      | Panic => False
      end);
  gbindings_Patch_spec ui old b w :
    runs (gbindings_Patch (Some ui) old b) w (fun r w' =>
      match r with
      | Ok _ => info_may w ui VPatch (key_of KGroupBinding b) /\
          exists b', key_of KGroupBinding b' = key_of KGroupBinding b /\ updated KGroupBinding w w' b' /\
            (view KGroupBinding w !! key_of KGroupBinding b = Some old ->
             strip KGroupBinding b' = strip KGroupBinding b)
      | Err _ => same_store w w'
      | Panic => False
      end);
  gbindings_Delete_spec ui name w :
    runs (gbindings_Delete (Some ui) name) w (fun r w' =>
      match r with
      | Ok _ => info_may w ui VGet ("", name) /\ info_may w ui VDelete ("", name) /\
          deleted KGroupBinding w w' ("", name)
      | Err _ => same_store w w'
      | Panic => False
      end) }.

Section group_binding_provider_proofs.
Context {W : Type} {EL : ErrorLib} {P : SDK} {API : KubeAPI W} {ST : Store W}
        {LAWS : KubeAPILaws W} {PL : SDKLaws P}.
Implicit Types w : W.

Lemma clientFor_spec ui w :
  runs (clientFor ui) w (fun r w' => same_store w w' /\
    match r with
    | Ok c => forall w v n, authorized w c v KGroupBinding n -> info_may w ui v n
    | Err _ => True
    | Panic => False
    end).
Proof.
  unfold clientFor, getImpersonatedClient. destruct (ui_IsAdmin ui) eqn:E; cbn [negb].
  - runs_step. split; [done|]. intros. by left.
  - eapply runs_mono; [apply (createImpersonationClientWrapperFromUserInfo_spec ui)|]. cbn beta.
    intros [c|e|] w' [Hs H]; (split; [done|]); [|done|done]. subst c. intros w0 v n Ha. by right.
Qed.

Lemma GroupProjectBindingProvider_Get_spec ui name w :
  runs (GroupProjectBindingProvider_Get (Some ui) name) w (fun r w' => same_store w w' /\
    match r with
    | Ok b => view KGroupBinding w !! ("", name) = Some b /\ info_may w ui VGet ("", name)
    | Err _ => True
    | Panic => False
    end).
Proof.
  unfold GroupProjectBindingProvider_Get. runs_call clientFor_spec. destruct Hcall as [Hs Hc].
  destruct r as [c|e|]; cbn [andThen]; [|done|done].
  runs_call (kget_spec KGroupBinding). destruct Hcall as [Hs' Hb]. split; [by etrans|].
  destruct r as [b|e|]; [|done|done]. rewrite Hs. destruct Hb as [Hb Ha]. split; [done|by apply Hc].
Qed.

#[export] Instance eeGroupProjectBindingProvider_laws : GroupProjectBindingProviderLaws W.
Proof.
  split.
  - intros ui pid w. cbn [gbindings_List eeGroupProjectBindingProvider]. unfold GroupProjectBindingProvider_List.
    do 3 runs_step. destruct (labels_NewRequirement_Equals _ _) as [sel|e|] eqn:E;
      [|done|by apply labels_NewRequirement_Equals_panic in E].
    apply labels_NewRequirement_Equals_ok in E as ->. cbn [andThen].
    runs_call (klist_spec KGroupBinding). destruct Hcall as [Hs Hl].
    destruct r as [l|e|]; cbn [andThen]; [|done|done].
    assert (forall b, b ∈ l <-> labelled w pid b) as Hin.
    { intros b. rewrite (elem_of_listed KGroupBinding _ _ _ _ Hl). cbn [matches].
      rewrite bool_decide_eq_true. unfold labelled, stored. cbn [obj_meta]. tauto. }
    destruct l as [|b l]; [runs_step; split; [done|]; split; [done|by left]|].
    destruct (ui_IsAdmin ui) eqn:Ea; [runs_step; split; [done|]; split; [done|by right; left]|].
    runs_call GroupProjectBindingProvider_Get_spec. destruct Hcall as [Hs' Hb].
    destruct r as [b'|e|]; cbn [andThen]; [|by split; [etrans|]|done]. runs_step. split; [by etrans|].
    split; [done|]. right. right. exists b. split; [set_solver|]. rewrite Hs. apply Hb.
  - apply GroupProjectBindingProvider_Get_spec.
  - intros ui b w. cbn [gbindings_Create eeGroupProjectBindingProvider]. unfold GroupProjectBindingProvider_Create.
    runs_call clientFor_spec. destruct Hcall as [Hs Hc]. destruct r as [c|e|]; cbn [andThen]; [|done|done].
    runs_call (kcreate_spec KGroupBinding). destruct r as [b'|e|]; cbn [andThen]; [|destruct Hcall; by etrans|done].
    runs_step. destruct Hcall as (Ha & Hst & Hcr). rewrite Hs. split; [by apply Hc|]. exists b'. by rewrite Hs.
  - intros ui old b w. cbn [gbindings_Patch eeGroupProjectBindingProvider]. unfold GroupProjectBindingProvider_Patch.
    runs_call clientFor_spec. destruct Hcall as [Hs Hc]. destruct r as [c|e|]; cbn [andThen]; [|done|done].
    runs_call (kpatch_spec KGroupBinding). destruct r as [b'|e|]; cbn [andThen]; [|by etrans|done].
    runs_step. destruct Hcall as (Ha & Hk & Hup & Hst). rewrite Hs. split; [by apply Hc|]. exists b'.
    rewrite Hs. split_and!; [done|done|]. intros Hold. by eapply Hst.
  - intros ui name w. cbn [gbindings_Delete eeGroupProjectBindingProvider]. unfold GroupProjectBindingProvider_Delete.
    runs_call GroupProjectBindingProvider_Get_spec. destruct Hcall as [Hs Hb].
    destruct r as [b|e|]; cbn [andThen]; [|done|done]. destruct Hb as [Hb Hg].
    runs_call clientFor_spec. destruct Hcall as [Hs' Hc].
    assert (same_store w w1) as H1 by (by etrans).
    destruct r as [c|e|]; cbn [andThen]; [|done|done].
    rewrite (view_key KGroupBinding w _ _ Hb).
    runs_call (kdelete_spec KGroupBinding). destruct r as [[]|e|]; [|by etrans|done].
    destruct Hcall as [Ha Hdel]. split; [done|]. rewrite H1. split; [by apply Hc|done].
Qed.
End group_binding_provider_proofs.

(** ** The handlers' effects *)

Section group_binding_proofs.
Context {W : Type} {EL : ErrorLib} {P : SDK} {API : KubeAPI W} {ST : Store W}
        {GB : GroupProjectBindingProvider W} {PROJECTS : ProjectProvider W}
        {PPROJECTS : PrivilegedProjectProvider W} {MAPPER : ProjectMemberMapper W}
        {ELL : ErrorLibLaws EL} {LAWS : KubeAPILaws W} {MAPL : ProjectMemberMapperLaws W}
        {PRL : ProjectProviderLaws W} {PPL : PrivilegedProjectProviderLaws W}
        {GBL : GroupProjectBindingProviderLaws W}.
Implicit Types w : W.

Definition valid_role (role : string) : Prop := role ∈ [ViewersRole; EditorsRole; OwnersRole].

Definition valid_body (body : groupProjectBindingBody) : Prop :=
  body_Group body <> "" /\ valid_role (body_Role body).

Lemma groupBinding_Validate_spec body w :
  runs (validRequest (groupBinding_Validate body)) w (fun r w' => w' = w /\
    match r with Ok _ => valid_body body | Err e => http_status e = 400%Z | Panic => False end).
Proof.
  unfold validRequest, groupBinding_Validate, validateRole. do 2 runs_step.
  assert (forall m, http_status (utilerrors_NewBadRequest m) = 400%Z) as H400.
  { intros m. by destruct (utilerrors_NewBadRequest_http m) as (h & -> & Hc). }
  destruct (is_empty (body_Group body)) eqn:E; [by split|].
  case_bool_decide as Hr; cbn [negb]; [|by split]. split; [done|].
  apply is_empty_false in E. split; [done|]. unfold valid_role. set_solver.
Qed.

Definition gb_may ctx w pid v n : Prop :=
  exists user, ctx_UserCR ctx = Some user /\ permitted w user pid v KGroupBinding n.

#[export] Instance gb_may_proper : Proper (eq ==> same_store ==> eq ==> eq ==> eq ==> iff) gb_may.
Proof.
  intros c ? <- w w' Hw p ? <- v ? <- n ? <-. unfold gb_may. by setoid_rewrite Hw.
Qed.

(** The user info with which the handlers call the provider. *)
Definition caller_info ctx w pid ui : Prop :=
  forall w1 v n, same_store w w1 -> info_may w1 ui v n -> gb_may ctx w pid v n.

Lemma getUserInfo_spec ctx pid w :
  runs (getUserInfo UserInfoGetterFactory ctx pid) w (fun r w' => same_store w w' /\
    match r with Ok ui => caller_info ctx w pid ui | Err _ => True | Panic => False end).
Proof.
  unfold getUserInfo. runs_call UserInfoGetterFactory_spec. destruct Hcall as [Hs Hi].
  destruct r as [ui|e|]; cbn [andThen]; [|done|done].
  destruct Hi as (user & Hc & _ & (_ & Hadm & _)). rewrite Hadm.
  destruct (user_IsAdmin user) eqn:Ea; cbn [negb].
  { runs_step. split; [done|]. intros w1 v n _ _. exists user. split; [done|by left]. }
  runs_call UserInfoGetterFactory_spec. destruct Hcall as [Hs2 Hi].
  assert (same_store w w1) as Hs' by (by etrans).
  destruct r as [ui'|e|]; [|done|done]. split; [done|].
  destruct Hi as (user' & Hc' & _ & Hi). rewrite Hc in Hc'. injection Hc' as <-.
  rewrite <- Hs in Hi. intros w2 v n Hw [Hadm'|Ha].
  - assert (ui_IsAdmin ui' = user_IsAdmin user) as E
      by (unfold getter_info in Hi; destruct (is_empty pid); apply Hi). congruence.
  - exists user. split; [done|]. right. exists ui'. split; [done|]. by rewrite Hw.
Qed.

(** What a request that succeeds did. *)
Definition gb_effect ctx (req : GroupBindingRequest) w (a : GroupBindingAnswer) w' : Prop :=
  match req, a with
  | ListGroupBindings pid, GroupBindingsAnswer l =>
      same_store w w' /\ forall x, x ∈ l <-> exists b, labelled w pid b /\ x = gb_external b
  | GetGroupBinding pid name, GroupBindingAnswer1 a =>
      same_store w w' /\ gb_may ctx w pid VGet ("", name) /\
      exists b, view KGroupBinding w !! ("", name) = Some b /\ a = gb_external b
  | CreateGroupBinding pid body, GroupBindingAnswer1 a =>
      valid_body body /\ exists b, created KGroupBinding w w' b /\ a = gb_external b /\
        gb_may ctx w pid VCreate (key_of KGroupBinding b) /\
        gbinding_ProjectID b = pid /\ gbinding_Group b = body_Group body /\ gbinding_Role b = body_Role body
  | DeleteGroupBinding pid name, GroupBindingDone =>
      gb_may ctx w pid VDelete ("", name) /\ deleted KGroupBinding w w' ("", name)
  | PatchGroupBinding pid name body, GroupBindingAnswer1 a =>
      valid_body body /\ a = MkApiGroupBinding name (body_Group body) pid (body_Role body) /\
      gb_may ctx w pid VPatch ("", name) /\
      exists old b, view KGroupBinding w !! ("", name) = Some old /\ updated KGroupBinding w w' b /\
        strip KGroupBinding b = strip KGroupBinding (gbinding_with_spec (body_Group body) (body_Role body) old)
  | _, _ => False
  end.

(** The project and the user info every handler starts with. *)
Lemma start_spec {A} ctx pid (k : Project -> UserInfo -> M W error A) w (Q : result error A -> W -> Prop) :
  (forall e w', same_store w w' -> Q (Err e) w') ->
  (forall project ui w', same_store w w' -> project_id project = pid -> caller_info ctx w pid ui ->
     runs (k project ui) w' Q) ->
  runs (project ← httpErr (GetProject UserInfoGetterFactory ctx pid None);
        ui ← httpErr (getUserInfo UserInfoGetterFactory ctx (project_id project));
        k project ui) w Q.
Proof.
  intros He Hk. http_call (handler_GetProject (W := W)).
  intros [project|e|] w1 [Hs1 Hp]; cbn [andThen]; [|by apply He|done]. destruct Hp as [_ [_ Hn]].
  change (project_id project = pid) in Hn. rewrite Hn.
  http_call getUserInfo_spec. intros [ui|e|] w2 [Hs2 Hi]; cbn [andThen]; [|apply He; by etrans|done].
  apply Hk; [by etrans|done|]. intros w3 v n Hw Hm. rewrite Hs1. eapply Hi; [|done]. rewrite <- Hs1. done.
Qed.

Lemma ListGroupBindings_effect ctx pid w :
  runs (serve_group_binding UserInfoGetterFactory (ctx, ListGroupBindings pid)) w (fun r w' =>
    match r with Ok a => gb_effect ctx (ListGroupBindings pid) w a w' | Err _ => same_store w w' | Panic => False end).
Proof.
  unfold serve_group_binding, ListGroupProjectBindings. runs_step. runs_guard; [done|].
  apply start_spec; [done|]. intros project ui w1 Hs Hn Hi.
  http_call (gbindings_List_spec (W := W)). intros [l|e|] w2 [Hs2 Hl]; cbn [andThen]; [|by etrans|done].
  do 2 runs_step. cbn [andThen]. runs_step. split; [by etrans|]. destruct Hl as [Hl _]. rewrite Hn in Hl.
  intros x. rewrite list_elem_of_fmap. setoid_rewrite Hl. setoid_rewrite Hs. naive_solver.
Qed.

Lemma GetGroupBinding_effect ctx pid name w :
  runs (serve_group_binding UserInfoGetterFactory (ctx, GetGroupBinding pid name)) w (fun r w' =>
    match r with Ok a => gb_effect ctx (GetGroupBinding pid name) w a w' | Err _ => same_store w w' | Panic => False end).
Proof.
  unfold serve_group_binding, GetGroupProjectBinding. runs_step. apply start_spec; [done|]. intros project ui w1 Hs Hn Hi.
  http_call (gbindings_Get_spec (W := W)). intros [b|e|] w2 [Hs2 Hb]; cbn [andThen]; [|by etrans|done].
  do 2 runs_step. cbn [andThen]. runs_step. destruct Hb as [Hb Hm].
  split; [by etrans|]. split; [by eapply Hi|]. exists b. by rewrite Hs.
Qed.

Lemma CreateGroupBinding_effect ctx pid body w :
  runs (serve_group_binding UserInfoGetterFactory (ctx, CreateGroupBinding pid body)) w (fun r w' =>
    match r with Ok a => gb_effect ctx (CreateGroupBinding pid body) w a w' | Err _ => same_store w w' | Panic => False end).
Proof.
  unfold serve_group_binding, CreateGroupProjectBinding. runs_step.
  plain_call groupBinding_Validate_spec. intros [[]|e|] w0 [-> Hbody]; cbn [andThen]; [|done|done].
  http_call (handler_GetProject (W := W)). intros [project|e|] w1 [Hs1 Hp]; cbn [andThen]; [|done|done].
  destruct Hp as [_ [_ Hn]]. change (project_id project = pid) in Hn. rewrite Hn.
  plain_call getUserInfo_spec. intros [ui|e|] w2 [Hs2 Hi]; cbn [andThen]; [|by etrans|done].
  plain_call rand_string_spec. intros r w3 [Hs3 (suffix & -> & _)]. cbn [andThen].
  assert (same_store w w3) as H3 by (by etrans; [|etrans]).
  http_call (gbindings_Create_spec (W := W)). intros [[]|e|] w4 H; cbn [andThen]; [|by etrans|done].
  runs_step. destruct H as [Hm (b & Hst & Hcr)]. split; [done|]. exists b. rewrite H3.
  rewrite (strip_key _ _ _ Hst). split; [done|]. pose proof (strip_key _ _ _ Hst) as [= _ Hname].
  apply strip_gbinding in Hst as (E1 & E2 & E3 & _). cbn in Hname, E1, E2, E3.
  unfold gb_external. rewrite Hname, E1, E2, E3. split_and!; try done.
  rewrite <- H3, Hs1. eapply Hi; [exact (transitivity Hs2 Hs3)|done].
Qed.

Lemma DeleteGroupBinding_effect ctx pid name w :
  runs (serve_group_binding UserInfoGetterFactory (ctx, DeleteGroupBinding pid name)) w (fun r w' =>
    match r with Ok a => gb_effect ctx (DeleteGroupBinding pid name) w a w' | Err _ => same_store w w' | Panic => False end).
Proof.
  unfold serve_group_binding, DeleteGroupProjectBinding. runs_step. apply start_spec; [done|]. intros project ui w1 Hs Hn Hi.
  eapply httpErr_spec; [apply gbindings_Delete_spec|]. intros [[]|e|] w2 H; cbn [andThen]; [|by etrans|done].
  runs_step. destruct H as (_ & Hm & Hdel). split; [by eapply Hi|]. by rewrite Hs.
Qed.

Lemma PatchGroupBinding_effect ctx pid name body w :
  runs (serve_group_binding UserInfoGetterFactory (ctx, PatchGroupBinding pid name body)) w (fun r w' =>
    match r with Ok a => gb_effect ctx (PatchGroupBinding pid name body) w a w' | Err _ => same_store w w' | Panic => False end).
Proof.
  unfold serve_group_binding, PatchGroupProjectBinding. runs_step.
  plain_call groupBinding_Validate_spec. intros [[]|e|] w0 [-> Hbody]; cbn [andThen]; [|done|done].
  apply start_spec; [done|]. intros project ui w1 Hs Hn Hi.
  http_call (gbindings_Get_spec (W := W)). intros [old|e|] w2 [Hs2 Hb]; cbn [andThen]; [|by etrans|done].
  destruct Hb as [Hb _]. assert (same_store w w2) as H2 by (by etrans).
  set (new := gbinding_with_spec _ _ old).
  pose proof (view_key KGroupBinding w1 _ _ Hb) as Hkey.
  assert (key_of KGroupBinding new = ("", name)) as Hnew by exact Hkey.
  http_call (gbindings_Patch_spec (W := W)). intros [[]|e|] w3 H; cbn [andThen]; [|by etrans|done].
  do 2 runs_step. cbn [andThen]. runs_step. destruct H as [Hm (b & Hk & Hup & Hst)]. rewrite Hnew in *.
  injection Hkey as _ Hname. rewrite Hs2 in Hb. split_and!; [done|by rewrite Hname, Hn|by eapply Hi|].
  exists old, b. rewrite H2. split_and!; [done|done|by apply Hst].
Qed.

Lemma serve_group_binding_effect call w :
  runs (serve_group_binding UserInfoGetterFactory call) w (fun r w' =>
    match r with
    | Ok a => gb_effect call.1 call.2 w a w'
    | Err _ => same_store w w'
    | Panic => False
    end).
Proof.
  destruct call as [ctx []]; auto using ListGroupBindings_effect, GetGroupBinding_effect,
    CreateGroupBinding_effect, DeleteGroupBinding_effect, PatchGroupBinding_effect.
Qed.


(** ** The bindings stay well-typed *)

(** Every stored binding names a group, and one of the three roles. *)
Definition bindings_typed w : Prop :=
  forall b, stored KGroupBinding w b -> gbinding_Group b <> "" /\ valid_role (gbinding_Role b).

#[export] Instance bindings_typed_proper : Proper (same_store ==> iff) bindings_typed.
Proof. intros w w' Hw. unfold bindings_typed. by setoid_rewrite Hw. Qed.

Lemma gb_effect_typed ctx req w a w' : gb_effect ctx req w a w' -> bindings_typed w -> bindings_typed w'.
Proof.
  intros He Ht. destruct req as [pid|pid name|pid body|pid name|pid name body]; destruct a; cbn in He; try done.
  - destruct He as [Hs _]. by rewrite <- Hs.
  - destruct He as [Hs _]. by rewrite <- Hs.
  - destruct He as ([Hg Hr] & b & Hcr & _ & _ & _ & E1 & E2).
    intros x [->|Hx]%(created_stored KGroupBinding _ _ _ _ Hcr); [by rewrite E1, E2|by apply Ht].
  - destruct He as (_ & Hkeep & _ & old & Hold & _ & Hst). intros x [n Hx].
    destruct (decide (n = ("", name))) as [->|Hne].
    + apply Hst, strip_gbinding in Hx as (E1 & _ & E2 & _). rewrite E1, E2. apply Ht. by eexists.
    + rewrite Hkeep in Hx by done. apply Ht. by eexists.
  - destruct He as ([Hg Hr] & _ & _ & old & b & _ & Hup & Hst).
    apply strip_gbinding in Hst as (E1 & _ & E2 & _).
    intros x [->|[Hx _]]%(updated_stored KGroupBinding _ _ _ _ Hup); [by rewrite E1, E2|by apply Ht].
Qed.

(** C21: whatever requests are made, every stored group binding names a group and
    one of the roles viewers, editors and owners, if it was so at the start. *)
Theorem group_bindings_stay_typed calls w :
  bindings_typed w -> bindings_typed (serve_group_bindings UserInfoGetterFactory calls w).
Proof.
  revert w. induction calls as [|call calls IH]; intros w Ht; cbn [serve_group_bindings]; [done|].
  apply IH. pose proof (serve_group_binding_effect call w) as H. unfold runs in H.
  destruct (serve_group_binding _ call w) as [[a|e|] w1]; cbn in H |- *; [|by rewrite <- H|done].
  by eapply gb_effect_typed.
Qed.
End group_binding_proofs.

(** ** Concrete runs *)

Definition opsBody : groupProjectBindingBody := {| body_Role := "owners"; body_Group := "ops" |}.


Definition groupCalls : list (Ctx * GroupBindingRequest) :=
  [(bobCtx, CreateGroupBinding "p1" opsBody);
   (bobCtx, PatchGroupBinding "p1" "p1-r1xxxxxxxx" (MkGroupBindingBody "viewers" "ops"));
   (aliceCtx, DeleteGroupBinding "p1" "g1")].

Lemma sample_bindings_typed : bindings_typed sample.
Proof.
  intros b [n Hn%(lookup_sample KGroupBinding)].
  assert (Forall (fun b => gbinding_Group b <> "" /\ gbinding_Role b ∈ [ViewersRole; EditorsRole; OwnersRole])
            (map_to_list (view KGroupBinding sample)).*2) as H
    by (apply (bool_decide_unpack _); vm_compute; reflexivity).
  rewrite Forall_forall in H. by apply H.
Qed.

Lemma group_bindings_stay_typed_witness :
  let w' := serve_group_bindings UserInfoGetterFactory groupCalls sample in
  (gb_external <$> (map_to_list (view KGroupBinding w')).*2) =
    [MkApiGroupBinding "p1-r1xxxxxxxx" "ops" "p1" "viewers"] /\
  bindings_typed w'.
Proof.
  intros w'. split; [vm_compute; reflexivity|].
  apply (group_bindings_stay_typed groupCalls sample sample_bindings_typed).
Defined.

(** An administrator changes a binding of p1 through the project p2; the answer
    says it is one of p2. *)
Definition twoProjects : Mem :=
  mem_of (fun k => match k return list (obj k) with
    | KUser => [alice]
    | KProject => [project1; MkProject (metaNamed "p2") "second" ∅ "Active"]
    | KGroupBinding => [devsBinding]
    | _ => [] end) 0 [] (fun _ _ _ _ => true).

Example patch_through_other_project :
  let run := serve_group_binding UserInfoGetterFactory
    (aliceCtx, PatchGroupBinding "p2" "g1" (MkGroupBindingBody "owners" "devs")) twoProjects in
  run.1 = Ok (GroupBindingAnswer1 (MkApiGroupBinding "g1" "devs" "p2" "owners")) /\
  (gb_external <$> view KGroupBinding run.2 !! ("", "g1")) = Some (MkApiGroupBinding "g1" "devs" "p1" "owners").
Proof. vm_compute. done. Qed.
