(* ===== verification/ResourceQuotas.v ===== *)
(** Resource quotas: the provider of ee/resource-quota/provider.go, the handlers of
    ee/resource-quota/handler.go and their endpoints in
    handler/v2/resource_quota/resourequota.go. *)
From S2P Require Export NodeResources Handlers Tables.
From stdpp Require Import pretty.

(** ** What belongs to the SDK *)

Class QuotaSDK := {
  ProjectSubjectKind : string;
  ProjectKindName : string;
  ResourceQuotaSubjectNameLabelKey : string;
  ResourceQuotaSubjectKindLabelKey : string;
  AcceleratorAccountingEnabledAnnotation : string;
  AcceleratorAccountingEnabledAnnotationValue : string;
  labels_SelectorFromSet : gmap string string -> selector }.

(** The labels differ, the value of the annotation is not empty, and a set of labels
    selects the objects that have them all. *)
Class QuotaSDKLaws (QS : QuotaSDK) : Prop := {
  subject_labels_distinct : ResourceQuotaSubjectNameLabelKey <> ResourceQuotaSubjectKindLabelKey;
  AccountingValue_nonempty : AcceleratorAccountingEnabledAnnotationValue <> "";
  SelectorFromSet_matches set m : matches (labels_SelectorFromSet set) m = bool_decide (set ⊆ meta_Labels m) }.

(** ** The provider *)

(** provider.ResourceQuotaProvider *)
Class ResourceQuotaProvider (W : Type) := {
  quotas_GetUnsecured : string -> M W error ResourceQuota;
  quotas_Get : option UserInfo -> string -> string -> M W error (option ResourceQuota);
  quotas_ListUnsecured : gmap string string -> M W error (list ResourceQuota);
  quotas_CreateUnsecured : QuotaSubject -> ResourceDetails -> M W error unit;
  quotas_PatchUnsecured : ResourceQuota -> ResourceQuota -> M W error unit;
  quotas_DeleteUnsecured : string -> M W error unit }.

(** ee/resource-quota/helpers.go *)
Definition buildNameFromSubject (subject : QuotaSubject) : string :=
  subject_Kind subject +:+ "-" +:+ subject_Name subject.

Section quota_provider.
Context {W : Type} {EL : ErrorLib} {P : SDK} {QS : QuotaSDK} {API : KubeAPI W}.

Definition ResourceQuotaProvider_GetUnsecured (name : string) : M W error ResourceQuota :=
  kget KResourceQuota Privileged ("", name).

Definition ResourceQuotaProvider_Get (userInfo : option UserInfo) (name kind : string)
    : M W error (option ResourceQuota) :=
  match userInfo with
  | None => throw (ENew "a user is missing but required")
  | Some userInfo =>
      masterImpersonatedClient ← CreateImpersonatedClient (MkImpersonation (ui_Email userInfo) (ui_Groups userInfo));
      subjectNameReq ← mapErr (EWrap "error creating resource quota subject name requirement: ")
                         (lift (labels_NewRequirement_Equals ResourceQuotaSubjectNameLabelKey name));
      subjectKindReq ← mapErr (EWrap "error creating resource quota subject kind requirement: ")
                         (lift (labels_NewRequirement_Equals ResourceQuotaSubjectKindLabelKey kind));
      let subjectSelector := AllOf [subjectNameReq; subjectKindReq] in
      resourceQuotaList ← klist KResourceQuota Privileged subjectSelector;
      match resourceQuotaList with
      | [] => mret None
      | resourceQuota :: _ =>
          (* check if user can actually access the resource quota *)
          _ ← kget KResourceQuota masterImpersonatedClient (key_of KResourceQuota resourceQuota);
          mret (Some resourceQuota)
      end
  end.

Definition ResourceQuotaProvider_ListUnsecured (labelSet : gmap string string) : M W error (list ResourceQuota) :=
  klist KResourceQuota Privileged (labels_SelectorFromSet labelSet).

Definition ResourceQuotaProvider_CreateUnsecured (subject : QuotaSubject) (quota : ResourceDetails) : M W error unit :=
  let rq := MkResourceQuota (metaNamed (buildNameFromSubject subject)) subject quota noQuotaStatus in
  _ ← kcreate KResourceQuota Privileged rq; mret tt.

Definition ResourceQuotaProvider_PatchUnsecured (oldResourceQuota newResourceQuota : ResourceQuota) : M W error unit :=
  _ ← kpatch KResourceQuota Privileged oldResourceQuota newResourceQuota; mret tt.

Definition ResourceQuotaProvider_DeleteUnsecured (name : string) : M W error unit :=
  rq ← ResourceQuotaProvider_GetUnsecured name;
  kdelete KResourceQuota Privileged (key_of KResourceQuota rq).

#[export] Instance eeResourceQuotaProvider : ResourceQuotaProvider W := {|
  quotas_GetUnsecured := ResourceQuotaProvider_GetUnsecured;
  quotas_Get := ResourceQuotaProvider_Get;
  quotas_ListUnsecured := ResourceQuotaProvider_ListUnsecured;
  quotas_CreateUnsecured := ResourceQuotaProvider_CreateUnsecured;
  quotas_PatchUnsecured := ResourceQuotaProvider_PatchUnsecured;
  quotas_DeleteUnsecured := ResourceQuotaProvider_DeleteUnsecured |}.
End quota_provider.

(** ** The handlers *)

Definition DefaultProjectResourceQuotaLabel : string := "kkp-default-resource-quota".
Definition totalQuotaName : string := "totalquota".

Section quota_conversion.
Context {Q : Quantities} {R : MapRange} {N : NodeCapacities} {FP : FloatPlatform} {QS : QuotaSDK}.

Definition isDefaultProjectResourceQuota (resourceQuota : ResourceQuota) : bool :=
  bool_decide (meta_Labels (quota_meta resourceQuota) !! DefaultProjectResourceQuotaLabel = Some "true").

(** A missing annotation reads as the empty string. *)
Definition isAcceleratorAccountingEnabled (resourceQuota : ResourceQuota) : bool :=
  bool_decide (default "" (meta_Annotations (quota_meta resourceQuota) !! AcceleratorAccountingEnabledAnnotation)
               = AcceleratorAccountingEnabledAnnotationValue).

Definition convertToAPIStruct (resourceQuota : ResourceQuota) (humanReadableSubjectName : string) : ApiResourceQuota :=
  let status := quota_Status resourceQuota in
  {| apirq_Name := meta_Name (quota_meta resourceQuota);
     apirq_SubjectName := subject_Name (quota_Subject resourceQuota);
     apirq_SubjectKind := subject_Kind (quota_Subject resourceQuota);
     apirq_SubjectHumanReadableName := humanReadableSubjectName;
     apirq_IsDefault := isDefaultProjectResourceQuota resourceQuota;
     apirq_AcceleratorAccountingEnabled := isAcceleratorAccountingEnabled resourceQuota;
     apirq_Quota := ConvertToAPIQuota (quota_Quota resourceQuota);
     apirq_Status :=
       {| apiqs_GlobalUsage := ConvertToAPIQuota (qstatus_GlobalUsage status);
          apiqs_LocalUsage := ConvertToAPIQuota (qstatus_LocalUsage status);
          apiqs_GlobalAcceleratorAccounting :=
            ConvertToAPIGlobalAcceleratorAccountingStatus (qstatus_GlobalAcceleratorAccounting status) |} |}.

(** [if x != nil { sum.Add(f( *x )) }]: the sums of [accumulateQuotas]. *)
Definition addField (f : Quantity -> Quantity) (sum : Quantity) (x : option Quantity) : Quantity :=
  match x with Some x => quantity_Add sum (f x) | None => sum end.

(** The details of one quota added to the sums of the details and of the accelerators. *)
Definition addDetails (sums : Quantity * Quantity * Quantity * gmap string (gmap string Quantity)) (d : ResourceDetails)
    : Quantity * Quantity * Quantity * gmap string (gmap string Quantity) :=
  let '(cpu, memory, storage, accelerators) := sums in
  (addField id cpu (rd_CPU d), addField TreatDecimalAsBinary memory (rd_Memory d),
   addField TreatDecimalAsBinary storage (rd_Storage d), addAcceleratorQuantities accelerators (rd_Accelerators d)).

Definition sumDetails (l : list ResourceDetails) : ResourceDetails :=
  let '(cpu, memory, storage, accelerators) := foldl addDetails (zeroQuantity, zeroQuantity, zeroQuantity, ∅) l in
  let rd := NewResourceDetails cpu memory storage in
  MkResourceDetails (rd_CPU rd) (rd_Memory rd) (rd_Storage rd) (acceleratorQuotasFromTotals accelerators).

Definition accumulateQuotas (rqList : list ResourceQuota) : ApiResourceQuota :=
  {| apirq_Name := totalQuotaName;
     apirq_SubjectName := "";
     apirq_SubjectKind := "";
     apirq_SubjectHumanReadableName := totalQuotaName;
     apirq_IsDefault := false;
     apirq_AcceleratorAccountingEnabled := false;
     apirq_Quota := ConvertToAPIQuota (sumDetails (quota_Quota <$> rqList));
     apirq_Status :=
       {| apiqs_GlobalUsage := ConvertToAPIQuota (sumDetails ((fun quota => qstatus_GlobalUsage (quota_Status quota)) <$> rqList));
          apiqs_LocalUsage := noApiQuota;
          apiqs_GlobalAcceleratorAccounting := None |} |}.

(** ** What a project would use after an update *)

(** [if a != nil && b != nil { a.op(f( *b )) }]. *)
Definition onBoth (op : Quantity -> Quantity -> Quantity) (a b : option Quantity) : option Quantity :=
  match a, b with Some a, Some b => Some (op a b) | _, _ => a end.

Definition addUsage (d usage : ResourceDetails) : ResourceDetails :=
  {| rd_CPU := onBoth quantity_Add (rd_CPU d) (rd_CPU usage);
     rd_Memory := onBoth quantity_Add (rd_Memory d) (TreatDecimalAsBinary <$> rd_Memory usage);
     rd_Storage := onBoth quantity_Add (rd_Storage d) (TreatDecimalAsBinary <$> rd_Storage usage);
     rd_Accelerators := rd_Accelerators d |}.
Definition subtractReplaced (d replaced : ResourceDetails) : ResourceDetails :=
  {| rd_CPU := onBoth quantity_Sub (rd_CPU d) (rd_CPU replaced);
     rd_Memory := onBoth quantity_Sub (rd_Memory d) (TreatDecimalAsBinary <$> rd_Memory replaced);
     rd_Storage := onBoth quantity_Sub (rd_Storage d) (TreatDecimalAsBinary <$> rd_Storage replaced);
     rd_Accelerators := rd_Accelerators d |}.

Definition calculateResources (new usage : ResourceDetails) (replaced : option ResourceDetails) : ResourceDetails :=
  let new' := addUsage new usage in
  let acceleratorTotals := addAcceleratorQuantities (addAcceleratorQuantities ∅ (rd_Accelerators new)) (rd_Accelerators usage) in
  let '(d, acceleratorTotals) :=
    match replaced with
    | Some replaced => (subtractReplaced new' replaced, subtractAcceleratorQuantities acceleratorTotals (rd_Accelerators replaced))
    | None => (new', acceleratorTotals)
    end in
  MkResourceDetails (rd_CPU d) (rd_Memory d) (rd_Storage d) (acceleratorQuotasFromTotals acceleratorTotals).

(** One line of the message, if the limit is exceeded. *)
Definition exceedsMessage (what : string) (calculated limit : option Quantity) : string :=
  match limit, calculated with
  | Some limit, Some calculated =>
      if (0 <? quantity_Cmp calculated limit)%Z
      then "Calculated " +:+ what +:+ " (" +:+ quantity_String calculated +:+ ") exceeds resource quota (" +:+
             quantity_String limit +:+ ")" +:+ newline
      else ""
  | _, _ => ""
  end.

Definition quotaMessage (calculated limits : ResourceDetails) : string :=
  exceedsMessage "cpu" (rd_CPU calculated) (rd_CPU limits) +:+
  exceedsMessage "memory" (rd_Memory calculated) (rd_Memory limits) +:+
  exceedsMessage "disk size" (rd_Storage calculated) (rd_Storage limits) +:+
  acceleratorExceedsQuotaMessage (rd_Accelerators limits) (rd_Accelerators calculated).
End quota_conversion.

Section quota_handlers.
Context {W : Type} {EL : ErrorLib} {P : SDK} {Q : Quantities} {R : MapRange} {N : NodeCapacities} {FP : FloatPlatform}
        {QS : QuotaSDK} {QUOTAS : ResourceQuotaProvider W}
        {PROJECTS : ProjectProvider W} {PPROJECTS : PrivilegedProjectProvider W}.
Variable userInfoGetter : UserInfoGetter W.

Definition createResourceQuotaReq_Validate (m : createResourceQuotaReq) : result error unit :=
  if is_empty (createquota_SubjectName m) then Err (utilerrors_NewBadRequest "subject's name cannot be empty")
  else if is_empty (createquota_SubjectKind m) then Err (utilerrors_NewBadRequest "subject's kind cannot be empty")
  else match apiquota_EnableAcceleratorAccounting (createquota_Quota m) with
       | Some true => Err (utilerrors_NewBadRequest "accelerator accounting cannot be enabled during creation; create the quota first, then enable accelerator accounting")
       | _ => Ok tt
       end.

(** [if apierrors.IsNotFound(err) { return utilerrors.NewNotFound("ResourceQuota", name) }]. *)
Definition quotaNotFound (name : string) (otherwise : error -> error) (err : error) : error :=
  if apierrors_IsNotFound err then utilerrors_NewNotFound "ResourceQuota" name else otherwise err.

Definition GetResourceQuota (name : string) : M W error ApiResourceQuota :=
  resourceQuota ← mapErr (quotaNotFound name id) (quotas_GetUnsecured name);
  humanReadableName ←
    (if bool_decide (subject_Kind (quota_Subject resourceQuota) = ProjectSubjectKind) then
       project ← httpErr (projects_GetUnsecured (subject_Name (quota_Subject resourceQuota)) None);
       mret (project_Name project)
     else mret "");
  mret (convertToAPIStruct resourceQuota humanReadableName).

(** The quota of the project, if there is one, and the name of the project. *)
Definition getProjectResourceQuota (ctx : Ctx) (projectID : string) : M W error (option ResourceQuota * string) :=
  _ ← throwIf (is_empty projectID) (utilerrors_NewBadRequest "the id of the project cannot be empty");
  kubermaticProject ← httpErr (GetProject userInfoGetter ctx projectID None);
  userInfo ← userInfoGetter ctx (project_id kubermaticProject);
  projectResourceQuota ← httpErr (quotas_Get (Some userInfo) (project_id kubermaticProject) (ToLower ProjectKindName));
  mret (projectResourceQuota, project_Name kubermaticProject).

Definition GetResourceQuotaForProject (ctx : Ctx) (projectID : string) : M W error (option ApiResourceQuota) :=
  '(projectResourceQuota, projectName) ← getProjectResourceQuota ctx projectID;
  mret ((fun q => convertToAPIStruct q projectName) <$> projectResourceQuota).

Definition invalidTemplate (err : error) : error :=
  utilerrors_NewBadRequest ("invalid request, failed getting resources from request body: " +:+ Error err).

Definition CalculateResourceQuotaUpdateForProject (ctx : Ctx) (req : calculateQuotaReq)
    : M W error (option ResourceQuotaUpdateCalculation) :=
  '(projectResourceQuota, projectName) ← getProjectResourceQuota ctx (calcreq_ProjectID req);
  match projectResourceQuota with
  | None => mret None   (* ResourceQuota not found. Return an empty response. *)
  | Some projectResourceQuota =>
      let globalQuotaUsage := qstatus_GlobalUsage (quota_Status projectResourceQuota) in
      let projectQuotaLimits := quota_Quota projectResourceQuota in
      new ← mapErr invalidTemplate (lift (MapProviderNodeTmplToResourceDetails (calcreq_Template req) (calcreq_Replicas req)));
      replaced ←
        match calcreq_ReplacedResources req with
        | None => mret None
        | Some replacedResources =>
            r ← mapErr invalidTemplate (lift (MapProviderNodeTmplToResourceDetails (replaced_Template replacedResources)
                                                (replaced_Replicas replacedResources)));
            mret (Some r)
        end;
      let calculated := calculateResources new globalQuotaUsage replaced in
      mret (Some {| calc_ResourceQuota := convertToAPIStruct projectResourceQuota projectName;
                    calc_CalculatedQuota := ConvertToAPIQuota calculated;
                    calc_Message := quotaMessage calculated projectQuotaLimits |})
  end.

Definition ListResourceQuotas (req : listResourceQuotasReq) : M W error (list ApiResourceQuota) :=
  let labelSet : gmap string string :=
    if is_empty (listquotas_SubjectKind req) then ∅
    else {[ ResourceQuotaSubjectKindLabelKey := listquotas_SubjectKind req ]} in
  let labelSet :=
    if is_empty (listquotas_SubjectName req) then labelSet
    else <[ResourceQuotaSubjectNameLabelKey := listquotas_SubjectName req]> labelSet in
  resourceQuotaList ← quotas_ListUnsecured labelSet;
  if listquotas_Accumulate req then mret [accumulateQuotas resourceQuotaList] else
  projects ← httpErr (projects_List None);
  let projectMap : gmap string Project := foldl (fun m project => <[project_id project := project]> m) ∅ projects in
  mret ((fun rq =>
           let humanReadableName :=
             if bool_decide (subject_Kind (quota_Subject rq) = ProjectSubjectKind) then
               match projectMap !! subject_Name (quota_Subject rq) with
               | Some project => project_Name project
               | None => ""
               end
             else "" in
           convertToAPIStruct rq humanReadableName) <$> resourceQuotaList).

Definition CreateResourceQuota (req : createResourceQuotaReq) : M W error unit :=
  _ ← validRequest (createResourceQuotaReq_Validate req);
  crdQuota ← mapErr (fun err => utilerrors_NewBadRequest (Error err)) (lift (ConvertToCRDQuota (createquota_Quota req)));
  let subject := MkQuotaSubject (createquota_SubjectName req) (createquota_SubjectKind req) in
  mapErr (fun err => if apierrors_IsAlreadyExists err
                     then utilerrors_NewAlreadyExists "ResourceQuota" (buildNameFromSubject subject)
                     else KubernetesErrorToHTTPError err)
    (quotas_CreateUnsecured subject crdQuota).

Definition enableAccounting (q : ResourceQuota) : ResourceQuota :=
  let m := quota_meta q in
  quota_with_meta
    (MkMeta (meta_Name m) (meta_Namespace m) (meta_UID m) (meta_ResourceVersion m) (meta_CreationTimestamp m)
       (meta_DeletionTimestamp m) (meta_Labels m)
       (<[AcceleratorAccountingEnabledAnnotation := AcceleratorAccountingEnabledAnnotationValue]> (meta_Annotations m))
       (meta_OwnerReferences m) (meta_Finalizers m)) q.

(** The new quota as the function leaves it. *)
Definition applyAcceleratorAccounting (body : ApiQuota) (originalResourceQuota newResourceQuota : ResourceQuota)
    : result error ResourceQuota :=
  match apiquota_EnableAcceleratorAccounting body with
  | None => Ok newResourceQuota
  | Some enable =>
      let alreadyEnabled := isAcceleratorAccountingEnabled originalResourceQuota in
      if negb enable then
        if alreadyEnabled
        then Err (utilerrors_NewBadRequest "accelerator accounting cannot be disabled once it has been enabled")
        else Ok newResourceQuota
      else if alreadyEnabled then Ok newResourceQuota
      else if isDefaultProjectResourceQuota originalResourceQuota
      then Err (utilerrors_NewBadRequest "accelerator quota cannot be enabled on a default project quota")
      else if (0 <? length (rd_Accelerators (quota_Quota newResourceQuota)))%nat
      then Err (utilerrors_NewBadRequest "accelerator limits must be empty when enabling accelerator accounting; enable accounting first, then configure accelerator limits")
      else Ok (enableAccounting newResourceQuota)
  end.

Definition without_default_label (q : ResourceQuota) : ResourceQuota :=
  quota_with_meta (meta_with_labels (delete DefaultProjectResourceQuotaLabel (meta_Labels (quota_meta q))) (quota_meta q)) q.

Definition PutResourceQuota (req : putResourceQuotaReq) : M W error unit :=
  originalResourceQuota ← mapErr (quotaNotFound (putquota_Name req) id) (quotas_GetUnsecured (putquota_Name req));
  (* if a resource quota is updated, it's not a default quota anymore. Remove default label if it exists *)
  let newResourceQuota := without_default_label originalResourceQuota in
  crdQuota ← mapErr (fun err => utilerrors_NewBadRequest (Error err)) (lift (ConvertToCRDQuota (putquota_Body req)));
  (* Older clients do not send the accelerator field. *)
  let crdQuota :=
    match apiquota_Accelerators (putquota_Body req) with
    | None => MkResourceDetails (rd_CPU crdQuota) (rd_Memory crdQuota) (rd_Storage crdQuota)
                (rd_Accelerators (quota_Quota originalResourceQuota))
    | Some _ => crdQuota
    end in
  let newResourceQuota := quota_with_quota crdQuota newResourceQuota in
  newResourceQuota ← lift (applyAcceleratorAccounting (putquota_Body req) originalResourceQuota newResourceQuota);
  mapErr (quotaNotFound (putquota_Name req) KubernetesErrorToHTTPError)
    (quotas_PatchUnsecured originalResourceQuota newResourceQuota).

Definition DeleteResourceQuota (name : string) : M W error unit :=
  mapErr (quotaNotFound name id) (quotas_DeleteUnsecured name).

(** ** handler/v2/resource_quota/resourequota.go *)

Definition adminsOnly {A} (ctx : Ctx) (m : M W error A) : M W error A :=
  userInfo ← userInfoGetter ctx "";
  _ ← throwIf (negb (ui_IsAdmin userInfo))
        (apierrors_NewForbidden (ui_Email userInfo) (ENew (ui_Email userInfo +:+ " doesn't have admin rights")));
  m.

Definition GetForProjectEndpoint := GetResourceQuotaForProject.
Definition CalculateProjectQuotaUpdateEndpoint := CalculateResourceQuotaUpdateForProject.
Definition GetResourceQuotaEndpoint (ctx : Ctx) (name : string) : M W error ApiResourceQuota :=
  adminsOnly ctx (GetResourceQuota name).
Definition ListResourceQuotasEndpoint (ctx : Ctx) (req : listResourceQuotasReq) : M W error (list ApiResourceQuota) :=
  adminsOnly ctx (ListResourceQuotas req).
Definition CreateResourceQuotaEndpoint (ctx : Ctx) (req : createResourceQuotaReq) : M W error unit :=
  adminsOnly ctx (CreateResourceQuota req).
Definition PutResourceQuotaEndpoint (ctx : Ctx) (req : putResourceQuotaReq) : M W error unit :=
  adminsOnly ctx (PutResourceQuota req).
Definition DeleteResourceQuotaEndpoint (ctx : Ctx) (name : string) : M W error unit :=
  adminsOnly ctx (DeleteResourceQuota name).
End quota_handlers.
