(* ===== verification/SSHKeys.v ===== *)
(** SSH keys: the provider of provider/kubernetes/ssh.go, its interface and what
    it promises to the handlers. *)
From S2P Require Export Providers.

(** provider.SSHKeyListOptions *)
Record SSHKeyListOptions := MkSSHKeyListOptions {
  ssh_ClusterName : string;
  ssh_SSHKeyName : string }.

(** provider.SSHKeyProvider, provider.PrivilegedSSHKeyProvider *)
Class SSHKeyProvider (W : Type) := {
  ssh_List : option Project -> option SSHKeyListOptions -> M W error (list UserSSHKey);
  ssh_Create : option UserInfo -> Project -> string -> string -> M W error UserSSHKey;
  ssh_Delete : UserInfo -> string -> M W error unit;
  ssh_Get : UserInfo -> string -> M W error UserSSHKey;
  ssh_Update : UserInfo -> UserSSHKey -> M W error UserSSHKey;
  ssh_GetUnsecured : string -> M W error UserSSHKey;
  ssh_UpdateUnsecured : UserSSHKey -> M W error UserSSHKey;
  ssh_CreateUnsecured : Project -> string -> string -> M W error UserSSHKey;
  ssh_DeleteUnsecured : string -> M W error unit }.

Section ssh_provider.
Context {W : Type} {EL : ErrorLib} {P : SDK} {API : KubeAPI W}.

Definition genUserSSHKey (project : Project) (keyName pubKey : string) : M W error UserSSHKey :=
  suffix ← rand_string 10;
  mret {| sshkey_meta := metaNamed ("key-" +:+ suffix);
          sshkey_PublicKey := pubKey;
          sshkey_Name := keyName;
          sshkey_Fingerprint := "";
          sshkey_Project := project_id project;
          sshkey_Clusters := [] |}.

Definition SSHKeyProvider_Create (userInfo : option UserInfo) (project : Project)
    (keyName pubKey : string) : M W error UserSSHKey :=
  _ ← throwIf (is_empty keyName) (ENew "the ssh key name is missing but required");
  _ ← throwIf (is_empty pubKey) (ENew "the ssh public part of the key is missing but required");
  match userInfo with
  | None => throw (ENew "a userInfo is missing but required")
  | Some userInfo =>
      sshKey ← genUserSSHKey project keyName pubKey;
      masterImpersonatedClient ← createImpersonationClientWrapperFromUserInfo userInfo;
      kcreate KSSHKey masterImpersonatedClient sshKey
  end.

Definition SSHKeyProvider_CreateUnsecured (project : Project) (keyName pubKey : string)
    : M W error UserSSHKey :=
  _ ← throwIf (is_empty keyName) (ENew "the ssh key name is missing but required");
  _ ← throwIf (is_empty pubKey) (ENew "the ssh public part of the key is missing but required");
  sshKey ← genUserSSHKey project keyName pubKey;
  kcreate KSSHKey Privileged sshKey.

(** What one turn of the second loop of List appends: the key once for its name,
    and once for every occurrence of the cluster. *)
Definition filteredKeys (options : SSHKeyListOptions) (key : UserSSHKey) : list UserSSHKey :=
  (if negb (is_empty (ssh_SSHKeyName options)) &&
      bool_decide (sshkey_Name key = ssh_SSHKeyName options) then [key] else []) ++
  (if negb (is_empty (ssh_ClusterName options))
   then (fun _ => key) <$> List.filter (fun actualClusterName =>
          bool_decide (actualClusterName = ssh_ClusterName options)) (sshkey_Clusters key)
   else []).

Definition SSHKeyProvider_List (project : option Project) (options : option SSHKeyListOptions)
    : M W error (list UserSSHKey) :=
  match project with
  | None => throw (ENew "a project is missing but required")
  | Some project =>
      allKeys ← klist KSSHKey Privileged Everything;
      let projectKeys := List.filter (fun key =>
        bool_decide (sshkey_Project key = project_id project)) allKeys in
      match options with
      | None => mret projectKeys
      | Some options =>
          if is_empty (ssh_ClusterName options) && is_empty (ssh_SSHKeyName options)
          then mret projectKeys
          else mret (flat_map (filteredKeys options) projectKeys)
      end
  end.

Definition SSHKeyProvider_Get (userInfo : UserInfo) (keyName : string) : M W error UserSSHKey :=
  masterImpersonatedClient ← createImpersonationClientWrapperFromUserInfo userInfo;
  kget KSSHKey masterImpersonatedClient ("", keyName).

Definition SSHKeyProvider_Delete (userInfo : UserInfo) (keyName : string) : M W error unit :=
  masterImpersonatedClient ← createImpersonationClientWrapperFromUserInfo userInfo;
  kdelete KSSHKey masterImpersonatedClient ("", keyName).

Definition SSHKeyProvider_DeleteUnsecured (keyName : string) : M W error unit :=
  kdelete KSSHKey Privileged ("", keyName).

Definition SSHKeyProvider_Update (userInfo : UserInfo) (newKey : UserSSHKey) : M W error UserSSHKey :=
  masterImpersonatedClient ← createImpersonationClientWrapperFromUserInfo userInfo;
  kupdate KSSHKey masterImpersonatedClient newKey.

Definition SSHKeyProvider_UpdateUnsecured (sshKey : UserSSHKey) : M W error UserSSHKey :=
  kupdate KSSHKey Privileged sshKey.

Definition SSHKeyProvider_GetUnsecured (keyName : string) : M W error UserSSHKey :=
  kget KSSHKey Privileged ("", keyName).
End ssh_provider.

#[export] Instance kubernetesSSHKeyProvider {W} `{ErrorLib} `{KubeAPI W} : SSHKeyProvider W := {|
  ssh_List := SSHKeyProvider_List;
  ssh_Create := SSHKeyProvider_Create;
  ssh_Delete := SSHKeyProvider_Delete;
  ssh_Get := SSHKeyProvider_Get;
  ssh_Update := SSHKeyProvider_Update;
  ssh_GetUnsecured := SSHKeyProvider_GetUnsecured;
  ssh_UpdateUnsecured := SSHKeyProvider_UpdateUnsecured;
  ssh_CreateUnsecured := SSHKeyProvider_CreateUnsecured;
  ssh_DeleteUnsecured := SSHKeyProvider_DeleteUnsecured |}.

(** ** What the provider promises *)

Section ssh_contract.
Context {W : Type} {EL : ErrorLib} {API : KubeAPI W} {ST : Store W}.
Implicit Types w : W.

(** The key [k] of the project passes the options. *)
Definition key_selected (options : option SSHKeyListOptions) (k : UserSSHKey) : Prop :=
  match options with
  | None => True
  | Some o =>
      if is_empty (ssh_ClusterName o) && is_empty (ssh_SSHKeyName o) then True
      else (ssh_SSHKeyName o <> "" /\ sshkey_Name k = ssh_SSHKeyName o) \/
           (ssh_ClusterName o <> "" /\ ssh_ClusterName o ∈ sshkey_Clusters k)
  end.

Definition lists_keys w (project : option Project) options (l : list UserSSHKey) : Prop :=
  exists p, project = Some p /\ forall k, k ∈ l <->
    stored KSSHKey w k /\ sshkey_Project k = project_id p /\ key_selected options k.

(** A new key of the project, in no cluster. *)
Definition new_key (k : UserSSHKey) project name pub : Prop :=
  name <> "" /\ pub <> "" /\ sshkey_Name k = name /\ sshkey_PublicKey k = pub /\
  sshkey_Project k = project_id project /\ sshkey_Clusters k = [] /\
  meta_Namespace (sshkey_meta k) = "" /\ meta_Finalizers (sshkey_meta k) = [].

#[export] Instance lists_keys_proper :
  Proper (same_store ==> eq ==> eq ==> eq ==> iff) lists_keys.
Proof.
  intros w w' [Hw _] p ? <- o ? <- l ? <-. unfold lists_keys, stored. by setoid_rewrite Hw.
Qed.
End ssh_contract.

(** The two halves of the provider: the client of the user and the privileged one. *)
Class SSHKeyProviderLaws (W : Type) {EL : ErrorLib} {API : KubeAPI W} {ST : Store W}
    {SSH : SSHKeyProvider W} : Prop := {
  ssh_List_spec project options w :
    runs (ssh_List project options) w (fun r w' => same_store w w' /\
      match r with Ok l => lists_keys w project options l | Err _ => True | Panic => False end);
  ssh_Create_spec ui project name pub w :
    runs (ssh_Create (Some ui) project name pub) w (fun r w' =>
      match r with
      | Ok k => authorized w (as_user ui) VCreate KSSHKey (key_of KSSHKey k) /\
          new_key k project name pub /\ created KSSHKey w w' k
      | Err _ => same_store w w'
      | Panic => False
      end);
  ssh_CreateUnsecured_spec project name pub w :
    runs (ssh_CreateUnsecured project name pub) w (fun r w' =>
      match r with
      | Ok k => new_key k project name pub /\ created KSSHKey w w' k
      | Err _ => same_store w w'
      | Panic => False
      end);
  ssh_Get_spec ui id w :
    runs (ssh_Get ui id) w (fun r w' => same_store w w' /\
      match r with
      | Ok k => authorized w (as_user ui) VGet KSSHKey ("", id) /\ view KSSHKey w !! ("", id) = Some k
      | Err _ => True
      | Panic => False
      end);
  ssh_GetUnsecured_spec id w :
    runs (ssh_GetUnsecured id) w (fun r w' => same_store w w' /\
      match r with Ok k => view KSSHKey w !! ("", id) = Some k | Err _ => True | Panic => False end);
  ssh_Delete_spec ui id w :
    runs (ssh_Delete ui id) w (fun r w' =>
      match r with
      | Ok _ => authorized w (as_user ui) VDelete KSSHKey ("", id) /\ deleted KSSHKey w w' ("", id)
      | Err _ => same_store w w'
      | Panic => False
      end);
  ssh_DeleteUnsecured_spec id w :
    runs (ssh_DeleteUnsecured id) w (fun r w' =>
      match r with
      | Ok _ => deleted KSSHKey w w' ("", id)
      | Err _ => same_store w w'
      | Panic => False
      end);
  ssh_Update_spec ui k w :
    runs (ssh_Update ui k) w (fun r w' =>
      match r with
      | Ok k' => authorized w (as_user ui) VUpdate KSSHKey (key_of KSSHKey k) /\
          strip KSSHKey k' = strip KSSHKey k /\ updated KSSHKey w w' k'
      | Err _ => same_store w w'
      | Panic => False
      end);
  ssh_UpdateUnsecured_spec k w :
    runs (ssh_UpdateUnsecured k) w (fun r w' =>
      match r with
      | Ok k' => strip KSSHKey k' = strip KSSHKey k /\ updated KSSHKey w w' k'
      | Err _ => same_store w w'
      | Panic => False
      end) }.

Section ssh_provider_proofs.
Context {W : Type} {EL : ErrorLib} {API : KubeAPI W} {ST : Store W} {LAWS : KubeAPILaws W}.
Implicit Types w : W.

Lemma genUserSSHKey_spec project name pub w :
  runs (genUserSSHKey project name pub) w (fun r w' => same_store w w' /\
    exists k, r = Ok k /\ (name <> "" -> pub <> "" -> new_key k project name pub)).
Proof.
  unfold genUserSSHKey. runs_call rand_string_spec. destruct Hcall as [Hs (s & -> & _)]. cbn [andThen].
  runs_step. split; [done|]. by eexists.
Qed.

Lemma kcreate_key_spec c k project name pub w :
  new_key k project name pub ->
  runs (kcreate KSSHKey c k) w (fun r w' =>
    match r with
    | Ok k' => authorized w c VCreate KSSHKey (key_of KSSHKey k') /\
        new_key k' project name pub /\ created KSSHKey w w' k'
    | Err _ => same_store w w'
    | Panic => False
    end).
Proof.
  intros (Hn & Hp & H1 & H2 & H3 & H4 & Hns & Hf). runs_call (kcreate_spec KSSHKey).
  destruct r as [k'|e|]; [|by destruct Hcall|done]. destruct Hcall as (Ha & Hst & Hc).
  rewrite (strip_key _ _ _ Hst). pose proof (strip_key _ _ _ Hst) as [= Hns' _].
  pose proof (strip_finalizers _ _ _ Hst) as Hf'. cbn in Hf'.
  apply strip_sshkey in Hst as (E1 & E2 & _ & E3 & E4).
  split_and!; [done| |done]. unfold new_key. rewrite E1, E2, E3, E4, Hns', Hf'. done.
Qed.

Lemma elem_of_filteredKeys o key k :
  k ∈ filteredKeys o key <-> k = key /\
    ((ssh_SSHKeyName o <> "" /\ sshkey_Name k = ssh_SSHKeyName o) \/
     (ssh_ClusterName o <> "" /\ ssh_ClusterName o ∈ sshkey_Clusters k)).
Proof.
  unfold filteredKeys. rewrite elem_of_app.
  assert (k ∈ (if negb (is_empty (ssh_SSHKeyName o)) && bool_decide (sshkey_Name key = ssh_SSHKeyName o)
               then [key] else []) <->
          k = key /\ ssh_SSHKeyName o <> "" /\ sshkey_Name k = ssh_SSHKeyName o) as ->.
  { rewrite <- is_empty_false. destruct (is_empty (ssh_SSHKeyName o)); cbn; [set_solver|].
    case_bool_decide; set_solver. }
  assert (k ∈ (if negb (is_empty (ssh_ClusterName o))
               then (fun _ => key) <$> List.filter (fun c => bool_decide (c = ssh_ClusterName o)) (sshkey_Clusters key)
               else []) <->
          k = key /\ ssh_ClusterName o <> "" /\ ssh_ClusterName o ∈ sshkey_Clusters k) as ->.
  { rewrite <- is_empty_false. destruct (is_empty (ssh_ClusterName o)); cbn [negb]; [set_solver|].
    rewrite list_elem_of_fmap. setoid_rewrite elem_of_List_filter. setoid_rewrite bool_decide_eq_true.
    naive_solver. }
  naive_solver.
Qed.

Lemma SSHKeyProvider_List_spec project options w :
  runs (SSHKeyProvider_List project options) w (fun r w' => same_store w w' /\
    match r with Ok l => lists_keys w project options l | Err _ => True | Panic => False end).
Proof.
  unfold SSHKeyProvider_List. destruct project as [p|]; [|by runs_step].
  runs_call (klist_spec KSSHKey). destruct Hcall as [Hs Hl].
  destruct r as [l|e|]; cbn [andThen]; [|done|done].
  assert (forall k, k ∈ List.filter (fun key => bool_decide (sshkey_Project key = project_id p)) l <->
            stored KSSHKey w k /\ sshkey_Project k = project_id p) as Hp.
  { intros k. by rewrite elem_of_List_filter, (elem_of_listed_all KSSHKey _ _ _ Hl), bool_decide_eq_true. }
  destruct options as [o|]; [destruct (_ && _) eqn:E|]; runs_step; (split; [done|]); exists p;
    (split; [done|]); intros k; cbn [key_selected]; rewrite ?E.
  - rewrite Hp. naive_solver.
  - rewrite elem_of_flat_map.
    setoid_rewrite elem_of_filteredKeys. setoid_rewrite Hp. naive_solver.
  - rewrite Hp. naive_solver.
Qed.

#[export] Instance kubernetesSSHKeyProvider_laws : SSHKeyProviderLaws W.
Proof.
  split.
  - apply SSHKeyProvider_List_spec.
  - intros ui project name pub w. cbn [ssh_Create kubernetesSSHKeyProvider]. unfold SSHKeyProvider_Create.
    runs_guard; [done|]. runs_guard; [done|]. apply is_empty_false in H, H0.
    runs_call genUserSSHKey_spec. destruct Hcall as [Hs (k & -> & Hk)]. cbn [andThen].
    runs_call createImpersonationClientWrapperFromUserInfo_spec. destruct Hcall as [Hs' Hc].
    assert (same_store w w1) as Hs1 by (by etrans).
    destruct r as [c|e|]; cbn [andThen]; [subst c|done|done].
    eapply runs_mono; [by eapply kcreate_key_spec, Hk|]. cbn beta.
    intros [k'|e|] w2; [|by intros; etrans|done]. by rewrite Hs1.
  - intros project name pub w. cbn [ssh_CreateUnsecured kubernetesSSHKeyProvider].
    unfold SSHKeyProvider_CreateUnsecured.
    runs_guard; [done|]. runs_guard; [done|]. apply is_empty_false in H, H0.
    runs_call genUserSSHKey_spec. destruct Hcall as [Hs (k & -> & Hk)]. cbn [andThen].
    eapply runs_mono; [by eapply kcreate_key_spec, Hk|]. cbn beta.
    intros [k'|e|] w2; [|by intros; etrans|done]. rewrite <- Hs. by intros (_ & ? & ?).
  - intros ui id w. cbn [ssh_Get kubernetesSSHKeyProvider]. unfold SSHKeyProvider_Get.
    runs_call createImpersonationClientWrapperFromUserInfo_spec. destruct Hcall as [Hs Hc].
    destruct r as [c|e|]; cbn [andThen]; [subst c|done|done].
    runs_call (kget_spec KSSHKey). destruct Hcall as [Hs' Hk]. split; [by etrans|].
    destruct r as [k|e|]; [|done|done]. rewrite Hs. naive_solver.
  - intros id w. cbn [ssh_GetUnsecured kubernetesSSHKeyProvider]. unfold SSHKeyProvider_GetUnsecured.
    runs_call (kget_spec KSSHKey). destruct Hcall as [Hs' Hk]. split; [done|].
    destruct r as [k|e|]; [|done|done]. naive_solver.
  - intros ui id w. cbn [ssh_Delete kubernetesSSHKeyProvider]. unfold SSHKeyProvider_Delete.
    runs_call createImpersonationClientWrapperFromUserInfo_spec. destruct Hcall as [Hs Hc].
    destruct r as [c|e|]; cbn [andThen]; [subst c|done|done].
    runs_call (kdelete_spec KSSHKey). destruct r as [[]|e|]; [|by etrans|done]. by rewrite Hs.
  - intros id w. cbn [ssh_DeleteUnsecured kubernetesSSHKeyProvider]. unfold SSHKeyProvider_DeleteUnsecured.
    runs_call (kdelete_spec KSSHKey). destruct r as [[]|e|]; [|done|done]. by destruct Hcall.
  - intros ui k w. cbn [ssh_Update kubernetesSSHKeyProvider]. unfold SSHKeyProvider_Update.
    runs_call createImpersonationClientWrapperFromUserInfo_spec. destruct Hcall as [Hs Hc].
    destruct r as [c|e|]; cbn [andThen]; [subst c|done|done].
    runs_call (kupdate_spec KSSHKey). destruct r as [k'|e|]; [|by etrans|done].
    destruct Hcall as (Ha & Hst & Hup & _). by rewrite Hs.
  - intros k w. cbn [ssh_UpdateUnsecured kubernetesSSHKeyProvider]. unfold SSHKeyProvider_UpdateUnsecured.
    runs_call (kupdate_spec KSSHKey). destruct r as [k'|e|]; [|done|done].
    by destruct Hcall as (Ha & Hst & Hup & _).
Qed.
End ssh_provider_proofs.
