(* ===== verification/SSHHandlers.v ===== *)
(** The endpoints of SSH keys: handler/v1/ssh/ssh.go, and the assignment of keys
    to clusters in handler/common/cluster.go.  They implement a table of keys. *)
From S2P Require Export Handlers SSHKeys.

(** ** What lies outside: clusters, and the methods of UserSSHKey *)

(** provider.ClusterGetOptions *)
Record ClusterGetOptions := MkClusterGetOptions { CheckInitStatus : bool }.

(** The part of provider.ClusterProvider and provider.PrivilegedClusterProvider
    that the endpoints use; the middleware puts the providers of the seed into
    the context. *)
Class ClusterReader (W : Type) := {
  ReadCluster : Type;
  clusters_Get : UserInfo -> string -> option ClusterGetOptions -> M W error ReadCluster;
  clusters_GetUnsecured : Project -> string -> option ClusterGetOptions -> M W error ReadCluster }.

(** Clusters are stored in the seed: reading one changes nothing. *)
Class ClusterReaderLaws (W : Type) {ST : Store W} {CLUSTERS : ClusterReader W} : Prop := {
  clusters_Get_spec ui id options w :
    runs (clusters_Get ui id options) w (fun r w' => same_store w w' /\ r <> Panic);
  clusters_GetUnsecured_spec project id options w :
    runs (clusters_GetUnsecured project id options) w (fun r w' => same_store w w' /\ r <> Panic) }.

(** The methods of kubermaticv1.UserSSHKey. *)
Class SSHKeySDK := {
  key_IsUsedByCluster : UserSSHKey -> string -> bool;
  key_AddToCluster : string -> UserSSHKey -> UserSSHKey;
  key_RemoveFromCluster : string -> UserSSHKey -> UserSSHKey }.

(** They look for the cluster in the list of the key, append it and take it out. *)
Class SSHKeySDKLaws (K : SSHKeySDK) : Prop := {
  IsUsedByCluster_spec k c : key_IsUsedByCluster k c = true <-> c ∈ sshkey_Clusters k;
  AddToCluster_spec k c : c ∉ sshkey_Clusters k ->
    key_AddToCluster c k = sshkey_with_clusters (sshkey_Clusters k ++ [c]) k;
  RemoveFromCluster_spec k c : NoDup (sshkey_Clusters k) ->
    key_RemoveFromCluster c k = sshkey_with_clusters (filter (fun x => x <> c) (sshkey_Clusters k)) k }.

(** ** The endpoints *)

(** apiv1.SSHKey *)
Record ApiSSHKey := MkApiSSHKey {
  apissh_meta : ApiObjectMeta;
  apissh_Fingerprint : string;
  apissh_PublicKey : string }.

Definition ConvertInternalSSHKeysToExternal (internalKeys : list UserSSHKey) : list ApiSSHKey :=
  (fun key =>
     {| apissh_meta := apiMeta (meta_Name (sshkey_meta key)) (sshkey_Name key)
                         (meta_CreationTimestamp (sshkey_meta key)) (meta_DeletionTimestamp (sshkey_meta key));
        apissh_Fingerprint := sshkey_Fingerprint key;
        apissh_PublicKey := sshkey_PublicKey key |}) <$> internalKeys.

Record CreateSSHKeyReq := MkCreateSSHKeyReq {
  createssh_ProjectID : string;
  createssh_Key : ApiSSHKey }.

Definition DisableUserSSHKey : string := "DisableUserSSHKey".

Section ssh_handlers.
Context {W : Type} {EL : ErrorLib} {P : SDK} {SSH : SSHKeyProvider W} {K : SSHKeySDK}
        {CLUSTERS : ClusterReader W} {PROJECTS : ProjectProvider W}
        {PPROJECTS : PrivilegedProjectProvider W}.
Variable userInfoGetter : UserInfoGetter W.
(** [features.Enabled]: the feature gates of the configuration. *)
Variable features_Enabled : string -> bool.

Definition createUserSSHKey (ctx : Ctx) (project : Project) (keyName pubKey : string) : M W error UserSSHKey :=
  adminUserInfo ← userInfoGetter ctx "";
  if ui_IsAdmin adminUserInfo then ssh_CreateUnsecured project keyName pubKey else
  userInfo ← userInfoGetter ctx (project_id project);
  ssh_Create (Some userInfo) project keyName pubKey.

Definition ssh_CreateEndpoint (ctx : Ctx) (req : CreateSSHKeyReq) : M W error ApiSSHKey :=
  _ ← throwIf (features_Enabled DisableUserSSHKey) (ENew "User SSH keys feature is disabled");
  let name := api_Name (apissh_meta (createssh_Key req)) in
  project ← httpErr (GetProject userInfoGetter ctx (createssh_ProjectID req) None);
  existingKeys ← httpErr (ssh_List (Some project)
    (Some {| ssh_ClusterName := ""; ssh_SSHKeyName := name |}));
  _ ← throwIf (bool_decide (0 < length existingKeys)) (utilerrors_NewAlreadyExists "ssh key" name);
  key ← httpErr (createUserSSHKey ctx project name (apissh_PublicKey (createssh_Key req)));
  mret {| apissh_meta := apiMeta (meta_Name (sshkey_meta key)) (sshkey_Name key)
                           (meta_CreationTimestamp (sshkey_meta key)) None;
          apissh_Fingerprint := sshkey_Fingerprint key;
          apissh_PublicKey := sshkey_PublicKey key |}.

Definition deleteUserSSHKey (ctx : Ctx) (project : Project) (keyName : string) : M W error unit :=
  adminUserInfo ← userInfoGetter ctx "";
  if ui_IsAdmin adminUserInfo then ssh_DeleteUnsecured keyName else
  userInfo ← userInfoGetter ctx (project_id project);
  ssh_Delete userInfo keyName.

Definition ssh_DeleteEndpoint (ctx : Ctx) (projectID sshKeyID : string) : M W error unit :=
  _ ← throwIf (features_Enabled DisableUserSSHKey) (ENew "SSH keys feature is disabled");
  project ← httpErr (GetProject userInfoGetter ctx projectID None);
  httpErr (deleteUserSSHKey ctx project sshKeyID).

Definition ssh_ListEndpoint (ctx : Ctx) (projectID : string) : M W error (list ApiSSHKey) :=
  _ ← throwIf (features_Enabled DisableUserSSHKey) (ENew "SSH keys feature is disabled");
  _ ← throwIf (is_empty projectID)
        (utilerrors_NewBadRequest "the name of the project to delete cannot be empty");
  project ← httpErr (GetProject userInfoGetter ctx projectID None);
  keys ← httpErr (ssh_List (Some project) None);
  mret (ConvertInternalSSHKeysToExternal keys).

(** ** handler/common/cluster.go *)

(** [Forbidden] is answered only when the cluster exists for the privileged user. *)
Definition getClusterForRegularUser (ctx : Ctx) (project : Project) (projectID clusterID : string)
    (options : option ClusterGetOptions) : M W error ReadCluster :=
  userInfo ← httpErr (userInfoGetter ctx projectID);
  cluster ← attempt (clusters_Get userInfo clusterID options);
  match cluster with
  | inr cluster => mret cluster
  | inl err =>
      if negb (isStatus err 403) then throw (KubernetesErrorToHTTPError err) else
      _ ← httpErr (clusters_GetUnsecured project clusterID options);
      throw (KubernetesErrorToHTTPError err)
  end.

Definition GetInternalCluster (ctx : Ctx) (project : Project) (projectID clusterID : string)
    (options : option ClusterGetOptions) : M W error ReadCluster :=
  adminUserInfo ← httpErr (userInfoGetter ctx "");
  if ui_IsAdmin adminUserInfo then httpErr (clusters_GetUnsecured project clusterID options) else
  getClusterForRegularUser ctx project projectID clusterID options.

(** The middleware has put the provider into the context. *)
Definition GetCluster (ctx : Ctx) (projectID clusterID : string) (options : option ClusterGetOptions)
    : M W error ReadCluster :=
  project ← httpErr (GetProject userInfoGetter ctx projectID None);
  GetInternalCluster ctx project projectID clusterID options.

Definition getSSHKey (ctx : Ctx) (projectID keyName : string) : M W error UserSSHKey :=
  adminUserInfo ← mapErr internalError (userInfoGetter ctx "");
  if ui_IsAdmin adminUserInfo then ssh_GetUnsecured keyName else
  userInfo ← mapErr internalError (userInfoGetter ctx projectID);
  ssh_Get userInfo keyName.

Definition UpdateClusterSSHKey (ctx : Ctx) (clusterSSHKey : UserSSHKey) (projectID : string) : M W error unit :=
  adminUserInfo ← mapErr internalError (userInfoGetter ctx "");
  if ui_IsAdmin adminUserInfo then _ ← httpErr (ssh_UpdateUnsecured clusterSSHKey); mret tt else
  userInfo ← mapErr internalError (userInfoGetter ctx projectID);
  _ ← httpErr (ssh_Update userInfo clusterSSHKey); mret tt.

(** The sanity check that the key belongs to the project. *)
Definition keyInProject (project : Project) (keyID : string) (notFound : error) : M W error unit :=
  projectSSHKeys ← httpErr (ssh_List (Some project) None);
  throwIf (negb (existsb (fun projectSSHKey =>
    bool_decide (meta_Name (sshkey_meta projectSSHKey) = keyID)) projectSSHKeys)) notFound.

Definition AssignSSHKeyEndpoint (ctx : Ctx) (projectID clusterID keyID : string) : M W error ApiSSHKey :=
  _ ← throwIf (is_empty keyID) (utilerrors_NewBadRequest "please provide an SSH key");
  project ← httpErr (GetProject userInfoGetter ctx projectID None);
  _ ← httpErr (GetInternalCluster ctx project projectID clusterID (Some {| CheckInitStatus := false |}));
  _ ← keyInProject project keyID (ENew ("the given ssh key " +:+ keyID +:+
        " does not belong to the given project " +:+ project_Name project +:+ " (" +:+ project_id project +:+ ")"));
  sshKey ← httpErr (getSSHKey ctx projectID keyID);
  let apiKey := {| apissh_meta := apiMeta (meta_Name (sshkey_meta sshKey)) (sshkey_Name sshKey)
                                    (meta_CreationTimestamp (sshkey_meta sshKey)) None;
                   apissh_Fingerprint := ""; apissh_PublicKey := "" |} in
  if key_IsUsedByCluster sshKey clusterID then mret apiKey else
  _ ← UpdateClusterSSHKey ctx (key_AddToCluster clusterID sshKey) projectID;
  mret apiKey.

Definition DetachSSHKeyEndpoint (ctx : Ctx) (projectID clusterID keyID : string) : M W error unit :=
  project ← httpErr (GetProject userInfoGetter ctx projectID None);
  _ ← httpErr (GetInternalCluster ctx project projectID clusterID (Some {| CheckInitStatus := false |}));
  _ ← keyInProject project keyID (utilerrors_NewNotFound "sshkey" keyID);
  clusterSSHKey ← httpErr (getSSHKey ctx projectID keyID);
  httpErr (UpdateClusterSSHKey ctx (key_RemoveFromCluster clusterID clusterSSHKey) projectID).

Definition ListSSHKeysEndpoint (ctx : Ctx) (projectID clusterID : string) : M W error (list ApiSSHKey) :=
  project ← httpErr (GetProject userInfoGetter ctx projectID None);
  _ ← httpErr (GetInternalCluster ctx project projectID clusterID (Some {| CheckInitStatus := false |}));
  keys ← httpErr (ssh_List (Some project)
    (Some {| ssh_ClusterName := clusterID; ssh_SSHKeyName := "" |}));
  mret (ConvertInternalSSHKeysToExternal keys).

(** ** All of them *)

Inductive SSHRequest :=
| CreateKey (req : CreateSSHKeyReq)
| DeleteKey (projectID keyID : string)
| ListKeys (projectID : string)
| AssignKey (projectID clusterID keyID : string)
| DetachKey (projectID clusterID keyID : string)
| ListClusterKeys (projectID clusterID : string).

Inductive SSHAnswer :=
| KeyAnswer (a : ApiSSHKey)
| KeysAnswer (l : list ApiSSHKey)
| KeyDone.

Definition serve_key (call : Ctx * SSHRequest) : M W error SSHAnswer :=
  let '(ctx, req) := call in
  match req with
  | CreateKey req => a ← ssh_CreateEndpoint ctx req; mret (KeyAnswer a)
  | DeleteKey pid id => _ ← ssh_DeleteEndpoint ctx pid id; mret KeyDone
  | ListKeys pid => l ← ssh_ListEndpoint ctx pid; mret (KeysAnswer l)
  | AssignKey pid c id => a ← AssignSSHKeyEndpoint ctx pid c id; mret (KeyAnswer a)
  | DetachKey pid c id => _ ← DetachSSHKeyEndpoint ctx pid c id; mret KeyDone
  | ListClusterKeys pid c => l ← ListSSHKeysEndpoint ctx pid c; mret (KeysAnswer l)
  end.

Fixpoint serve_keys (calls : list (Ctx * SSHRequest)) (w : W) : list (result error SSHAnswer) * W :=
  match calls with
  | [] => ([], w)
  | call :: calls =>
      let '(r, w1) := serve_key call w in
      let '(rs, w2) := serve_keys calls w1 in
      (r :: rs, w2)
  end.
End ssh_handlers.

(** ** The specification: a table of keys *)

Record KeyRow := MkKeyRow {
  row_project : string;
  row_name : string;
  row_public : string;
  row_clusters : gset string;
  row_held : bool (* a finalizer keeps the key after its deletion *) }.

Abbreviation KeyTable := (gmap string KeyRow).

Definition row_with_clusters (s : gset string) (r : KeyRow) : KeyRow :=
  MkKeyRow (row_project r) (row_name r) (row_public r) s (row_held r).

(** The answer [a] shows the key [id]. *)
Definition shows_id (a : ApiSSHKey) (id : string) (row : KeyRow) : Prop :=
  api_ID (apissh_meta a) = id /\ api_Name (apissh_meta a) = row_name row.
Definition shows_key (a : ApiSSHKey) (id : string) (row : KeyRow) : Prop :=
  shows_id a id row /\ apissh_PublicKey a = row_public row.

(** The answers show the rows that pass, and nothing else. *)
Definition shows_rows (t : KeyTable) (pass : KeyRow -> Prop) (l : list ApiSSHKey) : Prop :=
  (forall a, a ∈ l -> exists id row, t !! id = Some row /\ pass row /\ shows_key a id row) /\
  (forall id row, t !! id = Some row -> pass row -> exists a, a ∈ l /\ shows_key a id row).

Inductive key_step (t : KeyTable) : SSHRequest -> result error SSHAnswer -> KeyTable -> Prop :=
| key_refused req e :
    key_step t req (Err e) t
| key_created req id row a :
    let name := api_Name (apissh_meta (createssh_Key req)) in
    row = MkKeyRow (createssh_ProjectID req) name (apissh_PublicKey (createssh_Key req)) ∅ false ->
    name <> "" -> row_public row <> "" -> t !! id = None ->
    (forall id' row', t !! id' = Some row' -> row_project row' = createssh_ProjectID req ->
       row_name row' <> name) ->
    shows_key a id row ->
    key_step t (CreateKey req) (Ok (KeyAnswer a)) (<[id := row]> t)
| key_deleted pid id row t' :
    t !! id = Some row -> t' = delete id t \/ (row_held row = true /\ t' = t) ->
    key_step t (DeleteKey pid id) (Ok KeyDone) t'
| key_assigned pid c id row a :
    t !! id = Some row -> row_project row = pid -> shows_id a id row ->
    key_step t (AssignKey pid c id) (Ok (KeyAnswer a))
      (<[id := row_with_clusters ({[ c ]} ∪ row_clusters row) row]> t)
| key_detached pid c id row :
    t !! id = Some row -> row_project row = pid ->
    key_step t (DetachKey pid c id) (Ok KeyDone)
      (<[id := row_with_clusters (row_clusters row ∖ {[ c ]}) row]> t)
| keys_listed pid l :
    shows_rows t (fun row => row_project row = pid) l ->
    key_step t (ListKeys pid) (Ok (KeysAnswer l)) t
| cluster_keys_listed pid c l :
    shows_rows t (fun row => row_project row = pid /\ (c = "" \/ c ∈ row_clusters row)) l ->
    key_step t (ListClusterKeys pid c) (Ok (KeysAnswer l)) t.

Inductive key_steps : KeyTable -> list SSHRequest -> list (result error SSHAnswer) -> KeyTable -> Prop :=
| key_steps_nil t : key_steps t [] [] t
| key_steps_cons t t1 t2 req reqs r rs :
    key_step t req r t1 -> key_steps t1 reqs rs t2 -> key_steps t (req :: reqs) (r :: rs) t2.

(** No two keys of a project have the same name. *)
Definition names_distinct (t : KeyTable) : Prop :=
  forall id id' row row', t !! id = Some row -> t !! id' = Some row' ->
    row_project row = row_project row' -> row_name row = row_name row' -> id = id'.

Lemma key_step_names t req r t' : key_step t req r t' -> names_distinct t -> names_distinct t'.
Proof.
  intros Hstep Hn. destruct Hstep as [|req id row a name Hrow _ _ Hnew Hfree _|pid id row t' Hrow [->|[_ ->]]
    |pid c id row a Hrow _ _|pid c id row Hrow _| |]; try done.
  - intros i i' x x' [[<- <-]|[_ Hx]]%lookup_insert_Some [[<- <-]|[_ Hx']]%lookup_insert_Some Hp Hname;
      [done| | |by eapply Hn].
    + rewrite Hrow in Hp, Hname. by destruct (Hfree _ _ Hx').
    + rewrite Hrow in Hp, Hname. by destruct (Hfree _ _ Hx).
  - intros i i' x x' [_ Hx]%lookup_delete_Some [_ Hx']%lookup_delete_Some. by eapply Hn.
  - intros i i' x x' [[<- <-]|[_ Hx]]%lookup_insert_Some [[<- <-]|[_ Hx']]%lookup_insert_Some; [done|..];
      intros Hp Hname; by eapply Hn.
  - intros i i' x x' [[<- <-]|[_ Hx]]%lookup_insert_Some [[<- <-]|[_ Hx']]%lookup_insert_Some; [done|..];
      intros Hp Hname; by eapply Hn.
Qed.

Lemma key_steps_names t reqs rs t' : key_steps t reqs rs t' -> names_distinct t -> names_distinct t'.
Proof. induction 1; eauto using key_step_names. Qed.

(** ** The abstraction *)

Section key_abstraction.
Context {W : Type} {EL : ErrorLib} {API : KubeAPI W} {ST : Store W} {LAWS : KubeAPILaws W}.
Implicit Types w : W.

Definition row_of (k : UserSSHKey) : KeyRow :=
  {| row_project := sshkey_Project k;
     row_name := sshkey_Name k;
     row_public := sshkey_PublicKey k;
     row_clusters := list_to_set (sshkey_Clusters k);
     row_held := negb (bool_decide (meta_Finalizers (sshkey_meta k) = [])) |}.

(** The stored keys, by their names. *)
Definition keys_of w : KeyTable :=
  list_to_map ((fun k => (meta_Name (sshkey_meta k), row_of k)) <$> (map_to_list (view KSSHKey w)).*2).

(** Keys are cluster-wide, and know a cluster once. *)
Definition keys_ok w : Prop :=
  forall k, stored KSSHKey w k -> meta_Namespace (sshkey_meta k) = "" /\ NoDup (sshkey_Clusters k).

Lemma key_id w k : keys_ok w -> stored KSSHKey w k ->
  view KSSHKey w !! ("", meta_Name (sshkey_meta k)) = Some k.
Proof.
  intros Hok Hk. destruct (Hok k Hk) as [Hns _]. apply (stored_lookup KSSHKey) in Hk.
  unfold key_of in Hk. cbn in Hk. by rewrite Hns in Hk.
Qed.

Lemma lookup_keys w id : keys_ok w -> keys_of w !! id = row_of <$> view KSSHKey w !! ("", id).
Proof.
  intros Hok.
  assert (forall i row, (i, row) ∈ (fun k => (meta_Name (sshkey_meta k), row_of k)) <$>
              (map_to_list (view KSSHKey w)).*2 <-> row_of <$> view KSSHKey w !! ("", i) = Some row) as Hin.
  { intros i row. rewrite list_elem_of_fmap. setoid_rewrite list_elem_of_fmap. split.
    - intros (k & [= -> ->] & [n k'] & -> & Hk%elem_of_map_to_list). cbn.
      exact (f_equal (fmap row_of) (key_id w k' Hok (ex_intro _ n Hk))).
    - intros (k & Hk & Hrow)%fmap_Some. exists k. pose proof (view_key KSSHKey w _ _ Hk) as [= _ Hn].
      rewrite Hn, Hrow. split; [done|]. exists (("", i), k). by rewrite elem_of_map_to_list. }
  destruct (row_of <$> view KSSHKey w !! ("", id)) as [row|] eqn:E.
  - apply elem_of_list_to_map_1'; [|by apply Hin]. intros row' H'%Hin. rewrite E in H'. by injection H'.
  - apply eq_None_not_Some. intros [row H%elem_of_list_to_map_2%Hin]. by rewrite E in H.
Qed.

Lemma keys_write w w' k :
  keys_ok w -> keys_ok w' -> meta_Namespace (sshkey_meta k) = "" ->
  view KSSHKey w' = <[key_of KSSHKey k := k]> (view KSSHKey w) ->
  keys_of w' = <[meta_Name (sshkey_meta k) := row_of k]> (keys_of w).
Proof.
  intros Hok Hok' Hns Hv. apply map_eq. intros id. rewrite lookup_keys by done.
  assert (key_of KSSHKey k = ("", meta_Name (sshkey_meta k))) as Hk by (unfold key_of; cbn; by rewrite Hns).
  destruct (decide (id = meta_Name (sshkey_meta k))) as [->|Hne].
  - etrans; [|symmetry; apply lookup_insert_eq].
    assert (view KSSHKey w' !! key_of KSSHKey k = Some k) as E by (rewrite Hv; apply lookup_insert_eq).
    rewrite Hk in E. exact (f_equal (fmap row_of) E).
  - etrans; [|symmetry; by apply lookup_insert_ne]. rewrite lookup_keys by done. apply (f_equal (fmap row_of)).
    rewrite Hv. apply lookup_insert_ne. rewrite Hk. congruence.
Qed.

Lemma keys_ok_write w w' k :
  keys_ok w -> meta_Namespace (sshkey_meta k) = "" -> NoDup (sshkey_Clusters k) ->
  view KSSHKey w' = <[key_of KSSHKey k := k]> (view KSSHKey w) -> keys_ok w'.
Proof.
  intros Hok Hns Hnd Hv x Hx. apply (stored_insert KSSHKey w w' k x Hv) in Hx as [->|[Hx _]]; [done|by apply Hok].
Qed.

#[export] Instance keys_of_proper : Proper (same_store ==> eq) keys_of.
Proof. intros w w' Hw. unfold keys_of. by rewrite Hw. Qed.
#[export] Instance keys_ok_proper : Proper (same_store ==> iff) keys_ok.
Proof. intros w w' [Hw _]. unfold keys_ok, stored. by setoid_rewrite Hw. Qed.
End key_abstraction.

(** ** The steps of the implementation *)

Section ssh_proofs.
Context {W : Type} {EL : ErrorLib} {P : SDK} {API : KubeAPI W} {ST : Store W}
        {SSH : SSHKeyProvider W} {K : SSHKeySDK} {CLUSTERS : ClusterReader W}
        {PROJECTS : ProjectProvider W} {PPROJECTS : PrivilegedProjectProvider W}
        {MAPPER : ProjectMemberMapper W} {ELL : ErrorLibLaws EL}
        {LAWS : KubeAPILaws W} {MAPL : ProjectMemberMapperLaws W}
        {PRL : ProjectProviderLaws W} {PPL : PrivilegedProjectProviderLaws W}
        {SSHL : SSHKeyProviderLaws W} {KL : SSHKeySDKLaws K} {CL : ClusterReaderLaws W}.
Implicit Types w : W.

(** The user of the request may do this to the key in the project. *)
Definition may ctx w pid v n : Prop :=
  exists user, ctx_UserCR ctx = Some user /\ permitted w user pid v KSSHKey n.

#[export] Instance may_proper : Proper (eq ==> same_store ==> eq ==> eq ==> eq ==> iff) may.
Proof.
  intros c ? <- w w' Hw p ? <- v ? <- n ? <-. unfold may. by setoid_rewrite Hw.
Qed.

Lemma createUserSSHKey_spec ctx project name pub w :
  runs (createUserSSHKey UserInfoGetterFactory ctx project name pub) w (fun r w' =>
    match r with
    | Ok k => may ctx w (project_id project) VCreate (key_of KSSHKey k) /\
        new_key k project name pub /\ created KSSHKey w w' k
    | Err _ => same_store w w'
    | Panic => False
    end).
Proof.
  unfold createUserSSHKey.
  apply (admin_or_user_call ctx (project_id project) _ _ w VCreate KSSHKey (key_of KSSHKey)
    (fun w k w' => new_key k project name pub /\ created KSSHKey w w' k)).
  - by intros w0 w1 k w' Hs; rewrite Hs.
  - apply ssh_CreateUnsecured_spec.
  - intros. apply ssh_Create_spec.
Qed.

Lemma deleteUserSSHKey_spec ctx project id w :
  runs (deleteUserSSHKey UserInfoGetterFactory ctx project id) w (fun r w' =>
    match r with
    | Ok _ => may ctx w (project_id project) VDelete ("", id) /\ deleted KSSHKey w w' ("", id)
    | Err _ => same_store w w'
    | Panic => False
    end).
Proof.
  unfold deleteUserSSHKey.
  apply (admin_or_user_call ctx (project_id project) _ _ w VDelete KSSHKey (fun _ => ("", id))
    (fun w _ w' => deleted KSSHKey w w' ("", id))).
  - by intros w0 w1 k w' Hs; rewrite Hs.
  - apply ssh_DeleteUnsecured_spec.
  - intros. apply ssh_Delete_spec.
Qed.

Lemma info_gets ctx pid f : gets_info ctx pid (mapErr f (UserInfoGetterFactory ctx pid)).
Proof. apply mapErr_gets, UserInfoGetterFactory_gets. Qed.

Lemma getSSHKey_spec ctx pid id w :
  runs (getSSHKey UserInfoGetterFactory ctx pid id) w (fun r w' => same_store w w' /\
    match r with Ok k => view KSSHKey w !! ("", id) = Some k | Err _ => True | Panic => False end).
Proof.
  apply (admin_or_user ctx pid); [apply info_gets|apply info_gets|done| |].
  - intros user w1 _ _ Hs. eapply runs_mono; [apply ssh_GetUnsecured_spec|]. cbn beta.
    intros r w2 [Hs' H]. split; [by etrans|]. destruct r as [k|e|]; [|done|done]. by rewrite Hs.
  - intros user ui w1 _ _ Hs. eapply runs_mono; [apply ssh_Get_spec|]. cbn beta.
    intros r w2 [Hs' H]. split; [by etrans|]. destruct r as [k|e|]; [|done|done]. rewrite Hs. apply H.
Qed.

(** The key was written back as [k]. *)
Definition key_written ctx pid (k : UserSSHKey) w w' : Prop :=
  may ctx w pid VUpdate (key_of KSSHKey k) /\
  exists k', strip KSSHKey k' = strip KSSHKey k /\ updated KSSHKey w w' k'.

Lemma UpdateClusterSSHKey_spec ctx k pid w :
  runs (UpdateClusterSSHKey UserInfoGetterFactory ctx k pid) w (fun r w' =>
    match r with
    | Ok _ => key_written ctx pid k w w'
    | Err _ => same_store w w'
    | Panic => False
    end).
Proof.
  apply (admin_or_user ctx pid); [apply info_gets|apply info_gets|done| |].
  - intros user w1 Hc Ha Hs. http_call (ssh_UpdateUnsecured_spec (W := W)).
    intros [k'|e|] w2 H; cbn [andThen]; [|by etrans|done]. runs_step.
    unfold key_written. setoid_rewrite Hs. split; [exists user; split; [done|by left]|by exists k'].
  - intros user ui w1 Hc Hi Hs. http_call (ssh_Update_spec (W := W)).
    intros [k'|e|] w2 H; cbn [andThen]; [|by etrans|done]. runs_step. destruct H as [Ha H].
    unfold key_written. rewrite Hs in Hi. setoid_rewrite Hs. split; [|by exists k']. exists user. split; [done|]. right. by exists ui.
Qed.

Lemma GetInternalCluster_spec ctx project pid id options w :
  runs (GetInternalCluster UserInfoGetterFactory ctx project pid id options) w (fun r w' =>
    same_store w w' /\ r <> Panic).
Proof.
  unfold GetInternalCluster, getClusterForRegularUser.
  apply (admin_or_user ctx pid); [apply info_gets|apply info_gets|by split| |].
  - intros user w1 _ _ Hs. eapply httpErr_spec; [apply clusters_GetUnsecured_spec|].
    intros [c|e|] w2 [Hs' Hp]; [|by split; [etrans|]|done]. split; [by etrans|done].
  - intros user ui w1 _ _ Hs. do 2 runs_step. eapply runs_mono; [apply clusters_Get_spec|]. cbn beta.
    intros [c|e|] w2 [Hs' Hp]; cbn [andThen]; [| |done].
    + runs_step. split; [by etrans|done].
    + destruct (negb _); [runs_step; split; [by etrans|done]|].
      http_call (clusters_GetUnsecured_spec (W := W)). intros [c|e'|] w3 [Hs3 Hp3]; cbn [andThen].
      * runs_step. split; [by etrans; [|etrans]|done].
      * split; [by etrans; [|etrans]|done].
      * done.
Qed.

Lemma keyInProject_spec project id err w :
  runs (keyInProject project id err) w (fun r w' => same_store w w' /\
    match r with
    | Ok _ => exists k, stored KSSHKey w k /\ sshkey_Project k = project_id project /\
        meta_Name (sshkey_meta k) = id
    | Err _ => True
    | Panic => False
    end).
Proof.
  unfold keyInProject. http_call (ssh_List_spec (W := W)). intros [l|e|] w1 [Hs Hl]; cbn [andThen]; [|done|done].
  runs_step; split; try done. apply negb_false_iff, existsb_exists in H as (k & Hk & Hn%bool_decide_eq_true).
  destruct Hl as (p & [= <-] & Hl). apply list_elem_of_In, Hl in Hk as (Hk & Hp & _). by exists k.
Qed.

Lemma ssh_CreateEndpoint_spec enabled ctx req w :
  let name := api_Name (apissh_meta (createssh_Key req)) in
  runs (ssh_CreateEndpoint UserInfoGetterFactory enabled ctx req) w (fun r w' =>
    match r with
    | Ok a => exists project k, project_id project = createssh_ProjectID req /\
        may ctx w (createssh_ProjectID req) VCreate (key_of KSSHKey k) /\
        new_key k project name (apissh_PublicKey (createssh_Key req)) /\
        (forall k0, stored KSSHKey w k0 -> sshkey_Project k0 = createssh_ProjectID req -> sshkey_Name k0 <> name) /\
        created KSSHKey w w' k /\ shows_key a (meta_Name (sshkey_meta k)) (row_of k)
    | Err _ => same_store w w'
    | Panic => False
    end).
Proof.
  intros name. unfold ssh_CreateEndpoint. runs_guard; [done|].
  http_call (handler_GetProject (W := W)). intros [project|e|] w1 [Hs1 Hp]; cbn [andThen]; [|done|done].
  destruct Hp as [_ [_ Hn]].
  http_call (ssh_List_spec (W := W)). intros [l|e|] w2 [Hs2 Hl]; cbn [andThen]; [|by etrans|done].
  assert (same_store w w2) as H2 by (by etrans). runs_guard; [done|].
  apply bool_decide_eq_false in H0. destruct l as [|k0 l]; [|cbn in H0; lia].
  http_call createUserSSHKey_spec. intros [k|e|] w3 Hk; cbn [andThen]; [|by etrans|done]. runs_step.
  destruct Hk as (Hmay & Hnew & Hcr). change (project_id project = createssh_ProjectID req) in Hn.
  exists project, k. rewrite Hn in Hmay. setoid_rewrite H2. split_and!; try done.
  intros k0 Hk0 Hp0 Hname. destruct Hl as (p & [= <-] & Hl).
  assert (k0 ∈ []) as Hin; [|by apply elem_of_nil in Hin].
  apply Hl. rewrite <- Hs2 in Hk0.
  split_and!; [done|by rewrite Hn|]. cbn [key_selected ssh_ClusterName ssh_SSHKeyName].
  change (is_empty "") with true. destruct (is_empty _) eqn:E; [done|]. left. split; [by apply is_empty_false in E|done].
Qed.

Lemma ssh_DeleteEndpoint_spec enabled ctx pid id w :
  runs (ssh_DeleteEndpoint UserInfoGetterFactory enabled ctx pid id) w (fun r w' =>
    match r with
    | Ok _ => may ctx w pid VDelete ("", id) /\ deleted KSSHKey w w' ("", id)
    | Err _ => same_store w w'
    | Panic => False
    end).
Proof.
  unfold ssh_DeleteEndpoint. runs_guard; [done|].
  http_call (handler_GetProject (W := W)). intros [project|e|] w1 [Hs1 Hp]; cbn [andThen]; [|done|done].
  destruct Hp as [_ [_ Hn]]. change (project_id project = pid) in Hn.
  eapply httpErr_spec; [apply deleteUserSSHKey_spec|]. intros [[]|e|] w2 Hdel; [|by etrans|done].
  by rewrite Hn, <- Hs1 in Hdel.
Qed.

(** What the answers to a list show. *)
Definition shows_stored w (pass : UserSSHKey -> Prop) (l : list ApiSSHKey) : Prop :=
  exists keys, l = ConvertInternalSSHKeysToExternal keys /\
    forall k, k ∈ keys <-> stored KSSHKey w k /\ pass k.

Lemma ssh_ListEndpoint_spec enabled ctx pid w :
  runs (ssh_ListEndpoint UserInfoGetterFactory enabled ctx pid) w (fun r w' => same_store w w' /\
    match r with
    | Ok l => shows_stored w (fun k => sshkey_Project k = pid) l
    | Err _ => True
    | Panic => False
    end).
Proof.
  unfold ssh_ListEndpoint. runs_guard; [done|]. runs_guard; [done|].
  http_call (handler_GetProject (W := W)). intros [project|e|] w1 [Hs1 Hp]; cbn [andThen]; [|done|done].
  destruct Hp as [_ [_ Hn]]. change (project_id project = pid) in Hn.
  http_call (ssh_List_spec (W := W)). intros [l|e|] w2 [Hs2 Hl]; cbn [andThen]; [|by split; [etrans|]|done].
  runs_step. split; [by etrans|]. exists l. split; [done|]. intros k.
  destruct Hl as (p & [= <-] & Hl). rewrite Hl, Hn, Hs1. cbn [key_selected]. tauto.
Qed.

Lemma ListSSHKeysEndpoint_spec ctx pid c w :
  runs (ListSSHKeysEndpoint UserInfoGetterFactory ctx pid c) w (fun r w' => same_store w w' /\
    match r with
    | Ok l => shows_stored w (fun k => sshkey_Project k = pid /\ (c = "" \/ c ∈ sshkey_Clusters k)) l
    | Err _ => True
    | Panic => False
    end).
Proof.
  unfold ListSSHKeysEndpoint.
  http_call (handler_GetProject (W := W)). intros [project|e|] w1 [Hs1 Hp]; cbn [andThen]; [|done|done].
  destruct Hp as [_ [_ Hn]]. change (project_id project = pid) in Hn.
  http_call GetInternalCluster_spec. intros [cl|e|] w2 [Hs2 Hc]; cbn [andThen]; [|by split; [etrans|]|done].
  assert (same_store w w2) as H2 by (by etrans).
  http_call (ssh_List_spec (W := W)). intros [l|e|] w3 [Hs3 Hl]; cbn [andThen]; [|by split; [etrans|]|done].
  runs_step. split; [by etrans|]. exists l. split; [done|]. intros k.
  destruct Hl as (p & [= <-] & Hl). rewrite Hl, Hn, H2. cbn [key_selected ssh_ClusterName ssh_SSHKeyName].
  change (is_empty "") with true. rewrite andb_true_r. destruct (is_empty c) eqn:E.
  - apply is_empty_spec in E. naive_solver.
  - apply is_empty_false in E. naive_solver.
Qed.

(** The key of the project that a request names. *)
Lemma project_key w pid id k0 k :
  keys_ok w -> stored KSSHKey w k0 -> meta_Name (sshkey_meta k0) = id -> sshkey_Project k0 = pid ->
  view KSSHKey w !! ("", id) = Some k -> sshkey_Project k = pid.
Proof.
  intros Hok Hk0 Hn Hp Hk. pose proof (key_id w k0 Hok Hk0) as E. rewrite Hn in E.
  assert (Some k = Some k0) as [= ->] by (by rewrite <- Hk, <- E). done.
Qed.

Lemma AssignSSHKeyEndpoint_spec ctx pid c id w :
  keys_ok w ->
  runs (AssignSSHKeyEndpoint UserInfoGetterFactory ctx pid c id) w (fun r w' =>
    match r with
    | Ok a => exists k, view KSSHKey w !! ("", id) = Some k /\ sshkey_Project k = pid /\
        shows_id a id (row_of k) /\
        (((c ∈ sshkey_Clusters k) /\ same_store w w') \/
         (~ c ∈ sshkey_Clusters k) /\
         (key_written ctx pid (sshkey_with_clusters (sshkey_Clusters k ++ [c]) k) w w'))
    | Err _ => same_store w w'
    | Panic => False
    end).
Proof.
  intros Hok. unfold AssignSSHKeyEndpoint. runs_guard; [done|].
  http_call (handler_GetProject (W := W)). intros [project|e|] w1 [Hs1 Hp]; cbn [andThen]; [|done|done].
  destruct Hp as [_ [_ Hn]]. change (project_id project = pid) in Hn.
  http_call GetInternalCluster_spec. intros [cl|e|] w2 [Hs2 Hc]; cbn [andThen]; [|by etrans|done].
  assert (same_store w w2) as H2 by (by etrans).
  plain_call keyInProject_spec. intros [[]|e|] w3 [Hs3 Hk0]; cbn [andThen]; [|by etrans|done].
  destruct Hk0 as (k0 & Hk0 & Hpk & Hname). rewrite <- H2 in Hk0. rewrite Hn in Hpk.
  assert (same_store w w3) as H3 by (by etrans).
  http_call getSSHKey_spec. intros [k|e|] w4 [Hs4 Hk]; cbn [andThen]; [|by etrans|done].
  rewrite <- H3 in Hk. assert (same_store w w4) as H4 by (by etrans).
  pose proof (project_key w pid id k0 k Hok Hk0 Hname Hpk Hk) as Hkp.
  pose proof (view_key KSSHKey w _ _ Hk) as [= _ Hid].
  destruct (key_IsUsedByCluster k c) eqn:E.
  - runs_step. apply IsUsedByCluster_spec in E. exists k. split_and!; try done. by left.
  - assert (c ∉ sshkey_Clusters k) as Hnc.
    { intros Hin%IsUsedByCluster_spec. by rewrite E in Hin. }
    plain_call UpdateClusterSSHKey_spec. intros [[]|e|] w5 H5; cbn [andThen]; [|by etrans|done]. runs_step.
    exists k. split_and!; try done. right. split; [done|]. rewrite AddToCluster_spec in H5 by done.
    unfold key_written in *. by setoid_rewrite H4.
Qed.

Lemma DetachSSHKeyEndpoint_spec ctx pid c id w :
  keys_ok w ->
  runs (DetachSSHKeyEndpoint UserInfoGetterFactory ctx pid c id) w (fun r w' =>
    match r with
    | Ok _ => exists k, view KSSHKey w !! ("", id) = Some k /\ sshkey_Project k = pid /\
        key_written ctx pid (sshkey_with_clusters (filter (fun x => x <> c) (sshkey_Clusters k)) k) w w'
    | Err _ => same_store w w'
    | Panic => False
    end).
Proof.
  intros Hok. unfold DetachSSHKeyEndpoint.
  http_call (handler_GetProject (W := W)). intros [project|e|] w1 [Hs1 Hp]; cbn [andThen]; [|done|done].
  destruct Hp as [_ [_ Hn]]. change (project_id project = pid) in Hn.
  http_call GetInternalCluster_spec. intros [cl|e|] w2 [Hs2 Hc]; cbn [andThen]; [|by etrans|done].
  assert (same_store w w2) as H2 by (by etrans).
  plain_call keyInProject_spec. intros [[]|e|] w3 [Hs3 Hk0]; cbn [andThen]; [|by etrans|done].
  destruct Hk0 as (k0 & Hk0 & Hpk & Hname). rewrite <- H2 in Hk0. rewrite Hn in Hpk.
  assert (same_store w w3) as H3 by (by etrans).
  http_call getSSHKey_spec. intros [k|e|] w4 [Hs4 Hk]; cbn [andThen]; [|by etrans|done].
  rewrite <- H3 in Hk. assert (same_store w w4) as H4 by (by etrans).
  pose proof (project_key w pid id k0 k Hok Hk0 Hname Hpk Hk) as Hkp.
  eapply httpErr_spec; [apply UpdateClusterSSHKey_spec|]. intros [[]|e|] w5 H5; [|by etrans|done].
  exists k. split_and!; try done. rewrite RemoveFromCluster_spec in H5.
  - unfold key_written in *. by setoid_rewrite H4.
  - apply (Hok k). by eexists.
Qed.

(** A key written back with another list of clusters. *)
Lemma written_clusters ctx pid k l w w' :
  keys_ok w -> stored KSSHKey w k -> NoDup l ->
  key_written ctx pid (sshkey_with_clusters l k) w w' ->
  keys_ok w' /\
  keys_of w' = <[meta_Name (sshkey_meta k) := row_with_clusters (list_to_set l) (row_of k)]> (keys_of w).
Proof.
  intros Hok Hk Hl (_ & k' & Hst & (_ & Hv & _)). destruct (Hok k Hk) as [Hns _].
  pose proof (strip_key _ _ _ Hst) as Hkey. injection Hkey as Hns' Hn'. cbn in Hns', Hn'.
  pose proof (strip_finalizers _ _ _ Hst) as Hfin. cbn in Hfin.
  apply strip_sshkey in Hst as (E1 & E2 & _ & E3 & E4). cbn in E1, E2, E3, E4.
  assert (meta_Namespace (sshkey_meta k') = "") as Hns2 by congruence.
  assert (keys_ok w') as Hok' by (eapply keys_ok_write; [done|done|by rewrite E4|done]).
  split; [done|]. rewrite (keys_write w w' k') by done. unfold row_of, row_with_clusters. cbn.
  by rewrite Hn', E1, E2, E3, E4, Hfin.
Qed.

Lemma stored_row w id k : keys_ok w -> view KSSHKey w !! ("", id) = Some k -> keys_of w !! id = Some (row_of k).
Proof. intros Hok Hk. rewrite lookup_keys by done. exact (f_equal (fmap row_of) Hk). Qed.

Lemma row_stored w id row : keys_ok w -> keys_of w !! id = Some row ->
  exists k, stored KSSHKey w k /\ meta_Name (sshkey_meta k) = id /\ row = row_of k.
Proof.
  intros Hok H. rewrite lookup_keys in H by done. apply fmap_Some in H as (k & Hk & ->).
  exists k. split; [by eexists|]. split; [|done]. by pose proof (view_key KSSHKey w _ _ Hk) as [= _ ->].
Qed.

Lemma shows_stored_rows w pass (pass' : KeyRow -> Prop) l :
  keys_ok w -> (forall k, pass' (row_of k) <-> pass k) ->
  shows_stored w pass l -> shows_rows (keys_of w) pass' l.
Proof.
  intros Hok Hpass (keys & -> & Hkeys). split.
  - intros a (k & -> & Hk)%list_elem_of_fmap. apply Hkeys in Hk as [Hk Hp].
    exists (meta_Name (sshkey_meta k)), (row_of k). split; [by apply stored_row, key_id|].
    by split; [apply Hpass|].
  - intros id row Hrow Hp. apply row_stored in Hrow as (k & Hk & <- & ->); [|done].
    eexists. split.
    + apply list_elem_of_fmap. exists k. split; [done|]. apply Hkeys. split; [done|by apply Hpass].
    + done.
Qed.

Lemma row_clusters_elem c k : c ∈ row_clusters (row_of k) <-> c ∈ sshkey_Clusters k.
Proof. cbn. by rewrite elem_of_list_to_set. Qed.

Variable enabled : string -> bool.
#[local] Abbreviation serve := (serve_key UserInfoGetterFactory enabled).

Definition key_step_ok (req : SSHRequest) w (r : result error SSHAnswer) w' : Prop :=
  keys_ok w' /\ key_step (keys_of w) req r (keys_of w').

Lemma key_step_refused req w e w' : keys_ok w -> same_store w w' -> key_step_ok req w (Err e) w'.
Proof. intros Hok Hs. unfold key_step_ok. rewrite <- Hs. split; [done|constructor]. Qed.

Lemma CreateKey_step ctx req w :
  keys_ok w -> runs (serve (ctx, CreateKey req)) w (key_step_ok (CreateKey req) w).
Proof.
  intros Hok. unfold serve_key. plain_call ssh_CreateEndpoint_spec.
  intros [a|e|] w' H; cbn [andThen]; [|by apply key_step_refused|done]. runs_step.
  destruct H as (project & k & Hpid & _ & (Hne & Hpne & Hn & Hp & Hpr & Hcl & Hns & Hfin) & Hfree & Hcr & Hshow).
  assert (key_of KSSHKey k = ("", meta_Name (sshkey_meta k))) as Hkey by (unfold key_of; cbn; by rewrite Hns).
  destruct Hcr as (Hnew & Hv & _).
  assert (keys_ok w') as Hok' by (eapply keys_ok_write; [done|done|rewrite Hcl; constructor|done]).
  split; [done|]. rewrite (keys_write w w' k) by done.
  apply (key_created _ req (meta_Name (sshkey_meta k)) (row_of k)); try done.
  - unfold row_of. by rewrite Hn, Hp, Hpr, Hcl, Hfin, Hpid.
  - cbn. by rewrite Hp.
  - rewrite lookup_keys by done. rewrite Hkey in Hnew. exact (f_equal (fmap row_of) Hnew).
  - intros id' row' Hrow Hp'. apply row_stored in Hrow as (k0 & Hk0 & _ & ->); [|done]. by apply Hfree.
Qed.

Lemma DeleteKey_step ctx pid id w :
  keys_ok w -> runs (serve (ctx, DeleteKey pid id)) w (key_step_ok (DeleteKey pid id) w).
Proof.
  intros Hok. unfold serve_key. plain_call ssh_DeleteEndpoint_spec.
  intros [[]|e|] w' H; cbn [andThen]; [|by apply key_step_refused|done]. runs_step.
  destruct H as (_ & Hkeep & _ & k & Hk & Hgone & Hstill).
  assert (forall x, stored KSSHKey w' x -> exists x0, stored KSSHKey w x0 /\ strip KSSHKey x = strip KSSHKey x0) as Hold.
  { intros x [n Hx]. destruct (decide (n = ("", id))) as [->|Hne].
    - exists k. split; [by eexists|by apply Hstill].
    - rewrite Hkeep in Hx by done. exists x. split; [by eexists|done]. }
  assert (keys_ok w') as Hok'.
  { intros x Hx. destruct (Hold x Hx) as (x0 & Hx0 & Hst). destruct (Hok x0 Hx0) as [Hns Hnd].
    pose proof (strip_key _ _ _ Hst) as [= Hns' _]. apply strip_sshkey in Hst as (_ & _ & _ & _ & E).
    split; [by rewrite Hns'|by rewrite E]. }
  split; [done|]. apply (key_deleted _ pid id (row_of k)); [by apply stored_row|].
  assert (forall id', id' <> id -> keys_of w' !! id' = keys_of w !! id') as Hother.
  { intros id' Hne. rewrite !lookup_keys by done. apply (f_equal (fmap row_of)), Hkeep. congruence. }
  destruct (view KSSHKey w' !! ("", id)) as [x|] eqn:Ex.
  - right. pose proof (Hstill x eq_refl) as Hst. cbn [row_held row_of]. split.
    { case_bool_decide as Hf; [|done]. by specialize (Hgone Hf). }
    apply map_eq. intros id'. destruct (decide (id' = id)) as [->|Hne]; [|by apply Hother].
    rewrite (stored_row w' id x), (stored_row w id k) by done.
    pose proof (strip_finalizers _ _ _ Hst) as Hfin. cbn in Hfin.
    apply strip_sshkey in Hst as (E1 & E2 & _ & E3 & E4). unfold row_of. by rewrite E1, E2, E3, E4, Hfin.
  - left. apply map_eq. intros id'. destruct (decide (id' = id)) as [->|Hne].
    + etrans; [|symmetry; apply lookup_delete_eq]. rewrite lookup_keys by done.
      exact (f_equal (fmap row_of) Ex).
    + etrans; [by apply Hother|]. symmetry. by apply lookup_delete_ne.
Qed.

Lemma AssignKey_step ctx pid c id w :
  keys_ok w -> runs (serve (ctx, AssignKey pid c id)) w (key_step_ok (AssignKey pid c id) w).
Proof.
  intros Hok. unfold serve_key. plain_call AssignSSHKeyEndpoint_spec; [done|].
  intros [a|e|] w' H; cbn [andThen]; [|by apply key_step_refused|done]. runs_step.
  destruct H as (k & Hk & Hp & Hshow & Hw).
  assert (stored KSSHKey w k) as Hst by (by eexists).
  pose proof (view_key KSSHKey w _ _ Hk) as [= _ Hid]. pose proof (stored_row w id k Hok Hk) as Hrow.
  pose proof (key_assigned (keys_of w) pid c id (row_of k) a Hrow Hp Hshow) as Hstep.
  destruct Hw as [[Hc Hs]|[Hc Hw]].
  - unfold key_step_ok. rewrite <- Hs. split; [done|].
    assert (row_with_clusters ({[c]} ∪ row_clusters (row_of k)) (row_of k) = row_of k) as E.
    { unfold row_with_clusters. apply row_clusters_elem in Hc.
      assert ({[c]} ∪ row_clusters (row_of k) = row_clusters (row_of k)) as -> by set_solver. done. }
    rewrite E, insert_id in Hstep by done. done.
  - apply written_clusters in Hw as [Hok' E]; [|done|done|].
    + split; [done|]. rewrite E, Hid.
      assert ((list_to_set (sshkey_Clusters k ++ [c]) : gset string) = {[c]} ∪ row_clusters (row_of k)) as ->
        by (cbn; set_solver). done.
    + apply NoDup_app. split; [by apply (Hok k)|]. split; [set_solver|apply NoDup_singleton].
Qed.

Lemma DetachKey_step ctx pid c id w :
  keys_ok w -> runs (serve (ctx, DetachKey pid c id)) w (key_step_ok (DetachKey pid c id) w).
Proof.
  intros Hok. unfold serve_key. plain_call DetachSSHKeyEndpoint_spec; [done|].
  intros [[]|e|] w' H; cbn [andThen]; [|by apply key_step_refused|done]. runs_step.
  destruct H as (k & Hk & Hp & Hw).
  assert (stored KSSHKey w k) as Hst by (by eexists).
  pose proof (view_key KSSHKey w _ _ Hk) as [= _ Hid].
  apply written_clusters in Hw as [Hok' E]; [|done|done|].
  - split; [done|]. rewrite E, Hid.
    assert ((list_to_set (filter (fun x => x <> c) (sshkey_Clusters k)) : gset string)
              = row_clusters (row_of k) ∖ {[c]}) as ->.
    { apply set_eq. intros x. rewrite elem_of_list_to_set, list_elem_of_filter, elem_of_difference,
        row_clusters_elem. set_solver. }
    by apply key_detached; [apply stored_row|].
  - apply NoDup_filter. by apply (Hok k).
Qed.

Lemma list_step ctx w :
  keys_ok w ->
  (forall pid, runs (serve (ctx, ListKeys pid)) w (key_step_ok (ListKeys pid) w)) /\
  (forall pid c, runs (serve (ctx, ListClusterKeys pid c)) w (key_step_ok (ListClusterKeys pid c) w)).
Proof.
  intros Hok. unfold serve_key. split; intros.
  - plain_call ssh_ListEndpoint_spec. intros [l|e|] w' [Hs H]; cbn [andThen]; [|by apply key_step_refused|done].
    runs_step. unfold key_step_ok. rewrite <- Hs. split; [done|]. constructor.
    eapply shows_stored_rows; [done| |done]. done.
  - plain_call ListSSHKeysEndpoint_spec. intros [l|e|] w' [Hs H]; cbn [andThen]; [|by apply key_step_refused|done].
    runs_step. unfold key_step_ok. rewrite <- Hs. split; [done|]. constructor.
    eapply shows_stored_rows; [done| |done]. intros k. by rewrite row_clusters_elem.
Qed.

Lemma serve_key_step ctx req w :
  keys_ok w -> runs (serve (ctx, req)) w (key_step_ok req w).
Proof.
  intros Hok. destruct req.
  - by apply CreateKey_step.
  - by apply DeleteKey_step.
  - by apply list_step.
  - by apply AssignKey_step.
  - by apply DetachKey_step.
  - by apply list_step.
Qed.

(** C7: the SSH-key endpoints implement a table of keys: whatever the requests
    and whoever makes them, the answers and the stored keys are those of a run
    of the specification.  A key is created in the requested project under a
    name no other key of the project has; only keys of the requested project
    are assigned to clusters and taken off them; the lists show exactly the keys
    of the project, or those of a cluster.  The names of the keys of a project
    stay distinct. *)
Theorem ssh_endpoints_refine calls w :
  keys_ok w ->
  let '(rs, w') := serve_keys UserInfoGetterFactory enabled calls w in
  keys_ok w' /\ key_steps (keys_of w) calls.*2 rs (keys_of w') /\
  (names_distinct (keys_of w) -> names_distinct (keys_of w')).
Proof.
  intros Hok.
  enough (let '(rs, w') := serve_keys UserInfoGetterFactory enabled calls w in
          keys_ok w' /\ key_steps (keys_of w) calls.*2 rs (keys_of w')) as H.
  { destruct (serve_keys _ _ calls w) as [rs w']. destruct H as [Hok' H].
    split; [done|]. split; [done|]. by eapply key_steps_names. }
  revert w Hok. induction calls as [|[ctx req] calls IH]; intros w Hok; cbn [serve_keys].
  { split; [done|constructor]. }
  destruct (serve (ctx, req) w) as [r w1] eqn:E1.
  destruct (runs_elim _ _ _ _ _ (serve_key_step ctx req w Hok) E1) as [Hok1 Hstep].
  specialize (IH w1 Hok1). destruct (serve_keys _ _ calls w1) as [rs w2]. destruct IH as [Hok2 Hsteps].
  split; [done|]. by econstructor.
Qed.

(** Nothing but the key [n] changed. *)
Definition only_key n w w' : Prop :=
  same_except KSSHKey w w' /\ forall n', n' <> n -> view KSSHKey w' !! n' = view KSSHKey w !! n'.

Lemma only_key_insert w w' n k :
  same_except KSSHKey w w' -> view KSSHKey w' = <[n := k]> (view KSSHKey w) -> only_key n w w'.
Proof. intros Hs Hv. split; [done|]. intros n' Hne. rewrite Hv. by apply lookup_insert_ne. Qed.

Lemma key_written_only ctx pid k w w' :
  key_written ctx pid k w w' -> may ctx w pid VUpdate (key_of KSSHKey k) /\ only_key (key_of KSSHKey k) w w'.
Proof.
  intros (Hm & k' & Hst & (_ & Hv & Hs)). split; [done|]. rewrite <- (strip_key _ _ _ Hst).
  by eapply only_key_insert.
Qed.

Definition request_project (req : SSHRequest) : string :=
  match req with
  | CreateKey req => createssh_ProjectID req
  | DeleteKey pid _ | ListKeys pid | AssignKey pid _ _ | DetachKey pid _ _ | ListClusterKeys pid _ => pid
  end.

(** A request that fails changes nothing, and one that succeeds writes at
    most one key, for which an administrator asked, or a user whom the API
    server lets do so with the groups granted in the requested project. *)
Theorem ssh_writes_permitted ctx req w :
  keys_ok w ->
  runs (serve_key UserInfoGetterFactory enabled (ctx, req)) w (fun r w' =>
    match r with
    | Ok _ => same_store w w' \/
        exists v n, v <> VGet /\ may ctx w (request_project req) v n /\ only_key n w w'
    | Err _ => same_store w w'
    | Panic => False
    end).
Proof.
  intros Hok. unfold serve_key. destruct req as [req|pid id|pid|pid c id|pid c id|pid c]; cbn [request_project].
  - plain_call ssh_CreateEndpoint_spec. intros [a|e|] w' H; cbn [andThen]; [|done|done]. runs_step. right.
    destruct H as (project & k & _ & Hm & _ & _ & (_ & Hv & Hs) & _).
    eexists VCreate, _. split; [done|]. split; [exact Hm|]. by eapply only_key_insert.
  - plain_call ssh_DeleteEndpoint_spec. intros [[]|e|] w' H; cbn [andThen]; [|done|done]. runs_step. right.
    destruct H as (Hm & Hkeep & Hs & _). eexists VDelete, _. split; [done|]. split; [exact Hm|]. by split.
  - plain_call ssh_ListEndpoint_spec. intros [l|e|] w' [Hs _']; cbn [andThen]; [|done|done]. runs_step. by left.
  - plain_call AssignSSHKeyEndpoint_spec; [done|]. intros [a|e|] w' H; cbn [andThen]; [|done|done]. runs_step.
    destruct H as (k & Hk & _ & _ & [[_ Hs]|[_ Hw]]); [by left|right].
    eexists VUpdate, _. split; [done|]. by eapply key_written_only.
  - plain_call DetachSSHKeyEndpoint_spec; [done|]. intros [[]|e|] w' H; cbn [andThen]; [|done|done]. runs_step.
    right. destruct H as (k & Hk & _ & Hw). eexists VUpdate, _. split; [done|]. by eapply key_written_only.
  - plain_call ListSSHKeysEndpoint_spec. intros [l|e|] w' [Hs _']; cbn [andThen]; [|done|done]. runs_step. by left.
Qed.
End ssh_proofs.

(** ** A concrete run *)

#[export] Instance refSSHKeySDK : SSHKeySDK := {|
  key_IsUsedByCluster k c := bool_decide (c ∈ sshkey_Clusters k);
  key_AddToCluster c k := sshkey_with_clusters
    (if bool_decide (c ∈ sshkey_Clusters k) then sshkey_Clusters k else sshkey_Clusters k ++ [c]) k;
  key_RemoveFromCluster c k := sshkey_with_clusters (filter (fun x => x <> c) (sshkey_Clusters k)) k |}.

#[export] Instance refSSHKeySDK_laws : SSHKeySDKLaws refSSHKeySDK.
Proof.
  split.
  - intros k c. cbn. by rewrite bool_decide_eq_true.
  - intros k c Hc. cbn. by rewrite bool_decide_eq_false_2.
  - done.
Qed.

(** A seed with the cluster c1. *)
#[export] Instance memClusters : ClusterReader Mem := {|
  ReadCluster := string;
  clusters_Get _ id _ := if bool_decide (id = "c1") then mret id else throw (apierrors_NewNotFound "cluster" id);
  clusters_GetUnsecured _ id _ :=
    if bool_decide (id = "c1") then mret id else throw (apierrors_NewNotFound "cluster" id) |}.

#[export] Instance memClusters_laws : ClusterReaderLaws Mem.
Proof. split; intros; unfold runs; cbn; case_bool_decide; by split. Qed.

Lemma sample_keys_ok : keys_ok sample.
Proof. intros k [n Hn%(lookup_sample KSSHKey)]. vm_compute in Hn. by apply elem_of_nil in Hn. Qed.

Definition laptop : CreateSSHKeyReq :=
  MkCreateSSHKeyReq "p1" (MkApiSSHKey (apiMeta "" "laptop" zero_time None) "" "ssh-ed25519 AAAA").
Definition sampleKeyCalls : list (Ctx * SSHRequest) :=
  [(bobCtx, CreateKey laptop); (aliceCtx, CreateKey laptop);
   (bobCtx, AssignKey "p1" "c1" "key-r1xxxxxxxx"); (bobCtx, AssignKey "p1" "c2" "key-r1xxxxxxxx");
   (aliceCtx, AssignKey "p2" "c1" "key-r1xxxxxxxx"); (bobCtx, ListClusterKeys "p1" "c1")].
Definition noGates : string -> bool := fun _ => false.

Lemma ssh_endpoints_refine_witness :
  let run := serve_keys UserInfoGetterFactory noGates sampleKeyCalls sample in
  (is_ok <$> run.1) = [true; false; true; false; false; true] /\
  keys_of run.2 = {[ "key-r1xxxxxxxx" := MkKeyRow "p1" "laptop" "ssh-ed25519 AAAA" {[ "c1" ]} false ]} /\
  key_steps (keys_of sample) sampleKeyCalls.*2 run.1 (keys_of run.2).
Proof.
  intros run. split; [vm_compute; reflexivity|]. split; [vm_compute; reflexivity|].
  pose proof (ssh_endpoints_refine noGates sampleKeyCalls sample sample_keys_ok) as H.
  fold run in H. destruct run as [rs w']. apply H.
Defined.

Lemma ssh_writes_permitted_witness :
  let run := serve_key UserInfoGetterFactory noGates (bobCtx, CreateKey laptop) sample in
  is_ok run.1 = true /\
  exists v n, v <> VGet /\ may bobCtx sample "p1" v n /\ only_key n sample run.2.
Proof.
  intros run. split; [vm_compute; reflexivity|]. run_ok run a E.
  run_thm run E (ssh_writes_permitted noGates bobCtx (CreateKey laptop) sample sample_keys_ok) H.
  destruct H as [[H _]|H]; [|exact H]. exfalso. specialize (H KSSHKey).
  apply (f_equal size) in H. vm_compute in H. discriminate H.
Defined.
