(* ===== verification/ClusterProviders.v ===== *)
(** The provider of user clusters: provider/kubernetes/cluster.go.  The clusters are
    objects of the seed, cluster-wide; pointers that every caller passes non-nil
    (the project, the user, the cluster) are values here. *)
From S2P Require Export SSHHandlers.

(** clientcmdapi.Config: the servers by name. *)
Record Kubeconfig := MkKubeconfig {
  kubeconfig_Servers : gmap string string;
  kubeconfig_rest : SDKValue }.

(** What the code takes from the SDK of Kubermatic and from client-go. *)
Class ClusterSDK (W : Type) := {
  AllHealthy : ClusterHealth -> bool;
  ControlPlaneHealthy : ClusterHealth -> bool;
  HealthStatusUp : HealthStatus;
  EdgeCloudProvider : string;
  noOIDCSettings : SDKValue;                       (* kubermaticv1.OIDCSettings{} *)
  IsConnectionRefused : error -> bool;
  clientcmd_Load : string -> result error Kubeconfig;
  AdminKubeconfigSecretName : string;
  ViewerKubeconfigSecretName : string;
  ViewerTokenSecretName : string;
  ViewerTokenSecretKey : string;
  resources_KubeconfigSecretKey : string;
  MakeClusterName : M W error string;
  GenerateToken : M W error string;
  (* the poll for an object to appear, which reads it *)
  WaitUntilClusterExists : client -> string -> M W error UserCluster;
  (* controllerutil.UpdateClusterStatus, with the privileged client *)
  UpdateClusterStatus : UserCluster -> (ClusterStatus -> ClusterStatus) -> M W error UserCluster }.

(** provider.ClusterListOptions *)
Record ClusterListOptions := MkClusterListOptions { ClusterSpecName : string }.

(** provider.ClusterProvider and provider.PrivilegedClusterProvider, for one seed *)
Class ClusterStore (W : Type) := {
  clusters_New : Project -> UserInfo -> UserCluster -> M W error UserCluster;
  clusters_NewUnsecured : Project -> UserCluster -> string -> M W error UserCluster;
  clusters_ListOf : Project -> option ClusterListOptions -> M W error (list UserCluster);
  clusters_GetAs : UserInfo -> string -> option ClusterGetOptions -> M W error UserCluster;
  clusters_GetOf : Project -> string -> option ClusterGetOptions -> M W error UserCluster;
  clusters_Update : Project -> UserInfo -> UserCluster -> M W error UserCluster;
  clusters_UpdateUnsecured : Project -> UserCluster -> M W error UserCluster;
  clusters_Delete : UserInfo -> UserCluster -> M W error unit;
  clusters_DeleteUnsecured : UserCluster -> M W error unit;
  clusters_RevokeViewerKubeconfig : UserCluster -> M W error unit;
  clusters_RevokeAdminKubeconfig : UserCluster -> M W error unit }.

Section cluster_provider.
Context {W : Type} {EL : ErrorLib} {P : SDK} {API : KubeAPI W} {CS : ClusterSDK W}.
(** The configuration of the provider. *)
Variable oidcKubeConfEndpoint : bool.
Variable workerName : string.
Variable seedName : string.

Definition getClusterLabels (specifiedLabels : gmap string string) (projectName workerName : string) : gmap string string :=
  let resultLabels := <[ProjectIDLabelKey := projectName]> specifiedLabels in
  if is_empty workerName then resultLabels else <[WorkerNameLabelKey := workerName]> resultLabels.

(** The name is chosen if the cluster has none. *)
Definition genAPICluster (project : Project) (cluster : UserCluster) (workerName : string) : M W error UserCluster :=
  let m := cluster_meta cluster in
  let spec := cspec_with_HumanReadableName (TrimSpace (cspec_HumanReadableName (cluster_Spec cluster))) (cluster_Spec cluster) in
  name ← (if is_empty (meta_Name m) then MakeClusterName else mret (meta_Name m));
  mret (MkUserCluster
          (MkMeta name "" "" "" zero_time None (getClusterLabels (meta_Labels m) (project_id project) workerName)
             (meta_Annotations m) [] (meta_Finalizers m))
          spec noClusterStatus).

Definition waitForCluster (client : client) (cluster : UserCluster) : M W error UserCluster :=
  mapErr (EWrap "failed waiting for the new cluster to appear in the cache: ")
    (WaitUntilClusterExists client (cluster_Name cluster)).

(** What New and NewUnsecured share; the client is the only difference. *)
Definition createUserCluster (getClient : M W error client) (project : Project) (userEmail : string) (cluster : UserCluster)
    : M W error UserCluster :=
  _ ← throwIf (oidcKubeConfEndpoint && negb (bool_decide (cspec_OIDC (cluster_Spec cluster) = noOIDCSettings)))
        (ENew "can not set OIDC for the cluster when share config feature is enabled");
  newCluster ← genAPICluster project cluster workerName;
  client ← getClient;
  newCluster ← kcreate KCluster client newCluster;
  newCluster ← mapErr (EWrap "failed waiting for the new cluster to appear in the cache: ") (waitForCluster client newCluster);
  UpdateClusterStatus newCluster (cstatus_with_email userEmail).

Definition ClusterProvider_New (project : Project) (userInfo : UserInfo) (cluster : UserCluster) : M W error UserCluster :=
  createUserCluster (createImpersonationClientWrapperFromUserInfo userInfo) project (ui_Email userInfo) cluster.
Definition ClusterProvider_NewUnsecured (project : Project) (cluster : UserCluster) (userEmail : string) : M W error UserCluster :=
  createUserCluster (mret Privileged) project userEmail cluster.

Definition ClusterProvider_List (project : Project) (options : option ClusterListOptions) : M W error (list UserCluster) :=
  got ← attempt (klist KCluster Privileged (LabelIs ProjectIDLabelKey (project_id project)));
  match got with
  | inl err => if IsConnectionRefused err then mret [] else throw (EWrap "failed to list clusters: " err)
  | inr projectClusters =>
      match options with
      | Some o =>
          if is_empty (ClusterSpecName o) then mret projectClusters else
          mret (List.filter (fun c => bool_decide (cluster_HumanReadableName c = ClusterSpecName o)) projectClusters)
      | None => mret projectClusters
      end
  end.

(** The check of the health that a read may ask for. *)
Definition checkInitStatus (options : option ClusterGetOptions) (cluster : UserCluster) : M W error UserCluster :=
  if from_option CheckInitStatus false options then
    let healthCheck := cstatus_ExtendedHealth (cluster_Status cluster) in
    let healthy :=
      if bool_decide (cs_ProviderName (cspec_Cloud (cluster_Spec cluster)) = EdgeCloudProvider) then
        ControlPlaneHealthy healthCheck &&
        bool_decide (health_CloudProviderInfrastructure healthCheck = HealthStatusUp) &&
        bool_decide (health_UserClusterControllerManager healthCheck = HealthStatusUp)
      else AllHealthy healthCheck in
    if healthy then mret cluster
    else throw (apierrors_NewServiceUnavailable "Cluster components are not ready yet")
  else mret cluster.

Definition ClusterProvider_Get (userInfo : UserInfo) (clusterName : string) (options : option ClusterGetOptions)
    : M W error UserCluster :=
  seedImpersonatedClient ← createImpersonationClientWrapperFromUserInfo userInfo;
  cluster ← kget KCluster seedImpersonatedClient ("", clusterName);
  checkInitStatus options cluster.

Definition ClusterProvider_IsCluster (clusterName : string) : M W error bool :=
  got ← attempt (kget KCluster Privileged ("", clusterName));
  mret (match got with inl _ => false | inr _ => true end).

Definition ClusterProvider_GetUnsecured (project : Project) (clusterName : string) (options : option ClusterGetOptions)
    : M W error UserCluster :=
  cluster ← kget KCluster Privileged ("", clusterName);
  if bool_decide (default "" (cluster_Labels cluster !! ProjectIDLabelKey) = project_id project)
  then checkInitStatus options cluster
  else throw (apierrors_NewNotFound "" clusterName).

Definition relabelled (project : Project) (cluster : UserCluster) : UserCluster :=
  cluster_with_meta (meta_with_labels (getClusterLabels (cluster_Labels cluster) (project_id project) "") (cluster_meta cluster)) cluster.

Definition ClusterProvider_Update (project : Project) (userInfo : UserInfo) (newCluster : UserCluster) : M W error UserCluster :=
  seedImpersonatedClient ← createImpersonationClientWrapperFromUserInfo userInfo;
  kupdate KCluster seedImpersonatedClient (relabelled project newCluster).
Definition ClusterProvider_UpdateUnsecured (project : Project) (cluster : UserCluster) : M W error UserCluster :=
  kupdate KCluster Privileged (relabelled project cluster).

Definition ClusterProvider_Delete (userInfo : UserInfo) (cluster : UserCluster) : M W error unit :=
  seedImpersonatedClient ← createImpersonationClientWrapperFromUserInfo userInfo;
  kdelete KCluster seedImpersonatedClient (key_of KCluster cluster).
Definition ClusterProvider_DeleteUnsecured (cluster : UserCluster) : M W error unit :=
  kdelete KCluster Privileged (key_of KCluster cluster).

Definition ClusterProvider_ListAll (labelSelector : option selector) : M W error (list UserCluster) :=
  mapErr (EWrap "failed to list clusters: ") (klist KCluster Privileged (default Everything labelSelector)).

Definition ClusterProvider_GetSeedName : string := seedName.

(** ** Access to the user cluster *)

(** The servers of the configuration, replaced by the external address if there is one. *)
Definition withExternalAddress (c : UserCluster) (config : Kubeconfig) : Kubeconfig :=
  let address := cstatus_APIServerExternalAddress (cluster_Status c) in
  if is_empty address then config
  else MkKubeconfig ((fun _ => address) <$> kubeconfig_Servers config) (kubeconfig_rest config).

(** [secret.Data[key]], empty if there is none. *)
Definition secretValue (secret : Secret) (key : string) : string := default "" (default ∅ (secret_Data secret) !! key).

Definition GetAdminKubeconfigForUserCluster (c : UserCluster) : M W error Kubeconfig :=
  secret ← kget KSecret Privileged (cstatus_NamespaceName (cluster_Status c), AdminKubeconfigSecretName);
  config ← lift (clientcmd_Load (secretValue secret resources_KubeconfigSecretKey));
  mret (withExternalAddress c config).

Definition GetViewerKubeconfigForUserCluster (c : UserCluster) : M W error Kubeconfig :=
  s ← kget KSecret Privileged (cstatus_NamespaceName (cluster_Status c), ViewerKubeconfigSecretName);
  let d := secretValue s resources_KubeconfigSecretKey in
  _ ← throwIf (is_empty d) (ENew "no kubeconfig found");
  config ← lift (clientcmd_Load d);
  mret (withExternalAddress c config).

Definition RevokeViewerKubeconfig (c : UserCluster) : M W error unit :=
  kdelete KSecret Privileged (cstatus_NamespaceName (cluster_Status c), ViewerTokenSecretName).

Definition RevokeAdminKubeconfig (c : UserCluster) : M W error unit :=
  token ← GenerateToken;
  _ ← mapErr (EWrap "failed to patch cluster with new token: ")
        (kpatch_status KCluster Privileged (cluster_with_status (cstatus_with_token token (cluster_Status c)) c));
  mret tt.

Definition GetTokenForUserCluster (userInfo : UserInfo) (cluster : UserCluster) : M W error string :=
  if bool_decide ("viewers" ∈ ui_Roles userInfo) && bool_decide (size (ui_Roles userInfo) = 1) then
    s ← kget KSecret Privileged (cstatus_NamespaceName (cluster_Status cluster), ViewerTokenSecretName);
    mret (secretValue s ViewerTokenSecretKey)
  else if bool_decide ("editors" ∈ ui_Roles userInfo) || bool_decide ("owners" ∈ ui_Roles userInfo) then
    mret (cstatus_AdminToken (cluster_Status cluster))
  else throw (ENew ("user role [" +:+ String.concat " " (set_list (ui_Roles userInfo)) +:+ "] not supported")).

#[export] Instance kubernetesClusterStore : ClusterStore W := {|
  clusters_New := ClusterProvider_New;
  clusters_NewUnsecured := ClusterProvider_NewUnsecured;
  clusters_ListOf := ClusterProvider_List;
  clusters_GetAs := ClusterProvider_Get;
  clusters_GetOf := ClusterProvider_GetUnsecured;
  clusters_Update := ClusterProvider_Update;
  clusters_UpdateUnsecured := ClusterProvider_UpdateUnsecured;
  clusters_Delete := ClusterProvider_Delete;
  clusters_DeleteUnsecured := ClusterProvider_DeleteUnsecured;
  clusters_RevokeViewerKubeconfig := RevokeViewerKubeconfig;
  clusters_RevokeAdminKubeconfig := RevokeAdminKubeconfig |}.
End cluster_provider.

(** ** What the providers promise *)

(** Documented behaviour of the SDK: names and tokens are random, the poll
    answers the object it waited for, and the helper for the status patches the
    status of the stored cluster. *)
Class ClusterSDKLaws (W : Type) {EL : ErrorLib} {P : SDK} {API : KubeAPI W} {ST : Store W} {CS : ClusterSDK W}
    : Prop := {
  label_keys_differ : ProjectIDLabelKey <> WorkerNameLabelKey;
  MakeClusterName_spec w : runs MakeClusterName w (fun r w' => same_store w w' /\ exists n, r = Ok n);
  GenerateToken_spec w : runs GenerateToken w (fun r w' => same_store w w' /\ exists t, r = Ok t);
  WaitUntilClusterExists_spec c n w :
    runs (WaitUntilClusterExists c n) w (fun r w' => same_store w w' /\
      match r with
      | Ok o => view KCluster w !! ("", n) = Some o
      | Err _ => True
      | Panic => False
      end);
  UpdateClusterStatus_spec c f w :
    runs (UpdateClusterStatus c f) w (fun r w' =>
      match r with
      | Ok c' => key_of KCluster c' = key_of KCluster c /\ updated KCluster w w' c' /\
          (stored KCluster w c ->
             cluster_Status c' = f (cluster_Status c) /\ strip KCluster c' = strip KCluster c)
      | Err _ => same_store w w'
      | Panic => False
      end);
  clientcmd_Load_panic s : clientcmd_Load s <> Panic }.

Section cluster_contract.
Context {W : Type} {EL : ErrorLib} {P : SDK} {API : KubeAPI W} {ST : Store W}.
Implicit Types w : W.

Definition in_project (project : Project) (c : UserCluster) : Prop :=
  default "" (cluster_Labels c !! ProjectIDLabelKey) = project_id project.

(** What becomes of the cluster [given] when it is created in the project. *)
Definition born_as (project : Project) (given c : UserCluster) : Prop :=
  meta_Namespace (cluster_meta c) = "" /\
  (cluster_Name given = "" \/ cluster_Name c = cluster_Name given) /\
  cluster_Spec c = cspec_with_HumanReadableName (TrimSpace (cluster_HumanReadableName given)) (cluster_Spec given) /\
  meta_Annotations (cluster_meta c) = meta_Annotations (cluster_meta given) /\
  meta_Finalizers (cluster_meta c) = meta_Finalizers (cluster_meta given) /\
  in_project project c /\
  (forall l, l <> ProjectIDLabelKey -> l <> WorkerNameLabelKey -> cluster_Labels c !! l = cluster_Labels given !! l).

(** The cluster [c] is stored with the label of the project; the server keeps its status. *)
Definition cluster_updated (project : Project) w w' (c c' : UserCluster) : Prop :=
  updated KCluster w w' c' /\ strip KCluster c' = strip KCluster (relabelled project c) /\
  forall old, view KCluster w !! key_of KCluster c = Some old -> cluster_Status c' = cluster_Status old.

#[export] Instance cluster_updated_proper project :
  Proper (same_store ==> same_store ==> eq ==> eq ==> iff) (cluster_updated project).
Proof. intros w1 w1' H1 w2 w2' H2 c ? <- c' ? <-. unfold cluster_updated. by setoid_rewrite H1; setoid_rewrite H2. Qed.

Definition selected_by (options : option ClusterListOptions) (c : UserCluster) : Prop :=
  match options with
  | Some o => ClusterSpecName o = "" \/ cluster_HumanReadableName c = ClusterSpecName o
  | None => True
  end.

(** The outcome of a creation for the user [email]: a failure may leave the new
    cluster behind, with no user in its status. *)
Definition cluster_new (project : Project) (c : client) (email : string) (given : UserCluster) w
    (r : result error UserCluster) w' : Prop :=
  match r with
  | Ok c' => authorized w c VCreate KCluster (key_of KCluster c') /\ born_as project given c' /\
      cstatus_UserEmail (cluster_Status c') = email /\ created KCluster w w' c'
  | Err _ => same_store w w' \/
      exists c', authorized w c VCreate KCluster (key_of KCluster c') /\ born_as project given c' /\
        created KCluster w w' c'
  | Panic => False
  end.
End cluster_contract.

Class ClusterStoreLaws (W : Type) {EL : ErrorLib} {P : SDK} {API : KubeAPI W} {ST : Store W} {CS : ClusterSDK W}
    {CLS : ClusterStore W} : Prop := {
  clusters_New_spec project ui c w :
    runs (clusters_New project ui c) w (cluster_new project (as_user ui) (ui_Email ui) c w);
  clusters_NewUnsecured_spec project c email w :
    runs (clusters_NewUnsecured project c email) w (cluster_new project Privileged email c w);
  clusters_ListOf_spec project options w :
    runs (clusters_ListOf project options) w (fun r w' => same_store w w' /\
      match r with
      | Ok l => forall c, c ∈ l -> stored KCluster w c /\ cluster_Labels c !! ProjectIDLabelKey = Some (project_id project) /\
                  selected_by options c
      | Err _ => True
      | Panic => False
      end);
  clusters_GetAs_spec ui name options w :
    runs (clusters_GetAs ui name options) w (fun r w' => same_store w w' /\
      match r with
      | Ok c => authorized w (as_user ui) VGet KCluster ("", name) /\ view KCluster w !! ("", name) = Some c
      | Err _ => True
      | Panic => False
      end);
  clusters_GetOf_spec project name options w :
    runs (clusters_GetOf project name options) w (fun r w' => same_store w w' /\
      match r with
      | Ok c => in_project project c /\ view KCluster w !! ("", name) = Some c
      | Err _ => True
      | Panic => False
      end);
  clusters_Update_spec project ui c w :
    runs (clusters_Update project ui c) w (fun r w' =>
      match r with
      | Ok c' => authorized w (as_user ui) VUpdate KCluster (key_of KCluster c) /\ cluster_updated project w w' c c'
      | Err _ => same_store w w'
      | Panic => False
      end);
  clusters_UpdateUnsecured_spec project c w :
    runs (clusters_UpdateUnsecured project c) w (fun r w' =>
      match r with
      | Ok c' => cluster_updated project w w' c c'
      | Err _ => same_store w w'
      | Panic => False
      end);
  clusters_Delete_spec ui c w :
    runs (clusters_Delete ui c) w (fun r w' =>
      match r with
      | Ok _ => authorized w (as_user ui) VDelete KCluster (key_of KCluster c) /\ deleted KCluster w w' (key_of KCluster c)
      | Err _ => same_store w w'
      | Panic => False
      end);
  clusters_DeleteUnsecured_spec c w :
    runs (clusters_DeleteUnsecured c) w (fun r w' =>
      match r with
      | Ok _ => deleted KCluster w w' (key_of KCluster c)
      | Err _ => same_store w w'
      | Panic => False
      end);
  clusters_RevokeViewerKubeconfig_spec c w :
    runs (clusters_RevokeViewerKubeconfig c) w (fun r w' =>
      match r with
      | Ok _ => deleted KSecret w w' (cstatus_NamespaceName (cluster_Status c), ViewerTokenSecretName)
      | Err _ => same_store w w'
      | Panic => False
      end);
  clusters_RevokeAdminKubeconfig_spec c w :
    runs (clusters_RevokeAdminKubeconfig c) w (fun r w' =>
      match r with
      | Ok _ => exists token c', cluster_Status c' = cstatus_with_token token (cluster_Status c) /\
          key_of KCluster c' = key_of KCluster c /\ updated KCluster w w' c' /\
          (forall old, view KCluster w !! key_of KCluster c = Some old -> strip KCluster c' = strip KCluster old)
      | Err _ => same_store w w'
      | Panic => False
      end) }.

(** The providers of a seed as those that only read. *)
#[export] Instance clusterReader {W} {CLS : ClusterStore W} : ClusterReader W := {|
  ReadCluster := UserCluster;
  clusters_Get := clusters_GetAs;
  clusters_GetUnsecured := clusters_GetOf |}.
#[export] Instance clusterReader_laws {W} `{ClusterStoreLaws W} : ClusterReaderLaws W.
Proof.
  split.
  - intros ui id options w. eapply runs_mono; [apply clusters_GetAs_spec|]. intros [] w'; naive_solver.
  - intros project id options w. eapply runs_mono; [apply clusters_GetOf_spec|]. intros [] w'; naive_solver.
Qed.

Section cluster_provider_proofs.
Context {W : Type} {EL : ErrorLib} {P : SDK} {API : KubeAPI W} {ST : Store W} {LAWS : KubeAPILaws W}
        {CS : ClusterSDK W} {CSL : ClusterSDKLaws W}.
Implicit Types w : W.
Variables (oidcKubeConfEndpoint : bool) (workerName : string).

Lemma getClusterLabels_project labels name worker :
  getClusterLabels labels name worker !! ProjectIDLabelKey = Some name.
Proof.
  unfold getClusterLabels. destruct (is_empty worker); [apply lookup_insert_eq|].
  rewrite lookup_insert_ne by apply not_eq_sym, label_keys_differ. apply lookup_insert_eq.
Qed.

Lemma getClusterLabels_other labels name worker l :
  l <> ProjectIDLabelKey -> l <> WorkerNameLabelKey -> getClusterLabels labels name worker !! l = labels !! l.
Proof. intros H1 H2. unfold getClusterLabels. destruct (is_empty worker); by rewrite !lookup_insert_ne. Qed.

Lemma genAPICluster_spec project given w :
  runs (genAPICluster project given workerName) w (fun r w' => same_store w w' /\
    exists c, r = Ok c /\ born_as project given c).
Proof.
  unfold genAPICluster.
  assert (forall name, cluster_Name given = "" \/ name = cluster_Name given ->
    born_as project given (MkUserCluster
      (MkMeta name "" "" "" zero_time None (getClusterLabels (cluster_Labels given) (project_id project) workerName)
         (meta_Annotations (cluster_meta given)) [] (meta_Finalizers (cluster_meta given)))
      (cspec_with_HumanReadableName (TrimSpace (cspec_HumanReadableName (cluster_Spec given))) (cluster_Spec given))
      noClusterStatus)) as Hborn.
  { intros name Hn. split_and!; cbn; [done|exact Hn|done|done|done| |].
    - unfold in_project, cluster_Labels. cbn [cluster_meta meta_Labels]. by rewrite getClusterLabels_project.
    - intros l H1 H2. by apply getClusterLabels_other. }
  destruct (is_empty _) eqn:E.
  - runs_call MakeClusterName_spec. destruct Hcall as [Hs [n ->]]. cbn [andThen]. runs_step.
    split; [done|]. eexists; split; [done|]. apply Hborn. left. unfold is_empty in E. by apply bool_decide_eq_true in E.
  - runs_step. split; [done|]. eexists; split; [done|]. apply Hborn. by right.
Qed.

Lemma born_as_strip project given c c' :
  born_as project given c -> strip KCluster c' = strip KCluster c -> born_as project given c'.
Proof.
  intros (Hns & Hn & Hsp & Ha & Hf & Hp & Hl) Hst. pose proof (strip_key _ _ _ Hst) as [= E1 E2].
  apply strip_cluster in Hst as (E3 & E4 & E5 & E6).
  unfold born_as, in_project, cluster_Labels, cluster_Name in *. by rewrite E1, E2, E3, E4, E5, E6.
Qed.

Lemma created_then_updated w w1 w2 c c' :
  created KCluster w w1 c -> updated KCluster w1 w2 c' -> key_of KCluster c' = key_of KCluster c ->
  created KCluster w w2 c'.
Proof.
  intros (Hnone & Hv & He) (_ & Hv' & He') Hk. split_and!.
  - by rewrite Hk.
  - rewrite Hv', Hv, Hk. apply insert_insert_eq.
  - intros k' Hk'. by rewrite (He k' Hk'), (He' k' Hk').
Qed.

Lemma createUserCluster_spec getClient c project email given w :
  (forall w, runs getClient w (fun r w' => same_store w w' /\
     match r with Ok c' => c' = c | Err _ => True | Panic => False end)) ->
  runs (createUserCluster oidcKubeConfEndpoint workerName getClient project email given) w
    (cluster_new project c email given w).
Proof.
  intros Hclient. unfold createUserCluster. runs_guard; [by left|].
  runs_call genAPICluster_spec. destruct Hcall as [Hs (new & -> & Hborn)]. cbn [andThen].
  runs_call Hclient. destruct Hcall as [Hs' Hc]. destruct r as [c0|e|]; cbn [andThen]; [subst c0|left; by etrans|done].
  assert (same_store w w1) as Hs1 by (by etrans).
  runs_call (kcreate_spec KCluster). destruct r as [c1|e|]; cbn [andThen]; [|left; destruct Hcall; by etrans|done].
  destruct Hcall as (Ha & Hst & Hcr). rewrite <- Hs1 in Ha, Hcr.
  pose proof (born_as_strip _ _ _ _ Hborn Hst) as Hb1. rewrite <- (strip_key _ _ _ Hst) in Ha.
  assert (exists c', authorized w c VCreate KCluster (key_of KCluster c') /\ born_as project given c' /\
            created KCluster w w2 c') as Hleft by eauto.
  unfold waitForCluster. do 3 runs_step. runs_call WaitUntilClusterExists_spec.
  destruct Hcall as [Hs3 Hw]. destruct r as [o|e|]; cbn [andThen]; [|right; by setoid_rewrite <- Hs3|done].
  assert (o = c1) as ->.
  { destruct Hcr as (_ & Hv & _). destruct Hb1 as (Hns & _).
    rewrite Hv in Hw. unfold key_of in Hw. cbn [obj_meta] in Hw. rewrite Hns in Hw.
    rewrite lookup_insert_eq in Hw. by injection Hw. }
  eapply runs_mono; [apply UpdateClusterStatus_spec|]. cbn beta.
  assert (stored KCluster w3 c1) as Hstored.
  { rewrite <- Hs3. apply (created_stored KCluster _ _ _ _ Hcr). by left. }
  intros [c'|e|] w4; [|intros Hs4; right; by setoid_rewrite <- Hs4; setoid_rewrite <- Hs3|done].
  intros (Hk & Hup & Hst'). destruct (Hst' Hstored) as [Hstat Hst2]. rewrite <- Hs3 in Hup.
  split_and!; [by rewrite Hk|by eapply born_as_strip|by rewrite Hstat|by eapply created_then_updated].
Qed.

Lemma checkInitStatus_ok options c w :
  runs (checkInitStatus options c) w (fun r w' => same_store w w' /\
    match r with Ok c' => c' = c | Err _ => True | Panic => False end).
Proof. unfold checkInitStatus. repeat runs_step; done. Qed.

Lemma ClusterProvider_List_spec project options w :
  runs (ClusterProvider_List project options) w (fun r w' => same_store w w' /\
    match r with
    | Ok l => forall c, c ∈ l -> stored KCluster w c /\ cluster_Labels c !! ProjectIDLabelKey = Some (project_id project) /\
                selected_by options c
    | Err _ => True
    | Panic => False
    end).
Proof.
  unfold ClusterProvider_List. runs_call (klist_spec KCluster). destruct Hcall as [Hs Hl].
  destruct r as [l|e|]; cbn [andThen]; [|destruct (IsConnectionRefused e); runs_step; split; set_solver|done].
  assert (forall c, c ∈ l -> stored KCluster w c /\ cluster_Labels c !! ProjectIDLabelKey = Some (project_id project)) as Hin.
  { intros c Hc. apply (elem_of_listed KCluster _ _ _ _ Hl) in Hc as [Hm Hc]. cbn in Hm.
    apply bool_decide_eq_true in Hm. done. }
  destruct options as [o|]; [destruct (is_empty (ClusterSpecName o)) eqn:E|]; runs_step; (split; [done|]); intros c Hc.
  - apply Hin in Hc as []. split_and!; [done..|]. left. unfold is_empty in E. by apply bool_decide_eq_true in E.
  - apply elem_of_List_filter in Hc as [Hc Hn%bool_decide_eq_true]. apply Hin in Hc as []. split_and!; [done..|]. by right.
  - apply Hin in Hc as []. done.
Qed.

Lemma kupdate_relabelled client project c w :
  runs (kupdate KCluster client (relabelled project c)) w (fun r w' =>
    match r with
    | Ok c' => authorized w client VUpdate KCluster (key_of KCluster c) /\ cluster_updated project w w' c c'
    | Err _ => same_store w w'
    | Panic => False
    end).
Proof.
  runs_call (kupdate_spec KCluster). destruct r as [c'|e|]; [|done|done].
  destruct Hcall as (Ha & Hst & Hup & Hstat). split; [done|]. by split_and!.
Qed.

#[export] Instance kubernetesClusterStore_laws :
  ClusterStoreLaws W (CLS := kubernetesClusterStore oidcKubeConfEndpoint workerName).
Proof.
  split.
  - intros project ui c w. apply createUserCluster_spec, createImpersonationClientWrapperFromUserInfo_spec.
  - intros project c email w. apply createUserCluster_spec. intros w'. by runs_step.
  - intros project options w. apply ClusterProvider_List_spec.
  - intros ui name options w. cbn [clusters_GetAs kubernetesClusterStore]. unfold ClusterProvider_Get.
    runs_call createImpersonationClientWrapperFromUserInfo_spec. destruct Hcall as [Hs Hc].
    destruct r as [c|e|]; cbn [andThen]; [subst c|done|done].
    runs_call (kget_spec KCluster). destruct Hcall as [Hs' Hk]. assert (same_store w w1) as Hw by (by etrans).
    destruct r as [k|e|]; cbn [andThen]; [|done|done]. rewrite <- Hs in Hk.
    runs_call checkInitStatus_ok. destruct Hcall as [Hs'' Hc]. split; [by etrans|].
    destruct r as [c|e|]; [subst c; naive_solver|done|done].
  - intros project name options w. cbn [clusters_GetOf kubernetesClusterStore]. unfold ClusterProvider_GetUnsecured.
    runs_call (kget_spec KCluster). destruct Hcall as [Hs Hk].
    destruct r as [k|e|]; cbn [andThen]; [|done|done]. case_bool_decide as Hp; [|by runs_step].
    runs_call checkInitStatus_ok. destruct Hcall as [Hs' Hc]. split; [by etrans|].
    destruct r as [c|e|]; [subst c; naive_solver|done|done].
  - intros project ui c w. cbn [clusters_Update kubernetesClusterStore]. unfold ClusterProvider_Update.
    runs_call createImpersonationClientWrapperFromUserInfo_spec. destruct Hcall as [Hs Hc].
    destruct r as [cl|e|]; cbn [andThen]; [subst cl|done|done].
    runs_call kupdate_relabelled. destruct r as [c'|e|]; [|by etrans|done]. by rewrite Hs.
  - intros project c w. cbn [clusters_UpdateUnsecured kubernetesClusterStore]. unfold ClusterProvider_UpdateUnsecured.
    runs_call kupdate_relabelled. destruct r as [c'|e|]; [|done|done]. by destruct Hcall.
  - intros ui c w. cbn [clusters_Delete kubernetesClusterStore]. unfold ClusterProvider_Delete.
    runs_call createImpersonationClientWrapperFromUserInfo_spec. destruct Hcall as [Hs Hc].
    destruct r as [cl|e|]; cbn [andThen]; [subst cl|done|done].
    runs_call (kdelete_spec KCluster). destruct r as [[]|e|]; [|by etrans|done]. by rewrite Hs.
  - intros c w. cbn [clusters_DeleteUnsecured kubernetesClusterStore]. unfold ClusterProvider_DeleteUnsecured.
    runs_call (kdelete_spec KCluster). destruct r as [[]|e|]; [|done|done]. by destruct Hcall.
  - intros c w. cbn [clusters_RevokeViewerKubeconfig kubernetesClusterStore]. unfold RevokeViewerKubeconfig.
    runs_call (kdelete_spec KSecret). destruct r as [[]|e|]; [|done|done]. by destruct Hcall.
  - intros c w. cbn [clusters_RevokeAdminKubeconfig kubernetesClusterStore]. unfold RevokeAdminKubeconfig.
    runs_call GenerateToken_spec. destruct Hcall as [Hs [t ->]]. cbn [andThen].
    runs_call (kpatch_status_spec KCluster). destruct r as [c'|e|]; cbn [andThen]; [|by etrans|done].
    destruct Hcall as (H1 & H2 & H3 & H4). runs_step. exists t, c'. split_and!; [done|done|by rewrite Hs|by setoid_rewrite Hs].
Qed.
End cluster_provider_proofs.
