(* ===== verification/ApiClusters.v ===== *)
(** Clusters as the API shows them: the types of api/v1/types.go, the cloud
    specification without its credentials, and the conversion in
    handler/common/cluster.go. *)
From S2P Require Export ClusterProviders Datacenters Projects.

(** ** api/v1/types.go *)

(** apiv1.ClusterProxySettings; ClusterComponentSettings and
    ClusterOSMControllerSettings are structs of one pointer. *)
Record ClusterProxySettings := MkClusterProxy {
  cproxy_HTTPProxy : string;
  cproxy_NoProxy : string }.

Record ApiClusterSpec := MkApiClusterSpec {
  acs_Cloud : CloudSpec;
  acs_MachineNetworks : list SDKValue;
  acs_Version : SDKValue;
  acs_OIDC : SDKValue;
  acs_UpdateWindow : option SDKValue;
  acs_UsePodSecurityPolicyAdmissionPlugin : bool;
  acs_UsePodNodeSelectorAdmissionPlugin : bool;
  acs_UseEventRateLimitAdmissionPlugin : bool;
  acs_EnableUserSSHKeyAgent : option bool;
  acs_KubeLB : option SDKValue;
  acs_KubernetesDashboard : option SDKValue;
  acs_PodNodeSelectorAdmissionPluginConfig : gmap string string;
  acs_EventRateLimitConfig : option SDKValue;
  acs_AdmissionPlugins : list string;
  acs_AuditLogging : option AuditLogging;
  acs_ServiceAccount : option SDKValue;
  acs_OPAIntegration : option SDKValue;
  acs_MLA : option SDKValue;
  acs_ClusterNetwork : option ClusterNetwork;
  acs_ContainerRuntime : string;
  acs_CNIPlugin : option CNIPlugin;
  acs_ExposeStrategy : string;
  acs_APIServerAllowedIPRanges : option SDKValue;
  acs_DisableCSIDriver : bool;
  acs_BackupConfig : option SDKValue;
  acs_Kyverno : option SDKValue;
  acs_EncryptionConfiguration : option EncryptionConfiguration;
  acs_Features : gmap string bool;
  acs_ComponentsOverride : option (option (option ClusterProxySettings)) }.

(** EncryptionStatus is a struct of the phase. *)
Record ApiClusterStatus := MkApiClusterStatus {
  acstat_Version : SDKValue;
  acstat_URL : string;
  acstat_ExternalCCMMigration : string;
  acstat_Encryption : option string }.

Record ApiCluster := MkApiCluster {
  apicluster_meta : ApiObjectMeta;
  apicluster_Labels : gmap string string;
  apicluster_InheritedLabels : gmap string string;
  apicluster_Type : string;
  apicluster_Credential : string;
  apicluster_Spec : ApiClusterSpec;
  apicluster_Status : ApiClusterStatus;
  apicluster_MachineDeploymentCount : option Z }.

Definition KubernetesClusterType : string := "kubernetes".
Definition ExternalCCMMigrationNotNeeded : string := "NotNeeded".
Definition ExternalCCMMigrationSupported : string := "Supported".
Definition ExternalCCMMigrationUnsupported : string := "Unsupported".
Definition ExternalCCMMigrationInProgress : string := "InProgress".

(** ** What a client sees of a cloud *)

Record PublicAzureCloudSpec := MkPublicAzure {
  pub_az_AssignAvailabilitySet : option bool;
  pub_az_NodePortsAllowedIPRanges : option SDKValue }.
Record PublicAWSCloudSpec := MkPublicAWS { pub_aws_NodePortsAllowedIPRanges : option SDKValue }.
Record PublicGCPCloudSpec := MkPublicGCP { pub_gcp_NodePortsAllowedIPRanges : option SDKValue }.
Record PublicOpenstackCloudSpec := MkPublicOpenstack {
  pub_os_FloatingIPPool : string;
  pub_os_Project : string;
  pub_os_ProjectID : string;
  pub_os_Domain : string;
  pub_os_Network : string;
  pub_os_SecurityGroups : string;
  pub_os_RouterID : string;
  pub_os_SubnetID : string;
  pub_os_NodePortsAllowedIPRanges : option SDKValue }.
Record PublicKubevirtCloudSpec := MkPublicKubevirt {
  pub_kv_VPCName : string;
  pub_kv_PreAllocatedDataVolumes : list SDKValue }.
Record PublicVMwareCloudDirectorCloudSpec := MkPublicVMwareCloudDirector {
  pub_vcd_OVDCNetwork : string;
  pub_vcd_OVDCNetworks : option (list string) }.

(** A struct without fields is [unit]. *)
Record PublicCloudSpec := MkPublicCloudSpec {
  pub_DatacenterName : string;
  pub_Fake : option unit;
  pub_Digitalocean : option unit;
  pub_BringYourOwn : option unit;
  pub_Edge : option unit;
  pub_AWS : option PublicAWSCloudSpec;
  pub_Azure : option PublicAzureCloudSpec;
  pub_Openstack : option PublicOpenstackCloudSpec;
  pub_Hetzner : option unit;
  pub_VSphere : option unit;
  pub_Baremetal : option unit;
  pub_GCP : option PublicGCPCloudSpec;
  pub_Kubevirt : option PublicKubevirtCloudSpec;
  pub_Alibaba : option unit;
  pub_Anexia : option unit;
  pub_Nutanix : option unit;
  pub_VMwareCloudDirector : option PublicVMwareCloudDirectorCloudSpec }.

Definition newPublicFakeCloudSpec (internal : option FakeCloudSpec) : option unit := (fun _ => tt) <$> internal.
Definition newPublicDigitaloceanCloudSpec (internal : option DigitaloceanCloudSpec) : option unit := (fun _ => tt) <$> internal.
Definition newPublicHetznerCloudSpec (internal : option HetznerCloudSpec) : option unit := (fun _ => tt) <$> internal.
Definition newPublicAzureCloudSpec (internal : option AzureCloudSpec) : option PublicAzureCloudSpec :=
  (fun c => MkPublicAzure (cs_az_AssignAvailabilitySet c) (cs_az_NodePortsAllowedIPRanges c)) <$> internal.
Definition newPublicVSphereCloudSpec (internal : option VSphereCloudSpec) : option unit := (fun _ => tt) <$> internal.
Definition newPublicBaremetalCloudSpec (internal : option BaremetalCloudSpec) : option unit := (fun _ => tt) <$> internal.
Definition newPublicBringYourOwnCloudSpec (internal : option BringYourOwnCloudSpec) : option unit := (fun _ => tt) <$> internal.
Definition newPublicEdgeCloudSpec (internal : option EdgeCloudSpec) : option unit := (fun _ => tt) <$> internal.
Definition newPublicAWSCloudSpec (internal : option AWSCloudSpec) : option PublicAWSCloudSpec :=
  (fun c => MkPublicAWS (cs_aws_NodePortsAllowedIPRanges c)) <$> internal.
Definition newPublicOpenstackCloudSpec (internal : option OpenstackCloudSpec) : option PublicOpenstackCloudSpec :=
  (fun c =>
     {| pub_os_FloatingIPPool := cs_os_FloatingIPPool c;
        pub_os_Project := cs_os_Project c;
        pub_os_ProjectID := cs_os_ProjectID c;
        pub_os_Domain := cs_os_Domain c;
        pub_os_Network := cs_os_Network c;
        pub_os_SecurityGroups := cs_os_SecurityGroups c;
        pub_os_RouterID := cs_os_RouterID c;
        pub_os_SubnetID := cs_os_SubnetID c;
        pub_os_NodePortsAllowedIPRanges := cs_os_NodePortsAllowedIPRanges c |}) <$> internal.
Definition newPublicGCPCloudSpec (internal : option GCPCloudSpec) : option PublicGCPCloudSpec :=
  (fun c => MkPublicGCP (cs_gcp_NodePortsAllowedIPRanges c)) <$> internal.
Definition newPublicKubevirtCloudSpec (internal : option KubevirtCloudSpec) : option PublicKubevirtCloudSpec :=
  (fun c => MkPublicKubevirt (cs_kv_VPCName c) (cs_kv_PreAllocatedDataVolumes c)) <$> internal.
Definition newPublicAlibabaCloudSpec (internal : option AlibabaCloudSpec) : option unit := (fun _ => tt) <$> internal.
Definition newPublicAnexiaCloudSpec (internal : option AnexiaCloudSpec) : option unit := (fun _ => tt) <$> internal.
Definition newPublicNutanixCloudSpec (internal : option NutanixCloudSpec) : option unit := (fun _ => tt) <$> internal.
(** The field OVDCNetwork is not filled in. *)
Definition newPublicVMwareCloudDirectorCloudSpec (internal : option VMwareCloudDirectorCloudSpec)
    : option PublicVMwareCloudDirectorCloudSpec :=
  (fun c => MkPublicVMwareCloudDirector "" (cs_vcd_OVDCNetworks c)) <$> internal.

(** The anonymous struct that MarshalJSON encodes in place of a ClusterSpec. *)
Record PublicClusterSpec := MkPublicClusterSpec {
  pcs_Cloud : PublicCloudSpec;
  pcs_MachineNetworks : list SDKValue;
  pcs_Version : SDKValue;
  pcs_OIDC : SDKValue;
  pcs_UpdateWindow : option SDKValue;
  pcs_UsePodSecurityPolicyAdmissionPlugin : bool;
  pcs_UsePodNodeSelectorAdmissionPlugin : bool;
  pcs_UseEventRateLimitAdmissionPlugin : bool;
  pcs_EnableUserSSHKeyAgent : option bool;
  pcs_KubeLB : option SDKValue;
  pcs_KubernetesDashboard : option SDKValue;
  pcs_PodNodeSelectorAdmissionPluginConfig : gmap string string;
  pcs_EventRateLimitConfig : option SDKValue;
  pcs_AdmissionPlugins : list string;
  pcs_AuditLogging : option AuditLogging;
  pcs_ServiceAccount : option SDKValue;
  pcs_OPAIntegration : option SDKValue;
  pcs_MLA : option SDKValue;
  pcs_ClusterNetwork : option ClusterNetwork;
  pcs_ContainerRuntime : string;
  pcs_CNIPlugin : option CNIPlugin;
  pcs_ExposeStrategy : string;
  pcs_APIServerAllowedIPRanges : option SDKValue;
  pcs_DisableCSIDriver : bool;
  pcs_BackupConfig : option SDKValue;
  pcs_Kyverno : option SDKValue;
  pcs_EncryptionConfiguration : option EncryptionConfiguration;
  pcs_Features : gmap string bool;
  pcs_ComponentsOverride : option (option (option ClusterProxySettings)) }.

Definition ClusterSpec_MarshalJSON (cs : ApiClusterSpec) : PublicClusterSpec := {|
  pcs_Cloud := {|
    pub_DatacenterName := cs_DatacenterName (acs_Cloud cs);
    pub_Fake := newPublicFakeCloudSpec (cs_Fake (acs_Cloud cs));
    pub_Digitalocean := newPublicDigitaloceanCloudSpec (cs_Digitalocean (acs_Cloud cs));
    pub_BringYourOwn := newPublicBringYourOwnCloudSpec (cs_BringYourOwn (acs_Cloud cs));
    pub_Edge := newPublicEdgeCloudSpec (cs_Edge (acs_Cloud cs));
    pub_AWS := newPublicAWSCloudSpec (cs_AWS (acs_Cloud cs));
    pub_Azure := newPublicAzureCloudSpec (cs_Azure (acs_Cloud cs));
    pub_Openstack := newPublicOpenstackCloudSpec (cs_Openstack (acs_Cloud cs));
    pub_Hetzner := newPublicHetznerCloudSpec (cs_Hetzner (acs_Cloud cs));
    pub_VSphere := newPublicVSphereCloudSpec (cs_VSphere (acs_Cloud cs));
    pub_Baremetal := newPublicBaremetalCloudSpec (cs_Baremetal (acs_Cloud cs));
    pub_GCP := newPublicGCPCloudSpec (cs_GCP (acs_Cloud cs));
    pub_Kubevirt := newPublicKubevirtCloudSpec (cs_Kubevirt (acs_Cloud cs));
    pub_Alibaba := newPublicAlibabaCloudSpec (cs_Alibaba (acs_Cloud cs));
    pub_Anexia := newPublicAnexiaCloudSpec (cs_Anexia (acs_Cloud cs));
    pub_Nutanix := newPublicNutanixCloudSpec (cs_Nutanix (acs_Cloud cs));
    pub_VMwareCloudDirector := newPublicVMwareCloudDirectorCloudSpec (cs_VMwareCloudDirector (acs_Cloud cs)) |};
  pcs_MachineNetworks := acs_MachineNetworks cs;
  pcs_Version := acs_Version cs;
  pcs_OIDC := acs_OIDC cs;
  pcs_UpdateWindow := acs_UpdateWindow cs;
  pcs_UsePodSecurityPolicyAdmissionPlugin := acs_UsePodSecurityPolicyAdmissionPlugin cs;
  pcs_UsePodNodeSelectorAdmissionPlugin := acs_UsePodNodeSelectorAdmissionPlugin cs;
  pcs_UseEventRateLimitAdmissionPlugin := acs_UseEventRateLimitAdmissionPlugin cs;
  pcs_EnableUserSSHKeyAgent := acs_EnableUserSSHKeyAgent cs;
  pcs_KubeLB := acs_KubeLB cs;
  pcs_KubernetesDashboard := acs_KubernetesDashboard cs;
  pcs_PodNodeSelectorAdmissionPluginConfig := acs_PodNodeSelectorAdmissionPluginConfig cs;
  pcs_EventRateLimitConfig := acs_EventRateLimitConfig cs;
  pcs_AdmissionPlugins := acs_AdmissionPlugins cs;
  pcs_AuditLogging := acs_AuditLogging cs;
  pcs_ServiceAccount := acs_ServiceAccount cs;
  pcs_OPAIntegration := acs_OPAIntegration cs;
  pcs_MLA := acs_MLA cs;
  pcs_ClusterNetwork := acs_ClusterNetwork cs;
  pcs_ContainerRuntime := acs_ContainerRuntime cs;
  pcs_CNIPlugin := acs_CNIPlugin cs;
  pcs_ExposeStrategy := acs_ExposeStrategy cs;
  pcs_APIServerAllowedIPRanges := acs_APIServerAllowedIPRanges cs;
  pcs_DisableCSIDriver := acs_DisableCSIDriver cs;
  pcs_BackupConfig := acs_BackupConfig cs;
  pcs_Kyverno := acs_Kyverno cs;
  pcs_EncryptionConfiguration := acs_EncryptionConfiguration cs;
  pcs_Features := acs_Features cs;
  pcs_ComponentsOverride := acs_ComponentsOverride cs |}.

(** The answer to a client: the cluster, its specification encoded by MarshalJSON. *)
Definition shownCluster (c : ApiCluster) : ApiObjectMeta * gmap string string * gmap string string * string * string *
    PublicClusterSpec * ApiClusterStatus * option Z :=
  (apicluster_meta c, apicluster_Labels c, apicluster_InheritedLabels c, apicluster_Type c, apicluster_Credential c,
   ClusterSpec_MarshalJSON (apicluster_Spec c), apicluster_Status c, apicluster_MachineDeploymentCount c).

(** ** handler/common/cluster.go *)

(** What the conversion takes from the SDK; the configuration of the
    installation gives the incompatibilities of the versions. *)
Class ClusterViewSDK := {
  KubermaticConfiguration : Type;
  ClusterFeatureExternalCloudProvider : string;
  MigrationToExternalCloudControllerSupported : Datacenter -> UserCluster -> KubermaticConfiguration -> bool;
  NeedCCMMigration : UserCluster -> bool;
  ProxyValue_Empty : option string -> bool;
  ProxyValue_String : option string -> string }.

Section cluster_view.
Context {P : SDK} {V : ClusterViewSDK}.

Definition convertInternalCCMStatusToExternal (cluster : UserCluster) (datacenter : Datacenter)
    (config : KubermaticConfiguration) : string :=
  let externalCCMEnabled := default false (cspec_Features (cluster_Spec cluster) !! ClusterFeatureExternalCloudProvider) in
  let externalCCMSupported := MigrationToExternalCloudControllerSupported datacenter cluster config in
  if externalCCMEnabled then
    if NeedCCMMigration cluster then ExternalCCMMigrationInProgress else ExternalCCMMigrationNotNeeded
  else if externalCCMSupported then ExternalCCMMigrationSupported
  else ExternalCCMMigrationUnsupported.

Definition buildEncryptionStatus (cluster : UserCluster) : option string := cstatus_Encryption (cluster_Status cluster).

(** [osm != nil && !osm.Proxy.Empty()]: empty if both values are. *)
Definition componentsOverride (osm : option OSMSettings) : option (option (option ClusterProxySettings)) :=
  match osm with
  | Some osm =>
      let proxy := osm_Proxy osm in
      if ProxyValue_Empty (proxy_HTTPProxy proxy) && ProxyValue_Empty (proxy_NoProxy proxy) then None
      else Some (Some (Some (MkClusterProxy (ProxyValue_String (proxy_HTTPProxy proxy)) (ProxyValue_String (proxy_NoProxy proxy)))))
  | None => None
  end.

(** The fields Features, Credential and MachineDeploymentCount are not filled in. *)
Definition ConvertInternalClusterToExternal (internalCluster : UserCluster) (datacenter : Datacenter)
    (filterSystemLabels : bool) (config : KubermaticConfiguration) : ApiCluster :=
  let m := cluster_meta internalCluster in
  let spec := cluster_Spec internalCluster in
  {| apicluster_meta := MkApiMeta (meta_Name m) (cspec_HumanReadableName spec) (meta_Annotations m) ∅
                          (meta_DeletionTimestamp m) (meta_CreationTimestamp m);
     apicluster_Labels :=
       if filterSystemLabels then FilterLabels ClusterResourceType (meta_Labels m) else meta_Labels m;
     apicluster_InheritedLabels := cstatus_InheritedLabels (cluster_Status internalCluster);
     apicluster_Type := KubernetesClusterType;
     apicluster_Credential := "";
     apicluster_Spec := {|
       acs_Cloud := cspec_Cloud spec;
       acs_Version := cspec_Version spec;
       acs_MachineNetworks := cspec_MachineNetworks spec;
       acs_OIDC := cspec_OIDC spec;
       acs_UpdateWindow := cspec_UpdateWindow spec;
       acs_AuditLogging := cspec_AuditLogging spec;
       acs_UsePodSecurityPolicyAdmissionPlugin := cspec_UsePodSecurityPolicyAdmissionPlugin spec;
       acs_UsePodNodeSelectorAdmissionPlugin := cspec_UsePodNodeSelectorAdmissionPlugin spec;
       acs_UseEventRateLimitAdmissionPlugin := cspec_UseEventRateLimitAdmissionPlugin spec;
       acs_EnableUserSSHKeyAgent := cspec_EnableUserSSHKeyAgent spec;
       acs_BackupConfig := cspec_BackupConfig spec;
       acs_KubeLB := cspec_KubeLB spec;
       acs_KubernetesDashboard := cspec_KubernetesDashboard spec;
       acs_AdmissionPlugins := cspec_AdmissionPlugins spec;
       acs_OPAIntegration := cspec_OPAIntegration spec;
       acs_PodNodeSelectorAdmissionPluginConfig := cspec_PodNodeSelectorAdmissionPluginConfig spec;
       acs_EventRateLimitConfig := cspec_EventRateLimitConfig spec;
       acs_ServiceAccount := cspec_ServiceAccount spec;
       acs_MLA := cspec_MLA spec;
       acs_ContainerRuntime := cspec_ContainerRuntime spec;
       acs_ClusterNetwork := Some (cspec_ClusterNetwork spec);
       acs_CNIPlugin := cspec_CNIPlugin spec;
       acs_ExposeStrategy := cspec_ExposeStrategy spec;
       acs_APIServerAllowedIPRanges := cspec_APIServerAllowedIPRanges spec;
       acs_DisableCSIDriver := cspec_DisableCSIDriver spec;
       acs_Kyverno := cspec_Kyverno spec;
       acs_EncryptionConfiguration := cspec_EncryptionConfiguration spec;
       acs_Features := ∅;
       acs_ComponentsOverride := componentsOverride (cspec_OSM spec) |};
     apicluster_Status := {|
       acstat_Version := cstatus_ControlPlaneVersion (cluster_Status internalCluster);
       acstat_URL := cstatus_URL (cluster_Status internalCluster);
       acstat_ExternalCCMMigration := convertInternalCCMStatusToExternal internalCluster datacenter config;
       acstat_Encryption := buildEncryptionStatus internalCluster |};
     apicluster_MachineDeploymentCount := None |}.
End cluster_view.

(** ** The credentials of a cluster *)

(** A cloud without user names, passwords, tokens, keys, accounts and references to secrets. *)
Definition cloud_without_credentials (c : CloudSpec) : CloudSpec := {|
  cs_DatacenterName := cs_DatacenterName c;
  cs_ProviderName := cs_ProviderName c;
  cs_VSphere := (fun v => MkVSphereCloud "" "" (cs_vs_VMNetName v) (cs_vs_Networks v) (cs_vs_Datastore v)
    (cs_vs_DatastoreCluster v) (cs_vs_ResourcePool v) (cs_vs_BasePath v) (cs_vs_StoragePolicy v) "" "" None) <$> cs_VSphere c;
  cs_Baremetal := (fun _ => MkBaremetalCloud None None) <$> cs_Baremetal c;
  cs_Openstack := (fun v => MkOpenstackCloud "" "" (cs_os_Domain v) (cs_os_Project v) (cs_os_ProjectID v) (cs_os_UseToken v)
    "" "" (cs_os_SubnetID v) (cs_os_Network v) (cs_os_RouterID v) (cs_os_FloatingIPPool v) (cs_os_SecurityGroups v) ""
    (cs_os_NodePortsAllowedIPRanges v) None) <$> cs_Openstack c;
  cs_Azure := (fun v => MkAzureCloud "" "" "" "" (cs_az_ResourceGroup v) (cs_az_VNetResourceGroup v) (cs_az_RouteTableName v)
    (cs_az_SecurityGroup v) (cs_az_SubnetName v) (cs_az_VNetName v) (cs_az_LoadBalancerSKU v) (cs_az_AssignAvailabilitySet v)
    (cs_az_NodePortsAllowedIPRanges v) None) <$> cs_Azure c;
  cs_Digitalocean := (fun _ => MkDigitaloceanCloud "" None) <$> cs_Digitalocean c;
  cs_Hetzner := (fun v => MkHetznerCloud "" (cs_hz_Network v) None) <$> cs_Hetzner c;
  cs_AWS := (fun v => MkAWSCloud "" "" "" "" (cs_aws_InstanceProfileName v) (cs_aws_RouteTableID v) (cs_aws_SecurityGroupID v)
    (cs_aws_VPCID v) (cs_aws_ControlPlaneRoleARN v) (cs_aws_NodePortsAllowedIPRanges v) None) <$> cs_AWS c;
  cs_GCP := (fun v => MkGCPCloud "" (cs_gcp_Network v) (cs_gcp_Subnetwork v) (cs_gcp_NodePortsAllowedIPRanges v) None) <$> cs_GCP c;
  cs_Fake := (fun _ => MkFakeCloud "") <$> cs_Fake c;
  cs_Kubevirt := (fun v => MkKubevirtCloud "" (cs_kv_VPCName v) (cs_kv_SubnetName v) (cs_kv_PreAllocatedDataVolumes v) None)
    <$> cs_Kubevirt c;
  cs_Alibaba := (fun _ => MkAlibabaCloud "" "" None) <$> cs_Alibaba c;
  cs_Anexia := (fun _ => MkAnexiaCloud "" None) <$> cs_Anexia c;
  cs_Nutanix := (fun v => MkNutanixCloud "" "" (cs_nx_ProxyURL v) (cs_nx_ClusterName v) (cs_nx_ProjectName v) None None)
    <$> cs_Nutanix c;
  cs_VMwareCloudDirector := (fun v => MkVMwareCloudDirectorCloud "" "" "" "" (cs_vcd_OVDCNetworks v) "" None)
    <$> cs_VMwareCloudDirector c;
  cs_BringYourOwn := cs_BringYourOwn c;
  cs_Edge := cs_Edge c |}.

(** The cluster, without those of its cloud and without its admin token. *)
Definition without_credentials (c : UserCluster) : UserCluster :=
  cluster_with_status (cstatus_with_token "" (cluster_Status c))
    (cluster_with_spec (cspec_with_Cloud (cloud_without_credentials (cspec_Cloud (cluster_Spec c))) (cluster_Spec c)) c).

(** The checks of the SDK for the cloud controller look at the provider, the
    version, the features and the annotations. *)
Class ClusterViewLaws {V : ClusterViewSDK} : Prop := {
  MigrationSupported_credentials dc c config :
    MigrationToExternalCloudControllerSupported dc (without_credentials c) config =
    MigrationToExternalCloudControllerSupported dc c config;
  NeedCCMMigration_credentials c : NeedCCMMigration (without_credentials c) = NeedCCMMigration c }.

Section credentials_hidden.
Context {P : SDK} {V : ClusterViewSDK} {VL : ClusterViewLaws}.

Lemma shown_without_credentials c dc labels config :
  shownCluster (ConvertInternalClusterToExternal (without_credentials c) dc labels config) =
  shownCluster (ConvertInternalClusterToExternal c dc labels config).
Proof.
  unfold shownCluster, ConvertInternalClusterToExternal, convertInternalCCMStatusToExternal.
  rewrite MigrationSupported_credentials, NeedCCMMigration_credentials.
  destruct c as [m [] []]. unfold ClusterSpec_MarshalJSON. cbn. destruct cspec_Cloud. cbn.
  repeat match goal with |- context [_ <$> (_ <$> ?o)] => rewrite <- (option_fmap_compose _ _ o) end.
  done.
Qed.
End credentials_hidden.
