(* ===== verification/Clusters.v ===== *)
(** The endpoints of user clusters: handler/common/cluster.go and
    handler/v2/cluster/cluster.go.  Clusters are objects of a seed; the middleware
    puts the providers of that seed into the context. *)
From S2P Require Export ApiClusters.
From stdpp Require Import pretty.

Definition meta_with_finalizers (l : list string) (m : ObjectMeta) : ObjectMeta :=
  MkMeta (meta_Name m) (meta_Namespace m) (meta_UID m) (meta_ResourceVersion m) (meta_CreationTimestamp m)
    (meta_DeletionTimestamp m) (meta_Labels m) (meta_Annotations m) (meta_OwnerReferences m) l.

(** ** What lies outside *)

(** Names of the SDK, the finalizers of kuberneteshelper, the list of machine
    deployments of a user cluster. *)
Class ClusterHandlerSDK (W : Type) := {
  NodeDeletionFinalizer : string;
  InClusterLBCleanupFinalizer : string;
  InClusterPVCleanupFinalizer : string;
  ClusterFeatureVsphereCSIClusterID : string;
  ClusterFeatureEncryptionAtRest : string;
  SecretTypeOpaque : string;
  HasFinalizer : list string -> string -> bool;
  AddFinalizer : list string -> string -> list string;
  UserClusterClient : Type;
  GetAdminClientForUserCluster : UserCluster -> M W error UserClusterClient;
  GetClientForUserCluster : UserInfo -> UserCluster -> M W error UserClusterClient;
  count_MachineDeployments : UserClusterClient -> M W error Z }.

Section cluster_handlers.
Context {W : Type} {EL : ErrorLib} {P : SDK} {API : KubeAPI W} {D : DatacenterSDK} {R : MapRange} {V : ClusterViewSDK}
        {CS : ClusterSDK W} {H : ClusterHandlerSDK W} {PROJECTS : ProjectProvider W} {PPROJECTS : PrivilegedProjectProvider W}.
Variable userInfoGetter : UserInfoGetter W.
Variable seedsGetter : SeedsGetter W.
Variable configGetter : M W error KubermaticConfiguration.

(** ** provider/conversions.go *)

(** The error of the match is dropped. *)
Definition canAccessDatacenter (dc : Datacenter) (emailAddress : string) : result error bool :=
  match MatchesRequirements emailAddress (dcspec_RequiredEmails (dc_Spec dc)) with
  | Err _ => Ok false
  | other => other
  end.

(** The seeds that have a datacenter of the name. *)
Definition matchingDatacenters (datacenterName : string) (seeds : gmap string Seed) : list (Seed * Datacenter) :=
  omap (fun ns => (fun dc => (ns.2, dc)) <$> seedspec_Datacenters (seed_Spec ns.2) !! datacenterName) (map_range seeds).

Definition DatacenterFromSeedMap (userInfo : UserInfo) (datacenterName : string) : M W error (Seed * Datacenter) :=
  seeds ← listSeedsOr500 seedsGetter;
  match matchingDatacenters datacenterName seeds with
  | [] => throw (utilerrors_New 404 ("datacenter " +:+ quote datacenterName +:+ " not found"))
  | [(matchingSeed, matchingDatacenter)] =>
      allowed ← (if ui_IsAdmin userInfo then mret true else lift (canAccessDatacenter matchingDatacenter (ui_Email userInfo)));
      _ ← throwIf (negb allowed)
            (utilerrors_New 403 ("cannot access " +:+ datacenterName +:+ " datacenter due to email requirements"));
      mret (matchingSeed, matchingDatacenter)
  | found =>
      throw (utilerrors_New 500 ("expected to find exactly one datacenter with name " +:+ quote datacenterName +:+
               ", got " +:+ pretty (length found)))
  end.

(** ** Lists *)

(** handler/v1/common/common.go *)
Definition GetClusterClient (ctx : Ctx) (cluster : UserCluster) (projectID : string) : M W error UserClusterClient :=
  adminUserInfo ← mapErr (EWrap "failed to get user information: ") (userInfoGetter ctx "");
  if ui_IsAdmin adminUserInfo then GetAdminClientForUserCluster cluster else
  userInfo ← mapErr (EWrap "failed to get user information: ") (userInfoGetter ctx projectID);
  GetClientForUserCluster userInfo cluster.

(** The answer is the list; what the code takes from it is its length. *)
Definition listClusterMachineDeployments (ctx : Ctx) (cluster : UserCluster) (projectID : string) : M W error Z :=
  client ← GetClusterClient ctx cluster projectID;
  count_MachineDeployments client.

(** The clusters of the list, without those of a datacenter that the user may not see. *)
Definition convertVisible (adminUserInfo : UserInfo) (config : KubermaticConfiguration) (apiClusters : list ApiCluster)
    (internalCluster : UserCluster) : M W error (list ApiCluster) :=
  got ← attempt (DatacenterFromSeedMap adminUserInfo (cs_DatacenterName (cspec_Cloud (cluster_Spec internalCluster))));
  match got with
  | inl err =>
      if bool_decide (http_status err = 403%Z) then mret apiClusters else throw (KubernetesErrorToHTTPError err)
  | inr (_, dc) => mret (apiClusters ++ [ConvertInternalClusterToExternal internalCluster dc true config])
  end.

Definition apicluster_with_count (n : Z) (c : ApiCluster) : ApiCluster :=
  MkApiCluster (apicluster_meta c) (apicluster_Labels c) (apicluster_InheritedLabels c) (apicluster_Type c)
    (apicluster_Credential c) (apicluster_Spec c) (apicluster_Status c) (Some n).

(** The goroutines, one after the other: the one of position [pos] writes the
    count at the same position of the answer, or its error.  An index out of
    range panics. *)
Fixpoint countDeployments (ctx : Ctx) (projectID : string) (pos : nat) (clusters : list UserCluster)
    (apiClusters : list ApiCluster) : M W error (list ApiCluster * list error) :=
  match clusters with
  | [] => mret (apiClusters, [])
  | cl :: clusters' =>
      got ← attempt (listClusterMachineDeployments ctx cl projectID);
      match got with
      | inl er =>
          rest ← countDeployments ctx projectID (S pos) clusters' apiClusters;
          mret (rest.1, er :: rest.2)
      | inr n =>
          match apiClusters !! pos with
          | None => panic
          | Some c => countDeployments ctx projectID (S pos) clusters' (<[pos := apicluster_with_count n c]> apiClusters)
          end
      end
  end.

(** For the provider of one seed. *)
Definition GetClusters {CLS : ClusterStore W} (ctx : Ctx) (projectID : string) (includeMachineDeploymentCount : bool)
    : M W error (list ApiCluster) :=
  project ← GetProject userInfoGetter ctx projectID None;
  adminUserInfo ← httpErr (userInfoGetter ctx "");
  clusters ← clusters_ListOf project None;
  config ← configGetter;
  apiClusters ← foldM (convertVisible adminUserInfo config) [] clusters;
  if includeMachineDeploymentCount then
    counted ← countDeployments ctx projectID 0 clusters apiClusters;
    match counted.2 with
    | er :: _ => throw er
    | [] => mret counted.1
    end
  else mret apiClusters.

(** handler/v2/cluster/cluster.go: the seeds in the order of the iteration. *)
Variable SeedInvalidPhase : string.
Variable clusterProviderGetter : Seed -> M W error (ClusterStore W).

Record ProjectClusterList := MkProjectClusterList {
  pcl_Clusters : list ApiCluster;
  pcl_ErrorMessage : option string }.

(** One turn of the loop: the clusters and the broken seeds so far. *)
Definition listSeed (ctx : Ctx) (projectID : string) (showDeploymentMachineCount : bool)
    (acc : list ApiCluster * list string) (seed : Seed) : M W error (list ApiCluster * list string) :=
  if bool_decide (seed_Phase seed = SeedInvalidPhase) then mret (acc.1, acc.2 ++ [seed_Name seed]) else
  got ← attempt (clusterProviderGetter seed);
  match got with
  | inl _ => mret acc
  | inr seedClusterProvider =>
      got ← attempt (GetClusters (CLS := seedClusterProvider) ctx projectID showDeploymentMachineCount);
      match got with
      | inl _ => mret (acc.1, acc.2 ++ [seed_Name seed])
      | inr seedClusters => mret (acc.1 ++ seedClusters, acc.2)
      end
  end.

Definition cluster_ListEndpoint (ctx : Ctx) (projectID : string) (showDeploymentMachineCount : bool)
    : M W error ProjectClusterList :=
  seeds ← httpErr seedsGetter;
  acc ← foldM (fun acc ns => listSeed ctx projectID showDeploymentMachineCount acc ns.2) ([], []) (map_range seeds);
  match acc.2 with
  | [] => mret (MkProjectClusterList acc.1 None)
  | brokenSeeds =>
      user ← userInfoGetter ctx "";
      let errMsg :=
        if ui_IsAdmin user
        then "Failed to fetch data for following seeds: " +:+ String.concat ", " brokenSeeds +:+ "."
        else "Failed to fetch data for one or more seeds. Please contact an administrator." in
      mret (MkProjectClusterList acc.1 (Some errMsg))
  end.

(** ** One cluster *)

Context {CLS : ClusterStore W}.

Definition cluster_GetEndpoint (ctx : Ctx) (projectID clusterID : string) : M W error ApiCluster :=
  cluster ← GetCluster (CLUSTERS := clusterReader) userInfoGetter ctx projectID clusterID None;
  adminUserInfo ← httpErr (userInfoGetter ctx "");
  dc ← httpErr (DatacenterFromSeedMap adminUserInfo (cs_DatacenterName (cspec_Cloud (cluster_Spec cluster))));
  config ← configGetter;
  mret (ConvertInternalClusterToExternal cluster dc.2 true config).

(** The types apiv1.ClusterHealth and kubermaticv1.ExtendedClusterHealth have the same fields. *)
Definition HealthEndpoint (ctx : Ctx) (projectID clusterID : string) : M W error ClusterHealth :=
  project ← httpErr (GetProject userInfoGetter ctx projectID None);
  existingCluster ← httpErr (GetInternalCluster (CLUSTERS := clusterReader) userInfoGetter ctx project projectID clusterID
                               (Some {| CheckInitStatus := false |}));
  let health := cstatus_ExtendedHealth (cluster_Status existingCluster) in
  mret {| health_Apiserver := health_Apiserver health;
          health_ApplicationController := health_ApplicationController health;
          health_Scheduler := health_Scheduler health;
          health_Controller := health_Controller health;
          health_MachineController := health_MachineController health;
          health_Etcd := health_Etcd health;
          health_CloudProviderInfrastructure := health_CloudProviderInfrastructure health;
          health_UserClusterControllerManager := health_UserClusterControllerManager health;
          health_GatekeeperController := health_GatekeeperController health;
          health_GatekeeperAudit := health_GatekeeperAudit health;
          health_Monitoring := health_Monitoring health;
          health_Logging := health_Logging health;
          health_AlertmanagerConfig := health_AlertmanagerConfig health;
          health_MLAGateway := health_MLAGateway health;
          health_OperatingSystemManager := health_OperatingSystemManager health;
          health_KubernetesDashboard := health_KubernetesDashboard health;
          health_KubeLB := health_KubeLB health;
          health_Kyverno := health_Kyverno health |}.

(** ** Changes *)

Definition updateCluster (ctx : Ctx) (project : Project) (cluster : UserCluster) : M W error UserCluster :=
  adminUserInfo ← mapErr (EWrap "failed to get user information: ") (userInfoGetter ctx "");
  if ui_IsAdmin adminUserInfo then clusters_UpdateUnsecured project cluster else
  userInfo ← mapErr (EWrap "failed to get user information: ") (userInfoGetter ctx (project_id project));
  clusters_Update project userInfo cluster.

Definition updateAndDeleteClusterForRegularUser (ctx : Ctx) (project : Project) (cluster : UserCluster) : M W error unit :=
  userInfo ← mapErr internalError (userInfoGetter ctx (project_id project));
  cluster ← httpErr (clusters_Update project userInfo cluster);
  httpErr (clusters_Delete userInfo cluster).

Definition updateAndDeleteCluster (ctx : Ctx) (project : Project) (cluster : UserCluster) : M W error unit :=
  adminUserInfo ← mapErr internalError (userInfoGetter ctx "");
  if ui_IsAdmin adminUserInfo then
    cluster ← httpErr (clusters_UpdateUnsecured project cluster);
    httpErr (clusters_DeleteUnsecured cluster)
  else updateAndDeleteClusterForRegularUser ctx project cluster.

Definition createNewCluster (ctx : Ctx) (project : Project) (cluster : UserCluster) : M W error UserCluster :=
  adminUserInfo ← httpErr (userInfoGetter ctx "");
  if ui_IsAdmin adminUserInfo then clusters_NewUnsecured project cluster (ui_Email adminUserInfo) else
  userInfo ← httpErr (userInfoGetter ctx (project_id project));
  clusters_New project userInfo cluster.

Definition with_finalizer (f : string) (c : UserCluster) : UserCluster :=
  let m := cluster_meta c in cluster_with_meta (meta_with_finalizers (AddFinalizer (meta_Finalizers m) f) m) c.

(** The finalizers that let the controllers clean up before the cluster goes. *)
Definition cleanupFinalizers (deleteVolumes deleteLoadBalancers : bool) (existingCluster : UserCluster) : UserCluster :=
  if HasFinalizer (meta_Finalizers (cluster_meta existingCluster)) NodeDeletionFinalizer then
    let existingCluster := if deleteLoadBalancers then with_finalizer InClusterLBCleanupFinalizer existingCluster else existingCluster in
    if deleteVolumes then with_finalizer InClusterPVCleanupFinalizer existingCluster else existingCluster
  else existingCluster.

Definition cluster_DeleteEndpoint (ctx : Ctx) (projectID clusterID : string) (deleteVolumes deleteLoadBalancers : bool)
    : M W error unit :=
  project ← httpErr (GetProject userInfoGetter ctx projectID None);
  existingCluster ← GetInternalCluster (CLUSTERS := clusterReader) userInfoGetter ctx project projectID clusterID (Some {| CheckInitStatus := false |});
  updateAndDeleteCluster ctx project (cleanupFinalizers deleteVolumes deleteLoadBalancers existingCluster).

(** The features that the migration switches on. *)
Definition migratedFeatures (oldCluster : UserCluster) : gmap string bool :=
  let features := <[ClusterFeatureExternalCloudProvider := true]> (cspec_Features (cluster_Spec oldCluster)) in
  if bool_decide (is_Some (cs_VSphere (cspec_Cloud (cluster_Spec oldCluster))))
  then <[ClusterFeatureVsphereCSIClusterID := true]> features else features.

Definition MigrateEndpointToExternalCCM (ctx : Ctx) (projectID clusterID : string) : M W error unit :=
  adminUserInfo ← httpErr (userInfoGetter ctx "");
  oldCluster ← GetCluster (CLUSTERS := clusterReader) userInfoGetter ctx projectID clusterID None;
  config ← configGetter;
  dc ← httpErr (DatacenterFromSeedMap adminUserInfo (cs_DatacenterName (cspec_Cloud (cluster_Spec oldCluster))));
  _ ← throwIf (negb (MigrationToExternalCloudControllerSupported dc.2 oldCluster config))
        (utilerrors_NewBadRequest "external CCM not supported by the given provider");
  _ ← throwIf (default false (cspec_Features (cluster_Spec oldCluster) !! ClusterFeatureExternalCloudProvider))
        (utilerrors_NewBadRequest "external CCM already enabled, cannot be disabled");
  let newCluster := cluster_with_spec (cspec_with_Features (migratedFeatures oldCluster) (cluster_Spec oldCluster)) oldCluster in
  _ ← httpErr (kpatch KCluster Privileged oldCluster newCluster);
  mret tt.

(** The handler reads the provider from the context first. *)
Definition RevokeAdminTokenEndpoint (ctx : Ctx) (projectID clusterID : string) : M W error unit :=
  cluster ← GetCluster (CLUSTERS := clusterReader) userInfoGetter ctx projectID clusterID None;
  httpErr (clusters_RevokeAdminKubeconfig cluster).
Definition RevokeViewerTokenEndpoint (ctx : Ctx) (projectID clusterID : string) : M W error unit :=
  cluster ← GetCluster (CLUSTERS := clusterReader) userInfoGetter ctx projectID clusterID None;
  httpErr (clusters_RevokeViewerKubeconfig cluster).
End cluster_handlers.
