(* ===== verification/ClusterTable.v ===== *)
(** The endpoints of user clusters, proved: what a request reads, whom it lets do
    so and what it changes; the lists of a project; no credential of a cloud is
    shown. *)
From S2P Require Export Clusters DatacenterTable.

(** ** Requests for one cluster *)

Inductive ClusterRequest :=
| ReadOne (projectID clusterID : string)
| ReadHealth (projectID clusterID : string)
| DeleteOne (projectID clusterID : string) (deleteVolumes deleteLoadBalancers : bool)
| MigrateCCM (projectID clusterID : string)
| RevokeAdminToken (projectID clusterID : string)
| RevokeViewerToken (projectID clusterID : string).

Inductive ClusterAnswer :=
| ClusterAnswered (c : ApiCluster)
| HealthAnswered (h : ClusterHealth)
| ClusterDone.

Definition request_ids (req : ClusterRequest) : string * string :=
  match req with
  | ReadOne pid cid | ReadHealth pid cid | DeleteOne pid cid _ _
  | MigrateCCM pid cid | RevokeAdminToken pid cid | RevokeViewerToken pid cid => (pid, cid)
  end.

Section serve_cluster.
Context {W : Type} {EL : ErrorLib} {P : SDK} {API : KubeAPI W} {D : DatacenterSDK} {R : MapRange} {V : ClusterViewSDK}
        {CS : ClusterSDK W} {H : ClusterHandlerSDK W} {PROJECTS : ProjectProvider W} {PPROJECTS : PrivilegedProjectProvider W}
        {CLS : ClusterStore W}.
Variable userInfoGetter : UserInfoGetter W.
Variable seedsGetter : SeedsGetter W.
Variable configGetter : M W error KubermaticConfiguration.

Definition serve_cluster (ctx : Ctx) (req : ClusterRequest) : M W error ClusterAnswer :=
  match req with
  | ReadOne pid cid => c ← cluster_GetEndpoint userInfoGetter seedsGetter configGetter ctx pid cid; mret (ClusterAnswered c)
  | ReadHealth pid cid => h ← HealthEndpoint userInfoGetter ctx pid cid; mret (HealthAnswered h)
  | DeleteOne pid cid vols lbs => _ ← cluster_DeleteEndpoint userInfoGetter ctx pid cid vols lbs; mret ClusterDone
  | MigrateCCM pid cid => _ ← MigrateEndpointToExternalCCM userInfoGetter seedsGetter configGetter ctx pid cid; mret ClusterDone
  | RevokeAdminToken pid cid => _ ← RevokeAdminTokenEndpoint userInfoGetter ctx pid cid; mret ClusterDone
  | RevokeViewerToken pid cid => _ ← RevokeViewerTokenEndpoint userInfoGetter ctx pid cid; mret ClusterDone
  end.
End serve_cluster.

(** The clients of user clusters change nothing in the seed; the finalizers are a set. *)
Class ClusterHandlerLaws (W : Type) {ST : Store W} {H : ClusterHandlerSDK W} : Prop := {
  GetAdminClientForUserCluster_spec c w :
    runs (GetAdminClientForUserCluster c) w (fun r w' => same_store w w' /\ r <> Panic);
  GetClientForUserCluster_spec ui c w :
    runs (GetClientForUserCluster ui c) w (fun r w' => same_store w w' /\ r <> Panic);
  count_MachineDeployments_spec client w :
    runs (count_MachineDeployments client) w (fun r w' => same_store w w' /\ r <> Panic);
  HasFinalizer_spec l f : HasFinalizer l f = true <-> f ∈ l;
  AddFinalizer_spec l f g : g ∈ AddFinalizer l f <-> g ∈ l \/ g = f }.

Section cluster_table.
Context {W : Type} {EL : ErrorLib} {ELL : ErrorLibLaws EL} {P : SDK} {API : KubeAPI W} {ST : Store W} {LAWS : KubeAPILaws W}
        {D : DatacenterSDK} {DL : DatacenterSDKLaws D} {R : MapRange} {RL : MapRangeLaws R} {V : ClusterViewSDK}
        {CS : ClusterSDK W} {H : ClusterHandlerSDK W}
        {PROJECTS : ProjectProvider W} {PPROJECTS : PrivilegedProjectProvider W}
        {MAPPER : ProjectMemberMapper W} {MAPL : ProjectMemberMapperLaws W}
        {PRL : ProjectProviderLaws W} {PPL : PrivilegedProjectProviderLaws W}.
Implicit Types w : W.
Variable namespace : string.
Variable seedsGetter : SeedsGetter W.
Context {SGL : SeedsGetterLaws W namespace seedsGetter}.

(** The configuration of the installation is [config]. *)
Variable config : KubermaticConfiguration.
Variable configGetter : M W error KubermaticConfiguration.
Hypothesis configGetter_spec : forall w, runs configGetter w (fun r w' => same_store w w' /\
  match r with Ok c => c = config | Err _ => True | Panic => False end).

(** ** The datacenter of a cluster *)

(** [d] is the one datacenter of the name in all the seeds. *)
Definition the_datacenter w (name : string) (d : Datacenter) : Prop :=
  exists n s, seeds_of namespace w !! n = Some s /\ seedspec_Datacenters (seed_Spec s) !! name = Some d /\
    forall n' s' d', seeds_of namespace w !! n' = Some s' -> seedspec_Datacenters (seed_Spec s') !! name = Some d' ->
      n' = n.

(** The user administrates, or has a mail address that the datacenter requires. *)
Definition sees_datacenter (user : User) (d : Datacenter) : Prop :=
  user_IsAdmin user = true \/ MatchesRequirements (user_Email user) (dcspec_RequiredEmails (dc_Spec d)) = Ok true.

#[export] Instance the_datacenter_proper : Proper (same_store ==> eq ==> eq ==> iff) the_datacenter.
Proof. intros w w' Hw n ? <- d ? <-. unfold the_datacenter. by setoid_rewrite Hw. Qed.

Lemma elem_of_matchingDatacenters w name s d :
  (s, d) ∈ matchingDatacenters name (seeds_of namespace w) <->
  exists n, seeds_of namespace w !! n = Some s /\ seedspec_Datacenters (seed_Spec s) !! name = Some d.
Proof.
  unfold matchingDatacenters. rewrite list_elem_of_omap. split.
  - intros ([n s'] & Hn & Hd). apply elem_of_map_range in Hn. cbn in Hd.
    destruct (seedspec_Datacenters _ !! name) as [d'|] eqn:E; [|done]. injection Hd as <- <-. eauto.
  - intros (n & Hn & Hd). exists (n, s). split; [by apply elem_of_map_range|]. cbn. by rewrite Hd.
Qed.

Lemma matchingDatacenters_one w name s d :
  matchingDatacenters name (seeds_of namespace w) = [(s, d)] -> the_datacenter w name d.
Proof.
  intros E. pose proof (elem_of_matchingDatacenters w name) as Hin. rewrite E in Hin.
  destruct (proj1 (Hin s d)) as (n & Hs & Hd); [set_solver|]. exists n, s. split_and!; [done|done|].
  intros n' s' d' Hs' Hd'. assert ((s', d') ∈ [(s, d)]) as [= -> ->]%list_elem_of_singleton by (apply Hin; eauto).
  by rewrite <- (proj1 (seeds_of_key namespace w _ _ Hs)), <- (proj1 (seeds_of_key namespace w _ _ Hs')).
Qed.

Lemma http_status_New c m : http_status (utilerrors_New c m) = c.
Proof. by destruct (utilerrors_New_http c m) as (h & -> & <- & _). Qed.

Lemma DatacenterFromSeedMap_spec user ui name w :
  same_user ui user ->
  runs (DatacenterFromSeedMap seedsGetter ui name) w (fun r w' => same_store w w' /\
    match r with
    | Ok sd => the_datacenter w name sd.2 /\ sees_datacenter user sd.2
    | Err e => http_status e = 403%Z -> exists d, the_datacenter w name d /\ ~ sees_datacenter user d
    | Panic => False
    end).
Proof.
  intros [He Ha]. unfold DatacenterFromSeedMap, listSeedsOr500. runs_step. plain_call seedsGetter_spec.
  intros r w1 [Hs Hm]. destruct r as [m|e|]; cbn [andThen]; [subst m|split; [done|by rewrite http_status_New]|done].
  destruct (matchingDatacenters _ _) as [|[s d] [|]] eqn:E;
    [runs_step; split; [done|by rewrite http_status_New]| |runs_step; split; [done|by rewrite http_status_New]].
  apply matchingDatacenters_one in E. unfold canAccessDatacenter, sees_datacenter. rewrite He, Ha.
  pose proof (MatchesRequirements_panic (user_Email user) (dcspec_RequiredEmails (dc_Spec d))) as Hp.
  runs_step. destruct (user_IsAdmin user) eqn:Eadm.
  { runs_step. cbn [andThen]. runs_guard; [done|]. runs_step. split; [done|]. split; [done|by left]. }
  runs_step. destruct (MatchesRequirements _ _) as [[]|e|] eqn:M; cbn [andThen]; [| | |done]; runs_guard; try done.
  - runs_step. split; [done|]. split; [done|by right].
  - split; [done|]. intros _. exists d. split; [done|]. intros [|H1]; congruence.
  - split; [done|]. intros _. exists d. split; [done|]. intros [|H1]; congruence.
Qed.

Lemma project_reached ctx pid options w :
  runs (GetProject UserInfoGetterFactory ctx pid options) w (fun r w' => same_store w w' /\
    match r with
    | Ok p => exists user, ctx_UserCR ctx = Some user /\ project_at w pid p /\ permitted w user pid VGet KProject ("", pid)
    | Err _ => True
    | Panic => False
    end).
Proof.
  eapply runs_mono; [apply GetProject_spec|]. cbn beta. intros [p|e|] w' [Hs Hp]; [|done|done].
  destruct Hp as (user & Hc & Hv & _ & Hperm). split; [done|]. exists user. split_and!; [done| |exact Hperm].
  split; [done|]. pose proof (view_key KProject _ _ _ Hv) as Hk. by injection Hk.
Qed.


(** ** The clusters of a project *)

Context {HL : ClusterHandlerLaws W}.
Variable SeedInvalidPhase : string.
Variable clusterProviderGetter : Seed -> M W error (ClusterStore W).

(** The cluster is stored in the seed; the provider of the seed lists such clusters. *)
Variable held : W -> Seed -> UserCluster -> Prop.
Context {held_proper : Proper (same_store ==> eq ==> eq ==> iff) held}.
Definition lists_held seed (provider : ClusterStore W) : Prop := forall project options w,
  runs (clusters_ListOf project options) w (fun r w' => same_store w w' /\
    match r with
    | Ok l => forall c, c ∈ l -> held w seed c /\ cluster_Labels c !! ProjectIDLabelKey = Some (project_id project)
    | Err _ => True
    | Panic => False
    end).
Hypothesis clusterProviderGetter_spec : forall seed w, runs (clusterProviderGetter seed) w (fun r w' => same_store w w' /\
  match r with Ok provider => lists_held seed provider | Err _ => True | Panic => False end).

(** A cluster of the project in the seed. *)
Definition cluster_in w seed pid (c : UserCluster) : Prop :=
  held w seed c /\ cluster_Labels c !! ProjectIDLabelKey = Some pid.
(** [a] shows [c] to the user, with the number of its machine deployments or without. *)
Definition shown_to w user (c : UserCluster) (a : ApiCluster) : Prop :=
  exists d, the_datacenter w (cs_DatacenterName (cspec_Cloud (cluster_Spec c))) d /\ sees_datacenter user d /\
    let api := ConvertInternalClusterToExternal c d true config in
    a = api \/ exists n, a = apicluster_with_count n api.
(** The cluster has a datacenter that is hidden from the user. *)
Definition hidden_from w user (c : UserCluster) : Prop :=
  exists d, the_datacenter w (cs_DatacenterName (cspec_Cloud (cluster_Spec c))) d /\ ~ sees_datacenter user d.

#[local] Instance cluster_in_proper : Proper (same_store ==> eq ==> eq ==> eq ==> iff) cluster_in.
Proof. intros w w' Hw s ? <- p ? <- c ? <-. unfold cluster_in. by rewrite Hw. Qed.
#[local] Instance shown_to_proper : Proper (same_store ==> eq ==> eq ==> eq ==> iff) shown_to.
Proof. intros w w' Hw u ? <- c ? <- a ? <-. unfold shown_to. by setoid_rewrite Hw. Qed.
#[local] Instance hidden_from_proper : Proper (same_store ==> eq ==> eq ==> iff) hidden_from.
Proof. intros w w' Hw u ? <- c ? <-. unfold hidden_from. by setoid_rewrite Hw. Qed.

Definition all_shown w user seed pid (l : list ApiCluster) : Prop :=
  forall a, a ∈ l -> exists c, cluster_in w seed pid c /\ shown_to w user c a.

Lemma all_shown_app w user seed pid l a c :
  all_shown w user seed pid l -> cluster_in w seed pid c -> shown_to w user c a -> all_shown w user seed pid (l ++ [a]).
Proof. intros Hl Hc Ha a' [Ha'| ->%list_elem_of_singleton]%elem_of_app; [by apply Hl|by exists c]. Qed.

Lemma all_shown_count w user seed pid l pos n a :
  all_shown w user seed pid l -> l !! pos = Some a -> all_shown w user seed pid (<[pos := apicluster_with_count n a]> l).
Proof.
  intros Hl Ha a' Hin. apply list_elem_of_lookup in Hin as [i Hi].
  destruct (decide (i = pos)) as [->|Hne].
  - rewrite list_lookup_insert_eq in Hi by (by eapply lookup_lt_Some). injection Hi as <-.
    destruct (Hl a) as (c & Hc & d & Hd & Hsees & Hapi); [by eapply list_elem_of_lookup_2|].
    exists c. split; [done|]. exists d. split; [done|]. split; [done|]. right. exists n.
    by destruct Hapi as [->|[m ->]].
  - rewrite list_lookup_insert_ne in Hi by done. apply Hl. by eapply list_elem_of_lookup_2.
Qed.

(** Without a count, no cluster is read; with one, the answer is as long as the
    list unless a cluster was left out. *)
Lemma convertVisible_fold w user ui seed pid clusters w0 :
  same_user ui user -> (forall c, c ∈ clusters -> cluster_in w seed pid c) -> same_store w w0 ->
  runs (foldM (convertVisible seedsGetter ui config) [] clusters) w0 (fun r w' => same_store w w' /\
    match r with
    | Ok l => all_shown w user seed pid l /\
        (length l = length clusters \/ exists c, c ∈ clusters /\ hidden_from w user c)
    | Err _ => True
    | Panic => False
    end).
Proof.
  intros Hu Hin Hs.
  apply (runs_foldM _ (fun seen l w' => same_store w w' /\ all_shown w user seed pid l /\
    (length l = length seen \/ exists c, c ∈ clusters /\ hidden_from w user c))).
  - split; [done|]. split; [intros a Ha; by apply elem_of_nil in Ha|by left].
  - intros seen c rest l w1 E (Hs1 & Hl & Hlen). assert (c ∈ clusters) as Hc by (rewrite E; set_solver).
    unfold convertVisible. runs_step. plain_call DatacenterFromSeedMap_spec; [done|].
    intros r w2 [Hs2 Hd]. assert (same_store w w2) as Hw by (by etrans).
    destruct r as [[s d]|e|]; cbn [andThen]; [| |done].
    + runs_step. destruct Hd as [Hd Hsees]. rewrite <- Hs1 in Hd. split; [done|]. split.
      * eapply all_shown_app; [done|by apply Hin|]. exists d. split; [done|]. split; [done|by left].
      * rewrite !length_app. destruct Hlen as [->|]; [by left|by right].
    + case_bool_decide as E403; runs_step; [|done]. split; [done|]. split; [done|]. right. exists c. split; [done|].
      setoid_rewrite <- Hs1 in Hd. by apply Hd.
  - done.
Qed.

Lemma listClusterMachineDeployments_spec ctx c pid w :
  runs (listClusterMachineDeployments UserInfoGetterFactory ctx c pid) w (fun r w' => same_store w w' /\ r <> Panic).
Proof.
  unfold listClusterMachineDeployments, GetClusterClient.
  assert (forall client w1, same_store w w1 ->
    runs (count_MachineDeployments client) w1 (fun r w' => same_store w w' /\ r <> Panic)) as Hcount.
  { intros client w1 Hs. eapply runs_mono; [apply count_MachineDeployments_spec|]. cbn beta. intros r w2 []. split; [by etrans|done]. }
  runs_step. apply (admin_or_user ctx pid).
  - apply mapErr_gets, UserInfoGetterFactory_gets.
  - apply mapErr_gets, UserInfoGetterFactory_gets.
  - by intros e w1 Hs.
  - intros user w1 _ _ Hs. eapply runs_mono; [apply GetAdminClientForUserCluster_spec|]. cbn beta.
    intros [client|e|] w2 [Hs2 Hp]; cbn [andThen]; [apply Hcount; by etrans|split; [by etrans|done]|done].
  - intros user ui w1 _ _ Hs. eapply runs_mono; [apply GetClientForUserCluster_spec|]. cbn beta.
    intros [client|e|] w2 [Hs2 Hp]; cbn [andThen]; [apply Hcount; by etrans|split; [by etrans|done]|done].
Qed.

(** Only a position past the end of the answer panics. *)
Lemma countDeployments_spec w user seed ctx pid clusters pos l w0 :
  same_store w w0 -> all_shown w user seed pid l ->
  runs (countDeployments UserInfoGetterFactory ctx pid pos clusters l) w0 (fun r w' => same_store w w' /\
    match r with
    | Ok counted => all_shown w user seed pid counted.1
    | Err _ => True
    | Panic => length l < pos + length clusters
    end).
Proof.
  revert pos l w0. induction clusters as [|c clusters IH]; intros pos l w0 Hs Hl; cbn [countDeployments]; [by runs_step|].
  runs_step. plain_call listClusterMachineDeployments_spec. intros r w1 [Hs1 Hp].
  assert (same_store w w1) as Hw by (by etrans). destruct r as [n|e|]; cbn [andThen]; [| |done].
  - destruct (l !! pos) as [a|] eqn:E.
    + eapply runs_mono; [apply (IH (S pos) _ w1 Hw); by apply all_shown_count|]. cbn beta.
      intros [counted|e|] w2 [Hs2 H2]; (split; [done|]); [done|done|]. rewrite length_insert in H2. cbn. lia.
    + runs_step. split; [done|]. apply lookup_ge_None in E. cbn. lia.
  - runs_step. eapply runs_mono; [by apply (IH (S pos) l w1)|]. cbn beta.
    intros [counted|e'|] w2 [Hs2 H2]; cbn [andThen]; [by runs_step|done|]. split; [done|]. cbn. lia.
Qed.

(** The clusters of a project in one seed. *)
Lemma GetClusters_spec seed provider ctx pid counts w :
  lists_held seed provider ->
  runs (GetClusters (CLS := provider) UserInfoGetterFactory seedsGetter configGetter ctx pid counts) w (fun r w' =>
    same_store w w' /\
    match r with
    | Ok l => exists user, ctx_UserCR ctx = Some user /\ permitted w user pid VGet KProject ("", pid) /\
        all_shown w user seed pid l
    | Err _ => True
    | Panic => counts = true /\ exists user c, ctx_UserCR ctx = Some user /\ cluster_in w seed pid c /\ hidden_from w user c
    end).
Proof.
  intros Hprov. unfold GetClusters. plain_call project_reached. intros r w1 [Hs1 Hp].
  destruct r as [project|e|]; cbn [andThen]; [|done|done]. destruct Hp as (user & Hc & [_ Hid] & Hperm).
  plain_call requester_spec. intros r w2 [Hs2 Hu]. assert (same_store w w2) as Hw2 by (by etrans).
  destruct r as [ui|e|]; cbn [andThen]; [|done|done]. destruct Hu as (user' & Hc' & Hsame).
  rewrite Hc in Hc'. injection Hc' as <-. plain_call Hprov. intros r w3 [Hs3 Hl].
  assert (same_store w w3) as Hw3 by (by etrans). destruct r as [clusters|e|]; cbn [andThen]; [|done|done].
  assert (forall c, c ∈ clusters -> cluster_in w seed pid c) as Hin.
  { intros c Hc1. destruct (Hl c Hc1) as [H1 H2]. split; [by rewrite Hw2|by rewrite <- Hid]. }
  plain_call configGetter_spec. intros r w4 [Hs4 Hcfg]. assert (same_store w w4) as Hw4 by (by etrans).
  destruct r as [cfg|e|]; cbn [andThen]; [subst cfg|done|done].
  plain_call (convertVisible_fold w user ui seed pid); [done|done|done|]. intros r w5 [Hs5 Hf].
  destruct r as [l|e|]; cbn [andThen]; [|done|done]. destruct Hf as [Hshown Hlen].
  destruct counts; [|runs_step; split; [done|by exists user]].
  plain_call (countDeployments_spec w user seed); [done|done|]. intros r w6 [Hs6 Hcount].
  destruct r as [[l' [|er errs]]|e|]; cbn [andThen fst snd]; [runs_step; split; [done|by exists user]|by runs_step|done|].
  split; [done|]. split; [done|]. destruct Hlen as [Hlen|(c & Hc1 & Hh)]; [cbn in Hcount; lia|].
  exists user, c. by split_and!; [|apply Hin|].
Qed.

(** The list shows clusters of the project, each stored in a seed that is not
    invalid and in a datacenter that the user sees, to a user who may read the
    project. *)
Definition list_shows ctx pid w (l : list ApiCluster) : Prop :=
  forall a, a ∈ l -> exists user n seed c, ctx_UserCR ctx = Some user /\ permitted w user pid VGet KProject ("", pid) /\
    seeds_of namespace w !! n = Some seed /\ seed_Phase seed <> SeedInvalidPhase /\
    cluster_in w seed pid c /\ shown_to w user c a.

Definition someSeedFailed : string :=
  "Failed to fetch data for one or more seeds. Please contact an administrator.".

(** One that reports no failure met no invalid seed; who does not administrate
    learns no name of a seed. *)
Definition list_reports ctx w (msg : option string) : Prop :=
  match msg with
  | None => forall n seed, seeds_of namespace w !! n = Some seed -> seed_Phase seed <> SeedInvalidPhase
  | Some msg => exists user, ctx_UserCR ctx = Some user /\ (user_IsAdmin user = false -> msg = someSeedFailed)
  end.

Lemma listSeed_spec ctx pid counts w w0 acc n seed :
  same_store w w0 -> seeds_of namespace w !! n = Some seed -> list_shows ctx pid w acc.1 ->
  runs (listSeed UserInfoGetterFactory seedsGetter configGetter SeedInvalidPhase clusterProviderGetter ctx pid counts acc seed) w0
    (fun r w' => same_store w w' /\
    match r with
    | Ok acc' => list_shows ctx pid w acc'.1 /\
        (acc.2 <> [] \/ seed_Phase seed = SeedInvalidPhase -> acc'.2 <> [])
    | Err _ => False
    | Panic => counts = true /\ exists user c, ctx_UserCR ctx = Some user /\ cluster_in w seed pid c /\ hidden_from w user c
    end).
Proof.
  intros Hs Hseed Hacc. unfold listSeed. case_bool_decide as Hph.
  { runs_step. split; [done|]. split; [done|]. intros _ []%app_eq_nil. done. }
  runs_step. plain_call clusterProviderGetter_spec. intros r w1 [Hs1 Hp]. assert (same_store w w1) as Hw1 by (by etrans).
  destruct r as [provider|e|]; cbn [andThen]; [|runs_step; split; [done|]; split; [done|naive_solver]|done].
  runs_step. plain_call (GetClusters_spec seed); [done|]. intros r w2 [Hs2 Hg]. assert (same_store w w2) as Hw2 by (by etrans).
  destruct r as [l|e|]; cbn [andThen].
  - runs_step. split; [done|]. split; [|naive_solver]. destruct Hg as (user & Hc & Hperm & Hl).
    intros a [Ha|Ha]%elem_of_app; [by apply Hacc|]. rewrite <- Hw1 in Hperm.
    destruct (Hl a Ha) as (c & Hin & Hsh). rewrite <- Hw1 in Hin, Hsh. by exists user, n, seed, c.
  - runs_step. split; [done|]. split; [done|]. intros _ []%app_eq_nil. done.
  - split; [done|]. destruct Hg as (Hcounts & user & c & Hc & Hin & Hh). split; [done|].
    rewrite <- Hw1 in Hin, Hh. by exists user, c.
Qed.

(** C34: the list of the clusters of a project over all seeds: a cluster is
    shown only if a seed that is not invalid holds it for the project, to a user
    who may read the project and may see the datacenter of the cluster, as the
    API shows it.  A list without an error message has asked every seed, as far
    as they are not invalid; the message names seeds to administrators only.
    Nothing is written, and the endpoint does not panic, unless the machine
    deployments are counted and a cluster has a datacenter hidden from the user:
    the counts are then written at the wrong position, past the end at last. *)
Theorem project_clusters_listed ctx pid counts w :
  runs (cluster_ListEndpoint UserInfoGetterFactory seedsGetter configGetter SeedInvalidPhase clusterProviderGetter ctx pid counts) w
    (fun r w' => same_store w w' /\
    match r with
    | Ok l => list_shows ctx pid w (pcl_Clusters l) /\ list_reports ctx w (pcl_ErrorMessage l)
    | Err _ => True
    | Panic => counts = true /\ exists user n seed c, ctx_UserCR ctx = Some user /\
        seeds_of namespace w !! n = Some seed /\ cluster_in w seed pid c /\ hidden_from w user c
    end).
Proof.
  unfold cluster_ListEndpoint. http_call seedsGetter_spec. intros r w1 [Hs1 Hm].
  destruct r as [m|e|]; cbn [andThen]; [subst m|done|done]. runs_step.
  apply (runs_foldM _ (fun seen acc w' => same_store w w' /\ list_shows ctx pid w acc.1 /\
    ((exists ns, ns ∈ seen /\ seed_Phase ns.2 = SeedInvalidPhase) -> acc.2 <> []))).
  - split; [done|]. split; [intros a Ha; by apply elem_of_nil in Ha|]. intros (ns & Hns & _). by apply elem_of_nil in Hns.
  - intros seen [n seed] rest acc w2 E (Hs2 & Hacc & Hbroken).
    assert (seeds_of namespace w !! n = Some seed) as Hseed by (apply elem_of_map_range; rewrite E; set_solver).
    eapply runs_mono; [by eapply listSeed_spec|]. cbn beta. cbn [snd]. intros [acc'|e|] w3 [Hs3 Hr]; [|done|].
    + split; [done|]. destruct Hr as [Hacc' Hb]. split; [done|]. intros (ns & [Hns| ->%list_elem_of_singleton]%elem_of_app & Hph).
      * apply Hb. left. apply Hbroken. by exists ns.
      * apply Hb. by right.
    + split; [done|]. destruct Hr as (Hcounts & user & c & Hc & Hin & Hh). split; [done|]. by exists user, n, seed, c.
  - intros acc w2 (Hs2 & Hacc & Hbroken). cbn [andThen]. destruct (acc.2) as [|broken rest] eqn:E.
    + runs_step. split; [done|]. split; [done|]. intros n seed Hseed Hph. apply Hbroken; [|done].
      exists (n, seed). split; [by apply elem_of_map_range|done].
    + plain_call UserInfoGetterFactory_gets. intros r w3 [Hs3 Hu]. assert (same_store w w3) as Hw3 by (by etrans).
      destruct r as [ui|e|]; cbn [andThen]; [|done|done]. runs_step. split; [done|]. split; [done|].
      destruct Hu as (user & Hc & (_ & Hadm & _)). exists user. split; [done|]. intros Hna. cbn. by rewrite Hadm, Hna.
Qed.

(** ** The cluster of a request *)

Context {CLS : ClusterStore W} {CLL : ClusterStoreLaws W}.

(** The user may read the cluster [c], stored under the name [cid], through the
    project [pid]; for an administrator, who reads with all rights, the cluster
    must belong to it. *)
Definition reaches w (user : User) (pid cid : string) (project : Project) (c : UserCluster) : Prop :=
  project_at w pid project /\ permitted w user pid VGet KProject ("", pid) /\
  view KCluster w !! ("", cid) = Some c /\ permitted w user pid VGet KCluster ("", cid) /\
  (user_IsAdmin user = true -> in_project project c).

#[export] Instance reaches_proper : Proper (same_store ==> eq ==> eq ==> eq ==> eq ==> eq ==> iff) reaches.
Proof. intros w w' Hw u ? <- p ? <- i ? <- pr ? <- c ? <-. unfold reaches. by rewrite Hw. Qed.

Lemma GetInternalCluster_reaches ctx project pid cid options w :
  runs (GetInternalCluster (CLUSTERS := clusterReader) UserInfoGetterFactory ctx project pid cid options) w (fun r w' =>
    same_store w w' /\
    match r with
    | Ok c => exists user, ctx_UserCR ctx = Some user /\ view KCluster w !! ("", cid) = Some c /\
        permitted w user pid VGet KCluster ("", cid) /\ (user_IsAdmin user = true -> in_project project c)
    | Err _ => True
    | Panic => False
    end).
Proof.
  unfold GetInternalCluster, getClusterForRegularUser. plain_call requester_spec.
  intros r w1 [Hs Hu]. destruct r as [ui|e|]; cbn [andThen]; [|done|done]. destruct Hu as (user & Hc & _ & Ha).
  rewrite Ha. destruct (user_IsAdmin user) eqn:Eadm.
  - eapply httpErr_spec; [apply clusters_GetOf_spec|]. cbn beta. intros [c|e|] w2 [Hs2 Hg]; (split; [by etrans|]); [|done|done].
    exists user. destruct Hg as [Hp Hv]. rewrite Hs. split_and!; [done|done|by left|done].
  - http_call UserInfoGetterFactory_gets. intros r w2 [Hs2 Hi].
    assert (same_store w w2) as Hw by (by etrans). destruct r as [ui2|e2|]; cbn [andThen]; [|done|done].
    destruct Hi as (user' & Hc' & Hi). rewrite Hc in Hc'. injection Hc' as <-. rewrite <- Hs in Hi.
    runs_step. plain_call clusters_GetAs_spec. intros r w3 [Hs3 Hg].
    assert (same_store w w3) as Hw3 by (by etrans). destruct r as [c|e|]; cbn [andThen]; [| |done].
    + runs_step. split; [done|]. exists user. rewrite Hw. destruct Hg as [Hauth Hv]. split_and!; [done|done| |by rewrite Eadm].
      right. exists ui2. split; [by rewrite <- Hw|done].
    + destruct (negb _); [by runs_step|]. http_call clusters_GetOf_spec. intros r w4 [Hs4 Hg'].
      assert (same_store w w4) as Hw4 by (by etrans). destruct r; cbn [andThen]; [by runs_step|done|done].
Qed.

Lemma GetCluster_reaches ctx pid cid options w :
  runs (GetCluster (CLUSTERS := clusterReader) UserInfoGetterFactory ctx pid cid options) w (fun r w' => same_store w w' /\
    match r with
    | Ok c => exists user project, ctx_UserCR ctx = Some user /\ reaches w user pid cid project c
    | Err _ => True
    | Panic => False
    end).
Proof.
  unfold GetCluster. http_call project_reached. intros r w1 [Hs Hp]. destruct r as [project|e|]; cbn [andThen]; [|done|done].
  destruct Hp as (user & Hc & Hat & Hperm). eapply runs_mono; [apply GetInternalCluster_reaches|]. cbn beta.
  intros r w2 [Hs2 Hg]. split; [by etrans|]. destruct r as [c|e|]; [|done|done].
  destruct Hg as (user' & Hc' & Hg). rewrite Hc in Hc'. injection Hc' as <-.
  exists user, project. split; [done|]. rewrite <- Hs in Hg. exact (conj Hat (conj Hperm Hg)).
Qed.

(** ** What a request does *)

(** [c'] is [c] with the finalizers of the requested cleanup, if it has ever had nodes. *)
Definition with_cleanup (deleteVolumes deleteLoadBalancers : bool) (c c' : UserCluster) : Prop :=
  let old := meta_Finalizers (cluster_meta c) in
  c' = cluster_with_meta (meta_with_finalizers (meta_Finalizers (cluster_meta c')) (cluster_meta c)) c /\
  forall f, f ∈ meta_Finalizers (cluster_meta c') <->
    f ∈ old \/ (NodeDeletionFinalizer ∈ old /\
      ((deleteLoadBalancers = true /\ f = InClusterLBCleanupFinalizer) \/
       (deleteVolumes = true /\ f = InClusterPVCleanupFinalizer))).

(** The cluster [c] has been marked for the cleanup, within the rights of the user. *)
Definition marked w w1 (user : User) pid cid project (deleteVolumes deleteLoadBalancers : bool) (c : UserCluster) : Prop :=
  permitted w user pid VUpdate KCluster ("", cid) /\
  exists c' c1, with_cleanup deleteVolumes deleteLoadBalancers c c' /\ cluster_updated project w w1 c' c1.

(** The features with those of the external cloud controller switched on. *)
Definition ccm_features (c : UserCluster) (features : gmap string bool) : Prop := forall f,
  features !! f =
    if bool_decide (f = ClusterFeatureExternalCloudProvider) ||
       (bool_decide (f = ClusterFeatureVsphereCSIClusterID) && bool_decide (is_Some (cs_VSphere (cspec_Cloud (cluster_Spec c)))))
    then Some true else cspec_Features (cluster_Spec c) !! f.

(** A request of [user], whom the cluster [c] of the project reaches, succeeds. *)
Definition request_done w (req : ClusterRequest) (user : User) project (c : UserCluster) (a : ClusterAnswer) w' : Prop :=
  match req with
  | ReadOne _ _ => same_store w w' /\ exists d,
      the_datacenter w (cs_DatacenterName (cspec_Cloud (cluster_Spec c))) d /\ sees_datacenter user d /\
      a = ClusterAnswered (ConvertInternalClusterToExternal c d true config)
  | ReadHealth _ _ => same_store w w' /\ a = HealthAnswered (cstatus_ExtendedHealth (cluster_Status c))
  | DeleteOne pid cid vols lbs => a = ClusterDone /\ exists w1, marked w w1 user pid cid project vols lbs c /\
      (user_IsAdmin user = true \/
       exists ui, getter_info w user pid ui /\ authorized w1 (as_user ui) VDelete KCluster ("", cid)) /\
      deleted KCluster w1 w' ("", cid)
  | MigrateCCM _ _ => a = ClusterDone /\ exists d c' features,
      the_datacenter w (cs_DatacenterName (cspec_Cloud (cluster_Spec c))) d /\ sees_datacenter user d /\
      MigrationToExternalCloudControllerSupported d c config = true /\
      default false (cspec_Features (cluster_Spec c) !! ClusterFeatureExternalCloudProvider) = false /\
      ccm_features c features /\ updated KCluster w w' c' /\
      strip KCluster c' = strip KCluster (cluster_with_spec (cspec_with_Features features (cluster_Spec c)) c)
  | RevokeAdminToken _ _ => a = ClusterDone /\ exists token c', updated KCluster w w' c' /\
      cluster_Status c' = cstatus_with_token token (cluster_Status c) /\ strip KCluster c' = strip KCluster c
  | RevokeViewerToken _ _ => a = ClusterDone /\
      deleted KSecret w w' (cstatus_NamespaceName (cluster_Status c), ViewerTokenSecretName)
  end.

(** The outcome of a request: one that fails changes nothing, unless it is a
    deletion that got as far as the finalizers. *)
Definition request_outcome ctx (req : ClusterRequest) w (r : result error ClusterAnswer) w' : Prop :=
  match r with
  | Ok a => exists user project c, ctx_UserCR ctx = Some user /\
      reaches w user (request_ids req).1 (request_ids req).2 project c /\ request_done w req user project c a w'
  | Err _ => same_store w w' \/
      exists pid cid vols lbs user project c, req = DeleteOne pid cid vols lbs /\ ctx_UserCR ctx = Some user /\
        reaches w user pid cid project c /\ marked w w' user pid cid project vols lbs c
  | Panic => False
  end.

#[local] Abbreviation serve := (serve_cluster UserInfoGetterFactory seedsGetter configGetter).

(** The endpoints that start with [GetCluster]. *)
Lemma with_cluster {A} ctx req options (k : UserCluster -> M W error A) (f : A -> ClusterAnswer) w :
  (forall user project c w1, same_store w w1 -> ctx_UserCR ctx = Some user ->
     reaches w user (request_ids req).1 (request_ids req).2 project c ->
     runs (k c) w1 (fun r w' => match r with
       | Ok a => request_done w req user project c (f a) w'
       | Err _ => same_store w w'
       | Panic => False
       end)) ->
  runs (a ← (c ← GetCluster (CLUSTERS := clusterReader) UserInfoGetterFactory ctx (request_ids req).1 (request_ids req).2 options; k c);
        mret (f a)) w (request_outcome ctx req w).
Proof.
  intros Hk. runs_step. plain_call GetCluster_reaches. intros r w1 [Hs Hg].
  destruct r as [c|e|]; cbn [andThen]; [|by left|done]. destruct Hg as (user & project & Hc & Hg).
  eapply runs_mono; [by eapply Hk|]. cbn beta. intros [a|e|] w2 Hdone; cbn [andThen]; [|by left|done].
  runs_step. by exists user, project, c.
Qed.

Lemma RevokeTokens_done ctx pid cid w :
  runs (serve ctx (RevokeAdminToken pid cid)) w (request_outcome ctx (RevokeAdminToken pid cid) w) /\
  runs (serve ctx (RevokeViewerToken pid cid)) w (request_outcome ctx (RevokeViewerToken pid cid) w).
Proof.
  split; cbn [serve_cluster]; [apply (with_cluster ctx (RevokeAdminToken pid cid))|apply (with_cluster ctx (RevokeViewerToken pid cid))];
    intros user project c w1 Hs Hc Hr.
  - eapply httpErr_spec; [apply clusters_RevokeAdminKubeconfig_spec|]. intros [[]|e|] w2 Hd; [|by etrans|done].
    destruct Hd as (token & c' & Hstat & Hk & Hup & Hst). split; [done|]. exists token, c'. rewrite Hs. split_and!; [done|done|].
    apply Hst. rewrite <- Hs. destruct Hr as (_ & _ & Hv & _). by rewrite (view_key KCluster w _ _ Hv).
  - eapply httpErr_spec; [apply clusters_RevokeViewerKubeconfig_spec|]. intros [[]|e|] w2 Hd; [|by etrans|done].
    split; [done|]. by rewrite Hs.
Qed.

Lemma ReadOne_done ctx pid cid w : runs (serve ctx (ReadOne pid cid)) w (request_outcome ctx (ReadOne pid cid) w).
Proof.
  apply (with_cluster ctx (ReadOne pid cid)). intros user project c w1 Hs Hc _.
  plain_call requester_spec. intros r w2 [Hs2 Hu]. assert (same_store w w2) as Hw2 by (by etrans).
  destruct r as [ui|e|]; cbn [andThen]; [|done|done]. destruct Hu as (user' & Hc' & Hsame).
  rewrite Hc in Hc'. injection Hc' as <-. http_call DatacenterFromSeedMap_spec; [done|]. intros r w3 [Hs3 Hd].
  assert (same_store w w3) as Hw3 by (by etrans). destruct r as [[s d]|e|]; cbn [andThen]; [|done|done].
  rewrite <- Hw2 in Hd. plain_call configGetter_spec. intros r w4 [Hs4 Hcfg]. assert (same_store w w4) by (by etrans).
  destruct r as [cfg|e|]; cbn [andThen]; [subst cfg|done|done]. runs_step. destruct Hd. split; [done|]. by exists d.
Qed.

Lemma ReadHealth_done ctx pid cid w : runs (serve ctx (ReadHealth pid cid)) w (request_outcome ctx (ReadHealth pid cid) w).
Proof.
  cbn [serve_cluster]. unfold HealthEndpoint. runs_step. http_call project_reached. intros r w1 [Hs Hp].
  destruct r as [project|e|]; cbn [andThen]; [|by left|done]. destruct Hp as (user & Hc & Hat & Hperm).
  http_call GetInternalCluster_reaches. intros r w2 [Hs2 Hg]. assert (same_store w w2) as Hw2 by (by etrans).
  destruct r as [c|e|]; cbn [andThen]; [|by left|done]. do 2 runs_step. cbn [andThen]. runs_step.
  destruct Hg as (user' & Hc' & Hg). rewrite Hc in Hc'. injection Hc' as <-. rewrite <- Hs in Hg.
  exists user, project, c. split; [done|]. split; [exact (conj Hat (conj Hperm Hg))|]. split; [done|].
  f_equal. by destruct (cstatus_ExtendedHealth (cluster_Status c)).
Qed.

Lemma migratedFeatures_spec c : ccm_features c (migratedFeatures c).
Proof.
  intros f. unfold migratedFeatures. repeat case_bool_decide; rewrite ?lookup_insert; repeat case_decide; naive_solver.
Qed.

Lemma MigrateCCM_done ctx pid cid w : runs (serve ctx (MigrateCCM pid cid)) w (request_outcome ctx (MigrateCCM pid cid) w).
Proof.
  cbn [serve_cluster]. unfold MigrateEndpointToExternalCCM. runs_step. plain_call requester_spec. intros r w1 [Hs Hu].
  destruct r as [ui|e|]; cbn [andThen]; [|by left|done]. destruct Hu as (user & Hc & Hsame).
  plain_call GetCluster_reaches. intros r w2 [Hs2 Hg]. assert (same_store w w2) as Hw2 by (by etrans).
  destruct r as [c|e|]; cbn [andThen]; [|by left|done]. destruct Hg as (user' & project & Hc' & Hr).
  rewrite Hc in Hc'. injection Hc' as <-. rewrite <- Hs in Hr.
  plain_call configGetter_spec. intros r w3 [Hs3 Hcfg]. assert (same_store w w3) as Hw3 by (by etrans).
  destruct r as [cfg|e|]; cbn [andThen]; [subst cfg|by left|done].
  http_call DatacenterFromSeedMap_spec; [done|]. intros r w4 [Hs4 Hd]. assert (same_store w w4) as Hw4 by (by etrans).
  destruct r as [[s d]|e|]; cbn [andThen]; [|by left|done]. destruct Hd as [Hd Hsees]. rewrite <- Hw3 in Hd. cbn [snd] in *.
  runs_guard; [by left|]. runs_guard; [by left|]. http_call (kpatch_spec KCluster).
  intros r w5 Hpatch. destruct r as [c'|e|]; cbn [andThen]; [|left; by etrans|done]. do 2 runs_step. cbn [andThen]. 
  destruct Hpatch as (_ & Hk & Hup & Hst). exists user, project, c. split; [done|]. split; [done|]. split; [done|].
  exists d, c', (migratedFeatures c). rewrite Hw4.
  split_and!; [by rewrite <- Hw4|done|by apply negb_false_iff|done|apply migratedFeatures_spec|done|].
  apply (Hst c); [|done]. rewrite <- Hw4. destruct Hr as (_ & _ & Hv & _).
  change (view KCluster w !! key_of KCluster c = Some c). by rewrite (view_key KCluster w _ _ Hv).
Qed.

(** An update and a deletion in a row, with the rights [allowed]. *)
Lemma update_and_delete (allowed : verb -> W -> Prop) (upd : M W error UserCluster) (del : UserCluster -> M W error unit)
    project c w :
  runs upd w (fun r w' => match r with
    | Ok c' => allowed VUpdate w /\ cluster_updated project w w' c c'
    | Err _ => same_store w w'
    | Panic => False
    end) ->
  (forall c' w, key_of KCluster c' = key_of KCluster c -> runs (del c') w (fun r w' => match r with
    | Ok _ => allowed VDelete w /\ deleted KCluster w w' (key_of KCluster c)
    | Err _ => same_store w w'
    | Panic => False
    end)) ->
  runs (c' ← httpErr upd; httpErr (del c')) w (fun r w' => match r with
    | Ok _ => exists w1 c1, allowed VUpdate w /\ cluster_updated project w w1 c c1 /\ allowed VDelete w1 /\
        deleted KCluster w1 w' (key_of KCluster c)
    | Err _ => same_store w w' \/ (allowed VUpdate w /\ exists c1, cluster_updated project w w' c c1)
    | Panic => False
    end).
Proof.
  intros Hupd Hdel. http_call Hupd. intros r w1 Hu. destruct r as [c1|e|]; cbn [andThen]; [|by left|done].
  destruct Hu as [Ha Hu]. eapply httpErr_spec.
  { apply Hdel. destruct Hu as (_ & Hst & _). apply (strip_key _ _ _ Hst). }
  intros [[]|e|] w2 Hd; [| |done].
  - destruct Hd as [Ha' Hd]. by exists w1, c1.
  - right. split; [done|]. exists c1. by rewrite <- Hd.
Qed.

Lemma cleanupFinalizers_spec vols lbs c : with_cleanup vols lbs c (cleanupFinalizers vols lbs c).
Proof.
  unfold with_cleanup, cleanupFinalizers. destruct (HasFinalizer _ _) eqn:E.
  - apply HasFinalizer_spec in E. destruct vols, lbs; cbn; (split; [by destruct c as [[] ? ?]|]); intros f; rewrite ?AddFinalizer_spec; naive_solver.
  - assert (NodeDeletionFinalizer ∉ meta_Finalizers (cluster_meta c)) as Hn by (rewrite <- HasFinalizer_spec, E; done).
    split; [by destruct c as [[] ? ?]|naive_solver].
Qed.

Lemma cleanupFinalizers_key vols lbs c : key_of KCluster (cleanupFinalizers vols lbs c) = key_of KCluster c.
Proof. unfold cleanupFinalizers. by destruct (HasFinalizer _ _), vols, lbs. Qed.

(** The rights [allowed] are those of the user. *)
Lemma deletion_outcome ctx pid cid vols lbs (allowed : verb -> W -> Prop) upd del user project c w w1 :
  same_store w w1 -> ctx_UserCR ctx = Some user -> reaches w user pid cid project c ->
  (allowed VUpdate w1 -> permitted w user pid VUpdate KCluster ("", cid)) ->
  (forall w2, allowed VDelete w2 -> user_IsAdmin user = true \/
     exists ui, getter_info w user pid ui /\ authorized w2 (as_user ui) VDelete KCluster ("", cid)) ->
  runs upd w1 (fun r w' => match r with
    | Ok c' => allowed VUpdate w1 /\ cluster_updated project w1 w' (cleanupFinalizers vols lbs c) c'
    | Err _ => same_store w1 w'
    | Panic => False
    end) ->
  (forall c' w, key_of KCluster c' = ("", cid) -> runs (del c') w (fun r w' => match r with
    | Ok _ => allowed VDelete w /\ deleted KCluster w w' ("", cid)
    | Err _ => same_store w w'
    | Panic => False
    end)) ->
  runs (c' ← httpErr upd; httpErr (del c')) w1
    (andThen (fun _ : unit => mret ClusterDone) (request_outcome ctx (DeleteOne pid cid vols lbs) w)).
Proof.
  intros Hs Hc Hr Hau Had Hupd Hdel.
  assert (key_of KCluster (cleanupFinalizers vols lbs c) = ("", cid)) as Hkey.
  { rewrite cleanupFinalizers_key. destruct Hr as (_ & _ & Hv & _). apply (view_key KCluster w _ _ Hv). }
  eapply runs_mono; [eapply (update_and_delete allowed)|]; [exact Hupd|by rewrite Hkey|]. cbn beta. rewrite Hkey.
  intros [[]|e|] w2; cbn [andThen]; [| |done].
  - intros (w3 & c1 & Ha1 & Hu & Ha2 & Hd). runs_step. exists user, project, c. split; [done|]. split; [done|]. split; [done|].
    rewrite <- Hs in Hu. exists w3. split; [split; [by apply Hau|eauto using cleanupFinalizers_spec]|]. split; [by apply Had|done].
  - intros [Hs2|[Ha [c1 Hu]]]; [left; by etrans|right]. rewrite <- Hs in Hu.
    exists pid, cid, vols, lbs, user, project, c. refine (conj eq_refl (conj Hc (conj Hr _))). split; [by apply Hau|eauto using cleanupFinalizers_spec].
Qed.

Lemma DeleteOne_done ctx pid cid vols lbs w :
  runs (serve ctx (DeleteOne pid cid vols lbs)) w (request_outcome ctx (DeleteOne pid cid vols lbs) w).
Proof.
  cbn [serve_cluster]. unfold cluster_DeleteEndpoint. runs_step. http_call project_reached. intros r w1 [Hs Hp].
  destruct r as [project|e|]; cbn [andThen]; [|by left|done]. destruct Hp as (user & Hc & Hat & Hperm).
  plain_call GetInternalCluster_reaches. intros r w2 [Hs2 Hg]. assert (same_store w w2) as Hw2 by (by etrans).
  destruct r as [c|e|]; cbn [andThen]; [|by left|done].
  destruct Hg as (user' & Hc' & Hg). rewrite Hc in Hc'. injection Hc' as <-. rewrite <- Hs in Hg.
  assert (reaches w user pid cid project c) as Hr by exact (conj Hat (conj Hperm Hg)).
  assert (key_of KCluster (cleanupFinalizers vols lbs c) = ("", cid)) as Hkey.
  { rewrite cleanupFinalizers_key. destruct Hg as (Hv & _). apply (view_key KCluster w _ _ Hv). }
  unfold updateAndDeleteCluster, updateAndDeleteClusterForRegularUser.
  apply (admin_or_user ctx pid); [apply mapErr_gets, UserInfoGetterFactory_gets| | | |].
  - rewrite <- (proj2 Hat). apply mapErr_gets, UserInfoGetterFactory_gets.
  - intros e w3 Hs3. cbn [andThen]. left. by etrans.
  - intros user' w3 Hc' Ha Hs3. rewrite Hc in Hc'. injection Hc' as <-.
    eapply (deletion_outcome _ _ _ _ _ (fun _ _ => True)); [by etrans|done|done|by left|by left| |].
    + eapply runs_mono; [apply clusters_UpdateUnsecured_spec|]. by intros [c'|e|] w4.
    + intros c' w4 Hk. eapply runs_mono; [apply clusters_DeleteUnsecured_spec|]. rewrite Hk. by intros [[]|e|] w5.
  - intros user' ui w3 Hc' Hi Hs3. rewrite Hc in Hc'. injection Hc' as <-.
    assert (same_store w w3) as Hw3 by (by etrans). rewrite <- Hw2 in Hi.
    apply (deletion_outcome _ _ _ _ _ (fun v w => authorized w (as_user ui) v KCluster ("", cid)) _ _ user project c);
      [done|done|done| | | |].
    + intros Ha. rewrite <- Hw3 in Ha. right. by exists ui.
    + intros w4 Ha. right. by exists ui.
    + eapply runs_mono; [apply clusters_Update_spec|]. by rewrite Hkey.
    + intros c' w4 Hk. eapply runs_mono; [apply clusters_Delete_spec|]. rewrite Hk. by intros [[]|e|] w5.
Qed.

End cluster_table.

(** C35: what a client is shown of a cluster does not depend on the credentials
    of its cloud or on its admin token: two clusters that differ in nothing else
    are shown alike. *)
Theorem clusters_show_no_credentials {P : SDK} {V : ClusterViewSDK} {VL : ClusterViewLaws} c1 c2 dc labels config :
  without_credentials c1 = without_credentials c2 ->
  shownCluster (ConvertInternalClusterToExternal c1 dc labels config) =
  shownCluster (ConvertInternalClusterToExternal c2 dc labels config).
Proof. intros E. by rewrite <- (shown_without_credentials c1), E, shown_without_credentials. Qed.

(** ** A concrete installation, for the witnesses *)

#[local] Existing Instances refRange refRange_laws.

#[export] Instance refClusterSDK : ClusterSDK Mem := {|
  AllHealthy h := bool_decide (health_Apiserver h = "up");
  ControlPlaneHealthy h := bool_decide (health_Apiserver h = "up");
  HealthStatusUp := "up";
  EdgeCloudProvider := "edge";
  noOIDCSettings := "";
  IsConnectionRefused _ := false;
  clientcmd_Load s := Ok (MkKubeconfig ∅ s);
  AdminKubeconfigSecretName := "admin-kubeconfig";
  ViewerKubeconfigSecretName := "viewer-kubeconfig";
  ViewerTokenSecretName := "viewer-token";
  ViewerTokenSecretKey := "viewerToken";
  resources_KubeconfigSecretKey := "kubeconfig";
  MakeClusterName := rand_string 10;
  GenerateToken := rand_string 16;
  WaitUntilClusterExists c n := kget KCluster c ("", n);
  UpdateClusterStatus c f :=
    cur ← kget KCluster Privileged (key_of KCluster c);
    kpatch_status KCluster Privileged (cluster_with_status (f (cluster_Status cur)) cur) |}.

#[export] Instance refClusterSDK_laws : ClusterSDKLaws Mem.
Proof.
  split; try done.
  - intros w. eapply runs_mono; [apply rand_string_spec|]. cbn beta. naive_solver.
  - intros w. eapply runs_mono; [apply rand_string_spec|]. cbn beta. naive_solver.
  - intros c n w. eapply runs_mono; [apply (kget_spec KCluster)|]. cbn beta. intros [o|e|] w'; naive_solver.
  - intros c f w. cbn [UpdateClusterStatus refClusterSDK]. runs_call (kget_spec KCluster). destruct Hcall as [Hs Hg].
    destruct r as [cur|e|]; cbn [andThen]; [|done|done]. destruct Hg as [Hv _].
    pose proof (view_key KCluster w _ _ Hv) as Hk. eapply runs_mono; [apply (kpatch_status_spec KCluster)|]. cbn beta.
    intros [c'|e|] w1; [|intros; by etrans|done]. intros (Hst & Hk' & Hup & Hstrip).
    split; [by rewrite Hk', <- Hk|]. split; [by rewrite Hs|]. intros Hstored%stored_lookup.
    assert (cur = c) as -> by congruence. split; [exact Hst|]. apply Hstrip. rewrite <- Hs. exact Hv.
Qed.

#[export] Instance refClusterView : ClusterViewSDK := {|
  KubermaticConfiguration := unit;
  ClusterFeatureExternalCloudProvider := "externalCloudProvider";
  MigrationToExternalCloudControllerSupported _ c _ := bool_decide (cs_ProviderName (cspec_Cloud (cluster_Spec c)) = "hetzner");
  NeedCCMMigration _ := false;
  ProxyValue_Empty v := is_empty (default "" v);
  ProxyValue_String v := default "" v |}.
#[export] Instance refClusterView_laws : ClusterViewLaws.
Proof. by split. Qed.

#[export] Instance refClusterHandler : ClusterHandlerSDK Mem := {|
  NodeDeletionFinalizer := "kubermatic.k8c.io/delete-nodes";
  InClusterLBCleanupFinalizer := "kubermatic.k8c.io/cleanup-in-cluster-lb";
  InClusterPVCleanupFinalizer := "kubermatic.k8c.io/cleanup-in-cluster-pv";
  ClusterFeatureVsphereCSIClusterID := "vsphereCSIClusterID";
  ClusterFeatureEncryptionAtRest := "encryptionAtRest";
  SecretTypeOpaque := "Opaque";
  HasFinalizer l f := bool_decide (f ∈ l);
  AddFinalizer l f := if bool_decide (f ∈ l) then l else l ++ [f];
  UserClusterClient := unit;
  GetAdminClientForUserCluster _ := mret tt;
  GetClientForUserCluster _ _ := mret tt;
  count_MachineDeployments _ := mret 2%Z |}.
#[export] Instance refClusterHandler_laws : ClusterHandlerLaws Mem.
Proof.
  split; try done.
  - intros l f. apply bool_decide_eq_true.
  - intros l f g. cbn. case_bool_decide; set_solver.
Qed.

#[export] Instance memClusterStore : ClusterStore Mem := kubernetesClusterStore false "".

(** dave may only look at p1; ams is hidden from bob and dave. *)
Definition dave : User := sampleUser "u-dave" "dave@example.com" [] false.
Definition daveCtx : Ctx := ctx_with_UserCR dave emptyCtx.
Definition hetznerCluster (name dc token : string) : UserCluster :=
  MkUserCluster
    (meta_with_labels {[ ProjectIDLabelKey := "p1" ]}
       (MkMeta name "" ("uid-" +:+ name) "1" zero_time None ∅ ∅ [] ["kubermatic.k8c.io/delete-nodes"]))
    (cspec_with_Cloud (MkCloudSpec dc "hetzner" None None None None None (Some (MkHetznerCloud token "net" None))
       None None None None None None None None None None)
       (cspec_with_HumanReadableName ("my " +:+ name) emptyClusterSpec))
    (cstatus_with_token ("admin " +:+ token) noClusterStatus).
Definition clusterWorld : Mem :=
  mem_of (fun k => match k return list (obj k) with
    | KUser => [alice; bob; dave]
    | KProject => [project1]
    | KBinding => [bobBinding; MkBinding (metaNamed "b3") "dave@example.com" "p1" "viewers-p1"]
    | KSeed => [seedWith "eu" {[ "fra" := fra; "ams" := ams ]}]
    | KCluster => [hetznerCluster "c1" "ams" "one"; hetznerCluster "c2" "fra" "two"]
    | _ => []
    end) 1000000000000%Z ["r1"; "r2"]
    (fun cfg v _ _ => bool_decide ("editors-p1" ∈ imp_Groups cfg) ||
                      (bool_decide ("viewers-p1" ∈ imp_Groups cfg) && bool_decide (v = VGet))).
Definition memConfig : M Mem error KubermaticConfiguration := mret tt.
Definition serve_sample : Ctx -> ClusterRequest -> M Mem error ClusterAnswer :=
  serve_cluster UserInfoGetterFactory seedGetter memConfig.
Definition list_sample (ctx : Ctx) (pid : string) (counts : bool) : M Mem error ProjectClusterList :=
  cluster_ListEndpoint UserInfoGetterFactory seedGetter memConfig "Invalid" (fun _ => mret memClusterStore) ctx pid counts.

Lemma memConfig_spec w :
  runs memConfig w (fun r w' => same_store w w' /\ match r with Ok c => c = tt | Err _ => True | Panic => False end).
Proof. by split. Qed.


(** The clusters of the store, whatever the seed. *)
Definition memHeld (w : Mem) (seed : Seed) (c : UserCluster) : Prop := stored KCluster w c.
#[local] Instance memHeld_proper : Proper (same_store ==> eq ==> eq ==> iff) memHeld.
Proof. intros w w' Hw s ? <- c ? <-. unfold memHeld. by rewrite Hw. Qed.
Lemma memProvider_spec seed (w : Mem) :
  runs (mret memClusterStore : M Mem error (ClusterStore Mem)) w (fun r w' => same_store w w' /\
    match r with Ok provider => lists_held memHeld seed provider | Err _ => True | Panic => False end).
Proof.
  runs_step. split; [done|]. intros project options w1. eapply runs_mono; [apply ClusterProvider_List_spec|]. cbn beta.
  intros [l|e|] w2 [Hs Hl]; (split; [done|]); [|done|done]. intros c Hc. by destruct (Hl c Hc) as (H1 & H2 & _).
Qed.

(** bob is shown c2, and not c1 in ams. *)
Lemma project_clusters_listed_witness :
  let run := list_sample bobCtx "p1" false clusterWorld in
  exists l, run.1 = Ok l /\ api_ID ∘ apicluster_meta <$> pcl_Clusters l = ["c2"] /\ pcl_ErrorMessage l = None /\
  list_shows "kubermatic" tt "Invalid" memHeld bobCtx "p1" clusterWorld (pcl_Clusters l).
Proof.
  intros run. run_ok run l E. exists l. split; [exact E|].
  assert (result_map (fun l => (api_ID ∘ apicluster_meta <$> pcl_Clusters l, pcl_ErrorMessage l)) run.1 = Ok (["c2"], None)) as H
    by (vm_compute; reflexivity).
  rewrite E in H. injection H as H1 H2. split; [exact H1|]. split; [exact H2|].
  unfold list_sample in run. run_thm run E (project_clusters_listed "kubermatic" seedGetter tt memConfig memConfig_spec "Invalid"
    (fun _ => mret memClusterStore) memHeld memProvider_spec bobCtx "p1" false clusterWorld) Hl.
  exact (proj1 (proj2 Hl)).
Defined.

Lemma clusters_show_no_credentials_witness :
  let c1 := hetznerCluster "c1" "fra" "one" in let c2 := hetznerCluster "c1" "fra" "two" in
  c1 <> c2 /\ shownCluster (ConvertInternalClusterToExternal c1 fra true tt) =
              shownCluster (ConvertInternalClusterToExternal c2 fra true tt).
Proof.
  intros c1 c2. split; [discriminate|]. apply (clusters_show_no_credentials c1 c2). vm_compute. reflexivity.
Defined.

(** *** What the endpoints do besides *)

(** To count the machine deployments panics when bob may not see the datacenter
    of a cluster: the counts are written by the position in the unfiltered list. *)
Example count_of_hidden_cluster_panics :
  (list_sample bobCtx "p1" true clusterWorld).1 = Panic /\
  is_ok (list_sample aliceCtx "p1" true clusterWorld).1 = true.
Proof. vm_compute. done. Qed.

(** dave may only read, and yet migrates a cluster and revokes its admin token. *)
Example viewer_changes_cluster :
  is_ok (serve_sample daveCtx (DeleteOne "p1" "c2" false false) clusterWorld).1 = false /\
  (let run := serve_sample daveCtx (MigrateCCM "p1" "c2") clusterWorld in is_ok run.1 = true /\
   option_map (fun c => cspec_Features (cluster_Spec c)) (view KCluster run.2 !! ("", "c2")) =
     Some {[ "externalCloudProvider" := true ]}) /\
  (let run := serve_sample daveCtx (RevokeAdminToken "p1" "c2") clusterWorld in is_ok run.1 = true /\
   option_map (fun c => cstatus_AdminToken (cluster_Status c)) (view KCluster run.2 !! ("", "c2")) <> Some "admin two").
Proof. split; [vm_compute; reflexivity|]. split; (split; [vm_compute; reflexivity|]); [vm_compute; reflexivity|vm_compute; discriminate]. Qed.
