(* ===== verification/UserHandlers.v ===== *)
(** The endpoints of users and project members: handler/v1/user/user.go. *)
From S2P Require Export Handlers.
From stdpp Require Import pretty.

(** AddReq, EditReq, DeleteReq; the requests of the settings and announcements
    are their bodies. *)
Record AddReq := MkAddReq {
  add_ProjectID : string;
  add_Body : ApiUser }.
Record EditReq := MkEditReq {
  edit_AddReq : AddReq;
  edit_UserID : string }.
Record DeleteReq := MkDeleteReq {
  delete_ProjectID : string;
  delete_UserID : string }.

(** The projects of the user but the requested one are removed. *)
Definition filterExternalUser (externalUser : ApiUser) (projectID : string) : ApiUser :=
  match List.find (fun pg => bool_decide (pg_ID pg = projectID)) (apiuser_Projects externalUser) with
  | Some pg => apiuser_with_projects [pg] externalUser
  | None => externalUser
  end.

Section user_handlers.
Context {W : Type} {EL : ErrorLib} {P : SDK}
        {MEMBERS : ProjectMemberProvider W} {USERS : UserProvider W}
        {PROJECTS : ProjectProvider W} {PPROJECTS : PrivilegedProjectProvider W}
        {MAPPER : ProjectMemberMapper W}.
Variable userInfoGetter : UserInfoGetter W.
(** The verdict of net/mail's parser of addresses. *)
Variable mail_ParseAddress : string -> option error.

Definition deleteBinding (ctx : Ctx) (projectID bindingID : string) : M W error unit :=
  adminUserInfo ← userInfoGetter ctx "";
  if ui_IsAdmin adminUserInfo then members_DeleteUnsecured bindingID else
  userInfo ← userInfoGetter ctx projectID;
  members_Delete userInfo bindingID.

Definition updateBinding (ctx : Ctx) (projectID : string) (binding : UserProjectBinding)
    : M W error UserProjectBinding :=
  adminUserInfo ← userInfoGetter ctx "";
  if ui_IsAdmin adminUserInfo then members_UpdateUnsecured binding else
  userInfo ← userInfoGetter ctx projectID;
  members_Update userInfo binding.

Definition createBinding (ctx : Ctx) (project : Project) (email group : string)
    : M W error UserProjectBinding :=
  adminUserInfo ← userInfoGetter ctx "";
  if ui_IsAdmin adminUserInfo then members_CreateUnsecured project email group else
  userInfo ← userInfoGetter ctx (meta_Name (project_meta project));
  members_Create userInfo project email group.

Definition getMemberList (ctx : Ctx) (project : Project) (userEmail : string)
    : M W error (list UserProjectBinding) :=
  userInfo ← httpErr (userInfoGetter ctx "");
  us ← (if negb (ui_IsAdmin userInfo) && negb (ui_IsGlobalViewer userInfo)
        then userInfo ← httpErr (userInfoGetter ctx (meta_Name (project_meta project)));
             mret (userInfo, false)
        else mret (userInfo, true));
  members_List us.1 project
    (Some {| MemberEmail := userEmail; SkipPrivilegeVerification := us.2 |}).

Definition AddReq_Validate (r : AddReq) (authenticatesUserInfo : UserInfo) : M W error unit :=
  let email := apiuser_Email (add_Body r) in
  _ ← throwIf (is_empty (add_ProjectID r))
        (utilerrors_NewBadRequest "the name of the project cannot be empty");
  _ ← throwIf (is_empty email) (utilerrors_NewBadRequest "the email address cannot be empty");
  _ ← match mail_ParseAddress email with
      | Some err => throw (utilerrors_NewBadRequest ("incorrect email format: " +:+ Error err))
      | None => mret tt
      end;
  match apiuser_Projects (add_Body r) with
  | [projectFromRequest] =>
      _ ← throwIf (is_empty (pg_ID projectFromRequest) || is_empty (pg_GroupPrefix projectFromRequest))
            (utilerrors_NewBadRequest "both the project name and the group name fields are required");
      _ ← throwIf (negb (bool_decide (pg_ID projectFromRequest = add_ProjectID r)))
            (utilerrors_New 403 ("you can only assign the user to " +:+ add_ProjectID r +:+ " project"));
      _ ← throwIf (EqualFold email (ui_Email authenticatesUserInfo) && negb (ui_IsAdmin authenticatesUserInfo))
            (utilerrors_New 403 "you cannot assign yourself to a different group");
      throwIf (negb (bool_decide (pg_GroupPrefix projectFromRequest ∈ AllGroupsPrefixes)))
        (utilerrors_NewBadRequest ("invalid group name " +:+ pg_GroupPrefix projectFromRequest))
  | projects => throw (utilerrors_NewBadRequest ("expected exactly one entry in " +:+ dquote +:+ "Projects" +:+
                  dquote +:+ " field, but received " +:+ pretty (length projects)))
  end.

Definition EditReq_Validate (r : EditReq) (authenticatesUserInfo : UserInfo) : M W error unit :=
  _ ← AddReq_Validate (edit_AddReq r) authenticatesUserInfo;
  let id := api_ID (apiuser_meta (add_Body (edit_AddReq r))) in
  throwIf (negb (bool_decide (edit_UserID r = id)))
    (utilerrors_NewBadRequest ("userID mismatch, you requested to update user " +:+
       quote (edit_UserID r) +:+ " but body contains user " +:+ quote id)).

(** [Projects[0]] panics for an empty list. *)
Definition firstProject (u : ApiUser) : M W error ProjectGroup :=
  match apiuser_Projects u with
  | pg :: _ => mret pg
  | [] => panic
  end.

(** The user a membership request names, who has to exist. *)
Definition invitedUser (email projectID : string) : M W error User :=
  found ← attempt (users_UserByEmail email);
  match found with
  | inr user => mret user
  | inl err =>
      if is_ErrNotFound err
      then throw (utilerrors_NewBadRequest ("cannot add the user " +:+ email +:+ " to the project " +:+
             projectID +:+ " because the user doesn't exist."))
      else throw (KubernetesErrorToHTTPError err)
  end.

Definition DeleteEndpoint (ctx : Ctx) (req : DeleteReq) : M W error unit :=
  _ ← throwIf (is_empty (delete_UserID req)) (utilerrors_NewBadRequest "the user ID cannot be empty");
  project ← httpErr (GetProject userInfoGetter ctx (delete_ProjectID req) None);
  user ← httpErr (users_UserByID (delete_UserID req));
  memberList ← httpErr (getMemberList ctx project (user_Email user));
  match memberList with
  | [] => throw (utilerrors_New 400 ("cannot delete the user " +:+ user_Email user +:+ " from the project " +:+
            delete_ProjectID req +:+ " because the user is not a member of the project"))
  | [bindingForRequestedMember] =>
      userInfo ← httpErr (userInfoGetter ctx "");
      _ ← throwIf (EqualFold (binding_UserEmail bindingForRequestedMember) (ui_Email userInfo))
            (utilerrors_New 403 "you cannot delete yourself from the project");
      httpErr (deleteBinding ctx (delete_ProjectID req)
                 (meta_Name (binding_meta bindingForRequestedMember)))
  | _ => throw (utilerrors_New 500 ("cannot delete the user user " +:+ user_Email user +:+
            " from the project, inconsistent state in database"))
  end.

Definition EditEndpoint (ctx : Ctx) (req : EditReq) : M W error ApiUser :=
  let add := edit_AddReq req in
  userInfo ← httpErr (userInfoGetter ctx "");
  _ ← EditReq_Validate req userInfo;
  let currentMemberFromRequest := add_Body add in
  projectFromRequest ← firstProject currentMemberFromRequest;
  project ← httpErr (GetProject userInfoGetter ctx (add_ProjectID add) None);
  memberToUpdate ← invitedUser (apiuser_Email currentMemberFromRequest) (pg_ID projectFromRequest);
  memberList ← httpErr (getMemberList ctx project (apiuser_Email currentMemberFromRequest));
  match memberList with
  | [] => throw (utilerrors_New 400 ("cannot change the membership of the user " +:+
            apiuser_Email currentMemberFromRequest +:+ " for the project " +:+ add_ProjectID add +:+
            " because the user is not a member of the project"))
  | [currentMemberBinding] =>
      let generatedGroupName := GenerateActualGroupNameFor (meta_Name (project_meta project))
                                  (pg_GroupPrefix projectFromRequest) in
      let currentMemberBinding := binding_with_group generatedGroupName currentMemberBinding in
      updatedMemberBinding ← httpErr (updateBinding ctx (add_ProjectID add) currentMemberBinding);
      let externalUser := ConvertInternalUserToExternal memberToUpdate false [updatedMemberBinding] [] in
      mret (filterExternalUser externalUser (meta_Name (project_meta project)))
  | _ => throw (utilerrors_New 500 ("cannot change the membershp of the user " +:+
            apiuser_Email currentMemberFromRequest +:+ ", inconsistent state in database"))
  end.

(** One turn of the loop of ListEndpoint. *)
Definition addExternalUser (project : Project) (externalUsers : list ApiUser)
    (memberOfProjectBinding : UserProjectBinding) : M W error (list ApiUser) :=
  found ← attempt (users_UserByEmail (binding_UserEmail memberOfProjectBinding));
  match found with
  | inl err => if is_ErrNotFound err then mret externalUsers else throw (KubernetesErrorToHTTPError err)
  | inr user =>
      let externalUser := ConvertInternalUserToExternal user false [memberOfProjectBinding] [] in
      mret (externalUsers ++ [filterExternalUser externalUser (meta_Name (project_meta project))])
  end.

Definition user_ListEndpoint (ctx : Ctx) (projectID : string) : M W error (list ApiUser) :=
  _ ← throwIf (is_empty projectID) (utilerrors_NewBadRequest "the name of the project cannot be empty");
  project ← httpErr (GetProject userInfoGetter ctx projectID None);
  membersOfUserProjectBindings ← httpErr (getMemberList ctx project "");
  foldM (addExternalUser project) [] membersOfUserProjectBindings.

Definition AddEndpoint (ctx : Ctx) (req : AddReq) : M W error ApiUser :=
  userInfo ← httpErr (userInfoGetter ctx "");
  _ ← AddReq_Validate req userInfo;
  let apiUserFromRequest := add_Body req in
  projectFromRequest ← firstProject apiUserFromRequest;
  userToInvite ← invitedUser (apiuser_Email apiUserFromRequest) (pg_ID projectFromRequest);
  project ← httpErr (GetProject userInfoGetter ctx (add_ProjectID req) None);
  memberList ← httpErr (getMemberList ctx project (user_Email userToInvite));
  match memberList with
  | _ :: _ => throw (utilerrors_New 400 ("cannot add the user " +:+ apiuser_Email apiUserFromRequest +:+
                " to the project " +:+ add_ProjectID req +:+ " because user is already in the project"))
  | [] =>
      let generatedGroupName := GenerateActualGroupNameFor (meta_Name (project_meta project))
                                  (pg_GroupPrefix projectFromRequest) in
      generatedBinding ← httpErr (createBinding ctx project (user_Email userToInvite) generatedGroupName);
      let externalUser := ConvertInternalUserToExternal userToInvite false [generatedBinding] [] in
      mret (filterExternalUser externalUser (meta_Name (project_meta project)))
  end.

Definition LogoutEndpoint (ctx : Ctx) : M W error unit :=
  match ctx_UserCR ctx with
  | None => panic
  | Some authenticatedUser =>
      let token := default "" (ctx_RawToken ctx) in
      _ ← throwIf (is_empty token) utilerrors_NewNotAuthorized;
      match ctx_TokenExpiry ctx with
      | None => throw utilerrors_NewNotAuthorized
      | Some expiry => users_InvalidateToken (Some authenticatedUser) token expiry
      end
  end.

Definition user_GetEndpoint (ctx : Ctx) : M W error ApiUser :=
  match ctx_UserCR ctx with
  | None => panic
  | Some authenticatedUser =>
      userBindings ← httpErr (mapper_MappingsFor (user_Email authenticatedUser));
      groupBindings ← httpErr (mapper_GroupMappingsFor (user_Groups authenticatedUser));
      mret (ConvertInternalUserToExternal authenticatedUser true userBindings groupBindings)
  end.

Definition GetSettingsEndpoint (ctx : Ctx) : M W error (option string) :=
  match ctx_UserCR ctx with
  | None => panic
  | Some authenticatedUser => mret (user_Settings authenticatedUser)
  end.

(** Encoding the settings (the empty ones for nil), applying the merge patch
    and decoding the outcome; the error says which of the three failed. *)
Variable patchSettings : option string -> string -> result string (option string).

Definition PatchSettingsEndpoint (ctx : Ctx) (patch : string) : M W error (option string) :=
  match ctx_UserCR ctx with
  | None => panic
  | Some existingUser =>
      match patchSettings (user_Settings existingUser) patch with
      | Err msg => throw (apierrors_NewBadRequest msg)
      | Panic => panic
      | Ok patchedSettings =>
          updatedUser ← httpErr (users_UpdateUser (user_with_settings patchedSettings existingUser));
          mret (user_Settings updatedUser)
      end
  end.

Definition PatchReadAnnouncementsEndpoint (ctx : Ctx) (body : list string) : M W error (list string) :=
  match ctx_UserCR ctx with
  | None => panic
  | Some existingUser =>
      updatedUser ← httpErr (users_UpdateUser (user_with_announcements body existingUser));
      mret (user_ReadAnnouncements updatedUser)
  end.
End user_handlers.

(** ** Lemmas *)

Section user_handlers_proofs.
Context {W : Type} {EL : ErrorLib} {P : SDK} {API : KubeAPI W} {ST : Store W}
        {MEMBERS : ProjectMemberProvider W} {USERS : UserProvider W}
        {PROJECTS : ProjectProvider W} {PPROJECTS : PrivilegedProjectProvider W}
        {MAPPER : ProjectMemberMapper W} {ELL : ErrorLibLaws EL}
        {LAWS : KubeAPILaws W} {MAPL : ProjectMemberMapperLaws W} {MEML : ProjectMemberProviderLaws W}
        {UL : UserProviderLaws W} {PRL : ProjectProviderLaws W}
        {PPL : PrivilegedProjectProviderLaws W}.
Implicit Types w : W.

Lemma deleteBinding_spec ctx pid id w :
  runs (deleteBinding UserInfoGetterFactory ctx pid id) w (fun r w' =>
    match r with
    | Ok _ => (exists user, ctx_UserCR ctx = Some user /\ permitted w user pid VDelete KBinding ("", id)) /\
        deleted KBinding w w' ("", id)
    | Err _ => same_store w w'
    | Panic => False
    end).
Proof.
  unfold deleteBinding. apply as_admin_or_user; [done| |].
  - intros user w1 Hc Ha Hs. eapply runs_mono; [apply members_DeleteUnsecured_spec|]. cbn beta.
    intros [[]|e|] w2 H; [|by etrans|done]. rewrite Hs. split; [|done]. exists user. by split; [|left].
  - intros user ui w1 Hc Hi Hs. eapply runs_mono; [apply members_Delete_spec|]. cbn beta.
    intros [[]|e|] w2 H; [|by etrans|done]. destruct H as [Ha H]. split; [|by rewrite Hs].
    exists user. split; [done|]. right. exists ui. by rewrite Hs in *.
Qed.

Lemma updateBinding_spec ctx pid b w :
  runs (updateBinding UserInfoGetterFactory ctx pid b) w (fun r w' =>
    match r with
    | Ok b' => (exists user, ctx_UserCR ctx = Some user /\
          permitted w user pid VUpdate KBinding (key_of KBinding b)) /\
        strip KBinding b' = strip KBinding b /\ updated KBinding w w' b'
    | Err _ => same_store w w'
    | Panic => False
    end).
Proof.
  unfold updateBinding.
  eapply runs_mono; [apply (admin_or_user_call ctx pid _ _ w VUpdate KBinding (fun _ => key_of KBinding b)
    (fun w b' w' => strip KBinding b' = strip KBinding b /\ updated KBinding w w' b'))|done].
  - by intros w0 w1 b' w' Hs; rewrite Hs.
  - apply members_UpdateUnsecured_spec.
  - intros. apply members_Update_spec.
Qed.

Lemma createBinding_spec ctx project email group w :
  runs (createBinding UserInfoGetterFactory ctx project email group) w (fun r w' =>
    match r with
    | Ok b => (exists user, ctx_UserCR ctx = Some user /\
          permitted w user (meta_Name (project_meta project)) VCreate KBinding (key_of KBinding b)) /\
        IsProjectServiceAccount email = false /\ binds_member b project email group /\
        created KBinding w w' b
    | Err _ => same_store w w'
    | Panic => False
    end).
Proof.
  unfold createBinding. apply as_admin_or_user; [done| |].
  - intros user w1 Hc Ha Hs. eapply runs_mono; [apply members_CreateUnsecured_spec|]. cbn beta.
    intros [b|e|] w2 H; [|by etrans|done]. rewrite Hs. split; [|tauto]. exists user. by split; [|left].
  - intros user ui w1 Hc Hi Hs. eapply runs_mono; [apply members_Create_spec|]. cbn beta.
    intros [b|e|] w2 H; [|by etrans|done]. destruct H as (Hsa & Ha & Hb & Hcr).
    split; [|split_and!; [done|done|by rewrite Hs]].
    exists user. split; [done|]. right. exists ui. by rewrite Hs in *.
Qed.

(** The members with the given email, or all of them. *)
Definition members_with w project (email : string) (l : list UserProjectBinding) : Prop :=
  lists_members w project (Some {| MemberEmail := email; SkipPrivilegeVerification := false |}) l.

#[export] Instance members_with_proper :
  Proper (same_store ==> eq ==> eq ==> eq ==> iff) members_with.
Proof. intros w w' Hw p ? <- e ? <- l ? <-. unfold members_with. by rewrite Hw. Qed.

Lemma getMemberList_spec ctx project email w :
  runs (getMemberList UserInfoGetterFactory ctx project email) w (fun r w' => same_store w w' /\
    match r with
    | Ok l => members_with w project email l
    | Err _ => True
    | Panic => False
    end).
Proof.
  unfold getMemberList, httpErr. do 2 runs_step.
  eapply runs_mono; [apply UserInfoGetterFactory_spec|]. cbn beta. intros r w1 [Hs Hi].
  destruct r as [ui|e|]; cbn [andThen]; [|done|done].
  assert (forall us w2, same_store w w2 ->
    runs (members_List us.1 project (Some {| MemberEmail := email; SkipPrivilegeVerification := us.2 |})) w2
      (fun r w' => same_store w w' /\ match r with
        | Ok l => members_with w project email l | Err _ => True | Panic => False end)) as Hlist.
  { intros us w2 Hs2. eapply runs_mono; [apply members_List_spec|]. cbn beta. intros r w3 [Hs3 Hl].
    split; [by etrans|]. destruct r as [l|e|]; [|done|done]. rewrite Hs2. exact (proj1 Hl). }
  runs_step. destruct (_ && _).
  - do 2 runs_step. eapply runs_mono; [apply UserInfoGetterFactory_spec|]. cbn beta. intros r w2 [Hs2 Hp].
    assert (same_store w w2) as Hs' by (by etrans).
    destruct r as [ui'|e|]; cbn [andThen]; [|done|done]. runs_step. cbn [andThen]. by apply Hlist.
  - runs_step. cbn [andThen]. by apply Hlist.
Qed.

Lemma members_with_none w project email b :
  members_with w project email [] -> member_of w project b ->
  EqualFold (binding_UserEmail b) email = false.
Proof.
  unfold members_with, lists_members. cbn [email_filter MemberEmail]. destruct (is_empty email).
  - intros [_ Hl] Hb%Hl. by apply elem_of_nil in Hb.
  - intros [(b' & [=] & _)|[_ Hn]] Hb. by apply Hn.
Qed.

Lemma members_with_one w project email b :
  members_with w project email [b] ->
  member_of w project b /\ (email <> "" -> EqualFold (binding_UserEmail b) email = true).
Proof.
  unfold members_with, lists_members. cbn [email_filter MemberEmail].
  destruct (is_empty email) eqn:E.
  - apply is_empty_spec in E as ->. intros [_ Hl]. split; [|done]. apply Hl. set_solver.
  - intros [(b' & [= <-] & Hm & He)|[[=] _]]. done.
Qed.

(** What a valid membership request says. *)
Definition valid_request (r : AddReq) (ui : UserInfo) (pg : ProjectGroup) : Prop :=
  apiuser_Projects (add_Body r) = [pg] /\ pg_ID pg = add_ProjectID r /\ add_ProjectID r <> "" /\
  pg_GroupPrefix pg ∈ AllGroupsPrefixes /\ apiuser_Email (add_Body r) <> "" /\
  (ui_IsAdmin ui = true \/ EqualFold (apiuser_Email (add_Body r)) (ui_Email ui) = false).

Lemma AddReq_Validate_spec parse r ui w :
  runs (AddReq_Validate parse r ui) w (fun o w' => w' = w /\
    match o with
    | Ok _ => exists pg, valid_request r ui pg
    | Err _ => True
    | Panic => False
    end).
Proof.
  unfold AddReq_Validate. runs_guard; [done|]. runs_guard; [done|].
  apply is_empty_false in H, H0. runs_step.
  destruct (parse _) as [err|]; runs_step; [done|]. cbn [andThen].
  destruct (apiuser_Projects (add_Body r)) as [|pg [|]] eqn:Ep; [by runs_step| |by runs_step].
  runs_guard; [done|]. runs_guard; [done|]. runs_guard; [done|]. runs_step; [done|].
  split; [done|]. exists pg. apply negb_false_iff, bool_decide_eq_true in H2, H4.
  split_and!; [done|done|done|done|done|].
  apply andb_false_iff in H3 as [?|?%negb_false_iff]; [by right|by left].
Qed.

Lemma EditReq_Validate_spec parse r ui w :
  runs (EditReq_Validate parse r ui) w (fun o w' => w' = w /\
    match o with
    | Ok _ => exists pg, valid_request (edit_AddReq r) ui pg
    | Err _ => True
    | Panic => False
    end).
Proof.
  unfold EditReq_Validate. runs_step. eapply runs_mono; [apply AddReq_Validate_spec|]. cbn beta. intros o w1 [-> H].
  destruct o as [[]|e|]; cbn [andThen]; [|done|done]. by runs_step.
Qed.

Lemma invitedUser_spec email pid w :
  runs (invitedUser email pid) w (fun r w' => same_store w w' /\
    match r with
    | Ok u => registered w u /\ EqualFold (user_Email u) email = true
    | Err _ => True
    | Panic => False
    end).
Proof.
  unfold invitedUser. do 2 runs_step. eapply runs_mono; [apply users_UserByEmail_spec|]. cbn beta.
  intros r w1 [Hs Hu]. destruct r as [u|e|]; cbn [andThen]; [by runs_step| |done].
  by destruct (is_ErrNotFound e); runs_step.
Qed.

(** The answer to a membership request: the user, with the role in the project. *)
Definition membership_answer (a : ApiUser) (pid group email : string) : Prop :=
  apiuser_Projects a = [MkProjectGroup pid (ExtractGroupPrefix group)] /\
  EqualFold (apiuser_Email a) email = true.

Lemma membership_answer_convert user b pid email :
  binding_ProjectID b = pid -> EqualFold (user_Email user) email = true ->
  membership_answer (filterExternalUser (ConvertInternalUserToExternal user false [b] []) pid)
    pid (binding_Group b) email.
Proof.
  intros <- He. unfold filterExternalUser. cbn. by rewrite bool_decide_eq_true_2.
Qed.

(** The answer of AddEndpoint and EditEndpoint to the request. *)
Definition answers_request (a : ApiUser) (req : AddReq) : Prop :=
  forall pg, apiuser_Projects (add_Body req) = [pg] ->
    membership_answer a (add_ProjectID req)
      (GenerateActualGroupNameFor (add_ProjectID req) (pg_GroupPrefix pg))
      (apiuser_Email (add_Body req)).

(** What adding a member did. *)
Definition member_added ctx (req : AddReq) w w' : Prop :=
  exists user invited project pg b,
    ctx_UserCR ctx = Some user /\ project_at w (add_ProjectID req) project /\
    registered w invited /\ EqualFold (user_Email invited) (apiuser_Email (add_Body req)) = true /\
    apiuser_Projects (add_Body req) = [pg] /\ pg_GroupPrefix pg ∈ AllGroupsPrefixes /\
    (user_IsAdmin user = true \/ EqualFold (user_Email invited) (user_Email user) = false) /\
    IsProjectServiceAccount (user_Email invited) = false /\
    (forall b0, member_of w project b0 -> EqualFold (binding_UserEmail b0) (user_Email invited) = false) /\
    binds_member b project (user_Email invited)
      (GenerateActualGroupNameFor (add_ProjectID req) (pg_GroupPrefix pg)) /\
    permitted w user (add_ProjectID req) VCreate KBinding (key_of KBinding b) /\
    created KBinding w w' b.

Lemma not_self (a b c : string) :
  EqualFold a b = true -> EqualFold b c = false -> EqualFold a c = false.
Proof.
  intros H1 H2. destruct (EqualFold a c) eqn:E; [|done].
  rewrite EqualFold_sym in H1. by rewrite (EqualFold_trans _ _ _ H1 E) in H2.
Qed.

Lemma AddEndpoint_spec parse ctx req w :
  runs (AddEndpoint UserInfoGetterFactory parse ctx req) w (fun r w' =>
    match r with
    | Ok a => member_added ctx req w w' /\ answers_request a req
    | Err _ => same_store w w'
    | Panic => False
    end).
Proof.
  unfold AddEndpoint. runs_step. eapply runs_mono; [apply requester_spec|]. cbn beta.
  intros r w1 [Hs1 H]. destruct r as [ui|e|]; cbn [andThen]; [|done|done].
  destruct H as (user & Hc & He & Ha). runs_step.
  eapply runs_mono; [apply AddReq_Validate_spec|]. cbn beta. intros r w2 [-> H].
  destruct r as [[]|e|]; cbn [andThen]; [|done|done]. destruct H as (pg & Hpg & _ & _ & Hro & Hem & Hself).
  unfold firstProject. rewrite Hpg. do 2 runs_step. cbn [andThen]. runs_step.
  eapply runs_mono; [apply invitedUser_spec|]. cbn beta. intros r w2 [Hs2 H].
  destruct r as [inv|e|]; cbn [andThen]; [|by etrans|done]. destruct H as [Hinv Hie].
  assert (same_store w w2) as H2 by (by etrans). runs_step.
  eapply httpErr_spec; [apply handler_GetProject|]. intros r w3 [Hs3 H].
  assert (same_store w w3) as H3 by (by etrans).
  destruct r as [project|e|]; cbn [andThen]; [|done|done]. destruct H as [_ Hpr]. runs_step.
  eapply httpErr_spec; [apply getMemberList_spec|]. intros r w4 [Hs4 H].
  assert (same_store w w4) as H4 by (by etrans).
  destruct r as [l|e|]; cbn [andThen]; [|done|done]. destruct l as [|b0 l]; [|by runs_step].
  runs_step. eapply httpErr_spec; [apply createBinding_spec|]. intros r w5 Hb.
  destruct r as [b|e|]; cbn [andThen]; [|by etrans|done]. runs_step.
  destruct Hb as ((user' & Hc' & Hperm) & Hsa & Hbm & Hcr). rewrite Hc in Hc'. injection Hc' as <-.
  destruct Hpr as [Hv Hn]. rewrite Hn in *.
  split; [|intros pg' Hpg'; rewrite Hpg in Hpg'; injection Hpg' as <-;
           destruct Hbm as (_ & Hbp & <- & _); by apply membership_answer_convert; [rewrite Hbp|]].
  exists user, inv, project, pg, b. split_and!; try done.
  - split; [by rewrite H2|done].
  - by rewrite Hs1.
  - rewrite He, Ha in Hself. destruct Hself as [?|Hself]; [by left|right]. by eapply not_self.
  - intros b0 Hm. eapply members_with_none; [exact H|]. by rewrite <- H3.
  - by rewrite H4.
  - by rewrite H4.
Qed.

(** What changing the role of a member did. *)
Definition member_edited ctx (req : EditReq) w w' : Prop :=
  let add := edit_AddReq req in
  exists user project pg b b',
    ctx_UserCR ctx = Some user /\ project_at w (add_ProjectID add) project /\
    apiuser_Projects (add_Body add) = [pg] /\ pg_GroupPrefix pg ∈ AllGroupsPrefixes /\
    (user_IsAdmin user = true \/ EqualFold (binding_UserEmail b) (user_Email user) = false) /\
    member_of w project b /\ EqualFold (binding_UserEmail b) (apiuser_Email (add_Body add)) = true /\
    strip KBinding b' = strip KBinding (binding_with_group
      (GenerateActualGroupNameFor (add_ProjectID add) (pg_GroupPrefix pg)) b) /\
    permitted w user (add_ProjectID add) VUpdate KBinding (key_of KBinding b) /\
    updated KBinding w w' b'.

Lemma EditEndpoint_spec parse ctx req w :
  runs (EditEndpoint UserInfoGetterFactory parse ctx req) w (fun r w' =>
    match r with
    | Ok a => member_edited ctx req w w' /\ answers_request a (edit_AddReq req)
    | Err _ => same_store w w'
    | Panic => False
    end).
Proof.
  unfold EditEndpoint. runs_step. eapply runs_mono; [apply requester_spec|]. cbn beta.
  intros r w1 [Hs1 H]. destruct r as [ui|e|]; cbn [andThen]; [|done|done].
  destruct H as (user & Hc & He & Ha). runs_step.
  eapply runs_mono; [apply EditReq_Validate_spec|]. cbn beta. intros r w2 [-> H].
  destruct r as [[]|e|]; cbn [andThen]; [|done|done]. destruct H as (pg & Hpg & _ & _ & Hro & Hem & Hself).
  unfold firstProject. rewrite Hpg. do 2 runs_step. cbn [andThen]. runs_step.
  eapply httpErr_spec; [apply handler_GetProject|]. intros r w2 [Hs2 H].
  assert (same_store w w2) as H2 by (by etrans).
  destruct r as [project|e|]; cbn [andThen]; [|done|done]. destruct H as [_ Hpr]. runs_step.
  eapply runs_mono; [apply invitedUser_spec|]. cbn beta. intros r w3 [Hs3 Hinv].
  assert (same_store w w3) as H3 by (by etrans).
  destruct r as [inv|e|]; cbn [andThen]; [|done|done]. destruct Hinv as [_ Hie]. runs_step.
  eapply httpErr_spec; [apply getMemberList_spec|]. intros r w4 [Hs4 H].
  assert (same_store w w4) as H4 by (by etrans).
  destruct r as [l|e|]; cbn [andThen]; [|done|done].
  destruct l as [|b [|]]; [by runs_step| |by runs_step].
  apply members_with_one in H as [Hm Hbe]. specialize (Hbe Hem).
  runs_step. eapply httpErr_spec; [apply updateBinding_spec|]. intros r w5 Hb.
  destruct r as [b'|e|]; cbn [andThen]; [|by etrans|done]. runs_step.
  destruct Hb as ((user' & Hc' & Hperm) & Hst & Hup). rewrite Hc in Hc'. injection Hc' as <-.
  destruct Hpr as [Hv Hn]. rewrite Hn in *.
  split; [|intros pg' Hpg'; rewrite Hpg in Hpg'; injection Hpg' as <-;
           destruct (strip_binding _ _ Hst) as (_ & Hbp & Hbg); cbn in Hbg; rewrite <- Hbg;
           apply membership_answer_convert;
           [rewrite Hbp; cbn; etrans; [apply Hm|done]|done]].
  exists user, project, pg, b, b'. split_and!; try done.
  - split; [by rewrite Hs1|done].
  - rewrite He, Ha in Hself. destruct Hself as [?|Hself]; [by left|right]. by eapply not_self.
  - by rewrite H3.
  - by rewrite H4.
  - by rewrite H4.
Qed.

(** What removing a member did. *)
Definition member_removed ctx (req : DeleteReq) w w' : Prop :=
  exists user target project b,
    ctx_UserCR ctx = Some user /\ project_at w (delete_ProjectID req) project /\
    view KUser w !! ("", delete_UserID req) = Some target /\ member_of w project b /\
    (user_Email target <> "" -> EqualFold (binding_UserEmail b) (user_Email target) = true) /\
    EqualFold (binding_UserEmail b) (user_Email user) = false /\
    permitted w user (delete_ProjectID req) VDelete KBinding ("", meta_Name (binding_meta b)) /\
    deleted KBinding w w' ("", meta_Name (binding_meta b)).

Lemma DeleteEndpoint_spec ctx req w :
  runs (DeleteEndpoint UserInfoGetterFactory ctx req) w (fun r w' =>
    match r with
    | Ok _ => member_removed ctx req w w'
    | Err _ => same_store w w'
    | Panic => False
    end).
Proof.
  unfold DeleteEndpoint. runs_guard; [done|]. runs_step.
  eapply httpErr_spec; [apply handler_GetProject|]. intros r w1 [Hs1 Hp].
  destruct r as [project|e|]; cbn [andThen]; [|done|done]. destruct Hp as [_ Hpr]. runs_step.
  eapply httpErr_spec; [apply users_UserByID_spec|]. intros r w2 [Hs2 Ht].
  assert (same_store w w2) as H2 by (by etrans).
  destruct r as [target|e|]; cbn [andThen]; [|done|done]. runs_step.
  eapply httpErr_spec; [apply getMemberList_spec|]. intros r w3 [Hs3 Hl].
  assert (same_store w w3) as H3 by (by etrans).
  destruct r as [l|e|]; cbn [andThen]; [|done|done].
  destruct l as [|b [|]]; [by runs_step| |by runs_step]. apply members_with_one in Hl as [Hm Hbe].
  runs_step. eapply runs_mono; [apply requester_spec|]. cbn beta. intros r w4 [Hs4 Hu].
  assert (same_store w w4) as H4 by (by etrans).
  destruct r as [ui|e|]; cbn [andThen]; [|done|done]. destruct Hu as (user & Hc & He & _).
  runs_guard; [done|]. eapply httpErr_spec; [apply deleteBinding_spec|]. intros r w5 Hb.
  destruct r as [[]|e|]; [|by etrans|done]. destruct Hb as ((user' & Hc' & Hperm) & Hdel).
  rewrite Hc in Hc'. injection Hc' as <-. exists user, target, project, b. rewrite He in *.
  split_and!; try done.
  - destruct Hs1 as [Hs1 _]. by rewrite Hs1.
  - by rewrite H2.
  - by rewrite H4.
  - by rewrite H4.
Qed.
End user_handlers_proofs.

(** ** Properties *)

Section user_handlers_properties.
Context {W : Type} {EL : ErrorLib} {P : SDK} {API : KubeAPI W} {ST : Store W}
        {MEMBERS : ProjectMemberProvider W} {USERS : UserProvider W}
        {PROJECTS : ProjectProvider W} {PPROJECTS : PrivilegedProjectProvider W}
        {MAPPER : ProjectMemberMapper W} {ELL : ErrorLibLaws EL}
        {LAWS : KubeAPILaws W} {MAPL : ProjectMemberMapperLaws W} {MEML : ProjectMemberProviderLaws W}
        {UL : UserProviderLaws W} {PRL : ProjectProviderLaws W}
        {PPL : PrivilegedProjectProviderLaws W}.
Implicit Types w : W.

(** An email is bound to the project at most once. *)
Definition one_membership w (project : Project) : Prop :=
  forall b b', member_of w project b -> member_of w project b' ->
    EqualFold (binding_UserEmail b) (binding_UserEmail b') = true -> b = b'.

(** A user is added to a project only by somebody who may create the binding
    there, under one of the known roles, and not by a user who is no
    administrator for themselves; the added user is registered and was no
    member.  Exactly one binding is created, and no email gets bound twice. *)
Theorem AddEndpoint_adds parse ctx req w :
  runs (AddEndpoint UserInfoGetterFactory parse ctx req) w (fun r w' =>
    match r with
    | Ok _ => member_added ctx req w w' /\
        forall project, project_at w (add_ProjectID req) project ->
          one_membership w project -> one_membership w' project
    | Err _ => same_store w w'
    | Panic => False
    end).
Proof.
  eapply runs_mono; [apply AddEndpoint_spec|]. cbn beta. intros [a|e|] w'; [|done|done].
  intros [H _]. split; [done|]. intros project [Hpv Hpn] Hone.
  destruct H as (user & inv & project' & pg & b & _ & [Hpv' _] & _ & _ & _ & _ & _ & _ & Hnone & (He & Hp & _) & _ & Hc).
  rewrite Hpv in Hpv'. injection Hpv' as <-. destruct Hc as (_ & Hv & _).
  assert (forall x, member_of w' project x -> x = b \/ member_of w project x) as Hold.
  { intros x ([n Hn] & Hx). rewrite Hv in Hn.
    apply lookup_insert_Some in Hn as [[_ <-]|[_ Hn]]; [by left|right]. split; [by exists n|done]. }
  intros x y [->|Hx]%Hold [->|Hy]%Hold Hxy; [done| | |by apply Hone].
  - rewrite EqualFold_sym, He in Hxy. by rewrite (Hnone y Hy) in Hxy.
  - rewrite He in Hxy. by rewrite (Hnone x Hx) in Hxy.
Qed.

(** The role of a member is changed only by somebody who may update the
    binding, and only an administrator changes their own; nothing but the group
    of this one binding of this project changes. *)
Theorem EditEndpoint_edits parse ctx req w :
  runs (EditEndpoint UserInfoGetterFactory parse ctx req) w (fun r w' =>
    match r with
    | Ok _ => member_edited ctx req w w' /\
        exists b b', updated KBinding w w' b' /\ bound w b /\
          binding_UserEmail b' = binding_UserEmail b /\
          binding_ProjectID b' = add_ProjectID (edit_AddReq req)
    | Err _ => same_store w w'
    | Panic => False
    end).
Proof.
  eapply runs_mono; [apply EditEndpoint_spec|]. cbn beta. intros [a|e|] w'; [|done|done].
  intros [H _]. split; [done|].
  destruct H as (user & project & pg & b & b' & _ & [_ Hpn] & _ & _ & _ & (Hb & Hp & _) & _ & Hst & _ & Hup).
  exists b, b'. apply strip_binding in Hst as (He & Hp' & _).
  split_and!; [done|done|done|]. rewrite Hp', <- Hpn. done.
Qed.

(** A member is removed only by somebody else who may delete the binding.
    When users have one binding per project, the removed user has none left
    there, hence no group through a binding. *)
Theorem DeleteEndpoint_removes ctx req w :
  runs (DeleteEndpoint UserInfoGetterFactory ctx req) w (fun r w' =>
    match r with
    | Ok _ => member_removed ctx req w w' /\
        (unique_bindings w ->
         (forall b, bound w b -> meta_Namespace (binding_meta b) = "" /\ meta_Finalizers (binding_meta b) = []) ->
         forall target, view KUser w !! ("", delete_UserID req) = Some target -> user_Email target <> "" ->
         binding_group w' (user_Email target) (delete_ProjectID req) "" /\
         forall b, bound w' b -> binds (user_Email target) (delete_ProjectID req) b = false)
    | Err _ => same_store w w'
    | Panic => False
    end).
Proof.
  eapply runs_mono; [apply DeleteEndpoint_spec|]. cbn beta. intros [[]|e|] w'; [|done|done].
  intros H. split; [done|]. intros Huniq Hcl target Ht Hne.
  destruct H as (user & target' & project & b & _ & [_ Hpn] & Ht' & (Hb & Hbp & _) & He & _ & _ & Hdel).
  assert (target' = target) as -> by (assert (Some target' = Some target) as [= ->] by (by rewrite <- Ht', <- Ht); done).
  specialize (He Hne). destruct Hdel as (Hkeep & _ & old & Hold & Hgone).
  destruct Hb as [n Hn]. pose proof (view_key KBinding _ _ _ Hn) as Hkey.
  destruct (Hcl b) as [Hns Hfin]; [by exists n|].
  assert (n = ("", meta_Name (binding_meta b))) as -> by (rewrite <- Hkey; unfold key_of; cbn; by rewrite Hns).
  assert (old = b) as -> by (assert (Some old = Some b) as [= ->] by (by rewrite <- Hold, <- Hn); done).
  apply proj1 in Hgone; specialize (Hgone Hfin).
  assert (forall x, bound w' x -> binds (user_Email target) (delete_ProjectID req) x = false) as Hnone.
  { intros x [m Hm]. destruct (decide (m = ("", meta_Name (binding_meta b)))) as [->|Hmn].
    { assert (Some x = None) as [=]. by rewrite <- Hm. }
    specialize (Hkeep m Hmn). assert (view KBinding w !! m = Some x) as Hm' by (etrans; [symmetry; exact Hkeep|exact Hm]).
    destruct (binds _ _ x) eqn:Ex; [|done]. exfalso.
    assert (x = b) as ->.
    { eapply Huniq; [by exists m|by exists ("", meta_Name (binding_meta b))|exact Ex|].
      unfold binds. rewrite He. cbn. apply bool_decide_eq_true. by rewrite Hbp. }
    apply Hmn. by rewrite <- (view_key KBinding _ _ _ Hm'), Hkey. }
  split; [|done]. right. by split.
Qed.
End user_handlers_properties.

Definition anyAddress : string -> option error := fun _ => None.
Definition memberRequest (id email role : string) : AddReq :=
  MkAddReq "p1" (MkApiUser (apiMeta id "" zero_time None) email false false
    [MkProjectGroup "p1" role] [] None None []).

Lemma AddEndpoint_adds_witness :
  let req := memberRequest "" "Alice@example.com" "viewers" in
  let run := AddEndpoint UserInfoGetterFactory anyAddress bobCtx req sample in
  exists a, run.1 = Ok a /\ apiuser_Projects a = [MkProjectGroup "p1" "viewers"] /\
    member_added bobCtx req sample run.2.
Proof.
  intros req run. run_ok run a E. exists a. split; [exact E|].
  assert (apiuser_Projects <$> (match run.1 with Ok a => Some a | _ => None end)
            = Some [MkProjectGroup "p1" "viewers"]) as Ea by (vm_compute; reflexivity).
  rewrite E in Ea. injection Ea as Ea. split; [exact Ea|].
  run_thm run E (AddEndpoint_adds anyAddress bobCtx req sample) H. destruct H as [H _]. exact H.
Defined.

Lemma EditEndpoint_edits_witness :
  let req := MkEditReq (memberRequest "u-bob" "bob@example.com" "owners") "u-bob" in
  let run := EditEndpoint UserInfoGetterFactory anyAddress aliceCtx req sample in
  (exists a, run.1 = Ok a) /\ member_edited aliceCtx req sample run.2 /\
  (EditEndpoint UserInfoGetterFactory anyAddress bobCtx req sample).1
    = Err (EHTTP (MkHTTPErr 403 "you cannot assign yourself to a different group" [])).
Proof.
  intros req run. run_ok run a E. split; [exists a; exact E|]. split; [|vm_compute; reflexivity].
  run_thm run E (EditEndpoint_edits anyAddress aliceCtx req sample) H. destruct H as [H _]. exact H.
Defined.

Lemma DeleteEndpoint_removes_witness :
  let req := MkDeleteReq "p1" "u-bob" in
  let run := DeleteEndpoint UserInfoGetterFactory aliceCtx req sample in
  run.1 = Ok tt /\ binding_group run.2 "bob@example.com" "p1" "".
Proof.
  intros req run. assert (run.1 = Ok tt) as E by (vm_compute; reflexivity). split; [exact E|].
  run_thm run E (DeleteEndpoint_removes aliceCtx req sample) H. destruct H as [_ H].
  assert (view KUser sample !! ("", "u-bob") = Some bob) as Hb by (vm_compute; reflexivity).
  destruct (H sample_unique) with (target := bob) as [H' _]; [|exact Hb|discriminate|exact H'].
  intros b [->| ->]%sample_bound; split; reflexivity.
Defined.
