(* ===== verification/Watcher.v ===== *)
(** The watcher that tells websockets about changes of users:
    watcher/kubernetes/user.go and settings.go, and the subscription of
    handler/websocket/user.go.  An informer calls the handlers; subscribers hear
    what is published under their hash. *)
From S2P Require Export UserHandlers.
From Stdlib Require Import Ascii.

(** hash/fnv.New64: FNV-1 of 64 bits. *)
Definition fnv64 (s : string) : Z :=
  fold_left (fun h c => Z.lxor (h * 1099511628211 mod 2 ^ 64) (Z.of_nat (nat_of_ascii c)))%Z
    (String.list_ascii_of_string s) 14695981039346656037%Z.

(** The test vectors of the FNV paper. *)
Example fnv64_empty : fnv64 "" = 0xcbf29ce484222325%Z. Proof. reflexivity. Qed.
Example fnv64_a : fnv64 "a" = 0xaf63bd4c8601b7be%Z. Proof. vm_compute. reflexivity. Qed.
Example fnv64_foobar : fnv64 "foobar" = 0x340d8765a4dda9c2%Z. Proof. vm_compute. reflexivity. Qed.

(** Writing to the hash never fails. *)
Definition CalculateHash (id : string) : Z := fnv64 id.

(** The fields of Spec; a nil list is an empty one. *)
Definition user_spec (u : User) :=
  (user_Name u, user_Email u, user_Groups u, user_IsAdmin u, user_IsGlobalViewer u, user_Project u,
   user_InvalidTokensReference u, user_ReadAnnouncements u, user_Settings u).
#[export] Instance SecretRef_eq_dec : EqDecision SecretRef.
Proof. solve_decision. Defined.

(** [published] is what the publisher was given, oldest first: the node of the
    tree and the data, nil for a deleted user. *)
Record UserWatcher := MkUserWatcher {
  userCache : gmap Z User;
  published : list (Z * option User) }.
Definition NewUserWatcher : UserWatcher := MkUserWatcher ∅ [].

Definition Publish (data : option User) (hash : Z) (w : UserWatcher) : UserWatcher :=
  MkUserWatcher (userCache w) (published w ++ [(hash, data)]).

Inductive WatchEvent := WatchAdded | WatchModified | WatchDeleted.
Definition updateCache (event : WatchEvent) (hash : Z) (user : User) (w : UserWatcher) : UserWatcher :=
  match event with
  | WatchAdded | WatchModified => MkUserWatcher (<[ hash := user ]> (userCache w)) (published w)
  | WatchDeleted => MkUserWatcher (delete hash (userCache w)) (published w)
  end.

(** The handlers of the informer; [None] is an object of another type. *)
Definition UserWatcher_OnAdd (obj : option User) (w : UserWatcher) : UserWatcher :=
  match obj with
  | None => w
  | Some user =>
      let idHash := CalculateHash (user_Email user) in
      updateCache WatchAdded idHash user (Publish (Some user) idHash w)
  end.

(** The time that the code copies into the cached user before it compares is no
    part of Spec. *)
Definition UserWatcher_OnUpdate (newObj : option User) (w : UserWatcher) : UserWatcher :=
  match newObj with
  | None => w
  | Some user =>
      let idHash := CalculateHash (user_Email user) in
      match userCache w !! idHash with
      | None => Publish (Some user) idHash w
      | Some cachedUser =>
          let cachedUser := user_with_last_seen (user_LastSeen user) cachedUser in
          updateCache WatchModified idHash user
            (if negb (bool_decide (user_spec cachedUser = user_spec user)) then Publish (Some user) idHash w else w)
      end
  end.

Definition UserWatcher_OnDelete (obj : option User) (w : UserWatcher) : UserWatcher :=
  match obj with
  | None => w
  | Some user =>
      let idHash := CalculateHash (user_Email user) in
      updateCache WatchDeleted idHash user (Publish None idHash w)
  end.

Inductive UserEvent := Added (obj : option User) | Updated (obj : option User) | Deleted (obj : option User).
Definition handle_event (w : UserWatcher) (e : UserEvent) : UserWatcher :=
  match e with
  | Added obj => UserWatcher_OnAdd obj w
  | Updated obj => UserWatcher_OnUpdate obj w
  | Deleted obj => UserWatcher_OnDelete obj w
  end.

(** What a subscriber under [hash] hears. *)
Definition delivered (hash : Z) (w : UserWatcher) : list (option User) :=
  (List.filter (fun p => bool_decide (p.1 = hash)) (published w)).*2.

(** ** The settings: only the global ones are published *)

Record SettingsWatcher := MkSettingsWatcher { settings_published : list (option KubermaticSetting) }.
Inductive DeltaType := DeltaAdded | DeltaUpdated | DeltaDeleted.
Definition SettingsWatcher_onEvent `{SDK} (delta : DeltaType) (obj : option KubermaticSetting) (w : SettingsWatcher)
    : SettingsWatcher :=
  match obj with
  | None => w
  | Some settings =>
      if bool_decide (meta_Name (setting_meta settings) = GlobalSettingsName) then
        MkSettingsWatcher (settings_published w ++
          [match delta with DeltaAdded | DeltaUpdated => Some settings | DeltaDeleted => None end])
      else w
  end.

(** ** handler/websocket/user.go *)

Section websocket.
Context {W : Type} {EL : ErrorLib} {USERS : UserProvider W} {MAPPER : ProjectMemberMapper W}.

(** The subscription; the message for a deleted user is null. *)
Definition onUserChange (initialUser : User) (rawUser : option User) : M W error (option ApiUser) :=
  match rawUser with
  | None => mret None
  | Some user =>
      userBindings ← mapper_MappingsFor (user_Email user);
      groupBindings ← mapper_GroupMappingsFor (user_Groups initialUser);
      mret (Some (ConvertInternalUserToExternal user true userBindings groupBindings))
  end.

(** The first message, the hash of the subscription and what it sends. *)
Definition WriteUser (userEmail : string)
    : M W error (ApiUser * Z * (option User -> M W error (option ApiUser))) :=
  initialUser ← users_UserByEmail userEmail;
  userBindings ← mapper_MappingsFor (user_Email initialUser);
  groupBindings ← mapper_GroupMappingsFor (user_Groups initialUser);
  let initialExtUser := ConvertInternalUserToExternal initialUser true userBindings groupBindings in
  let hashID := CalculateHash userEmail in
  mret (initialExtUser, hashID, onUserChange initialUser).
End websocket.

(** ** What a subscriber hears *)

(** The hash of an event, and what it tells of the user. *)
Definition event_of (hash : Z) (e : UserEvent) : option (option User) :=
  match e with
  | Added (Some u) | Updated (Some u) => if bool_decide (CalculateHash (user_Email u) = hash) then Some (Some u) else None
  | Deleted (Some u) => if bool_decide (CalculateHash (user_Email u) = hash) then Some None else None
  | _ => None
  end.
Definition states_of (hash : Z) (es : list UserEvent) : list (option User) := omap (event_of hash) es.
Definition spec_of (o : option User) := match o with Some u => Some (user_spec u) | None => None end.
Definition specs (l : list (option User)) := spec_of <$> l.

(** A list without the elements that repeat the one before. *)
Fixpoint squeeze {A} `{EqDecision A} (prev : option A) (l : list A) : list A :=
  match l with
  | [] => []
  | x :: l => if bool_decide (prev = Some x) then squeeze prev l else x :: squeeze (Some x) l
  end.

(** The events of an informer for the objects of one hash: added, changed any
    number of times, deleted, and again. *)
Fixpoint informed (hash : Z) (known : bool) (es : list UserEvent) : Prop :=
  match es with
  | [] => True
  | e :: es =>
      match event_of hash e with
      | None => informed hash known es
      | Some None => known = true /\ informed hash false es
      | Some (Some _) => (match e with Added _ => known = false | _ => known = true end) /\ informed hash true es
      end
  end.

(** What the cache says of a hash after [prev] was heard. *)
Definition cached (hash : Z) (prev : option (option User)) (w : UserWatcher) : Prop :=
  match prev with
  | Some (Some u) => exists c, userCache w !! hash = Some c /\ user_spec c = user_spec u
  | _ => userCache w !! hash = None
  end.

Lemma delivered_publish hash data h w :
  delivered hash (Publish data h w) = delivered hash w ++ (if bool_decide (h = hash) then [data] else []).
Proof.
  unfold delivered, Publish. cbn. rewrite List.filter_app, fmap_app. cbn. by case_bool_decide.
Qed.
Lemma delivered_cache hash ev h u w : delivered hash (updateCache ev h u w) = delivered hash w.
Proof. by destruct ev. Qed.

(** An event of another hash says nothing. *)
Lemma event_of_none hash w e :
  event_of hash e = None ->
  delivered hash (handle_event w e) = delivered hash w /\ userCache (handle_event w e) !! hash = userCache w !! hash.
Proof.
  destruct e as [[u|]|[u|]|[u|]]; cbn [event_of handle_event]; try done; case_bool_decide as Hh; try done; intros _.
  - unfold UserWatcher_OnAdd. rewrite delivered_cache, delivered_publish, bool_decide_eq_false_2 by done.
    rewrite app_nil_r. split; [done|]. by apply lookup_insert_ne.
  - unfold UserWatcher_OnUpdate. destruct (userCache w !! _); [|by rewrite delivered_publish, bool_decide_eq_false_2, app_nil_r].
    rewrite delivered_cache. case_bool_decide; cbn [negb updateCache userCache].
    + split; [done|]. by apply lookup_insert_ne.
    + rewrite delivered_publish, bool_decide_eq_false_2, app_nil_r by done. split; [done|]. by apply lookup_insert_ne.
  - unfold UserWatcher_OnDelete. rewrite delivered_cache, delivered_publish, bool_decide_eq_false_2 by done.
    rewrite app_nil_r. split; [done|]. by apply lookup_delete_ne.
Qed.

(** What an event of the hash publishes, and what the cache holds then. *)
Lemma event_of_some hash w e o :
  event_of hash e = Some o ->
  userCache (handle_event w e) !! hash =
    (match o, e, userCache w !! hash with
     | Some u, Added _, _ | Some u, _, Some _ => Some u
     | _, _, _ => None
     end) /\
  delivered hash (handle_event w e) = delivered hash w ++
    (match e, o, userCache w !! hash with
     | Updated _, Some u, Some c => if bool_decide (user_spec c = user_spec u) then [] else [o]
     | _, _, _ => [o]
     end).
Proof.
  destruct e as [[u|]|[u|]|[u|]]; cbn [event_of handle_event]; try done; case_bool_decide as Hh; try done; intros [= <-].
  - unfold UserWatcher_OnAdd. rewrite delivered_cache, delivered_publish, Hh, bool_decide_eq_true_2 by done.
    split; [|done]. cbn [updateCache userCache Publish]. by rewrite lookup_insert_eq.
  - unfold UserWatcher_OnUpdate. rewrite Hh. destruct (userCache w !! hash) as [c|] eqn:Ec.
    + rewrite delivered_cache. change (user_spec (user_with_last_seen (user_LastSeen u) c)) with (user_spec c).
      case_bool_decide; cbn [negb].
      * rewrite app_nil_r. split; [|done]. cbn [updateCache userCache Publish]. by rewrite lookup_insert_eq.
      * rewrite delivered_publish, bool_decide_eq_true_2 by done. split; [|done]. cbn [updateCache userCache Publish]. by rewrite lookup_insert_eq.
    + by rewrite delivered_publish, bool_decide_eq_true_2 by done.
  - unfold UserWatcher_OnDelete. rewrite delivered_cache, delivered_publish, Hh, bool_decide_eq_true_2 by done.
    split; [|done]. cbn [updateCache userCache Publish]. by rewrite lookup_delete_eq.
Qed.

(** A subscriber is up to date: the last message tells what the last event told. *)
Lemma handled_up_to_date hash es :
  let w := fold_left handle_event es NewUserWatcher in
  last (specs (delivered hash w)) = last (specs (states_of hash es)) /\
  forall c, userCache w !! hash = Some c -> last (specs (delivered hash w)) = Some (Some (user_spec c)).
Proof.
  induction es as [|e es [IH1 IH2]] using rev_ind; [by split|]. cbv zeta. rewrite fold_left_app. cbn [fold_left].
  set (w := fold_left handle_event es NewUserWatcher) in *. unfold states_of. rewrite omap_app. cbn [omap list_omap].
  unfold specs in *. destruct (event_of hash e) as [o|] eqn:Ee.
  - destruct (event_of_some hash w e o Ee) as [-> ->]. rewrite !fmap_app, (last_app _ (spec_of <$> [o])). cbn [last fmap list_fmap].
    assert (last (spec_of <$> delivered hash w ++ [o]) = Some (spec_of o)) as Hpub by (rewrite fmap_app; apply last_snoc).
    rewrite fmap_app in Hpub.
    destruct e as [[u|]|[u|]|[u|]]; cbn in Ee; try done; case_bool_decide; try done; injection Ee as <-.
    + split; [done|]. by intros c [= <-].
    + destruct (userCache w !! hash) as [c|] eqn:Ec; [|by split].
      case_bool_decide as Hs; [|split; [done|by intros c' [= <-]]].
      cbn [fmap list_fmap]. rewrite app_nil_r, (IH2 c) by done. rewrite Hs. split; [done|by intros c' [= <-]].
    + by split.
  - destruct (event_of_none hash w e Ee) as [-> ->]. rewrite app_nil_r. by split.
Qed.

(** From an informer a subscriber hears every change and nothing else. *)
Lemma handled_squeeze hash es : forall prev w,
  cached hash prev w -> informed hash (match prev with Some (Some _) => true | _ => false end) es ->
  exists l, delivered hash (fold_left handle_event es w) = delivered hash w ++ l /\
    specs l = squeeze (spec_of <$> prev) (specs (states_of hash es)).
Proof.
  induction es as [|e es IH]; intros prev w Hc Hi; [exists []; by rewrite app_nil_r|].
  cbn [fold_left]. cbn [informed] in Hi. unfold states_of. cbn [omap list_omap]. fold (states_of hash es).
  destruct (event_of hash e) as [o|] eqn:Ee.
  - destruct (event_of_some hash w e o Ee) as [Hcache Hdel].
    destruct (IH (Some o) (handle_event w e)) as (l & Hl & Hs).
    { destruct o as [u|]; cbn [cached]; rewrite Hcache; [|done].
      destruct e as [?|?|?]; [by exists u| |]; (destruct prev as [[u'|]|]; [|by destruct Hi..]);
        destruct Hc as (c & -> & _); by exists u. }
    { by destruct o, Hi. }
    rewrite Hl, Hdel. cbn [specs fmap list_fmap squeeze].
    destruct e as [[u|]|[u|]|[u|]]; cbn in Ee; try done; case_bool_decide as Hh; try done; injection Ee as <-.
    + destruct Hi as [Hp _]. rewrite bool_decide_eq_false_2 by (by destruct prev as [[?|]|]).
      eexists. rewrite <- (assoc_L (++)). split; [done|]. cbn. f_equal. exact Hs.
    + destruct prev as [[u'|]|]; [|by destruct Hi..]. destruct Hc as (c & Hc & Hcu). rewrite Hc.
      cbn [fmap option_fmap option_map spec_of]. rewrite Hcu. case_bool_decide as Hu.
      * rewrite bool_decide_eq_true_2 by (by rewrite Hu). rewrite app_nil_r. exists l. split; [done|].
        rewrite Hs. cbn. by rewrite Hu.
      * rewrite bool_decide_eq_false_2.
        2:{ intros Heq. apply Hu. exact (f_equal (fun o => match o with Some (Some s) => s | _ => user_spec u end) Heq). }
        eexists. rewrite <- (assoc_L (++)). split; [done|].
        cbn. f_equal. exact Hs.
    + destruct prev as [[u'|]|]; [|by destruct Hi..]. rewrite bool_decide_eq_false_2 by done.
      eexists. rewrite <- (assoc_L (++)). split; [done|]. cbn. f_equal. exact Hs.
  - destruct (event_of_none hash w e Ee) as [Hdel Hcache]. destruct (IH prev (handle_event w e)) as (l & Hl & Hs).
    { unfold cached in *. by rewrite Hcache. }
    { done. }
    exists l. by rewrite Hl, Hdel.
Qed.

(** C30: whatever events the watcher handles, the last message to the subscribers
    of a hash tells the state of the user after the last event; and when the events
    are those of an informer, the messages are exactly the changes of Spec: the
    states that the events tell, without the repetitions (a user seen again). *)
Theorem subscribers_hear_changes hash es :
  let heard := specs (delivered hash (fold_left handle_event es NewUserWatcher)) in
  last heard = last (specs (states_of hash es)) /\
  (informed hash false es -> heard = squeeze None (specs (states_of hash es))).
Proof.
  cbv zeta. split; [apply handled_up_to_date|]. intros Hi.
  destruct (handled_squeeze hash es None NewUserWatcher) as (l & -> & Hs); [done|done|]. exact Hs.
Qed.

Lemma subscribers_hear_changes_witness :
  let events := [Added (Some bob); Updated (Some (user_with_last_seen 5%Z bob));
                 Updated (Some (user_with_groups [] bob)); Deleted (Some bob)] in
  let hash := CalculateHash "bob@example.com" in
  informed hash false events /\
  specs (delivered hash (fold_left handle_event events NewUserWatcher)) =
    [Some (user_spec bob); Some (user_spec (user_with_groups [] bob)); None].
Proof.
  intros events hash. assert (informed hash false events) as Hi by (vm_compute; tauto). split; [exact Hi|].
  rewrite (proj2 (subscribers_hear_changes hash events) Hi). vm_compute. reflexivity.
Defined.

(** ** Findings *)

(** A token that spells the email in capitals: the user is found, the changes are
    published under the hash of the stored spelling. *)
Example capital_email_unheard :
  EqualFold "Bob@Example.com" "bob@example.com" = true /\
  CalculateHash "Bob@Example.com" <> CalculateHash "bob@example.com".
Proof. split; vm_compute; [reflexivity|discriminate]. Qed.

(** The subscription looks up the groups that the user had when the websocket was
    opened: a user who has left a group is still told its projects, which the
    endpoint of the user no longer tells. *)
Example websocket_tells_old_groups :
  let member := user_with_groups ["devs"] alice in let left := user_with_groups [] alice in
  exists heard told, (onUserChange member (Some left) sample).1 = Ok (Some heard) /\
    (user_GetEndpoint (ctx_with_UserCR left emptyCtx) sample).1 = Ok told /\
    pg_ID <$> apiuser_Projects heard = ["p1"] /\ pg_ID <$> apiuser_Projects told = [].
Proof. eexists _, _. vm_compute. done. Qed.
