(* ===== verification/Websocket.v ===== *)
(** Websockets: handler/routes_v1_websocket.go.  Who may open one, which pages
    may, and how many web terminals a user may have open.  The library of the
    protocol (gorilla/websocket) and the clients of user clusters are parameters. *)
From S2P Require Export Watcher Redirect Seeds SSHHandlers Md5.
From Stdlib Require Import Ascii.

(** ** Origins *)

Definition AddrError (addr why : string) : error := ENew ("address " +:+ addr +:+ ": " +:+ why).

(** net.SplitHostPort *)
Definition net_SplitHostPort (hostport : string) : result error (string * string) :=
  let err why := Err (AddrError hostport why) in
  match CutLast hostport ":"%char with
  | None => err "missing port in address"
  | Some (before, port) =>
      if HasPrefix hostport "[" then
        let '(inside, after, found) := Cut hostport "]"%char in
        if negb found then err "missing ']' in address"
        else if is_empty after then err "missing port in address"
        else if bool_decide (after = ":" +:+ port) then
          let host := drop_string 1 inside in
          if ContainsChar host "["%char || ContainsChar port "["%char then err "unexpected '[' in address"
          else if ContainsChar port "]"%char then err "unexpected ']' in address"
          else Ok (host, port)
        else if HasPrefix after ":" then err "too many colons in address" else err "missing port in address"
      else if ContainsChar before ":"%char then err "too many colons in address"
      else if ContainsChar hostport "["%char then err "unexpected '[' in address"
      else if ContainsChar hostport "]"%char then err "unexpected ']' in address"
      else Ok (before, port)
  end.

Section origin.
Context {IP : IPAddr}.

(** The CheckOrigin of the upgrader: the values of the header Origin, and r.Host. *)
Definition CheckOrigin (origin : list string) (host : string) : bool :=
  match origin with
  | [] => true
  | o :: _ =>
      match url_Parse o with
      | Ok u =>
          if bool_decide (url_Host u = host) then true else
          match net_SplitHostPort host with
          | Ok (h, _) => bool_decide (url_Hostname u = h)
          | _ => false
          end
      | _ => false
      end
  end.
End origin.

(** ** The connections that are open *)

(** map[string]int: the connections per user and cluster. *)
Definition connections : Type := gmap string Z.
Definition newConnections : connections := ∅.
Definition getActiveConnections (key : string) (l : connections) : Z := default 0%Z (l !! key).
Definition increaseActiveConnections (key : string) (l : connections) : connections :=
  let l := match l !! key with None => <[ key := 0%Z ]> l | Some _ => l end in
  <[ key := (getActiveConnections key l + 1)%Z ]> l.
Definition decreaseActiveConnections (key : string) (l : connections) : connections :=
  let l := match l !! key with None => <[ key := 0%Z ]> l | Some _ => l end in
  if (0 <? getActiveConnections key l)%Z then <[ key := (getActiveConnections key l - 1)%Z ]> l else l.
Definition releaseMemory (l : connections) : connections :=
  foldl (fun l key => delete key l) l (map_to_list l).*1.

Definition maxNumberOfTerminalActiveConnectionsPerUser : Z := 5.

(** ** The handlers *)

(** A request to open a websocket: the values of its header Origin, and the
    variables of its route. *)
Record WsRequest := MkWsRequest {
  ws_http : Request;
  ws_Origin : list string;
  ws_vars : gmap string string }.

Definition Vars (req : WsRequest) (name : string) : string := default "" (ws_vars req !! name).
Definition DecodeClusterID (req : WsRequest) : result error string :=
  let clusterID := Vars req "cluster_id" in
  if is_empty clusterID then Err (ENew "'cluster_id' parameter is required but was not provided") else Ok clusterID.

Definition terminalReq_GetSeedCluster (clusterID : string) : SeedCluster := MkSeedCluster "" clusterID.
Definition EncodeUserEmailtoID (email : string) : string := md5_hex email.
Definition KubeconfigSecretName (userEmailID : string) : string := "kubeconfig-" +:+ userEmailID.

Section handlers.
Context {W CP OV Cl Client : Type} {EL : ErrorLib} {IP : IPAddr} {P : SDK}
        {USERS : UserProvider W} {PROJECTS : ProjectProvider W} {PPROJECTS : PrivilegedProjectProvider W}
        {SETTINGS : SettingsProvider W} {MAPPER : ProjectMemberMapper W}.
Variable tokenVerifier : TokenVerifierFn W.
Variable tokenExtractor : TokenExtractorFn.

Definition verifyAuthorizationToken (req : WsRequest) : M W error ApiUser :=
  token ← lift (tokenExtractor (ws_http req));
  claims ← tokenVerifier token;
  _ ← throwIf (is_empty (claims_Subject claims)) utilerrors_NewNotAuthorized;
  mret (apiUserNamed (claims_Name claims) (claims_Email claims) []).

(** [upgrader.Upgrade]: given the answer of CheckOrigin, the upgrader opens the
    websocket or fails; the documentation: a false answer fails the request. *)
Variable Upgrade : bool -> WsRequest -> M W error unit.
Definition upgrade (req : WsRequest) : M W error unit :=
  Upgrade (CheckOrigin (ws_Origin req) (req_Host (ws_http req))) req.

(** The errors are logged; the writers run beside the reader of the websocket. *)
Definition getSettingsWatchHandler {A} (writer : M W error A) (req : WsRequest) : M W error A :=
  _ ← verifyAuthorizationToken req;
  _ ← upgrade req;
  writer.
Definition getUserWatchHandler {A} (writer : string -> M W error A) (req : WsRequest) : M W error A :=
  user ← verifyAuthorizationToken req;
  _ ← upgrade req;
  writer (apiuser_Email user).

(** The cluster provider that the handler found, as a reader of clusters. *)
Variables (clusters_get : CP -> UserInfo -> string -> option ClusterGetOptions -> M W error Cl)
          (clusters_getUnsecured : CP -> Project -> string -> option ClusterGetOptions -> M W error Cl).
Definition reader (cp : CP) : ClusterReader W :=
  {| ReadCluster := Cl; clusters_Get := clusters_get cp; clusters_GetUnsecured := clusters_getUnsecured cp |}.
Variable userInfoGetter : UserInfoGetter W.

(** *** The web terminal *)

Variable SeedInvalidPhase : string.
Variable order : gmap string Seed -> list Seed.
Variable clusterProviderGetter : GetterOf W CP.
Variable IsCluster : CP -> string -> M W error bool.
Variable seedsGetter : SeedsGetter W.
Variable oidcIssuerVerifierGetter : GetterOf W OV.
(** [clusterProvider.(provider.PrivilegedClusterProvider)] holds. *)
Variable isPrivileged : CP -> bool.
(** The clients of a user cluster, and the secret of the user in it. *)
Variables GetAdminK8sClientForUserCluster GetAdminClientConfigForUserCluster GetAdminClientForUserCluster :
  CP -> Cl -> M W error Client.
Variable secret_Get : Client -> string -> M W error Secret.

(** What the handler gives to the writer of the terminal. *)
Record Terminal := MkTerminal {
  term_client : Client;
  term_userEmailID : string;
  term_cluster : Cl;
  term_options : option WebTerminalOptions;
  term_oidcIssuerVerifier : OV;
  term_kubeconfigSecret : Secret }.

(** How a request ends whose websocket is open: the pool is full, the secret of
    the user did not come up, or the terminal runs. *)
Inductive TerminalOutcome :=
| ConnectionPoolExceeded
| NoKubeconfigSecret
| TerminalOpened (t : Terminal).

(** wait.PollUntilContextTimeout, immediately and every five seconds for five
    minutes: 61 polls at most. *)
Fixpoint WaitFor {A} (polls : nat) (callback : M W error A) : M W error (option A) :=
  match polls with
  | O => mret None
  | S polls =>
      got ← attempt callback;
      match got with
      | inr a => mret (Some a)
      | inl _ => WaitFor polls callback
      end
  end.
Definition secretPolls : nat := 61.

Definition connectionKey (projectID clusterID email : string) : string :=
  projectID +:+ "-" +:+ clusterID +:+ "-" +:+ email.

(** The checks before the websocket opens. *)
Definition admitTerminal (req : WsRequest) : M W error (ApiUser * string * string * (Client -> Secret -> Terminal) * Client) :=
  settings ← settings_GetGlobalSettings;
  let webTerminalEnabled :=
    match setting_WebTerminalOptions settings with
    | Some options => default false (wto_Enabled options)
    | None => false
    end in
  _ ← throwIf (negb webTerminalEnabled) (utilerrors_New 403 "Web Terminal is disabled by the global settings");
  authenticatedUser ← verifyAuthorizationToken req;
  clusterID ← lift (DecodeClusterID req);
  let projectID := Vars req "project_id" in
  got ← GetClusterProvider SeedInvalidPhase order clusterProviderGetter IsCluster
          (Some (terminalReq_GetSeedCluster clusterID)) seedsGetter;
  let clusterProvider := got.1 in
  oidcIssuerVerifier ← GetOIDCIssuerVerifier SeedInvalidPhase order clusterProviderGetter IsCluster
          oidcIssuerVerifierGetter seedsGetter clusterID;
  _ ← (if isPrivileged clusterProvider then mret tt else panic);
  user ← users_UserByEmail (apiuser_Email authenticatedUser);
  let ctx := ctx_with_UserCR user emptyCtx in
  cluster ← GetCluster (CLUSTERS := reader clusterProvider) userInfoGetter ctx projectID clusterID (Some {| CheckInitStatus := true |});
  let userEmailID := EncodeUserEmailtoID (apiuser_Email authenticatedUser) in
  _ ← GetAdminK8sClientForUserCluster clusterProvider cluster;
  _ ← GetAdminClientConfigForUserCluster clusterProvider cluster;
  client ← GetAdminClientForUserCluster clusterProvider cluster;
  mret (authenticatedUser, projectID, clusterID,
        fun client secret => MkTerminal client userEmailID cluster (setting_WebTerminalOptions settings)
                               oidcIssuerVerifier secret, client).

(** The handler up to the terminal: the connections when it runs. *)
Definition getTerminalWatchHandler (maxNumberOfConnections : Z) (connectionsPerUser : connections) (req : WsRequest)
    : M W error (TerminalOutcome * connections) :=
  admitted ← admitTerminal req;
  let '(authenticatedUser, projectID, clusterID, terminal, client) := admitted in
  _ ← upgrade req;
  let key := connectionKey projectID clusterID (apiuser_Email authenticatedUser) in
  if (maxNumberOfConnections <=? getActiveConnections key connectionsPerUser)%Z
  then mret (ConnectionPoolExceeded, connectionsPerUser) else
  let connectionsPerUser := increaseActiveConnections key connectionsPerUser in
  found ← WaitFor secretPolls
            (secret_Get client (KubeconfigSecretName (EncodeUserEmailtoID (apiuser_Email authenticatedUser))));
  match found with
  | None => mret (NoKubeconfigSecret, decreaseActiveConnections key connectionsPerUser)
  | Some kubeconfigSecret => mret (TerminalOpened (terminal client kubeconfigSecret), connectionsPerUser)
  end.
End handlers.

(** ** Lemmas *)

Lemma Cut_found s c a b : Cut s c = (a, b, true) -> s = a +:+ String c b.
Proof.
  revert a b. induction s as [|d s IH]; intros a b; cbn; [done|]. case_bool_decide as Hd.
  - intros [= <- <-]. by subst.
  - destruct (Cut s c) as [[a' b'] f] eqn:E. cbn. intros [= <- <- ->]. by rewrite (IH a' b' eq_refl).
Qed.

Lemma HasPrefix_bracket s : HasPrefix s "[" = true -> s = "[" +:+ drop_string 1 s.
Proof. by intros [t ->]%HasPrefix_inv. Qed.

(** The host of an address, with or without its brackets. *)
Lemma net_SplitHostPort_host hp h p :
  net_SplitHostPort hp = Ok (h, p) -> hp = h +:+ ":" +:+ p \/ hp = "[" +:+ h +:+ "]:" +:+ p.
Proof.
  unfold net_SplitHostPort. destruct (CutLast hp ":") as [[before port]|] eqn:Ec; [|done].
  apply CutLast_some in Ec as [Hp _]. destruct (HasPrefix hp "[") eqn:Eb.
  - destruct (Cut hp "]") as [[inside after] found] eqn:Ei. destruct found; cbn [negb]; [|done].
    destruct (is_empty after); [done|]. case_bool_decide as Ha; [|by destruct (HasPrefix after ":")].
    destruct (_ || _); [done|]. destruct (ContainsChar port "]"); [done|]. intros [= <- <-]. right.
    apply Cut_found in Ei. subst after.
    assert (HasPrefix inside "[" = true) as Hi.
    { rewrite Ei in Eb. destruct inside as [|c inside]; [done|].
      apply HasPrefix_inv in Eb as [t Et]. injection Et as -> _. apply (HasPrefix_app "[" inside). }
    apply HasPrefix_bracket in Hi. rewrite Ei. by rewrite Hi at 1.
  - destruct (ContainsChar before ":"); [done|]. destruct (ContainsChar hp "["); [done|].
    destruct (ContainsChar hp "]"); [done|]. intros [= <- <-]. by left.
Qed.

(** ** The counts of connections *)

Lemma active_insert k key n l : getActiveConnections k (<[ key := n ]> l) = if bool_decide (k = key) then n else getActiveConnections k l.
Proof.
  unfold getActiveConnections, connections in *. case_bool_decide as Hk.
  - subst. by rewrite (lookup_insert_eq l).
  - by rewrite (lookup_insert_ne l).
Qed.

(** Making the entry of a key changes no count. *)
Lemma active_entry k key l :
  getActiveConnections k (match l !! key with None => <[ key := 0%Z ]> l | Some _ => l end) = getActiveConnections k l.
Proof.
  destruct (l !! key) eqn:E; [done|]. rewrite active_insert. case_bool_decide; [|done]. subst.
  unfold getActiveConnections. by rewrite E.
Qed.

Lemma increase_counts k key l :
  getActiveConnections k (increaseActiveConnections key l) =
    (getActiveConnections k l + if bool_decide (k = key) then 1 else 0)%Z.
Proof.
  unfold increaseActiveConnections. rewrite active_insert, !active_entry. case_bool_decide; [by subst|lia].
Qed.

Lemma decrease_counts k key l :
  getActiveConnections k (decreaseActiveConnections key l) =
    (if bool_decide (k = key) && (0 <? getActiveConnections key l) then getActiveConnections k l - 1 else getActiveConnections k l)%Z.
Proof.
  unfold decreaseActiveConnections. rewrite active_entry. destruct (0 <? _)%Z eqn:E.
  - rewrite active_insert, active_entry. case_bool_decide; [by subst|done].
  - rewrite active_entry, andb_false_r. done.
Qed.

Lemma release_counts k l : getActiveConnections k (releaseMemory l) = 0%Z.
Proof.
  unfold releaseMemory, getActiveConnections.
  assert (forall ks l, (is_Some (l !! k) -> k ∈ ks) -> foldl (fun (l : connections) key => delete key l) l ks !! k = None) as H.
  { induction ks as [|key ks IH]; intros l' Hk; cbn.
    - destruct (l' !! k) eqn:E; [|done]. exfalso. assert (k ∈ ([] : list string)) as [] %elem_of_nil by (apply Hk; by eexists).
    - apply IH. intros [n Hn]. apply lookup_delete_Some in Hn as [Hne Hn]. apply elem_of_cons in Hk as [->|?]; [done|done|by exists n]. }
  rewrite H; [done|]. intros [n Hn]. apply list_elem_of_fmap. exists (k, n). split; [done|]. by apply elem_of_map_to_list.
Qed.

(** ** Who may open a web terminal *)

Section terminal_proofs.
Context {W CP OV Cl Client : Type} {EL : ErrorLib} {ELL : ErrorLibLaws EL} {IP : IPAddr} {P : SDK} {API : KubeAPI W}
        {ST : Store W} {LAWS : KubeAPILaws W}
        {USERS : UserProvider W} {UL : UserProviderLaws W} {PROJECTS : ProjectProvider W} {PJL : ProjectProviderLaws W}
        {PPROJECTS : PrivilegedProjectProvider W} {PPL : PrivilegedProjectProviderLaws W}
        {SETTINGS : SettingsProvider W} {MAPPER : ProjectMemberMapper W} {ML : ProjectMemberMapperLaws W}.
Implicit Types w : W.
Variables (clusters_get : CP -> UserInfo -> string -> option ClusterGetOptions -> M W error Cl)
          (clusters_getUnsecured : CP -> Project -> string -> option ClusterGetOptions -> M W error Cl).

(** The user may see the project, and the provider of the cluster answered the
    cluster for the user: to an administrator without questions, to anybody else
    for the groups granted in the project. *)
Definition project_seen w (user : User) (pid : string) (project : Project) : Prop :=
  view KProject w !! ("", pid) = Some project /\
  (user_IsAdmin user = true \/
   exists ui, getter_info w user pid ui /\ authorized w (as_user ui) VGet KProject ("", pid)).
Definition cluster_read w (cp : CP) (user : User) (project : Project) (pid id : string)
    (options : option ClusterGetOptions) (cl : Cl) : Prop :=
  exists w1 w2,
    (user_IsAdmin user = true /\ clusters_getUnsecured cp project id options w1 = (Ok cl, w2)) \/
    (exists ui, getter_info w user pid ui /\ clusters_get cp ui id options w1 = (Ok cl, w2)).

Lemma GetInternalCluster_read cp ctx project pid id options w :
  runs (GetInternalCluster (CLUSTERS := reader clusters_get clusters_getUnsecured cp) UserInfoGetterFactory
          ctx project pid id options) w (fun r _ =>
    match r with
    | Ok cl => exists user, ctx_UserCR ctx = Some user /\ cluster_read w cp user project pid id options cl
    | _ => True
    end).
Proof.
  unfold GetInternalCluster, getClusterForRegularUser.
  apply (admin_or_user ctx pid); [apply info_gets|apply info_gets|done| |].
  - intros user w1 Hc Ha Hs. eapply httpErr_spec.
    { apply runs_intro. intros r w2 E. exact E. }
    intros [cl|e|] w2 E; [|done|done]. exists user. split; [done|]. exists w1, w2. by left.
  - intros user ui w1 Hc Hi Hs. do 2 runs_step. apply runs_intro. intros [cl|e|] w2 E; cbn [andThen]; [| |done].
    + runs_step. exists user. split; [done|]. exists w1, w2. right. by exists ui.
    + destruct (negb _); [by runs_step|]. runs_step. eapply httpErr_spec.
      { apply runs_intro. intros r w3 E'. exact E'. }
      intros [cl|e'|] w3 E'; cbn [andThen]; [by runs_step|done|done].
Qed.

Lemma GetCluster_read cp user pid id options w :
  runs (GetCluster (CLUSTERS := reader clusters_get clusters_getUnsecured cp) UserInfoGetterFactory
          (ctx_with_UserCR user emptyCtx) pid id options) w
    (fun r _ => match r with
     | Ok cl => exists project, project_seen w user pid project /\ cluster_read w cp user project pid id options cl
     | _ => True
     end).
Proof.
  unfold GetCluster. http_call GetProject_spec. intros [project|e|] w1 [Hs H]; cbn [andThen]; [|done|done].
  destruct H as (user' & [= <-] & Hv & _ & Hseen). eapply runs_mono; [apply GetInternalCluster_read|]. cbn beta.
  intros [cl|e|] w2 H; [|done|done]. destruct H as (user' & [= <-] & Hc). exists project. split; [by split|].
  destruct Hc as (wa & wb & H). exists wa, wb. destruct H as [H|(ui & Hi & H)]; [by left|right]. exists ui.
  split; [by rewrite Hs|done].
Qed.

Variable tokenVerifier : TokenVerifierFn W.
Variable tokenExtractor : TokenExtractorFn.
Variable Upgrade : bool -> WsRequest -> M W error unit.
Hypothesis Upgrade_checks : forall req w, runs (Upgrade false req) w (fun r _ => forall u, r <> Ok u).
Variable SeedInvalidPhase : string.
Variable order : gmap string Seed -> list Seed.
Variable clusterProviderGetter : GetterOf W CP.
Variable IsCluster : CP -> string -> M W error bool.
Variable seedsGetter : SeedsGetter W.
Variable oidcIssuerVerifierGetter : GetterOf W OV.
Variable isPrivileged : CP -> bool.
Variables GetAdminK8sClientForUserCluster GetAdminClientConfigForUserCluster GetAdminClientForUserCluster :
  CP -> Cl -> M W error Client.
Variable secret_Get : Client -> string -> M W error Secret.

(** The token of the request was verified: its claims. *)
Definition token_verified (req : WsRequest) (claims : TokenClaims) : Prop :=
  exists token w0 w1, tokenExtractor (ws_http req) = Ok token /\ tokenVerifier token w0 = (Ok claims, w1) /\
    claims_Subject claims <> "".

(** The terminals are enabled in settings that the provider answered. *)
Definition terminals_enabled (options : option WebTerminalOptions) : Prop :=
  exists o s w0 w1, options = Some o /\ wto_Enabled o = Some true /\
    settings_GetGlobalSettings w0 = (Ok s, w1) /\ setting_WebTerminalOptions s = options.

Lemma verifyAuthorizationToken_spec req w :
  runs (verifyAuthorizationToken tokenVerifier tokenExtractor req) w (fun r _ =>
    match r with
    | Ok user => exists claims, token_verified req claims /\ apiuser_Email user = claims_Email claims
    | _ => True
    end).
Proof.
  unfold verifyAuthorizationToken. runs_step. runs_step. destruct (tokenExtractor _) as [token|e|] eqn:Et; cbn [andThen]; [|done|done].
  apply runs_bind, runs_intro. intros [claims|e|] w1 Ev; cbn [andThen]; [|done|done].
  runs_guard; [done|]. runs_step. exists claims. split; [|done]. exists token, w, w1. split_and!; [done|done|].
  by apply is_empty_false.
Qed.

Lemma upgrade_origin req w :
  runs (upgrade Upgrade req) w (fun r _ => match r with
    | Ok _ => CheckOrigin (ws_Origin req) (req_Host (ws_http req)) = true
    | _ => True end).
Proof.
  unfold upgrade. destruct (CheckOrigin _ _) eqn:E.
  - by apply runs_intro; intros [[]|e|] w' _.
  - eapply runs_mono; [apply Upgrade_checks|]. cbn beta. intros [u|e|] w' H; [|done|done]. by destruct (H u).
Qed.

Abbreviation admits := (admitTerminal tokenVerifier tokenExtractor clusters_get clusters_getUnsecured UserInfoGetterFactory
  SeedInvalidPhase order clusterProviderGetter IsCluster seedsGetter oidcIssuerVerifierGetter isPrivileged
  GetAdminK8sClientForUserCluster GetAdminClientConfigForUserCluster GetAdminClientForUserCluster).

(** What the admission knows of the request, the user and the cluster. *)
Definition admitted (req : WsRequest) (email pid cid : string) (cl : Cl) (options : option WebTerminalOptions) : Prop :=
  terminals_enabled options /\ pid = Vars req "project_id" /\ cid = Vars req "cluster_id" /\ cid <> "" /\
  exists claims w1 cp seed w2 w3 user project, token_verified req claims /\ email = claims_Email claims /\
    GetClusterProvider SeedInvalidPhase order clusterProviderGetter IsCluster
      (Some (terminalReq_GetSeedCluster cid)) seedsGetter w1 = (Ok (cp, seed), w2) /\
    registered w3 user /\ EqualFold (user_Email user) email = true /\ project_seen w3 user pid project /\
    cluster_read w3 cp user project pid cid (Some {| CheckInitStatus := true |}) cl.

Lemma admitTerminal_spec req w :
  runs (admits req) w (fun r _ =>
    match r with
    | Ok (user, pid, cid, terminal, client) => exists cl options ov,
        admitted req (apiuser_Email user) pid cid cl options /\
        forall c secret, terminal c secret = MkTerminal c (EncodeUserEmailtoID (apiuser_Email user)) cl options ov secret
    | _ => True
    end).
Proof.
  unfold admitTerminal. apply runs_bind, runs_intro. intros [s|e|] w1 Es; cbn [andThen]; [|done|done].
  runs_guard; [done|]. apply runs_bind. eapply runs_mono; [apply verifyAuthorizationToken_spec|]. cbn beta.
  intros [au|e|] w2 Hau; cbn [andThen]; [|done|done]. destruct Hau as (claims & Hv & He).
  runs_step. runs_step. unfold DecodeClusterID. destruct (is_empty (Vars req "cluster_id")) eqn:Ec; cbn [andThen]; [done|].
  apply runs_bind, runs_intro. intros [[cp seed]|e|] w3 Ep; cbn [andThen]; [|done|done].
  apply runs_bind, runs_intro. intros [ov|e|] w4 _; cbn [andThen]; [|done|done].
  cbn [fst]. apply runs_bind, runs_intro. intros [[]|e|] w5 _; cbn [andThen]; [|done|done].
  plain_call (users_UserByEmail_spec (W := W)). intros [u|e|] w6 [Hs6 Hu]; cbn [andThen]; [|done|done]. destruct Hu as [Hreg Hfold].
  apply runs_bind. eapply runs_mono; [apply GetCluster_read|]. cbn beta.
  intros [cl|e|] w7 Hc; cbn [andThen]; [|done|done]. destruct Hc as (project & Hseen & Hread).
  apply runs_bind, runs_intro. intros [k1|e|] w8 _; cbn [andThen]; [|done|done].
  apply runs_bind, runs_intro. intros [k2|e|] w9 _; cbn [andThen]; [|done|done].
  apply runs_bind, runs_intro. intros [client|e|] w10 _; cbn [andThen]; [|done|done].
  runs_step. exists cl, (setting_WebTerminalOptions s), ov. split; [|done].
  split; [|split_and!; [done|done|by apply is_empty_false|]].
  - apply negb_false_iff in H. destruct (setting_WebTerminalOptions s) as [o|] eqn:Eo; [|done].
    exists o, s, w, w1. split_and!; [done| |done|done]. by destruct (wto_Enabled o) as [[]|].
  - exists claims, w2, cp, seed, w3, w6, u, project. rewrite He in *. split_and!; try done. by rewrite <- Hs6.
Qed.

Abbreviation handle_terminal := (getTerminalWatchHandler tokenVerifier tokenExtractor Upgrade clusters_get clusters_getUnsecured
  UserInfoGetterFactory SeedInvalidPhase order clusterProviderGetter IsCluster seedsGetter oidcIssuerVerifierGetter isPrivileged
  GetAdminK8sClientForUserCluster GetAdminClientConfigForUserCluster GetAdminClientForUserCluster secret_Get).

End terminal_proofs.

(** ** The limit of open terminals

    Requests run beside each other: the check of the count and the increase are
    two steps, each under the mutex, and the memory is released from time to time. *)

(** The counts, the connections that passed the check and those that are open,
    each by its key. *)
Record TerminalPool := MkTerminalPool {
  tp_active : connections;
  tp_checked : list string;
  tp_open : list string }.
Definition emptyPool : TerminalPool := MkTerminalPool newConnections [] [].
Definition opened (key : string) (s : TerminalPool) : Z := Z.of_nat (length (filter (fun k => k = key) (tp_open s))).

Inductive pool_step (max : Z) : TerminalPool -> TerminalPool -> Prop :=
| pool_check key a c o : (getActiveConnections key a < max)%Z ->
    pool_step max (MkTerminalPool a c o) (MkTerminalPool a (key :: c) o)
| pool_count key a c1 c2 o :
    pool_step max (MkTerminalPool a (c1 ++ key :: c2) o) (MkTerminalPool (increaseActiveConnections key a) (c1 ++ c2) (key :: o))
| pool_close key a c o1 o2 :
    pool_step max (MkTerminalPool a c (o1 ++ key :: o2)) (MkTerminalPool (decreaseActiveConnections key a) c (o1 ++ o2))
| pool_release a c o : pool_step max (MkTerminalPool a c o) (MkTerminalPool (releaseMemory a) c o).

(** No request between the check and the increase of another, no release. *)
Inductive orderly_step (max : Z) : TerminalPool -> TerminalPool -> Prop :=
| orderly_open key a o : (getActiveConnections key a < max)%Z ->
    orderly_step max (MkTerminalPool a [] o) (MkTerminalPool (increaseActiveConnections key a) [] (key :: o))
| orderly_close key a o1 o2 :
    orderly_step max (MkTerminalPool a [] (o1 ++ key :: o2)) (MkTerminalPool (decreaseActiveConnections key a) [] (o1 ++ o2)).

Lemma orderly_pool_steps max s s' : orderly_step max s s' -> rtc (pool_step max) s s'.
Proof.
  intros [key a o H|key a o1 o2].
  - eapply rtc_l; [by apply (pool_check max key)|]. eapply rtc_l; [apply (pool_count max key a [] [] o)|]. done.
  - eapply rtc_l; [apply pool_close|]. done.
Qed.

Lemma opened_cons k key a c o :
  opened k (MkTerminalPool a c (key :: o)) = ((if bool_decide (k = key) then 1 else 0) + opened k (MkTerminalPool a c o))%Z.
Proof.
  unfold opened. cbn [tp_open]. rewrite filter_cons. case_bool_decide as H; case_decide as H'; subst; try done.
  cbn [length]. lia.
Qed.
Lemma opened_split k key a c o1 o2 :
  opened k (MkTerminalPool a c (o1 ++ key :: o2)) =
    ((if bool_decide (k = key) then 1 else 0) + opened k (MkTerminalPool a c (o1 ++ o2)))%Z.
Proof.
  rewrite <- (opened_cons k key a c). unfold opened. cbn [tp_open]. f_equal.
  by rewrite <- Permutation_middle.
Qed.

Lemma rtc_keeps {A} (R : A -> A -> Prop) (I : A -> Prop) :
  (forall x y, R x y -> I x -> I y) -> forall x y, rtc R x y -> I x -> I y.
Proof. intros HR x y. induction 1; eauto. Qed.

Lemma pool_counted max s s' :
  pool_step max s s' -> (forall k, 0 <= getActiveConnections k (tp_active s) <= opened k s)%Z ->
  forall k, (0 <= getActiveConnections k (tp_active s') <= opened k s')%Z.
Proof.
  intros [key a c o H|key a c1 c2 o|key a c o1 o2|a c o] IH k; specialize (IH k); cbn [tp_active] in *.
  - exact IH.
  - rewrite increase_counts, opened_cons. unfold opened in *. cbn [tp_open] in *. case_bool_decide; lia.
  - rewrite opened_split in IH. rewrite decrease_counts. unfold opened in *. cbn [tp_open] in *.
    case_bool_decide; subst; cbn [andb]; [|lia]. destruct (0 <? _)%Z eqn:E; lia.
  - rewrite release_counts. unfold opened in *. cbn [tp_open] in *. lia.
Qed.

Lemma orderly_counted max s s' :
  orderly_step max s s' -> (forall k, getActiveConnections k (tp_active s) = opened k s /\ opened k s <= Z.max 0 max)%Z ->
  forall k, (getActiveConnections k (tp_active s') = opened k s' /\ opened k s' <= Z.max 0 max)%Z.
Proof.
  intros [key a o H|key a o1 o2] IH k; pose proof (IH k) as [IH1 IH2]; cbn [tp_active] in *.
  - rewrite increase_counts, opened_cons. unfold opened in *. cbn [tp_open] in *. case_bool_decide; subst; lia.
  - rewrite opened_split in IH1, IH2. rewrite decrease_counts. unfold opened in *. cbn [tp_open] in *.
    case_bool_decide; subst; cbn [andb]; [|lia]. destruct (0 <? _)%Z eqn:E; lia.
Qed.

(** C29: however the requests interleave and whenever the memory is released, a
    count never exceeds the connections that are open (a user is turned away only
    with the maximal number of terminals open) and never falls below 0; and as long
    as no two requests are between the check and the increase and nothing is
    released, the count is the number of open connections and at most the maximum. *)
Theorem terminal_pool_counts max s :
  (rtc (pool_step max) emptyPool s -> forall key, 0 <= getActiveConnections key (tp_active s) <= opened key s)%Z /\
  (rtc (orderly_step max) emptyPool s ->
     forall key, getActiveConnections key (tp_active s) = opened key s /\ opened key s <= Z.max 0 max)%Z.
Proof.
  split; intros H.
  - apply (rtc_keeps _ (fun s => forall key, 0 <= getActiveConnections key (tp_active s) <= opened key s)%Z (pool_counted max)
      emptyPool s H).
    intros key. change (0 <= 0 <= 0)%Z. lia.
  - apply (rtc_keeps _ (fun s => forall key, getActiveConnections key (tp_active s) = opened key s /\
      opened key s <= Z.max 0 max)%Z (orderly_counted max) emptyPool s H).
    intros key. change (0 = 0 /\ 0 <= Z.max 0 max)%Z. lia.
Qed.

Lemma terminal_pool_counts_witness :
  let s := MkTerminalPool (increaseActiveConnections "k" newConnections) [] ["k"] in
  rtc (orderly_step 5) emptyPool s /\ opened "k" s = 1%Z /\ getActiveConnections "k" (tp_active s) = opened "k" s.
Proof.
  intros s. assert (rtc (orderly_step 5) emptyPool s) as H by (apply rtc_once; apply (orderly_open 5 "k"); reflexivity).
  split; [exact H|]. split; [vm_compute; reflexivity|]. exact (proj1 (proj2 (terminal_pool_counts 5 s) H "k")).
Defined.

(** Six requests that check before any of them is counted open six terminals. *)
Example more_terminals_than_allowed :
  exists s, rtc (pool_step maxNumberOfTerminalActiveConnectionsPerUser) emptyPool s /\ opened "k" s = 6%Z.
Proof.
  eexists. split.
  - do 6 (eapply rtc_l; [apply (pool_check _ "k"); reflexivity|]).
    do 6 (eapply rtc_l; [apply (pool_count _ "k" _ [])|]). apply rtc_refl.
  - vm_compute. reflexivity.
Qed.

(** After a release the terminals that are open are not counted. *)
Example release_forgets_terminals :
  exists s, rtc (pool_step maxNumberOfTerminalActiveConnectionsPerUser) emptyPool s /\
    opened "k" s = 1%Z /\ getActiveConnections "k" (tp_active s) = 0%Z.
Proof.
  eexists. split.
  - eapply rtc_l; [apply (pool_check _ "k"); reflexivity|]. eapply rtc_l; [apply (pool_count _ "k" _ [])|].
    eapply rtc_l; [apply pool_release|]. apply rtc_refl.
  - vm_compute. done.
Qed.

(** ** Pages of other hosts *)

Section origin_proofs.
Context {IP : IPAddr}.

(** A page that may open a websocket is one of the own host: its origin is a
    URL with the host and port of the request, or with the host name of a request
    that names a port. *)
Theorem CheckOrigin_own_host o os host :
  CheckOrigin (o :: os) host = true ->
  exists u, url_Parse o = Ok u /\
    (url_Host u = host \/ exists p, host = url_Hostname u +:+ ":" +:+ p \/ host = "[" +:+ url_Hostname u +:+ "]:" +:+ p).
Proof.
  unfold CheckOrigin. destruct (url_Parse o) as [u|e|]; [|done|done]. intros H. exists u. split; [done|].
  case_bool_decide as Hh; [by left|right]. destruct (net_SplitHostPort host) as [[h p]|e|] eqn:E; [|done|done].
  apply bool_decide_eq_true in H. subst h. exists p. by apply net_SplitHostPort_host.
Qed.
End origin_proofs.

Lemma CheckOrigin_own_host_witness :
  CheckOrigin (IP := refIP) ["https://kkp.example.com"] "kkp.example.com:8080" = true /\
  exists u, url_Parse (IP := refIP) "https://kkp.example.com" = Ok u /\ url_Hostname u = "kkp.example.com".
Proof.
  assert (CheckOrigin (IP := refIP) ["https://kkp.example.com"] "kkp.example.com:8080" = true) as E by (vm_compute; reflexivity).
  split; [exact E|]. destruct (CheckOrigin_own_host (IP := refIP) _ _ _ E) as (u & Hu & _). exists u. split; [exact Hu|].
  vm_compute in Hu. injection Hu as <-. vm_compute. reflexivity.
Defined.

(** ** Witnesses *)

Definition wsRequest : WsRequest :=
  MkWsRequest (MkRequest (fun _ => "") (fun _ => "") [] "kkp.example.com" true) ["https://kkp.example.com"]
    {[ "project_id" := "p1"; "cluster_id" := "c1" ]}.
Definition wsUpgrade : bool -> WsRequest -> M Mem error unit := fun allowed _ =>
  if allowed then mret tt else throw (ENew "websocket: request origin not allowed by Upgrader.CheckOrigin").
Definition wsTerminal (conns : connections) : M Mem error (TerminalOutcome (OV := string) (Cl := string) (Client := unit) * connections) :=
  getTerminalWatchHandler (IP := refIP) bobVerifier (fun _ => Ok "eyJhbGciOi") wsUpgrade
    (fun _ _ id _ => mret id) (fun _ _ id _ => mret id) UserInfoGetterFactory
    "Invalid" mapOrder twoGetter twoIsCluster (mret twoSeeds) twoGetter (fun _ => true)
    (fun _ _ => mret tt) (fun _ _ => mret tt) (fun _ _ => mret tt)
    (fun _ name => mret (MkSecret (metaNamed name) "" None)) maxNumberOfTerminalActiveConnectionsPerUser conns wsRequest.

Definition bobTerminal : Terminal (OV := string) (Cl := string) (Client := unit) :=
  MkTerminal tt (EncodeUserEmailtoID "bob@example.com") "c1" (Some (MkWebTerminalOptions (Some true) false)) "eu"
    (MkSecret (metaNamed (KubeconfigSecretName (EncodeUserEmailtoID "bob@example.com"))) "" None).


(** ** Findings *)

(** A token that its owner invalidated by a logout: no endpoint runs for it, a
    websocket opens. *)
Example websocket_accepts_invalidated_token :
  let logged_out := (UserProvider_InvalidateToken (API := frozenAPI) (Some bob) "eyJhbGciOi" 2000000000000 sample).2 in
  is_ok (TokenVerifier (USERS := kubernetesUserProvider (API := frozenAPI)) bobVerifier whoami bobRequest tt logged_out).1 = false /\
  is_ok (verifyAuthorizationToken bobVerifier (fun _ => Ok "eyJhbGciOi") wsRequest logged_out).1 = true.
Proof. vm_compute. done. Qed.
