(* ===== verification/Membership.v ===== *)
(** The memberships of all projects as one table, and the refinement of the
    member endpoints of handler/v1/user/user.go to operations on that table. *)
From S2P Require Export UserHandlers.

(** ** The specification

    A row of the table: the user with this email (in lower case) is in this
    group of this project. *)
Definition Table := gmap (string * string) string.

(** The requests a client makes, and the answers it gets. *)
Inductive MemberRequest :=
| AddMember (req : AddReq)
| EditMember (req : EditReq)
| RemoveMember (req : DeleteReq)
| ListMembers (projectID : string).

Inductive Answer :=
| AnswerUser (u : ApiUser)
| AnswerDone
| AnswerUsers (l : list ApiUser).

Section specification.
Context {P : SDK}.
(** The registered users, by their names. *)
Variable users : gmap key User.

(** The user of the request may speak of the membership of [email]: nobody but
    an administrator changes their own. *)
Definition not_own (user : User) (email : string) : Prop :=
  user_IsAdmin user = true \/ EqualFold email (user_Email user) = false.

(** One request changes the table [t] to [t'] and gets an answer. *)
Inductive member_step (t : Table) : Ctx * MemberRequest -> result error Answer -> Table -> Prop :=
| step_refused call e :
    member_step t call (Err e) t
| step_add ctx req user email pg a :
    ctx_UserCR ctx = Some user -> not_own user email ->
    EqualFold email (apiuser_Email (add_Body req)) = true ->
    (exists n u, users !! n = Some u /\ user_Email u = email) ->
    apiuser_Projects (add_Body req) = [pg] -> pg_GroupPrefix pg ∈ AllGroupsPrefixes ->
    t !! (add_ProjectID req, ToLower email) = None ->
    answers_request a req ->
    member_step t (ctx, AddMember req) (Ok (AnswerUser a))
      (<[(add_ProjectID req, ToLower email) :=
           GenerateActualGroupNameFor (add_ProjectID req) (pg_GroupPrefix pg)]> t)
| step_edit ctx req user pg a :
    let add := edit_AddReq req in
    let email := apiuser_Email (add_Body add) in
    ctx_UserCR ctx = Some user -> not_own user email ->
    apiuser_Projects (add_Body add) = [pg] -> pg_GroupPrefix pg ∈ AllGroupsPrefixes ->
    is_Some (t !! (add_ProjectID add, ToLower email)) ->
    answers_request a add ->
    member_step t (ctx, EditMember req) (Ok (AnswerUser a))
      (<[(add_ProjectID add, ToLower email) :=
           GenerateActualGroupNameFor (add_ProjectID add) (pg_GroupPrefix pg)]> t)
| step_remove ctx req user target :
    let row := (delete_ProjectID req, ToLower (user_Email target)) in
    ctx_UserCR ctx = Some user -> EqualFold (user_Email target) (user_Email user) = false ->
    users !! ("", delete_UserID req) = Some target ->
    is_Some (t !! row) ->
    member_step t (ctx, RemoveMember req) (Ok AnswerDone) (delete row t)
| step_list ctx pid l :
    (forall a, a ∈ l -> exists email group,
       t !! (pid, ToLower email) = Some group /\ membership_answer a pid group email) ->
    (forall email group n u, t !! (pid, ToLower email) = Some group ->
       users !! n = Some u -> EqualFold (user_Email u) email = true ->
       exists a, a ∈ l /\ membership_answer a pid group email) ->
    member_step t (ctx, ListMembers pid) (Ok (AnswerUsers l)) t.

(** The requests one after the other. *)
Inductive member_steps : Table -> list (Ctx * MemberRequest) -> list (result error Answer) ->
    Table -> Prop :=
| steps_nil t : member_steps t [] [] t
| steps_cons t t1 t2 call calls r rs :
    member_step t call r t1 -> member_steps t1 calls rs t2 ->
    member_steps t (call :: calls) (r :: rs) t2.
End specification.

(** ** The implementation *)

Section implementation.
Context {W : Type} {EL : ErrorLib} {P : SDK}
        {MEMBERS : ProjectMemberProvider W} {USERS : UserProvider W}
        {PROJECTS : ProjectProvider W} {PPROJECTS : PrivilegedProjectProvider W}
        {MAPPER : ProjectMemberMapper W}.
Variable mail_ParseAddress : string -> option error.

(** The endpoint of a request. *)
Definition serve_member (call : Ctx * MemberRequest) : M W error Answer :=
  let '(ctx, req) := call in
  match req with
  | AddMember req => a ← AddEndpoint UserInfoGetterFactory mail_ParseAddress ctx req;
      mret (AnswerUser a)
  | EditMember req => a ← EditEndpoint UserInfoGetterFactory mail_ParseAddress ctx req;
      mret (AnswerUser a)
  | RemoveMember req => _ ← DeleteEndpoint UserInfoGetterFactory ctx req; mret AnswerDone
  | ListMembers pid => l ← user_ListEndpoint UserInfoGetterFactory ctx pid; mret (AnswerUsers l)
  end.

(** The server answers the requests in their order, whatever the answers are. *)
Fixpoint serve_members (calls : list (Ctx * MemberRequest)) (w : W) : list (result error Answer) * W :=
  match calls with
  | [] => ([], w)
  | call :: calls =>
      let '(r, w1) := serve_member call w in
      let '(rs, w2) := serve_members calls w1 in
      (r :: rs, w2)
  end.
End implementation.

(** ** The abstraction *)

Section abstraction.
Context {W : Type} {P : SDK} {ST : Store W}.
Implicit Types w : W.

Definition row_key (b : UserProjectBinding) : string * string :=
  (binding_ProjectID b, ToLower (binding_UserEmail b)).

Definition human (b : UserProjectBinding) : Prop :=
  IsProjectServiceAccount (binding_UserEmail b) = false.
#[export] Instance human_dec b : Decision (human b).
Proof. unfold human. apply _. Defined.

(** The table of the stored bindings, those of service accounts apart. *)
Definition table_of w : Table :=
  list_to_map ((fun b => (row_key b, binding_Group b)) <$>
                 filter human (map_to_list (view KBinding w)).*2).

(** The user bindings of an installation: at most one for an email and a
    project; they are cluster-wide and no finalizer keeps them. *)
Record well_formed w : Prop := {
  wf_one b b' : bound w b -> bound w b' -> human b -> human b' -> row_key b = row_key b' -> b = b';
  wf_namespace b : bound w b -> meta_Namespace (binding_meta b) = "";
  wf_finalizers b : bound w b -> meta_Finalizers (binding_meta b) = [] }.

Lemma elem_of_rows w b :
  b ∈ filter human (map_to_list (view KBinding w)).*2 <-> bound w b /\ human b.
Proof.
  rewrite list_elem_of_filter, list_elem_of_fmap. unfold bound. split.
  - intros [Hh ([n b'] & -> & Hb%elem_of_map_to_list)]. split; [by exists n|done].
  - intros [[n Hb] Hh]. split; [done|]. exists (n, b). by rewrite elem_of_map_to_list.
Qed.

Lemma lookup_table_of w pid e g :
  well_formed w ->
  table_of w !! (pid, e) = Some g <->
  exists b, bound w b /\ human b /\ row_key b = (pid, e) /\ binding_Group b = g.
Proof.
  intros Hwf. unfold table_of. split.
  - intros H%elem_of_list_to_map_2. apply list_elem_of_fmap in H as (b & [= Hk ->] & Hb).
    apply elem_of_rows in Hb as [Hb Hh]. exists b. unfold row_key. by rewrite Hk.
  - intros (b & Hb & Hh & Hk & <-). apply elem_of_list_to_map_1'.
    + intros g [b' [[= H1 H2 ->] [Hb' Hh']%elem_of_rows]]%list_elem_of_fmap.
      f_equal. eapply wf_one; eauto. rewrite Hk. unfold row_key. congruence.
    + apply list_elem_of_fmap. exists b. rewrite Hk. split; [done|]. by apply elem_of_rows.
Qed.

Lemma table_row w b : well_formed w -> bound w b -> human b ->
  table_of w !! row_key b = Some (binding_Group b).
Proof. intros. apply lookup_table_of; [done|]. exists b. split_and!; done. Qed.

Lemma table_no_row w pid e : well_formed w ->
  (forall b, bound w b -> human b -> row_key b <> (pid, e)) -> table_of w !! (pid, e) = None.
Proof.
  intros Hwf Hno. apply eq_None_not_Some. intros [g H%lookup_table_of]; [|done].
  destruct H as (b & Hb & Hh & Hk & _). by eapply Hno.
Qed.

(** How the table follows the bindings. *)
Lemma table_insert w w' b :
  well_formed w -> well_formed w' -> human b ->
  (forall x, human x -> bound w' x <-> x = b \/ bound w x /\ row_key x <> row_key b) ->
  table_of w' = <[row_key b := binding_Group b]> (table_of w).
Proof.
  intros Hwf Hwf' Hh Hx. apply map_eq. intros [pid e]. apply option_eq. intros g.
  rewrite lookup_table_of, lookup_insert_Some, lookup_table_of by done. split.
  - intros (x & Hb & Hhx & Hk & <-). apply Hx in Hb as [->|[Hb Hn]]; [by left|right|done].
    split; [by rewrite <- Hk|]. by exists x.
  - intros [[Hk <-]|[Hne (x & Hb & Hhx & Hk & <-)]]; [exists b|exists x];
      (split_and!; [apply Hx; [done|]|done..]); [by left|right].
    split; [done|]. by rewrite Hk.
Qed.

Lemma table_delete w w' k :
  well_formed w -> well_formed w' ->
  (forall x, human x -> bound w' x <-> bound w x /\ row_key x <> k) ->
  table_of w' = delete k (table_of w).
Proof.
  intros Hwf Hwf' Hx. apply map_eq. intros [pid e]. apply option_eq. intros g.
  rewrite lookup_table_of, lookup_delete_Some, lookup_table_of by done. split.
  - intros (x & Hb & Hhx & Hk & <-). apply Hx in Hb as [Hb Hn]; [|done].
    split; [by rewrite <- Hk|]. by exists x.
  - intros [Hne (x & Hb & Hhx & Hk & <-)]. exists x.
    split_and!; [apply Hx; [done|]; split; [done|by rewrite Hk]|done..].
Qed.

#[export] Instance table_of_proper : Proper (same_store ==> eq) table_of.
Proof. intros w w' Hw. unfold table_of. by rewrite Hw. Qed.
#[export] Instance well_formed_proper : Proper (same_store ==> iff) well_formed.
Proof.
  enough (forall w w' : W, same_store w w' -> well_formed w -> well_formed w') as H.
  { intros w w' Hw. split; apply H; [done|by symmetry]. }
  intros w w' Hw [H1 H2 H3]. split.
  - intros b b'. rewrite <- !Hw. apply H1.
  - intros b. rewrite <- Hw. apply H2.
  - intros b. rewrite <- Hw. apply H3.
Qed.
End abstraction.

(** ** The steps of the implementation *)

Section writes.
Context {W : Type} {EL : ErrorLib} {P : SDK} {API : KubeAPI W} {ST : Store W}
        {LAWS : KubeAPILaws W}.
Implicit Types w : W.

(** A new row. *)
Lemma table_of_created w w' b :
  well_formed w -> created KBinding w w' b -> human b ->
  meta_Namespace (binding_meta b) = "" -> meta_Finalizers (binding_meta b) = [] ->
  (forall x, bound w x -> human x -> row_key x <> row_key b) ->
  well_formed w' /\ table_of w' = <[row_key b := binding_Group b]> (table_of w).
Proof.
  intros Hwf Hc Hh Hns Hfin Hno.
  assert (forall x, bound w' x <-> x = b \/ bound w x) as Hx by (intros x; by apply (created_stored KBinding)).
  assert (well_formed w') as Hwf'.
  { split.
    - intros x y [->|Bx]%Hx [->|By]%Hx Hhx Hhy E; [done| | |by eapply wf_one].
      + by destruct (Hno y By Hhy).
      + by destruct (Hno x Bx Hhx).
    - intros x [->|Bx]%Hx; [done|by eapply wf_namespace].
    - intros x [->|Bx]%Hx; [done|by eapply wf_finalizers]. }
  split; [done|]. apply table_insert; [done..|]. intros x Hhx. rewrite Hx. naive_solver.
Qed.

(** A row with another group. *)
Lemma table_of_updated w w' b b' :
  well_formed w -> bound w b -> human b -> updated KBinding w w' b' ->
  key_of KBinding b' = key_of KBinding b -> row_key b' = row_key b -> human b' ->
  meta_Finalizers (binding_meta b') = [] ->
  well_formed w' /\ table_of w' = <[row_key b := binding_Group b']> (table_of w).
Proof.
  intros Hwf Hb Hh Hup Hkey Hrow Hh' Hfin.
  assert (forall x, bound w x -> key_of KBinding x = key_of KBinding b -> x = b) as Hsame.
  { intros x Bx E. apply (stored_lookup KBinding) in Bx, Hb. rewrite E, Hb in Bx. by injection Bx. }
  assert (forall x, bound w' x <-> x = b' \/ bound w x /\ x <> b) as Hx.
  { intros x. etrans; [by apply (updated_stored KBinding)|]. rewrite Hkey. split; [naive_solver|].
    intros [->|[Bx Hn]]; [by left|right]. split; [done|]. intros E. by apply Hn, Hsame. }
  assert (forall x, bound w x -> human x -> row_key x = row_key b -> x = b) as Hone.
  { intros x Bx Hhx E. by eapply wf_one. }
  assert (well_formed w') as Hwf'.
  { split.
    - intros x y [->|[Bx Hn]]%Hx [->|[By Hn']]%Hx Hhx Hhy E; [done| | |by eapply wf_one].
      + destruct Hn'. apply Hone; [done..|congruence].
      + destruct Hn. apply Hone; [done..|congruence].
    - intros x [->|[Bx _]]%Hx; [|by eapply wf_namespace].
      injection Hkey as -> _. by eapply wf_namespace.
    - intros x [->|[Bx _]]%Hx; [done|by eapply wf_finalizers]. }
  split; [done|]. rewrite <- Hrow. apply table_insert; [done..|].
  intros x Hhx. rewrite Hx, Hrow. naive_solver.
Qed.

(** A row less. *)
Lemma table_of_deleted w w' b :
  well_formed w -> bound w b -> human b ->
  deleted KBinding w w' ("", meta_Name (binding_meta b)) ->
  well_formed w' /\ table_of w' = delete (row_key b) (table_of w).
Proof.
  intros Hwf Hb Hh Hdel.
  assert (forall x, bound w' x <-> bound w x /\ x <> b) as Hx.
  { intros x. apply (deleted_stored KBinding w w' b); [done|by eapply wf_finalizers|].
    unfold key_of. cbn. by rewrite (wf_namespace w Hwf b Hb). }
  assert (well_formed w') as Hwf'.
  { split.
    - intros x y [Bx _]%Hx [By _]%Hx. by eapply wf_one.
    - intros x [Bx _]%Hx. by eapply wf_namespace.
    - intros x [Bx _]%Hx. by eapply wf_finalizers. }
  split; [done|]. apply table_delete; [done..|]. intros x Hhx. rewrite Hx.
  split; [|naive_solver]. intros [Bx Hn]. split; [done|]. intros E. apply Hn. by eapply (wf_one w).
Qed.
End writes.

Section refinement.
Context {W : Type} {EL : ErrorLib} {P : SDK} {API : KubeAPI W} {ST : Store W}
        {MEMBERS : ProjectMemberProvider W} {USERS : UserProvider W}
        {PROJECTS : ProjectProvider W} {PPROJECTS : PrivilegedProjectProvider W}
        {MAPPER : ProjectMemberMapper W} {ELL : ErrorLibLaws EL}
        {LAWS : KubeAPILaws W} {MAPL : ProjectMemberMapperLaws W} {MEML : ProjectMemberProviderLaws W}
        {UL : UserProviderLaws W} {PRL : ProjectProviderLaws W}
        {PPL : PrivilegedProjectProviderLaws W}.
Implicit Types w : W.

(** What a list of members shows. *)
Definition shows_members w pid (l : list ApiUser) : Prop :=
  exists project, project_at w pid project /\
    (forall a, a ∈ l -> exists b, member_of w project b /\
       membership_answer a pid (binding_Group b) (binding_UserEmail b)) /\
    (ListsSucceed W -> forall b u, member_of w project b -> registered w u ->
       EqualFold (user_Email u) (binding_UserEmail b) = true ->
       exists a, a ∈ l /\ membership_answer a pid (binding_Group b) (binding_UserEmail b)).

(** One turn of the loop: a member without a registered user is left out. *)
Lemma addExternalUser_spec project us b w :
  runs (addExternalUser project us b) w (fun r w' => same_store w w' /\
    match r with
    | Ok us' => (exists a, us' = us ++ [a] /\
          (binding_ProjectID b = project_id project ->
           membership_answer a (project_id project) (binding_Group b) (binding_UserEmail b))) \/
        (us' = us /\ (ListsSucceed W -> forall u, registered w u ->
           EqualFold (user_Email u) (binding_UserEmail b) = false))
    | Err _ => True
    | Panic => False
    end).
Proof.
  unfold addExternalUser. do 2 runs_step. eapply runs_mono; [apply users_UserByEmail_spec|].
  cbn beta. intros r w1 [Hs Hu]. destruct r as [u|e|]; cbn [andThen]; [|destruct (is_ErrNotFound e)|done].
  - runs_step. split; [done|]. left. eexists. split; [done|]. intros Hp.
    destruct Hu as [_ He]. by apply membership_answer_convert.
  - runs_step. split; [done|]. right. split; [done|]. intros Hl. by apply Hu.
  - by runs_step.
Qed.

Lemma user_ListEndpoint_spec ctx pid w :
  runs (user_ListEndpoint UserInfoGetterFactory ctx pid) w (fun r w' => same_store w w' /\
    match r with Ok l => shows_members w pid l | Err _ => True | Panic => False end).
Proof.
  unfold user_ListEndpoint. runs_guard; [done|].
  http_call (handler_GetProject (W := W)). intros r w1 [Hs1 Hp].
  destruct r as [project|e|]; cbn [andThen]; [|done|done]. destruct Hp as [_ Hpr].
  http_call (getMemberList_spec (W := W)). intros r w2 [Hs2 Hl].
  assert (same_store w w2) as H2 by (by etrans).
  destruct r as [bs|e|]; cbn [andThen]; [|done|done].
  destruct Hl as [_ Hl]. destruct Hpr as [Hv Hn]. unfold skip_verification in *.
  set (I := fun (seen : list UserProjectBinding) (us : list ApiUser) w0 => same_store w w0 /\
    (forall a, a ∈ us -> exists b, b ∈ seen /\ membership_answer a pid (binding_Group b) (binding_UserEmail b)) /\
    (ListsSucceed W -> forall b u, b ∈ seen -> registered w u ->
       EqualFold (user_Email u) (binding_UserEmail b) = true ->
       exists a, a ∈ us /\ membership_answer a pid (binding_Group b) (binding_UserEmail b))).
  apply (runs_foldM _ I).
  - split; [done|]. split; [|intros _]; set_solver.
  - intros seen b rest us w3 -> (Hs3 & Hsound & Hcompl).
    assert (binding_ProjectID b = project_id project) as Hb by (apply (Hl b); set_solver).
    eapply runs_mono; [apply addExternalUser_spec|]. cbn beta. intros r w4 [Hs4 Hadd].
    assert (same_store w w4) as H4 by (by etrans).
    destruct r as [us'|e|]; [|done|done]. unfold project_id in *. rewrite Hn in *.
    setoid_rewrite <- Hs3 in Hadd. split; [done|].
    destruct Hadd as [(a & -> & Ha)|[-> Hno]]; split.
    + intros x [Hx| ->]%elem_of_snoc; [destruct (Hsound x Hx) as (b0 & ? & ?); exists b0|exists b];
        rewrite elem_of_snoc; auto.
    + intros HL b0 u [Hb0| ->]%elem_of_snoc Hu He.
      * destruct (Hcompl HL b0 u) as (x & ? & ?); [done..|]. exists x. rewrite elem_of_snoc. auto.
      * exists a. rewrite elem_of_snoc. auto.
    + intros x Hx. destruct (Hsound x Hx) as (b0 & ? & ?). exists b0. rewrite elem_of_snoc. auto.
    + intros HL b0 u [Hb0| ->]%elem_of_snoc Hu He; [by eapply Hcompl|].
      by rewrite (Hno HL u Hu) in He.
  - intros us w3 (Hs3 & Hsound & Hcompl). split; [done|]. exists project. split; [by split|].
    setoid_rewrite <- Hs1 in Hl. split.
    + intros a Ha. destruct (Hsound a Ha) as (b & Hb & ?). exists b. split; [by apply Hl|done].
    + intros HL b u Hb. apply Hcompl; [done|by apply Hl].
Qed.

Section steps.
Variable parse : string -> option error.

(** The new state of a request, and the step of the table. *)
Definition step_ok (call : Ctx * MemberRequest) w (r : result error Answer) w' : Prop :=
  well_formed w' /\ view KUser w' = view KUser w /\
  member_step (view KUser w) (table_of w) call r (table_of w').

Lemma step_ok_refused call w e w' : well_formed w -> same_store w w' -> step_ok call w (Err e) w'.
Proof.
  intros Hwf Hs. unfold step_ok. rewrite <- Hs. split_and!; [done|done|]. constructor.
Qed.

Lemma human_fold b email : ToLower (binding_UserEmail b) = ToLower email ->
  row_key b = (binding_ProjectID b, ToLower email).
Proof. unfold row_key. by intros ->. Qed.

Lemma AddMember_step ctx req w :
  well_formed w -> runs (serve_member parse (ctx, AddMember req)) w (step_ok (ctx, AddMember req) w).
Proof.
  intros Hwf. unfold serve_member. plain_call (AddEndpoint_spec (W := W)).
  intros [a|e|] w' H; cbn [andThen]; [|by apply step_ok_refused|done]. runs_step.
  destruct H as [(user & inv & project & pg & b & Hc & [_ Hn] & [n Hinv] & He & Hpg & Hro & Hself & Hsa &
    Hnone & (Hbe & Hbp & Hbg & Hns & Hfin) & _ & Hcr) Hans].
  assert (row_key b = (add_ProjectID req, ToLower (user_Email inv))) as Hk.
  { unfold row_key. by rewrite Hbe, Hbp, Hn. }
  assert (human b) as Hh by (unfold human; by rewrite Hbe).
  assert (forall x, bound w x -> human x -> row_key x <> row_key b) as Hno.
  { intros x Hx Hhx. rewrite Hk. intros [= Hp Hf%EqualFold_spec].
    by rewrite (Hnone x) in Hf by (split_and!; [done|by rewrite Hn|done]). }
  destruct (table_of_created w w' b) as [Hwf' Ht]; [done..|].
  split_and!; [done|symmetry; by apply Hcr|]. rewrite Ht, Hk, Hbg.
  eapply step_add; [done|done|done|by exists n, inv|done|done| |done].
  apply table_no_row; [done|]. rewrite <- Hk. done.
Qed.

Lemma EditMember_step ctx req w :
  well_formed w -> runs (serve_member parse (ctx, EditMember req)) w (step_ok (ctx, EditMember req) w).
Proof.
  intros Hwf. unfold serve_member. plain_call (EditEndpoint_spec (W := W)).
  intros [a|e|] w' H; cbn [andThen]; [|by apply step_ok_refused|done]. runs_step.
  destruct H as [(user & project & pg & b & b' & Hc & [_ Hn] & Hpg & Hro & Hself & (Hb & Hbp & Hh) &
    He & Hst & _ & Hup) Hans].
  pose proof (strip_key _ _ _ Hst) as Hkey. pose proof (strip_finalizers _ _ _ Hst) as Hfin.
  apply strip_binding in Hst as (Hbe & Hbp' & Hbg). cbn in Hbe, Hbp', Hbg, Hfin.
  assert (row_key b = (add_ProjectID (edit_AddReq req), ToLower (apiuser_Email (add_Body (edit_AddReq req)))))
    as Hk by (unfold row_key; f_equal; [by etrans|by apply EqualFold_spec]).
  destruct (table_of_updated w w' b b') as [Hwf' Ht];
    [done|done|done|done|done|unfold row_key; by rewrite Hbe, Hbp'|unfold human; by rewrite Hbe| |].
  { rewrite Hfin. by eapply wf_finalizers. }
  split_and!; [done|symmetry; by apply Hup|]. rewrite Ht, Hk, Hbg.
  eapply step_edit; [done| |done|done| |done].
  - destruct Hself as [?|Hself]; [by left|right]. rewrite EqualFold_sym in He.
    by eapply not_self.
  - rewrite <- Hk, table_row by done. by eexists.
Qed.

Lemma RemoveMember_step ctx req w :
  well_formed w -> (forall u, registered w u -> user_Email u <> "") ->
  runs (serve_member parse (ctx, RemoveMember req)) w (step_ok (ctx, RemoveMember req) w).
Proof.
  intros Hwf Hemail. unfold serve_member. plain_call (DeleteEndpoint_spec (W := W)).
  intros [[]|e|] w' H; cbn [andThen]; [|by apply step_ok_refused|done]. runs_step.
  destruct H as (user & target & project & b & Hc & [_ Hn] & Ht & (Hb & Hbp & Hh) & He & Hself & _ & Hdel).
  assert (EqualFold (binding_UserEmail b) (user_Email target) = true) as He' by (apply He, Hemail; by eexists).
  assert (row_key b = (delete_ProjectID req, ToLower (user_Email target))) as Hk.
  { unfold row_key. f_equal; [by etrans|by apply EqualFold_spec]. }
  destruct (table_of_deleted w w' b) as [Hwf' Htab]; [done..|].
  split_and!; [done|symmetry; by apply Hdel|]. rewrite Htab, Hk.
  eapply step_remove; [done| |done|].
  - rewrite EqualFold_sym in He'. by eapply not_self.
  - rewrite <- Hk, table_row by done. by eexists.
Qed.

Lemma ListMembers_step ctx pid w :
  well_formed w -> ListsSucceed W ->
  runs (serve_member parse (ctx, ListMembers pid)) w (step_ok (ctx, ListMembers pid) w).
Proof.
  intros Hwf HL. unfold serve_member. plain_call user_ListEndpoint_spec.
  intros [l|e|] w' [Hs H]; cbn [andThen]; [|by apply step_ok_refused|done]. runs_step.
  destruct H as (project & [_ Hn] & Hsound & Hcompl). unfold step_ok. rewrite <- Hs.
  split_and!; [done|done|]. constructor.
  - intros a Ha. destruct (Hsound a Ha) as (b & (Hb & Hp & Hh) & Hans).
    exists (binding_UserEmail b), (binding_Group b). split; [|done].
    rewrite <- Hn, <- Hp. by apply (table_row w b).
  - intros email group n u Hrow Hu He. apply lookup_table_of in Hrow as (b & Hb & Hh & [= Hp Hf] & <-); [|done].
    apply EqualFold_spec in Hf. rewrite EqualFold_sym in Hf.
    destruct (Hcompl HL b u) as (a & Ha & Hproj & Hae).
    + split_and!; [done|by rewrite Hn|done].
    + by exists n.
    + by eapply EqualFold_trans.
    + exists a. split; [done|]. split; [done|]. eapply EqualFold_trans; [done|]. by rewrite EqualFold_sym.
Qed.

Lemma serve_member_step call w :
  well_formed w -> ListsSucceed W -> (forall u, registered w u -> user_Email u <> "") ->
  runs (serve_member parse call) w (step_ok call w).
Proof.
  intros. destruct call as [ctx []];
    auto using AddMember_step, EditMember_step, RemoveMember_step, ListMembers_step.
Qed.

(** C6: the member endpoints implement the table of memberships: whatever the
    requests and whoever makes them, the answers and the stored bindings are
    those of a run of the specification, in which a row is added only for a
    registered user who has none in the project, changed or removed only where
    there is one and not by the user it is about (a change of one's own row is
    left to administrators), and a list shows the rows of the registered users.
    The bindings stay one per user and project. *)
Theorem member_endpoints_refine calls w :
  well_formed w -> ListsSucceed W -> (forall u, registered w u -> user_Email u <> "") ->
  let '(rs, w') := serve_members parse calls w in
  well_formed w' /\ member_steps (view KUser w) (table_of w) calls rs (table_of w').
Proof.
  revert w. induction calls as [|call calls IH]; intros w Hwf HL Hemail; cbn [serve_members].
  { split; [done|]. constructor. }
  destruct (serve_member parse call w) as [r w1] eqn:E1.
  destruct (runs_elim _ _ _ _ _ (serve_member_step call w Hwf HL Hemail) E1) as (Hwf1 & Hu & Hstep).
  specialize (IH w1 Hwf1 HL). unfold registered in IH, Hemail. rewrite Hu in IH. specialize (IH Hemail).
  destruct (serve_members parse calls w1) as [rs w2]. destruct IH as [Hwf2 Hsteps].
  split; [done|]. by econstructor.
Qed.
End steps.
End refinement.

Lemma sample_well_formed : well_formed sample.
Proof.
  split.
  - intros b b' [->| ->]%sample_bound [->| ->]%sample_bound Hh Hh' E; [done| | |done]; discriminate E.
  - by intros b [->| ->]%sample_bound.
  - by intros b [->| ->]%sample_bound.
Qed.
Lemma sample_emails u : registered sample u -> user_Email u <> "".
Proof.
  intros [n Hn%(lookup_sample KUser)].
  assert (Forall (fun u => user_Email u <> "") (map_to_list (view KUser sample)).*2) as H
    by (apply (bool_decide_unpack _); vm_compute; reflexivity).
  rewrite Forall_forall in H. by apply H.
Qed.

(** Bob lets Alice in, who promotes him, removes him, and looks who is left. *)
Definition sampleCalls : list (Ctx * MemberRequest) :=
  [(bobCtx, AddMember (memberRequest "" "Alice@example.com" "viewers"));
   (aliceCtx, EditMember (MkEditReq (memberRequest "u-bob" "bob@example.com" "owners") "u-bob"));
   (bobCtx, RemoveMember (MkDeleteReq "p1" "u-bob"));
   (aliceCtx, RemoveMember (MkDeleteReq "p1" "u-bob"));
   (aliceCtx, ListMembers "p1")].

Lemma member_endpoints_refine_witness :
  let run := serve_members anyAddress sampleCalls sample in
  (is_ok <$> run.1) = [true; true; false; true; true] /\
  table_of run.2 = {[ ("p1", "alice@example.com") := "viewers-p1" ]} /\
  member_steps (view KUser sample) (table_of sample) sampleCalls run.1 (table_of run.2).
Proof.
  intros run. split; [vm_compute; reflexivity|]. split; [vm_compute; reflexivity|].
  pose proof (member_endpoints_refine anyAddress sampleCalls sample
    sample_well_formed mem_lists_succeed sample_emails) as H.
  fold run in H. destruct run as [rs w']. exact (proj2 H).
Defined.
