(* ===== verification/ProjectHandlers.v ===== *)
(** The endpoints of projects: handler/v1/project/project.go. *)
From S2P Require Export UserHandlers Seeds.

(** The body of projectReq; updateRq with its project ID; ListReq. *)
Record projectReq := MkProjectReq {
  preq_Name : string;
  preq_AllowedOperatingSystems : gmap string bool;
  preq_Labels : gmap string string;
  preq_Users : list string }.
Record updateRq := MkUpdateRq {
  upd_ProjectID : string;
  upd_Name : string;
  upd_Labels : gmap string string;
  upd_AllowedOperatingSystems : gmap string bool }.
Record ListReq := MkListReq {
  list_DisplayAll : bool;
  list_Search : string }.

(** provider.ClusterProvider *)
Class ClusterProvider (W : Type) := {
  ClusterProviderT : Type;
  clusters_List : ClusterProviderT -> Project -> M W error (list UserCluster);
  clusters_ListAll : ClusterProviderT -> M W error (list UserCluster) }.

(** handler/v1/common/conversion.go *)
Definition ConvertInternalProjectToExternal `{SDK} (kubermaticProject : Project)
    (projectOwners : list ApiUser) (clustersNumber : Z) : ApiProject :=
  let m := project_meta kubermaticProject in
  {| apiproject_meta := MkApiMeta (meta_Name m) (project_Name kubermaticProject) (meta_Annotations m) ∅
                          (meta_DeletionTimestamp m) (meta_CreationTimestamp m);
     apiproject_AllowedOperatingSystems := project_AllowedOperatingSystems kubermaticProject;
     apiproject_Status := project_Phase kubermaticProject;
     apiproject_Labels := FilterLabels ProjectResourceType (meta_Labels m);
     apiproject_Owners := projectOwners;
     apiproject_ClustersNumber := clustersNumber |}.

(** ** The search of the project list *)

Definition projectMatchesQuery (project : ApiProject) (query : string)
    (clusterMatchedProjectIDs : gset string) : bool :=
  Contains (ToLower (api_Name (apiproject_meta project))) query ||
  Contains (ToLower (api_ID (apiproject_meta project))) query ||
  existsb (fun owner => Contains (ToLower (api_Name (apiuser_meta owner))) query)
    (apiproject_Owners project) ||
  existsb (fun kv => Contains (ToLower kv.1) query || Contains (ToLower kv.2) query)
    (map_to_list (apiproject_Labels project)) ||
  bool_decide (api_ID (apiproject_meta project) ∈ clusterMatchedProjectIDs).

Definition filterProjectsBySearch (projects : list ApiProject) (query : string)
    (clusterMatchedProjectIDs : gset string) : list ApiProject :=
  let search := TrimSpace (ToLower query) in
  if is_empty search then projects else
  List.filter (fun project => projectMatchesQuery project search clusterMatchedProjectIDs) projects.

Definition clusterMatches (search : string) (cluster : UserCluster) : bool :=
  Contains (ToLower (cluster_HumanReadableName cluster)) search ||
  Contains (ToLower (cluster_Name cluster)) search.

Section project_handlers.
Context {W : Type} {EL : ErrorLib} {P : SDK}
        {MEMBERS : ProjectMemberProvider W} {USERS : UserProvider W}
        {PROJECTS : ProjectProvider W} {PPROJECTS : PrivilegedProjectProvider W}
        {MAPPER : ProjectMemberMapper W} {SETTINGS : SettingsProvider W}.

(** ** Restrictions *)

Definition checkProjectCreationRestriction (user : User) (settings : KubermaticSetting) : M W error unit :=
  if user_IsAdmin user then mret tt else
  throwIf (setting_RestrictProjectCreation settings) (utilerrors_New 403 "project creation is restricted").

Definition checkProjectDeletionRestriction (user : User) (settings : KubermaticSetting) : M W error unit :=
  if user_IsAdmin user then mret tt else
  throwIf (setting_RestrictProjectDeletion settings) (utilerrors_New 403 "project deletion is restricted").

Definition checkProjectModificationRestriction (user : User) (settings : KubermaticSetting) : M W error unit :=
  if user_IsAdmin user then mret tt else
  throwIf (setting_RestrictProjectModification settings)
    (utilerrors_New 403 "project modification is restricted").

Definition uninitialized : option ProjectGetOptions := Some {| IncludeUninitialized := true |}.

Definition getSomeFailed (errorList : list string) : error :=
  utilerrors_NewWithDetails 500 "failed to get some projects, please examine details field for more info"
    errorList.

(** One turn of the loop of validateUserProjectsLimit: the errors and the number
    of owned projects so far. *)
Definition countOwned (user : User) (acc : list string * Z) (mapping : UserProjectBinding)
    : M W error (list string * Z) :=
  let userInfo := MkUserInfo (binding_UserEmail mapping) [binding_Group mapping] ∅ false false in
  got ← attempt (projects_Get (Some userInfo) (binding_ProjectID mapping) uninitialized);
  match got with
  | inl err =>
      if negb (isStatus err 403) then mret (acc.1 ++ [Error err], acc.2) else
      gotUnsecured ← attempt (projects_GetUnsecured (binding_ProjectID mapping) uninitialized);
      let notFound := match gotUnsecured with inl e => isStatus e 404 | inr _ => false end in
      mret (if negb notFound then (acc.1 ++ [Error err], acc.2) else acc)
  | inr projectInternal =>
      (* get only owned projects *)
      projectOwners ← httpErr (GetOwnersForProject userInfo projectInternal);
      let owned := List.filter (fun owner => EqualFold (apiuser_Email owner) (user_Email user)) projectOwners in
      mret (acc.1, acc.2 + Z.of_nat (length owned))%Z
  end.

Definition validateUserProjectsLimit (user : User) (settings : KubermaticSetting) : M W error unit :=
  if user_IsAdmin user then mret tt else
  if bool_decide (setting_UserProjectsLimit settings <= 0)%Z then mret tt else
  userMappings ← httpErr (mapper_MappingsFor (user_Email user));
  acc ← foldM (countOwned user) ([], 0%Z) userMappings;
  _ ← throwIf (negb (bool_decide (length acc.1 = 0))) (getSomeFailed acc.1);
  throwIf (bool_decide (setting_UserProjectsLimit settings <= acc.2)%Z)
    (utilerrors_New 403 "reached maximum number of projects").

(** ** Creation *)

(** One turn of the loop that looks up the human owners. *)
Definition addHumanOwner (humanUserOwnerList : list User) (userEmail : string) : M W error (list User) :=
  _ ← throwIf (IsProjectServiceAccount userEmail)
        (utilerrors_New 400 "user email list should contain only human users");
  humanUserOwner ← httpErr (users_UserByEmail userEmail);
  mret (humanUserOwnerList ++ [humanUserOwner]).

Definition ownerEntry (owner : User) : ApiUser := apiUserNamed (user_Name owner) (user_Email owner) [].

Definition createProjectByServiceAccount (saEmail : string) (req : projectReq) : M W error ApiProject :=
  bindings ← httpErr (mapper_MappingsFor saEmail);
  match bindings with
  | [] => throw (utilerrors_New 500 ("no bindings for service account user " +:+ saEmail))
  | saBinding :: _ =>
      _ ← throwIf (negb (HasPrefix (binding_Group saBinding) ProjectManagerGroupNamePrefix))
            (utilerrors_New 403 "the Service Account is not allowed to create a project");
      (* determine regular (human) users that will own the project *)
      humanUserOwnerList ← foldM addHumanOwner [] (preq_Users req);
      _ ← throwIf (bool_decide (length humanUserOwnerList = 0))
            (utilerrors_New 400 "owner user email list required for project creation by Service Account");
      (* create the project *)
      kubermaticProject ← httpErr (projects_New (preq_Name req) (preq_AllowedOperatingSystems req)
                                     (preq_Labels req));
      (* bind Service Account to the project *)
      let generatedGroupName := GenerateActualGroupNameFor (meta_Name (project_meta kubermaticProject))
                                  ProjectManagerGroupNamePrefix in
      _ ← httpErr (members_CreateUnsecuredForServiceAccount kubermaticProject saEmail generatedGroupName);
      (* bind all regular users to the project *)
      _ ← foldM (fun _ user =>
            _ ← httpErr (members_CreateUnsecured kubermaticProject (user_Email user) generatedGroupName);
            mret tt) tt humanUserOwnerList;
      mret (ConvertInternalProjectToExternal kubermaticProject (ownerEntry <$> humanUserOwnerList) 0)
  end.

Definition CreateEndpoint (ctx : Ctx) (projectRq : projectReq) : M W error ApiProject :=
  _ ← throwIf (is_empty (preq_Name projectRq))
        (utilerrors_NewBadRequest "the name of the project cannot be empty");
  settings ← httpErr settings_GetGlobalSettings;
  match ctx_UserCR ctx with
  | None => panic
  | Some user =>
      _ ← checkProjectCreationRestriction user settings;
      _ ← validateUserProjectsLimit user settings;
      let userEmail := user_Email user in
      if IsProjectServiceAccount userEmail then createProjectByServiceAccount userEmail projectRq else
      (* create the project *)
      kubermaticProject ← httpErr (projects_New (preq_Name projectRq)
                                     (preq_AllowedOperatingSystems projectRq) (preq_Labels projectRq));
      (* bind user to the project *)
      let generatedGroupName := GenerateActualGroupNameFor (meta_Name (project_meta kubermaticProject))
                                  OwnerGroupNamePrefix in
      _ ← httpErr (members_CreateUnsecured kubermaticProject userEmail generatedGroupName);
      mret (ConvertInternalProjectToExternal kubermaticProject [ownerEntry user] 0)
  end.

(** ** The clusters of the seeds *)

Section project_clusters.
Context {CLUSTERS : ClusterProvider W}.
Variable SeedInvalidPhase : string.
Variable order : gmap string Seed -> list Seed.
Variable clusterProviderGetter : GetterOf W ClusterProviderT.
Variable seedsGetter : SeedsGetter W.
Variable userInfoGetter : UserInfoGetter W.

Definition listSeeds : M W error (gmap string Seed) :=
  mapErr (fun err => utilerrors_New 500 ("failed to list seeds: " +:+ Error err)) seedsGetter.

(** A turn of the loops over the seeds: invalid and broken seeds are skipped. *)
Definition forSeed {A} (acc : A) (seed : Seed) (body : ClusterProviderT -> M W error A) : M W error A :=
  if bool_decide (seed_Phase seed = SeedInvalidPhase) then mret acc else
  got ← attempt (clusterProviderGetter seed);
  match got with
  | inl _ => mret acc
  | inr clusterProvider => body clusterProvider
  end.

Definition getNumberOfClustersForProject (project : Project) : M W error Z :=
  seeds ← listSeeds;
  foldM (fun clustersNumber seed =>
    forSeed clustersNumber seed (fun clusterProvider =>
      clusters ← clusters_List clusterProvider project;
      mret (clustersNumber + Z.of_nat (length clusters))%Z)) 0%Z (order seeds).

Definition getNumberOfClustersForProjectAndMatch (project : Project) (query : string)
    : M W error (Z * bool) :=
  let search := TrimSpace (ToLower query) in
  seeds ← listSeeds;
  foldM (fun acc seed =>
    forSeed acc seed (fun clusterProvider =>
      clusters ← clusters_List clusterProvider project;
      let clustersNumber := (acc.1 + Z.of_nat (length clusters))%Z in
      mret (clustersNumber,
            if is_empty search || acc.2 then acc.2 else existsb (clusterMatches search) clusters)))
    (0%Z, false) (order seeds).

(** One turn of the loop over the clusters of a seed. *)
Definition countCluster (search : string) (allowedProjectIDs : gset string)
    (acc : gmap string Z * gset string) (cluster : UserCluster) : gmap string Z * gset string :=
  match cluster_Labels cluster !! ProjectIDLabelKey with
  | None => acc
  | Some projectName =>
      let clustersNumber := <[projectName := (default 0 (acc.1 !! projectName) + 1)%Z]> acc.1 in
      if is_empty search then (clustersNumber, acc.2) else
      if bool_decide (0 < size allowedProjectIDs) && negb (bool_decide (projectName ∈ allowedProjectIDs))
      then (clustersNumber, acc.2) else
      (clustersNumber, if clusterMatches search cluster then {[ projectName ]} ∪ acc.2 else acc.2)
  end.

Definition getClusterCountsAndMatches (query : string) (allowedProjectIDs : gset string)
    : M W error (gmap string Z * gset string) :=
  let search := TrimSpace (ToLower query) in
  seeds ← listSeeds;
  foldM (fun acc seed =>
    forSeed acc seed (fun clusterProvider =>
      clusters ← clusters_ListAll clusterProvider;
      mret (foldl (countCluster search allowedProjectIDs) acc clusters)))
    (∅, ∅) (order seeds).

(** ** The list *)

Definition getAllProjectsForAdmin (userInfo : UserInfo) (search : string)
    : M W error (list ApiProject * gset string) :=
  projectList ← httpErr (projects_List None);
  let allowedProjectIDs : gset string :=
    list_to_set ((fun project => meta_Name (project_meta project)) <$> projectList) in
  cm ← httpErr (getClusterCountsAndMatches search allowedProjectIDs);
  projects ← foldM (fun projects project =>
    projectOwners ← httpErr (GetOwnersForProject userInfo project);
    mret (projects ++ [ConvertInternalProjectToExternal project projectOwners
                         (default 0%Z (cm.1 !! meta_Name (project_meta project)))])) [] projectList;
  mret (projects, cm.2).

(** The projects found so far, their IDs and the errors. *)
Record Found := MkFound {
  found_projects : list Project;
  found_ids : gset string;
  found_errors : list string }.

Definition found_add (project : Project) (f : Found) : Found :=
  MkFound (found_projects f ++ [project]) ({[ meta_Name (project_meta project) ]} ∪ found_ids f)
    (found_errors f).
Definition found_error (err : error) (f : Found) : Found :=
  MkFound (found_projects f) (found_ids f) (found_errors f ++ [Error err]).

(** One turn of the loop over the user's own bindings. *)
Definition findMapped (userInfo : UserInfo) (f : Found) (mapping : UserProjectBinding) : M W error Found :=
  let mappingInfo := MkUserInfo (binding_UserEmail mapping) (ui_Groups userInfo ++ [binding_Group mapping])
                       (ui_Roles userInfo) (ui_IsAdmin userInfo) false in
  got ← attempt (projects_Get (Some mappingInfo) (binding_ProjectID mapping) uninitialized);
  match got with
  | inr projectInternal => mret (found_add projectInternal f)
  | inl err =>
      if isStatus err 404 then mret f else
      if negb (isStatus err 403) then mret (found_error err f) else
      gotUnsecured ← attempt (projects_GetUnsecured (binding_ProjectID mapping) uninitialized);
      match gotUnsecured with
      | inl errGetUnsecured =>
          mret (if negb (isStatus errGetUnsecured 404) then found_error err f else f)
      | inr _ => mret f
      end
  end.

(** One turn of the loop over the bindings of the user's groups. *)
Definition findGroupMapped (userInfo : UserInfo) (f : Found) (group : GroupProjectBinding) : M W error Found :=
  let projectID := gbinding_ProjectID group in
  if bool_decide (projectID ∈ found_ids f) then mret f else
  let projectUserInfo := MkUserInfo (ui_Email userInfo)
        (ui_Groups userInfo ++ [gbinding_Group group +:+ "-" +:+ projectID])
        (ui_Roles userInfo) (ui_IsAdmin userInfo) false in
  got ← attempt (projects_Get (Some projectUserInfo) projectID uninitialized);
  match got with
  | inr project => mret (found_add project f)
  | inl err => mret (if isStatus err 404 then f else found_error err f)
  end.

(** One turn of the loop that describes the projects. *)
Definition describe (userInfo : UserInfo) (search : string) (acc : list ApiProject * gset string)
    (project : Project) : M W error (list ApiProject * gset string) :=
  projectOwners ← httpErr (GetOwnersForProject userInfo project);
  nm ← httpErr (getNumberOfClustersForProjectAndMatch project search);
  mret (acc.1 ++ [ConvertInternalProjectToExternal project projectOwners nm.1],
        if (nm.2 : bool) then {[ meta_Name (project_meta project) ]} ∪ acc.2 else acc.2).

Definition project_ListEndpoint (ctx : Ctx) (req : ListReq) : M W error (list ApiProject) :=
  userInfo ← httpErr (userInfoGetter ctx "");
  if list_DisplayAll req && (ui_IsAdmin userInfo || ui_IsGlobalViewer userInfo) then
    all ← getAllProjectsForAdmin userInfo (list_Search req);
    mret (filterProjectsBySearch all.1 (list_Search req) all.2)
  else
    userMappings ← httpErr (mapper_MappingsFor (ui_Email userInfo));
    f ← foldM (findMapped userInfo) (MkFound [] ∅ []) userMappings;
    groupMappings ← mapper_GroupMappingsFor (ui_Groups userInfo);
    f ← foldM (findGroupMapped userInfo) f groupMappings;
    api ← foldM (describe userInfo (list_Search req)) ([], ∅) (found_projects f);
    _ ← throwIf (negb (bool_decide (length (found_errors f) = 0))) (getSomeFailed (found_errors f));
    mret (filterProjectsBySearch api.1 (list_Search req) api.2).

(** ** Deletion, update, read *)

Definition deleteProjectByRegularUser (ctx : Ctx) (projectID : string) : M W error unit :=
  userInfo ← httpErr (userInfoGetter ctx projectID);
  httpErr (projects_Delete (Some userInfo) projectID).

Definition project_DeleteEndpoint (ctx : Ctx) (projectID : string) : M W error unit :=
  _ ← throwIf (is_empty projectID) (utilerrors_NewBadRequest "the id of the project cannot be empty");
  settings ← httpErr settings_GetGlobalSettings;
  match ctx_UserCR ctx with
  | None => panic
  | Some user =>
      _ ← checkProjectDeletionRestriction user settings;
      (* check if admin user *)
      adminUserInfo ← httpErr (userInfoGetter ctx "");
      (* allow to delete any project for the admin user *)
      if ui_IsAdmin adminUserInfo then httpErr (projects_DeleteUnsecured projectID)
      else deleteProjectByRegularUser ctx projectID
  end.

Definition updateProject (ctx : Ctx) (kubermaticProject : Project) : M W error Project :=
  adminUserInfo ← userInfoGetter ctx "";
  if ui_IsAdmin adminUserInfo then projects_UpdateUnsecured kubermaticProject else
  userInfo ← userInfoGetter ctx (meta_Name (project_meta kubermaticProject));
  projects_Update (Some userInfo) kubermaticProject.

Definition updateRq_validate (r : updateRq) : option string :=
  if is_empty (upd_ProjectID r) then Some "the id of the project cannot be empty" else
  if is_empty (upd_Name r) then Some "the name of the project cannot be empty" else None.

(** The project as the request wants it. *)
Definition project_changed (req : updateRq) (project : Project) : Project :=
  MkProject (meta_with_labels (upd_Labels req) (project_meta project)) (upd_Name req)
    (upd_AllowedOperatingSystems req) (project_Phase project).

Definition UpdateEndpoint (ctx : Ctx) (req : updateRq) : M W error ApiProject :=
  _ ← match updateRq_validate req with
      | Some err => throw (utilerrors_NewBadRequest err)
      | None => mret tt
      end;
  settings ← httpErr settings_GetGlobalSettings;
  match ctx_UserCR ctx with
  | None => panic
  | Some user =>
      _ ← checkProjectModificationRestriction user settings;
      kubermaticProject ← httpErr (GetProject userInfoGetter ctx (upd_ProjectID req) None);
      let kubermaticProject := project_changed req kubermaticProject in
      project ← httpErr (updateProject ctx kubermaticProject);
      adminUserInfo ← httpErr (userInfoGetter ctx "");
      projectOwners ← httpErr (GetOwnersForProject adminUserInfo kubermaticProject);
      clustersNumber ← httpErr (getNumberOfClustersForProject project);
      mret (ConvertInternalProjectToExternal project projectOwners clustersNumber)
  end.

Definition project_GetEndpoint (ctx : Ctx) (projectID : string) : M W error ApiProject :=
  _ ← throwIf (is_empty projectID) (utilerrors_NewBadRequest "the id of the project cannot be empty");
  adminUserInfo ← httpErr (userInfoGetter ctx "");
  kubermaticProject ← httpErr (GetProject userInfoGetter ctx projectID None);
  projectOwners ← httpErr (GetOwnersForProject adminUserInfo kubermaticProject);
  clustersNumber ← httpErr (getNumberOfClustersForProject kubermaticProject);
  mret (ConvertInternalProjectToExternal kubermaticProject projectOwners clustersNumber).
End project_clusters.
End project_handlers.

(** ** Lemmas *)

(** A call that only reads. *)
Definition reads {W A} {ST : Store W} (m : M W error A) : Prop :=
  forall w, runs m w (fun r w' => same_store w w' /\ r <> Panic).

Section reads_lemmas.
Context {W : Type} {EL : ErrorLib} {ST : Store W}.

Lemma reads_ret {A} (a : A) : reads (W := W) (mret a).
Proof. intros w. by split. Qed.

Lemma reads_throw {A} (e : error) : reads (W := W) (throw (A := A) e).
Proof. intros w. by split. Qed.

Lemma reads_bind {A B} (m : M W error A) (k : A -> M W error B) :
  reads m -> (forall a, reads (k a)) -> reads (x ← m; k x).
Proof.
  intros Hm Hk w. runs_step. eapply runs_mono; [apply Hm|]. cbn beta. intros r w1 [Hs Hp].
  destruct r as [a|e|]; cbn [andThen]; [|by split|done].
  eapply runs_mono; [apply Hk|]. cbn beta. intros r w2 [Hs2 ?]. split; [by etrans|done].
Qed.

Lemma reads_attempt {A} (m : M W error A) : reads m -> reads (attempt m).
Proof.
  intros Hm w. runs_step. eapply runs_mono; [apply Hm|]. cbn beta. intros r w1 [Hs Hp].
  by destruct r.
Qed.

Lemma reads_mapErr {A} f (m : M W error A) : reads m -> reads (mapErr f m).
Proof.
  intros Hm w. runs_step. eapply runs_mono; [apply Hm|]. cbn beta. intros r w1 [Hs Hp].
  by destruct r.
Qed.

Lemma reads_throwIf (c : bool) (e : error) : reads (W := W) (throwIf c e).
Proof. destruct c; [apply reads_throw|apply reads_ret]. Qed.

Lemma reads_foldM {A B} (f : B -> A -> M W error B) b l :
  (forall b a, reads (f b a)) -> reads (foldM f b l).
Proof.
  intros Hf. revert b. induction l as [|a l IH]; intros b; cbn [foldM]; [apply reads_ret|].
  apply reads_bind; auto.
Qed.
End reads_lemmas.

(** From a specification that says so. *)
Ltac reads_from lem :=
  intros w; eapply runs_mono; [apply lem|]; cbn beta; intros r w' [Hs H];
  split; [done|]; by destruct r.

Create HintDb reads.
#[export] Hint Resolve reads_ret reads_throw reads_bind reads_attempt reads_mapErr reads_throwIf
  reads_foldM : reads.

Section project_handlers_proofs.
Context {W : Type} {EL : ErrorLib} {P : SDK} {API : KubeAPI W} {ST : Store W}
        {MEMBERS : ProjectMemberProvider W} {USERS : UserProvider W}
        {PROJECTS : ProjectProvider W} {PPROJECTS : PrivilegedProjectProvider W}
        {MAPPER : ProjectMemberMapper W} {SETTINGS : SettingsProvider W} {ELL : ErrorLibLaws EL}
        {LAWS : KubeAPILaws W} {MAPL : ProjectMemberMapperLaws W} {MEML : ProjectMemberProviderLaws W}
        {UL : UserProviderLaws W} {PRL : ProjectProviderLaws W}
        {PPL : PrivilegedProjectProviderLaws W} {SL : SettingsProviderLaws W}.
Implicit Types w : W.

Lemma reads_MappingsFor email : reads (mapper_MappingsFor email).
Proof. reads_from mapper_mappings. Qed.
Lemma reads_GroupMappingsFor gs : reads (mapper_GroupMappingsFor gs).
Proof. reads_from mapper_group_mappings. Qed.
Lemma reads_Get ui id o : reads (projects_Get ui id o).
Proof. reads_from projects_Get_spec. Qed.
Lemma reads_GetUnsecured id o : reads (projects_GetUnsecured id o).
Proof. reads_from projects_GetUnsecured_spec. Qed.
Lemma reads_Owners ui p : reads (GetOwnersForProject ui p).
Proof. reads_from GetOwnersForProject_spec. Qed.
Lemma reads_UserByEmail e : reads (users_UserByEmail e).
Proof. reads_from users_UserByEmail_spec. Qed.
Lemma reads_userInfo ctx pid : reads (UserInfoGetterFactory ctx pid).
Proof. reads_from UserInfoGetterFactory_spec. Qed.
Lemma reads_httpErr {A} (m : M W error A) : reads m -> reads (httpErr m).
Proof. apply reads_mapErr. Qed.

#[local] Hint Resolve reads_MappingsFor reads_GroupMappingsFor reads_Get reads_GetUnsecured reads_Owners
  reads_UserByEmail reads_userInfo reads_httpErr : reads.

Lemma reads_countOwned user acc mapping : reads (countOwned user acc mapping).
Proof.
  unfold countOwned. apply reads_bind; [by auto with reads|]. intros [err|p].
  - destruct (negb _); [by auto with reads|]. apply reads_bind; [by auto with reads|].
    intros [e|q]; by auto with reads.
  - apply reads_bind; [by auto with reads|]. by auto with reads.
Qed.

Lemma reads_validateUserProjectsLimit user settings : reads (validateUserProjectsLimit user settings).
Proof.
  unfold validateUserProjectsLimit. destruct (user_IsAdmin user); [by auto with reads|].
  case_bool_decide; [by auto with reads|]. apply reads_bind; [by auto with reads|]. intros ms.
  apply reads_bind; [apply reads_foldM; intros; apply reads_countOwned|]. intros acc.
  apply reads_bind; auto with reads.
Qed.

(** The humans a service account names: every one is registered. *)
Definition humans_for w (emails : list string) (us : list User) : Prop :=
  Forall2 (fun e u => registered w u /\ EqualFold (user_Email u) e = true /\
             IsProjectServiceAccount e = false) emails us.

Lemma addHumanOwners_spec emails w :
  runs (foldM addHumanOwner [] emails) w (fun r w' => same_store w w' /\
    match r with
    | Ok us => humans_for w emails us
    | Err _ => True
    | Panic => False
    end).
Proof.
  apply (runs_foldM _ (fun seen us w' => same_store w w' /\ humans_for w seen us)).
  - split; [done|constructor].
  - intros seen e rest us w1 _ [Hs Hus]. unfold addHumanOwner, httpErr. runs_guard; [by split|].
    do 2 runs_step. eapply runs_mono; [apply users_UserByEmail_spec|]. cbn beta. intros r w2 [Hs2 Hu].
    assert (same_store w w2) as Hs' by (by etrans).
    destruct r as [u|err|]; cbn [andThen]; [|done|done]. runs_step. split; [done|].
    apply Forall2_app; [done|]. constructor; [|constructor]. destruct Hu. rewrite Hs. by split_and!.
  - done.
Qed.

(** The email got a binding of the project under the role. *)
Definition bound_as w (project : Project) (email role : string) : Prop :=
  exists b, bound w b /\ binds_member b project email
    (GenerateActualGroupNameFor (project_id project) role).

(** Nothing but bindings was added. *)
Definition bindings_added w w' : Prop :=
  same_except KBinding w w' /\ forall b, bound w b -> bound w' b.

Lemma bindings_added_refl w w' : same_store w w' -> bindings_added w w'.
Proof. intros Hs. split; [by apply same_store_except|]. intros b. by rewrite Hs. Qed.

Lemma bindings_added_trans w1 w2 w3 : bindings_added w1 w2 -> bindings_added w2 w3 -> bindings_added w1 w3.
Proof.
  intros [H1 H1'] [H2 H2']. split; [|by auto]. intros k Hk. etrans; [by apply H1|by apply H2].
Qed.

Lemma bindings_added_created w w' b : created KBinding w w' b -> bindings_added w w' /\ bound w' b.
Proof.
  intros (Hn & Hv & Hex). split; [split; [done|]|].
  - intros b' [n Hb']. exists n. rewrite Hv, lookup_insert_ne; [done|]. intros <-.
    assert (Some b' = None) as [=]. by rewrite <- Hb'.
  - exists (key_of KBinding b). rewrite Hv. apply lookup_insert_eq.
Qed.

Lemma bound_as_added w w' project email role :
  bindings_added w w' -> bound_as w project email role -> bound_as w' project email role.
Proof. intros [_ Ha] (b & Hb & Hm). exists b. auto. Qed.

Lemma bindOwners_spec project role us w :
  runs (foldM (fun (_ : unit) user =>
          _ ← httpErr (members_CreateUnsecured project (user_Email user)
                         (GenerateActualGroupNameFor (project_id project) role));
          mret tt) tt us) w (fun r w' => bindings_added w w' /\
    match r with
    | Ok _ => forall u, u ∈ us -> bound_as w' project (user_Email u) role
    | Err _ => True
    | Panic => False
    end).
Proof.
  apply (runs_foldM _ (fun seen _ w' => bindings_added w w' /\
    forall u, u ∈ seen -> bound_as w' project (user_Email u) role)).
  - split; [by apply bindings_added_refl|]. intros u Hu. by apply elem_of_nil in Hu.
  - intros seen u rest _ w1 _ [Hadd Hb]. runs_step.
    eapply httpErr_spec; [apply members_CreateUnsecured_spec|]. intros r w2 Hc.
    destruct r as [b|e|]; cbn [andThen]; [|split; [|done]|done].
    2:{ eapply bindings_added_trans; [done|by apply bindings_added_refl]. }
    destruct Hc as (_ & Hm & [Hadd' Hbb]%bindings_added_created). runs_step.
    split; [by eapply bindings_added_trans|]. intros u' [Hu'| ->]%elem_of_snoc.
    + eapply bound_as_added; [done|by apply Hb].
    + by exists b.
  - by intros [] w1 [? ?].
Qed.

(** The project of the request was created, and then only bindings. *)
Definition project_created w w' (req : projectReq) (p : Project) : Prop :=
  (exists w1, created KProject w w1 p /\ bindings_added w1 w') /\
  project_Name p = preq_Name req /\ project_AllowedOperatingSystems p = preq_AllowedOperatingSystems req /\
  meta_Labels (project_meta p) = preq_Labels req.

(** A service account with the role of a project manager creates projects for
    registered users: everyone becomes a project manager. *)
Definition created_by_account w w' (req : projectReq) (email : string) (p : Project)
    (owners : list ApiUser) : Prop :=
  (exists b, bound w b /\ EqualFold (binding_UserEmail b) email = true /\
     HasPrefix (binding_Group b) ProjectManagerGroupNamePrefix = true) /\
  bound_as w' p email ProjectManagerGroupNamePrefix /\
  exists us, humans_for w (preq_Users req) us /\ us <> [] /\ owners = ownerEntry <$> us /\
    forall u, u ∈ us -> bound_as w' p (user_Email u) ProjectManagerGroupNamePrefix.

Lemma createProjectByServiceAccount_spec email req w :
  runs (createProjectByServiceAccount email req) w (fun r w' =>
    match r with
    | Ok a => exists p owners, a = ConvertInternalProjectToExternal p owners 0 /\
        project_created w w' req p /\ created_by_account w w' req email p owners
    | Err _ => True
    | Panic => False
    end).
Proof.
  unfold createProjectByServiceAccount. runs_step. eapply httpErr_spec; [apply mapper_mappings|].
  intros r w1 [Hs1 Hm]. destruct r as [bs|e|]; cbn [andThen]; [|done|done].
  destruct bs as [|sab bs]; [by runs_step|]. runs_guard; [done|]. apply negb_false_iff in H.
  runs_step. eapply runs_mono; [apply addHumanOwners_spec|]. cbn beta. intros r w2 [Hs2 Hus].
  destruct r as [us|e|]; cbn [andThen]; [|done|done]. runs_guard; [done|].
  apply bool_decide_eq_false in H0. runs_step. eapply httpErr_spec; [apply projects_New_spec|].
  intros r w3 Hp. destruct r as [p|e|]; cbn [andThen]; [|done|done]. destruct Hp as (Hn & Hos & Hlab & Hc).
  runs_step. eapply httpErr_spec; [apply members_CreateUnsecuredForServiceAccount_spec|].
  intros r w4 Hb. destruct r as [b|e|]; cbn [andThen]; [|done|done].
  destruct Hb as (_ & Hbm & [Hadd Hbb]%bindings_added_created). runs_step.
  eapply runs_mono; [apply bindOwners_spec|]. cbn beta. intros r w5 [Hadd' Hall].
  destruct r as [[]|e|]; cbn [andThen]; [|done|done]. runs_step.
  assert (same_store w w2) as H2 by (by etrans).
  exists p, (ownerEntry <$> us). split; [done|]. split.
  { split; [|done]. exists w3. rewrite H2. split; [done|]. by eapply bindings_added_trans. }
  split.
  - exists sab. destruct (proj1 (Hm sab) (list_elem_of_here _ _)) as [? ?]. done.
  - split; [eapply bound_as_added; [done|by exists b]|]. exists us. split_and!; [|by intros ->|done|done].
    eapply Forall2_impl; [exact Hus|]. cbn beta. intros e u. by rewrite Hs1.
Qed.

(** What a creation did, in the world the settings left. *)
Definition creation ctx (req : projectReq) w w' (a : ApiProject) : Prop :=
  exists user settings w0 p owners,
    ctx_UserCR ctx = Some user /\ settings_GetGlobalSettings w = (Ok settings, w0) /\
    (user_IsAdmin user = true \/ setting_RestrictProjectCreation settings = false) /\
    (validateUserProjectsLimit user settings w0).1 = Ok tt /\
    a = ConvertInternalProjectToExternal p owners 0 /\ project_created w0 w' req p /\
    if IsProjectServiceAccount (user_Email user)
    then created_by_account w0 w' req (user_Email user) p owners
    else owners = [ownerEntry user] /\ bound_as w' p (user_Email user) OwnerGroupNamePrefix.

#[export] Instance project_created_proper : Proper (same_store ==> eq ==> eq ==> eq ==> iff) project_created.
Proof. intros w1 w1' H1 w2 ? <- r ? <- p ? <-. unfold project_created. by setoid_rewrite H1. Qed.

Lemma restriction_spec (user : User) (c : bool) (e : error) w :
  runs (if user_IsAdmin user then mret tt else throwIf c e) w (fun r w' => w' = w /\
    match r with Ok _ => user_IsAdmin user = true \/ c = false | Err _ => True | Panic => False end).
Proof. by destruct (user_IsAdmin user), c; (split; [done|]); cbn; auto. Qed.

Lemma CreateEndpoint_spec ctx req w :
  ctx_UserCR ctx <> None ->
  runs (CreateEndpoint ctx req) w (fun r w' =>
    match r with
    | Ok a => creation ctx req w w' a
    | Err _ => True
    | Panic => False
    end).
Proof.
  intros Hctx. unfold CreateEndpoint. runs_guard; [done|]. runs_step. unfold httpErr at 1. runs_step.
  apply runs_intro. intros r w0 Hset.
  destruct (runs_elim _ _ _ _ _ (settings_GetGlobalSettings_spec w) Hset) as [_ Hnp].
  destruct r as [settings|e|]; cbn [andThen]; [|done|done].
  destruct (ctx_UserCR ctx) as [user|] eqn:Ec; [|done]. runs_step.
  eapply runs_mono; [apply restriction_spec|]. cbn beta. intros r w1 [-> Hres].
  destruct r as [[]|e|]; cbn [andThen]; [|done|done]. runs_step. apply runs_intro. intros r w1 Hlim.
  destruct (runs_elim _ _ _ _ _ (reads_validateUserProjectsLimit user settings w0) Hlim) as [Hs1 Hnp'].
  destruct r as [[]|e|]; cbn [andThen]; [|done|done].
  assert ((validateUserProjectsLimit user settings w0).1 = Ok tt) as Hl by (by rewrite Hlim).
  destruct (IsProjectServiceAccount (user_Email user)) eqn:Esa.
  - eapply runs_mono; [apply createProjectByServiceAccount_spec|]. cbn beta.
    intros [a|e|] w2 H'; [|done|done]. destruct H' as (p & owners & -> & Hp & Ho).
    exists user, settings, w0, p, owners. rewrite Esa. split_and!; try done; [by rewrite Hs1|].
    destruct Ho as ((b & Hb & Hb') & Hsa & us & Hus & Hus'). split; [exists b; by rewrite Hs1|].
    split; [done|]. exists us. split; [|done]. eapply Forall2_impl; [exact Hus|]. cbn beta.
    intros e u. by rewrite Hs1.
  - runs_step. eapply httpErr_spec; [apply projects_New_spec|]. intros r w2 Hp.
    destruct r as [p|e|]; cbn [andThen]; [|done|done]. destruct Hp as (Hn & Hos & Hlab & Hc). runs_step.
    eapply httpErr_spec; [apply members_CreateUnsecured_spec|]. intros r w3 Hb.
    destruct r as [b|e|]; cbn [andThen]; [|done|done]. runs_step.
    destruct Hb as (_ & Hbm & [Hadd Hbb]%bindings_added_created).
    exists user, settings, w0, p, [ownerEntry user]. rewrite Esa. split_and!; try done.
    + split; [|done]. exists w2. by rewrite Hs1.
    + by exists b.
Qed.

(** The user may, with regard to the restriction [restricted] of the settings. *)
Definition unrestricted ctx (restricted : KubermaticSetting -> bool) w w0 (user : User) : Prop :=
  ctx_UserCR ctx = Some user /\ exists settings, settings_GetGlobalSettings w = (Ok settings, w0) /\
    (user_IsAdmin user = true \/ restricted settings = false).

(** The start the endpoints that write share. *)
Lemma with_settings {A} ctx (msg : string) (restricted : KubermaticSetting -> bool)
    (k : User -> M W error A) w (Q : result error A -> W -> Prop) :
  ctx_UserCR ctx <> None ->
  (forall e w', same_except KSetting w w' -> Q (Err e) w') ->
  (forall user w0, unrestricted ctx restricted w w0 user -> runs (k user) w0 Q) ->
  runs (settings ← httpErr settings_GetGlobalSettings;
        match ctx_UserCR ctx with
        | None => panic
        | Some user =>
            _ ← (if user_IsAdmin user then mret tt else
                 throwIf (restricted settings) (utilerrors_New 403 msg));
            k user
        end) w Q.
Proof.
  intros Hctx He Hk. runs_step. unfold httpErr at 1. runs_step. apply runs_intro. intros r w0 Hset.
  destruct (runs_elim _ _ _ _ _ (settings_GetGlobalSettings_spec w) Hset) as [Hs Hnp].
  destruct r as [settings|e|]; cbn [andThen]; [|by apply He|done].
  destruct (ctx_UserCR ctx) as [user|] eqn:Ec; [|done]. runs_step.
  eapply runs_mono; [apply restriction_spec|]. cbn beta. intros r w1 [-> Hres].
  destruct r as [[]|e|]; cbn [andThen]; [|by apply He|done].
  apply Hk. split; [done|]. by exists settings.
Qed.

(** What a deletion did. *)
Definition project_deleted ctx (pid : string) w w' : Prop :=
  exists user w0, unrestricted ctx setting_RestrictProjectDeletion w w0 user /\
    permitted w0 user pid VDelete KProject ("", pid) /\ deleted KProject w0 w' ("", pid).

Lemma project_DeleteEndpoint_spec ctx pid w :
  ctx_UserCR ctx <> None ->
  runs (project_DeleteEndpoint UserInfoGetterFactory ctx pid) w (fun r w' =>
    match r with
    | Ok _ => project_deleted ctx pid w w'
    | Err _ => same_except KSetting w w'
    | Panic => False
    end).
Proof.
  intros Hctx. unfold project_DeleteEndpoint. runs_guard; [done|].
  apply with_settings; [done|done|]. intros user w0 Hu.
  assert (forall w1, same_store w0 w1 -> same_except KSetting w w1) as Herr.
  { intros w1 <-. destruct Hu as (_ & settings & Hset & _).
    by destruct (runs_elim _ _ _ _ _ (settings_GetGlobalSettings_spec w) Hset). }
  runs_step. eapply runs_mono; [apply requester_spec|]. cbn beta. intros r w1 [Hs1 Hi].
  destruct r as [ui|e|]; cbn [andThen]; [|by apply Herr|done].
  destruct Hi as (user' & Hc' & _ & Ha). pose proof Hu as [Hc _]. rewrite Hc in Hc'. injection Hc' as <-.
  rewrite Ha. destruct (user_IsAdmin user) eqn:Ea.
  - eapply httpErr_spec; [apply projects_DeleteUnsecured_spec|]. intros [[]|e|] w2 Hd; [| |done].
    + exists user, w0. split; [done|]. split; [by left|by rewrite Hs1].
    + apply Herr. by etrans.
  - unfold deleteProjectByRegularUser. runs_step. eapply httpErr_spec; [apply UserInfoGetterFactory_spec|].
    intros r w2 [Hs2 Hi]. assert (same_store w0 w2) as H2 by (by etrans).
    destruct r as [ui'|e|]; cbn [andThen]; [|by apply Herr|done].
    destruct Hi as (user' & Hc' & _ & Hi). rewrite Hc in Hc'. injection Hc' as <-.
    eapply httpErr_spec; [apply projects_Delete_spec|]. intros [[]|e|] w3 Hd; [| |done].
    + destruct Hd as (ui0 & [= <-] & _ & Hauth & Hd). exists user, w0. split; [done|].
      split; [right|by rewrite H2]. exists ui'. split; [by rewrite Hs1|by rewrite H2].
    + apply Herr. by etrans.
Qed.

Lemma updateProject_spec ctx p w :
  runs (updateProject UserInfoGetterFactory ctx p) w (fun r w' =>
    match r with
    | Ok p' => (exists user, ctx_UserCR ctx = Some user /\
          permitted w user (project_id p) VUpdate KProject (key_of KProject p)) /\
        strip KProject p' = strip KProject p /\ updated KProject w w' p'
    | Err _ => same_store w w'
    | Panic => False
    end).
Proof.
  unfold updateProject. apply as_admin_or_user; [done| |].
  - intros user w1 Hc Ha Hs. eapply runs_mono; [apply projects_UpdateUnsecured_spec|]. cbn beta.
    intros [p'|e|] w2 H; [|by etrans|done]. rewrite Hs. split; [|done]. exists user. by split; [|left].
  - intros user ui w1 Hc Hi Hs. eapply runs_mono; [apply projects_Update_spec|]. cbn beta.
    intros [p'|e|] w2 H; [|by etrans|done]. destruct H as (ui0 & [= <-] & Ha & H).
    split; [|by rewrite Hs]. exists user. split; [done|]. right. exists ui. by rewrite Hs in *.
Qed.
End project_handlers_proofs.

Section project_lists_proofs.
Context {W : Type} {EL : ErrorLib} {P : SDK} {API : KubeAPI W} {ST : Store W}
        {MEMBERS : ProjectMemberProvider W} {USERS : UserProvider W}
        {PROJECTS : ProjectProvider W} {PPROJECTS : PrivilegedProjectProvider W}
        {MAPPER : ProjectMemberMapper W} {SETTINGS : SettingsProvider W} {ELL : ErrorLibLaws EL}
        {LAWS : KubeAPILaws W} {MAPL : ProjectMemberMapperLaws W} {MEML : ProjectMemberProviderLaws W}
        {UL : UserProviderLaws W} {PRL : ProjectProviderLaws W}
        {PPL : PrivilegedProjectProviderLaws W} {SL : SettingsProviderLaws W}
        {CLUSTERS : ClusterProvider W}.
Variable SeedInvalidPhase : string.
Variable order : gmap string Seed -> list Seed.
Variable clusterProviderGetter : GetterOf W ClusterProviderT.
Variable seedsGetter : SeedsGetter W.
Implicit Types w : W.

(** Looking at seeds and clusters writes nothing. *)
Definition clusters_readable : Prop :=
  reads seedsGetter /\ (forall s, reads (clusterProviderGetter s)) /\
  (forall cp p, reads (clusters_List cp p)) /\ (forall cp, reads (clusters_ListAll cp)).

Hypothesis Hreadable : clusters_readable.

#[local] Hint Resolve reads_MappingsFor reads_GroupMappingsFor reads_Get reads_GetUnsecured reads_Owners
  reads_UserByEmail reads_userInfo reads_httpErr : reads.

Lemma reads_listSeeds : reads (listSeeds seedsGetter).
Proof. destruct Hreadable. unfold listSeeds. auto with reads. Qed.

Lemma reads_forSeed {A} (acc : A) s body :
  (forall cp, reads (body cp)) -> reads (forSeed SeedInvalidPhase clusterProviderGetter acc s body).
Proof.
  intros Hb. destruct Hreadable as (_ & Hg & _). unfold forSeed. case_bool_decide; [auto with reads|].
  apply reads_bind; [auto with reads|]. intros [e|cp]; auto with reads.
Qed.

Lemma reads_getNumberOfClustersForProject p :
  reads (getNumberOfClustersForProject SeedInvalidPhase order clusterProviderGetter seedsGetter p).
Proof.
  destruct Hreadable as (_ & _ & Hl & _). unfold getNumberOfClustersForProject.
  apply reads_bind; [apply reads_listSeeds|]. intros seeds. apply reads_foldM. intros n s.
  apply reads_forSeed. intros cp. apply reads_bind; auto with reads.
Qed.

Lemma reads_getNumberOfClustersForProjectAndMatch p q :
  reads (getNumberOfClustersForProjectAndMatch SeedInvalidPhase order clusterProviderGetter seedsGetter p q).
Proof.
  destruct Hreadable as (_ & _ & Hl & _). unfold getNumberOfClustersForProjectAndMatch.
  apply reads_bind; [apply reads_listSeeds|]. intros seeds. apply reads_foldM. intros n s.
  apply reads_forSeed. intros cp. apply reads_bind; auto with reads.
Qed.

Lemma reads_getClusterCountsAndMatches q ids :
  reads (getClusterCountsAndMatches SeedInvalidPhase order clusterProviderGetter seedsGetter q ids).
Proof.
  destruct Hreadable as (_ & _ & _ & Hl). unfold getClusterCountsAndMatches.
  apply reads_bind; [apply reads_listSeeds|]. intros seeds. apply reads_foldM. intros n s.
  apply reads_forSeed. intros cp. apply reads_bind; auto with reads.
Qed.

(** What an update did: only the project changed, as the request says. *)
Definition project_updated ctx (req : updateRq) w w' (a : ApiProject) : Prop :=
  exists user w0 p p' owners n,
    unrestricted ctx setting_RestrictProjectModification w w0 user /\
    project_at w0 (upd_ProjectID req) p /\
    permitted w0 user (upd_ProjectID req) VUpdate KProject (key_of KProject p) /\
    strip KProject p' = strip KProject (project_changed req p) /\ updated KProject w0 w' p' /\
    a = ConvertInternalProjectToExternal p' owners n.

Lemma UpdateEndpoint_spec ctx req w :
  ctx_UserCR ctx <> None ->
  runs (UpdateEndpoint SeedInvalidPhase order clusterProviderGetter seedsGetter UserInfoGetterFactory
          ctx req) w (fun r w' =>
    match r with
    | Ok a => project_updated ctx req w w' a
    | Err _ => True
    | Panic => False
    end).
Proof.
  intros Hctx. unfold UpdateEndpoint. runs_step.
  destruct (updateRq_validate req); runs_step; [done|]. cbn [andThen].
  apply with_settings; [done|done|]. intros user w0 Hu. pose proof Hu as [Hc _]. runs_step.
  eapply httpErr_spec; [apply handler_GetProject|]. intros r w1 [Hs1 Hp].
  destruct r as [p|e|]; cbn [andThen]; [|done|done]. destruct Hp as [_ [Hv Hn]]. runs_step.
  eapply httpErr_spec; [apply updateProject_spec|]. intros r w2 Hp'.
  destruct r as [p'|e|]; cbn [andThen]; [|done|done].
  destruct Hp' as ((user' & Hc' & Hperm) & Hst & Hup). rewrite Hc in Hc'. injection Hc' as <-. runs_step.
  eapply runs_mono; [apply requester_spec|]. cbn beta. intros r w3 [Hs3 Hi].
  destruct r as [ui|e|]; cbn [andThen]; [|done|done]. runs_step.
  eapply httpErr_spec; [apply reads_Owners|]. intros r w4 [Hs4 Hnp].
  destruct r as [owners|e|]; cbn [andThen]; [|done|done]. runs_step.
  eapply httpErr_spec; [apply reads_getNumberOfClustersForProject|]. intros r w5 [Hs5 Hnp5].
  destruct r as [n|e|]; cbn [andThen]; [|done|done]. runs_step.
  assert (same_store w2 w5) as Hs by (rewrite Hs3, Hs4; done).
  exists user, w0, p, p', owners, n. split; [done|].
  split; [by split|]. split_and!; [|done| |done].
  - rewrite Hs1.
    change (project_id (project_changed req p)) with (meta_Name (project_meta p)) in Hperm.
    by rewrite Hn in Hperm.
  - by rewrite Hs1, <- Hs.
Qed.

(** The user with these groups may see the project: as the API server lets the
    user with the group of an own binding, or with the group of a group binding
    suffixed with the project. *)
Definition may_see w (user : User) (gs : list string) (p : Project) : Prop :=
  let id := project_id p in
  view KProject w !! ("", id) = Some p /\ exists info,
    authorized w (as_user info) VGet KProject ("", id) /\
    ((exists b, bound w b /\ EqualFold (binding_UserEmail b) (user_Email user) = true /\
        binding_ProjectID b = id /\ ui_Email info = binding_UserEmail b /\
        ui_Groups info = gs ++ [binding_Group b]) \/
     (exists g, group_bound w g /\ gbinding_Group g ∈ gs /\ gbinding_ProjectID g = id /\
        ui_Email info = user_Email user /\
        ui_Groups info = gs ++ [gbinding_Group g +:+ "-" +:+ id])).

(** A project that was read under its ID. *)
Lemma Get_found ui id o w :
  runs (projects_Get (Some ui) id o) w (fun r w' => same_store w w' /\
    match r with
    | Ok p => project_id p = id /\ view KProject w !! ("", id) = Some p /\
        authorized w (as_user ui) VGet KProject ("", id)
    | Err _ => True
    | Panic => False
    end).
Proof.
  eapply runs_mono; [apply projects_Get_spec|]. cbn beta. intros [p|e|] w' [Hs H]; [|done|done].
  split; [done|]. destruct H as (ui' & [= <-] & Hv & Ha & _). split_and!; [|done|done].
  pose proof (view_key KProject _ _ _ Hv) as Hk. by injection Hk.
Qed.

Definition all_seen w user gs (f : Found) : Prop :=
  forall p, p ∈ found_projects f -> may_see w user gs p.

Lemma all_seen_add w user gs p f : may_see w user gs p -> all_seen w user gs f -> all_seen w user gs (found_add p f).
Proof. intros Hp Hf q [Hq| ->]%elem_of_snoc; [by apply Hf|done]. Qed.

Lemma findMapped_spec ui user f mapping w0 w :
  ui_Email ui = user_Email user -> same_store w0 w -> bound w0 mapping ->
  EqualFold (binding_UserEmail mapping) (user_Email user) = true -> all_seen w0 user (ui_Groups ui) f ->
  runs (findMapped ui f mapping) w (fun r w' => same_store w0 w' /\
    exists f', r = Ok f' /\ all_seen w0 user (ui_Groups ui) f').
Proof.
  intros He Hs0 Hb Hbe Hf. unfold findMapped. do 2 runs_step.
  eapply runs_mono; [apply Get_found|]. cbn beta. intros r w1 [Hs1 Hg].
  assert (same_store w0 w1) as H1 by (by etrans).
  destruct r as [p|e|]; cbn [andThen]; [| |done].
  - runs_step. split; [done|]. eexists. split; [done|]. apply all_seen_add; [|done].
    destruct Hg as (Hid & Hv & Ha). split; [rewrite Hid; destruct Hs0 as [Hs0 _]; by rewrite Hs0|].
    eexists. split; [rewrite Hid, Hs0; exact Ha|]. left. exists mapping. by split_and!.
  - destruct (isStatus e 404); [runs_step; split; [done|]; by exists f|].
    destruct (negb _); [runs_step; split; [done|]; by exists (found_error e f)|].
    do 2 runs_step. eapply runs_mono; [apply reads_GetUnsecured|]. cbn beta. intros r w2 [Hs2 Hp].
    assert (same_store w0 w2) as H2 by (by etrans).
    destruct r as [q|e'|]; cbn [andThen]; [| |done]; runs_step; (split; [done|]); [by exists f|].
    eexists. split; [done|]. by destruct (negb _).
Qed.

Lemma findGroupMapped_spec ui user f group w0 w :
  ui_Email ui = user_Email user -> same_store w0 w -> group_bound w0 group ->
  gbinding_Group group ∈ ui_Groups ui -> all_seen w0 user (ui_Groups ui) f ->
  runs (findGroupMapped ui f group) w (fun r w' => same_store w0 w' /\
    exists f', r = Ok f' /\ all_seen w0 user (ui_Groups ui) f').
Proof.
  intros He Hs0 Hb Hbe Hf. unfold findGroupMapped. case_bool_decide; [runs_step; split; [done|]; by exists f|].
  do 2 runs_step. eapply runs_mono; [apply Get_found|]. cbn beta. intros r w1 [Hs1 Hg].
  assert (same_store w0 w1) as H1 by (by etrans).
  destruct r as [p|e|]; cbn [andThen]; [| |done]; runs_step; (split; [done|]).
  - eexists. split; [done|]. apply all_seen_add; [|done].
    destruct Hg as (Hid & Hv & Ha). split; [rewrite Hid; destruct Hs0 as [Hs0 _]; by rewrite Hs0|].
    eexists. split; [rewrite Hid, Hs0; exact Ha|]. right. exists group. rewrite Hid. by split_and!.
  - eexists. split; [done|]. by destruct (isStatus e 404).
Qed.

(** Every description is that of one of the projects, and every project has one. *)
Definition describes (ps : list Project) (l : list ApiProject) : Prop :=
  (forall a, a ∈ l -> exists p owners n, p ∈ ps /\ a = ConvertInternalProjectToExternal p owners n) /\
  (forall p, p ∈ ps -> exists a owners n, a ∈ l /\ a = ConvertInternalProjectToExternal p owners n).

Lemma describes_snoc ps l p owners n :
  describes ps l -> describes (ps ++ [p]) (l ++ [ConvertInternalProjectToExternal p owners n]).
Proof.
  intros [H1 H2]. split.
  - intros a [Ha| ->]%elem_of_snoc.
    + destruct (H1 a Ha) as (q & o & m & ? & ?). exists q, o, m. set_solver.
    + exists p, owners, n. set_solver.
  - intros q [Hq| ->]%elem_of_snoc.
    + destruct (H2 q Hq) as (a & o & m & ? & ?). exists a, o, m. set_solver.
    + eexists _, owners, n. split; [|done]. set_solver.
Qed.

Lemma describe_spec ui search ps w :
  runs (foldM (describe SeedInvalidPhase order clusterProviderGetter seedsGetter ui search) ([], ∅) ps) w
    (fun r w' => same_store w w' /\
    match r with Ok acc => describes ps acc.1 | Err _ => True | Panic => False end).
Proof.
  apply (runs_foldM _ (fun seen acc w' => same_store w w' /\ describes seen acc.1)).
  - split; [done|]. split; intros x Hx; by apply elem_of_nil in Hx.
  - intros seen p rest acc w1 _ [Hs Hd]. unfold describe. runs_step.
    eapply httpErr_spec; [apply reads_Owners|]. intros r w2 [Hs2 Hnp].
    assert (same_store w w2) as H2 by (by etrans).
    destruct r as [owners|e|]; cbn [andThen]; [|done|done]. runs_step.
    eapply httpErr_spec; [apply reads_getNumberOfClustersForProjectAndMatch|]. intros r w3 [Hs3 Hnp3].
    assert (same_store w w3) as H3 by (by etrans).
    destruct r as [nm|e|]; cbn [andThen]; [|done|done]. runs_step. split; [done|]. cbn [fst].
    by apply describes_snoc.
  - by intros acc w1 [? ?].
Qed.

Lemma getAllProjectsForAdmin_spec ui search w :
  runs (getAllProjectsForAdmin SeedInvalidPhase order clusterProviderGetter seedsGetter ui search) w
    (fun r w' => same_store w w' /\
    match r with
    | Ok all => exists ps, describes ps all.1 /\ forall id, id ∈ project_id <$> ps <->
        exists n p, view KProject w !! n = Some p /\ project_id p = id
    | Err _ => True
    | Panic => False
    end).
Proof.
  unfold getAllProjectsForAdmin. runs_step. eapply httpErr_spec; [apply projects_List_spec|].
  intros r w1 [Hs1 Hl]. destruct r as [ps|e|]; cbn [andThen]; [|done|done]. specialize (Hl eq_refl). runs_step.
  eapply httpErr_spec; [apply reads_getClusterCountsAndMatches|]. intros r w2 [Hs2 Hnp].
  assert (same_store w w2) as H2 by (by etrans).
  destruct r as [cm|e|]; cbn [andThen]; [|done|done]. runs_step.
  apply (runs_foldM _ (fun seen l w' => same_store w w' /\ describes seen l)).
  - split; [done|]. split; intros x Hx; by apply elem_of_nil in Hx.
  - intros seen p rest l w3 _ [Hs3 Hd]. runs_step.
    eapply httpErr_spec; [apply reads_Owners|]. intros r w4 [Hs4 Hnp4].
    assert (same_store w w4) as H4 by (by etrans).
    destruct r as [owners|e|]; cbn [andThen]; [|done|done]. runs_step. split; [done|].
    by apply describes_snoc.
  - intros l w3 [Hs3 Hd]. cbn [andThen]. runs_step. split; [done|]. by exists ps.
Qed.

Lemma elem_of_filterProjectsBySearch l q ids a : a ∈ filterProjectsBySearch l q ids -> a ∈ l.
Proof.
  unfold filterProjectsBySearch. destruct (is_empty _); [done|]. by intros [? _]%elem_of_List_filter.
Qed.

(** What the list shows: everything to those who may see everything, else the
    projects the user may see. *)
Definition list_shows w (user : User) (req : ListReq) (l : list ApiProject) : Prop :=
  if list_DisplayAll req && (user_IsAdmin user || user_IsGlobalViewer user)
  then (forall a, a ∈ l -> exists n p, view KProject w !! n = Some p /\
          project_id p = api_ID (apiproject_meta a)) /\
       (TrimSpace (ToLower (list_Search req)) = "" -> forall n p, view KProject w !! n = Some p ->
          exists a, a ∈ l /\ api_ID (apiproject_meta a) = project_id p)
  else forall a, a ∈ l -> exists p owners n gs, a = ConvertInternalProjectToExternal p owners n /\
         (forall g, g ∈ gs <-> g ∈ user_Groups user) /\ may_see w user gs p.

Lemma list_shows_all w user req ps all :
  list_DisplayAll req && (user_IsAdmin user || user_IsGlobalViewer user) = true ->
  describes ps all.1 ->
  (forall id, id ∈ project_id <$> ps <-> exists n p, view KProject w !! n = Some p /\ project_id p = id) ->
  list_shows w user req (filterProjectsBySearch all.1 (list_Search req) all.2).
Proof.
  intros E [H1 H2] Hps. unfold list_shows. rewrite E. split.
  - intros a Ha%elem_of_filterProjectsBySearch. destruct (H1 a Ha) as (p & owners & n & Hp & ->).
    by apply (proj1 (Hps (project_id p))), list_elem_of_fmap_2.
  - intros Hq n p Hv. unfold filterProjectsBySearch. rewrite Hq. cbn.
    assert (project_id p ∈ project_id <$> ps) as Hin by (apply Hps; eauto).
    apply list_elem_of_fmap in Hin as (q & Hid & Hqp). destruct (H2 q Hqp) as (a & owners & m & Ha & ->).
    eexists. split; [exact Ha|]. by rewrite Hid.
Qed.

Lemma project_ListEndpoint_spec ctx req w :
  runs (project_ListEndpoint SeedInvalidPhase order clusterProviderGetter seedsGetter UserInfoGetterFactory
          ctx req) w (fun r w' => same_store w w' /\
    match r with
    | Ok l => exists user, ctx_UserCR ctx = Some user /\ list_shows w user req l
    | Err _ => True
    | Panic => False
    end).
Proof.
  unfold project_ListEndpoint. runs_step. eapply httpErr_spec; [apply UserInfoGetterFactory_spec|].
  intros r w1 [Hs1 Hi]. destruct r as [ui|e|]; cbn [andThen]; [|done|done].
  destruct Hi as (user & Hc & _ & (He & Ha & Hgv & _ & Hgs)). rewrite Ha, Hgv.
  destruct (list_DisplayAll req && _) eqn:E.
  - runs_step. eapply runs_mono; [apply getAllProjectsForAdmin_spec|]. cbn beta. intros r w2 [Hs2 Hall].
    assert (same_store w w2) as H2 by (by etrans).
    destruct r as [all|e|]; cbn [andThen]; [|done|done]. runs_step. split; [done|]. exists user.
    split; [done|]. destruct Hall as (ps & Hd & Hps). destruct Hs1 as [Hs1 _]. setoid_rewrite <- Hs1 in Hps.
    by eapply list_shows_all.
  - runs_step. eapply httpErr_spec; [apply mapper_mappings|]. intros r w2 [Hs2 Hm].
    assert (same_store w w2) as H2 by (by etrans).
    destruct r as [ms|e|]; cbn [andThen]; [|done|done]. runs_step.
    apply (runs_foldM _ (fun _ f w' => same_store w w' /\ all_seen w user (ui_Groups ui) f)).
    { split; [done|]. intros p Hp. by apply elem_of_nil in Hp. }
    { intros seen m rest f w3 -> [Hs3 Hf].
      destruct (proj1 (Hm m)) as [Hb Hbe]; [set_solver|].
      eapply runs_mono; [apply (findMapped_spec ui user f m w)|].
      - done. - done. - by rewrite Hs1. - by rewrite <- He. - done.
      - cbn beta. by intros r w4 (Hs4 & f' & -> & Hf'). }
    intros f w3 [Hs3 Hf]. cbn [andThen]. runs_step. eapply runs_mono; [apply mapper_group_mappings|].
    cbn beta. intros r w4 [Hs4 Hg]. assert (same_store w w4) as H4 by (by etrans).
    destruct r as [gs|e|]; cbn [andThen]; [|done|done]. runs_step.
    apply (runs_foldM _ (fun _ f w' => same_store w w' /\ all_seen w user (ui_Groups ui) f)); [done| |].
    { intros seen g rest f' w5 -> [Hs5 Hf']. destruct (proj1 (Hg g)) as [Hb Hbe]; [set_solver|].
      eapply runs_mono; [apply (findGroupMapped_spec ui user f' g w)|].
      - done. - done. - by rewrite Hs3. - done. - done.
      - cbn beta. by intros r w6 (Hs6 & f2 & -> & Hf2). }
    intros f' w5 [Hs5 Hf']. cbn [andThen]. runs_step. eapply runs_mono; [apply describe_spec|].
    cbn beta. intros r w6 [Hs6 Hd]. assert (same_store w w6) as H6 by (by etrans).
    destruct r as [api|e|]; cbn [andThen]; [|done|done]. runs_guard; [done|]. runs_step. split; [done|].
    exists user. split; [done|]. unfold list_shows. rewrite E.
    intros a Ha'%elem_of_filterProjectsBySearch. destruct (proj1 Hd a Ha') as (p & owners & n & Hp & ->).
    exists p, owners, n, (ui_Groups ui). split_and!; [done|done|by apply Hf'].
Qed.
End project_lists_proofs.

(** ** Properties *)

Section project_handlers_properties.
Context {W : Type} {EL : ErrorLib} {P : SDK} {API : KubeAPI W} {ST : Store W}
        {MEMBERS : ProjectMemberProvider W} {USERS : UserProvider W}
        {PROJECTS : ProjectProvider W} {PPROJECTS : PrivilegedProjectProvider W}
        {MAPPER : ProjectMemberMapper W} {SETTINGS : SettingsProvider W} {ELL : ErrorLibLaws EL}
        {LAWS : KubeAPILaws W} {MAPL : ProjectMemberMapperLaws W} {MEML : ProjectMemberProviderLaws W}
        {UL : UserProviderLaws W} {PRL : ProjectProviderLaws W}
        {PPL : PrivilegedProjectProviderLaws W} {SL : SettingsProviderLaws W}
        {CLUSTERS : ClusterProvider W}.
Implicit Types w : W.


(** A project is changed only by a user whom the settings allow it, who is
    an administrator or whom the API server lets update it with the granted
    groups; exactly its name, labels and operating systems become those of the
    request, and the answer describes the stored project. *)
Theorem UpdateEndpoint_updates SeedInvalidPhase order clusterProviderGetter seedsGetter ctx req w :
  ctx_UserCR ctx <> None -> clusters_readable clusterProviderGetter seedsGetter ->
  runs (UpdateEndpoint SeedInvalidPhase order clusterProviderGetter seedsGetter UserInfoGetterFactory
          ctx req) w (fun r w' =>
    match r with
    | Ok a => project_updated ctx req w w' a
    | Err _ => True
    | Panic => False
    end).
Proof. intros Hc Hr. by apply UpdateEndpoint_spec. Qed.

(** A project is deleted only by a user whom the settings allow it, who is
    an administrator or whom the API server lets delete it with the granted
    groups; a failed request deletes nothing. *)
Theorem project_DeleteEndpoint_deletes ctx pid w :
  ctx_UserCR ctx <> None ->
  runs (project_DeleteEndpoint UserInfoGetterFactory ctx pid) w (fun r w' =>
    match r with
    | Ok _ => project_deleted ctx pid w w'
    | Err _ => same_except KSetting w w'
    | Panic => False
    end).
Proof. apply project_DeleteEndpoint_spec. Qed.

(** C17: the project list isolates: it shows every project to administrators and
    global viewers who ask for all, and to anyone else only projects of an own or
    a group binding that the API server lets them read with the group of this
    binding. Listing changes nothing. *)
Theorem project_ListEndpoint_isolates SeedInvalidPhase order clusterProviderGetter seedsGetter ctx req w :
  clusters_readable clusterProviderGetter seedsGetter ->
  runs (project_ListEndpoint SeedInvalidPhase order clusterProviderGetter seedsGetter UserInfoGetterFactory
          ctx req) w (fun r w' => same_store w w' /\
    match r with
    | Ok l => exists user, ctx_UserCR ctx = Some user /\ list_shows w user req l
    | Err _ => True
    | Panic => False
    end).
Proof. intros Hr. by apply project_ListEndpoint_spec. Qed.
End project_handlers_properties.

(** One seed without clusters. *)
#[local] Instance noClusters : ClusterProvider Mem := {|
  ClusterProviderT := unit;
  clusters_List := fun _ _ => mret [];
  clusters_ListAll := fun _ => mret [] |}.
Definition oneSeed : SeedsGetter Mem := fun w => (Ok {[ "eu" := seedNamed "eu" "Healthy" ]}, w).
Definition seedClusters : GetterOf Mem ClusterProviderT := fun _ => mret tt.

Lemma noClusters_readable : clusters_readable seedClusters oneSeed.
Proof. by repeat split. Qed.


Lemma UpdateEndpoint_updates_witness :
  let req := MkUpdateRq "p1" "renamed" ∅ ∅ in
  let run := UpdateEndpoint "Invalid" mapOrder seedClusters oneSeed UserInfoGetterFactory bobCtx req sample in
  exists a, run.1 = Ok a /\ project_updated bobCtx req sample run.2 a.
Proof.
  intros req run. run_ok run a E. exists a. split; [exact E|].
  run_thm run E (UpdateEndpoint_updates "Invalid" mapOrder seedClusters oneSeed bobCtx req sample
    ltac:(discriminate) noClusters_readable) H. exact H.
Defined.

Lemma project_DeleteEndpoint_deletes_witness :
  let run := project_DeleteEndpoint UserInfoGetterFactory bobCtx "p1" sample in
  run.1 = Ok tt /\ project_deleted bobCtx "p1" sample run.2.
Proof.
  intros run. assert (run.1 = Ok tt) as E by (vm_compute; reflexivity). split; [exact E|].
  run_thm run E (project_DeleteEndpoint_deletes bobCtx "p1" sample ltac:(discriminate)) H. exact H.
Defined.

Lemma project_ListEndpoint_isolates_witness :
  let req := MkListReq false "" in
  let run := project_ListEndpoint "Invalid" mapOrder seedClusters oneSeed UserInfoGetterFactory bobCtx req sample in
  exists a, run.1 = Ok [a] /\ api_Name (apiproject_meta a) = "first" /\ list_shows sample bob req [a].
Proof.
  intros req run. eexists.
  assert (run.1 = Ok [ConvertInternalProjectToExternal project1 [] 0]) as E by (vm_compute; reflexivity).
  split; [exact E|]. split; [reflexivity|].
  run_thm run E (project_ListEndpoint_isolates "Invalid" mapOrder seedClusters oneSeed bobCtx req sample
    noClusters_readable) H.
  destruct H as (_ & user & [= <-] & H). exact H.
Defined.
