(* ===== verification/CloudSecrets.v ===== *)
(** The credentials of a cluster: provider/kubernetes/credentials.go moves them
    from the specification of its cloud into a secret of the seed. *)
From S2P Require Export ClusterTable SeedRequests ProjectHandlers.

(** ** What lies outside *)

(** The keys of the secret (resources.AWSAccessKeyID, ...), cluster.GetSecretName. *)
Class CredentialSDK := {
  GetSecretName : UserCluster -> string;
  AWSAccessKeyID : string; AWSSecretAccessKey : string;
  AzureTenantID : string; AzureSubscriptionID : string; AzureClientID : string; AzureClientSecret : string;
  DigitaloceanToken : string; GCPServiceAccount : string; HetznerToken : string;
  OpenstackUsername : string; OpenstackPassword : string; OpenstackProject : string; OpenstackProjectID : string;
  OpenstackDomain : string; OpenstackApplicationCredentialID : string; OpenstackApplicationCredentialSecret : string;
  OpenstackToken : string; OpenstackTenant : string; OpenstackTenantID : string;
  KubeVirtKubeconfig : string;
  VsphereUsername : string; VspherePassword : string;
  VsphereInfraManagementUserUsername : string; VsphereInfraManagementUserPassword : string;
  TinkerbellKubeconfig : string; AlibabaAccessKeyID : string; AlibabaAccessKeySecret : string; AnexiaToken : string;
  NutanixUsername : string; NutanixPassword : string; NutanixProxyURL : string; NutanixCSIUsername : string; NutanixCSIPassword : string;
  VMwareCloudDirectorUsername : string; VMwareCloudDirectorPassword : string; VMwareCloudDirectorAPIToken : string;
  VMwareCloudDirectorOrganization : string; VMwareCloudDirectorVDC : string }.

(** resources.OpenstackCredentials *)
Record OpenstackCredentials := MkOpenstackCredentials {
  oc_Username : string; oc_Password : string; oc_Project : string; oc_ProjectID : string; oc_Domain : string;
  oc_ApplicationCredentialID : string; oc_ApplicationCredentialSecret : string; oc_Token : string }.

(** The functions ValidateCredentials of the clouds with their arguments: each
    tries to log in.  Settings of a datacenter are those of its cloud. *)
Inductive CloudLogin :=
| LoginAWS (accessKeyID secretAccessKey : string)
| LoginAzure (cred : SDKValue) (subscriptionID : string)
| LoginDigitalocean (token : string)
| LoginGCP (serviceAccount : string)
| LoginHetzner (token : string)
| LoginOpenstack (dcSpec : SDKValue) (credentials : OpenstackCredentials) (caBundle : SDKValue)
| LoginVSphere (dcSpec : option SDKValue) (username password : string) (caBundle : SDKValue)
| LoginAlibaba (dcSpec : SDKValue) (accessKeyID accessKeySecret : string)
| LoginAnexia (token : string) (dcSpec : SDKValue)
| LoginNutanix (dcSpec : SDKValue) (proxyURL username password : string)
| LoginVMwareCloudDirector (dcSpec : option SDKValue) (username password apiToken organization vdc : string).
Class CloudClients (W : Type) := {
  ToAzureCredential : string -> string -> string -> string -> result error SDKValue;
  try_login : CloudLogin -> M W error unit }.

(** ValidateCredentials *)
Record ValidateCredentials := MkValidateCredentials {
  validate_Datacenter : Datacenter;
  validate_CABundle : SDKValue }.

Definition cluster_cloud (c : UserCluster) : CloudSpec := cspec_Cloud (cluster_Spec c).
Definition cluster_with_cloud (x : CloudSpec) (c : UserCluster) : UserCluster :=
  cluster_with_spec (cspec_with_Cloud x (cluster_Spec c)) c.

(** ** provider/cloud/openstack/provider.go *)

Section credentials.
Context {W : Type} {EL : ErrorLib} {P : SDK} {API : KubeAPI W} {RS : SecretReconciler W} {K : CredentialSDK} {CC : CloudClients W}.

Definition firstKey (secretKeySelector : option SecretRef -> string -> M W error string) (configVar : option SecretRef)
    (firstKey fallbackKey : string) : M W error string :=
  got ← attempt (secretKeySelector configVar firstKey);
  match got with
  | inr value => mret value
  | inl _ => secretKeySelector configVar fallbackKey
  end.

(** [v, _ := secretKeySelector(ref, key)]: the empty string on an error. *)
Definition keyOrEmpty (secretKeySelector : option SecretRef -> string -> M W error string) (ref : option SecretRef) (key : string)
    : M W error string :=
  got ← attempt (secretKeySelector ref key); mret (match got with inr v => v | inl _ => "" end).

(** A value of the cluster, or else the one of the secret that it refers to. *)
Definition orSecret (secretKeySelector : option SecretRef -> string -> M W error string) (ref : option SecretRef)
    (value key : string) : M W error string :=
  if is_empty value then
    match ref with
    | None => throw (ENew "no credentials provided")
    | Some _ => secretKeySelector ref key
    end
  else mret value.
Definition orFirstKey (secretKeySelector : option SecretRef -> string -> M W error string) (ref : option SecretRef)
    (value key fallbackKey : string) : M W error string :=
  if is_empty value && negb (is_empty (from_option ref_Name "" ref))
  then firstKey secretKeySelector ref key fallbackKey else mret value.

(** The credentials that the secret holds for the application, if any. *)
Definition applicationCredentials (secretKeySelector : option SecretRef -> string -> M W error string)
    (spec : OpenstackCloudSpec) : M W error (option OpenstackCredentials) :=
  let ref := cs_os_CredentialsReference spec in
  if is_empty (cs_os_ApplicationCredentialID spec) && bool_decide (is_Some ref) then
    applicationCredentialID ← keyOrEmpty secretKeySelector ref OpenstackApplicationCredentialID;
    if is_empty applicationCredentialID then mret None else
    applicationCredentialSecret ← secretKeySelector ref OpenstackApplicationCredentialSecret;
    mret (Some (MkOpenstackCredentials "" "" "" "" "" applicationCredentialID applicationCredentialSecret ""))
  else mret None.

Definition GetCredentialsForCluster (spec : OpenstackCloudSpec)
    (secretKeySelector : option SecretRef -> string -> M W error string) : M W error OpenstackCredentials :=
  let ref := cs_os_CredentialsReference spec in
  let useToken := cs_os_UseToken spec in
  if negb (is_empty (cs_os_ApplicationCredentialID spec)) && negb (is_empty (cs_os_ApplicationCredentialSecret spec)) then
    mret (MkOpenstackCredentials "" "" "" "" "" (cs_os_ApplicationCredentialID spec) (cs_os_ApplicationCredentialSecret spec) "")
  else
  application ← applicationCredentials secretKeySelector spec;
  match application with
  | Some credentials => mret credentials
  | None =>
      domain ← orSecret secretKeySelector ref (cs_os_Domain spec) OpenstackDomain;
      if useToken && negb (is_empty (cs_os_Token spec)) then
        mret (MkOpenstackCredentials "" "" "" "" domain "" "" (cs_os_Token spec))
      else
      token ← (if negb useToken && bool_decide (is_Some ref) then keyOrEmpty secretKeySelector ref OpenstackToken else mret "");
      if negb (is_empty token) then mret (MkOpenstackCredentials "" "" "" "" domain "" "" token) else
      username ← orSecret secretKeySelector ref (cs_os_Username spec) OpenstackUsername;
      password ← orSecret secretKeySelector ref (cs_os_Password spec) OpenstackPassword;
      project ← orFirstKey secretKeySelector ref (cs_os_Project spec) OpenstackProject OpenstackTenant;
      projectID ← orFirstKey secretKeySelector ref (cs_os_ProjectID spec) OpenstackProjectID OpenstackTenantID;
      mret (MkOpenstackCredentials username password project projectID domain (cs_os_ApplicationCredentialID spec)
              (cs_os_ApplicationCredentialSecret spec) "")
  end.

(** ** provider/kubernetes/credentials.go *)

(** The function brings the secret to its state. *)
Definition credentialSecretReconcilerFactory (clusterLabels secretData : gmap string string) : result error (Secret -> Secret) :=
  let projectID := default "" (clusterLabels !! ProjectIDLabelKey) in
  if is_empty projectID then Err (ENew ("cluster is missing '" +:+ ProjectIDLabelKey +:+ "' label")) else
  Ok (fun existing =>
    secret_with_data (Some secretData)
      (secret_with_meta (meta_with_labels (<[ProjectIDLabelKey := projectID]> (meta_Labels (secret_meta existing))) (secret_meta existing))
         existing)).

Definition ensureCredentialSecret (cluster : UserCluster) (secretData : gmap string string) : M W error SecretRef :=
  reconciler ← lift (credentialSecretReconcilerFactory (cluster_Labels cluster) secretData);
  _ ← ReconcileSecret KubermaticNamespace (GetSecretName cluster) reconciler;
  mret (MkSecretRef (GetSecretName cluster) KubermaticNamespace).

(** [if validate != nil { ... }], an error under the prefix. *)
Definition checkLogin (validate : option ValidateCredentials) (prefix : string)
    (check : ValidateCredentials -> M W error unit) : M W error unit :=
  match validate with
  | Some validate => mapErr (EWrap prefix) (check validate)
  | None => mret tt
  end.
(** [*p] of a pointer. *)
Definition deref {A} (p : option A) : M W error A := match p with Some a => mret a | None => panic end.

(** A function answers whether it has changed the cluster, and the cluster. *)
Definition aws_moved (ref : SecretRef) (spec : AWSCloudSpec) : AWSCloudSpec :=
  MkAWSCloud "" "" (cs_aws_AssumeRoleARN spec) (cs_aws_AssumeRoleExternalID spec) (cs_aws_InstanceProfileName spec)
    (cs_aws_RouteTableID spec) (cs_aws_SecurityGroupID spec) (cs_aws_VPCID spec) (cs_aws_ControlPlaneRoleARN spec)
    (cs_aws_NodePortsAllowedIPRanges spec) (Some ref).
Definition createOrUpdateAWSSecret (validate : option ValidateCredentials) (cluster : UserCluster) (spec : AWSCloudSpec)
    : M W error (bool * UserCluster) :=
  if is_empty (cs_aws_AccessKeyID spec) && is_empty (cs_aws_SecretAccessKey spec) then mret (false, cluster) else
  _ ← checkLogin validate "invalid AWS credentials: " (fun validate => try_login (LoginAWS (cs_aws_AccessKeyID spec) (cs_aws_SecretAccessKey spec)));
  credentialRef ← ensureCredentialSecret cluster (list_to_map
    [(AWSAccessKeyID, cs_aws_AccessKeyID spec);
     (AWSSecretAccessKey, cs_aws_SecretAccessKey spec)]);
  mret (true, cluster_with_cloud (cloud_with_AWS (aws_moved credentialRef spec) (cluster_cloud cluster)) cluster).

Definition azure_moved (ref : SecretRef) (spec : AzureCloudSpec) : AzureCloudSpec :=
  MkAzureCloud "" "" "" "" (cs_az_ResourceGroup spec) (cs_az_VNetResourceGroup spec) (cs_az_RouteTableName spec)
    (cs_az_SecurityGroup spec) (cs_az_SubnetName spec) (cs_az_VNetName spec) (cs_az_LoadBalancerSKU spec)
    (cs_az_AssignAvailabilitySet spec) (cs_az_NodePortsAllowedIPRanges spec) (Some ref).
Definition createOrUpdateAzureSecret (validate : option ValidateCredentials) (cluster : UserCluster) (spec : AzureCloudSpec)
    : M W error (bool * UserCluster) :=
  if is_empty (cs_az_TenantID spec) && is_empty (cs_az_SubscriptionID spec) && is_empty (cs_az_ClientID spec) && is_empty (cs_az_ClientSecret spec) then mret (false, cluster) else
  _ ← checkLogin validate "invalid Azure credentials: " (fun validate => 
         cred ← lift (ToAzureCredential (cs_az_TenantID spec) (cs_az_SubscriptionID spec) (cs_az_ClientID spec) (cs_az_ClientSecret spec));
         try_login (LoginAzure cred (cs_az_SubscriptionID spec)));
  credentialRef ← ensureCredentialSecret cluster (list_to_map
    [(AzureTenantID, cs_az_TenantID spec);
     (AzureSubscriptionID, cs_az_SubscriptionID spec);
     (AzureClientID, cs_az_ClientID spec);
     (AzureClientSecret, cs_az_ClientSecret spec)]);
  mret (true, cluster_with_cloud (cloud_with_Azure (azure_moved credentialRef spec) (cluster_cloud cluster)) cluster).

Definition digitalocean_moved (ref : SecretRef) (spec : DigitaloceanCloudSpec) : DigitaloceanCloudSpec :=
  MkDigitaloceanCloud "" (Some ref).
Definition createOrUpdateDigitaloceanSecret (validate : option ValidateCredentials) (cluster : UserCluster) (spec : DigitaloceanCloudSpec)
    : M W error (bool * UserCluster) :=
  if is_empty (cs_do_Token spec) then mret (false, cluster) else
  _ ← checkLogin validate "invalid DigitalOcean token: " (fun validate => try_login (LoginDigitalocean (cs_do_Token spec)));
  credentialRef ← ensureCredentialSecret cluster (list_to_map
    [(DigitaloceanToken, cs_do_Token spec)]);
  mret (true, cluster_with_cloud (cloud_with_Digitalocean (digitalocean_moved credentialRef spec) (cluster_cloud cluster)) cluster).

Definition gcp_moved (ref : SecretRef) (spec : GCPCloudSpec) : GCPCloudSpec :=
  MkGCPCloud "" (cs_gcp_Network spec) (cs_gcp_Subnetwork spec) (cs_gcp_NodePortsAllowedIPRanges spec) (Some ref).
Definition createOrUpdateGCPSecret (validate : option ValidateCredentials) (cluster : UserCluster) (spec : GCPCloudSpec)
    : M W error (bool * UserCluster) :=
  if is_empty (cs_gcp_ServiceAccount spec) then mret (false, cluster) else
  _ ← checkLogin validate "invalid GCP credentials: " (fun validate => try_login (LoginGCP (cs_gcp_ServiceAccount spec)));
  credentialRef ← ensureCredentialSecret cluster (list_to_map
    [(GCPServiceAccount, cs_gcp_ServiceAccount spec)]);
  mret (true, cluster_with_cloud (cloud_with_GCP (gcp_moved credentialRef spec) (cluster_cloud cluster)) cluster).

Definition hetzner_moved (ref : SecretRef) (spec : HetznerCloudSpec) : HetznerCloudSpec :=
  MkHetznerCloud "" (cs_hz_Network spec) (Some ref).
Definition createOrUpdateHetznerSecret (validate : option ValidateCredentials) (cluster : UserCluster) (spec : HetznerCloudSpec)
    : M W error (bool * UserCluster) :=
  if is_empty (cs_hz_Token spec) then mret (false, cluster) else
  _ ← checkLogin validate "invalid Hetzner credentials: " (fun validate => try_login (LoginHetzner (cs_hz_Token spec)));
  credentialRef ← ensureCredentialSecret cluster (list_to_map
    [(HetznerToken, cs_hz_Token spec)]);
  mret (true, cluster_with_cloud (cloud_with_Hetzner (hetzner_moved credentialRef spec) (cluster_cloud cluster)) cluster).

(** The cluster may leave the project and the domain to the secret of before;
    the token is the one of the request. *)
Definition openstack_moved (ref : SecretRef) (spec : OpenstackCloudSpec) : OpenstackCloudSpec :=
  MkOpenstackCloud "" "" "" "" "" false "" "" (cs_os_SubnetID spec) (cs_os_Network spec) (cs_os_RouterID spec)
    (cs_os_FloatingIPPool spec) (cs_os_SecurityGroups spec) (cs_os_Token spec) (cs_os_NodePortsAllowedIPRanges spec) (Some ref).
Definition openstackToken (ctx : Ctx) (spec : OpenstackCloudSpec) : M W error string :=
  if cs_os_UseToken spec then
    match ctx_RawToken ctx with
    | Some token => if is_empty token then throw (ENew "failed to get authentication token") else mret token
    | None => throw (ENew "failed to get authentication token")
    end
  else mret "".
Definition createOrUpdateOpenstackSecret (ctx : Ctx) (validate : option ValidateCredentials) (cluster : UserCluster)
    (spec : OpenstackCloudSpec) : M W error (bool * UserCluster) :=
  if is_empty (cs_os_Username spec) && is_empty (cs_os_Password spec) && is_empty (cs_os_Project spec) &&
     is_empty (cs_os_ProjectID spec) && is_empty (cs_os_Domain spec) && is_empty (cs_os_ApplicationCredentialID spec) &&
     is_empty (cs_os_ApplicationCredentialSecret spec) && negb (cs_os_UseToken spec)
  then mret (false, cluster) else
  oldCred ← GetCredentialsForCluster spec (SecretKeySelectorValueFuncFactory Privileged);
  let orOld value old := if is_empty value then old else value in
  let project := orOld (cs_os_Project spec) (oc_Project oldCred) in
  let projectID := orOld (cs_os_ProjectID spec) (oc_ProjectID oldCred) in
  let domain := orOld (cs_os_Domain spec) (oc_Domain oldCred) in
  authToken ← openstackToken ctx spec;
  _ ← checkLogin validate "invalid Openstack credentials: " (fun validate =>
         dcSpec ← deref (dcspec_Openstack (dc_Spec (validate_Datacenter validate)));
         try_login (LoginOpenstack dcSpec
           (MkOpenstackCredentials (cs_os_Username spec) (cs_os_Password spec) project projectID domain
              (cs_os_ApplicationCredentialID spec) (cs_os_ApplicationCredentialSecret spec) authToken)
           (validate_CABundle validate)));
  credentialRef ← ensureCredentialSecret cluster (list_to_map
    [(OpenstackUsername, cs_os_Username spec);
     (OpenstackPassword, cs_os_Password spec);
     (OpenstackProject, project);
     (OpenstackProjectID, projectID);
     (OpenstackDomain, domain);
     (OpenstackApplicationCredentialID, cs_os_ApplicationCredentialID spec);
     (OpenstackApplicationCredentialSecret, cs_os_ApplicationCredentialSecret spec);
     (OpenstackToken, authToken)]);
  mret (true, cluster_with_cloud (cloud_with_Openstack (openstack_moved credentialRef spec) (cluster_cloud cluster)) cluster).

Definition kubevirt_moved (ref : SecretRef) (spec : KubevirtCloudSpec) : KubevirtCloudSpec :=
  MkKubevirtCloud "" (cs_kv_VPCName spec) (cs_kv_SubnetName spec) (cs_kv_PreAllocatedDataVolumes spec) (Some ref).
Definition createOrUpdateKubevirtSecret (cluster : UserCluster) (spec : KubevirtCloudSpec)
    : M W error (bool * UserCluster) :=
  if is_empty (cs_kv_Kubeconfig spec) then mret (false, cluster) else
  credentialRef ← ensureCredentialSecret cluster (list_to_map
    [(KubeVirtKubeconfig, cs_kv_Kubeconfig spec)]);
  mret (true, cluster_with_cloud (cloud_with_Kubevirt (kubevirt_moved credentialRef spec) (cluster_cloud cluster)) cluster).

Definition vsphere_moved (ref : SecretRef) (spec : VSphereCloudSpec) : VSphereCloudSpec :=
  MkVSphereCloud "" "" (cs_vs_VMNetName spec) (cs_vs_Networks spec) (cs_vs_Datastore spec) (cs_vs_DatastoreCluster spec)
    (cs_vs_ResourcePool spec) (cs_vs_BasePath spec) (cs_vs_StoragePolicy spec) "" "" (Some ref).
Definition createVSphereSecret (validate : option ValidateCredentials) (cluster : UserCluster) (spec : VSphereCloudSpec)
    : M W error (bool * UserCluster) :=
  if is_empty (cs_vs_Username spec) && is_empty (cs_vs_Password spec) && is_empty (cs_vs_InfraManagementUsername spec) && is_empty (cs_vs_InfraManagementPassword spec) then mret (false, cluster) else
  _ ← checkLogin validate "invalid VSphere credentials: " (fun validate => 
         try_login (LoginVSphere (dcspec_VSphere (dc_Spec (validate_Datacenter validate))) (cs_vs_Username spec) (cs_vs_Password spec)
                      (validate_CABundle validate)));
  credentialRef ← ensureCredentialSecret cluster (list_to_map
    [(VsphereUsername, cs_vs_Username spec);
     (VspherePassword, cs_vs_Password spec);
     (VsphereInfraManagementUserUsername, cs_vs_InfraManagementUsername spec);
     (VsphereInfraManagementUserPassword, cs_vs_InfraManagementPassword spec)]);
  mret (true, cluster_with_cloud (cloud_with_VSphere (vsphere_moved credentialRef spec) (cluster_cloud cluster)) cluster).

Definition baremetal_moved (ref : SecretRef) (spec : BaremetalCloudSpec) : BaremetalCloudSpec := MkBaremetalCloud (Some "") (Some ref).
Definition createOrUpdateBaremetalSecret (cluster : UserCluster) (spec : BaremetalCloudSpec) : M W error (bool * UserCluster) :=
  match cs_bm_Tinkerbell spec with
  | None => throw (ENew "tinkerbell is required")
  | Some kubeconfig =>
      if is_empty kubeconfig then mret (false, cluster) else
      credentialRef ← ensureCredentialSecret cluster (list_to_map [(TinkerbellKubeconfig, kubeconfig)]);
      mret (true, cluster_with_cloud (cloud_with_Baremetal (baremetal_moved credentialRef spec) (cluster_cloud cluster)) cluster)
  end.

Definition alibaba_moved (ref : SecretRef) (spec : AlibabaCloudSpec) : AlibabaCloudSpec :=
  MkAlibabaCloud "" "" (Some ref).
Definition createAlibabaSecret (validate : option ValidateCredentials) (cluster : UserCluster) (spec : AlibabaCloudSpec)
    : M W error (bool * UserCluster) :=
  if is_empty (cs_al_AccessKeyID spec) && is_empty (cs_al_AccessKeySecret spec) then mret (false, cluster) else
  _ ← checkLogin validate "invalid Alibaba credentials: " (fun validate => 
         dcSpec ← deref (dcspec_Alibaba (dc_Spec (validate_Datacenter validate)));
         try_login (LoginAlibaba dcSpec (cs_al_AccessKeyID spec) (cs_al_AccessKeySecret spec)));
  credentialRef ← ensureCredentialSecret cluster (list_to_map
    [(AlibabaAccessKeyID, cs_al_AccessKeyID spec);
     (AlibabaAccessKeySecret, cs_al_AccessKeySecret spec)]);
  mret (true, cluster_with_cloud (cloud_with_Alibaba (alibaba_moved credentialRef spec) (cluster_cloud cluster)) cluster).

Definition anexia_moved (ref : SecretRef) (spec : AnexiaCloudSpec) : AnexiaCloudSpec :=
  MkAnexiaCloud "" (Some ref).
Definition createOrUpdateAnexiaSecret (validate : option ValidateCredentials) (cluster : UserCluster) (spec : AnexiaCloudSpec)
    : M W error (bool * UserCluster) :=
  if is_empty (cs_an_Token spec) then mret (false, cluster) else
  _ ← checkLogin validate "invalid Anexia credentials: " (fun validate => 
         dcSpec ← deref (dcspec_Anexia (dc_Spec (validate_Datacenter validate)));
         try_login (LoginAnexia (cs_an_Token spec) dcSpec));
  credentialRef ← ensureCredentialSecret cluster (list_to_map
    [(AnexiaToken, cs_an_Token spec)]);
  mret (true, cluster_with_cloud (cloud_with_Anexia (anexia_moved credentialRef spec) (cluster_cloud cluster)) cluster).

(** Optional settings are put into the secret only if they are there. *)
Definition nutanix_moved (ref : SecretRef) (spec : NutanixCloudSpec) : NutanixCloudSpec :=
  MkNutanixCloud "" "" "" (cs_nx_ClusterName spec) (cs_nx_ProjectName spec)
    ((fun csi => MkNutanixCSIConfig "" "" (csi_Endpoint csi) (csi_Port csi)) <$> cs_nx_CSI spec) (Some ref).
Definition nutanixSecretData (spec : NutanixCloudSpec) : list (string * string) :=
  [(NutanixUsername, cs_nx_Username spec); (NutanixPassword, cs_nx_Password spec)] ++
  (if is_empty (cs_nx_ProxyURL spec) then [] else [(NutanixProxyURL, cs_nx_ProxyURL spec)]) ++
  match cs_nx_CSI spec with
  | Some csi => [(NutanixCSIUsername, csi_Username csi); (NutanixCSIPassword, csi_Password csi)]
  | None => []
  end.
Definition createOrUpdateNutanixSecret (validate : option ValidateCredentials) (cluster : UserCluster) (spec : NutanixCloudSpec)
    : M W error (bool * UserCluster) :=
  if is_empty (cs_nx_Username spec) && is_empty (cs_nx_Password spec) && is_empty (cs_nx_ProxyURL spec) &&
     from_option (fun csi => is_empty (csi_Username csi) && is_empty (csi_Password csi)) true (cs_nx_CSI spec)
  then mret (false, cluster) else
  _ ← checkLogin validate "invalid Nutanix credentials: " (fun validate =>
         dcSpec ← deref (dcspec_Nutanix (dc_Spec (validate_Datacenter validate)));
         try_login (LoginNutanix dcSpec (cs_nx_ProxyURL spec) (cs_nx_Username spec) (cs_nx_Password spec)));
  credentialRef ← ensureCredentialSecret cluster (list_to_map (nutanixSecretData spec));
  mret (true, cluster_with_cloud (cloud_with_Nutanix (nutanix_moved credentialRef spec) (cluster_cloud cluster)) cluster).

Definition vmwareclouddirector_moved (ref : SecretRef) (spec : VMwareCloudDirectorCloudSpec) : VMwareCloudDirectorCloudSpec :=
  MkVMwareCloudDirectorCloud "" "" "" "" (cs_vcd_OVDCNetworks spec) "" (Some ref).
Definition createOrUpdateVMwareCloudDirectorSecret (validate : option ValidateCredentials) (cluster : UserCluster) (spec : VMwareCloudDirectorCloudSpec)
    : M W error (bool * UserCluster) :=
  if is_empty (cs_vcd_Username spec) && is_empty (cs_vcd_Password spec) && is_empty (cs_vcd_Organization spec) && is_empty (cs_vcd_VDC spec) && is_empty (cs_vcd_APIToken spec) then mret (false, cluster) else
  _ ← checkLogin validate "invalid VMware Cloud Director credentials: " (fun validate => 
         try_login (LoginVMwareCloudDirector (dcspec_VMwareCloudDirector (dc_Spec (validate_Datacenter validate)))
           (cs_vcd_Username spec) (cs_vcd_Password spec) (cs_vcd_APIToken spec) (cs_vcd_Organization spec) (cs_vcd_VDC spec)));
  credentialRef ← ensureCredentialSecret cluster (list_to_map
    [(VMwareCloudDirectorUsername, cs_vcd_Username spec);
     (VMwareCloudDirectorPassword, cs_vcd_Password spec);
     (VMwareCloudDirectorAPIToken, cs_vcd_APIToken spec);
     (VMwareCloudDirectorOrganization, cs_vcd_Organization spec);
     (VMwareCloudDirectorVDC, cs_vcd_VDC spec)]);
  mret (true, cluster_with_cloud (cloud_with_VMwareCloudDirector (vmwareclouddirector_moved credentialRef spec) (cluster_cloud cluster)) cluster).

(** The first provider of the specification, in this order. *)
Definition createOrUpdateCredentialSecretForCluster (ctx : Ctx) (cluster : UserCluster) (validate : option ValidateCredentials)
    : M W error (bool * UserCluster) :=
  let cloud := cluster_cloud cluster in
  match cs_AWS cloud with Some spec => createOrUpdateAWSSecret validate cluster spec | None =>
  match cs_Azure cloud with Some spec => createOrUpdateAzureSecret validate cluster spec | None =>
  match cs_Digitalocean cloud with Some spec => createOrUpdateDigitaloceanSecret validate cluster spec | None =>
  match cs_GCP cloud with Some spec => createOrUpdateGCPSecret validate cluster spec | None =>
  match cs_Hetzner cloud with Some spec => createOrUpdateHetznerSecret validate cluster spec | None =>
  match cs_Openstack cloud with Some spec => createOrUpdateOpenstackSecret ctx validate cluster spec | None =>
  match cs_Kubevirt cloud with Some spec => createOrUpdateKubevirtSecret cluster spec | None =>
  match cs_VSphere cloud with Some spec => createVSphereSecret validate cluster spec | None =>
  match cs_Baremetal cloud with Some spec => createOrUpdateBaremetalSecret cluster spec | None =>
  match cs_Alibaba cloud with Some spec => createAlibabaSecret validate cluster spec | None =>
  match cs_Anexia cloud with Some spec => createOrUpdateAnexiaSecret validate cluster spec | None =>
  match cs_Nutanix cloud with Some spec => createOrUpdateNutanixSecret validate cluster spec | None =>
  match cs_VMwareCloudDirector cloud with Some spec => createOrUpdateVMwareCloudDirectorSecret validate cluster spec | None =>
  mret (false, cluster)
  end end end end end end end end end end end end end.

Definition CreateOrUpdateCredentialSecretForClusterWithValidation (ctx : Ctx) (cluster : UserCluster)
    (validate : option ValidateCredentials) : M W error (bool * UserCluster) :=
  createOrUpdateCredentialSecretForCluster ctx cluster validate.
(** Only the cluster and the error are answered. *)
Definition CreateOrUpdateCredentialSecretForCluster (ctx : Ctx) (cluster : UserCluster) : M W error UserCluster :=
  got ← createOrUpdateCredentialSecretForCluster ctx cluster None; mret got.2.
End credentials.

(** ** What becomes of the credentials *)

(** The clouds that have credentials. *)
Inductive CloudOf :=
| OfAWS (s : AWSCloudSpec) | OfAzure (s : AzureCloudSpec) | OfDigitalocean (s : DigitaloceanCloudSpec)
| OfGCP (s : GCPCloudSpec) | OfHetzner (s : HetznerCloudSpec) | OfOpenstack (s : OpenstackCloudSpec)
| OfKubevirt (s : KubevirtCloudSpec) | OfVSphere (s : VSphereCloudSpec) | OfBaremetal (s : BaremetalCloudSpec)
| OfAlibaba (s : AlibabaCloudSpec) | OfAnexia (s : AnexiaCloudSpec) | OfNutanix (s : NutanixCloudSpec)
| OfVMwareCloudDirector (s : VMwareCloudDirectorCloudSpec).

(** The first that a specification has. *)
Definition first_cloud (c : CloudSpec) : option CloudOf :=
  head (option_list (OfAWS <$> cs_AWS c) ++ option_list (OfAzure <$> cs_Azure c) ++
        option_list (OfDigitalocean <$> cs_Digitalocean c) ++ option_list (OfGCP <$> cs_GCP c) ++
        option_list (OfHetzner <$> cs_Hetzner c) ++ option_list (OfOpenstack <$> cs_Openstack c) ++
        option_list (OfKubevirt <$> cs_Kubevirt c) ++ option_list (OfVSphere <$> cs_VSphere c) ++
        option_list (OfBaremetal <$> cs_Baremetal c) ++ option_list (OfAlibaba <$> cs_Alibaba c) ++
        option_list (OfAnexia <$> cs_Anexia c) ++ option_list (OfNutanix <$> cs_Nutanix c) ++
        option_list (OfVMwareCloudDirector <$> cs_VMwareCloudDirector c)).

Section inline.
Context {K : CredentialSDK}.

(** The credentials in a specification, by their keys in the secret. *)
Definition inline_credentials (x : CloudOf) : list (string * string) :=
  match x with
  | OfAWS s => [(AWSAccessKeyID, cs_aws_AccessKeyID s); (AWSSecretAccessKey, cs_aws_SecretAccessKey s)]
  | OfAzure s => [(AzureTenantID, cs_az_TenantID s); (AzureSubscriptionID, cs_az_SubscriptionID s);
      (AzureClientID, cs_az_ClientID s); (AzureClientSecret, cs_az_ClientSecret s)]
  | OfDigitalocean s => [(DigitaloceanToken, cs_do_Token s)]
  | OfGCP s => [(GCPServiceAccount, cs_gcp_ServiceAccount s)]
  | OfHetzner s => [(HetznerToken, cs_hz_Token s)]
  | OfOpenstack s => [(OpenstackUsername, cs_os_Username s); (OpenstackPassword, cs_os_Password s);
      (OpenstackProject, cs_os_Project s); (OpenstackProjectID, cs_os_ProjectID s); (OpenstackDomain, cs_os_Domain s);
      (OpenstackApplicationCredentialID, cs_os_ApplicationCredentialID s);
      (OpenstackApplicationCredentialSecret, cs_os_ApplicationCredentialSecret s)]
  | OfKubevirt s => [(KubeVirtKubeconfig, cs_kv_Kubeconfig s)]
  | OfVSphere s => [(VsphereUsername, cs_vs_Username s); (VspherePassword, cs_vs_Password s);
      (VsphereInfraManagementUserUsername, cs_vs_InfraManagementUsername s);
      (VsphereInfraManagementUserPassword, cs_vs_InfraManagementPassword s)]
  | OfBaremetal s => [(TinkerbellKubeconfig, default "" (cs_bm_Tinkerbell s))]
  | OfAlibaba s => [(AlibabaAccessKeyID, cs_al_AccessKeyID s); (AlibabaAccessKeySecret, cs_al_AccessKeySecret s)]
  | OfAnexia s => [(AnexiaToken, cs_an_Token s)]
  | OfNutanix s => [(NutanixUsername, cs_nx_Username s); (NutanixPassword, cs_nx_Password s);
      (NutanixProxyURL, cs_nx_ProxyURL s); (NutanixCSIUsername, from_option csi_Username "" (cs_nx_CSI s));
      (NutanixCSIPassword, from_option csi_Password "" (cs_nx_CSI s))]
  | OfVMwareCloudDirector s => [(VMwareCloudDirectorUsername, cs_vcd_Username s);
      (VMwareCloudDirectorPassword, cs_vcd_Password s); (VMwareCloudDirectorOrganization, cs_vcd_Organization s);
      (VMwareCloudDirectorVDC, cs_vcd_VDC s); (VMwareCloudDirectorAPIToken, cs_vcd_APIToken s)]
  end.
(** The token of the request is wanted. *)
Definition uses_token (x : CloudOf) : bool := match x with OfOpenstack s => cs_os_UseToken s | _ => false end.
(** The specification holds no credentials. *)
Definition moved_out (x : CloudOf) : Prop := (forall k v, (k, v) ∈ inline_credentials x -> v = "") /\ uses_token x = false.

Definition reference_of (x : CloudOf) : option SecretRef :=
  match x with
  | OfAWS s => cs_aws_CredentialsReference s | OfAzure s => cs_az_CredentialsReference s
  | OfDigitalocean s => cs_do_CredentialsReference s | OfGCP s => cs_gcp_CredentialsReference s
  | OfHetzner s => cs_hz_CredentialsReference s | OfOpenstack s => cs_os_CredentialsReference s
  | OfKubevirt s => cs_kv_CredentialsReference s | OfVSphere s => cs_vs_CredentialsReference s
  | OfBaremetal s => cs_bm_CredentialsReference s | OfAlibaba s => cs_al_CredentialsReference s
  | OfAnexia s => cs_an_CredentialsReference s | OfNutanix s => cs_nx_CredentialsReference s
  | OfVMwareCloudDirector s => cs_vcd_CredentialsReference s
  end.

(** The validation looks at settings that the datacenter does not have. *)
Definition settings_missing (x : CloudOf) (d : Datacenter) : Prop :=
  match x with
  | OfOpenstack _ => dcspec_Openstack (dc_Spec d) = None
  | OfAlibaba _ => dcspec_Alibaba (dc_Spec d) = None
  | OfAnexia _ => dcspec_Anexia (dc_Spec d) = None
  | OfNutanix _ => dcspec_Nutanix (dc_Spec d) = None
  | _ => False
  end.
End inline.

(** The keys of a secret differ. *)
Class CredentialSDKLaws (K : CredentialSDK) : Prop :=
  credential_keys_distinct : Forall NoDup
    [[AWSAccessKeyID; AWSSecretAccessKey]; [AzureTenantID; AzureSubscriptionID; AzureClientID; AzureClientSecret];
     [OpenstackUsername; OpenstackPassword; OpenstackProject; OpenstackProjectID; OpenstackDomain;
      OpenstackApplicationCredentialID; OpenstackApplicationCredentialSecret; OpenstackToken];
     [VsphereUsername; VspherePassword; VsphereInfraManagementUserUsername; VsphereInfraManagementUserPassword];
     [AlibabaAccessKeyID; AlibabaAccessKeySecret];
     [NutanixUsername; NutanixPassword; NutanixProxyURL; NutanixCSIUsername; NutanixCSIPassword];
     [VMwareCloudDirectorUsername; VMwareCloudDirectorPassword; VMwareCloudDirectorAPIToken;
      VMwareCloudDirectorOrganization; VMwareCloudDirectorVDC]].
(** A login changes nothing in the seed. *)
Class CloudClientsLaws (W : Type) {ST : Store W} {CC : CloudClients W} : Prop := {
  ToAzureCredential_panic t s c x : ToAzureCredential t s c x <> Panic;
  try_login_spec l w : runs (try_login l) w (fun r w' => same_store w w' /\ r <> Panic) }.

Section credentials_moved.
Context {W : Type} {EL : ErrorLib} {P : SDK} {API : KubeAPI W} {ST : Store W} {LAWS : KubeAPILaws W}
        {RS : SecretReconciler W} {RSL : SecretReconcilerLaws W} {K : CredentialSDK} {KL : CredentialSDKLaws K}
        {CC : CloudClients W} {CCL : CloudClientsLaws W}.
Implicit Types w : W.

Definition secret_key_of (c : UserCluster) : key := (KubermaticNamespace, GetSecretName c).

(** The secret of the cluster holds [data] for the project of the cluster. *)
Definition secret_holds w (c : UserCluster) (data : gmap string string) : Prop :=
  exists pid s, pid <> "" /\ cluster_Labels c !! ProjectIDLabelKey = Some pid /\
    view KSecret w !! secret_key_of c = Some s /\
    meta_Labels (secret_meta s) !! ProjectIDLabelKey = Some pid /\ secret_Data s = Some data.

Lemma strip_secret_labels s s' : strip KSecret s = strip KSecret s' ->
  meta_Labels (secret_meta s) = meta_Labels (secret_meta s') /\ secret_Data s = secret_Data s'.
Proof. destruct s, s'; intros H; injection H; naive_solver. Qed.

Lemma ensureCredentialSecret_spec c data w :
  runs (ensureCredentialSecret c data) w (fun r w' => only_secret (secret_key_of c) w w' /\
    match r with
    | Ok ref => ref = MkSecretRef (GetSecretName c) KubermaticNamespace /\ secret_holds w' c data
    | Err _ => True
    | Panic => False
    end).
Proof.
  unfold ensureCredentialSecret, credentialSecretReconcilerFactory.
  destruct (cluster_Labels c !! ProjectIDLabelKey) as [pid|] eqn:E; cbn [default from_option id];
    [|runs_step; runs_step; split; [by apply same_only_secret|done]].
  destruct (is_empty pid) eqn:Ep; [runs_step; runs_step; split; [by apply same_only_secret|done]|].
  do 2 runs_step. cbn [andThen]. runs_step. eapply runs_mono; [apply ReconcileSecret_spec; done|]. cbn beta.
  intros [[]|e|] w' [Ho Hr]; cbn [andThen]; [runs_step|done|done]. split; [done|]. split; [done|].
  destruct Hr as (s0 & s & Hv & Hst). apply strip_secret_labels in Hst as [Hl Hd].
  exists pid, s. split_and!; [by apply is_empty_false|done|done| |done]. rewrite Hl. cbn. apply lookup_insert_eq.
Qed.

(** The cloud [x] in place of the one of its kind. *)
Definition set_cloud (x : CloudOf) : CloudSpec -> CloudSpec :=
  match x with
  | OfAWS s => cloud_with_AWS s | OfAzure s => cloud_with_Azure s | OfDigitalocean s => cloud_with_Digitalocean s
  | OfGCP s => cloud_with_GCP s | OfHetzner s => cloud_with_Hetzner s | OfOpenstack s => cloud_with_Openstack s
  | OfKubevirt s => cloud_with_Kubevirt s | OfVSphere s => cloud_with_VSphere s | OfBaremetal s => cloud_with_Baremetal s
  | OfAlibaba s => cloud_with_Alibaba s | OfAnexia s => cloud_with_Anexia s | OfNutanix s => cloud_with_Nutanix s
  | OfVMwareCloudDirector s => cloud_with_VMwareCloudDirector s
  end.
Definition moved_of (ref : SecretRef) (x : CloudOf) : CloudOf :=
  match x with
  | OfAWS s => OfAWS (aws_moved ref s) | OfAzure s => OfAzure (azure_moved ref s)
  | OfDigitalocean s => OfDigitalocean (digitalocean_moved ref s) | OfGCP s => OfGCP (gcp_moved ref s)
  | OfHetzner s => OfHetzner (hetzner_moved ref s) | OfOpenstack s => OfOpenstack (openstack_moved ref s)
  | OfKubevirt s => OfKubevirt (kubevirt_moved ref s) | OfVSphere s => OfVSphere (vsphere_moved ref s)
  | OfBaremetal s => OfBaremetal (baremetal_moved ref s) | OfAlibaba s => OfAlibaba (alibaba_moved ref s)
  | OfAnexia s => OfAnexia (anexia_moved ref s) | OfNutanix s => OfNutanix (nutanix_moved ref s)
  | OfVMwareCloudDirector s => OfVMwareCloudDirector (vmwareclouddirector_moved ref s)
  end.

(** What is left holds no credentials and refers to the secret, and is again
    the first cloud of its specification. *)
Lemma moved_of_out ref x : moved_out (moved_of ref x) /\ reference_of (moved_of ref x) = Some ref.
Proof.
  split; [|by destruct x]. split; [|by destruct x]. intros k v Hin.
  destruct x as [s|s|s|s|s|s|s|s|s|s|s|s|s]; cbn in Hin;
    repeat (apply elem_of_cons in Hin as [[= _ ->]|Hin]; [try done; by destruct (cs_nx_CSI s)|]); by apply elem_of_nil in Hin.
Qed.

Lemma first_moved ref x cloud : first_cloud cloud = Some x -> first_cloud (set_cloud (moved_of ref x) cloud) = Some (moved_of ref x).
Proof.
  destruct cloud. unfold first_cloud. cbn.
  repeat match goal with |- context [option_list (_ <$> ?o)] => destruct o as [?|]; cbn; [by intros [= <-]|] end. done.
Qed.

(** The credentials of [x] move into the secret of the cluster. *)
Definition credentials_moved ctx (c : UserCluster) (x : CloudOf) w' (c' : UserCluster) : Prop :=
  let ref := MkSecretRef (GetSecretName c) KubermaticNamespace in
  c' = cluster_with_cloud (set_cloud (moved_of ref x) (cluster_cloud c)) c /\
  exists data, secret_holds w' c data /\
    (forall k v, (k, v) ∈ inline_credentials x -> v <> "" -> data !! k = Some v) /\
    (uses_token x = true -> exists t, ctx_RawToken ctx = Some t /\ t <> "" /\ data !! OpenstackToken = Some t).

Definition moves ctx (validate : option ValidateCredentials) (c : UserCluster) (x : CloudOf) w
    (r : result error (bool * UserCluster)) w' : Prop :=
  only_secret (secret_key_of c) w w' /\
  match r with
  | Ok (false, c') => c' = c /\ same_store w w' /\ moved_out x
  | Ok (true, c') => ~ moved_out x /\ credentials_moved ctx c x w' c'
  | Err _ => True
  | Panic => exists v, validate = Some v /\ settings_missing x (validate_Datacenter v)
  end.

Lemma checkLogin_spec validate prefix (check : ValidateCredentials -> M W error unit) x w :
  (forall v w, runs (check v) w (fun r w' => same_store w w' /\ (r = Panic -> settings_missing x (validate_Datacenter v)))) ->
  runs (checkLogin validate prefix check) w (fun r w' => same_store w w' /\
    (r = Panic -> exists v, validate = Some v /\ settings_missing x (validate_Datacenter v))).
Proof.
  intros Hc. unfold checkLogin. destruct validate as [v|]; [|by runs_step]. runs_step.
  eapply runs_mono; [apply Hc|]. cbn beta. intros [[]|e|] w' [Hs Hp]; (split; [done|]); [done|done|].
  intros _. exists v. by split; [|apply Hp].
Qed.

Lemma login_runs l x d w : runs (try_login l) w (fun r w' => same_store w w' /\ (r = Panic -> settings_missing x d)).
Proof. eapply runs_mono; [apply try_login_spec|]. cbn beta. by intros r w' [Hs Hp]. Qed.

(** The last steps of every function. *)
Lemma move_spec ctx validate c x l (f : SecretRef -> CloudSpec) w0 w :
  same_store w0 w -> ~ moved_out x -> NoDup l.*1 ->
  (forall k v, (k, v) ∈ inline_credentials x -> v <> "" -> (k, v) ∈ l) ->
  (uses_token x = true -> exists t, ctx_RawToken ctx = Some t /\ t <> "" /\ (OpenstackToken, t) ∈ l) ->
  (forall ref, f ref = set_cloud (moved_of ref x) (cluster_cloud c)) ->
  runs (credentialRef ← ensureCredentialSecret c (list_to_map l);
        mret (true, cluster_with_cloud (f credentialRef) c)) w (moves ctx validate c x w0).
Proof.
  intros Hs Hx Hnd Hin Htok Hf. runs_call ensureCredentialSecret_spec. destruct Hcall as [Ho Hr].
  assert (only_secret (secret_key_of c) w0 w1) as Ho' by (eapply only_secret_trans; [by apply same_only_secret|done]).
  destruct r as [ref|e|]; cbn [andThen]; [|done|done]. runs_step. destruct Hr as [-> Hholds]. split; [done|]. split; [done|].
  split; [by rewrite Hf|]. eexists. split; [exact Hholds|]. split.
  - intros k v Hkv Hne. apply elem_of_list_to_map_1; [done|by apply Hin].
  - intros Hut. destruct (Htok Hut) as (t & H1 & H2 & H3). exists t. split_and!; [done|done|].
    by apply elem_of_list_to_map_1.
Qed.

Lemma checked_move_spec ctx validate c x prefix check l (f : SecretRef -> CloudSpec) w :
  (forall v w, runs (check v) w (fun r w' => same_store w w' /\ (r = Panic -> settings_missing x (validate_Datacenter v)))) ->
  ~ moved_out x -> NoDup l.*1 ->
  (forall k v, (k, v) ∈ inline_credentials x -> v <> "" -> (k, v) ∈ l) ->
  uses_token x = false -> (forall ref, f ref = set_cloud (moved_of ref x) (cluster_cloud c)) ->
  runs (_ ← checkLogin validate prefix check;
        credentialRef ← ensureCredentialSecret c (list_to_map l);
        mret (true, cluster_with_cloud (f credentialRef) c)) w (moves ctx validate c x w).
Proof.
  intros Hc Hx Hnd Hin Htok Hf. runs_step. eapply runs_mono; [by apply checkLogin_spec|]. cbn beta.
  intros [[]|e|] w' [Hs Hp]; cbn [andThen]; [|split; [by apply same_only_secret|done]|split; [by apply same_only_secret|by apply Hp]].
  apply move_spec; try done. congruence.
Qed.

Definition emptied (x : CloudOf) : bool := forallb (fun kv => is_empty kv.2) (inline_credentials x) && negb (uses_token x).

Lemma emptied_spec x : emptied x = true <-> moved_out x.
Proof.
  unfold emptied, moved_out. rewrite andb_true_iff, negb_true_iff, forallb_forall. split; intros [H1 H2]; (split; [|done]).
  - intros k v Hin%list_elem_of_In. by apply is_empty_spec, (H1 _ Hin).
  - intros [k v] Hin%list_elem_of_In. by apply is_empty_spec, (H1 k).
Qed.

Lemma unless_moved ctx validate c x cond m w :
  cond = emptied x -> (~ moved_out x -> runs m w (moves ctx validate c x w)) ->
  runs (if cond then mret (false, c) else m) w (moves ctx validate c x w).
Proof.
  intros -> Hm. destruct (emptied x) eqn:E.
  - runs_step. split; [by apply same_only_secret|]. split; [done|]. split; [done|]. by apply emptied_spec.
  - apply Hm. rewrite <- emptied_spec, E. done.
Qed.

(** The keys of a cloud with several. *)
Local Ltac keys_distinct :=
  pose proof credential_keys_distinct as Hkeys; repeat rewrite Forall_cons in Hkeys; naive_solver.
Local Ltac same_condition := unfold emptied; cbn; repeat (destruct (is_empty _); cbn; try done).
Local Ltac listed := let k := fresh in let v := fresh in let Hin := fresh in let Hne := fresh in
  intros k v Hin Hne; cbn in Hin |- *; set_solver.

Lemma deref_login {A} (p : option A) (l : A -> CloudLogin) x d w :
  (p = None -> settings_missing x d) ->
  runs (dcSpec ← deref p; try_login (l dcSpec)) w (fun r w' => same_store w w' /\ (r = Panic -> settings_missing x d)).
Proof.
  intros Hp. unfold deref. runs_step. destruct p; runs_step; cbn [andThen]; [apply login_runs|].
  split; [done|]. intros _. by apply Hp.
Qed.

Lemma createOrUpdateAWSSecret_moves ctx validate c s w :
  runs (createOrUpdateAWSSecret validate c s) w (moves ctx validate c (OfAWS s) w).
Proof.
  apply unless_moved; [same_condition|]. intros Hx. apply checked_move_spec; try done; [|keys_distinct].
  intros v w'. apply login_runs.
Qed.

Lemma createOrUpdateDigitaloceanSecret_moves ctx validate c s w :
  runs (createOrUpdateDigitaloceanSecret validate c s) w (moves ctx validate c (OfDigitalocean s) w).
Proof.
  apply unless_moved; [same_condition|]. intros Hx. apply checked_move_spec; try done; [|apply NoDup_singleton].
  intros v w'. apply login_runs.
Qed.

Lemma createOrUpdateGCPSecret_moves ctx validate c s w :
  runs (createOrUpdateGCPSecret validate c s) w (moves ctx validate c (OfGCP s) w).
Proof.
  apply unless_moved; [same_condition|]. intros Hx. apply checked_move_spec; try done; [|apply NoDup_singleton].
  intros v w'. apply login_runs.
Qed.

Lemma createOrUpdateHetznerSecret_moves ctx validate c s w :
  runs (createOrUpdateHetznerSecret validate c s) w (moves ctx validate c (OfHetzner s) w).
Proof.
  apply unless_moved; [same_condition|]. intros Hx. apply checked_move_spec; try done; [|apply NoDup_singleton].
  intros v w'. apply login_runs.
Qed.

Lemma createVSphereSecret_moves ctx validate c s w :
  runs (createVSphereSecret validate c s) w (moves ctx validate c (OfVSphere s) w).
Proof.
  apply unless_moved; [same_condition|]. intros Hx. apply checked_move_spec; try done; [|keys_distinct|..]; try listed.
  intros v w'. apply login_runs.
Qed.

Lemma createOrUpdateVMwareCloudDirectorSecret_moves ctx validate c s w :
  runs (createOrUpdateVMwareCloudDirectorSecret validate c s) w (moves ctx validate c (OfVMwareCloudDirector s) w).
Proof.
  apply unless_moved; [same_condition|]. intros Hx. apply checked_move_spec; try done; [|keys_distinct|..]; try listed.
  intros v w'. apply login_runs.
Qed.

Lemma createAlibabaSecret_moves ctx validate c s w :
  runs (createAlibabaSecret validate c s) w (moves ctx validate c (OfAlibaba s) w).
Proof.
  apply unless_moved; [same_condition|]. intros Hx. apply checked_move_spec; try done; [|keys_distinct].
  intros v w'. by apply deref_login.
Qed.

Lemma createOrUpdateAnexiaSecret_moves ctx validate c s w :
  runs (createOrUpdateAnexiaSecret validate c s) w (moves ctx validate c (OfAnexia s) w).
Proof.
  apply unless_moved; [same_condition|]. intros Hx. apply checked_move_spec; try done; [|apply NoDup_singleton].
  intros v w'. by apply deref_login.
Qed.

Lemma createOrUpdateAzureSecret_moves ctx validate c s w :
  runs (createOrUpdateAzureSecret validate c s) w (moves ctx validate c (OfAzure s) w).
Proof.
  apply unless_moved; [same_condition|]. intros Hx. apply checked_move_spec; try done; [|keys_distinct].
  intros v w'. do 2 runs_step. pose proof (ToAzureCredential_panic (cs_az_TenantID s) (cs_az_SubscriptionID s) (cs_az_ClientID s) (cs_az_ClientSecret s)).
  destruct (ToAzureCredential _ _ _ _) as [cred|e|]; cbn [andThen]; [apply login_runs|done|done].
Qed.

Lemma createOrUpdateKubevirtSecret_moves ctx validate c s w :
  runs (createOrUpdateKubevirtSecret c s) w (moves ctx validate c (OfKubevirt s) w).
Proof. apply unless_moved; [same_condition|]. intros Hx. by apply move_spec; [|done|apply NoDup_singleton|..]. Qed.

Lemma createOrUpdateBaremetalSecret_moves ctx validate c s w :
  runs (createOrUpdateBaremetalSecret c s) w (moves ctx validate c (OfBaremetal s) w).
Proof.
  unfold createOrUpdateBaremetalSecret. destruct (cs_bm_Tinkerbell s) as [kubeconfig|] eqn:E;
    [|runs_step; split; [by apply same_only_secret|done]].
  apply unless_moved; [unfold emptied; cbn; rewrite E; same_condition|]. intros Hx.
  apply move_spec; try done; [apply NoDup_singleton|]. cbn. by rewrite E.
Qed.

Lemma createOrUpdateNutanixSecret_moves ctx validate c s w :
  runs (createOrUpdateNutanixSecret validate c s) w (moves ctx validate c (OfNutanix s) w).
Proof.
  apply unless_moved; [unfold emptied; cbn; destruct (cs_nx_CSI s); same_condition|]. intros Hx.
  apply checked_move_spec; try done.
  - intros v w'. by apply deref_login.
  - pose proof credential_keys_distinct as Hkeys. repeat rewrite Forall_cons in Hkeys.
    destruct Hkeys as (_ & _ & _ & _ & _ & Hkeys & _). unfold nutanixSecretData.
    destruct (is_empty _), (cs_nx_CSI s); cbn; rewrite !NoDup_cons in *; set_solver.
  - intros k v Hin Hne. unfold nutanixSecretData. cbn [inline_credentials] in Hin.
    destruct (is_empty (cs_nx_ProxyURL s)) eqn:E; [apply is_empty_spec in E; rewrite E in Hin|];
      destruct (cs_nx_CSI s); cbn in Hin |- *; rewrite ?elem_of_cons, ?elem_of_nil in *; intuition congruence.
Qed.

(** *** OpenStack: the secret of before is read first *)

Lemma reads_kget k c n : reads (kget k c n).
Proof. intros w. eapply runs_mono; [apply kget_spec|]. cbn beta. by intros [o|e|] w' [Hs Hr]. Qed.

Local Ltac reads_step :=
  match goal with
  | |- reads (mret _) => apply reads_ret
  | |- reads (throw _) => apply reads_throw
  | |- reads (mbind _ _) => apply reads_bind; [|intros]
  | |- reads (attempt _) => apply reads_attempt
  | |- reads (mapErr _ _) => apply reads_mapErr
  | |- reads (throwIf _ _) => apply reads_throwIf
  | |- reads (if ?c then _ else _) => destruct c
  | |- reads (match ?x with _ => _ end) => destruct x
  end.

Lemma SecretKeySelector_reads c ref key : reads (SecretKeySelectorValueFuncFactory c ref key).
Proof. unfold SecretKeySelectorValueFuncFactory. repeat (reads_step || apply (reads_kget KSecret)). Qed.

Lemma GetCredentialsForCluster_reads s : reads (GetCredentialsForCluster s (SecretKeySelectorValueFuncFactory Privileged)).
Proof.
  unfold GetCredentialsForCluster, applicationCredentials, orSecret, orFirstKey, firstKey, keyOrEmpty.
  repeat (reads_step || apply SecretKeySelector_reads).
Qed.

Lemma createOrUpdateOpenstackSecret_moves ctx validate c s w :
  runs (createOrUpdateOpenstackSecret ctx validate c s) w (moves ctx validate c (OfOpenstack s) w).
Proof.
  apply unless_moved; [same_condition; by destruct (cs_os_UseToken s)|]. intros Hx.
  plain_call GetCredentialsForCluster_reads. intros r w1 [Hs Hp].
  destruct r as [old|e|]; cbn [andThen]; [|split; [by apply same_only_secret|done]|done].
  cbv zeta. set (project := if is_empty (cs_os_Project s) then _ else _). set (projectID := if is_empty (cs_os_ProjectID s) then _ else _).
  set (domain := if is_empty (cs_os_Domain s) then _ else _).
  assert (runs (openstackToken ctx s) w1 (fun r w' => w' = w1 /\ match r with
    | Ok t => cs_os_UseToken s = true -> ctx_RawToken ctx = Some t /\ t <> ""
    | Err _ => True
    | Panic => False end)) as Htok.
  { unfold openstackToken. repeat runs_step; try done. split; [done|]. intros _. split; [done|]. by apply is_empty_false. }
  runs_step. eapply runs_mono; [exact Htok|]. cbn beta. intros r w2 [-> Ht].
  destruct r as [token|e|]; cbn [andThen]; [|split; [by apply same_only_secret|done]|done].
  runs_step. eapply runs_mono; [apply (checkLogin_spec _ _ _ (OfOpenstack s)); intros v w'; by apply deref_login|]. cbn beta.
  intros [[]|e|] w3 [Hs3 Hp3]; cbn [andThen];
    [|split; [apply same_only_secret; by etrans|done]|split; [apply same_only_secret; by etrans|by apply Hp3]].
  apply move_spec; [by etrans|done|keys_distinct| | |done].
  - intros k v Hin Hne. cbn in Hin |- *. rewrite ?elem_of_cons, ?elem_of_nil in *. unfold project, projectID, domain, is_empty.
    repeat case_bool_decide; intuition congruence.
  - intros Hut. destruct (Ht Hut). exists token. split_and!; [done|done|set_solver].
Qed.

Lemma first_cloud_cases c : first_cloud c =
  match cs_AWS c with Some s => Some (OfAWS s) | None =>
  match cs_Azure c with Some s => Some (OfAzure s) | None =>
  match cs_Digitalocean c with Some s => Some (OfDigitalocean s) | None =>
  match cs_GCP c with Some s => Some (OfGCP s) | None =>
  match cs_Hetzner c with Some s => Some (OfHetzner s) | None =>
  match cs_Openstack c with Some s => Some (OfOpenstack s) | None =>
  match cs_Kubevirt c with Some s => Some (OfKubevirt s) | None =>
  match cs_VSphere c with Some s => Some (OfVSphere s) | None =>
  match cs_Baremetal c with Some s => Some (OfBaremetal s) | None =>
  match cs_Alibaba c with Some s => Some (OfAlibaba s) | None =>
  match cs_Anexia c with Some s => Some (OfAnexia s) | None =>
  match cs_Nutanix c with Some s => Some (OfNutanix s) | None =>
  OfVMwareCloudDirector <$> cs_VMwareCloudDirector c
  end end end end end end end end end end end end.
Proof.
  unfold first_cloud.
  repeat match goal with |- context [option_list (_ <$> ?o)] => destruct o; cbn; [done|] end. done.
Qed.

(** The function for a cloud. *)
Definition move_cloud ctx (validate : option ValidateCredentials) (cluster : UserCluster) (x : CloudOf)
    : M W error (bool * UserCluster) :=
  match x with
  | OfAWS s => createOrUpdateAWSSecret validate cluster s
  | OfAzure s => createOrUpdateAzureSecret validate cluster s
  | OfDigitalocean s => createOrUpdateDigitaloceanSecret validate cluster s
  | OfGCP s => createOrUpdateGCPSecret validate cluster s
  | OfHetzner s => createOrUpdateHetznerSecret validate cluster s
  | OfOpenstack s => createOrUpdateOpenstackSecret ctx validate cluster s
  | OfKubevirt s => createOrUpdateKubevirtSecret cluster s
  | OfVSphere s => createVSphereSecret validate cluster s
  | OfBaremetal s => createOrUpdateBaremetalSecret cluster s
  | OfAlibaba s => createAlibabaSecret validate cluster s
  | OfAnexia s => createOrUpdateAnexiaSecret validate cluster s
  | OfNutanix s => createOrUpdateNutanixSecret validate cluster s
  | OfVMwareCloudDirector s => createOrUpdateVMwareCloudDirectorSecret validate cluster s
  end.

Lemma credential_dispatch ctx cluster validate :
  createOrUpdateCredentialSecretForCluster ctx cluster validate =
  match first_cloud (cluster_cloud cluster) with
  | Some x => move_cloud ctx validate cluster x
  | None => mret (false, cluster)
  end.
Proof.
  rewrite first_cloud_cases. unfold createOrUpdateCredentialSecretForCluster. cbv zeta.
  repeat match goal with |- match ?o with _ => _ end = _ => destruct o; [done|] end. done.
Qed.

Lemma move_cloud_moves ctx validate c x w : runs (move_cloud ctx validate c x) w (moves ctx validate c x w).
Proof.
  destruct x; [apply createOrUpdateAWSSecret_moves|apply createOrUpdateAzureSecret_moves|apply createOrUpdateDigitaloceanSecret_moves
    |apply createOrUpdateGCPSecret_moves|apply createOrUpdateHetznerSecret_moves|apply createOrUpdateOpenstackSecret_moves
    |apply createOrUpdateKubevirtSecret_moves|apply createVSphereSecret_moves|apply createOrUpdateBaremetalSecret_moves
    |apply createAlibabaSecret_moves|apply createOrUpdateAnexiaSecret_moves|apply createOrUpdateNutanixSecret_moves
    |apply createOrUpdateVMwareCloudDirectorSecret_moves].
Qed.

End credentials_moved.

(** ** A concrete run *)

#[local] Existing Instances clientReconciler clientReconciler_laws refRange refRange_laws.

#[export] Instance refCredentialSDK : CredentialSDK := {|
  GetSecretName c := "credential-" +:+ cs_ProviderName (cluster_cloud c) +:+ "-" +:+ cluster_Name c;
  AWSAccessKeyID := "accessKeyId"; AWSSecretAccessKey := "secretAccessKey";
  AzureTenantID := "tenantID"; AzureSubscriptionID := "subscriptionID"; AzureClientID := "clientID"; AzureClientSecret := "clientSecret";
  DigitaloceanToken := "token"; GCPServiceAccount := "serviceAccount"; HetznerToken := "token";
  OpenstackUsername := "username"; OpenstackPassword := "password"; OpenstackProject := "project"; OpenstackProjectID := "projectID";
  OpenstackDomain := "domain"; OpenstackApplicationCredentialID := "applicationCredentialID";
  OpenstackApplicationCredentialSecret := "applicationCredentialSecret";
  OpenstackToken := "token"; OpenstackTenant := "tenant"; OpenstackTenantID := "tenantID";
  KubeVirtKubeconfig := "kubeConfig";
  VsphereUsername := "username"; VspherePassword := "password";
  VsphereInfraManagementUserUsername := "infraManagementUserUsername"; VsphereInfraManagementUserPassword := "infraManagementUserPassword";
  TinkerbellKubeconfig := "kubeConfig"; AlibabaAccessKeyID := "accessKeyId"; AlibabaAccessKeySecret := "accessKeySecret"; AnexiaToken := "token";
  NutanixUsername := "username"; NutanixPassword := "password"; NutanixProxyURL := "proxyURL";
  NutanixCSIUsername := "csiUsername"; NutanixCSIPassword := "csiPassword";
  VMwareCloudDirectorUsername := "username"; VMwareCloudDirectorPassword := "password"; VMwareCloudDirectorAPIToken := "apiToken";
  VMwareCloudDirectorOrganization := "organization"; VMwareCloudDirectorVDC := "vdc" |}.
#[export] Instance refCredentialSDK_laws : CredentialSDKLaws refCredentialSDK.
Proof. unfold CredentialSDKLaws. apply (bool_decide_unpack _). vm_compute. done. Qed.

(** Every login succeeds. *)
#[export] Instance refClients : CloudClients Mem := {|
  ToAzureCredential _ _ _ _ := Ok "";
  try_login _ := mret tt |}.
#[export] Instance refClients_laws : CloudClientsLaws Mem.
Proof. by split. Qed.


(** A cluster that logs in to OpenStack with the token of the request needs a user
    name and a password all the same: the credentials of before are looked up first. *)
Definition tokenCluster : UserCluster :=
  cluster_with_cloud (MkCloudSpec "fra" "openstack" None None
    (Some (MkOpenstackCloud "" "" "Default" "infra" "" true "" "" "" "" "" "" "" "" None None))
    None None None None None None None None None None None None None) (hetznerCluster "c3" "fra" "").
Example token_login_needs_password :
  (createOrUpdateCredentialSecretForCluster (ctx_with_RawToken "eyJhbGciOi" bobCtx) tokenCluster None clusterWorld).1 =
  Err (ENew "no credentials provided").
Proof. vm_compute. done. Qed.
