(* ===== verification/SAHandlers.v ===== *)
(** The endpoints of service accounts: handler/v1/serviceaccount/sa.go. The
    service accounts of a project keep distinct names. *)
From S2P Require Export Handlers ServiceAccounts.
From stdpp Require Import relations.

(** addReq, updateReq, deleteReq *)
Record sa_addReq := MkSAAddReq {
  saadd_ProjectID : string;
  saadd_Body : ApiServiceAccount }.
Record sa_updateReq := MkSAUpdateReq {
  saupd_addReq : sa_addReq;
  saupd_ServiceAccountID : string }.
Record sa_deleteReq := MkSADeleteReq {
  sadel_ProjectID : string;
  sadel_ServiceAccountID : string }.

Definition apisa_name (sa : ApiServiceAccount) : string := api_Name (apisa_meta sa).
Definition apisa_id (sa : ApiServiceAccount) : string := api_ID (apisa_meta sa).

Definition getStatus (serviceAccount : User) : string :=
  match meta_Labels (user_meta serviceAccount) !! ServiceAccountLabelGroup with
  | Some _ => ServiceAccountInactive
  | None => ServiceAccountActive
  end.

Definition convertInternalServiceAccountToExternal (internal : User) : ApiServiceAccount :=
  let m := user_meta internal in
  {| apisa_meta := apiMeta (meta_Name m) (user_Name internal) (meta_CreationTimestamp m)
                     (meta_DeletionTimestamp m);
     apisa_Group := default "" (meta_Labels m !! ServiceAccountLabelGroup);
     apisa_Status := getStatus internal |}.

Section sa_handlers.
Context {W : Type} {EL : ErrorLib} {P : SDK} {SAS : ServiceAccountProvider W}
        {PROJECTS : ProjectProvider W} {PPROJECTS : PrivilegedProjectProvider W}
        {MAPPER : ProjectMemberMapper W}.
Variable userInfoGetter : UserInfoGetter W.

Definition serviceAccountGroupsPrefixes : list string :=
  [EditorGroupNamePrefix; ViewerGroupNamePrefix; ProjectManagerGroupNamePrefix].

Definition sa_addReq_Validate (r : sa_addReq) : result error unit :=
  if is_empty (saadd_ProjectID r) || is_empty (apisa_name (saadd_Body r)) || is_empty (apisa_Group (saadd_Body r))
  then Err (ENew "the name, project ID and group cannot be empty")
  else if bool_decide (apisa_Group (saadd_Body r) ∈ serviceAccountGroupsPrefixes) then Ok tt
  else Err (ENew ("invalid group name " +:+ apisa_Group (saadd_Body r))).

Definition sa_updateReq_Validate (r : sa_updateReq) : result error unit :=
  match sa_addReq_Validate (saupd_addReq r) with
  | Ok _ =>
      let id := apisa_id (saadd_Body (saupd_addReq r)) in
      if bool_decide (saupd_ServiceAccountID r <> id)
      then Err (ENew ("service account ID mismatch, you requested to update ServiceAccount " +:+
             quote (saupd_ServiceAccountID r) +:+ " but body contains ServiceAccount " +:+ quote id))
      else Ok tt
  | r => r
  end.

Definition sa_deleteReq_Validate (r : sa_deleteReq) : result error unit :=
  if is_empty (sadel_ServiceAccountID r) then Err (ENew "the service account ID cannot be empty") else Ok tt.

(** [if err := req.Validate(); err != nil { return nil, utilerrors.NewBadRequest(err) }]. *)
Definition validated (r : result error unit) : M W error unit :=
  mapErr (fun err => utilerrors_NewBadRequest (Error err)) (lift r).

Definition listSA (ctx : Ctx) (project : Project) (sa : option ApiServiceAccount) : M W error (list User) :=
  let options := (fun sa => {| ServiceAccountName := apisa_name sa |}) <$> sa in
  adminUserInfo ← userInfoGetter ctx "";
  if ui_IsAdmin adminUserInfo then sas_ListUnsecured (Some project) options else
  userInfo ← userInfoGetter ctx (project_id project);
  sas_List (Some userInfo) (Some project) options.

Definition createSA (ctx : Ctx) (project : Project) (sa : ApiServiceAccount) : M W error User :=
  let groupName := GenerateActualGroupNameFor (project_id project) (apisa_Group sa) in
  adminUserInfo ← userInfoGetter ctx "";
  if ui_IsAdmin adminUserInfo then sas_CreateUnsecured (Some project) (apisa_name sa) groupName else
  userInfo ← userInfoGetter ctx (project_id project);
  sas_Create userInfo (Some project) (apisa_name sa) groupName.

Definition updateSA (ctx : Ctx) (project : Project) (sa : User) : M W error User :=
  adminUserInfo ← userInfoGetter ctx "";
  if ui_IsAdmin adminUserInfo then sas_UpdateUnsecured (Some sa) else
  userInfo ← userInfoGetter ctx (project_id project);
  sas_Update (Some userInfo) (Some sa).

Definition getSA (ctx : Ctx) (project : Project) (serviceAccountID : string)
    (options : option ServiceAccountGetOptions) : M W error User :=
  adminUserInfo ← userInfoGetter ctx "";
  if ui_IsAdmin adminUserInfo then sas_GetUnsecured serviceAccountID options else
  userInfo ← userInfoGetter ctx (project_id project);
  sas_Get (Some userInfo) serviceAccountID options.

Definition deleteSA (ctx : Ctx) (project : Project) (serviceAccountID : string) : M W error unit :=
  adminUserInfo ← userInfoGetter ctx "";
  if ui_IsAdmin adminUserInfo then sas_DeleteUnsecured serviceAccountID else
  userInfo ← userInfoGetter ctx (project_id project);
  sas_Delete (Some userInfo) serviceAccountID.

(** [if len(existing) > 0 { return nil, utilerrors.NewAlreadyExists(kind, name) }]. *)
Definition notReserved {A} (kind name : string) (existing : list A) : M W error unit :=
  throwIf (bool_decide (0 < length existing)) (utilerrors_NewAlreadyExists kind name).

Definition sa_CreateEndpoint (ctx : Ctx) (req : sa_addReq) : M W error ApiServiceAccount :=
  _ ← validated (sa_addReq_Validate req);
  let saFromRequest := saadd_Body req in
  project ← httpErr (GetProject userInfoGetter ctx (saadd_ProjectID req) None);
  (* check if service account name is already reserved in the project *)
  existingSAList ← httpErr (listSA ctx project (Some saFromRequest));
  _ ← notReserved "service account" (apisa_name saFromRequest) existingSAList;
  sa ← httpErr (createSA ctx project saFromRequest);
  mret (convertInternalServiceAccountToExternal sa).

(** One turn of the loop of ListEndpoint: the response and the errors so far. *)
Definition addExternalSA (project : Project) (acc : list ApiServiceAccount * list string) (sa : User)
    : M W error (list ApiServiceAccount * list string) :=
  let '(response, errorList) := acc in
  let externalSA := convertInternalServiceAccountToExternal sa in
  if bool_decide (ServiceAccountInactive = apisa_Status externalSA)
  then mret (response ++ [externalSA], errorList) else
  found ← attempt (mapper_MapUserToGroup (user_Email sa) (project_id project));
  match found with
  | inl err => mret (response, errorList ++ [Error err])
  | inr group => mret (response ++ [apisa_with_group group externalSA], errorList)
  end.

Definition sa_ListEndpoint (ctx : Ctx) (projectID : string) : M W error (list ApiServiceAccount) :=
  _ ← throwIf (is_empty projectID) (utilerrors_NewBadRequest "the name of the project cannot be empty");
  project ← httpErr (GetProject userInfoGetter ctx projectID None);
  saList ← httpErr (listSA ctx project None);
  acc ← foldM (addExternalSA project) ([], []) saList;
  _ ← throwIf (bool_decide (0 < length acc.2))
        (utilerrors_NewWithDetails 500
           "failed to get some service accounts, please examine details field for more info" acc.2);
  mret acc.1.

(** The name of the account is changed, if no other account has the new one. *)
Definition renameSA (ctx : Ctx) (project : Project) (saFromRequest : ApiServiceAccount) (sa : User)
    : M W error User :=
  if bool_decide (user_Name sa <> apisa_name saFromRequest) then
    existingSAList ← httpErr (listSA ctx project (Some saFromRequest));
    _ ← notReserved "service account" (apisa_name saFromRequest) existingSAList;
    mret (user_with_specname (apisa_name saFromRequest) sa)
  else mret sa.

Definition user_with_label (l v : string) (u : User) : User :=
  user_with_meta (meta_with_labels (<[ l := v ]> (meta_Labels (user_meta u))) (user_meta u)) u.

Definition sa_UpdateEndpoint (ctx : Ctx) (req : sa_updateReq) : M W error ApiServiceAccount :=
  _ ← validated (sa_updateReq_Validate req);
  let saFromRequest := saadd_Body (saupd_addReq req) in
  project ← httpErr (GetProject userInfoGetter ctx (saadd_ProjectID (saupd_addReq req)) None);
  sa ← httpErr (getSA ctx project (saupd_ServiceAccountID req) None);
  sa ← renameSA ctx project saFromRequest sa;
  currentGroup ← httpErr (mapper_MapUserToGroup (user_Email sa) (project_id project));
  let newGroup := GenerateActualGroupNameFor (project_id project) (apisa_Group saFromRequest) in
  let sa := if bool_decide (newGroup <> currentGroup)
            then user_with_label ServiceAccountLabelGroup newGroup sa else sa in
  updatedSA ← httpErr (updateSA ctx project sa);
  mret (apisa_with_group newGroup (convertInternalServiceAccountToExternal updatedSA)).

Definition sa_DeleteEndpoint (ctx : Ctx) (req : sa_deleteReq) : M W error unit :=
  _ ← validated (sa_deleteReq_Validate req);
  (* check if project exist *)
  project ← httpErr (GetProject userInfoGetter ctx (sadel_ProjectID req) None);
  (* check if service account exist before deleting it *)
  _ ← httpErr (getSA ctx project (sadel_ServiceAccountID req) None);
  httpErr (deleteSA ctx project (sadel_ServiceAccountID req)).
End sa_handlers.

(** ** Lemmas *)

Section sa_handlers_proofs.
Context {W : Type} {EL : ErrorLib} {P : SDK} {API : KubeAPI W} {ST : Store W}
        {PROJECTS : ProjectProvider W} {PPROJECTS : PrivilegedProjectProvider W}
        {MAPPER : ProjectMemberMapper W} {ELL : ErrorLibLaws EL} {PL : SDKLaws P}
        {LAWS : KubeAPILaws W} {MAPL : ProjectMemberMapperLaws W}
        {PRL : ProjectProviderLaws W} {PPL : PrivilegedProjectProviderLaws W}
        {SAS : ServiceAccountProvider W} {domain : string} {SASL : ServiceAccountProviderLaws W domain}.
Implicit Types w : W.

Definition account_key (id : string) : key := ("", EnsureProjectServiceAccountPrefix id).

Lemma validated_spec r w :
  r <> Panic ->
  runs (validated r) w (fun o w' => w' = w /\ match o with
    | Ok _ => r = Ok tt | Err _ => True | Panic => False end).
Proof. intros Hp. unfold validated. do 2 runs_step. by destruct r as [[]|e|]. Qed.

Lemma sa_addReq_Validate_ok r : sa_addReq_Validate r = Ok tt ->
  saadd_ProjectID r <> "" /\ apisa_name (saadd_Body r) <> "" /\
  apisa_Group (saadd_Body r) ∈ serviceAccountGroupsPrefixes.
Proof.
  unfold sa_addReq_Validate. destruct (_ || _) eqn:E; [done|].
  apply orb_false_iff in E as [[H1%is_empty_false H2%is_empty_false]%orb_false_iff _].
  by case_bool_decide.
Qed.
Lemma sa_addReq_Validate_total r : sa_addReq_Validate r <> Panic.
Proof. unfold sa_addReq_Validate. by destruct (_ || _); [|case_bool_decide]. Qed.

Lemma listSA_spec ctx project sa w :
  runs (listSA UserInfoGetterFactory ctx project sa) w (fun r w' => same_store w w' /\
    match r with
    | Ok l => lists_accounts w project
                (sa_list_options ((fun sa => {| ServiceAccountName := apisa_name sa |}) <$> sa)) l
    | Err _ => True
    | Panic => False
    end).
Proof.
  unfold listSA. apply as_admin_or_user; [done| |].
  - intros user w1 _ _ Hs. eapply runs_mono; [apply (sas_ListUnsecured_spec domain)|]. cbn beta.
    intros r w2 [Hs2 H]. rewrite <- Hs in Hs2. split; [done|]. by destruct r; [rewrite Hs| |].
  - intros user ui w1 _ _ Hs. eapply runs_mono; [apply (sas_List_spec domain)|]. cbn beta.
    intros r w2 [Hs2 H]. rewrite <- Hs in Hs2. split; [done|]. by destruct r; [rewrite Hs; apply H| |].
Qed.
(** A new account is stored; the answer shows its ID. *)
Definition account_stored w w' (project : Project) (name group : string) (answer : User) : Prop :=
  exists stored id, answer = user_with_name id stored /\
    new_account domain project name group id stored /\
    key_of KUser stored = account_key id /\ created KUser w w' stored.

Lemma account_created_stored c w w' project name group a :
  account_created domain c w w' project name group a ->
  authorized w c VCreate KUser (account_key (user_name a)) /\ account_stored w w' project name group a.
Proof.
  intros (st & id & -> & Hn & Hk & Ha & Hc). rewrite Hk in Ha. split; [exact Ha|]. by exists st, id.
Qed.

Lemma createSA_spec ctx project sa w :
  runs (createSA UserInfoGetterFactory ctx project sa) w (fun r w' =>
    match r with
    | Ok a => (exists user, ctx_UserCR ctx = Some user /\
          permitted w user (project_id project) VCreate KUser (account_key (user_name a))) /\
        account_stored w w' project (apisa_name sa)
          (GenerateActualGroupNameFor (project_id project) (apisa_Group sa)) a
    | Err _ => same_store w w'
    | Panic => False
    end).
Proof.
  unfold createSA. eapply runs_mono; [apply (admin_or_user_call ctx (project_id project) _ _ w VCreate KUser
    (fun a => account_key (user_name a)) (fun w a w' => account_stored w w' project (apisa_name sa)
          (GenerateActualGroupNameFor (project_id project) (apisa_Group sa)) a))|done].
  - intros w0 w1 a w' Hs. unfold account_stored. by setoid_rewrite Hs.
  - intros w0. eapply runs_mono; [apply (sas_CreateUnsecured_spec domain)|]. cbn beta.
    intros [a|e|] w' H; [|done|done]. by destruct H as (_ & _ & [_ ?]%account_created_stored).
  - intros ui w0. eapply runs_mono; [apply (sas_Create_spec domain)|]. cbn beta.
    intros [a|e|] w' H; [|done|done]. destruct H as (_ & _ & H). by apply account_created_stored.
Qed.

(** The account the ID names, as the options show it. *)
Definition account_at w (id : string) (options : option ServiceAccountGetOptions) (sa : User) : Prop :=
  exists stored, view KUser w !! account_key id = Some stored /\
    sa = removePrefixIf (sa_get_options options) stored.
#[export] Instance account_at_proper : Proper (same_store ==> eq ==> eq ==> eq ==> iff) account_at.
Proof. intros w w' Hw i ? <- o ? <- s ? <-. unfold account_at. by setoid_rewrite Hw. Qed.

Lemma getSA_spec ctx project id options w :
  runs (getSA UserInfoGetterFactory ctx project id options) w (fun r w' => same_store w w' /\
    match r with
    | Ok sa => (exists user, ctx_UserCR ctx = Some user /\
          permitted w user (project_id project) VGet KUser (account_key id)) /\ account_at w id options sa
    | Err _ => True
    | Panic => False
    end).
Proof.
  unfold getSA. eapply runs_mono; [apply (admin_or_user_call ctx (project_id project) _ _ w VGet KUser
    (fun _ => account_key id) (fun w a w' => same_store w w' /\ account_at w id options a))|].
  - intros w0 w1 a w' Hs. by rewrite Hs.
  - intros w0. eapply runs_mono; [apply (sas_GetUnsecured_spec domain)|]. cbn beta.
    intros [a|e|] w' [Hs H]; [|done|done]. by split.
  - intros ui w0. eapply runs_mono; [apply (sas_Get_spec domain)|]. cbn beta.
    intros [a|e|] w' [Hs H]; [|done|done]. destruct H as (st & Hv & Ha & ->).
    split; [done|]. split; [done|]. by exists st.
  - intros [a|e|] w'; naive_solver.
Qed.

Lemma updateSA_spec ctx project sa w :
  runs (updateSA UserInfoGetterFactory ctx project sa) w (fun r w' =>
    match r with
    | Ok a => (exists user, ctx_UserCR ctx = Some user /\
          permitted w user (project_id project) VUpdate KUser (key_of KUser (sa_prefixed sa))) /\
        account_updated w w' sa a
    | Err _ => same_store w w'
    | Panic => False
    end).
Proof.
  unfold updateSA. apply (admin_or_user_call ctx (project_id project) _ _ w VUpdate KUser
    (fun _ => key_of KUser (sa_prefixed sa)) (fun w a w' => account_updated w w' sa a)).
  - intros w0 w1 a w' Hs. by rewrite Hs.
  - apply (sas_UpdateUnsecured_spec domain).
  - intros. apply (sas_Update_spec domain).
Qed.

Lemma deleteSA_spec ctx project id w :
  runs (deleteSA UserInfoGetterFactory ctx project id) w (fun r w' =>
    match r with
    | Ok _ => (exists user, ctx_UserCR ctx = Some user /\
          permitted w user (project_id project) VDelete KUser (account_key id)) /\
        deleted KUser w w' (account_key id)
    | Err _ => same_store w w'
    | Panic => False
    end).
Proof.
  unfold deleteSA. apply (admin_or_user_call ctx (project_id project) _ _ w VDelete KUser
    (fun _ => account_key id) (fun w _ w' => deleted KUser w w' (account_key id))).
  - intros w0 w1 [] w' Hs. by rewrite Hs.
  - apply (sas_DeleteUnsecured_spec domain).
  - intros. apply (sas_Delete_spec domain).
Qed.
Lemma named_options sa :
  sa_list_options ((fun sa => {| ServiceAccountName := apisa_name sa |}) <$> Some sa)
  = {| ServiceAccountName := apisa_name sa |}.
Proof. done. Qed.

(** No account of the project has the name. *)
Definition name_free w project (name : string) : Prop :=
  forall s, account_of w project s -> user_Name s <> name.

Lemma name_free_listed w project name :
  name <> "" -> lists_accounts w project {| ServiceAccountName := name |} [] -> name_free w project name.
Proof.
  intros Hn%is_empty_false. unfold lists_accounts. cbn [ServiceAccountName]. rewrite Hn.
  by intros [(s & _ & [=] & _)|[_ H]].
Qed.

(** What the creation of an account did. *)
Definition account_registered ctx (req : sa_addReq) w w' (a : ApiServiceAccount) : Prop :=
  exists user project sa, ctx_UserCR ctx = Some user /\ project_at w (saadd_ProjectID req) project /\
    apisa_Group (saadd_Body req) ∈ serviceAccountGroupsPrefixes /\
    name_free w project (apisa_name (saadd_Body req)) /\
    permitted w user (saadd_ProjectID req) VCreate KUser (account_key (user_name sa)) /\
    account_stored w w' project (apisa_name (saadd_Body req))
      (GenerateActualGroupNameFor (saadd_ProjectID req) (apisa_Group (saadd_Body req))) sa /\
    a = convertInternalServiceAccountToExternal sa.

Lemma sa_CreateEndpoint_spec ctx req w :
  runs (sa_CreateEndpoint UserInfoGetterFactory ctx req) w (fun r w' =>
    match r with
    | Ok a => account_registered ctx req w w' a
    | Err _ => same_store w w'
    | Panic => False
    end).
Proof.
  unfold sa_CreateEndpoint. plain_call validated_spec; [apply sa_addReq_Validate_total|].
  intros r w0 [-> Hv]. destruct r as [[]|e|]; cbn [andThen]; [|done|done].
  apply sa_addReq_Validate_ok in Hv as (Hpid & Hname & Hgroup).
  http_call handler_GetProject. intros [project|e|] w1 [Hs1 H]; cbn [andThen]; [|done|done].
  destruct H as [_ [Hpv Hpn]]. http_call listSA_spec.
  intros [l|e|] w2 [Hs2 Hl]; cbn [andThen]; [|by etrans|done].
  assert (same_store w w2) as H2 by (by etrans).
  unfold notReserved. runs_guard; [done|]. destruct l as [|x l]; [|done].
  rewrite named_options in Hl. apply name_free_listed in Hl; [|done].
  http_call createSA_spec. intros [sa|e|] w3 Hcr; cbn [andThen]; [|by etrans|done]. runs_step.
  destruct Hcr as [(user & Hc & Hp) Hst]. unfold project_id in *. rewrite Hpn in *.
  exists user, project, sa. split_and!; try done.
  - intros s. rewrite Hs1. apply Hl.
  - by rewrite H2.
  - destruct Hst as (st & id & ? & ? & ? & ?). exists st, id. by rewrite H2.
Qed.

Lemma renameSA_spec ctx project req sa w :
  apisa_name req <> "" ->
  runs (renameSA UserInfoGetterFactory ctx project req sa) w (fun r w' => same_store w w' /\
    match r with
    | Ok sa' => sa' = user_with_specname (apisa_name req) sa /\
        (user_Name sa = apisa_name req \/ name_free w project (apisa_name req))
    | Err _ => True
    | Panic => False
    end).
Proof.
  intros Hn. unfold renameSA. case_bool_decide as Hne.
  - http_call listSA_spec. intros [l|e|] w1 [Hs Hl]; cbn [andThen]; [|done|done].
    unfold notReserved. runs_guard; [done|]. destruct l as [|x l]; [|done]. runs_step.
    split; [done|]. split; [done|right]. rewrite named_options in Hl. by apply name_free_listed in Hl.
  - runs_step. split; [done|]. split; [|by left]. rewrite <- Hne. by destruct sa.
Qed.

(** What a change of an account did: the name becomes the requested one, and
    the label names the requested group when the account has another. *)
Definition account_changed ctx (req : sa_updateReq) w w' : Prop :=
  let add := saupd_addReq req in
  exists user project sa group answer, ctx_UserCR ctx = Some user /\
    project_at w (saadd_ProjectID add) project /\
    account_at w (saupd_ServiceAccountID req) None sa /\
    binding_group w (user_Email sa) (saadd_ProjectID add) group /\
    (user_Name sa = apisa_name (saadd_Body add) \/ name_free w project (apisa_name (saadd_Body add))) /\
    let label := GenerateActualGroupNameFor (saadd_ProjectID add) (apisa_Group (saadd_Body add)) in
    let sa' := user_with_specname (apisa_name (saadd_Body add)) sa in
    let sa'' := if bool_decide (label <> group) then user_with_label ServiceAccountLabelGroup label sa' else sa' in
    permitted w user (saadd_ProjectID add) VUpdate KUser (key_of KUser (sa_prefixed sa'')) /\
    account_updated w w' sa'' answer.

Lemma sa_updateReq_Validate_ok r : sa_updateReq_Validate r = Ok tt ->
  sa_addReq_Validate (saupd_addReq r) = Ok tt /\
  saupd_ServiceAccountID r = apisa_id (saadd_Body (saupd_addReq r)).
Proof.
  unfold sa_updateReq_Validate. destruct (sa_addReq_Validate _) as [[]|e|]; [|done|done].
  case_bool_decide; [done|]. intros _. split; [done|]. done.
Qed.
Lemma sa_updateReq_Validate_total r : sa_updateReq_Validate r <> Panic.
Proof.
  unfold sa_updateReq_Validate. pose proof (sa_addReq_Validate_total (saupd_addReq r)).
  destruct (sa_addReq_Validate _); [by case_bool_decide|done|done].
Qed.

Lemma sa_UpdateEndpoint_spec ctx req w :
  runs (sa_UpdateEndpoint UserInfoGetterFactory ctx req) w (fun r w' =>
    match r with
    | Ok _ => account_changed ctx req w w'
    | Err _ => same_store w w'
    | Panic => False
    end).
Proof.
  unfold sa_UpdateEndpoint. plain_call validated_spec; [apply sa_updateReq_Validate_total|].
  intros r w0 [-> Hv]. destruct r as [[]|e|]; cbn [andThen]; [|done|done].
  apply sa_updateReq_Validate_ok in Hv as [(_ & Hname & _)%sa_addReq_Validate_ok _].
  http_call handler_GetProject. intros [project|e|] w1 [Hs1 H]; cbn [andThen]; [|done|done].
  destruct H as [_ [Hpv Hpn]]. http_call getSA_spec.
  intros [sa|e|] w2 [Hs2 Hsa]; cbn [andThen]; [|by etrans|done]. destruct Hsa as [_ Hsa].
  assert (same_store w w2) as H2 by (by etrans).
  plain_call renameSA_spec; [done|]. intros [sa'|e|] w3 [Hs3 Hr]; cbn [andThen]; [|by etrans|done].
  destruct Hr as [-> Hfree]. assert (same_store w w3) as H3 by (by etrans).
  http_call mapper_group. intros [group|e|] w4 [Hs4 Hg]; cbn [andThen]; [|by etrans|done].
  assert (same_store w w4) as H4 by (by etrans). destruct Hg as [_ Hg].
  http_call updateSA_spec. intros [a|e|] w5 H; cbn [andThen]; [|by etrans|done]. runs_step.
  destruct H as [(user & Hc & Hp) Hu]. unfold project_id in *. rewrite Hpn in *.
  exists user, project, sa, group, a. cbv zeta. split_and!; try done.
  - by rewrite Hs1.
  - by rewrite H3.
  - destruct Hfree as [?|Hfree]; [by left|right]. intros s. rewrite H2. apply Hfree.
  - by rewrite H4.
  - by rewrite H4.
Qed.

Lemma sa_DeleteEndpoint_spec ctx req w :
  runs (sa_DeleteEndpoint UserInfoGetterFactory ctx req) w (fun r w' =>
    match r with
    | Ok _ => (exists user, ctx_UserCR ctx = Some user /\
          permitted w user (sadel_ProjectID req) VDelete KUser (account_key (sadel_ServiceAccountID req))) /\
        deleted KUser w w' (account_key (sadel_ServiceAccountID req))
    | Err _ => same_store w w'
    | Panic => False
    end).
Proof.
  unfold sa_DeleteEndpoint. plain_call validated_spec; [by unfold sa_deleteReq_Validate; destruct (is_empty _)|].
  intros r w0 [-> Hv]. destruct r as [[]|e|]; cbn [andThen]; [|done|done].
  http_call handler_GetProject. intros [project|e|] w1 [Hs1 H]; cbn [andThen]; [|done|done].
  destruct H as [_ [Hpv Hpn]]. http_call getSA_spec.
  intros [sa|e|] w2 [Hs2 Hsa]; cbn [andThen]; [|by rewrite Hs1|done].
  assert (same_store w w2) as H2 by (by etrans).
  eapply httpErr_spec; [apply deleteSA_spec|]. intros [[]|e|] w3 H; [|by rewrite H2|done].
  unfold project_id in H. rewrite Hpn in H. destruct H as [(user & Hc & Hp) Hd].
  split; [|by rewrite H2]. exists user. by rewrite H2.
Qed.
End sa_handlers_proofs.

(** ** The names of the accounts of a project stay distinct *)

Section account_names.
Context {W : Type} {EL : ErrorLib} {P : SDK} {API : KubeAPI W} {ST : Store W}
        {PROJECTS : ProjectProvider W} {PPROJECTS : PrivilegedProjectProvider W}
        {MAPPER : ProjectMemberMapper W} {SAS : ServiceAccountProvider W}.
Implicit Types w : W.

(** The prefix of service accounts is put before a name without it; no two
    accounts of a project have the same name. *)
Definition accounts_ok w : Prop :=
  (forall s, registered w s -> IsProjectServiceAccount (user_name s) = true ->
     exists id, user_name s = EnsureProjectServiceAccountPrefix id /\ IsProjectServiceAccount id = false) /\
  (forall project s s', account_of w project s -> account_of w project s' ->
     user_Name s = user_Name s' -> s = s').

(** The requests of the endpoints, with any outcome. A change names an account
    of the project in its path: the endpoint does not check it. *)
Inductive account_request : W -> W -> Prop :=
| request_create ctx req r w w' :
    sa_CreateEndpoint UserInfoGetterFactory ctx req w = (r, w') -> account_request w w'
| request_update ctx req r w w' :
    (forall st, view KUser w !! account_key (saupd_ServiceAccountID req) = Some st ->
       user_Project st = saadd_ProjectID (saupd_addReq req)) ->
    sa_UpdateEndpoint UserInfoGetterFactory ctx req w = (r, w') -> account_request w w'
| request_delete ctx req r w w' :
    sa_DeleteEndpoint UserInfoGetterFactory ctx req w = (r, w') -> account_request w w'
| request_list ctx pid r w w' :
    sa_ListEndpoint UserInfoGetterFactory ctx pid w = (r, w') -> account_request w w'.

#[export] Instance accounts_ok_proper : Proper (same_store ==> iff) accounts_ok.
Proof. intros w w' Hw. unfold accounts_ok. by setoid_rewrite Hw. Qed.

Context {ELL : ErrorLibLaws EL} {PL : SDKLaws P} {LAWS : KubeAPILaws W}
        {MAPL : ProjectMemberMapperLaws W} {PRL : ProjectProviderLaws W}
        {PPL : PrivilegedProjectProviderLaws W} {domain : string} {SASL : ServiceAccountProviderLaws W domain}.

Lemma registered_key w s : registered w s -> view KUser w !! key_of KUser s = Some s.
Proof. intros [n Hn]. by rewrite (view_key KUser _ _ _ Hn). Qed.

(** An account is written whose name no other account of its project has. *)
Lemma accounts_ok_insert w w' st :
  view KUser w' = <[key_of KUser st := st]> (view KUser w) -> accounts_ok w ->
  (exists id, user_name st = EnsureProjectServiceAccountPrefix id /\ IsProjectServiceAccount id = false) ->
  (forall project s, account_of w project s -> key_of KUser s <> key_of KUser st ->
     user_Project st = meta_Name (project_meta project) -> user_Name s <> user_Name st) ->
  accounts_ok w'.
Proof.
  intros Hv [Hok Huniq] Hst Hfree.
  assert (forall s, registered w' s -> s = st \/ (registered w s /\ key_of KUser s <> key_of KUser st)) as Hreg.
  { intros s Hs%registered_key. rewrite Hv in Hs.
    apply lookup_insert_Some in Hs as [[_ ?]|[Hne Hs]]; [by left|right]. split; [by exists (key_of KUser s)|].
    intros E. by rewrite E in Hne. }
  split.
  - intros s [->|[Hs _]]%Hreg Hp; [done|by apply Hok].
  - intros project s s' (Hs & Hp & Hpr) (Hs' & Hp' & Hpr') Hn.
    apply Hreg in Hs as [->|[Hs Hk]], Hs' as [->|[Hs' Hk']]; [done| | |].
    + by destruct (Hfree project s').
    + by destruct (Hfree project s).
    + by apply (Huniq project).
Qed.

Lemma create_keeps_names ctx req w :
  accounts_ok w ->
  runs (sa_CreateEndpoint UserInfoGetterFactory ctx req) w (fun _ w' => accounts_ok w').
Proof.
  intros Hok. eapply runs_mono; [apply sa_CreateEndpoint_spec|]. cbn beta.
  intros [a|e|] w'; [|by intros Hs; rewrite <- Hs|done].
  intros (user & project & sa & _ & _ & _ & Hfree & _ & Hst & _).
  destruct Hst as (st & id & _ & (Hid & Hn & _ & Hname & Hpr & _) & Hk & (Hnew & Hv & _)).
  apply (accounts_ok_insert w w' st); [done|done| |].
  - exists id. split; [done|]. apply short_not_prefixed. lia.
  - intros project' s (Hs & Hp & Hpr') _ Hpst. rewrite Hname. apply Hfree.
    split_and!; [done|done|]. by rewrite Hpr', <- Hpst.
Qed.

(** The object an account without prefix stands for is the one it was read from. *)
Lemma prefixed_back st :
  (exists id, user_name st = EnsureProjectServiceAccountPrefix id /\ IsProjectServiceAccount id = false) ->
  EnsureProjectServiceAccountPrefix (RemoveProjectServiceAccountPrefix (user_name st)) = user_name st.
Proof. intros (id & -> & Hid). by rewrite Remove_Ensure. Qed.

Lemma update_keeps_names ctx req w :
  accounts_ok w ->
  (forall st, view KUser w !! account_key (saupd_ServiceAccountID req) = Some st ->
     user_Project st = saadd_ProjectID (saupd_addReq req)) ->
  runs (sa_UpdateEndpoint UserInfoGetterFactory ctx req) w (fun _ w' => accounts_ok w').
Proof.
  intros Hok Hown. eapply runs_mono; [apply sa_UpdateEndpoint_spec|]. cbn beta.
  intros [a|e|] w'; [|by intros Hs; rewrite <- Hs|done].
  intros (user & project & sa & group & answer & _ & [Hpv Hpn] & (old & Hold & Hsa) & _ & Hfree & H).
  cbv zeta in H. destruct H as [_ (st & _ & Hst & (_ & Hv & _))].
  pose proof (Hown _ Hold) as Hpr. pose proof (view_key KUser _ _ _ Hold) as Hk.
  assert (user_name old = EnsureProjectServiceAccountPrefix (saupd_ServiceAccountID req)) as Hn by by injection Hk.
  assert (exists id, user_name old = EnsureProjectServiceAccountPrefix id /\ IsProjectServiceAccount id = false) as Hid.
  { apply Hok; [by exists (account_key (saupd_ServiceAccountID req))|]. rewrite Hn. apply IsProjectServiceAccount_Ensure. }
  assert (user_Name sa = user_Name old) as Hsn by (by rewrite Hsa).
  assert (user_Name st = apisa_name (saadd_Body (saupd_addReq req)) /\ user_Project st = user_Project old /\
          key_of KUser st = key_of KUser old) as (Hname & Hproj & Hkst).
  { pose proof (strip_key _ _ _ Hst) as Hks. apply strip_user in Hst as (-> & _ & _ & _ & _ & -> & _).
    rewrite Hks. subst sa. destruct (bool_decide _).
    all: split_and!; [done|done|]; unfold key_of; cbn; f_equal; by apply prefixed_back. }
  apply (accounts_ok_insert w w' st); [done|done| |].
  - by assert (user_name st = user_name old) as -> by (by injection Hkst).
  - intros project' s Hs Hkey Hp'. rewrite Hname, Hkst, Hproj in *.
    assert (account_of w project s) as Hs1.
    { destruct Hs as (? & ? & Hs). split_and!; [done|done|]. by rewrite Hs, <- Hp', Hpr. }
    destruct Hfree as [Hsame|Hfree]; [|by apply Hfree]. intros Hsn'. apply Hkey. f_equal.
    apply (proj2 Hok project); [done| |by rewrite Hsn', <- Hsame].
    split_and!; [by exists (account_key (saupd_ServiceAccountID req))| |by rewrite Hpr].
    rewrite Hn. apply IsProjectServiceAccount_Ensure.
Qed.

Lemma delete_keeps_names ctx req w :
  accounts_ok w ->
  runs (sa_DeleteEndpoint UserInfoGetterFactory ctx req) w (fun _ w' => accounts_ok w').
Proof.
  intros Hok. eapply runs_mono; [apply sa_DeleteEndpoint_spec|]. cbn beta.
  intros [a|e|] w'; [|by intros Hs; rewrite <- Hs|done].
  intros (_ & Hother & _ & old & Hold & _ & Hkept).
  set (n := account_key (sadel_ServiceAccountID req)) in *.
  assert (forall s, registered w' s -> exists s0, registered w s0 /\ strip KUser s = strip KUser s0) as Hreg.
  { intros s [n' Hn']. destruct (decide (n' = n)) as [->|Hne].
    - exists old. split; [by exists n|]. by apply Hkept.
    - rewrite Hother in Hn' by done. exists s. split; [by exists n'|done]. }
  assert (forall project s, account_of w' project s ->
            exists s0, account_of w project s0 /\ strip KUser s = strip KUser s0) as Hacc.
  { intros project s (Hs & Hp & Hpr). destruct (Hreg s Hs) as (s0 & Hs0 & E). exists s0. split; [|done].
    pose proof (strip_key _ _ _ E) as Ek. apply strip_user in E as (_ & _ & _ & _ & _ & E & _).
    assert (user_name s = user_name s0) as Enm by by injection Ek.
    split_and!; [done|by rewrite <- Enm|by rewrite <- E]. }
  split.
  - intros s Hs Hp. destruct (Hreg s Hs) as (s0 & Hs0 & E%strip_key).
    assert (user_name s = user_name s0) as Enm by by injection E. rewrite Enm in *. by apply Hok.
  - intros project s s' Hs Hs' Hnm.
    destruct (Hacc _ _ Hs) as (s0 & Hs0 & E0), (Hacc _ _ Hs') as (s0' & Hs0' & E0').
    assert (s0 = s0') as <-.
    { apply (proj2 Hok project); [done|done|]. apply strip_user in E0 as [<- _], E0' as [<- _]. done. }
    apply strip_key in E0, E0'. destruct Hs as [Hs%registered_key _], Hs' as [Hs'%registered_key _].
    rewrite E0 in Hs. rewrite E0' in Hs'. rewrite Hs in Hs'. by injection Hs'.
Qed.

Lemma list_keeps_store ctx pid w :
  runs (sa_ListEndpoint UserInfoGetterFactory ctx pid) w (fun r w' => same_store w w' /\ r <> Panic).
Proof.
  unfold sa_ListEndpoint. runs_guard; [done|].
  http_call handler_GetProject. intros [project|e|] w1 [Hs1 Hpr]; cbn [andThen]; [|done|done].
  http_call listSA_spec. intros [l|e|] w2 [Hs2 Hl]; cbn [andThen]; [|by split; [etrans|]|done].
  assert (same_store w w2) as H2 by (by etrans). runs_step.
  apply (runs_foldM _ (fun _ _ w' => same_store w w')); [done| |].
  - intros done x rest [resp errs] w3 _ H3. unfold addExternalSA. case_bool_decide; [by runs_step|].
    do 2 runs_step. eapply runs_mono; [apply mapper_group|]. cbn beta. intros r w4 [Hs4 Hr].
    assert (same_store w w4) by (by etrans). by destruct r as [g|e|]; cbn [andThen]; [apply runs_ret|apply runs_ret|].
  - intros acc w3 H3. cbn [andThen]. by runs_guard.
Qed.

Lemma request_keeps_names w w' : account_request w w' -> accounts_ok w -> accounts_ok w'.
Proof.
  intros Hr Hok. destruct Hr as [ctx req r w w' E|ctx req r w w' Hown E|ctx req r w w' E|ctx pid r w w' E].
  - by apply (runs_elim _ _ _ _ _ (create_keeps_names ctx req w Hok) E).
  - by apply (runs_elim _ _ _ _ _ (update_keeps_names ctx req w Hok Hown) E).
  - by apply (runs_elim _ _ _ _ _ (delete_keeps_names ctx req w Hok) E).
  - pose proof (runs_elim _ _ _ _ _ (list_keeps_store ctx pid w) E) as [Hs _]. by rewrite <- Hs.
Qed.
End account_names.

(** ** Properties *)

Section sa_handlers_properties.
Context {W : Type} {EL : ErrorLib} {P : SDK} {API : KubeAPI W} {ST : Store W}
        {PROJECTS : ProjectProvider W} {PPROJECTS : PrivilegedProjectProvider W}
        {MAPPER : ProjectMemberMapper W} {ELL : ErrorLibLaws EL} {PL : SDKLaws P}
        {LAWS : KubeAPILaws W} {MAPL : ProjectMemberMapperLaws W}
        {PRL : ProjectProviderLaws W} {PPL : PrivilegedProjectProviderLaws W}
        {SAS : ServiceAccountProvider W} {domain : string} {SASL : ServiceAccountProviderLaws W domain}.
Implicit Types w : W.

End sa_handlers_properties.

(** The provider of the concrete installation. *)
#[export] Instance saProvider : ServiceAccountProvider Mem :=
  kubernetesServiceAccountProvider "sa.kubermatic.io".
#[export] Instance saProvider_laws : ServiceAccountProviderLaws Mem "sa.kubermatic.io" :=
  kubernetesServiceAccountProvider_laws "sa.kubermatic.io".

Definition accountRequest (pid id name group : string) : sa_addReq :=
  MkSAAddReq pid (MkApiServiceAccount (apiMeta id name zero_time None) "" group).

(** Without the check of the project two accounts get the same name: bot, an
    account of p1 that has also been bound to p2, is renamed through p2. *)
Definition bot : User :=
  MkUser (metaNamed "serviceaccount-bot") "bot" "serviceaccount-bot@sa.kubermatic.io" []
    false false "p1" None [] None zero_time.
Definition project2 : Project := MkProject (metaNamed "p2") "second" ∅ "Active".
Definition twoAccounts : Mem :=
  mem_of (fun k => match k return list (obj k) with
    | KUser => [alice; ciAccount; bot]
    | KProject => [project1; project2]
    | KBinding => [MkBinding (metaNamed "b3") "serviceaccount-bot@sa.kubermatic.io" "p2" "projectmanagers-p2"]
    | _ => [] end) 0 [] (fun _ _ _ _ => true).

Example update_through_other_project_duplicates :
  let req := MkSAUpdateReq (accountRequest "p2" "bot" "ci" "editors") "bot" in
  let run := sa_UpdateEndpoint UserInfoGetterFactory aliceCtx req twoAccounts in
  is_ok run.1 = true /\
  (user_Name <$> view KUser run.2 !! ("", "serviceaccount-bot")) = Some "ci" /\
  (user_Name <$> view KUser run.2 !! ("", "serviceaccount-ci")) = Some "ci" /\
  (user_Project <$> view KUser run.2 !! ("", "serviceaccount-bot")) = Some "p1".
Proof. vm_compute. done. Qed.

Lemma sample_accounts_ok : accounts_ok sample.
Proof.
  assert (forall s, registered sample s -> IsProjectServiceAccount (user_name s) = true -> s = ciAccount) as Hci.
  { intros s [n Hn] Hp. apply (lookup_sample KUser) in Hn. vm_compute in Hn.
    repeat (apply elem_of_cons in Hn as [->|Hn]; [first [done|by vm_compute in Hp]|]).
    by apply elem_of_nil in Hn. }
  split.
  - intros s Hs Hp. rewrite (Hci s Hs Hp). exists "ci". by split.
  - intros project s s' (Hs & Hp & _) (Hs' & Hp' & _) _. by rewrite (Hci s), (Hci s').
Qed.

