(* ===== verification/SATokenHandlers.v ===== *)
(** The endpoints of service-account tokens: handler/v1/serviceaccount/token.go.
    With the verification of these tokens (handler/auth/sa.go) and their
    signatures (serviceaccount/jwt.go): an issued token logs its account in, a
    regenerated or deleted one no longer does. *)
From S2P Require Export SAHandlers Auth.

(** commonTokenReq and the requests that embed it *)
Record commonTokenReq := MkTokenReq {
  treq_ProjectID : string;
  treq_ServiceAccountID : string }.
Record addTokenReq := MkAddTokenReq {
  taddr_common : commonTokenReq;
  taddr_Body : ServiceAccountToken }.
Record updateTokenReq := MkUpdateTokenReq {
  tupd_common : commonTokenReq;
  tupd_TokenID : string;
  tupd_Body : PublicServiceAccountToken }.
Record patchTokenReq := MkPatchTokenReq {
  tpatch_common : commonTokenReq;
  tpatch_TokenID : string;
  tpatch_Body : string }.
Record deleteTokenReq := MkDeleteTokenReq {
  tdel_common : commonTokenReq;
  tdel_TokenID : string }.

Definition ptoken_name (t : PublicServiceAccountToken) : string := api_Name (ptoken_meta t).
Definition ptoken_id (t : PublicServiceAccountToken) : string := api_ID (ptoken_meta t).

Definition commonTokenReq_Validate (r : commonTokenReq) : result error unit :=
  if is_empty (treq_ProjectID r) || is_empty (treq_ServiceAccountID r)
  then Err (ENew "service account ID and project ID cannot be empty") else Ok tt.

Definition addTokenReq_Validate (r : addTokenReq) : result error unit :=
  let name := ptoken_name (token_Public (taddr_Body r)) in
  if is_empty name || is_empty (treq_ProjectID (taddr_common r)) ||
     is_empty (treq_ServiceAccountID (taddr_common r))
  then Err (ENew "the name, service account ID and project ID cannot be empty")
  else if bool_decide (50 < RuneCountInString name)
  then Err (ENew "the name is too long, max 50 chars") else Ok tt.

(** The guards after those of the embedded request. *)
Definition and_then (r r' : result error unit) : result error unit :=
  match r with Ok _ => r' | _ => r end.

Definition updateTokenReq_Validate (r : updateTokenReq) : result error unit :=
  and_then (commonTokenReq_Validate (tupd_common r))
    (if is_empty (tupd_TokenID r) then Err (ENew "token ID cannot be empty") else
     if is_empty (ptoken_name (tupd_Body r)) then Err (ENew "new name can not be empty") else
     if bool_decide (tupd_TokenID r <> ptoken_id (tupd_Body r))
     then Err (ENew ("token ID mismatch, you requested to update token " +:+ quote (tupd_TokenID r) +:+
            " but body contains token " +:+ quote (ptoken_id (tupd_Body r))))
     else Ok tt).

Definition patchTokenReq_Validate (r : patchTokenReq) : result error unit :=
  and_then (commonTokenReq_Validate (tpatch_common r))
    (if is_empty (tpatch_TokenID r) then Err (ENew "token ID cannot be empty") else
     if is_empty (tpatch_Body r) then Err (ENew "body can not be empty") else Ok tt).

Definition deleteTokenReq_Validate (r : deleteTokenReq) : result error unit :=
  and_then (commonTokenReq_Validate (tdel_common r))
    (if is_empty (tdel_TokenID r) then Err (ENew "token ID cannot be empty") else Ok tt).

Section token_handlers.
Context {W : Type} {EL : ErrorLib} {P : SDK} {API : KubeAPI W} {SAS : ServiceAccountProvider W}
        {TOKENS : ServiceAccountTokenProvider W}
        {PROJECTS : ProjectProvider W} {PPROJECTS : PrivilegedProjectProvider W}.
Variable userInfoGetter : UserInfoGetter W.
(** serviceaccount.TokenAuthenticator, serviceaccount.TokenGenerator *)
Variable tokenAuthenticator : TokenAuthenticatorFn W.
Variable tokenGenerator : JwtClaims -> CustomTokenClaim -> result error string.

(** After a NotFound of the privileged provider the list is empty; the text of
    the selector is the label of the project. *)
Definition listSAToken (ctx : Ctx) (project : Project) (sa : User) (tokenID : string)
    : M W error (list Secret) :=
  adminUserInfo ← httpErr (userInfoGetter ctx "");
  if ui_IsAdmin adminUserInfo then
    labelSelector ← lift (labels_Parse (ProjectIDLabelKey +:+ "=" +:+ project_id project));
    found ← attempt (tokens_ListUnsecured (by_account labelSelector (user_name sa) tokenID));
    match found with
    | inl err => if apierrors_IsNotFound err then mret [] else throw err
    | inr tokens => mret tokens
    end
  else
    userInfo ← userInfoGetter ctx (project_id project);
    tokens_List (Some userInfo) (Some project) (Some sa)
      (Some {| TokenID := tokenID; TokenName := ""; LabelSelector := None; ServiceAccountID := "" |}).

Definition createSAToken (ctx : Ctx) (sa : User) (projectID tokenName tokenID tokenData : string)
    : M W error Secret :=
  adminUserInfo ← userInfoGetter ctx "";
  if ui_IsAdmin adminUserInfo
  then tokens_CreateUnsecured (Some sa) projectID tokenName tokenID tokenData else
  userInfo ← userInfoGetter ctx projectID;
  tokens_Create (Some userInfo) (Some sa) projectID tokenName tokenID tokenData.

Definition getSAToken (ctx : Ctx) (projectID tokenID : string) : M W error Secret :=
  adminUserInfo ← userInfoGetter ctx "";
  if ui_IsAdmin adminUserInfo then tokens_GetUnsecured tokenID else
  userInfo ← userInfoGetter ctx projectID;
  tokens_Get (Some userInfo) tokenID.

Definition updateSAToken (ctx : Ctx) (token : Secret) (projectID : string) : M W error Secret :=
  adminUserInfo ← userInfoGetter ctx "";
  if ui_IsAdmin adminUserInfo then tokens_UpdateUnsecured (Some token) else
  userInfo ← userInfoGetter ctx projectID;
  tokens_Update (Some userInfo) (Some token).

Definition deleteSAToken (ctx : Ctx) (projectID tokenID : string) : M W error unit :=
  adminUserInfo ← userInfoGetter ctx "";
  if ui_IsAdmin adminUserInfo then tokens_DeleteUnsecured tokenID else
  userInfo ← userInfoGetter ctx projectID;
  tokens_Delete (Some userInfo) tokenID.

(** A token that does not authenticate is shown as invalidated. *)
Definition convertInternalTokenToPublicExternal (internal : Secret) : M W error PublicServiceAccountToken :=
  match secret_lookup internal "token" with
  | None => throw (ENew "can not find token data")
  | Some token =>
      match secret_labels internal !! "name" with
      | None => throw (ENew ("can not find token name in secret " +:+ secret_name internal))
      | Some name =>
          let m := apiMeta (secret_name internal) name (meta_CreationTimestamp (secret_meta internal)) None in
          auth ← attempt (tokenAuthenticator token);
          match auth with
          | inl _ => mret (MkPublicToken m zero_time true)
          | inr c => mret (MkPublicToken m (NumericDate_Time (jwt_Expiry c.1)) false)
          end
      end
  end.

Definition convertInternalTokenToPrivateExternal (internal : Secret) : M W error ServiceAccountToken :=
  public ← convertInternalTokenToPublicExternal internal;
  match secret_lookup internal "token" with
  | None => throw (ENew ("can not find token data in secret " +:+ secret_name internal))
  | Some token => mret (MkToken public token)
  end.

(** [if err != nil { return nil, utilerrors.New(http.StatusInternalServerError, err.Error()) }]. *)
Definition internalErr {A} (m : M W error A) : M W error A :=
  mapErr (fun err => utilerrors_New 500 (Error err)) m.

Definition account_unchanged : option ServiceAccountGetOptions := Some {| RemovePrefix := false |}.

Definition CreateTokenEndpoint (ctx : Ctx) (req : addTokenReq) : M W error ServiceAccountToken :=
  _ ← validated (addTokenReq_Validate req);
  let name := ptoken_name (token_Public (taddr_Body req)) in
  project ← httpErr (GetProject userInfoGetter ctx (treq_ProjectID (taddr_common req)) None);
  sa ← httpErr (getSA userInfoGetter ctx project (treq_ServiceAccountID (taddr_common req)) account_unchanged);
  (* check if token name is already reserved for service account *)
  existingTokenList ← httpErr (listSAToken ctx project sa name);
  _ ← notReserved "token" name existingTokenList;
  tokenID ← rand_string 10;
  claims ← Claims (user_Email sa) (project_id project) tokenID;
  token ← mapErr (fun _ => utilerrors_New 500 "can not generate token data")
            (lift (tokenGenerator claims.1 claims.2));
  secret ← httpErr (createSAToken ctx sa (project_id project) name tokenID token);
  internalErr (convertInternalTokenToPrivateExternal secret).

(** One turn of the loop of ListTokenEndpoint. *)
Definition addPublicToken (acc : list PublicServiceAccountToken * list string) (secret : Secret)
    : M W error (list PublicServiceAccountToken * list string) :=
  converted ← attempt (convertInternalTokenToPublicExternal secret);
  match converted with
  | inl err => mret (acc.1, acc.2 ++ [Error err])
  | inr externalToken => mret (acc.1 ++ [externalToken], acc.2)
  end.

Definition ListTokenEndpoint (ctx : Ctx) (req : commonTokenReq) : M W error (list PublicServiceAccountToken) :=
  _ ← validated (commonTokenReq_Validate req);
  project ← httpErr (GetProject userInfoGetter ctx (treq_ProjectID req) None);
  sa ← httpErr (getSA userInfoGetter ctx project (treq_ServiceAccountID req) account_unchanged);
  existingSecretList ← httpErr (listSAToken ctx project sa "");
  acc ← foldM addPublicToken ([], []) existingSecretList;
  _ ← throwIf (bool_decide (0 < length acc.2))
        (utilerrors_NewWithDetails 500
           "failed to get some service account tokens, please examine details field for more info" acc.2);
  mret acc.1.

(** [existingSecret.Labels["name"] = newName]. *)
Definition secret_renamed (newName : string) (s : Secret) : Secret :=
  secret_with_meta (meta_with_labels (<[ "name" := newName ]> (secret_labels s)) (secret_meta s)) s.

(** The token gets the new name, if no other token of the account has it. *)
Definition renameToken (ctx : Ctx) (project : Project) (sa : User) (existingName newName : string)
    (existingSecret : Secret) : M W error Secret :=
  if bool_decide (newName <> existingName) then
    (* check if token name is already reserved for service account *)
    existingTokenList ← listSAToken ctx project sa newName;
    _ ← notReserved "token" newName existingTokenList;
    mret (secret_renamed newName existingSecret)
  else mret existingSecret.

(** [existingSecret.Data["token"] = []byte(token)]: writing to a nil map panics. *)
Definition regenerateToken (project : Project) (sa : User) (existingSecret : Secret) : M W error Secret :=
  claims ← Claims (user_Email sa) (project_id project) (secret_name existingSecret);
  token ← mapErr (fun _ => ENew "can not generate token data") (lift (tokenGenerator claims.1 claims.2));
  match secret_Data existingSecret with
  | Some data => mret (secret_with_data (Some (<[ "token" := token ]> data)) existingSecret)
  | None => panic
  end.

Definition updateEndpoint (ctx : Ctx) (projectID saID tokenID newName : string) (regenerate : bool)
    : M W error Secret :=
  project ← GetProject userInfoGetter ctx projectID None;
  sa ← getSA userInfoGetter ctx project saID account_unchanged;
  existingSecret ← getSAToken ctx projectID tokenID;
  match secret_labels existingSecret !! "name" with
  | None => throw (ENew ("can not find token name in secret " +:+ secret_name existingSecret))
  | Some existingName =>
      if bool_decide (newName = existingName) && negb regenerate then mret existingSecret else
      existingSecret ← renameToken ctx project sa existingName newName existingSecret;
      existingSecret ← (if regenerate then regenerateToken project sa existingSecret
                        else mret existingSecret);
      updateSAToken ctx existingSecret projectID
  end.

Definition UpdateTokenEndpoint (ctx : Ctx) (req : updateTokenReq) : M W error ServiceAccountToken :=
  _ ← validated (updateTokenReq_Validate req);
  secret ← httpErr (updateEndpoint ctx (treq_ProjectID (tupd_common req))
             (treq_ServiceAccountID (tupd_common req)) (tupd_TokenID req) (ptoken_name (tupd_Body req)) true);
  internalErr (convertInternalTokenToPrivateExternal secret).

(** json.Unmarshal of the body into a PublicServiceAccountToken *)
Variable unmarshalPublicToken : string -> result error PublicServiceAccountToken.

Definition PatchTokenEndpoint (ctx : Ctx) (req : patchTokenReq) : M W error PublicServiceAccountToken :=
  _ ← validated (patchTokenReq_Validate req);
  tokenReq ← mapErr (fun err => utilerrors_NewBadRequest (Error err))
               (lift (unmarshalPublicToken (tpatch_Body req)));
  _ ← throwIf (is_empty (ptoken_name tokenReq)) (utilerrors_NewBadRequest "new name can not be empty");
  secret ← httpErr (updateEndpoint ctx (treq_ProjectID (tpatch_common req))
             (treq_ServiceAccountID (tpatch_common req)) (tpatch_TokenID req) (ptoken_name tokenReq) false);
  internalErr (convertInternalTokenToPublicExternal secret).

Definition DeleteTokenEndpoint (ctx : Ctx) (req : deleteTokenReq) : M W error unit :=
  _ ← validated (deleteTokenReq_Validate req);
  project ← httpErr (GetProject userInfoGetter ctx (treq_ProjectID (tdel_common req)) None);
  _ ← httpErr (getSA userInfoGetter ctx project (treq_ServiceAccountID (tdel_common req)) account_unchanged);
  httpErr (deleteSAToken ctx (treq_ProjectID (tdel_common req)) (tdel_TokenID req)).
End token_handlers.

(** ** Which tokens log in *)

Definition plain_id (id : string) : Prop :=
  id <> "" /\ forallb alphanumeric (String.list_ascii_of_string id) = true.

Lemma list_ascii_app s t :
  String.list_ascii_of_string (s +:+ t) = String.list_ascii_of_string s ++ String.list_ascii_of_string t.
Proof. induction s as [|c s IH]; [done|].
  change (c :: String.list_ascii_of_string (s +:+ t)
          = c :: (String.list_ascii_of_string s ++ String.list_ascii_of_string t)).
  by rewrite IH. Qed.

Lemma plain_id_no_prefix id : plain_id id -> HasPrefix id "sa-token" = false.
Proof.
  intros [_ H]. apply not_true_iff_false. intros [t ->]%HasPrefix_inv.
  by rewrite list_ascii_app, forallb_app in H.
Qed.

Lemma plain_id_key {P : SDK} id : plain_id id -> token_key id = (KubermaticNamespace, tokenPrefix +:+ id).
Proof.
  intros H%plain_id_no_prefix. unfold token_key, addTokenPrefix, hasTokenPrefix.
  replace (HasPrefix id tokenPrefix) with false; [done|]. symmetry.
  apply not_true_iff_false. intros [t ->]%HasPrefix_inv. revert H.
  change (tokenPrefix +:+ t) with ("sa-token" +:+ ("-" +:+ t)). by rewrite HasPrefix_app.
Qed.

Section which_tokens.
Context {W : Type} {EL : ErrorLib} {ELL : ErrorLibLaws EL} {P : SDK} {PL : SDKLaws P} {API : KubeAPI W}
        {ST : Store W} {LAWS : KubeAPILaws W} {J : Jose} {JL : JoseLaws J}.
Implicit Types w : W.

(** The secrets that look like tokens are those of the namespace kubermatic. *)
Definition tokens_in_namespace w : Prop :=
  forall n s, view KSecret w !! n = Some s -> isToken (Some s) = true -> n.1 = KubermaticNamespace.

#[export] Instance tokens_in_namespace_proper : Proper (same_store ==> iff) tokens_in_namespace.
Proof. intros w w' Hw. unfold tokens_in_namespace. by setoid_rewrite Hw. Qed.

Lemma token_named_iff w id s :
  tokens_in_namespace w -> plain_id id ->
  token_named w id s <-> view KSecret w !! token_key id = Some s.
Proof.
  intros Hns Hid. rewrite (plain_id_key id Hid). split.
  - intros ([n Hn] & Ht & Hr). pose proof (view_key KSecret _ _ _ Hn) as <-.
    assert (secret_name s = tokenPrefix +:+ id) as Hname.
    { unfold removeTokenPrefix in Hr. destruct (HasPrefix (secret_name s) tokenPrefix) eqn:E.
      - apply HasPrefix_inv in E as [t E]. rewrite E, TrimPrefix_app in Hr. by rewrite E, Hr.
      - rewrite TrimPrefix_id in Hr by done. cbn [isToken] in Ht.
        by rewrite Hr, (plain_id_no_prefix id Hid) in Ht. }
    specialize (Hns _ _ Hn Ht). rewrite <- Hname, <- Hns. exact Hn.
  - intros Hn. pose proof (view_key KSecret _ _ _ Hn) as Hk.
    assert (secret_name s = tokenPrefix +:+ id) as Hname by (by injection Hk).
    split_and!; [by eexists| |].
    + cbn [isToken]. rewrite Hname. change (tokenPrefix +:+ id) with ("sa-token" +:+ ("-" +:+ id)).
      apply HasPrefix_app.
    + rewrite Hname. apply TrimPrefix_app.
Qed.

(** The token is accepted as the user with the email, while its claims are in
    force and the API server answers. *)
Definition logs_in w (key token email : string) (valid : time -> Prop) : Prop :=
  ListsSucceed W -> forall t w1, now w = (Ok t, w1) -> t <> zero_time -> valid t ->
  exists claims, (ServiceAccountAuthClient_Verify (jwtTokenAuthenticator_Authenticate key) token w).1
                   = Ok claims /\ claims_Email claims = email.

Definition refused w (key token : string) : Prop :=
  forall claims, (ServiceAccountAuthClient_Verify (jwtTokenAuthenticator_Authenticate key) token w).1 <> Ok claims.

Lemma stored_token_logs_in key pub cust token w s :
  jwtTokenGenerator_Generate key pub cust = Ok token -> plain_id (custom_TokenID cust) ->
  tokens_in_namespace w -> view KSecret w !! token_key (custom_TokenID cust) = Some s ->
  secret_lookup s labelTokenName = Some token ->
  logs_in w key token (custom_Email cust) (in_force pub).
Proof.
  intros Hg Hid Hns Hv Hl HL t w1 Hnow Ht Hin.
  destruct (jwtTokenAuthenticator_Authenticate key token w) as [r w2] eqn:Ea.
  destruct (runs_elim _ _ _ _ _ (Authenticate_spec key pub cust token w Hg) Ea) as [Hs (t' & Hnow' & Hr)].
  rewrite Hnow in Hnow'. injection Hnow' as <- <-. destruct (Hr Ht) as [Hok _]. specialize (Hok Hin). subst r.
  pose proof (sa_Verify_spec _ token pub cust w w1 Ea (proj1 Hid)) as [_ Hver]. revert Hver.
  assert (forall s', token_named w1 (custom_TokenID cust) s' <-> s' = s) as Hnamed.
  { intros s'. rewrite token_named_iff by (by rewrite <- ?Hs). rewrite <- Hs, Hv. naive_solver. }
  destruct (ServiceAccountAuthClient_Verify _ token w).1 as [claims|e|]; [|intros H; exfalso|done].
  - intros [-> _]. by eexists.
  - destruct H as [H|[[_ [H|(s' & t' & ->%Hnamed & Hl' & Hne)]]|[_ (s' & ->%Hnamed & Hl')]]].
    + by apply H.
    + by apply (H s), Hnamed.
    + rewrite Hl in Hl'. by injection Hl' as ->.
    + by rewrite Hl in Hl'.
Qed.

(** A signed token is accepted only if it is the one stored under its ID. *)
Lemma accepted_is_stored key pub cust token w claims :
  jwtTokenGenerator_Generate key pub cust = Ok token -> plain_id (custom_TokenID cust) ->
  tokens_in_namespace w ->
  (ServiceAccountAuthClient_Verify (jwtTokenAuthenticator_Authenticate key) token w).1 = Ok claims ->
  exists s, view KSecret w !! token_key (custom_TokenID cust) = Some s /\
    secret_lookup s labelTokenName = Some token.
Proof.
  intros Hg Hid Hns Hok.
  destruct (jwtTokenAuthenticator_Authenticate key token w) as [r w2] eqn:Ea.
  destruct (runs_elim _ _ _ _ _ (Authenticate_spec key pub cust token w Hg) Ea) as [Hs _].
  assert (exists c, r = Ok c) as [[pub' c] ->].
  { unfold ServiceAccountAuthClient_Verify in Hok. revert Hok. unfold mbind, M_bind.
    rewrite Ea. intros Hok. destruct r as [c|e|]; [by eexists|discriminate Hok|discriminate Hok]. }
  assert (c = cust) as ->.
  { destruct (jose_roundtrip _ _ _ _ Hg) as (jws & Hp & Hc). revert Ea.
    unfold jwtTokenAuthenticator_Authenticate, lift, mbind, M_bind. rewrite Hp, Hc. cbn [fst snd].
    destruct (now w) as [[t|e|] w3]; [|done|done]. destruct (claims_Validate _ _) as [e|].
    - by destruct (jwt_is_ErrExpired e).
    - by intros [= _ ->]. }
  pose proof (sa_Verify_spec _ token pub' cust w w2 Ea (proj1 Hid)) as [_ Hver]. rewrite Hok in Hver.
  destruct Hver as [_ (s & Hn & Hl)]. exists s. split; [|done].
  apply token_named_iff in Hn; [by rewrite Hs|by rewrite <- Hs|done].
Qed.
End which_tokens.

(** ** What the endpoints do *)

Section token_handlers_proofs.
Context {W : Type} {EL : ErrorLib} {P : SDK} {API : KubeAPI W} {ST : Store W}
        {PROJECTS : ProjectProvider W} {PPROJECTS : PrivilegedProjectProvider W}
        {MAPPER : ProjectMemberMapper W} {ELL : ErrorLibLaws EL} {PL : SDKLaws P}
        {LAWS : KubeAPILaws W} {MAPL : ProjectMemberMapperLaws W}
        {PRL : ProjectProviderLaws W} {PPL : PrivilegedProjectProviderLaws W}
        {SAS : ServiceAccountProvider W} {domain : string} {SASL : ServiceAccountProviderLaws W domain}
        {TOKENS : ServiceAccountTokenProvider W} {TOKL : ServiceAccountTokenProviderLaws W}.
Context {J : Jose} {JL : JoseLaws J} (key : string).
Implicit Types w : W.

(** No token of the account in the project has the name. *)
Definition token_name_free w (project : Project) (sa : User) (name : string) : Prop :=
  forall s, token_in w project sa s -> secret_labels s !! "name" <> Some name.

(** Administrators get no such promise: for them the name is taken for an ID. *)
Lemma listSAToken_spec ctx project sa name w :
  user_name sa <> "" ->
  runs (listSAToken UserInfoGetterFactory ctx project sa name) w (fun r w' => same_store w w' /\
    match r with
    | Ok l => exists user, ctx_UserCR ctx = Some user /\
        (name <> "" -> l = [] -> user_IsAdmin user = false -> token_name_free w project sa name)
    | Err _ => True
    | Panic => False
    end).
Proof.
  intros Hsa. unfold listSAToken. http_call UserInfoGetterFactory_spec.
  intros [ui|e|] w1 [Hs1 Hi]; cbn [andThen]; [|done|done].
  destruct Hi as (user & Hc & _ & (_ & Hadm & _)). rewrite Hadm. destruct (user_IsAdmin user) eqn:Ea.
  - do 2 runs_step. pose proof (labels_Parse_panic (ProjectIDLabelKey +:+ "=" +:+ project_id project)).
    destruct (labels_Parse _) as [sel|e|]; cbn [andThen]; [|done|done].
    do 2 runs_step. eapply runs_mono; [by apply tokens_ListUnsecured_spec|]. cbn beta.
    intros r w2 [Hs2 Hr]. assert (same_store w w2) as H2 by (by etrans).
    destruct r as [l|e|]; cbn [andThen]; [| |done].
    + runs_step. split; [done|]. exists user. by rewrite Ea.
    + destruct (apierrors_IsNotFound e); runs_step; [|done]. split; [done|].
      exists user. by rewrite Ea.
  - plain_call UserInfoGetterFactory_spec. intros [ui'|e|] w2 [Hs2 Hi];
      assert (same_store w w2) as H2 by (by etrans); cbn [andThen]; [|done|done].
    eapply runs_mono; [apply tokens_List_spec|]. cbn beta.
    intros [l|e|] w3 [Hs3 Hl]; [|split; [by etrans|done]|done]. split; [by etrans|].
    exists user. split; [done|]. intros Hn%is_empty_false -> _ s Hin. destruct Hl as [Hl _].
    unfold lists_tokens, token_list_options in Hl. cbn [default from_option id TokenID] in Hl. rewrite Hn in Hl.
    destruct Hl as [(s' & _ & [=] & _)|[_ Hl]]. apply Hl.
    destruct Hin as ([n Hv] & ? & ? & ?). split_and!; try done. exists n. by rewrite <- H2.
Qed.

(** The secret of a new token is stored. *)
Definition token_stored w w' (sa : User) (projectID name id token : string) (s : Secret) : Prop :=
  exists stored, s = token_unprefixed stored /\ token_of sa projectID name id token stored /\
    created KSecret w w' stored.

Lemma token_created_stored c w w' sa pid name id token s :
  token_created c w w' sa pid name id token s ->
  authorized w c VCreate KSecret (token_key id) /\ token_stored w w' sa pid name id token s.
Proof.
  intros (st & -> & Hof & Ha & Hc). pose proof Hof as [Hk _]. rewrite Hk in Ha.
  split; [done|]. by exists st.
Qed.

Lemma createSAToken_spec ctx sa pid name id token w :
  runs (createSAToken UserInfoGetterFactory ctx sa pid name id token) w (fun r w' =>
    match r with
    | Ok s => (exists user, ctx_UserCR ctx = Some user /\
          permitted w user pid VCreate KSecret (token_key id)) /\
        token_stored w w' sa pid name id token s
    | Err _ => same_store w w'
    | Panic => False
    end).
Proof.
  unfold createSAToken. apply (admin_or_user_call ctx pid _ _ w VCreate KSecret
    (fun _ => token_key id) (fun w s w' => token_stored w w' sa pid name id token s)).
  - intros w0 w1 s w' Hs. unfold token_stored. by setoid_rewrite Hs.
  - intros w0. eapply runs_mono; [apply tokens_CreateUnsecured_spec|]. cbn beta.
    intros [s|e|] w' H; [|done|done]. by apply token_created_stored in H as [_ H].
  - intros ui w0. eapply runs_mono; [apply tokens_Create_spec|]. cbn beta.
    intros [s|e|] w' H; [|done|done]. by apply token_created_stored.
Qed.

Definition token_at w (id : string) (s : Secret) : Prop :=
  exists stored, view KSecret w !! token_key id = Some stored /\ s = token_unprefixed stored.
#[export] Instance token_at_proper : Proper (same_store ==> eq ==> eq ==> iff) token_at.
Proof. intros w w' Hw i ? <- s ? <-. unfold token_at. by setoid_rewrite Hw. Qed.
#[export] Instance token_updated_proper :
  Proper (same_store ==> same_store ==> eq ==> eq ==> iff) token_updated.
Proof.
  intros w1 w1' H1 w2 w2' H2 s ? <- a ? <-. unfold token_updated.
  by setoid_rewrite H1; setoid_rewrite H2.
Qed.

Lemma getSAToken_spec ctx pid id w :
  runs (getSAToken UserInfoGetterFactory ctx pid id) w (fun r w' => same_store w w' /\
    match r with
    | Ok s => (exists user, ctx_UserCR ctx = Some user /\
          permitted w user pid VGet KSecret (token_key id)) /\ token_at w id s
    | Err _ => True
    | Panic => False
    end).
Proof.
  unfold getSAToken. eapply runs_mono; [apply (admin_or_user_call ctx pid _ _ w VGet KSecret
    (fun _ => token_key id) (fun w s w' => same_store w w' /\ token_at w id s))|].
  - intros w0 w1 a w' Hs. by rewrite Hs.
  - intros w0. eapply runs_mono; [apply tokens_GetUnsecured_spec|]. cbn beta.
    intros [s|e|] w' [Hs H]; [|done|done]. by split.
  - intros ui w0. eapply runs_mono; [apply tokens_Get_spec|]. cbn beta.
    intros [s|e|] w' [Hs H]; [|done|done]. by destruct H.
  - intros [a|e|] w'; naive_solver.
Qed.

Lemma updateSAToken_spec ctx s pid w :
  runs (updateSAToken UserInfoGetterFactory ctx s pid) w (fun r w' =>
    match r with
    | Ok s' => (exists user, ctx_UserCR ctx = Some user /\
          permitted w user pid VUpdate KSecret (token_key (secret_name s))) /\ token_updated w w' s s'
    | Err _ => same_store w w'
    | Panic => False
    end).
Proof.
  unfold updateSAToken. apply (admin_or_user_call ctx pid _ _ w VUpdate KSecret
    (fun _ => token_key (secret_name s)) (fun w s' w' => token_updated w w' s s')).
  - intros w0 w1 a w' Hs. by rewrite Hs.
  - apply tokens_UpdateUnsecured_spec.
  - intros. apply tokens_Update_spec.
Qed.

Lemma deleteSAToken_spec ctx pid id w :
  runs (deleteSAToken UserInfoGetterFactory ctx pid id) w (fun r w' =>
    match r with
    | Ok _ => (exists user, ctx_UserCR ctx = Some user /\
          permitted w user pid VDelete KSecret (token_key id)) /\ deleted KSecret w w' (token_key id)
    | Err _ => same_store w w'
    | Panic => False
    end).
Proof.
  unfold deleteSAToken. apply (admin_or_user_call ctx pid _ _ w VDelete KSecret
    (fun _ => token_key id) (fun w _ w' => deleted KSecret w w' (token_key id))).
  - intros w0 w1 [] w' Hs. by rewrite Hs.
  - apply tokens_DeleteUnsecured_spec.
  - intros. apply tokens_Delete_spec.
Qed.

(** The answer shows the token that is stored; it cannot fail for a secret with
    a token and a name. *)
Lemma convertPrivate_spec s token name w :
  secret_lookup s "token" = Some token -> secret_labels s !! "name" = Some name ->
  runs (internalErr (convertInternalTokenToPrivateExternal (jwtTokenAuthenticator_Authenticate key) s)) w (fun r w' =>
    same_store w w' /\ exists expiry invalidated,
      r = Ok (MkToken (MkPublicToken
        (apiMeta (secret_name s) name (meta_CreationTimestamp (secret_meta s)) None) expiry invalidated) token)).
Proof.
  intros Ht Hn. unfold internalErr. apply runs_mapErr.
  unfold convertInternalTokenToPrivateExternal, convertInternalTokenToPublicExternal. rewrite Ht, Hn.
  do 3 runs_step. eapply runs_mono; [apply Authenticate_total|]. cbn beta.
  intros [c|e|] w1 [Hs Hp]; cbn [andThen]; [| |done].
  - runs_step. cbn [andThen]. runs_step. split; [done|]. by eexists _, _.
  - runs_step. cbn [andThen]. runs_step. split; [done|]. by eexists _, _.
Qed.
(** The account with its prefix. *)
Lemma account_at_unchanged w id sa :
  account_at w id account_unchanged sa ->
  view KUser w !! account_key id = Some sa /\ user_name sa = EnsureProjectServiceAccountPrefix id /\
  user_name sa <> "".
Proof.
  intros (st & Hv & ->). change (removePrefixIf _ st) with st. split; [done|].
  pose proof (view_key KUser _ _ _ Hv) as Hk.
  assert (user_name st = EnsureProjectServiceAccountPrefix id) as -> by by injection Hk.
  split; [done|]. intros E. pose proof (IsProjectServiceAccount_Ensure id) as Hp.
  by rewrite E, service_account_prefix in Hp.
Qed.

Lemma tokens_in_namespace_insert w w' s :
  view KSecret w' = <[key_of KSecret s := s]> (view KSecret w) -> (key_of KSecret s).1 = KubermaticNamespace ->
  tokens_in_namespace w -> tokens_in_namespace w'.
Proof.
  intros Hv Hk Hns n t. rewrite Hv. intros [[<- <-]|[_ Hn]]%lookup_insert_Some Ht; [done|by eapply Hns].
Qed.

Lemma token_unprefixed_name id s :
  key_of KSecret s = token_key id -> plain_id id -> secret_name (token_unprefixed s) = id.
Proof.
  intros Hk Hid. rewrite (plain_id_key id Hid) in Hk.
  change (removeTokenPrefix (secret_name s) = id). assert (secret_name s = tokenPrefix +:+ id) as ->
    by by injection Hk. apply TrimPrefix_app.
Qed.

Lemma addTokenReq_Validate_ok r : addTokenReq_Validate r = Ok tt ->
  ptoken_name (token_Public (taddr_Body r)) <> "" /\ treq_ProjectID (taddr_common r) <> "" /\
  (RuneCountInString (ptoken_name (token_Public (taddr_Body r))) <= 50)%nat.
Proof.
  unfold addTokenReq_Validate. destruct (_ || _) eqn:E; [done|].
  apply orb_false_iff in E as [[H1%is_empty_false H2%is_empty_false]%orb_false_iff _].
  case_bool_decide as Hb; [done|]. intros _. split_and!; [done|done|lia].
Qed.
Lemma addTokenReq_Validate_total r : addTokenReq_Validate r <> Panic.
Proof. unfold addTokenReq_Validate. by destruct (_ || _); [|case_bool_decide]. Qed.

Lemma Generate_total pub cust : jwtTokenGenerator_Generate key pub cust <> Panic.
Proof. apply jose_total. Qed.

(** A token of the account was issued under an ID of its own: the secret that is
    new in the store carries it, and the answer shows it. *)
Definition token_issued ctx (req : addTokenReq) w w' (pub : JwtClaims) (sa : User) (a : ServiceAccountToken) : Prop :=
  let pid := treq_ProjectID (taddr_common req) in
  let name := ptoken_name (token_Public (taddr_Body req)) in
  exists user project id secret, ctx_UserCR ctx = Some user /\ project_at w pid project /\
    permitted w user pid VCreate KSecret (token_key id) /\
    view KUser w !! account_key (treq_ServiceAccountID (taddr_common req)) = Some sa /\
    (user_IsAdmin user = false -> token_name_free w project sa name) /\
    plain_id id /\ jwtTokenGenerator_Generate key pub (MkCustomClaim (user_Email sa) pid id) = Ok (token_Token a) /\
    token_stored w w' sa pid name id (token_Token a) secret /\
    ptoken_id (token_Public a) = id /\ ptoken_name (token_Public a) = name.

Lemma CreateTokenEndpoint_spec ctx req w :
  runs (CreateTokenEndpoint UserInfoGetterFactory (jwtTokenAuthenticator_Authenticate key)
          (jwtTokenGenerator_Generate key) ctx req) w (fun r w' =>
    match r with
    | Ok a => exists pub sa, token_issued ctx req w w' pub sa a
    | Err _ => same_store w w'
    | Panic => False
    end).
Proof.
  unfold CreateTokenEndpoint. plain_call (validated_spec (W := W)); [apply addTokenReq_Validate_total|].
  intros r w0 [-> Hv]. destruct r as [[]|e|]; cbn [andThen]; [|done|done].
  apply addTokenReq_Validate_ok in Hv as (Hname & Hpid & _).
  http_call handler_GetProject. intros [project|e|] w1 [Hs1 H]; cbn [andThen]; [|done|done].
  destruct H as [_ [Hpv Hpn]]. http_call getSA_spec.
  intros [sa|e|] w2 [Hs2 Hsa]; cbn [andThen]; [|by etrans|done]. destruct Hsa as [_ Hsa].
  assert (same_store w w2) as H2 by (by etrans). rewrite <- Hs1 in Hsa.
  apply account_at_unchanged in Hsa as (Hsa & Hsan & Hsane).
  http_call listSAToken_spec; [done|]. intros [l|e|] w3 [Hs3 Hl]; cbn [andThen]; [|by etrans|done].
  assert (same_store w w3) as H3 by (by etrans).
  unfold notReserved. runs_guard; [done|]. destruct l as [|x l]; [|done].
  plain_call (rand_string_spec 10). intros r w4 [Hs4 (id & -> & Hlen & Hid)]. cbn [andThen].
  plain_call Claims_spec. intros r w5 [Hs5 (t1 & t2 & t3 & ->)]. cbn [andThen fst snd].
  assert (same_store w w5) as H5 by (by rewrite H3, Hs4).
  set (pub := MkJwtClaims _ _ _). set (cust := MkCustomClaim _ _ _).
  pose proof (Generate_total pub cust) as Hgt. do 3 runs_step.
  destruct (jwtTokenGenerator_Generate key pub cust) as [token|e|] eqn:Eg; cbn [andThen]; [|done|done].
  http_call createSAToken_spec. intros [s|e|] w6 Hcr; cbn [andThen]; [|by etrans|done].
  destruct Hcr as [(user & Hc & Hperm) (st & -> & Hof & Hcr)].
  destruct Hof as (Hk & Hd & Hlb & Ho).
  eapply runs_mono; [apply (convertPrivate_spec _ token (ptoken_name (token_Public (taddr_Body req))))|].
  { unfold secret_lookup. cbn. by rewrite Hd. }
  { change (secret_labels (token_unprefixed st)) with (secret_labels st). by rewrite Hlb, lookup_insert_eq. }
  cbn beta. intros r w7 [Hs7 (expiry & inv & ->)].
  assert (plain_id id) as Hplain by (split; [by intros ->|done]).
  assert (project_id project = treq_ProjectID (taddr_common req)) as Hp by exact Hpn.
  rewrite Hp in *. exists pub, sa, user, project, id, (token_unprefixed st).
  split_and!; try done.
  - by rewrite H5.
  - intros Hna. destruct Hl as (user' & Hc' & Hl). rewrite Hc in Hc'. injection Hc' as <-.
    intros s Hs. apply (Hl Hname eq_refl Hna s). destruct Hs as ([n Hn] & ? & ? & ?).
    split_and!; try done. exists n. by rewrite <- H2.
  - rewrite <- Hp. exact Eg.
  - exists st. split_and!; [done|done..|]. by rewrite <- Hs7, H5.
  - by apply token_unprefixed_name.
Qed.

(** The secret under the ID of the path gets a new token, and the requested name. *)
Definition token_regenerated ctx (req : updateTokenReq) w w' (pub : JwtClaims) (a : ServiceAccountToken) : Prop :=
  let pid := treq_ProjectID (tupd_common req) in
  let id := tupd_TokenID req in
  exists user sa old stored, ctx_UserCR ctx = Some user /\
    permitted w user pid VUpdate KSecret (token_key id) /\
    view KUser w !! account_key (treq_ServiceAccountID (tupd_common req)) = Some sa /\
    view KSecret w !! token_key id = Some old /\
    jwtTokenGenerator_Generate key pub (MkCustomClaim (user_Email sa) pid id)
      = Ok (token_Token a) /\
    updated KSecret w w' stored /\
    key_of KSecret stored = token_key id /\
    secret_lookup stored "token" = Some (token_Token a) /\
    secret_labels stored = <[ "name" := ptoken_name (tupd_Body req) ]> (secret_labels old) /\
    secret_owners stored = secret_owners old.

Lemma renameToken_spec ctx project sa name newName s w :
  user_name sa <> "" -> secret_labels s !! "name" = Some name ->
  runs (renameToken UserInfoGetterFactory ctx project sa name newName s) w (fun r w' => same_store w w' /\
    match r with
    | Ok s' => s' = secret_renamed newName s
    | Err _ => True
    | Panic => False
    end).
Proof.
  intros Hsa Hn. unfold renameToken. case_bool_decide as Hb.
  - plain_call listSAToken_spec; [done|]. intros [l|e|] w1 [Hs Hl]; cbn [andThen]; [|done|done].
    unfold notReserved. runs_guard; [done|]. by runs_step.
  - runs_step. split; [done|]. subst newName. unfold secret_renamed.
    rewrite insert_id by done. by destruct s as [[] ? ?].
Qed.

Lemma regenerateToken_spec project sa s w :
  runs (regenerateToken (jwtTokenGenerator_Generate key) project sa s) w (fun r w' => same_store w w' /\
    match r with
    | Ok s' => exists pub token data,
        jwtTokenGenerator_Generate key pub (MkCustomClaim (user_Email sa) (project_id project) (secret_name s))
          = Ok token /\
        secret_Data s = Some data /\ s' = secret_with_data (Some (<[ "token" := token ]> data)) s
    | Err _ => True
    | Panic => secret_Data s = None
    end).
Proof.
  unfold regenerateToken. plain_call Claims_spec. intros r w1 [Hs (t1 & t2 & t3 & ->)]. cbn [andThen fst snd].
  set (pub := MkJwtClaims _ _ _). set (cust := MkCustomClaim _ _ _).
  pose proof (Generate_total pub cust) as Hgt. do 3 runs_step.
  destruct (jwtTokenGenerator_Generate key pub cust) as [token|e|] eqn:Eg; cbn [andThen]; [|done|done].
  destruct (secret_Data s) as [data|] eqn:Ed; runs_step; (split; [done|]); [|done].
  by exists pub, token, data.
Qed.

Lemma updateTokenReq_Validate_total r : updateTokenReq_Validate r <> Panic.
Proof.
  unfold updateTokenReq_Validate, commonTokenReq_Validate, and_then.
  destruct (_ || _); [done|]. destruct (is_empty _); [done|]. destruct (is_empty _); [done|].
  by case_bool_decide.
Qed.

Lemma UpdateTokenEndpoint_spec ctx req w :
  plain_id (tupd_TokenID req) ->
  runs (UpdateTokenEndpoint UserInfoGetterFactory (jwtTokenAuthenticator_Authenticate key)
          (jwtTokenGenerator_Generate key) ctx req) w (fun r w' =>
    match r with
    | Ok a => exists pub, token_regenerated ctx req w w' pub a
    | Err _ => same_store w w'
    | Panic => same_store w w' /\
        exists old, view KSecret w !! token_key (tupd_TokenID req) = Some old /\ secret_Data old = None
    end).
Proof.
  intros Hid. unfold UpdateTokenEndpoint, updateEndpoint.
  plain_call (validated_spec (W := W)); [apply updateTokenReq_Validate_total|].
  intros r w0 [-> Hv]. destruct r as [[]|e|]; cbn [andThen]; [|done|done].
  runs_step. apply runs_mapErr.
  plain_call handler_GetProject. intros [project|e|] w1 [Hs1 H]; cbn [andThen]; [|done|done].
  destruct H as [_ [_ Hpn]]. plain_call getSA_spec.
  intros [sa|e|] w2 [Hs2 Hsa]; cbn [andThen]; [|by etrans|done]. destruct Hsa as [_ Hsa].
  assert (same_store w w2) as H2 by (by etrans). rewrite <- Hs1 in Hsa.
  apply account_at_unchanged in Hsa as (Hsa & _ & Hsane).
  plain_call getSAToken_spec. intros [s|e|] w3 [Hs3 Hs]; cbn [andThen]; [|by etrans|done].
  assert (same_store w w3) as H3 by (by etrans). rewrite <- H2 in Hs. destruct Hs as [_ (old & Hold & ->)].
  pose proof (view_key KSecret _ _ _ Hold) as Hk.
  pose proof (token_unprefixed_name _ _ Hk Hid) as Hname.
  destruct (secret_labels (token_unprefixed old) !! "name") as [name|] eqn:En; [|by runs_step].
  rewrite andb_false_r. plain_call renameToken_spec; [done|done|].
  intros r w4 [Hs4 Hr]. assert (same_store w w4) as H4 by (by etrans).
  destruct r as [s|e|]; cbn [andThen]; [subst s|done|done].
  plain_call regenerateToken_spec. intros r w5 [Hs5 Hr]. assert (same_store w w5) as H5 by (by etrans).
  destruct r as [s|e|]; cbn [andThen]; [|done|]; [|by split; [|exists old]].
  destruct Hr as (pub & token & data & Hg & Hdata & ->).
  eapply runs_mono; [apply updateSAToken_spec|]. cbn beta.
  intros [a|e|] w6 Hu; cbn [andThen]; [|by etrans|done].
  destruct Hu as [(user & Hc & Hperm) (st & -> & Hu & Hkst & Hdst & Hlst & Host)].
  change (secret_labels (secret_with_data _ _)) with (<[ "name" := ptoken_name (tupd_Body req) ]> (secret_labels old)) in Hlst.
  change (secret_Data (secret_with_data ?d _)) with d in Hdst.
  change (secret_name (secret_with_data _ _)) with (secret_name (token_unprefixed old)) in Hkst, Hperm.
  change (secret_name (secret_renamed _ _)) with (secret_name (token_unprefixed old)) in Hg.
  rewrite Hname in *. assert (secret_lookup st "token" = Some token) as Htok
    by (unfold secret_lookup; rewrite Hdst; apply lookup_insert_eq).
  eapply runs_mono; [apply (convertPrivate_spec (token_unprefixed st) token (ptoken_name (tupd_Body req)))|]; [done| |].
  { change (secret_labels (token_unprefixed st)) with (secret_labels st). by rewrite Hlst, lookup_insert_eq. }
  cbn beta. intros r w7 [Hs7 (expiry & inv & ->)].
  assert (project_id project = treq_ProjectID (tupd_common req)) as Hp by exact Hpn. rewrite Hp in *.
  exists pub, user, sa, old, st. split_and!; try done.
  - by rewrite H5.
  - by rewrite H5, <- Hs7.
Qed.

Lemma DeleteTokenEndpoint_spec ctx req w :
  runs (DeleteTokenEndpoint UserInfoGetterFactory ctx req) w (fun r w' =>
    match r with
    | Ok _ => (exists user, ctx_UserCR ctx = Some user /\
          permitted w user (treq_ProjectID (tdel_common req)) VDelete KSecret (token_key (tdel_TokenID req))) /\
        (exists sa, view KUser w !! account_key (treq_ServiceAccountID (tdel_common req)) = Some sa) /\
        deleted KSecret w w' (token_key (tdel_TokenID req))
    | Err _ => same_store w w'
    | Panic => False
    end).
Proof.
  unfold DeleteTokenEndpoint. plain_call (validated_spec (W := W)).
  { unfold deleteTokenReq_Validate, commonTokenReq_Validate, and_then. by repeat destruct (is_empty _). }
  intros r w0 [-> Hv]. destruct r as [[]|e|]; cbn [andThen]; [|done|done].
  http_call handler_GetProject. intros [project|e|] w1 [Hs1 H]; cbn [andThen]; [|done|done].
  http_call getSA_spec. intros [sa|e|] w2 [Hs2 Hsa]; cbn [andThen]; [|by etrans|done].
  assert (same_store w w2) as H2 by (by etrans). destruct Hsa as [_ Hsa]. rewrite <- Hs1 in Hsa.
  apply account_at_unchanged in Hsa as (Hsa & _).
  eapply httpErr_spec; [apply deleteSAToken_spec|]. intros [[]|e|] w3 Hd; [|by etrans|done].
  destruct Hd as [(user & Hc & Hp) Hd]. split_and!; [|by exists sa|by rewrite H2].
  exists user. by rewrite H2.
Qed.
End token_handlers_proofs.

(** ** Properties *)

Section token_handlers_properties.
Context {W : Type} {EL : ErrorLib} {P : SDK} {API : KubeAPI W} {ST : Store W}
        {PROJECTS : ProjectProvider W} {PPROJECTS : PrivilegedProjectProvider W}
        {MAPPER : ProjectMemberMapper W} {ELL : ErrorLibLaws EL} {PL : SDKLaws P}
        {LAWS : KubeAPILaws W} {MAPL : ProjectMemberMapperLaws W}
        {PRL : ProjectProviderLaws W} {PPL : PrivilegedProjectProviderLaws W}
        {SAS : ServiceAccountProvider W} {domain : string} {SASL : ServiceAccountProviderLaws W domain}
        {TOKENS : ServiceAccountTokenProvider W} {TOKL : ServiceAccountTokenProviderLaws W}.
Context {J : Jose} {JL : JoseLaws J} (key : string).
Implicit Types w : W.

(** C23: The token that the creation answers is stored under a new ID, for the
    account of the path, and from then on logs its bearer in as the account, as
    long as its claims are in force; the name is new, unless an administrator
    asked. A failed request changes nothing. *)
Theorem created_token_logs_in ctx req w :
  tokens_in_namespace w ->
  runs (CreateTokenEndpoint UserInfoGetterFactory (jwtTokenAuthenticator_Authenticate key)
          (jwtTokenGenerator_Generate key) ctx req) w (fun r w' =>
    match r with
    | Ok a => exists pub sa, token_issued key ctx req w w' pub sa a /\ tokens_in_namespace w' /\
        logs_in w' key (token_Token a) (user_Email sa) (in_force pub)
    | Err _ => same_store w w'
    | Panic => False
    end).
Proof.
  intros Hns. eapply runs_mono; [apply CreateTokenEndpoint_spec|]. cbn beta.
  intros [a|e|] w'; [|done|done]. intros (pub & sa & Hi). exists pub, sa. split; [exact Hi|].
  destruct Hi as (user & project & id & s & _ & _ & _ & _ & _ & Hid & Hg & (st & _ & Hof & Hcr) & _).
  destruct Hof as (Hk & Hd & _). destruct Hcr as (_ & Hv & _).
  assert (tokens_in_namespace w') as Hns' by (eapply tokens_in_namespace_insert; [done|by rewrite Hk|done]).
  split; [done|]. eapply (stored_token_logs_in _ _ _ _ _ st Hg); [done|done| |].
  - cbn [custom_TokenID]. by rewrite Hv, <- Hk, lookup_insert_eq.
  - by unfold secret_lookup; rewrite Hd, lookup_singleton_eq.
Qed.

(** C13: A change of a token replaces it: the new token logs the account of the path
    in, and no other token with this ID does, whatever it was signed with the
    key for. A secret without data makes the request panic; then, and after an
    error, nothing has changed. *)
Theorem regenerated_token_replaces ctx req w :
  tokens_in_namespace w -> plain_id (tupd_TokenID req) ->
  runs (UpdateTokenEndpoint UserInfoGetterFactory (jwtTokenAuthenticator_Authenticate key)
          (jwtTokenGenerator_Generate key) ctx req) w (fun r w' =>
    match r with
    | Ok a => exists pub, token_regenerated key ctx req w w' pub a /\ tokens_in_namespace w' /\
        (exists sa, view KUser w !! account_key (treq_ServiceAccountID (tupd_common req)) = Some sa /\
           logs_in w' key (token_Token a) (user_Email sa) (in_force pub)) /\
        forall pub' cust' token', jwtTokenGenerator_Generate key pub' cust' = Ok token' ->
          custom_TokenID cust' = tupd_TokenID req -> token' <> token_Token a -> refused w' key token'
    | Err _ => same_store w w'
    | Panic => same_store w w' /\
        exists old, view KSecret w !! token_key (tupd_TokenID req) = Some old /\ secret_Data old = None
    end).
Proof.
  intros Hns Hid. eapply runs_mono; [by apply UpdateTokenEndpoint_spec|]. cbn beta.
  intros [a|e|] w'; [|done|done]. intros (pub & Hi). exists pub. split; [exact Hi|].
  destruct Hi as (user & sa & old & st & _ & _ & Hsa & _ & Hg & (_ & Hv & _) & Hk & Hl & _).
  assert (tokens_in_namespace w') as Hns' by (eapply tokens_in_namespace_insert; [done|by rewrite Hk|done]).
  assert (view KSecret w' !! token_key (tupd_TokenID req) = Some st) as Hst
    by (by rewrite Hv, <- Hk, lookup_insert_eq).
  split_and!; [done| |].
  - exists sa. split; [done|]. by eapply (stored_token_logs_in _ _ _ _ _ st Hg).
  - intros pub' cust' token' Hg' Hid' Hne claims Hok.
    eapply accepted_is_stored in Hok as (s & Hs & Hls); [|done|by rewrite Hid'|done].
    rewrite Hid' in Hs. pose proof (eq_trans (eq_sym Hs) Hst) as [= ->]. unfold labelTokenName in Hls. rewrite Hl in Hls.
    congruence.
Qed.

(** After a token has been deleted no token with its ID logs in, provided that
    no finalizer keeps the secret. *)
Theorem deleted_token_refused ctx req w :
  tokens_in_namespace w -> plain_id (tdel_TokenID req) ->
  runs (DeleteTokenEndpoint UserInfoGetterFactory ctx req) w (fun r w' =>
    match r with
    | Ok _ => deleted KSecret w w' (token_key (tdel_TokenID req)) /\ tokens_in_namespace w' /\
        exists old, view KSecret w !! token_key (tdel_TokenID req) = Some old /\
          (meta_Finalizers (secret_meta old) = [] ->
           forall pub cust token, jwtTokenGenerator_Generate key pub cust = Ok token ->
             custom_TokenID cust = tdel_TokenID req -> refused w' key token)
    | Err _ => same_store w w'
    | Panic => False
    end).
Proof.
  intros Hns Hid. eapply runs_mono; [apply DeleteTokenEndpoint_spec|]. cbn beta.
  intros [[]|e|] w'; [|done|done]. intros (_ & _ & Hd). split; [done|].
  destruct Hd as (Ho & _ & old & Hold & Hgone & Hkept). 
  assert (tokens_in_namespace w') as Hns'.
  { intros n s Hn Ht. destruct (decide (n = token_key (tdel_TokenID req))) as [->|Hne]; [done|].
    rewrite Ho in Hn by done. by eapply Hns. }
  split; [done|]. exists old. split; [done|]. intros Hf pub cust token Hg Hcid claims Hok.
  eapply accepted_is_stored in Hok as (s & Hs & _); [|done|by rewrite Hcid|done].
  rewrite Hcid in Hs. pose proof (eq_trans (eq_sym Hs) (Hgone Hf)) as [=].
Qed.
End token_handlers_properties.

(** Requests to the concrete installation with the token abc. *)
Lemma withToken_in_namespace : tokens_in_namespace withToken.
Proof.
  intros n s Hn _. pose proof (view_key KSecret _ _ _ Hn) as Hk.
  apply (lookup_mem withToken KSecret) in Hn. vm_compute in Hn.
  apply list_elem_of_singleton in Hn as ->. by rewrite <- Hk.
Qed.

Definition signingKey : string := "0123456789abcdef0123456789abcdef".
Definition pathToken : commonTokenReq := MkTokenReq "p1" "ci".
Definition publicToken (id name : string) : PublicServiceAccountToken :=
  MkPublicToken (apiMeta id name zero_time None) zero_time false.
Definition createTokenRun : result error ServiceAccountToken * Mem :=
  CreateTokenEndpoint UserInfoGetterFactory
    (jwtTokenAuthenticator_Authenticate (J := BinaryJose.binaryJose) signingKey)
    (jwtTokenGenerator_Generate (J := BinaryJose.binaryJose) signingKey) aliceCtx
    (MkAddTokenReq pathToken (MkToken (publicToken "" "backup") "")) withToken.
Definition updateTokenRun : result error ServiceAccountToken * Mem :=
  UpdateTokenEndpoint UserInfoGetterFactory
    (jwtTokenAuthenticator_Authenticate (J := BinaryJose.binaryJose) signingKey)
    (jwtTokenGenerator_Generate (J := BinaryJose.binaryJose) signingKey) aliceCtx
    (MkUpdateTokenReq pathToken "abc" (publicToken "abc" "deploy")) withToken.

Lemma plain_abc : plain_id "abc".
Proof. by split. Qed.

Lemma created_token_logs_in_witness :
  exists a pub sa, createTokenRun.1 = Ok a /\ user_Email sa = "serviceaccount-ci@sa.kubermatic.io" /\
  logs_in (J := BinaryJose.binaryJose) createTokenRun.2 signingKey (token_Token a) (user_Email sa) (in_force pub).
Proof.
  pose proof (created_token_logs_in (domain := "sa.kubermatic.io") (JL := BinaryJose.binaryJoseLaws) signingKey aliceCtx
    (MkAddTokenReq pathToken (MkToken (publicToken "" "backup") "")) withToken withToken_in_namespace) as H.
  run_ok createTokenRun a E. unfold runs in H. fold createTokenRun in H. rewrite E in H.
  destruct H as (pub & sa & Hi & _ & Hl). exists a, pub, sa. split; [exact E|]. split; [|exact Hl].
  destruct Hi as (_ & _ & _ & _ & _ & _ & _ & Hsa & _). vm_compute in Hsa. by injection Hsa as <-.
Defined.

Lemma regenerated_token_replaces_witness :
  exists a, updateTokenRun.1 = Ok a /\
  (exists pub sa, logs_in (J := BinaryJose.binaryJose) updateTokenRun.2 signingKey (token_Token a) (user_Email sa) (in_force pub)) /\
  forall pub' cust' token',
    jwtTokenGenerator_Generate (J := BinaryJose.binaryJose) signingKey pub' cust' = Ok token' ->
    custom_TokenID cust' = "abc" -> token' <> token_Token a ->
    refused (J := BinaryJose.binaryJose) updateTokenRun.2 signingKey token'.
Proof.
  pose proof (regenerated_token_replaces (domain := "sa.kubermatic.io") (JL := BinaryJose.binaryJoseLaws) signingKey aliceCtx
    (MkUpdateTokenReq pathToken "abc" (publicToken "abc" "deploy")) withToken withToken_in_namespace plain_abc) as H.
  run_ok updateTokenRun a E. unfold runs in H. fold updateTokenRun in H. rewrite E in H.
  destruct H as (pub & _ & _ & (sa & _ & Hl) & Hr). exists a. split; [exact E|].
  split; [exists pub, sa; exact Hl|exact Hr].
Defined.

Lemma deleted_token_refused_witness :
  let run := DeleteTokenEndpoint UserInfoGetterFactory aliceCtx (MkDeleteTokenReq pathToken "abc") withToken in
  run.1 = Ok tt /\
  forall pub cust token, jwtTokenGenerator_Generate (J := BinaryJose.binaryJose) signingKey pub cust = Ok token ->
    custom_TokenID cust = "abc" -> refused (J := BinaryJose.binaryJose) run.2 signingKey token.
Proof.
  intros run. pose proof (deleted_token_refused (domain := "sa.kubermatic.io") (JL := BinaryJose.binaryJoseLaws) signingKey
    aliceCtx (MkDeleteTokenReq pathToken "abc") withToken withToken_in_namespace plain_abc) as H.
  assert (run.1 = Ok tt) as E by (vm_compute; reflexivity). unfold runs in H. fold run in H. rewrite E in H.
  destruct H as (_ & _ & old & Hold & Hr). split; [exact E|]. apply Hr.
  vm_compute in Hold. by injection Hold as <-.
Defined.
