(* ===== verification/AuthFlow.v ===== *)
(** The login of the dashboard: handler/v2/authflow/handler.go.  A browser is
    sent to the OpenID provider, comes back with a code, and gets the ID token
    as cookies; refresh, logout and status work on these cookies.  The browser
    is modelled by its cookie jar, so that what one request stores is what the
    next one sends. *)
From S2P Require Export OAuth Json.
From stdpp Require Import pretty.
From Stdlib Require Import Ascii.

Definition oauthStateCookieName : string := "_oauth_state".
Definition oauthStateCookieMaxAge : Z := 300.
Definition callbackPath : string := "/api/v2/auth/callback".
Definition idTokenCookieName : string := "token".
Definition maxCookieSize : nat := 3800.
Definition refreshTokenCookieName : string := "refresh_token".
Definition refreshTokenCookieMaxAge : Z := 2592000.

(** ** Cookies *)

(** [token[i:end]], from [i] on; the loop ends when [i] reaches the length. *)
Fixpoint chunkLoop (fuel : nat) (token : string) (chunkSize i : nat) (chunks : list string)
    : option (list string) :=
  match fuel with
  | O => None
  | S fuel =>
      if i <? String.length token then
        let end_ := i + chunkSize in
        let end_ := if String.length token <? end_ then String.length token else end_ in
        chunkLoop fuel token chunkSize (i + chunkSize) (chunks ++ [String.substring i (end_ - i) token])
      else Some chunks
  end.
(** One turn per byte and a last one are enough, unless [chunkSize] is 0. *)
Definition chunkString (token : string) (chunkSize : nat) : option (list string) :=
  chunkLoop (S (String.length token)) token chunkSize 0 [].

Definition setNamedCookie (w : ResponseWriter) (name value path : string) (maxAge : Z) (secureMode : bool)
    : ResponseWriter :=
  http_SetCookie (MkCookie name value path maxAge true secureMode SameSiteLaxMode) w.

Definition clearNamedCookie (w : ResponseWriter) (name path : string) (secureMode : bool) : ResponseWriter :=
  http_SetCookie (MkCookie name "" path (-1) true secureMode SameSiteLaxMode) w.

Definition clearAuthCookies (w : ResponseWriter) (r : Request) (secureMode : bool) : ResponseWriter :=
  let w := clearNamedCookie w idTokenCookieName "/" secureMode in
  let w := clearNamedCookie w refreshTokenCookieName "/api/v2/auth" secureMode in
  let chunkPrefix := idTokenCookieName +:+ "-" in
  fold_left (fun w c => if HasPrefix c.1 chunkPrefix then clearNamedCookie w c.1 "/" secureMode else w)
    (req_Cookies r) w.

Fixpoint setChunks (w : ResponseWriter) (i : N) (chunks : list string) (maxAge : Z) (secureMode : bool)
    : ResponseWriter :=
  match chunks with
  | [] => w
  | chunk :: chunks =>
      setChunks (setNamedCookie w (idTokenCookieName +:+ "-" +:+ pretty (i + 1)%N) chunk "/" maxAge secureMode)
        (i + 1)%N chunks maxAge secureMode
  end.

(** The ID token in one cookie, or split over token-1, token-2, ...; [None] if
    the splitting did not end. *)
Definition setIDToken (w : ResponseWriter) (tokenValue : string) (tokenMaxAge : Z) (secureMode : bool)
    : option ResponseWriter :=
  if String.length tokenValue <=? maxCookieSize
  then Some (setNamedCookie w idTokenCookieName tokenValue "/" tokenMaxAge secureMode)
  else (fun chunks => setChunks w 0 chunks tokenMaxAge secureMode) <$> chunkString tokenValue maxCookieSize.

Definition setRefreshToken (w : ResponseWriter) (refreshToken : string) (secureMode : bool) : ResponseWriter :=
  if negb (is_empty refreshToken)
  then setNamedCookie w refreshTokenCookieName refreshToken "/api/v2/auth" refreshTokenCookieMaxAge secureMode
  else w.

(** [int(time.Until(expiry).Seconds())]: a Duration saturates; the fraction of a
    second is cut off (that the conversion through a float64 may round up when
    more than three months are left is not modelled). *)
Definition until_seconds (t expiry : time) : Z :=
  Z.quot (Z.max (- 2 ^ 63) (Z.min (2 ^ 63 - 1) (expiry - t))) second.

(** [Time.Unix()]. *)
Definition Unix (t : time) : Z := (t / second - unixToInternal)%Z.

(** json.Encoder on authStatusResponse, and on a map with the one key redirect *)
Definition authStatusResponse (expiresAt : Z) : string :=
  "{" +:+ dquote +:+ "expires_at" +:+ dquote +:+ ":" +:+ pretty expiresAt +:+ "}".
Definition redirectResponse (redirect : string) : string :=
  "{" +:+ dquote +:+ "redirect" +:+ dquote +:+ ":" +:+
  String.string_of_list_ascii (encodeString (String.list_ascii_of_string redirect)) +:+ "}".

(** ** Where a logout goes *)

(** json.Unmarshal into a map[string]interface{}: of equal keys the last counts. *)
Definition unmarshalConfig (config : string) : option (list (chars * json)) :=
  match parseJson (String.list_ascii_of_string config) with
  | Some (JObject fields) => Some fields
  | Some JNull => Some []
  | _ => None
  end.
Definition configValue (fields : list (chars * json)) (k : string) : option json :=
  snd <$> List.find (fun f => bool_decide (f.1 = String.list_ascii_of_string k)) (reverse fields).
Definition stringValue (v : option json) : option string :=
  match v with Some (JString s) => Some (String.string_of_list_ascii s) | _ => None end.

(** The query of the logout URL with where to come back to. *)
Definition logoutQuery (oidcProvider token postLogoutRedirectURI : string) (urlQuery : Values) : Values :=
  if bool_decide (ToLower oidcProvider = "keycloak")
  then values_set "id_token_hint" token (values_set "post_logout_redirect_uri" postLogoutRedirectURI urlQuery)
  else if values_has "redirectUri" urlQuery then values_set "redirectUri" postLogoutRedirectURI urlQuery
  else values_set "redirect_uri" postLogoutRedirectURI urlQuery.

Definition getOIDCProviderLogoutURL {IP : IPAddr} (uiConfig token baseURL : string) : string :=
  let dashboardRoot := "/" in
  match (if negb (is_empty uiConfig) then unmarshalConfig uiConfig else Some []) with
  | None => dashboardRoot
  | Some uiConfig =>
      match stringValue (configValue uiConfig "oidc_logout_url") with
      | Some oidcLogoutURLStr =>
          if is_empty oidcLogoutURLStr then dashboardRoot else
          match url_Parse oidcLogoutURLStr with
          | Ok oidcLogoutURL =>
              match stringValue (configValue uiConfig "oidc_provider") with
              | None => dashboardRoot
              | Some oidcProvider =>
                  let urlQuery := logoutQuery oidcProvider token (baseURL +:+ "/") (url_Query oidcLogoutURL) in
                  url_String (url_with_rawQuery (values_Encode urlQuery) oidcLogoutURL)
              end
          | _ => dashboardRoot
          end
      | None => dashboardRoot
      end
  end.

(** ** The handlers

    A handler is a computation that ends with a response either way: [Err] is
    the response of an early return. *)

(** [if err != nil { ...; return }] with the response of the error. *)
Definition orElse {W A} (m : M W error A) (f : error -> ResponseWriter) : M W ResponseWriter A := fun w =>
  match m w with
  | (Ok a, w1) => (Ok a, w1)
  | (Err e, w1) => (Err (f e), w1)
  | (Panic, w1) => (Panic, w1)
  end.

Section handlers.
Context {W : Type} {EL : ErrorLib} {API : KubeAPI W} {USERS : UserProvider W} {RND : OAuthRandom W}
        {SEC : SecureCookie W} {V : OIDCIssuerVerifier W} {IP : IPAddr}.
(** The text of kubermaticConfig.Spec.UI.Config; of the settings of a user
    SelectedProjectID and UseClustersView. *)
Variable kubermaticConfigProvider : M W error string.
Variable selectedProjectID : string -> string.
Variable useClustersView : string -> bool.

(** time.Now(), which does not fail *)
Definition readClock : M W ResponseWriter time := fun w =>
  match now w with (Ok t, w1) => (Ok t, w1) | (_, w1) => (Panic, w1) end.

Definition requestScheme (r : Request) : string := if req_TLS r then "https" else "http".

Definition schemeAndHost (r : Request) : string * string :=
  let fallback := (requestScheme r, req_Host r) in
  match oiv_GetRedirectURI callbackPath with
  | Ok uri =>
      match url_Parse uri with
      | Ok u => if negb (is_empty (url_Host u)) then (url_Scheme u, url_Host u) else fallback
      | _ => fallback
      end
  | _ => fallback
  end.

Definition getCallbackURI (r : Request) : string :=
  let '(scheme, host) := schemeAndHost r in scheme +:+ "://" +:+ host +:+ callbackPath.

Definition getBaseURL (r : Request) : string :=
  let '(scheme, host) := schemeAndHost r in scheme +:+ "://" +:+ host.

Definition getRequestBaseURL (r : Request) : string :=
  let origin := req_Query r "origin" in
  if is_empty origin then getBaseURL r else
  let allowed := oc_AdditionalRedirectURIs oiv_OIDCConfig in
  let allowed := match oiv_GetRedirectURI callbackPath with Ok uri => uri :: allowed | _ => allowed end in
  match AllowedOrigin origin allowed with
  | Ok origin => origin
  | _ => getBaseURL r
  end.

Definition loginHandler (r : Request) : M W ResponseWriter ResponseWriter :=
  let oidcConfig := oiv_OIDCConfig in
  oauthState ← NewOAuthState;
  let scopes := ["openid"; "email"; "profile"; "groups"] in
  let scopes := if oc_OfflineAccessAsScope oidcConfig then scopes ++ ["offline_access"] else scopes in
  let redirectURI := getRequestBaseURL r +:+ callbackPath in
  let oauthState := os_with_redirect redirectURI oauthState in
  let authURL := oiv_AuthCodeURL (os_State oauthState) (oc_OfflineAccessAsScope oidcConfig) redirectURI
                   (os_CodeVerifier oauthState) (os_Nonce oauthState) scopes in
  w ← orElse (SetOAuthStateCookie newResponse oauthStateCookieName "/" oauthState oauthStateCookieMaxAge
                (oc_CookieSecureMode oidcConfig))
        (fun err => http_Error ("failed to encode state cookie: " +:+ Error err) 500 newResponse);
  mret (http_Redirect authURL 303 w).

(** The landing page of the user; an error is only logged. *)
Definition landingPage (found : error + User) : string :=
  match found with
  | inl _ => "/"
  | inr userInfo =>
      match user_Settings userInfo with
      | Some s =>
          if negb (is_empty (selectedProjectID s)) then
            if useClustersView s then "/projects/" +:+ selectedProjectID s +:+ "/clusters"
            else "/projects/" +:+ selectedProjectID s +:+ "/overview"
          else "/"
      | None => "/"
      end
  end.

Definition callbackHandler (r : Request) : M W ResponseWriter ResponseWriter :=
  let oidcConfig := oiv_OIDCConfig in
  let secure := oc_CookieSecureMode oidcConfig in
  (* 1. Extract state and code from query params. *)
  let state := req_Query r "state" in
  let code := req_Query r "code" in
  let w := newResponse in
  _ ← throwIf (is_empty state || is_empty code) (http_Error "missing state or code parameter" 400 w);
  (* 2. Read and decode the _oauth_state cookie. *)
  storedState ← orElse (GetOAuthStateCookie r oauthStateCookieName) (fun err => http_Error (Error err) 400 w);
  (* 3. CSRF check. *)
  _ ← throwIf (bool_decide (os_State storedState <> state)) (http_Error "state mismatch" 400 w);
  let w := ClearOAuthStateCookie w oauthStateCookieName "/" secure in
  (* 4. Exchange authorization code for tokens. *)
  let redirectURI := if is_empty (os_RedirectURI storedState) then getCallbackURI r
                     else os_RedirectURI storedState in
  oidcTokens ← orElse (oiv_Exchange code redirectURI (os_CodeVerifier storedState))
                 (fun _ => http_Error "failed to exchange code for tokens" 500 w);
  (* 5. Verify id_token and check email claim. *)
  claims ← orElse (oiv_Verify (tok_IDToken oidcTokens)) (fun _ => http_Error "failed to verify id_token" 500 w);
  _ ← throwIf (bool_decide (claims_Nonce claims <> os_Nonce storedState)) (http_Error "nonce mismatch" 400 w);
  _ ← throwIf (is_empty (claims_Email claims)) (http_Error "email claim is missing from id_token" 400 w);
  (* 6. Set id_token cookie with Max-Age matching the token's expiry. *)
  t ← readClock;
  let tokenMaxAge := until_seconds t (claims_Expiry claims) in
  _ ← throwIf (bool_decide (tokenMaxAge <= 0)%Z) (http_Error "received an already expired id_token" 500 w);
  let w := clearAuthCookies w r secure in
  match setIDToken w (tok_IDToken oidcTokens) tokenMaxAge secure with
  | None => panic
  | Some w =>
      (* 7. Set refresh_token cookie (if present). *)
      let w := setRefreshToken w (tok_RefreshToken oidcTokens) secure in
      (* 8. Redirect to frontend landing page. *)
      found ← orElse (attempt (users_UserByEmail (claims_Email claims))) (fun _ => w);
      mret (http_Redirect (landingPage found) 303 w)
  end.

Definition refreshHandler (r : Request) : M W ResponseWriter ResponseWriter :=
  let oidcConfig := oiv_OIDCConfig in
  let secure := oc_CookieSecureMode oidcConfig in
  let cleared := clearAuthCookies newResponse r secure in
  (* 1. Read refresh_token from cookie. *)
  refreshCookie ← orElse (lift (req_Cookie r refreshTokenCookieName))
                    (fun _ => http_Error "missing refresh_token cookie" 401 cleared);
  (* 2. Refresh tokens. *)
  oidcTokens ← orElse (oiv_RefreshAccessToken refreshCookie)
                 (fun _ => http_Error "token refresh failed" 401 cleared);
  (* 3. Verify new id_token. *)
  claims ← orElse (oiv_Verify (tok_IDToken oidcTokens))
             (fun _ => http_Error "failed to verify refreshed id_token" 401 cleared);
  _ ← throwIf (is_empty (claims_Email claims))
        (http_Error "email claim is missing from refreshed id_token" 401 cleared);
  (* 4. Set new id_token cookie with Max-Age matching the token's expiry. *)
  t ← readClock;
  let tokenMaxAge := until_seconds t (claims_Expiry claims) in
  _ ← throwIf (bool_decide (tokenMaxAge <= 0)%Z)
        (http_Error "received an already expired id_token from refresh" 401 cleared);
  match setIDToken cleared (tok_IDToken oidcTokens) tokenMaxAge secure with
  | None => panic
  | Some w =>
      (* 5. Set new refresh_token cookie (if rotated). *)
      let w := setRefreshToken w (tok_RefreshToken oidcTokens) secure in
      mret (http_JSON (authStatusResponse (Unix (claims_Expiry claims))) w)
  end.

Definition tokenExtractor : TokenExtractorFn :=
  combinedExtractor_Extract [cookieHeaderBearerTokenExtractor_Extract idTokenCookieName;
                             cookieHeaderBearerMultiTokenExtractor_Extract idTokenCookieName].

Definition logoutHandler (r : Request) : M W ResponseWriter ResponseWriter :=
  let w := clearAuthCookies newResponse r (oc_CookieSecureMode oiv_OIDCConfig) in
  tokenValue ← orElse (lift (tokenExtractor r)) (fun _ => http_Error "missing token cookie" 401 w);
  claims ← orElse (oiv_Verify tokenValue) (fun _ => http_Error "failed to verify id_token" 401 w);
  _ ← throwIf (is_empty (claims_Email claims)) (http_Error "email claim is missing from id_token" 500 w);
  userInfo ← orElse (users_UserByEmail (claims_Email claims)) (fun _ => http_Error "failed to get user info" 500 w);
  (* check for oidcLogoutURL *)
  kubermaticConfig ← orElse (attempt kubermaticConfigProvider) (fun _ => w);
  let redirectPath := match kubermaticConfig with
                      | inl _ => "/"
                      | inr uiConfig => getOIDCProviderLogoutURL uiConfig tokenValue (getRequestBaseURL r)
                      end in
  _ ← orElse (users_InvalidateToken (Some userInfo) tokenValue (claims_Expiry claims))
        (fun _ => http_Error "failed to invalidate token" 500 w);
  mret (http_JSON (redirectResponse redirectPath) w).

Definition statusHandler (r : Request) : M W ResponseWriter ResponseWriter :=
  match tokenExtractor r with
  | Ok tokenValue =>
      claims ← orElse (oiv_Verify tokenValue) (fun _ => http_Error "invalid token" 401 newResponse);
      mret (http_JSON (authStatusResponse (Unix (claims_Expiry claims))) newResponse)
  | _ => mret (http_JSON (authStatusResponse 0) newResponse)
  end.
End handlers.

(** ** The browser

    Its cookie jar: a cookie is known by name and path. The value that comes
    back is the one that was set without the bytes that [http.SetCookie] drops. *)

Abbreviation Jar := (gmap (string * string) string).

(** validCookieValueByte *)
Definition validCookieValueByte (c : ascii) : bool :=
  let n := nat_of_ascii c in
  (32 <=? n) && (n <? 127) && negb (n =? 34) && negb (n =? 59) && negb (n =? 92).
Definition transmitted (v : string) : string :=
  String.string_of_list_ascii (List.filter validCookieValueByte (String.list_ascii_of_string v)).

(** A cookie of the response is stored; a negative Max-Age removes it. *)
Definition jar_set (jar : Jar) (c : Cookie) : Jar :=
  if (ck_MaxAge c <? 0)%Z then delete (ck_Name c, ck_Path c) jar
  else <[ (ck_Name c, ck_Path c) := transmitted (ck_Value c) ]> jar.
Definition receive (jar : Jar) (w : ResponseWriter) : Jar := fold_left jar_set (rw_Cookies w) jar.

(** RFC 6265, 5.1.4: the path of the cookie is that of the request or a directory of it. *)
Definition path_matches (cookiePath path : string) : bool :=
  bool_decide (path = cookiePath) ||
  (HasPrefix path cookiePath &&
   (HasPrefix (drop_string (String.length cookiePath - 1) cookiePath) "/" ||
    HasPrefix (drop_string (String.length cookiePath) path) "/")).

(** The request of the browser for [path] carries the cookies whose path
    matches, in any order. *)
Definition sends (jar : Jar) (path : string) (r : Request) : Prop :=
  forall n v, (n, v) ∈ req_Cookies r <-> exists p, jar !! (n, p) = Some v /\ path_matches p path = true.

(** The names of the cookies of a session, and the paths they are set with. *)
Definition token_cookie (n : string) : bool :=
  bool_decide (n = idTokenCookieName) || HasPrefix n "token-".
Definition session_jar (jar : Jar) : Prop :=
  forall n p v, jar !! (n, p) = Some v ->
    (token_cookie n = true -> p = "/") /\ (n = refreshTokenCookieName -> p = "/api/v2/auth").
Definition signed_out (jar : Jar) : Prop :=
  forall n p, token_cookie n = true \/ n = refreshTokenCookieName -> jar !! (n, p) = None.

Section browser.
Implicit Types jar : Jar.

Lemma req_Cookie_sent jar path r n p0 :
  sends jar path r -> (forall p v, jar !! (n, p) = Some v -> p = p0) -> path_matches p0 path = true ->
  req_Cookie r n = match jar !! (n, p0) with
                   | Some v => Ok v
                   | None => Err (ENew "http: named cookie not present")
                   end.
Proof.
  intros Hs Hp Hm. unfold req_Cookie. destruct (List.find _ _) as [[n' v]|] eqn:E.
  - apply List_find_some in E as [Hin Hn%bool_decide_eq_true]. cbn in Hn. subst n'.
    apply Hs in Hin as (p & Hj & _). pose proof (Hp _ _ Hj) as ->. by rewrite Hj.
  - destruct (jar !! (n, p0)) as [v|] eqn:Ej; [|done].
    assert ((n, v) ∈ req_Cookies r) as Hin by (apply Hs; by exists p0).
    pose proof (List_find_none _ _ (n, v) E Hin) as H. by apply bool_decide_eq_false in H.
Qed.

Lemma receive_SetCookie jar c w : receive jar (http_SetCookie c w) = jar_set (receive jar w) c.
Proof. unfold receive. cbn. by rewrite fold_left_app. Qed.

Lemma receive_clear jar w n p secure :
  receive jar (clearNamedCookie w n p secure) = delete (n, p) (receive jar w).
Proof. apply receive_SetCookie. Qed.

Lemma receive_set jar w n v p maxAge secure : (0 <= maxAge)%Z ->
  receive jar (setNamedCookie w n v p maxAge secure) = <[ (n, p) := transmitted v ]> (receive jar w).
Proof.
  intros Hm. unfold setNamedCookie. rewrite receive_SetCookie. unfold jar_set. cbn.
  by rewrite (proj2 (Z.ltb_ge maxAge 0)).
Qed.

Lemma transmitted_id v : forallb validCookieValueByte (String.list_ascii_of_string v) = true -> transmitted v = v.
Proof.
  intros Hv. unfold transmitted. rewrite <- (String.string_of_list_ascii_of_string v) at 2. f_equal.
  induction (String.list_ascii_of_string v) as [|c l IH]; [done|]. cbn in *.
  apply andb_true_iff in Hv as [-> Hl]. by rewrite IH.
Qed.

(** Clearing the cookies of a session: the requests to any path of the API carry
    all chunks, so that none stays. *)
Lemma receive_cleared_chunks jar (cookies : list (string * string)) w secure n p :
  receive jar (fold_left (fun w c => if HasPrefix c.1 "token-" then clearNamedCookie w c.1 "/" secure else w)
                 cookies w) !! (n, p) =
  if HasPrefix n "token-" && bool_decide (n ∈ cookies.*1) && bool_decide (p = "/")
  then None else receive jar w !! (n, p).
Proof.
  revert w. induction cookies as [|[n' v] cookies IH]; intros w; cbn [fold_left].
  { by rewrite andb_false_r. }
  rewrite IH. cbn [fst fmap list_fmap]. destruct (HasPrefix n "token-") eqn:Hn; cbn [andb].
  2: { destruct (HasPrefix n' "token-") eqn:Hn'; [|done]. rewrite receive_clear.
       apply lookup_delete_ne. intros [= E1 E2]. congruence. }
  destruct (decide (n' = n)) as [->|Hne].
  - rewrite Hn, receive_clear. rewrite (bool_decide_true (n ∈ n :: _)) by set_solver. cbn [andb].
    destruct (decide (p = "/")) as [->|Hp].
    + rewrite (bool_decide_true ("/" = "/")) by done. rewrite andb_true_r.
      case_bool_decide; [done|]. apply lookup_delete_eq.
    + rewrite (bool_decide_false (p = "/")) by done. rewrite andb_false_r.
      apply lookup_delete_ne. intros [= E]. congruence.
  - assert (receive jar (if HasPrefix n' "token-" then clearNamedCookie w n' "/" secure else w) !! (n, p)
            = receive jar w !! (n, p)) as ->.
    { destruct (HasPrefix n' "token-"); [|done]. rewrite receive_clear. apply lookup_delete_ne. naive_solver. }
    rewrite (bool_decide_ext (n ∈ n' :: cookies.*1) (n ∈ cookies.*1)) by set_solver. done.
Qed.

Lemma clearAuthCookies_signs_out jar path r w secure :
  session_jar jar -> sends jar path r -> path_matches "/" path = true ->
  (forall n p, receive jar w !! (n, p) = None \/ receive jar w !! (n, p) = jar !! (n, p)) ->
  signed_out (receive jar (clearAuthCookies w r secure)).
Proof.
  intros Hj Hs Hm Hw n p Hn. unfold clearAuthCookies.
  change (idTokenCookieName +:+ "-") with "token-". rewrite receive_cleared_chunks, !receive_clear.
  assert (forall v, receive jar w !! (n, p) = Some v -> jar !! (n, p) = Some v) as Hsome.
  { intros v Hv. destruct (Hw n p) as [E|E]; congruence. }
  destruct (_ && _) eqn:Ec; [done|].
  destruct (delete _ (delete _ _) !! (n, p)) as [v|] eqn:E; [exfalso|done].
  apply lookup_delete_Some in E as [Hne1 E]. apply lookup_delete_Some in E as [Hne2 E].
  apply Hsome in E. destruct (Hj _ _ _ E) as [Htok Href]. destruct Hn as [Hn| ->].
  - pose proof (Htok Hn) as ->. unfold token_cookie in Hn. apply orb_true_iff in Hn as [->%bool_decide_eq_true|Hn].
    + by apply Hne2.
    + rewrite Hn, bool_decide_true in Ec.
      * by rewrite bool_decide_true in Ec.
      * apply list_elem_of_fmap. exists (n, v). split; [done|]. apply Hs. by exists "/".
  - by apply Hne1; rewrite Href.
Qed.

(** Every cookie of a response is set where the session expects it. *)
Definition session_cookie (c : Cookie) : Prop :=
  (token_cookie (ck_Name c) = true -> ck_Path c = "/") /\
  (ck_Name c = refreshTokenCookieName -> ck_Path c = "/api/v2/auth").

Lemma receive_session jar w :
  session_jar jar -> Forall session_cookie (rw_Cookies w) -> session_jar (receive jar w).
Proof.
  unfold receive. intros Hj Hc. revert jar Hj. induction Hc as [|c l Hc Hl IH]; intros jar Hj; [done|].
  cbn [fold_left]. apply IH. intros n p v. unfold jar_set. destruct (ck_MaxAge c <? 0)%Z.
  - intros [_ H]%lookup_delete_Some. exact (Hj _ _ _ H).
  - intros [[[= <- <-] _]|[_ H]]%lookup_insert_Some; [exact Hc|exact (Hj _ _ _ H)].
Qed.

Lemma clearAuthCookies_session w r secure :
  Forall session_cookie (rw_Cookies w) -> Forall session_cookie (rw_Cookies (clearAuthCookies w r secure)).
Proof.
  intros Hw. unfold clearAuthCookies. change (idTokenCookieName +:+ "-") with "token-".
  assert (Forall session_cookie (rw_Cookies (clearNamedCookie (clearNamedCookie w idTokenCookieName "/" secure)
    refreshTokenCookieName "/api/v2/auth" secure))) as H.
  { cbn. rewrite <- (assoc_L (++)). apply Forall_app_2; [done|]. by repeat constructor. }
  revert H. generalize (clearNamedCookie (clearNamedCookie w idTokenCookieName "/" secure)
    refreshTokenCookieName "/api/v2/auth" secure). clear.
  induction (req_Cookies r) as [|[n v] l IH]; intros w Hw; [done|]. cbn [fold_left]. apply IH.
  cbn [fst]. destruct (HasPrefix n "token-") eqn:E; [|done]. cbn. apply Forall_app_2; [done|].
  constructor; [|done]. split; [done|]. cbn. by intros ->.
Qed.

Lemma setNamedCookie_session w n v p maxAge secure :
  (token_cookie n = true -> p = "/") -> (n = refreshTokenCookieName -> p = "/api/v2/auth") ->
  Forall session_cookie (rw_Cookies w) -> Forall session_cookie (rw_Cookies (setNamedCookie w n v p maxAge secure)).
Proof. intros Ht Hr Hw. cbn. apply Forall_app_2; [done|]. by repeat constructor. Qed.

Lemma chunk_name_token i : HasPrefix (cookie_name idTokenCookieName i) "token-" = true.
Proof. unfold cookie_name. rewrite <- string_app_assoc. apply (HasPrefix_app "token-"). Qed.
Lemma chunk_name_not_token i : cookie_name idTokenCookieName i <> idTokenCookieName.
Proof. unfold cookie_name. intros H. apply (f_equal String.length) in H. rewrite !string_length_app in H. cbn in H. lia. Qed.

Lemma setChunks_session w i chunks maxAge secure :
  Forall session_cookie (rw_Cookies w) -> Forall session_cookie (rw_Cookies (setChunks w i chunks maxAge secure)).
Proof.
  revert w i. induction chunks as [|c chunks IH]; intros w i Hw; [done|]. cbn [setChunks]. apply IH.
  fold (cookie_name idTokenCookieName (i + 1)). apply setNamedCookie_session; [done| |done].
  intros E. pose proof (chunk_name_token (i + 1)) as H. by rewrite E in H.
Qed.

(** What the chunks leave in the jar. *)
Lemma receive_setChunks jar w i chunks maxAge secure n p : (0 <= maxAge)%Z ->
  (forall k c, chunks !! k = Some c -> n = cookie_name idTokenCookieName (i + 1 + N.of_nat k) -> p = "/" ->
     receive jar (setChunks w i chunks maxAge secure) !! (n, p) = Some (transmitted c)) /\
  ((forall k, (k < length chunks)%nat -> (n, p) <> (cookie_name idTokenCookieName (i + 1 + N.of_nat k), "/")) ->
     receive jar (setChunks w i chunks maxAge secure) !! (n, p) = receive jar w !! (n, p)).
Proof.
  intros Hm. revert w i. induction chunks as [|c chunks IH]; intros w i; [done|]. cbn [setChunks].
  fold (cookie_name idTokenCookieName (i + 1)). destruct (IH (setNamedCookie w (cookie_name idTokenCookieName (i + 1)) c "/" maxAge secure) (i + 1)%N) as [IH1 IH2].
  split.
  - intros [|k] c' Hk Hn Hp.
    + injection Hk as <-. rewrite N.add_0_r in Hn. subst n p. rewrite IH2; [|].
      * rewrite receive_set by done. apply lookup_insert_eq.
      * intros k _ E%(f_equal fst). apply (cookie_name_inj idTokenCookieName) in E. lia.
    + apply (IH1 k); [done| |done]. rewrite Hn. f_equal. lia.
  - intros H. rewrite IH2.
    + rewrite receive_set by done. apply lookup_insert_ne. intros E. apply (H 0%nat); [cbn; lia|].
      rewrite N.add_0_r. by rewrite E.
    + intros k Hk E. apply (H (S k)); [cbn; lia|]. rewrite E. do 2 f_equal. lia.
Qed.
End browser.

(** ** Splitting a token *)

Lemma substring_drop i n s :
  String.substring i n s +:+ drop_string (i + n) s = drop_string i s.
Proof.
  revert i n. induction s as [|c s IH]; intros [|i] [|n]; try done.
  - change (String c (String.substring 0 n s +:+ drop_string (0 + n) s) = String c s). f_equal. apply (IH 0%nat n).
  - apply (IH i 0%nat).
  - apply (IH i (S n)).
Qed.
Lemma length_substring i n s : i + n <= String.length s -> String.length (String.substring i n s) = n.
Proof.
  revert i n. induction s as [|c s IH]; intros [|i] [|n] H; cbn in *; try lia.
  - f_equal. apply (IH 0%nat). lia.
  - apply IH. lia.
  - apply IH. lia.
Qed.
Lemma drop_string_all n s : String.length s <= n -> drop_string n s = "".
Proof. revert s. induction n as [|n IH]; intros [|c s] H; cbn in *; try done; [lia|]. apply IH. lia. Qed.

Lemma chunkLoop_spec token size fuel i acc :
  0 < size -> String.length token - i < fuel ->
  exists l, chunkLoop fuel token size i acc = Some (acc ++ l) /\
    String.concat "" l = drop_string i token /\
    Forall (fun c => 1 <= String.length c <= size) l /\
    length l = (String.length token - i + (size - 1)) / size.
Proof.
  intros Hs. revert i acc. induction fuel as [|fuel IH]; intros i acc Hf; cbn [chunkLoop]; [lia|].
  destruct (Nat.ltb_spec i (String.length token)) as [Hi|Hi].
  2: { exists []. split_and!; [by rewrite app_nil_r|by rewrite drop_string_all|done|].
       replace (String.length token - i + (size - 1)) with (size - 1) by lia. by rewrite Nat.div_small by lia. }
  set (chunk := String.substring i _ token).
  destruct (IH (i + size) (acc ++ [chunk]) ltac:(lia)) as (l & -> & Hl & Hc & Hn).
  assert (chunk +:+ drop_string (i + size) token = drop_string i token /\
          String.length chunk = Nat.min size (String.length token - i)) as [Happ Hlen].
  { subst chunk. destruct (Nat.ltb_spec (String.length token) (i + size)) as [Hlt|Hge].
    - rewrite (drop_string_all (i + size)) by lia. rewrite length_substring by lia. split; [|lia].
      rewrite <- (substring_drop i (String.length token - i) token).
      by rewrite (drop_string_all (i + (String.length token - i))) by lia.
    - replace (i + size - i) with size by lia. rewrite length_substring by lia.
      split; [apply substring_drop|lia]. }
  exists (chunk :: l). split_and!.
  - by rewrite <- (assoc_L (++)).
  - rewrite <- Happ, <- Hl. destruct l; [|done]. 
    change (String.concat "" [chunk]) with chunk. by rewrite string_app_nil.
  - constructor; [lia|done].
  - cbn [length]. rewrite Hn.
    replace (String.length token - i + (size - 1)) with (1 * size + (String.length token - i - 1)) by lia.
    rewrite Nat.div_add_l by lia. f_equal.
    destruct (Nat.ltb_spec (String.length token - i) size) as [Hlt|Hge].
    + replace (String.length token - (i + size) + (size - 1)) with (size - 1) by lia.
      rewrite !Nat.div_small by lia. done.
    + f_equal. lia.
Qed.

Lemma chunkString_some token size : 0 < size ->
  exists l, chunkString token size = Some l /\ String.concat "" l = token /\
    Forall (fun c => 1 <= String.length c <= size) l /\
    length l = (String.length token + (size - 1)) / size.
Proof.
  intros Hs. destruct (chunkLoop_spec token size (S (String.length token)) 0 []) as (l & Hl & Hc & Hb & Hn);
    [done|lia|]. exists l. rewrite Nat.sub_0_r in Hn. split_and!; [exact Hl|exact Hc|done|done].
Qed.

(** ** A session in the jar *)

Definition valid_value (v : string) : Prop :=
  forallb validCookieValueByte (String.list_ascii_of_string v) = true.

(** The jar holds the token, whole or in chunks that follow each other. *)
Definition signed_in (jar : Jar) (token : string) : Prop :=
  session_jar jar /\
  (jar !! (idTokenCookieName, "/") = Some token \/
   jar !! (idTokenCookieName, "/") = None /\ token <> "" /\
   exists chunks, String.concat "" chunks = token /\
     (forall k c, chunks !! k = Some c -> jar !! (cookie_name idTokenCookieName (1 + N.of_nat k), "/") = Some c) /\
     jar !! (cookie_name idTokenCookieName (1 + N.of_nat (length chunks)), "/") = None).

Lemma list_ascii_concat l :
  String.list_ascii_of_string (String.concat "" l) = l ≫= String.list_ascii_of_string.
Proof.
  induction l as [|s [|t l] IH]; [done| |].
  - cbn [String.concat mbind list_bind]. by rewrite app_nil_r.
  - change (String.concat "" (s :: t :: l)) with (s +:+ String.concat "" (t :: l)).
    cbn [mbind list_bind] in *. rewrite <- IH. clear IH. induction s as [|c s IHs]; [done|].
    change (String c s +:+ ?x) with (String c (s +:+ x)). cbn. f_equal. exact IHs.
Qed.
Lemma valid_concat l c : valid_value (String.concat "" l) -> c ∈ l -> valid_value c.
Proof.
  unfold valid_value. rewrite list_ascii_concat, !forallb_forall. intros Hv Hc x Hx. apply Hv.
  apply list_elem_of_In, list_elem_of_bind. exists c. split; [by apply list_elem_of_In|done].
Qed.

Section session.
Implicit Types jar : Jar.

Lemma setIDToken_some w token maxAge secure : exists w', setIDToken w token maxAge secure = Some w'.
Proof.
  unfold setIDToken. destruct (_ <=? _); [by eexists|].
  destruct (chunkString_some token maxCookieSize) as (l & -> & _); [unfold maxCookieSize; lia|]. by eexists.
Qed.

Lemma setIDToken_session w w' token maxAge secure :
  setIDToken w token maxAge secure = Some w' ->
  Forall session_cookie (rw_Cookies w) -> Forall session_cookie (rw_Cookies w').
Proof.
  unfold setIDToken. destruct (_ <=? _).
  - intros [= <-] Hw. by apply setNamedCookie_session.
  - intros (chunks & _ & ->)%fmap_Some Hw. by apply setChunks_session.
Qed.

(** From a jar without cookies of a session: the cookies of the token are the
    only ones of a session in it. *)
Lemma setIDToken_signs_in jar w w' token maxAge secure :
  (0 <= maxAge)%Z -> valid_value token -> signed_out (receive jar w) -> session_jar (receive jar w') ->
  setIDToken w token maxAge secure = Some w' -> signed_in (receive jar w') token.
Proof.
  intros Hm Hv Hout Hs Hset. split; [exact Hs|]. revert Hset. unfold setIDToken.
  destruct (Nat.leb_spec (String.length token) maxCookieSize) as [Hle|Hgt].
  - intros [= <-]. left. rewrite receive_set by done. by rewrite lookup_insert_eq, transmitted_id.
  - destruct (chunkString_some token maxCookieSize) as (l & -> & Hl & Hb & Hn); [unfold maxCookieSize; lia|].
    intros [= <-]. right. split_and!.
    + destruct (receive_setChunks jar w 0 l maxAge secure idTokenCookieName "/" Hm) as [_ ->].
      * apply Hout. by left.
      * intros k _ E%(f_equal fst). by apply symmetry, chunk_name_not_token in E.
    + intros ->. cbn in Hgt. lia.
    + exists l. split_and!; [done| |].
      * intros k c Hk. rewrite <- (transmitted_id c).
        2: { eapply valid_concat; [by rewrite Hl|by eapply list_elem_of_lookup_2]. }
        by apply (proj1 (receive_setChunks jar w 0 l maxAge secure (cookie_name idTokenCookieName
          (1 + N.of_nat k)) "/" Hm) k c).
      * destruct (receive_setChunks jar w 0 l maxAge secure (cookie_name idTokenCookieName
          (1 + N.of_nat (length l))) "/" Hm) as [_ ->].
        -- apply Hout. left. unfold token_cookie. by rewrite chunk_name_token, orb_true_r.
        -- intros k Hk E%(f_equal fst). apply (cookie_name_inj idTokenCookieName) in E. lia.
Qed.

Lemma multiTokenLoop_chunks name r chunks fuel i acc t :
  (forall k c, chunks !! k = Some c -> req_Cookie r (cookie_name name (i + N.of_nat k)) = Ok c) ->
  (exists e, req_Cookie r (cookie_name name (i + N.of_nat (length chunks))) = Err e) ->
  multiTokenLoop fuel name r i acc = Some t -> t = acc +:+ String.concat "" chunks.
Proof.
  revert i acc fuel. induction chunks as [|c chunks IH]; intros i acc [|fuel] Hc [e He];
    cbn [multiTokenLoop]; try done; fold (cookie_name name i).
  - rewrite N.add_0_r in He. rewrite He. intros [= <-]. by rewrite string_app_nil.
  - pose proof (Hc 0%nat c eq_refl) as H0. rewrite N.add_0_r in H0. rewrite H0.
    intros ->%IH.
    + rewrite string_app_assoc. f_equal. destruct chunks; [|done]. apply string_app_nil.
    + intros k c' Hk. specialize (Hc (S k) c' Hk). by replace (i + 1 + N.of_nat k)%N with (i + N.of_nat (S k))%N by lia.
    + exists e. cbn [length] in He. by replace (i + 1 + N.of_nat (length chunks))%N
        with (i + N.of_nat (S (length chunks)))%N by lia.
Qed.

Lemma session_cookie_lookup jar path r n :
  session_jar jar -> sends jar path r -> path_matches "/" path = true -> token_cookie n = true ->
  req_Cookie r n = match jar !! (n, "/") with
                   | Some v => Ok v
                   | None => Err (ENew "http: named cookie not present")
                   end.
Proof.
  intros Hj Hs Hm Hn. eapply req_Cookie_sent; [exact Hs| |done].
  intros p v Hv. exact (proj1 (Hj _ _ _ Hv) Hn).
Qed.

(** Every request of a signed-in browser carries the token. *)
Lemma signed_in_extracts jar path r token :
  signed_in jar token -> sends jar path r -> path_matches "/" path = true -> tokenExtractor r = Ok token.
Proof.
  intros [Hj Hin] Hs Hm. unfold tokenExtractor, combinedExtractor_Extract.
  assert (forall n, token_cookie n = true -> req_Cookie r n = match jar !! (n, "/") with
     | Some v => Ok v | None => Err (ENew "http: named cookie not present") end) as Hck
    by (intros; by eapply session_cookie_lookup).
  unfold cookieHeaderBearerTokenExtractor_Extract.
  pose proof (Hck idTokenCookieName eq_refl) as H1. change idTokenCookieName with "token" in H1 at 1.
  rewrite H1. destruct Hin as [->|(-> & Hne & chunks & Hc & Hk & Hend)]; [done|].
  unfold cookieHeaderBearerMultiTokenExtractor_Extract.
  assert (forall i, token_cookie (cookie_name idTokenCookieName i) = true) as Htok
    by (intros i; unfold token_cookie; by rewrite chunk_name_token, orb_true_r).
  destruct (multiTokenLoop _ _ _ _ _) as [t|] eqn:E; [|by apply multiTokenLoop_total in E].
  apply (multiTokenLoop_chunks _ _ chunks) in E.
  - change ("" +:+ ?x) with x in E. subst t. rewrite Hc. rewrite bool_decide_false; [done|].
    by destruct token.
  - intros k c Hkc. rewrite Hck by done. by rewrite (Hk _ _ Hkc).
  - eexists. rewrite Hck by done. by rewrite Hend.
Qed.

(** A signed-out browser sends no token. *)
Lemma signed_out_extracts jar path r :
  session_jar jar -> signed_out jar -> sends jar path r -> path_matches "/" path = true ->
  exists e, tokenExtractor r = Err e.
Proof.
  intros Hj Hout Hs Hm.
  assert (forall n, token_cookie n = true -> req_Cookie r n = Err (ENew "http: named cookie not present")) as Hck.
  { intros n Hn. rewrite (session_cookie_lookup jar path r n) by done. by rewrite (Hout n "/" (or_introl Hn)). }
  unfold tokenExtractor, combinedExtractor_Extract, cookieHeaderBearerTokenExtractor_Extract.
  rewrite (Hck "token" eq_refl).
  unfold cookieHeaderBearerMultiTokenExtractor_Extract.
  destruct (multiTokenLoop _ _ _ _ _) as [t|] eqn:E; [|by apply multiTokenLoop_total in E].
  apply (multiTokenLoop_chunks _ _ []) in E; [|done|].
  - subst t. eexists. done.
  - eexists. apply Hck. unfold token_cookie. by rewrite chunk_name_token, orb_true_r.
Qed.
End session.

(** ** What the handlers do *)

(** Some run of the call answers [a]. *)
Definition answers {W E A} (m : M W E A) (a : A) : Prop := exists w w', m w = (Ok a, w').

Lemma runs_orElse {W A} (m : M W error A) f w (Q : result ResponseWriter A -> W -> Prop) :
  (forall e w1, m w = (Err e, w1) -> Q (Err (f e)) w1) ->
  (forall w1, m w = (Panic, w1) -> Q Panic w1) ->
  (forall a w1, m w = (Ok a, w1) -> Q (Ok a) w1) -> runs (orElse m f) w Q.
Proof. unfold runs, orElse. destruct (m w) as [[a|e|] w1]; cbn; eauto. Qed.

(** The next call of a handler that answers an error of its own. *)
Ltac else_step :=
  apply runs_bind, runs_orElse; [intros ? ? ?; cbn [andThen]|intros ? ?; cbn [andThen]|
    intros ? ? ?; cbn [andThen]].

Section handlers_proofs.
Context {W : Type} {EL : ErrorLib} {API : KubeAPI W} {USERS : UserProvider W} {RND : OAuthRandom W}
        {SEC : SecureCookie W} {V : OIDCIssuerVerifier W} {IP : IPAddr}.
Implicit Types w : W.

Lemma readClock_runs w (Q : result ResponseWriter time -> W -> Prop) :
  (forall t w1, now w = (Ok t, w1) -> Q (Ok t) w1) -> (forall w1, Q Panic w1) -> runs readClock w Q.
Proof. unfold runs, readClock. destruct (now w) as [[t|e|] w1]; cbn; eauto. Qed.

(** The uri that the code exchange repeats. *)
Definition exchange_uri (r : Request) (stored : OAuthState) : string :=
  if is_empty (os_RedirectURI stored) then getCallbackURI r else os_RedirectURI stored.

(** The checks of a callback, in the order of the calls: what the provider
    answered belongs to the login the browser started. *)
Record callback_run (r : Request) w (stored : OAuthState) (tokens : OIDCToken) (claims : TokenClaims)
    (t : time) w4 : Prop := {
  cb_state : req_Query r "state" <> "";
  cb_code : req_Query r "code" <> "";
  cb_csrf : os_State stored = req_Query r "state";
  cb_calls : exists w1 w2 w3,
    GetOAuthStateCookie r oauthStateCookieName w = (Ok stored, w1) /\
    oiv_Exchange (req_Query r "code") (exchange_uri r stored) (os_CodeVerifier stored) w1 = (Ok tokens, w2) /\
    oiv_Verify (tok_IDToken tokens) w2 = (Ok claims, w3) /\ now w3 = (Ok t, w4);
  cb_nonce : claims_Nonce claims = os_Nonce stored;
  cb_email : claims_Email claims <> "";
  cb_fresh : (0 < until_seconds t (claims_Expiry claims))%Z }.

(** The cookies of an accepted callback. *)
Definition callback_cookies (r : Request) (tokens : OIDCToken) (claims : TokenClaims) (t : time)
    (resp : ResponseWriter) : Prop :=
  let secure := oc_CookieSecureMode oiv_OIDCConfig in
  exists rw,
    setIDToken (clearAuthCookies (ClearOAuthStateCookie newResponse oauthStateCookieName "/" secure) r secure)
      (tok_IDToken tokens) (until_seconds t (claims_Expiry claims)) secure = Some rw /\
    rw_Cookies resp = rw_Cookies (setRefreshToken rw (tok_RefreshToken tokens) secure).

(** A response that has set nothing but the expired state cookie. *)
Definition refusal (resp : ResponseWriter) : Prop :=
  (400 <= rw_Status resp)%Z /\
  (rw_Cookies resp = [] \/
   rw_Cookies resp = [oauthStateCookie oauthStateCookieName "" "/" (-1) (oc_CookieSecureMode oiv_OIDCConfig)]).

Lemma callbackHandler_spec (selectedProjectID : string -> string) (useClustersView : string -> bool) r w :
  runs (callbackHandler selectedProjectID useClustersView r) w (fun res _ =>
    match res with
    | Ok resp => exists stored tokens claims t w4, callback_run r w stored tokens claims t w4 /\
        rw_Status resp = 303%Z /\ callback_cookies r tokens claims t resp
    | Err resp => refusal resp
    | Panic => True
    end).
Proof.
  unfold callbackHandler. runs_guard; [by split; [|left]|].
  match goal with H : _ || _ = false |- _ => apply orb_false_iff in H as [Hst%is_empty_false Hco%is_empty_false] end.
  else_step; [by split; [|left]|done|]. rename a into stored. runs_guard; [by split; [|left]|].
  match goal with H : bool_decide _ = false |- _ => apply bool_decide_eq_false, dec_stable in H as Hcsrf end.
  else_step; [by split; [|right]|done|]. rename a into tokens.
  else_step; [by split; [|right]|done|]. rename a into claims.
  runs_guard; [by split; [|right]|].
  match goal with H : bool_decide (claims_Nonce _ <> _) = false |- _ => apply bool_decide_eq_false, dec_stable in H as Hnonce end.
  runs_guard; [by split; [|right]|].
  match goal with H : is_empty (claims_Email _) = false |- _ => apply is_empty_false in H as Hemail end.
  apply runs_bind, readClock_runs; [|by intros]. intros t w4 Hnow. cbn [andThen].
  runs_guard; [by split; [|right]|].
  match goal with H : bool_decide (_ <= 0)%Z = false |- _ => apply bool_decide_eq_false in H as Hfresh end.
  destruct (setIDToken _ _ _ _) as [rw|] eqn:Eset; [|by apply runs_panic].
  apply runs_bind, runs_orElse.
  - intros e w5 H'. unfold attempt in H'. by destruct (users_UserByEmail _ _) as [[] ].
  - by intros.
  - intros found w5 _. cbn [andThen]. apply runs_ret. exists stored, tokens, claims, t, w4.
    split_and!; [split; try done; [by eexists _, _, _|lia]|done|]. by exists rw.
Qed.

(** ** The jar after a response *)

Lemma receive_ext jar rw rw' : rw_Cookies rw = rw_Cookies rw' -> receive jar rw = receive jar rw'.
Proof. unfold receive. by intros ->. Qed.

Lemma setRefreshToken_session rw refreshToken secure :
  Forall session_cookie (rw_Cookies rw) -> Forall session_cookie (rw_Cookies (setRefreshToken rw refreshToken secure)).
Proof. unfold setRefreshToken. destruct (negb _); [|done]. intros Hw. by apply setNamedCookie_session. Qed.

Lemma setRefreshToken_signed_in jar rw refreshToken secure token :
  signed_in (receive jar rw) token -> signed_in (receive jar (setRefreshToken rw refreshToken secure)) token.
Proof.
  unfold setRefreshToken. destruct (negb _); [|done]. intros [Hj Hin].
  rewrite receive_set by done. split.
  - intros n p v [[[= <- <-] _]|[_ H]]%lookup_insert_Some; [done|exact (Hj _ _ _ H)].
  - assert (forall n, token_cookie n = true ->
      <[(refreshTokenCookieName, "/api/v2/auth") := transmitted refreshToken]> (receive jar rw) !! (n, "/")
      = receive jar rw !! (n, "/")) as Hne by (intros n _; by rewrite lookup_insert_ne).
    assert (forall i, token_cookie (cookie_name idTokenCookieName i) = true) as Htok
      by (intros i; unfold token_cookie; by rewrite chunk_name_token, orb_true_r).
    destruct Hin as [Hin|(Hin & Hv & chunks & Hc & Hk & Hend)]; [left; by rewrite Hne|right].
    rewrite Hne by done. split_and!; [done|done|]. exists chunks. split_and!; [done| |by rewrite Hne].
    intros k c Hkc. rewrite Hne by done. by apply Hk.
Qed.

(** The cookies of a new token, set after the old ones were cleared. *)
Lemma new_session jar path r rw0 rw token refreshToken maxAge secure :
  session_jar jar -> sends jar path r -> path_matches "/" path = true ->
  Forall session_cookie (rw_Cookies rw0) ->
  (forall n p, receive jar rw0 !! (n, p) = None \/ receive jar rw0 !! (n, p) = jar !! (n, p)) ->
  (0 <= maxAge)%Z -> setIDToken (clearAuthCookies rw0 r secure) token maxAge secure = Some rw ->
  let jar' := receive jar (setRefreshToken rw refreshToken secure) in
  session_jar jar' /\ (valid_value token -> signed_in jar' token) /\
  jar' !! (refreshTokenCookieName, "/api/v2/auth") =
    (if is_empty refreshToken then None else Some (transmitted refreshToken)).
Proof.
  intros Hj Hs Hp Hrw0 Hkeep Hm Hset jar'.
  pose proof (clearAuthCookies_signs_out jar path r rw0 secure Hj Hs Hp Hkeep) as Hout.
  pose proof (clearAuthCookies_session rw0 r secure Hrw0) as Hcl.
  pose proof (setIDToken_session _ _ _ _ _ Hset Hcl) as Hrw.
  assert (session_jar jar') as Hjar by (apply receive_session, setRefreshToken_session; done).
  split_and!; [done| |].
  - intros Hv. apply setRefreshToken_signed_in. eapply setIDToken_signs_in; [exact Hm|exact Hv|exact Hout| |exact Hset].
    by apply receive_session.
  - assert (receive jar rw !! (refreshTokenCookieName, "/api/v2/auth") = None) as Hnone.
    { rewrite <- (Hout refreshTokenCookieName "/api/v2/auth" (or_intror eq_refl)). revert Hset. unfold setIDToken.
      destruct (_ <=? _).
      - intros [= <-]. rewrite receive_set by done. by rewrite lookup_insert_ne.
      - intros (chunks & _ & ->)%fmap_Some.
        destruct (receive_setChunks jar (clearAuthCookies rw0 r secure) 0 chunks maxAge secure
          refreshTokenCookieName "/api/v2/auth" Hm) as [_ ->]; [done|]. by intros k _ [=]. }
    subst jar'. unfold setRefreshToken. destruct (is_empty refreshToken); cbn [negb]; [done|].
    rewrite receive_set by done. apply lookup_insert_eq.
Qed.

Lemma state_cookie_keeps jar secure n p :
  let rw := ClearOAuthStateCookie newResponse oauthStateCookieName "/" secure in
  receive jar rw !! (n, p) = None \/ receive jar rw !! (n, p) = jar !! (n, p).
Proof.
  cbv zeta. unfold ClearOAuthStateCookie. rewrite receive_SetCookie. unfold jar_set. cbn.
  destruct (decide ((oauthStateCookieName, "/") = (n, p))) as [<-|Hne];
    [left; apply lookup_delete_eq|right; by apply lookup_delete_ne].
Qed.

Lemma callback_session jar path r tokens claims t resp :
  session_jar jar -> sends jar path r -> path_matches "/" path = true ->
  (0 < until_seconds t (claims_Expiry claims))%Z -> callback_cookies r tokens claims t resp ->
  session_jar (receive jar resp) /\
  (valid_value (tok_IDToken tokens) -> signed_in (receive jar resp) (tok_IDToken tokens)) /\
  receive jar resp !! (refreshTokenCookieName, "/api/v2/auth") =
    (if is_empty (tok_RefreshToken tokens) then None else Some (transmitted (tok_RefreshToken tokens))).
Proof.
  intros Hj Hs Hp Hm (rw & Hset & Hck). rewrite (receive_ext _ _ _ Hck).
  eapply new_session; [exact Hj|exact Hs|exact Hp| |apply state_cookie_keeps| |exact Hset].
  - by repeat constructor.
  - by apply Z.lt_le_incl.
Qed.

Lemma refusal_session jar resp : session_jar jar -> refusal resp ->
  session_jar (receive jar resp) /\
  forall n p, n <> oauthStateCookieName -> receive jar resp !! (n, p) = jar !! (n, p).
Proof.
  intros Hj [_ Hr]. split.
  - apply receive_session; [done|]. destruct Hr as [->| ->]; by repeat constructor.
  - intros n p Hn. unfold receive. destruct Hr as [->| ->]; [done|]. cbn. apply lookup_delete_ne. congruence.
Qed.

Lemma refreshHandler_spec r w :
  runs (refreshHandler r) w (fun res _ =>
    let secure := oc_CookieSecureMode oiv_OIDCConfig in
    match res with
    | Ok resp => exists refreshToken tokens claims t rw,
        req_Cookie r refreshTokenCookieName = Ok refreshToken /\
        answers (oiv_RefreshAccessToken refreshToken) tokens /\
        answers (oiv_Verify (tok_IDToken tokens)) claims /\ claims_Email claims <> "" /\
        (0 < until_seconds t (claims_Expiry claims))%Z /\
        setIDToken (clearAuthCookies newResponse r secure) (tok_IDToken tokens)
          (until_seconds t (claims_Expiry claims)) secure = Some rw /\
        rw_Cookies resp = rw_Cookies (setRefreshToken rw (tok_RefreshToken tokens) secure) /\
        rw_Status resp = rw_Status rw /\ rw_Body resp = authStatusResponse (Unix (claims_Expiry claims)) +:+ newline
    | Err resp => rw_Status resp = 401%Z /\ rw_Cookies resp = rw_Cookies (clearAuthCookies newResponse r secure)
    | Panic => True
    end).
Proof.
  unfold refreshHandler. else_step; [done|done|]. rename a into refreshToken.
  match goal with H : lift _ _ = _ |- _ => injection H as Hck _ end.
  else_step; [done|done|]. rename a into tokens. match goal with H : oiv_RefreshAccessToken _ _ = _ |- _ => rename H into Hr end.
  else_step; [done|done|]. rename a into claims. match goal with H : oiv_Verify _ _ = _ |- _ => rename H into Hv end.
  runs_guard; [done|].
  match goal with H : is_empty (claims_Email _) = false |- _ => apply is_empty_false in H as Hemail end.
  apply runs_bind, readClock_runs; [|by intros]. intros t w4 Hnow. cbn [andThen].
  runs_guard; [done|].
  match goal with H : bool_decide (_ <= 0)%Z = false |- _ => apply bool_decide_eq_false in H as Hfresh end.
  destruct (setIDToken _ _ _ _) as [rw|] eqn:Eset; [|by apply runs_panic]. apply runs_ret.
  exists refreshToken, tokens, claims, t, rw. split_and!; try done; try (by eexists _, _); [lia|].
  unfold setRefreshToken. by destruct (negb _).
Qed.

Context {IPL : IPAddrLaws IP} {ST : Store W} {ELL : ErrorLibLaws EL}.

(** The scheme and host a login returns to are those of the configuration (or of
    the request, without a usable one), or those of a configured redirect URL
    with the same origin as the request asks for. *)
Definition allowed_urls : list string :=
  match oiv_GetRedirectURI callbackPath with
  | Ok uri => uri :: oc_AdditionalRedirectURIs oiv_OIDCConfig
  | _ => oc_AdditionalRedirectURIs oiv_OIDCConfig
  end.
Definition trusted_base (r : Request) (base : string) : Prop :=
  base = getBaseURL r \/
  exists u a v, url_Parse (req_Query r "origin") = Ok u /\ only_origin u /\ a ∈ allowed_urls /\
    allows u a v /\ base = url_Scheme v +:+ "://" +:+ url_Host v.

Lemma getRequestBaseURL_trusted r : trusted_base r (getRequestBaseURL r).
Proof.
  unfold getRequestBaseURL. destruct (is_empty _); [by left|]. fold allowed_urls.
  pose proof (AllowedOrigin_spec (req_Query r "origin") allowed_urls) as H.
  destruct (AllowedOrigin _ _) as [o|e|]; [|by left|by left]. right.
  destruct H as (u & pre & a & post & v & Hu & Ho & Hl & Ha & -> & _). exists u, a, v.
  split_and!; try done. rewrite Hl. apply elem_of_app. right. apply elem_of_cons. by left.
Qed.

(** What the login puts into the cookie and into the URL of the provider. *)
Definition login_started (r : Request) (st : OAuthState) (encoded : string) (resp : ResponseWriter) : Prop :=
  let config := oiv_OIDCConfig in
  let scopes := ["openid"; "email"; "profile"; "groups"] ++
                (if oc_OfflineAccessAsScope config then ["offline_access"] else []) in
  answers (secCookie_Encode oauthStateCookieName st) encoded /\
  rw_Cookies resp = [oauthStateCookie oauthStateCookieName encoded "/" oauthStateCookieMaxAge
                       (oc_CookieSecureMode config)] /\
  rw_Redirect resp = Some (oiv_AuthCodeURL (os_State st) (oc_OfflineAccessAsScope config)
                       (os_RedirectURI st) (os_CodeVerifier st) (os_Nonce st) scopes) /\
  (exists base, trusted_base r base /\ os_RedirectURI st = base +:+ callbackPath) /\
  exists w1 w2 w3, os_State st = (rand_Text w1).1 /\ os_Nonce st = (rand_Text w2).1 /\
    os_CodeVerifier st = (GenerateVerifier w3).1.

Lemma loginHandler_spec r w :
  runs (loginHandler r) w (fun res _ =>
    match res with
    | Ok resp => rw_Status resp = 303%Z /\ exists st encoded, login_started r st encoded resp
    | Err resp => rw_Status resp = 500%Z /\ rw_Cookies resp = []
    | Panic => exists st w1 w2, secCookie_Encode oauthStateCookieName st w1 = (Panic, w2)
    end).
Proof.
  unfold loginHandler, NewOAuthState, SetOAuthStateCookie.
  repeat (apply runs_bind; apply runs_intro; intros ? ? [= <- <-]; cbn [andThen]).
  apply runs_bind, runs_orElse.
  - intros e w5 H. cbn [andThen]. done.
  - intros w5 H. cbn [andThen]. eexists _, _, w5. unfold mapErr, mbind, M_bind in H.
    destruct (secCookie_Encode _ _ _) as [[]] eqn:E; [done|done|]. injection H as <-. exact E.
  - intros rw w5 H. cbn [andThen]. apply runs_ret. split; [done|].
    unfold mapErr, mbind, M_bind in H. destruct (secCookie_Encode _ _ _) as [[enc| |]] eqn:E; [|done|done].
    injection H as <- <-. eexists _, enc. split_and!; [by eexists _, _|done| | |].
    + cbn. by destruct (oc_OfflineAccessAsScope oiv_OIDCConfig).
    + eexists. split; [apply getRequestBaseURL_trusted|done].
    + by eexists _, _, _.
Qed.

(** A callback that passes the checks is answered. *)
Lemma callback_accepts (selectedProjectID : string -> string) (useClustersView : string -> bool) r w stored tokens claims t w4 :
  callback_run r w stored tokens claims t w4 ->
  (forall email w0, (users_UserByEmail email w0).1 <> Panic) ->
  runs (callbackHandler selectedProjectID useClustersView r) w (fun res _ =>
    exists resp, res = Ok resp /\ rw_Status resp = 303%Z /\ callback_cookies r tokens claims t resp).
Proof.
  intros [Hst Hco Hcsrf (w1 & w2 & w3 & H1 & H2 & H3 & H4) Hn Hem Hfr] Hu. unfold callbackHandler.
  apply is_empty_false in Hst as Est, Hco as Eco, Hem as Eem. rewrite Est, Eco. cbn [orb].
  apply runs_bind, runs_throwIf; [done|]. intros _. cbn [andThen].
  apply runs_bind, runs_orElse; rewrite H1; [done|done|]. intros ? ? [= <- <-]. cbn [andThen].
  apply runs_bind, runs_throwIf; [by intros H%bool_decide_eq_true|]. intros _. cbn [andThen].
  fold (exchange_uri r stored).
  apply runs_bind, runs_orElse; rewrite H2; [done|done|]. intros ? ? [= <- <-]. cbn [andThen].
  apply runs_bind, runs_orElse; rewrite H3; [done|done|]. intros ? ? [= <- <-]. cbn [andThen].
  apply runs_bind, runs_throwIf; [by intros H%bool_decide_eq_true|]. intros _. cbn [andThen].
  rewrite Eem. apply runs_bind, runs_throwIf; [done|]. intros _. cbn [andThen].
  apply runs_bind. unfold runs, readClock. rewrite H4. cbn [fst snd andThen].
  apply runs_bind, runs_throwIf; [intros H%bool_decide_eq_true; lia|]. intros _. cbn [andThen].
  destruct (setIDToken_some (clearAuthCookies (ClearOAuthStateCookie newResponse oauthStateCookieName "/"
    (oc_CookieSecureMode oiv_OIDCConfig)) r (oc_CookieSecureMode oiv_OIDCConfig)) (tok_IDToken tokens)
    (until_seconds t (claims_Expiry claims)) (oc_CookieSecureMode oiv_OIDCConfig)) as [rw Hrw].
  rewrite Hrw. specialize (Hu (claims_Email claims) w4). apply runs_bind, runs_orElse; unfold attempt.
  - intros e w5. by destruct (users_UserByEmail _ _) as [[] ].
  - intros w5. by destruct (users_UserByEmail _ _) as [[] ].
  - intros found w5 _. cbn [andThen]. apply runs_ret. eexists. split; [done|]. split; [done|]. by exists rw.
Qed.

(** What a logout has done before it answers. *)
Lemma logoutHandler_spec (kubermaticConfigProvider : M W error string) r w :
  runs (logoutHandler kubermaticConfigProvider r) w (fun res _ =>
    match res with
    | Ok resp => exists token claims user redirect,
        tokenExtractor r = Ok token /\ answers (oiv_Verify token) claims /\ claims_Email claims <> "" /\
        answers (users_UserByEmail (claims_Email claims)) user /\
        answers (users_InvalidateToken (Some user) token (claims_Expiry claims)) tt /\
        (redirect = "/" \/ exists uiConfig, answers kubermaticConfigProvider uiConfig /\
           redirect = getOIDCProviderLogoutURL uiConfig token (getRequestBaseURL r)) /\
        resp = http_JSON (redirectResponse redirect)
                 (clearAuthCookies newResponse r (oc_CookieSecureMode oiv_OIDCConfig))
    | Err resp => (400 <= rw_Status resp)%Z /\
        rw_Cookies resp = rw_Cookies (clearAuthCookies newResponse r (oc_CookieSecureMode oiv_OIDCConfig))
    | Panic => True
    end).
Proof.
  unfold logoutHandler. else_step; [done|done|]. rename a into token.
  match goal with H : lift _ _ = _ |- _ => injection H as Htok _ end.
  else_step; [done|done|]. rename a into claims. match goal with H : oiv_Verify _ _ = _ |- _ => rename H into Hv end.
  runs_guard; [done|].
  match goal with H : is_empty (claims_Email _) = false |- _ => apply is_empty_false in H as Hemail end.
  else_step; [done|done|]. rename a into user. match goal with H : users_UserByEmail _ _ = _ |- _ => rename H into Hu end.
  apply runs_bind, runs_orElse; [|done|].
  { intros e w5 H'. unfold attempt in H'. by destruct (kubermaticConfigProvider _) as [[] ]. }
  intros found w5 Hcfg. cbn [andThen]. else_step; [done|done|]. apply runs_ret.
  destruct a. match goal with H : users_InvalidateToken _ _ _ _ = _ |- _ => rename H into Hinv end.
  eexists token, claims, user, _. split_and!; [done|by eexists _, _|done|by eexists _, _|by eexists _, _| |done].
  destruct found as [e|ui]; [by left|right]. exists ui. split; [|done].
  unfold attempt in Hcfg. destruct (kubermaticConfigProvider _) as [[] ] eqn:E; [|done|done].
  injection Hcfg as <- _. by eexists _, _.
Qed.

Lemma cleared_session jar path r resp :
  session_jar jar -> sends jar path r -> path_matches "/" path = true ->
  rw_Cookies resp = rw_Cookies (clearAuthCookies newResponse r (oc_CookieSecureMode oiv_OIDCConfig)) ->
  session_jar (receive jar resp) /\ signed_out (receive jar resp).
Proof.
  intros Hj Hs Hp Hc. rewrite (receive_ext _ _ _ Hc). split.
  - apply receive_session; [done|]. by apply clearAuthCookies_session.
  - eapply clearAuthCookies_signs_out; [done|done|done|]. intros n p. by right.
Qed.

(** The redirect after a logout keeps what the configured URL asks for. *)
Lemma logoutQuery_nonempty p token uri v :
  (forall k, v !! k <> Some []) -> forall k, logoutQuery p token uri v !! k <> Some [].
Proof.
  intros Hv. unfold logoutQuery. case_bool_decide; [|destruct (values_has _ _)];
    repeat apply values_set_nonempty; done.
Qed.
End handlers_proofs.

(** ** Properties *)

(** A token is split into pieces of at most the given size, none empty, as few
    as that allows, that follow each other in the token; the splitting ends. *)
Theorem chunkString_chunks token size : 0 < size ->
  exists l, chunkString token size = Some l /\ String.concat "" l = token /\
    Forall (fun c => 1 <= String.length c <= size) l /\
    length l = (String.length token + (size - 1)) / size.
Proof. apply chunkString_some. Qed.

(** A browser and the paths of the API it visits: the response of every handler
    is stored before the next request is sent. *)
Inductive visit {W} {EL : ErrorLib} {API : KubeAPI W} {USERS : UserProvider W} {RND : OAuthRandom W}
    {SEC : SecureCookie W} {V : OIDCIssuerVerifier W} {IP : IPAddr}
    (config : M W error string) (project : string -> string) (clusters : string -> bool)
    : Jar * W -> Jar * W -> Prop :=
| visits handler path r jar w resp res w' :
    In handler [loginHandler r; callbackHandler project clusters r; refreshHandler r;
                logoutHandler config r; statusHandler r] ->
    sends jar path r -> path_matches "/" path = true ->
    handler w = (res, w') -> (res = Ok resp \/ res = Err resp) ->
    visit config project clusters (jar, w) (receive jar resp, w').

Section properties.
Context {W : Type} {EL : ErrorLib} {API : KubeAPI W} {USERS : UserProvider W} {RND : OAuthRandom W}
        {SEC : SecureCookie W} {V : OIDCIssuerVerifier W} {IP : IPAddr} {IPL : IPAddrLaws IP}.
Implicit Types w : W.

(** C10: A session starts only for the login the browser has started: the callback sets
    cookies of a session only when the state of the request is the one in the
    signed cookie, the provider exchanged the code, with the verifier and the
    redirect of this login, for an ID token that verifies, carries the nonce of
    this login and an email, and has not expired. Otherwise the response is an
    error and at most expires the state cookie. *)
Theorem callback_guarded (selectedProjectID : string -> string) (useClustersView : string -> bool) r w :
  runs (callbackHandler selectedProjectID useClustersView r) w (fun res _ =>
    match res with
    | Ok resp => exists stored tokens claims t w4, callback_run r w stored tokens claims t w4 /\
        rw_Status resp = 303%Z /\ callback_cookies r tokens claims t resp
    | Err resp => refusal resp
    | Panic => True
    end).
Proof. apply callbackHandler_spec. Qed.

(** C11: When the checks pass, the callback signs the browser in: whatever cookies an
    older session has left, every later request of the browser carries the ID
    token, split over several cookies or not, and the requests for new tokens
    carry the refresh token. *)
Theorem callback_signs_in (selectedProjectID : string -> string) (useClustersView : string -> bool)
    jar r w stored tokens claims t w4 :
  session_jar jar -> sends jar callbackPath r -> callback_run r w stored tokens claims t w4 ->
  (forall email w0, (users_UserByEmail email w0).1 <> Panic) ->
  valid_value (tok_IDToken tokens) -> valid_value (tok_RefreshToken tokens) ->
  runs (callbackHandler selectedProjectID useClustersView r) w (fun res _ =>
    exists resp, res = Ok resp /\ session_jar (receive jar resp) /\
    (forall path' r', path_matches "/" path' = true -> sends (receive jar resp) path' r' ->
       tokenExtractor r' = Ok (tok_IDToken tokens)) /\
    (tok_RefreshToken tokens <> "" -> forall r', sends (receive jar resp) "/api/v2/auth/refresh" r' ->
       req_Cookie r' refreshTokenCookieName = Ok (tok_RefreshToken tokens))).
Proof.
  intros Hj Hs Hrun Hu Hv Hvr. eapply runs_mono; [by eapply callback_accepts|]. cbn beta.
  intros res w' (resp & -> & _ & Hck). exists resp. split; [done|].
  destruct (callback_session jar callbackPath r tokens claims t resp Hj Hs eq_refl (cb_fresh _ _ _ _ _ _ _ Hrun) Hck)
    as (Hj' & Hin & Href). split; [done|]. split.
  - intros path' r' Hp' Hs'. eapply signed_in_extracts; [by apply Hin|exact Hs'|exact Hp'].
  - intros Hne%is_empty_false r' Hs'. rewrite Hne in Href.
    rewrite (req_Cookie_sent _ _ _ refreshTokenCookieName "/api/v2/auth" Hs'); [|by intros p v Hp; apply Hj' in Hp as [_ Hp]; apply Hp|done].
    rewrite Href. by rewrite transmitted_id.
Qed.

(** C24: A refresh renews the session or ends it: with a new ID token that verifies, has
    an email and has not expired the browser carries the new token from then on;
    otherwise the answer is 401 and the browser carries none. *)
Theorem refresh_renews_or_signs_out jar r w :
  session_jar jar -> sends jar "/api/v2/auth/refresh" r ->
  runs (refreshHandler r) w (fun res _ =>
    match res with
    | Ok resp => exists refreshToken tokens claims t,
        jar !! (refreshTokenCookieName, "/api/v2/auth") = Some refreshToken /\
        answers (oiv_RefreshAccessToken refreshToken) tokens /\
        answers (oiv_Verify (tok_IDToken tokens)) claims /\ claims_Email claims <> "" /\
        (0 < until_seconds t (claims_Expiry claims))%Z /\
        (valid_value (tok_IDToken tokens) ->
         forall path' r', path_matches "/" path' = true -> sends (receive jar resp) path' r' ->
           tokenExtractor r' = Ok (tok_IDToken tokens))
    | Err resp => rw_Status resp = 401%Z /\
        forall path' r', path_matches "/" path' = true -> sends (receive jar resp) path' r' ->
          exists e, tokenExtractor r' = Err e
    | Panic => True
    end).
Proof.
  intros Hj Hs. eapply runs_mono; [apply refreshHandler_spec|]. cbn beta zeta.
  intros [resp|resp|] w'; [| |done].
  - intros (rt & tokens & claims & t & rw & Hck & Hr & Hv & Hem & Hfr & Hset & Hcookies & _ & _).
    exists rt, tokens, claims, t. split_and!; try done.
    + rewrite (req_Cookie_sent _ _ _ refreshTokenCookieName "/api/v2/auth" Hs) in Hck;
        [|by intros p v Hp; apply Hj in Hp as [_ Hp]; apply Hp|done].
      destruct (jar !! _) as [v|]; [by injection Hck as ->|done].
    + intros Hval path' r' Hp' Hs'. rewrite (receive_ext _ _ _ Hcookies) in Hs'.
      destruct (new_session jar "/api/v2/auth/refresh" r newResponse rw (tok_IDToken tokens)
        (tok_RefreshToken tokens) (until_seconds t (claims_Expiry claims)) (oc_CookieSecureMode oiv_OIDCConfig))
        as (_ & Hin & _); [done|done|done|done|by intros n p; right|lia|done|].
      eapply signed_in_extracts; [by apply Hin|exact Hs'|done].
  - intros [Hst Hcookies]. split; [done|]. intros path' r' Hp' Hs'.
    destruct (cleared_session jar "/api/v2/auth/refresh" r resp) as [Hj' Hout]; [done..|].
    by eapply signed_out_extracts.
Qed.


(** Whatever the browser visits in whatever order, the cookies of its session stay
    where the handlers set, send and clear them: ID tokens at the root, the
    refresh token at the path of the handlers. *)
Theorem session_jar_kept (kubermaticConfigProvider : M W error string) (selectedProjectID : string -> string) (useClustersView : string -> bool)
    jar w jar' w' :
  rtc (visit kubermaticConfigProvider selectedProjectID useClustersView) (jar, w) (jar', w') ->
  session_jar jar -> session_jar jar'.
Proof.
  intros Hr. remember (jar, w) as x eqn:Ex. remember (jar', w') as y eqn:Ey.
  revert jar w Ex. induction Hr as [x|x z y Hv Hr IH]; intros jar w ->; [by injection Ey as -> ->|].
  intros Hj. inversion Hv as [handler path r ? ? resp res w1 Hh Hs Hp Hrun Hres]; subst.
  apply (IH eq_refl _ _ eq_refl). clear IH Hr Hv. unfold In in Hh.
  destruct Hh as [<-|[<-|[<-|[<-|[<-|[]]]]]].
  - pose proof (runs_elim _ _ _ _ _ (loginHandler_spec r w) Hrun) as H. apply receive_session; [done|].
    destruct Hres as [->| ->]; [destruct H as (_ & st & enc & _ & -> & _)|destruct H as [_ ->]]; by repeat constructor.
  - pose proof (runs_elim _ _ _ _ _ (callbackHandler_spec selectedProjectID useClustersView r w) Hrun) as H.
    destruct Hres as [->| ->].
    + destruct H as (st & tokens & claims & t & w4 & Hc & _ & Hck).
      exact (proj1 (callback_session jar path r tokens claims t resp Hj Hs Hp (cb_fresh _ _ _ _ _ _ _ Hc) Hck)).
    + by apply refusal_session.
  - pose proof (runs_elim _ _ _ _ _ (refreshHandler_spec r w) Hrun) as H. cbv zeta in H.
    destruct Hres as [->| ->].
    + destruct H as (rt & tokens & claims & t & rw & _ & _ & _ & _ & _ & Hset & Hcookies & _).
      rewrite (receive_ext _ _ _ Hcookies). apply receive_session; [done|]. apply setRefreshToken_session.
      eapply setIDToken_session; [done|]. by apply clearAuthCookies_session.
    + destruct H as [_ H]. by eapply cleared_session.
  - pose proof (runs_elim _ _ _ _ _ (logoutHandler_spec kubermaticConfigProvider r w) Hrun) as H.
    assert (rw_Cookies resp = rw_Cookies (clearAuthCookies newResponse r (oc_CookieSecureMode oiv_OIDCConfig))) as Hc.
    { destruct Hres as [->| ->]; [by destruct H as (? & ? & ? & ? & _ & _ & _ & _ & _ & _ & ->)|by destruct H]. }
    by eapply cleared_session.
  - unfold statusHandler in Hrun. assert (rw_Cookies resp = []) as Hc.
    { destruct (tokenExtractor r) as [tok|e|]; [|injection Hrun as <- <-; by destruct Hres as [[= <-]|]..].
      unfold mbind, M_bind, orElse in Hrun. destruct (oiv_Verify tok w) as [[]]; injection Hrun as <- <-;
        destruct Hres as [[= <-]|[= <-]]; done. }
    apply receive_session; [done|]. by rewrite Hc.
Qed.

Lemma signed_valid v : string_forallb signed_char v = true -> valid_value v.
Proof.
  unfold string_forallb, valid_value. rewrite !forallb_forall. intros H c Hc. specialize (H c Hc).
  revert H. clear. destruct c as [[] [] [] [] [] [] [] []]; vm_compute; done.
Qed.

(** The login sends the browser to the provider with the state, the nonce and the
    challenge that it stores, signed, in the browser, to come back to a base URL
    that is configured; and whatever else the browser holds, the state that a
    later callback reads from its cookie is this one. *)
Theorem login_binds_callback {SECL : SecureCookieLaws SEC} r w :
  runs (loginHandler r) w (fun res _ =>
    match res with
    | Ok resp => exists st encoded, login_started r st encoded resp /\
        forall jar r' stored,
          (forall p v, jar !! (oauthStateCookieName, p) = Some v -> p = "/") ->
          sends (receive jar resp) callbackPath r' ->
          answers (GetOAuthStateCookie r' oauthStateCookieName) stored -> stored = st
    | Err resp => rw_Status resp = 500%Z /\ rw_Cookies resp = []
    | Panic => exists st w1 w2, secCookie_Encode oauthStateCookieName st w1 = (Panic, w2)
    end).
Proof.
  eapply runs_mono; [apply loginHandler_spec|]. cbn beta. intros [resp|resp|] w'; [|done|done].
  intros (_ & st & encoded & Hst). exists st, encoded. split; [done|].
  destruct Hst as ((wa & wb & Henc) & Hck & _). intros jar r' stored Hjar Hs (wc & wd & Hget).
  assert (receive jar resp = <[(oauthStateCookieName, "/") := encoded]> jar) as Hrec.
  { unfold receive. rewrite Hck. cbn. unfold jar_set. cbn. f_equal.
    apply transmitted_id, signed_valid. by eapply secCookie_chars. }
  rewrite Hrec in Hs. unfold GetOAuthStateCookie, mapErr at 1, mbind, M_bind, lift in Hget.
  rewrite (req_Cookie_sent _ _ _ oauthStateCookieName "/" Hs), lookup_insert_eq in Hget; [|  |done].
  - unfold mapErr in Hget. destruct (secCookie_Decode _ _ _) as [[st'|e|] wx] eqn:Ed; [|done|done].
    injection Hget as <- <-. by eapply secCookie_roundtrip.
  - intros p v [[[= <-] _]|[_ H]]%lookup_insert_Some; [done|by eapply Hjar].
Qed.
End properties.

(** With a logout URL and a provider configured, a logout goes to that URL, with the
    parameters that tell the provider where to return to (and, for Keycloak, the
    token), and all its other parameters as they are read from the configured
    URL: reading the query of the answer gives exactly these. *)
Theorem logout_url_query {IP : IPAddr} uiConfig token baseURL fields url u provider :
  unmarshalConfig uiConfig = Some fields ->
  stringValue (configValue fields "oidc_logout_url") = Some url -> url <> "" -> url_Parse url = Ok u ->
  stringValue (configValue fields "oidc_provider") = Some provider ->
  exists query, getOIDCProviderLogoutURL uiConfig token baseURL = url_String (url_with_rawQuery query u) /\
    ParseQuery query = logoutQuery provider token (baseURL +:+ "/") (url_Query u).
Proof.
  intros Hc Hurl Hne%is_empty_false Hu Hp. unfold getOIDCProviderLogoutURL.
  destruct (is_empty uiConfig) eqn:Eui.
  { apply is_empty_spec in Eui as ->. discriminate Hc. }
  cbn [negb]. rewrite Hc, Hurl, Hne, Hu, Hp. eexists. split; [done|].
  apply ParseQuery_Encode, logoutQuery_nonempty, ParseQuery_nonempty.
Qed.

(** ** A concrete browser and a concrete provider, for the witnesses *)

(** The request of the browser: its cookies in the order of the jar. *)
Definition request_of (jar : Jar) (path : string) (query : string -> string) : Request := {|
  req_Header := fun _ => "";
  req_Query := query;
  req_Cookies := (fun c => (c.1.1, c.2)) <$>
                   List.filter (fun c => path_matches c.1.2 path) (map_to_list jar);
  req_Host := "kkp.example.com";
  req_TLS := false |}.

Lemma request_of_sends jar path query : sends jar path (request_of jar path query).
Proof.
  intros n v. cbn. rewrite list_elem_of_fmap. setoid_rewrite elem_of_List_filter.
  setoid_rewrite elem_of_map_to_list'. split.
  - intros ([[n' p] v'] & [= -> ->] & Hj & Hp). by exists p.
  - intros (p & Hj & Hp). by exists ((n, p), v).
Qed.

Lemma session_jar_insert (jar : Jar) n p v :
  session_jar jar -> session_cookie (MkCookie n v p 0 true true SameSiteLaxMode) ->
  session_jar (<[(n, p) := v]> jar).
Proof. intros Hj Hc n' p' v' [[[= <- <-] _]|[_ H]]%lookup_insert_Some; [exact Hc|exact (Hj _ _ _ H)]. Qed.
Lemma session_jar_empty : session_jar ∅.
Proof. intros n p v. by rewrite lookup_empty. Qed.

Module TestLogin.
Definition state_tuple (st : OAuthState) : string * string * (string * string) :=
  (os_State st, os_Nonce st, (os_CodeVerifier st, os_RedirectURI st)).
#[export] Instance random : OAuthRandom Mem := {|
  rand_Text w := ("RANDOM", w);
  GenerateVerifier w := ("VERIFIER", w) |}.
#[export] Instance secure : SecureCookie Mem := {|
  secCookie_Encode name st w := (Ok (BinaryJose.bits (encode (name, state_tuple st))), w);
  secCookie_Decode name v w :=
    (match decode (A := string * (string * string * (string * string))) (BinaryJose.unbits v) with
     | Some (name', (s, n, (c, u))) =>
         if bool_decide (name' = name) then Ok (MkOAuthState s n c u) else Err (ENew "the value is not valid")
     | None => Err (ENew "the value is not valid")
     end, w) |}.
Lemma secure_laws : SecureCookieLaws secure.
Proof.
  split.
  - intros name st v st' w1 w2 w3 w4 [= <- <-]. cbn. rewrite BinaryJose.unbits_bits, decode_encode.
    rewrite bool_decide_true by done. intros [= <- _]. by destruct st.
  - intros name st v w1 w2 [= <- _]. clear. unfold string_forallb.
    induction (encode (name, state_tuple st)) as [p IH|p IH|]; cbn; done.
Qed.

(** A provider that answers every code with a token of 8000 bytes, valid for an hour. *)
Fixpoint copies (n : nat) (s : string) : string := match n with O => "" | S n => s +:+ copies n s end.
Definition longToken : string := copies 1000 "eyJhbGci".
Definition expiry : time := (1000000000000 + 3600 * second)%Z.
#[export] Instance verifier : OIDCIssuerVerifier Mem := {|
  oiv_AuthCodeURL state _ uri _ _ _ := "https://idp.example.com/auth?state=" +:+ state;
  oiv_Exchange code uri codeVerifier w := (Ok (MkOIDCToken "" "refresh" expiry longToken), w);
  oiv_RefreshAccessToken refresh w := (Ok (MkOIDCToken "" "refresh" expiry "eyJuZXc"), w);
  oiv_OIDCConfig := MkOIDCConfiguration "" "kubermatic" "" true false false ["https://proxy.example.com/"];
  oiv_Verify token w := (Ok (MkClaims "Bob" "bob@example.com" "bob" [] "RANDOM" expiry), w);
  oiv_GetRedirectURI path := Ok ("https://kkp.example.com" +:+ path) |}.

(** A browser with the cookies of an older session, and with those that a login sets. *)
Definition oldJar : Jar :=
  <[ ("token", "/") := "old" ]> (<[ ("token-1", "/") := "older" ]> (<[ ("token-3", "/") := "oldest" ]>
    (<[ ("refresh_token", "/api/v2/auth") := "used" ]> ∅))).
Definition query (k : string) : string :=
  if bool_decide (k = "state") then "RANDOM" else if bool_decide (k = "code") then "4711" else
  if bool_decide (k = "origin") then "https://proxy.example.com" else "".
Definition response (r : result ResponseWriter ResponseWriter) : ResponseWriter :=
  match r with Ok resp | Err resp => resp | Panic => newResponse end.
Definition loginRun : result ResponseWriter ResponseWriter * Mem :=
  loginHandler (IP := refIP) (request_of oldJar "/api/v2/auth/login" query) sample.
Definition loginJar : Jar := receive oldJar (response loginRun.1).
Definition callbackRequest : Request := request_of loginJar callbackPath query.

Lemma oldJar_session : session_jar oldJar.
Proof. repeat (apply session_jar_insert; [|done]). apply session_jar_empty. Qed.

Lemma oldJar_no_state p v : oldJar !! (oauthStateCookieName, p) = Some v -> p = "/".
Proof. unfold oldJar. rewrite !lookup_insert_ne by done. by rewrite lookup_empty. Qed.

Definition storedState : OAuthState :=
  MkOAuthState "RANDOM" "RANDOM" "VERIFIER" "https://proxy.example.com/api/v2/auth/callback".
Definition testClaims : TokenClaims := MkClaims "Bob" "bob@example.com" "bob" [] "RANDOM" expiry.
Definition testTokens : OIDCToken := MkOIDCToken "" "refresh" expiry longToken.
Definition callbackRun : result ResponseWriter ResponseWriter * Mem :=
  callbackHandler (IP := refIP) (fun s => s) (fun _ => false) callbackRequest sample.
Definition callbackJar : Jar := receive loginJar (response callbackRun.1).

Lemma loginJar_session : session_jar loginJar.
Proof.
  apply receive_session; [apply oldJar_session|]. vm_compute.
  constructor; [by split|constructor].
Qed.

Lemma test_run : callback_run (IP := refIP) callbackRequest sample storedState testTokens testClaims
  1000000000000 (now (W := Mem) sample).2.
Proof.
  split; try (vm_compute; discriminate); try (vm_compute; reflexivity).
  exists sample, sample, sample. split_and!; vm_compute; reflexivity.
Qed.

Lemma users_total email (w0 : Mem) : (users_UserByEmail email w0).1 <> Panic.
Proof.
  pose proof (users_UserByEmail_spec email w0) as H. unfold runs in H.
  destruct (users_UserByEmail email w0) as [[] ]; naive_solver.
Qed.
End TestLogin.
#[local] Existing Instances TestLogin.random TestLogin.secure TestLogin.verifier.

Lemma chunkString_chunks_witness :
  0 < 3 /\ exists l, chunkString "eyJhbGci" 3 = Some l /\ String.concat "" l = "eyJhbGci" /\ length l = 3.
Proof.
  split; [lia|]. destruct (chunkString_chunks "eyJhbGci" 3) as (l & Hl & Hc & _ & Hn); [lia|].
  exists l. split; [exact Hl|]. split; [exact Hc|exact Hn].
Defined.

Lemma callback_signs_in_witness :
  exists resp, TestLogin.callbackRun.1 = Ok resp /\
  List.existsb (fun c => bool_decide (ck_Name c = "token-3")) (rw_Cookies resp) = true /\
  forall path' r', path_matches "/" path' = true -> sends (receive TestLogin.loginJar resp) path' r' ->
    tokenExtractor r' = Ok TestLogin.longToken.
Proof.
  pose proof (callback_signs_in (IP := refIP) (fun s => s) (fun _ => false) TestLogin.loginJar
    TestLogin.callbackRequest sample _ _ _ _ _ TestLogin.loginJar_session
    (request_of_sends TestLogin.loginJar callbackPath TestLogin.query) TestLogin.test_run
    TestLogin.users_total eq_refl eq_refl) as H.
  unfold runs in H. fold TestLogin.callbackRun in H. destruct H as (resp & Hok & _ & Hin & _).
  exists resp. split; [exact Hok|]. split; [|exact Hin].
  assert (resp = TestLogin.response TestLogin.callbackRun.1) as -> by by rewrite Hok.
  vm_compute. reflexivity.
Defined.

Lemma login_binds_callback_witness :
  exists resp st, TestLogin.loginRun.1 = Ok resp /\ os_RedirectURI st = "https://proxy.example.com/api/v2/auth/callback" /\
  forall r' stored, sends (receive TestLogin.oldJar resp) callbackPath r' ->
    answers (W := Mem) (GetOAuthStateCookie r' oauthStateCookieName) stored -> stored = st.
Proof.
  pose proof (login_binds_callback (IP := refIP) (SECL := TestLogin.secure_laws)
    (request_of TestLogin.oldJar "/api/v2/auth/login" TestLogin.query) sample) as H.
  run_ok TestLogin.loginRun resp E. unfold runs in H. fold TestLogin.loginRun in H. rewrite E in H.
  destruct H as (st & enc & Hst & Hb). exists resp, st. split; [exact E|]. split.
  - destruct Hst as (_ & Hck & _ & _ & w1 & w2 & w3 & H1 & H2 & H3).
    assert (GetOAuthStateCookie (TestLogin.callbackRequest) oauthStateCookieName sample
      = (Ok TestLogin.storedState, sample)) as Hget by (vm_compute; reflexivity).
    rewrite <- (Hb TestLogin.oldJar TestLogin.callbackRequest TestLogin.storedState); [reflexivity| | |].
    + apply TestLogin.oldJar_no_state.
    + unfold TestLogin.callbackRequest, TestLogin.loginJar. rewrite E. apply request_of_sends.
    + exists sample, sample. exact Hget.
  - intros r' stored. apply Hb. apply TestLogin.oldJar_no_state.
Defined.

(** The browser of the concrete callback refreshes its token and logs out. *)
Definition refreshRun : result ResponseWriter ResponseWriter * Mem :=
  refreshHandler (request_of TestLogin.oldJar "/api/v2/auth/refresh" TestLogin.query) sample.

Lemma refresh_renews_or_signs_out_witness :
  exists resp, refreshRun.1 = Ok resp /\
  forall path' r', path_matches "/" path' = true -> sends (receive TestLogin.oldJar resp) path' r' ->
    tokenExtractor r' = Ok "eyJuZXc".
Proof.
  pose proof (refresh_renews_or_signs_out TestLogin.oldJar
    (request_of TestLogin.oldJar "/api/v2/auth/refresh" TestLogin.query) sample TestLogin.oldJar_session
    (request_of_sends _ _ _)) as H.
  run_ok refreshRun resp E. unfold runs in H. fold refreshRun in H. rewrite E in H.
  destruct H as (rt & tokens & claims & t & _ & (w1 & w2 & Hr) & _ & _ & _ & Hin).
  exists resp. split; [exact E|]. injection Hr as <- _. exact (Hin eq_refl).
Defined.

Definition logoutConfig : string :=
  let q s := dquote +:+ s +:+ dquote in
  "{" +:+ q "oidc_logout_url" +:+ ":" +:+ q "https://idp.example.com/logout?client_id=kkp" +:+ "," +:+
  q "oidc_provider" +:+ ":" +:+ q "Keycloak" +:+ "}".
Definition logoutRun : result ResponseWriter ResponseWriter * Mem :=
  logoutHandler (IP := refIP) (mret logoutConfig)
    (request_of TestLogin.oldJar "/api/v2/auth/logout" TestLogin.query) sample.


Lemma logout_url_query_witness :
  getOIDCProviderLogoutURL (IP := refIP) logoutConfig "eyJ0" "https://kkp.example.com" =
    "https://idp.example.com/logout?client_id=kkp&id_token_hint=eyJ0&post_logout_redirect_uri=https%3A%2F%2Fkkp.example.com%2F" /\
  exists fields u query, unmarshalConfig logoutConfig = Some fields /\
    url_Parse (IP := refIP) "https://idp.example.com/logout?client_id=kkp" = Ok u /\
    getOIDCProviderLogoutURL (IP := refIP) logoutConfig "eyJ0" "https://kkp.example.com"
      = url_String (url_with_rawQuery query u) /\
    ParseQuery query !! "post_logout_redirect_uri" = Some ["https://kkp.example.com/"].
Proof.
  split; [vm_compute; reflexivity|].
  assert (exists fields, unmarshalConfig logoutConfig = Some fields) as [fields Hf] by (eexists; vm_compute; reflexivity).
  assert (exists u, url_Parse (IP := refIP) "https://idp.example.com/logout?client_id=kkp" = Ok u) as [u Hu]
    by (eexists; vm_compute; reflexivity).
  destruct (logout_url_query (IP := refIP) logoutConfig "eyJ0" "https://kkp.example.com" fields
    "https://idp.example.com/logout?client_id=kkp" u "Keycloak") as (query & Hq & Hp); [exact Hf| |discriminate|exact Hu| |].
  - vm_compute in Hf. injection Hf as <-. vm_compute. reflexivity.
  - vm_compute in Hf. injection Hf as <-. vm_compute. reflexivity.
  - exists fields, u, query. split_and!; [exact Hf|exact Hu|exact Hq|]. rewrite Hp.
    vm_compute in Hu. injection Hu as <-. vm_compute. reflexivity.
Defined.

Lemma session_jar_kept_witness :
  rtc (visit (IP := refIP) (mret logoutConfig) (fun s => s) (fun _ => false))
    (TestLogin.oldJar, sample) (TestLogin.loginJar, TestLogin.loginRun.2) /\ session_jar TestLogin.loginJar.
Proof.
  assert (rtc (visit (IP := refIP) (mret logoutConfig) (fun s => s) (fun _ => false))
    (TestLogin.oldJar, sample) (TestLogin.loginJar, TestLogin.loginRun.2)) as H.
  { eapply rtc_once, (visits (IP := refIP) _ _ _ _ "/api/v2/auth/login"); [by left|apply request_of_sends|reflexivity| |].
    - apply surjective_pairing.
    - change (loginHandler _ sample) with TestLogin.loginRun. run_ok TestLogin.loginRun resp E. rewrite E. by left. }
  split; [exact H|]. exact (session_jar_kept (IP := refIP) _ _ _ _ _ _ _ H TestLogin.oldJar_session).
Defined.
