(* ===== verification/QuotaSums.v ===== *)
(** The arithmetic of resource quotas: sums of accelerators, the resources of the
    replicas of a node, and when the message of a calculation is empty. *)
From S2P Require Export ResourceQuotas.

(** ** Specification *)

Definition amount (x : option Quantity) : Z := from_option quantity_nanos 0%Z x.
Definition amount_at (resources : gmap string Quantity) (name : string) : Z := amount (resources !! name).

(** What a list of accelerators has of one resource of a provider, and whether it
    names the resource. *)
Fixpoint accelerators_of (l : list AcceleratorQuota) (provider name : string) : Z :=
  match l with
  | [] => 0
  | a :: l => ((if bool_decide (accelerator_Provider a = provider) then amount_at (accelerator_Resources a) name else 0)
               + accelerators_of l provider name)%Z
  end.
Definition names_accelerator (l : list AcceleratorQuota) (provider name : string) : Prop :=
  exists a, a ∈ l /\ accelerator_Provider a = provider /\ is_Some (accelerator_Resources a !! name).
#[export] Instance names_accelerator_dec l provider name : Decision (names_accelerator l provider name).
Proof.
  refine (cast_if (decide (Exists (fun a => accelerator_Provider a = provider /\ is_Some (accelerator_Resources a !! name)) l)));
    unfold names_accelerator; by rewrite <- Exists_exists.
Defined.

Section fits.
Context {Q : Quantities}.

(** What the project uses of an accelerator after the update; what is replaced
    does not count below zero. *)
Definition accelerators_needed (new usage : ResourceDetails) (replaced : option ResourceDetails) (provider name : string) : Z :=
  let total := (accelerators_of (rd_Accelerators new) provider name + accelerators_of (rd_Accelerators usage) provider name)%Z in
  match replaced with
  | None => total
  | Some replaced =>
      if decide (names_accelerator (rd_Accelerators new ++ rd_Accelerators usage) provider name /\
                 names_accelerator (rd_Accelerators replaced) provider name)
      then Z.max 0 (total - accelerators_of (rd_Accelerators replaced) provider name)
      else total
  end.

(** The update stays within the limits: [new] is what the requested nodes have,
    [usage] what the project uses, [replaced] what the replaced nodes have. *)
Definition fits (new usage : ResourceDetails) (replaced : option ResourceDetails) (limits : ResourceDetails) : Prop :=
  (forall l, rd_CPU limits = Some l ->
     amount (rd_CPU new) + amount (rd_CPU usage) - amount (replaced ≫= rd_CPU) <= quantity_nanos l)%Z /\
  (forall l, rd_Memory limits = Some l ->
     amount (rd_Memory new) + amount (TreatDecimalAsBinary <$> rd_Memory usage)
       - amount (TreatDecimalAsBinary <$> (replaced ≫= rd_Memory)) <= quantity_nanos l)%Z /\
  (forall l, rd_Storage limits = Some l ->
     amount (rd_Storage new) + amount (TreatDecimalAsBinary <$> rd_Storage usage)
       - amount (TreatDecimalAsBinary <$> (replaced ≫= rd_Storage)) <= quantity_nanos l)%Z /\
  (forall limit name l, limit ∈ rd_Accelerators limits -> accelerator_Resources limit !! name = Some l ->
     accelerators_needed new usage replaced (accelerator_Provider limit) name <= quantity_nanos l)%Z.
End fits.

(** ** Folds over the entries of a map *)

Section sums.
Context {Q : Quantities} {QL : QuantitiesLaws Q} {R : MapRange} {RL : MapRangeLaws R}
        {N : NodeCapacities} {NL : NodeCapacitiesLaws N} {FP : FloatPlatform} {QS : QuotaSDK}.

(** A step that changes only the entry of its own name, in a fold over a map. *)
Lemma foldl_entries (f : gmap string Quantity -> string * Quantity -> gmap string Quantity)
    (g : option Quantity -> Quantity -> option Quantity) (m r : gmap string Quantity) n :
  (forall r n x, f r (n, x) !! n = g (r !! n) x) ->
  (forall r n n' x, n <> n' -> f r (n, x) !! n' = r !! n') ->
  foldl f r (map_range m) !! n = match m !! n with Some x => g (r !! n) x | None => r !! n end.
Proof.
  intros Hsame Hother.
  enough (forall l r, NoDup l.*1 -> foldl f r l !! n =
            match (list_to_map l : gmap string Quantity) !! n with Some x => g (r !! n) x | None => r !! n end) as H.
  { rewrite (H _ r (NoDup_map_range m)). f_equal.
    by rewrite (list_to_map_proper _ _ (NoDup_map_range m) (map_range_all m)), list_to_map_to_list. }
  clear r. induction l as [|[n' x] l IH]; intros r; [done|]. cbn [fmap list_fmap foldl]. intros [Hn Hl]%NoDup_cons.
  rewrite IH by done. cbn [list_to_map foldr]. cbn. destruct (decide (n' = n)) as [->|Hne].
  - rewrite lookup_insert_eq, (not_elem_of_list_to_map_1 l n) by done. apply Hsame.
  - by rewrite lookup_insert_ne, Hother by done.
Qed.

Lemma addResources_lookup m r n :
  foldl addResource r (map_range m) !! n =
  match m !! n with
  | Some x => Some (match r !! n with Some c => quantity_Add c x | None => x end)
  | None => r !! n
  end.
Proof.
  rewrite (foldl_entries _ (fun o x => Some (match o with Some c => quantity_Add c x | None => x end))); [done| |].
  - intros. apply lookup_insert_eq.
  - intros. by apply lookup_insert_ne.
Qed.

Lemma addResources_amount m r n :
  amount_at (foldl addResource r (map_range m)) n = (amount_at r n + amount_at m n)%Z.
Proof.
  unfold amount_at. rewrite addResources_lookup.
  destruct (m !! n), (r !! n); cbn; rewrite ?quantity_Add_nanos; lia.
Qed.

Lemma addResources_names m r n :
  is_Some (foldl addResource r (map_range m) !! n) <-> is_Some (r !! n) \/ is_Some (m !! n).
Proof. rewrite addResources_lookup. destruct (m !! n), (r !! n); rewrite ?is_Some_alt; naive_solver. Qed.

Lemma subtractResources_lookup m r n :
  foldl subtractResource r (map_range m) !! n =
  match m !! n, r !! n with
  | Some x, Some c => Some (let c := quantity_Sub c x in if (quantity_Sign c <? 0)%Z then quantity_Set c 0 else c)
  | _, o => o
  end.
Proof.
  rewrite (foldl_entries _ (fun o x => (fun c => let c := quantity_Sub c x in
    if (quantity_Sign c <? 0)%Z then quantity_Set c 0 else c) <$> o)).
  - by destruct (m !! n), (r !! n).
  - intros r' n' x. unfold subtractResource. destruct (r' !! n') as [c|] eqn:E; [apply lookup_insert_eq|by rewrite E].
  - intros r' n' n'' x Hne. unfold subtractResource. destruct (r' !! n'); [by apply lookup_insert_ne|done].
Qed.

Lemma subtractResources_amount m r n :
  amount_at (foldl subtractResource r (map_range m)) n =
  if decide (is_Some (r !! n) /\ is_Some (m !! n)) then Z.max 0 (amount_at r n - amount_at m n) else amount_at r n.
Proof.
  unfold amount_at. rewrite subtractResources_lookup.
  destruct (m !! n) as [x|], (r !! n) as [c|]; cbn;
    (destruct (decide _) as [[Hr Hm]|Hn];
      [try (by destruct Hr); try (by destruct Hm)|try (exfalso; apply Hn; split; by eexists)]); try done.
  rewrite quantity_Sign_nanos. destruct (_ <? 0)%Z eqn:E; cbn; rewrite ?quantity_Set_nanos; rewrite quantity_Sub_nanos in *; lia.
Qed.

(** ** Sums over providers *)

Definition total_at (totals : gmap string (gmap string Quantity)) (provider : string) : gmap string Quantity :=
  default ∅ (totals !! provider).

Lemma addAccelerators_amount l totals p n :
  amount_at (total_at (addAcceleratorQuantities totals l) p) n = (amount_at (total_at totals p) n + accelerators_of l p n)%Z.
Proof.
  unfold addAcceleratorQuantities. revert totals. induction l as [|a l IH]; intros totals; cbn [foldl accelerators_of]; [lia|].
  rewrite IH. unfold total_at at 1. case_bool_decide as E.
  - subst p. rewrite lookup_insert_eq. cbn [from_option id]. rewrite addResources_amount. unfold total_at. lia.
  - rewrite lookup_insert_ne by done. unfold total_at. lia.
Qed.

Lemma addAccelerators_names l totals p n :
  is_Some (total_at (addAcceleratorQuantities totals l) p !! n) <->
  is_Some (total_at totals p !! n) \/ names_accelerator l p n.
Proof.
  unfold addAcceleratorQuantities, names_accelerator. revert totals.
  induction l as [|a l IH]; intros totals; cbn [foldl]; [set_solver|].
  rewrite IH. unfold total_at at 1. setoid_rewrite elem_of_cons. destruct (decide (accelerator_Provider a = p)) as [<-|Hne].
  - rewrite lookup_insert_eq. cbn [from_option id]. rewrite addResources_names. unfold total_at. naive_solver.
  - rewrite lookup_insert_ne by done. fold (total_at totals p). naive_solver.
Qed.

(** At most one entry is subtracted: the replaced nodes are those of one provider. *)
Lemma subtractAccelerators_amount l totals p n : length l <= 1 ->
  amount_at (total_at (subtractAcceleratorQuantities totals l) p) n =
  if decide (is_Some (total_at totals p !! n) /\ names_accelerator l p n)
  then Z.max 0 (amount_at (total_at totals p) n - accelerators_of l p n) else amount_at (total_at totals p) n.
Proof.
  intros Hl. destruct l as [|a [|b l]]; [| |cbn in Hl; lia].
  { cbn. rewrite decide_False; [done|]. intros [_ (a & Ha & _)]. by apply elem_of_nil in Ha. }
  cbn [subtractAcceleratorQuantities foldl accelerators_of].
  assert (names_accelerator [a] p n <-> accelerator_Provider a = p /\ is_Some (accelerator_Resources a !! n)) as Hn.
  { unfold names_accelerator. setoid_rewrite list_elem_of_singleton. naive_solver. }
  case_bool_decide as E.
  - subst p. unfold total_at. destruct (totals !! accelerator_Provider a) as [r|] eqn:Er.
    + rewrite lookup_insert_eq. cbn [from_option id]. rewrite subtractResources_amount, Z.add_0_r. cbn.
      apply decide_ext. rewrite Hn. tauto.
    + rewrite Er. cbn. rewrite decide_False; [done|]. intros [[x H] _]. by rewrite lookup_empty in H.
  - rewrite (decide_False (P := _ /\ names_accelerator [a] p n)) by (rewrite Hn; tauto).
    unfold total_at. destruct (totals !! accelerator_Provider a); [by rewrite lookup_insert_ne|done].
Qed.
End sums.

(** ** The message *)

Lemma string_app_empty s t : s +:+ t = "" <-> s = "" /\ t = "".
Proof. destruct s, t; naive_solver. Qed.

(** A loop that appends to a message, and appends nothing only to good elements. *)
Lemma foldl_message {A} (f : string -> A -> string) (P : A -> Prop) l msg :
  (forall msg x, x ∈ l -> f msg x = "" <-> msg = "" /\ P x) ->
  foldl f msg l = "" <-> msg = "" /\ forall x, x ∈ l -> P x.
Proof.
  revert msg. induction l as [|x l IH]; intros msg Hf; cbn [foldl]; [set_solver|].
  rewrite IH by (intros; apply Hf; set_solver). rewrite Hf by set_solver. set_solver.
Qed.

Section message.
Context {Q : Quantities} {QL : QuantitiesLaws Q} {R : MapRange} {RL : MapRangeLaws R}
        {N : NodeCapacities} {NL : NodeCapacitiesLaws N} {FP : FloatPlatform} {QS : QuotaSDK}.

Lemma calculated_by_provider (f : string -> gmap string Quantity) l (m : gmap string (gmap string Quantity)) p :
  foldl (fun m a => <[accelerator_Provider a := accelerator_Resources a]> m) m ((fun p => MkAcceleratorQuota p (f p)) <$> l) !! p
  = if decide (p ∈ l) then Some (f p) else m !! p.
Proof.
  revert m. induction l as [|x l IH]; intros m; cbn [fmap list_fmap foldl].
  { rewrite decide_False; [done|]. apply not_elem_of_nil. }
  rewrite IH. cbn. destruct (decide (p ∈ l)) as [Hp|Hp]; [by rewrite decide_True by set_solver|].
  destruct (decide (p = x)) as [->|Hx].
  - rewrite decide_True by set_solver. by rewrite lookup_insert_eq.
  - rewrite decide_False by set_solver. by rewrite lookup_insert_ne.
Qed.

Lemma fromTotals_by_provider totals p :
  default ∅ (foldl (fun m a => <[accelerator_Provider a := accelerator_Resources a]> m) (∅ : gmap string (gmap string Quantity))
    (acceleratorQuotasFromTotals totals) !! p) = total_at totals p.
Proof.
  unfold acceleratorQuotasFromTotals. rewrite calculated_by_provider, lookup_empty. unfold total_at.
  destruct (decide (p ∈ set_list (dom totals))) as [Hp|Hp]; [done|].
  rewrite elem_of_set_list, not_elem_of_dom in Hp. by rewrite Hp.
Qed.

Lemma acceleratorExceedsQuotaMessage_empty limits totals :
  acceleratorExceedsQuotaMessage limits (acceleratorQuotasFromTotals totals) = "" <->
  forall limit, limit ∈ limits -> forall name, name ∈ set_list (dom (accelerator_Resources limit)) ->
    (amount_at (total_at totals (accelerator_Provider limit)) name <= amount_at (accelerator_Resources limit) name)%Z.
Proof.
  unfold acceleratorExceedsQuotaMessage. rewrite (foldl_message _ (fun limit => forall name,
    name ∈ set_list (dom (accelerator_Resources limit)) ->
    (amount_at (total_at totals (accelerator_Provider limit)) name <= amount_at (accelerator_Resources limit) name)%Z));
    [naive_solver|].
  intros msg limit _. apply foldl_message. intros msg' name Hname.
  rewrite fromTotals_by_provider, quantity_Cmp_nanos.
  assert (forall o : option Quantity, quantity_nanos (default zeroQuantity o) = amount o) as E by (by intros []).
  rewrite !E. fold (amount_at (accelerator_Resources limit) name) (amount_at (total_at totals (accelerator_Provider limit)) name).
  destruct (_ <? _)%Z eqn:H; [|split; [intros ->; split; [done|lia]|by intros []]].
  rewrite string_app_empty. split; [by intros [_ ?]|]. intros [_ ?]. lia.
Qed.

Lemma exceedsMessage_empty what calculated limit :
  exceedsMessage what calculated limit = "" <->
  forall l c, limit = Some l -> calculated = Some c -> (quantity_nanos c <= quantity_nanos l)%Z.
Proof.
  unfold exceedsMessage. destruct limit as [l|], calculated as [c|]; try naive_solver.
  rewrite quantity_Cmp_nanos. destruct (_ <? _)%Z eqn:E.
  - rewrite string_app_empty. split; [by intros [? _]|]. intros H. specialize (H l c eq_refl eq_refl). lia.
  - split; [|done]. intros _ l' c' [= <-] [= <-]. lia.
Qed.

(** ** The replicas *)

(** The resources of [replicas] nodes of a template. *)
Definition nodes_have (t : ProviderNodeTemplate) (replicas : Z) (d : ResourceDetails) : Prop :=
  exists cpu memory storage accelerators,
    nodeCapacity t = Ok (MkNodeCapacity (Some cpu) (Some memory) (Some storage), accelerators) /\
    (exists c m s, rd_CPU d = Some c /\ rd_Memory d = Some m /\ rd_Storage d = Some s /\
       quantity_nanos c = Z.max 0 replicas * quantity_nanos cpu /\
       quantity_nanos m = Z.max 0 replicas * quantity_nanos memory /\
       quantity_nanos s = Z.max 0 replicas * quantity_nanos storage)%Z /\
    length (rd_Accelerators d) <= 1 /\
    forall p n, accelerators_of (rd_Accelerators d) p n =
      (if decide (p = KubevirtCloudProvider) then Z.max 0 replicas * amount_at accelerators n else 0)%Z.

Lemma addReplicas_spec n c m s acc c0 m0 s0 a0 :
  exists c1 m1 s1 a1,
    addReplicas n (MkNodeCapacity (Some c) (Some m) (Some s)) acc (c0, m0, s0, a0) = Ok (c1, m1, s1, a1) /\
    (quantity_nanos c1 = quantity_nanos c0 + Z.of_nat n * quantity_nanos c /\
     quantity_nanos m1 = quantity_nanos m0 + Z.of_nat n * quantity_nanos m /\
     quantity_nanos s1 = quantity_nanos s0 + Z.of_nat n * quantity_nanos s)%Z /\
    forall x, amount_at a1 x = (amount_at a0 x + Z.of_nat n * amount_at acc x)%Z.
Proof.
  revert c0 m0 s0 a0. induction n as [|n IH]; intros c0 m0 s0 a0.
  { exists c0, m0, s0, a0. split_and!; [done|lia|lia|lia|]. intros. lia. }
  cbn [addReplicas addReplica nc_CPUCores nc_Memory nc_Storage mbind result_bind].
  destruct (IH (quantity_Add c0 c) (quantity_Add m0 m) (quantity_Add s0 s) (foldl addResource a0 (map_range acc)))
    as (c1 & m1 & s1 & a1 & E & (Hc & Hm & Hs) & Ha).
  exists c1, m1, s1, a1. rewrite quantity_Add_nanos in Hc, Hm, Hs.
  split_and!; [exact E|lia|lia|lia|]. intros x. rewrite Ha, addResources_amount. lia.
Qed.

Lemma MapProviderNodeTmpl_spec t replicas c m s acc :
  nodeCapacity t = Ok (MkNodeCapacity (Some c) (Some m) (Some s), acc) ->
  exists d, MapProviderNodeTmplToResourceDetails t replicas = Ok d /\ nodes_have t replicas d.
Proof.
  intros Ht. unfold MapProviderNodeTmplToResourceDetails. rewrite Ht. cbn [mbind result_bind].
  destruct (addReplicas_spec (Z.to_nat replicas) c m s acc zeroQuantity zeroQuantity zeroQuantity ∅)
    as (c1 & m1 & s1 & a1 & -> & (Hc & Hm & Hs) & Ha). cbn [mbind result_bind].
  rewrite NewResourceDetails_spec. cbn [rd_CPU rd_Memory rd_Storage].
  assert (forall x, amount_at a1 x = Z.max 0 replicas * amount_at acc x)%Z as Ha'.
  { intros x. rewrite Ha. unfold amount_at at 1. rewrite lookup_empty. cbn. lia. }
  cbn [quantity_nanos zeroQuantity] in Hc, Hm, Hs.
  destruct (0 <? size a1)%nat eqn:E; eexists; (split; [done|]); exists c, m, s, acc; (split; [done|]);
    cbn [rd_CPU rd_Memory rd_Storage rd_Accelerators length];
    (split; [exists c1, m1, s1; split_and!; try done; lia|]); (split; [lia|]); intros p x.
  - cbn. rewrite <- Ha'. case_bool_decide; destruct (decide _); subst; try done; lia.
  - assert (a1 = ∅) as -> by (apply map_size_empty_inv; apply Nat.ltb_ge in E; lia).
    specialize (Ha' x). unfold amount_at in Ha' at 1. rewrite lookup_empty in Ha'. cbn in *.
    by destruct (decide _); [rewrite <- Ha'|].
Qed.
End message.

(** ** The capacity of a node is complete, or an error *)

Definition full (nc : NodeCapacity) : Prop :=
  exists c m s, nc = MkNodeCapacity (Some c) (Some m) (Some s).
(** The result is never a panic, and good when it is a value. *)
Definition good {A} (T : A -> Prop) (r : result error A) : Prop :=
  match r with Ok a => T a | Err _ => True | Panic => False end.
Lemma good_bind {A B} (r : result error A) (k : A -> result error B) (T : B -> Prop) :
  r <> Panic -> (forall a, r = Ok a -> good T (k a)) -> good T (r ≫= k).
Proof. destruct r; cbn; auto. Qed.
Definition fills : result error NodeCapacity -> Prop := good full.


Create HintDb capacity.
Section capacity.
Context {Q : Quantities} {QL : QuantitiesLaws Q} {R : MapRange} {N : NodeCapacities} {NL : NodeCapacitiesLaws N}
        {FP : FloatPlatform}.

Lemma full_cpu n nc : full nc -> full (WithCPUCount n nc).
Proof. intros (c & m & s & ->). destruct (WithCPUCount_spec n (MkNodeCapacity (Some c) (Some m) (Some s))) as (q & _ & ->). by eexists _, _, _. Qed.
Lemma fills_memory n unit nc : is_Some (unit_bytes unit) -> full nc -> fills (WithMemory n unit nc).
Proof.
  intros [b Hb] (c & m & s & ->).
  destruct (WithMemory_spec n unit b (MkNodeCapacity (Some c) (Some m) (Some s)) Hb) as (q & _ & ->). by eexists _, _, _.
Qed.
Lemma fills_storage n unit nc : is_Some (unit_bytes unit) -> full nc -> fills (WithStorage n unit nc).
Proof.
  intros [b Hb] (c & m & s & ->).
  destruct (WithStorage_spec n unit b (MkNodeCapacity (Some c) (Some m) (Some s)) Hb) as (q & _ & ->). by eexists _, _, _.
Qed.
Lemma fills_bind r k : fills r -> (forall nc, full nc -> fills (k nc)) -> fills (r ≫= k).
Proof. destruct r; cbn; auto. Qed.
Lemma fills_optional n nc : full nc -> fills (optionalStorage n nc).
Proof.
  intros H. destruct n; cbn [optionalStorage]; [apply fills_storage; [by eexists|done]|].
  destruct H as (c & m & s & ->). by eexists _, _, _.
Qed.
Lemma fills_if (b : bool) r r' : fills r -> fills r' -> fills (if b then r else r').
Proof. by destruct b. Qed.

#[local] Hint Resolve full_cpu fills_memory fills_storage fills_bind fills_optional fills_if : capacity.
#[local] Hint Extern 1 (is_Some (unit_bytes _)) => by eexists : capacity.

Lemma getKubevirt_total s nc :
  full nc -> good (fun '(nc', _) => full nc') (getKubevirtResourceDetails s nc).
Proof.
  intros Hnc. unfold getKubevirtResourceDetails, parse_node_quantity.
  assert (forall prefix s, wrapErr prefix (ParseQuantity s) <> Panic) as Hp
    by (intros; apply wrapErr_no_panic, ParseQuantity_no_panic).
  destruct (ParseInt _) as [e|n]; [done|].
  destruct (full_cpu n nc Hnc) as (c & m & sto & E0). rewrite E0. clear E0. cbn [nc_CPUCores].
  apply good_bind; [apply Hp|]. intros mem _. apply good_bind; [apply Hp|]. intros disk _.
  apply good_bind; [by apply collect_no_panic|]. intros l _.
  apply good_bind; [|intros; by eexists _, _, _].
  apply collect_no_panic. intros [k v]. by destruct (wrapErr _ _) as [?|?|] eqn:E; [..|apply Hp in E].
Qed.

Lemma nodeCapacity_total t : good (fun '(nc, _) => full nc) (nodeCapacity t).
Proof.
  assert (full (MkNodeCapacity (Some zeroQuantity) (Some zeroQuantity) (Some zeroQuantity))) as H0 by (by eexists _, _, _).
  assert (forall r, fills r -> good (fun '(nc, _) => full nc) (nc ← r; Ok (nc, ∅ : gmap string Quantity))) as Hplain
    by (by intros []).
  unfold nodeCapacity.
  repeat match goal with
  | |- context [match ?f t with Some _ => _ | None => _ end] => destruct (f t)
  end; try (apply Hplain; 
    unfold getAlibabaResourceDetails, getAnexiaResourceDetails, getAWSResourceDetails, getAzureResourceDetails,
      getDOResourceDetails, getGCPResourceDetails, getHetznerResourceDetails, getNutanixResourceDetails,
      getOpenstackResourceDetails, getVSphereResourceDetails, getVMCloudDirectorResourceDetails; auto 8 with capacity);
    [by apply getKubevirt_total|done].
Qed.

Lemma nodes_spec t replicas {RL : MapRangeLaws R} :
  good (nodes_have t replicas) (MapProviderNodeTmplToResourceDetails t replicas).
Proof.
  pose proof (nodeCapacity_total t) as H. destruct (nodeCapacity t) as [[nc acc]|e|] eqn:E.
  - destruct H as (c & m & s & ->). by destruct (MapProviderNodeTmpl_spec t replicas c m s acc E) as (d & -> & Hd).
  - unfold MapProviderNodeTmplToResourceDetails. by rewrite E.
  - done.
Qed.
End capacity.

(** Reading the quota of a request does not panic. *)
Section convert_total.
Context {Q : Quantities} {QL : QuantitiesLaws Q} {R : MapRange}.

Lemma parse_field_no_panic what text : parse_field what text <> Panic.
Proof.
  destruct text; [|done]. apply bind_no_panic; [|done]. apply wrapErr_no_panic, ParseQuantity_no_panic.
Qed.

Lemma ConvertToCRDQuota_no_panic quota : ConvertToCRDQuota quota <> Panic.
Proof.
  unfold ConvertToCRDQuota. repeat (apply bind_no_panic; [apply parse_field_no_panic|intros]).
  apply bind_no_panic; [|done]. apply collect_no_panic. intros acc. apply bind_no_panic; [|done].
  apply collect_no_panic. intros [n x]. apply bind_no_panic; [|done]. apply wrapErr_no_panic, ParseQuantity_no_panic.
Qed.
End convert_total.

(** ** The calculation *)

Section calculation.
Context {Q : Quantities} {QL : QuantitiesLaws Q} {R : MapRange} {RL : MapRangeLaws R}
        {N : NodeCapacities} {NL : NodeCapacitiesLaws N} {FP : FloatPlatform} {QS : QuotaSDK}.

Definition has_all (d : ResourceDetails) : Prop :=
  is_Some (rd_CPU d) /\ is_Some (rd_Memory d) /\ is_Some (rd_Storage d).

Lemma nodes_have_all t k d : nodes_have t k d -> has_all d /\ length (rd_Accelerators d) <= 1.
Proof.
  intros (? & ? & ? & ? & _ & (c & m & s & Hc & Hm & Hs & _) & Hl & _).
  split; [|done]. unfold has_all. rewrite Hc, Hm, Hs. by split_and!.
Qed.

Lemma onBoth_amounts a b r limit : is_Some a ->
  (forall l c, limit = Some l -> onBoth quantity_Sub (onBoth quantity_Add a b) r = Some c ->
     (quantity_nanos c <= quantity_nanos l)%Z) <->
  (forall l, limit = Some l -> (amount a + amount b - amount r <= quantity_nanos l)%Z).
Proof.
  intros [x ->]. split.
  - intros H l ->. destruct b as [b|], r as [r|]; cbn in *; specialize (H l _ eq_refl eq_refl);
      rewrite ?quantity_Sub_nanos, ?quantity_Add_nanos in H; lia.
  - intros H l c ->. specialize (H l eq_refl). destruct b as [b|], r as [r|]; cbn in *; intros [= <-];
      rewrite ?quantity_Sub_nanos, ?quantity_Add_nanos; lia.
Qed.

(** Subtracting nothing is what happens when no resources are replaced. *)
Lemma calculate_fields new usage replaced :
  let d := calculateResources new usage replaced in
  rd_CPU d = onBoth quantity_Sub (onBoth quantity_Add (rd_CPU new) (rd_CPU usage)) (replaced ≫= rd_CPU) /\
  rd_Memory d = onBoth quantity_Sub (onBoth quantity_Add (rd_Memory new) (TreatDecimalAsBinary <$> rd_Memory usage))
                  (TreatDecimalAsBinary <$> (replaced ≫= rd_Memory)) /\
  rd_Storage d = onBoth quantity_Sub (onBoth quantity_Add (rd_Storage new) (TreatDecimalAsBinary <$> rd_Storage usage))
                   (TreatDecimalAsBinary <$> (replaced ≫= rd_Storage)) /\
  exists totals, rd_Accelerators d = acceleratorQuotasFromTotals totals /\
    totals = let sums := addAcceleratorQuantities (addAcceleratorQuantities ∅ (rd_Accelerators new)) (rd_Accelerators usage) in
             match replaced with Some r => subtractAcceleratorQuantities sums (rd_Accelerators r) | None => sums end.
Proof.
  unfold calculateResources. destruct replaced as [r|]; cbn; (split_and!; [..|by eexists]); try done;
    by destruct (onBoth quantity_Add _ _).
Qed.

Lemma calculated_accelerators new usage replaced p n :
  (forall r, replaced = Some r -> length (rd_Accelerators r) <= 1) ->
  amount_at (total_at
    (let sums := addAcceleratorQuantities (addAcceleratorQuantities ∅ (rd_Accelerators new)) (rd_Accelerators usage) in
     match replaced with Some r => subtractAcceleratorQuantities sums (rd_Accelerators r) | None => sums end) p) n
  = accelerators_needed new usage replaced p n.
Proof.
  intros Hr. unfold accelerators_needed. cbn zeta.
  assert (forall p n, amount_at (total_at (addAcceleratorQuantities (addAcceleratorQuantities ∅ (rd_Accelerators new)) (rd_Accelerators usage)) p) n
            = accelerators_of (rd_Accelerators new) p n + accelerators_of (rd_Accelerators usage) p n)%Z as Ha.
  { intros p' n'. rewrite !addAccelerators_amount. unfold total_at, amount_at. rewrite lookup_empty. cbn.
    rewrite lookup_empty. cbn. lia. }
  destruct replaced as [r|]; [|apply Ha].
  rewrite subtractAccelerators_amount by (by apply Hr). rewrite !Ha. apply decide_ext.
  rewrite !addAccelerators_names. unfold total_at. rewrite lookup_empty. cbn. rewrite lookup_empty.
  unfold names_accelerator. setoid_rewrite elem_of_app. rewrite is_Some_alt. naive_solver.
Qed.

Lemma quotaMessage_fits new usage replaced limits :
  has_all new -> (forall r, replaced = Some r -> length (rd_Accelerators r) <= 1) ->
  quotaMessage (calculateResources new usage replaced) limits = "" <-> fits new usage replaced limits.
Proof.
  intros (Hc & Hm & Hs) Hr. destruct (calculate_fields new usage replaced) as (Ec & Em & Es & totals & Ea & Et).
  unfold quotaMessage, fits. rewrite !string_app_empty, !exceedsMessage_empty, Ec, Em, Es, Ea,
    acceleratorExceedsQuotaMessage_empty, !onBoth_amounts by done. subst totals.
  setoid_rewrite calculated_accelerators; [|done..]. setoid_rewrite elem_of_set_list. setoid_rewrite elem_of_dom.
  split; intros (H1 & H2 & H3 & H4); (split_and!; [done..|]).
  - intros limit name l Hl Hn. specialize (H4 limit Hl name ltac:(by eexists)). unfold amount_at in H4. by rewrite Hn in H4.
  - intros limit Hl name [l Hn]. unfold amount_at. rewrite Hn. by eapply H4.
Qed.
End calculation.
