(* ===== verification/QuotaEndpoints.v ===== *)
(** The endpoints of resource quotas as a whole: what each request does, that
    accelerator accounting stays switched on, and when a calculation finds a
    quota exceeded. *)
From S2P Require Export QuotaSums.
From stdpp Require Import pretty.

(** ** What the provider promises *)

Section quota_contract.
Context {W : Type} {EL : ErrorLib} {P : SDK} {QS : QuotaSDK} {API : KubeAPI W} {ST : Store W}.
Implicit Types w : W.

(** The quotas whose labels name the subject. *)
Definition quota_of w (name kind : string) (q : ResourceQuota) : Prop :=
  stored KResourceQuota w q /\
  meta_Labels (quota_meta q) !! ResourceQuotaSubjectNameLabelKey = Some name /\
  meta_Labels (quota_meta q) !! ResourceQuotaSubjectKindLabelKey = Some kind.
#[export] Instance quota_of_proper : Proper (same_store ==> eq ==> eq ==> eq ==> iff) quota_of.
Proof. intros w w' Hw n ? <- k ? <- q ? <-. unfold quota_of. by rewrite Hw. Qed.
End quota_contract.

Class ResourceQuotaProviderLaws (W : Type) {EL : ErrorLib} {QS : QuotaSDK} {ST : Store W}
    {QUOTAS : ResourceQuotaProvider W} : Prop := {
  quotas_GetUnsecured_spec name w :
    runs (quotas_GetUnsecured name) w (fun r w' => same_store w w' /\
      match r with Ok q => view KResourceQuota w !! ("", name) = Some q | Err _ => True | Panic => False end);
  quotas_Get_spec ui name kind w :
    runs (quotas_Get (Some ui) name kind) w (fun r w' => same_store w w' /\
      match r with
      | Ok (Some q) => quota_of w name kind q /\ authorized w (as_user ui) VGet KResourceQuota (key_of KResourceQuota q)
      | Ok None => forall q, ~ quota_of w name kind q
      | Err _ => True
      | Panic => False
      end);
  quotas_ListUnsecured_spec set w :
    runs (quotas_ListUnsecured set) w (fun r w' => same_store w w' /\
      match r with
      | Ok l => forall q, q ∈ l <-> stored KResourceQuota w q /\ set ⊆ meta_Labels (quota_meta q)
      | Err _ => True
      | Panic => False
      end);
  quotas_CreateUnsecured_spec subject quota w :
    runs (quotas_CreateUnsecured subject quota) w (fun r w' =>
      match r with
      | Ok _ => exists q, created KResourceQuota w w' q /\
          strip KResourceQuota q = strip KResourceQuota
            (MkResourceQuota (metaNamed (buildNameFromSubject subject)) subject quota noQuotaStatus)
      | Err _ => same_store w w'
      | Panic => False
      end);
  quotas_PatchUnsecured_spec old new w :
    view KResourceQuota w !! key_of KResourceQuota new = Some old ->
    runs (quotas_PatchUnsecured old new) w (fun r w' =>
      match r with
      | Ok _ => exists q, updated KResourceQuota w w' q /\ strip KResourceQuota q = strip KResourceQuota new
      | Err _ => same_store w w'
      | Panic => False
      end);
  quotas_DeleteUnsecured_spec name w :
    runs (quotas_DeleteUnsecured name) w (fun r w' =>
      match r with
      | Ok _ => deleted KResourceQuota w w' ("", name)
      | Err _ => same_store w w'
      | Panic => False
      end) }.

Section quota_provider_proofs.
Context {W : Type} {EL : ErrorLib} {P : SDK} {PL : SDKLaws P} {QS : QuotaSDK} {QSL : QuotaSDKLaws QS}
        {API : KubeAPI W} {ST : Store W} {LAWS : KubeAPILaws W}.
Implicit Types w : W.

Lemma quota_Get_law ui name kind w :
  runs (ResourceQuotaProvider_Get (Some ui) name kind) w (fun r w' => same_store w w' /\
    match r with
    | Ok (Some q) => quota_of w name kind q /\ authorized w (as_user ui) VGet KResourceQuota (key_of KResourceQuota q)
    | Ok None => forall q, ~ quota_of w name kind q
    | Err _ => True
    | Panic => False
    end).
Proof.
  unfold ResourceQuotaProvider_Get.
  plain_call (createImpersonationClientWrapperFromUserInfo_spec ui). intros r w1 [Hs Hc].
  destruct r as [c|e|]; cbn [andThen]; [|done|done]. subst c.
  do 3 runs_step. destruct (labels_NewRequirement_Equals ResourceQuotaSubjectNameLabelKey name) as [s1|e|] eqn:E1;
    [|done|by apply labels_NewRequirement_Equals_panic in E1].
  apply labels_NewRequirement_Equals_ok in E1 as ->. cbn [andThen]. do 3 runs_step.
  destruct (labels_NewRequirement_Equals ResourceQuotaSubjectKindLabelKey kind) as [s2|e|] eqn:E2;
    [|done|by apply labels_NewRequirement_Equals_panic in E2].
  apply labels_NewRequirement_Equals_ok in E2 as ->. cbn [andThen].
  runs_call (klist_spec KResourceQuota). destruct Hcall as [Hs' Hl].
  destruct r as [l|e|]; cbn [andThen]; [|by split; [etrans|]|done].
  assert (forall q, q ∈ l <-> quota_of w name kind q) as Hin.
  { intros q. rewrite (elem_of_listed KResourceQuota _ _ _ _ Hl). cbn [matches forallb obj_meta].
    rewrite !andb_true_iff, !bool_decide_eq_true. rewrite Hs. unfold quota_of, stored. tauto. }
  assert (same_store w w0) as Hs0 by (by etrans).
  destruct l as [|q l]; [runs_step; split; [done|]; intros q Hq%Hin; by apply elem_of_nil in Hq|].
  runs_call (kget_spec KResourceQuota). destruct Hcall as [Hs2 Hq].
  destruct r as [q'|e|]; cbn [andThen]; [|by split; [etrans|]|done]. runs_step. split; [by etrans|].
  split; [apply Hin; left|]. rewrite Hs0. apply Hq.
Qed.

#[export] Instance eeResourceQuotaProvider_laws : ResourceQuotaProviderLaws W.
Proof.
  split; cbn [quotas_GetUnsecured quotas_Get quotas_ListUnsecured quotas_CreateUnsecured quotas_PatchUnsecured
    quotas_DeleteUnsecured eeResourceQuotaProvider].
  - intros name w. eapply runs_mono; [apply (kget_spec KResourceQuota)|]. cbn beta. intros [q|e|] w'; naive_solver.
  - apply quota_Get_law.
  - intros set w. eapply runs_mono; [apply (klist_spec KResourceQuota)|]. cbn beta. intros [l|e|] w' [Hs Hl]; [|done|done].
    split; [done|]. intros q. rewrite (elem_of_listed KResourceQuota _ _ _ _ Hl), SelectorFromSet_matches, bool_decide_eq_true.
    cbn [obj_meta]. unfold stored. tauto.
  - intros subject quota w. unfold ResourceQuotaProvider_CreateUnsecured. runs_call (kcreate_spec KResourceQuota).
    destruct r as [q|e|]; cbn [andThen]; [|apply Hcall|done]. runs_step. exists q. tauto.
  - intros old new w Hold. unfold ResourceQuotaProvider_PatchUnsecured. runs_call (kpatch_spec KResourceQuota).
    destruct r as [q|e|]; cbn [andThen]; [|done|done]. runs_step. exists q.
    destruct Hcall as (_ & _ & Hup & Hst). split; [done|]. by eapply Hst.
  - intros name w. unfold ResourceQuotaProvider_DeleteUnsecured, ResourceQuotaProvider_GetUnsecured.
    runs_call (kget_spec KResourceQuota). destruct Hcall as [Hs Hq]. destruct r as [q|e|]; cbn [andThen]; [|done|done].
    destruct Hq as [Hq _]. rewrite (view_key KResourceQuota _ _ _ Hq).
    eapply runs_mono; [apply (kdelete_spec KResourceQuota)|]. cbn beta.
    intros [[]|e|] w2; [intros [_ Hd]|by intros; etrans|done]. by rewrite Hs.
Qed.
End quota_provider_proofs.

(** ** All requests *)

Inductive QuotaRequest :=
| GetQuota (name : string)
| ListQuotas (req : listResourceQuotasReq)
| CreateQuota (req : createResourceQuotaReq)
| PutQuota (req : putResourceQuotaReq)
| DeleteQuota (name : string)
| GetProjectQuota (projectID : string)
| CalculateQuota (req : calculateQuotaReq).

Inductive QuotaAnswer :=
| QuotaAnswer1 (q : ApiResourceQuota)
| QuotasAnswer (l : list ApiResourceQuota)
| QuotaDone
| ProjectQuotaAnswer (q : option ApiResourceQuota)
| CalculationAnswer (c : option ResourceQuotaUpdateCalculation).

Section serve_quotas.
Context {W : Type} {EL : ErrorLib} {P : SDK} {Q : Quantities} {R : MapRange} {N : NodeCapacities} {FP : FloatPlatform}
        {QS : QuotaSDK} {QUOTAS : ResourceQuotaProvider W}
        {PROJECTS : ProjectProvider W} {PPROJECTS : PrivilegedProjectProvider W}.
Variable userInfoGetter : UserInfoGetter W.

Definition serve_quota (call : Ctx * QuotaRequest) : M W error QuotaAnswer :=
  let '(ctx, req) := call in
  match req with
  | GetQuota name => q ← GetResourceQuotaEndpoint userInfoGetter ctx name; mret (QuotaAnswer1 q)
  | ListQuotas req => l ← ListResourceQuotasEndpoint userInfoGetter ctx req; mret (QuotasAnswer l)
  | CreateQuota req => _ ← CreateResourceQuotaEndpoint userInfoGetter ctx req; mret QuotaDone
  | PutQuota req => _ ← PutResourceQuotaEndpoint userInfoGetter ctx req; mret QuotaDone
  | DeleteQuota name => _ ← DeleteResourceQuotaEndpoint userInfoGetter ctx name; mret QuotaDone
  | GetProjectQuota pid => q ← GetForProjectEndpoint userInfoGetter ctx pid; mret (ProjectQuotaAnswer q)
  | CalculateQuota req => c ← CalculateProjectQuotaUpdateEndpoint userInfoGetter ctx req; mret (CalculationAnswer c)
  end.

(** The world after the requests, whatever their answers are. *)
Fixpoint serve_quotas (calls : list (Ctx * QuotaRequest)) (w : W) : W :=
  match calls with
  | [] => w
  | call :: calls => serve_quotas calls (serve_quota call w).2
  end.
End serve_quotas.

(** ** What a request does *)

Section quota_effects.
Context {W : Type} {EL : ErrorLib} {ELL : ErrorLibLaws EL} {P : SDK}
        {Q : Quantities} {QL : QuantitiesLaws Q} {R : MapRange} {RL : MapRangeLaws R}
        {N : NodeCapacities} {NL : NodeCapacitiesLaws N} {FP : FloatPlatform}
        {QS : QuotaSDK} {QSL : QuotaSDKLaws QS} {API : KubeAPI W} {ST : Store W} {LAWS : KubeAPILaws W}
        {QUOTAS : ResourceQuotaProvider W} {QPL : ResourceQuotaProviderLaws W}
        {PROJECTS : ProjectProvider W} {PPROJECTS : PrivilegedProjectProvider W} {MAPPER : ProjectMemberMapper W}
        {MAPL : ProjectMemberMapperLaws W} {PRL : ProjectProviderLaws W} {PPL : PrivilegedProjectProviderLaws W}.
Implicit Types w : W.

(** The quota [q] as an update with [body] leaves it; [crd] is what the body says. *)
Definition quota_put (body : ApiQuota) (crd : ResourceDetails) (q q' : ResourceQuota) : Prop :=
  quota_Subject q' = quota_Subject q /\
  quota_Quota q' = MkResourceDetails (rd_CPU crd) (rd_Memory crd) (rd_Storage crd)
    (match apiquota_Accelerators body with Some _ => rd_Accelerators crd | None => rd_Accelerators (quota_Quota q) end) /\
  meta_Labels (quota_meta q') = delete DefaultProjectResourceQuotaLabel (meta_Labels (quota_meta q)) /\
  meta_Annotations (quota_meta q') =
    (if decide (apiquota_EnableAcceleratorAccounting body = Some true)
     then <[AcceleratorAccountingEnabledAnnotation := AcceleratorAccountingEnabledAnnotationValue]> (meta_Annotations (quota_meta q))
     else meta_Annotations (quota_meta q)).

(** When the update may do so to the accounting. *)
Definition accounting_allowed (body : ApiQuota) (q q' : ResourceQuota) : Prop :=
  match apiquota_EnableAcceleratorAccounting body with
  | None => True
  | Some false => isAcceleratorAccountingEnabled q = false
  | Some true => isAcceleratorAccountingEnabled q = true \/
      isDefaultProjectResourceQuota q = false /\ rd_Accelerators (quota_Quota q') = []
  end.

(** The quota has the subject that the list asks for, if it asks for one. *)
Definition listed_by (req : listResourceQuotasReq) (q : ResourceQuota) : Prop :=
  (listquotas_SubjectName req <> "" ->
     meta_Labels (quota_meta q) !! ResourceQuotaSubjectNameLabelKey = Some (listquotas_SubjectName req)) /\
  (listquotas_SubjectKind req <> "" ->
     meta_Labels (quota_meta q) !! ResourceQuotaSubjectKindLabelKey = Some (listquotas_SubjectKind req)).

(** What a successful request did, and who may have made it. *)
Definition quota_effect w (call : Ctx * QuotaRequest) (a : QuotaAnswer) w' : Prop :=
  let '(ctx, req) := call in
  match req with
  | GetQuota name => by_admin ctx /\ same_store w w' /\
      exists q human, view KResourceQuota w !! ("", name) = Some q /\ a = QuotaAnswer1 (convertToAPIStruct q human)
  | ListQuotas req => by_admin ctx /\ same_store w w' /\
      exists l, (forall q, q ∈ l <-> stored KResourceQuota w q /\ listed_by req q) /\
        if listquotas_Accumulate req then a = QuotasAnswer [accumulateQuotas l]
        else exists human, a = QuotasAnswer ((fun q => convertToAPIStruct q (human q)) <$> l)
  | CreateQuota req => by_admin ctx /\
      exists crd q, ConvertToCRDQuota (createquota_Quota req) = Ok crd /\
        apiquota_EnableAcceleratorAccounting (createquota_Quota req) <> Some true /\
        createquota_SubjectName req <> "" /\ createquota_SubjectKind req <> "" /\
        created KResourceQuota w w' q /\
        strip KResourceQuota q = strip KResourceQuota
          (let subject := MkQuotaSubject (createquota_SubjectName req) (createquota_SubjectKind req) in
           MkResourceQuota (metaNamed (buildNameFromSubject subject)) subject crd noQuotaStatus)
  | PutQuota req => by_admin ctx /\
      exists crd q q', ConvertToCRDQuota (putquota_Body req) = Ok crd /\
        view KResourceQuota w !! ("", putquota_Name req) = Some q /\
        updated KResourceQuota w w' q' /\ key_of KResourceQuota q' = ("", putquota_Name req) /\
        quota_put (putquota_Body req) crd q q' /\ accounting_allowed (putquota_Body req) q q'
  | DeleteQuota name => by_admin ctx /\ deleted KResourceQuota w w' ("", name)
  | GetProjectQuota pid | CalculateQuota {| calcreq_ProjectID := pid |} => same_store w w' /\
      exists user, ctx_UserCR ctx = Some user /\ permitted w user pid VGet KProject ("", pid)
  end.

Lemma adminsOnly_spec {A} ctx (m : M W error A) w (Q' : result error A -> W -> Prop) :
  (forall e w', same_store w w' -> Q' (Err e) w') ->
  (forall w', same_store w w' -> by_admin ctx -> runs m w' Q') ->
  runs (adminsOnly UserInfoGetterFactory ctx m) w Q'.
Proof.
  intros He Hm. unfold adminsOnly. runs_call UserInfoGetterFactory_spec. destruct Hcall as [Hs Hi].
  destruct r as [ui|e|]; cbn [andThen]; [|by apply He|done].
  destruct Hi as (user & Hu & _ & _ & Ha & _). runs_guard; [by apply He|].
  apply negb_false_iff in H. apply Hm; [done|]. exists user. by rewrite <- Ha.
Qed.

Lemma GetResourceQuota_spec name w :
  runs (GetResourceQuota name) w (fun r w' => same_store w w' /\
    match r with
    | Ok a => exists q human, view KResourceQuota w !! ("", name) = Some q /\ a = convertToAPIStruct q human
    | Err _ => True
    | Panic => False
    end).
Proof.
  unfold GetResourceQuota. do 2 runs_step. eapply runs_mono; [apply quotas_GetUnsecured_spec|]. cbn beta.
  intros r w1 [Hs Hq]. destruct r as [q|e|]; cbn [andThen]; [|done|done].
  case_bool_decide; [|do 3 runs_step; split; [done|]; by exists q, ""].
  do 2 runs_step. eapply httpErr_spec; [apply projects_GetUnsecured_spec|]. cbn beta.
  intros [p|e|] w2 [Hs' Hp]; cbn [andThen]; [|by split; [etrans|]|done].
  do 2 runs_step. cbn [andThen]. runs_step. split; [by etrans|]. by exists q, (project_Name p).
Qed.

Lemma list_labels req q :
  let labelSet : gmap string string :=
    if is_empty (listquotas_SubjectKind req) then ∅
    else {[ ResourceQuotaSubjectKindLabelKey := listquotas_SubjectKind req ]} in
  (if is_empty (listquotas_SubjectName req) then labelSet
   else <[ResourceQuotaSubjectNameLabelKey := listquotas_SubjectName req]> labelSet) ⊆ meta_Labels (quota_meta q) <->
  listed_by req q.
Proof.
  cbn zeta. unfold listed_by.
  assert (forall i x (m m' : gmap string string), m !! i = None -> <[i := x]> m ⊆ m' <-> m' !! i = Some x /\ m ⊆ m') as Hins.
  { intros i x m m' Hi. split; [|intros []; by apply insert_subseteq_l]. intros H. split.
    - eapply lookup_weaken; [apply lookup_insert_eq|exact H].
    - etrans; [by apply insert_subseteq|exact H]. }
  assert (forall m : gmap string string, ∅ ⊆ m) as Hempty by apply map_empty_subseteq.
  pose proof subject_labels_distinct as Hne.
  destruct (is_empty (listquotas_SubjectKind req)) eqn:E1, (is_empty (listquotas_SubjectName req)) eqn:E2;
    rewrite ?is_empty_spec, ?is_empty_false in E1; rewrite ?is_empty_spec, ?is_empty_false in E2;
    unfold singletonM, map_singleton; rewrite ?Hins by (try apply lookup_insert_ne; by rewrite ?lookup_insert_ne by done); naive_solver.
Qed.

Lemma ListResourceQuotas_spec req w :
  runs (ListResourceQuotas req) w (fun r w' => same_store w w' /\
    match r with
    | Ok a => exists l, (forall q, q ∈ l <-> stored KResourceQuota w q /\ listed_by req q) /\
        if listquotas_Accumulate req then a = [accumulateQuotas l]
        else exists human, a = (fun q => convertToAPIStruct q (human q)) <$> l
    | Err _ => True
    | Panic => False
    end).
Proof.
  unfold ListResourceQuotas. cbn zeta. plain_call quotas_ListUnsecured_spec. intros r w1 [Hs Hl].
  destruct r as [l|e|]; cbn [andThen]; [|done|done]. setoid_rewrite list_labels in Hl.
  destruct (listquotas_Accumulate req); [runs_step; split; [done|]; by exists l|].
  http_call projects_List_spec. intros [ps|e|] w2 [Hs' Hps]; cbn [andThen]; [|by split; [etrans|]|done].
  runs_step. split; [by etrans|]. exists l. split; [done|]. by eexists.
Qed.

Lemma CreateResourceQuota_spec req w :
  runs (CreateResourceQuota req) w (fun r w' =>
    match r with
    | Ok _ => exists crd q, ConvertToCRDQuota (createquota_Quota req) = Ok crd /\
        apiquota_EnableAcceleratorAccounting (createquota_Quota req) <> Some true /\
        createquota_SubjectName req <> "" /\ createquota_SubjectKind req <> "" /\
        created KResourceQuota w w' q /\
        strip KResourceQuota q = strip KResourceQuota
          (let subject := MkQuotaSubject (createquota_SubjectName req) (createquota_SubjectKind req) in
           MkResourceQuota (metaNamed (buildNameFromSubject subject)) subject crd noQuotaStatus)
    | Err _ => same_store w w'
    | Panic => False
    end).
Proof.
  unfold CreateResourceQuota.
  assert (createResourceQuotaReq_Validate req <> Panic) as Hv.
  { unfold createResourceQuotaReq_Validate. repeat case_match; done. }
  runs_call (validRequest_spec _ w Hv). destruct Hcall as [-> Hr].
  destruct r as [[]|e|]; cbn [andThen]; [|done|done].
  do 3 runs_step. destruct (ConvertToCRDQuota _) as [crd|e|] eqn:Ec; cbn [andThen];
    [|done|by apply ConvertToCRDQuota_no_panic in Ec].
  runs_step. eapply runs_mono; [apply quotas_CreateUnsecured_spec|]. cbn beta.
  intros [[]|e|] w' H; [|done|done]. destruct H as (q & Hq & Hst). exists crd, q.
  unfold createResourceQuotaReq_Validate in Hr.
  destruct (is_empty (createquota_SubjectName req)) eqn:E1; [done|].
  destruct (is_empty (createquota_SubjectKind req)) eqn:E2; [done|].
  apply is_empty_false in E1, E2. split_and!; try done.
  by destruct (apiquota_EnableAcceleratorAccounting _) as [[]|].
Qed.

Lemma applyAcceleratorAccounting_spec body q q' :
  quota_meta q' = quota_meta (without_default_label q) ->
  match applyAcceleratorAccounting body q q' with
  | Ok q1 => quota_Subject q1 = quota_Subject q' /\ quota_Quota q1 = quota_Quota q' /\
      key_of KResourceQuota q1 = key_of KResourceQuota q' /\
      meta_Labels (quota_meta q1) = meta_Labels (quota_meta q') /\
      meta_Annotations (quota_meta q1) =
        (if decide (apiquota_EnableAcceleratorAccounting body = Some true)
         then <[AcceleratorAccountingEnabledAnnotation := AcceleratorAccountingEnabledAnnotationValue]> (meta_Annotations (quota_meta q))
         else meta_Annotations (quota_meta q)) /\
      accounting_allowed body q q1
  | Err _ => True
  | Panic => False
  end.
Proof.
  intros Hm. assert (meta_Annotations (quota_meta q') = meta_Annotations (quota_meta q)) as Ha by (by rewrite Hm).
  unfold applyAcceleratorAccounting, accounting_allowed.
  destruct (apiquota_EnableAcceleratorAccounting body) as [[]|]; cbn [negb]; [| |by split_and!].
  - rewrite decide_True by done. destruct (isAcceleratorAccountingEnabled q) eqn:E.
    + split_and!; try done; [|by left]. rewrite Ha, insert_id; [done|].
      unfold isAcceleratorAccountingEnabled in E. apply bool_decide_eq_true in E.
      destruct (meta_Annotations (quota_meta q) !! AcceleratorAccountingEnabledAnnotation) as [x|]; cbn in E; [by rewrite E|].
      by destruct AccountingValue_nonempty.
    + destruct (isDefaultProjectResourceQuota q) eqn:E'; [done|].
      destruct (rd_Accelerators (quota_Quota q')) as [|x l] eqn:El; cbn; [|done].
      split_and!; [done..|by rewrite Ha|]. right. by split.
  - rewrite decide_False by done. by destruct (isAcceleratorAccountingEnabled q).
Qed.

Lemma PutResourceQuota_spec req w :
  runs (PutResourceQuota req) w (fun r w' =>
    match r with
    | Ok _ => exists crd q q', ConvertToCRDQuota (putquota_Body req) = Ok crd /\
        view KResourceQuota w !! ("", putquota_Name req) = Some q /\
        updated KResourceQuota w w' q' /\ key_of KResourceQuota q' = ("", putquota_Name req) /\
        quota_put (putquota_Body req) crd q q' /\ accounting_allowed (putquota_Body req) q q'
    | Err _ => same_store w w'
    | Panic => False
    end).
Proof.
  unfold PutResourceQuota. do 2 runs_step. eapply runs_mono; [apply quotas_GetUnsecured_spec|]. cbn beta.
  intros r w1 [Hs Hq]. destruct r as [q|e|]; cbn [andThen]; [|done|done].
  do 3 runs_step. destruct (ConvertToCRDQuota _) as [crd|e|] eqn:Ec; cbn [andThen];
    [|done|by apply ConvertToCRDQuota_no_panic in Ec].
  cbn zeta. set (d := match apiquota_Accelerators _ with Some _ => _ | None => _ end).
  do 2 runs_step. pose proof (applyAcceleratorAccounting_spec (putquota_Body req) q
    (quota_with_quota d (without_default_label q)) eq_refl) as Ha.
  destruct (applyAcceleratorAccounting _ _ _) as [q1|e|]; cbn [andThen]; [|done|done].
  destruct Ha as (Hsub & Hd & Hk & Hl & Han & Hal).
  assert (key_of KResourceQuota q1 = ("", putquota_Name req)) as Hk1.
  { rewrite Hk, <- (view_key KResourceQuota _ _ _ Hq). done. }
  runs_step. eapply runs_mono; [apply quotas_PatchUnsecured_spec; by rewrite Hk1, <- Hs|]. cbn beta.
  intros [[]|e|] w2 H; [|by etrans|done]. destruct H as (q' & Hup & Hst). rewrite <- Hs in Hup.
  pose proof (strip_key _ _ _ Hst) as Hk'. apply strip_quota in Hst as (H1 & H2 & H3 & H4).
  exists crd, q, q'. split_and!; [done|done|done|by rewrite Hk'| |].
  - unfold quota_put. rewrite H1, H2, H3, H4, Hsub, Hd, Hl, Han. split_and!; [done| |done|done].
    unfold d. destruct (apiquota_Accelerators _); [by destruct crd|done].
  - unfold accounting_allowed in *. by rewrite H2.
Qed.

(** The quota that the endpoints of a project work with. *)
Lemma getProjectResourceQuota_spec ctx pid w :
  runs (getProjectResourceQuota UserInfoGetterFactory ctx pid) w (fun r w' => same_store w w' /\
    match r with
    | Ok (o, _) => exists user, ctx_UserCR ctx = Some user /\ permitted w user pid VGet KProject ("", pid) /\
        match o with
        | Some q => quota_of w pid (ToLower ProjectKindName) q /\
            exists ui, getter_info w user pid ui /\ authorized w (as_user ui) VGet KResourceQuota (key_of KResourceQuota q)
        | None => forall q, ~ quota_of w pid (ToLower ProjectKindName) q
        end
    | Err _ => True
    | Panic => False
    end).
Proof.
  unfold getProjectResourceQuota. runs_guard; [done|].
  http_call GetProject_spec. intros [p|e|] w1 [Hs Hp]; cbn [andThen]; [|done|done].
  destruct Hp as (user & Hu & Hv & _ & Hperm).
  assert (project_id p = pid) as Hid by (pose proof (view_key KProject _ _ _ Hv) as Hk; by injection Hk).
  plain_call UserInfoGetterFactory_spec. intros [ui|e|] w2 [Hs2 Hi]; cbn [andThen]; [|by split; [etrans|]|done].
  destruct Hi as (user' & Hu' & _ & Hi). rewrite Hid in *.
  assert (getter_info w user pid ui) as Hi'.
  { rewrite Hs. rewrite Hu in Hu'. by injection Hu' as <-. }
  assert (same_store w w2) as Hs' by (by etrans).
  http_call quotas_Get_spec. intros [o|e|] w3 [Hs3 Hq]; cbn [andThen]; [|by split; [etrans|]|done].
  runs_step. split; [by etrans|]. exists user. split; [done|]. split; [exact Hperm|].
  destruct o as [q|]; [|by setoid_rewrite Hs'].
  destruct Hq as [Hq Ha]. rewrite <- Hs' in Hq, Ha. split; [done|]. by exists ui.
Qed.

Lemma DeleteResourceQuota_spec name w :
  runs (DeleteResourceQuota name) w (fun r w' =>
    match r with
    | Ok _ => deleted KResourceQuota w w' ("", name)
    | Err _ => same_store w w'
    | Panic => False
    end).
Proof.
  unfold DeleteResourceQuota. runs_step. eapply runs_mono; [apply quotas_DeleteUnsecured_spec|]. cbn beta.
  by intros [[]|e|] w'.
Qed.

Lemma CalculateResourceQuotaUpdate_spec ctx req w :
  runs (CalculateResourceQuotaUpdateForProject UserInfoGetterFactory ctx req) w (fun r w' => same_store w w' /\
    match r with
    | Ok c => exists user, ctx_UserCR ctx = Some user /\
        permitted w user (calcreq_ProjectID req) VGet KProject ("", calcreq_ProjectID req) /\
        match c with
        | None => forall q, ~ quota_of w (calcreq_ProjectID req) (ToLower ProjectKindName) q
        | Some c => exists q ui new replaced name,
            quota_of w (calcreq_ProjectID req) (ToLower ProjectKindName) q /\
            getter_info w user (calcreq_ProjectID req) ui /\
            authorized w (as_user ui) VGet KResourceQuota (key_of KResourceQuota q) /\
            nodes_have (calcreq_Template req) (calcreq_Replicas req) new /\
            match calcreq_ReplacedResources req with
            | None => replaced = None
            | Some rr => exists d, replaced = Some d /\ nodes_have (replaced_Template rr) (replaced_Replicas rr) d
            end /\
            let calculated := calculateResources new (qstatus_GlobalUsage (quota_Status q)) replaced in
            c = MkCalculation (convertToAPIStruct q name) (ConvertToAPIQuota calculated) (quotaMessage calculated (quota_Quota q))
        end
    | Err _ => True
    | Panic => False
    end).
Proof.
  unfold CalculateResourceQuotaUpdateForProject. plain_call getProjectResourceQuota_spec. intros r w1 [Hs Hq].
  destruct r as [[o name]|e|]; cbn [andThen]; [|done|done]. destruct Hq as (user & Hu & Hp & Hq).
  destruct o as [q|]; [|runs_step; split; [done|]; by exists user]. destruct Hq as (Hq & ui & Hi & Ha).
  do 3 runs_step. pose proof (nodes_spec (calcreq_Template req) (calcreq_Replicas req)) as Hn.
  destruct (MapProviderNodeTmplToResourceDetails _ _) as [new|e|]; cbn [andThen]; [|done|done]. cbn in Hn.
  destruct (calcreq_ReplacedResources req) as [rr|].
  - do 4 runs_step. pose proof (nodes_spec (replaced_Template rr) (replaced_Replicas rr)) as Hn'.
    destruct (MapProviderNodeTmplToResourceDetails _ _) as [d|e|]; cbn [andThen]; [|done|done]. cbn in Hn'.
    runs_step. cbn [andThen]. runs_step. split; [done|]. exists user. split_and!; [done|done|].
    exists q, ui, new, (Some d), name. split_and!; try done. by exists d.
  - runs_step. runs_step. cbn [andThen]. runs_step. split; [done|]. exists user. split_and!; [done|done|].
    by exists q, ui, new, None, name.
Qed.

(** A request that only administrators may make, of which the handler has the
    effect [T]. *)
Lemma admin_request {A} ctx (m : M W error A) (f : A -> QuotaAnswer) req w (T : W -> A -> W -> Prop) :
  (forall w, runs m w (fun r w' =>
     match r with Ok a => T w a w' | Err _ => same_store w w' | Panic => False end)) ->
  (forall w0 a w', same_store w w0 -> T w0 a w' -> T w a w') ->
  (forall a w', by_admin ctx -> T w a w' -> quota_effect w (ctx, req) (f a) w') ->
  runs (a ← adminsOnly UserInfoGetterFactory ctx m; mret (f a)) w (fun r w' =>
    match r with Ok a => quota_effect w (ctx, req) a w' | Err _ => same_store w w' | Panic => False end).
Proof.
  intros Hm Hs Hf. apply runs_bind, adminsOnly_spec; [done|]. intros w1 Hw Ha.
  eapply runs_mono; [apply Hm|]. cbn beta. intros [a|e|] w2 H; cbn [andThen]; [|by etrans|done].
  runs_step. apply Hf; [done|]. by eapply Hs.
Qed.

Lemma serve_quota_effect call w :
  runs (serve_quota UserInfoGetterFactory call) w (fun r w' =>
    match r with
    | Ok a => quota_effect w call a w'
    | Err _ => same_store w w'
    | Panic => False
    end).
Proof.
  destruct call as [ctx [name|req|req|req|name|pid|req]]; cbn [serve_quota].
  - eapply (admin_request _ _ QuotaAnswer1); [intros w'; eapply runs_mono; [apply GetResourceQuota_spec|];
      cbn beta; intros [a|e|] w'' [Hs H]; [exact (conj Hs H)|done|done]| |].
    + intros w0 a w' Hs (Hs' & q & human & H & ->). rewrite <- Hs in H. split; [by etrans|]. by exists q, human.
    + intros a w' Ha (Hs & q & human & H & ->). split_and!; [done|done|]. by exists q, human.
  - eapply (admin_request _ _ QuotasAnswer); [intros w'; eapply runs_mono; [apply ListResourceQuotas_spec|];
      cbn beta; intros [a|e|] w'' [Hs H]; [exact (conj Hs H)|done|done]| |].
    + intros w0 a w' Hs (Hs' & l & Hl & H). split; [by etrans|]. exists l. by setoid_rewrite Hs.
    + intros a w' Ha (Hs & l & Hl & H). split_and!; [done|done|]. exists l. split; [done|].
      destruct (listquotas_Accumulate req); [by subst a|]. destruct H as [human ->]. by exists human.
  - eapply (admin_request _ _ (fun _ => QuotaDone)); [apply CreateResourceQuota_spec| |by intros].
    cbn beta. intros w0 _ w' Hs (crd & q & H). rewrite <- Hs in H. by exists crd, q.
  - eapply (admin_request _ _ (fun _ => QuotaDone)); [apply PutResourceQuota_spec| |by intros].
    cbn beta. intros w0 _ w' Hs (crd & q & q' & H). rewrite <- Hs in H. by exists crd, q, q'.
  - eapply (admin_request _ _ (fun _ => QuotaDone)); [apply DeleteResourceQuota_spec| |by intros].
    cbn beta. intros w0 _ w' Hs H. by rewrite <- Hs in H.
  - unfold GetForProjectEndpoint, GetResourceQuotaForProject. runs_step. plain_call getProjectResourceQuota_spec.
    intros [[o name]|e|] w2 [Hs H]; cbn [andThen]; [|done|done]. do 2 (runs_step; cbn [andThen]).
    destruct H as (user & Hu & Hp & _). split; [done|]. by exists user.
  - plain_call CalculateResourceQuotaUpdate_spec. intros [c|e|] w2 [Hs H]; cbn [andThen]; [|done|done]. runs_step.
    destruct H as (user & Hu & Hp & _). destruct req. split; [done|]. by exists user.
Qed.
End quota_effects.
