(* ===== verification/QuotaProperties.v ===== *)
(** What holds of the resource quotas over any sequence of requests, and the
    concrete quantities on which the witnesses are computed. *)
From S2P Require Export QuotaEndpoints Members Projects.
From stdpp Require Import pretty.
From Stdlib Require Import SpecFloat Ascii.

Section quota_properties.
Context {W : Type} {EL : ErrorLib} {ELL : ErrorLibLaws EL} {P : SDK}
        {Q : Quantities} {QL : QuantitiesLaws Q} {R : MapRange} {RL : MapRangeLaws R}
        {N : NodeCapacities} {NL : NodeCapacitiesLaws N} {FP : FloatPlatform}
        {QS : QuotaSDK} {QSL : QuotaSDKLaws QS} {API : KubeAPI W} {ST : Store W} {LAWS : KubeAPILaws W}
        {QUOTAS : ResourceQuotaProvider W} {QPL : ResourceQuotaProviderLaws W}
        {PROJECTS : ProjectProvider W} {PPROJECTS : PrivilegedProjectProvider W} {MAPPER : ProjectMemberMapper W}
        {MAPL : ProjectMemberMapperLaws W} {PRL : ProjectProviderLaws W} {PPL : PrivilegedProjectProviderLaws W}.
Implicit Types w : W.

(** The quota is there, and its accelerators are accounted. *)
Definition accounting w (name : string) : Prop :=
  exists q, view KResourceQuota w !! ("", name) = Some q /\ isAcceleratorAccountingEnabled q = true.
(** No default quota of a project has accounting. *)
Definition accounted_not_default w : Prop :=
  forall n q, view KResourceQuota w !! n = Some q -> isAcceleratorAccountingEnabled q = true ->
    isDefaultProjectResourceQuota q = false.

#[export] Instance accounting_proper : Proper (same_store ==> eq ==> iff) accounting.
Proof. intros w w' Hw n ? <-. unfold accounting. by setoid_rewrite Hw. Qed.
#[export] Instance accounted_not_default_proper : Proper (same_store ==> iff) accounted_not_default.
Proof. intros w w' Hw. unfold accounted_not_default. by setoid_rewrite Hw. Qed.

Lemma enabled_annotations q q' :
  meta_Annotations (quota_meta q') = meta_Annotations (quota_meta q) ->
  isAcceleratorAccountingEnabled q' = isAcceleratorAccountingEnabled q.
Proof. unfold isAcceleratorAccountingEnabled. by intros ->. Qed.

Lemma put_keeps_accounting body crd q q' :
  quota_put body crd q q' -> isAcceleratorAccountingEnabled q = true -> isAcceleratorAccountingEnabled q' = true.
Proof.
  intros (_ & _ & _ & Ha) Hq. destruct (decide _) as [E|E]; [|by rewrite (enabled_annotations q)].
  unfold isAcceleratorAccountingEnabled. rewrite Ha, lookup_insert_eq. by apply bool_decide_eq_true.
Qed.

Lemma put_not_default body crd q q' : quota_put body crd q q' -> isDefaultProjectResourceQuota q' = false.
Proof.
  intros (_ & _ & Hl & _). unfold isDefaultProjectResourceQuota. rewrite Hl, lookup_delete_eq. by apply bool_decide_eq_false.
Qed.

(** A new quota has no labels and no annotations. *)
Lemma new_not_accounted q name subject crd :
  strip KResourceQuota q = strip KResourceQuota (MkResourceQuota (metaNamed name) subject crd noQuotaStatus) ->
  isAcceleratorAccountingEnabled q = false.
Proof.
  intros (_ & _ & _ & Ha)%strip_quota. unfold isAcceleratorAccountingEnabled. rewrite Ha. cbn. rewrite lookup_empty.
  apply bool_decide_eq_false. intros H. by apply AccountingValue_nonempty.
Qed.

Lemma accounting_step call w n :
  accounting w n -> call.2 <> DeleteQuota n -> accounting (serve_quota UserInfoGetterFactory call w).2 n.
Proof.
  intros Hn Hcall. pose proof (serve_quota_effect call w) as H. unfold runs in H.
  destruct (serve_quota _ call w) as [[a|e|] w']; cbn [fst snd] in *; [|by rewrite <- H|done].
  destruct call as [ctx [name|req|req|req|name|pid|req]]; cbn [quota_effect snd] in *.
  - destruct H as (_ & Hs & _). by rewrite <- Hs.
  - destruct H as (_ & Hs & _). by rewrite <- Hs.
  - destruct H as (_ & crd & q & _ & _ & _ & _ & (Hnew & Hv & _) & _). destruct Hn as (q0 & Hq0 & He).
    exists q0. split; [|done]. rewrite Hv, lookup_insert_ne; [done|]. intros Hk. rewrite Hk in Hnew.
    discriminate (eq_trans (eq_sym Hnew) Hq0).
  - destruct H as (_ & crd & q & q' & _ & Hq & (_ & Hv & _) & Hk & Hput & _). destruct Hn as (q0 & Hq0 & He).
    destruct (decide (putquota_Name req = n)) as [<-|Hne].
    + exists q'. rewrite Hv, Hk, lookup_insert_eq. split; [done|]. rewrite Hq in Hq0. injection Hq0 as ->.
      by eapply put_keeps_accounting.
    + exists q0. rewrite Hv, Hk, lookup_insert_ne by congruence. done.
  - destruct H as (_ & Hkeep & _). destruct Hn as (q0 & Hq0 & He). exists q0. by rewrite Hkeep by congruence.
  - destruct H as (Hs & _). by rewrite <- Hs.
  - destruct req, H as (Hs & _). by rewrite <- Hs.
Qed.

Lemma not_default_step call w :
  accounted_not_default w -> accounted_not_default (serve_quota UserInfoGetterFactory call w).2.
Proof.
  intros Hw. pose proof (serve_quota_effect call w) as H. unfold runs in H.
  destruct (serve_quota _ call w) as [[a|e|] w']; cbn [fst snd] in *; [|by rewrite <- H|done].
  destruct call as [ctx [name|req|req|req|name|pid|req]]; cbn [quota_effect] in *.
  - destruct H as (_ & Hs & _). by rewrite <- Hs.
  - destruct H as (_ & Hs & _). by rewrite <- Hs.
  - destruct H as (_ & crd & q & _ & _ & _ & _ & (_ & Hv & _) & Hst). intros n x Hx He.
    rewrite Hv in Hx. apply lookup_insert_Some in Hx as [[_ <-]|[_ Hx]]; [|by eapply Hw].
    apply new_not_accounted in Hst. congruence.
  - destruct H as (_ & crd & q & q' & _ & Hq & (_ & Hv & _) & _ & Hput & _). intros n x Hx He.
    rewrite Hv in Hx. apply lookup_insert_Some in Hx as [[_ <-]|[_ Hx]]; [|by eapply Hw].
    by eapply put_not_default.
  - destruct H as (_ & Hkeep & _ & old & Hold & _ & Hleft). intros n x Hx He.
    destruct (decide (n = ("", name))) as [->|Hne]; [|rewrite Hkeep in Hx by done; by eapply Hw].
    pose proof (Hleft x Hx) as (_ & _ & Hl & Ha)%strip_quota. unfold isDefaultProjectResourceQuota. rewrite Hl.
    apply (Hw ("", name)); [done|]. by rewrite (enabled_annotations x).
  - destruct H as (Hs & _). by rewrite <- Hs.
  - destruct req, H as (Hs & _). by rewrite <- Hs.
Qed.


(** Accounting is irreversible: over any sequence of requests about quotas,
    whatever their answers are, a quota whose accelerators are accounted stays so
    until it is deleted, and no default quota ever gets accounting. *)
Theorem accounting_irreversible calls w :
  let w' := serve_quotas UserInfoGetterFactory calls w in
  (forall n, accounting w n -> (forall call, call ∈ calls -> call.2 <> DeleteQuota n) -> accounting w' n) /\
  (accounted_not_default w -> accounted_not_default w').
Proof.
  cbn zeta. revert w. induction calls as [|call calls IH]; intros w; [done|]. cbn [serve_quotas].
  destruct (IH (serve_quota UserInfoGetterFactory call w).2) as [IH1 IH2]. split.
  - intros n Hn Hcalls. apply IH1; [|set_solver]. apply accounting_step; [done|]. apply Hcalls. left.
  - intros Hw. by apply IH2, not_default_step.
Qed.

End quota_properties.

(** ** Concrete quantities, for the witnesses *)

#[local] Existing Instances refQuantities refQuantities_laws refRange refRange_laws.
#[local] Instance refPlatform : FloatPlatform := fun _ => (- 2 ^ 63)%Z.

Definition ref_units (v : Z) (unit : string) : result error Quantity :=
  match unit_bytes unit with
  | Some bytes => Ok (MkQuantity (v * bytes * nano) BinarySI)
  | None => Err (ENew "unit")
  end.
#[local] Instance refCapacities : NodeCapacities := {|
  NewNodeCapacity := MkNodeCapacity None None None;
  WithCPUCount n nc := MkNodeCapacity (Some (MkQuantity (n * nano) DecimalSI)) (nc_Memory nc) (nc_Storage nc);
  WithMemory v unit nc := q ← ref_units v unit; Ok (MkNodeCapacity (nc_CPUCores nc) (Some q) (nc_Storage nc));
  WithStorage v unit nc := q ← ref_units v unit; Ok (MkNodeCapacity (nc_CPUCores nc) (nc_Memory nc) (Some q));
  NewResourceDetails c m s := MkResourceDetails (Some c) (Some m) (Some s) [];
  KubevirtCloudProvider := "kubevirt" |}.
#[local] Instance refCapacities_laws : NodeCapacitiesLaws refCapacities.
Proof.
  split; cbn; intros; unfold ref_units.
  - eexists. split; [|reflexivity]. done.
  - rewrite H. eexists. split; [|reflexivity]. done.
  - rewrite H. eexists. split; [|reflexivity]. done.
  - done.
Qed.

#[local] Instance refQuotaSDK : QuotaSDK := {|
  ProjectSubjectKind := "project";
  ProjectKindName := "Project";
  ResourceQuotaSubjectNameLabelKey := "subject-name";
  ResourceQuotaSubjectKindLabelKey := "subject-kind";
  AcceleratorAccountingEnabledAnnotation := "accelerator-accounting";
  AcceleratorAccountingEnabledAnnotationValue := "true";
  labels_SelectorFromSet set := AllOf ((fun kv => LabelIs kv.1 kv.2) <$> map_to_list set) |}.
#[local] Instance refQuotaSDK_laws : QuotaSDKLaws refQuotaSDK.
Proof.
  split; [done|done|]. intros set m. apply eq_bool_prop_intro. cbn [labels_SelectorFromSet refQuotaSDK matches].
  rewrite bool_decide_spec, map_subseteq_spec. unfold Is_true. 
  destruct (forallb _ _) eqn:E.
  - split; [|done]. intros _ k v Hk. rewrite forallb_forall in E.
    assert (bool_decide (meta_Labels m !! k = Some v) = true) as H.
    { apply (E (LabelIs k v)), list_elem_of_In, list_elem_of_fmap. exists (k, v). split; [done|]. by apply elem_of_map_to_list. }
    by apply bool_decide_eq_true in H.
  - split; [done|]. intros H. rewrite <- not_true_iff_false in E. apply E. apply forallb_forall.
    intros s ([k v] & -> & Hk%elem_of_map_to_list)%list_elem_of_In%list_elem_of_fmap.
    cbn. apply bool_decide_eq_true. by apply H.
Qed.

(** Decimal quantities are read as binary ones, but for thousands: the suffix of
    a thousand is k, and the code looks for K. *)
Example decimal_read_as_binary :
  quantity_String <$> (TreatDecimalAsBinary <$> [MkQuantity (512 * 10 ^ 6 * nano) DecimalSI; MkQuantity (512 * 10 ^ 3 * nano) DecimalSI])
  = ["512Mi"; "512k"].
Proof. vm_compute. reflexivity. Qed.

Definition gibi (n : Z) : Quantity := MkQuantity (n * 2 ^ 30 * nano) BinarySI.
Definition cores (n : Z) : Quantity := MkQuantity (n * nano) DecimalSI.
Definition giga (n : Z) : Quantity := MkQuantity (n * 10 ^ 9 * nano) DecimalSI.

(** The quota of p1: 11.5 GiB of memory, of which two nodes of 4G are in use. *)
Definition quotaP1 : ResourceQuota :=
  MkResourceQuota (meta_with_labels {[ "subject-name" := "p1"; "subject-kind" := "project" ]} (metaNamed "project-p1"))
    (MkQuotaSubject "p1" "project")
    (MkResourceDetails (Some (cores 8)) (Some (MkQuantity (11776 * 2 ^ 20 * nano) BinarySI)) (Some (gibi 100)) [])
    (MkQuotaStatus (MkResourceDetails (Some (cores 4)) (Some (giga 8)) (Some (gibi 20)) []) noResources None).

Definition quotaWorld : Mem :=
  mem_of (fun k => match k return list (obj k) with
    | KUser => [alice; bob]
    | KProject => [project1]
    | KBinding => [bobBinding]
    | KResourceQuota => [quotaP1]
    | _ => [] end) 0 [] (fun cfg _ _ _ => bool_decide ("editors-p1" ∈ imp_Groups cfg)).

Definition kubevirtNode (cpus memory disk : string) : ProviderNodeTemplate :=
  MkNodeTemplate 0 None None None None None None None (Some (MkKubevirtNodeSize cpus memory disk [] ∅)) None None None None.

Definition scaleUp (replicas : Z) : calculateQuotaReq :=
  MkCalculateReq "p1" replicas (Some (MkReplacedResources 2 (kubevirtNode "2" "4G" "10"))) (kubevirtNode "2" "4G" "10").

Definition calculate (req : calculateQuotaReq) : result error (option ResourceQuotaUpdateCalculation) * Mem :=
  CalculateProjectQuotaUpdateEndpoint UserInfoGetterFactory bobCtx req quotaWorld.
Definition calculation_message (r : result error (option ResourceQuotaUpdateCalculation)) : option string :=
  match r with Ok (Some c) => Some (calc_Message c) | _ => None end.


(** A third node of 4G is found to fit into 11.5 GiB, since the requested nodes
    count as 12G; once they run they are counted as 12Gi, which does not fit. *)
Example decimal_memory_slips_through :
  calculation_message (calculate (scaleUp 3)).1 = Some "" /\
  quantity_String (TreatDecimalAsBinary (giga 12)) = "12Gi" /\
  (quantity_Cmp (TreatDecimalAsBinary (giga 12)) (MkQuantity (11776 * 2 ^ 20 * nano) BinarySI) = 1)%Z.
Proof. vm_compute. done. Qed.

(** The limit of a quota that was written with a decimal unit is shown as a binary
    one and compared as a decimal one. *)
Example decimal_limit_shown_as_binary :
  let limits := MkResourceDetails None (Some (giga 25)) None [] in
  apiquota_Memory (ConvertToAPIQuota limits) = Some (float64_of_int 25) /\
  quotaMessage (MkResourceDetails None (Some (gibi 25)) None []) limits =
    "Calculated memory (25Gi) exceeds resource quota (25G)" +:+ newline.
Proof. vm_compute. done. Qed.

(** Accounting is switched on, cannot be switched off, and survives an update. *)
Definition putBody (enable : option bool) : ApiQuota := MkApiQuota (Some 4%Z) None None None enable.
Definition switchedOn : Mem :=
  serve_quotas UserInfoGetterFactory [(aliceCtx, PutQuota (MkPutQuotaReq "project-p1" (putBody (Some true))))] quotaWorld.
Definition laterCalls : list (Ctx * QuotaRequest) :=
  [(aliceCtx, PutQuota (MkPutQuotaReq "project-p1" (putBody (Some false))));
   (aliceCtx, PutQuota (MkPutQuotaReq "project-p1" (putBody None)))].

Lemma accounting_irreversible_witness :
  accounting switchedOn "project-p1" /\ accounting (serve_quotas UserInfoGetterFactory laterCalls switchedOn) "project-p1".
Proof.
  assert (isAcceleratorAccountingEnabled <$> (view KResourceQuota switchedOn !! ("", "project-p1")) = Some true) as Ha
    by (vm_compute; reflexivity).
  assert (accounting switchedOn "project-p1") as H
    by (apply fmap_Some in Ha as (q & Hq & He); exists q; split; [exact Hq|symmetry; exact He]).
  split; [exact H|]. refine (proj1 (accounting_irreversible laterCalls switchedOn) "project-p1" H _).
  intros call Hc. unfold laterCalls in Hc. apply elem_of_cons in Hc as [->|Hc]; [discriminate|].
  apply list_elem_of_singleton in Hc as ->. discriminate.
Defined.

Definition newQuotaCall : Ctx * QuotaRequest :=
  (aliceCtx, CreateQuota (MkCreateQuotaReq "p2" "project" (putBody None))).

